(* ===== verification/_CoqProject ===== *)
-Q . S2P
Prelude.v
Struct.v
OfpMsg.v
Oxm.v
BebaProto.v
BebaMsg.v
BebaStats.v
PktUtils.v
PktHeaders.v
PktTransport.v
Packet.v
Ident.v
Lldp.v
OxmUser.v
OfpMatch.v
OfpActions.v
OfpInstr.v
OfpMessages.v
OfpStats.v
Controller.v
Ovs.v
Network.v
Tunnels.v
Bpdu.v
Stp.v
StpFacts.v
TopoStores.v
Topology.v
DpSet.v
Ipv6.v
VrrpPkt.v
VrrpRouter.v
VrrpElection.v
BgpPath.v
CircList.v
BgpRib.v
Lacp.v
