(* ===== verification/Prelude.v ===== *)
(** * The Beba controller: a verification development

    ** The program

    beba-ctrl is the Ryu OpenFlow controller extended with Beba, a protocol for
    stateful switches: a table of a switch keeps a state per flow key, and the
    controller configures key extractors, sets states with timeouts, defines
    packet templates and reads the state tables back.  The parts modelled here are

    - the Beba extension (src/ryu/ofproto/beba_v1_0.py, beba_v1_0_parser.py): the
      builders of experimenter actions, instructions and messages, the parsers of
      the state statistics replies, the text of state keys, the helpers for masked
      global states and sub-states, and the wrapper that rewrites the messages for
      switches that run Open vSwitch;
    - OpenFlow 1.3 (ofproto_parser.py, ofproto_v1_3_parser.py): the message base,
      matches with both programming interfaces, actions, instructions, flow, group
      and meter modifications, the symmetric, asynchronous and configuration
      messages and the statistics, with the match fields of oxx_fields.py,
      oxm_fields.py, type_desc.py and nx_match.py;
    - the connection to a switch (src/ryu/controller: controller.py,
      ofp_handler.py, dpset.py): framing of the byte stream, version negotiation,
      the handshake, the send queue, and the set of connected switches;
    - the packet library (src/ryu/lib/packet): checksums, the link, network and
      transport headers, LLDP, BPDUs, VRRP, LACP, and whole packets;
    - protocols that run on it: the spanning tree (src/ryu/lib/stplib.py), topology
      discovery (src/ryu/topology/switches.py), link aggregation
      (src/ryu/lib/lacplib.py), the virtual router
      (src/ryu/services/protocols/vrrp) and the best path selection, routing table
      and processor of the BGP speaker (src/ryu/services/protocols/bgp);
    - the stores of the controller (network.py, mac_to_port.py,
      mac_to_network.py, tunnels.py).

    The message builders use the struct helpers and the OpenFlow classes; the
    connection cuts a byte stream into messages, which the message parsers read; the
    statistics parsers depend on the lookup scope that the key extractor message
    records; the protocols build and read packets with the packet library, and the
    topology sends its probes as packet-out messages.

    ** Files

    - Prelude: exceptions, the result type [res] of an expression and the state
      monad [stm] of a method (what was written before an exception stays
      written), invariants of methods ([safe]), loops, integer lemmas, tactics
      ([inv_ok], [zcmp], [stm_unfold]).
    - Struct: Python's struct module on lists of bytes: format strings are parsed
      as the module parses them, [pack] refuses values outside their width, and
      [unpack_from_pack] is the round trip that every codec below rests on.
    - OfpMsg, OfpMatch, OfpActions, OfpInstr, OfpMessages, OfpStats: OpenFlow 1.3.
    - Oxm, OxmUser: the match fields on the wire and the values a user gives.
    - BebaProto, BebaMsg, BebaStats, Ovs: the Beba extension; its constants and
      size assertions, the builders, the replies and the translation for OVS.
    - Controller, DpSet, Ident: the connection and the handshake, the set of
      switches, and the conversion of identifiers (src/ryu/lib/dpid.py,
      port_no.py).
    - PktUtils, PktHeaders, PktTransport, Packet: packet_utils.py; ethernet, vlan,
      pbb, mpls, arp, ipv4 and the registry of packet_base.py; udp, icmp, tcp; the
      Packet class.  Lldp, Bpdu, Ipv6, VrrpPkt: a header each.
    - Stp, StpFacts: the bridge, its ports and the application of stplib.py; what
      the operations do, the invariant and the claims.
    - TopoStores, Topology: the ordered stores of switches.py (ports, port data,
      links) and the discovery with its two threads.
    - VrrpRouter, VrrpElection: the virtual router and the monitor of its
      interface; the invariant, the election among several routers.
    - BgpPath, CircList, BgpRib: the rules by which paths are compared and the order
      behind them; the circular list of the processor's queue; destinations, table
      and processor.
    - Lacp: LACP packets and the library that answers them for bonding interfaces.
    - Network, Tunnels: the stores.

    Each file has one Module or Section per component and ends with a Module of
    claims; the comments of the claims number them C1 to C40.

    ** Interfaces

    The claims of a client are proved against what it asks of the other component:
    [AddrConv] and [AddrConvLaws] (PktUtils) for the conversion of addresses,
    [Action] and [ActionLaws] (OfpMsg) for the elements of action lists, [Protocols]
    and [ProtocolsLaws] (Controller) for what a protocol version offers a connection,
    [DictOrder] and [DictOrderLaws] (Topology) for the iteration over dictionaries,
    [Queue] and [QueueLaws] (CircList) for the queue of the BGP processor.  Each has
    an instance with its laws.

    ** What the theorems show

    - Wire formats: builders and serializers produce the documented bytes or raise
      the exception the code raises; parsing what was serialized, followed by any
      bytes, gives the object back ([set_state_action_roundtrip],
      [flow_mod_roundtrip], [action_roundtrip], [stats_reply_roundtrip],
      [table_features_roundtrip], [match_kwargs_roundtrip], [ipv6_roundtrip], [vrrp_roundtrip], [tcp_roundtrip]); the old and the new
      interface of matches agree ([old_api_equivalence]).
    - Connections: whatever pieces the stream arrives in, the messages are those of
      the stream ([recv_refines_messages]); the negotiated version is the best
      common one ([hello_negotiation]); the handshake ends with a registered
      switch ([handshake_completes]); a closed connection leaves the set of
      switches consistent.
    - Protocols as state machines, over every sequence of events: the spanning tree
      ([spanning_tree_invariant], [roles_are_elected], [port_reaches_its_state]),
      discovery ([topology_invariant], [probe_discovers_link],
      [timed_out_links_deleted]), link aggregation ([slave_status_invariant],
      [lacp_exchange] from the bytes of a packet to those of its answer), the
      virtual router ([router_invariant],
      [masters_resolve], [backup_takes_over], [master_release], [timer_bounds]).
    - Refinement: the linked list of port data is a list with the code's order
      ([port_data_refines_list]), masked loads are an assignment of bits
      ([masked_loads_refine]), a BGP destination is the list of the last routes of
      its sources and its best path the first maximum of an order ([rib_refines],
      [best_path_is_first_maximum]), and the processor empties every queue that
      obeys the laws ([speaker_drains]).
    - Arithmetic: the internet checksum equals the one of RFC 1071 on hosts of
      either byte order; bounds of timers, timeouts and widths.
    - Termination: the parsers that end on every input are shown to; a TCP option of
      length zero is shown to keep the TCP parser running.
    - Defects are stated as theorems about the code as it is, such as a reply parser
      that reads out of step, a topology check that ends at its second expired
      link, or two BGP updates of one source that are both kept.

    ** Choices and bounds

    The code is Python 2: division of integers is floor division, comparison of a
    number with a text or None puts the lesser type first.  Dictionaries whose order
    does not matter are gmaps; where it is observed, the values are kept in iteration
    order, or the order is a parameter of the model ([DictOrder]) and
    the theorems hold for every order.  Objects that are mutated while they are shared
    are nodes of a store (port data, destinations, links of the circular list);
    objects compared by identity carry a number (paths of BGP).  Text addresses are
    strings converted by packages outside the repository, which are parameters.  The
    byte order of the host, on which the checksum depends, is a parameter too.

    Loops that are not structural have fuel; where a parser is said to return, the
    fuel is the number of bytes left, and every turn consumes at least one.  Intervals
    of BPDUs and of VRRP are exact rationals; the code computes them in floating point
    from multiples of 1/256 and of 1/100 of a second.

    A green thread is a flag or a timer; one turn of its loop is an operation, and an
    event is handled to its end before the next one.  Where the code can switch between
    threads inside a handler, the handler is not interleaved with another one; loops
    that sleep between their turns, such as the one that sends the probes of the
    discovery, are a step per turn.

    ** Not modelled

    Sockets, the event dispatch and loading of applications (ryu.base.app_manager);
    OpenFlow 1.0, 1.2, 1.4 and 1.5, whose messages repeat the structure of 1.3; the
    JSON form of messages; ICMPv6, DHCP, SCTP, IGMP, BFD, OSPF and BGP packets and the
    IGMP and BFD libraries; the peers, VRFs, filters and route target tables of
    the BGP speaker; OVSDB, NETCONF and OF-CONFIG clients; REST applications, the
    command line, the GUI and logging. *)

From Stdlib Require Import ZArith Lia.
From stdpp Require Import base list gmap strings numbers.

#[global] Open Scope Z_scope.

(** ** Exceptions and results *)

(** The exceptions the modelled code raises: the built-in ones it runs into
    and the ones of [ryu/exception.py] and of the modules that declare their
    own. *)
Inductive exn :=
  | StructError
  | ValueError
  | TypeError
  | IndexError
  | KeyError
  | AssertionError
  | AttributeError
  | ZeroDivisionError
  | GenericException
  | OFPUnknownVersion
  | NetworkNotFound
  | NetworkAlreadyExist
  | PortNotFound
  | PortAlreadyExist
  | PortUnknown
  | MacAddressAlreadyExist
  | MacAddressDuplicated
  | RemoteDPIDAlreadyExist
  | TunnelKeyAlreadyExist
  | TunnelKeyNotFound
  | UnboundLocalError
  | StopIteration
  | NotImplementedError
  | LLDPUnknownFormat
  | BgpProcessorError.

#[global] Instance exn_eq_dec : EqDecision exn.
Proof. solve_decision. Defined.

(** The outcome of a Python expression: a value or a raised exception. *)
Inductive res (A : Type) :=
  | Ok (a : A)
  | Err (e : exn).
Arguments Ok {A} a.
Arguments Err {A} e.

#[global] Instance res_ret : MRet res := @Ok.
#[global] Instance res_bind : MBind res := fun A B f m =>
  match m with Ok a => f a | Err e => Err e end.
#[global] Instance res_fmap : FMap res := fun A B f m =>
  match m with Ok a => Ok (f a) | Err e => Err e end.

#[global] Instance res_eq_dec `{EqDecision A} : EqDecision (res A).
Proof. solve_decision. Defined.

(** [assert c] *)
Definition py_assert (c : bool) : res unit :=
  if c then Ok tt else Err AssertionError.

(** An option as the result of a lookup that raises [e] when it misses. *)
Definition or_raise {A} (e : exn) (o : option A) : res A :=
  match o with Some a => Ok a | None => Err e end.

Definition is_ok {A} (r : res A) : bool :=
  match r with Ok _ => true | Err _ => false end.

(** Left-to-right loop whose body may raise. *)
Fixpoint foldM {A S} (f : S -> A -> res S) (s : S) (l : list A) : res S :=
  match l with
  | [] => Ok s
  | a :: l => s' ← f s a; foldM f s' l
  end.

Fixpoint mapM_res {A B} (f : A -> res B) (l : list A) : res (list B) :=
  match l with
  | [] => Ok []
  | a :: l => b ← f a; bs ← mapM_res f l; Ok (b :: bs)
  end.

Lemma bind_Ok {A B} (m : res A) (f : A -> res B) (b : B) :
  (m ≫= f) = Ok b -> exists a, m = Ok a /\ f a = Ok b.
Proof. destruct m; simpl; [eauto|discriminate]. Qed.

Lemma mapM_res_length {A B} (f : A -> res B) l bs :
  mapM_res f l = Ok bs -> length bs = length l.
Proof.
  revert bs; induction l as [|a l IH]; simpl; intros bs H.
  - by inversion H.
  - apply bind_Ok in H as (b & _ & H). apply bind_Ok in H as (bs' & H' & H).
    inversion H; subst. simpl. f_equal. by apply IH.
Qed.

Lemma mapM_res_ok {A B} (f : A -> res B) (g : A -> B) l :
  (forall a, a ∈ l -> f a = Ok (g a)) -> mapM_res f l = Ok (g <$> l).
Proof.
  induction l as [|a l IH]; intros Hf; simpl; [done|].
  rewrite Hf by set_solver. simpl.
  rewrite IH; [done|]. intros; apply Hf; set_solver.
Qed.

Lemma foldM_app {A S} (f : S -> A -> res S) s l1 l2 :
  foldM f s (l1 ++ l2) = (s' ← foldM f s l1; foldM f s' l2).
Proof.
  revert s; induction l1 as [|a l1 IH]; intros s; simpl; [done|].
  destruct (f s a); simpl; [apply IH|done].
Qed.

(** Rule of invariants for a loop that may raise. *)
Lemma foldM_inv {A S} (f : S -> A -> res S) (P : S -> Prop) l s s' :
  P s ->
  (forall t a t', a ∈ l -> P t -> f t a = Ok t' -> P t') ->
  foldM f s l = Ok s' -> P s'.
Proof.
  revert s; induction l as [|a l IH]; simpl; intros s Hs Hstep H.
  - by inversion H; subst.
  - apply bind_Ok in H as (t & Ht & H). eapply IH; [| |exact H].
    + eapply Hstep; [|exact Hs|exact Ht]. set_solver.
    + intros; eapply Hstep; eauto. set_solver.
Qed.

(** ** Stateful code

    A Python method that mutates its object and may raise: what was written
    before the exception stays written. *)
Definition stm (S A : Type) := S -> res A * S.

#[global] Instance stm_ret S : MRet (stm S) := fun A a s => (Ok a, s).
#[global] Instance stm_bind S : MBind (stm S) := fun A B f m s =>
  match m s with
  | (Ok a, s') => f a s'
  | (Err e, s') => (Err e, s')
  end.

Definition get {S} : stm S S := fun s => (Ok s, s).
Definition gets {S A} (f : S -> A) : stm S A := fun s => (Ok (f s), s).
Definition put {S} (s : S) : stm S unit := fun _ => (Ok tt, s).
Definition modify {S} (f : S -> S) : stm S unit := fun s => (Ok tt, f s).
Definition raise {S A} (e : exn) : stm S A := fun s => (Err e, s).
Definition lift_res {S A} (r : res A) : stm S A := fun s => (r, s).

(** [try: m except e1: h] *)
Definition try_except {S A} (m : stm S A) (e1 : exn) (h : stm S A) : stm S A :=
  fun s => match m s with
           | (Err e, s') => if decide (e = e1) then h s' else (Err e, s')
           | r => r
           end.

Fixpoint iterM {S A} (f : A -> stm S unit) (l : list A) : stm S unit :=
  match l with
  | [] => mret tt
  | a :: l => f a ;; iterM f l
  end.

Lemma stm_bind_ok {S A B} (m : stm S A) (f : A -> stm S B) s a s' :
  m s = (Ok a, s') -> (m ≫= f) s = f a s'.
Proof. intros H. unfold mbind, stm_bind. by rewrite H. Qed.

Lemma stm_bind_err {S A B} (m : stm S A) (f : A -> stm S B) s e s' :
  m s = (Err e, s') -> (m ≫= f) s = (Err e, s').
Proof. intros H. unfold mbind, stm_bind. by rewrite H. Qed.

(** [safe I m Q]: started where [I] holds, [m] leaves a state where [I] holds, whether
    it returns or raises, and what it returns satisfies [Q]. *)
Definition safe {S A} (I : S -> Prop) (m : stm S A) (Q : A -> Prop) : Prop :=
  forall s, I s -> I (m s).2 /\ forall a, (m s).1 = Ok a -> Q a.

Section Safe.
Context {S : Type} (I : S -> Prop).

Lemma safe_bind {A B} (m : stm S A) (f : A -> stm S B) Q R :
  safe I m Q -> (forall a, Q a -> safe I (f a) R) -> safe I (m ≫= f) R.
Proof.
  intros Hm Hf s Hs. specialize (Hm s Hs). unfold mbind, stm_bind.
  destruct (m s) as [[a|e] s']; cbn in Hm |- *; destruct Hm as [Hi Hq]; [|by split].
  by apply Hf; [apply Hq|].
Qed.

Lemma safe_ret {A} (a : A) (Q : A -> Prop) : Q a -> safe I (mret a) Q.
Proof. intros Ha s Hs. split; [done|]. by intros b [= <-]. Qed.

Lemma safe_raise {A} e (Q : A -> Prop) : safe I (raise e) Q.
Proof. intros s Hs. by split. Qed.

Lemma safe_lift {A} (r : res A) (Q : A -> Prop) : (forall a, r = Ok a -> Q a) -> safe I (lift_res r) Q.
Proof. intros Hr s Hs. by split. Qed.

Lemma safe_modify (f : S -> S) (Q : unit -> Prop) : (forall s, I s -> I (f s)) -> Q tt -> safe I (modify f) Q.
Proof. intros Hf Hq s Hs. split; [by apply Hf|]. by intros [] _. Qed.

(** The state that is read is the one the rest starts in. *)
Lemma safe_get {A} (k : S -> stm S A) Q :
  (forall s, I s -> I (k s s).2 /\ forall a, (k s s).1 = Ok a -> Q a) -> safe I (get ≫= k) Q.
Proof. intros Hk s Hs. by apply Hk. Qed.

Lemma safe_gets {A B} (f : S -> A) (k : A -> stm S B) Q :
  (forall s, I s -> I (k (f s) s).2 /\ forall a, (k (f s) s).1 = Ok a -> Q a) -> safe I (gets f ≫= k) Q.
Proof. intros Hk s Hs. by apply Hk. Qed.

Lemma safe_weaken {A} (m : stm S A) (Q R : A -> Prop) :
  safe I m Q -> (forall a, Q a -> R a) -> safe I m R.
Proof. intros Hm HQ s Hs. destruct (Hm s Hs) as [H1 H2]. split; [done|]. eauto. Qed.

Lemma safe_try {A} (m h : stm S A) e Q : safe I m Q -> safe I h Q -> safe I (try_except m e h) Q.
Proof.
  intros Hm Hh s Hs. destruct (Hm s Hs) as [H1 H2]. unfold try_except.
  destruct (m s) as [[a|x] s']; [by split|]. case_match; [by apply Hh|]. by split.
Qed.

Lemma safe_iter {A} (f : A -> stm S unit) l :
  Forall (fun a => safe I (f a) (fun _ => True)) l -> safe I (iterM f l) (fun _ => True).
Proof.
  induction 1 as [|a l Ha _ IH]; cbn [iterM]; [by apply safe_ret|]. by apply (safe_bind _ _ (fun _ => True)).
Qed.

End Safe.

(** ** Python integers *)

Definition round_up (x y : Z) : Z := ((x + y - 1) / y) * y.

Lemma round_up_spec x y :
  0 < y -> x <= round_up x y < x + y /\ round_up x y mod y = 0.
Proof.
  intros Hy. unfold round_up. split.
  - pose proof (Z.div_mod (x + y - 1) y ltac:(lia)).
    pose proof (Z.mod_pos_bound (x + y - 1) y Hy). nia.
  - apply Z_mod_mult.
Qed.

Lemma round_up_id x y : 0 < y -> x mod y = 0 -> round_up x y = x.
Proof.
  intros Hy Hx. pose proof (round_up_spec x y Hy) as [H1 H2].
  apply Z.mod_divide in Hx as [a ->]; [|lia].
  apply Z.mod_divide in H2 as [b Hb]; [|lia]. rewrite Hb in *.
  assert (a <= b) by (apply (Z.mul_le_mono_pos_r _ _ y); lia).
  assert (b < a + 1) by (apply (Z.mul_lt_mono_pos_r y); lia).
  f_equal. lia.
Qed.

(** A bitwise disjoint sum: the low field does not reach the shifted one. *)
Lemma lor_shiftl_add a b n :
  0 <= n -> 0 <= b < 2 ^ n -> Z.lor (Z.shiftl a n) b = a * 2 ^ n + b.
Proof.
  intros Hn Hb. rewrite <- Z.shiftl_mul_pow2 by lia.
  rewrite Z.add_nocarry_lxor.
  - symmetry. apply Z.lxor_lor. apply Z.bits_inj'; intros i Hi.
    rewrite Z.land_spec, Z.bits_0.
    destruct (Z.lt_ge_cases i n).
    + rewrite Z.shiftl_spec_low by lia. done.
    + rewrite <- (Z.mod_small b (2 ^ n)) by lia.
      rewrite (Z.mod_pow2_bits_high b n i) by lia. by rewrite andb_false_r.
  - apply Z.bits_inj'; intros i Hi.
    rewrite Z.land_spec, Z.bits_0.
    destruct (Z.lt_ge_cases i n).
    + rewrite Z.shiftl_spec_low by lia. done.
    + rewrite <- (Z.mod_small b (2 ^ n)) by lia.
      rewrite (Z.mod_pow2_bits_high b n i) by lia. by rewrite andb_false_r.
Qed.

Lemma shiftr_add a b n : 0 <= n -> 0 <= b < 2 ^ n ->
  Z.shiftr (a * 2 ^ n + b) n = a.
Proof.
  intros. rewrite Z.shiftr_div_pow2 by lia.
  rewrite Z.div_add_l by (apply Z.pow_nonzero; lia).
  rewrite Z.div_small by lia. lia.
Qed.

Lemma land_ones_add a b n : 0 <= n -> 0 <= b < 2 ^ n ->
  Z.land (a * 2 ^ n + b) (Z.ones n) = b.
Proof.
  intros. rewrite Z.land_ones by lia.
  rewrite Z.add_comm, Z_mod_plus_full. by apply Z.mod_small.
Qed.

(** ** Automation *)

Create HintDb beba discriminated.
Create Rewrite HintDb beba.

(** Decompose a successful monadic computation. *)
Ltac inv_ok :=
  repeat match goal with
  | H : (_ ≫= _) = Ok _ |- _ => apply bind_Ok in H as (? & ? & H)
  | H : Ok _ = Ok _ |- _ => injection H as H; try subst
  | H : Err _ = Ok _ |- _ => discriminate H
  | H : Ok _ = Err _ |- _ => discriminate H
  | H : mret _ = Ok _ |- _ => injection H as H; try subst
  | H : context [py_assert ?c] |- _ => unfold py_assert in H; destruct c eqn:?
  end; simpl in *; try discriminate.

(** Decide the integer comparisons of the goal that the context settles. *)
Ltac zcmp :=
  repeat match goal with
  | |- context [?a <=? ?b] =>
      first [rewrite (proj2 (Z.leb_le a b)) by lia | rewrite (proj2 (Z.leb_gt a b)) by lia]
  | |- context [?a <? ?b] =>
      first [rewrite (proj2 (Z.ltb_lt a b)) by lia | rewrite (proj2 (Z.ltb_ge a b)) by lia]
  | |- context [?a =? ?b] =>
      first [rewrite (proj2 (Z.eqb_eq a b)) by lia | rewrite (proj2 (Z.eqb_neq a b)) by lia]
  end; cbn [andb orb negb].

(** Evaluate stateful code symbolically. *)
Ltac stm_unfold :=
  unfold mbind, stm_bind, mret, stm_ret, get, gets, put, modify, raise, lift_res,
    try_except in *; cbn.
