(* ===== verification/Struct.v ===== *)
(** * Python's struct module, as the wire code uses it

    Byte strings are lists of integers between 0 and 255.  A format is parsed
    from the format string of the source; [pack], [unpack], [unpack_from],
    [pack_into] and [calcsize] behave as the functions of the same names for
    the codes B, H, I, Q, s and x in standard sizes (no alignment), and
    [msg_pack_into] is the function of ryu/lib/pack_utils.py. *)

From Stdlib Require Import ZArith Lia Ascii.
From stdpp Require Import base list gmap strings numbers.
From S2P Require Import Prelude.

Abbreviation bytes := (list Z).

Definition byte_ok (b : Z) : Prop := 0 <= b < 256.
Abbreviation bytes_ok := (Forall byte_ok).

#[global] Instance byte_ok_dec b : Decision (byte_ok b).
Proof. unfold byte_ok. apply _. Defined.

(** ** Integers on the wire *)

Fixpoint be_encode (n : nat) (z : Z) : bytes :=
  match n with
  | O => []
  | S n => be_encode n (z / 256) ++ [z mod 256]
  end.

Definition be_decode (bs : bytes) : Z :=
  foldl (fun acc b => acc * 256 + b) 0 bs.

Lemma be_decode_snoc bs b : be_decode (bs ++ [b]) = be_decode bs * 256 + b.
Proof. unfold be_decode. by rewrite foldl_app. Qed.

Lemma be_encode_length n z : length (be_encode n z) = n.
Proof.
  revert z; induction n; intros z; simpl; [done|].
  rewrite length_app, IHn. simpl. lia.
Qed.

Lemma be_encode_ok n z : bytes_ok (be_encode n z).
Proof.
  revert z; induction n; intros z; simpl; [constructor|].
  apply Forall_app; split; [apply IHn|]. repeat constructor.
  - apply Z.mod_pos_bound. lia.
  - apply Z.mod_pos_bound. lia.
Qed.

Lemma pow256_S n : 256 ^ Z.of_nat (S n) = 256 * 256 ^ Z.of_nat n.
Proof. rewrite Nat2Z.inj_succ, Z.pow_succ_r by lia. done. Qed.

Lemma be_decode_encode n z :
  0 <= z < 256 ^ Z.of_nat n -> be_decode (be_encode n z) = z.
Proof.
  revert z; induction n; intros z Hz.
  - simpl in Hz. unfold be_decode; simpl. lia.
  - rewrite pow256_S in Hz. simpl. rewrite be_decode_snoc, IHn.
    + pose proof (Z.div_mod z 256 ltac:(lia)). lia.
    + split; [apply Z.div_pos; lia|]. apply Z.div_lt_upper_bound; lia.
Qed.

Lemma be_decode_bound bs :
  bytes_ok bs -> 0 <= be_decode bs < 256 ^ Z.of_nat (length bs).
Proof.
  induction bs as [|b bs IH] using rev_ind; intros H.
  - unfold be_decode; simpl. lia.
  - apply Forall_app in H as [H1 H2]. apply Forall_inv in H2. unfold byte_ok in H2.
    rewrite be_decode_snoc, length_app. simpl.
    replace (Datatypes.length bs + 1)%nat with (S (length bs)) by lia.
    rewrite pow256_S. specialize (IH H1). lia.
Qed.

Lemma be_encode_decode bs :
  bytes_ok bs -> be_encode (length bs) (be_decode bs) = bs.
Proof.
  induction bs as [|b bs IH] using rev_ind; intros H; [done|].
  apply Forall_app in H as [H1 H2]. apply Forall_inv in H2. unfold byte_ok in H2.
  rewrite length_app, be_decode_snoc. simpl.
  replace (Datatypes.length bs + 1)%nat with (S (length bs)) by lia. simpl.
  rewrite Z.div_add_l, Z.div_small by lia.
  rewrite (Z.add_comm (_ * 256) b), Z_mod_plus_full, Z.mod_small by lia.
  rewrite Z.add_0_r, IH by done. done.
Qed.

(** ** Formats *)

Inductive endian := Big | Little.

Inductive fcode :=
  | Fx (n : nat)   (* n pad bytes *)
  | Fi (w : nat)   (* an unsigned integer of w bytes: B, H, I, Q *)
  | Fs (n : nat).  (* a byte string of n bytes *)

Record format := Format { f_order : endian; f_codes : list fcode }.

Inductive pyval :=
  | VInt (z : Z)
  | VBytes (b : bytes).

#[global] Instance pyval_eq_dec : EqDecision pyval.
Proof. solve_decision. Defined.

Definition digit_of (c : ascii) : option nat :=
  let n := nat_of_ascii c in
  if (48 <=? n)%nat && (n <=? 57)%nat then Some (n - 48)%nat else None.

Definition int_width (c : ascii) : option nat :=
  if decide (c = "B"%char) then Some 1%nat
  else if decide (c = "H"%char) then Some 2%nat
  else if decide (c = "I"%char) then Some 4%nat
  else if decide (c = "Q"%char) then Some 8%nat
  else None.

Fixpoint parse_items (s : string) (cnt : option nat) : option (list fcode) :=
  match s with
  | EmptyString => match cnt with None => Some [] | Some _ => None end
  | String c s =>
      match digit_of c with
      | Some d => parse_items s (Some (10 * default 0%nat cnt + d)%nat)
      | None =>
          let n := default 1%nat cnt in
          rest ← parse_items s None;
          if decide (c = "x"%char) then Some (Fx n :: rest)
          else if decide (c = "s"%char) then Some (Fs n :: rest)
          else w ← int_width c; Some (replicate n (Fi w) ++ rest)
      end
  end.

Definition parse_fmt (s : string) : option format :=
  match s with
  | String c s' =>
      if decide (c = "!"%char) then Format Big <$> parse_items s' None
      else if decide (c = "<"%char) then Format Little <$> parse_items s' None
      else None
  | EmptyString => None
  end.

Definition code_size (c : fcode) : nat :=
  match c with Fx n => n | Fi w => w | Fs n => n end.

Definition codes_size (cs : list fcode) : nat :=
  foldr (fun c n => code_size c + n)%nat 0%nat cs.

Definition fmt_size (f : format) : nat := codes_size (f_codes f).

Definition encode (e : endian) (w : nat) (z : Z) : bytes :=
  match e with Big => be_encode w z | Little => reverse (be_encode w z) end.

Definition decode (e : endian) (bs : bytes) : Z :=
  match e with Big => be_decode bs | Little => be_decode (reverse bs) end.

Definition in_width (w : nat) (z : Z) : bool :=
  (0 <=? z) && (z <? 256 ^ Z.of_nat w).

Fixpoint pack_codes (e : endian) (cs : list fcode) (args : list pyval) : res bytes :=
  match cs with
  | [] => match args with [] => Ok [] | _ => Err StructError end
  | Fx n :: cs => r ← pack_codes e cs args; Ok (replicate n 0 ++ r)
  | Fi w :: cs =>
      match args with
      | VInt z :: args =>
          if in_width w z
          then r ← pack_codes e cs args; Ok (encode e w z ++ r)
          else Err StructError
      | _ => Err StructError
      end
  | Fs n :: cs =>
      match args with
      | VBytes b :: args => r ← pack_codes e cs args; Ok (resize n 0 b ++ r)
      | _ => Err StructError
      end
  end.

Fixpoint unpack_codes (e : endian) (cs : list fcode) (bs : bytes) : list pyval :=
  match cs with
  | [] => []
  | Fx n :: cs => unpack_codes e cs (drop n bs)
  | Fi w :: cs => VInt (decode e (take w bs)) :: unpack_codes e cs (drop w bs)
  | Fs n :: cs => VBytes (take n bs) :: unpack_codes e cs (drop n bs)
  end.

(** ** The module's functions *)

Definition fpack (f : format) (args : list pyval) : res bytes :=
  pack_codes (f_order f) (f_codes f) args.

Definition funpack_from (f : format) (buf : bytes) (offset : nat) : res (list pyval) :=
  if (offset + fmt_size f <=? length buf)%nat
  then Ok (unpack_codes (f_order f) (f_codes f) (drop offset buf))
  else Err StructError.

Definition fpack_into (f : format) (buf : bytes) (offset : nat) (args : list pyval) :
    res bytes :=
  bs ← fpack f args;
  if (offset + fmt_size f <=? length buf)%nat
  then Ok (take offset buf ++ bs ++ drop (offset + fmt_size f) buf)
  else Err StructError.

Definition with_fmt {A} (s : string) (k : format -> res A) : res A :=
  match parse_fmt s with Some f => k f | None => Err StructError end.

Definition pack (s : string) (args : list pyval) : res bytes :=
  with_fmt s (fun f => fpack f args).

Definition unpack (s : string) (buf : bytes) : res (list pyval) :=
  with_fmt s (fun f =>
    if (length buf =? fmt_size f)%nat then funpack_from f buf 0 else Err StructError).

Definition unpack_from (s : string) (buf : bytes) (offset : nat) : res (list pyval) :=
  with_fmt s (fun f => funpack_from f buf offset).

Definition pack_into (s : string) (buf : bytes) (offset : nat) (args : list pyval) :
    res bytes :=
  with_fmt s (fun f => fpack_into f buf offset args).

Definition calcsize (s : string) : nat :=
  match parse_fmt s with Some f => fmt_size f | None => 0%nat end.

(** ryu/lib/pack_utils.py *)
Definition fmsg_pack_into (f : format) (buf : bytes) (offset : nat)
    (args : list pyval) : res bytes :=
  let buf :=
    if (length buf <? offset)%nat
    then buf ++ replicate (offset - length buf) 0 else buf in
  if (length buf =? offset)%nat then
    bs ← fpack f args; Ok (buf ++ bs)
  else
    let needed_len := (offset + fmt_size f)%nat in
    let buf :=
      if (length buf <? needed_len)%nat
      then buf ++ replicate (needed_len - length buf) 0 else buf in
    fpack_into f buf offset args.

Definition msg_pack_into (s : string) (buf : bytes) (offset : nat)
    (args : list pyval) : res bytes :=
  with_fmt s (fun f => fmsg_pack_into f buf offset args).

(** ** Properties *)

Lemma encode_length e w z : length (encode e w z) = w.
Proof. destruct e; simpl; rewrite ?length_reverse; apply be_encode_length. Qed.

Lemma pack_codes_length e cs args bs :
  pack_codes e cs args = Ok bs -> length bs = codes_size cs.
Proof.
  revert args bs; induction cs as [|[n|w|n] cs IH]; intros args bs H; simpl in *.
  - destruct args; by inversion H.
  - apply bind_Ok in H as (r & Hr & [= <-]).
    rewrite length_app, length_replicate. f_equal. by eapply IH.
  - destruct args as [|[z|b] args]; try done. destruct (in_width w z); [|done].
    apply bind_Ok in H as (r & Hr & [= <-]).
    rewrite length_app, encode_length. f_equal. by eapply IH.
  - destruct args as [|[z|b] args]; try done.
    apply bind_Ok in H as (r & Hr & [= <-]).
    rewrite length_app, length_resize. f_equal. by eapply IH.
Qed.

Lemma encode_ok e w z : bytes_ok (encode e w z).
Proof.
  destruct e; simpl; [|apply Forall_reverse]; apply be_encode_ok.
Qed.

Lemma decode_encode e w z : in_width w z = true -> decode e (encode e w z) = z.
Proof.
  unfold in_width. intros H.
  destruct e; simpl; rewrite ?reverse_involutive; apply be_decode_encode; lia.
Qed.

Lemma decode_bound e bs :
  bytes_ok bs -> 0 <= decode e bs < 256 ^ Z.of_nat (length bs).
Proof.
  intros H. destruct e; simpl; [by apply be_decode_bound|].
  rewrite <- (length_reverse bs). apply be_decode_bound. by apply Forall_reverse.
Qed.

Lemma encode_decode e bs : bytes_ok bs -> encode e (length bs) (decode e bs) = bs.
Proof.
  intros H. destruct e; simpl; [by apply be_encode_decode|].
  rewrite <- (length_reverse bs), be_encode_decode by by apply Forall_reverse.
  apply reverse_involutive.
Qed.

Definition val_ok (v : pyval) : Prop :=
  match v with VInt _ => True | VBytes b => bytes_ok b end.

Lemma pack_codes_ok e cs args bs :
  Forall val_ok args -> pack_codes e cs args = Ok bs -> bytes_ok bs.
Proof.
  revert args bs; induction cs as [|[n|w|n] cs IH]; intros args bs Ha H; simpl in *.
  - destruct args; inversion H. constructor.
  - apply bind_Ok in H as (r & Hr & [= <-]).
    apply Forall_app; split; [|by eapply IH].
    apply Forall_replicate. unfold byte_ok; lia.
  - destruct args as [|[z|b] args]; try done. destruct (in_width w z); [|done].
    apply bind_Ok in H as (r & Hr & [= <-]). inversion Ha; subst.
    apply Forall_app; split; [apply encode_ok|by eapply IH].
  - destruct args as [|[z|b] args]; try done.
    apply bind_Ok in H as (r & Hr & [= <-]). inversion Ha; subst.
    apply Forall_app; split; [|by eapply IH].
    apply Forall_resize; [unfold byte_ok; lia|done].
Qed.

(** What the packed arguments are read back as: byte strings are padded or
    truncated to their field. *)
Fixpoint fit_args (cs : list fcode) (args : list pyval) : list pyval :=
  match cs, args with
  | Fx _ :: cs, _ => fit_args cs args
  | Fi _ :: cs, a :: args => a :: fit_args cs args
  | Fs n :: cs, VBytes b :: args => VBytes (resize n 0 b) :: fit_args cs args
  | _, _ => []
  end.

Lemma unpack_pack_codes e cs args bs rest :
  pack_codes e cs args = Ok bs ->
  unpack_codes e cs (bs ++ rest) = fit_args cs args.
Proof.
  revert args bs; induction cs as [|[n|w|n] cs IH]; intros args bs H; simpl in *.
  - by destruct args.
  - apply bind_Ok in H as (r & Hr & [= <-]). rewrite <- app_assoc.
    rewrite drop_app_length' by (by rewrite length_replicate).
    destruct args; by eapply IH.
  - destruct args as [|[z|b] args]; try done. destruct (in_width w z) eqn:Hw; [|done].
    apply bind_Ok in H as (r & Hr & [= <-]). rewrite <- app_assoc.
    rewrite take_app_length', drop_app_length' by (by rewrite encode_length).
    rewrite decode_encode by done. f_equal. by eapply IH.
  - destruct args as [|[z|b] args]; try done.
    apply bind_Ok in H as (r & Hr & [= <-]). rewrite <- app_assoc.
    rewrite take_app_length', drop_app_length' by (by rewrite length_resize).
    f_equal. by eapply IH.
Qed.

(** Reading back at the offset where a packed structure was placed. *)
Lemma unpack_from_pack f args bs pre rest off :
  fpack f args = Ok bs -> off = length pre ->
  funpack_from f (pre ++ bs ++ rest) off = Ok (fit_args (f_codes f) args).
Proof.
  intros H ->. unfold funpack_from.
  pose proof (pack_codes_length _ _ _ _ H) as Hl.
  rewrite (proj2 (Nat.leb_le _ _)).
  - rewrite drop_app_length. f_equal. by eapply unpack_pack_codes.
  - rewrite !length_app. unfold fmt_size. lia.
Qed.

Lemma unpack_from_pack0 f args bs rest :
  fpack f args = Ok bs ->
  funpack_from f (bs ++ rest) 0 = Ok (fit_args (f_codes f) args).
Proof. intros H. by apply (unpack_from_pack f args bs [] rest 0). Qed.

Lemma fpack_length f args bs : fpack f args = Ok bs -> length bs = fmt_size f.
Proof. apply pack_codes_length. Qed.

(** [unpack_from] raises exactly when the buffer is too short. *)
Lemma funpack_from_ok f buf off :
  (off + fmt_size f <= length buf)%nat ->
  funpack_from f buf off = Ok (unpack_codes (f_order f) (f_codes f) (drop off buf)).
Proof. intros H. unfold funpack_from. by rewrite (proj2 (Nat.leb_le _ _)). Qed.

Lemma funpack_from_short f buf off :
  (length buf < off + fmt_size f)%nat -> funpack_from f buf off = Err StructError.
Proof.
  intros H. unfold funpack_from. by rewrite (proj2 (Nat.leb_gt _ _)) by lia.
Qed.

(** Number of values a format yields. *)
Fixpoint n_values (cs : list fcode) : nat :=
  match cs with [] => 0 | Fx _ :: cs => n_values cs | _ :: cs => S (n_values cs) end.

Lemma unpack_codes_arity e cs bs : length (unpack_codes e cs bs) = n_values cs.
Proof.
  revert bs; induction cs as [|[n|w|n] cs IH]; intros bs; simpl; auto.
Qed.

(** [msg_pack_into] at the end of the buffer appends, and inside it overwrites. *)
Lemma fmsg_pack_into_end f buf args bs :
  fpack f args = Ok bs -> fmsg_pack_into f buf (length buf) args = Ok (buf ++ bs).
Proof.
  intros H. unfold fmsg_pack_into.
  rewrite Nat.ltb_irrefl, Nat.eqb_refl, H. done.
Qed.

Lemma fmsg_pack_into_gap f buf off args bs :
  fpack f args = Ok bs -> (length buf <= off)%nat ->
  fmsg_pack_into f buf off args = Ok (buf ++ replicate (off - length buf) 0 ++ bs).
Proof.
  intros H Hl. unfold fmsg_pack_into.
  destruct (Nat.ltb_spec (length buf) off) as [Hlt|Hge].
  - rewrite (proj2 (Nat.eqb_eq _ _)).
    + rewrite H. simpl. by rewrite <- app_assoc.
    + rewrite length_app, length_replicate. lia.
  - assert (length buf = off) as <- by lia. rewrite Nat.eqb_refl, H.
    by rewrite Nat.sub_diag.
Qed.

Lemma fmsg_pack_into_inside f pre old rest args bs :
  fpack f args = Ok bs -> length old = fmt_size f -> old ++ rest <> [] ->
  fmsg_pack_into f (pre ++ old ++ rest) (length pre) args = Ok (pre ++ bs ++ rest).
Proof.
  intros H Hold Hne. unfold fmsg_pack_into.
  assert (0 < length (old ++ rest))%nat.
  { destruct (old ++ rest); [done|simpl; lia]. }
  rewrite (proj2 (Nat.ltb_ge _ _)) by (rewrite length_app; lia).
  rewrite (proj2 (Nat.eqb_neq _ _)) by (rewrite length_app; lia).
  rewrite (proj2 (Nat.ltb_ge _ _)) by (rewrite !length_app; lia).
  unfold fpack_into. rewrite H. simpl.
  rewrite (proj2 (Nat.leb_le _ _)) by (rewrite !length_app; lia).
  rewrite take_app_length. repeat f_equal.
  rewrite <- Hold, drop_app_add'; [|done]. by rewrite drop_app_length.
Qed.

(** ** Tactics *)

(** Evaluate the format strings of the goal and of the hypotheses. *)
Ltac fmt_step s k T :=
  let v := eval vm_compute in (parse_fmt s) in
  match v with
  | Some ?f => let r := eval cbv beta in (k f) in T r
  | None => T constr:(Err StructError)
  end.
Ltac fmt_eval :=
  unfold pack, unpack, unpack_from, pack_into, msg_pack_into in *;
  repeat match goal with
  | |- context [with_fmt ?s ?k] =>
      fmt_step s k ltac:(fun r => change (with_fmt s k) with r)
  | H : context [with_fmt ?s ?k] |- _ =>
      fmt_step s k ltac:(fun r => change (with_fmt s k) with r in H)
  end.

Lemma be_encode_1 z : in_width 1 z = true -> be_encode 1 z = [z].
Proof.
  unfold in_width. intros H. unfold be_encode. simpl. rewrite Z.mod_small; [done|].
  change (256 ^ Z.of_nat 1) with 256 in H. lia.
Qed.

Lemma in_width_iff w z : in_width w z = true <-> 0 <= z < 256 ^ Z.of_nat w.
Proof. unfold in_width. lia. Qed.

Lemma in_width_1 z : 0 <= z < 256 -> in_width 1 z = true.
Proof. intros. by apply in_width_iff. Qed.
Lemma in_width_2 z : 0 <= z < 65536 -> in_width 2 z = true.
Proof. intros. by apply in_width_iff. Qed.
Lemma in_width_4 z : 0 <= z < 4294967296 -> in_width 4 z = true.
Proof. intros. by apply in_width_iff. Qed.

(** The encoders are unfolded by evaluation only, never by [simpl]. *)
#[global] Opaque be_encode in_width.

(** Lengths and well-formedness of encoded fields. *)
#[export] Hint Rewrite @length_app @length_replicate be_encode_length encode_length : beba.

Lemma bytes_ok_app (a b : bytes) : bytes_ok a -> bytes_ok b -> bytes_ok (a ++ b).
Proof. intros. by apply Forall_app. Qed.

#[export] Hint Resolve be_encode_ok encode_ok bytes_ok_app in_width_1 in_width_2 in_width_4 : beba.

(** Concrete byte strings. *)
Ltac solve_bytes_ok :=
  repeat first [apply Forall_nil_2 | apply Forall_cons_2]; unfold byte_ok; lia.

(** Case analysis on the range checks of a packed structure. *)
Ltac pack_cases :=
  unfold fpack; cbn [f_codes f_order pack_codes mbind res_bind];
  repeat match goal with
  | |- context [in_width ?w ?x] =>
      let E := fresh "Hw" in destruct (in_width w x) eqn:E;
      cbn [pack_codes mbind res_bind andb]
  end; try reflexivity.
