(* ===== verification/OfpMsg.v ===== *)
(** * OpenFlow messages that carry Beba payloads

    The message framing of ryu/ofproto/ofproto_parser.py ([header],
    [MsgBase._serialize_pre], [MsgBase._serialize_header], [MsgBase.serialize])
    and, from ryu/ofproto/ofproto_v1_3_parser.py, the experimenter message, the
    experimenter action, the experimenter multipart request with its body, and
    the interface every OpenFlow action offers to an instruction. *)

From Stdlib Require Import ZArith Lia.
From stdpp Require Import base list gmap strings numbers.
From S2P Require Import Prelude Struct.

(** ** Constants of ofproto_common.py and ofproto_v1_3.py *)

Definition OFP_HEADER_PACK_STR : string := "!BBHI".
Definition OFP_HEADER_SIZE : nat := 8.
Definition OFP_VERSION : Z := 0x04.
Definition OFPT_EXPERIMENTER : Z := 4.
Definition OFPT_MULTIPART_REQUEST : Z := 18.
Definition OFPMP_EXPERIMENTER : Z := 0xffff.
Definition OFPTT_ALL : Z := 0xff.
Definition OFPAT_OUTPUT : Z := 0.
Definition OFPAT_EXPERIMENTER : Z := 0xffff.
Definition OFP_ACTION_HEADER_PACK_STR : string := "!HH4x".
Definition OFP_ACTION_OUTPUT_PACK_STR : string := "!HHIH6x".
Definition OFP_ACTION_OUTPUT_SIZE : Z := 16.
Definition OFP_ACTION_EXPERIMENTER_HEADER_PACK_STR : string := "!HHI".
Definition OFP_ACTION_EXPERIMENTER_HEADER_SIZE : nat := 8.
Definition OFP_EXPERIMENTER_HEADER_PACK_STR : string := "!II".
Definition OFP_EXPERIMENTER_HEADER_SIZE : nat := 16.
Definition OFP_EXPERIMENTER_MULTIPART_HEADER_PACK_STR : string := "!II".
Definition OFP_EXPERIMENTER_MULTIPART_HEADER_SIZE : nat := 8.
Definition OFP_MULTIPART_REQUEST_PACK_STR : string := "!HH4x".
Definition NX_EXPERIMENTER_ID : Z := 0x00002320.
Definition BEBA_EXPERIMENTER_ID : Z := 0xBEBABEBA.

(** ** Framing *)

Module MsgBase.

(** The header fields of a received buffer. *)
Definition header (buf : bytes) : res (Z * Z * Z * Z) :=
  py_assert (OFP_HEADER_SIZE <=? length buf)%nat ;;
  vs ← unpack_from OFP_HEADER_PACK_STR buf 0;
  match vs with
  | [VInt version; VInt msg_type; VInt msg_len; VInt xid] =>
      Ok (version, msg_type, msg_len, xid)
  | _ => Err ValueError
  end.

Definition serialize_pre : bytes := replicate OFP_HEADER_SIZE 0.

Definition serialize_header (version msg_type : Z) (xid : option Z) (buf : bytes) :
    res bytes :=
  py_assert (OFP_HEADER_SIZE <=? length buf)%nat ;;
  pack_into OFP_HEADER_PACK_STR buf 0
    [VInt version; VInt msg_type; VInt (Z.of_nat (length buf)); VInt (default 0 xid)].

Definition serialize (version msg_type : Z) (xid : option Z)
    (body : bytes -> res bytes) : res bytes :=
  buf ← body serialize_pre;
  serialize_header version msg_type xid buf.

Definition header_fmt : format := Format Big [Fi 1; Fi 1; Fi 2; Fi 4].

(** A body that appends [payload] to the eight reserved bytes yields the packed
    header followed by that payload. *)
Lemma msg_serialize_spec version msg_type xid body payload out :
  body serialize_pre = Ok (serialize_pre ++ payload) ->
  serialize version msg_type xid body = Ok out ->
  exists h, fpack header_fmt
              [VInt version; VInt msg_type;
               VInt (8 + Z.of_nat (length payload)); VInt (default 0 xid)] = Ok h
            /\ out = h ++ payload.
Proof.
  intros Hb H. unfold serialize in H. rewrite Hb in H. simpl in H.
  unfold serialize_header in H. inv_ok.
  fmt_eval. unfold fpack_into in H.
  apply bind_Ok in H as (h & Hh & H).
  exists h. split.
  - rewrite <- Hh. unfold header_fmt. do 4 f_equal. f_equal. lia.
  - simpl in H. injection H as <-. reflexivity.
Qed.

(** ... and it fails only when a header field does not fit. *)
Lemma serialize_ok version msg_type xid body payload h :
  body serialize_pre = Ok (serialize_pre ++ payload) ->
  fpack header_fmt [VInt version; VInt msg_type;
                    VInt (8 + Z.of_nat (length payload)); VInt (default 0 xid)] = Ok h ->
  serialize version msg_type xid body = Ok (h ++ payload).
Proof.
  intros Hb Hh. unfold serialize. rewrite Hb. simpl.
  unfold serialize_header.
  fmt_eval. unfold fpack_into. simpl.
  replace (Z.of_nat (S (S (S (S (S (S (S (S (length payload)))))))))) 
    with (8 + Z.of_nat (length payload)) by lia.
  unfold header_fmt in Hh. by rewrite Hh.
Qed.

End MsgBase.

(** ** Experimenter message *)

Module Experimenter.

Record t := Mk { experimenter : Z; exp_type : Z; data : option bytes }.

#[global] Instance t_eq_dec : EqDecision t.
Proof. solve_decision. Defined.

Definition serialize_body (m : t) (buf : bytes) : res bytes :=
  match data m with
  | None => Err AssertionError
  | Some d =>
      buf ← msg_pack_into OFP_EXPERIMENTER_HEADER_PACK_STR buf OFP_HEADER_SIZE
              [VInt (experimenter m); VInt (exp_type m)];
      Ok (buf ++ d)
  end.

Definition serialize (m : t) (xid : option Z) : res bytes :=
  MsgBase.serialize OFP_VERSION OFPT_EXPERIMENTER xid (serialize_body m).

(** [OFPExperimenter.parser]; [set_headers] asserts the message type. *)
Definition parser (msg_type : Z) (buf : bytes) : res t :=
  py_assert (msg_type =? OFPT_EXPERIMENTER) ;;
  vs ← unpack_from OFP_EXPERIMENTER_HEADER_PACK_STR buf OFP_HEADER_SIZE;
  match vs with
  | [VInt e; VInt et] => Ok (Mk e et (Some (drop OFP_EXPERIMENTER_HEADER_SIZE buf)))
  | _ => Err ValueError
  end.

Definition hdr_fmt : format := Format Big [Fi 4; Fi 4].

Lemma serialize_body_spec m d :
  data m = Some d ->
  in_width 4 (experimenter m) = true -> in_width 4 (exp_type m) = true ->
  exists h, fpack hdr_fmt [VInt (experimenter m); VInt (exp_type m)] = Ok h
    /\ length h = 8%nat
    /\ serialize_body m MsgBase.serialize_pre = Ok (MsgBase.serialize_pre ++ h ++ d).
Proof.
  intros Hd H1 H2.
  assert (exists h, fpack hdr_fmt [VInt (experimenter m); VInt (exp_type m)] = Ok h)
    as [h Hh].
  { unfold fpack; cbn [f_codes f_order hdr_fmt pack_codes]. rewrite H1, H2.
    eexists; reflexivity. }
  exists h; split; [done|]. split; [by apply fpack_length in Hh|].
  unfold serialize_body. rewrite Hd. fmt_eval.
  change OFP_HEADER_SIZE with (length MsgBase.serialize_pre). fold hdr_fmt.
  rewrite (fmsg_pack_into_end _ MsgBase.serialize_pre _ _ Hh). cbn -[app].
  by rewrite <- !app_assoc.
Qed.

End Experimenter.

(** ** The interface of an action

    [OFPInstructionActions] and its Beba relative serialize their actions through
    [a.serialize(buf, offset)] and then advance by [a.len].  The law is what those
    loops rely on: serializing at or past the end of the buffer only appends, at
    most [len] bytes after the offset, and [len] is a multiple of eight. *)
Class Action (A : Type) := {
  act_serialize : A -> bytes -> nat -> res bytes;
  act_len : A -> nat;
}.

Class ActionLaws (A : Type) `{Action A} := {
  act_appends : forall a buf off buf',
    (length buf <= off)%nat ->
    act_serialize a buf off = Ok buf' ->
    exists payload,
      buf' = buf ++ replicate (off - length buf) 0 ++ payload
      /\ (0 < length payload <= act_len a)%nat;
  act_aligned : forall a, (act_len a mod 8 = 0)%nat;
}.

(** ** Experimenter action *)

Module ActionExperimenterUnknown.

Record t := Mk { experimenter : Z; data : option bytes }.

#[global] Instance t_eq_dec : EqDecision t.
Proof. solve_decision. Defined.

(** The [len] attribute the serializer computes. *)
Definition len (a : t) : nat :=
  (Z.to_nat (round_up (Z.of_nat (length (default [] (data a)))) 8)
   + OFP_ACTION_EXPERIMENTER_HEADER_SIZE)%nat.

Definition serialize (a : t) (buf : bytes) (offset : nat) : res bytes :=
  buf ← msg_pack_into OFP_ACTION_EXPERIMENTER_HEADER_PACK_STR buf offset
          [VInt OFPAT_EXPERIMENTER; VInt (Z.of_nat (len a)); VInt (experimenter a)];
  match data a with
  | None => Err TypeError                 (* len(None) *)
  | Some d =>
      fmsg_pack_into (Format Big [Fs (length d)]) buf
        (offset + OFP_ACTION_EXPERIMENTER_HEADER_SIZE) [VBytes d]
  end.

(** [OFPActionExperimenter.parser]; Nicira actions are parsed by another class. *)
Definition parser {A} (NXAction_parse : bytes -> res A) (buf : bytes) (offset : nat) :
    res ((A + t) * Z) :=
  vs ← unpack_from OFP_ACTION_EXPERIMENTER_HEADER_PACK_STR buf offset;
  match vs with
  | [VInt type_; VInt len_; VInt experimenter] =>
      let data := drop (offset + OFP_ACTION_EXPERIMENTER_HEADER_SIZE)
                    (take (offset + Z.to_nat len_) buf) in
      if experimenter =? NX_EXPERIMENTER_ID
      then obj ← NXAction_parse data; Ok (inl obj, len_)
      else Ok (inr (Mk experimenter (Some data)), len_)
  | _ => Err ValueError
  end.

Definition hdr_fmt : format := Format Big [Fi 2; Fi 2; Fi 4].

(** Serializing at or past the end of the buffer: the gap is zero-filled, then
    come the header and the data. *)
Lemma action_serialize_spec a d buf off buf' :
  data a = Some d -> (length buf <= off)%nat ->
  serialize a buf off = Ok buf' ->
  exists h, fpack hdr_fmt [VInt OFPAT_EXPERIMENTER; VInt (Z.of_nat (len a));
                           VInt (experimenter a)] = Ok h
    /\ buf' = buf ++ replicate (off - length buf) 0 ++ h ++ d.
Proof.
  intros Hd Hl H. unfold serialize in H. apply bind_Ok in H as (b1 & H1 & H).
  rewrite Hd in H.
  fmt_eval. fold hdr_fmt in H1.
  destruct (fpack hdr_fmt [VInt OFPAT_EXPERIMENTER; VInt (Z.of_nat (len a));
                           VInt (experimenter a)]) as [h|e] eqn:Hh.
  2:{ exfalso. unfold fmsg_pack_into, fpack_into in H1.
      rewrite Hh in H1. by destruct (_ =? _)%nat. }
  rewrite (fmsg_pack_into_gap _ _ _ _ _ Hh Hl) in H1. injection H1 as <-.
  exists h. split; [done|].
  pose proof (fpack_length _ _ _ Hh) as Hhl. simpl in Hhl. unfold fmt_size in Hhl.
  simpl in Hhl.
  assert (Hp : fpack (Format Big [Fs (length d)]) [VBytes d] = Ok d).
  { unfold fpack; simpl. by rewrite app_nil_r, resize_all. }
  replace (off + OFP_ACTION_EXPERIMENTER_HEADER_SIZE)%nat
    with (length (buf ++ replicate (off - length buf) 0 ++ h)) in H.
  - rewrite (fmsg_pack_into_end _ _ _ _ Hp) in H. injection H as <-.
    by rewrite <- !app_assoc.
  - rewrite !length_app, length_replicate. unfold OFP_ACTION_EXPERIMENTER_HEADER_SIZE. lia.
Qed.

Lemma len_bounds a d :
  data a = Some d ->
  (8 + length d <= len a < 16 + length d)%nat /\ (len a mod 8 = 0)%nat.
Proof.
  intros Hd. unfold len. rewrite Hd. cbn [default from_option id].
  pose proof (round_up_spec (Z.of_nat (length d)) 8 ltac:(lia)) as [H1 H2].
  unfold OFP_ACTION_EXPERIMENTER_HEADER_SIZE. split; [lia|].
  apply Nat2Z.inj. rewrite Nat2Z.inj_mod, Nat2Z.inj_add, Z2Nat.id by lia.
  change (Z.of_nat 8) with 8. rewrite Z.add_mod, H2 by lia. reflexivity.
Qed.

#[global] Instance action : Action t :=
  {| act_serialize := serialize; act_len := len |}.

#[global] Instance action_laws : ActionLaws t.
Proof.
  split.
  - intros a buf off buf' Hl H. simpl in *.
    destruct (data a) as [d|] eqn:Hd.
    + destruct (action_serialize_spec a d buf off buf' Hd Hl H) as (h & Hh & ->).
      exists (h ++ d). split; [done|].
      pose proof (fpack_length _ _ _ Hh) as Hhl. unfold fmt_size in Hhl; simpl in Hhl.
      rewrite length_app. pose proof (len_bounds a d Hd). lia.
    + unfold serialize in H. rewrite Hd in H.
      by apply bind_Ok in H as (? & _ & H).
  - intros a. simpl. destruct (data a) as [d|] eqn:Hd.
    + by apply (len_bounds a d Hd).
    + unfold len. by rewrite Hd.
Qed.

End ActionExperimenterUnknown.

(** ** Output action *)

Module ActionOutput.

Record t := Mk { port : Z; max_len : Z }.

#[global] Instance t_eq_dec : EqDecision t.
Proof. solve_decision. Defined.

Definition serialize (a : t) (buf : bytes) (offset : nat) : res bytes :=
  msg_pack_into OFP_ACTION_OUTPUT_PACK_STR buf offset
    [VInt OFPAT_OUTPUT; VInt OFP_ACTION_OUTPUT_SIZE; VInt (port a); VInt (max_len a)].

Definition parser (buf : bytes) (offset : nat) : res t :=
  vs ← unpack_from OFP_ACTION_OUTPUT_PACK_STR buf offset;
  match vs with
  | [VInt type_; VInt len_; VInt port; VInt max_len] => Ok (Mk port max_len)
  | _ => Err ValueError
  end.

#[global] Instance action : Action t :=
  {| act_serialize := serialize; act_len := fun _ => Z.to_nat OFP_ACTION_OUTPUT_SIZE |}.

#[global] Instance action_laws : ActionLaws t.
Proof.
  split; [|done].
  intros a buf off buf' Hl H. simpl in *. unfold serialize in H. fmt_eval.
  destruct (fpack (Format Big [Fi 2; Fi 2; Fi 4; Fi 2; Fx 6])
     [VInt OFPAT_OUTPUT; VInt OFP_ACTION_OUTPUT_SIZE; VInt (port a); VInt (max_len a)])
     as [h|e] eqn:Hh.
  - rewrite (fmsg_pack_into_gap _ _ _ _ _ Hh Hl) in H. injection H as <-.
    exists h. split; [done|]. apply fpack_length in Hh. unfold fmt_size in Hh.
    simpl in Hh. rewrite Hh. unfold OFP_ACTION_OUTPUT_SIZE. lia.
  - exfalso. unfold fmsg_pack_into, fpack_into in H. rewrite Hh in H.
    by destruct (_ =? _)%nat.
Qed.

End ActionOutput.

(** Either kind of action in one list. *)
#[global] Instance sum_action A B `{Action A, Action B} : Action (A + B) :=
  {| act_serialize := fun x => match x with
                               | inl a => act_serialize a | inr b => act_serialize b end;
     act_len := fun x => match x with inl a => act_len a | inr b => act_len b end |}.

#[global] Instance sum_action_laws A B `{ActionLaws A, ActionLaws B} :
  ActionLaws (A + B).
Proof.
  split.
  - intros [a|b] buf off buf' Hl Hs; simpl in *; eapply act_appends; eauto.
  - intros [a|b]; simpl; apply act_aligned.
Qed.

(** ** Experimenter multipart request *)

Module ExperimenterStatsRequest.

Record t := Mk { flags : Z; experimenter : Z; exp_type : Z; data : bytes }.

#[global] Instance t_eq_dec : EqDecision t.
Proof. solve_decision. Defined.

(** [OFPExperimenterMultipart.serialize] *)
Definition multipart_serialize (experimenter exp_type : Z) (data : bytes) : res bytes :=
  buf ← msg_pack_into OFP_EXPERIMENTER_MULTIPART_HEADER_PACK_STR [] 0
          [VInt experimenter; VInt exp_type];
  Ok (buf ++ data).

(** [OFPExperimenterMultipart.parser] *)
Definition multipart_parser (buf : bytes) (offset : nat) : res (Z * Z * bytes) :=
  vs ← unpack_from OFP_EXPERIMENTER_MULTIPART_HEADER_PACK_STR buf offset;
  match vs with
  | [VInt e; VInt et] =>
      Ok (e, et, drop (offset + OFP_EXPERIMENTER_MULTIPART_HEADER_SIZE) buf)
  | _ => Err TypeError
  end.

(** [OFPMultipartRequest._serialize_body] with
    [OFPExperimenterStatsRequest._serialize_stats_body] *)
Definition serialize_body (m : t) (buf : bytes) : res bytes :=
  buf ← msg_pack_into OFP_MULTIPART_REQUEST_PACK_STR buf OFP_HEADER_SIZE
          [VInt OFPMP_EXPERIMENTER; VInt (flags m)];
  body ← multipart_serialize (experimenter m) (exp_type m) (data m);
  Ok (buf ++ body).

Definition serialize (m : t) (xid : option Z) : res bytes :=
  MsgBase.serialize OFP_VERSION OFPT_MULTIPART_REQUEST xid (serialize_body m).

End ExperimenterStatsRequest.
