(* ===== verification/Oxm.v ===== *)
(** * OXM match fields (ryu/ofproto/oxx_fields.py, oxm_fields.py, type_desc.py)

    The field descriptors of OpenFlow 1.3 with the Nicira and Beba extensions,
    the TLV serializer and parser with their experimenter headers, the integer
    type descriptors, and the new-API match serializer with its inverse loop.
    Values and masks are handled in the representation the source calls
    "internal": on-wire bytes. *)

From Stdlib Require Import ZArith Lia.
From stdpp Require Import base list gmap strings numbers.
From S2P Require Import Prelude Struct OfpMsg.

(** ** Type descriptors *)

Inductive type_desc := IntDescr (size : nat) | MacAddr | IPv4Addr | IPv6Addr.

Definition Int1 := IntDescr 1.
Definition Int2 := IntDescr 2.
Definition Int3 := IntDescr 3.
Definition Int4 := IntDescr 4.
Definition Int8 := IntDescr 8.
Definition Int16 := IntDescr 16.

Definition type_size (t : type_desc) : nat :=
  match t with IntDescr n => n | MacAddr => 6 | IPv4Addr => 4 | IPv6Addr => 16 end.

(** [IntDescr.to_user]: [ord] of an exhausted string raises [TypeError]. *)
Fixpoint int_to_user_loop (n : nat) (bin : bytes) (i : Z) : res Z :=
  match n with
  | O => Ok i
  | S n => match bin with
           | [] => Err TypeError
           | c :: bin => int_to_user_loop n bin (i * 256 + c)
           end
  end.

Definition int_to_user (size : nat) (bin : bytes) : res Z := int_to_user_loop size bin 0.

(** [IntDescr.from_user] *)
Fixpoint int_from_user_loop (n : nat) (bin : bytes) (i : Z) : bytes :=
  match n with
  | O => bin
  | S n => int_from_user_loop n (Z.land i 255 :: bin) (i / 256)
  end.

Definition int_from_user (size : nat) (i : Z) : bytes := int_from_user_loop size [] i.

(** ** Field descriptors *)

Definition OFPXMC_NXM_0 : Z := 0.
Definition OFPXMC_NXM_1 : Z := 1.
Definition OFPXMC_OPENFLOW_BASIC : Z := 0x8000.
Definition OFPXMC_PACKET_REGS : Z := 0x8001.
Definition OFPXMC_EXPERIMENTER : Z := 0xffff.
Definition ONF_EXPERIMENTER_ID : Z := 0x4f4e4600.

Inductive oxm_class :=
  | OpenFlowBasic | PacketRegs | ONFExperimenter | OldONFExperimenter
  | BebaExperimenter | NiciraExperimenter | NiciraExtended0 | NiciraExtended1.

Record desc := Desc {
  d_name : string; d_class : oxm_class; d_arg : Z; d_type : type_desc }.

(** A field number is an integer, or a pair for experimenter fields. *)
Inductive onum := NumInt (n : Z) | NumExp (exp_id exp_type : Z).

#[global] Instance onum_eq_dec : EqDecision onum.
Proof. solve_decision. Defined.

Definition class_num (c : oxm_class) : Z :=
  match c with
  | OpenFlowBasic => OFPXMC_OPENFLOW_BASIC
  | PacketRegs => OFPXMC_PACKET_REGS
  | NiciraExtended0 => OFPXMC_NXM_0
  | NiciraExtended1 => OFPXMC_NXM_1
  | _ => OFPXMC_EXPERIMENTER
  end.

Definition experimenter_id (c : oxm_class) : option Z :=
  match c with
  | ONFExperimenter | OldONFExperimenter => Some ONF_EXPERIMENTER_ID
  | BebaExperimenter => Some BEBA_EXPERIMENTER_ID
  | NiciraExperimenter => Some NX_EXPERIMENTER_ID
  | _ => None
  end.

Definition oxm_field (d : desc) : Z :=
  match d_class d with OldONFExperimenter => 0 | _ => d_arg d end.

Definition oxm_type (d : desc) : Z :=
  Z.lor (oxm_field d) (Z.shiftl (class_num (d_class d)) 7).

Definition exp_type (d : desc) : Z :=
  match d_class d with OldONFExperimenter => 2560 | _ => oxm_field d end.

Definition num (d : desc) : onum :=
  match experimenter_id (d_class d) with
  | None => NumInt (oxm_type d)
  | Some e =>
      match d_class d with
      | OldONFExperimenter => NumExp e (d_arg d)
      | _ => NumExp e (oxm_type d)
      end
  end.

Definition beba_oxm_types : list desc :=
  [ Desc "global_state" BebaExperimenter 0 Int4;
    Desc "state" BebaExperimenter 1 Int4 ].

Definition nx_oxm_types : list desc :=
  [ Desc "eth_dst_nxm" NiciraExtended0 1 MacAddr;
    Desc "eth_src_nxm" NiciraExtended0 2 MacAddr;
    Desc "tunnel_id_nxm" NiciraExtended1 16 Int8;
    Desc "tun_ipv4_src" NiciraExtended1 31 IPv4Addr;
    Desc "tun_ipv4_dst" NiciraExtended1 32 IPv4Addr;
    Desc "pkt_mark" NiciraExtended1 33 Int4;
    Desc "conj_id" NiciraExtended1 37 Int4;
    Desc "ct_state" NiciraExtended1 105 Int4;
    Desc "ct_zone" NiciraExtended1 106 Int2;
    Desc "ct_mark" NiciraExtended1 107 Int4;
    Desc "ct_label" NiciraExtended1 108 Int16;
    Desc "_dp_hash" NiciraExperimenter 0 Int4;
    Desc "reg0" NiciraExtended1 0 Int4;
    Desc "reg1" NiciraExtended1 1 Int4;
    Desc "reg2" NiciraExtended1 2 Int4;
    Desc "reg3" NiciraExtended1 3 Int4;
    Desc "reg4" NiciraExtended1 4 Int4;
    Desc "reg5" NiciraExtended1 5 Int4;
    Desc "reg6" NiciraExtended1 6 Int4;
    Desc "reg7" NiciraExtended1 7 Int4 ].

Definition oxm_types : list desc :=
  [ Desc "in_port" OpenFlowBasic 0 Int4;
    Desc "in_phy_port" OpenFlowBasic 1 Int4;
    Desc "metadata" OpenFlowBasic 2 Int8;
    Desc "eth_dst" OpenFlowBasic 3 MacAddr;
    Desc "eth_src" OpenFlowBasic 4 MacAddr;
    Desc "eth_type" OpenFlowBasic 5 Int2;
    Desc "vlan_vid" OpenFlowBasic 6 Int2;
    Desc "vlan_pcp" OpenFlowBasic 7 Int1;
    Desc "ip_dscp" OpenFlowBasic 8 Int1;
    Desc "ip_ecn" OpenFlowBasic 9 Int1;
    Desc "ip_proto" OpenFlowBasic 10 Int1;
    Desc "ipv4_src" OpenFlowBasic 11 IPv4Addr;
    Desc "ipv4_dst" OpenFlowBasic 12 IPv4Addr;
    Desc "tcp_src" OpenFlowBasic 13 Int2;
    Desc "tcp_dst" OpenFlowBasic 14 Int2;
    Desc "udp_src" OpenFlowBasic 15 Int2;
    Desc "udp_dst" OpenFlowBasic 16 Int2;
    Desc "sctp_src" OpenFlowBasic 17 Int2;
    Desc "sctp_dst" OpenFlowBasic 18 Int2;
    Desc "icmpv4_type" OpenFlowBasic 19 Int1;
    Desc "icmpv4_code" OpenFlowBasic 20 Int1;
    Desc "arp_op" OpenFlowBasic 21 Int2;
    Desc "arp_spa" OpenFlowBasic 22 IPv4Addr;
    Desc "arp_tpa" OpenFlowBasic 23 IPv4Addr;
    Desc "arp_sha" OpenFlowBasic 24 MacAddr;
    Desc "arp_tha" OpenFlowBasic 25 MacAddr;
    Desc "ipv6_src" OpenFlowBasic 26 IPv6Addr;
    Desc "ipv6_dst" OpenFlowBasic 27 IPv6Addr;
    Desc "ipv6_flabel" OpenFlowBasic 28 Int4;
    Desc "icmpv6_type" OpenFlowBasic 29 Int1;
    Desc "icmpv6_code" OpenFlowBasic 30 Int1;
    Desc "ipv6_nd_target" OpenFlowBasic 31 IPv6Addr;
    Desc "ipv6_nd_sll" OpenFlowBasic 32 MacAddr;
    Desc "ipv6_nd_tll" OpenFlowBasic 33 MacAddr;
    Desc "mpls_label" OpenFlowBasic 34 Int4;
    Desc "mpls_tc" OpenFlowBasic 35 Int1;
    Desc "mpls_bos" OpenFlowBasic 36 Int1;
    Desc "pbb_isid" OpenFlowBasic 37 Int3;
    Desc "tunnel_id" OpenFlowBasic 38 Int8;
    Desc "ipv6_exthdr" OpenFlowBasic 39 Int2;
    Desc "pbb_uca" OldONFExperimenter 2560 Int1;
    Desc "tcp_flags" OpenFlowBasic 40 Int2;
    Desc "actset_output" ONFExperimenter 43 Int4 ]
  ++ nx_oxm_types ++ beba_oxm_types.

(** [num_to_field[n]]: of two descriptors with one number the later one stays. *)
Definition field_desc (types : list desc) (n : onum) : option desc :=
  head (reverse (filter (fun d => num d = n) types)).

Definition desc_by_name (types : list desc) (s : string) : option desc :=
  head (reverse (filter (fun d => d_name d = s) types)).

(** ** Headers (ofproto_v1_3.py) *)

Definition _oxm_tlv_header (class_ field hasmask length : Z) : Z :=
  Z.lor (Z.lor (Z.lor (Z.shiftl class_ 16) (Z.shiftl field 9)) (Z.shiftl hasmask 8)) length.

Definition oxm_tlv_header (field length : Z) : Z :=
  _oxm_tlv_header OFPXMC_OPENFLOW_BASIC field 0 length.

Definition oxm_tlv_header_w (field length : Z) : Z :=
  _oxm_tlv_header OFPXMC_OPENFLOW_BASIC field 1 (length * 2).

Definition oxm_tlv_header_extract_hasmask (header : Z) : Z :=
  Z.land (Z.shiftr header 8) 1.

Definition oxm_tlv_header_extract_length (header : Z) : Z :=
  if oxm_tlv_header_extract_hasmask header =? 0
  then Z.land header 0xff else Z.land header 0xff / 2.

(** The attribute [OXM_OF_<NAME>] that [oxm_fields.generate] adds for a basic field. *)
Definition OXM_OF (s : string) : Z :=
  match desc_by_name oxm_types s with
  | Some d => oxm_tlv_header (oxm_field d) (Z.of_nat (type_size (d_type d)))
  | None => 0
  end.

(** ** Serializer *)

Definition shl9 (n : onum) : res Z :=
  match n with NumInt n => Ok (Z.shiftl n 9) | NumExp _ _ => Err TypeError end.

Section Codec.
Variable types : list desc.

Definition make_exp_hdr (n : onum) : res (onum * bytes) :=
  match field_desc types n with
  | None => Ok (n, [])
  | Some d =>
      if class_num (d_class d) =? OFPXMC_EXPERIMENTER then
        match n, experimenter_id (d_class d) with
        | NumExp exp_id et, Some did =>
            py_assert (did =? exp_id) ;;
            let oxx_type := oxm_type d in
            exp_hdr ← (if exp_type d =? 2560
                       then msg_pack_into "!IH" [] 0 [VInt did; VInt (exp_type d)]
                       else py_assert (oxx_type =?
                              Z.lor et (Z.shiftl OFPXMC_EXPERIMENTER 7)) ;;
                            msg_pack_into "!I" [] 0 [VInt did]);
            py_assert (Z.shiftr oxx_type 7 =? OFPXMC_EXPERIMENTER) ;;
            Ok (NumInt oxx_type, exp_hdr)
        | _, _ => Err TypeError
        end
      else Ok (n, [])
  end.

(** [_serialize]: an empty mask is falsy, as a missing one. *)
Definition serialize (n : onum) (value : bytes) (mask : option bytes)
    (buf : bytes) (offset : nat) : res (bytes * nat) :=
  '(n, exp_hdr) ← make_exp_hdr n;
  n9 ← shl9 n;
  let exp_hdr_len := length exp_hdr in
  let value_len := length value in
  match mask with
  | Some (m0 :: mt) =>
      let mask := m0 :: mt in
      py_assert (value_len =? length mask)%nat ;;
      let f := Format Big [Fi 4; Fs exp_hdr_len; Fs value_len; Fs (length mask)] in
      buf ← fmsg_pack_into f buf offset
              [VInt (Z.lor (Z.lor n9 (Z.shiftl 1 8))
                           (Z.of_nat (exp_hdr_len + value_len * 2)));
               VBytes exp_hdr; VBytes value; VBytes mask];
      Ok (buf, fmt_size f)
  | _ =>
      let f := Format Big [Fi 4; Fs exp_hdr_len; Fs value_len] in
      buf ← fmsg_pack_into f buf offset
              [VInt (Z.lor (Z.lor n9 (Z.shiftl 0 8))
                           (Z.of_nat (exp_hdr_len + value_len)));
               VBytes exp_hdr; VBytes value];
      Ok (buf, fmt_size f)
  end.

End Codec.

(** ** Parser *)

Record header_info := HInfo {
  h_num : onum; h_total_hdr_len : Z; h_hasmask : bool; h_value_len : Z; h_field_len : Z }.

Definition parse_header_impl (buf : bytes) (offset : nat) : res header_info :=
  vs ← unpack_from "!I" buf offset;
  match vs with
  | [VInt header] =>
      let oxx_type := Z.shiftr header 9 in
      let oxm_hasmask := negb (oxm_tlv_header_extract_hasmask header =? 0) in
      let oxx_class := Z.shiftr oxx_type 7 in
      let oxx_length := Z.land header 0xff in
      '(num, exp_hdr_len) ←
        (if oxx_class =? OFPXMC_EXPERIMENTER then
           vs ← unpack_from "!I" buf (offset + 4);
           match vs with
           | [VInt exp_id] =>
               let oxx_field := Z.land oxx_type 0x7f in
               if (exp_id =? ONF_EXPERIMENTER_ID) && (oxx_field =? 0) then
                 vs ← unpack_from "!H" buf (offset + 4 + 4);
                 match vs with
                 | [VInt exp_type] => Ok (NumExp exp_id exp_type, 6)
                 | _ => Err ValueError
                 end
               else Ok (NumExp exp_id oxx_type, 4)
           | _ => Err ValueError
           end
         else Ok (NumInt oxx_type, 0));
      let value_len := oxx_length - exp_hdr_len in
      let value_len := if oxm_hasmask then value_len / 2 else value_len in
      py_assert (0 <? value_len) ;;
      Ok (HInfo num (4 + exp_hdr_len) oxm_hasmask value_len (4 + oxx_length))
  | _ => Err ValueError
  end.

Definition parse_header (buf : bytes) (offset : nat) : res (onum * Z) :=
  h ← parse_header_impl buf offset;
  Ok (h_num h, h_field_len h - h_value_len h).

Definition parse (buf : bytes) (offset : nat) : res (onum * bytes * option bytes * nat) :=
  h ← parse_header_impl buf offset;
  let value_offset := (offset + Z.to_nat (h_total_hdr_len h))%nat in
  let f := Format Big [Fs (Z.to_nat (h_value_len h))] in
  vs ← funpack_from f buf value_offset;
  match vs with
  | [VBytes value] =>
      mask ← (if h_hasmask h then
                vs ← funpack_from f buf (value_offset + Z.to_nat (h_value_len h));
                match vs with [VBytes m] => Ok (Some m) | _ => Err ValueError end
              else Ok None);
      Ok (h_num h, value, mask, Z.to_nat (h_field_len h))
  | _ => Err ValueError
  end.

(** ** Matches (OFPMatch of ofproto_v1_3_parser.py, new API) *)

Definition OFPMT_OXM : Z := 1.

Definition field := (onum * bytes * option bytes)%type.

Definition serialize_fields (types : list desc) (fields : list field)
    (buf : bytes) (offset : nat) : res (bytes * nat) :=
  foldM (fun '(buf, off) '(n, value, mask) =>
           '(buf, l) ← serialize types n value mask buf off; Ok (buf, off + l)%nat)
        (buf, offset) fields.

(** [OFPMatch.serialize]: the buffer and the length returned. *)
Definition match_serialize (types : list desc) (fields : list field)
    (buf : bytes) (offset : nat) : res (bytes * nat) :=
  '(buf, field_offset) ← serialize_fields types fields buf (offset + calcsize "!HH");
  let length := (field_offset - offset)%nat in
  buf ← msg_pack_into "!HH" buf offset [VInt OFPMT_OXM; VInt (Z.of_nat length)];
  let pad_len := Z.to_nat (round_up (Z.of_nat length) 8 - Z.of_nat length) in
  buf ← fmsg_pack_into (Format Big [Fx pad_len]) buf field_offset [];
  Ok (buf, length + pad_len)%nat.

(** The field loop of [OFPMatch.parser]: [while length > 0].  A field is at
    least five bytes long, so [length] iterations are enough. *)
Fixpoint parse_fields (fuel : nat) (buf : bytes) (offset : nat) (length : Z) :
    res (list field) :=
  match fuel with
  | O => Ok []
  | S fuel =>
      if length <=? 0 then Ok []
      else
        '(n, value, mask, field_len) ← parse buf offset;
        rest ← parse_fields fuel buf (offset + field_len) (length - Z.of_nat field_len);
        Ok ((n, value, mask) :: rest)
  end.

Definition match_parse (buf : bytes) (offset : nat) : res (Z * Z * list field) :=
  vs ← unpack_from "!HH" buf offset;
  match vs with
  | [VInt type_; VInt length] =>
      fields ← parse_fields (Z.to_nat length) buf (offset + 4) (length - 4);
      Ok (type_, length, fields)
  | _ => Err ValueError
  end.

(** ** Properties *)

Module OxmFacts.

Lemma int_from_user_loop_spec n bin i :
  int_from_user_loop n bin i = be_encode n (i mod 256 ^ Z.of_nat n) ++ bin.
Proof.
  Local Transparent be_encode.
  revert bin i. induction n as [|n IH]; intros bin i; [done|].
  cbn [int_from_user_loop be_encode]. rewrite IH. change 255 with (Z.ones 8).
  rewrite Z.land_ones by lia. rewrite pow256_S, <- app_assoc. simpl.
  assert (0 < 256 ^ Z.of_nat n) by (apply Z.pow_pos_nonneg; lia).
  f_equal; [|f_equal].
  - f_equal. rewrite Z.rem_mul_r by lia.
    rewrite Z.add_comm, Z.mul_comm, Z.div_add_l by lia.
    rewrite (Z.div_small (i mod 256)) by (apply Z.mod_pos_bound; lia). lia.
  - rewrite Z.rem_mul_r by lia.
    rewrite Z.mul_comm, Z_mod_plus_full, Z.mod_mod by lia. done.
  Local Opaque be_encode.
Qed.

Lemma int_to_user_loop_spec bin i rest :
  int_to_user_loop (length bin) (bin ++ rest) i
    = Ok (foldl (fun acc b => acc * 256 + b) i bin).
Proof. revert i. induction bin as [|b bin IH]; intros i; [done|]. apply IH. Qed.

Lemma header_word t hm l :
  0 <= t -> 0 <= hm < 2 -> 0 <= l < 256 ->
  Z.lor (Z.lor (Z.shiftl t 9) (Z.shiftl hm 8)) l = t * 512 + hm * 256 + l.
Proof.
  intros Ht Hh Hl.
  assert (E : Z.shiftl hm 8 = hm * 2 ^ 8) by (apply Z.shiftl_mul_pow2; lia).
  rewrite lor_shiftl_add by (rewrite ?E; lia).
  replace (t * 2 ^ 9 + Z.shiftl hm 8) with (Z.shiftl (t * 2 + hm) 8)
    by (rewrite E, Z.shiftl_mul_pow2 by lia; lia).
  rewrite lor_shiftl_add by lia. lia.
Qed.

(** The fields of a header word. *)
Lemma header_word_fields t (hm : bool) l :
  0 <= t -> 0 <= l < 256 ->
  let w := t * 512 + Z.b2z hm * 256 + l in
  Z.shiftr w 9 = t
  /\ negb (oxm_tlv_header_extract_hasmask w =? 0) = hm
  /\ Z.land w 0xff = l.
Proof.
  intros Ht Hl w. unfold w. split; [|split].
  - change 512 with (2 ^ 9). rewrite <- Z.add_assoc. apply shiftr_add; [lia|].
    destruct hm; simpl; lia.
  - unfold oxm_tlv_header_extract_hasmask.
    replace (t * 512 + Z.b2z hm * 256 + l) with ((t * 2 + Z.b2z hm) * 2 ^ 8 + l) by lia.
    rewrite shiftr_add by lia. change 1 with (Z.ones 1) at 1.
    change (t * 2) with (t * 2 ^ 1). rewrite land_ones_add by (destruct hm; simpl; lia).
    by destruct hm.
  - replace (t * 512 + Z.b2z hm * 256 + l) with ((t * 2 + Z.b2z hm) * 2 ^ 8 + l) by lia.
    change 0xff with (Z.ones 8). apply land_ones_add; lia.
Qed.

(** How a field number appears on the wire: its 23-bit type and the bytes of its
    experimenter header. *)
Definition wire_form (n : onum) (t : Z) (e : bytes) : bool :=
  (0 <=? t) && (t <? 8388608) &&
  match n with
  | NumInt k => (k =? t) && negb (Z.shiftr t 7 =? OFPXMC_EXPERIMENTER) && bool_decide (e = [])
  | NumExp id et =>
      (Z.shiftr t 7 =? OFPXMC_EXPERIMENTER) && in_width 4 id &&
      if (id =? ONF_EXPERIMENTER_ID) && (Z.land t 0x7f =? 0)
      then in_width 2 et && bool_decide (e = be_encode 4 id ++ be_encode 2 et)
      else (et =? t) && bool_decide (e = be_encode 4 id)
  end.

Definition exp_hdr_wire (types : list desc) (n : onum) : bool :=
  match make_exp_hdr types n with
  | Ok (NumInt t, e) => wire_form n t e
  | _ => false
  end.

(** Every number of the OpenFlow 1.3 table is written as its own wire form. *)
Lemma oxm_types_wire : forallb (fun d => exp_hdr_wire oxm_types (num d)) oxm_types = true.
Proof. vm_compute. reflexivity. Qed.

Lemma exp_hdr_wire_known d : d ∈ oxm_types -> exp_hdr_wire oxm_types (num d) = true.
Proof.
  intros Hd. pose proof oxm_types_wire as H. rewrite forallb_forall in H.
  apply (H d). by apply list_elem_of_In.
Qed.

Lemma exp_hdr_wire_inv types n :
  exp_hdr_wire types n = true ->
  exists t e, make_exp_hdr types n = Ok (NumInt t, e) /\ wire_form n t e = true.
Proof.
  unfold exp_hdr_wire. intros H.
  destruct (make_exp_hdr types n) as [[[t|? ?] e]|]; try done. eauto.
Qed.

Lemma unpack_int w pre z rest :
  in_width w z = true ->
  funpack_from (Format Big [Fi w]) (pre ++ be_encode w z ++ rest) (length pre)
    = Ok [VInt z].
Proof.
  intros H. rewrite (unpack_from_pack (Format Big [Fi w]) [VInt z] (be_encode w z));
    [done| |done].
  unfold fpack; cbn. rewrite H. cbn. by rewrite app_nil_r.
Qed.

Lemma wire_form_bound n t e : wire_form n t e = true -> 0 <= t < 8388608.
Proof. unfold wire_form. lia. Qed.

(** Parsing the header of a serialized field. *)
(** The length of the value, from the length of the payload. *)
Lemma header_payload n (hm : bool) vl len :
  0 < vl ->
  let L := len + (if hm then vl * 2 else vl) in
  forall el, el = len ->
  (let value_len := L - el in
   let value_len := if hm then value_len / 2 else value_len in
   py_assert (0 <? value_len) ;;
   Ok (HInfo n (4 + el) hm value_len (4 + L)))
  = Ok (HInfo n (4 + len) hm vl (4 + L)).
Proof.
  intros Hvl L el ->. cbn zeta.
  assert ((if hm then (L - len) / 2 else L - len) = vl) as ->.
  { unfold L. destruct hm; [|lia].
    replace (len + vl * 2 - len) with (vl * 2) by lia. by rewrite Z.div_mul. }
  unfold py_assert. by rewrite (proj2 (Z.ltb_lt 0 vl)) by done.
Qed.

Lemma parse_header_wire n t e (hm : bool) vl pre rest :
  wire_form n t e = true -> 0 < vl ->
  Z.of_nat (length e) + (if hm then vl * 2 else vl) < 256 ->
  let L := Z.of_nat (length e) + (if hm then vl * 2 else vl) in
  parse_header_impl (pre ++ be_encode 4 (t * 512 + Z.b2z hm * 256 + L) ++ e ++ rest)
      (length pre)
    = Ok (HInfo n (4 + Z.of_nat (length e)) hm vl (4 + L)).
Proof.
  intros Hw Hvl HL L. pose proof (wire_form_bound _ _ _ Hw) as Ht.
  assert (0 <= L < 256) by (unfold L; destruct hm; lia).
  unfold parse_header_impl. fmt_eval.
  rewrite unpack_int by (apply in_width_4; destruct hm; simpl; lia).
  cbn [mbind res_bind].
  destruct (header_word_fields t hm L ltac:(lia) ltac:(lia)) as (-> & -> & ->).
  pose proof (header_payload n hm vl (Z.of_nat (length e)) Hvl) as Hcont. fold L in Hcont.
  unfold wire_form in Hw. rewrite !andb_true_iff in Hw. destruct Hw as [_ Hw].
  destruct n as [k|id et].
  - rewrite !andb_true_iff in Hw. destruct Hw as [[Hk Hc] He].
    apply Z.eqb_eq in Hk as ->. apply bool_decide_eq_true in He as ->.
    destruct (Z.shiftr t 7 =? OFPXMC_EXPERIMENTER); [done|]. by apply Hcont.
  - rewrite !andb_true_iff in Hw. destruct Hw as [[Hc Hid] He]. rewrite Hc.
    assert (Hpre : (length pre + 4)%nat
      = length (pre ++ be_encode 4 (t * 512 + Z.b2z hm * 256 + L)))
      by (by rewrite length_app, be_encode_length).
    rewrite Hpre, app_assoc.
    destruct ((id =? ONF_EXPERIMENTER_ID) && (Z.land t 127 =? 0)) eqn:Honf.
    + rewrite andb_true_iff in He. destruct He as [Het He].
      apply bool_decide_eq_true in He. subst e. rewrite <- (app_assoc (be_encode 4 id)).
      rewrite unpack_int by done. cbn [mbind res_bind]. rewrite Honf.
      set (pre' := pre ++ _). rewrite app_assoc.
      replace (length pre' + 4)%nat with (length (pre' ++ be_encode 4 id))
        by (by rewrite length_app, be_encode_length).
      rewrite unpack_int by done. cbn [mbind res_bind]. apply Hcont.
      by autorewrite with beba.
    + rewrite andb_true_iff in He. destruct He as [Het He].
      apply bool_decide_eq_true in He. subst e. apply Z.eqb_eq in Het as ->.
      rewrite unpack_int by done. cbn [mbind res_bind]. rewrite Honf.
      apply Hcont. by rewrite be_encode_length.
Qed.

(** A field that the codec can carry: its number has a wire form, its value is
    not empty, its mask has the value's length and the payload fits the 8-bit
    length. *)
Definition field_ok (types : list desc) (f : field) : Prop :=
  let '(n, v, m) := f in
  exists t e, make_exp_hdr types n = Ok (NumInt t, e) /\ wire_form n t e = true
    /\ v <> []
    /\ match m with
       | None => Z.of_nat (length e) + Z.of_nat (length v) < 256
       | Some m => length m = length v
                   /\ Z.of_nat (length e) + Z.of_nat (length v) * 2 < 256
       end.

Lemma fpack_field_fmt hdr e v :
  in_width 4 hdr = true ->
  fpack (Format Big [Fi 4; Fs (length e); Fs (length v)])
    [VInt hdr; VBytes e; VBytes v] = Ok (be_encode 4 hdr ++ e ++ v).
Proof.
  intros H. unfold fpack; cbn [f_codes f_order pack_codes]. rewrite H.
  cbn [mbind res_bind encode]. by rewrite !resize_all, app_nil_r.
Qed.

Lemma fpack_field_mask_fmt hdr e v m :
  in_width 4 hdr = true -> length m = length v ->
  fpack (Format Big [Fi 4; Fs (length e); Fs (length v); Fs (length v)])
    [VInt hdr; VBytes e; VBytes v; VBytes m] = Ok (be_encode 4 hdr ++ e ++ v ++ m).
Proof.
  intros H Hm. rewrite <- Hm at 2. unfold fpack; cbn [f_codes f_order pack_codes]. rewrite H.
  cbn [mbind res_bind encode]. by rewrite !resize_all, app_nil_r.
Qed.

Lemma unpack_bytes pre v rest n :
  n = length v ->
  funpack_from (Format Big [Fs n]) (pre ++ v ++ rest) (length pre) = Ok [VBytes v].
Proof.
  intros ->. rewrite (unpack_from_pack (Format Big [Fs (length v)]) [VBytes v] v);
    [|by unfold fpack; cbn; rewrite app_nil_r, resize_all|done].
  cbn. by rewrite resize_all.
Qed.

(** The header word of a field and its wire form. *)
Definition field_word (t : Z) (e v : bytes) (m : option bytes) : Z :=
  let hm := match m with Some _ => true | None => false end in
  t * 512 + Z.b2z hm * 256
  + (Z.of_nat (length e) + (if hm then Z.of_nat (length v) * 2 else Z.of_nat (length v))).

Definition field_wire (t : Z) (e v : bytes) (m : option bytes) : bytes :=
  be_encode 4 (field_word t e v m) ++ e ++ v ++ default [] m.

(** The payload of a field has the mask's length and fits. *)
Definition payload_ok (e v : bytes) (m : option bytes) : Prop :=
  match m with
  | Some mm => length mm = length v /\ Z.of_nat (length e) + Z.of_nat (length v) * 2 < 256
  | None => Z.of_nat (length e) + Z.of_nat (length v) < 256
  end.

Lemma field_wire_length t e v m :
  payload_ok e v m ->
  length (field_wire t e v m)
  = (4 + length e + length v + match m with Some _ => length v | None => 0 end)%nat.
Proof.
  intros H. unfold field_wire. autorewrite with beba.
  destruct m; simpl in *; lia.
Qed.

Lemma field_word_width n t e v m :
  wire_form n t e = true -> payload_ok e v m -> in_width 4 (field_word t e v m) = true.
Proof.
  intros Hw Hm. pose proof (wire_form_bound _ _ _ Hw). apply in_width_4. unfold field_word.
  destruct m; simpl in *; lia.
Qed.

Lemma serialize_field types n t e v m buf off :
  make_exp_hdr types n = Ok (NumInt t, e) -> wire_form n t e = true -> v <> [] -> payload_ok e v m ->
  (length buf <= off)%nat ->
  serialize types n v m buf off
  = Ok (buf ++ replicate (off - length buf) 0 ++ field_wire t e v m,
        length (field_wire t e v m)).
Proof.
  intros He Hw Hv Hm Hoff. pose proof (wire_form_bound _ _ _ Hw) as Ht.
  pose proof (field_word_width n t e v m Hw Hm) as Hhdr. rewrite field_wire_length by done.
  assert (Hvl : (0 < length v)%nat) by (destruct v; [done|simpl; lia]).
  unfold serialize. rewrite He. cbn [mbind res_bind shl9]. unfold field_wire.
  destruct m as [m|]; unfold payload_ok in Hm.
  - destruct Hm as [Hml Hb]. destruct m as [|m0 mt]; [simpl in *; lia|].
    set (m := m0 :: mt) in *. unfold py_assert. rewrite Hml, Nat.eqb_refl. cbn [mbind res_bind].
    replace (Z.lor _ _) with (field_word t e v (Some m))
      by (rewrite header_word by lia; unfold field_word; simpl Z.b2z; lia).
    rewrite (fmsg_pack_into_gap _ _ _ _ _ (fpack_field_mask_fmt _ e v m Hhdr Hml) Hoff).
    cbn [mbind res_bind default from_option id]. do 2 f_equal.
    unfold fmt_size. cbn [f_codes codes_size foldr code_size]. lia.
  - replace (Z.lor _ _) with (field_word t e v None)
      by (rewrite header_word by lia; unfold field_word; simpl Z.b2z; lia).
    rewrite (fmsg_pack_into_gap _ _ _ _ _ (fpack_field_fmt _ e v Hhdr) Hoff).
    cbn [mbind res_bind default from_option id]. rewrite !app_nil_r. do 2 f_equal.
    unfold fmt_size. cbn [f_codes codes_size foldr code_size]. lia.
Qed.

Lemma parse_field n t e v m pre rest :
  wire_form n t e = true -> v <> [] -> payload_ok e v m ->
  parse (pre ++ field_wire t e v m ++ rest) (length pre)
  = Ok (n, v, m, length (field_wire t e v m)).
Proof.
  intros Hw Hv Hm. rewrite field_wire_length by done. unfold field_wire.
  assert (Hvl : (0 < length v)%nat) by (destruct v; [done|simpl; lia]).
  unfold parse. rewrite <- !app_assoc.
  pose proof (parse_header_wire n t e (match m with Some _ => true | None => false end)
    (Z.of_nat (length v)) pre (v ++ default [] m ++ rest) Hw ltac:(lia)
    ltac:(unfold payload_ok in Hm; destruct m; lia)) as Hp.
  cbn zeta in Hp. fold (field_word t e v m) in Hp. rewrite Hp. cbn [mbind res_bind].
  cbn [h_total_hdr_len h_value_len h_hasmask h_num h_field_len]. rewrite Nat2Z.id.
  set (hdr := field_word t e v m).
  replace (length pre + Z.to_nat (4 + Z.of_nat (length e)))%nat
    with (length (pre ++ be_encode 4 hdr ++ e)) by (autorewrite with beba; lia).
  rewrite (app_assoc (be_encode 4 hdr)), (app_assoc pre).
  rewrite unpack_bytes by done. cbn [mbind res_bind].
  destruct m as [m|]; unfold payload_ok in Hm.
  - destruct Hm as [Hml Hb]. cbn [default from_option id].
    replace (length (pre ++ be_encode 4 hdr ++ e) + length v)%nat
      with (length ((pre ++ be_encode 4 hdr ++ e) ++ v)) by (by rewrite length_app).
    rewrite (app_assoc _ v), unpack_bytes by done. cbn [mbind res_bind]. do 2 f_equal. lia.
  - cbn [mbind res_bind]. do 2 f_equal. lia.
Qed.

(** Serializing one field at or past the end of the buffer, and parsing it back
    from wherever it ends up. *)
Lemma serialize_parse_field types n v m :
  field_ok types (n, v, m) ->
  exists w, (5 <= length w <= 259)%nat
    /\ (forall buf off, (length buf <= off)%nat ->
          serialize types n v m buf off
            = Ok (buf ++ replicate (off - length buf) 0 ++ w, length w))
    /\ (forall pre rest, parse (pre ++ w ++ rest) (length pre) = Ok (n, v, m, length w)).
Proof.
  intros (t & e & He & Hw & Hv & Hm).
  assert (Hp : payload_ok e v m) by (unfold payload_ok; destruct m; done).
  assert (Hvl : (0 < length v)%nat) by (destruct v; [done|simpl; lia]).
  exists (field_wire t e v m). split.
  - rewrite field_wire_length by done. unfold payload_ok in Hp. destruct m; lia.
  - split; intros; [by eapply serialize_field|by eapply parse_field].
Qed.

(** Several fields in a row. *)
Lemma serialize_parse_fields types fs :
  Forall (field_ok types) fs ->
  exists w,
    (fs = [] -> w = []) /\ (fs <> [] -> 0 < length w)%nat
    /\ (length fs <= length w <= 259 * length fs)%nat
    /\ (forall buf off, (length buf <= off)%nat ->
          serialize_fields types fs buf off
            = Ok (match fs with [] => buf
                  | _ => buf ++ replicate (off - length buf) 0 ++ w end,
                  (off + length w)%nat))
    /\ (forall fuel pre rest, (length fs < fuel)%nat ->
          parse_fields fuel (pre ++ w ++ rest) (length pre) (Z.of_nat (length w)) = Ok fs).
Proof.
  induction fs as [|[[n v] m] fs IH]; intros H.
  - exists []. split_and!; try done.
    + intros buf off _. unfold serialize_fields; simpl. by rewrite Nat.add_0_r.
    + intros [|fuel] pre rest Hf; done.
  - apply Forall_cons_1 in H as [Hf H].
    destruct (IH H) as (w & Hw0 & Hw1 & Hwl & Hs & Hp).
    destruct (serialize_parse_field types n v m Hf) as (w1 & Hl1 & Hs1 & Hp1).
    exists (w1 ++ w). rewrite length_app. split_and!; try done; [lia|simpl; lia|simpl length; lia| |].
    + intros buf off Hoff. unfold serialize_fields. simpl.
      rewrite Hs1 by done. cbn [mbind res_bind].
      unfold serialize_fields in Hs. rewrite Hs.
      * rewrite !length_app, length_replicate.
        replace (off + length w1 - (length buf + (off - length buf + length w1)))%nat
          with 0%nat by lia. simpl. rewrite Nat.add_assoc.
        destruct fs; [|by rewrite <- !app_assoc].
        rewrite Hw0, app_nil_r by done. done.
      * rewrite !length_app, length_replicate. lia.
    + intros [|fuel] pre rest Hfuel; [lia|]. cbn [parse_fields].
      rewrite (proj2 (Z.leb_gt _ 0)) by lia.
      rewrite <- app_assoc, Hp1. cbn [mbind res_bind].
      replace (Z.of_nat (length w1 + length w) - Z.of_nat (length w1))
        with (Z.of_nat (length w)) by lia.
      replace (length pre + length w1)%nat with (length (pre ++ w1))
        by (by rewrite length_app).
      rewrite app_assoc, Hp by (simpl in Hfuel; lia). done.
Qed.

(** The loop has ended when the fuel is the length: more changes nothing. *)
Lemma parse_header_impl_len buf off h :
  parse_header_impl buf off = Ok h -> 0 < h_value_len h /\ 4 <= h_field_len h.
Proof.
  unfold parse_header_impl. fmt_eval. intros H.
  apply bind_Ok in H as (vs & _ & H). destruct vs as [|[z|?] [|? ?]]; try done.
  apply bind_Ok in H as ([nn el] & _ & H).
  match type of H with (py_assert ?c ≫= _) = _ => destruct c eqn:Hc end; [|done].
  injection H as <-. cbn. apply Z.ltb_lt in Hc. split; [done|].
  assert (0 <= Z.land z 255) by (apply Z.land_nonneg; lia). lia.
Qed.

Lemma parse_len buf off n v m l : parse buf off = Ok (n, v, m, l) -> (4 <= l)%nat.
Proof.
  unfold parse. intros H. apply bind_Ok in H as (h & Hh & H).
  apply parse_header_impl_len in Hh as [_ Hh].
  apply bind_Ok in H as (vs & _ & H). destruct vs as [|[?|b] [|? ?]]; try done.
  apply bind_Ok in H as (mk & _ & H). injection H as _ _ _ <-. lia.
Qed.

Lemma parse_fields_fuel fuel fuel' buf off len :
  len <= Z.of_nat fuel -> (fuel <= fuel')%nat ->
  parse_fields fuel buf off len = parse_fields fuel' buf off len.
Proof.
  revert fuel' off len. induction fuel as [|fuel IH]; intros fuel' off len H H'.
  - destruct fuel'; [done|]. cbn [parse_fields].
    by rewrite (proj2 (Z.leb_le len 0)) by lia.
  - destruct fuel' as [|fuel']; [lia|]. cbn [parse_fields].
    destruct (len <=? 0); [done|].
    destruct (parse buf off) as [[[[n v] m] l]|] eqn:E; [|done]. cbn [mbind res_bind].
    apply parse_len in E. rewrite (IH fuel') by lia. done.
Qed.

(** ** The layout of a match *)

Lemma match_header len : 0 <= len < 65536 ->
  exists h, fpack (Format Big [Fi 2; Fi 2]) [VInt OFPMT_OXM; VInt len] = Ok h
            /\ length h = 4%nat.
Proof.
  intros Hl. exists (be_encode 2 OFPMT_OXM ++ be_encode 2 len).
  split; [|by autorewrite with beba].
  unfold fpack; cbn [f_codes f_order pack_codes].
  change (in_width 2 OFPMT_OXM) with true.
  rewrite (in_width_2 len) by done. cbn [mbind res_bind encode]. by rewrite app_nil_r.
Qed.

Lemma match_serialize_layout types fs buf w h :
  let len := Z.of_nat (4 + length w) in
  let pad := Z.to_nat (round_up len 8 - len) in
  (fs = [] -> w = []) ->
  (forall buf off, (length buf <= off)%nat ->
     serialize_fields types fs buf off
     = Ok (match fs with [] => buf | _ => buf ++ replicate (off - length buf) 0 ++ w end,
           (off + length w)%nat)) ->
  fpack (Format Big [Fi 2; Fi 2]) [VInt OFPMT_OXM; VInt len] = Ok h -> length h = 4%nat ->
  match_serialize types fs buf (length buf)
  = Ok (buf ++ h ++ w ++ replicate pad 0, (4 + length w + pad)%nat).
Proof.
  intros len pad Hw0 Hs Hh Hhl. unfold match_serialize. change (calcsize "!HH") with 4%nat.
  rewrite Hs by lia. cbn [mbind res_bind].
  replace (length buf + 4 + length w - length buf)%nat with (4 + length w)%nat by lia.
  fold len. fold pad. fmt_eval.
  assert (fmsg_pack_into (Format Big [Fi 2; Fi 2])
            match fs with [] => buf
            | _ => buf ++ replicate (length buf + 4 - length buf) 0 ++ w end
            (length buf) [VInt OFPMT_OXM; VInt len] = Ok (buf ++ h ++ w)) as ->.
  { destruct fs as [|f fs'].
    - rewrite (fmsg_pack_into_end _ _ _ _ Hh), Hw0, app_nil_r by done. done.
    - replace (length buf + 4 - length buf)%nat with 4%nat by lia.
      by rewrite (fmsg_pack_into_inside _ buf (replicate 4 0) w _ h Hh). }
  cbn [mbind res_bind].
  replace (length buf + 4 + length w)%nat with (length (buf ++ h ++ w))
    by (rewrite !length_app; lia).
  rewrite (fmsg_pack_into_end _ _ _ (replicate pad 0))
    by (unfold fpack; cbn; by rewrite app_nil_r).
  cbn [mbind res_bind]. by rewrite <- !app_assoc.
Qed.

Lemma exp_hdr_len n t e : wire_form n t e = true -> (length e <= 6)%nat.
Proof.
  unfold wire_form. rewrite !andb_true_iff. intros [_ H]. destruct n as [k|id et].
  - rewrite !andb_true_iff in H. destruct H as [_ H].
    apply bool_decide_eq_true in H as ->. simpl. lia.
  - rewrite !andb_true_iff in H. destruct H as [_ H].
    destruct (_ && _); rewrite andb_true_iff in H; destruct H as [_ H];
      apply bool_decide_eq_true in H as ->; rewrite ?length_app, !be_encode_length; lia.
Qed.

(** A value (and mask) of the size its descriptor prescribes. *)
Definition well_sized (f : field) : Prop :=
  exists d, d ∈ oxm_types /\ f.1.1 = num d
    /\ length f.1.2 = type_size (d_type d)
    /\ match f.2 with None => True | Some m => length m = length f.1.2 end.

Lemma type_size_bounds d : d ∈ oxm_types -> (0 < type_size (d_type d) <= 16)%nat.
Proof.
  assert (H : forallb (fun d => (0 <? type_size (d_type d)) && (type_size (d_type d) <=? 16))%nat
                oxm_types = true) by (vm_compute; reflexivity).
  rewrite forallb_forall in H. intros Hd%list_elem_of_In. specialize (H d Hd).
  apply andb_true_iff in H as [H1%Nat.ltb_lt H2%Nat.leb_le]. lia.
Qed.

Lemma well_sized_ok f : well_sized f -> field_ok oxm_types f.
Proof.
  destruct f as [[n v] m]. intros (d & Hd & Hn & Hv & Hm). simpl in *. subst n.
  destruct (exp_hdr_wire_inv _ _ (exp_hdr_wire_known d Hd)) as (t & e & He & Hw).
  exists t, e. pose proof (exp_hdr_len _ _ _ Hw). pose proof (type_size_bounds d Hd).
  split_and!; try done.
  - intros ->. simpl in Hv. lia.
  - destruct m; [|lia]. split; [done|lia].
Qed.

(** A whole match on the wire: the bytes do not depend on where they are written. *)
Lemma match_wire_uniform fs (Hf : Forall well_sized fs) (Hn : (length fs <= 200)%nat) :
  exists w len, (length w mod 8 = 0)%nat /\ Z.of_nat (length w) = round_up len 8
    /\ (length w <= 12 + 259 * length fs)%nat
    /\ (forall buf, match_serialize oxm_types fs buf (length buf) = Ok (buf ++ w, length w))
    /\ forall buf rest, match_parse (buf ++ w ++ rest) (length buf) = Ok (OFPMT_OXM, len, fs).
Proof.
  destruct (serialize_parse_fields oxm_types fs) as (w & Hw0 & Hw1 & Hwl & Hs & Hp).
  { revert Hf. apply Forall_impl, well_sized_ok. }
  set (len := Z.of_nat (4 + length w)).
  destruct (match_header len) as (h & Hh & Hhl); [unfold len; lia|].
  set (pad := Z.to_nat (round_up len 8 - len)).
  exists (h ++ w ++ replicate pad 0), len.
  assert (Hwlen : length (h ++ w ++ replicate pad 0) = (4 + length w + pad)%nat)
    by (rewrite !length_app, length_replicate; lia).
  pose proof (round_up_spec len 8 ltac:(lia)) as [Hr1 Hr2].
  rewrite Hwlen. split; [|split; [|split; [|split]]].
  - apply Nat2Z.inj. rewrite Nat2Z.inj_mod. etransitivity; [|exact Hr2]. f_equal.
    unfold pad. rewrite Nat2Z.inj_add, Z2Nat.id by lia. fold len. lia.
  - unfold pad; rewrite Nat2Z.inj_add, Z2Nat.id by lia; fold len; lia.
  - unfold pad. lia.
  - intros buf. by apply match_serialize_layout.
  - intros buf rest. unfold match_parse. fmt_eval. rewrite <- !app_assoc.
    rewrite (unpack_from_pack _ _ _ buf _ _ Hh eq_refl). cbn [fit_args f_codes mbind res_bind].
    replace (length buf + 4)%nat with (length (buf ++ h)) by (rewrite length_app; lia).
    rewrite (app_assoc buf h).
    replace (len - 4) with (Z.of_nat (length w)) by (unfold len; lia).
    rewrite Hp by (unfold len; lia). done.
Qed.

Lemma match_wire fs buf rest
    (Hf : Forall well_sized fs) (Hn : (length fs <= 200)%nat) :
  exists w, match_serialize oxm_types fs buf (length buf) = Ok (buf ++ w, length w)
    /\ (length w mod 8 = 0)%nat
    /\ exists len, Z.of_nat (length w) = round_up len 8
       /\ match_parse ((buf ++ w) ++ rest) (length buf) = Ok (OFPMT_OXM, len, fs).
Proof.
  destruct (match_wire_uniform fs Hf Hn) as (w & len & H8 & Hl & _ & Hs & Hp).
  exists w. split; [done|]. split; [done|]. exists len. by rewrite <- app_assoc.
Qed.

End OxmFacts.

Module OxmClaims.
Import OxmFacts.

(** Every match field of the table - basic, Nicira, ONF and the Beba [state] and
    [global_state] - survives the wire: a value of the prescribed size, with or
    without a mask, is written at the end of the buffer and read back with the
    same number, value and mask, consuming exactly the bytes written. *)
Theorem oxm_field_roundtrip d v m buf rest
    (Hd : d ∈ oxm_types) (Hv : length v = type_size (d_type d))
    (Hm : match m with None => True | Some m => length m = length v end) :
  exists w,
    serialize oxm_types (num d) v m buf (length buf) = Ok (buf ++ w, length w)
    /\ parse ((buf ++ w) ++ rest) (length buf) = Ok (num d, v, m, length w).
Proof.
  destruct (serialize_parse_field oxm_types (num d) v m) as (w & _ & Hs & Hp).
  { apply well_sized_ok. by exists d. }
  exists w. rewrite Hs, Nat.sub_diag by done. split; [done|].
  rewrite <- app_assoc. apply Hp.
Qed.

Lemma oxm_field_roundtrip_witness :
  exists w, serialize oxm_types (num (Desc "state" BebaExperimenter 1 Int4))
              [0; 0; 0; 7] (Some [0; 0; 0; 255]) [42] 1 = Ok ([42] ++ w, length w)
    /\ length w = 16%nat.
Proof.
  destruct (oxm_field_roundtrip (Desc "state" BebaExperimenter 1 Int4) [0; 0; 0; 7]
              (Some [0; 0; 0; 255]) [42] []) as (w & H1 & _).
  - apply list_elem_of_In. vm_compute. tauto.
  - reflexivity.
  - reflexivity.
  - exists w. split; [exact H1|]. vm_compute in H1. injection H1 as <-. reflexivity.
Defined.

(** A whole match survives the wire: the fields, written in order behind the
    type and length words and padded to a multiple of eight, are parsed back as
    the same list; the padded length returned is the number of bytes written. *)
Theorem match_roundtrip fs buf rest
    (Hf : Forall well_sized fs) (Hn : (length fs <= 200)%nat) :
  exists w, match_serialize oxm_types fs buf (length buf) = Ok (buf ++ w, length w)
    /\ (length w mod 8 = 0)%nat
    /\ exists len, Z.of_nat (length w) = round_up len 8
       /\ match_parse ((buf ++ w) ++ rest) (length buf) = Ok (OFPMT_OXM, len, fs).
Proof. by apply match_wire. Qed.

Lemma match_roundtrip_witness :
  exists w, match_serialize oxm_types
     [(num (Desc "eth_type" OpenFlowBasic 5 Int2), [8; 0], None);
      (num (Desc "state" BebaExperimenter 1 Int4), [0; 0; 0; 7], None)] [1; 2] 2
     = Ok ([1; 2] ++ w, length w) /\ (length w mod 8 = 0)%nat.
Proof.
  destruct (match_roundtrip
     [(num (Desc "eth_type" OpenFlowBasic 5 Int2), [8; 0], None);
      (num (Desc "state" BebaExperimenter 1 Int4), [0; 0; 0; 7], None)] [1; 2] [])
    as (w & H1 & H2 & _).
  - repeat constructor.
    + exists (Desc "eth_type" OpenFlowBasic 5 Int2).
      split; [apply list_elem_of_In; vm_compute; tauto|]. repeat split.
    + exists (Desc "state" BebaExperimenter 1 Int4).
      split; [apply list_elem_of_In; vm_compute; tauto|]. repeat split.
  - simpl. lia.
  - exists w. split; [exact H1|exact H2].
Defined.

(** User values of an integer field: whatever integer is given, [from_user]
    keeps its low [size] bytes without complaint, and [to_user] reads that back;
    an in-range value is therefore preserved, and an out-of-range one is
    silently reduced. *)
Theorem int_user_roundtrip size i :
  length (int_from_user size i) = size
  /\ int_to_user size (int_from_user size i) = Ok (i mod 256 ^ Z.of_nat size).
Proof.
  assert (Hb : 0 < 256 ^ Z.of_nat size) by (apply Z.pow_pos_nonneg; lia).
  unfold int_from_user, int_to_user. rewrite int_from_user_loop_spec, app_nil_r.
  split; [apply be_encode_length|].
  pose proof (int_to_user_loop_spec (be_encode size (i mod 256 ^ Z.of_nat size)) 0 []) as H.
  rewrite be_encode_length, app_nil_r in H. rewrite H. f_equal.
  apply be_decode_encode. by apply Z.mod_pos_bound.
Qed.

End OxmClaims.
