(* ===== verification/BebaProto.v ===== *)
(** * Constants of the Beba extension (ryu/ofproto/beba_v1_0.py)

    The pack strings are kept as the source's format strings; [struct_asserts]
    is the module's list of [assert calcsize(...) == ...] statements. *)

From Stdlib Require Import ZArith Lia.
From stdpp Require Import base list gmap strings numbers.
From S2P Require Import Prelude Struct OfpMsg.

Definition OFP_OXM_EXPERIMENTER_HEADER_SIZE : nat := 8.

Definition OFP_EXP_STATE_MOD_PACK_STR : string := "!Bx".
Definition OFP_EXP_STATE_MOD_SIZE : nat := 18.
Definition OFP_EXP_STATE_MOD_STATEFUL_TABLE_CONFIG_PACK_STR : string := "!BB".
Definition OFP_EXP_STATE_MOD_STATEFUL_TABLE_CONFIG_SIZE : nat := 2.
Definition MAX_FIELD_COUNT : nat := 6.
Definition OFP_EXP_STATE_MOD_EXTRACTOR_PACK_STR : string := "!B3xB3xI".
Definition OFP_EXP_STATE_MOD_EXTRACTOR_SIZE : nat := 12.
Definition MAX_KEY_LEN : nat := 48.
Definition OFP_EXP_STATE_MOD_SET_FLOW_STATE_PACK_STR : string := "!B3xIIIIIII".
Definition OFP_EXP_STATE_MOD_SET_FLOW_ENTRY_SIZE : nat := 32.
Definition OFP_EXP_STATE_MOD_DEL_FLOW_STATE_PACK_STR : string := "!B3xI".
Definition OFP_EXP_STATE_MOD_DEL_FLOW_ENTRY_SIZE : nat := 8.
Definition OFP_EXP_STATE_MOD_SET_GLOBAL_STATE_PACK_STR : string := "!II".
Definition OFP_EXP_STATE_MOD_SET_GLOBAL_ENTRY_SIZE : nat := 8.
Definition OFP_EXP_ACTION_SET_STATE_PACK_STR : string := "!I4xIIB3xIIIIB3x".
Definition OFP_EXP_ACTION_SET_STATE_SIZE : nat := 40.
Definition OFP_EXP_ACTION_SET_GLOBAL_STATE_PACK_STR : string := "!I4xII".
Definition OFP_EXP_ACTION_SET_GLOBAL_STATE_SIZE : nat := 16.
Definition OFP_EXP_ACTION_INC_STATE_PACK_STR : string := "!I4xB7x".
Definition OFP_EXP_ACTION_INC_STATE_SIZE : nat := 16.
Definition OFP_STATE_STATS_REQUEST_0_PACK_STR : string := "!BB2xI".
Definition OFP_STATE_STATS_REQUEST_0_SIZE : nat := 8.
Definition OFP_STATE_STATS_PACK_STR : string := "!HBBIIIIIII".
Definition OFP_STATE_STATS_SIZE : nat := 32.
Definition OFP_STATE_STATS_SHORT_PACK_STR : string := "!HBBI".
Definition OFP_STATE_STATS_SHORT_SIZE : nat := 8.
Definition OFP_EXP_PKTTMP_MOD_PACK_STR : string := "!Bx".
Definition OFP_EXP_PKTTMP_MOD_SIZE : nat := 18.
Definition OFP_EXP_PKTTMP_MOD_ADD_PKTTMP_PACK_STR : string := "!I4x".
Definition OFP_EXP_PKTTMP_MOD_ADD_PKTTMP_SIZE : nat := 8.
Definition OFP_EXP_PKTTMP_MOD_DEL_PKTTMP_PACK_STR : string := "!I4x".
Definition OFP_EXP_PKTTMP_MOD_DEL_PKTTMP_SIZE : nat := 8.
Definition OFP_INSTRUCTION_INSWITCH_PKT_GEN_PACK_STR : string := "!HHII4xI4x".
Definition OFP_INSTRUCTION_INSWITCH_PKT_GEN_SIZE : nat := 24.

(** The assertions evaluated when the module is imported, in their order. *)
Definition struct_asserts : list (nat * nat) :=
  [ (calcsize OFP_EXP_STATE_MOD_PACK_STR + OFP_HEADER_SIZE
       + OFP_OXM_EXPERIMENTER_HEADER_SIZE, OFP_EXP_STATE_MOD_SIZE);
    (calcsize OFP_EXP_STATE_MOD_STATEFUL_TABLE_CONFIG_PACK_STR,
       OFP_EXP_STATE_MOD_STATEFUL_TABLE_CONFIG_SIZE);
    (calcsize OFP_EXP_STATE_MOD_EXTRACTOR_PACK_STR, OFP_EXP_STATE_MOD_EXTRACTOR_SIZE);
    (calcsize OFP_EXP_STATE_MOD_SET_FLOW_STATE_PACK_STR,
       OFP_EXP_STATE_MOD_SET_FLOW_ENTRY_SIZE);
    (calcsize OFP_EXP_STATE_MOD_DEL_FLOW_STATE_PACK_STR,
       OFP_EXP_STATE_MOD_DEL_FLOW_ENTRY_SIZE);
    (calcsize OFP_EXP_STATE_MOD_SET_GLOBAL_STATE_PACK_STR,
       OFP_EXP_STATE_MOD_SET_GLOBAL_ENTRY_SIZE);
    (calcsize OFP_EXP_ACTION_SET_STATE_PACK_STR, OFP_EXP_ACTION_SET_STATE_SIZE);
    (calcsize OFP_EXP_ACTION_SET_GLOBAL_STATE_PACK_STR,
       OFP_EXP_ACTION_SET_GLOBAL_STATE_SIZE);
    (calcsize OFP_EXP_ACTION_INC_STATE_PACK_STR, OFP_EXP_ACTION_INC_STATE_SIZE);
    (calcsize OFP_STATE_STATS_REQUEST_0_PACK_STR, OFP_STATE_STATS_REQUEST_0_SIZE);
    (calcsize OFP_STATE_STATS_PACK_STR, OFP_STATE_STATS_SIZE);
    (calcsize OFP_STATE_STATS_SHORT_PACK_STR, OFP_STATE_STATS_SHORT_SIZE);
    (calcsize OFP_EXP_PKTTMP_MOD_PACK_STR + OFP_HEADER_SIZE
       + OFP_OXM_EXPERIMENTER_HEADER_SIZE, OFP_EXP_PKTTMP_MOD_SIZE);
    (calcsize OFP_EXP_PKTTMP_MOD_ADD_PKTTMP_PACK_STR, OFP_EXP_PKTTMP_MOD_ADD_PKTTMP_SIZE);
    (calcsize OFP_EXP_PKTTMP_MOD_DEL_PKTTMP_PACK_STR, OFP_EXP_PKTTMP_MOD_DEL_PKTTMP_SIZE);
    (calcsize OFP_INSTRUCTION_INSWITCH_PKT_GEN_PACK_STR,
       OFP_INSTRUCTION_INSWITCH_PKT_GEN_SIZE) ]%nat.

(** The module imports: every assertion holds. *)
Lemma struct_asserts_hold : Forall (fun p => p.1 = p.2) struct_asserts.
Proof. repeat constructor. Qed.

(** enum ofp_exp_messages *)
Definition OFPT_EXP_STATE_MOD : Z := 0.
Definition OFPT_EXP_PKTTMP_MOD : Z := 1.
Definition OFPT_EXP_STATE_CHANGED : Z := 2.
Definition OFPT_EXP_FLOW_NOTIFICATION : Z := 3.

(** enum ofp_state_mod_command *)
Definition OFPSC_EXP_STATEFUL_TABLE_CONFIG : Z := 0.
Definition OFPSC_EXP_SET_L_EXTRACTOR : Z := 1.
Definition OFPSC_EXP_SET_U_EXTRACTOR : Z := 2.
Definition OFPSC_EXP_SET_FLOW_STATE : Z := 3.
Definition OFPSC_EXP_DEL_FLOW_STATE : Z := 4.
Definition OFPSC_EXP_SET_GLOBAL_STATE : Z := 5.
Definition OFPSC_EXP_RESET_GLOBAL_STATE : Z := 6.

(** enum ofp_pkttmp_mod_command *)
Definition OFPSC_ADD_PKTTMP : Z := 0.
Definition OFPSC_DEL_PKTTMP : Z := 1.

(** enum ofp_exp_instructions *)
Definition OFPIT_IN_SWITCH_PKT_GEN : Z := 0.

(** enum ofp_exp_actions *)
Definition OFPAT_EXP_SET_STATE : Z := 0.
Definition OFPAT_EXP_SET_GLOBAL_STATE : Z := 1.
Definition OFPAT_EXP_INC_STATE : Z := 2.

(** enum ofp_stats_extension_commands *)
Definition OFPMP_EXP_STATE_STATS : Z := 0.
Definition OFPMP_EXP_GLOBAL_STATE_STATS : Z := 1.
Definition OFPMP_EXP_STATE_STATS_AND_DELETE : Z := 2.
Definition OFPMP_EXP_STATE_STATS_SHORT : Z := 3.
Definition OFPMP_EXP_STATE_STATS_AND_DELETE_SHORT : Z := 4.
