(* ===== verification/BebaMsg.v ===== *)
(** * Beba messages, actions and instruction (ryu/ofproto/beba_v1_0_parser.py)

    The builders of the Beba experimenter actions and state-modification
    messages, the state-statistics requests, the packet-template messages and the
    in-switch packet generation instruction.  A builder either raises (a value
    does not fit its field) or returns the message object; the one that records
    lookup scopes also updates the datapath. *)

From Stdlib Require Import ZArith Lia.
From stdpp Require Import base list gmap strings numbers.
From S2P Require Import Prelude Struct OfpMsg Oxm BebaProto.

(** ** Experimenter actions *)

Module Actions.

Definition OFPExpActionSetState
    (state table_id bit hard_timeout idle_timeout hard_rollback idle_rollback
     state_mask : Z) : res ActionExperimenterUnknown.t :=
  data ← pack OFP_EXP_ACTION_SET_STATE_PACK_STR
    [VInt OFPAT_EXP_SET_STATE; VInt state; VInt state_mask; VInt table_id;
     VInt hard_rollback; VInt idle_rollback; VInt (hard_timeout * 1000000);
     VInt (idle_timeout * 1000000); VInt bit];
  Ok (ActionExperimenterUnknown.Mk 0xBEBABEBA (Some data)).

Definition OFPExpActionSetGlobalState (global_state global_state_mask : Z) :
    res ActionExperimenterUnknown.t :=
  data ← pack OFP_EXP_ACTION_SET_GLOBAL_STATE_PACK_STR
    [VInt OFPAT_EXP_SET_GLOBAL_STATE; VInt global_state; VInt global_state_mask];
  Ok (ActionExperimenterUnknown.Mk 0xBEBABEBA (Some data)).

Definition OFPExpActionIncState (table_id : Z) : res ActionExperimenterUnknown.t :=
  data ← pack OFP_EXP_ACTION_INC_STATE_PACK_STR
    [VInt OFPAT_EXP_INC_STATE; VInt table_id];
  Ok (ActionExperimenterUnknown.Mk 0xBEBABEBA (Some data)).

End Actions.

(** ** State modification messages *)

Module Messages.

(** The attribute the builders touch on a datapath object: [lookup_scope] is
    absent until the first lookup extractor is configured. *)
Record Datapath := MkDp { lookup_scope : option (gmap Z (list Z)) }.

Definition state_mod (data : bytes) : Experimenter.t :=
  Experimenter.Mk 0xBEBABEBA OFPT_EXP_STATE_MOD (Some data).

(** [for v in vs: data += struct.pack(fmt, v)] *)
Definition append_packed (fmt : string) (data : bytes) (vs : list Z) : res bytes :=
  foldM (fun data v => b ← pack fmt [VInt v]; Ok (data ++ b)) data vs.

Definition OFPExpMsgConfigureStatefulTable (stateful table_id : Z) :
    res Experimenter.t :=
  d1 ← pack OFP_EXP_STATE_MOD_PACK_STR [VInt OFPSC_EXP_STATEFUL_TABLE_CONFIG];
  d2 ← pack OFP_EXP_STATE_MOD_STATEFUL_TABLE_CONFIG_PACK_STR
         [VInt table_id; VInt stateful];
  Ok (state_mod (d1 ++ d2)).

Definition OFPExpMsgKeyExtract (datapath : Datapath) (command : Z)
    (fields : list Z) (table_id bit : Z) : res (Experimenter.t * Datapath) :=
  let field_count :=
    if (MAX_FIELD_COUNT <? length fields)%nat then 0%nat else length fields in
  d1 ← pack OFP_EXP_STATE_MOD_PACK_STR [VInt command];
  d2 ← pack OFP_EXP_STATE_MOD_EXTRACTOR_PACK_STR
         [VInt table_id; VInt bit; VInt (Z.of_nat field_count)];
  data ← (if (field_count <=? MAX_FIELD_COUNT)%nat
          then append_packed "!I" (d1 ++ d2) (take field_count fields)
          else Ok (d1 ++ d2));
  let datapath :=
    if command =? OFPSC_EXP_SET_L_EXTRACTOR then
      match lookup_scope datapath with
      | Some m => MkDp (Some (<[table_id := fields]> m))
      | None => MkDp (Some {[table_id := fields]})
      end
    else datapath in
  Ok (state_mod data, datapath).

Definition OFPExpMsgSetFlowState (state : Z) (keys : list Z)
    (table_id idle_timeout idle_rollback hard_timeout hard_rollback state_mask : Z) :
    res Experimenter.t :=
  let key_count :=
    if (MAX_KEY_LEN <? length keys)%nat then 0%nat else length keys in
  d1 ← pack OFP_EXP_STATE_MOD_PACK_STR [VInt OFPSC_EXP_SET_FLOW_STATE];
  d2 ← pack OFP_EXP_STATE_MOD_SET_FLOW_STATE_PACK_STR
         [VInt table_id; VInt (Z.of_nat key_count); VInt state; VInt state_mask;
          VInt hard_rollback; VInt idle_rollback; VInt (hard_timeout * 1000000);
          VInt (idle_timeout * 1000000)];
  data ← (if (key_count <=? MAX_KEY_LEN)%nat
          then append_packed "!B" (d1 ++ d2) (take key_count keys)
          else Ok (d1 ++ d2));
  Ok (state_mod data).

Definition OFPExpMsgDelFlowState (keys : list Z) (table_id : Z) :
    res Experimenter.t :=
  let key_count :=
    if (MAX_KEY_LEN <? length keys)%nat then 0%nat else length keys in
  d1 ← pack OFP_EXP_STATE_MOD_PACK_STR [VInt OFPSC_EXP_DEL_FLOW_STATE];
  d2 ← pack OFP_EXP_STATE_MOD_DEL_FLOW_STATE_PACK_STR
         [VInt table_id; VInt (Z.of_nat key_count)];
  data ← (if (key_count <=? MAX_KEY_LEN)%nat
          then append_packed "!B" (d1 ++ d2) (take key_count keys)
          else Ok (d1 ++ d2));
  Ok (state_mod data).

Definition OFPExpSetGlobalState (global_state global_state_mask : Z) :
    res Experimenter.t :=
  d1 ← pack OFP_EXP_STATE_MOD_PACK_STR [VInt OFPSC_EXP_SET_GLOBAL_STATE];
  d2 ← pack OFP_EXP_STATE_MOD_SET_GLOBAL_STATE_PACK_STR
         [VInt global_state; VInt global_state_mask];
  Ok (state_mod (d1 ++ d2)).

Definition OFPExpResetGlobalState : res Experimenter.t :=
  data ← pack OFP_EXP_STATE_MOD_PACK_STR [VInt OFPSC_EXP_RESET_GLOBAL_STATE];
  Ok (state_mod data).

(** ** Packet templates *)

Definition OFPExpMsgAddPktTmp (pkttmp_id : Z) (pkt_data : bytes) :
    res Experimenter.t :=
  d1 ← pack OFP_EXP_PKTTMP_MOD_PACK_STR [VInt OFPSC_ADD_PKTTMP];
  d2 ← pack OFP_EXP_PKTTMP_MOD_ADD_PKTTMP_PACK_STR [VInt pkttmp_id];
  Ok (Experimenter.Mk 0xBEBABEBA OFPT_EXP_PKTTMP_MOD (Some (d1 ++ d2 ++ pkt_data))).

Definition OFPExpMsgDelPktTmp (pkttmp_id : Z) : res Experimenter.t :=
  d1 ← pack OFP_EXP_PKTTMP_MOD_PACK_STR [VInt OFPSC_DEL_PKTTMP];
  d2 ← pack OFP_EXP_PKTTMP_MOD_DEL_PKTTMP_PACK_STR [VInt pkttmp_id];
  Ok (Experimenter.Mk 0xBEBABEBA OFPT_EXP_PKTTMP_MOD (Some (d1 ++ d2))).

(** ** State statistics requests

    A match is given by its fields; [OFPMatch()] has none. *)
Definition OFPExpStateStatsMultipartRequestBase (exp_type table_id : Z) (state : option Z)
    (match_ : option (list field)) : res ExperimenterStatsRequest.t :=
  let get_from_state := match state with None => 0 | Some _ => 1 end in
  let state := default 0 state in
  let fields := default [] match_ in
  data ← msg_pack_into OFP_STATE_STATS_REQUEST_0_PACK_STR [] 0
           [VInt table_id; VInt get_from_state; VInt state];
  '(data, _) ← match_serialize oxm_types fields data OFP_STATE_STATS_REQUEST_0_SIZE;
  Ok (ExperimenterStatsRequest.Mk 0 0xBEBABEBA exp_type data).

Definition OFPExpStateStatsMultipartRequest table_id state match_ :=
  OFPExpStateStatsMultipartRequestBase OFPMP_EXP_STATE_STATS table_id state match_.

Definition OFPExpStateStatsMultipartRequestAndDelete table_id state match_ :=
  OFPExpStateStatsMultipartRequestBase OFPMP_EXP_STATE_STATS_AND_DELETE
    table_id state match_.

Definition OFPExpStateStatsMultipartRequestShort table_id state match_ :=
  OFPExpStateStatsMultipartRequestBase OFPMP_EXP_STATE_STATS_SHORT table_id state match_.

Definition OFPExpStateStatsMultipartRequestAndDeleteShort table_id state match_ :=
  OFPExpStateStatsMultipartRequestBase OFPMP_EXP_STATE_STATS_AND_DELETE_SHORT
    table_id state match_.

Definition OFPExpGetFlowsInState table_id state :=
  OFPExpStateStatsMultipartRequest table_id state None.

Definition OFPExpGetFlowState table_id match_ :=
  OFPExpStateStatsMultipartRequest table_id None match_.

Definition OFPExpGlobalStateStatsMultipartRequest : ExperimenterStatsRequest.t :=
  ExperimenterStatsRequest.Mk 0 0xBEBABEBA OFPMP_EXP_GLOBAL_STATE_STATS [].

End Messages.

(** ** In-switch packet generation *)

Module PktGen.

Definition OFPIT_EXPERIMENTER : Z := 0xFFFF.

Record OFPInstructionInSwitchPktGen (A : Type) := Mk {
  pkttmp_id : Z;
  actions : list A;
}.
Arguments Mk {A}. Arguments pkttmp_id {A}. Arguments actions {A}.

(** The action loop of the parser; [None] when it has not ended after [fuel]
    iterations (an action of length zero keeps it running). *)
Fixpoint parse_actions {A} (action_parser : bytes -> nat -> res (A * nat))
    (fuel : nat) (buf : bytes) (actions_len : Z) (offset : nat) (acc : list A) :
    option (res (list A)) :=
  match fuel with
  | O => None
  | S fuel =>
      if actions_len <=? 0 then Some (Ok acc)
      else match action_parser buf offset with
           | Err e => Some (Err e)
           | Ok (a, l) =>
               parse_actions action_parser fuel buf (actions_len - Z.of_nat l)
                 (offset + l)%nat (acc ++ [a])
           end
  end.

(** [OFPInstructionInSwitchPktGen.parser]: the format yields five values, the
    assignment has four targets; [action_parser] is [OFPAction.parser], with the
    [len] of the parsed action. *)
Definition parser {A} (action_parser : bytes -> nat -> res (A * nat))
    (fuel : nat) (buf : bytes) (offset : nat) :
    option (res (OFPInstructionInSwitchPktGen A)) :=
  match unpack_from OFP_INSTRUCTION_INSWITCH_PKT_GEN_PACK_STR buf offset with
  | Err e => Some (Err e)
  | Ok [VInt type_; VInt len_; VInt experimenter_id_; VInt instr_type_] =>
      let offset := (offset + OFP_INSTRUCTION_INSWITCH_PKT_GEN_SIZE)%nat in
      let actions_len := len_ - Z.of_nat OFP_INSTRUCTION_INSWITCH_PKT_GEN_SIZE in
      match parse_actions action_parser fuel buf actions_len offset [] with
      | Some (Ok actions) => Some (Ok (Mk type_ actions))
      | Some (Err e) => Some (Err e)
      | None => None
      end
  | Ok _ => Some (Err ValueError)
  end.

Section Serialize.
Context {A : Type} `{ActionLaws A}.

Definition serialize_actions (acts : list A) (buf : bytes) (off : nat) :
    res (bytes * nat) :=
  foldM (fun '(buf, off) a =>
           buf' ← act_serialize a buf off; Ok (buf', off + act_len a)%nat)
        (buf, off) acts.

Definition serialize (i : OFPInstructionInSwitchPktGen A) (buf : bytes)
    (offset : nat) : res bytes :=
  '(buf, action_offset) ← serialize_actions (actions i) buf
     (offset + OFP_INSTRUCTION_INSWITCH_PKT_GEN_SIZE);
  let len := Z.of_nat action_offset - Z.of_nat offset in
  let pad_len := round_up len 8 - len in
  buf ← fmsg_pack_into (Format Big [Fx (Z.to_nat pad_len)]) buf action_offset [];
  let len := len + pad_len in
  msg_pack_into OFP_INSTRUCTION_INSWITCH_PKT_GEN_PACK_STR buf offset
    [VInt OFPIT_EXPERIMENTER; VInt len; VInt BEBA_EXPERIMENTER_ID;
     VInt OFPIT_IN_SWITCH_PKT_GEN; VInt (pkttmp_id i)].

Definition total_len (acts : list A) : nat :=
  (OFP_INSTRUCTION_INSWITCH_PKT_GEN_SIZE + foldr (fun a n => act_len a + n) 0 acts)%nat.

Lemma total_len_aligned acts : (total_len acts mod 8 = 0)%nat.
Proof.
  unfold total_len. rewrite <- Nat.Div0.add_mod_idemp_r.
  assert (foldr (fun a n => act_len a + n) 0 acts mod 8 = 0)%nat as ->; [|done].
  induction acts as [|a acts IH]; [done|]. cbn [foldr].
  rewrite <- Nat.Div0.add_mod_idemp_l, act_aligned, Nat.add_0_l. exact IH.
Qed.

Lemma serialize_actions_spec acts buf off buf' off' :
  (length buf <= off)%nat ->
  serialize_actions acts buf off = Ok (buf', off') ->
  off' = (off + foldr (fun a n => act_len a + n) 0 acts)%nat
  /\ (length buf' <= off')%nat
  /\ exists payload, buf' = buf ++ payload /\ (acts = [] -> payload = [])
       /\ (acts <> [] -> off < length buf')%nat.
Proof.
  revert buf off. induction acts as [|a acts IH]; intros buf off Hl Hs;
    unfold serialize_actions in Hs; simpl in Hs.
  - injection Hs as <- <-. split; [simpl; lia|]. split; [done|].
    exists []. by rewrite app_nil_r.
  - apply bind_Ok in Hs as ([b1 o1] & H1 & Hs).
    apply bind_Ok in H1 as (b2 & H1 & [= <- <-]).
    destruct (act_appends _ _ _ _ Hl H1) as (p & -> & Hp).
    apply IH in Hs as (-> & Hl' & q & -> & _ & _).
    + split; [simpl; lia|]. split; [done|].
      exists ((replicate (off - length buf) 0 ++ p) ++ q).
      rewrite <- !app_assoc. split; [done|]. split; [done|]. intros _.
      rewrite !length_app, length_replicate. lia.
    + rewrite !length_app, length_replicate. lia.
Qed.

(** What the switch receives: at the end of the buffer an instruction starts
    with its packed header, carries the total length and occupies exactly that
    many bytes. *)
Lemma pktgen_serialize_spec i buf buf' :
  serialize i buf (length buf) = Ok buf' ->
  exists h payload,
    fpack (Format Big [Fi 2; Fi 2; Fi 4; Fi 4; Fx 4; Fi 4; Fx 4])
      [VInt OFPIT_EXPERIMENTER; VInt (Z.of_nat (total_len (actions i)));
       VInt BEBA_EXPERIMENTER_ID; VInt OFPIT_IN_SWITCH_PKT_GEN; VInt (pkttmp_id i)] = Ok h
    /\ buf' = buf ++ h ++ payload
    /\ length (h ++ payload) = total_len (actions i).
Proof.
  unfold serialize. intros Hs. apply bind_Ok in Hs as ([b1 o1] & H1 & Hs).
  apply serialize_actions_spec in H1 as (-> & Hl & payload & -> & Hnil & Hcons);
    [|lia].
  set (off := (length buf + _ + _)%nat) in *.
  assert (Hoff : Z.of_nat off - Z.of_nat (length buf)
                 = Z.of_nat (total_len (actions i))) by (unfold off, total_len; lia).
  rewrite Hoff in Hs.
  assert (Hr : round_up (Z.of_nat (total_len (actions i))) 8
               = Z.of_nat (total_len (actions i))).
  { apply round_up_id; [lia|].
    change 8 with (Z.of_nat 8). by rewrite <- Nat2Z.inj_mod, total_len_aligned. }
  rewrite Hr in Hs. rewrite Z.sub_diag in Hs. simpl in Hs.
  change (Z.to_nat 0) with 0%nat in Hs.
  rewrite (fmsg_pack_into_gap (Format Big [Fx 0]) _ off [] [] eq_refl Hl) in Hs.
  simpl in Hs.
  rewrite app_nil_r, Z.add_0_r in Hs.
  set (body := payload ++ replicate (off - length (buf ++ payload)) 0).
  replace ((buf ++ payload) ++ replicate (off - length (buf ++ payload)) 0)
    with (buf ++ body) in Hs by (unfold body; by rewrite app_assoc).
  assert (Hb : length body = total_len (actions i)).
  { unfold body. rewrite !length_app, length_replicate in *.
    unfold off, total_len in *. lia. }
  fmt_eval.
  set (args := [VInt OFPIT_EXPERIMENTER; _; _; _; _]) in *.
  set (f := Format Big _) in *.
  rewrite <- (take_drop 24 body) in Hs.
  destruct (fpack f args) as [h|e] eqn:Hh.
  - rewrite (fmsg_pack_into_inside f buf (take 24 body) _ args h Hh) in Hs.
    + injection Hs as <-. exists h, (drop 24 body). split; [done|]. split; [done|].
      pose proof (fpack_length _ _ _ Hh) as Hhl. unfold fmt_size in Hhl; simpl in Hhl.
      rewrite length_app, length_drop, Hhl, Hb. unfold total_len.
      unfold OFP_INSTRUCTION_INSWITCH_PKT_GEN_SIZE. lia.
    + rewrite length_take, Hb. unfold total_len, fmt_size; simpl. lia.
    + rewrite take_drop. intros E. rewrite E in Hb. unfold total_len in Hb. simpl in Hb.
      lia.
  - exfalso. unfold fmsg_pack_into, fpack_into in Hs. rewrite Hh in Hs.
    simpl in Hs. by destruct (_ =? _)%nat.
Qed.
End Serialize.

End PktGen.

(** ** Properties of the builders *)

Module BuilderFacts.
Import Actions Messages.

Lemma append_packed_I d vs :
  append_packed "!I" d vs =
    if forallb (in_width 4) vs
    then Ok (d ++ concat (be_encode 4 <$> vs)) else Err StructError.
Proof.
  revert d. induction vs as [|v vs IH]; intros d; unfold append_packed in *; simpl.
  - by rewrite app_nil_r.
  - fmt_eval. unfold fpack; simpl. destruct (in_width 4 v); simpl; [|done].
    rewrite IH, app_nil_r. destruct (forallb _ vs); [|done]. by rewrite app_assoc.
Qed.

Lemma append_packed_B d vs :
  append_packed "!B" d vs =
    if forallb (in_width 1) vs then Ok (d ++ vs) else Err StructError.
Proof.
  revert d. induction vs as [|v vs IH]; intros d; unfold append_packed in *; simpl.
  - by rewrite app_nil_r.
  - fmt_eval. unfold fpack; simpl. destruct (in_width 1 v) eqn:Hv; simpl; [|done].
    rewrite IH, app_nil_r, be_encode_1 by done.
    destruct (forallb _ vs); [|done]. by rewrite <- app_assoc.
Qed.

Lemma forallb_bytes_ok vs : forallb (in_width 1) vs = true <-> bytes_ok vs.
Proof.
  induction vs as [|v vs IH]; simpl; [done|].
  rewrite andb_true_iff, IH, in_width_iff. split.
  - intros [H1 H2]. constructor; [exact H1|exact H2].
  - intros H. inversion H as [|? ? H1 H2]. split; [exact H1|exact H2].
Qed.

(** An action whose data is a whole number of 8-byte words, and whose length
    fits the 16-bit field, is serialized in full and parsed back unchanged. *)
Lemma exp_action_roundtrip {N} (nx : bytes -> res N) (d : bytes) (e : Z) buf rest :
  e <> NX_EXPERIMENTER_ID -> in_width 4 e = true ->
  (length d mod 8 = 0)%nat -> Z.of_nat (length d) + 8 < 65536 ->
  let a := ActionExperimenterUnknown.Mk e (Some d) in
  exists w,
    ActionExperimenterUnknown.serialize a buf (length buf) = Ok (buf ++ w)
    /\ length w = (length d + 8)%nat
    /\ ActionExperimenterUnknown.parser nx ((buf ++ w) ++ rest) (length buf)
       = Ok (inr a, Z.of_nat (length d) + 8).
Proof.
  intros Hnx He Hmod Hlen a.
  assert (Hal : ActionExperimenterUnknown.len a = (length d + 8)%nat).
  { unfold ActionExperimenterUnknown.len, a. cbn [ActionExperimenterUnknown.data default
      from_option id].
    rewrite round_up_id; [|lia|].
    - rewrite Nat2Z.id. reflexivity.
    - change 8 with (Z.of_nat 8). by rewrite <- Nat2Z.inj_mod, Hmod. }
  set (args := [VInt OFPAT_EXPERIMENTER; VInt (Z.of_nat (length d + 8)); VInt e]).
  assert (exists h, fpack ActionExperimenterUnknown.hdr_fmt args = Ok h) as [h Hh].
  { unfold fpack, args. cbn [ActionExperimenterUnknown.hdr_fmt f_codes f_order pack_codes].
    change (in_width 2 OFPAT_EXPERIMENTER) with true.
    rewrite He, (proj2 (in_width_iff 2 (Z.of_nat (length d + 8))))
      by (change (256 ^ Z.of_nat 2) with 65536; lia).
    cbn. eexists; reflexivity. }
  exists (h ++ d). pose proof (fpack_length _ _ _ Hh) as Hhl. unfold fmt_size in Hhl.
  simpl in Hhl. split; [|split].
  - unfold ActionExperimenterUnknown.serialize. rewrite Hal. fmt_eval.
    fold ActionExperimenterUnknown.hdr_fmt. fold args.
    rewrite (fmsg_pack_into_end _ _ _ _ Hh). cbn [mbind res_bind a ActionExperimenterUnknown.data].
    replace (length buf + OFP_ACTION_EXPERIMENTER_HEADER_SIZE)%nat with (length (buf ++ h))
      by (rewrite length_app, Hhl; done).
    erewrite fmsg_pack_into_end.
    2:{ unfold fpack; cbn. by rewrite app_nil_r, resize_all. }
    by rewrite <- app_assoc.
  - rewrite length_app. lia.
  - unfold ActionExperimenterUnknown.parser. fmt_eval.
    fold ActionExperimenterUnknown.hdr_fmt.
    rewrite <- !app_assoc, (unpack_from_pack _ _ _ buf (d ++ rest) _ Hh eq_refl).
    cbn [args fit_args ActionExperimenterUnknown.hdr_fmt f_codes mbind res_bind].
    rewrite (proj2 (Z.eqb_neq _ _)) by done.
    rewrite Nat2Z.id. unfold OFP_ACTION_EXPERIMENTER_HEADER_SIZE.
    rewrite !app_assoc, <- (app_assoc buf), take_app_length' by (rewrite !length_app; lia).
    rewrite app_assoc, drop_app_length' by (rewrite length_app; lia).
    repeat f_equal. lia.
Qed.

End BuilderFacts.

(** ** Claims *)

Module BebaMsgClaims.
Import Actions Messages BuilderFacts.

(** The set-state action on the wire, on every branch: the builder raises
    [struct.error] exactly when some value does not fit its field, and
    otherwise lays the nine values out big-endian at their offsets, the
    timeouts converted from seconds to microseconds. *)
Theorem set_state_action_wire state table_id bit ht it hr ir mask :
  OFPExpActionSetState state table_id bit ht it hr ir mask =
    if in_width 4 state && in_width 4 mask && in_width 1 table_id && in_width 4 hr
       && in_width 4 ir && in_width 4 (ht * 1000000) && in_width 4 (it * 1000000)
       && in_width 1 bit
    then Ok (ActionExperimenterUnknown.Mk BEBA_EXPERIMENTER_ID (Some
           (be_encode 4 OFPAT_EXP_SET_STATE ++ [0;0;0;0] ++ be_encode 4 state
            ++ be_encode 4 mask ++ [table_id; 0; 0; 0] ++ be_encode 4 hr
            ++ be_encode 4 ir ++ be_encode 4 (ht * 1000000)
            ++ be_encode 4 (it * 1000000) ++ [bit; 0; 0; 0])))
    else Err StructError.
Proof.
  unfold OFPExpActionSetState. fmt_eval. unfold fpack.
  cbn [f_codes f_order pack_codes].
  change (in_width 4 OFPAT_EXP_SET_STATE) with true.
  pack_cases. cbn [encode]. by rewrite !be_encode_1 by done.
Qed.

(** C1: A set-state action survives the wire: whatever the builder accepts is
    serialized completely (48 bytes, the length its header announces), parsed
    back by the experimenter action parser to the same object, and its data
    unpacks to the arguments given. *)
Theorem set_state_action_roundtrip {N} (nx : bytes -> res N) buf rest
    state table_id bit ht it hr ir mask a
    (H : OFPExpActionSetState state table_id bit ht it hr ir mask = Ok a) :
  exists w d,
    ActionExperimenterUnknown.serialize a buf (length buf) = Ok (buf ++ w)
    /\ length w = 48%nat
    /\ ActionExperimenterUnknown.parser nx ((buf ++ w) ++ rest) (length buf)
       = Ok (inr a, 48)
    /\ ActionExperimenterUnknown.data a = Some d
    /\ unpack OFP_EXP_ACTION_SET_STATE_PACK_STR d =
         Ok [VInt OFPAT_EXP_SET_STATE; VInt state; VInt mask; VInt table_id; VInt hr;
             VInt ir; VInt (ht * 1000000); VInt (it * 1000000); VInt bit].
Proof.
  unfold OFPExpActionSetState in H. fmt_eval. apply bind_Ok in H as (d & Hd & [= <-]).
  pose proof (fpack_length _ _ _ Hd) as Hl. unfold fmt_size in Hl; simpl in Hl.
  destruct (exp_action_roundtrip nx d 0xBEBABEBA buf rest) as (w & H1 & H2 & H3);
    [done|done|by rewrite Hl|rewrite Hl; lia|].
  exists w, d. rewrite Hl in *. split_and!; try done.
  fmt_eval. rewrite ?Hl. rewrite <- (app_nil_r d), (unpack_from_pack0 _ _ _ [] Hd). done.
Qed.

Lemma set_state_action_roundtrip_witness :
  exists a w d,
    OFPExpActionSetState 7 0 0 10 5 1 2 0xffffffff = Ok a
    /\ ActionExperimenterUnknown.serialize a [1] 1 = Ok ([1] ++ w)
    /\ ActionExperimenterUnknown.data a = Some d.
Proof.
  destruct (OFPExpActionSetState 7 0 0 10 5 1 2 0xffffffff) as [a|e] eqn:E;
    [|vm_compute in E; discriminate].
  destruct (set_state_action_roundtrip (N := unit) (fun _ => Err ValueError) [1] []
              7 0 0 10 5 1 2 0xffffffff a E) as (w & d & H1 & _ & _ & H2 & _).
  exists a, w, d. split; [reflexivity|]. split; [exact H1|exact H2].
Defined.

(** Timeouts are given in seconds but travel as 32-bit microseconds: with the
    other values in range, the set-state action and the set-flow-state message
    are built exactly for timeouts of at most 4294 seconds. *)
Theorem timeout_bounds state table_id bit ht it hr ir mask keys
    (Hs : in_width 4 state = true) (Ht : in_width 1 table_id = true)
    (Hb : in_width 1 bit = true) (Hr : in_width 4 hr = true) (Hi : in_width 4 ir = true)
    (Hm : in_width 4 mask = true) (Hk : bytes_ok keys) :
  (is_ok (OFPExpActionSetState state table_id bit ht it hr ir mask) = true
     <-> 0 <= ht <= 4294 /\ 0 <= it <= 4294)
  /\ (is_ok (OFPExpMsgSetFlowState state keys table_id it ir ht hr mask) = true
     <-> 0 <= ht <= 4294 /\ 0 <= it <= 4294).
Proof.
  assert (Hw : forall t, in_width 4 (t * 1000000) = true <-> 0 <= t <= 4294).
  { intros t. rewrite in_width_iff. change (256 ^ Z.of_nat 4) with 4294967296. lia. }
  rewrite <- !Hw. split.
  - unfold OFPExpActionSetState. fmt_eval. unfold fpack. cbn [f_codes f_order pack_codes].
    change (in_width 4 OFPAT_EXP_SET_STATE) with true.
    rewrite Hs, Ht, Hb, Hr, Hi, Hm. cbn.
    destruct (in_width 4 (ht * 1000000)), (in_width 4 (it * 1000000)); cbn; intuition congruence.
  - unfold OFPExpMsgSetFlowState. fmt_eval. unfold fpack. cbn [f_codes f_order pack_codes].
    change (in_width 1 OFPSC_EXP_SET_FLOW_STATE) with true.
    set (kc := if (MAX_KEY_LEN <? length keys)%nat then 0%nat else length keys).
    assert (kc <= 48)%nat by
      (unfold kc, MAX_KEY_LEN; destruct (Nat.ltb_spec 48 (length keys)); lia).
    rewrite (proj2 (in_width_iff 4 (Z.of_nat kc)))
      by (change (256 ^ Z.of_nat 4) with 4294967296; lia).
    rewrite (proj2 (Nat.leb_le kc MAX_KEY_LEN)) by (unfold MAX_KEY_LEN; lia).
    rewrite Hs, Ht, Hr, Hi, Hm. cbn -[append_packed].
    destruct (in_width 4 (ht * 1000000)), (in_width 4 (it * 1000000));
      cbn -[append_packed]; try intuition congruence.
    rewrite append_packed_B.
    rewrite (proj2 (forallb_bytes_ok _)) by (by apply Forall_take). done.
Qed.

Lemma timeout_bounds_witness :
  is_ok (OFPExpActionSetState 1 0 0 4294 0 0 0 0xffffffff) = true
  /\ is_ok (OFPExpActionSetState 1 0 0 4295 0 0 0 0xffffffff) = false.
Proof.
  split.
  - apply (timeout_bounds 1 0 0 4294 0 0 0 0xffffffff [1; 2]); try (vm_compute; reflexivity);
      [|lia]. repeat constructor; vm_compute; congruence.
  - vm_compute; reflexivity.
Defined.

(** The set-flow-state message on the wire, on every branch.  A key of more than
    [MAX_KEY_LEN] bytes is not sent at all (the count is zero); the builder
    raises exactly when a header value or a key byte sent does not fit. *)
Theorem set_flow_state_wire state keys table_id it ir ht hr mask :
  let ks := if (MAX_KEY_LEN <? length keys)%nat then [] else keys in
  OFPExpMsgSetFlowState state keys table_id it ir ht hr mask =
    if in_width 1 table_id && in_width 4 state && in_width 4 mask && in_width 4 hr
       && in_width 4 ir && in_width 4 (ht * 1000000) && in_width 4 (it * 1000000)
       && forallb (in_width 1) ks
    then Ok (Experimenter.Mk BEBA_EXPERIMENTER_ID OFPT_EXP_STATE_MOD (Some
           ([OFPSC_EXP_SET_FLOW_STATE; 0] ++ [table_id; 0; 0; 0]
            ++ be_encode 4 (Z.of_nat (length ks)) ++ be_encode 4 state ++ be_encode 4 mask
            ++ be_encode 4 hr ++ be_encode 4 ir ++ be_encode 4 (ht * 1000000)
            ++ be_encode 4 (it * 1000000) ++ ks)))
    else Err StructError.
Proof.
  intros ks. unfold OFPExpMsgSetFlowState. fmt_eval. unfold fpack.
  cbn [f_codes f_order pack_codes].
  change (in_width 1 OFPSC_EXP_SET_FLOW_STATE) with true.
  set (kc := if (MAX_KEY_LEN <? length keys)%nat then 0%nat else length keys).
  assert (kc = length ks /\ take kc keys = ks /\ kc <= 48)%nat as (-> & -> & Hk).
  { unfold kc, ks, MAX_KEY_LEN. destruct (Nat.ltb_spec 48 (length keys)); simpl.
    - split_and!; [done|done|lia].
    - rewrite take_ge by lia. split_and!; [done|done|lia]. }
  rewrite (proj2 (in_width_iff 4 (Z.of_nat (length ks))))
    by (change (256 ^ Z.of_nat 4) with 4294967296; lia).
  rewrite (proj2 (Nat.leb_le _ MAX_KEY_LEN)) by (unfold MAX_KEY_LEN; lia).
  cbn -[append_packed encode].
  pack_cases. rewrite append_packed_B. destruct (forallb _ ks); [|done].
  cbn [encode mbind res_bind state_mod]. unfold state_mod. cbn.
  rewrite !be_encode_1 by done. rewrite <- !app_assoc. done.
Qed.

(** The lookup-scope and update-scope extractors.  With at most
    [MAX_FIELD_COUNT] fields the message carries the table, the bit and all the
    fields; with more it announces and carries none, while a lookup extractor is
    recorded on the datapath with every field it was given. *)
Theorem key_extract_wire dp command fields table_id bit :
  let fs := if (MAX_FIELD_COUNT <? length fields)%nat then [] else fields in
  OFPExpMsgKeyExtract dp command fields table_id bit =
    if in_width 1 command && in_width 1 table_id && in_width 1 bit
       && forallb (in_width 4) fs
    then Ok (Experimenter.Mk BEBA_EXPERIMENTER_ID OFPT_EXP_STATE_MOD (Some
               ([command; 0] ++ [table_id; 0; 0; 0] ++ [bit; 0; 0; 0]
                ++ be_encode 4 (Z.of_nat (length fs)) ++ concat (be_encode 4 <$> fs))),
             if command =? OFPSC_EXP_SET_L_EXTRACTOR
             then MkDp (Some (<[table_id := fields]> (default ∅ (lookup_scope dp))))
             else dp)
    else Err StructError.
Proof.
  intros fs. unfold OFPExpMsgKeyExtract. fmt_eval. unfold fpack.
  cbn [f_codes f_order pack_codes].
  set (fc := if (MAX_FIELD_COUNT <? length fields)%nat then 0%nat else length fields).
  assert (fc = length fs /\ take fc fields = fs /\ fc <= 6)%nat as (-> & -> & Hk).
  { unfold fc, fs, MAX_FIELD_COUNT. destruct (Nat.ltb_spec 6 (length fields)); simpl.
    - split_and!; [done|done|lia].
    - rewrite take_ge by lia. split_and!; [done|done|lia]. }
  rewrite (proj2 (in_width_iff 4 (Z.of_nat (length fs))))
    by (change (256 ^ Z.of_nat 4) with 4294967296; lia).
  rewrite (proj2 (Nat.leb_le _ MAX_FIELD_COUNT)) by (unfold MAX_FIELD_COUNT; lia).
  cbn -[append_packed encode].
  pack_cases. rewrite append_packed_I. destruct (forallb _ fs); [|done].
  cbn [encode mbind res_bind state_mod]. unfold state_mod. cbn.
  rewrite !be_encode_1 by done. rewrite <- !app_assoc. cbn.
  destruct (command =? _); [|done]. destruct (lookup_scope dp); done.
Qed.

(** A Beba message survives the wire: a message whose identifiers fit and whose
    data leaves the whole within 65535 bytes is serialized; the receiver reads
    the protocol version, the experimenter type, the true length and the
    transaction id from the header and recovers the message. *)
Theorem experimenter_roundtrip e et d xid
    (He : in_width 4 e = true) (Het : in_width 4 et = true)
    (Hx : in_width 4 (default 0 xid) = true)
    (Hd : Z.of_nat (length d) + 16 < 65536) :
  let m := Experimenter.Mk e et (Some d) in
  exists out,
    Experimenter.serialize m xid = Ok out
    /\ MsgBase.header out = Ok (OFP_VERSION, OFPT_EXPERIMENTER, Z.of_nat (length out),
                                default 0 xid)
    /\ Experimenter.parser OFPT_EXPERIMENTER out = Ok m.
Proof.
  intros m.
  destruct (Experimenter.serialize_body_spec m d eq_refl He Het) as (h & Hh & Hl & Hb).
  set (args := [VInt OFP_VERSION; VInt OFPT_EXPERIMENTER;
                VInt (8 + Z.of_nat (length (h ++ d))); VInt (default 0 xid)]).
  assert (exists hd, fpack MsgBase.header_fmt args = Ok hd) as [hd Hhd].
  { unfold fpack, args. cbn [MsgBase.header_fmt f_codes f_order pack_codes].
    change (in_width 1 OFP_VERSION) with true.
    change (in_width 1 OFPT_EXPERIMENTER) with true.
    rewrite Hx, (proj2 (in_width_iff 2 (8 + Z.of_nat (length (h ++ d))))).
    - cbn. eexists; reflexivity.
    - rewrite length_app, Hl. change (256 ^ Z.of_nat 2) with 65536. lia. }
  pose proof (fpack_length _ _ _ Hhd) as Hhl. unfold fmt_size in Hhl; simpl in Hhl.
  exists (hd ++ h ++ d). split; [|split].
  - unfold Experimenter.serialize. by eapply MsgBase.serialize_ok.
  - unfold MsgBase.header.
    rewrite (proj2 (Nat.leb_le OFP_HEADER_SIZE _))
      by (rewrite length_app, Hhl; unfold OFP_HEADER_SIZE; lia).
    fmt_eval. fold MsgBase.header_fmt. rewrite (unpack_from_pack0 _ _ _ _ Hhd).
    cbn [py_assert mbind res_bind args fit_args MsgBase.header_fmt f_codes].
    do 3 f_equal. rewrite !length_app, Hhl. lia.
  - unfold Experimenter.parser. cbn [py_assert mbind res_bind Z.eqb OFPT_EXPERIMENTER].
    fmt_eval. fold Experimenter.hdr_fmt.
    rewrite (unpack_from_pack _ _ _ hd d _ Hh) by done.
    cbn [mbind res_bind fit_args Experimenter.hdr_fmt f_codes].
    rewrite app_assoc, drop_app_length' by (rewrite length_app, Hl, Hhl; done). done.
Qed.

Lemma experimenter_roundtrip_witness :
  exists out, Experimenter.serialize (Experimenter.Mk 0xBEBABEBA 0 (Some [0; 0; 3; 1])) None
              = Ok out
    /\ MsgBase.header out = Ok (4, 4, 20, 0).
Proof.
  destruct (experimenter_roundtrip 0xBEBABEBA 0 [0; 0; 3; 1] None eq_refl eq_refl eq_refl
              eq_refl) as (out & H1 & H2 & _).
  exists out. split; [exact H1|]. rewrite H2. do 3 f_equal.
  assert (length out = 20%nat) as ->; [|reflexivity].
  vm_compute in H1. injection H1 as <-. reflexivity.
Defined.

(** The in-switch packet-generation instruction cannot be parsed: on every
    buffer, offset, action parser and fuel the parser raises (the five values of
    the format do not fit the four targets), so no instruction is ever
    returned. *)
Theorem pktgen_parser_always_raises {A} (ap : bytes -> nat -> res (A * nat)) fuel buf offset :
  PktGen.parser ap fuel buf offset =
    Some (Err (if (offset + OFP_INSTRUCTION_INSWITCH_PKT_GEN_SIZE <=? length buf)%nat
               then ValueError else StructError)).
Proof.
  unfold PktGen.parser. fmt_eval. unfold funpack_from.
  change (fmt_size _) with OFP_INSTRUCTION_INSWITCH_PKT_GEN_SIZE.
  by destruct (_ <=? _)%nat.
Qed.

(** Serializing that instruction at the end of a buffer, with any actions that
    obey the action interface: what is appended starts with a header that unpacks
    to the experimenter instruction type, the length, the Beba identifier, the
    instruction type and the template id; the length is the number of bytes
    appended and a multiple of eight. *)
Theorem pktgen_serialize_length {A} `{ActionLaws A}
    (i : PktGen.OFPInstructionInSwitchPktGen A) buf buf'
    (Hs : PktGen.serialize i buf (length buf) = Ok buf') :
  exists w, buf' = buf ++ w
    /\ (length w mod 8 = 0)%nat
    /\ unpack_from OFP_INSTRUCTION_INSWITCH_PKT_GEN_PACK_STR buf' (length buf)
       = Ok [VInt PktGen.OFPIT_EXPERIMENTER; VInt (Z.of_nat (length w));
             VInt BEBA_EXPERIMENTER_ID; VInt OFPIT_IN_SWITCH_PKT_GEN;
             VInt (PktGen.pkttmp_id i)].
Proof.
  destruct (PktGen.pktgen_serialize_spec i buf buf' Hs) as (h & p & Hh & -> & Hl).
  exists (h ++ p). split; [done|]. rewrite Hl. split; [apply PktGen.total_len_aligned|].
  fmt_eval. by rewrite (unpack_from_pack _ _ _ buf p _ Hh).
Qed.

Lemma pktgen_serialize_length_witness :
  let i := PktGen.Mk 3 [inl (ActionOutput.Mk 1 0);
             inr (ActionExperimenterUnknown.Mk 0xBEBABEBA (Some [1; 2; 3]))] in
  exists buf', PktGen.serialize i [9] 1 = Ok buf'
    /\ exists w, buf' = [9] ++ w /\ (length w mod 8 = 0)%nat.
Proof.
  intros i. destruct (PktGen.serialize i [9] 1) as [buf'|e] eqn:E;
    [|vm_compute in E; discriminate].
  exists buf'. split; [reflexivity|].
  destruct (pktgen_serialize_length i [9] buf' E) as (w & H1 & H2 & _).
  exists w. split; [exact H1|exact H2].
Defined.

(** A state statistics request carries its match: for every kind of request the
    builder raises when the table or the state does not fit, and otherwise the
    data is the table, whether a state is asked for, the state, and a match that
    the match parser reads back from the offset after them, padded to a multiple
    of eight; no match is the empty one. *)
Theorem stats_request_wire (exp_type table_id : Z) (state : option Z)
    (match_ : option (list field)) (rest : bytes) :
  Forall OxmFacts.well_sized (default [] match_) -> (length (default [] match_) <= 200)%nat ->
  if in_width 1 table_id && in_width 4 (default 0 state) then
    exists w len,
      OFPExpStateStatsMultipartRequestBase exp_type table_id state match_
      = Ok (ExperimenterStatsRequest.Mk 0 BEBA_EXPERIMENTER_ID exp_type
              (be_encode 1 table_id ++ be_encode 1 (match state with Some _ => 1 | None => 0 end) ++ [0; 0]
               ++ be_encode 4 (default 0 state) ++ w))
      /\ (length w mod 8 = 0)%nat
      /\ match_parse ((be_encode 1 table_id ++ be_encode 1 (match state with Some _ => 1 | None => 0 end) ++ [0; 0]
                       ++ be_encode 4 (default 0 state) ++ w) ++ rest)
           OFP_STATE_STATS_REQUEST_0_SIZE = Ok (OFPMT_OXM, len, default [] match_)
  else OFPExpStateStatsMultipartRequestBase exp_type table_id state match_ = Err StructError.
Proof.
  intros Hf Hn. unfold OFPExpStateStatsMultipartRequestBase. fmt_eval.
  set (g := match state with Some _ => 1 | None => 0 end).
  assert (Hg : in_width 1 g = true) by (unfold g; by destruct state).
  set (h := be_encode 1 table_id ++ be_encode 1 g ++ [0; 0] ++ be_encode 4 (default 0 state)).
  assert (Hh : fpack (Format Big [Fi 1; Fi 1; Fx 2; Fi 4])
                 [VInt table_id; VInt g; VInt (default 0 state)]
               = if in_width 1 table_id && in_width 4 (default 0 state) then Ok h
                 else Err StructError).
  { unfold fpack. cbn [f_codes f_order pack_codes]. rewrite Hg.
    destruct (in_width 1 table_id); [|done]. destruct (in_width 4 (default 0 state)); [|done].
    cbn [mbind res_bind andb encode]. unfold h. by rewrite app_nil_r. }
  destruct (in_width 1 table_id && in_width 4 (default 0 state)).
  - pose proof (fmsg_pack_into_end _ [] _ h Hh) as E. cbn [length app] in E. rewrite E. cbn [mbind res_bind].
    assert (Lh : length h = 8%nat) by (unfold h; by autorewrite with beba).
    destruct (OxmFacts.match_wire (default [] match_) h rest Hf Hn) as (w & Hs & Hm & len & _ & Hp).
    exists w, len. change OFP_STATE_STATS_REQUEST_0_SIZE with 8%nat.
    rewrite <- Lh, Hs. cbn [mbind res_bind].
    replace (be_encode 1 table_id ++ be_encode 1 g ++ [0; 0] ++ be_encode 4 (default 0 state) ++ w)
      with (h ++ w) by (unfold h; by rewrite <- !app_assoc). done.
  - unfold fmsg_pack_into. unfold fpack_into. by rewrite Hh.
Qed.

Lemma stats_request_wire_witness :
  exists w len,
    OFPExpStateStatsMultipartRequest 3 (Some 7)
      (Some [(num (Desc "eth_type" OpenFlowBasic 5 Int2), [8; 0], None)])
    = Ok (ExperimenterStatsRequest.Mk 0 BEBA_EXPERIMENTER_ID OFPMP_EXP_STATE_STATS
            ([3; 1; 0; 0; 0; 0; 0; 7] ++ w))
    /\ match_parse (([3; 1; 0; 0; 0; 0; 0; 7] ++ w) ++ []) 8
       = Ok (OFPMT_OXM, len, [(num (Desc "eth_type" OpenFlowBasic 5 Int2), [8; 0], None)]).
Proof.
  destruct (stats_request_wire OFPMP_EXP_STATE_STATS 3 (Some 7)
    (Some [(num (Desc "eth_type" OpenFlowBasic 5 Int2), [8; 0], None)]) [])
    as (w & len & H1 & _ & H2).
  - apply Forall_cons_2; [|apply Forall_nil_2]. exists (Desc "eth_type" OpenFlowBasic 5 Int2).
    split; [apply list_elem_of_In; vm_compute; tauto|]. split; [reflexivity|].
    split; [reflexivity|exact I].
  - cbn. lia.
  - exists w, len. split; [exact H1|exact H2].
Defined.

End BebaMsgClaims.
