(* ===== verification/BebaStats.v ===== *)
(** * State statistics and textual helpers (ryu/ofproto/beba_v1_0_parser.py)

    The parsers of the state statistics replies ([OFPStateEntry],
    [OFPStateStats], [OFPStateStatsShort], [OFPGlobalStateStats]), the rendering
    of a state entry's key ([get_field_string], [state_entry_key_to_str]) and
    the helpers that build masked states ([masked_global_state_from_str],
    [substate]). *)

From Stdlib Require Import ZArith Lia Ascii.
From stdpp Require Import base list gmap strings numbers pretty.
From S2P Require Import Prelude Struct OfpMsg BebaProto BebaMsg Oxm.

(** ** Statistics replies *)

Module Stats.

Record OFPStateEntry := Entry { key_count : Z; key : bytes; e_state : Z }.

(** [OFPStateEntry.parser]: the key is read only when it is not longer than
    [MAX_KEY_LEN]; the offset is then moved by the padding in any case. *)
Fixpoint read_key (buf : bytes) (n : nat) (offset : nat) : res bytes :=
  match n with
  | O => Ok []
  | S n =>
      vs ← unpack_from "!B" buf offset;
      match vs with
      | [VInt b] => bs ← read_key buf n (S offset); Ok (b :: bs)
      | _ => Err IndexError
      end
  end.

Definition entry_parser (buf : bytes) (offset : nat) (key_count state : Z) :
    res (OFPStateEntry * nat) :=
  '(key, offset) ←
    (if key_count <=? Z.of_nat MAX_KEY_LEN
     then k ← read_key buf (Z.to_nat key_count) offset;
          Ok (k, (offset + Z.to_nat key_count)%nat)
     else Ok ([], offset));
  let offset := (offset + Z.to_nat (round_up key_count 8 - key_count))%nat in
  Ok (Entry key_count key state, offset).

Record OFPStateStats := MkStats {
  length_ : Z; table_id : Z; key_len : Z;
  dur_sec : Z; dur_nsec : Z;
  hard_rb : Z; idle_rb : Z; hard_to : Z; idle_to : Z;
  state : Z;
  fields : list Z; field_count : nat;
  entry : OFPStateEntry }.

Record OFPStateStatsShort := MkShort {
  s_length : Z; s_table_id : Z; s_key_len : Z; s_state : Z;
  s_fields : list Z; s_field_count : nat;
  s_entry : OFPStateEntry }.

Section Loop.
(** The two reply parsers are one loop over different fixed headers:
    [header] unpacks the header at an offset and gives the table, the key
    length, the state and the constructor of the record. *)
Context {A : Type} (hsize : nat)
        (header : bytes -> nat ->
                  res (Z * Z * Z * (list Z -> nat -> OFPStateEntry -> A))).

Fixpoint parse_loop (fuel : nat) (lookup_scope : option (gmap Z (list Z)))
    (buf : bytes) (offset : nat) (acc : list A) : option (res (list A)) :=
  match fuel with
  | O => None
  | S fuel =>
      if (offset <? length buf)%nat then
        match header buf offset with
        | Err e => Some (Err e)
        | Ok (table_id, key_len, state, mk) =>
            let offset := (offset + hsize)%nat in
            match lookup_scope with
            | None => Some (Err AttributeError)
            | Some scope =>
                match scope !! table_id with
                | None => parse_loop fuel lookup_scope buf offset acc
                | Some fields =>
                    match entry_parser buf offset key_len state with
                    | Err e => Some (Err e)
                    | Ok (entry, offset) =>
                        parse_loop fuel lookup_scope buf offset
                          (acc ++ [mk fields (length fields) entry])
                    end
                end
            end
        end
      else Some (Ok acc)
  end.
End Loop.

Definition stats_header (buf : bytes) (offset : nat) :
    res (Z * Z * Z * (list Z -> nat -> OFPStateEntry -> OFPStateStats)) :=
  vs ← unpack_from OFP_STATE_STATS_PACK_STR buf offset;
  match vs with
  | [VInt l; VInt t; VInt k; VInt ds; VInt dn; VInt hr; VInt ir; VInt ht; VInt it;
     VInt s] => Ok (t, k, s, MkStats l t k ds dn hr ir ht it s)
  | _ => Err ValueError
  end.

Definition short_header (buf : bytes) (offset : nat) :
    res (Z * Z * Z * (list Z -> nat -> OFPStateEntry -> OFPStateStatsShort)) :=
  vs ← unpack_from OFP_STATE_STATS_SHORT_PACK_STR buf offset;
  match vs with
  | [VInt l; VInt t; VInt k; VInt s] => Ok (t, k, s, MkShort l t k s)
  | _ => Err ValueError
  end.

(** Every iteration moves the offset by the header at least, so one more
    iteration than the buffer has bytes is enough ([parse_loop_total]). *)
Definition stats_parser (lookup_scope : option (gmap Z (list Z))) (buf : bytes)
    (offset : nat) : option (res (list OFPStateStats)) :=
  parse_loop OFP_STATE_STATS_SIZE stats_header (S (length buf)) lookup_scope buf offset [].

Definition short_parser (lookup_scope : option (gmap Z (list Z))) (buf : bytes)
    (offset : nat) : option (res (list OFPStateStatsShort)) :=
  parse_loop OFP_STATE_STATS_SHORT_SIZE short_header (S (length buf)) lookup_scope buf
    offset [].

Definition global_parser (buf : bytes) (offset : nat) : res Z :=
  vs ← unpack_from "!4xI" buf offset;
  match vs with [VInt g] => Ok g | _ => Err ValueError end.

(** *** The loop returns *)

Lemma entry_parser_advances buf offset k s en off' :
  entry_parser buf offset k s = Ok (en, off') -> (offset <= off')%nat.
Proof.
  unfold entry_parser. intros E. apply bind_Ok in E as ([k' o'] & E1 & [= <- <-]).
  destruct (k <=? _); inv_ok; lia.
Qed.

Lemma parse_loop_total {A} hsize (header : _ -> _ -> res (_ * (_ -> _ -> _ -> A)))
    fuel scope buf offset acc :
  (0 < hsize)%nat -> (length buf - offset < fuel)%nat ->
  exists r, parse_loop hsize header fuel scope buf offset acc = Some r.
Proof.
  intros Hh. revert offset acc. induction fuel as [|fuel IH]; intros offset acc Hf;
    [lia|]. cbn [parse_loop].
  destruct (Nat.ltb_spec offset (length buf)); [|eauto].
  destruct (header buf offset) as [[[[t k] s] mk]|e]; [|eauto].
  destruct scope as [scope|]; [|eauto].
  destruct (scope !! t) as [fs|]; [|apply IH; lia].
  destruct (entry_parser _ _ _ _) as [[en off']|e] eqn:E; [|eauto].
  apply entry_parser_advances in E. apply IH; lia.
Qed.

(** More fuel than needed changes nothing. *)
Lemma parse_loop_fuel {A} hsize (header : _ -> _ -> res (_ * (_ -> _ -> _ -> A)))
    f1 f2 scope buf offset acc :
  (0 < hsize)%nat -> (length buf - offset < f1)%nat -> (length buf - offset < f2)%nat ->
  parse_loop hsize header f1 scope buf offset acc
  = parse_loop hsize header f2 scope buf offset acc.
Proof.
  intros Hh. revert f2 offset acc.
  induction f1 as [|f1 IH]; intros [|f2] offset acc H1 H2; [lia..|]. cbn [parse_loop].
  destruct (Nat.ltb_spec offset (length buf)); [|done].
  destruct (header buf offset) as [[[[t k] s] mk]|e]; [|done].
  destruct scope as [scope|]; [|done].
  destruct (scope !! t) as [fs|]; [|apply IH; lia].
  destruct (entry_parser _ _ _ _) as [[en off']|e] eqn:E; [|done].
  apply entry_parser_advances in E. apply IH; lia.
Qed.

(** *** Reading back a key *)

Lemma unpack_B_at pre b rest :
  byte_ok b -> unpack_from "!B" (pre ++ b :: rest) (length pre) = Ok [VInt b].
Proof.
  intros Hb. fmt_eval. unfold byte_ok in Hb.
  rewrite (unpack_from_pack (Format Big [Fi 1]) [VInt b] [b] pre rest); [done| |done].
  unfold fpack; cbn [pack_codes f_codes f_order encode mbind res_bind].
  rewrite in_width_1, be_encode_1 by (rewrite ?in_width_1; done). done.
Qed.

Lemma read_key_app pre k rest :
  bytes_ok k -> read_key (pre ++ k ++ rest) (length k) (length pre) = Ok k.
Proof.
  revert pre. induction k as [|b k IH]; intros pre Hk; [done|].
  inversion Hk; subst. cbn [read_key length app].
  rewrite unpack_B_at by done. cbn [mbind res_bind].
  specialize (IH (pre ++ [b])). rewrite length_app in IH. simpl in IH.
  replace (S (length pre)) with (length pre + 1)%nat by lia.
  replace (pre ++ b :: k ++ rest) with ((pre ++ [b]) ++ k ++ rest)
    by by rewrite <- app_assoc.
  by rewrite IH.
Qed.

(** The padding the switch puts after a key. *)
Definition key_pad (k : bytes) : nat :=
  Z.to_nat (round_up (Z.of_nat (length k)) 8 - Z.of_nat (length k)).

Lemma entry_parser_app pre k s rest :
  bytes_ok k -> (length k <= MAX_KEY_LEN)%nat ->
  entry_parser (pre ++ k ++ rest) (length pre) (Z.of_nat (length k)) s
  = Ok (Entry (Z.of_nat (length k)) k s, (length pre + length k + key_pad k)%nat).
Proof.
  intros Hk Hl. unfold entry_parser.
  rewrite (proj2 (Z.leb_le _ _)) by lia.
  rewrite Nat2Z.id, read_key_app by done. done.
Qed.

(** *** The reply a switch sends *)

Section Encode.
Context {A : Type}.
Variable hsize : nat.
Variable header : bytes -> nat -> res (Z * Z * Z * (list Z -> nat -> OFPStateEntry -> A)).
Variable enc_header : A -> bytes.
Variables (tab : A -> Z) (kl : A -> Z) (st : A -> Z) (flds : A -> list Z)
          (ent : A -> OFPStateEntry)
          (mk : A -> list Z -> nat -> OFPStateEntry -> A).
Hypothesis Hsize : (0 < hsize)%nat.

Definition enc_entry (a : A) : bytes :=
  enc_header a ++ key (ent a) ++ replicate (key_pad (key (ent a))) 0.

(** The entries a reply is made of: the header is the packed fields, the table
    has a lookup scope, and the entry repeats the header's key length and state. *)
Definition entry_wf (scope : gmap Z (list Z)) (a : A) : Prop :=
  length (enc_header a) = hsize
  /\ (forall pre rest, header (pre ++ enc_header a ++ rest) (length pre)
                       = Ok (tab a, kl a, st a, mk a))
  /\ mk a (flds a) (length (flds a)) (ent a) = a
  /\ scope !! tab a = Some (flds a)
  /\ bytes_ok (key (ent a)) /\ (length (key (ent a)) <= MAX_KEY_LEN)%nat
  /\ kl a = Z.of_nat (length (key (ent a)))
  /\ ent a = Entry (kl a) (key (ent a)) (st a).

Lemma parse_loop_encoded fuel scope pre l acc :
  Forall (entry_wf scope) l ->
  (length (concat (enc_entry <$> l)) < fuel)%nat ->
  parse_loop hsize header fuel (Some scope) (pre ++ concat (enc_entry <$> l))
    (length pre) acc = Some (Ok (acc ++ l)).
Proof using Hsize.
  revert fuel pre acc. induction l as [|a l IH]; intros fuel pre acc Hl Hf;
    (destruct fuel as [|fuel]; [simpl in Hf; lia|]).
  - cbn [fmap list_fmap concat parse_loop]. by rewrite !app_nil_r, Nat.ltb_irrefl.
  - inversion_clear Hl as [|? ? Ha Hl'].
    destruct Ha as (Hs & Hh & Hmk & Hsc & Hb & Hk & Hkl & He).
    cbn [fmap list_fmap concat] in *. set (tl := concat _) in *.
    unfold enc_entry in *. rewrite !length_app in Hf.
    set (k := key (ent a)) in *. set (pad := replicate _ 0) in *.
    assert (Hp : length pad = key_pad k) by apply length_replicate.
    cbn [parse_loop].
    rewrite (proj2 (Nat.ltb_lt _ _)) by (rewrite !length_app; lia).
    rewrite <- !app_assoc, Hh, Hsc, Hkl.
    rewrite <- Hs, <- length_app, (app_assoc pre).
    rewrite entry_parser_app by done. rewrite <- Hkl, <- He, Hmk, <- Hp.
    rewrite <- !length_app, !app_assoc, Hs, (cons_middle a acc l), app_assoc.
    apply IH; [done|lia].
Qed.
End Encode.

(** Packed headers. *)
Definition enc_stats_header (a : OFPStateStats) : bytes :=
  be_encode 2 (length_ a) ++ be_encode 1 (table_id a) ++ be_encode 1 (key_len a)
  ++ be_encode 4 (dur_sec a) ++ be_encode 4 (dur_nsec a) ++ be_encode 4 (hard_rb a)
  ++ be_encode 4 (idle_rb a) ++ be_encode 4 (hard_to a) ++ be_encode 4 (idle_to a)
  ++ be_encode 4 (state a).

Definition enc_short_header (a : OFPStateStatsShort) : bytes :=
  be_encode 2 (s_length a) ++ be_encode 1 (s_table_id a) ++ be_encode 1 (s_key_len a)
  ++ be_encode 4 (s_state a).

Definition enc_stats (a : OFPStateStats) : bytes := enc_entry enc_stats_header entry a.
Definition enc_short (a : OFPStateStatsShort) : bytes :=
  enc_entry enc_short_header s_entry a.

(** A well-formed entry of a full reply, in plain terms. *)
Definition stats_wf (scope : gmap Z (list Z)) (a : OFPStateStats) : Prop :=
  forallb (in_width 4) [dur_sec a; dur_nsec a; hard_rb a; idle_rb a; hard_to a;
                        idle_to a; state a] = true
  /\ in_width 2 (length_ a) = true /\ in_width 1 (table_id a) = true
  /\ scope !! table_id a = Some (fields a) /\ field_count a = length (fields a)
  /\ bytes_ok (key (entry a)) /\ (length (key (entry a)) <= MAX_KEY_LEN)%nat
  /\ key_len a = Z.of_nat (length (key (entry a)))
  /\ entry a = Entry (key_len a) (key (entry a)) (state a).

Definition short_wf (scope : gmap Z (list Z)) (a : OFPStateStatsShort) : Prop :=
  in_width 4 (s_state a) = true
  /\ in_width 2 (s_length a) = true /\ in_width 1 (s_table_id a) = true
  /\ scope !! s_table_id a = Some (s_fields a) /\ s_field_count a = length (s_fields a)
  /\ bytes_ok (key (s_entry a)) /\ (length (key (s_entry a)) <= MAX_KEY_LEN)%nat
  /\ s_key_len a = Z.of_nat (length (key (s_entry a)))
  /\ s_entry a = Entry (s_key_len a) (key (s_entry a)) (s_state a).

Lemma stats_wf_entry scope a : stats_wf scope a ->
  entry_wf OFP_STATE_STATS_SIZE stats_header enc_stats_header table_id key_len state
    fields entry
    (fun a => MkStats (length_ a) (table_id a) (key_len a) (dur_sec a) (dur_nsec a)
       (hard_rb a) (idle_rb a) (hard_to a) (idle_to a) (state a)) scope a.
Proof.
  intros (H4 & H2 & H1 & Hs & Hfc & Hb & Hk & Hkl & He).
  cbn [forallb] in H4. rewrite !andb_true_iff in H4.
  destruct H4 as (? & ? & ? & ? & ? & ? & ? & _).
  assert (Hk1 : in_width 1 (key_len a) = true)
    by (apply in_width_1; unfold MAX_KEY_LEN in *; lia).
  split; [unfold enc_stats_header; by autorewrite with beba|].
  split; [|split; [destruct a; simpl in *; by subst|tauto]].
  intros pre rest. unfold stats_header. fmt_eval.
  erewrite (unpack_from_pack _ [VInt (length_ a); VInt (table_id a); VInt (key_len a);
    VInt (dur_sec a); VInt (dur_nsec a); VInt (hard_rb a); VInt (idle_rb a);
    VInt (hard_to a); VInt (idle_to a); VInt (state a)]); [reflexivity| |done].
  unfold fpack; cbn. rewrite H2, H1, Hk1.
  repeat match goal with H : in_width 4 _ = true |- _ => rewrite H; clear H end.
  cbn. by rewrite app_nil_r.
Qed.

Lemma short_wf_entry scope a : short_wf scope a ->
  entry_wf OFP_STATE_STATS_SHORT_SIZE short_header enc_short_header s_table_id s_key_len
    s_state s_fields s_entry
    (fun a => MkShort (s_length a) (s_table_id a) (s_key_len a) (s_state a)) scope a.
Proof.
  intros (H4 & H2 & H1 & Hs & Hfc & Hb & Hk & Hkl & He).
  assert (Hk1 : in_width 1 (s_key_len a) = true)
    by (apply in_width_1; unfold MAX_KEY_LEN in *; lia).
  split; [unfold enc_short_header; by autorewrite with beba|].
  split; [|split; [destruct a; simpl in *; by subst|tauto]].
  intros pre rest. unfold short_header. fmt_eval.
  erewrite (unpack_from_pack _ [VInt _; VInt _; VInt _; VInt _]); [reflexivity| |done].
  unfold fpack; cbn. rewrite H2, H1, Hk1, H4. cbn. by rewrite app_nil_r.
Qed.

End Stats.

(** ** Keys as text *)

Module KeyStr.
Import Stats.

Definition dq : string := String (ascii_of_nat 34) EmptyString.

Definition hex_digit (z : Z) : string :=
  default "?"%string (["0"; "1"; "2"; "3"; "4"; "5"; "6"; "7"; "8"; "9"; "a"; "b"; "c";
                       "d"; "e"; "f"]%string !! Z.to_nat z).

(** [%02x] of a byte. *)
Definition hex02 (z : Z) : string := (hex_digit (z / 16) +:+ hex_digit (z mod 16))%string.

(** [format(v, 'x')] of a value of at most four hexadecimal digits. *)
Fixpoint hex_from (n : nat) (z : Z) : string :=
  match n with
  | O => hex_digit z
  | S n => if z <? 16 then hex_digit z else (hex_from n (z / 16) +:+ hex_digit (z mod 16))%string
  end.
Definition format_x (z : Z) : string := hex_from 3 z.

(** How a branch of [get_field_string] reads the key and prints the value: an
    integer unpacked with a format and possibly masked, six or four bytes
    indexed one by one, eight 16-bit groups, or the variant of the latter that
    assigns to an index of an empty list. *)
Inductive fkind :=
  | KInt (fmt : string) (length_ : nat) (mask : option Z)
  | KMac
  | KIPv4
  | KIPv6
  | KIPv6Assign.

Definition kind_width (k : fkind) : nat :=
  match k with KInt _ l _ => l | KMac => 6 | KIPv4 => 4 | _ => 16 end.

(** The branches in their order: name of the OXM constant, printed label, kind. *)
Definition branches_1 : list (string * string * fkind) :=
  [ ("in_port", "in_port", KInt "<I" 4 None);
    ("in_phy_port", "in_phy_port", KInt "<I" 4 (Some 0x0fff));
    ("vlan_vid", "vlan_vid", KInt "<H" 2 None);
    ("vlan_pcp", "vlan_pcp", KInt "<B" 1 (Some 0x7));
    ("eth_type", "eth_type", KInt "<H" 2 None);
    ("tcp_src", "tcp_src", KInt "<H" 2 None);
    ("tcp_dst", "tcp_dst", KInt "<H" 2 None);
    ("tcp_flags", "tcp_flags", KInt "<H" 2 None);
    ("udp_src", "udp_src", KInt "<H" 2 None);
    ("udp_dst", "udp_dst", KInt "<H" 2 None);
    ("sctp_src", "sctp_src", KInt "<H" 2 None);
    ("sctp_dst", "sctp_dst", KInt "<H" 2 None);
    ("eth_src", "eth_src", KMac);
    ("eth_dst", "eth_dst", KMac);
    ("ipv4_src", "ipv4_src", KIPv4);
    ("ipv4_dst", "ipv4_dst", KIPv4);
    ("ip_proto", "ip_proto", KInt "<B" 1 None);
    ("ip_dscp", "ip_dscp", KInt "<B" 1 (Some 0x3f));
    ("ip_ecn", "ip_ecn", KInt "<B" 1 (Some 0x3)) ]%string.

Definition branches_2 : list (string * string * fkind) :=
  [ ("icmpv4_type", "icmpv4_type", KInt "<B" 1 None);
    ("icmpv4_code", "icmpv4_code", KInt "<B" 1 None);
    ("arp_sha", "arp_sha", KMac);
    ("arp_tha", "arp_tha", KMac);
    ("arp_spa", "arp_spa", KIPv4);
    ("arp_tpa", "arp_tpa", KIPv4);
    ("arp_op", "arp_op", KInt "<H" 2 None);
    ("ipv6_src", "nw_src_ipv6", KIPv6Assign);
    ("ipv6_dst", "nw_dst_ipv6", KIPv6);
    ("ipv6_nd_target", "ipv6_nd_target", KIPv6Assign);
    ("ipv6_nd_sll", "ipv6_nd_sll", KMac);
    ("ipv6_nd_tll", "ipv6_nd_tll", KMac);
    ("ipv6_flabel", "ipv6_flow_label", KInt "<I" 4 (Some 0x000fffff));
    ("icmpv6_type", "icmpv6_type", KInt "<B" 1 None);
    ("icmpv6_code", "icmpv6_code", KInt "<B" 1 None);
    ("mpls_label", "mpls_label", KInt "<I" 4 (Some 0x000fffff));
    ("mpls_tc", "mpls_tc", KInt "<B" 1 (Some 0x3));
    ("mpls_bos", "mpls_bos", KInt "<B" 1 (Some 0x1));
    ("pbb_isid", "pbb_isid", KInt "<I" 4 None);
    ("tunnel_id", "tunnel_id", KInt "<Q" 8 None);
    ("ipv6_exthdr", "ext_hdr", KInt "<H" 2 None) ]%string.

Fixpoint find_branch (l : list (string * string * fkind)) (field : Z) :
    option (string * fkind) :=
  match l with
  | [] => None
  | (nm, label, k) :: l =>
      if field =? OXM_OF nm then Some (label, k) else find_branch l field
  end.

Definition branch_of (field : Z) : option (string * fkind) :=
  find_branch (branches_1 ++ branches_2) field.

(** [key[offset:offset+length]] *)
Definition slice (key : bytes) (offset len : nat) : bytes := take len (drop offset key).

Fixpoint join (sep : string) (l : list string) : string :=
  match l with
  | [] => ""
  | [x] => x
  | x :: l => x +:+ sep +:+ join sep l
  end%string.

Definition value_str (k : fkind) (key : bytes) (offset : nat) : res string :=
  match k with
  | KInt fmt len mask =>
      vs ← unpack fmt (slice key offset len);
      match vs with
      | [VInt v] => Ok (pretty (match mask with Some m => Z.land v m | None => v end))
      | _ => Err IndexError
      end
  | KMac =>
      bs ← mapM_res (fun i => or_raise IndexError (key !! (offset + i)%nat)) (seq 0 6);
      Ok (join ":" (hex02 <$> bs))
  | KIPv4 =>
      bs ← mapM_res (fun i => or_raise IndexError (key !! (offset + i)%nat)) (seq 0 4);
      Ok (join "." (pretty <$> bs))
  | KIPv6 =>
      gs ← mapM_res (fun q =>
             vs ← unpack "<H" (slice key (offset + 2 * q) 2);
             match vs with [VInt v] => Ok (format_x v) | _ => Err IndexError end) (seq 0 8);
      Ok (join ":" gs)
  | KIPv6Assign =>
      vs ← unpack "<H" (slice key offset 2); Err IndexError
  end.

(** [None] when no branch is taken and the function returns Python's [None]. *)
Definition get_field_string (field : Z) (key : bytes) (key_count : Z) (offset : nat) :
    res (option (string * nat)) :=
  match branch_of field with
  | None => Ok None
  | Some (label, k) =>
      if key_count =? 0 then Ok (Some (label +:+ "=*", 0%nat)%string)
      else v ← value_str k key offset;
           Ok (Some (label +:+ "=" +:+ dq +:+ v +:+ dq, kind_width k))%string
  end.

Definition key_step (fields : list Z) (field_count : nat) (entry : OFPStateEntry)
    (acc : string * nat) (field : Z) : res (string * nat) :=
  let '(s, offset) := acc in
  o ← get_field_string field (key entry) (key_count entry) offset;
  '(str, field_len) ← or_raise TypeError o;
  last ← or_raise IndexError (fields !! (field_count - 1)%nat);
  Ok (s +:+ str +:+ (if (field =? last)%Z then "" else ","), (offset + field_len)%nat)%string.

Definition state_entry_key_to_str (fields : list Z) (field_count : nat)
    (entry : OFPStateEntry) : res string :=
  '(s, _) ← foldM (key_step fields field_count entry) (""%string, 0%nat)
              (take field_count fields);
  Ok s.

(** *** What is printed *)

Definition value_text (k : fkind) (bs : bytes) : string :=
  match k with
  | KInt _ _ mask =>
      pretty (match mask with Some m => Z.land (decode Little bs) m
                            | None => decode Little bs end)
  | KMac => join ":" (hex02 <$> bs)
  | KIPv4 => join "." (pretty <$> bs)
  | _ => join ":" ((fun q => format_x (decode Little (slice bs (2 * q) 2))) <$> seq 0 8)
  end.

Definition printable (k : fkind) : bool :=
  match k with
  | KIPv6Assign => false
  | KInt fmt l _ =>
      match parse_fmt fmt with
      | Some (Format Little [Fi w]) => (w =? l)%nat
      | _ => false
      end
  | _ => true
  end.

Lemma slice_length key offset len :
  (offset + len <= length key)%nat -> length (slice key offset len) = len.
Proof. intros. unfold slice. rewrite length_take, length_drop. lia. Qed.

Lemma slice_slice key offset len o l :
  (o + l <= len)%nat -> slice (slice key offset len) o l = slice key (offset + o) l.
Proof.
  intros. unfold slice. rewrite skipn_firstn_comm, take_take, drop_drop.
  f_equal. lia.
Qed.

Lemma index_slice key offset len i :
  (i < len)%nat -> slice key offset len !! i = key !! (offset + i)%nat.
Proof. intros. unfold slice. rewrite lookup_take_lt, lookup_drop by lia. done. Qed.

Lemma mapM_index key offset n :
  (offset + n <= length key)%nat ->
  mapM_res (fun i => or_raise IndexError (key !! (offset + i)%nat)) (seq 0 n)
  = Ok (slice key offset n).
Proof.
  intros H. rewrite (mapM_res_ok _ (fun i => default 0 (key !! (offset + i)%nat))).
  - f_equal. apply list_eq. intros i. rewrite list_lookup_fmap.
    destruct (decide (i < n)%nat).
    + rewrite lookup_seq_lt by done. simpl. rewrite index_slice by done.
      destruct (lookup_lt_is_Some_2 key (offset + i)) as [x ->]; [lia|done].
    + rewrite lookup_seq_ge by lia. simpl. symmetry. apply lookup_ge_None.
      rewrite slice_length by done. lia.
  - intros i [_ Hi]%elem_of_seq.
    destruct (lookup_lt_is_Some_2 key (offset + i)) as [x ->]; [lia|done].
Qed.

Lemma unpack_int_le fmt w bs :
  parse_fmt fmt = Some (Format Little [Fi w]) -> length bs = w ->
  unpack fmt bs = Ok [VInt (decode Little bs)].
Proof.
  intros Hf Hl. unfold unpack, with_fmt. rewrite Hf. unfold funpack_from, fmt_size. cbn.
  rewrite Nat.add_0_r, Hl, Nat.eqb_refl, Nat.leb_refl. by rewrite take_ge by (rewrite ?drop_0; lia).
Qed.

Lemma value_str_printable k key offset :
  printable k = true -> (offset + kind_width k <= length key)%nat ->
  value_str k key offset = Ok (value_text k (slice key offset (kind_width k))).
Proof.
  intros Hp Hl. destruct k as [fmt l mask| | | |]; cbn [printable kind_width] in *.
  - destruct (parse_fmt fmt) as [[[] [|[|w|] [|]]]|] eqn:Hf; try done.
    apply Nat.eqb_eq in Hp as ->. cbn [value_str].
    by rewrite (unpack_int_le _ l) by (done || by apply slice_length).
  - unfold value_str. by rewrite mapM_index.
  - unfold value_str. by rewrite mapM_index.
  - cbn [value_str value_text].
    rewrite (mapM_res_ok _ (fun q => format_x (decode Little (slice key (offset + 2 * q) 2)))).
    + cbn [mbind res_bind]. do 2 f_equal. apply list_fmap_ext. intros i q Hq.
      apply lookup_seq in Hq as [-> Hi]. rewrite slice_slice; [done|lia].
    + intros q [_ Hq]%elem_of_seq.
      rewrite (unpack_int_le _ 2) by (done || apply slice_length; lia). done.
  - done.
Qed.

Fixpoint field_texts (fields : list Z) (ks : bytes) : list string :=
  match fields with
  | [] => []
  | f :: fs =>
      match branch_of f with
      | Some (label, k) =>
          (label +:+ "=" +:+ dq +:+ value_text k (take (kind_width k) ks) +:+ dq)%string
          :: field_texts fs (drop (kind_width k) ks)
      | None => []
      end
  end.

Definition field_width (f : Z) : nat :=
  match branch_of f with Some (_, k) => kind_width k | None => 0 end.

Definition field_printable (f : Z) : bool :=
  match branch_of f with Some (_, k) => printable k | None => false end.

Lemma string_app_nil_r (s : string) : (s +:+ "")%string = s.
Proof. induction s as [|c s IH]; [done|]. change (String c (s +:+ "") = String c s)%string. by rewrite IH. Qed.

Lemma string_app_assoc (a b c : string) : (a +:+ (b +:+ c) = (a +:+ b) +:+ c)%string.
Proof. induction a as [|x a IH]; [done|].
  change (String x (a +:+ (b +:+ c)) = String x ((a +:+ b) +:+ c))%string. by rewrite IH.
Qed.

Lemma field_step f :
  field_printable f = true ->
  exists label k, branch_of f = Some (label, k) /\ field_width f = kind_width k
    /\ (forall fs ks, field_texts (f :: fs) ks =
          (label +:+ "=" +:+ dq +:+ value_text k (take (kind_width k) ks) +:+ dq)%string
          :: field_texts fs (drop (kind_width k) ks))
    /\ (forall fields fc entry s off,
          key_count entry <> 0 -> (off + field_width f <= length (key entry))%nat ->
          key_step fields fc entry (s, off) f =
          (last ← or_raise IndexError (fields !! (fc - 1)%nat);
           Ok (s +:+ (label +:+ "=" +:+ dq +:+ value_text k (slice (key entry) off (kind_width k))
                      +:+ dq) +:+ (if (f =? last)%Z then "" else ","),
               (off + kind_width k)%nat)%string)).
Proof.
  unfold field_printable, field_width. cbn [field_texts].
  destruct (branch_of f) as [[label k]|] eqn:Hb; [|done]. intros Hp.
  exists label, k. split; [done|]. split; [done|]. split; [done|].
  intros fields fc entry s off Hk Hl. unfold key_step, get_field_string.
  rewrite Hb, (proj2 (Z.eqb_neq _ _)) by done. by rewrite value_str_printable.
Qed.

Lemma key_loop fields fc entry l last s off :
  key_count entry <> 0 -> fields !! (fc - 1)%nat = Some last ->
  Forall (fun f => field_printable f = true) (l ++ [last]) -> last ∉ l ->
  (off + sum_list (field_width <$> (l ++ [last])) <= length (key entry))%nat ->
  exists off',
  foldM (key_step fields fc entry) (s, off) (l ++ [last])
  = Ok ((s +:+ join "," (field_texts (l ++ [last]) (drop off (key entry))))%string, off').
Proof.
  intros Hk Hlast. revert s off.
  induction l as [|f l IH]; intros s off Hp Hn Hl; cbn [app fmap list_fmap sum_list_with id] in *;
    inversion_clear Hp as [|? ? Hf Hp'];
    apply field_step in Hf as (label & k & Hb & Hw & Ht & Hstep); rewrite Ht;
    cbn [foldM]; (rewrite Hstep; [|done|lia]);
    rewrite Hlast; cbn [mbind res_bind or_raise].
  - rewrite Z.eqb_refl, string_app_nil_r. cbn. eauto.
  - rewrite (proj2 (Z.eqb_neq _ _)) by set_solver.
    edestruct IH as [off' ->]; [done|set_solver| |].
    { lia. }
    exists off'. rewrite <- drop_drop. unfold slice. 
    destruct (field_texts (l ++ [last]) _) as [|t ts] eqn:Et.
    { exfalso. destruct l as [|g l]; cbn [app] in Et, Hp';
        inversion_clear Hp' as [|? ? Hg _];
        apply field_step in Hg as (? & ? & _ & _ & Ht' & _); by rewrite Ht' in Et. }
    cbn [join]. by rewrite !string_app_assoc.
Qed.
End KeyStr.

(** ** Masked states from text *)

Module Masked.

(** Python 2's [int(s, 2)]: white space, a sign, white space, an optional
    [0b] before a digit, binary digits, white space. *)
Definition isspace (c : ascii) : bool :=
  let n := nat_of_ascii c in (n =? 32)%nat || ((9 <=? n)%nat && (n <=? 13)%nat).

Definition is_bit (c : ascii) : bool := bool_decide (c = "0"%char \/ c = "1"%char).

Fixpoint skip_ws (s : list ascii) : list ascii :=
  match s with c :: s' => if isspace c then skip_ws s' else s | [] => [] end.

Fixpoint take_bits (s : list ascii) : list ascii :=
  match s with c :: s' => if is_bit c then c :: take_bits s' else [] | [] => [] end.

(** The value of a list of binary digits. *)
Definition bin_val (s : list ascii) : Z :=
  foldl (fun acc c => 2 * acc + (if bool_decide (c = "1"%char) then 1 else 0)) 0 s.

Definition skip_prefix (s : list ascii) : list ascii :=
  match s with
  | c0 :: c1 :: c2 :: s' =>
      if bool_decide (c0 = "0"%char) && bool_decide (c1 = "b"%char \/ c1 = "B"%char)
         && is_bit c2
      then c2 :: s' else s
  | _ => s
  end.

Definition int2 (s : list ascii) : res Z :=
  let s := skip_ws s in
  let '(sign, s) :=
    match s with
    | c :: s' => if bool_decide (c = "-"%char) then (-1, s')
                 else if bool_decide (c = "+"%char) then (1, s') else (1, s)
    | [] => (1, s)
    end in
  let s := skip_prefix (skip_ws s) in
  let ds := take_bits s in
  match ds, skip_ws (drop (length ds) s) with
  | _ :: _, [] => Ok (sign * bin_val ds)
  | _, _ => Err ValueError
  end.

(** [re.search('r[^01*]', s)]: a letter r followed by another character. *)
Fixpoint re_search (s : list ascii) : bool :=
  match s with
  | c :: (d :: _) as s' =>
      (bool_decide (c = "r"%char)
       && negb (is_bit d || bool_decide (d = "*"%char))) || re_search s'
  | _ => false
  end.

(** The loop body; the index into the string is always within it. *)
Definition mask_step (s : list ascii) (offset : nat)
    (mv : list ascii * list ascii) (i : nat) : list ascii * list ascii :=
  let '(mask, value) := mv in
  let c := default "0"%char (s !! (length s - 1 + offset - i)%nat) in
  if bool_decide (c = "*"%char) then (mask, value)
  else (<[(31 - i)%nat := "1"%char]> mask, <[(31 - i)%nat := c]> value).

Definition masked_global_state_from_str (s : list ascii) (offset : Z) : res (Z * Z) :=
  let str_len := length s in
  if re_search s || (32 <? str_len)%nat || (str_len <? 1)%nat then Ok (0, 0)
  else if (31 <? offset) || (offset <? 0) then Ok (0, 0)
  else if 32 <? Z.of_nat str_len + offset then Ok (0, 0)
  else
    let offset := Z.to_nat offset in
    let '(mask, value) :=
      foldl (mask_step s offset) (replicate 32 "0"%char, replicate 32 "0"%char)
        (seq offset str_len) in
    v ← int2 value; m ← int2 mask; Ok (v, m).

(** [bin(n)[2:]] of a non-negative integer. *)
Fixpoint pos_bits (p : positive) : list ascii :=
  match p with
  | xH => ["1"%char]
  | xO p => pos_bits p ++ ["0"%char]
  | xI p => pos_bits p ++ ["1"%char]
  end.
Definition bin_digits (z : Z) : list ascii :=
  match z with Zpos p => pos_bits p | _ => ["0"%char] end.

(** A plain Python 2 integer; larger values have type [long]. *)
Definition is_int (z : Z) : bool := (- 2 ^ 63 <=? z) && (z <? 2 ^ 63).

(** [l[i] = x] on a list of 32 elements with Python's negative indices. *)
Definition set32 (i : Z) (x : ascii) (l : list ascii) : list ascii :=
  <[Z.to_nat (if i <? 0 then 32 + i else i) := x]> l.

Definition sub_step (bin_state : list ascii) (section_len : nat)
    (st : list ascii * list ascii * nat) (i : nat) : list ascii * list ascii * nat :=
  let '(value, mask, count) := st in
  (set32 (31 - Z.of_nat i) (default "0"%char (bin_state !! (section_len - count)%nat)) value,
   set32 (31 - Z.of_nat i) "1"%char mask, S count).

Definition substate (state section sec_count : Z) : res (Z * Z) :=
  if negb (is_int state) || negb (is_int section) || negb (is_int sec_count)
  then Ok (0, 0)
  else if (state <? 0) || (section <? 0) || (sec_count <? 0) then Ok (0, 0)
  else if sec_count =? 0 then Err ZeroDivisionError
  else if negb (32 mod sec_count =? 0) then Ok (0, 0)
  else
    let section_len := 32 / sec_count in
    if 2 ^ section_len <=? state then Ok (0, 0)
    else if negb ((1 <=? section) && (section <? sec_count + 1)) then Ok (0, 0)
    else
      let starting_point := Z.to_nat (section * section_len) in
      let section_len := Z.to_nat section_len in
      let ds := bin_digits state in
      let bin_state :=
        foldl (fun b i => <[(section_len - 1 - i)%nat :=
                             default "0"%char (ds !! (length ds - 1 - i)%nat)]> b)
          (replicate section_len "0"%char) (seq 0 (length ds)) in
      let '(value, mask, _) :=
        foldl (sub_step bin_state section_len)
          (replicate 32 "0"%char, replicate 32 "0"%char, 1%nat)
          (seq starting_point section_len) in
      v ← int2 value; m ← int2 mask; Ok (v, m).

(** *** Binary numerals *)

Lemma bin_val_snoc s c :
  bin_val (s ++ [c]) = 2 * bin_val s + (if bool_decide (c = "1"%char) then 1 else 0).
Proof. unfold bin_val. by rewrite foldl_app. Qed.

Lemma bin_val_zeros_r s n :
  bin_val (s ++ replicate n "0"%char) = bin_val s * 2 ^ Z.of_nat n.
Proof.
  induction n as [|n IH]; [rewrite app_nil_r; simpl; lia|].
  rewrite replicate_S_end, app_assoc, bin_val_snoc, IH.
  rewrite Nat2Z.inj_succ, Z.pow_succ_r by lia.
  rewrite (bool_decide_eq_false_2 ("0"%char = "1"%char)) by done. lia.
Qed.

Lemma bin_val_zeros_l s n : bin_val (replicate n "0"%char ++ s) = bin_val s.
Proof.
  induction s as [|c s IH] using rev_ind.
  - rewrite app_nil_r. rewrite <- (app_nil_l (replicate _ _)), bin_val_zeros_r. done.
  - by rewrite app_assoc, !bin_val_snoc, IH.
Qed.

Lemma bin_val_ones n : bin_val (replicate n "1"%char) = 2 ^ Z.of_nat n - 1.
Proof.
  induction n as [|n IH]; [done|]. rewrite replicate_S_end, bin_val_snoc, IH.
  rewrite Nat2Z.inj_succ, Z.pow_succ_r, bool_decide_eq_true_2 by (done || lia). lia.
Qed.

Lemma take_bits_all s : Forall (fun c => is_bit c = true) s -> take_bits s = s.
Proof. induction 1 as [|c s Hc _ IH]; [done|]. simpl. by rewrite Hc, IH. Qed.

Lemma int2_bits s :
  Forall (fun c => is_bit c = true) s -> s <> [] -> int2 s = Ok (bin_val s).
Proof.
  intros Hs Hne. destruct s as [|c s]; [done|].
  inversion Hs as [|? ? Hc Hs']; subst.
  assert (Hp : skip_prefix (c :: s) = c :: s).
  { destruct s as [|c1 [|c2 s]]; [done..|]. simpl.
    inversion Hs' as [|? ? Hc1 _]; subst. apply bool_decide_eq_true in Hc1.
    rewrite (bool_decide_eq_false_2 (c1 = _ \/ _)) by (by destruct Hc1; subst; intros []).
    by rewrite andb_false_r. }
  assert (Hw : isspace c = false /\ bool_decide (c = "-"%char) = false
               /\ bool_decide (c = "+"%char) = false).
  { apply bool_decide_eq_true in Hc. by destruct Hc; subst. }
  destruct Hw as (Hw1 & Hw2 & Hw3). unfold int2.
  assert (Hsk : skip_ws (c :: s) = c :: s) by (simpl; by rewrite Hw1).
  rewrite Hsk, Hw2, Hw3, Hsk, Hp, take_bits_all by done.
  rewrite drop_all. f_equal. cbn [skip_ws]. lia.
Qed.

(** A loop that fills a list from the right. *)
Lemma fill_right {A} (z : A) (s : list A) (N : nat) (k : nat) (d : A) :
  (length s <= N)%nat -> (k <= length s)%nat ->
  foldl (fun b i => <[(N - 1 - i)%nat := default d (s !! (length s - 1 - i)%nat)]> b)
    (replicate N z) (seq 0 k)
  = replicate (N - k) z ++ drop (length s - k) s.
Proof.
  intros Hl. induction k as [|k IH]; intros Hk.
  - simpl. rewrite !Nat.sub_0_r, drop_all. by rewrite app_nil_r.
  - rewrite seq_S, foldl_app, IH by lia. cbn [foldl].
    replace (N - k)%nat with (S (N - S k)) by lia.
    rewrite replicate_S_end, <- app_assoc.
    replace (N - 1 - (0 + k))%nat with (length (replicate (N - S k) z) + 0)%nat
      by (rewrite length_replicate; lia).
    rewrite insert_app_r. f_equal.
    destruct (lookup_lt_is_Some_2 s (length s - 1 - (0 + k))) as [x Hx]; [lia|].
    rewrite Hx. cbn [default from_option]. rewrite (drop_S s x (length s - S k)).
    + replace (S (length s - S k)) with (length s - k)%nat by lia. done.
    + rewrite <- Hx. f_equal. lia.
Qed.

Definition mask_char (c : ascii) : ascii :=
  if bool_decide (c = "*"%char) then "0"%char else "1"%char.
Definition value_char (c : ascii) : ascii :=
  if bool_decide (c = "*"%char) then "0"%char else c.

Lemma mask_loop s off k :
  (length s + off <= 32)%nat -> (k <= length s)%nat ->
  foldl (mask_step s off) (replicate 32 "0"%char, replicate 32 "0"%char) (seq off k)
  = let fill g := replicate (32 - off - k) "0"%char ++ (g <$> drop (length s - k) s)
                  ++ replicate off "0"%char in
    (fill mask_char, fill value_char).
Proof.
  intros Hl. induction k as [|k IH]; intros Hk.
  - cbn [seq foldl]. rewrite !Nat.sub_0_r, drop_all. cbn [fmap list_fmap app].
    rewrite <- replicate_add. by replace (32 - off + off)%nat with 32%nat by lia.
  - rewrite seq_S, foldl_app, IH by lia. cbn [foldl mask_step].
    destruct (lookup_lt_is_Some_2 s (length s - S k)) as [x Hx]; [lia|].
    replace (length s - 1 + off - (off + k))%nat with (length s - S k)%nat by lia.
    rewrite Hx. cbn [default from_option id]. rewrite (drop_S s x _ Hx).
    replace (S (length s - S k)) with (length s - k)%nat by lia.
    replace (32 - off - k)%nat with (S (32 - off - S k)) by lia.
    rewrite replicate_S_end, <- !app_assoc. cbn [fmap list_fmap app].
    replace (31 - (off + k))%nat
      with (length (replicate (32 - off - S k) "0"%char) + 0)%nat
      by (rewrite length_replicate; lia).
    rewrite !insert_app_r.
    assert (mask_char x = if bool_decide (x = "*"%char) then "0"%char else "1"%char) as ->
      by done.
    assert (value_char x = if bool_decide (x = "*"%char) then "0"%char else x) as ->
      by done.
    by case_bool_decide.
Qed.

Definition ternary (c : ascii) : Prop := c = "0"%char \/ c = "1"%char \/ c = "*"%char.

Lemma re_search_ternary s : Forall ternary s -> re_search s = false.
Proof.
  intros H. induction H as [|c s Hc Hs IH]; [done|]. destruct s as [|d s]; [done|].
  change (re_search (c :: d :: s))
    with ((bool_decide (c = "r"%char) && negb (is_bit d || bool_decide (d = "*"%char)))
          || re_search (d :: s)).
  rewrite IH, (bool_decide_eq_false_2 (c = _)); [done|].
  by destruct Hc as [->|[->| ->]].
Qed.

Lemma zeros_bits n : Forall (fun c => is_bit c = true) (replicate n "0"%char).
Proof. by apply Forall_replicate. Qed.

Lemma fill_bits s a b :
  Forall (fun c => is_bit c = true) s -> s <> [] ->
  int2 (replicate a "0"%char ++ s ++ replicate b "0"%char)
  = Ok (bin_val s * 2 ^ Z.of_nat b).
Proof.
  intros Hs Hne. rewrite int2_bits.
  - by rewrite bin_val_zeros_l, bin_val_zeros_r.
  - rewrite !Forall_app. repeat split; (apply zeros_bits || done).
  - destruct s; [done|]. by destruct a.
Qed.

Lemma ternary_bits (g : ascii -> ascii) s :
  (forall c, ternary c -> is_bit (g c) = true) -> Forall ternary s ->
  Forall (fun c => is_bit c = true) (g <$> s).
Proof.
  intros Hg Hs. apply Forall_fmap. eapply Forall_impl; [exact Hs|]. exact Hg.
Qed.

Lemma pos_bits_val p : bin_val (pos_bits p) = Z.pos p.
Proof. induction p as [p IH|p IH|]; simpl; rewrite ?bin_val_snoc, ?IH; done. Qed.

Lemma pos_bits_length p : Z.pos p < 2 ^ Z.of_nat (length (pos_bits p)) <= 2 * Z.pos p.
Proof.
  induction p as [p IH|p IH|]; simpl; rewrite ?length_app; simpl;
    rewrite ?Nat.add_1_r, ?Nat2Z.inj_succ, ?Z.pow_succ_r by lia; lia.
Qed.

Lemma pos_bits_bits p : Forall (fun c => is_bit c = true) (pos_bits p).
Proof.
  induction p; simpl; rewrite ?Forall_app; repeat split; auto; by repeat constructor.
Qed.

Lemma bin_digits_spec z n :
  (0 < n)%nat -> 0 <= z < 2 ^ Z.of_nat n ->
  bin_val (bin_digits z) = z /\ (length (bin_digits z) <= n)%nat
  /\ Forall (fun c => is_bit c = true) (bin_digits z).
Proof.
  intros Hn Hz. destruct z as [|p|p]; [split; [done|split; [simpl; lia|]]| |lia].
  - by repeat constructor.
  - split; [apply pos_bits_val|]. split; [|apply pos_bits_bits].
    pose proof (pos_bits_length p). cbn [bin_digits].
    destruct (le_lt_dec (length (pos_bits p)) n) as [|Hlt]; [done|].
    assert (2 * 2 ^ Z.of_nat n <= 2 ^ Z.of_nat (length (pos_bits p))).
    { rewrite <- Z.pow_succ_r by lia. apply Z.pow_le_mono_r; lia. }
    lia.
Qed.

(** The sections of the 32-bit state, as the loop writes them: section [s] of
    [n] lands [s mod n] sections above the least significant bit. *)
Definition section_pos (section sec_count : nat) : nat :=
  (section mod sec_count) * (32 / sec_count).

Definition section_ok (sec_count section : nat) : Prop :=
  forall b, length b = (32 / sec_count)%nat ->
  foldl (sub_step b (32 / sec_count)) (replicate 32 "0"%char, replicate 32 "0"%char, 1%nat)
    (seq (section * (32 / sec_count)) (32 / sec_count))
  = let fill x := replicate (32 - section_pos section sec_count - 32 / sec_count) "0"%char
                  ++ x ++ replicate (section_pos section sec_count) "0"%char in
    (fill b, fill (replicate (32 / sec_count) "1"%char), S (32 / sec_count)).

Lemma sections_ok :
  Forall (fun n => Forall (section_ok n) (seq 1 n)) [1; 2; 4; 8; 16; 32]%nat.
Proof.
  repeat constructor; intros b Hb; cbn in Hb;
    repeat (destruct b as [|? b]; [discriminate Hb|injection Hb as Hb]);
    (destruct b; [|discriminate Hb]); vm_compute; reflexivity.
Qed.

Lemma masked_spec s offset :
  Forall ternary s -> s <> [] -> 0 <= offset <= 31 ->
  Z.of_nat (length s) + offset <= 32 ->
  masked_global_state_from_str s offset
  = Ok (bin_val (value_char <$> s) * 2 ^ offset, bin_val (mask_char <$> s) * 2 ^ offset).
Proof.
  intros Hs Hne Ho Hl. unfold masked_global_state_from_str.
  rewrite re_search_ternary by done.
  assert (0 < length s)%nat by (destruct s; [done|simpl; lia]).
  rewrite (proj2 (Nat.ltb_ge _ _)), (proj2 (Nat.ltb_ge _ _)) by lia. cbn [orb].
  rewrite (proj2 (Z.ltb_ge _ _)), (proj2 (Z.ltb_ge _ _)), (proj2 (Z.ltb_ge _ _)) by lia.
  cbn [orb]. rewrite mask_loop by lia. cbv zeta. rewrite Nat.sub_diag, drop_0.
  assert (forall g : ascii -> ascii, g <$> s <> []) by (by destruct s).
  rewrite !fill_bits; [cbn; by rewrite Z2Nat.id by lia| |done| |done];
    apply ternary_bits; try done; by intros c [->|[->| ->]].
Qed.

Lemma divisors_of_32 n :
  0 < n -> 32 mod n = 0 -> Z.to_nat n ∈ [1; 2; 4; 8; 16; 32]%nat.
Proof.
  intros Hn Hm. assert (Hle : n <= 32).
  { destruct (Z.le_gt_cases n 32); [done|]. rewrite Z.mod_small in Hm by lia. lia. }
  assert (Hin : Z.to_nat n ∈ filter (fun m => 32 mod Z.of_nat m = 0) (seq 1 32)).
  { apply list_elem_of_filter. rewrite Z2Nat.id by lia. split; [done|].
    apply elem_of_seq. lia. }
  exact Hin.
Qed.

Lemma section_len_facts n :
  0 < n -> 32 mod n = 0 ->
  n <= 32 /\ 1 <= 32 / n <= 32 /\ 2 ^ (32 / n) <= 2 ^ 32
  /\ (32 / Z.to_nat n)%nat = Z.to_nat (32 / n).
Proof.
  intros Hn Hm. assert (n <= 32).
  { destruct (Z.le_gt_cases n 32); [done|]. rewrite Z.mod_small in Hm by lia. lia. }
  assert (1 <= 32 / n <= 32).
  { split; [apply Z.div_le_lower_bound; lia|apply Z.div_le_upper_bound; lia]. }
  repeat split; try lia.
  - apply Z.pow_le_mono_r; lia.
  - change 32%nat with (Z.to_nat 32). by rewrite Z2Nat.inj_div by lia.
Qed.

Lemma substate_spec state section sec_count :
  0 < sec_count -> 32 mod sec_count = 0 -> 1 <= section <= sec_count ->
  0 <= state < 2 ^ (32 / sec_count) ->
  let shift := (section mod sec_count) * (32 / sec_count) in
  substate state section sec_count
  = Ok (state * 2 ^ shift, (2 ^ (32 / sec_count) - 1) * 2 ^ shift).
Proof.
  intros Hc Hm Hs Hst shift.
  destruct (section_len_facts _ Hc Hm) as (Hn & Hlen & Hpow & Hdiv).
  pose proof (proj1 (Forall_forall _ _) sections_ok _ (divisors_of_32 _ Hc Hm)) as Hok.
  apply Forall_forall with (x := Z.to_nat section) in Hok;
    [|apply elem_of_seq; lia]. unfold section_ok in Hok. rewrite Hdiv in Hok.
  assert (Hp : Z.of_nat (section_pos (Z.to_nat section) (Z.to_nat sec_count)) = shift).
  { unfold section_pos, shift. rewrite Hdiv.
    rewrite Nat2Z.inj_mul, Nat2Z.inj_mod, !Z2Nat.id by lia. done. }
  set (sl := Z.to_nat (32 / sec_count)) in *. clearbody shift.
  assert (Hsl : Z.of_nat sl = 32 / sec_count) by (unfold sl; lia).
  rewrite <- Hsl in Hst, Hpow.
  destruct (bin_digits_spec state sl ltac:(lia) Hst) as (Hv & Hdl & Hdb).
  unfold substate, is_int. rewrite <- Hsl, Hm, Nat2Z.id.
  zcmp.
  rewrite fill_right by lia. rewrite Nat.sub_diag, drop_0.
  replace (Z.to_nat (section * Z.of_nat sl)) with (Z.to_nat section * sl)%nat by lia.
  rewrite Hok by (rewrite length_app, length_replicate; lia).
  cbv zeta. rewrite !fill_bits.
  - cbn [mbind res_bind]. by rewrite bin_val_zeros_l, Hv, bin_val_ones, Hp.
  - apply Forall_app. split; [apply zeros_bits|done].
  - intros E. apply app_eq_nil in E as [_ E]. destruct state as [|p|p]; [done| |done].
    apply (f_equal length) in E. pose proof (pos_bits_length p). cbn in E, H.
    rewrite E in H. cbn in H. lia.
  - by apply Forall_replicate.
  - destruct sl; [lia|done].
Qed.
End Masked.

(** ** Claims *)

Module BebaStatsClaims.
Import Stats KeyStr Masked.

(** C20: A state statistics reply is read back exactly: whatever bytes precede it,
    the entries a switch sends (header, key of at most 48 bytes, padding to eight
    bytes) for tables whose lookup scope is known come out in order, with every
    header field, the scope's fields and the key, in the full and in the short
    format. *)
Theorem stats_reply_roundtrip (scope : gmap Z (list Z)) (pre : bytes)
    (l : list OFPStateStats) (ls : list OFPStateStatsShort) :
  Forall (stats_wf scope) l -> Forall (short_wf scope) ls ->
  stats_parser (Some scope) (pre ++ concat (enc_stats <$> l)) (length pre) = Some (Ok l)
  /\ short_parser (Some scope) (pre ++ concat (enc_short <$> ls)) (length pre)
     = Some (Ok ls).
Proof.
  intros Hl Hls. split.
  - change (enc_stats <$> l) with (enc_entry enc_stats_header entry <$> l).
    unfold stats_parser. eapply parse_loop_encoded;
      [unfold OFP_STATE_STATS_SIZE; lia| |rewrite length_app; lia].
    eapply Forall_impl; [exact Hl|]. apply stats_wf_entry.
  - change (enc_short <$> ls) with (enc_entry enc_short_header s_entry <$> ls).
    unfold short_parser. eapply parse_loop_encoded;
      [unfold OFP_STATE_STATS_SHORT_SIZE; lia| |rewrite length_app; lia].
    eapply Forall_impl; [exact Hls|]. apply short_wf_entry.
Qed.

Definition sample_scope : gmap Z (list Z) := {[ 0 := [OXM_OF "eth_dst"] ]}.
Definition sample_stats : OFPStateStats :=
  MkStats 40 0 6 5 7 0 0 1 2 3 [OXM_OF "eth_dst"] 1 (Entry 6 [1; 2; 3; 4; 5; 6] 3).
Definition sample_short : OFPStateStatsShort :=
  MkShort 16 0 6 3 [OXM_OF "eth_dst"] 1 (Entry 6 [1; 2; 3; 4; 5; 6] 3).

Lemma stats_reply_roundtrip_witness :
  stats_parser (Some sample_scope) ([9; 9] ++ concat (enc_stats <$> [sample_stats; sample_stats]))
    2 = Some (Ok [sample_stats; sample_stats])
  /\ short_parser (Some sample_scope) ([9; 9] ++ concat (enc_short <$> [sample_short])) 2
     = Some (Ok [sample_short]).
Proof.
  apply (stats_reply_roundtrip sample_scope [9; 9] [sample_stats; sample_stats] [sample_short]);
    repeat first [apply Forall_nil_2 | apply Forall_cons_2];
    repeat split; try (vm_compute; reflexivity); try (cbn; unfold MAX_KEY_LEN; lia);
    repeat first [apply Forall_nil_2 | apply Forall_cons_2]; unfold byte_ok; cbn; lia.
Defined.

(** The reply parsers return on every input: whatever the bytes, the offset
    and the recorded scopes, each ends with a list or with an exception. *)
Theorem stats_parsers_terminate scope buf offset :
  (exists r, stats_parser scope buf offset = Some r)
  /\ (exists r, short_parser scope buf offset = Some r).
Proof.
  split; apply parse_loop_total;
    unfold OFP_STATE_STATS_SIZE, OFP_STATE_STATS_SHORT_SIZE; lia.
Qed.

(** Without a single configured lookup extractor a non-empty reply raises
    [AttributeError] once its header is readable, and an entry of an unknown
    table makes the parser go on right behind the header, inside the entry's
    key. *)
Theorem unknown_table_is_desynchronised scope buf offset h :
  stats_header buf offset = Ok h ->
  stats_parser None buf offset = Some (Err AttributeError)
  /\ (scope !! h.1.1.1 = None ->
      stats_parser (Some scope) buf offset
      = stats_parser (Some scope) buf (offset + OFP_STATE_STATS_SIZE)).
Proof.
  intros Hh.
  assert (Hlt : (offset + 32 <= length buf)%nat).
  { unfold stats_header in Hh. apply bind_Ok in Hh as (vs & Hu & _). fmt_eval.
    unfold funpack_from in Hu. case_match eqn:E; [|done].
    apply Nat.leb_le in E. exact E. }
  destruct h as [[[t k] s] mk]. split.
  - unfold stats_parser. cbn [parse_loop].
    rewrite (proj2 (Nat.ltb_lt _ _)), Hh by lia. done.
  - cbn [fst]. intros Hs. unfold stats_parser at 1. cbn [parse_loop].
    rewrite (proj2 (Nat.ltb_lt _ _)), Hh, Hs by lia. unfold OFP_STATE_STATS_SIZE.
    apply parse_loop_fuel; unfold OFP_STATE_STATS_SIZE; lia.
Qed.

Lemma unknown_table_is_desynchronised_witness :
  let buf := concat (enc_stats <$> [sample_stats]) in
  stats_parser None buf 0 = Some (Err AttributeError)
  /\ stats_parser (Some ∅) buf 0 = stats_parser (Some ∅) buf 32.
Proof.
  cbv zeta.
  destruct (stats_header (concat (enc_stats <$> [sample_stats])) 0) as [h|e] eqn:E;
    [|vm_compute in E; discriminate].
  destruct (unknown_table_is_desynchronised ∅ _ 0%nat h E) as [H1 H2].
  split; [exact H1|]. apply H2. vm_compute in E. injection E as <-. reflexivity.
Defined.

(** The key of a state entry as text: for distinct fields that the function
    can print and a key that is long enough, the texts of the fields, each read
    from its own slice of the key, joined with commas. *)
Theorem key_to_str_text (fields : list Z) (entry : OFPStateEntry) :
  NoDup fields -> Forall (fun f => field_printable f = true) fields ->
  key_count entry <> 0 ->
  (sum_list (field_width <$> fields) <= length (key entry))%nat ->
  state_entry_key_to_str fields (length fields) entry
  = Ok (join "," (field_texts fields (key entry))).
Proof.
  intros Hnd Hp Hk Hl. unfold state_entry_key_to_str. rewrite firstn_all.
  destruct fields as [|last l _] using rev_ind; [done|].
  apply NoDup_app in Hnd as (_ & Hdis & _).
  destruct (key_loop (l ++ [last]) (length (l ++ [last])) entry l last "" 0)
    as [off' ->]; try done.
  - rewrite length_app. cbn. rewrite Nat.add_sub, lookup_app_r by lia.
    by rewrite Nat.sub_diag.
  - intros Hin. apply (Hdis last Hin). set_solver.
Qed.

Lemma key_to_str_text_witness :
  exists s, state_entry_key_to_str [OXM_OF "eth_dst"; OXM_OF "in_port"] 2
              (Entry 10 [1; 2; 3; 4; 5; 6; 7; 0; 0; 0] 0) = Ok s.
Proof.
  eexists. apply (key_to_str_text [OXM_OF "eth_dst"; OXM_OF "in_port"]).
  - apply (bool_decide_unpack _). vm_compute. exact I.
  - repeat first [apply Forall_nil_2 | apply Forall_cons_2]; vm_compute; reflexivity.
  - discriminate.
  - apply Nat.leb_le. vm_compute. reflexivity.
Defined.

(** The widths [get_field_string] steps over are the lengths of the OXM fields
    in every branch but the one of the PBB I-SID, where it reads four bytes of a
    three-byte field; the branches of the IPv6 source and of the neighbour
    discovery target raise on every key. *)
Theorem field_widths_and_errors :
  Forall (fun '(nm, _, k) =>
            match desc_by_name oxm_types nm with
            | Some d => kind_width k = type_size (d_type d)
                        \/ nm = "pbb_isid"%string /\ kind_width k = S (type_size (d_type d))
            | None => False
            end) (branches_1 ++ branches_2)
  /\ (forall nm key key_count offset,
        nm ∈ ["ipv6_src"; "ipv6_nd_target"]%string -> key_count <> 0 ->
        exists e, get_field_string (OXM_OF nm) key key_count offset = Err e).
Proof.
  split.
  - repeat first [apply Forall_nil_2 | apply Forall_cons_2]; vm_compute; auto.
  - intros nm k kc off Hnm Hk. unfold get_field_string.
    assert (exists l, branch_of (OXM_OF nm) = Some (l, KIPv6Assign)) as [l ->].
    { apply elem_of_cons in Hnm as [->|Hnm]; [by eexists|].
      apply list_elem_of_singleton in Hnm as ->. by eexists. }
    rewrite (proj2 (Z.eqb_neq _ _)) by done. cbn [value_str].
    destruct (unpack _ _); by eexists.
Qed.

Lemma field_widths_and_errors_witness :
  exists e, get_field_string (OXM_OF "ipv6_src") (replicate 16 0) 16 0 = Err e.
Proof.
  apply (proj2 field_widths_and_errors "ipv6_src"%string); [|discriminate].
  apply list_elem_of_here.
Defined.

(** A ternary string placed at an offset: for a string of 0, 1 and * that fits
    the 32 bits, the value has the ones of the string and the mask its
    non-wildcards, both shifted left by the offset. *)
Theorem masked_global_state_value (s : list ascii) (offset : Z) :
  Forall ternary s -> s <> [] -> 0 <= offset <= 31 ->
  Z.of_nat (length s) + offset <= 32 ->
  masked_global_state_from_str s offset
  = Ok (bin_val (value_char <$> s) * 2 ^ offset, bin_val (mask_char <$> s) * 2 ^ offset).
Proof. apply masked_spec. Qed.

Lemma masked_global_state_value_witness :
  masked_global_state_from_str (String.list_ascii_of_string "0*1100") 12
  = Ok (49152, 192512).
Proof.
  apply (masked_global_state_value (String.list_ascii_of_string "0*1100") 12);
    [|discriminate|lia|cbn; lia].
  repeat first [apply Forall_nil_2 | apply Forall_cons_2]; unfold ternary; auto.
Defined.

(** A sub-state: with the 32 bits cut into [sec_count] sections, the value and
    the mask of section [section] start [section mod sec_count] sections above
    the least significant bit, so section 1 is the second from the right and the
    last section the rightmost one. *)
Theorem substate_position (state section sec_count : Z) :
  0 < sec_count -> 32 mod sec_count = 0 -> 1 <= section <= sec_count ->
  0 <= state < 2 ^ (32 / sec_count) ->
  let shift := (section mod sec_count) * (32 / sec_count) in
  substate state section sec_count
  = Ok (state * 2 ^ shift, (2 ^ (32 / sec_count) - 1) * 2 ^ shift).
Proof. apply substate_spec. Qed.

Lemma substate_position_witness : substate 5 2 4 = Ok (327680, 16711680).
Proof. apply (substate_position 5 2 4); vm_compute; intuition discriminate. Defined.

End BebaStatsClaims.
