(* ===== verification/PktUtils.v ===== *)
(** * Checksums of the packet library (ryu/lib/packet/packet_utils.py)

    The internet checksum as the code computes it on a host of either byte
    order, the checksum over a pseudo header, and the Fletcher checksum of OSPF,
    with their arithmetic characterisations. *)

From Stdlib Require Import ZArith Lia.
From stdpp Require Import base list gmap strings numbers.
From S2P Require Import Prelude Struct.

(** ** The internet checksum *)

Definition carry_around_add (a b : Z) : Z :=
  let c := a + b in Z.land c 0xffff + Z.shiftr c 16.

(** [array.array('H', data)]: 16-bit words in the byte order of the host; the
    data has an even number of bytes. *)
Fixpoint words (e : endian) (data : bytes) : list Z :=
  match data with
  | a :: b :: data => decode e [a; b] :: words e data
  | _ => []
  end.

Definition sum (l : list Z) : Z := foldr Z.add 0 l.

(** [socket.ntohs] *)
Definition ntohs (e : endian) (x : Z) : Z :=
  match e with
  | Big => x
  | Little => Z.land x 0xff * 256 + Z.shiftr x 8
  end.

Definition pad_even (data : bytes) : bytes :=
  if Z.of_nat (length data) mod 2 =? 0 then data else data ++ [0].

Definition checksum (e : endian) (data : bytes) : Z :=
  let data := pad_even data in
  let s := sum (words e data) in
  let s := Z.land s 0xffff + Z.shiftr s 16 in
  let s := s + Z.shiftr s 16 in
  ntohs e (Z.land (Z.lnot s) 0xffff).

(** ** Reference: the complement of the end-around-carry sum *)

(** The representative of [s] modulo 65535 that repeated carrying reaches: zero
    only for zero. *)
Definition canon (s : Z) : Z := if s =? 0 then 0 else (s - 1) mod 65535 + 1.

Definition rfc1071 (data : bytes) : Z := 65535 - canon (sum (words Big (pad_even data))).

Lemma canon_bound s : 0 <= s -> 0 <= canon s <= 65535.
Proof.
  intros. unfold canon. destruct (Z.eqb_spec s 0); [lia|].
  pose proof (Z.mod_pos_bound (s - 1) 65535). lia.
Qed.

Lemma canon_unique s x :
  0 <= s -> 0 <= x <= 65535 -> (s = 0 <-> x = 0) -> x mod 65535 = s mod 65535 ->
  x = canon s.
Proof.
  intros Hs Hx Hz Hm. unfold canon. destruct (Z.eqb_spec s 0) as [->|Hne]; [by apply Hz|].
  assert (x <> 0) by tauto.
  rewrite (Z.div_mod s 65535) at 1 by lia. rewrite <- Hm.
  pose proof (Z.mod_pos_bound s 65535).
  destruct (Z.eq_dec x 65535) as [->|].
  - change (65535 mod 65535) with 0.
    replace (65535 * (s / 65535) + 0 - 1) with (65534 + (s / 65535 - 1) * 65535) by lia.
    rewrite Z_mod_plus_full. done.
  - rewrite (Z.mod_small x) by lia.
    replace (65535 * (s / 65535) + x - 1) with (x - 1 + (s / 65535) * 65535) by lia.
    rewrite Z_mod_plus_full, Z.mod_small by lia. lia.
Qed.

Lemma fold_carry s : 0 <= s -> Z.land s 0xffff + Z.shiftr s 16 = s mod 65536 + s / 65536.
Proof.
  intros. change 0xffff with (Z.ones 16).
  rewrite Z.land_ones, Z.shiftr_div_pow2 by lia. done.
Qed.

(** Two carries reach the canonical representative of a sum of fewer than 2^16
    words. *)
Lemma two_carries s :
  0 <= s < 65536 * 65536 ->
  let s1 := Z.land s 0xffff + Z.shiftr s 16 in
  Z.land (s1 + Z.shiftr s1 16) 0xffff = canon s.
Proof.
  intros Hs s1. unfold s1. rewrite fold_carry by lia.
  pose proof (Z.div_mod s 65536 ltac:(lia)). pose proof (Z.mod_pos_bound s 65536 ltac:(lia)).
  assert (0 <= s / 65536 < 65536).
  { split; [apply Z.div_pos; lia|apply Z.div_lt_upper_bound; lia]. }
  set (t := s mod 65536 + s / 65536) in *.
  assert (Ht : 0 <= t < 131071) by (unfold t; lia).
  change 0xffff with (Z.ones 16). rewrite Z.land_ones, Z.shiftr_div_pow2 by lia.
  change (2 ^ 16) with 65536.
  assert (Hts : t mod 65535 = s mod 65535).
  { replace s with (t + (s / 65536) * 65535) by (unfold t; lia).
    by rewrite Z_mod_plus_full. }
  apply canon_unique; [lia| | |].
  - pose proof (Z.mod_pos_bound (t + t / 65536) 65536). lia.
  - destruct (Z.lt_ge_cases t 65536).
    + rewrite (Z.div_small t), Z.add_0_r, Z.mod_small by lia. unfold t in *. lia.
    + assert (t / 65536 = 1) as -> by (symmetry; apply (Z.div_unique t 65536 1 (t - 65536)); lia).
      replace ((t + 1) mod 65536) with (t + 1 - 65536)
        by (apply (Z.mod_unique (t + 1) 65536 1); lia). unfold t in *. lia.
  - rewrite <- Hts. destruct (Z.lt_ge_cases t 65536).
    + by rewrite (Z.div_small t), Z.add_0_r, (Z.mod_small t 65536) by lia.
    + assert (t / 65536 = 1) as -> by (symmetry; apply (Z.div_unique t 65536 1 (t - 65536)); lia).
      replace ((t + 1) mod 65536) with (t + 1 - 65536)
        by (apply (Z.mod_unique (t + 1) 65536 1); lia).
      replace (t + 1 - 65536) with (t + (-1) * 65535) by lia. apply Z_mod_plus_full.
Qed.

Lemma lnot_16 x : Z.land (Z.lnot x) 0xffff = 65535 - Z.land x 0xffff.
Proof.
  change 0xffff with (Z.ones 16). rewrite !Z.land_ones by lia.
  change (2 ^ 16) with 65536. change (Z.ones 16) with 65535.
  unfold Z.lnot, Z.pred.
  pose proof (Z.mod_pos_bound x 65536 ltac:(lia)).
  symmetry. apply (Z.mod_unique _ _ (- (x / 65536) - 1)); [lia|].
  pose proof (Z.div_mod x 65536 ltac:(lia)). lia.
Qed.

(** ** Byte order *)

Lemma ntohs_small x : 0 <= x < 65536 ->
  ntohs Little x = (x mod 256) * 256 + x / 256 /\ 0 <= ntohs Little x < 65536.
Proof.
  intros. unfold ntohs. change 0xff with (Z.ones 8).
  rewrite Z.land_ones, Z.shiftr_div_pow2 by lia. change (2 ^ 8) with 256.
  split; [done|]. pose proof (Z.mod_pos_bound x 256).
  assert (0 <= x / 256 < 256); [|lia].
  split; [apply Z.div_pos; lia|apply Z.div_lt_upper_bound; lia].
Qed.

Lemma decode2 a b : decode Big [a; b] = a * 256 + b /\ decode Little [a; b] = b * 256 + a.
Proof. unfold decode, be_decode. cbn. lia. Qed.

Lemma words_swap data :
  exists k, sum (words Big data) = 256 * sum (words Little data) - 65535 * k.
Proof.
  revert data. fix IH 1. intros [|a [|b data]]; [exists 0; done..|].
  destruct (IH data) as [k Hk]. cbn [words sum foldr].
  destruct (decode2 a b) as [-> ->]. unfold sum in Hk. rewrite Hk. exists (k + b). lia.
Qed.

Lemma words_bound e data :
  bytes_ok data ->
  0 <= sum (words e data) <= 65535 * Z.of_nat (length data) / 2.
Proof.
  revert data. fix IH 1. intros [|a [|b data]] H.
  - split; vm_compute; discriminate.
  - cbn [words sum foldr length]. split; [lia|]. apply Z.div_pos; lia.
  - inversion H as [|? ? Ha H']; subst. inversion H' as [|? ? Hb Hd]; subst.
    specialize (IH data Hd). cbn [words sum foldr length]. unfold sum in IH.
    unfold byte_ok in *. destruct (decode2 a b) as [E1 E2].
    replace (65535 * Z.of_nat (S (S (length data))))
      with (65535 * Z.of_nat (length data) + 65535 * 2) by lia.
    rewrite Z.div_add by lia. destruct e; rewrite ?E1, ?E2; lia.
Qed.

Lemma words_zero e data : bytes_ok data ->
  sum (words e data) = 0 <-> sum (words Big data) = 0.
Proof.
  revert data. fix IH 1. intros [|a [|b data]] H; [done..|].
  inversion H as [|? ? Ha H']; subst. inversion H' as [|? ? Hb Hd]; subst.
  specialize (IH data Hd). cbn [words sum foldr]. unfold sum in IH.
  unfold byte_ok in *. destruct (decode2 a b) as [E1 E2].
  pose proof (words_bound e data Hd). pose proof (words_bound Big data Hd).
  unfold sum in *. destruct e; rewrite ?E1, ?E2 in *; lia.
Qed.

Lemma ntohs_canon s t k :
  0 <= s -> 0 <= t -> (s = 0 <-> t = 0) -> t = 256 * s - 65535 * k ->
  ntohs Little (65535 - canon s) = 65535 - canon t.
Proof.
  intros Hs Ht Hz Hk. pose proof (canon_bound s Hs). pose proof (canon_bound t Ht).
  destruct (ntohs_small (65535 - canon s)) as [-> Hb]; [lia|].
  set (c := canon s) in *.
  pose proof (Z.div_mod (65535 - c) 256 ltac:(lia)).
  pose proof (Z.mod_pos_bound (65535 - c) 256 ltac:(lia)).
  set (q := (65535 - c) / 256) in *. set (r := (65535 - c) mod 256) in *.
  assert (0 <= q < 256) by (unfold q; split; [apply Z.div_pos|apply Z.div_lt_upper_bound]; lia).
  assert (65535 - (r * 256 + q) = canon t); [|lia].
  apply canon_unique; [done|lia| |].
  - rewrite <- Hz. assert (c = 0 <-> s = 0); [|lia]. unfold c, canon.
    destruct (Z.eqb_spec s 0); [tauto|]. pose proof (Z.mod_pos_bound (s - 1) 65535). lia.
  - assert (Hc : exists j, s = c + 65535 * j).
    { unfold c, canon. destruct (Z.eqb_spec s 0); [exists 0; lia|].
      exists ((s - 1) / 65535). pose proof (Z.div_mod (s - 1) 65535). lia. }
    destruct Hc as [j Hj].
    replace (65535 - (r * 256 + q)) with (t + (k - 256 * j - 255 + q) * 65535) by lia.
    apply Z_mod_plus_full.
Qed.

Lemma pad_even_ok data : bytes_ok data -> bytes_ok (pad_even data).
Proof.
  intros. unfold pad_even. case_match; [done|]. apply Forall_app; split; [done|].
  repeat constructor; lia.
Qed.

Lemma pad_even_length data : (length (pad_even data) <= S (length data))%nat.
Proof. unfold pad_even. case_match; rewrite ?length_app; simpl; lia. Qed.

Lemma checksum_rfc1071 e data :
  bytes_ok data -> Z.of_nat (length data) <= 131070 -> checksum e data = rfc1071 data.
Proof.
  intros Hd Hl. unfold checksum, rfc1071. cbv zeta.
  pose proof (pad_even_ok data Hd) as Hp. pose proof (pad_even_length data).
  set (d := pad_even data) in *.
  assert (Hs : forall e, 0 <= sum (words e d) < 65536 * 65536).
  { intros e'. pose proof (words_bound e' d Hp). split; [lia|].
    eapply Z.le_lt_trans; [apply H0|]. apply Z.div_lt_upper_bound; lia. }
  rewrite lnot_16, two_carries by apply Hs.
  destruct e; [done|]. destruct (words_swap d) as [k Hk].
  eapply ntohs_canon; [apply Hs..|by apply words_zero|exact Hk].
Qed.

(** ** A packet that carries its checksum *)

Lemma words_app e A B : Nat.even (length A) = true ->
  sum (words e (A ++ B)) = sum (words e A) + sum (words e B).
Proof.
  revert A. fix IH 1. intros [|a [|b A]] H; [done|done|].
  change (decode e [a; b] + sum (words e (A ++ B))
          = decode e [a; b] + sum (words e A) + sum (words e B)).
  rewrite (IH A H). lia.
Qed.

Lemma pad_even_app A B : Nat.even (length A) = true ->
  pad_even (A ++ B) = A ++ pad_even B.
Proof.
  intros H. unfold pad_even. rewrite length_app, Nat2Z.inj_add.
  apply Nat.even_spec in H as [k Hk].
  replace (Z.of_nat (length A)) with (Z.of_nat k * 2) by lia.
  rewrite Z.add_comm, Z_mod_plus_full. case_match; [done|]. by rewrite app_assoc.
Qed.

Lemma be_encode_2 c : 0 <= c < 65536 -> be_encode 2 c = [c / 256; c mod 256].
Proof.
  intros. Local Transparent be_encode. cbn. Local Opaque be_encode.
  rewrite (Z.mod_small (c / 256)); [done|].
  split; [apply Z.div_pos; lia|apply Z.div_lt_upper_bound; lia].
Qed.

Lemma canon_mod s : 0 <= s -> exists k, s = canon s + 65535 * k.
Proof.
  intros. unfold canon. destruct (Z.eqb_spec s 0); [exists 0; lia|].
  exists ((s - 1) / 65535). pose proof (Z.div_mod (s - 1) 65535). lia.
Qed.

Lemma sum_pad_bound B : bytes_ok B -> 0 <= sum (words Big (pad_even B)).
Proof. intros HB. apply words_bound. by apply pad_even_ok. Qed.

(** Filling the zeroed checksum field in makes the data check. *)
Lemma checksum_inserted e A B :
  Nat.even (length A) = true -> bytes_ok A -> bytes_ok B ->
  Z.of_nat (length (A ++ [0; 0] ++ B)) <= 131070 ->
  let c := checksum e (A ++ [0; 0] ++ B) in
  0 <= c < 65536 /\ checksum e (A ++ be_encode 2 c ++ B) = 0.
Proof.
  intros He HA HB Hl c.
  assert (H00 : bytes_ok [0; 0]) by (repeat constructor; lia).
  assert (Hc : c = rfc1071 (A ++ [0; 0] ++ B)).
  { apply checksum_rfc1071; [|done]. rewrite !Forall_app. tauto. }
  set (S := sum (words Big A) + sum (words Big (pad_even B))).
  assert (HS : 0 <= S).
  { pose proof (words_bound Big A HA). pose proof (sum_pad_bound B HB). unfold S. lia. }
  assert (HcS : c = 65535 - canon S).
  { rewrite Hc. unfold rfc1071. rewrite pad_even_app, words_app by done.
    rewrite (pad_even_app [0; 0]), (words_app Big [0; 0]) by done. done. }
  pose proof (canon_bound S HS). split; [lia|].
  rewrite be_encode_2 by lia.
  assert (Hb : 0 <= c / 256 < 256)
    by (split; [apply Z.div_pos; lia|apply Z.div_lt_upper_bound; lia]).
  pose proof (Z.mod_pos_bound c 256 ltac:(lia)).
  rewrite checksum_rfc1071.
  - unfold rfc1071. rewrite pad_even_app, words_app by done.
    rewrite (pad_even_app [_; _]), (words_app Big [_; _]) by done.
    replace (sum (words Big [c / 256; c mod 256])) with c.
    2:{ cbn [words sum foldr]. rewrite (proj1 (decode2 _ _)).
        pose proof (Z.div_mod c 256 ltac:(lia)). lia. }
    replace (sum (words Big A) + (c + sum (words Big (pad_even B)))) with (S + c)
      by (unfold S; lia).
    destruct (canon_mod S HS) as [k Hk].
    assert (65535 = canon (S + c)); [|lia].
    apply canon_unique; [lia|lia| |].
    + split; [|lia]. intros. assert (E : S = 0) by lia. rewrite E in HcS.
      change (canon 0) with 0 in HcS. lia.
    + rewrite HcS, Hk at 1. replace (canon S + 65535 * k + (65535 - canon S))
        with (65535 + k * 65535) by lia. by rewrite Z_mod_plus_full.
  - rewrite !Forall_app. repeat split; [done| |done]. repeat constructor; lia.
  - rewrite !length_app in *. exact Hl.
Qed.

(** ** The Fletcher checksum *)

Definition _MODX : nat := 4102.

Definition fletcher_add (c : Z * Z) (d : Z) : Z * Z :=
  let c0 := c.1 + d in (c0, c.2 + c0).

(** The outer loop over chunks of [_MODX] bytes. *)
Fixpoint fletcher_loop (fuel : nat) (data : bytes) (c : Z * Z) : Z * Z :=
  match fuel with
  | O => c
  | S fuel =>
      match data with
      | [] => c
      | _ => let c := foldl fletcher_add c (take _MODX data) in
             fletcher_loop fuel (drop _MODX data) (c.1 mod 255, c.2 mod 255)
      end
  end.

Definition zero2 (offset : nat) (data : bytes) : bytes :=
  take offset data ++ [0; 0] ++ drop (offset + 2) data.

(** [data[offset] = x] and the next write need two bytes at the offset, which
    the slice assignment provides; the number of chunks is below the number of
    bytes.  The sums run over the bytes before [length], the length of the
    argument. *)
Definition fletcher_xy (data : bytes) (offset : nat) : Z * Z :=
  let length_ := length data in
  let data := zero2 offset data in
  let '(c0, c1) := fletcher_loop (S length_) (take length_ data) (0, 0) in
  let x := ((Z.of_nat length_ - Z.of_nat offset - 1) * c0 - c1) mod 255 in
  let x := if x <=? 0 then x + 255 else x in
  let y := 510 - c0 - x in
  let y := if 255 <? y then y - 255 else y in
  (x, y).

Definition fletcher_checksum (data : bytes) (offset : nat) : Z :=
  let '(x, y) := fletcher_xy data offset in
  Z.lor (Z.shiftl x 8) (Z.land y 0xff).

(** Reference: the two running sums over the whole buffer. *)
Definition fletcher_sums (data : bytes) : Z * Z := foldl fletcher_add (0, 0) data.

Definition cong255 (p q : Z * Z) : Prop :=
  p.1 mod 255 = q.1 mod 255 /\ p.2 mod 255 = q.2 mod 255.

#[global] Instance cong255_equiv : Equivalence cong255.
Proof.
  split; [done| |]; unfold cong255.
  - intros p q [-> ->]. done.
  - intros p q r [-> ->] [-> ->]. done.
Qed.

Lemma foldl_fletcher c data :
  foldl fletcher_add c data
  = (c.1 + (fletcher_sums data).1,
     c.2 + Z.of_nat (length data) * c.1 + (fletcher_sums data).2).
Proof.
  induction data as [|d data IH] using rev_ind.
  - destruct c. unfold fletcher_sums. cbn [foldl length fst snd]. f_equal; lia.
  - unfold fletcher_sums in *. rewrite !foldl_app, IH, length_app.
    destruct (foldl fletcher_add (0, 0) data) as [u v].
    cbn [foldl length]. unfold fletcher_add. cbn [fst snd].
    rewrite Nat2Z.inj_add. apply pair_equal_spec. split; lia.
Qed.

#[global] Instance foldl_fletcher_proper data :
  Proper (cong255 ==> cong255) (fun c => foldl fletcher_add c data).
Proof.
  intros p q [H1 H2]. cbn beta. rewrite !foldl_fletcher. split; cbn [fst snd].
  - by rewrite Z.add_mod, H1, <- Z.add_mod by lia.
  - rewrite <- !Z.add_assoc, Z.add_mod, H2, <- Z.add_mod by lia.
    rewrite !Z.add_assoc, (Z.add_comm q.2), (Z.add_comm q.2 (_ * q.1)), <- !Z.add_assoc.
    rewrite (Z.add_mod (_ * p.1)), (Z.mul_mod _ p.1), H1 by lia.
    by rewrite <- (Z.mul_mod _ q.1), <- Z.add_mod by lia.
Qed.

Lemma cong255_mod c : cong255 (c.1 mod 255, c.2 mod 255) c.
Proof. split; cbn; by rewrite Z.mod_mod. Qed.

(** Reducing after each chunk changes neither sum modulo 255. *)
Lemma fletcher_loop_spec fuel data c :
  (length data < fuel)%nat -> cong255 (fletcher_loop fuel data c) (foldl fletcher_add c data).
Proof.
  revert data c. induction fuel as [|fuel IH]; intros data c Hf; [lia|].
  cbn [fletcher_loop]. destruct data as [|d data]; [done|].
  assert (length (drop _MODX (d :: data)) < fuel)%nat.
  { rewrite length_drop. unfold _MODX. simpl in *. lia. }
  etransitivity; [by apply IH|].
  assert (foldl fletcher_add c (d :: data)
          = foldl fletcher_add (foldl fletcher_add c (take _MODX (d :: data)))
              (drop _MODX (d :: data))) as -> by by rewrite <- foldl_app, take_drop.
  apply (foldl_fletcher_proper _ _ _ (cong255_mod _)).
Qed.

Lemma fletcher_loop_bound fuel data c :
  0 <= c.1 < 255 -> 0 <= (fletcher_loop fuel data c).1 < 255.
Proof.
  revert data c. induction fuel as [|fuel IH]; intros data c Hc; [done|].
  cbn [fletcher_loop]. destruct data; [done|]. apply IH. cbn [fst].
  apply Z.mod_pos_bound. lia.
Qed.

Lemma fletcher_sums_app a b :
  fletcher_sums (a ++ b) =
  ((fletcher_sums a).1 + (fletcher_sums b).1,
   (fletcher_sums a).2 + Z.of_nat (length b) * (fletcher_sums a).1 + (fletcher_sums b).2).
Proof. unfold fletcher_sums at 1. rewrite foldl_app, foldl_fletcher. done. Qed.

Lemma cong255_sub a b : a mod 255 = b mod 255 -> exists u, b = a + u * 255.
Proof.
  intros H. exists (b / 255 - a / 255).
  pose proof (Z.div_mod a 255). pose proof (Z.div_mod b 255). lia.
Qed.

(** The sums of a buffer with two given bytes at the offset. *)
Lemma fletcher_sums_at a b p q :
  fletcher_sums (a ++ [p; q] ++ b) =
  ((fletcher_sums (a ++ [0; 0] ++ b)).1 + p + q,
   (fletcher_sums (a ++ [0; 0] ++ b)).2 + (Z.of_nat (length b) + 2) * p
     + (Z.of_nat (length b) + 1) * q).
Proof.
  assert (H2 : forall p q, fletcher_sums [p; q] = (p + q, 2 * p + q)).
  { intros. unfold fletcher_sums, fletcher_add. cbn [foldl fst snd].
    apply pair_equal_spec. lia. }
  rewrite !(fletcher_sums_app a), !(fletcher_sums_app [_; _]), !H2, !length_app.
  cbn [fst snd length]. rewrite !Nat2Z.inj_add. apply pair_equal_spec. split; lia.
Qed.

Lemma fletcher_solution data offset c0 c1 :
  (offset + 2 <= length data)%nat -> 0 <= c0 < 255 ->
  cong255 (c0, c1) (fletcher_sums (zero2 offset data)) ->
  let x0 := ((Z.of_nat (length data) - Z.of_nat offset - 1) * c0 - c1) mod 255 in
  let x := if x0 <=? 0 then x0 + 255 else x0 in
  let y0 := 510 - c0 - x in
  let y := if 255 <? y0 then y0 - 255 else y0 in
  1 <= x <= 255 /\ 1 <= y <= 255
  /\ Z.lor (Z.shiftl x 8) (Z.land y 0xff) = x * 256 + y mod 256
  /\ cong255 (fletcher_sums (take offset data ++ [x; y] ++ drop (offset + 2) data)) (0, 0).
Proof.
  intros Hl Hb [H0 H1] x0 x y0 y. cbn [fst snd] in H0, H1.
  pose proof (Z.mod_pos_bound
    ((Z.of_nat (length data) - Z.of_nat offset - 1) * c0 - c1) 255 ltac:(lia)).
  fold x0 in H.
  assert (Hx : 1 <= x <= 255) by (unfold x; destruct (Z.leb_spec x0 0); lia).
  assert (Hy : 1 <= y <= 255) by (unfold y, y0; destruct (Z.ltb_spec 255 (510 - c0 - x)); lia).
  split; [done|]. split; [done|]. split.
  { change 0xff with (Z.ones 8). rewrite Z.land_ones by lia.
    rewrite lor_shiftl_add; [done|lia|]. apply Z.mod_pos_bound. lia. }
  set (b := drop (offset + 2) data) in *.
  assert (Hlb : Z.of_nat (length data) - Z.of_nat offset - 1 = Z.of_nat (length b) + 1)
    by (unfold b; rewrite length_drop; lia).
  rewrite fletcher_sums_at. unfold zero2 in H0, H1. fold b in H0, H1.
  destruct (fletcher_sums (_ ++ [0; 0] ++ b)) as [z0 z1]. cbn [fst snd] in *.
  apply cong255_sub in H0 as [u ->]. apply cong255_sub in H1 as [v ->].
  assert (exists m, x = (Z.of_nat (length b) + 1) * c0 - c1 + m * 255) as [m Hm].
  { rewrite <- Hlb. pose proof (Z.div_mod
      ((Z.of_nat (length data) - Z.of_nat offset - 1) * c0 - c1) 255 ltac:(lia)).
    fold x0 in H0. unfold x. destruct (x0 <=? 0);
      [exists (1 - ((Z.of_nat (length data) - Z.of_nat offset - 1) * c0 - c1) / 255)
      |exists (- (((Z.of_nat (length data) - Z.of_nat offset - 1) * c0 - c1) / 255))]; lia. }
  assert (exists n, y = - c0 - x + n * 255) as [n Hn].
  { unfold y, y0. destruct (255 <? _); [exists 1|exists 2]; lia. }
  split; cbn [fst snd]; change (0 mod 255) with 0; rewrite Hn.
  - replace (c0 + u * 255 + x + (- c0 - x + n * 255)) with ((u + n) * 255) by ring.
    apply Z_mod_mult.
  - rewrite Hm. set (lb := Z.of_nat (length b)).
    replace (_ + _ + _) with ((v + m + (lb + 1) * n) * 255) by ring.
    apply Z_mod_mult.
Qed.

(** ** Addresses

    The text forms of addresses are those of the netaddr package, through
    ryu/lib/addrconv.py. *)

Inductive akind := MAC | IPV4 | IPV6.

Definition alen (k : akind) : nat := match k with MAC => 6 | IPV4 => 4 | IPV6 => 16 end.

Class AddrConv := {
  bin_to_text : akind -> bytes -> res string;
  text_to_bin : akind -> string -> res bytes }.

(** What the code relies on: a parsed address has the length of its kind, and
    the text of a packed address is parsed back to it. *)
Class AddrConvLaws `(C : AddrConv) := {
  text_to_bin_ok k t b : text_to_bin k t = Ok b -> length b = alen k /\ bytes_ok b;
  bin_to_text_ok k b : length b = alen k -> bytes_ok b ->
    exists t, bin_to_text k b = Ok t /\ text_to_bin k t = Ok b }.

(** A text that is the printed form of an address. *)
Definition canonical `{AddrConv} (k : akind) (t : string) : Prop :=
  exists b, text_to_bin k t = Ok b /\ bin_to_text k b = Ok t.

(** ** The pseudo header *)

(** The attributes of the outer header that [checksum_ip] reads; a missing one
    raises [AttributeError]. *)
Record outer := Outer {
  o_version : option Z; o_src : option string; o_dst : option string;
  o_proto : option Z; o_nxt : option Z }.

Definition attr {A} (o : option A) : res A := or_raise AttributeError o.

Definition _IPV4_PSEUDO_HEADER_PACK_STR : string := "!4s4sxBH".
Definition _IPV6_PSEUDO_HEADER_PACK_STR : string := "!16s16sI3xB".

Section ChecksumIp.
Context `{C : AddrConv} (e : endian).

Definition pseudo_header (ipvx : outer) (len : Z) : res bytes :=
  v ← attr (o_version ipvx);
  if v =? 4 then
    src ← attr (o_src ipvx); s ← text_to_bin IPV4 src;
    dst ← attr (o_dst ipvx); d ← text_to_bin IPV4 dst;
    proto ← attr (o_proto ipvx);
    pack _IPV4_PSEUDO_HEADER_PACK_STR [VBytes s; VBytes d; VInt proto; VInt len]
  else if v =? 6 then
    src ← attr (o_src ipvx); s ← text_to_bin IPV6 src;
    dst ← attr (o_dst ipvx); d ← text_to_bin IPV6 dst;
    nxt ← attr (o_nxt ipvx);
    pack _IPV6_PSEUDO_HEADER_PACK_STR [VBytes s; VBytes d; VInt len; VInt nxt]
  else Err ValueError.

Definition checksum_ip (ipvx : outer) (len : Z) (payload : bytes) : res Z :=
  header ← pseudo_header ipvx len;
  Ok (checksum e (header ++ payload)).

Lemma pseudo_header_ok `{!AddrConvLaws C} ipvx len h :
  pseudo_header ipvx len = Ok h ->
  Nat.even (length h) = true /\ (length h <= 40)%nat /\ bytes_ok h.
Proof.
  unfold pseudo_header. intros Hh. apply bind_Ok in Hh as (v & _ & Hh).
  destruct (v =? 4); [|destruct (v =? 6); [|done]]; fmt_eval;
    apply bind_Ok in Hh as (? & _ & Hh); apply bind_Ok in Hh as (s & Hs & Hh);
    apply bind_Ok in Hh as (? & _ & Hh); apply bind_Ok in Hh as (d & Hd & Hh);
    apply bind_Ok in Hh as (n & _ & Hh);
    apply text_to_bin_ok in Hs as [_ Hs]; apply text_to_bin_ok in Hd as [_ Hd];
    pose proof (fpack_length _ _ _ Hh) as Hl; rewrite Hl;
    (split; [done|split; [apply Nat.leb_le; reflexivity|]]);
    (eapply pack_codes_ok; [|exact Hh]); repeat constructor; done.
Qed.

(** A transport header whose checksum field, at an even offset, was zero when the
    checksum was computed, checks over the pseudo header once it is filled in. *)
Lemma checksum_ip_inserted `{!AddrConvLaws C} ipvx len A B c :
  Nat.even (length A) = true -> bytes_ok A -> bytes_ok B ->
  Z.of_nat (length (A ++ [0; 0] ++ B)) <= 131030 ->
  checksum_ip ipvx len (A ++ [0; 0] ++ B) = Ok c ->
  0 <= c < 65536 /\ checksum_ip ipvx len (A ++ be_encode 2 c ++ B) = Ok 0.
Proof.
  intros He HA HB Hl Hc. unfold checksum_ip in *.
  destruct (pseudo_header ipvx len) as [h|?] eqn:Hh; [|done]. cbn [mbind res_bind] in *.
  injection Hc as Hc. apply pseudo_header_ok in Hh as (H1 & H2 & H3).
  destruct (checksum_inserted e (h ++ A) B) as [Hr Hv].
  - by rewrite length_app, Nat.even_add, H1, He.
  - by apply Forall_app.
  - done.
  - rewrite !length_app in *. lia.
  - change (checksum e (h ++ A ++ [0; 0] ++ B) = c) in Hc.
    rewrite <- (app_assoc h A ([0; 0] ++ B)), Hc in Hr, Hv.
    rewrite <- (app_assoc h A) in Hv. split; [done|].
    by rewrite Hv.
Qed.
End ChecksumIp.

(** ** Claims *)

Module PktUtilsClaims.

(** C39: The internet checksum does not depend on the byte order of the host: for
    every buffer of at most 131070 bytes it is the complement of the
    end-around-carry sum of the buffer's big-endian words, an odd last byte being
    padded with zero. *)
Theorem checksum_is_rfc1071 (e : endian) (data : bytes) :
  bytes_ok data -> Z.of_nat (length data) <= 131070 -> checksum e data = rfc1071 data.
Proof. apply checksum_rfc1071. Qed.

Lemma checksum_is_rfc1071_witness :
  checksum Little [0x45; 0; 0; 0x73; 0x11] = rfc1071 [0x45; 0; 0; 0x73; 0x11].
Proof.
  apply checksum_is_rfc1071; [|cbn; lia].
  repeat first [apply Forall_nil_2 | apply Forall_cons_2]; unfold byte_ok; lia.
Defined.

(** A header that was summed with a zero checksum field and then given the
    result checks: the checksum of the completed data is zero. *)
Theorem checksum_verifies (e : endian) (A B : bytes) :
  Nat.even (length A) = true -> bytes_ok A -> bytes_ok B ->
  Z.of_nat (length (A ++ [0; 0] ++ B)) <= 131070 ->
  let c := checksum e (A ++ [0; 0] ++ B) in
  0 <= c < 65536 /\ checksum e (A ++ be_encode 2 c ++ B) = 0.
Proof. apply checksum_inserted. Qed.

Lemma checksum_verifies_witness :
  let c := checksum Little ([1; 2] ++ [0; 0] ++ [255]) in
  0 <= c < 65536 /\ checksum Little ([1; 2] ++ be_encode 2 c ++ [255]) = 0.
Proof.
  apply (checksum_verifies Little [1; 2] [255]); [reflexivity| | |cbn; lia];
    repeat first [apply Forall_nil_2 | apply Forall_cons_2]; unfold byte_ok; lia.
Defined.

(** The Fletcher checksum: the two check bytes are in range, and once they are
    written at the offset both running sums over the whole buffer vanish modulo
    255, in whatever chunks the code summed it. *)
Theorem fletcher_validates (data : bytes) (offset : nat) :
  (offset + 2 <= length data)%nat ->
  let '(x, y) := fletcher_xy data offset in
  1 <= x <= 255 /\ 1 <= y <= 255
  /\ fletcher_checksum data offset = x * 256 + y mod 256
  /\ cong255 (fletcher_sums (take offset data ++ [x; y] ++ drop (offset + 2) data)) (0, 0).
Proof.
  intros Hl. unfold fletcher_checksum, fletcher_xy.
  assert (Hz : length (zero2 offset data) = length data).
  { unfold zero2. rewrite !length_app, length_take, length_drop. cbn [length]. lia. }
  rewrite <- Hz, firstn_all, Hz.
  pose proof (fletcher_loop_spec (S (length data)) (zero2 offset data) (0, 0)
                ltac:(lia)) as Hc.
  pose proof (fletcher_loop_bound (S (length data)) (zero2 offset data) (0, 0)
                ltac:(cbn; lia)) as Hb.
  destruct (fletcher_loop _ _ _) as [c0 c1]. cbn [fst] in Hb.
  apply fletcher_solution; done.
Qed.

Lemma fletcher_validates_witness :
  let '(x, y) := fletcher_xy [1; 2; 9; 9; 5] 2 in
  1 <= x <= 255 /\ 1 <= y <= 255
  /\ fletcher_checksum [1; 2; 9; 9; 5] 2 = x * 256 + y mod 256
  /\ cong255 (fletcher_sums ([1; 2] ++ [x; y] ++ [5])) (0, 0).
Proof. apply (fletcher_validates [1; 2; 9; 9; 5] 2). cbn. lia. Defined.

End PktUtilsClaims.
