(* ===== verification/PktHeaders.v ===== *)
(** * Link and network headers (ryu/lib/packet: ethernet, vlan, pbb, mpls, arp, ipv4)

    One module per header class: its record, [parser] and [serialize].  Which
    class parses the rest of a packet is looked up in the registry [TYPES]: the
    header classes of the library inherit one dictionary from [PacketBase], so a
    type registered by one class is found by all of them. *)

From Stdlib Require Import ZArith Lia Ascii.
From stdpp Require Import base list gmap strings numbers.
From S2P Require Import Prelude Struct PktUtils.

Local Ltac Zify.zify_post_hook ::= Z.div_mod_to_equations.

(** ** Protocol classes and their registry *)

Inductive pcls :=
  | Cethernet | Cvlan | Csvlan | Citag | Cmpls | Carp | Cipv4 | Cipv6 | Clldp | Cslow
  | Cllc | Ccfm | Cbpdu | Cicmp | Cicmpv6 | Cigmp | Ctcp | Cudp | Csctp | Cospf | Cdhcp | Cvrrp | Clacp.

#[global] Instance pcls_eq_dec : EqDecision pcls.
Proof. solve_decision. Defined.

Definition ETH_TYPE_IP : Z := 0x0800.
Definition ETH_TYPE_ARP : Z := 0x0806.
Definition ETH_TYPE_8021Q : Z := 0x8100.
Definition ETH_TYPE_IPV6 : Z := 0x86dd.
Definition ETH_TYPE_SLOW : Z := 0x8809.
Definition ETH_TYPE_MPLS : Z := 0x8847.
Definition ETH_TYPE_8021AD : Z := 0x88a8.
Definition ETH_TYPE_LLDP : Z := 0x88cc.
Definition ETH_TYPE_8021AH : Z := 0x88e7.
Definition ETH_TYPE_IEEE802_3 : Z := 0x05dc.
Definition ETH_TYPE_CFM : Z := 0x8902.

Definition IPPROTO_ICMP : Z := 1.
Definition IPPROTO_IGMP : Z := 2.
Definition IPPROTO_TCP : Z := 6.
Definition IPPROTO_UDP : Z := 17.
Definition IPPROTO_ICMPV6 : Z := 58.
Definition IPPROTO_OSPF : Z := 89.
Definition IPPROTO_SCTP : Z := 132.
Definition IPPROTO_VRRP : Z := 112.
Definition SAP_BPDU : Z := 0x42.

(** [PacketBase.register_packet_type] *)
Definition register_packet_type (types : gmap Z pcls) (cls : pcls) (type_ : Z) :
    gmap Z pcls := <[type_ := cls]> types.

(** The registrations executed by importing ryu.lib.packet.packet and, for the last two,
    ryu.lib.packet.vrrp.  Where the latter is not loaded, the class it registers is one
    whose parser raises [struct.error], which ends the decoding as a missing entry does. *)
Definition registrations : list (pcls * Z) :=
  [ (Cicmp, IPPROTO_ICMP); (Cigmp, IPPROTO_IGMP); (Ctcp, IPPROTO_TCP);
    (Cudp, IPPROTO_UDP); (Csctp, IPPROTO_SCTP); (Cospf, IPPROTO_OSPF);
    (Cicmpv6, IPPROTO_ICMPV6); (Ctcp, IPPROTO_TCP); (Cudp, IPPROTO_UDP);
    (Csctp, IPPROTO_SCTP);
    (Cbpdu, SAP_BPDU);
    (Carp, ETH_TYPE_ARP); (Cipv4, ETH_TYPE_IP); (Cipv6, ETH_TYPE_IPV6);
    (Clldp, ETH_TYPE_LLDP); (Cslow, ETH_TYPE_SLOW); (Cllc, ETH_TYPE_IEEE802_3);
    (Ccfm, ETH_TYPE_CFM);
    (Cvlan, ETH_TYPE_8021Q); (Citag, ETH_TYPE_8021AH);
    (Cvlan, ETH_TYPE_8021Q); (Csvlan, ETH_TYPE_8021AD); (Cmpls, ETH_TYPE_MPLS);
    (Cvrrp, IPPROTO_VRRP); (Cvrrp, IPPROTO_VRRP) ].

Definition TYPES : gmap Z pcls :=
  foldl (fun t '(c, ty) => register_packet_type t c ty) ∅ registrations.

(** [PacketBase.get_packet_type] *)
Definition get_packet_type (type_ : Z) : option pcls := TYPES !! type_.

(** The override of ethernet and vlan: a length is passed to the LLC sublayer. *)
Definition get_packet_type_802_3 (type_ : Z) : option pcls :=
  TYPES !! (if type_ <=? ETH_TYPE_IEEE802_3 then ETH_TYPE_IEEE802_3 else type_).

(** [buf[i:j]] for non-negative bounds. *)
Definition py_slice (buf : bytes) (i j : Z) : bytes :=
  take (Z.to_nat j - Z.to_nat i) (drop (Z.to_nat i) buf).

(** ** Bit fields *)

Lemma lor_low a b n : 0 <= n -> a mod 2 ^ n = 0 -> 0 <= b < 2 ^ n -> Z.lor a b = a + b.
Proof.
  intros Hn Ha Hb. pose proof (Z.div_mod a (2 ^ n) ltac:(lia)) as E.
  replace a with (Z.shiftl (a / 2 ^ n) n) at 1
    by (rewrite Z.shiftl_mul_pow2 by lia; lia).
  rewrite lor_shiftl_add by lia. lia.
Qed.

(** Rewrite shifts and masks with literal widths into products and remainders. *)
Ltac bitfields :=
  repeat match goal with
  | |- context [Z.shiftl ?x ?n] =>
      rewrite (Z.shiftl_mul_pow2 x n) by lia; let v := eval vm_compute in (2 ^ n) in
      change (2 ^ n) with v
  | |- context [Z.shiftr ?x ?n] =>
      rewrite (Z.shiftr_div_pow2 x n) by lia; let v := eval vm_compute in (2 ^ n) in
      change (2 ^ n) with v
  end.

Lemma land_mask x n m : 0 <= n -> m = Z.ones n -> Z.land x m = x mod 2 ^ n.
Proof. intros Hn ->. by apply Z.land_ones. Qed.

(** ** Shared facts on packed headers *)

Lemma drop_packed f args w rest :
  fpack f args = Ok w -> drop (fmt_size f) (w ++ rest) = rest.
Proof. intros H. by rewrite drop_app_length' by by rewrite (fpack_length _ _ _ H). Qed.

Lemma canonical_bin `{C : AddrConv} `{!AddrConvLaws C} k t b :
  canonical k t -> text_to_bin k t = Ok b ->
  bin_to_text k b = Ok t /\ length b = alen k /\ bytes_ok b.
Proof.
  intros (b' & Hb & Ht) Hb'. rewrite Hb in Hb'. injection Hb' as <-.
  split; [done|]. by apply (text_to_bin_ok k t).
Qed.

(** ** Ethernet *)

Module Ethernet.
Section Ethernet.
Context `{C : AddrConv}.

Record ethernet := Mk { dst : string; src : string; ethertype : Z }.

Definition _PACK_STR : string := "!6s6sH".
Definition _MIN_LEN : nat := calcsize _PACK_STR.

Definition parser (buf : bytes) : res (ethernet * option pcls * bytes) :=
  vs ← unpack_from _PACK_STR buf 0;
  match vs with
  | [VBytes d; VBytes s; VInt ty] =>
      dt ← bin_to_text MAC d; st ← bin_to_text MAC s;
      Ok (Mk dt st ty, get_packet_type_802_3 ty, drop _MIN_LEN buf)
  | _ => Err ValueError
  end.

Definition serialize (h : ethernet) : res bytes :=
  d ← text_to_bin MAC (dst h); s ← text_to_bin MAC (src h);
  pack _PACK_STR [VBytes d; VBytes s; VInt (ethertype h)].

Lemma ethernet_parse_serialize `{!AddrConvLaws C} h w rest :
  canonical MAC (dst h) -> canonical MAC (src h) -> serialize h = Ok w ->
  parser (w ++ rest) = Ok (h, get_packet_type_802_3 (ethertype h), rest).
Proof.
  intros Hd Hs H. unfold serialize in H.
  apply bind_Ok in H as (d & Ed & H). apply bind_Ok in H as (s & Es & H).
  destruct (canonical_bin _ _ _ Hd Ed) as (Td & Ld & _).
  destruct (canonical_bin _ _ _ Hs Es) as (Ts & Ls & _).
  unfold parser. change _MIN_LEN with 14%nat. fmt_eval.
  rewrite (unpack_from_pack0 _ _ _ _ H). cbn [mbind res_bind fit_args f_codes].
  cbn [alen] in *. rewrite !resize_all_alt by done. rewrite Td, Ts.
  cbn [mbind res_bind]. rewrite (drop_packed _ _ _ rest H : drop 14 _ = _).
  by destruct h.
Qed.
End Ethernet.
End Ethernet.

(** ** VLAN tags *)

Module Vlan.

Record tag := Mk { pcp : Z; cfi : Z; vid : Z; ethertype : Z }.

Definition _PACK_STR : string := "!HH".
Definition _MIN_LEN : nat := calcsize _PACK_STR.

(** [_vlan.parser], for vlan and svlan alike. *)
Definition parser (buf : bytes) : res (tag * option pcls * bytes) :=
  vs ← unpack_from _PACK_STR buf 0;
  match vs with
  | [VInt tci; VInt ethertype] =>
      let pcp := Z.shiftr tci 13 in
      let cfi := Z.land (Z.shiftr tci 12) 1 in
      let vid := Z.land tci (Z.shiftl 1 12 - 1) in
      Ok (Mk pcp cfi vid ethertype, get_packet_type_802_3 ethertype, drop _MIN_LEN buf)
  | _ => Err ValueError
  end.

Definition serialize (h : tag) : res bytes :=
  let tci := Z.lor (Z.lor (Z.shiftl (pcp h) 13) (Z.shiftl (cfi h) 12)) (vid h) in
  pack _PACK_STR [VInt tci; VInt (ethertype h)].

Definition wf (h : tag) : Prop := 0 <= pcp h < 8 /\ 0 <= cfi h < 2 /\ 0 <= vid h < 4096.

Lemma vlan_parse_serialize h w rest :
  wf h -> serialize h = Ok w ->
  parser (w ++ rest) = Ok (h, get_packet_type_802_3 (ethertype h), rest).
Proof.
  intros (Hp & Hc & Hv) H. unfold serialize in H. unfold parser.
  change _MIN_LEN with 4%nat. fmt_eval.
  rewrite (unpack_from_pack0 _ _ _ _ H). cbn [mbind res_bind fit_args f_codes].
  rewrite (drop_packed _ _ _ rest H : drop 4 _ = _).
  rewrite (lor_shiftl_add _ _ 13), (lor_low _ _ 12) by (bitfields; lia).
  change (Z.shiftl 1 12 - 1) with (Z.ones 12). rewrite (land_mask _ 1 1), Z.land_ones by done.
  bitfields. destruct h as [p c v t]. cbn [pcp cfi vid ethertype] in *.
  repeat f_equal; lia.
Qed.

End Vlan.

(** ** I-TAG of provider backbone bridges *)

Module Itag.

Record itag := Mk { pcp : Z; dei : Z; uca : Z; sid : Z }.

Definition _PACK_STR : string := "!I".
Definition _MIN_LEN : nat := calcsize _PACK_STR.

Definition parser (buf : bytes) : res (itag * option pcls * bytes) :=
  vs ← unpack_from _PACK_STR buf 0;
  match vs with
  | [VInt data] =>
      Ok (Mk (Z.shiftr data 29) (Z.land (Z.shiftr data 28) 1) (Z.land (Z.shiftr data 27) 1)
             (Z.land data 0x00ffffff), Some Cethernet, drop _MIN_LEN buf)
  | _ => Err ValueError
  end.

Definition serialize (h : itag) : res bytes :=
  pack _PACK_STR
    [VInt (Z.lor (Z.lor (Z.lor (Z.shiftl (pcp h) 29) (Z.shiftl (dei h) 28))
                        (Z.shiftl (uca h) 27)) (sid h))].

Definition wf (h : itag) : Prop :=
  0 <= pcp h < 8 /\ 0 <= dei h < 2 /\ 0 <= uca h < 2 /\ 0 <= sid h < 2 ^ 24.

Lemma itag_parse_serialize h w rest :
  wf h -> serialize h = Ok w -> parser (w ++ rest) = Ok (h, Some Cethernet, rest).
Proof.
  intros (Hp & Hd & Hu & Hs) H. unfold serialize in H. unfold parser.
  change _MIN_LEN with 4%nat. fmt_eval.
  rewrite (unpack_from_pack0 _ _ _ _ H). cbn [mbind res_bind fit_args f_codes].
  rewrite (drop_packed _ _ _ rest H : drop 4 _ = _).
  rewrite (lor_shiftl_add _ _ 29), (lor_low (_ + _) (Z.shiftl _ 27) 28), (lor_low _ _ 27)
    by (bitfields; lia).
  rewrite !(land_mask _ 1 1), (land_mask _ 24 0x00ffffff) by done.
  bitfields. destruct h as [p d u s]. cbn [pcp dei uca sid] in *.
  change (2 ^ 24) with 16777216 in *. repeat f_equal; lia.
Qed.

End Itag.

(** ** MPLS *)

Module Mpls.

Record mpls := Mk { label : Z; exp : Z; bsb : Z; ttl : Z }.

Definition _PACK_STR : string := "!I".
Definition _MIN_LEN : nat := calcsize _PACK_STR.

Definition parser (buf : bytes) : res (mpls * option pcls * bytes) :=
  vs ← unpack_from _PACK_STR buf 0;
  match vs with
  | [VInt label] =>
      let ttl := Z.land label 0xff in
      let bsb := Z.land (Z.shiftr label 8) 1 in
      let exp := Z.land (Z.shiftr label 9) 7 in
      let label := Z.shiftr label 12 in
      Ok (Mk label exp bsb ttl, Some (if bsb =? 0 then Cmpls else Cipv4),
          drop _MIN_LEN buf)
  | _ => Err ValueError
  end.

Definition serialize (h : mpls) : res bytes :=
  let val := Z.lor (Z.lor (Z.lor (Z.shiftl (label h) 12) (Z.shiftl (exp h) 9))
                          (Z.shiftl (bsb h) 8)) (ttl h) in
  pack _PACK_STR [VInt val].

Definition wf (h : mpls) : Prop :=
  0 <= label h /\ 0 <= exp h < 8 /\ 0 <= bsb h < 2 /\ 0 <= ttl h < 256.

Lemma mpls_parse_serialize h w rest :
  wf h -> serialize h = Ok w ->
  parser (w ++ rest) = Ok (h, Some (if bsb h =? 0 then Cmpls else Cipv4), rest).
Proof.
  intros (Hl & He & Hb & Ht) H. unfold serialize in H. unfold parser.
  change _MIN_LEN with 4%nat. fmt_eval.
  rewrite (unpack_from_pack0 _ _ _ _ H). cbn [mbind res_bind fit_args f_codes].
  rewrite (drop_packed _ _ _ rest H : drop 4 _ = _).
  rewrite (lor_shiftl_add _ _ 12), (lor_low (_ + _) (Z.shiftl _ 8) 9), (lor_low _ _ 8)
    by (bitfields; lia).
  rewrite (land_mask _ 8 0xff), (land_mask _ 1 1), (land_mask _ 3 7) by done.
  bitfields. destruct h as [l e b t]. cbn [label exp bsb ttl] in *.
  change (2 ^ 8) with 256. change (2 ^ 1) with 2. change (2 ^ 3) with 8.
  replace (((l * 4096 + e * 512 + b * 256 + t) / 256) mod 2) with b by lia.
  repeat f_equal; lia.
Qed.

End Mpls.

(** ** ARP *)

Module Arp.
Section Arp.
Context `{C : AddrConv}.

Record arp := Mk {
  hwtype : Z; proto : Z; hlen : Z; plen : Z; opcode : Z;
  src_mac : string; src_ip : string; dst_mac : string; dst_ip : string }.

Definition _PACK_STR : string := "!HHBBH6s4s6s4s".
Definition _MIN_LEN : nat := calcsize _PACK_STR.

Definition parser (buf : bytes) : res (arp * option pcls * bytes) :=
  vs ← unpack_from _PACK_STR buf 0;
  match vs with
  | [VInt hwtype; VInt proto; VInt hlen; VInt plen; VInt opcode; VBytes src_mac;
     VBytes src_ip; VBytes dst_mac; VBytes dst_ip] =>
      sm ← bin_to_text MAC src_mac; si ← bin_to_text IPV4 src_ip;
      dm ← bin_to_text MAC dst_mac; di ← bin_to_text IPV4 dst_ip;
      Ok (Mk hwtype proto hlen plen opcode sm si dm di, None, drop _MIN_LEN buf)
  | _ => Err ValueError
  end.

Definition serialize (h : arp) : res bytes :=
  sm ← text_to_bin MAC (src_mac h); si ← text_to_bin IPV4 (src_ip h);
  dm ← text_to_bin MAC (dst_mac h); di ← text_to_bin IPV4 (dst_ip h);
  pack _PACK_STR [VInt (hwtype h); VInt (proto h); VInt (hlen h); VInt (plen h);
    VInt (opcode h); VBytes sm; VBytes si; VBytes dm; VBytes di].

Definition arp_ip (opcode : Z) (src_mac src_ip dst_mac dst_ip : string) : arp :=
  Mk 1 ETH_TYPE_IP 6 4 opcode src_mac src_ip dst_mac dst_ip.

Lemma arp_parse_serialize `{!AddrConvLaws C} h w rest :
  canonical MAC (src_mac h) -> canonical IPV4 (src_ip h) ->
  canonical MAC (dst_mac h) -> canonical IPV4 (dst_ip h) ->
  serialize h = Ok w -> parser (w ++ rest) = Ok (h, None, rest).
Proof.
  intros H1 H2 H3 H4 H. unfold serialize in H.
  apply bind_Ok in H as (b1 & E1 & H). apply bind_Ok in H as (b2 & E2 & H).
  apply bind_Ok in H as (b3 & E3 & H). apply bind_Ok in H as (b4 & E4 & H).
  destruct (canonical_bin _ _ _ H1 E1) as (T1 & L1 & _).
  destruct (canonical_bin _ _ _ H2 E2) as (T2 & L2 & _).
  destruct (canonical_bin _ _ _ H3 E3) as (T3 & L3 & _).
  destruct (canonical_bin _ _ _ H4 E4) as (T4 & L4 & _).
  unfold parser. change _MIN_LEN with 28%nat. fmt_eval.
  rewrite (unpack_from_pack0 _ _ _ _ H). cbn [mbind res_bind fit_args f_codes].
  cbn [alen] in *. rewrite !resize_all_alt by done. rewrite T1, T2, T3, T4.
  cbn [mbind res_bind]. rewrite (drop_packed _ _ _ rest H : drop 28 _ = _).
  by destruct h.
Qed.
End Arp.
End Arp.

(** ** IPv4 *)

Module Ipv4.
Section Ipv4.
Context `{C : AddrConv} (e : endian).

Record ipv4 := Mk {
  version : Z; header_length : Z; tos : Z; total_length : Z; identification : Z;
  flags : Z; offset : Z; ttl : Z; proto : Z; csum : Z;
  src : string; dst : string; option_ : option bytes }.

Definition _PACK_STR : string := "!BBHHHBBH4s4s".
Definition _MIN_LEN : nat := calcsize _PACK_STR.

Definition parser (buf : bytes) : res (ipv4 * option pcls * bytes) :=
  vs ← unpack_from _PACK_STR buf 0;
  match vs with
  | [VInt version; VInt tos; VInt total_length; VInt identification; VInt flags;
     VInt ttl; VInt proto; VInt csum; VBytes src; VBytes dst] =>
      let header_length := Z.land version 0xf in
      let version := Z.shiftr version 4 in
      let offset := Z.land flags (Z.shiftl 1 13 - 1) in
      let flags := Z.shiftr flags 13 in
      let len := header_length * 4 in
      let option_ :=
        if Z.of_nat _MIN_LEN <? len then Some (py_slice buf (Z.of_nat _MIN_LEN) len)
        else None in
      s ← bin_to_text IPV4 src; d ← bin_to_text IPV4 dst;
      Ok (Mk version header_length tos total_length identification flags offset ttl proto
             csum s d option_,
          get_packet_type proto, py_slice buf len total_length)
  | _ => Err ValueError
  end.

Definition set_computed (h : ipv4) (tl cs : Z) : ipv4 :=
  Mk (version h) (header_length h) (tos h) tl (identification h) (flags h) (offset h)
     (ttl h) (proto h) cs (src h) (dst h) (option_ h).

(** [serialize], with the header object as it is left: the total length is filled
    in when it is zero and the checksum always. *)
Definition serialize (h : ipv4) (payload : bytes) : res (bytes * ipv4) :=
  let len := header_length h * 4 in
  if len <? 0 then Err ValueError else
  let hdr := replicate (Z.to_nat len) 0 in
  let version := Z.lor (Z.shiftl (version h) 4) (header_length h) in
  let flags := Z.lor (Z.shiftl (flags h) 13) (offset h) in
  let total_length :=
    if total_length h =? 0 then header_length h * 4 + Z.of_nat (length payload)
    else total_length h in
  s ← text_to_bin IPV4 (src h); d ← text_to_bin IPV4 (dst h);
  hdr ← pack_into _PACK_STR hdr 0
    [VInt version; VInt (tos h); VInt total_length; VInt (identification h); VInt flags;
     VInt (ttl h); VInt (proto h); VInt 0; VBytes s; VBytes d];
  hdr ← match option_ h with
        | Some (o0 :: ot) =>
            let o := o0 :: ot in
            py_assert (Z.of_nat (length o) <=? len - Z.of_nat _MIN_LEN) ;;
            Ok (take _MIN_LEN hdr ++ o ++ drop (_MIN_LEN + length o) hdr)
        | _ => Ok hdr
        end;
  let csum := checksum e hdr in
  hdr ← pack_into "!H" hdr 10 [VInt csum];
  Ok (hdr, set_computed h total_length csum).

(** Headers whose bit fields are in range and whose options fill the announced
    header length. *)
Definition wf (h : ipv4) (payload : bytes) : Prop :=
  0 <= version h < 16 /\ 5 <= header_length h < 16
  /\ 0 <= flags h < 8 /\ 0 <= offset h < 8192
  /\ (total_length h = 0
      \/ total_length h = header_length h * 4 + Z.of_nat (length payload))
  /\ match option_ h with
     | None => header_length h = 5
     | Some o => o <> [] /\ bytes_ok o
                 /\ Z.of_nat (length o) = header_length h * 4 - 20
     end
  /\ canonical IPV4 (src h) /\ canonical IPV4 (dst h).

Definition fmt20 : format :=
  Format Big [Fi 1; Fi 1; Fi 2; Fi 2; Fi 2; Fi 1; Fi 1; Fi 2; Fs 4; Fs 4].

Definition ver_byte (h : ipv4) : Z := Z.lor (Z.shiftl (version h) 4) (header_length h).
Definition frag_word (h : ipv4) : Z := Z.lor (Z.shiftl (flags h) 13) (offset h).

(** The fixed part, with a given checksum. *)
Definition fixed_args (h : ipv4) (tl cs : Z) (s d : bytes) : list pyval :=
  [VInt (ver_byte h); VInt (tos h); VInt tl; VInt (identification h);
   VInt (frag_word h); VInt (ttl h); VInt (proto h); VInt cs; VBytes s; VBytes d].

Definition opt_bytes (h : ipv4) : bytes := default [] (option_ h).

(** The fixed part around its checksum field. *)
Lemma fpack_fixed h tl cs s d :
  length s = 4%nat -> length d = 4%nat -> 0 <= cs < 65536 -> forall w,
  fpack fmt20 (fixed_args h tl 0 s d) = Ok w ->
  exists pre, length pre = 10%nat /\ bytes_ok pre
    /\ w = pre ++ [0; 0] ++ s ++ d
    /\ fpack fmt20 (fixed_args h tl cs s d) = Ok (pre ++ be_encode 2 cs ++ s ++ d).
Proof.
  intros Hs Hd Hcs w. unfold fpack, fixed_args, fmt20.
  cbn [f_codes f_order pack_codes encode].
  rewrite !resize_all_alt by done. change (in_width 2 0) with true.
  rewrite (in_width_2 cs) by done. change (be_encode 2 0) with [0; 0].
  destruct (in_width 1 (ver_byte h)), (in_width 1 (tos h)), (in_width 2 tl),
    (in_width 2 (identification h)), (in_width 2 (frag_word h)), (in_width 1 (ttl h)),
    (in_width 1 (proto h)); cbn [mbind res_bind]; try discriminate.
  intros [= <-]. rewrite app_nil_r.
  eexists (be_encode 1 _ ++ be_encode 1 _ ++ be_encode 2 _ ++ be_encode 2 _
           ++ be_encode 2 _ ++ be_encode 1 _ ++ be_encode 1 _).
  split; [by autorewrite with beba|].
  split; [auto 20 with beba|].
  by rewrite <- !app_assoc.
Qed.

Lemma wf_options h payload : wf h payload ->
  bytes_ok (opt_bytes h) /\ Z.of_nat (length (opt_bytes h)) = header_length h * 4 - 20.
Proof.
  intros (_ & _ & _ & _ & _ & Hopt & _). unfold opt_bytes. destruct (option_ h).
  - by destruct Hopt as (_ & ? & ?).
  - rewrite Hopt. split; [constructor|done].
Qed.

Lemma fill_checksum h tl s d o w0 w h' :
  length s = 4%nat -> length d = 4%nat -> bytes_ok s -> bytes_ok d -> bytes_ok o ->
  Z.of_nat (length o) <= 40 -> fpack fmt20 (fixed_args h tl 0 s d) = Ok w0 ->
  (hdr ← fpack_into (Format Big [Fi 2]) (w0 ++ o) 10 [VInt (checksum e (w0 ++ o))];
   Ok (hdr, set_computed h tl (checksum e (w0 ++ o)))) = Ok (w, h') ->
  exists fixed,
    h' = set_computed h tl (csum h')
    /\ fpack fmt20 (fixed_args h (total_length h') (csum h') s d) = Ok fixed
    /\ w = fixed ++ o /\ length w = (20 + length o)%nat /\ checksum e w = 0.
Proof.
  intros Ls Ld Bs Bd Bo Lo Hw0 H.
  destruct (fpack_fixed h tl 0 s d Ls Ld ltac:(lia) w0 Hw0) as (p0 & Lp & Bp & Ew & _).
  destruct (checksum_inserted e p0 (s ++ d ++ o)) as [Hc Hv].
  { by rewrite Lp. }
  { done. }
  { rewrite !Forall_app. tauto. }
  { rewrite !length_app, Lp, Ls, Ld. cbn [length]. lia. }
  assert (Ewo : w0 ++ o = p0 ++ [0; 0] ++ s ++ d ++ o) by by rewrite Ew, <- !app_assoc.
  rewrite Ewo in H. set (c := checksum e _) in *.
  destruct (fpack_fixed h tl c s d Ls Ld Hc w0 Hw0) as (p & Lp' & _ & Ew' & Hfix).
  assert (p = p0) as ->.
  { rewrite Ew' in Ew. apply app_inj_1 in Ew as [E _]; [done|lia]. }
  unfold fpack_into in H.
  assert (Hp2 : fpack (Format Big [Fi 2]) [VInt c] = Ok (be_encode 2 c)).
  { unfold fpack. cbn [f_codes f_order pack_codes encode]. rewrite in_width_2 by done.
    cbn [mbind res_bind]. by rewrite app_nil_r. }
  rewrite Hp2 in H. cbn [mbind res_bind] in H.
  change (fmt_size (Format Big [Fi 2])) with 2%nat in H.
  rewrite (proj2 (Nat.leb_le _ _)) in H by (rewrite !length_app, Lp, Ls, Ld; cbn [length]; lia).
  cbn [mbind res_bind] in H. rewrite take_app_length' in H by done.
  change (10 + 2)%nat with 12%nat in H.
  rewrite (app_assoc p0 [0; 0]), drop_app_length' in H by (by rewrite length_app, Lp).
  injection H as <- <-. cbn [set_computed csum total_length].
  exists (p0 ++ be_encode 2 c ++ s ++ d). rewrite <- !app_assoc. repeat split; try done.
  rewrite !length_app, be_encode_length, Lp, Ls, Ld. lia.
Qed.

(** What [serialize] produces: the packed header with the final checksum, then
    the options, a whole that checks. *)
Lemma ipv4_serialize_layout `{!AddrConvLaws C} h payload w h' :
  wf h payload -> serialize h payload = Ok (w, h') ->
  exists s d fixed,
    text_to_bin IPV4 (src h) = Ok s /\ text_to_bin IPV4 (dst h) = Ok d
    /\ h' = set_computed h (header_length h * 4 + Z.of_nat (length payload)) (csum h')
    /\ fpack fmt20 (fixed_args h (total_length h') (csum h') s d) = Ok fixed
    /\ w = fixed ++ opt_bytes h /\ Z.of_nat (length w) = header_length h * 4
    /\ checksum e w = 0.
Proof.
  intros Hwf H. pose proof Hwf as (Hv & Hhl & Hf & Ho & Htl & Hopt & Hcs & Hcd).
  unfold serialize in H.
  rewrite (proj2 (Z.ltb_ge _ _)) in H by lia.
  assert (Et : (if total_length h =? 0 then header_length h * 4 + Z.of_nat (length payload)
                else total_length h) = header_length h * 4 + Z.of_nat (length payload)).
  { destruct (Z.eqb_spec (total_length h) 0); lia. }
  rewrite Et in H. set (tl := header_length h * 4 + _) in *.
  apply bind_Ok in H as (s & Es & H). apply bind_Ok in H as (d & Ed & H).
  destruct (canonical_bin _ _ _ Hcs Es) as (_ & Ls & Bs).
  destruct (canonical_bin _ _ _ Hcd Ed) as (_ & Ld & Bd). cbn [alen] in Ls, Ld.
  apply bind_Ok in H as (h1 & H1 & H). apply bind_Ok in H as (h2 & H2 & H).
  fmt_eval. fold fmt20 in H1. fold (ver_byte h) (frag_word h) (fixed_args h tl 0 s d) in H1.
  unfold fpack_into in H1. apply bind_Ok in H1 as (w0 & Hw0 & H1).
  change (0 + fmt_size fmt20)%nat with 20%nat in H1.
  rewrite length_replicate, (proj2 (Nat.leb_le _ _)) in H1 by lia.
  injection H1 as <-. cbn [take app] in H2. rewrite drop_replicate in H2.
  set (zs := replicate (Z.to_nat (header_length h * 4) - 20) 0) in H2.
  pose proof (fpack_length _ _ _ Hw0) as Lw0. change (fmt_size fmt20) with 20%nat in Lw0.
  assert (Hh2 : h2 = w0 ++ opt_bytes h).
  { unfold opt_bytes. destruct (option_ h) as [[|o0 ot]|]; [by destruct Hopt| |].
    - destruct Hopt as (_ & _ & Hl). change _MIN_LEN with 20%nat in H2.
      rewrite (proj2 (Z.leb_le _ _)) in H2 by lia. cbn [py_assert mbind res_bind] in H2.
      injection H2 as <-. cbn [default from_option id].
      rewrite take_app_length' by done. rewrite (drop_ge (w0 ++ zs)), app_nil_r; [done|].
      rewrite length_app. unfold zs. rewrite length_replicate. cbn [length] in *. lia.
    - injection H2 as <-. cbn [default from_option]. unfold zs.
      rewrite Hopt. done. }
  destruct (wf_options _ _ Hwf) as [Bo Lo].
  clear H2. subst h2. clearbody zs.
  destruct (fill_checksum h tl s d _ w0 w h' Ls Ld Bs Bd Bo ltac:(lia) Hw0 H)
    as (fixed & E1 & E2 & E3 & E4 & E5).
  exists s, d, fixed. repeat split; try done. lia.
Qed.

Lemma ver_byte_fields h : 0 <= version h < 16 -> 5 <= header_length h < 16 ->
  Z.land (ver_byte h) 0xf = header_length h /\ Z.shiftr (ver_byte h) 4 = version h.
Proof.
  intros Hv Hh. unfold ver_byte. rewrite lor_shiftl_add by lia.
  split; [apply (land_ones_add _ _ 4); lia|apply shiftr_add; lia].
Qed.

Lemma frag_word_fields h : 0 <= offset h < 8192 ->
  Z.land (frag_word h) (Z.shiftl 1 13 - 1) = offset h
  /\ Z.shiftr (frag_word h) 13 = flags h.
Proof.
  intros Ho. unfold frag_word. rewrite lor_shiftl_add by lia.
  split; [apply (land_ones_add _ _ 13); lia|apply shiftr_add; lia].
Qed.

Lemma ipv4_parse_serialize `{!AddrConvLaws C} h payload w h' rest :
  wf h payload -> serialize h payload = Ok (w, h') ->
  parser (w ++ payload ++ rest) = Ok (h', get_packet_type (proto h), payload).
Proof.
  intros Hwf H.
  destruct (ipv4_serialize_layout _ _ _ _ Hwf H)
    as (s & d & fixed & Es & Ed & Eh & Hfix & -> & Lw & _).
  pose proof (wf_options _ _ Hwf) as [_ Lo].
  destruct Hwf as (Hv & Hhl & Hf & Ho & _ & Hopt & Hcs & Hcd).
  destruct (canonical_bin _ _ _ Hcs Es) as (Ts & Ls & _).
  destruct (canonical_bin _ _ _ Hcd Ed) as (Td & Ld & _). cbn [alen] in Ls, Ld.
  destruct (ver_byte_fields h Hv Hhl) as [Ev1 Ev2].
  destruct (frag_word_fields h Ho) as [Ef1 Ef2].
  pose proof (fpack_length _ _ _ Hfix) as Lf. change (fmt_size fmt20) with 20%nat in Lf.
  unfold parser. fmt_eval. fold fmt20. rewrite <- app_assoc.
  rewrite (unpack_from_pack0 _ _ _ _ Hfix). unfold fixed_args.
  cbn [mbind res_bind fit_args f_codes fmt20]. rewrite !resize_all_alt by done.
  rewrite Ts, Td. cbn [mbind res_bind]. rewrite Ev1, Ev2, Ef1, Ef2.
  change (Z.of_nat _MIN_LEN) with 20.
  assert (Eo : (if 20 <? header_length h * 4
                then Some (py_slice (fixed ++ opt_bytes h ++ payload ++ rest) 20
                             (header_length h * 4)) else None) = option_ h).
  { unfold opt_bytes in *. destruct (option_ h) as [o|]; cbn [default from_option] in *.
    - destruct Hopt as (Hne & _ & Hl).
      assert (0 < length o)%nat by (destruct o; [done|simpl; lia]).
      rewrite (proj2 (Z.ltb_lt _ _)) by lia. f_equal. unfold py_slice.
      rewrite drop_app_length' by (rewrite Lf; done). apply take_app_length'. lia.
    - rewrite Hopt. done. }
  assert (Ep : py_slice (fixed ++ opt_bytes h ++ payload ++ rest) (header_length h * 4)
                 (total_length h') = payload).
  { rewrite Eh. cbn [set_computed total_length]. unfold py_slice.
    rewrite (app_assoc fixed), drop_app_length' by (rewrite length_app in *; lia).
    apply take_app_length'. lia. }
  rewrite Eo, Ep. do 2 f_equal. rewrite Eh. done.
Qed.
End Ipv4.
End Ipv4.

(** ** A converter that satisfies the laws

    Texts that hold the packed bytes as characters; used to evaluate the
    definitions on concrete headers. *)

Module RawConv.


Fixpoint to_string (b : bytes) : string :=
  match b with
  | [] => EmptyString
  | z :: b => String (ascii_of_nat (Z.to_nat z)) (to_string b)
  end.

Fixpoint of_string (s : string) : bytes :=
  match s with
  | EmptyString => []
  | String c s => Z.of_nat (nat_of_ascii c) :: of_string s
  end.

Definition conv : AddrConv := {|
  bin_to_text := fun k b =>
    if (length b =? alen k)%nat then Ok (to_string b) else Err ValueError;
  text_to_bin := fun k t =>
    if (length (of_string t) =? alen k)%nat then Ok (of_string t) else Err ValueError |}.

Lemma of_to_string b : bytes_ok b -> of_string (to_string b) = b.
Proof.
  induction 1 as [|z b Hz _ IH]; [done|]. unfold byte_ok in Hz. cbn [to_string of_string].
  rewrite nat_ascii_embedding by lia. rewrite IH. f_equal. lia.
Qed.

Lemma of_string_ok s : bytes_ok (of_string s).
Proof.
  induction s as [|c s IH]; cbn [of_string]; constructor; [|done].
  pose proof (nat_ascii_bounded c). unfold byte_ok. lia.
Qed.

Lemma laws : AddrConvLaws conv.
Proof.
  split.
  - intros k t b H. cbn in H. destruct (Nat.eqb_spec (length (of_string t)) (alen k));
      [|done]. injection H as <-. split; [done|apply of_string_ok].
  - intros k b Hl Hb. exists (to_string b). cbn. rewrite of_to_string by done.
    rewrite Hl, Nat.eqb_refl. done.
Qed.

Lemma canonical_raw k b : length b = alen k -> bytes_ok b ->
  canonical (H := conv) k (to_string b).
Proof.
  intros Hl Hb. exists b. cbn. rewrite of_to_string by done. by rewrite Hl, Nat.eqb_refl.
Qed.

End RawConv.

(** ** Claims *)

Module PktHeadersClaims.

(** Every link-layer header class reads back what it writes: for Ethernet, VLAN
    and S-VLAN, I-TAG, MPLS and ARP, parsing the serialized header followed by
    any bytes gives the header, the class that the type selects and exactly those
    bytes. *)
Theorem link_headers_roundtrip `{C : AddrConv} `{!AddrConvLaws C}
    (eth : Ethernet.ethernet) (tag : Vlan.tag) (it : Itag.itag) (lab : Mpls.mpls)
    (ar : Arp.arp) (w1 w2 w3 w4 w5 rest : bytes) :
  canonical MAC (Ethernet.dst eth) -> canonical MAC (Ethernet.src eth) ->
  Vlan.wf tag -> Itag.wf it -> Mpls.wf lab ->
  canonical MAC (Arp.src_mac ar) -> canonical IPV4 (Arp.src_ip ar) ->
  canonical MAC (Arp.dst_mac ar) -> canonical IPV4 (Arp.dst_ip ar) ->
  Ethernet.serialize eth = Ok w1 -> Vlan.serialize tag = Ok w2 ->
  Itag.serialize it = Ok w3 -> Mpls.serialize lab = Ok w4 -> Arp.serialize ar = Ok w5 ->
  Ethernet.parser (w1 ++ rest)
    = Ok (eth, get_packet_type_802_3 (Ethernet.ethertype eth), rest)
  /\ Vlan.parser (w2 ++ rest) = Ok (tag, get_packet_type_802_3 (Vlan.ethertype tag), rest)
  /\ Itag.parser (w3 ++ rest) = Ok (it, Some Cethernet, rest)
  /\ Mpls.parser (w4 ++ rest)
     = Ok (lab, Some (if Mpls.bsb lab =? 0 then Cmpls else Cipv4), rest)
  /\ Arp.parser (w5 ++ rest) = Ok (ar, None, rest).
Proof.
  intros. split; [by apply Ethernet.ethernet_parse_serialize|].
  split; [by apply Vlan.vlan_parse_serialize|].
  split; [by apply Itag.itag_parse_serialize|].
  split; [by apply Mpls.mpls_parse_serialize|by apply Arp.arp_parse_serialize].
Qed.

Definition mac1 : string := RawConv.to_string [2; 0; 0; 0; 0; 1].
Definition ip1 : string := RawConv.to_string [10; 0; 0; 1].
Definition ip2 : string := RawConv.to_string [10; 0; 0; 2].

Lemma link_headers_roundtrip_witness :
  exists w1 w2 w3 w4 w5,
    Ethernet.parser (C := RawConv.conv) (w1 ++ [7])
      = Ok (Ethernet.Mk mac1 mac1 0x0800, Some Cipv4, [7])
    /\ Vlan.parser (w2 ++ [7]) = Ok (Vlan.Mk 3 1 100 0x0806, Some Carp, [7])
    /\ Itag.parser (w3 ++ [7]) = Ok (Itag.Mk 3 1 0 100, Some Cethernet, [7])
    /\ Mpls.parser (w4 ++ [7]) = Ok (Mpls.Mk 100 1 1 64, Some Cipv4, [7])
    /\ Arp.parser (C := RawConv.conv) (w5 ++ [7])
       = Ok (Arp.arp_ip 1 mac1 ip1 mac1 ip2, None, [7]).
Proof.
  assert (Hm : canonical (H := RawConv.conv) MAC mac1)
    by (apply RawConv.canonical_raw; [reflexivity|solve_bytes_ok]).
  assert (H1 : canonical (H := RawConv.conv) IPV4 ip1)
    by (apply RawConv.canonical_raw; [reflexivity|solve_bytes_ok]).
  assert (H2 : canonical (H := RawConv.conv) IPV4 ip2)
    by (apply RawConv.canonical_raw; [reflexivity|solve_bytes_ok]).
  destruct (Ethernet.serialize (C := RawConv.conv) (Ethernet.Mk mac1 mac1 0x0800))
    as [w1|?] eqn:E1; [|vm_compute in E1; discriminate].
  destruct (Vlan.serialize (Vlan.Mk 3 1 100 0x0806)) as [w2|?] eqn:E2;
    [|vm_compute in E2; discriminate].
  destruct (Itag.serialize (Itag.Mk 3 1 0 100)) as [w3|?] eqn:E3;
    [|vm_compute in E3; discriminate].
  destruct (Mpls.serialize (Mpls.Mk 100 1 1 64)) as [w4|?] eqn:E4;
    [|vm_compute in E4; discriminate].
  destruct (Arp.serialize (C := RawConv.conv) (Arp.arp_ip 1 mac1 ip1 mac1 ip2))
    as [w5|?] eqn:E5; [|vm_compute in E5; discriminate].
  exists w1, w2, w3, w4, w5.
  apply (link_headers_roundtrip (C := RawConv.conv) (AddrConvLaws0 := RawConv.laws)
    (Ethernet.Mk mac1 mac1 0x0800) (Vlan.Mk 3 1 100 0x0806)
    (Itag.Mk 3 1 0 100) (Mpls.Mk 100 1 1 64) (Arp.arp_ip 1 mac1 ip1 mac1 ip2));
    try assumption; unfold Vlan.wf, Itag.wf, Mpls.wf; cbn; lia.
Defined.

(** An IPv4 header: on a host of either byte order the serialized header has the
    announced length and a valid checksum, and parsing it back from a packet with
    trailing padding gives the completed header, the class of its protocol and
    exactly the payload. *)
Theorem ipv4_roundtrip `{C : AddrConv} `{!AddrConvLaws C} (e : endian)
    (h h' : Ipv4.ipv4) (payload w padding : bytes) :
  Ipv4.wf h payload -> Ipv4.serialize e h payload = Ok (w, h') ->
  Z.of_nat (length w) = Ipv4.header_length h * 4 /\ checksum e w = 0
  /\ Ipv4.total_length h' = Z.of_nat (length (w ++ payload))
  /\ Ipv4.parser (w ++ payload ++ padding)
     = Ok (h', get_packet_type (Ipv4.proto h), payload).
Proof.
  intros Hwf H. destruct (Ipv4.ipv4_serialize_layout e _ _ _ _ Hwf H)
    as (s & d & fixed & _ & _ & Eh & _ & _ & Lw & Hc).
  split; [done|]. split; [done|]. split.
  - rewrite Eh, length_app. cbn [Ipv4.set_computed Ipv4.total_length]. lia.
  - by apply (Ipv4.ipv4_parse_serialize e).
Qed.

Definition sample_ipv4 : Ipv4.ipv4 :=
  Ipv4.Mk 4 6 0 0 1 2 0 64 17 0 ip1 ip2 (Some [1; 1; 1; 0]).

Lemma ipv4_roundtrip_witness :
  exists w h', Ipv4.serialize (C := RawConv.conv) Little sample_ipv4 [9; 9; 9] = Ok (w, h')
    /\ checksum Little w = 0
    /\ Ipv4.parser (C := RawConv.conv) (w ++ [9; 9; 9] ++ [0; 0])
       = Ok (h', Some Cudp, [9; 9; 9]).
Proof.
  destruct (Ipv4.serialize (C := RawConv.conv) Little sample_ipv4 [9; 9; 9])
    as [[w h']|?] eqn:E; [|vm_compute in E; discriminate].
  exists w, h'. split; [reflexivity|].
  destruct (ipv4_roundtrip (C := RawConv.conv) (AddrConvLaws0 := RawConv.laws)
              Little sample_ipv4 h' [9; 9; 9] w [0; 0]) as (_ & H1 & _ & H2);
    [|exact E|split; [exact H1|exact H2]].
  assert (Hip : forall b, length b = 4%nat -> bytes_ok b ->
    canonical (H := RawConv.conv) IPV4 (RawConv.to_string b))
    by (intros; apply RawConv.canonical_raw; assumption).
  unfold Ipv4.wf, sample_ipv4. cbn [Ipv4.version Ipv4.header_length Ipv4.flags Ipv4.offset
    Ipv4.total_length Ipv4.option_ Ipv4.src Ipv4.dst length].
  split; [lia|]. split; [lia|]. split; [lia|]. split; [lia|]. split; [left; reflexivity|].
  split; [split; [discriminate|split; [solve_bytes_ok|reflexivity]]|].
  split; apply Hip; [reflexivity|solve_bytes_ok|reflexivity|solve_bytes_ok].
Defined.

(** One registry serves all header classes: the protocol number of an IPv4
    datagram is also looked up among the types other classes registered, so
    protocol 58 selects ICMPv6 and protocol 66 selects the spanning tree BPDU
    class, which LLC registered under its service access point. *)
Theorem protocol_dispatch :
  Forall (fun p => get_packet_type p =
    if p =? 1 then Some Cicmp else if p =? 2 then Some Cigmp
    else if p =? 6 then Some Ctcp else if p =? 17 then Some Cudp
    else if p =? 58 then Some Cicmpv6 else if p =? 66 then Some Cbpdu
    else if p =? 89 then Some Cospf else if p =? 112 then Some Cvrrp
    else if p =? 132 then Some Csctp else None)
    (Z.of_nat <$> seq 0 256)
  /\ forall ty, ty <= 1500 -> get_packet_type_802_3 ty = Some Cllc.
Proof.
  split.
  - repeat first [apply Forall_nil_2 | apply Forall_cons_2]; vm_compute; reflexivity.
  - intros ty H. unfold get_packet_type_802_3, ETH_TYPE_IEEE802_3.
    rewrite (proj2 (Z.leb_le _ _)) by lia. reflexivity.
Qed.

Lemma protocol_dispatch_witness : get_packet_type_802_3 38 = Some Cllc.
Proof. apply (proj2 protocol_dispatch). lia. Defined.

End PktHeadersClaims.
