(* ===== verification/PktTransport.v ===== *)
(** * Transport headers (ryu/lib/packet: udp, icmp, tcp)

    The headers whose checksum covers the payload.  [serialize] returns the bytes
    and the header object as the method leaves it, since the code writes the
    computed lengths and checksums back into it. *)

From Stdlib Require Import ZArith Lia.
From stdpp Require Import base list gmap strings numbers.
From S2P Require Import Prelude Struct PktUtils PktHeaders.

Lemma fpack_into_length f buf off args buf' :
  fpack_into f buf off args = Ok buf' -> length buf' = length buf.
Proof.
  unfold fpack_into. intros H. apply bind_Ok in H as (bs & Hb & H).
  apply fpack_length in Hb. destruct (Nat.leb_spec (off + fmt_size f) (length buf)) as [Hl|];
    [|done]. injection H as <-. rewrite !length_app, length_take, length_drop. lia.
Qed.

(** ** UDP *)

Module Udp.
Section Udp.
Context `{C : AddrConv} (e : endian).

Record udp := Mk { src_port : Z; dst_port : Z; total_length : Z; csum : Z }.

Definition _PACK_STR : string := "!HHHH".
Definition _MIN_LEN : Z := Z.of_nat (calcsize _PACK_STR).

Definition get_packet_type (src_port dst_port : Z) : option pcls :=
  if ((src_port =? 68) && (dst_port =? 67)) || ((src_port =? 67) && (dst_port =? 68))
  then Some Cdhcp else None.

Definition parser (buf : bytes) : res (udp * option pcls * bytes) :=
  vs ← unpack_from _PACK_STR buf 0;
  match vs with
  | [VInt sp; VInt dp; VInt tl; VInt cs] =>
      Ok (Mk sp dp tl cs, get_packet_type sp dp, py_slice buf _MIN_LEN tl)
  | _ => Err ValueError
  end.

Definition pack_hdr (h : udp) (tl cs : Z) : res bytes :=
  pack _PACK_STR [VInt (src_port h); VInt (dst_port h); VInt tl; VInt cs].

(** [prev] is the outer header; [None] stands for Python's [None]. *)
Definition serialize (h : udp) (payload : bytes) (prev : option outer) :
    res (bytes * udp) :=
  let tl := if total_length h =? 0 then _MIN_LEN + Z.of_nat (length payload)
            else total_length h in
  w ← pack_hdr h tl (csum h);
  if csum h =? 0 then
    prev ← attr prev;
    cs ← checksum_ip e prev tl (w ++ payload);
    w ← pack_hdr h tl cs;
    Ok (w, Mk (src_port h) (dst_port h) tl cs)
  else Ok (w, Mk (src_port h) (dst_port h) tl (csum h)).

Definition fmt8 : format := Format Big [Fi 2; Fi 2; Fi 2; Fi 2].

Lemma pack_hdr_layout h tl w :
  pack_hdr h tl 0 = Ok w ->
  exists A, length A = 6%nat /\ bytes_ok A /\ w = A ++ [0; 0]
    /\ forall cs, 0 <= cs < 65536 -> pack_hdr h tl cs = Ok (A ++ be_encode 2 cs).
Proof.
  unfold pack_hdr. fmt_eval. unfold fpack. cbn [f_codes f_order pack_codes encode].
  change (in_width 2 0) with true. change (be_encode 2 0) with [0; 0].
  destruct (in_width 2 (src_port h)) eqn:E1, (in_width 2 (dst_port h)) eqn:E2,
    (in_width 2 tl) eqn:E3; cbn [mbind res_bind]; try discriminate. intros [= <-].
  exists (be_encode 2 (src_port h) ++ be_encode 2 (dst_port h) ++ be_encode 2 tl).
  split; [by autorewrite with beba|].
  split; [auto 20 with beba|].
  split; [by rewrite <- !app_assoc, ?app_nil_r|]. intros cs Hcs.
  fmt_eval. unfold fpack. cbn [f_codes f_order pack_codes encode].
  rewrite E1, E2, E3, in_width_2 by done. cbn [mbind res_bind].
  by rewrite <- !app_assoc, ?app_nil_r.
Qed.

Lemma parse_packed h tl cs w payload rest :
  tl = 8 + Z.of_nat (length payload) -> pack_hdr h tl cs = Ok w ->
  parser (w ++ payload ++ rest)
  = Ok (Mk (src_port h) (dst_port h) tl cs, get_packet_type (src_port h) (dst_port h),
        payload).
Proof.
  intros Htl H. unfold parser, pack_hdr in *. change _MIN_LEN with 8. fmt_eval.
  fold fmt8 in *. rewrite (unpack_from_pack0 _ _ _ _ H).
  pose proof (fpack_length _ _ _ H) as Hl. change (fmt_size fmt8) with 8%nat in Hl.
  cbn [mbind res_bind fit_args f_codes fmt8]. unfold py_slice.
  rewrite drop_app_length' by (rewrite Hl; reflexivity). rewrite take_app_length' by lia.
  reflexivity.
Qed.

(** What is written, and that it checks. *)
Lemma udp_serialize_spec `{!AddrConvLaws C} h payload prev w h' :
  bytes_ok payload -> Z.of_nat (length payload) <= 65527 ->
  (total_length h = 0 \/ total_length h = 8 + Z.of_nat (length payload)) ->
  serialize h payload prev = Ok (w, h') ->
  total_length h' = 8 + Z.of_nat (length payload)
  /\ src_port h' = src_port h /\ dst_port h' = dst_port h
  /\ pack_hdr h (total_length h') (csum h') = Ok w
  /\ (csum h <> 0 -> csum h' = csum h)
  /\ (csum h = 0 -> exists p, prev = Some p
        /\ checksum_ip e p (total_length h') (w ++ payload) = Ok 0).
Proof.
  intros Bp Lp Htl H. unfold serialize in H. change _MIN_LEN with 8 in H.
  assert (Et : (if total_length h =? 0 then 8 + Z.of_nat (length payload)
                else total_length h) = 8 + Z.of_nat (length payload)).
  { destruct (Z.eqb_spec (total_length h) 0); lia. }
  rewrite Et in H. set (tl := 8 + _) in *.
  apply bind_Ok in H as (w0 & H0 & H). destruct (Z.eqb_spec (csum h) 0) as [Ez|Ez].
  - rewrite Ez in H0. destruct (pack_hdr_layout _ _ _ H0) as (A & LA & BA & -> & Hp).
    apply bind_Ok in H as (p & Hpv & H). apply bind_Ok in H as (cs & Hcs & H).
    apply bind_Ok in H as (w1 & Hw1 & [= <- <-]). rewrite <- app_assoc in Hcs.
    destruct (checksum_ip_inserted e p tl A payload cs) as [Hr Hv];
      [by rewrite LA|done|done| |done|].
    { rewrite !length_app, LA. cbn [length]. lia. }
    rewrite (Hp cs Hr) in Hw1. injection Hw1 as <-.
    cbn [total_length src_port dst_port csum]. repeat split; try done; [by apply Hp|].
    intros _. exists p. rewrite <- app_assoc. split; [|done].
    destruct prev; [|done]. by injection Hpv as ->.
  - injection H as <- <-. cbn [total_length src_port dst_port csum]. done.
Qed.
End Udp.
End Udp.

(** ** ICMP *)

Module Icmp.

Definition ICMP_ECHO_REPLY : Z := 0.
Definition ICMP_DEST_UNREACH : Z := 3.
Definition ICMP_ECHO_REQUEST : Z := 8.
Definition ICMP_TIME_EXCEEDED : Z := 11.

(** The payload object: raw bytes or one of the three sub-classes. *)
Inductive body :=
  | Raw (b : bytes)
  | Echo (id_ seq : Z) (data : option bytes)
  | DestUnreach (data_len mtu : Z) (data : option bytes)
  | TimeExceeded (data_len : Z) (data : option bytes).

Inductive subcls := SEcho | SDestUnreach | STimeExceeded.

(** [icmp._ICMP_TYPES.get(type_)] *)
Definition icmp_type (type_ : Z) : option subcls :=
  if (type_ =? ICMP_ECHO_REPLY) || (type_ =? ICMP_ECHO_REQUEST) then Some SEcho
  else if type_ =? ICMP_DEST_UNREACH then Some SDestUnreach
  else if type_ =? ICMP_TIME_EXCEEDED then Some STimeExceeded
  else None.

(** [if len(buf) > offset: msg.data = buf[offset:]] *)
Definition tail_data (buf : bytes) (offset : nat) : option bytes :=
  if (offset <? length buf)%nat then Some (drop offset buf) else None.

Definition sub_parser (c : subcls) (buf : bytes) (offset : nat) : res body :=
  match c with
  | SEcho =>
      vs ← unpack_from "!HH" buf offset;
      match vs with
      | [VInt i; VInt s] => Ok (Echo i s (tail_data buf (offset + 4)))
      | _ => Err ValueError
      end
  | SDestUnreach =>
      vs ← unpack_from "!xBH" buf offset;
      match vs with
      | [VInt l; VInt m] => Ok (DestUnreach l m (tail_data buf (offset + 4)))
      | _ => Err ValueError
      end
  | STimeExceeded =>
      vs ← unpack_from "!xBxx" buf offset;
      match vs with
      | [VInt l] => Ok (TimeExceeded l (tail_data buf (offset + 4)))
      | _ => Err ValueError
      end
  end.

(** [data.serialize()]; raw bytes have no such method. *)
Definition sub_serialize (b : body) : res bytes :=
  match b with
  | Raw _ => Err AttributeError
  | Echo i s d => h ← pack "!HH" [VInt i; VInt s]; Ok (h ++ default [] d)
  | DestUnreach l m d => h ← pack "!xBH" [VInt l; VInt m]; Ok (h ++ default [] d)
  | TimeExceeded l d => h ← pack "!xBxx" [VInt l]; Ok (h ++ default [] d)
  end.

Record icmp := Mk { type_ : Z; code : Z; csum : Z; data : option body }.

Definition _PACK_STR : string := "!BBH".
Definition _MIN_LEN : nat := calcsize _PACK_STR.

Definition parser (buf : bytes) : res (icmp * option pcls * option bytes) :=
  vs ← unpack_from _PACK_STR buf 0;
  match vs with
  | [VInt type_; VInt code; VInt csum] =>
      d ← (if (_MIN_LEN <? length buf)%nat then
             match icmp_type type_ with
             | Some c => b ← sub_parser c buf _MIN_LEN; Ok (Some b)
             | None => Ok (Some (Raw (drop _MIN_LEN buf)))
             end
           else Ok None);
      Ok (Mk type_ code csum d, None, None)
  | _ => Err ValueError
  end.

Section Serialize.
Variable e : endian.

Definition serialize (h : icmp) : res (bytes * icmp) :=
  hdr ← pack _PACK_STR [VInt (type_ h); VInt (code h); VInt (csum h)];
  let d := default (Echo 0 0 None) (data h) in
  body ← match data h with
         | Some d => match icmp_type (type_ h) with
                     | Some _ => sub_serialize d
                     | None => match d with Raw b => Ok b | _ => Err TypeError end
                     end
         | None => sub_serialize d
         end;
  let hdr := hdr ++ body in
  if csum h =? 0 then
    let cs := checksum e hdr in
    hdr ← pack_into "!H" hdr 2 [VInt cs];
    Ok (hdr, Mk (type_ h) (code h) cs (Some d))
  else Ok (hdr, Mk (type_ h) (code h) (csum h) (Some d)).

(** The data a parser can give back: an object of the class of the type, with no
    empty trailing data. *)
Definition data_wf (o : option bytes) : Prop :=
  match o with Some d => d <> [] /\ bytes_ok d | None => True end.

Definition wf (h : icmp) : Prop :=
  match data h, icmp_type (type_ h) with
  | Some (Raw b), None => b <> [] /\ bytes_ok b
  | Some (Echo _ _ d), Some SEcho => data_wf d
  | Some (DestUnreach _ _ d), Some SDestUnreach => data_wf d
  | Some (TimeExceeded _ d), Some STimeExceeded => data_wf d
  | _, _ => False
  end.

Lemma data_wf_ok d : data_wf d -> bytes_ok (default [] d).
Proof. destruct d; cbn; [tauto|constructor]. Qed.

Lemma tail_data_app pre d n :
  data_wf d -> n = length pre -> tail_data (pre ++ default [] d) n = d.
Proof.
  intros Hd ->. unfold tail_data. destruct d as [d|]; cbn [default from_option id].
  - destruct Hd as [Hne _]. rewrite (proj2 (Nat.ltb_lt _ _)).
    + by rewrite drop_app_length.
    + rewrite length_app. destruct d; [done|simpl; lia].
  - by rewrite app_nil_r, Nat.ltb_irrefl.
Qed.

Lemma sub_roundtrip hdr c b w :
  sub_serialize b = Ok w ->
  match b, c with
  | Echo _ _ d, SEcho | DestUnreach _ _ d, SDestUnreach | TimeExceeded _ d, STimeExceeded =>
      data_wf d
  | _, _ => False
  end ->
  bytes_ok w /\ (4 <= length w)%nat /\ sub_parser c (hdr ++ w) (length hdr) = Ok b.
Proof.
  intros H Hm.
  destruct b as [|i s d|l m d|l d], c; try done; cbn [sub_serialize sub_parser] in *;
    apply bind_Ok in H as (p & Hp & [= <-]); fmt_eval;
    pose proof (fpack_length _ _ _ Hp) as Hl; unfold fmt_size in Hl; cbn in Hl;
    (split; [apply Forall_app; split;
             [eapply pack_codes_ok; [|exact Hp]; repeat constructor|by apply data_wf_ok]|]);
    (split; [rewrite length_app; lia|]);
    rewrite (unpack_from_pack _ _ _ hdr _ _ Hp eq_refl);
    cbn [fit_args f_codes mbind res_bind];
    rewrite app_assoc, tail_data_app by (done || rewrite length_app; lia); done.
Qed.

Definition body_of (h : icmp) : res bytes :=
  match data h with
  | Some d => match icmp_type (type_ h) with
              | Some _ => sub_serialize d
              | None => match d with Raw b => Ok b | _ => Err TypeError end
              end
  | None => sub_serialize (Echo 0 0 None)
  end.

(** A header of any checksum before the body is parsed back. *)
Lemma parse_body h cs hdr body :
  wf h -> body_of h = Ok body ->
  pack _PACK_STR [VInt (type_ h); VInt (code h); VInt cs] = Ok hdr ->
  bytes_ok body
  /\ parser (hdr ++ body) = Ok (Mk (type_ h) (code h) cs (data h), None, None).
Proof.
  intros Hwf Hb Hp. unfold wf, body_of in *.
  destruct (data h) as [d|] eqn:Ed; [|done].
  unfold parser. change _MIN_LEN with 4%nat. fmt_eval.
  rewrite (unpack_from_pack0 _ _ _ _ Hp). cbn [fit_args f_codes mbind res_bind].
  pose proof (fpack_length _ _ _ Hp) as Hl. unfold fmt_size in Hl. cbn in Hl.
  destruct (icmp_type (type_ h)) as [c|] eqn:Et.
  - destruct (sub_roundtrip hdr c d body Hb) as (Bb & Lb & Hs);
      [by destruct d, c; try done|].
    rewrite (proj2 (Nat.ltb_lt _ _)) by (rewrite length_app; lia).
    rewrite Hl in Hs. by rewrite Hs.
  - destruct d; try done. injection Hb as ->. destruct Hwf as [Hne Hok].
    rewrite (proj2 (Nat.ltb_lt _ _)) by (rewrite length_app; destruct body; [done|simpl; lia]).
    by rewrite drop_app_length' by done.
Qed.

Lemma hdr_layout h w :
  pack _PACK_STR [VInt (type_ h); VInt (code h); VInt 0] = Ok w ->
  exists A, length A = 2%nat /\ bytes_ok A /\ w = A ++ [0; 0]
    /\ forall cs, 0 <= cs < 65536 ->
       pack _PACK_STR [VInt (type_ h); VInt (code h); VInt cs] = Ok (A ++ be_encode 2 cs).
Proof.
  fmt_eval. unfold fpack. cbn [f_codes f_order pack_codes encode].
  change (in_width 2 0) with true. change (be_encode 2 0) with [0; 0].
  destruct (in_width 1 (type_ h)) eqn:E1, (in_width 1 (code h)) eqn:E2;
    cbn [mbind res_bind]; try discriminate. intros [= <-].
  exists (be_encode 1 (type_ h) ++ be_encode 1 (code h)).
  split; [by autorewrite with beba|].
  split; [auto 20 with beba|].
  split; [by rewrite <- !app_assoc, ?app_nil_r|]. intros cs Hcs.
  fmt_eval. unfold fpack. cbn [f_codes f_order pack_codes encode].
  rewrite E1, E2, in_width_2 by done. cbn [mbind res_bind].
  by rewrite <- !app_assoc, ?app_nil_r.
Qed.

Lemma pack_into_2 A body cs :
  length A = 2%nat -> 0 <= cs < 65536 ->
  pack_into "!H" (A ++ [0; 0] ++ body) 2 [VInt cs] = Ok (A ++ be_encode 2 cs ++ body).
Proof.
  intros LA Hcs. fmt_eval. unfold fpack_into, fpack.
  cbn [f_codes f_order pack_codes encode]. rewrite in_width_2 by done.
  cbn [mbind res_bind]. change (2 + fmt_size _)%nat with 4%nat.
  rewrite (proj2 (Nat.leb_le _ _)) by (rewrite !length_app, LA; cbn; lia).
  rewrite take_app_length' by done. rewrite (app_assoc A [0; 0]), drop_app_length'
    by (by rewrite length_app, LA). by rewrite app_nil_r.
Qed.

Lemma icmp_serialize_spec h w h' :
  wf h -> Z.of_nat (length w) <= 131070 -> serialize h = Ok (w, h') ->
  (csum h = 0 -> checksum e w = 0)
  /\ (csum h <> 0 -> csum h' = csum h)
  /\ h' = Mk (type_ h) (code h) (csum h') (data h)
  /\ parser w = Ok (h', None, None).
Proof.
  intros Hwf Hlen H. assert (exists d, data h = Some d) as [d Hd].
  { unfold wf in Hwf. destruct (data h); [eauto|done]. }
  unfold serialize in H. apply bind_Ok in H as (hdr & Hh & H).
  apply bind_Ok in H as (body & Hb & H). rewrite Hd in H. cbn [default from_option id] in H.
  assert (Hb' : body_of h = Ok body) by (unfold body_of; rewrite Hd in *; exact Hb).
  rewrite <- Hd in H.
  destruct (Z.eqb_spec (csum h) 0) as [Ez|Ez].
  - rewrite Ez in Hh. destruct (hdr_layout _ _ Hh) as (A & LA & BA & -> & Hp).
    destruct (parse_body h 0 _ body Hwf Hb' Hh) as [Bb _].
    rewrite <- app_assoc in H. apply bind_Ok in H as (w' & Hw & [= <- <-]).
    destruct (checksum_inserted e A body) as [Hr Hv]; [by rewrite LA|done|done| |].
    { fmt_eval. apply fpack_into_length in Hw. by rewrite <- Hw. }
    set (cs := checksum e _) in *.
    rewrite (pack_into_2 A body cs LA Hr) in Hw. injection Hw as <-.
    split; [done|]. split; [done|]. split; [done|]. cbn [csum].
    destruct (parse_body h cs _ body Hwf Hb' (Hp cs Hr)) as [_ Hps].
    by rewrite <- app_assoc in Hps.
  - injection H as <- <-. split; [done|]. split; [done|]. split; [done|].
    by apply (parse_body h (csum h) hdr body Hwf Hb' Hh).
Qed.
End Serialize.
End Icmp.

Ltac val_oks := repeat first [apply Forall_nil_2 | apply Forall_cons_2; [exact I|]].

(** ** TCP options *)

Module TcpOption.

Inductive body :=
  | BUnknown (value : bytes)
  | BEndOfOptionList
  | BNoOperation
  | BMaximumSegmentSize (max_seg_size : Z)
  | BWindowScale (shift_cnt : Z)
  | BSACKPermitted
  | BSACK (blocks : list (Z * Z))
  | BTimestamps (ts_val ts_ecr : Z)
  | BUserTimeout (granularity user_timeout : Z)
  | BAuthentication (key_id r_next_key_id : Z) (mac : bytes).

Record opt := Mk { kind : Z; length_ : Z; obody : body }.

(** The sub-classes of TCPOption. *)
Inductive ocls := OEnd | ONop | OMss | OWs | OSackPerm | OSack | OTs | OUto | OAuth.

(** [cls_kind] and [cls_length], as the decorator [register] sets them. *)
Definition cls_kind (c : ocls) : Z :=
  match c with
  | OEnd => 0 | ONop => 1 | OMss => 2 | OWs => 3 | OSackPerm => 4 | OSack => 5
  | OTs => 8 | OUto => 28 | OAuth => 29
  end.
Definition cls_length (c : ocls) : Z :=
  match c with
  | OEnd => 1 | ONop => 1 | OMss => 4 | OWs => 3 | OSackPerm => 2 | OSack => 2
  | OTs => 10 | OUto => 4 | OAuth => 4
  end.

(** [TCPOption._KINDS.get(kind)] *)
Definition kinds (k : Z) : option ocls :=
  list_find (fun c => cls_kind c = k) [OEnd; ONop; OMss; OWs; OSackPerm; OSack; OTs; OUto; OAuth]
  ≫= fun p => Some p.2.

(** An instance with the default kind and length of its class. *)
Definition mk (c : ocls) (b : body) : opt := Mk (cls_kind c) (cls_length c) b.

Definition from (buf : bytes) (n : Z) : bytes := drop (Z.to_nat n) buf.

(** The blocks of a SACK option: pairs of 32-bit edges until the buffer is empty. *)
Fixpoint sack_blocks (buf : bytes) : res (list (Z * Z)) :=
  match buf with
  | [] => Ok []
  | b0 :: b1 :: b2 :: b3 :: b4 :: b5 :: b6 :: b7 :: buf =>
      vs ← unpack_from "!II" [b0; b1; b2; b3; b4; b5; b6; b7] 0;
      match vs with
      | [VInt l; VInt r] => bs ← sack_blocks buf; Ok ((l, r) :: bs)
      | _ => Err ValueError
      end
  | _ => Err StructError
  end.

Definition parse_unknown (buf : bytes) : res (opt * bytes) :=
  vs ← unpack_from "!BB" buf 0;
  match vs with
  | [VInt kind; VInt len] =>
      Ok (Mk kind len (BUnknown (py_slice buf 2 len)), from buf len)
  | _ => Err ValueError
  end.

(** [subcls.parse] *)
Definition parse (c : ocls) (buf : bytes) : res (opt * bytes) :=
  let fixed b := Ok (mk c b, from buf (cls_length c)) in
  match c with
  | OEnd => fixed BEndOfOptionList
  | ONop => fixed BNoOperation
  | OSackPerm => fixed BSACKPermitted
  | OMss =>
      vs ← unpack_from "!BBH" buf 0;
      match vs with
      | [VInt _; VInt _; VInt m] => fixed (BMaximumSegmentSize m)
      | _ => Err ValueError
      end
  | OWs =>
      vs ← unpack_from "!BBB" buf 0;
      match vs with
      | [VInt _; VInt _; VInt s] => fixed (BWindowScale s)
      | _ => Err ValueError
      end
  | OSack =>
      vs ← unpack_from "!BB" buf 0;
      match vs with
      | [VInt _; VInt len] =>
          bs ← sack_blocks (py_slice buf 2 len);
          Ok (Mk (cls_kind c) len (BSACK bs), from buf len)
      | _ => Err ValueError
      end
  | OTs =>
      vs ← unpack_from "!BBII" buf 0;
      match vs with
      | [VInt _; VInt _; VInt v; VInt r] => fixed (BTimestamps v r)
      | _ => Err ValueError
      end
  | OUto =>
      vs ← unpack_from "!BBH" buf 0;
      match vs with
      | [VInt _; VInt _; VInt b] =>
          fixed (BUserTimeout (Z.shiftr b 15) (Z.land b 0x7fff))
      | _ => Err ValueError
      end
  | OAuth =>
      vs ← unpack_from "!BBBB" buf 0;
      match vs with
      | [VInt _; VInt len; VInt k; VInt r] =>
          Ok (Mk (cls_kind c) len (BAuthentication k r (py_slice buf 4 len)), from buf len)
      | _ => Err ValueError
      end
  end.

(** [TCPOption.parser] *)
Definition parser (buf : bytes) : res (opt * bytes) :=
  vs ← unpack_from "!B" buf 0;
  match vs with
  | [VInt kind] =>
      match kinds kind with Some c => parse c buf | None => parse_unknown buf end
  | _ => Err ValueError
  end.

Definition sack_bytes (blocks : list (Z * Z)) : res bytes :=
  foldM (fun buf '(l, r) => b ← pack "!II" [VInt l; VInt r]; Ok (buf ++ b)) [] blocks.

(** [opt.serialize()], with the object as it is left. *)
Definition serialize (o : opt) : res (bytes * opt) :=
  let keep r := w ← r; Ok (w, o) in
  match obody o with
  | BUnknown v =>
      let len := 2 + Z.of_nat (length v) in
      w ← pack "!BB" [VInt (kind o); VInt len];
      Ok (w ++ v, Mk (kind o) len (obody o))
  | BEndOfOptionList => keep (pack "!B" [VInt (cls_kind OEnd)])
  | BNoOperation => keep (pack "!B" [VInt (cls_kind ONop)])
  | BMaximumSegmentSize m => keep (pack "!BBH" [VInt (kind o); VInt (length_ o); VInt m])
  | BWindowScale s => keep (pack "!BBB" [VInt (kind o); VInt (length_ o); VInt s])
  | BSACKPermitted => keep (pack "!BB" [VInt (kind o); VInt (length_ o)])
  | BSACK bs =>
      buf ← sack_bytes bs;
      let len := cls_length OSack + Z.of_nat (length buf) in
      w ← pack "!BB" [VInt (kind o); VInt len];
      Ok (w ++ buf, Mk (kind o) len (obody o))
  | BTimestamps v r =>
      keep (pack "!BBII" [VInt (kind o); VInt (length_ o); VInt v; VInt r])
  | BUserTimeout g u =>
      keep (pack "!BBH" [VInt (kind o); VInt (length_ o); VInt (Z.lor (Z.shiftl g 15) u)])
  | BAuthentication k r m =>
      let len := cls_length OAuth + Z.of_nat (length m) in
      w ← pack "!BBBB" [VInt (kind o); VInt len; VInt k; VInt r];
      Ok (w ++ m, Mk (kind o) len (obody o))
  end.

(** The options a peer can build: kind and length of the class, bit fields in
    range; an unknown option has an unregistered kind. *)
Definition wf (o : opt) : Prop :=
  match obody o with
  | BUnknown v => kinds (kind o) = None /\ bytes_ok v
  | BEndOfOptionList => o = mk OEnd (obody o)
  | BNoOperation => o = mk ONop (obody o)
  | BMaximumSegmentSize _ => o = mk OMss (obody o)
  | BWindowScale _ => o = mk OWs (obody o)
  | BSACKPermitted => o = mk OSackPerm (obody o)
  | BSACK _ => kind o = cls_kind OSack
  | BTimestamps _ _ => o = mk OTs (obody o)
  | BUserTimeout g u => o = mk OUto (obody o) /\ 0 <= g /\ 0 <= u < 32768
  | BAuthentication _ _ m => kind o = cls_kind OAuth /\ bytes_ok m
  end.

(** *** Parsing back *)

Lemma sack_blocks_snoc l r b b0 blocks :
  fpack (Format Big [Fi 4; Fi 4]) [VInt l; VInt r] = Ok b ->
  sack_blocks b0 = Ok blocks -> sack_blocks (b0 ++ b) = Ok (blocks ++ [(l, r)]).
Proof.
  intros Hb. pose proof (fpack_length _ _ _ Hb) as Lb. unfold fmt_size in Lb; cbn in Lb.
  do 8 (destruct b as [|? b]; [discriminate|]). destruct b; [|discriminate].
  revert b0 blocks. fix GO 1. intros [|c0 b0] blocks Hs.
  { cbn in Hs. injection Hs as <-. cbn [app sack_blocks]. fmt_eval.
    pose proof (unpack_from_pack0 _ _ _ [] Hb) as Hu. rewrite app_nil_r in Hu.
    rewrite Hu. reflexivity. }
  do 7 (destruct b0 as [|? b0]; [discriminate Hs|]). cbn [app sack_blocks] in *.
  destruct (unpack_from _ _ _) as [[|[?|?] [|[?|?] [|]]]|]; try discriminate.
  cbn [mbind res_bind] in *. destruct (sack_blocks b0) as [bs|] eqn:E; [|discriminate].
  cbn [mbind res_bind] in Hs. injection Hs as <-. rewrite (GO b0 bs E). reflexivity.
Qed.

Lemma sack_blocks_bytes blocks buf :
  sack_bytes blocks = Ok buf -> bytes_ok buf /\ sack_blocks buf = Ok blocks.
Proof.
  unfold sack_bytes. revert buf.
  induction blocks as [|[l r] blocks IH] using rev_ind; intros buf H.
  - injection H as <-. split; [constructor|done].
  - rewrite foldM_app in H. apply bind_Ok in H as (b0 & H0 & H). cbn [foldM] in H.
    apply bind_Ok in H as (b1 & H1 & [= <-]). apply bind_Ok in H1 as (b & Hb & [= <-]).
    destruct (IH _ H0) as [Bo Hs]. fmt_eval. split; [|by eapply sack_blocks_snoc].
    apply Forall_app. split; [done|]. eapply pack_codes_ok; [|exact Hb]. val_oks.
Qed.

(** The first byte selects the class. *)
Lemma parser_kind f k args w rest :
  fpack f (VInt k :: args) = Ok w ->
  f_order f = Big -> head (f_codes f) = Some (Fi 1) ->
  parser (w ++ rest)
  = match kinds k with Some c => parse c (w ++ rest) | None => parse_unknown (w ++ rest) end.
Proof.
  intros H Hb Hf. destruct f as [e cs]. cbn in Hb, Hf. subst e.
  destruct cs as [|c cs]; [done|]. injection Hf as ->.
  unfold fpack in H. cbn [f_codes f_order pack_codes encode] in H.
  destruct (in_width 1 k) eqn:Hk; [|done]. apply bind_Ok in H as (r & _ & [= <-]).
  unfold parser. fmt_eval.
  rewrite <- app_assoc, (unpack_from_pack0 _ [VInt k] (be_encode 1 k)); [done|].
  unfold fpack. cbn [f_codes f_order pack_codes encode]. rewrite Hk. cbn.
  by rewrite app_nil_r.
Qed.

Lemma wf_byte_fields g u : 0 <= g -> 0 <= u < 32768 ->
  Z.shiftr (Z.lor (Z.shiftl g 15) u) 15 = g /\ Z.land (Z.lor (Z.shiftl g 15) u) 0x7fff = u.
Proof.
  intros Hg Hu. rewrite lor_shiftl_add by lia.
  split; [apply shiftr_add; lia|apply (land_ones_add _ _ 15); lia].
Qed.

Lemma packed_front f k args w :
  fpack f (VInt k :: args) = Ok w ->
  head (f_codes f) = Some (Fi 1) -> Forall val_ok args -> w <> [] /\ bytes_ok w.
Proof.
  intros H Hf Ha. pose proof (fpack_length _ _ _ H) as Hl. split.
  - intros ->. unfold fmt_size in Hl. destruct (f_codes f); [done|]. injection Hf as ->.
    cbn in Hl. lia.
  - eapply pack_codes_ok; [|exact H]. by constructor.
Qed.

(** An option of fixed size: the class drops exactly the packed bytes. *)
Lemma fixed_option c f args b w rest :
  f_order f = Big -> head (f_codes f) = Some (Fi 1) -> Forall val_ok args ->
  fpack f (VInt (cls_kind c) :: args) = Ok w ->
  Z.of_nat (fmt_size f) = cls_length c -> kinds (cls_kind c) = Some c ->
  parse c (w ++ rest) = Ok (mk c b, from (w ++ rest) (cls_length c)) ->
  w <> [] /\ bytes_ok w /\ parser (w ++ rest) = Ok (mk c b, rest).
Proof.
  intros Ho Hf Ha H Hs Hk Hp. destruct (packed_front _ _ _ _ H Hf Ha) as [Hne Hok].
  split; [done|]. split; [done|].
  rewrite (parser_kind _ _ _ _ _ H Ho Hf), Hk, Hp. unfold from.
  rewrite drop_app_length'; [done|]. rewrite (fpack_length _ _ _ H). lia.
Qed.

(** An option that carries its own length: two or four fixed bytes and a value. *)
Lemma var_option f args h v rest n len :
  fpack f args = Ok h -> fmt_size f = Z.to_nat n -> 0 <= n ->
  len = n + Z.of_nat (length v) ->
  py_slice ((h ++ v) ++ rest) n len = v /\ from ((h ++ v) ++ rest) len = rest.
Proof.
  intros H Hs Hn ->. pose proof (fpack_length _ _ _ H) as Hl.
  unfold py_slice, from. split.
  - rewrite <- app_assoc, drop_app_length' by lia. apply take_app_length'. lia.
  - apply drop_app_length'. rewrite length_app. lia.
Qed.

Lemma var_front f k args h v rest :
  fpack f (VInt k :: args) = Ok h -> bytes_ok v ->
  f_order f = Big -> head (f_codes f) = Some (Fi 1) -> Forall val_ok args ->
  h ++ v <> [] /\ bytes_ok (h ++ v)
  /\ funpack_from f ((h ++ v) ++ rest) 0 = Ok (fit_args (f_codes f) (VInt k :: args))
  /\ parser ((h ++ v) ++ rest)
     = match kinds k with
       | Some c => parse c ((h ++ v) ++ rest)
       | None => parse_unknown ((h ++ v) ++ rest)
       end.
Proof.
  intros H Hv Ho Hf Ha. destruct (packed_front _ _ _ _ H Hf Ha) as [Hne Hok].
  split; [by intros [? ?]%app_eq_nil|]. split; [by apply Forall_app|].
  rewrite <- app_assoc. split; [by apply unpack_from_pack0|by eapply parser_kind].
Qed.

Ltac var_case H h v rest n :=
  apply bind_Ok in H as (h & H & [= <- <-]); fmt_eval;
  destruct (var_front _ _ _ h v rest H) as (Hne & Hok & Hu & Hp);
    [done|done|done|val_oks|];
  destruct (var_option _ _ h v rest n (n + Z.of_nat (length v)) H) as [E1 E2];
    [done|lia|reflexivity|];
  split; [exact Hne|]; split; [exact Hok|]; rewrite Hp.

Ltac fixed_case H w c :=
  apply bind_Ok in H as (w & H & [= <- <-]); fmt_eval;
  eapply (fixed_option c); [| | |exact H|done|done|]; [done|done|val_oks|];
  cbn [parse]; fmt_eval; try rewrite (unpack_from_pack0 _ _ _ _ H); try reflexivity.

Lemma option_parse_serialize o w o' rest :
  wf o -> serialize o = Ok (w, o') ->
  w <> [] /\ bytes_ok w /\ parser (w ++ rest) = Ok (o', rest).
Proof.
  intros Hwf H. unfold wf, serialize in *.
  destruct o as [k len b]. cbn [obody kind length_] in *.
  destruct b as [v| | |m|s| |bs|tv tr|g u|ki kr m].
  - destruct Hwf as [Hk Hv]. var_case H h v rest 2. rewrite Hk. unfold parse_unknown.
    fmt_eval. rewrite Hu. cbn [fit_args f_codes mbind res_bind]. by rewrite E1, E2.
  - injection Hwf as -> ->. fixed_case H h OEnd.
  - injection Hwf as -> ->. fixed_case H h ONop.
  - injection Hwf as -> ->. fixed_case H h OMss.
  - injection Hwf as -> ->. fixed_case H h OWs.
  - injection Hwf as -> ->. fixed_case H h OSackPerm.
  - apply bind_Ok in H as (v & Hv & H). apply sack_blocks_bytes in Hv as [Bv Hv].
    subst k. change (cls_length OSack) with 2 in *. var_case H h v rest 2. change (kinds (cls_kind OSack)) with (Some OSack).
    cbn [parse]. fmt_eval. rewrite Hu. cbn [fit_args f_codes mbind res_bind].
    rewrite E1, E2. by rewrite Hv.
  - injection Hwf as -> ->. fixed_case H h OTs.
  - destruct Hwf as (Hwf & Hg & Hu). injection Hwf as -> ->. fixed_case H h OUto.
    cbn [fit_args f_codes mbind res_bind].
    by destruct (wf_byte_fields g u Hg Hu) as [-> ->].
  - destruct Hwf as [-> Hm]. change (cls_length OAuth) with 4 in *. var_case H h m rest 4.
    change (kinds (cls_kind OAuth)) with (Some OAuth). cbn [parse]. fmt_eval.
    rewrite Hu. cbn [fit_args f_codes mbind res_bind]. by rewrite E1, E2.
Qed.
End TcpOption.

(** ** TCP *)

Module Tcp.
Import TcpOption.

Inductive toption := TNone | TList (l : list opt) | TRaw (b : bytes).

Record tcp := Mk {
  src_port : Z; dst_port : Z; seq : Z; ack : Z; offset : Z; bits : Z; window_size : Z;
  csum : Z; urgent : Z; option_ : toption }.

Definition _PACK_STR : string := "!HHIIBBHHH".
Definition _MIN_LEN : Z := Z.of_nat (calcsize _PACK_STR).

(** The option loop; [None] when it has not ended after [fuel] iterations. *)
Fixpoint parse_options (fuel : nat) (buf : bytes) (acc : list opt) :
    option (res (list opt)) :=
  match fuel with
  | O => None
  | S fuel =>
      match buf with
      | [] => Some (Ok acc)
      | _ => match TcpOption.parser buf with
             | Ok (o, buf) => parse_options fuel buf (acc ++ [o])
             | Err x => Some (Err x)
             end
      end
  end.

Definition parser (fuel : nat) (buf : bytes) : option (res (tcp * option pcls * bytes)) :=
  match unpack_from _PACK_STR buf 0 with
  | Err x => Some (Err x)
  | Ok [VInt sp; VInt dp; VInt seq; VInt ack; VInt offset; VInt bits; VInt win; VInt cs;
        VInt urg] =>
      let offset := Z.shiftr offset 4 in
      let bits := Z.land bits 0x3f in
      let len := offset * 4 in
      let finish o := Some (Ok (Mk sp dp seq ack offset bits win cs urg o, None, from buf len)) in
      if _MIN_LEN <? len then
        let option_buf := py_slice buf _MIN_LEN len in
        match parse_options fuel option_buf [] with
        | None => None
        | Some (Ok l) => finish (TList l)
        | Some (Err StructError) => finish (TRaw option_buf)
        | Some (Err x) => Some (Err x)
        end
      else finish TNone
  | Ok _ => Some (Err ValueError)
  end.

Fixpoint serialize_options (l : list opt) : res (bytes * list opt) :=
  match l with
  | [] => Ok ([], [])
  | o :: l =>
      '(w, o') ← TcpOption.serialize o;
      '(ws, l') ← serialize_options l;
      Ok (w ++ ws, o' :: l')
  end.

(** The options behind the fixed header, padded to a multiple of four and, when a
    data offset is given, up to it. *)
Definition pad_options (w opts : bytes) (offset : Z) : bytes :=
  let w := w ++ opts in
  let mod_ := (length opts mod 4)%nat in
  let w := if (mod_ =? 0)%nat then w else w ++ replicate (4 - mod_) 0 in
  if offset =? 0 then w
  else let off := Z.shiftl offset 2 in
       if Z.of_nat (length w) <? off
       then w ++ replicate (Z.to_nat (off - Z.of_nat (length w))) 0 else w.

Section Serialize.
Context `{C : AddrConv} (e : endian).

Definition serialize (h : tcp) (payload : bytes) (prev : option outer) :
    res (bytes * tcp) :=
  w ← pack _PACK_STR
    [VInt (src_port h); VInt (dst_port h); VInt (seq h); VInt (ack h);
     VInt (Z.shiftl (offset h) 4); VInt (bits h); VInt (window_size h); VInt (csum h);
     VInt (urgent h)];
  '(w, opts) ←
    match option_ h with
    | TList (o :: l) =>
        '(buf, l') ← serialize_options (o :: l);
        Ok (pad_options w buf (offset h), TList l')
    | TRaw (b :: bs) => Ok (pad_options w (b :: bs) (offset h), TRaw (b :: bs))
    | o => Ok (w, o)
    end;
  '(w, offset) ←
    (if 0 =? offset h then
       let offset := Z.shiftr (Z.of_nat (length w)) 2 in
       w ← pack_into "!B" w 12 [VInt (Z.shiftl offset 4)];
       Ok (w, offset)
     else Ok (w, offset h));
  '(w, cs) ←
    (if csum h =? 0 then
       let total_length := Z.of_nat (length w + length payload) in
       prev ← attr prev;
       cs ← checksum_ip e prev total_length (w ++ payload);
       w ← pack_into "!H" w 16 [VInt cs];
       Ok (w, cs)
     else Ok (w, csum h));
  Ok (w, Mk (src_port h) (dst_port h) (seq h) (ack h) offset (bits h) (window_size h) cs
            (urgent h) opts).

End Serialize.

(** *** Options *)

Definition END : opt := mk OEnd BEndOfOptionList.

Lemma parse_zero rest : TcpOption.parser (0 :: rest) = Ok (END, rest).
Proof.
  unfold TcpOption.parser. fmt_eval.
  assert (funpack_from (Format Big [Fi 1]) (0 :: rest) 0 = Ok [VInt 0]) as -> by done.
  done.
Qed.

Lemma parse_padding fuel n acc :
  (n < fuel)%nat -> parse_options fuel (replicate n 0) acc = Some (Ok (acc ++ replicate n END)).
Proof.
  revert fuel acc. induction n as [|n IH]; intros [|fuel] acc Hf; try lia;
    cbn [replicate parse_options].
  - by rewrite app_nil_r.
  - rewrite parse_zero, IH by lia. by rewrite <- app_assoc.
Qed.

Lemma parse_options_step fuel buf acc :
  buf <> [] ->
  parse_options (S fuel) buf acc =
  match TcpOption.parser buf with
  | Ok (o, buf) => parse_options fuel buf (acc ++ [o])
  | Err x => Some (Err x)
  end.
Proof. by destruct buf. Qed.

Lemma options_parse_serialize l w l' fuel n acc :
  Forall TcpOption.wf l -> serialize_options l = Ok (w, l') ->
  (length w + n < fuel)%nat ->
  bytes_ok w
  /\ parse_options fuel (w ++ replicate n 0) acc = Some (Ok (acc ++ l' ++ replicate n END)).
Proof.
  intros Hl. revert w l' fuel acc. induction Hl as [|o l Ho _ IH]; intros w l' fuel acc H Hf.
  - injection H as <- <-. split; [constructor|]. apply parse_padding. simpl in Hf. lia.
  - cbn [serialize_options] in H. apply bind_Ok in H as ([w1 o'] & H1 & H).
    apply bind_Ok in H as ([ws l1] & H2 & [= <- <-]).
    rewrite length_app in Hf. rewrite <- app_assoc.
    destruct (option_parse_serialize o w1 o' (ws ++ replicate n 0) Ho H1)
      as (Hne & Hok & Hp).
    destruct fuel as [|fuel]; [lia|].
    assert (0 < length w1)%nat by (destruct w1; [done|simpl; lia]).
    destruct (IH ws l1 fuel (acc ++ [o']) H2 ltac:(lia)) as [Hb Hr].
    split; [by apply Forall_app|].
    rewrite parse_options_step, Hp, Hr by (by intros [? _]%app_eq_nil).
    by rewrite <- app_assoc.
Qed.

(** *** The fixed header *)

Definition fmt20 : format :=
  Format Big [Fi 2; Fi 2; Fi 4; Fi 4; Fi 1; Fi 1; Fi 2; Fi 2; Fi 2].

Definition fixed_args (h : tcp) (off cs : Z) : list pyval :=
  [VInt (src_port h); VInt (dst_port h); VInt (seq h); VInt (ack h); VInt off;
   VInt (bits h); VInt (window_size h); VInt cs; VInt (urgent h)].

Lemma fixed_layout h w :
  fpack fmt20 (fixed_args h 0 0) = Ok w ->
  exists A B U, length A = 12%nat /\ length B = 3%nat /\ length U = 2%nat
    /\ bytes_ok A /\ bytes_ok B /\ bytes_ok U /\ w = A ++ [0] ++ B ++ [0; 0] ++ U
    /\ forall off cs, 0 <= off < 256 -> 0 <= cs < 65536 ->
       fpack fmt20 (fixed_args h off cs)
       = Ok (A ++ be_encode 1 off ++ B ++ be_encode 2 cs ++ U).
Proof.
  unfold fpack, fixed_args, fmt20. cbn [f_codes f_order pack_codes encode].
  change (in_width 2 0) with true. change (be_encode 2 0) with [0; 0].
  change (in_width 1 0) with true. change (be_encode 1 0) with [0].
  destruct (in_width 2 (src_port h)), (in_width 2 (dst_port h)), (in_width 4 (seq h)),
    (in_width 4 (ack h)), (in_width 1 (bits h)), (in_width 2 (window_size h)),
    (in_width 2 (urgent h)); cbn [mbind res_bind]; try discriminate. intros [= <-].
  exists (be_encode 2 (src_port h) ++ be_encode 2 (dst_port h) ++ be_encode 4 (seq h)
          ++ be_encode 4 (ack h)),
    (be_encode 1 (bits h) ++ be_encode 2 (window_size h)), (be_encode 2 (urgent h)).
  do 3 (split; [by rewrite ?length_app, !be_encode_length|]).
  do 3 (split; [auto 20 with beba|]).
  split; [by rewrite <- ?app_assoc, ?app_nil_r|]. intros off cs Ho Hc.
  rewrite in_width_1, in_width_2 by done. cbn [mbind res_bind].
  by rewrite <- ?app_assoc, ?app_nil_r.
Qed.

(** Overwriting inside a buffer. *)
Lemma fpack_into_at f pre old post args bs :
  fpack f args = Ok bs -> length old = fmt_size f ->
  fpack_into f (pre ++ old ++ post) (length pre) args = Ok (pre ++ bs ++ post).
Proof.
  intros H Ho. unfold fpack_into. rewrite H. cbn [mbind res_bind].
  rewrite (proj2 (Nat.leb_le _ _)) by (rewrite !length_app; lia).
  rewrite take_app_length, (app_assoc pre old), drop_app_length'; [done|].
  rewrite length_app. lia.
Qed.

Lemma fpack_into_inv f pre old post args r :
  fpack_into f (pre ++ old ++ post) (length pre) args = Ok r -> length old = fmt_size f ->
  exists bs, fpack f args = Ok bs /\ r = pre ++ bs ++ post.
Proof.
  intros H Ho. destruct (fpack f args) as [bs|] eqn:E.
  - exists bs. split; [done|]. rewrite (fpack_into_at f pre old post args bs E Ho) in H.
    by injection H as <-.
  - unfold fpack_into in H. by rewrite E in H.
Qed.

Lemma fpack_1 z bs :
  fpack (Format Big [Fi 1]) [VInt z] = Ok bs -> 0 <= z < 256 /\ bs = be_encode 1 z.
Proof.
  unfold fpack. cbn [f_codes f_order pack_codes encode].
  destruct (in_width 1 z) eqn:E; [|done]. intros [= <-].
  split; [by apply in_width_iff in E|by rewrite app_nil_r].
Qed.

Lemma fpack_2 z bs :
  fpack (Format Big [Fi 2]) [VInt z] = Ok bs -> 0 <= z < 65536 /\ bs = be_encode 2 z.
Proof.
  unfold fpack. cbn [f_codes f_order pack_codes encode].
  destruct (in_width 2 z) eqn:E; [|done]. intros [= <-].
  split; [by apply in_width_iff in E|by rewrite app_nil_r].
Qed.

(** *** The whole header *)

Definition pad_len (buf : bytes) : nat :=
  let m := (length buf mod 4)%nat in if (m =? 0)%nat then 0%nat else (4 - m)%nat.

Lemma pad_options_auto w buf :
  pad_options w buf 0 = w ++ buf ++ replicate (pad_len buf) 0.
Proof.
  unfold pad_options, pad_len. cbn. destruct (_ =? 0)%nat; cbn [replicate].
  - by rewrite app_nil_r.
  - by rewrite <- app_assoc.
Qed.

Lemma pad_len_aligned buf : ((length buf + pad_len buf) mod 4 = 0)%nat.
Proof.
  unfold pad_len. pose proof (Nat.div_mod (length buf) 4 ltac:(lia)).
  pose proof (Nat.mod_upper_bound (length buf) 4 ltac:(lia)).
  destruct (Nat.eqb_spec (length buf mod 4) 0); [by rewrite Nat.add_0_r|].
  replace (length buf + (4 - length buf mod 4))%nat
    with ((length buf / 4 + 1) * 4)%nat by lia. apply Nat.Div0.mod_mul.
Qed.

Section Roundtrip.
Context `{C : AddrConv} `{!AddrConvLaws C} (e : endian).

Definition opts_of (o : toption) : list opt := match o with TList l => l | _ => [] end.

(** Data offset and checksum are left to the code; the options are a list that
    can be built, or none. *)
Definition auto_wf (h : tcp) (payload : bytes) : Prop :=
  offset h = 0 /\ csum h = 0 /\ 0 <= bits h < 64
  /\ (option_ h = TNone \/ exists l, option_ h = TList l /\ l <> [])
  /\ Forall TcpOption.wf (opts_of (option_ h))
  /\ bytes_ok payload /\ Z.of_nat (length payload) <= 65535.

(** The header before offset and checksum are filled in. *)
Lemma serialize_front h payload prev w h' :
  auto_wf h payload -> serialize e h payload prev = Ok (w, h') ->
  exists w0 buf l',
    fpack fmt20 (fixed_args h 0 0) = Ok w0
    /\ serialize_options (opts_of (option_ h)) = Ok (buf, l')
    /\ (option_ h = TNone /\ option_ h' = TNone
        \/ (exists l, option_ h = TList l /\ l <> []) /\ option_ h' = TList l')
    /\ let w1 := w0 ++ buf ++ replicate (pad_len buf) 0 in
       exists w2 p,
       fpack_into (Format Big [Fi 1]) w1 12 [VInt (Z.shiftl (offset h') 4)] = Ok w2
       /\ offset h' = Z.shiftr (Z.of_nat (length w1)) 2 /\ prev = Some p
       /\ checksum_ip e p (Z.of_nat (length w2 + length payload)) (w2 ++ payload)
          = Ok (csum h')
       /\ fpack_into (Format Big [Fi 2]) w2 16 [VInt (csum h')] = Ok w
       /\ h' = Mk (src_port h) (dst_port h) (seq h) (ack h) (offset h') (bits h)
                  (window_size h) (csum h') (urgent h) (option_ h').
Proof.
  intros (Ho & Hc & _ & Hopt & _) H. unfold serialize in H. rewrite Ho, Hc in H.
  apply bind_Ok in H as (w0 & H0 & H). apply bind_Ok in H as ([w1 o1] & H1 & H).
  apply bind_Ok in H as ([w2 off] & H2 & H). apply bind_Ok in H as ([w3 cs] & H3 & H).
  injection H as <- <-. cbn [Z.eqb] in H2, H3.
  apply bind_Ok in H2 as (w2' & H2 & [= -> <-]). apply bind_Ok in H3 as (p & Hp & H3).
  apply bind_Ok in H3 as (cs' & Hcs & H3). apply bind_Ok in H3 as (w3' & H3 & [= -> ->]).
  fmt_eval. change (Z.shiftl 0 4) with 0 in H0. fold fmt20 (fixed_args h 0 0) in H0.
  assert (Hprev : prev = Some p) by (destruct prev; [by injection Hp as ->|done]).
  destruct Hopt as [En|(l & El & Hl)].
  - rewrite En in *. injection H1 as <- <-. exists w0, [], []. repeat split; try done.
    { left. done. }
    cbn [app replicate pad_len length]. change (pad_len []) with 0%nat.
    cbn [replicate]. rewrite app_nil_r. by exists w2, p.
  - rewrite El in *. destruct l as [|o l]; [done|].
    apply bind_Ok in H1 as ([buf l'] & H1 & [= <- <-]). rewrite pad_options_auto in *.
    exists w0, buf, l'. repeat split; try done; [right; split; [by eexists|done]|].
    by exists w2, p.
Qed.

Lemma padded_words buf off :
  off = Z.shiftr (Z.of_nat (20 + length (buf ++ replicate (pad_len buf) 0))) 2 ->
  Z.of_nat (20 + length (buf ++ replicate (pad_len buf) 0)) = off * 4.
Proof.
  intros ->. pose proof (pad_len_aligned buf) as Ha. apply Nat.Div0.mod_divides in Ha as [q Hq].
  rewrite length_app, length_replicate, Hq. rewrite Z.shiftr_div_pow2 by lia.
  change (2 ^ 2) with 4. replace (Z.of_nat (20 + 4 * q)) with ((5 + Z.of_nat q) * 4) by lia.
  by rewrite Z.div_mul by lia.
Qed.

(** Writing the data offset and then the checksum into the packed header. *)
Lemma fill_fields h h' payload p w0 tail w2 w :
  fpack fmt20 (fixed_args h 0 0) = Ok w0 -> bytes_ok tail -> bytes_ok payload ->
  Z.of_nat (20 + length tail + length payload) <= 131030 ->
  fpack_into (Format Big [Fi 1]) (w0 ++ tail) 12 [VInt (Z.shiftl (offset h') 4)] = Ok w2 ->
  checksum_ip e p (Z.of_nat (length w2 + length payload)) (w2 ++ payload) = Ok (csum h') ->
  fpack_into (Format Big [Fi 2]) w2 16 [VInt (csum h')] = Ok w ->
  exists fixed,
    fpack fmt20 (fixed_args h (Z.shiftl (offset h') 4) (csum h')) = Ok fixed
    /\ w = fixed ++ tail
    /\ checksum_ip e p (Z.of_nat (length (w ++ payload))) (w ++ payload) = Ok 0.
Proof.
  intros H0 Bt Bp Hlen H2 Hcs H3.
  destruct (fixed_layout h w0 H0) as (A & B & U & LA & LB & LU & BA & BB & BU & -> & Hfix).
  rewrite <- !app_assoc, <- LA in H2.
  apply fpack_into_inv in H2 as (b1 & Hb1 & ->); [|done]. apply fpack_1 in Hb1 as [Ho ->].
  set (A' := A ++ be_encode 1 (Z.shiftl (offset h') 4) ++ B).
  assert (LA' : length A' = 16%nat)
    by (unfold A'; rewrite !length_app, be_encode_length, LA, LB; done).
  assert (E2 : A ++ be_encode 1 (Z.shiftl (offset h') 4) ++ B ++ [0; 0] ++ U ++ tail
               = A' ++ [0; 0] ++ U ++ tail) by (unfold A'; by rewrite <- !app_assoc).
  rewrite E2 in *. rewrite <- LA' in H3.
  apply fpack_into_inv in H3 as (b2 & Hb2 & ->); [|done]. apply fpack_2 in Hb2 as [Hc ->].
  rewrite <- !app_assoc in Hcs.
  destruct (fun H1 H2 H3 H4 =>
    checksum_ip_inserted e p _ A' (U ++ tail ++ payload) (csum h') H1 H2 H3 H4 Hcs) as [_ Hv].
  { by rewrite LA'. }
  { unfold A'. rewrite !Forall_app. repeat split; try done. apply be_encode_ok. }
  { by rewrite !Forall_app. }
  { rewrite !length_app, LA', LU. cbn [length]. lia. }
  exists (A' ++ be_encode 2 (csum h') ++ U). split; [|split].
  - rewrite Hfix by done. unfold A'. by rewrite <- !app_assoc.
  - by rewrite <- !app_assoc.
  - rewrite <- !app_assoc. rewrite <- Hv. f_equal.
    rewrite !length_app, be_encode_length. cbn [length]. lia.
Qed.

(** The serialized header: its parts, its length and its checksum. *)
Lemma tcp_serialize_layout h payload prev w h' :
  auto_wf h payload -> serialize e h payload prev = Ok (w, h') ->
  exists fixed buf l' p,
    serialize_options (opts_of (option_ h)) = Ok (buf, l')
    /\ (option_ h = TNone /\ option_ h' = TNone
        \/ (exists l, option_ h = TList l /\ l <> []) /\ option_ h' = TList l')
    /\ h' = Mk (src_port h) (dst_port h) (seq h) (ack h) (offset h') (bits h)
              (window_size h) (csum h') (urgent h) (option_ h')
    /\ prev = Some p
    /\ fpack fmt20 (fixed_args h (Z.shiftl (offset h') 4) (csum h')) = Ok fixed
    /\ w = fixed ++ buf ++ replicate (pad_len buf) 0
    /\ Z.of_nat (length w) = offset h' * 4
    /\ checksum_ip e p (Z.of_nat (length (w ++ payload))) (w ++ payload) = Ok 0.
Proof.
  intros Hwf H. destruct (serialize_front _ _ _ _ _ Hwf H)
    as (w0 & buf & l' & H0 & Hb & Hopt & w2 & p & H2 & Hoff & Hp & Hcs & H3 & Hh).
  destruct Hwf as (_ & _ & _ & _ & Hwfo & Bp & Lp).
  destruct (options_parse_serialize _ _ _ (S (length buf)) 0 [] Hwfo Hb ltac:(lia))
    as [Bbuf _].
  pose proof (fpack_length _ _ _ H0) as L0. change (fmt_size fmt20) with 20%nat in L0.
  rewrite length_app, L0 in Hoff. apply padded_words in Hoff.
  set (tail := buf ++ replicate (pad_len buf) 0) in *.
  assert (Btail : bytes_ok tail).
  { apply Forall_app. split; [done|]. apply Forall_replicate. unfold byte_ok. lia. }
  assert (offset h' * 16 < 256).
  { pose proof H2 as H2'. unfold fpack_into in H2'. apply bind_Ok in H2' as (b & Hb1 & _).
    apply fpack_1 in Hb1 as [Hb1 _]. rewrite Z.shiftl_mul_pow2 in Hb1 by lia. lia. }
  destruct (fill_fields h h' payload p w0 tail w2 w H0 Btail Bp) as (fixed & Hf & -> & Hv);
    [lia|done..|].
  pose proof (fpack_length _ _ _ Hf) as Lf. change (fmt_size fmt20) with 20%nat in Lf.
  exists fixed, buf, l', p. repeat split; try done. rewrite length_app. lia.
Qed.

Lemma offset_bits h off : 0 <= bits h < 64 ->
  Z.shiftr (Z.shiftl off 4) 4 = off /\ Z.land (bits h) 0x3f = bits h.
Proof.
  intros Hb. split.
  - rewrite Z.shiftr_shiftl_l by lia. by rewrite Z.shiftl_0_r.
  - change 0x3f with (Z.ones 6). rewrite Z.land_ones by lia. by apply Z.mod_small.
Qed.

Lemma options_nonempty l w l' :
  Forall TcpOption.wf l -> l <> [] -> serialize_options l = Ok (w, l') -> w <> [].
Proof.
  intros Hl Hne H. destruct Hl as [|o l Ho Hl]; [done|]. cbn in H.
  apply bind_Ok in H as ([w1 o'] & H1 & H). apply bind_Ok in H as ([ws l1] & _ & [= <- <-]).
  destruct (option_parse_serialize o w1 o' [] Ho H1) as (Hw & _).
  by intros [? _]%app_eq_nil.
Qed.

(** The options as the parser gives them back: one end-of-list option for every
    padding byte. *)
Definition parsed_option (h' : tcp) (buf : bytes) : toption :=
  match option_ h' with
  | TList l => TList (l ++ replicate (pad_len buf) END)
  | o => o
  end.

Definition with_option (h : tcp) (o : toption) : tcp :=
  Mk (src_port h) (dst_port h) (seq h) (ack h) (offset h) (bits h) (window_size h) (csum h)
     (urgent h) o.

Lemma tcp_parse_serialize h payload prev w h' fuel :
  auto_wf h payload -> serialize e h payload prev = Ok (w, h') -> (length w < fuel)%nat ->
  exists buf l', serialize_options (opts_of (option_ h)) = Ok (buf, l')
    /\ parser fuel (w ++ payload)
       = Some (Ok (with_option h' (parsed_option h' buf), None, payload)).
Proof.
  intros Hwf H Hf. destruct (tcp_serialize_layout _ _ _ _ _ Hwf H)
    as (fixed & buf & l' & p & Hs & Hopt & Hh & _ & Hfix & -> & Lw & _).
  destruct Hwf as (_ & _ & Hbits & _ & Hwfo & _). exists buf, l'. split; [done|].
  pose proof (fpack_length _ _ _ Hfix) as Lf. change (fmt_size fmt20) with 20%nat in Lf.
  destruct (offset_bits h (offset h') Hbits) as [Eo Eb].
  unfold parser. change _MIN_LEN with 20. fmt_eval. fold fmt20. rewrite <- !app_assoc.
  rewrite (unpack_from_pack0 _ _ _ _ Hfix). cbn [fit_args f_codes fmt20 fixed_args].
  rewrite Eo, Eb, <- Lw. set (zs := replicate (pad_len buf) 0) in *.
  assert (Lz : length zs = pad_len buf) by apply length_replicate.
  rewrite !length_app in *. unfold from.
  replace (drop (Z.to_nat (Z.of_nat (length fixed + (length buf + length zs))))
             (fixed ++ buf ++ zs ++ payload)) with payload
    by (rewrite !app_assoc, drop_app_length'; [done|rewrite !length_app; lia]).
  destruct Hopt as [[En En']|[(l & El & Hne) En']].
  - rewrite En in Hs. injection Hs as <- <-. rewrite Lz, Lf. cbn.
    rewrite Hh. unfold with_option, parsed_option. cbn. rewrite En'. done.
  - rewrite El in *. assert (Hbuf : buf <> []) by (by eapply options_nonempty).
    assert (0 < length buf)%nat by (destruct buf; [done|simpl; lia]).
    rewrite (proj2 (Z.ltb_lt _ _)) by lia.
    assert (py_slice (fixed ++ buf ++ zs ++ payload) 20
              (Z.of_nat (length fixed + (length buf + length zs))) = buf ++ zs) as ->.
    { unfold py_slice. rewrite drop_app_length' by lia.
      rewrite app_assoc. apply take_app_length'. rewrite length_app. lia. }
    destruct (options_parse_serialize _ _ _ fuel (pad_len buf) [] Hwfo Hs ltac:(lia))
      as [_ Hpo]. fold zs in Hpo. rewrite Hpo.
    rewrite Hh. unfold with_option, parsed_option. cbn. by rewrite En'.
Qed.

End Roundtrip.
End Tcp.

(** ** Claims *)

Module PktTransportClaims.

(** A UDP datagram: parsing the serialized header, the payload and any padding
    gives the completed header, the class its ports select and exactly the
    payload, and a checksum that was left to the code is valid over the pseudo
    header of the outer header. *)
Theorem udp_roundtrip `{C : AddrConv} `{!AddrConvLaws C} (e : endian)
    (h h' : Udp.udp) (payload w padding : bytes) (prev : option outer) :
  bytes_ok payload -> Z.of_nat (length payload) <= 65527 ->
  (Udp.total_length h = 0 \/ Udp.total_length h = 8 + Z.of_nat (length payload)) ->
  Udp.serialize e h payload prev = Ok (w, h') ->
  Udp.parser (w ++ payload ++ padding)
    = Ok (h', Udp.get_packet_type (Udp.src_port h) (Udp.dst_port h), payload)
  /\ (Udp.csum h = 0 -> exists p, prev = Some p
        /\ checksum_ip e p (Udp.total_length h') (w ++ payload) = Ok 0).
Proof.
  intros Bp Lp Ht H.
  destruct (Udp.udp_serialize_spec e _ _ _ _ _ Bp Lp Ht H) as (El & Es & Ed & Hp & _ & Hc).
  split; [|done]. rewrite (Udp.parse_packed h _ (Udp.csum h') w payload padding El Hp).
  rewrite <- Es, <- Ed. by destruct h'.
Qed.

Definition ip_outer : outer :=
  Outer (Some 4) (Some PktHeadersClaims.ip1) (Some PktHeadersClaims.ip2) (Some 17) None.

Lemma udp_roundtrip_witness :
  exists w h', Udp.serialize (C := RawConv.conv) Little (Udp.Mk 68 67 0 0) [1; 2; 3]
                 (Some ip_outer) = Ok (w, h')
    /\ Udp.parser (w ++ [1; 2; 3] ++ [0]) = Ok (h', Some Cdhcp, [1; 2; 3]).
Proof.
  destruct (Udp.serialize (C := RawConv.conv) Little (Udp.Mk 68 67 0 0) [1; 2; 3]
              (Some ip_outer)) as [[w h']|?] eqn:E; [|vm_compute in E; discriminate].
  exists w, h'. split; [reflexivity|].
  apply (udp_roundtrip (C := RawConv.conv) (AddrConvLaws0 := RawConv.laws) Little
           (Udp.Mk 68 67 0 0) h' [1; 2; 3] w [0] (Some ip_outer));
    [solve_bytes_ok|cbn; lia|left; reflexivity|exact E].
Defined.

(** An ICMP message with a payload object of the class of its type is parsed back
    to the header the serializer left, and a checksum left to the code is valid. *)
Theorem icmp_roundtrip (e : endian) (h h' : Icmp.icmp) (w : bytes) :
  Icmp.wf h -> Z.of_nat (length w) <= 131070 -> Icmp.serialize e h = Ok (w, h') ->
  Icmp.parser w = Ok (h', None, None)
  /\ h' = Icmp.Mk (Icmp.type_ h) (Icmp.code h) (Icmp.csum h') (Icmp.data h)
  /\ (Icmp.csum h = 0 -> checksum e w = 0).
Proof.
  intros Hwf Hl H. destruct (Icmp.icmp_serialize_spec e _ _ _ Hwf Hl H) as (H1 & _ & H2 & H3).
  done.
Qed.

Lemma icmp_roundtrip_witness :
  exists w h', Icmp.serialize Big (Icmp.Mk 8 0 0 (Some (Icmp.Echo 1 2 (Some [5; 6; 7]))))
               = Ok (w, h') /\ Icmp.parser w = Ok (h', None, None).
Proof.
  destruct (Icmp.serialize Big (Icmp.Mk 8 0 0 (Some (Icmp.Echo 1 2 (Some [5; 6; 7])))))
    as [[w h']|?] eqn:E; [|vm_compute in E; discriminate].
  exists w, h'. split; [reflexivity|].
  apply (icmp_roundtrip Big (Icmp.Mk 8 0 0 (Some (Icmp.Echo 1 2 (Some [5; 6; 7]))))).
  - split; [discriminate|solve_bytes_ok].
  - vm_compute in E. injection E as <- _. vm_compute. discriminate.
  - exact E.
Defined.

(** C38: A TCP segment whose data offset and checksum are left to the code: the
    header has the announced length and a valid checksum, and parsing it with the
    payload behind it gives the completed header, its options followed by one
    end-of-list option per padding byte, and the payload. *)
Theorem tcp_roundtrip `{C : AddrConv} `{!AddrConvLaws C} (e : endian)
    (h h' : Tcp.tcp) (payload w : bytes) (prev : option outer) (fuel : nat) :
  Tcp.auto_wf h payload -> Tcp.serialize e h payload prev = Ok (w, h') ->
  (length w < fuel)%nat ->
  Z.of_nat (length w) = Tcp.offset h' * 4
  /\ (exists p, prev = Some p
       /\ checksum_ip e p (Z.of_nat (length (w ++ payload))) (w ++ payload) = Ok 0)
  /\ exists buf l', Tcp.serialize_options (Tcp.opts_of (Tcp.option_ h)) = Ok (buf, l')
     /\ Tcp.parser fuel (w ++ payload)
        = Some (Ok (Tcp.with_option h' (Tcp.parsed_option h' buf), None, payload)).
Proof.
  intros Hwf H Hf. destruct (Tcp.tcp_serialize_layout e _ _ _ _ _ Hwf H)
    as (_ & _ & _ & p & _ & _ & _ & Hp & _ & _ & Hl & Hc).
  split; [done|]. split; [by exists p|]. by eapply Tcp.tcp_parse_serialize.
Qed.

Definition sample_tcp : Tcp.tcp :=
  Tcp.Mk 1000 80 5 6 0 18 512 0 0
    (Tcp.TList [TcpOption.mk TcpOption.OMss (TcpOption.BMaximumSegmentSize 1460);
                TcpOption.mk TcpOption.OWs (TcpOption.BWindowScale 7)]).

Lemma tcp_roundtrip_witness :
  exists w h', Tcp.serialize (C := RawConv.conv) Little sample_tcp [1; 2; 3] (Some ip_outer)
               = Ok (w, h')
    /\ Z.of_nat (length w) = Tcp.offset h' * 4.
Proof.
  destruct (Tcp.serialize (C := RawConv.conv) Little sample_tcp [1; 2; 3] (Some ip_outer))
    as [[w h']|?] eqn:E; [|vm_compute in E; discriminate].
  exists w, h'. split; [reflexivity|].
  apply (tcp_roundtrip (C := RawConv.conv) (AddrConvLaws0 := RawConv.laws) Little sample_tcp
           h' [1; 2; 3] w (Some ip_outer) (S (length w))); [|exact E|lia].
  unfold Tcp.auto_wf, sample_tcp.
  cbn [Tcp.offset Tcp.csum Tcp.bits Tcp.option_ Tcp.opts_of].
  split; [reflexivity|]. split; [reflexivity|]. split; [lia|].
  split; [right; eexists; split; [reflexivity|discriminate]|].
  split; [repeat first [apply Forall_nil_2 | apply Forall_cons_2]; reflexivity|].
  split; [solve_bytes_ok|cbn; lia].
Defined.

(** An option of length zero never ends the option loop: whatever follows it, a
    segment whose options start with an unregistered kind, or with a SACK option,
    of length zero keeps the parser running for every number of iterations. *)
Theorem zero_length_option_diverges (k : Z) (rest : bytes) (fuel : nat) :
  0 <= k < 256 -> (TcpOption.kinds k = None \/ k = TcpOption.cls_kind TcpOption.OSack) ->
  Tcp.parse_options fuel (k :: 0 :: rest) [] = None.
Proof.
  intros Hk Hc. generalize (@nil TcpOption.opt).
  induction fuel as [|fuel IH]; intros acc; [done|].
  assert (Hp : fpack (Format Big [Fi 1; Fi 1]) [VInt k; VInt 0] = Ok [k; 0]).
  { unfold fpack. cbn [f_codes f_order pack_codes encode]. rewrite !in_width_1 by lia.
    cbn [mbind res_bind]. rewrite be_encode_1 by (by apply in_width_1). done. }
  assert (exists o, TcpOption.parser (k :: 0 :: rest) = Ok (o, k :: 0 :: rest)) as [o Ho].
  { change (k :: 0 :: rest) with ([k; 0] ++ rest).
    rewrite (TcpOption.parser_kind _ _ _ _ _ Hp) by done.
    destruct Hc as [-> | ->].
    - unfold TcpOption.parse_unknown. fmt_eval. rewrite (unpack_from_pack0 _ _ _ _ Hp).
      by eexists.
    - change (TcpOption.kinds _) with (Some TcpOption.OSack). cbn [TcpOption.parse].
      fmt_eval. rewrite (unpack_from_pack0 _ _ _ _ Hp). by eexists. }
  rewrite Tcp.parse_options_step, Ho by done. apply IH.
Qed.

Lemma zero_length_option_diverges_witness :
  Tcp.parse_options 1000 [254; 0; 1; 1] [] = None.
Proof.
  apply (zero_length_option_diverges 254 [1; 1] 1000); [lia|]. left. vm_compute. reflexivity.
Defined.

End PktTransportClaims.
