(* ===== verification/Packet.v ===== *)
(** * Packets (ryu/lib/packet/packet.py)

    [Packet]: the decoder that walks from header class to header class and the
    encoder that serializes the headers from the innermost outwards.  The header
    classes that have no model of their own take part through the record
    [Others], which says what their methods do. *)

From Stdlib Require Import ZArith Lia.
From stdpp Require Import base list gmap strings numbers.
From S2P Require Import Prelude Struct PktUtils PktHeaders PktTransport.

(** The methods of the header classes modelled elsewhere or not at all. *)
Record Others := MkOthers {
  obj : Type;
  other_parser : pcls -> bytes -> option (res (obj * option pcls * option bytes));
  other_serialize : obj -> bytes -> option outer -> res (bytes * obj);
  other_len : obj -> res Z;
  other_cls : obj -> pcls;
  other_outer : obj -> outer }.

Section Packet.
Context `{C : AddrConv} (e : endian) (X : Others).

Inductive proto :=
  | Peth (h : Ethernet.ethernet)
  | Pvlan (h : Vlan.tag)
  | Psvlan (h : Vlan.tag)
  | Pitag (h : Itag.itag)
  | Pmpls (h : Mpls.mpls)
  | Parp (h : Arp.arp)
  | Pipv4 (h : Ipv4.ipv4)
  | Pudp (h : Udp.udp)
  | Ptcp (h : Tcp.tcp)
  | Picmp (h : Icmp.icmp)
  | Pother (o : obj X).

(** An element of [protocols]: a header object or a byte string. *)
Inductive item := Header (p : proto) | Data (b : bytes).

Definition cls_of (p : proto) : pcls :=
  match p with
  | Peth _ => Cethernet | Pvlan _ => Cvlan | Psvlan _ => Csvlan | Pitag _ => Citag
  | Pmpls _ => Cmpls | Parp _ => Carp | Pipv4 _ => Cipv4 | Pudp _ => Cudp
  | Ptcp _ => Ctcp | Picmp _ => Cicmp | Pother o => other_cls X o
  end.

(** [__len__], which decides whether a header object is true in [if proto:]. *)
Definition proto_len (p : proto) : res Z :=
  match p with
  | Peth _ => Ok (Z.of_nat Ethernet._MIN_LEN)
  | Pvlan _ | Psvlan _ => Ok (Z.of_nat Vlan._MIN_LEN)
  | Pitag _ => Ok (Z.of_nat Itag._MIN_LEN)
  | Pmpls _ => Ok (Z.of_nat Mpls._MIN_LEN)
  | Parp _ => Ok (Z.of_nat Arp._MIN_LEN)
  | Pipv4 h => Ok (Ipv4.header_length h * 4)
  | Pudp _ => Ok Udp._MIN_LEN
  | Ptcp h => Ok (Tcp.offset h * 4)
  | Picmp h =>
      match Icmp.data h with
      | None => Err TypeError
      | Some (Icmp.Raw b) => Ok (4 + Z.of_nat (length b))
      | Some (Icmp.Echo _ _ d) | Some (Icmp.DestUnreach _ _ d) | Some (Icmp.TimeExceeded _ d) =>
          Ok (4 + 4 + Z.of_nat (length (default [] d)))
      end
  | Pother o => other_len X o
  end.

Definition lift {H} (mk : H -> proto) (r : res (H * option pcls * bytes)) :
    option (res (proto * option pcls * option bytes)) :=
  Some ('(h, c, rest) ← r; Ok (mk h, c, Some rest)).

(** [cls.parser(buf)] *)
Definition parse_cls (fuel : nat) (c : pcls) (buf : bytes) :
    option (res (proto * option pcls * option bytes)) :=
  match c with
  | Cethernet => lift Peth (Ethernet.parser buf)
  | Cvlan => lift Pvlan (Vlan.parser buf)
  | Csvlan => lift Psvlan (Vlan.parser buf)
  | Citag => lift Pitag (Itag.parser buf)
  | Cmpls => lift Pmpls (Mpls.parser buf)
  | Carp => lift Parp (Arp.parser buf)
  | Cipv4 => lift Pipv4 (Ipv4.parser buf)
  | Cudp => lift Pudp (Udp.parser buf)
  | Ctcp =>
      match Tcp.parser fuel buf with
      | None => None
      | Some r => lift Ptcp r
      end
  | Cicmp => Some ('(h, c, rest) ← Icmp.parser buf; Ok (Picmp h, c, rest))
  | _ =>
      match other_parser X c buf with
      | None => None
      | Some r => Some ('(o, c, rest) ← r; Ok (Pother o, c, rest))
      end
  end.

(** [if rest_data: self.protocols.append(rest_data)] *)
Definition finish (rest : option bytes) (acc : list item) : list item :=
  match rest with Some (b :: bs) => acc ++ [Data (b :: bs)] | _ => acc end.

(** [Packet._parser]; [None] when it has not ended after [fuel] iterations. *)
Fixpoint parse_loop (fuel : nat) (cls : option pcls) (rest : option bytes)
    (acc : list item) : option (res (list item)) :=
  match fuel with
  | O => None
  | S fuel' =>
      match cls with
      | None => Some (Ok (finish rest acc))
      | Some c =>
          match parse_cls fuel' c (default [] rest) with
          | None => None
          | Some (Err StructError) => Some (Ok (finish rest acc))
          | Some (Err x) => Some (Err x)
          | Some (Ok (p, cls, rest)) =>
              match proto_len p with
              | Err x => Some (Err x)
              | Ok n =>
                  parse_loop fuel' cls rest (if n =? 0 then acc else acc ++ [Header p])
              end
          end
      end
  end.

(** [Packet(data)]: empty data is not parsed. *)
Definition packet (fuel : nat) (data : bytes) (parse_cls : pcls) : option (res (list item)) :=
  match data with
  | [] => Some (Ok [])
  | _ => parse_loop fuel (Some parse_cls) (Some data) []
  end.

(** The attributes a transport header reads of the header around it. *)
Definition outer_of (i : item) : outer :=
  match i with
  | Data _ => Outer None None None None None
  | Header (Pipv4 h) =>
      Outer (Some (Ipv4.version h)) (Some (Ipv4.src h)) (Some (Ipv4.dst h))
            (Some (Ipv4.proto h)) None
  | Header (Peth h) =>
      Outer None (Some (Ethernet.src h)) (Some (Ethernet.dst h)) None None
  | Header (Parp h) => Outer None None None (Some (Arp.proto h)) None
  | Header (Pother o) => other_outer X o
  | Header _ => Outer None None None None None
  end.

Definition keep {H} (mk : H -> proto) (h : H) (r : res bytes) : res (bytes * item) :=
  w ← r; Ok (w, Header (mk h)).

Definition changed {H} (mk : H -> proto) (r : res (bytes * H)) : res (bytes * item) :=
  '(w, h) ← r; Ok (w, Header (mk h)).

(** [p.serialize(payload, prev)] *)
Definition serialize_item (i : item) (payload : bytes) (prev : option outer) :
    res (bytes * item) :=
  match i with
  | Data b => Ok (b, Data b)
  | Header (Peth h) => keep Peth h (Ethernet.serialize h)
  | Header (Pvlan h) => keep Pvlan h (Vlan.serialize h)
  | Header (Psvlan h) => keep Psvlan h (Vlan.serialize h)
  | Header (Pitag h) => keep Pitag h (Itag.serialize h)
  | Header (Pmpls h) => keep Pmpls h (Mpls.serialize h)
  | Header (Parp h) => keep Parp h (Arp.serialize h)
  | Header (Pipv4 h) => changed Pipv4 (Ipv4.serialize e h payload)
  | Header (Pudp h) => changed Pudp (Udp.serialize e h payload prev)
  | Header (Ptcp h) => changed Ptcp (Tcp.serialize e h payload prev)
  | Header (Picmp h) => changed Picmp (Icmp.serialize e h)
  | Header (Pother o) => changed Pother (other_serialize X o payload prev)
  end.

(** [Packet.serialize]: from the last element to the first, each with the data of
    the ones behind it and the element in front of it. *)
Fixpoint serialize_from (prev : option outer) (l : list item) : res (bytes * list item) :=
  match l with
  | [] => Ok ([], [])
  | i :: l =>
      '(data, l') ← serialize_from (Some (outer_of i)) l;
      '(w, i') ← serialize_item i data prev;
      Ok (w ++ data, i' :: l')
  end.

Definition serialize (l : list item) : res (bytes * list item) := serialize_from None l.

(** [get_protocols] and [get_protocol] *)
Definition get_protocols (c : pcls) (l : list item) : list proto :=
  omap (fun i => match i with
                 | Header p => if decide (cls_of p = c) then Some p else None
                 | Data _ => None
                 end) l.

Definition get_protocol (c : pcls) (l : list item) : option proto := head (get_protocols c l).

End Packet.
Arguments Peth {X}. Arguments Pvlan {X}. Arguments Psvlan {X}. Arguments Pitag {X}.
Arguments Pmpls {X}. Arguments Parp {X}. Arguments Pipv4 {X}. Arguments Pudp {X}.
Arguments Ptcp {X}. Arguments Picmp {X}. Arguments Pother {X}.
Arguments Header {X}. Arguments Data {X}.

(** One step of the decoder over a header that is parsed. *)
Lemma parse_loop_step `{C : AddrConv} X fuel c rest acc p cls' rest' n :
  parse_cls X fuel c rest = Some (Ok (p, cls', rest')) -> proto_len X p = Ok n -> n <> 0 ->
  parse_loop X (S fuel) (Some c) (Some rest) acc
  = parse_loop X fuel cls' rest' (acc ++ [Header p]).
Proof.
  intros Hp Hn Hz. cbn [parse_loop default from_option id]. rewrite Hp, Hn.
  by rewrite (proj2 (Z.eqb_neq _ _)).
Qed.

Lemma packet_nonempty `{C : AddrConv} X fuel data c :
  data <> [] -> packet X fuel data c = parse_loop X fuel (Some c) (Some data) [].
Proof. by destruct data. Qed.

Lemma serialize_cons_inv `{C : AddrConv} e X prev i l d its :
  serialize_from e X prev (i :: l) = Ok (d, its) ->
  exists d' l' w i', serialize_from e X (Some (outer_of X i)) l = Ok (d', l')
    /\ serialize_item e X i d' prev = Ok (w, i') /\ d = w ++ d' /\ its = i' :: l'.
Proof.
  intros H. cbn [serialize_from] in H. apply bind_Ok in H as ([d' l'] & H1 & H).
  apply bind_Ok in H as ([w i'] & H2 & [= <- <-]). by exists d', l', w, i'.
Qed.

(** A UDP datagram in IPv4, as the encoder writes it. *)
Lemma udp_in_ipv4 `{C : AddrConv} `{!AddrConvLaws C} e X prev ip u payload d its :
  (forall w, length w = (8 + length payload)%nat -> Ipv4.wf ip w) ->
  bytes_ok payload -> Z.of_nat (length payload) <= 65527 -> Udp.total_length u = 0 ->
  serialize_from e X prev [Header (Pipv4 ip); Header (Pudp u); Data payload] = Ok (d, its) ->
  exists wi wu ip' u',
    d = wi ++ wu ++ payload
    /\ its = [Header (Pipv4 ip'); Header (Pudp u'); Data payload]
    /\ Ipv4.serialize e ip (wu ++ payload) = Ok (wi, ip')
    /\ Udp.serialize e u payload (Some (outer_of X (Header (Pipv4 ip)))) = Ok (wu, u')
    /\ Ipv4.wf ip (wu ++ payload).
Proof.
  intros Hwf Bp Lp Ht H.
  apply serialize_cons_inv in H as (d1 & l1 & wi & i1 & H & Hi & -> & ->).
  apply serialize_cons_inv in H as (d2 & l2 & wu & i2 & H & Hu & -> & ->).
  apply serialize_cons_inv in H as (d3 & l3 & wp & i3 & H & Hp & -> & ->).
  injection H as <- <-. injection Hp as <- <-. rewrite app_nil_r in *.
  cbn [serialize_item] in Hi, Hu. unfold changed in Hi, Hu.
  apply bind_Ok in Hu as ([wu' u'] & Hu & [= <- <-]).
  apply bind_Ok in Hi as ([wi' ip'] & Hi & [= <- <-]).
  exists wi', wu', ip', u'. do 4 (split; [done|]). apply Hwf. rewrite length_app. f_equal.
  destruct (Udp.udp_serialize_spec e u payload _ wu' u' Bp Lp (or_introl Ht) Hu)
    as (_ & _ & _ & Hpk & _). unfold Udp.pack_hdr in Hpk. fmt_eval.
  apply (fpack_length _ _ _ Hpk).
Qed.

Lemma udp_facts `{C : AddrConv} `{!AddrConvLaws C} e u u' payload w rest prev :
  bytes_ok payload -> Z.of_nat (length payload) <= 65527 -> Udp.total_length u = 0 ->
  Udp.serialize e u payload prev = Ok (w, u') ->
  Udp.parser (w ++ payload ++ rest)
    = Ok (u', Udp.get_packet_type (Udp.src_port u) (Udp.dst_port u), payload)
  /\ (Udp.csum u = 0 -> exists p, prev = Some p
        /\ checksum_ip e p (Udp.total_length u') (w ++ payload) = Ok 0).
Proof.
  intros Bp Lp Ht H.
  destruct (Udp.udp_serialize_spec e _ _ _ _ _ Bp Lp (or_introl Ht) H)
    as (El & Es & Ed & Hp & _ & Hc).
  split; [|done]. rewrite (Udp.parse_packed u _ (Udp.csum u') w payload rest El Hp).
  rewrite <- Es, <- Ed. by destruct u'.
Qed.

(** TCP is always the last header, and the rest starts at the data offset. *)
Lemma tcp_rest fuel buf h c r :
  Tcp.parser fuel buf = Some (Ok (h, c, r)) ->
  c = None /\ r = TcpOption.from buf (Tcp.offset h * 4).
Proof.
  unfold Tcp.parser. fmt_eval.
  destruct (funpack_from _ buf 0) as [vs|?]; [|done].
  do 9 (destruct vs as [|[?|?] vs]; try done). destruct vs; [|done].
  destruct (Tcp._MIN_LEN <? _).
  - destruct (Tcp.parse_options _ _ _) as [[l|[]]|]; intros [= <- <- <-]; done.
  - intros [= <- <- <-]. done.
Qed.

(** ** Claims *)

Module PacketClaims.

(** A UDP packet end to end: an Ethernet, IPv4 and UDP stack serialized by
    [Packet.serialize] and decoded by [Packet], with any padding behind it, gives
    the completed headers and the payload, whatever the other header classes do.
    The UDP checksum on the wire is valid for the addresses of the IPv4 header. *)
Theorem udp_packet_roundtrip `{C : AddrConv} `{!AddrConvLaws C} (e : endian) (X : Others)
    (eth : Ethernet.ethernet) (ip : Ipv4.ipv4) (u : Udp.udp)
    (payload data padding : bytes) (items : list (item X)) (fuel : nat) :
  canonical MAC (Ethernet.dst eth) -> canonical MAC (Ethernet.src eth) ->
  Ethernet.ethertype eth = ETH_TYPE_IP -> Ipv4.proto ip = IPPROTO_UDP ->
  (forall w, length w = (8 + length payload)%nat -> Ipv4.wf ip w) ->
  bytes_ok payload -> payload <> [] -> Z.of_nat (length payload) <= 65527 ->
  Udp.total_length u = 0 -> Udp.get_packet_type (Udp.src_port u) (Udp.dst_port u) = None ->
  serialize e X [Header (Peth eth); Header (Pipv4 ip); Header (Pudp u); Data payload]
    = Ok (data, items) ->
  (4 < fuel)%nat ->
  packet X fuel (data ++ padding) Cethernet = Some (Ok items)
  /\ exists ip' u', items = [Header (Peth eth); Header (Pipv4 ip'); Header (Pudp u'); Data payload]
     /\ (Udp.csum u = 0 ->
         exists w, checksum_ip e (outer_of X (Header (Pipv4 ip))) (Udp.total_length u')
                     (w ++ payload) = Ok 0 /\ suffix (w ++ payload) data).
Proof.
  intros Hd Hs Het Hpr Hwf Bp Hne Lp Htl Hdh H Hf. unfold serialize in H.
  apply serialize_cons_inv in H as (d & its & we & i & H & He & -> & ->).
  cbn [serialize_item] in He. unfold keep in He. apply bind_Ok in He as (we' & He & [= <- <-]).
  destruct (udp_in_ipv4 e X _ ip u payload d its Hwf Bp Lp Htl H)
    as (wi & wu & ip' & u' & -> & -> & Hi & Hu & Hw).
  destruct (udp_facts e u u' payload wu [] _ Bp Lp Htl Hu) as [Pu Cu].
  pose proof (Ipv4.ipv4_parse_serialize e ip (wu ++ payload) wi ip' padding Hw Hi) as Pi.
  pose proof (Ethernet.ethernet_parse_serialize eth we'
                ((wi ++ wu ++ payload) ++ padding) Hd Hs He) as Pe.
  destruct (Ipv4.ipv4_serialize_layout e _ _ _ _ Hw Hi)
    as (s & dd & fixed & _ & _ & Eh & _).
  split.
  - rewrite <- app_assoc, packet_nonempty
      by (by intros [_ [[_ [_ ?]%app_eq_nil]%app_eq_nil _]%app_eq_nil]%app_eq_nil).
    do 4 (destruct fuel as [|fuel]; [lia|]).
    erewrite parse_loop_step; [|cbn [parse_cls lift]; rewrite Pe; reflexivity|reflexivity|done].
    rewrite Het, <- app_assoc. change (get_packet_type_802_3 ETH_TYPE_IP) with (Some Cipv4).
    erewrite parse_loop_step;
      [|cbn [parse_cls lift]; rewrite Pi; reflexivity|reflexivity|].
    2:{ rewrite Eh. cbn. destruct Hw as (_ & ? & _). lia. }
    rewrite Hpr. change (get_packet_type IPPROTO_UDP) with (Some Cudp).
    erewrite parse_loop_step;
      [|cbn [parse_cls lift]; rewrite app_nil_r in Pu; rewrite Pu; reflexivity|reflexivity|done].
    rewrite Hdh. destruct payload as [|b bs]; [done|]. destruct fuel; [lia|]. reflexivity.
  - exists ip', u'. split; [done|]. intros Hc. destruct (Cu Hc) as (p & [= <-] & Hv).
    exists wu. split; [done|]. exists (we' ++ wi). by rewrite <- app_assoc.
Qed.

Definition no_others : Others :=
  MkOthers Empty_set (fun _ _ => None) (fun o _ _ => match o with end)
    (fun o => match o with end) (fun o => match o with end) (fun o => match o with end).

Lemma udp_packet_roundtrip_witness :
  let eth := Ethernet.Mk PktHeadersClaims.mac1 PktHeadersClaims.mac1 0x0800 in
  let ip := Ipv4.Mk 4 5 0 0 1 2 0 64 17 0 PktHeadersClaims.ip1 PktHeadersClaims.ip2 None in
  let u := Udp.Mk 5000 6000 0 0 in
  exists data items,
    serialize (C := RawConv.conv) Little no_others
      [Header (Peth eth); Header (Pipv4 ip); Header (Pudp u); Data [1; 2; 3]]
      = Ok (data, items)
    /\ packet (C := RawConv.conv) no_others 10 (data ++ [0; 0]) Cethernet = Some (Ok items).
Proof.
  intros eth ip u.
  destruct (serialize (C := RawConv.conv) Little no_others
      [Header (Peth eth); Header (Pipv4 ip); Header (Pudp u); Data [1; 2; 3]])
    as [[data items]|?] eqn:E; [|vm_compute in E; discriminate].
  exists data, items. split; [reflexivity|].
  assert (Hip : forall k b, length b = alen k -> bytes_ok b ->
    canonical (H := RawConv.conv) k (RawConv.to_string b))
    by (intros; apply RawConv.canonical_raw; assumption).
  apply (udp_packet_roundtrip (C := RawConv.conv) (AddrConvLaws0 := RawConv.laws)
           Little no_others eth ip u [1; 2; 3] data [0; 0] items 10);
    try reflexivity; try exact E; try discriminate; try (cbn; lia); try solve_bytes_ok;
    try (apply Hip; [reflexivity|solve_bytes_ok]).
  intros w _. unfold Ipv4.wf. cbn [ip Ipv4.version Ipv4.header_length Ipv4.flags Ipv4.offset
    Ipv4.total_length Ipv4.option_ Ipv4.src Ipv4.dst].
  split; [lia|]. split; [lia|]. split; [lia|]. split; [lia|]. split; [left; reflexivity|].
  split; [reflexivity|]. split; apply Hip; (reflexivity || solve_bytes_ok).
Defined.

(** Header objects whose length is zero or undefined: an ICMP message of four
    bytes, parsed without data, makes the decoder raise [TypeError], and a TCP
    header that announces a data offset of zero is dropped, its bytes being kept
    as payload. *)
Theorem falsy_headers `{C : AddrConv} (X : Others) (fuel : nat) (acc : list (item X)) :
  (forall t c h l : Z,
     parse_loop X (S fuel) (Some Cicmp) (Some [t; c; h; l]) acc = Some (Err TypeError))
  /\ (forall b bs h c r,
     Tcp.parser (S fuel) (b :: bs) = Some (Ok (h, c, r)) -> Tcp.offset h = 0 ->
     parse_loop X (S (S fuel)) (Some Ctcp) (Some (b :: bs)) acc
     = Some (Ok (acc ++ [Data (b :: bs)]))).
Proof.
  split.
  - intros t c h l. reflexivity.
  - intros b bs h c r H Ho. destruct (tcp_rest _ _ _ _ _ H) as [-> ->].
    cbn [parse_loop parse_cls default from_option id]. rewrite H. cbn [lift mbind res_bind].
    cbn [proto_len]. rewrite Ho. reflexivity.
Qed.

Lemma falsy_headers_witness :
  parse_loop (C := RawConv.conv) no_others 5 (Some Ctcp) (Some (replicate 20 0)) []
  = Some (Ok [Data (replicate 20 0)]).
Proof.
  destruct (Tcp.parser 4 (replicate 20 0)) as [[[[h c] r]|?]|] eqn:E;
    [|vm_compute in E; discriminate..].
  refine (proj2 (falsy_headers (C := RawConv.conv) no_others 3 []) 0 (replicate 19 0) h c r E _).
  vm_compute in E. injection E as <- _ _. reflexivity.
Defined.

End PacketClaims.
