(* ===== verification/Ident.v ===== *)
(** * Identifiers and addresses as text (ryu/lib: dpid.py, port_no.py, mac.py, ip.py)

    Datapath ids and port numbers are printed as hexadecimal numerals of a fixed
    width and read back with [int(s, 16)].  A Python 2 string is a byte string, so
    texts are lists of character codes here.  The address helpers wrap the
    converters of the class [AddrConv]. *)

From Stdlib Require Import ZArith Lia Ascii.
From stdpp Require Import base list strings numbers.
From S2P Require Import Prelude Struct PktUtils.

Local Ltac Zify.zify_post_hook ::= Z.div_mod_to_equations.

(** ** Hexadecimal numerals *)

Module Hex.

Definition hex_char (d : Z) : Z := if d <? 10 then 48 + d else 87 + d.

Fixpoint digits_aux (fuel : nat) (z : Z) (acc : bytes) : bytes :=
  match fuel with
  | O => acc
  | S fuel =>
      let acc := hex_char (z mod 16) :: acc in
      if z <? 16 then acc else digits_aux fuel (z / 16) acc
  end.

(** The digits of a natural number; there are at most as many as it has bits. *)
Definition digits (z : Z) : bytes := digits_aux (S (Z.to_nat (Z.log2 z))) z [].

(** ['%0<width>x' % z]: a sign counts for the width. *)
Definition format_0x (width : nat) (z : Z) : bytes :=
  if z <? 0 then let d := digits (- z) in 45 :: replicate (width - 1 - length d) 48 ++ d
  else let d := digits z in replicate (width - length d) 48 ++ d.

Definition hex_digit (c : Z) : option Z :=
  if (48 <=? c) && (c <=? 57) then Some (c - 48)
  else if (97 <=? c) && (c <=? 102) then Some (c - 87)
  else if (65 <=? c) && (c <=? 70) then Some (c - 55)
  else None.

Definition isspace (c : Z) : bool := (c =? 32) || ((9 <=? c) && (c <=? 13)).

Fixpoint skip_ws (s : bytes) : bytes :=
  match s with c :: s' => if isspace c then skip_ws s' else s | [] => [] end.

(** The leading digits and what follows them. *)
Fixpoint take_digits (s : bytes) : list Z * bytes :=
  match s with
  | c :: s' =>
      match hex_digit c with
      | Some d => let '(ds, rest) := take_digits s' in (d :: ds, rest)
      | None => ([], s)
      end
  | [] => ([], [])
  end.

Definition skip_prefix (s : bytes) : bytes :=
  match s with
  | c0 :: c1 :: c2 :: s' =>
      if (c0 =? 48) && ((c1 =? 120) || (c1 =? 88)) && bool_decide (is_Some (hex_digit c2))
      then c2 :: s' else s
  | _ => s
  end.

Definition value (ds : list Z) : Z := foldl (fun acc d => 16 * acc + d) 0 ds.

(** Python 2's [int(s, 16)]: white space, a sign, white space, an optional [0x]
    before a digit, digits, white space. *)
Definition int16 (s : bytes) : res Z :=
  let s := skip_ws s in
  let '(sign, s) :=
    match s with
    | c :: s' => if c =? 45 then (-1, s') else if c =? 43 then (1, s') else (1, s)
    | [] => (1, s)
    end in
  let '(ds, rest) := take_digits (skip_prefix (skip_ws s)) in
  match ds, skip_ws rest with
  | _ :: _, [] => Ok (sign * value ds)
  | _, _ => Err ValueError
  end.

(** *** Numerals are read back *)

(** The characters that a numeral of [format_0x] consists of. *)
Definition numeral_char (c : Z) : Prop := 48 <= c <= 57 \/ 97 <= c <= 102.

Lemma hex_char_digit d : 0 <= d < 16 -> hex_digit (hex_char d) = Some d /\ numeral_char (hex_char d).
Proof.
  intros H. unfold hex_char, hex_digit, numeral_char. destruct (Z.ltb_spec d 10).
  - rewrite (proj2 (Z.leb_le 48 _)), (proj2 (Z.leb_le _ 57)) by lia. cbn [andb]. split; [f_equal|]; lia.
  - rewrite (proj2 (Z.leb_gt _ 57)) by lia. rewrite andb_false_r.
    rewrite (proj2 (Z.leb_le 97 _)), (proj2 (Z.leb_le _ 102)) by lia. cbn [andb]. split; [f_equal|]; lia.
Qed.

(** A text of digits: every character is one, and they denote [ds]. *)
Definition denotes (s : bytes) (ds : list Z) : Prop :=
  Forall2 (fun c d => hex_digit c = Some d /\ numeral_char c) s ds.

Lemma value_app ds es : value (ds ++ es) = value ds * 16 ^ Z.of_nat (length es) + value es.
Proof.
  unfold value. rewrite foldl_app. generalize (foldl (fun acc d => 16 * acc + d) 0 ds) as a.
  induction es as [|e es IH] using rev_ind; intros a; [cbn; lia|].
  rewrite !foldl_app, length_app. cbn [foldl length].
  rewrite IH, Nat2Z.inj_add, Z.pow_add_r by lia. change (16 ^ Z.of_nat 1) with 16. lia.
Qed.

Lemma digits_aux_denotes fuel z acc ds : 0 <= z -> (Z.to_nat (Z.log2 z) < fuel)%nat ->
  denotes acc ds ->
  exists es, digits_aux fuel z acc = es ++ acc /\ es <> []
    /\ exists vs, denotes es vs /\ value vs = z.
Proof.
  revert z acc ds. induction fuel as [|fuel IH]; intros z acc ds Hz Hf Ha; [lia|].
  cbn [digits_aux]. pose proof (hex_char_digit (z mod 16) ltac:(lia)) as Hd.
  assert (H1 : denotes [hex_char (z mod 16)] [z mod 16]) by (by constructor; [|constructor]).
  destruct (Z.ltb_spec z 16).
  - exists [hex_char (z mod 16)]. split; [done|]. split; [done|]. exists [z mod 16].
    split; [done|]. unfold value; cbn [foldl]; lia.
  - destruct (IH (z / 16) (hex_char (z mod 16) :: acc) (z mod 16 :: ds)) as (es & He & _ & vs & Hvs & Hv).
    + lia.
    + assert (Z.log2 (z / 16) < Z.log2 z); [|pose proof (Z.log2_nonneg (z / 16)); lia].
      change 16 with (2 ^ 4). rewrite <- Z.shiftr_div_pow2, Z.log2_shiftr by lia.
      pose proof (Z.log2_le_mono 16 z ltac:(lia)) as Hm. change (Z.log2 16) with 4 in Hm. lia.
    + by constructor.
    + exists (es ++ [hex_char (z mod 16)]). split; [by rewrite <- app_assoc|].
      split; [by destruct es|]. exists (vs ++ [z mod 16]).
      split; [by apply Forall2_app|]. rewrite value_app, Hv. unfold value; cbn [foldl length]. change (16 ^ Z.of_nat 1) with 16. lia.
Qed.

Lemma format_0x_denotes width z : 0 <= z ->
  exists vs, denotes (format_0x width z) vs /\ value vs = z /\ vs <> [].
Proof.
  intros Hz. unfold format_0x. rewrite (proj2 (Z.ltb_ge _ _)) by lia.
  destruct (digits_aux_denotes (S (Z.to_nat (Z.log2 z))) z [] [] Hz ltac:(lia) ltac:(constructor))
    as (es & He & Hne & vs & Hvs & Hv). rewrite app_nil_r in He. unfold digits. rewrite He.
  exists (replicate (width - length es) 0 ++ vs). split.
  - apply Forall2_app; [|done]. apply Forall2_replicate. split; [done|]. left. lia.
  - rewrite value_app, Hv. split.
    + generalize (width - length es)%nat as n. induction n as [|n IH]; [cbn; lia|].
      rewrite replicate_S_end, value_app. unfold value at 2. cbn [foldl length].
      assert (value (replicate n 0) = 0) as ->; [|lia].
      pose proof (Z.pow_pos_nonneg 16 (Z.of_nat (length vs))). nia.
    + destruct vs; [|by destruct (replicate _ _)]. by apply Forall2_nil_inv_r in Hvs.
Qed.

Lemma take_digits_denotes s ds rest : denotes s ds ->
  match rest with c :: _ => hex_digit c = None | [] => True end ->
  take_digits (s ++ rest) = (ds, rest).
Proof.
  intros H Hr. induction H as [|c d s ds [Hc _] _ IH]; cbn [app take_digits].
  - destruct rest as [|c r]; [done|]. cbn [take_digits]. by rewrite Hr.
  - by rewrite Hc, IH.
Qed.

Lemma int16_denotes s ds : denotes s ds -> ds <> [] -> int16 s = Ok (value ds).
Proof.
  intros H Hne. unfold int16.
  destruct H as [|c d s ds [Hc Hn] Hs]; [done|]. unfold numeral_char in Hn.
  assert (Hsp : forall l, skip_ws (c :: l) = c :: l).
  { intros l. cbn [skip_ws]. unfold isspace. by replace (_ || _) with false by lia. }
  rewrite Hsp, (proj2 (Z.eqb_neq c 45)), (proj2 (Z.eqb_neq c 43)) by lia. rewrite Hsp.
  assert (Hp : skip_prefix (c :: s) = c :: s).
  { destruct Hs as [|c1 d1 s ds [_ Hn1] Hs]; [done|]. destruct Hs as [|c2 d2 s ds _ _]; [done|].
    cbn [skip_prefix]. unfold numeral_char in Hn1. replace ((c1 =? 120) || (c1 =? 88)) with false by lia.
    by rewrite andb_false_r. }
  rewrite Hp. pose proof (take_digits_denotes (c :: s) (d :: ds) []) as E. rewrite app_nil_r in E.
  rewrite E; [|by constructor|done]. cbn [skip_ws]. by rewrite Z.mul_1_l.
Qed.

Lemma format_0x_roundtrip width z : 0 <= z -> int16 (format_0x width z) = Ok z.
Proof.
  intros Hz. destruct (format_0x_denotes width z Hz) as (vs & H1 & <- & H3). by apply int16_denotes.
Qed.

Lemma digits_aux_length n fuel z acc : 0 <= z < 16 ^ Z.of_nat n -> (0 < n)%nat ->
  (length (digits_aux fuel z acc) <= n + length acc)%nat.
Proof.
  revert fuel z acc. induction n as [|n IH]; intros fuel z acc Hz Hn; [lia|].
  destruct fuel as [|fuel]; [cbn; lia|]. cbn [digits_aux]. destruct (Z.ltb_spec z 16) as [H|H]; [cbn; lia|].
  rewrite Nat2Z.inj_succ, Z.pow_succ_r in Hz by lia.
  destruct n as [|n]; [cbn in Hz; lia|].
  pose proof (IH fuel (z / 16) (hex_char (z mod 16) :: acc) ltac:(lia) ltac:(lia)) as L.
  cbn [length] in L. lia.
Qed.

Lemma format_0x_length width z : (0 < width)%nat -> 0 <= z < 16 ^ Z.of_nat width ->
  length (format_0x width z) = width.
Proof.
  intros Hw Hz. unfold format_0x. rewrite (proj2 (Z.ltb_ge _ _)), length_app, length_replicate by lia.
  pose proof (digits_aux_length width (S (Z.to_nat (Z.log2 z))) z [] Hz Hw) as L. cbn [length] in L.
  unfold digits. lia.
Qed.

End Hex.

(** ** Datapath ids and port numbers *)

Definition _DPID_LEN : nat := 16.
Definition _PORT_NO_LEN : nat := 8.

Definition dpid_to_str (dpid : Z) : bytes := Hex.format_0x _DPID_LEN dpid.

Definition str_to_dpid (dpid_str : bytes) : res Z :=
  py_assert (length dpid_str =? _DPID_LEN)%nat ;; Hex.int16 dpid_str.

Definition port_no_to_str (port_no : Z) : bytes := Hex.format_0x _PORT_NO_LEN port_no.

Definition str_to_port_no (port_no_str : bytes) : res Z :=
  py_assert (length port_no_str =? _PORT_NO_LEN)%nat ;; Hex.int16 port_no_str.

Lemma dpid_str_length dpid : 0 <= dpid < 2 ^ 64 -> length (dpid_to_str dpid) = _DPID_LEN.
Proof. intros H. by apply Hex.format_0x_length; [unfold _DPID_LEN; lia|]. Qed.

Lemma dpid_text_roundtrip dpid : 0 <= dpid < 2 ^ 64 -> str_to_dpid (dpid_to_str dpid) = Ok dpid.
Proof.
  intros H. unfold str_to_dpid. rewrite dpid_str_length by done. cbn [Nat.eqb _DPID_LEN py_assert mbind res_bind].
  apply Hex.format_0x_roundtrip. lia.
Qed.

Lemma port_no_text_roundtrip p : 0 <= p < 2 ^ 32 -> str_to_port_no (port_no_to_str p) = Ok p.
Proof.
  intros H. unfold str_to_port_no, port_no_to_str.
  rewrite Hex.format_0x_length by (unfold _PORT_NO_LEN; done || lia).
  cbn [Nat.eqb _PORT_NO_LEN py_assert mbind res_bind]. apply Hex.format_0x_roundtrip. lia.
Qed.

Lemma dpid_str_ok dpid : 0 <= dpid < 2 ^ 64 -> bytes_ok (dpid_to_str dpid).
Proof.
  intros H. destruct (Hex.format_0x_denotes _DPID_LEN dpid ltac:(lia)) as (vs & Hd & _).
  unfold dpid_to_str. induction Hd as [|c d s ds [_ Hc] _ IH]; constructor; [|done].
  unfold Hex.numeral_char in Hc. unfold byte_ok. lia.
Qed.

(** ** Addresses *)

Section Addresses.
Context `{C : AddrConv}.

Definition is_multicast (addr : bytes) : res bool :=
  match addr with
  | [] => Err IndexError
  | b :: _ => Ok (negb (Z.land b 1 =? 0))
  end.

(** Any failure of the conversion becomes the exception named. *)
Definition haddr_to_str (addr : option bytes) : res string :=
  match addr with
  | None => Ok "None"%string
  | Some b => match bin_to_text MAC b with Ok t => Ok t | Err _ => Err AssertionError end
  end.

Definition haddr_to_bin (s : string) : res bytes :=
  match text_to_bin MAC s with Ok b => Ok b | Err _ => Err ValueError end.

Definition ipv4_to_bin (ip : string) : res bytes := text_to_bin IPV4 ip.

Definition ipv4_to_int (ip : string) : res Z :=
  b ← text_to_bin IPV4 ip;
  vs ← unpack "!I" b;
  match vs with [VInt z] => Ok z | _ => Err ValueError end.

(** An [int] is packed first; anything else is taken for packed bytes. *)
Definition ipv4_to_str (ip : pyval) : res string :=
  match ip with
  | VInt z => b ← pack "!I" [VInt z]; bin_to_text IPV4 b
  | VBytes b => bin_to_text IPV4 b
  end.

Definition ipv6_to_bin (ip : string) : res bytes := text_to_bin IPV6 ip.

Definition ipv6_to_str (ip : bytes) : res string := bin_to_text IPV6 ip.

(** The integer of an address is printed as the address. *)
Lemma ipv4_int_roundtrip `{!AddrConvLaws C} ip z :
  canonical IPV4 ip -> ipv4_to_int ip = Ok z -> 0 <= z < 2 ^ 32 /\ ipv4_to_str (VInt z) = Ok ip.
Proof.
  intros (b & Hb & Ht) H. unfold ipv4_to_int in H. rewrite Hb in H. cbn [mbind res_bind] in H.
  destruct (text_to_bin_ok _ _ _ Hb) as [Hl Hok]. fmt_eval.
  rewrite Hl in H. change (alen IPV4 =? fmt_size (Format Big [Fi 4]))%nat with true in H.
  rewrite funpack_from_ok in H by (rewrite Hl; done).
  cbn [f_codes f_order unpack_codes mbind res_bind] in H. rewrite drop_0, take_ge in H by (rewrite Hl; done).
  injection H as <-.
  pose proof (be_decode_bound b Hok) as Hbd. rewrite Hl in Hbd.
  cbn [decode]. split; [exact Hbd|]. unfold ipv4_to_str. fmt_eval. unfold fpack.
  cbn [f_codes f_order pack_codes]. rewrite in_width_4 by exact Hbd. cbn [mbind res_bind encode].
  rewrite app_nil_r. change 4%nat with (alen IPV4). rewrite <- Hl, be_encode_decode by done. done.
Qed.

End Addresses.
