(* ===== verification/Lldp.v ===== *)
(** * Link layer discovery frames (ryu/lib/packet/lldp.py)

    The TLVs of an LLDP data unit, their constructors, [serialize] and the parser
    that walks over them; [with_lldp] adds the class to the header classes a
    packet is decoded with. *)

From Stdlib Require Import ZArith Lia.
From stdpp Require Import base list gmap strings numbers.
From S2P Require Import Prelude Struct PktUtils PktHeaders PktTransport Packet.

Local Ltac Zify.zify_post_hook ::= Z.div_mod_to_equations.

Definition LLDP_MAC_NEAREST_BRIDGE : string := "01:80:c2:00:00:0e".

Definition LLDP_TLV_TYPELEN_STR : string := "!H".
Definition LLDP_TLV_SIZE : nat := 2.
Definition LLDP_TLV_TYPE_MASK : Z := 0xfe00.
Definition LLDP_TLV_TYPE_SHIFT : Z := 9.
Definition LLDP_TLV_LENGTH_MASK : Z := 0x01ff.

Definition LLDP_TLV_END : Z := 0.
Definition LLDP_TLV_CHASSIS_ID : Z := 1.
Definition LLDP_TLV_PORT_ID : Z := 2.
Definition LLDP_TLV_TTL : Z := 3.
Definition LLDP_TLV_PORT_DESCRIPTION : Z := 4.
Definition LLDP_TLV_SYSTEM_NAME : Z := 5.
Definition LLDP_TLV_SYSTEM_DESCRIPTION : Z := 6.
Definition LLDP_TLV_SYSTEM_CAPABILITIES : Z := 7.
Definition LLDP_TLV_MANAGEMENT_ADDRESS : Z := 8.
Definition LLDP_TLV_ORGANIZATIONALLY_SPECIFIC : Z := 127.

(** ** TLV objects *)

(** The attributes of the TLV classes beside [typelen] and [len].  [info] of an
    organizationally specific TLV is set by the constructor only. *)
Inductive tlv_body :=
  | End
  | ChassisID (subtype : Z) (chassis_id : bytes)
  | PortID (subtype : Z) (port_id : bytes)
  | TTL (ttl : Z)
  | PortDescription (port_description : bytes)
  | SystemName (system_name : bytes)
  | SystemDescription (system_description : bytes)
  | SystemCapabilities (subtype system_cap enabled_cap : Z)
  | ManagementAddress (addr_len addr_subtype : Z) (addr : bytes)
      (intf_subtype intf_num oid_len : Z) (oid : bytes)
  | OrganizationallySpecific (oui : bytes) (subtype : Z) (info : option bytes).

Record tlv := Tlv { typelen : Z; len : Z; body : tlv_body }.

#[global] Instance tlv_body_eq_dec : EqDecision tlv_body.
Proof. solve_decision. Defined.

#[global] Instance tlv_eq_dec : EqDecision tlv.
Proof. solve_decision. Defined.

Definition tlv_type (b : tlv_body) : Z :=
  match b with
  | End => LLDP_TLV_END
  | ChassisID _ _ => LLDP_TLV_CHASSIS_ID
  | PortID _ _ => LLDP_TLV_PORT_ID
  | TTL _ => LLDP_TLV_TTL
  | PortDescription _ => LLDP_TLV_PORT_DESCRIPTION
  | SystemName _ => LLDP_TLV_SYSTEM_NAME
  | SystemDescription _ => LLDP_TLV_SYSTEM_DESCRIPTION
  | SystemCapabilities _ _ _ => LLDP_TLV_SYSTEM_CAPABILITIES
  | ManagementAddress _ _ _ _ _ _ _ => LLDP_TLV_MANAGEMENT_ADDRESS
  | OrganizationallySpecific _ _ _ => LLDP_TLV_ORGANIZATIONALLY_SPECIFIC
  end.

(** [_LEN_MIN] and [_LEN_MAX] of the classes *)
Definition len_bounds (b : tlv_body) : Z * Z :=
  match b with
  | End => (0, 511)
  | ChassisID _ _ | PortID _ _ => (2, 256)
  | TTL _ => (2, 2)
  | PortDescription _ | SystemName _ | SystemDescription _ => (0, 255)
  | SystemCapabilities _ _ _ => (5, 5)
  | ManagementAddress _ _ _ _ _ _ _ => (9, 167)
  | OrganizationallySpecific _ _ _ => (4, 511)
  end.

Definition _len_valid (b : tlv_body) (len : Z) : bool :=
  ((len_bounds b).1 <=? len) && (len <=? (len_bounds b).2).

(** The comparisons are joined by [or]. *)
Definition _addr_len_valid (addr_len : Z) : bool := (1 <=? addr_len) || (addr_len <=? 31).

Definition _oid_len_valid (oid_len : Z) : bool := (0 <=? oid_len) && (oid_len <=? 128).

(** *** Constructors called with keyword arguments *)

Definition make (b : tlv_body) (len : Z) : res tlv :=
  py_assert (_len_valid b len) ;;
  Ok (Tlv (Z.lor (Z.shiftl (tlv_type b) LLDP_TLV_TYPE_SHIFT) len) len b).

Definition new_End : tlv := Tlv 0 0 End.

Definition new_ChassisID (subtype : Z) (chassis_id : bytes) : res tlv :=
  make (ChassisID subtype chassis_id) (1 + Z.of_nat (length chassis_id)).

Definition new_PortID (subtype : Z) (port_id : bytes) : res tlv :=
  make (PortID subtype port_id) (1 + Z.of_nat (length port_id)).

Definition new_TTL (ttl : Z) : res tlv := make (TTL ttl) 2.

Definition new_PortDescription (d : bytes) : res tlv :=
  make (PortDescription d) (Z.of_nat (length d)).

Definition new_SystemName (d : bytes) : res tlv := make (SystemName d) (Z.of_nat (length d)).

Definition new_SystemDescription (d : bytes) : res tlv :=
  make (SystemDescription d) (Z.of_nat (length d)).

Definition new_SystemCapabilities (subtype system_cap enabled_cap : Z) : res tlv :=
  make (SystemCapabilities subtype system_cap enabled_cap) 5.

Definition new_ManagementAddress (addr_subtype : Z) (addr : bytes) (intf_subtype intf_num : Z)
    (oid : bytes) : res tlv :=
  let addr_len := Z.of_nat (length addr) + 1 in
  py_assert (_addr_len_valid addr_len) ;;
  let oid_len := Z.of_nat (length oid) in
  py_assert (_oid_len_valid oid_len) ;;
  make (ManagementAddress addr_len addr_subtype addr intf_subtype intf_num oid_len oid)
    (2 + addr_len - 1 + 6 + oid_len).

Definition new_OrganizationallySpecific (oui : bytes) (subtype : Z) (info : bytes) : res tlv :=
  make (OrganizationallySpecific oui subtype (Some info)) (4 + Z.of_nat (length info)).

(** *** Constructors called with a buffer *)

Definition get_type (buf : bytes) : res Z :=
  vs ← unpack LLDP_TLV_TYPELEN_STR (take LLDP_TLV_SIZE buf);
  match vs with
  | [VInt typelen] => Ok (Z.shiftr (Z.land typelen LLDP_TLV_TYPE_MASK) LLDP_TLV_TYPE_SHIFT)
  | _ => Err ValueError
  end.

(** [LLDPBasicTLV.__init__] of the class of type [ty]: typelen, len and tlv_info *)
Definition basic_init (ty : Z) (buf : bytes) : res (Z * Z * bytes) :=
  vs ← unpack LLDP_TLV_TYPELEN_STR (take LLDP_TLV_SIZE buf);
  match vs with
  | [VInt typelen] =>
      let tlv_type := Z.shiftr (Z.land typelen LLDP_TLV_TYPE_MASK) LLDP_TLV_TYPE_SHIFT in
      py_assert (ty =? tlv_type) ;;
      let len := Z.land typelen LLDP_TLV_LENGTH_MASK in
      py_assert (len + Z.of_nat LLDP_TLV_SIZE <=? Z.of_nat (length buf)) ;;
      Ok (typelen, len, take (Z.to_nat len) (drop LLDP_TLV_SIZE buf))
  | _ => Err ValueError
  end.

Definition parse_management_address (tlv_info : bytes) : res tlv_body :=
  vs ← unpack "!BB" (take 2 tlv_info);
  match vs with
  | [VInt addr_len; VInt addr_subtype] =>
      py_assert (_addr_len_valid addr_len) ;;
      let offset := 2 + addr_len - 1 in
      let addr := py_slice tlv_info 2 offset in
      ws ← unpack "!BIB" (py_slice tlv_info offset (offset + 6));
      match ws with
      | [VInt intf_subtype; VInt intf_num; VInt oid_len] =>
          py_assert (_oid_len_valid oid_len) ;;
          Ok (ManagementAddress addr_len addr_subtype addr intf_subtype intf_num oid_len
                (drop (Z.to_nat (offset + 6)) tlv_info))
      | _ => Err ValueError
      end
  | _ => Err ValueError
  end.

(** What the class registered for a type sets; a type without class is a missing key
    of [_tlv_parsers]. *)
Definition parse_body (ty : Z) (tlv_info : bytes) : res tlv_body :=
  if ty =? LLDP_TLV_END then Ok End
  else if ty =? LLDP_TLV_CHASSIS_ID then
    vs ← unpack "!B" (take 1 tlv_info);
    match vs with [VInt s] => Ok (ChassisID s (drop 1 tlv_info)) | _ => Err ValueError end
  else if ty =? LLDP_TLV_PORT_ID then
    vs ← unpack "!B" (take 1 tlv_info);
    match vs with [VInt s] => Ok (PortID s (drop 1 tlv_info)) | _ => Err ValueError end
  else if ty =? LLDP_TLV_TTL then
    vs ← unpack "!H" (take 2 tlv_info);
    match vs with [VInt t] => Ok (TTL t) | _ => Err ValueError end
  else if ty =? LLDP_TLV_PORT_DESCRIPTION then Ok (PortDescription tlv_info)
  else if ty =? LLDP_TLV_SYSTEM_NAME then Ok (SystemName tlv_info)
  else if ty =? LLDP_TLV_SYSTEM_DESCRIPTION then Ok (SystemDescription tlv_info)
  else if ty =? LLDP_TLV_SYSTEM_CAPABILITIES then
    vs ← unpack "!BHH" (take 5 tlv_info);
    match vs with
    | [VInt s; VInt c; VInt e] => Ok (SystemCapabilities s c e)
    | _ => Err ValueError
    end
  else if ty =? LLDP_TLV_MANAGEMENT_ADDRESS then parse_management_address tlv_info
  else if ty =? LLDP_TLV_ORGANIZATIONALLY_SPECIFIC then
    vs ← unpack "!3sB" (take 4 tlv_info);
    match vs with
    | [VBytes o; VInt s] => Ok (OrganizationallySpecific o s None)
    | _ => Err ValueError
    end
  else Err KeyError.

(** The class of a type without entry in [_tlv_parsers] is not found before its
    constructor is called. *)
Definition known_type (ty : Z) : bool :=
  bool_decide (ty ∈ [LLDP_TLV_END; LLDP_TLV_CHASSIS_ID; LLDP_TLV_PORT_ID; LLDP_TLV_TTL;
    LLDP_TLV_PORT_DESCRIPTION; LLDP_TLV_SYSTEM_NAME; LLDP_TLV_SYSTEM_DESCRIPTION;
    LLDP_TLV_SYSTEM_CAPABILITIES; LLDP_TLV_MANAGEMENT_ADDRESS;
    LLDP_TLV_ORGANIZATIONALLY_SPECIFIC]).

Definition parse_tlv (buf : bytes) : res tlv :=
  ty ← get_type buf;
  if known_type ty then
    '(typelen, len, tlv_info) ← basic_init ty buf;
    b ← parse_body ty tlv_info;
    Ok (Tlv typelen len b)
  else Err KeyError.

(** *** [serialize] *)

Definition serialize_tlv (t : tlv) : res bytes :=
  match body t with
  | End => pack "!H" [VInt (typelen t)]
  | ChassisID s d | PortID s d =>
      h ← pack "!HB" [VInt (typelen t); VInt s]; Ok (h ++ d)
  | TTL ttl => pack "!HH" [VInt (typelen t); VInt ttl]
  | PortDescription d | SystemName d | SystemDescription d =>
      h ← pack "!H" [VInt (typelen t)]; Ok (h ++ d)
  | SystemCapabilities s c e => pack "!HBHH" [VInt (typelen t); VInt s; VInt c; VInt e]
  | ManagementAddress al asub a isub inum ol o =>
      i1 ← pack "!BB" [VInt al; VInt asub];
      i2 ← pack "!BIB" [VInt isub; VInt inum; VInt ol];
      h ← pack "!H" [VInt (typelen t)];
      Ok (h ++ (i1 ++ a) ++ i2 ++ o)
  | OrganizationallySpecific oui s _ => pack "!H3sB" [VInt (typelen t); VBytes oui; VInt s]
  end.

(** ** The protocol class *)

Definition _tlvs_len_valid (tlvs : list tlv) : bool := (4 <=? length tlvs)%nat.

Definition type_at (tlvs : list tlv) (i : nat) : option Z := (fun t => tlv_type (body t)) <$> tlvs !! i.

Definition _tlvs_valid (tlvs : list tlv) : bool :=
  bool_decide (type_at tlvs 0 = Some LLDP_TLV_CHASSIS_ID)
  && bool_decide (type_at tlvs 1 = Some LLDP_TLV_PORT_ID)
  && bool_decide (type_at tlvs 2 = Some LLDP_TLV_TTL)
  && bool_decide (type_at tlvs (length tlvs - 1) = Some LLDP_TLV_END).

(** [while buf:]; [None] when the loop has not ended after [fuel] turns. *)
Fixpoint parse_tlvs (fuel : nat) (buf : bytes) (tlvs : list tlv) : option (res (list tlv * bytes)) :=
  match fuel with
  | O => None
  | S fuel =>
      match buf with
      | [] => Some (Ok (tlvs, buf))
      | _ =>
          match parse_tlv buf with
          | Err e => Some (Err e)
          | Ok t =>
              let tlvs := tlvs ++ [t] in
              let buf := drop (LLDP_TLV_SIZE + Z.to_nat (len t)) buf in
              if tlv_type (body t) =? LLDP_TLV_END then Some (Ok (tlvs, buf))
              else match buf with
                   | [] => Some (Err AssertionError)
                   | _ => parse_tlvs fuel buf tlvs
                   end
          end
      end
  end.

Definition _parser (buf : bytes) : option (res (list tlv * bytes)) :=
  match parse_tlvs (S (length buf)) buf [] with
  | None => None
  | Some r => Some ('(tlvs, rest) ← r;
                    py_assert (_tlvs_len_valid tlvs) ;;
                    py_assert (_tlvs_valid tlvs) ;;
                    Ok (tlvs, rest))
  end.

(** Any exception makes an object of no class and leaves the buffer. *)
Definition parser (buf : bytes) : option (option (list tlv) * bytes) :=
  match _parser buf with
  | None => None
  | Some (Ok (tlvs, rest)) => Some (Some tlvs, rest)
  | Some (Err _) => Some (None, buf)
  end.

Definition serialize (tlvs : list tlv) : res bytes :=
  foldM (fun data t => w ← serialize_tlv t; Ok (data ++ w)) [] tlvs.

Definition lldp_len (tlvs : list tlv) : Z :=
  foldr (fun t n => Z.of_nat LLDP_TLV_SIZE + len t + n) 0 tlvs.

(** The header classes of a packet with this one added. *)
Definition with_lldp (X : Others) : Others := {|
  obj := obj X + option (list tlv);
  other_parser c buf :=
    if decide (c = Clldp) then
      match parser buf with
      | None => None
      | Some (t, rest) => Some (Ok (inr t, None, Some rest))
      end
    else match other_parser X c buf with
         | None => None
         | Some r => Some ('(o, c, rest) ← r; Ok (inl o, c, rest))
         end;
  other_serialize o payload prev :=
    match o with
    | inl o => '(w, o) ← other_serialize X o payload prev; Ok (w, inl o)
    | inr None => Err AttributeError
    | inr (Some t) => w ← serialize t; Ok (w, inr (Some t))
    end;
  other_len o :=
    match o with
    | inl o => other_len X o
    | inr None => Ok 0
    | inr (Some t) => Ok (lldp_len t)
    end;
  other_cls o := match o with inl o => other_cls X o | inr _ => Clldp end;
  other_outer o :=
    match o with inl o => other_outer X o | inr _ => Outer None None None None None end |}.

(** ** What is written is read back *)

Module LldpFacts.

(** An object as the constructors leave it, with fields that fit; the information of
    an organizationally specific TLV is not written, so it must be absent. *)
Definition body_ok (b : tlv_body) (l : Z) : Prop :=
  match b with
  | End => l = 0
  | ChassisID s d | PortID s d => in_width 1 s = true /\ l = 1 + Z.of_nat (length d)
  | TTL t => in_width 2 t = true /\ l = 2
  | PortDescription d | SystemName d | SystemDescription d => l = Z.of_nat (length d)
  | SystemCapabilities s c e =>
      in_width 1 s = true /\ in_width 2 c = true /\ in_width 2 e = true /\ l = 5
  | ManagementAddress al asub a isub inum ol o =>
      in_width 1 asub = true /\ in_width 1 isub = true /\ in_width 4 inum = true
      /\ al = Z.of_nat (length a) + 1 /\ al < 256 /\ ol = Z.of_nat (length o) /\ ol <= 128
      /\ l = 2 + al - 1 + 6 + ol
  | OrganizationallySpecific oui s info =>
      length oui = 3%nat /\ in_width 1 s = true /\ info = None /\ l = 4
  end.

Record wf (t : tlv) : Prop := {
  wf_typelen : typelen t = Z.lor (Z.shiftl (tlv_type (body t)) LLDP_TLV_TYPE_SHIFT) (len t);
  wf_len : 0 <= len t <= 511;
  wf_body : body_ok (body t) (len t) }.

Lemma typelen_fields ty l : 0 <= ty <= 127 -> 0 <= l <= 511 ->
  let tl := Z.lor (Z.shiftl ty LLDP_TLV_TYPE_SHIFT) l in
  in_width 2 tl = true /\ Z.shiftr (Z.land tl LLDP_TLV_TYPE_MASK) LLDP_TLV_TYPE_SHIFT = ty
  /\ Z.land tl LLDP_TLV_LENGTH_MASK = l.
Proof.
  intros Ht Hl tl. unfold tl, LLDP_TLV_TYPE_SHIFT. rewrite lor_shiftl_add by lia.
  rewrite Z.shiftr_land. change (Z.shiftr LLDP_TLV_TYPE_MASK 9) with (Z.ones 7).
  change LLDP_TLV_LENGTH_MASK with (Z.ones 9). rewrite !Z.land_ones, Z.shiftr_div_pow2 by lia.
  change (2 ^ 9) with 512. change (2 ^ 7) with 128. split; [apply in_width_2|]; lia.
Qed.

Lemma type_bound b : 0 <= tlv_type b <= 127 /\ known_type (tlv_type b) = true.
Proof. by destruct b; cbn; split. Qed.

(** [struct.unpack] of the bytes in front of a packed structure. *)
Lemma unpack_take f args w rest : fpack f args = Ok w ->
  (length (take (fmt_size f) (w ++ rest)) =? fmt_size f)%nat = true
  /\ funpack_from f (take (fmt_size f) (w ++ rest)) 0 = Ok (fit_args (f_codes f) args).
Proof.
  intros H. rewrite take_app_length' by (by rewrite (fpack_length _ _ _ H)).
  rewrite (fpack_length _ _ _ H), Nat.eqb_refl. split; [done|].
  pose proof (unpack_from_pack0 f args w [] H) as E. by rewrite app_nil_r in E.
Qed.

(** Pack the fields of a structure whose widths are known to hold. *)
Ltac packs :=
  unfold fpack; cbn [f_codes f_order pack_codes];
  repeat match goal with H : in_width _ _ = true |- _ => rewrite H; clear H end;
  cbn [mbind res_bind encode]; rewrite ?app_nil_r.

Ltac unpacks :=
  fmt_eval;
  match goal with
  | H : fpack ?f ?args = Ok ?w |- context [take ?n (?w ++ ?rest)] =>
      change (take n (w ++ rest)) with (take (fmt_size f) (w ++ rest));
      let E1 := fresh in let E2 := fresh in
      destruct (unpack_take f args w rest H) as [E1 E2]; rewrite E1, E2; clear E1 E2
  end; cbn [mbind res_bind fit_args f_codes].

Lemma chassis_like s (d : bytes) : in_width 1 s = true ->
  exists p, (forall tl, in_width 2 tl = true ->
               fpack (Format Big [Fi 2; Fi 1]) [VInt tl; VInt s] = Ok (be_encode 2 tl ++ p))
    /\ fpack (Format Big [Fi 1]) [VInt s] = Ok p /\ length p = 1%nat.
Proof.
  intros Hs. exists (be_encode 1 s). split; [intros tl Htl; by packs|]. split; [by packs|].
  by autorewrite with beba.
Qed.

Lemma management_wire al asub a isub inum ol o :
  body_ok (ManagementAddress al asub a isub inum ol o) (2 + al - 1 + 6 + ol) ->
  exists i1 i2, fpack (Format Big [Fi 1; Fi 1]) [VInt al; VInt asub] = Ok i1
    /\ fpack (Format Big [Fi 1; Fi 4; Fi 1]) [VInt isub; VInt inum; VInt ol] = Ok i2
    /\ length i1 = 2%nat /\ length i2 = 6%nat
    /\ parse_management_address ((i1 ++ a) ++ i2 ++ o)
       = Ok (ManagementAddress al asub a isub inum ol o).
Proof.
  intros (H1 & H2 & H3 & Hal & Hal' & Hol & Hol' & _).
  assert (Wa : in_width 1 al = true) by (apply in_width_1; lia).
  assert (Wo : in_width 1 ol = true) by (apply in_width_1; lia).
  assert (exists i1, fpack (Format Big [Fi 1; Fi 1]) [VInt al; VInt asub] = Ok i1) as [i1 P1]
    by (eexists; packs; done).
  assert (exists i2, fpack (Format Big [Fi 1; Fi 4; Fi 1]) [VInt isub; VInt inum; VInt ol] = Ok i2)
    as [i2 P2] by (eexists; packs; done).
  pose proof (fpack_length _ _ _ P1) as L1. pose proof (fpack_length _ _ _ P2) as L2. cbn in L1, L2.
  exists i1, i2. do 4 (split; [done|]). unfold parse_management_address. fmt_eval.
  rewrite <- app_assoc. unpacks.
  assert (_addr_len_valid al = true) as -> by (unfold _addr_len_valid; lia). cbn [py_assert mbind res_bind].
  set (buf := i1 ++ a ++ i2 ++ o).
  assert (Ed : drop (Z.to_nat (2 + al - 1)) buf = i2 ++ o).
  { unfold buf. rewrite app_assoc. apply drop_app_length'. rewrite length_app. lia. }
  assert (Ea : py_slice buf 2 (2 + al - 1) = a).
  { unfold py_slice, buf. rewrite drop_app_length' by (rewrite L1; lia).
    apply take_app_length'. lia. }
  assert (Ei : py_slice buf (2 + al - 1) (2 + al - 1 + 6) = take 6 (i2 ++ o)).
  { unfold py_slice. rewrite Ed. f_equal. lia. }
  rewrite Ei, Ea. unpacks.
  assert (_oid_len_valid ol = true) as -> by (unfold _oid_len_valid; lia). cbn [py_assert mbind res_bind].
  do 2 f_equal. replace (Z.to_nat (2 + al - 1 + 6)) with (Z.to_nat (2 + al - 1) + 6)%nat by lia.
  rewrite <- drop_drop, Ed. by apply drop_app_length'.
Qed.

Ltac pick_class :=
  unfold parse_body; cbn [tlv_type Z.eqb Pos.eqb LLDP_TLV_END LLDP_TLV_CHASSIS_ID LLDP_TLV_PORT_ID
    LLDP_TLV_TTL LLDP_TLV_PORT_DESCRIPTION LLDP_TLV_SYSTEM_NAME LLDP_TLV_SYSTEM_DESCRIPTION
    LLDP_TLV_SYSTEM_CAPABILITIES LLDP_TLV_MANAGEMENT_ADDRESS LLDP_TLV_ORGANIZATIONALLY_SPECIFIC].

(** Every TLV is its type and length followed by [len] bytes its class reads. *)
Lemma body_wire t : wf t ->
  exists p, serialize_tlv t = Ok (be_encode 2 (typelen t) ++ p) /\ Z.of_nat (length p) = len t
    /\ parse_body (tlv_type (body t)) p = Ok (body t).
Proof.
  intros [Htl Hl Hb]. pose proof (type_bound (body t)) as [Hty _].
  destruct (typelen_fields (tlv_type (body t)) (len t) Hty Hl) as (Hw & _ & _).
  rewrite <- Htl in Hw. destruct t as [tl l b]; cbn [typelen len body] in *. clear Htl Hl Hty.
  unfold serialize_tlv; cbn [body typelen]. destruct b as [|s d|s d|x|d|d|d|s c e|al asub a isub inum ol o|oui s info];
    cbn [body_ok] in Hb; cbn [tlv_type parse_body Z.eqb]; fmt_eval.
  - subst. exists []. split; [by packs|]. done.
  - destruct Hb as [Hs ->]. destruct (chassis_like s d Hs) as (p & Hp & Hu & Hlp).
    exists (p ++ d). rewrite (Hp _ Hw). cbn [mbind res_bind]. rewrite <- app_assoc. split; [done|].
    split; [rewrite length_app; lia|]. pick_class. unpacks. by rewrite drop_app_length'.
  - destruct Hb as [Hs ->]. destruct (chassis_like s d Hs) as (p & Hp & Hu & Hlp).
    exists (p ++ d). rewrite (Hp _ Hw). cbn [mbind res_bind]. rewrite <- app_assoc. split; [done|].
    split; [rewrite length_app; lia|]. pick_class. unpacks. by rewrite drop_app_length'.
  - destruct Hb as [Ht ->]. exists (be_encode 2 x).
    assert (Hp : fpack (Format Big [Fi 2]) [VInt x] = Ok (be_encode 2 x)) by (by packs).
    split; [by packs|]. split; [by autorewrite with beba|]. pick_class.
    rewrite <- (app_nil_r (be_encode 2 x)). by unpacks.
  - subst. exists d. split; [by packs|]. done.
  - subst. exists d. split; [by packs|]. done.
  - subst. exists d. split; [by packs|]. done.
  - destruct Hb as (Hs & Hc & He & ->).
    assert (exists p, fpack (Format Big [Fi 1; Fi 2; Fi 2]) [VInt s; VInt c; VInt e] = Ok p
      /\ fpack (Format Big [Fi 2; Fi 1; Fi 2; Fi 2]) [VInt tl; VInt s; VInt c; VInt e]
         = Ok (be_encode 2 tl ++ p)) as (p & Hp & Hq) 
      by (exists (be_encode 1 s ++ be_encode 2 c ++ be_encode 2 e); split; by packs).
    exists p. split; [done|]. split; [by rewrite (fpack_length _ _ _ Hp)|]. pick_class.
    rewrite <- (app_nil_r p). by unpacks.
  - pose proof Hb as (_ & _ & _ & Ha & _ & Ho & _ & ->).
    destruct (management_wire _ _ _ _ _ _ _ Hb) as (i1 & i2 & P1 & P2 & L1 & L2 & Hp).
    exists ((i1 ++ a) ++ i2 ++ o). rewrite P1. cbn [mbind res_bind]. rewrite P2. cbn [mbind res_bind].
    split; [by packs|]. split; [rewrite !length_app; lia|]. by pick_class.
  - destruct Hb as (Ho & Hs & -> & ->).
    assert (exists p, fpack (Format Big [Fs 3; Fi 1]) [VBytes oui; VInt s] = Ok p
      /\ fpack (Format Big [Fi 2; Fs 3; Fi 1]) [VInt tl; VBytes oui; VInt s]
         = Ok (be_encode 2 tl ++ p)) as (p & Hp & Hq) 
      by (exists (resize 3 0 oui ++ be_encode 1 s); split; by packs).
    exists p. split; [done|]. split; [by rewrite (fpack_length _ _ _ Hp)|]. pick_class.
    rewrite <- (app_nil_r p). unpacks. by rewrite resize_all_alt.
Qed.

Lemma tlv_wire t : wf t ->
  exists w, serialize_tlv t = Ok w /\ length w = (LLDP_TLV_SIZE + Z.to_nat (len t))%nat
    /\ forall rest, parse_tlv (w ++ rest) = Ok t.
Proof.
  intros Hwf. destruct (body_wire t Hwf) as (p & Hs & Hl & Hp). destruct Hwf as [Htl Hlen _].
  pose proof (type_bound (body t)) as [Hty Hk].
  destruct (typelen_fields _ _ Hty Hlen) as (Hw & E1 & E2). rewrite <- Htl in Hw, E1, E2.
  exists (be_encode 2 (typelen t) ++ p). split; [done|].
  split; [rewrite length_app, be_encode_length; unfold LLDP_TLV_SIZE; lia|].
  intros rest. rewrite <- app_assoc. unfold parse_tlv, get_type, basic_init, LLDP_TLV_TYPELEN_STR, LLDP_TLV_SIZE.
  assert (Hp2 : fpack (Format Big [Fi 2]) [VInt (typelen t)] = Ok (be_encode 2 (typelen t))) by (by packs).
  unpacks. rewrite E1, Hk, Z.eqb_refl, E2.
  cbn [py_assert mbind res_bind].
  rewrite (proj2 (Z.leb_le _ _)) by (rewrite !length_app, be_encode_length; lia).
  cbn [py_assert mbind res_bind]. rewrite drop_app_length' by (by rewrite be_encode_length).
  rewrite take_app_length' by lia. rewrite Hp. by destruct t.
Qed.

(** Data units are read up to their end TLV. *)
Lemma tlvs_wire l e fuel acc rest : Forall wf l -> wf e -> body e = End ->
  Forall (fun t => body t <> End) l -> (length l < fuel)%nat ->
  exists w, foldM (fun data t => w ← serialize_tlv t; Ok (data ++ w)) acc (l ++ [e]) = Ok (acc ++ w)
    /\ w <> [] /\ forall ts, parse_tlvs fuel (w ++ rest) ts = Some (Ok (ts ++ l ++ [e], rest)).
Proof.
  intros Hl He Hend. revert fuel acc. induction Hl as [|t l Ht Hl IH]; intros fuel acc Hn Hf;
    (destruct fuel as [|fuel]; [cbn in Hf; lia|]).
  - destruct (tlv_wire e He) as (w & Hs & Hlw & Hp). exists w. cbn [app foldM]. rewrite Hs.
    cbn [mbind res_bind]. split; [done|]. split; [by intros ->|]. intros ts. cbn [parse_tlvs].
    destruct (w ++ rest) as [|b bs] eqn:Eb; [by destruct w|]. rewrite <- Eb, Hp, Hend.
    cbn [tlv_type Z.eqb LLDP_TLV_END]. by rewrite drop_app_length' by done.
  - apply Forall_cons_1 in Hn as [Hnt Hn]. cbn [length] in Hf. destruct (tlv_wire t Ht) as (w & Hs & Hlw & Hp).
    destruct (IH fuel (acc ++ w) Hn ltac:(lia)) as (w' & Hs' & Hne & Hp').
    exists (w ++ w'). cbn [app foldM]. rewrite Hs. cbn [mbind res_bind]. rewrite Hs', <- app_assoc.
    split; [done|]. split; [by destruct w, w'|]. intros ts. cbn [parse_tlvs]. rewrite <- app_assoc.
    destruct (w ++ w' ++ rest) as [|b bs] eqn:Eb; [by destruct w, w'|]. rewrite <- Eb, Hp.
    rewrite drop_app_length' by done.
    rewrite (proj2 (Z.eqb_neq _ _)) by (by destruct (body t)).
    destruct (w' ++ rest) as [|b' bs'] eqn:Eb'; [by destruct w'|]. rewrite Hp'.
    by rewrite <- app_assoc.
Qed.

Lemma lldp_len_cons t l : lldp_len (t :: l) = 2 + len t + lldp_len l.
Proof. done. Qed.

Lemma lldp_len_app l k : lldp_len (l ++ k) = lldp_len l + lldp_len k.
Proof. induction l as [|t l IH]; [done|]. cbn [app]. rewrite !lldp_len_cons. lia. Qed.

Lemma lldp_len_bound l : Forall wf l -> 2 * Z.of_nat (length l) <= lldp_len l.
Proof.
  induction 1 as [|t l Ht _ IH]; [done|].
  rewrite lldp_len_cons. cbn [length]. pose proof (wf_len _ Ht). lia.
Qed.

(** [__len__] is the number of bytes written. *)
Lemma tlvs_written l e : Forall wf l -> wf e ->
  exists w, serialize (l ++ [e]) = Ok w /\ lldp_len (l ++ [e]) = Z.of_nat (length w).
Proof.
  intros Hl He. assert (H : Forall wf (l ++ [e])) by (apply Forall_app; split; [done|by constructor]).
  revert H. generalize (l ++ [e]). clear. intros l H. unfold serialize.
  enough (forall acc, exists w,
    foldM (fun data t => w ← serialize_tlv t; Ok (data ++ w)) acc l = Ok (acc ++ w)
    /\ lldp_len l = Z.of_nat (length w)) as G by exact (G []).
  induction H as [|t l Ht _ IH]; intros acc; cbn [foldM].
  - exists []. by rewrite app_nil_r.
  - destruct (tlv_wire t Ht) as (w & -> & Hlw & _). cbn [mbind res_bind].
    destruct (IH (acc ++ w)) as (w' & -> & Hl). exists (w ++ w'). rewrite <- app_assoc. split; [done|].
    rewrite lldp_len_cons, Hl, length_app, Hlw.
    pose proof (wf_len _ Ht). unfold LLDP_TLV_SIZE. lia.
Qed.

(** The loop takes at least the two bytes of a header in every turn. *)
Lemma parse_tlvs_total fuel buf acc : (length buf < fuel)%nat -> is_Some (parse_tlvs fuel buf acc).
Proof.
  revert buf acc. induction fuel as [|fuel IH]; intros buf acc Hf; [lia|]. cbn [parse_tlvs].
  destruct buf as [|b bs]; [by eexists|]. destruct (parse_tlv (b :: bs)) as [t|]; [|by eexists].
  destruct (_ =? _); [by eexists|].
  destruct (drop (LLDP_TLV_SIZE + Z.to_nat (len t)) (b :: bs)) as [|c cs] eqn:E; [by eexists|].
  apply IH. rewrite <- E, length_drop. cbn [length] in Hf |- *. unfold LLDP_TLV_SIZE. lia.
Qed.

Lemma parse_tlvs_suffix fuel buf acc tlvs rest :
  parse_tlvs fuel buf acc = Some (Ok (tlvs, rest)) -> suffix rest buf.
Proof.
  revert buf acc. induction fuel as [|fuel IH]; intros buf acc H; [done|]. cbn [parse_tlvs] in H.
  destruct buf as [|b bs]; [by injection H as <- <-|].
  destruct (parse_tlv (b :: bs)) as [t|]; [|done].
  assert (Hd : suffix (drop (LLDP_TLV_SIZE + Z.to_nat (len t)) (b :: bs)) (b :: bs)) by apply suffix_drop.
  destruct (_ =? _); [by injection H as <- <-|].
  destruct (drop _ (b :: bs)) as [|c cs]; [done|]. etrans; [by eapply IH|done].
Qed.

(** Objects of the constructors are well-formed when their integers fit. *)
Lemma make_wf b l t : make b l = Ok t -> body_ok b l -> wf t.
Proof.
  unfold make. intros H Hb. apply bind_Ok in H as ([] & Ha & [= <-]).
  split; cbn [typelen len body]; [done| |done].
  unfold py_assert in Ha. destruct (_len_valid b l) eqn:E; [|done]. unfold _len_valid in E.
  destruct b; cbn in E; lia.
Qed.

Lemma new_End_wf : wf new_End.
Proof. by split. Qed.

(** A data unit in the prescribed order is parsed back. *)
Lemma tlvs_roundtrip c p t e opt w rest :
  tlv_type (body c) = LLDP_TLV_CHASSIS_ID -> tlv_type (body p) = LLDP_TLV_PORT_ID ->
  tlv_type (body t) = LLDP_TLV_TTL -> body e = End -> Forall (fun o => body o <> End) opt ->
  Forall wf (c :: p :: t :: opt ++ [e]) -> serialize (c :: p :: t :: opt ++ [e]) = Ok w ->
  parser (w ++ rest) = Some (Some (c :: p :: t :: opt ++ [e]), rest)
  /\ lldp_len (c :: p :: t :: opt ++ [e]) = Z.of_nat (length w).
Proof.
  intros Hc Hp Ht He Hopt Hwf Hs.
  set (l := c :: p :: t :: opt) in *. change (c :: p :: t :: opt ++ [e]) with (l ++ [e]) in *.
  apply Forall_app in Hwf as [Hl Hwe]. apply Forall_cons_1 in Hwe as [Hwe _].
  assert (Hn : Forall (fun o => body o <> End) l).
  { repeat constructor; [| | |done]; intros E; rewrite E in *; done. }
  destruct (tlvs_written l e Hl Hwe) as (w0 & Hs0 & Hlen). rewrite Hs in Hs0. injection Hs0 as <-.
  destruct (tlvs_wire l e (S (length (w ++ rest))) [] rest Hl Hwe He Hn) as (w' & Hs' & _ & Hp').
  { pose proof (lldp_len_bound l Hl). pose proof (lldp_len_app l [e]) as Ea. rewrite lldp_len_cons in Ea. change (lldp_len []) with 0 in Ea.
    pose proof (wf_len _ Hwe). rewrite length_app. lia. }
  cbn [app] in Hs'. unfold serialize in Hs. rewrite Hs in Hs'. injection Hs' as <-.
  split; [|done]. unfold parser, _parser. rewrite Hp'. cbn [app mbind res_bind].
  assert (Hv : _tlvs_valid (l ++ [e]) = true).
  { unfold _tlvs_valid, type_at. rewrite length_app. cbn [length].
    replace (length l + 1 - 1)%nat with (length l) by lia.
    rewrite (lookup_app_r l [e] (length l)), Nat.sub_diag by lia. cbn. rewrite Hc, Hp, Ht, He. done. }
  rewrite Hv. unfold _tlvs_len_valid. rewrite (proj2 (Nat.leb_le _ _)) by (rewrite length_app; cbn; lia).
  done.
Qed.

End LldpFacts.

Module LldpClaims.
Import LldpFacts.

(** A data unit of well-formed TLVs in the prescribed order is written, and what is
    written, followed by any bytes (the padding of a frame), is parsed back to the
    same TLVs with those bytes left over. *)
Theorem lldp_roundtrip (c p t e : tlv) (opt : list tlv) (rest : bytes)
    (Hc : tlv_type (body c) = LLDP_TLV_CHASSIS_ID) (Hp : tlv_type (body p) = LLDP_TLV_PORT_ID)
    (Ht : tlv_type (body t) = LLDP_TLV_TTL) (He : body e = End)
    (Hopt : Forall (fun o => body o <> End) opt) (Hwf : Forall wf (c :: p :: t :: opt ++ [e])) :
  exists w, serialize (c :: p :: t :: opt ++ [e]) = Ok w
    /\ parser (w ++ rest) = Some (Some (c :: p :: t :: opt ++ [e]), rest)
    /\ lldp_len (c :: p :: t :: opt ++ [e]) = Z.of_nat (length w).
Proof.
  destruct (tlvs_written (c :: p :: t :: opt) e) as (w & Hs & _).
  { by apply (Forall_app _ (c :: p :: t :: opt) [e]) in Hwf as [? _]. }
  { apply (Forall_app _ (c :: p :: t :: opt) [e]) in Hwf as [_ ?]. by apply Forall_singleton. }
  exists w. split; [exact Hs|]. by apply (tlvs_roundtrip c p t e opt).
Qed.

Definition sample : list tlv :=
  [Tlv 515 3 (ChassisID 7 [65; 66]); Tlv 1026 2 (PortID 2 [9]); Tlv 1538 2 (TTL 120);
   Tlv 4110 14 (ManagementAddress 5 1 [10; 0; 0; 1] 2 7 2 [1; 3]); new_End].

Lemma lldp_roundtrip_witness :
  Forall wf sample
  /\ exists w, serialize sample = Ok w /\ parser (w ++ [0; 0]) = Some (Some sample, [0; 0]).
Proof.
  assert (H : Forall wf sample) by (repeat constructor; vm_compute; congruence).
  split; [exact H|].
  destruct (lldp_roundtrip (Tlv 515 3 (ChassisID 7 [65; 66])) (Tlv 1026 2 (PortID 2 [9]))
    (Tlv 1538 2 (TTL 120)) new_End [Tlv 4110 14 (ManagementAddress 5 1 [10; 0; 0; 1] 2 7 2 [1; 3])]
    [0; 0]) as (w & H1 & H2 & _); try done.
  - repeat constructor. discriminate.
  - by exists w.
Defined.

(** The parser returns on every input.  What it accepts begins with chassis id, port
    id and time to live and ends with the end TLV, and the bytes it leaves are the end
    of the input; whatever it refuses it leaves as it was. *)
Theorem lldp_parser_total (buf : bytes) :
  exists r rest, parser buf = Some (r, rest)
    /\ match r with
       | None => rest = buf
       | Some tlvs => (4 <= length tlvs)%nat /\ _tlvs_valid tlvs = true /\ suffix rest buf
       end.
Proof.
  unfold parser, _parser.
  destruct (parse_tlvs_total (S (length buf)) buf [] ltac:(lia)) as [[[tlvs rest]|x] Hr]; rewrite Hr.
  - cbn [mbind res_bind]. unfold py_assert. destruct (_tlvs_len_valid tlvs) eqn:E1; cbn [mbind res_bind];
      [destruct (_tlvs_valid tlvs) eqn:E2; cbn [mbind res_bind]|]; eexists _, _; split; try done.
    split; [by apply Nat.leb_le in E1|]. split; [done|]. by eapply parse_tlvs_suffix.
  - cbn [mbind res_bind]. by eexists _, _.
Qed.

(** The information of an organizationally specific TLV is counted in its length but
    not written: the bytes announce more than there are, and a parser that reads them
    alone refuses them. *)
Theorem organizational_info_lost (oui info : bytes) (s : Z) (t : tlv) (w : bytes)
    (Hn : new_OrganizationallySpecific oui s info = Ok t) (Hi : info <> [])
    (Hw : serialize_tlv t = Ok w) :
  len t = 4 + Z.of_nat (length info) /\ length w = 6%nat /\ parse_tlv w = Err AssertionError.
Proof.
  unfold new_OrganizationallySpecific, make in Hn. apply bind_Ok in Hn as ([] & Ha & [= <-]).
  cbn [len]. split; [done|]. unfold serialize_tlv in Hw. cbn [body typelen] in Hw.
  set (l := 4 + Z.of_nat (length info)) in *.
  assert (Hl : 4 < l <= 511).
  { unfold py_assert, _len_valid in Ha. destruct info; [done|]. cbn [length] in *.
    cbn [len_bounds fst snd] in Ha. destruct (_ && _) eqn:E; [lia|done]. }
  set (tl := Z.lor _ l) in *.
  destruct (typelen_fields LLDP_TLV_ORGANIZATIONALLY_SPECIFIC l ltac:(done) ltac:(lia)) as (W & E1 & E2).
  fold tl in W, E1, E2. fmt_eval. pose proof (fpack_length _ _ _ Hw) as L. split; [done|].
  assert (exists p, w = be_encode 2 tl ++ p) as [p ->].
  { unfold fpack in Hw. cbn [f_codes f_order pack_codes] in Hw. rewrite W in Hw.
    apply bind_Ok in Hw as (r & _ & [= <-]). by exists r. }
  assert (Hp2 : fpack (Format Big [Fi 2]) [VInt tl] = Ok (be_encode 2 tl)) by (by packs).
  unfold parse_tlv, get_type, basic_init, LLDP_TLV_TYPELEN_STR, LLDP_TLV_SIZE. unpacks.
  rewrite E1. cbn [known_type]. change (known_type LLDP_TLV_ORGANIZATIONALLY_SPECIFIC) with true.
  rewrite Z.eqb_refl, E2. cbn [py_assert mbind res_bind].
  rewrite (proj2 (Z.leb_gt _ _)) by (rewrite L; cbn; lia). done.
Qed.

Lemma organizational_info_lost_witness :
  exists t w, new_OrganizationallySpecific [0; 18; 187] 1 [5; 6] = Ok t
    /\ serialize_tlv t = Ok w /\ parse_tlv w = Err AssertionError.
Proof.
  eexists _, _. split; [vm_compute; reflexivity|]. split; [vm_compute; reflexivity|].
  apply (organizational_info_lost [0; 18; 187] [5; 6] 1 (Tlv 65030 6 (OrganizationallySpecific [0; 18; 187] 1 (Some [5; 6])))
    [254; 6; 0; 18; 187; 1]); [reflexivity|discriminate|vm_compute; reflexivity].
Defined.

End LldpClaims.
