(* ===== verification/OxmUser.v ===== *)
(** * User values of match fields (ryu/ofproto/oxx_fields.py, ryu/lib/type_desc.py)

    The layer between the keyword arguments of a match and the on-wire bytes of
    Oxm: the conversion of user values by type descriptor, field lookup by name
    and by number, normalization of masked values, and the constructor of a match
    with its ordering of fields ([OFPMatch.__init__], new API).  Text addresses are
    converted by [AddrConv]; unknown fields are shown in base64. *)

From Stdlib Require Import ZArith Lia Ascii String Sorted.
From stdpp Require Import base list gmap strings numbers pretty.
From S2P Require Import Prelude Struct OfpMsg Oxm PktUtils.

#[local] Open Scope Z_scope.
#[local] Open Scope list_scope.

(** ** Base64 (Python's base64 module, for [UnknownType]) *)

Module Base64.

Definition alphabet : string :=
  "ABCDEFGHIJKLMNOPQRSTUVWXYZabcdefghijklmnopqrstuvwxyz0123456789+/".

Definition b64char (n : Z) : ascii := default "A"%char (String.get (Z.to_nat n) alphabet).

Definition b64val (c : ascii) : option Z :=
  let n := Z.of_nat (nat_of_ascii c) in
  if (65 <=? n) && (n <=? 90) then Some (n - 65)
  else if (97 <=? n) && (n <=? 122) then Some (n - 71)
  else if (48 <=? n) && (n <=? 57) then Some (n + 4)
  else if n =? 43 then Some 62
  else if n =? 47 then Some 63
  else None.

Definition quad (a b c d : ascii) (s : string) : string :=
  String a (String b (String c (String d s))).

Fixpoint b64encode (b : bytes) : string :=
  match b with
  | [] => EmptyString
  | [x] => quad (b64char (x / 4)) (b64char ((x mod 4) * 16)) "=" "=" EmptyString
  | [x; y] => quad (b64char (x / 4)) (b64char ((x mod 4) * 16 + y / 16))
                (b64char ((y mod 16) * 4)) "=" EmptyString
  | x :: y :: z :: r =>
      quad (b64char (x / 4)) (b64char ((x mod 4) * 16 + y / 16))
        (b64char ((y mod 16) * 4 + z / 64)) (b64char (z mod 64)) (b64encode r)
  end.

(** The next character of the alphabet or pad sign is a pad sign. *)
Fixpoint pad_follows (s : string) : bool :=
  match s with
  | EmptyString => false
  | String c s =>
      if decide (c = "="%char) then true
      else match b64val c with Some _ => false | None => pad_follows s end
  end.

(** binascii.a2b_base64: other characters are skipped, a pad sign ends the input
    when the quad allows it, and bits left over are an error. *)
Fixpoint a2b_base64 (s : string) (quad_pos leftbits leftchar : Z) (out : bytes) :
    res bytes :=
  match s with
  | EmptyString => if leftbits =? 0 then Ok out else Err TypeError
  | String c s' =>
      if decide (c = "="%char) then
        if (quad_pos <? 2) || ((quad_pos =? 2) && negb (pad_follows s'))
        then a2b_base64 s' quad_pos leftbits leftchar out
        else Ok out
      else match b64val c with
           | None => a2b_base64 s' quad_pos leftbits leftchar out
           | Some v =>
               let quad_pos := Z.land (quad_pos + 1) 3 in
               let leftchar := leftchar * 64 + v in
               let leftbits := leftbits + 6 in
               if 8 <=? leftbits then
                 let leftbits := leftbits - 8 in
                 a2b_base64 s' quad_pos leftbits (leftchar mod 2 ^ leftbits)
                   (out ++ [Z.land (Z.shiftr leftchar leftbits) 255])
               else a2b_base64 s' quad_pos leftbits leftchar out
           end
  end.

Definition b64decode (s : string) : res bytes := a2b_base64 s 0 0 0 [].

Example b64_examples :
  b64encode [77; 97; 110] = "TWFu"%string /\ b64encode [77; 97] = "TWE="%string
  /\ b64encode [77] = "TQ=="%string /\ b64decode "TW Fu" = Ok [77; 97; 110]
  /\ b64decode "TWE=" = Ok [77; 97] /\ b64decode "TQ==" = Ok [77]
  /\ b64decode "TQ=" = Err TypeError.
Proof. vm_compute. repeat split. Qed.

(** The alphabet and its inverse. *)
Lemma b64val_char n : 0 <= n < 64 -> b64char n <> "="%char /\ b64val (b64char n) = Some n.
Proof.
  intros Hn.
  assert (H : forallb (fun k => let n := Z.of_nat k in
              bool_decide (b64char n <> "="%char /\ b64val (b64char n) = Some n))
              (seq 0 64) = true) by (vm_compute; reflexivity).
  rewrite forallb_forall in H. specialize (H (Z.to_nat n)).
  rewrite in_seq, Z2Nat.id in H by lia. apply bool_decide_eq_true in H; [done|lia].
Qed.

(** One character read: the six bits are shifted in. *)
Lemma a2b_char n s q lb lc out :
  0 <= n < 64 ->
  a2b_base64 (String (b64char n) s) q lb lc out
  = (let q := Z.land (q + 1) 3 in let lc := lc * 64 + n in let lb := lb + 6 in
     if 8 <=? lb
     then a2b_base64 s q (lb - 8) (lc mod 2 ^ (lb - 8))
            (out ++ [Z.land (Z.shiftr lc (lb - 8)) 255])
     else a2b_base64 s q lb lc out).
Proof.
  intros Hn. destruct (b64val_char n Hn) as [Hc Hv]. cbn [a2b_base64].
  destruct (decide _); [done|]. by rewrite Hv.
Qed.

Local Ltac Zify.zify_post_hook ::= Z.div_mod_to_equations.

(** The byte that leaves the shift register and the bits that stay. *)
Lemma bits_out lc k x r :
  lc = x * 2 ^ k + r -> 0 <= k -> 0 <= r < 2 ^ k -> byte_ok x ->
  Z.land (Z.shiftr lc k) 255 = x /\ lc mod 2 ^ k = r.
Proof.
  intros -> Hk Hr Hx. rewrite shiftr_add by lia. change 255 with (Z.ones 8).
  rewrite Z.land_ones by lia. split; [by apply Z.mod_small|].
  rewrite Z.add_comm, Z_mod_plus_full. by apply Z.mod_small.
Qed.

(** Read one encoded character; [x] and [r] are the byte and the bits it yields. *)
Ltac a2b_next :=
  rewrite a2b_char by (unfold byte_ok in *; lia); cbn zeta;
  match goal with |- context [Z.land (?a + 1) 3] =>
    let v := eval vm_compute in (Z.land (a + 1) 3) in change (Z.land (a + 1) 3) with v end;
  match goal with |- context [8 <=? ?b] =>
    let v := eval vm_compute in (8 <=? b) in change (8 <=? b) with v end;
  cbv iota.
Ltac a2b_byte x r :=
  a2b_next;
  match goal with |- context [Z.shiftr ?lc ?k] =>
    let v := eval vm_compute in k in change k with v;
    let w := eval vm_compute in (2 ^ v) in
    destruct (bits_out lc v x r) as [-> ->];
    [change (2 ^ v) with w; unfold byte_ok in *; lia | lia
    | change (2 ^ v) with w; unfold byte_ok in *; lia | done |]
  end.

(** Decoding inverts encoding. *)
Lemma a2b_encode (b : bytes) : bytes_ok b ->
  forall out, a2b_base64 (b64encode b) 0 0 0 out = Ok (out ++ b).
Proof.
  induction b as [b IH] using (well_founded_induction (Wf_nat.well_founded_ltof _ (@length Z))).
  intros Hb out. unfold Wf_nat.ltof in IH. destruct b as [|x [|y [|z r]]].
  - cbn. by rewrite app_nil_r.
  - apply Forall_cons_1 in Hb as [Hx _]. cbn [b64encode]. unfold quad.
    a2b_next. a2b_byte x 0. reflexivity.
  - apply Forall_cons_1 in Hb as [Hx Hb]. apply Forall_cons_1 in Hb as [Hy _].
    cbn [b64encode]. unfold quad. a2b_next. a2b_byte x (y / 16). a2b_byte y 0.
    cbn. by rewrite <- app_assoc.
  - apply Forall_cons_1 in Hb as [Hx Hb]. apply Forall_cons_1 in Hb as [Hy Hb].
    apply Forall_cons_1 in Hb as [Hz Hr].
    cbn [b64encode]. unfold quad. a2b_next. a2b_byte x (y / 16). a2b_byte y (z / 64).
    a2b_byte z 0. rewrite IH; [|simpl; lia|done]. by rewrite <- !app_assoc.
Qed.

End Base64.

(** ** Conversion by type descriptor *)

#[global] Instance type_desc_eq_dec : EqDecision type_desc.
Proof. solve_decision. Defined.
#[global] Instance oxm_class_eq_dec : EqDecision oxm_class.
Proof. solve_decision. Defined.
#[global] Instance desc_eq_dec : EqDecision desc.
Proof. solve_decision. Defined.

(** A value as the user writes it: an integer or a text. *)
Inductive uval := UInt (i : Z) | UText (s : string).

#[global] Instance uval_eq_dec : EqDecision uval.
Proof. solve_decision. Defined.

(** The user form of a field: a value, or a value with a mask; [None] is kept. *)
Inductive uservalue := Plain (v : option uval) | Masked (v m : option uval).

#[global] Instance uservalue_eq_dec : EqDecision uservalue.
Proof. solve_decision. Defined.

(** netaddr's constructors also take integers. *)
Class IntConv := { int_to_bin : akind -> Z -> res bytes }.

Definition akind_of (t : type_desc) : option akind :=
  match t with
  | IntDescr _ => None | MacAddr => Some MAC | IPv4Addr => Some IPV4 | IPv6Addr => Some IPV6
  end.

Section User.
Context `{C : AddrConv} `{I : IntConv}.

(** [t.from_user]; [None] is [UnknownType]. *)
Definition type_from_user (t : option type_desc) (v : uval) : res bytes :=
  match t with
  | None => match v with UText s => Base64.b64decode s | UInt _ => Err TypeError end
  | Some (IntDescr size) =>
      match v with UInt i => Ok (int_from_user size i) | UText _ => Err TypeError end
  | Some t =>
      match akind_of t, v with
      | Some k, UText s => text_to_bin k s
      | Some k, UInt i => int_to_bin k i
      | None, _ => Err TypeError
      end
  end.

(** [t.to_user] *)
Definition type_to_user (t : option type_desc) (b : bytes) : res uval :=
  match t with
  | None => Ok (UText (Base64.b64encode b))
  | Some (IntDescr size) => i ← int_to_user size b; Ok (UInt i)
  | Some t =>
      match akind_of t with
      | Some k => s ← bin_to_text k b; Ok (UText s)
      | None => Err TypeError
      end
  end.

(** ** Lookup by name and number *)

Definition is_space (c : ascii) : bool :=
  let n := nat_of_ascii c in ((9 <=? n) && (n <=? 13) || (n =? 32))%nat.

Fixpoint skip_spaces (s : list ascii) : list ascii :=
  match s with c :: s' => if is_space c then skip_spaces s' else s | [] => [] end.

Fixpoint decimal (s : list ascii) (acc : Z) : res Z :=
  match s with
  | [] => Ok acc
  | c :: s => match digit_of c with
              | Some d => decimal s (acc * 10 + Z.of_nat d)
              | None => Err ValueError
              end
  end.

(** [int(s)] in base ten: blanks around, an optional sign, at least one digit. *)
Definition py_int (s : list ascii) : res Z :=
  let s := reverse (skip_spaces (reverse (skip_spaces s))) in
  let '(sign, digits) :=
    match s with
    | "-"%char :: s => (-1, s)
    | "+"%char :: s => (1, s)
    | _ => (1, s)
    end in
  match digits with
  | [] => Err ValueError
  | _ => n ← decimal digits 0; Ok (sign * n)
  end.

(** The text up to the next underscore. *)
Fixpoint before_underscore (s : list ascii) : list ascii :=
  match s with
  | [] => []
  | c :: s => if decide (c = "_"%char) then [] else c :: before_underscore s
  end.

Fixpoint strip_prefix (p s : list ascii) : option (list ascii) :=
  match p, s with
  | [], _ => Some s
  | a :: p, b :: s => if decide (a = b) then strip_prefix p s else None
  | _ :: _, [] => None
  end.

Definition _get_field_info_by_name (name : string) : res (onum * option type_desc) :=
  match desc_by_name oxm_types name with
  | Some f => Ok (num f, Some (d_type f))
  | None =>
      match strip_prefix (String.list_ascii_of_string "field_")
              (String.list_ascii_of_string name) with
      | Some rest => n ← py_int (before_underscore rest); Ok (NumInt n, None)
      | None => Err KeyError
      end
  end.

Definition _from_user_header (name : string) : res onum :=
  '(n, _) ← _get_field_info_by_name name; Ok n.

Definition opt_from_user (t : option type_desc) (v : option uval) : res (option bytes) :=
  match v with
  | None => Ok None
  | Some v => b ← type_from_user t v; Ok (Some b)
  end.

(** The internal form of a field; a missing value is [None]. *)
Definition ifield := (onum * option bytes * option bytes)%type.

Definition _from_user (name : string) (user_value : uservalue) : res ifield :=
  '(n, t) ← _get_field_info_by_name name;
  let '(value, mask) :=
    match user_value with Plain v => (v, None) | Masked v m => (v, m) end in
  value ← opt_from_user t value;
  mask ← opt_from_user t mask;
  Ok (n, value, mask).

Definition _get_field_info_by_number (n : onum) : res (string * option type_desc) :=
  match field_desc oxm_types n with
  | Some f => Ok (d_name f, Some (d_type f))
  | None =>
      match n with
      | NumInt n => Ok (("field_" +:+ pretty n)%string, None)
      | NumExp _ _ => Err KeyError
      end
  end.

Definition _to_user_header (n : onum) : res string :=
  '(name, _) ← _get_field_info_by_number n; Ok name.

Definition _to_user (n : onum) (v m : option bytes) : res (string * uservalue) :=
  '(name, t) ← _get_field_info_by_number n;
  value ← match v with
          | Some v =>
              match t with
              | Some t' => if (type_size t' =? length v)%nat then Ok tt else Err GenericException
              | None => Ok tt
              end ;;
              u ← type_to_user t v; Ok (Some u)
          | None => Ok None
          end;
  match m with
  | None => Ok (name, Plain value)
  | Some m => um ← type_to_user t m; Ok (name, Masked value (Some um))
  end.

(** [x & y for (x, y) in zip(v, m)] *)
Definition bytes_and (v m : bytes) : bytes := zip_with Z.land v m.

(** [_normalize_user]: whatever the conversions raise is swallowed. *)
Definition _normalize_user (k : string) (uv : uservalue) : res (string * uservalue) :=
  match _from_user k uv with
  | Err _ => Ok (k, uv)
  | Ok (n, v, m) =>
      v ← match v, m with
          | Some v, Some m => Ok (Some (bytes_and v m))
          | None, Some _ => Err TypeError
          | v, None => Ok v
          end;
      match _to_user n v m with
      | Err _ => Ok (k, uv)
      | Ok (k2, uv2) => py_assert (bool_decide (k2 = k)) ;; Ok (k2, uv2)
      end
  end.

(** ** The constructor of a match *)

Definition sort_key (f : ifield) : Z :=
  match f.1.1 with NumInt n => n | NumExp exp_id _ => exp_id end.

(** [list.sort] is stable. *)
Fixpoint insert_field (f : ifield) (l : list ifield) : list ifield :=
  match l with
  | [] => [f]
  | g :: l' => if sort_key f <=? sort_key g then f :: l else g :: insert_field f l'
  end.

Definition sort_fields (l : list ifield) : list ifield := foldr insert_field [] l.

(** [OFPMatch.__init__] with keyword arguments, [kwargs] in the order in which the dictionary of the
    normalized arguments yields its items. *)
Definition match_init (kwargs : list (string * uservalue)) :
    res (list (string * uservalue)) :=
  kwargs ← mapM_res (fun '(k, v) => _normalize_user k v) kwargs;
  fields ← mapM_res (fun '(k, v) => _from_user k v) kwargs;
  mapM_res (fun '(n, v, m) => _to_user n v m) (sort_fields fields).

(** ** Serialization of the user form *)

(** [oxm_serialize]: the length of a missing value is taken after the header. *)
Definition serialize_ifield (f : ifield) (buf : bytes) (offset : nat) : res (bytes * nat) :=
  match f with
  | (n, Some v, m) => serialize oxm_types n v m buf offset
  | (n, None, _) => make_exp_hdr oxm_types n ;; Err TypeError
  end.

Definition serialize_ifields (fields : list ifield) (buf : bytes) (offset : nat) :
    res (bytes * nat) :=
  foldM (fun '(buf, off) f => '(buf, l) ← serialize_ifield f buf off; Ok (buf, off + l)%nat)
    (buf, offset) fields.

(** [OFPMatch.serialize], new API: the buffer and the length it returns. *)
Definition user_match_serialize (fields2 : list (string * uservalue)) (buf : bytes)
    (offset : nat) : res (bytes * nat) :=
  fields ← mapM_res (fun '(k, uv) => _from_user k uv) fields2;
  '(buf, field_offset) ← serialize_ifields fields buf (offset + calcsize "!HH");
  let length := (field_offset - offset)%nat in
  buf ← msg_pack_into "!HH" buf offset [VInt OFPMT_OXM; VInt (Z.of_nat length)];
  let pad_len := Z.to_nat (round_up (Z.of_nat length) 8 - Z.of_nat length) in
  buf ← fmsg_pack_into (Format Big [Fx pad_len]) buf field_offset [];
  Ok (buf, length + pad_len)%nat.

(** Queries of a match. *)
Definition match_dict (fields2 : list (string * uservalue)) : gmap string uservalue :=
  list_to_map (reverse fields2).

Definition match_getitem (fields2 : list (string * uservalue)) (key : string) : res uservalue :=
  or_raise KeyError (match_dict fields2 !! key).

Definition match_contains (fields2 : list (string * uservalue)) (key : string) : bool :=
  bool_decide (is_Some (match_dict fields2 !! key)).

Definition match_get (fields2 : list (string * uservalue)) (key : string)
    (dflt : uservalue) : uservalue :=
  default dflt (match_dict fields2 !! key).

End User.

(** ** Properties *)

Module OxmUserFacts.
Import OxmFacts.
Section Facts.
Context `{C : AddrConv} `{I : IntConv} `{!AddrConvLaws C}.

(** A user value in the form the library prints it. *)
Definition uval_ok (t : type_desc) (v : uval) : Prop :=
  match t, v with
  | IntDescr size, UInt i => 0 <= i < 256 ^ Z.of_nat size
  | IntDescr _, UText _ => False
  | _, UText s => match akind_of t with Some k => canonical k s | None => False end
  | _, UInt _ => False
  end.

Lemma int_user_bytes size i :
  0 <= i < 256 ^ Z.of_nat size ->
  int_from_user size i = be_encode size i
  /\ int_to_user size (be_encode size i) = Ok i.
Proof.
  intros Hi. unfold int_from_user, int_to_user.
  rewrite int_from_user_loop_spec, app_nil_r, Z.mod_small by done. split; [done|].
  pose proof (int_to_user_loop_spec (be_encode size i) 0 []) as H.
  rewrite be_encode_length, app_nil_r in H. rewrite H. f_equal. by apply be_decode_encode.
Qed.

(** User to wire and back ... *)
Lemma type_from_to t v : uval_ok t v ->
  exists b, type_from_user (Some t) v = Ok b /\ length b = type_size t /\ bytes_ok b
    /\ type_to_user (Some t) b = Ok v.
Proof.
  assert (Haddr : forall k s, canonical k s ->
    exists b, text_to_bin k s = Ok b /\ length b = alen k /\ bytes_ok b
      /\ bin_to_text k b = Ok s).
  { intros k s (b & Hb & Ht). exists b. destruct (text_to_bin_ok k s b Hb). done. }
  destruct t as [size| | |], v as [i|s]; intros H; try done; simpl in H.
  1: { destruct (int_user_bytes size i H) as [E1 E2]. exists (be_encode size i).
       cbn. rewrite E1, E2. split_and!; try done; [apply be_encode_length|apply be_encode_ok]. }
  all: destruct (Haddr _ _ H) as (b & Hb & Hl & Hok & Ht); exists b; cbn; rewrite Hb, Ht; done.
Qed.

(** ... and wire to user and back. *)
Lemma type_to_from t b : length b = type_size t -> bytes_ok b ->
  exists v, type_to_user (Some t) b = Ok v /\ uval_ok t v
    /\ type_from_user (Some t) v = Ok b.
Proof.
  intros Hl Hb.
  assert (Haddr : forall k, length b = alen k ->
    exists s, bin_to_text k b = Ok s /\ canonical k s /\ text_to_bin k s = Ok b).
  { intros k Hk. destruct (bin_to_text_ok k b Hk Hb) as (s & Hs & Ht).
    exists s. split; [done|]. split; [by exists b|done]. }
  destruct t as [size| | |]; simpl in Hl.
  1: { exists (UInt (be_decode b)).
       assert (Hr : 0 <= be_decode b < 256 ^ Z.of_nat size)
         by (rewrite <- Hl; by apply be_decode_bound).
       destruct (int_user_bytes size _ Hr) as [E1 E2].
       assert (Eb : be_encode size (be_decode b) = b)
         by (rewrite <- Hl; by apply be_encode_decode).
       rewrite Eb in E1, E2. cbn. by rewrite E1, E2. }
  - destruct (Haddr MAC Hl) as (s & Hs & Hc & Ht). exists (UText s). cbn. by rewrite Hs, Ht.
  - destruct (Haddr IPV4 Hl) as (s & Hs & Hc & Ht). exists (UText s). cbn. by rewrite Hs, Ht.
  - destruct (Haddr IPV6 Hl) as (s & Hs & Hc & Ht). exists (UText s). cbn. by rewrite Hs, Ht.
Qed.

(** The tables are bijective: a field is found by its name and by its number. *)
Lemma tables_agree d : d ∈ oxm_types ->
  desc_by_name oxm_types (d_name d) = Some d /\ field_desc oxm_types (num d) = Some d.
Proof.
  assert (H : forallb (fun d => bool_decide (desc_by_name oxm_types (d_name d) = Some d)
                && bool_decide (field_desc oxm_types (num d) = Some d)) oxm_types = true)
    by (vm_compute; reflexivity).
  rewrite forallb_forall in H. intros Hd%list_elem_of_In. specialize (H d Hd).
  apply andb_true_iff in H as [H1%bool_decide_eq_true H2%bool_decide_eq_true]. done.
Qed.

(** A keyword argument that names a field of the table and fits it. *)
Definition arg_ok (a : string * uservalue) : Prop :=
  exists d, d ∈ oxm_types /\ a.1 = d_name d
    /\ match a.2 with
       | Plain (Some v) => uval_ok (d_type d) v
       | Masked (Some v) (Some m) => uval_ok (d_type d) v /\ uval_ok (d_type d) m
       | _ => False
       end.

(** The internal form of an argument: number, value bytes (masked when there is a
    mask) and mask bytes. *)
Definition internal (a : string * uservalue) (f : ifield) : Prop :=
  exists d v m, d ∈ oxm_types /\ a.1 = d_name d
    /\ f = (num d, Some (match m with Some m => bytes_and v m | None => v end), m)
    /\ length v = type_size (d_type d) /\ bytes_ok v
    /\ match a.2, m with
       | Plain (Some uv), None => type_from_user (Some (d_type d)) uv = Ok v
       | Masked (Some uv) (Some um), Some m =>
           type_from_user (Some (d_type d)) uv = Ok v
           /\ type_from_user (Some (d_type d)) um = Ok m
           /\ length m = length v /\ bytes_ok m
       | _, _ => False
       end.

Lemma arg_internal a : arg_ok a -> exists f, internal a f.
Proof.
  destruct a as [k uv]. intros (d & Hd & Hk & H). simpl in *.
  destruct uv as [[v|]|[v|] [m|]]; try done.
  - destruct (type_from_to _ _ H) as (b & Hb & Hl & Hok & _).
    eexists. exists d, b, None. split_and!; done.
  - destruct H as [Hv Hm]. destruct (type_from_to _ _ Hv) as (b & Hb & Hl & Hok & _).
    destruct (type_from_to _ _ Hm) as (mb & Hmb & Hml & Hmok & _).
    eexists. exists d, b, (Some mb). split_and!; try done. simpl. by rewrite Hml.
Qed.

Lemma bytes_and_ok v m : bytes_ok v -> bytes_ok m -> length m = length v ->
  length (bytes_and v m) = length v /\ bytes_ok (bytes_and v m).
Proof.
  intros Hv Hm Hl. unfold bytes_and. split; [rewrite length_zip_with; lia|].
  revert m Hm Hl. induction Hv as [|x v Hx Hv IH]; intros [|y m] Hm Hl; try done;
    [by constructor..|].
  - apply Forall_cons_1 in Hm as [Hy Hm]. cbn. constructor; [|apply IH; [done|simpl in Hl; lia]].
    unfold byte_ok in *. split; [apply Z.land_nonneg; lia|].
    change 256 with (2 ^ 8). rewrite <- (Z.mod_small y (2 ^ 8)) by (change (2 ^ 8) with 256; lia).
    rewrite <- Z.land_ones, Z.land_assoc, Z.land_ones by lia. by apply Z.mod_pos_bound.
Qed.

Lemma bytes_and_idem v m : bytes_and (bytes_and v m) m = bytes_and v m.
Proof.
  unfold bytes_and. revert m. induction v as [|x v IH]; intros [|y m]; cbn; try done.
  by rewrite <- Z.land_assoc, Z.land_diag, IH.
Qed.

(** A wire field of the table: its user form exists and converts back. *)
Definition wire_ok (f : ifield) : Prop :=
  exists d v m, d ∈ oxm_types /\ f = (num d, Some v, m)
    /\ length v = type_size (d_type d) /\ bytes_ok v
    /\ match m with Some m => length m = length v /\ bytes_ok m | None => True end.

Lemma internal_wire a f : internal a f -> wire_ok f.
Proof.
  intros (d & v & m & Hd & _ & -> & Hl & Hb & H).
  eexists d, _, m. split; [done|]. split; [done|].
  destruct m as [m|]; [|by destruct (a.2) as [[?|]|[?|] [?|]]].
  destruct (a.2) as [[?|]|[?|] [?|]]; try done. destruct H as (_ & _ & Hml & Hmb).
  destruct (bytes_and_ok v m Hb Hmb Hml) as [E1 E2]. rewrite E1. done.
Qed.

Lemma from_user_known d uv : d ∈ oxm_types ->
  _from_user (d_name d) uv
  = (let '(value, mask) := match uv with Plain v => (v, None) | Masked v m => (v, m) end in
     value ← opt_from_user (Some (d_type d)) value;
     mask ← opt_from_user (Some (d_type d)) mask;
     Ok (num d, value, mask)).
Proof.
  intros Hd. unfold _from_user, _get_field_info_by_name.
  destruct (tables_agree d Hd) as [-> _]. done.
Qed.

Lemma wire_to_user f : wire_ok f ->
  exists k uv, (let '(n, v, m) := f in _to_user n v m) = Ok (k, uv)
    /\ arg_ok (k, uv) /\ _from_user k uv = Ok f.
Proof.
  intros (d & v & m & Hd & -> & Hl & Hb & Hm).
  destruct (type_to_from _ _ Hl Hb) as (u & Hu & Huok & Hfu).
  unfold _to_user, _get_field_info_by_number.
  destruct (tables_agree d Hd) as [_ ->]. cbn [mbind res_bind].
  rewrite Hl, Nat.eqb_refl. cbn [mbind res_bind]. rewrite Hu. cbn [mbind res_bind].
  destruct m as [m|].
  - destruct Hm as [Hml Hmb].
    destruct (type_to_from (d_type d) m) as (um & Hum & Humok & Hfm); [congruence|done|].
    rewrite Hum. cbn [mbind res_bind]. exists (d_name d), (Masked (Some u) (Some um)).
    split; [done|]. split; [exists d; split_and!; done|].
    rewrite from_user_known by done. cbn [opt_from_user mbind res_bind]. rewrite Hfu. cbn [mbind res_bind]. by rewrite Hfm.
  - exists (d_name d), (Plain (Some u)). split; [done|]. split; [exists d; split_and!; done|].
    rewrite from_user_known by done. cbn [opt_from_user mbind res_bind]. by rewrite Hfu.
Qed.

(** Normalization applies the mask. *)
Lemma normalize_internal a f : internal a f ->
  exists uv, _normalize_user a.1 a.2 = Ok (a.1, uv) /\ _from_user a.1 uv = Ok f.
Proof.
  intros Hi. pose proof (internal_wire _ _ Hi) as Hw.
  destruct Hi as (d & v & m & Hd & Hk & -> & Hl & Hb & H).
  destruct (wire_to_user _ Hw) as (k & uv & Htu & Hok & Hfu).
  assert (k = a.1) as ->.
  { rewrite Hk. unfold _to_user, _get_field_info_by_number in Htu.
    destruct (tables_agree d Hd) as [_ E]. rewrite E in Htu. cbn [mbind res_bind] in Htu.
    apply bind_Ok in Htu as (x & _ & Htu). destruct m; inv_ok; congruence. }
  exists uv. split; [|done].
  assert (Hf0 : _from_user a.1 a.2 = Ok (num d, Some v, m)).
  { rewrite Hk, from_user_known by done. destruct m, (a.2) as [[?|]|[?|] [?|]]; try done.
    - destruct H as (H1 & H2 & _). cbn [opt_from_user mbind res_bind]. rewrite H1. cbn [mbind res_bind]. by rewrite H2.
    - cbn [opt_from_user mbind res_bind]. by rewrite H. }
  unfold _normalize_user. rewrite Hf0.
  destruct m as [m|]; cbn [mbind res_bind]; rewrite Htu, bool_decide_eq_true_2 by done; done.
Qed.

(** ** The constructor *)

Lemma insert_field_perm f l : insert_field f l ≡ₚ f :: l.
Proof.
  induction l as [|g l IH]; cbn; [done|]. destruct (_ <=? _); [done|]. rewrite IH. constructor.
Qed.

Lemma sort_fields_perm l : sort_fields l ≡ₚ l.
Proof.
  induction l as [|f l IH]; cbn; [done|]. by rewrite insert_field_perm, IH.
Qed.

Definition key_le (f g : ifield) : Prop := sort_key f <= sort_key g.

Lemma insert_field_sorted f l :
  StronglySorted key_le l -> StronglySorted key_le (insert_field f l).
Proof.
  induction l as [|g l IH]; intros Hs; cbn; [repeat constructor|].
  apply Sorted.StronglySorted_inv in Hs as [Hl Hg].
  destruct (Z.leb_spec (sort_key f) (sort_key g)).
  - constructor; [by constructor|]. constructor; [done|].
    eapply list.Forall_impl; [exact Hg|]. unfold key_le. intros; lia.
  - constructor; [by apply IH|]. rewrite insert_field_perm.
    constructor; [unfold key_le; lia|done].
Qed.

Lemma sort_fields_sorted l : StronglySorted key_le (sort_fields l).
Proof. induction l; cbn; [constructor|]. by apply insert_field_sorted. Qed.

(** Two sorted arrangements of the same fields with distinct keys are equal. *)
Lemma sorted_unique l1 l2 :
  l1 ≡ₚ l2 -> NoDup (sort_key <$> l1) -> StronglySorted key_le l1 ->
  StronglySorted key_le l2 -> l1 = l2.
Proof.
  revert l2. induction l1 as [|f l1 IH]; intros l2 Hp Hn H1 H2.
  - by apply Permutation_nil in Hp.
  - destruct l2 as [|g l2]; [by apply Permutation_sym, Permutation_nil in Hp|].
    apply Sorted.StronglySorted_inv in H1 as [H1' F1]. apply Sorted.StronglySorted_inv in H2 as [H2' F2].
    rewrite list.Forall_forall in F1, F2. cbn in Hn. apply list.NoDup_cons in Hn as [Hni Hn'].
    assert (f = g) as ->.
    { assert (Hg : g ∈ f :: l1) by (rewrite Hp; by left).
      assert (Hf : f ∈ g :: l2) by (rewrite <- Hp; by left).
      apply elem_of_cons in Hg as [E|Hg]; [done|].
      apply elem_of_cons in Hf as [E|Hf]; [done|].
      pose proof (F1 _ Hg). pose proof (F2 _ Hf). unfold key_le in *.
      exfalso. apply Hni. apply list_elem_of_fmap. exists g. split; [lia|done]. }
    f_equal. apply IH; try done. by apply Permutation_cons_inv in Hp.
Qed.

Lemma mapM_res_Forall2 {A B} (g : A -> res B) l l' :
  Forall2 (fun x y => g x = Ok y) l l' -> mapM_res g l = Ok l'.
Proof.
  induction 1 as [|x y l l' Hx _ IH]; [done|]. cbn. by rewrite Hx, IH.
Qed.

Lemma args_internal kwargs : Forall arg_ok kwargs -> exists fs, Forall2 internal kwargs fs.
Proof.
  induction 1 as [|a l Ha _ [fs IH]]; [by exists []|].
  destruct (arg_internal a Ha) as [f Hf]. exists (f :: fs). by constructor.
Qed.

Lemma normalize_args kwargs fs : Forall2 internal kwargs fs ->
  exists kw, mapM_res (fun '(k, v) => _normalize_user k v) kwargs = Ok kw
    /\ mapM_res (fun '(k, v) => _from_user k v) kw = Ok fs.
Proof.
  induction 1 as [|[k v] f l fs Hi _ (kw & H1 & H2)]; [by exists []|].
  destruct (normalize_internal _ _ Hi) as (uv & Hn & Hf). cbn [fst snd] in *.
  exists ((k, uv) :: kw). cbn. by rewrite Hn, H1, Hf, H2.
Qed.

Lemma wires_to_user fs : Forall wire_ok fs ->
  exists l, mapM_res (fun '(n, v, m) => _to_user n v m) fs = Ok l
    /\ mapM_res (fun '(k, v) => _from_user k v) l = Ok fs /\ Forall arg_ok l.
Proof.
  induction 1 as [|f fs Hf _ (l & H1 & H2 & H3)]; [by exists []|].
  destruct (wire_to_user f Hf) as (k & uv & Ht & Hok & Hfu).
  exists ((k, uv) :: l). destruct f as [[n v] m]. cbn. rewrite Ht, H1, Hfu, H2. auto.
Qed.

Lemma internal_wires kwargs fs : Forall2 internal kwargs fs -> Forall wire_ok fs.
Proof. induction 1; constructor; eauto using internal_wire. Qed.

(** The match built from keyword arguments: the user view of the fields, with
    masks applied, in the order of their keys. *)
Lemma match_init_spec kwargs fs : Forall2 internal kwargs fs ->
  exists l, match_init kwargs = Ok l
    /\ mapM_res (fun '(n, v, m) => _to_user n v m) (sort_fields fs) = Ok l
    /\ mapM_res (fun '(k, v) => _from_user k v) l = Ok (sort_fields fs) /\ Forall arg_ok l.
Proof.
  intros Hi. destruct (normalize_args _ _ Hi) as (kw & Hkw & Hfs).
  destruct (wires_to_user (sort_fields fs)) as (l & H1 & H2 & H3).
  { rewrite sort_fields_perm. by eapply internal_wires. }
  exists l. unfold match_init. rewrite Hkw. cbn [mbind res_bind]. rewrite Hfs. done.
Qed.

(** ** Serialization *)

(** The fields of the byte level. *)
Definition to_field (f : ifield) : field := (f.1.1, default [] f.1.2, f.2).

Lemma wire_well_sized f : wire_ok f -> well_sized (to_field f).
Proof.
  intros (d & v & m & Hd & -> & Hl & _ & Hm). exists d. cbn. split_and!; try done.
  by destruct m as [m|]; [destruct Hm|].
Qed.

Lemma serialize_ifields_fields fs buf off : Forall wire_ok fs ->
  serialize_ifields fs buf off = serialize_fields oxm_types (to_field <$> fs) buf off.
Proof.
  intros H. revert buf off. induction H as [|f fs Hf _ IH]; intros buf off; [done|].
  destruct Hf as (d & v & m & _ & -> & _). unfold serialize_ifields, serialize_fields in *.
  cbn [foldM fmap list_fmap to_field fst snd default from_option serialize_ifield id].
  destruct (serialize oxm_types (num d) v m buf off) as [[b l]|]; [|done].
  cbn [mbind res_bind]. apply IH.
Qed.

Lemma user_match_serialize_fields l fs buf off :
  mapM_res (fun '(k, v) => _from_user k v) l = Ok fs -> Forall wire_ok fs ->
  user_match_serialize l buf off = match_serialize oxm_types (to_field <$> fs) buf off.
Proof.
  intros Hl Hw. unfold user_match_serialize, match_serialize. rewrite Hl. cbn [mbind res_bind].
  by rewrite serialize_ifields_fields.
Qed.

End Facts.
End OxmUserFacts.
