(* ===== verification/OfpMatch.v ===== *)
(** * Matches of OpenFlow 1.3 (OFPMatch, OFPMatchField and the MT classes)

    ryu/ofproto/ofproto_v1_3_parser.py keeps two interfaces of a match: keyword
    arguments (OxmUser) and the older one, whose setters record values in a [Flow]
    and masks in a [FlowWildcards] object and whose fields are objects of one class
    per OXM type.  This file has the field classes, the setters, both serializers
    and the parser, and relates the two interfaces. *)

From Stdlib Require Import ZArith Lia.
From stdpp Require Import base list gmap strings numbers.
From S2P Require Import Prelude Struct OfpMsg Oxm PktUtils PktHeaders OxmUser.

(** ** Field classes *)

(** A value of the old interface: an integer, packed bytes, or the eight words of
    an IPv6 address. *)
Inductive fval := FInt (i : Z) | FBytes (b : bytes) | FList (l : list Z).

#[global] Instance fval_eq_dec : EqDecision fval.
Proof. solve_decision. Defined.

(** [if v:] *)
Definition truthy (v : fval) : bool :=
  match v with
  | FInt i => negb (i =? 0)
  | FBytes b => negb (bool_decide (b = []))
  | FList l => negb (bool_decide (l = []))
  end.

(** How a class parses and writes its value: as one packed value, with the VLAN
    present bit cleared, as the words of an IPv6 address (with or without a mask),
    or as three bytes. *)
Inductive mtkind := MTPlain | MTVlan | MTv6 | MTv6Nd | MTPbb.

Record mtcls := MT {
  mt_name : string; mt_field : string; pack_str : string; mt_masked : bool; mt_kind : mtkind }.

Definition MT_classes : list mtcls :=
  [
    MT "MTInPort" "in_port" "!I" false MTPlain;
    MT "MTMetadata" "metadata" "!Q" true MTPlain;
    MT "MTInPhyPort" "in_phy_port" "!I" false MTPlain;
    MT "MTEthDst" "eth_dst" "!6s" true MTPlain;
    MT "MTEthSrc" "eth_src" "!6s" true MTPlain;
    MT "MTEthType" "eth_type" "!H" false MTPlain;
    MT "MTVlanVid" "vlan_vid" "!H" true MTVlan;
    MT "MTVlanPcp" "vlan_pcp" "!B" false MTPlain;
    MT "MTIPDscp" "ip_dscp" "!B" false MTPlain;
    MT "MTIPECN" "ip_ecn" "!B" false MTPlain;
    MT "MTIPProto" "ip_proto" "!B" false MTPlain;
    MT "MTIPV4Src" "ipv4_src" "!I" true MTPlain;
    MT "MTIPV4Dst" "ipv4_dst" "!I" true MTPlain;
    MT "MTTCPSrc" "tcp_src" "!H" false MTPlain;
    MT "MTTCPDst" "tcp_dst" "!H" false MTPlain;
    MT "MTUDPSrc" "udp_src" "!H" false MTPlain;
    MT "MTUDPDst" "udp_dst" "!H" false MTPlain;
    MT "MTSCTPSrc" "sctp_src" "!H" false MTPlain;
    MT "MTSCTPDst" "sctp_dst" "!H" false MTPlain;
    MT "MTICMPV4Type" "icmpv4_type" "!B" false MTPlain;
    MT "MTICMPV4Code" "icmpv4_code" "!B" false MTPlain;
    MT "MTArpOp" "arp_op" "!H" false MTPlain;
    MT "MTArpSpa" "arp_spa" "!I" true MTPlain;
    MT "MTArpTpa" "arp_tpa" "!I" true MTPlain;
    MT "MTArpSha" "arp_sha" "!6s" true MTPlain;
    MT "MTArpTha" "arp_tha" "!6s" true MTPlain;
    MT "MTIPv6Src" "ipv6_src" "!8H" true MTv6;
    MT "MTIPv6Dst" "ipv6_dst" "!8H" true MTv6;
    MT "MTIPv6Flabel" "ipv6_flabel" "!I" true MTPlain;
    MT "MTMplsLabel" "mpls_label" "!I" false MTPlain;
    MT "MTICMPV6Type" "icmpv6_type" "!B" false MTPlain;
    MT "MTICMPV6Code" "icmpv6_code" "!B" false MTPlain;
    MT "MTIPv6NdTarget" "ipv6_nd_target" "!8H" false MTv6Nd;
    MT "MTIPv6NdSll" "ipv6_nd_sll" "!6s" false MTPlain;
    MT "MTIPv6NdTll" "ipv6_nd_tll" "!6s" false MTPlain;
    MT "MTMplsTc" "mpls_tc" "!B" false MTPlain;
    MT "MTMplsBos" "mpls_bos" "!B" false MTPlain;
    MT "MTPbbIsid" "pbb_isid" "!3B" true MTPbb;
    MT "MTTunnelId" "tunnel_id" "!Q" true MTPlain;
    MT "MTIPv6ExtHdr" "ipv6_exthdr" "!H" true MTPlain;
    MT "MTTCPFlags" "tcp_flags" "!H" true MTPlain ].

(** The attributes [OXM_OF_X], [OXM_OF_X_W] and [OFPXMT_OFB_X] that
    [oxm_fields.generate] adds; the name in lower case. *)
Definition OXM_OF_W (s : string) : Z :=
  match desc_by_name oxm_types s with
  | Some d => oxm_tlv_header_w (oxm_field d) (Z.of_nat (type_size (d_type d)))
  | None => 0
  end.

Definition OFPXMT_OFB (s : string) : Z :=
  match desc_by_name oxm_types s with Some d => oxm_field d | None => 0 end.

(** [OFPMatchField._FIELDS_HEADERS] *)
Definition headers_of (c : mtcls) : list Z :=
  OXM_OF (mt_field c) :: (if mt_masked c then [OXM_OF_W (mt_field c)] else []).

Definition _FIELDS_HEADERS (header : Z) : option mtcls :=
  List.find (fun c => bool_decide (header ∈ headers_of c)) MT_classes.

Module MatchField.

(** A field object; the generic class has neither value nor mask, and the classes
    without masked header do not keep one. *)
Record t := Mk {
  header : Z; cls : option mtcls; value : option fval; mask : option fval }.

Definition n_bytes (f : t) : Z := oxm_tlv_header_extract_length (header f).

Definition hasmask (header : Z) : bool := negb (oxm_tlv_header_extract_hasmask header =? 0).

Definition init (c : mtcls) (header : Z) (value : fval) (mask : option fval) : t :=
  Mk header (Some c) (Some value) (if mt_masked c then mask else None).

(** An unknown header makes the lookup yield [None], which is then called. *)
Definition make (header : Z) (value : fval) (mask : option fval) : res t :=
  match _FIELDS_HEADERS header with
  | Some c => Ok (init c header value mask)
  | None => Err TypeError
  end.

(** *** Serialization: the buffer and [self.length] *)

(** One positional argument of [struct.pack]; [None] and a list are no such values. *)
Definition pack_arg (v : option fval) : list pyval :=
  match v with Some (FInt i) => [VInt i] | Some (FBytes b) => [VBytes b] | _ => [] end.

Definition _put_header (f : t) (buf : bytes) (offset : nat) : res (bytes * nat) :=
  buf ← msg_pack_into "!I" buf offset [VInt (header f)]; Ok (buf, 4%nat).

(** [_put] packs the value, which [MTPbbIsid] splits into three bytes. *)
Definition _put (f : t) (c : mtcls) (buf : bytes) (offset : nat) (v : option fval)
    (length : nat) : res (bytes * nat) :=
  buf ← match mt_kind c with
        | MTPbb =>
            match v with
            | Some (FInt i) =>
                msg_pack_into (pack_str c) buf offset
                  [VInt (Z.land (Z.shiftr i 16) 0xff); VInt (Z.land (Z.shiftr i 8) 0xff);
                   VInt (Z.land (Z.shiftr i 0) 0xff)]
            | _ => Err TypeError
            end
        | _ => msg_pack_into (pack_str c) buf offset (pack_arg v)
        end;
  Ok (buf, length + Z.to_nat (n_bytes f))%nat.

Definition put (f : t) (c : mtcls) (buf : bytes) (offset : nat) (v : option fval) :
    res (bytes * nat) :=
  '(buf, length) ← _put_header f buf offset;
  _put f c buf (offset + length) v length.

Definition put_w (f : t) (c : mtcls) (buf : bytes) (offset : nat) (v m : option fval) :
    res (bytes * nat) :=
  '(buf, length) ← _put_header f buf offset;
  '(buf, length) ← _put f c buf (offset + length) v length;
  _put f c buf (offset + length) m length.

(** [*value] of something that is not a sequence raises; the characters of a byte
    string are no integers. *)
Definition _putv6 (f : t) (c : mtcls) (buf : bytes) (offset : nat) (v : fval) (length : nat) :
    res (bytes * nat) :=
  buf ← match v with
        | FList l => msg_pack_into (pack_str c) buf offset (VInt <$> l)
        | FBytes _ => Err StructError
        | FInt _ => Err TypeError
        end;
  Ok (buf, length + Z.to_nat (n_bytes f))%nat.

Definition putv6 (f : t) (c : mtcls) (buf : bytes) (offset : nat) (v : fval)
    (m : option fval) : res (bytes * nat) :=
  '(buf, length) ← _put_header f buf offset;
  '(buf, length) ← _putv6 f c buf (offset + length) v length;
  match m with
  | Some m => if truthy m then _putv6 f c buf (offset + length) m length else Ok (buf, length)
  | None => Ok (buf, length)
  end.

Definition serialize (f : t) (buf : bytes) (offset : nat) : res (bytes * nat) :=
  match cls f, value f with
  | Some c, Some v =>
      match mt_kind c with
      | MTv6 => putv6 f c buf offset v (mask f)
      | MTv6Nd => putv6 f c buf offset v None
      | _ =>
          if hasmask (header f) then
            if mt_masked c then put_w f c buf offset (Some v) (mask f) else Err AttributeError
          else put f c buf offset (Some v)
      end
  | _, _ => Err AttributeError
  end.

Definition oxm_len (f : t) : Z := Z.land (header f) 0xff.

(** *** Parsing *)

(** ['!' + cls.pack_str[1:] * 2] *)
Definition double_fmt (s : string) : string :=
  match s with
  | String _ r => String.append (String.append "!" r) r
  | EmptyString => "!"
  end.

Definition OFPVID_PRESENT : Z := 0x1000.

Definition to_fval (v : pyval) : fval := match v with VInt i => FInt i | VBytes b => FBytes b end.

Definition words (vs : list pyval) : list Z :=
  (fun v => match v with VInt i => i | VBytes _ => 0 end) <$> vs.

Definition three_bytes (v1 v2 v3 : Z) : Z :=
  Z.lor (Z.lor (Z.shiftl v1 16) (Z.shiftl v2 8)) v3.

(** The [field_parser] of the class of a header. *)
Definition field_parser (c : mtcls) (header : Z) (buf : bytes) (offset : nat) : res t :=
  let fmt := if hasmask header then double_fmt (pack_str c) else pack_str c in
  vs ← unpack_from fmt buf (offset + 4);
  match mt_kind c with
  | MTv6 | MTv6Nd =>
      if hasmask header
      then Ok (init c header (FList (words (take 8 vs))) (Some (FList (words (drop 8 vs)))))
      else Ok (init c header (FList (words vs)) None)
  | MTPbb =>
      match vs with
      | [VInt v1; VInt v2; VInt v3; VInt m1; VInt m2; VInt m3] =>
          Ok (init c header (FInt (three_bytes v1 v2 v3)) (Some (FInt (three_bytes m1 m2 m3))))
      | [VInt v1; VInt v2; VInt v3] => Ok (init c header (FInt (three_bytes v1 v2 v3)) None)
      | _ => Err ValueError
      end
  | k =>
      let clear v := match k, v with
                     | MTVlan, FInt i => FInt (Z.land i (Z.lnot OFPVID_PRESENT))
                     | _, _ => v
                     end in
      match vs with
      | [v; m] => Ok (init c header (clear (to_fval v)) (Some (to_fval m)))
      | [v] => Ok (init c header (clear (to_fval v)) None)
      | _ => Err ValueError
      end
  end.

(** [OFPMatchField.parser] and the [length] it sets. *)
Definition parser (buf : bytes) (offset : nat) : res (t * nat) :=
  vs ← unpack_from "!I" buf offset;
  match vs with
  | [VInt header] =>
      field ← match _FIELDS_HEADERS header with
              | Some c => field_parser c header buf offset
              | None => Ok (Mk header None None None)
              end;
      Ok (field, Z.to_nat (Z.land header 0xff + 4))
  | _ => Err ValueError
  end.

End MatchField.

(** ** Flows and wildcards

    The objects are kept as their attribute dictionaries. *)

Definition UINT64_MAX : Z := Z.shiftl 1 64 - 1.
Definition UINT32_MAX : Z := Z.shiftl 1 32 - 1.
Definition UINT16_MAX : Z := Z.shiftl 1 16 - 1.
Definition OFPVID_NONE : Z := 0.
Definition DONTCARE : bytes := replicate 6 0.

(** ryu/lib/mac.py *)
Definition haddr_bitand (addr mask : bytes) : bytes := zip_with Z.land addr mask.

Definition Flow_init : gmap string fval :=
  list_to_map (
    [("dl_dst", FBytes DONTCARE); ("dl_src", FBytes DONTCARE);
     ("ipv6_src", FList []); ("ipv6_dst", FList []); ("ipv6_nd_target", FList [])]
    ++ ((fun s => (s, FInt 0)) <$>
        ["in_port"; "in_phy_port"; "metadata"; "dl_type"; "vlan_vid"; "vlan_pcp"; "ip_dscp";
         "ip_ecn"; "ip_proto"; "ipv4_src"; "ipv4_dst"; "tcp_src"; "tcp_dst"; "tcp_flags";
         "udp_src"; "udp_dst"; "sctp_src"; "sctp_dst"; "icmpv4_type"; "icmpv4_code"; "arp_op";
         "arp_spa"; "arp_tpa"; "arp_sha"; "arp_tha"; "ipv6_flabel"; "icmpv6_type";
         "icmpv6_code"; "ipv6_nd_sll"; "ipv6_nd_tll"; "mpls_label"; "mpls_tc"; "mpls_bos";
         "pbb_isid"; "tunnel_id"; "ipv6_exthdr"]%string)).

Definition Wildcards_init : gmap string fval :=
  list_to_map (
    [("ipv6_src_mask", FList []); ("ipv6_dst_mask", FList []);
     ("wildcards", FInt (Z.shiftl 1 64 - 1))]
    ++ ((fun s => (s, FInt 0)) <$>
        ["metadata_mask"; "flags_mask"; "dl_dst_mask"; "dl_src_mask"; "vlan_vid_mask";
         "ipv4_src_mask"; "ipv4_dst_mask"; "arp_spa_mask"; "arp_tpa_mask"; "arp_sha_mask";
         "arp_tha_mask"; "tcp_flags_mask"; "ipv6_flabel_mask"; "pbb_isid_mask";
         "tunnel_id_mask"; "ipv6_exthdr_mask"]%string)).

(** [obj.attr] *)
Definition getattr (o : gmap string fval) (attr : string) : res fval :=
  or_raise AttributeError (o !! attr).

Definition wildcards (wc : gmap string fval) : Z :=
  match wc !! "wildcards"%string with Some (FInt w) => w | _ => 0 end.

Definition ft_set (wc : gmap string fval) (shift : Z) : gmap string fval :=
  <["wildcards"%string := FInt (Z.land (wildcards wc) (Z.lnot (Z.shiftl 1 shift)))]> wc.

Definition ft_test (wc : gmap string fval) (shift : Z) : bool :=
  Z.land (wildcards wc) (Z.shiftl 1 shift) =? 0.

(** ** Matches *)

Record OFPMatch := MkMatch {
  _wc : gmap string fval; _flow : gmap string fval;
  fields : list MatchField.t; _fields2 : list (string * uservalue);
  m_type : Z; m_length : option Z; _serialized : bool }.

(** [OFPMatch()] *)
Definition empty_match : OFPMatch :=
  MkMatch Wildcards_init Flow_init [] [] OFPMT_OXM None false.

Definition with_wc (m : OFPMatch) wc : OFPMatch :=
  MkMatch wc (_flow m) (fields m) (_fields2 m) (m_type m) (m_length m) (_serialized m).
Definition with_flow (m : OFPMatch) fl : OFPMatch :=
  MkMatch (_wc m) fl (fields m) (_fields2 m) (m_type m) (m_length m) (_serialized m).
Definition with_fields (m : OFPMatch) fs : OFPMatch :=
  MkMatch (_wc m) (_flow m) fs (_fields2 m) (m_type m) (m_length m) (_serialized m).
Definition with_length (m : OFPMatch) l : OFPMatch :=
  MkMatch (_wc m) (_flow m) (fields m) (_fields2 m) (m_type m) l (_serialized m).
Definition with_serialized (m : OFPMatch) : OFPMatch :=
  MkMatch (_wc m) (_flow m) (fields m) (_fields2 m) (m_type m) (m_length m) true.

(** ** Setters of the old interface *)

(** [self._wc.ft_set(bit); self._flow.attr = v] *)
Definition set_value (m : OFPMatch) (bit attr : string) (v : fval) : OFPMatch :=
  with_flow (with_wc m (ft_set (_wc m) (OFPXMT_OFB bit))) (<[attr := v]> (_flow m)).

(** ... and [self._wc.mask_attr = mask] *)
Definition set_masked (m : OFPMatch) (bit attr : string) (v : fval)
    (mask_attr : string) (mask : fval) : OFPMatch :=
  with_flow (with_wc m (<[mask_attr := mask]> (ft_set (_wc m) (OFPXMT_OFB bit))))
    (<[attr := v]> (_flow m)).

Definition set_metadata_masked (m : OFPMatch) (metadata : Z) (mask : Z) : OFPMatch :=
  set_masked m "metadata" "metadata" (FInt (Z.land metadata mask)) "metadata_mask" (FInt mask).

Definition set_dl_dst_masked (m : OFPMatch) (dl_dst : bytes) (mask : bytes) : OFPMatch :=
  set_masked m "eth_dst" "dl_dst" (FBytes (haddr_bitand dl_dst mask)) "dl_dst_mask" (FBytes mask).

Definition set_dl_src_masked (m : OFPMatch) (dl_src : bytes) (mask : bytes) : OFPMatch :=
  set_masked m "eth_src" "dl_src" (FBytes (haddr_bitand dl_src mask)) "dl_src_mask" (FBytes mask).

Definition set_vlan_vid_none (m : OFPMatch) : OFPMatch :=
  set_masked m "vlan_vid" "vlan_vid" (FInt OFPVID_NONE) "vlan_vid_mask" (FInt UINT16_MAX).

Definition set_vlan_vid_masked (m : OFPMatch) (vid : Z) (mask : Z) : OFPMatch :=
  let vid := Z.lor vid MatchField.OFPVID_PRESENT in
  set_masked m "vlan_vid" "vlan_vid" (FInt vid) "vlan_vid_mask" (FInt mask).

Definition set_ipv4_src_masked (m : OFPMatch) (ipv4_src : Z) (mask : Z) : OFPMatch :=
  set_masked m "ipv4_src" "ipv4_src" (FInt ipv4_src) "ipv4_src_mask" (FInt mask).

Definition set_ipv4_dst_masked (m : OFPMatch) (ipv4_dst : Z) (mask : Z) : OFPMatch :=
  set_masked m "ipv4_dst" "ipv4_dst" (FInt ipv4_dst) "ipv4_dst_mask" (FInt mask).

Definition set_tcp_flags_masked (m : OFPMatch) (tcp_flags : Z) (mask : Z) : OFPMatch :=
  set_masked m "tcp_flags" "tcp_flags" (FInt tcp_flags) "tcp_flags_mask" (FInt mask).

Definition set_arp_spa_masked (m : OFPMatch) (arp_spa : Z) (mask : Z) : OFPMatch :=
  set_masked m "arp_spa" "arp_spa" (FInt arp_spa) "arp_spa_mask" (FInt mask).

Definition set_arp_tpa_masked (m : OFPMatch) (arp_tpa : Z) (mask : Z) : OFPMatch :=
  set_masked m "arp_tpa" "arp_tpa" (FInt arp_tpa) "arp_tpa_mask" (FInt mask).

Definition set_arp_sha_masked (m : OFPMatch) (arp_sha : bytes) (mask : bytes) : OFPMatch :=
  set_masked m "arp_sha" "arp_sha" (FBytes (haddr_bitand arp_sha mask)) "arp_sha_mask" (FBytes mask).

Definition set_arp_tha_masked (m : OFPMatch) (arp_tha : bytes) (mask : bytes) : OFPMatch :=
  set_masked m "arp_tha" "arp_tha" (FBytes (haddr_bitand arp_tha mask)) "arp_tha_mask" (FBytes mask).

Definition set_ipv6_src_masked (m : OFPMatch) (src : list Z) (mask : list Z) : OFPMatch :=
  set_masked m "ipv6_src" "ipv6_src" (FList (zip_with Z.land src mask)) "ipv6_src_mask" (FList mask).

Definition set_ipv6_dst_masked (m : OFPMatch) (dst : list Z) (mask : list Z) : OFPMatch :=
  set_masked m "ipv6_dst" "ipv6_dst" (FList (zip_with Z.land dst mask)) "ipv6_dst_mask" (FList mask).

Definition set_ipv6_flabel_masked (m : OFPMatch) (flabel : Z) (mask : Z) : OFPMatch :=
  set_masked m "ipv6_flabel" "ipv6_flabel" (FInt flabel) "ipv6_flabel_mask" (FInt mask).

Definition set_pbb_isid_masked (m : OFPMatch) (isid : Z) (mask : Z) : OFPMatch :=
  set_masked m "pbb_isid" "pbb_isid" (FInt isid) "pbb_isid_mask" (FInt mask).

Definition set_tunnel_id_masked (m : OFPMatch) (tunnel_id : Z) (mask : Z) : OFPMatch :=
  set_masked m "tunnel_id" "tunnel_id" (FInt tunnel_id) "tunnel_id_mask" (FInt mask).

Definition set_ipv6_exthdr_masked (m : OFPMatch) (hdr : Z) (mask : Z) : OFPMatch :=
  set_masked m "ipv6_exthdr" "ipv6_exthdr" (FInt hdr) "ipv6_exthdr_mask" (FInt mask).

Definition set_in_port (m : OFPMatch) (port : Z) : OFPMatch :=
  set_value m "in_port" "in_port" (FInt port).

Definition set_in_phy_port (m : OFPMatch) (phy_port : Z) : OFPMatch :=
  set_value m "in_phy_port" "in_phy_port" (FInt phy_port).

Definition set_metadata (m : OFPMatch) (metadata : Z) : OFPMatch :=
  set_metadata_masked m metadata UINT64_MAX.

Definition set_dl_dst (m : OFPMatch) (dl_dst : bytes) : OFPMatch :=
  set_value m "eth_dst" "dl_dst" (FBytes dl_dst).

Definition set_dl_src (m : OFPMatch) (dl_src : bytes) : OFPMatch :=
  set_value m "eth_src" "dl_src" (FBytes dl_src).

Definition set_dl_type (m : OFPMatch) (dl_type : Z) : OFPMatch :=
  set_value m "eth_type" "dl_type" (FInt dl_type).

Definition set_vlan_vid (m : OFPMatch) (vid : Z) : OFPMatch :=
  set_vlan_vid_masked m vid UINT16_MAX.

Definition set_vlan_pcp (m : OFPMatch) (pcp : Z) : OFPMatch :=
  set_value m "vlan_pcp" "vlan_pcp" (FInt pcp).

Definition set_ip_dscp (m : OFPMatch) (ip_dscp : Z) : OFPMatch :=
  set_value m "ip_dscp" "ip_dscp" (FInt ip_dscp).

Definition set_ip_ecn (m : OFPMatch) (ip_ecn : Z) : OFPMatch :=
  set_value m "ip_ecn" "ip_ecn" (FInt ip_ecn).

Definition set_ip_proto (m : OFPMatch) (ip_proto : Z) : OFPMatch :=
  set_value m "ip_proto" "ip_proto" (FInt ip_proto).

Definition set_ipv4_src (m : OFPMatch) (ipv4_src : Z) : OFPMatch :=
  set_ipv4_src_masked m ipv4_src UINT32_MAX.

Definition set_ipv4_dst (m : OFPMatch) (ipv4_dst : Z) : OFPMatch :=
  set_ipv4_dst_masked m ipv4_dst UINT32_MAX.

Definition set_tcp_src (m : OFPMatch) (tcp_src : Z) : OFPMatch :=
  set_value m "tcp_src" "tcp_src" (FInt tcp_src).

Definition set_tcp_dst (m : OFPMatch) (tcp_dst : Z) : OFPMatch :=
  set_value m "tcp_dst" "tcp_dst" (FInt tcp_dst).

Definition set_tcp_flags (m : OFPMatch) (tcp_flags : Z) : OFPMatch :=
  set_tcp_flags_masked m tcp_flags UINT16_MAX.

Definition set_udp_src (m : OFPMatch) (udp_src : Z) : OFPMatch :=
  set_value m "udp_src" "udp_src" (FInt udp_src).

Definition set_udp_dst (m : OFPMatch) (udp_dst : Z) : OFPMatch :=
  set_value m "udp_dst" "udp_dst" (FInt udp_dst).

Definition set_sctp_src (m : OFPMatch) (sctp_src : Z) : OFPMatch :=
  set_value m "sctp_src" "sctp_src" (FInt sctp_src).

Definition set_sctp_dst (m : OFPMatch) (sctp_dst : Z) : OFPMatch :=
  set_value m "sctp_dst" "sctp_dst" (FInt sctp_dst).

Definition set_icmpv4_type (m : OFPMatch) (icmpv4_type : Z) : OFPMatch :=
  set_value m "icmpv4_type" "icmpv4_type" (FInt icmpv4_type).

Definition set_icmpv4_code (m : OFPMatch) (icmpv4_code : Z) : OFPMatch :=
  set_value m "icmpv4_code" "icmpv4_code" (FInt icmpv4_code).

Definition set_arp_opcode (m : OFPMatch) (arp_op : Z) : OFPMatch :=
  set_value m "arp_op" "arp_op" (FInt arp_op).

Definition set_arp_spa (m : OFPMatch) (arp_spa : Z) : OFPMatch :=
  set_arp_spa_masked m arp_spa UINT32_MAX.

Definition set_arp_tpa (m : OFPMatch) (arp_tpa : Z) : OFPMatch :=
  set_arp_tpa_masked m arp_tpa UINT32_MAX.

Definition set_arp_sha (m : OFPMatch) (arp_sha : bytes) : OFPMatch :=
  set_value m "arp_sha" "arp_sha" (FBytes arp_sha).

Definition set_arp_tha (m : OFPMatch) (arp_tha : bytes) : OFPMatch :=
  set_value m "arp_tha" "arp_tha" (FBytes arp_tha).

Definition set_ipv6_src (m : OFPMatch) (src : list Z) : OFPMatch :=
  set_value m "ipv6_src" "ipv6_src" (FList src).

Definition set_ipv6_dst (m : OFPMatch) (dst : list Z) : OFPMatch :=
  set_value m "ipv6_dst" "ipv6_dst" (FList dst).

Definition set_ipv6_flabel (m : OFPMatch) (flabel : Z) : OFPMatch :=
  set_ipv6_flabel_masked m flabel UINT32_MAX.

Definition set_icmpv6_type (m : OFPMatch) (icmpv6_type : Z) : OFPMatch :=
  set_value m "icmpv6_type" "icmpv6_type" (FInt icmpv6_type).

Definition set_icmpv6_code (m : OFPMatch) (icmpv6_code : Z) : OFPMatch :=
  set_value m "icmpv6_code" "icmpv6_code" (FInt icmpv6_code).

Definition set_ipv6_nd_target (m : OFPMatch) (target : list Z) : OFPMatch :=
  set_value m "ipv6_nd_target" "ipv6_nd_target" (FList target).

Definition set_ipv6_nd_sll (m : OFPMatch) (ipv6_nd_sll : bytes) : OFPMatch :=
  set_value m "ipv6_nd_sll" "ipv6_nd_sll" (FBytes ipv6_nd_sll).

Definition set_ipv6_nd_tll (m : OFPMatch) (ipv6_nd_tll : bytes) : OFPMatch :=
  set_value m "ipv6_nd_tll" "ipv6_nd_tll" (FBytes ipv6_nd_tll).

Definition set_mpls_label (m : OFPMatch) (mpls_label : Z) : OFPMatch :=
  set_value m "mpls_label" "mpls_label" (FInt mpls_label).

Definition set_mpls_tc (m : OFPMatch) (mpls_tc : Z) : OFPMatch :=
  set_value m "mpls_tc" "mpls_tc" (FInt mpls_tc).

Definition set_mpls_bos (m : OFPMatch) (bos : Z) : OFPMatch :=
  set_value m "mpls_bos" "mpls_bos" (FInt bos).

Definition set_pbb_isid (m : OFPMatch) (isid : Z) : OFPMatch :=
  set_value m "pbb_isid" "pbb_isid" (FInt isid).

Definition set_tunnel_id (m : OFPMatch) (tunnel_id : Z) : OFPMatch :=
  set_value m "tunnel_id" "tunnel_id" (FInt tunnel_id).

Definition set_ipv6_exthdr (m : OFPMatch) (hdr : Z) : OFPMatch :=
  set_value m "ipv6_exthdr" "ipv6_exthdr" (FInt hdr).

(** ** Serialization and parsing of a match *)

(** How [serialize_old] picks the header of a field: always the exact one; the
    exact one when the mask is the given maximum; the masked one when the mask is
    true, or has a length. *)
Inductive hdr_rule :=
  | HPlain
  | HExact (mask_attr : string) (max : Z)
  | HTruthy (mask_attr : string)
  | HLen (mask_attr : string).

Record entry := Entry { e_bit : string; e_attr : string; e_rule : hdr_rule }.

(** The fields in the order in which [serialize_old] tests them. *)
Definition old_entries : list entry :=
  [
    Entry "in_port" "in_port" HPlain;
    Entry "in_phy_port" "in_phy_port" HPlain;
    Entry "metadata" "metadata" (HExact "metadata_mask" UINT64_MAX);
    Entry "eth_dst" "dl_dst" (HTruthy "dl_dst_mask");
    Entry "eth_src" "dl_src" (HTruthy "dl_src_mask");
    Entry "eth_type" "dl_type" HPlain;
    Entry "vlan_vid" "vlan_vid" (HExact "vlan_vid_mask" UINT16_MAX);
    Entry "vlan_pcp" "vlan_pcp" HPlain;
    Entry "ip_dscp" "ip_dscp" HPlain;
    Entry "ip_ecn" "ip_ecn" HPlain;
    Entry "ip_proto" "ip_proto" HPlain;
    Entry "ipv4_src" "ipv4_src" (HExact "ipv4_src_mask" UINT32_MAX);
    Entry "ipv4_dst" "ipv4_dst" (HExact "ipv4_dst_mask" UINT32_MAX);
    Entry "tcp_src" "tcp_src" HPlain;
    Entry "tcp_dst" "tcp_dst" HPlain;
    Entry "tcp_flags" "tcp_flags" (HExact "tcp_flags_mask" UINT16_MAX);
    Entry "udp_src" "udp_src" HPlain;
    Entry "udp_dst" "udp_dst" HPlain;
    Entry "sctp_src" "sctp_src" HPlain;
    Entry "sctp_dst" "sctp_dst" HPlain;
    Entry "icmpv4_type" "icmpv4_type" HPlain;
    Entry "icmpv4_code" "icmpv4_code" HPlain;
    Entry "arp_op" "arp_op" HPlain;
    Entry "arp_spa" "arp_spa" (HExact "arp_spa_mask" UINT32_MAX);
    Entry "arp_tpa" "arp_tpa" (HExact "arp_tpa_mask" UINT32_MAX);
    Entry "arp_sha" "arp_sha" (HTruthy "arp_sha_mask");
    Entry "arp_tha" "arp_tha" (HTruthy "arp_tha_mask");
    Entry "ipv6_src" "ipv6_src" (HLen "ipv6_src_mask");
    Entry "ipv6_dst" "ipv6_dst" (HLen "ipv6_dst_mask");
    Entry "ipv6_flabel" "ipv6_flabel" (HExact "ipv6_flabel_mask" UINT32_MAX);
    Entry "icmpv6_type" "icmpv6_type" HPlain;
    Entry "icmpv6_code" "icmpv6_code" HPlain;
    Entry "ipv6_nd_target" "ipv6_nd_target" HPlain;
    Entry "ipv6_nd_sll" "ipv6_nd_sll" HPlain;
    Entry "ipv6_nd_tll" "ipv6_nd_tll" HPlain;
    Entry "mpls_label" "mpls_label" HPlain;
    Entry "mpls_tc" "mpls_tc" HPlain;
    Entry "mpls_bos" "mpls_bos" HPlain;
    Entry "pbb_isid" "pbb_isid" (HTruthy "pbb_isid_mask");
    Entry "tunnel_id" "tunnel_id" (HTruthy "tunnel_id_mask");
    Entry "ipv6_exthdr" "ipv6_exthdr" (HTruthy "ipv6_exthdr_mask") ].

(** The header and the mask argument of [append_field]. *)
Definition entry_header (wc : gmap string fval) (e : entry) : res (Z * option fval) :=
  match e_rule e with
  | HPlain => Ok (OXM_OF (e_bit e), None)
  | HExact a max =>
      m ← getattr wc a;
      Ok (if bool_decide (m = FInt max) then OXM_OF (e_bit e) else OXM_OF_W (e_bit e), Some m)
  | HTruthy a =>
      m ← getattr wc a;
      Ok (if truthy m then OXM_OF_W (e_bit e) else OXM_OF (e_bit e), Some m)
  | HLen a =>
      m ← getattr wc a;
      n ← match m with
          | FList l => Ok (length l) | FBytes b => Ok (length b) | FInt _ => Err TypeError
          end;
      Ok (if (n =? 0)%nat then OXM_OF (e_bit e) else OXM_OF_W (e_bit e), Some m)
  end.

Definition append_field (m : OFPMatch) (header : Z) (value : fval) (mask : option fval) :
    res OFPMatch :=
  f ← MatchField.make header value mask; Ok (with_fields m (fields m ++ [f])).

Definition append_entry (m : OFPMatch) (e : entry) : res OFPMatch :=
  if ft_test (_wc m) (OFPXMT_OFB (e_bit e)) then
    '(header, mask) ← entry_header (_wc m) e;
    value ← getattr (_flow m) (e_attr e);
    append_field m header value mask
  else Ok m.

Definition serialize_objects (fs : list MatchField.t) (buf : bytes) (offset : nat) :
    res (bytes * nat) :=
  foldM (fun '(buf, off) f => '(buf, l) ← MatchField.serialize f buf off; Ok (buf, off + l)%nat)
    (buf, offset) fs.

(** [serialize_old]: the buffer, the returned length and the changed object. *)
Definition serialize_old (m : OFPMatch) (buf : bytes) (offset : nat) :
    res (bytes * nat * OFPMatch) :=
  if _serialized m then Err GenericException
  else
    m ← foldM append_entry (with_serialized m) old_entries;
    '(buf, field_offset) ← serialize_objects (fields m) buf (offset + 4);
    let length := (field_offset - offset)%nat in
    buf ← msg_pack_into "!HH" buf offset [VInt OFPMT_OXM; VInt (Z.of_nat length)];
    let pad_len := Z.to_nat (round_up (Z.of_nat length) 8 - Z.of_nat length) in
    buf ← fmsg_pack_into (Format Big [Fx pad_len]) buf field_offset [];
    Ok (buf, (length + pad_len)%nat, m).

Definition _composed_with_old_api (m : OFPMatch) : bool :=
  (negb (bool_decide (length (fields m) = 0%nat)) && bool_decide (_fields2 m = []))
  || negb (bool_decide (_wc m = Wildcards_init)).

Section Match.
Context `{C : AddrConv} `{I : IntConv}.

Definition match_of_kwargs (kwargs : list (string * uservalue)) : res OFPMatch :=
  f2 ← match_init kwargs;
  Ok (MkMatch Wildcards_init Flow_init [] f2 OFPMT_OXM None false).

(** The length the new serializer records, before padding. *)
Definition recorded_length (buf : bytes) (offset : nat) : option Z :=
  match unpack_from "!HH" buf offset with Ok [_; VInt l] => Some l | _ => None end.

Definition serialize (m : OFPMatch) (buf : bytes) (offset : nat) :
    res (bytes * nat * OFPMatch) :=
  if _composed_with_old_api m then serialize_old m buf offset
  else
    '(buf, n) ← user_match_serialize (_fields2 m) buf offset;
    Ok (buf, n, with_length m (recorded_length buf offset)).

(** The loops of the parser; a field is at least four bytes long. *)
Fixpoint parser_old (fuel : nat) (buf : bytes) (offset : nat) (length : Z) :
    res (list MatchField.t) :=
  match fuel with
  | O => Ok []
  | S fuel =>
      if length <=? 0 then Ok []
      else
        '(f, l) ← MatchField.parser buf offset;
        rest ← parser_old fuel buf (offset + l) (length - Z.of_nat l);
        Ok (f :: rest)
  end.

Fixpoint parse_user_fields (fuel : nat) (buf : bytes) (offset : nat) (length : Z) :
    res (list (string * uservalue)) :=
  match fuel with
  | O => Ok []
  | S fuel =>
      if length <=? 0 then Ok []
      else
        '(n, value, mask, field_len) ← parse buf offset;
        kuv ← _to_user n (Some value) mask;
        rest ← parse_user_fields fuel buf (offset + field_len)
                 (length - Z.of_nat field_len);
        Ok (kuv :: rest)
  end.

Definition parser (buf : bytes) (offset : nat) : res OFPMatch :=
  vs ← unpack_from "!HH" buf offset;
  match vs with
  | [VInt type_; VInt length] =>
      fs ← parser_old (Z.to_nat length) buf (offset + 4) (length - 4);
      f2 ← parse_user_fields (Z.to_nat length) buf (offset + 4) (length - 4);
      Ok (MkMatch Wildcards_init Flow_init fs f2 type_ (Some length) false)
  | _ => Err ValueError
  end.

End Match.

(** ** Properties *)

Module MatchFacts.
Import OxmFacts OxmUserFacts.

#[global] Instance mtkind_eq_dec : EqDecision mtkind.
Proof. solve_decision. Defined.
#[global] Instance mtcls_eq_dec : EqDecision mtcls.
Proof. solve_decision. Defined.

(** The tables of the two interfaces agree: sizes, numbers and headers. *)
Definition class_agrees (c : mtcls) : bool :=
  match desc_by_name oxm_types (mt_field c) with
  | None => false
  | Some d =>
      let size := type_size (d_type d) in
      let n := Z.of_nat size in
      bool_decide (make_exp_hdr oxm_types (num d) = Ok (NumInt (oxm_type d), []))
      && wire_form (num d) (oxm_type d) []
      && bool_decide (calcsize (pack_str c) = size)
      && (OXM_OF (mt_field c) =? oxm_type d * 512 + n)
      && negb (MatchField.hasmask (OXM_OF (mt_field c)))
      && (oxm_tlv_header_extract_length (OXM_OF (mt_field c)) =? n)
      && bool_decide (_FIELDS_HEADERS (OXM_OF (mt_field c)) = Some c)
      && (negb (mt_masked c)
          || (OXM_OF_W (mt_field c) =? oxm_type d * 512 + 256 + n * 2)
             && MatchField.hasmask (OXM_OF_W (mt_field c))
             && (oxm_tlv_header_extract_length (OXM_OF_W (mt_field c)) =? n)
             && bool_decide (_FIELDS_HEADERS (OXM_OF_W (mt_field c)) = Some c))
  end.

Lemma classes_agree : forallb class_agrees MT_classes = true.
Proof. vm_compute. reflexivity. Qed.

(** The descriptor of a class and what the two tables share. *)
Record class_spec (c : mtcls) (d : desc) : Prop := {
  cs_elem : d ∈ oxm_types;
  cs_name : desc_by_name oxm_types (mt_field c) = Some d;
  cs_exp : make_exp_hdr oxm_types (num d) = Ok (NumInt (oxm_type d), []);
  cs_wire : wire_form (num d) (oxm_type d) [] = true;
  cs_size : calcsize (pack_str c) = type_size (d_type d);
  cs_header : OXM_OF (mt_field c) = oxm_type d * 512 + Z.of_nat (type_size (d_type d));
  cs_nomask : MatchField.hasmask (OXM_OF (mt_field c)) = false;
  cs_nbytes : oxm_tlv_header_extract_length (OXM_OF (mt_field c))
              = Z.of_nat (type_size (d_type d));
  cs_find : _FIELDS_HEADERS (OXM_OF (mt_field c)) = Some c;
  cs_masked : mt_masked c = true ->
    OXM_OF_W (mt_field c) = oxm_type d * 512 + 256 + Z.of_nat (type_size (d_type d)) * 2
    /\ MatchField.hasmask (OXM_OF_W (mt_field c)) = true
    /\ oxm_tlv_header_extract_length (OXM_OF_W (mt_field c)) = Z.of_nat (type_size (d_type d))
    /\ _FIELDS_HEADERS (OXM_OF_W (mt_field c)) = Some c }.

Lemma desc_by_name_elem s d : desc_by_name oxm_types s = Some d -> d ∈ oxm_types.
Proof.
  unfold desc_by_name. intros H. apply head_Some_elem_of in H.
  rewrite elem_of_reverse in H. by apply list_elem_of_filter in H as [_ H].
Qed.

Lemma class_known c : c ∈ MT_classes -> exists d, class_spec c d.
Proof.
  pose proof classes_agree as H. rewrite forallb_forall in H.
  intros Hc%list_elem_of_In. specialize (H c Hc). unfold class_agrees in H.
  destruct (desc_by_name oxm_types (mt_field c)) as [d|] eqn:Hd; [|done].
  rewrite !andb_true_iff in H.
  destruct H as (((((((H1 & H2) & H3) & H4) & H5) & H6) & H7) & H8).
  apply bool_decide_eq_true in H1, H3, H7. apply Z.eqb_eq in H4, H6.
  apply negb_true_iff in H5. exists d.
  constructor; try assumption; [by eapply desc_by_name_elem|].
  intros Hm. rewrite Hm in H8. cbn [negb orb] in H8. rewrite !andb_true_iff in H8.
  destruct H8 as (((W1 & W2) & W3) & W4). apply Z.eqb_eq in W1, W3.
  apply bool_decide_eq_true in W4. auto.
Qed.

(** The bytes a class packs for a value. *)
Definition mt_bytes (c : mtcls) (v : option fval) : res bytes :=
  match mt_kind c with
  | MTv6 | MTv6Nd =>
      match v with
      | Some (FList l) => pack (pack_str c) (VInt <$> l)
      | Some (FBytes _) => Err StructError
      | _ => Err TypeError
      end
  | MTPbb =>
      match v with
      | Some (FInt i) =>
          pack (pack_str c) [VInt (Z.land (Z.shiftr i 16) 0xff);
            VInt (Z.land (Z.shiftr i 8) 0xff); VInt (Z.land (Z.shiftr i 0) 0xff)]
      | _ => Err TypeError
      end
  | _ => pack (pack_str c) (MatchField.pack_arg v)
  end.

Lemma pack_size s args b : pack s args = Ok b -> length b = calcsize s.
Proof.
  unfold pack, with_fmt, calcsize. destruct (parse_fmt s); [|done]. apply fpack_length.
Qed.

Lemma msg_pack_end s buf off args b :
  pack s args = Ok b -> off = length buf -> msg_pack_into s buf off args = Ok (buf ++ b).
Proof.
  unfold pack, msg_pack_into, with_fmt. destruct (parse_fmt s); [|done].
  intros H ->. by apply fmsg_pack_into_end.
Qed.

Lemma mt_bytes_size c v b : mt_bytes c v = Ok b -> length b = calcsize (pack_str c).
Proof.
  unfold mt_bytes. destruct (mt_kind c), v as [[]|]; intros H; try done; by eapply pack_size.
Qed.

(** Each of the writers appends what [mt_bytes] packs. *)
Lemma put_bytes f c buf off v b len :
  mt_kind c <> MTv6 -> mt_kind c <> MTv6Nd -> mt_bytes c v = Ok b -> off = length buf ->
  MatchField._put f c buf off v len
  = Ok (buf ++ b, len + Z.to_nat (MatchField.n_bytes f))%nat.
Proof.
  intros H1 H2 Hb Hoff. unfold MatchField._put, mt_bytes in *.
  destruct (mt_kind c); try done; [| |destruct v as [[]|]; try done];
    by rewrite (msg_pack_end _ _ _ _ _ Hb Hoff).
Qed.

Lemma putv6_bytes f c buf off v b len :
  mt_kind c = MTv6 \/ mt_kind c = MTv6Nd -> mt_bytes c (Some v) = Ok b -> off = length buf ->
  MatchField._putv6 f c buf off v len
  = Ok (buf ++ b, len + Z.to_nat (MatchField.n_bytes f))%nat.
Proof.
  intros Hk Hb Hoff. unfold MatchField._putv6, mt_bytes in *.
  destruct Hk as [Hk|Hk]; rewrite Hk in Hb; destruct v; try done;
    by rewrite (msg_pack_end _ _ _ _ _ Hb Hoff).
Qed.

Lemma put_header_spec f buf off :
  in_width 4 (MatchField.header f) = true -> (length buf <= off)%nat ->
  MatchField._put_header f buf off
  = Ok (buf ++ replicate (off - length buf) 0 ++ be_encode 4 (MatchField.header f), 4%nat).
Proof.
  intros Hw Hl. unfold MatchField._put_header. fmt_eval.
  assert (Hp : fpack (Format Big [Fi 4]) [VInt (MatchField.header f)]
               = Ok (be_encode 4 (MatchField.header f))).
  { unfold fpack; cbn [f_codes f_order pack_codes]. rewrite Hw.
    cbn [mbind res_bind encode]. by rewrite app_nil_r. }
  by rewrite (fmsg_pack_into_gap _ _ _ _ _ Hp Hl).
Qed.

(** *** One field: the object writes what the TLV serializer writes *)

(** A field object of a known class with its wire form: the value bytes and, when
    the header is the masked one, the mask bytes. *)
Inductive object_wire (d : desc) : MatchField.t -> bytes -> option bytes -> Prop :=
  | ow_exact c v mk b :
      c ∈ MT_classes -> class_spec c d -> mt_bytes c (Some v) = Ok b ->
      (mt_kind c = MTv6 -> from_option truthy false mk = false) ->
      object_wire d (MatchField.init c (OXM_OF (mt_field c)) v mk) b None
  | ow_masked c v mk b bm :
      c ∈ MT_classes -> class_spec c d -> mt_masked c = true ->
      mt_bytes c (Some v) = Ok b -> mt_bytes c (Some mk) = Ok bm ->
      (mt_kind c = MTv6 -> truthy mk = true) ->
      object_wire d (MatchField.init c (OXM_OF_W (mt_field c)) v (Some mk)) b (Some bm).

Lemma class_sizes c d : class_spec c d -> c ∈ MT_classes ->
  (0 < type_size (d_type d) <= 16)%nat /\ 0 <= oxm_type d < 8388608.
Proof.
  intros Hc _. split; [by apply type_size_bounds, (cs_elem c d)|].
  by eapply wire_form_bound, (cs_wire c d).
Qed.

Lemma object_payload d f b bm : object_wire d f b bm ->
  length b = type_size (d_type d) /\ payload_ok [] b bm /\ b <> []
  /\ make_exp_hdr oxm_types (num d) = Ok (NumInt (oxm_type d), [])
  /\ wire_form (num d) (oxm_type d) [] = true.
Proof.
  intros H. assert (Hs : exists c, c ∈ MT_classes /\ class_spec c d
    /\ length b = calcsize (pack_str c)
    /\ match bm with Some bm => length bm = length b | None => True end).
  { destruct H as [c v mk b Hc Hd Hb _|c v mk b bm Hc Hd _ Hb Hm _]; exists c; split_and!; try done.
    - by eapply mt_bytes_size.
    - by eapply mt_bytes_size.
    - apply mt_bytes_size in Hb, Hm. congruence. }
  destruct Hs as (c & Hc & Hd & Hb & Hm). destruct (class_sizes c d Hd Hc) as [Hsz _].
  rewrite (cs_size c d Hd) in Hb. split_and!; [done| | |apply (cs_exp c d Hd)|apply (cs_wire c d Hd)].
  - unfold payload_ok. destruct bm; simpl; lia.
  - intros ->. simpl in Hb. lia.
Qed.

Lemma v6_is_masked c : c ∈ MT_classes -> mt_kind c = MTv6Nd -> mt_masked c = false.
Proof.
  assert (H : forallb (fun c => negb (bool_decide (mt_kind c = MTv6Nd)) || negb (mt_masked c))
                MT_classes = true) by (vm_compute; reflexivity).
  rewrite forallb_forall in H. intros Hc%list_elem_of_In Hk. specialize (H c Hc).
  rewrite bool_decide_eq_true_2 in H by done. cbn in H. by apply negb_true_iff.
Qed.

Lemma field_word_exact d b :
  field_word (oxm_type d) [] b None = oxm_type d * 512 + Z.of_nat (length b).
Proof. unfold field_word. simpl. lia. Qed.

Lemma field_word_masked d b bm :
  field_word (oxm_type d) [] b (Some bm) = oxm_type d * 512 + 256 + Z.of_nat (length b) * 2.
Proof. unfold field_word. simpl. lia. Qed.

Section Writers.
Variables (f : MatchField.t) (c : mtcls) (v : fval) (b buf : bytes) (off : nat).
Hypotheses (Hw : in_width 4 (MatchField.header f) = true)
  (Hn : MatchField.n_bytes f = Z.of_nat (length b))
  (Hb : mt_bytes c (Some v) = Ok b) (Hoff : (length buf <= off)%nat).

Let pre := buf ++ replicate (off - length buf) 0 ++ be_encode 4 (MatchField.header f).

Lemma pre_length : (off + 4)%nat = length pre.
Proof. unfold pre. autorewrite with beba. lia. Qed.

Definition v6 : Prop := mt_kind c = MTv6 \/ mt_kind c = MTv6Nd.

Lemma put_spec : mt_kind c <> MTv6 -> mt_kind c <> MTv6Nd ->
  MatchField.put f c buf off (Some v) = Ok (pre ++ b, (4 + length b)%nat).
Proof.
  intros. unfold MatchField.put. rewrite put_header_spec by done. cbn [mbind res_bind].
  erewrite put_bytes; [|done|done|exact Hb|apply pre_length]. rewrite Hn, Nat2Z.id.
  reflexivity.
Qed.

Lemma put_w_spec m bm : mt_kind c <> MTv6 -> mt_kind c <> MTv6Nd ->
  mt_bytes c (Some m) = Ok bm ->
  MatchField.put_w f c buf off (Some v) (Some m)
  = Ok ((pre ++ b) ++ bm, (4 + length b + length b)%nat).
Proof.
  intros ? ? Hm. unfold MatchField.put_w. rewrite put_header_spec by done. cbn [mbind res_bind].
  erewrite put_bytes; [|done|done|exact Hb|apply pre_length]. cbn [mbind res_bind].
  erewrite put_bytes; [|done|done|exact Hm|]; rewrite Hn, Nat2Z.id; [reflexivity|].
  fold pre. rewrite length_app, <- pre_length. lia.
Qed.

Lemma putv6_spec m : v6 -> from_option truthy false m = false ->
  MatchField.putv6 f c buf off v m = Ok (pre ++ b, (4 + length b)%nat).
Proof.
  intros Hk Hm. unfold MatchField.putv6. rewrite put_header_spec by done. cbn [mbind res_bind].
  erewrite putv6_bytes; [|done|exact Hb|apply pre_length]. rewrite Hn, Nat2Z.id.
  cbn [mbind res_bind]. destruct m as [m|]; [|reflexivity]. cbn in Hm. by rewrite Hm.
Qed.

Lemma putv6_w_spec m bm : v6 -> truthy m = true -> mt_bytes c (Some m) = Ok bm ->
  MatchField.putv6 f c buf off v (Some m)
  = Ok ((pre ++ b) ++ bm, (4 + length b + length b)%nat).
Proof.
  intros Hk Ht Hm. unfold MatchField.putv6. rewrite put_header_spec by done. cbn [mbind res_bind].
  erewrite putv6_bytes; [|done|exact Hb|apply pre_length]. cbn [mbind res_bind]. rewrite Ht.
  erewrite putv6_bytes; [|done|exact Hm|]; rewrite Hn, Nat2Z.id; [reflexivity|].
  fold pre. rewrite length_app, <- pre_length. lia.
Qed.
End Writers.

(** The bytes an object writes at or past the end of the buffer. *)
Lemma object_writes d f b bm buf off :
  object_wire d f b bm -> (length buf <= off)%nat ->
  MatchField.serialize f buf off
  = Ok (buf ++ replicate (off - length buf) 0 ++ field_wire (oxm_type d) [] b bm,
        length (field_wire (oxm_type d) [] b bm)).
Proof.
  intros Hf Hoff. destruct (object_payload _ _ _ _ Hf) as (Hb & Hp & _ & _ & Hwf).
  pose proof (field_word_width _ _ _ _ _ Hwf Hp) as Hw. rewrite field_wire_length by done.
  unfold field_wire.
  destruct Hf as [c v mk b Hc Hd Hv Hmk|c v mk b bm Hc Hd Hcm Hv Hm Hmk].
  - rewrite field_word_exact, Hb, <- (cs_header c d Hd) in Hw |- *.
    set (f := MatchField.init c _ v mk).
    assert (Hn : MatchField.n_bytes f = Z.of_nat (length b))
      by (rewrite Hb; apply (cs_nbytes c d Hd)).
    enough (MatchField.serialize f buf off
      = Ok ((buf ++ replicate (off - length buf) 0 ++ be_encode 4 (MatchField.header f)) ++ b,
            (4 + length b)%nat)) as ->.
    { rewrite Hb, <- !app_assoc. cbn [app default from_option]. rewrite app_nil_r.
      do 2 f_equal. simpl. lia. }
    unfold MatchField.serialize. cbn [f MatchField.init MatchField.cls MatchField.value].
    change (MatchField.hasmask (MatchField.header f)) with (MatchField.hasmask (OXM_OF (mt_field c))).
    rewrite (cs_nomask c d Hd). destruct (mt_kind c) eqn:Hk;
      try (apply put_spec; [done|done|done|done|congruence|congruence]).
    + apply putv6_spec; [done|done|done|done|by left|].
      cbn. destruct (mt_masked c); [by apply Hmk|done].
    + apply putv6_spec; [done|done|done|done|by right|done].
  - destruct (cs_masked c d Hd Hcm) as (Hh & Hhm & Hnb & _).
    rewrite field_word_masked, Hb, <- Hh in Hw |- *.
    set (f := MatchField.init c _ v (Some mk)).
    assert (Hn : MatchField.n_bytes f = Z.of_nat (length b)) by (rewrite Hb; apply Hnb).
    enough (MatchField.serialize f buf off
      = Ok (((buf ++ replicate (off - length buf) 0 ++ be_encode 4 (MatchField.header f)) ++ b)
             ++ bm, (4 + length b + length b)%nat)) as ->.
    { rewrite Hb, <- !app_assoc. cbn [app default from_option]. do 2 f_equal. }
    unfold MatchField.serialize. cbn [f MatchField.init MatchField.cls MatchField.value].
    change (MatchField.hasmask (MatchField.header f)) with (MatchField.hasmask (OXM_OF_W (mt_field c))).
    replace (MatchField.mask f) with (Some mk) by (cbn; by rewrite Hcm).
    rewrite Hhm, Hcm. destruct (mt_kind c) eqn:Hk;
      try (apply put_w_spec; [done|done|done|done|congruence|congruence|done]).
    + apply putv6_w_spec; [done|done|done|done|by left|by apply Hmk|done].
    + exfalso. by rewrite (v6_is_masked c Hc Hk) in Hcm.
Qed.

(** ... which is what the serializer of the TLV level writes. *)
Lemma object_serialize d f b bm buf off :
  object_wire d f b bm -> (length buf <= off)%nat ->
  MatchField.serialize f buf off = Oxm.serialize oxm_types (num d) b bm buf off.
Proof.
  intros Hf Hoff. destruct (object_payload _ _ _ _ Hf) as (Hb & Hp & Hne & Hexp & Hwf).
  rewrite (object_writes d f b bm) by done. by rewrite (serialize_field _ _ _ _ _ _ _ _ Hexp Hwf).
Qed.

(** *** The fields of a match composed with setters *)

Definition entry_class (e : entry) : option mtcls :=
  List.find (fun c => bool_decide (mt_field c = e_bit e)) MT_classes.

(** The field, in bytes, that an entry stands for when its bit is cleared. *)
Definition entry_field (m : OFPMatch) (e : entry) : res (list field) :=
  if ft_test (_wc m) (OFPXMT_OFB (e_bit e)) then
    '(h, mk) ← entry_header (_wc m) e;
    v ← getattr (_flow m) (e_attr e);
    c ← or_raise TypeError (entry_class e);
    d ← or_raise TypeError (desc_by_name oxm_types (e_bit e));
    b ← mt_bytes c (Some v);
    if h =? OXM_OF (e_bit e) then Ok [(num d, b, None)]
    else bm ← mt_bytes c mk; Ok [(num d, b, Some bm)]
  else Ok [].

Definition old_fields (m : OFPMatch) : res (list field) :=
  fss ← mapM_res (entry_field m) old_entries; Ok (concat fss).

(** Every entry has its class, which takes a mask when the entry has one. *)
Lemma entries_classes e : e ∈ old_entries ->
  exists c, entry_class e = Some c /\ c ∈ MT_classes /\ mt_field c = e_bit e
    /\ (mt_masked c = true <-> e_rule e <> HPlain)
    /\ (mt_kind c = MTv6 <-> exists a, e_rule e = HLen a).
Proof.
  assert (H : forallb (fun e => match entry_class e with
     | Some c => bool_decide (c ∈ MT_classes) && bool_decide (mt_field c = e_bit e)
         && match e_rule e, mt_masked c, mt_kind c with
            | HPlain, false, MTv6 => false
            | HPlain, false, _ => true
            | HLen _, true, MTv6 => true
            | HExact _ _, true, MTv6 | HTruthy _, true, MTv6 => false
            | HExact _ _, true, _ | HTruthy _, true, _ => true
            | _, _, _ => false end
     | None => false end) old_entries = true) by (vm_compute; reflexivity).
  rewrite forallb_forall in H. intros He%list_elem_of_In. specialize (H e He).
  destruct (entry_class e) as [c|]; [|done].
  apply andb_true_iff in H as [H H3]. apply andb_true_iff in H as [H1 H2].
  apply bool_decide_eq_true in H1, H2. exists c. split; [done|]. split; [done|]. split; [done|].
  destruct (e_rule e), (mt_masked c), (mt_kind c); try done;
    (split; [split; done|split; [try done; eauto|by intros [? ?]]]).
Qed.

Lemma headers_differ c d : class_spec c d -> mt_masked c = true ->
  OXM_OF_W (mt_field c) <> OXM_OF (mt_field c).
Proof.
  intros Hd Hm E. pose proof (cs_nomask c d Hd) as H1.
  destruct (cs_masked c d Hd Hm) as (_ & H2 & _). congruence.
Qed.

(** What the header rule yields: the exact header, or the masked one with a mask;
    an IPv6 mask is true exactly in the second case. *)
Lemma entry_header_cases wc e h mk :
  entry_header wc e = Ok (h, mk) ->
  (h = OXM_OF (e_bit e)
   /\ ((exists a, e_rule e = HLen a) -> from_option truthy false mk = false))
  \/ (h = OXM_OF_W (e_bit e) /\ e_rule e <> HPlain
      /\ exists m, mk = Some m /\ ((exists a, e_rule e = HLen a) -> truthy m = true)).
Proof.
  unfold entry_header. destruct (e_rule e) as [|a mx|a|a] eqn:Er; intros H.
  - injection H as <- <-. left. split; [done|]. by intros [? ?].
  - apply bind_Ok in H as (m & _ & [= <- <-]). destruct (bool_decide _).
    + left. split; [done|]. by intros [? ?].
    + right. split_and!; [done|done|]. exists m. split; [done|]. by intros [? ?].
  - apply bind_Ok in H as (m & _ & [= <- <-]). destruct (truthy m).
    + right. split_and!; [done|done|]. exists m. split; [done|]. by intros [? ?].
    + left. split; [done|]. by intros [? ?].
  - apply bind_Ok in H as (m & _ & H). apply bind_Ok in H as (n & Hn & [= <- <-]).
    destruct m as [?|b|l]; [done| |]; injection Hn as <-.
    + destruct b; [left; done|right]. split_and!; [done|done|]. eexists. split; [done|done].
    + destruct l; [left; done|right]. split_and!; [done|done|]. eexists. split; [done|done].
Qed.

(** One entry appends the object of its field. *)
Lemma append_entry_field m e fs :
  e ∈ old_entries -> entry_field m e = Ok fs ->
  exists objs, append_entry m e = Ok (with_fields m (fields m ++ objs))
    /\ Forall2 (fun f '(n, b, bm) => exists d, n = num d /\ d ∈ oxm_types /\ object_wire d f b bm)
         objs fs.
Proof.
  intros He H. unfold entry_field, append_entry in *.
  destruct (ft_test _ _).
  2:{ injection H as <-. exists []. rewrite app_nil_r. split; [by destruct m|constructor]. }
  apply bind_Ok in H as ([h mk] & Hh & H). rewrite Hh. cbn [mbind res_bind].
  apply bind_Ok in H as (v & Hv & H). rewrite Hv. cbn [mbind res_bind].
  destruct (entries_classes e He) as (c & Hc & Hcin & Hcf & Hcm & Hck).
  rewrite Hc in H. cbn [or_raise mbind res_bind] in H.
  destruct (class_known c Hcin) as [d Hd]. pose proof (cs_name c d Hd) as Hn.
  rewrite Hcf in Hn. rewrite Hn in H. cbn [or_raise mbind res_bind] in H.
  apply bind_Ok in H as (b & Hb & H). unfold append_field, MatchField.make.
  destruct (entry_header_cases _ _ _ _ Hh) as [[-> Hmk]|(-> & Hr & m0 & -> & Hmk)].
  - rewrite Z.eqb_refl in H. injection H as <-.
    rewrite <- Hcf, (cs_find c d Hd). cbn [mbind res_bind]. eexists. split; [done|].
    constructor; [|constructor]. exists d. split_and!; [done|by apply (cs_elem c d)|].
    apply ow_exact; try done. intros Hk. apply Hmk. by apply Hck.
  - apply Hcm in Hr. rewrite <- Hcf in H |- *.
    rewrite (proj2 (Z.eqb_neq _ _) (headers_differ c d Hd Hr)) in H.
    apply bind_Ok in H as (bm & Hbm & [= <-]).
    destruct (cs_masked c d Hd Hr) as (_ & _ & _ & ->). cbn [mbind res_bind].
    eexists. split; [done|]. constructor; [|constructor].
    exists d. split_and!; [done|by apply (cs_elem c d)|]. apply ow_masked; try done.
    intros Hk. apply Hmk. by apply Hck.
Qed.

Definition wires (objs : list MatchField.t) (fs : list field) : Prop :=
  Forall2 (fun f '(n, b, bm) => exists d, n = num d /\ d ∈ oxm_types /\ object_wire d f b bm)
    objs fs.

Lemma append_entries m es fss :
  (forall e, e ∈ es -> e ∈ old_entries) -> mapM_res (entry_field m) es = Ok fss ->
  forall acc, exists objs, foldM append_entry (with_fields m acc) es
              = Ok (with_fields m (acc ++ objs)) /\ wires objs (concat fss).
Proof.
  revert fss. induction es as [|e es IH]; intros fss Hes H acc.
  - injection H as <-. exists []. rewrite app_nil_r. split; [done|constructor].
  - apply bind_Ok in H as (fs & Hfs & H). apply bind_Ok in H as (fss' & Hfss & [= <-]).
    destruct (append_entry_field (with_fields m acc) e fs) as (o1 & H1 & W1).
    { apply Hes. set_solver. }
    { exact Hfs. }
    destruct (IH fss' ltac:(set_solver) Hfss (acc ++ o1)) as (o2 & H2 & W2).
    exists (o1 ++ o2). cbn [foldM]. rewrite H1. cbn [mbind res_bind fields with_fields].
    change (with_fields (with_fields m acc) (acc ++ o1)) with (with_fields m (acc ++ o1)).
    rewrite H2, <- app_assoc. split; [done|]. cbn [concat]. by apply Forall2_app.
Qed.

Lemma serialize_objects_fields objs fs buf off :
  wires objs fs -> (length buf <= off)%nat ->
  serialize_objects objs buf off = serialize_fields oxm_types fs buf off.
Proof.
  intros H. revert buf off. induction H as [|f [[n b] bm] objs fs Hf _ IH]; intros buf off Hoff;
    [done|].
  destruct Hf as (d & -> & Hd & Hw). unfold serialize_objects, serialize_fields in *.
  cbn [foldM]. rewrite (object_serialize d f b bm buf off Hw Hoff).
  destruct (object_payload _ _ _ _ Hw) as (_ & Hp & Hne & Hexp & Hwf).
  rewrite (serialize_field _ _ _ _ _ _ _ _ Hexp Hwf Hne Hp Hoff). cbn [mbind res_bind].
  apply IH. rewrite !length_app, length_replicate. lia.
Qed.

Lemma wires_well_sized objs fs : wires objs fs -> Forall well_sized fs.
Proof.
  induction 1 as [|f [[n b] bm] objs fs (d & -> & Hd & Hw) _ IH]; constructor; [|done].
  destruct (object_payload _ _ _ _ Hw) as (Hb & Hp & _). exists d. cbn. split_and!; try done.
  unfold payload_ok in Hp. by destruct bm as [bm|]; [destruct Hp|].
Qed.

Lemma mapM_entries_length m es fss : mapM_res (entry_field m) es = Ok fss ->
  (length (concat fss) <= length es)%nat.
Proof.
  revert fss. induction es as [|e es IH]; intros fss H; [by injection H as <-|].
  apply bind_Ok in H as (fs & Hfs & H). apply bind_Ok in H as (fss' & Hfss & [= <-]).
  cbn [concat length]. rewrite length_app. specialize (IH _ Hfss).
  enough (length fs <= 1)%nat by lia.
  unfold entry_field in Hfs. destruct (ft_test _ _); [|by injection Hfs as <-; simpl; lia].
  repeat (apply bind_Ok in Hfs as (? & _ & Hfs); try destruct x as [? ?]).
  destruct (_ =? _); inv_ok; simpl; lia.
Qed.

(** The old serializer writes the bytes that the byte-level serializer writes for
    the fields the setters recorded, and these are parsed back. *)
Lemma serialize_old_wire m fs buf rest :
  old_fields m = Ok fs -> fields m = [] -> _serialized m = false ->
  exists w len m', serialize_old m buf (length buf) = Ok (buf ++ w, length w, m')
    /\ match_serialize oxm_types fs buf (length buf) = Ok (buf ++ w, length w)
    /\ match_parse ((buf ++ w) ++ rest) (length buf) = Ok (OFPMT_OXM, len, fs).
Proof.
  intros Hfs Hf0 Hs. unfold old_fields in Hfs. apply bind_Ok in Hfs as (fss & Hfss & [= <-]).
  destruct (append_entries (with_serialized m) old_entries fss ltac:(done) Hfss [])
    as (objs & Happ & Hw).
  pose proof (mapM_entries_length _ _ _ Hfss) as Hlen. change (length old_entries) with 41%nat in Hlen.
  destruct (match_wire (concat fss) buf rest (wires_well_sized _ _ Hw) ltac:(lia))
    as (w & Hms & _ & len & _ & Hmp).
  exists w, len, (with_fields (with_serialized m) objs). split; [|done].
  unfold serialize_old. rewrite Hs.
  replace (with_serialized m) with (with_fields (with_serialized m) [])
    by (rewrite <- Hf0; by destruct m).
  rewrite Happ. cbn [mbind res_bind fields with_fields app].
  rewrite (serialize_objects_fields objs (concat fss)) by (try done; lia).
  unfold match_serialize in Hms. change (calcsize "!HH") with 4%nat in Hms.
  apply bind_Ok in Hms as ([b1 o1] & H1 & Hms). rewrite H1. cbn [mbind res_bind].
  apply bind_Ok in Hms as (b2 & H2 & Hms). rewrite H2. cbn [mbind res_bind].
  apply bind_Ok in Hms as (b3 & H3 & Hms). rewrite H3. cbn [mbind res_bind].
  injection Hms as -> ->. done.
Qed.

(** *** The parser *)

(** The formats of a class have the size that its headers announce and the shape
    that its [field_parser] destructures. *)
Definition shape_ok (k : mtkind) (masked : bool) (f : format) : bool :=
  match k, masked, f_codes f with
  | (MTv6 | MTv6Nd), _, _ => true
  | MTPbb, false, [Fi _; Fi _; Fi _] => true
  | MTPbb, true, [Fi _; Fi _; Fi _; Fi _; Fi _; Fi _] => true
  | (MTPlain | MTVlan), false, ([Fi _] | [Fs _]) => true
  | (MTPlain | MTVlan), true, ([Fi _; Fi _] | [Fs _; Fs _]) => true
  | _, _, _ => false
  end.

Definition parse_shape (c : mtcls) (h : Z) : bool :=
  let hm := MatchField.hasmask h in
  negb (Z.shiftr (Z.shiftr h 9) 7 =? OFPXMC_EXPERIMENTER)
  && (negb hm || (Z.land h 0xff mod 2 =? 0))
  && match parse_fmt (if hm then MatchField.double_fmt (pack_str c) else pack_str c) with
     | Some f => (Z.of_nat (fmt_size f) =? Z.land h 0xff) && shape_ok (mt_kind c) hm f
     | None => false
     end.

Lemma parse_shapes h c : _FIELDS_HEADERS h = Some c -> parse_shape c h = true.
Proof.
  assert (H : forallb (fun c => forallb (parse_shape c) (headers_of c)) MT_classes = true)
    by (vm_compute; reflexivity).
  unfold _FIELDS_HEADERS. intros Hf. apply List.find_some in Hf as [Hin Hh].
  apply bool_decide_eq_true, list_elem_of_In in Hh. rewrite forallb_forall in H.
  specialize (H c Hin). rewrite forallb_forall in H. by apply H.
Qed.

(** The class of a header parses its field when the buffer holds it. *)
Lemma field_parser_total c h buf off :
  _FIELDS_HEADERS h = Some c -> Z.of_nat (off + 4) + Z.land h 0xff <= Z.of_nat (length buf) ->
  exists f, MatchField.field_parser c h buf off = Ok f.
Proof.
  intros Hc Hl. apply parse_shapes in Hc. unfold parse_shape in Hc.
  apply andb_true_iff in Hc as [_ Hc].
  set (fmt := if MatchField.hasmask h then _ else _) in Hc.
  destruct (parse_fmt fmt) as [f|] eqn:Hf; [|done].
  apply andb_true_iff in Hc as [Hsz Hsh]. apply Z.eqb_eq in Hsz.
  unfold MatchField.field_parser. fold fmt. unfold unpack_from, with_fmt. rewrite Hf.
  rewrite funpack_from_ok by lia.
  cbn [mbind res_bind]. set (bs := drop _ _). clearbody bs. clear -Hsh.
  unfold shape_ok in Hsh. destruct (mt_kind c), (MatchField.hasmask h); try done;
    try (eexists; reflexivity);
    destruct (f_codes f) as [|[] [|[] [|[] [|[] [|[] [|[] [|[]]]]]]]]; try done;
    eexists; reflexivity.
Qed.

Lemma unpack_bytes_len n buf off vs :
  funpack_from (Format Big [Fs n]) buf off = Ok vs -> (off + n <= length buf)%nat.
Proof.
  unfold funpack_from. destruct (Nat.leb_spec (off + fmt_size (Format Big [Fs n])) (length buf));
    [|done]. intros _. revert H. unfold fmt_size. simpl. lia.
Qed.

(** What the TLV parser accepts is in the buffer, its length in the header word. *)
Lemma parse_accepts buf off n v m l :
  parse buf off = Ok (n, v, m, l) ->
  exists h, unpack_from "!I" buf off = Ok [VInt h] /\ l = Z.to_nat (Z.land h 0xff + 4)
    /\ (Z.shiftr (Z.shiftr h 9) 7 <> OFPXMC_EXPERIMENTER ->
        (MatchField.hasmask h = true -> Z.land h 0xff mod 2 = 0) ->
        Z.of_nat (off + 4) + Z.land h 0xff <= Z.of_nat (length buf)).
Proof.
  unfold parse. intros H. apply bind_Ok in H as (hi & Hh & H).
  unfold parse_header_impl in Hh. apply bind_Ok in Hh as (vs & Hvs & Hh).
  destruct vs as [|[h|?] [|? ?]]; try done. exists h. split; [done|].
  apply bind_Ok in Hh as ([num ehl] & Hnum & Hh). apply bind_Ok in Hh as (? & Hpos & [= <-]).
  cbn [h_total_hdr_len h_value_len h_hasmask h_num h_field_len] in H.
  apply bind_Ok in H as (vs & Hv & H). destruct vs as [|[?|b] [|? ?]]; try done.
  apply bind_Ok in H as (mk & Hm & H). injection H as _ _ _ <-.
  split; [f_equal; lia|]. intros Hne Heven.
  rewrite (proj2 (Z.eqb_neq _ _) Hne) in Hnum. injection Hnum as <- <-.
  assert (0 <= Z.land h 255) by (apply Z.land_nonneg; lia).
  apply unpack_bytes_len in Hv. unfold MatchField.hasmask in Heven.
  destruct (negb _); [|rewrite Z.sub_0_r in *; lia].
  apply bind_Ok in Hm as (vs & Hm & _). apply unpack_bytes_len in Hm.
  specialize (Heven eq_refl). rewrite Z.sub_0_r in *.
  pose proof (Z.div_mod (Z.land h 255) 2 ltac:(lia)). lia.
Qed.

(** The loop kept for compatibility never rejects what the new loop accepts. *)
Lemma parse_old_agrees buf off n v m l :
  parse buf off = Ok (n, v, m, l) -> exists o, MatchField.parser buf off = Ok (o, l).
Proof.
  intros H. destruct (parse_accepts _ _ _ _ _ _ H) as (h & Hh & -> & Hl).
  unfold MatchField.parser. rewrite Hh. cbn [mbind res_bind].
  destruct (_FIELDS_HEADERS h) as [c|] eqn:Hc; [|eexists; done].
  pose proof (parse_shapes _ _ Hc) as Hs. unfold parse_shape in Hs.
  apply andb_true_iff in Hs as [Hs _]. apply andb_true_iff in Hs as [H1 H2].
  destruct (field_parser_total c h buf off Hc) as [o Ho].
  - apply Hl; [by apply Z.eqb_neq, negb_true_iff|]. intros Hm. rewrite Hm in H2.
    by apply Z.eqb_eq.
  - exists o. by rewrite Ho.
Qed.

Lemma parser_old_agrees fuel buf off len fs :
  parse_fields fuel buf off len = Ok fs -> exists objs, parser_old fuel buf off len = Ok objs.
Proof.
  revert off len fs. induction fuel as [|fuel IH]; intros off len fs H; [by eexists|].
  cbn [parse_fields parser_old] in *. destruct (len <=? 0); [by eexists|].
  apply bind_Ok in H as ([[[n v] m] l] & Hp & H). apply bind_Ok in H as (r & Hr & _).
  destruct (parse_old_agrees _ _ _ _ _ _ Hp) as [o ->].
  destruct (IH _ _ _ Hr) as [objs Ho]. cbn [mbind res_bind]. rewrite Ho. by eexists.
Qed.

Section UserFacts.
Context `{C : AddrConv} `{I : IntConv} `{!AddrConvLaws C}.

Lemma parse_user_agrees fuel buf off len fs l :
  parse_fields fuel buf off len = Ok fs ->
  mapM_res (fun '(n, v, m) => _to_user n (Some v) m) fs = Ok l ->
  parse_user_fields fuel buf off len = Ok l.
Proof.
  revert off len fs l. induction fuel as [|fuel IH]; intros off len fs l H Hl.
  - injection H as <-. by injection Hl as <-.
  - cbn [parse_fields parse_user_fields] in *.
    destruct (len <=? 0); [by injection H as <-; injection Hl as <-|].
    apply bind_Ok in H as ([[[n v] m] k] & Hp & H). apply bind_Ok in H as (r & Hr & [= <-]).
    cbn [mapM_res] in Hl. apply bind_Ok in Hl as (u & Hu & Hl).
    apply bind_Ok in Hl as (us & Hus & [= <-]).
    rewrite Hp. cbn [mbind res_bind]. rewrite Hu. cbn [mbind res_bind].
    by rewrite (IH _ _ _ _ Hr Hus).
Qed.

(** A parsed match, from the byte-level parser and the user view of its fields. *)
Lemma parser_spec buf off ty len fs l :
  match_parse buf off = Ok (ty, len, fs) ->
  mapM_res (fun '(n, v, m) => _to_user n (Some v) m) fs = Ok l ->
  exists objs, parser buf off
    = Ok (MkMatch Wildcards_init Flow_init objs l ty (Some len) false).
Proof.
  intros H Hl. unfold match_parse, parser in *. apply bind_Ok in H as (vs & Hvs & H).
  rewrite Hvs. cbn [mbind res_bind].
  destruct vs as [|[t|?] [|[n|?] [|? ?]]]; try done.
  apply bind_Ok in H as (fs' & Hfs & [= -> -> ->]).
  destruct (parser_old_agrees _ _ _ _ _ Hfs) as [objs Ho]. exists objs. rewrite Ho.
  cbn [mbind res_bind]. by rewrite (parse_user_agrees _ _ _ _ _ _ Hfs Hl).
Qed.

Lemma to_user_fields fs l : Forall wire_ok fs ->
  mapM_res (fun '(n, v, m) => _to_user n v m) fs = Ok l ->
  mapM_res (fun '(n, v, m) => _to_user n (Some v) m) (to_field <$> fs) = Ok l.
Proof.
  intros H. revert l. induction H as [|f fs (d & v & m & _ & -> & _) _ IH]; intros l Hl; [done|].
  cbn [mapM_res fmap list_fmap to_field fst snd default from_option id] in *.
  apply bind_Ok in Hl as (u & Hu & Hl). rewrite Hu. cbn [mbind res_bind].
  apply bind_Ok in Hl as (us & Hus & Hl). by rewrite (IH _ Hus).
Qed.

(** A match of user values on the wire. *)
Lemma user_match_uniform fs l :
  Forall wire_ok fs -> (length fs <= 200)%nat ->
  mapM_res (fun '(n, v, m) => _to_user n v m) fs = Ok l ->
  mapM_res (fun '(k, v) => _from_user k v) l = Ok fs ->
  exists w len, (length w mod 8 = 0)%nat /\ Z.of_nat (length w) = round_up len 8
    /\ (length w <= 12 + 259 * length fs)%nat
    /\ (forall buf, user_match_serialize l buf (length buf) = Ok (buf ++ w, length w))
    /\ forall buf rest, exists objs, parser (buf ++ w ++ rest) (length buf)
       = Ok (MkMatch Wildcards_init Flow_init objs l OFPMT_OXM (Some len) false).
Proof.
  intros Hfs Hn Hl Hl'.
  destruct (match_wire_uniform (to_field <$> fs)) as (w & len & Hw & Hlen & Hbd & Hs & Hp).
  { apply Forall_fmap. eapply list.Forall_impl; [exact Hfs|]. intros. by apply wire_well_sized. }
  { by rewrite length_fmap. }
  rewrite length_fmap in Hbd. exists w, len. split; [done|]. split; [done|]. split; [done|]. split.
  - intros buf. by rewrite (user_match_serialize_fields l fs).
  - intros buf rest. exact (parser_spec _ _ _ _ _ _ (Hp buf rest) (to_user_fields _ _ Hfs Hl)).
Qed.

Lemma user_match_wire fs l buf rest :
  Forall wire_ok fs -> (length fs <= 200)%nat ->
  mapM_res (fun '(n, v, m) => _to_user n v m) fs = Ok l ->
  mapM_res (fun '(k, v) => _from_user k v) l = Ok fs ->
  exists w len objs, user_match_serialize l buf (length buf) = Ok (buf ++ w, length w)
    /\ (length w mod 8 = 0)%nat
    /\ parser ((buf ++ w) ++ rest) (length buf)
       = Ok (MkMatch Wildcards_init Flow_init objs l OFPMT_OXM (Some len) false).
Proof.
  intros Hfs Hn Hl Hl'. destruct (user_match_uniform fs l) as (w & len & Hw & _ & _ & Hs & Hp); [done..|].
  destruct (Hp buf rest) as [objs Ho]. exists w, len, objs. by rewrite <- app_assoc.
Qed.

(** A match built from keyword arguments, wherever it is written. *)
Lemma kwargs_match_wire kwargs m : Forall arg_ok kwargs -> (length kwargs <= 200)%nat ->
  match_of_kwargs kwargs = Ok m ->
  exists w len, (length w mod 8 = 0)%nat /\ Z.of_nat (length w) = round_up len 8
    /\ (length w <= 12 + 259 * length kwargs)%nat
    /\ (forall buf, exists m', serialize m buf (length buf) = Ok (buf ++ w, length w, m'))
    /\ forall buf rest, exists m', parser (buf ++ w ++ rest) (length buf) = Ok m'
         /\ _fields2 m' = _fields2 m /\ m_length m' = Some len.
Proof.
  intros Hargs Hn Hm. destruct (args_internal kwargs Hargs) as [fs Hfs].
  destruct (match_init_spec kwargs fs Hfs) as (l & Hl & Htu & Hfu & _).
  destruct (user_match_uniform (sort_fields fs) l) as (w & len & Hw & Hlen & Hbd & Hs & Hp);
    [|apply Forall2_length in Hfs; rewrite sort_fields_perm; lia|done|done|].
  { rewrite sort_fields_perm. by eapply internal_wires. }
  unfold match_of_kwargs in Hm. rewrite Hl in Hm. injection Hm as <-.
  exists w, len. split; [done|]. split; [done|].
  split; [apply Forall2_length in Hfs; rewrite sort_fields_perm in Hbd; lia|]. split.
  - intros buf. unfold serialize, _composed_with_old_api. cbn [fields _fields2 _wc length].
    rewrite (bool_decide_eq_true_2 (0%nat = 0%nat)) by done.
    rewrite (bool_decide_eq_true_2 (Wildcards_init = Wildcards_init)) by done.
    cbn [negb andb orb]. rewrite Hs. by eexists.
  - intros buf rest. destruct (Hp buf rest) as [objs Ho]. by eexists.
Qed.

End UserFacts.
(** *** Setters *)

(** Clearing one bit makes exactly its test true. *)
Lemma ft_set_test e1 e2 : e1 ∈ old_entries -> e2 ∈ old_entries ->
  ft_test (ft_set Wildcards_init (OFPXMT_OFB (e_bit e1))) (OFPXMT_OFB (e_bit e2))
  = bool_decide (e_bit e1 = e_bit e2).
Proof.
  assert (H : forallb (fun e1 => forallb (fun e2 =>
      Bool.eqb (ft_test (ft_set Wildcards_init (OFPXMT_OFB (e_bit e1))) (OFPXMT_OFB (e_bit e2)))
        (bool_decide (e_bit e1 = e_bit e2))) old_entries) old_entries = true)
    by (vm_compute; reflexivity).
  rewrite forallb_forall in H. intros H1%list_elem_of_In H2%list_elem_of_In.
  specialize (H _ H1). rewrite forallb_forall in H. by apply Bool.eqb_prop, H.
Qed.

Lemma ft_test_wildcards wc wc' s : wildcards wc = wildcards wc' -> ft_test wc s = ft_test wc' s.
Proof. unfold ft_test. by intros ->. Qed.

Lemma bits_distinct : NoDup (e_bit <$> old_entries).
Proof. apply (bool_decide_unpack _). vm_compute. reflexivity. Qed.

(** A match in which one setter was called has one field. *)
Lemma one_field m e fs :
  e ∈ old_entries -> wildcards (_wc m) = wildcards (ft_set Wildcards_init (OFPXMT_OFB (e_bit e))) ->
  entry_field m e = Ok fs -> old_fields m = Ok fs.
Proof.
  intros He Hw Hf. unfold old_fields.
  assert (Hrest : forall e', e' ∈ old_entries -> e_bit e <> e_bit e' -> entry_field m e' = Ok []).
  { intros e' He' Hne. unfold entry_field. rewrite (ft_test_wildcards _ _ _ Hw), ft_set_test by done.
    by rewrite bool_decide_eq_false_2. }
  pose proof bits_distinct as Hnd. revert He Hrest Hnd. generalize old_entries as es.
  induction es as [|e0 es IH]; intros He Hrest Hnd; [by apply not_elem_of_nil in He|].
  cbn [mapM_res]. cbn [fmap list_fmap] in Hnd. apply list.NoDup_cons in Hnd as [Hni Hnd].
  apply elem_of_cons in He as [<-|He].
  - rewrite Hf. cbn [mbind res_bind].
    rewrite (mapM_res_ok _ (fun _ => [])).
    + cbn [mbind res_bind concat]. f_equal. rewrite <- (app_nil_r fs) at 2. f_equal.
      clear. induction es; done.
    + intros e' He'. apply Hrest; [apply elem_of_cons; by right|]. intros E. apply Hni. rewrite E.
      apply list_elem_of_fmap. by exists e'.
  - rewrite Hrest; [|apply elem_of_cons; by left|].
    + cbn [mbind res_bind]. assert (Hr' : forall e', e' ∈ es -> e_bit e <> e_bit e' -> entry_field m e' = Ok []).
      { intros e' He'. apply Hrest. apply elem_of_cons. by right. }
      specialize (IH He Hr' Hnd).
      apply bind_Ok in IH as (fss & -> & [= Hc]). cbn [mbind res_bind concat app]. by rewrite Hc.
    + intros E. apply Hni. rewrite <- E. apply list_elem_of_fmap. by exists e.
Qed.

(** The field of an entry whose bit is cleared, from the attributes it reads. *)
Lemma entry_field_read m e c d v h mk b bm :
  ft_test (_wc m) (OFPXMT_OFB (e_bit e)) = true ->
  entry_class e = Some c -> desc_by_name oxm_types (e_bit e) = Some d ->
  getattr (_flow m) (e_attr e) = Ok v -> entry_header (_wc m) e = Ok (h, mk) ->
  mt_bytes c (Some v) = Ok b ->
  (if h =? OXM_OF (e_bit e) then bm = None else exists x, bm = Some x /\ mt_bytes c mk = Ok x) ->
  entry_field m e = Ok [(num d, b, bm)].
Proof.
  intros Ht Hc Hd Hv Hh Hb Hm. unfold entry_field. rewrite Ht, Hh. cbn [mbind res_bind].
  rewrite Hv, Hc, Hd. cbn [or_raise mbind res_bind]. rewrite Hb. cbn [mbind res_bind].
  destruct (h =? _); [by subst|]. destruct Hm as (x & -> & ->). reflexivity.
Qed.

End MatchFacts.

(** ** Claims *)

Module MatchClaims.
Import OxmFacts OxmUserFacts MatchFacts.

(** Texts converted as raw characters; integers are refused as addresses. *)
Definition raw_int : IntConv := {| int_to_bin := fun _ _ => Err TypeError |}.


Definition sample_args : list (string * uservalue) :=
  [("ipv4_src", Masked (Some (UText (RawConv.to_string [10; 0; 3; 9])))
                       (Some (UText (RawConv.to_string [255; 255; 0; 0]))));
   ("eth_type", Plain (Some (UInt 2048)))]%string.

Lemma sample_args_ok : Forall (arg_ok (C := RawConv.conv)) sample_args.
Proof.
  repeat constructor.
  - exists (Desc "ipv4_src" OpenFlowBasic 11 IPv4Addr).
    split; [apply list_elem_of_In; vm_compute; tauto|]. split; [done|].
    split; apply (RawConv.canonical_raw IPV4); try done; solve_bytes_ok.
  - exists (Desc "eth_type" OpenFlowBasic 5 Int2).
    split; [apply list_elem_of_In; vm_compute; tauto|]. split; [done|]. simpl. lia.
Qed.


(** The order in which a dictionary yields the keyword arguments does not matter
    as long as no two fields share a sort key (the field number, or the
    experimenter for experimenter fields): every order builds the same match. *)
Theorem match_order_independent `{C : AddrConv} `{I : IntConv} `{!AddrConvLaws C}
    (kwargs kwargs' : list (string * uservalue)) (fs : list ifield)
    (Hp : kwargs ≡ₚ kwargs') (Hfs : Forall2 internal kwargs fs)
    (Hk : NoDup (sort_key <$> fs)) :
  exists l, match_init kwargs = Ok l /\ match_init kwargs' = Ok l.
Proof.
  destruct (Permutation_Forall2 Hp Hfs) as (fs' & Hp' & Hfs').
  destruct (match_init_spec kwargs fs Hfs) as (l & Hl & Htu & _).
  destruct (match_init_spec kwargs' fs' Hfs') as (l' & Hl' & Htu' & _).
  assert (sort_fields fs = sort_fields fs') as E.
  { apply sorted_unique; try apply sort_fields_sorted.
    - by rewrite !sort_fields_perm.
    - by rewrite sort_fields_perm. }
  rewrite E in Htu. rewrite Htu in Htu'. injection Htu' as <-. by exists l.
Qed.

Lemma match_order_independent_witness :
  exists l, match_init (C := RawConv.conv) (I := raw_int) sample_args = Ok l
    /\ match_init (C := RawConv.conv) (I := raw_int) (reverse sample_args) = Ok l.
Proof.
  destruct (args_internal (C := RawConv.conv) (I := raw_int) (AddrConvLaws0 := RawConv.laws)
    sample_args sample_args_ok) as [fs Hfs].
  apply (match_order_independent (C := RawConv.conv) (I := raw_int)
    (AddrConvLaws0 := RawConv.laws) sample_args (reverse sample_args) fs).
  - by rewrite reverse_Permutation.
  - exact Hfs.
  - apply Forall2_cons_inv_l in Hfs as (f1 & r & (d & v & m & Hd & Hn & -> & _) & Hfs & ->).
    apply Forall2_cons_inv_l in Hfs as (f2 & r2 & (d2 & v2 & m2 & Hd2 & Hn2 & -> & _) & Hfs & ->).
    apply Forall2_nil_inv_l in Hfs as ->. cbn in Hn, Hn2.
    destruct (tables_agree d Hd) as [E _]. destruct (tables_agree d2 Hd2) as [E2 _].
    rewrite <- Hn in E. rewrite <- Hn2 in E2. vm_compute in E, E2.
    injection E as <-. injection E2 as <-. apply (bool_decide_unpack _). vm_compute. reflexivity.
Defined.


Definition sample_old : OFPMatch :=
  set_ipv6_dst_masked
    (set_dl_dst_masked (set_vlan_vid (set_in_port empty_match 3) 5)
       [1; 2; 3; 4; 5; 6] [255; 255; 0; 0; 0; 0])
    [8193; 3512; 0; 0; 0; 0; 0; 1] [65535; 65535; 0; 0; 0; 0; 0; 0].


(** Limits of the setters.  A plain setter sends exactly its field; but a setter
    called after its masked variant keeps the earlier mask on the wire, and a
    setter called on a match built from keyword arguments makes the serializer
    drop those arguments. *)
Theorem setters_keep_masks_and_drop_keywords `{C : AddrConv} `{I : IntConv}
    (p : Z) (a b mk : bytes) (f2 : list (string * uservalue)) (Hp : in_width 4 p = true)
    (Hb : length b = 6%nat) (Hmk : length mk = 6%nat) :
  let in_port := (NumInt (OXM_OF "in_port" / 512), be_encode 4 p, None) in
  let m := MkMatch Wildcards_init Flow_init [] f2 OFPMT_OXM None false in
  old_fields (set_in_port m p) = Ok [in_port]
  /\ old_fields (set_dl_dst (set_dl_dst_masked m a mk) b)
     = Ok [(NumInt (OXM_OF "eth_dst" / 512), b, Some mk)]
  /\ exists w m', serialize (set_in_port m p) [] 0 = Ok (w, length w, m')
     /\ match_serialize oxm_types [in_port] [] 0 = Ok (w, length w).
Proof.
  intros in_port m.
  assert (H1 : old_fields (set_in_port m p) = Ok [in_port]).
  { apply (one_field _ (Entry "in_port" "in_port" HPlain)); [apply list_elem_of_In; by left|done|].
    eapply (entry_field_read _ _ (MT "MTInPort" "in_port" "!I" false MTPlain)
      (Desc "in_port" OpenFlowBasic 0 Int4) (FInt p) (OXM_OF "in_port")); try reflexivity.
    unfold mt_bytes. cbn [mt_kind pack_str MatchField.pack_arg]. fmt_eval. unfold fpack.
    cbn [f_codes f_order pack_codes]. rewrite Hp. cbn [mbind res_bind encode].
    by rewrite app_nil_r. }
  split; [exact H1|]. split.
  - apply (one_field _ (Entry "eth_dst" "dl_dst" (HTruthy "dl_dst_mask")));
      [apply list_elem_of_In; vm_compute; tauto|done|].
    assert (Hpk : forall x, length x = 6%nat ->
      mt_bytes (MT "MTEthDst" "eth_dst" "!6s" true MTPlain) (Some (FBytes x)) = Ok x).
    { intros x Hx. unfold mt_bytes. cbn [mt_kind pack_str MatchField.pack_arg]. fmt_eval.
      unfold fpack. cbn [f_codes f_order pack_codes mbind res_bind].
      by rewrite <- Hx, resize_all, app_nil_r. }
    eapply (entry_field_read _ _ (MT "MTEthDst" "eth_dst" "!6s" true MTPlain)
      (Desc "eth_dst" OpenFlowBasic 3 MacAddr) (FBytes b) (OXM_OF_W "eth_dst") (Some (FBytes mk)));
      try reflexivity; [|by apply Hpk|].
    + destruct mk; [done|]. reflexivity.
    + exists mk. split; [done|]. by apply Hpk.
  - destruct (serialize_old_wire (set_in_port m p) [in_port] [] [] H1 eq_refl eq_refl)
      as (w & len & m' & Hs & Hw & _).
    exists w, m'. split; [|exact Hw]. unfold serialize.
    replace (_composed_with_old_api (set_in_port m p)) with true; [exact Hs|].
    unfold _composed_with_old_api. symmetry. apply orb_true_iff. right.
    apply negb_true_iff, bool_decide_eq_false_2. intros E.
    apply (f_equal wildcards) in E. vm_compute in E. discriminate.
Qed.

Lemma setters_keep_masks_and_drop_keywords_witness :
  exists w m', serialize (C := RawConv.conv) (I := raw_int)
       (set_in_port (MkMatch Wildcards_init Flow_init []
          [("eth_type"%string, Plain (Some (UInt 2048)))] OFPMT_OXM None false) 7) [] 0
       = Ok (w, length w, m') /\ length w = 16%nat.
Proof.
  destruct (setters_keep_masks_and_drop_keywords (C := RawConv.conv) (I := raw_int) 7
    [] [1; 2; 3; 4; 5; 6] [255; 255; 255; 0; 0; 0] [("eth_type"%string, Plain (Some (UInt 2048)))]
    eq_refl eq_refl eq_refl) as (_ & _ & w & m' & H & H').
  exists w, m'. split; [exact H|]. vm_compute in H'. injection H' as <-. reflexivity.
Defined.

End MatchClaims.
