(* ===== verification/OfpActions.v ===== *)
(** * Actions of OpenFlow 1.3 and the Nicira extension

    The action classes of ryu/ofproto/ofproto_v1_3_parser.py with their registry,
    and those that ryu/ofproto/nx_actions.py generates for this version of the
    protocol, with the flow specifications of the learn action.  An action writes
    itself at an offset of the message buffer and leaves its length in [len], which
    the callers add to the offset. *)

From Stdlib Require Import ZArith Lia.
From stdpp Require Import base list gmap strings numbers.
From S2P Require Import Prelude Struct OfpMsg Oxm PktUtils PktHeaders OxmUser OfpMatch.

(** ** Constants of ofproto_v1_3.py and nicira_ext.py *)

Definition OFPAT_COPY_TTL_OUT : Z := 11.
Definition OFPAT_COPY_TTL_IN : Z := 12.
Definition OFPAT_SET_MPLS_TTL : Z := 15.
Definition OFPAT_DEC_MPLS_TTL : Z := 16.
Definition OFPAT_PUSH_VLAN : Z := 17.
Definition OFPAT_POP_VLAN : Z := 18.
Definition OFPAT_PUSH_MPLS : Z := 19.
Definition OFPAT_POP_MPLS : Z := 20.
Definition OFPAT_SET_QUEUE : Z := 21.
Definition OFPAT_GROUP : Z := 22.
Definition OFPAT_SET_NW_TTL : Z := 23.
Definition OFPAT_DEC_NW_TTL : Z := 24.
Definition OFPAT_SET_FIELD : Z := 25.
Definition OFPAT_PUSH_PBB : Z := 26.
Definition OFPAT_POP_PBB : Z := 27.
Definition OFP_ACTION_HEADER_SIZE : Z := 8.
Definition OFP_ACTION_GROUP_PACK_STR : string := "!HHI".
Definition OFP_ACTION_GROUP_SIZE : Z := 8.
Definition OFP_ACTION_SET_QUEUE_PACK_STR : string := "!HHI".
Definition OFP_ACTION_SET_QUEUE_SIZE : Z := 8.
Definition OFP_ACTION_MPLS_TTL_PACK_STR : string := "!HHB3x".
Definition OFP_ACTION_MPLS_TTL_SIZE : Z := 8.
Definition OFP_ACTION_NW_TTL_PACK_STR : string := "!HHB3x".
Definition OFP_ACTION_NW_TTL_SIZE : Z := 8.
Definition OFP_ACTION_PUSH_PACK_STR : string := "!HHH2x".
Definition OFP_ACTION_PUSH_SIZE : Z := 8.
Definition OFP_ACTION_POP_MPLS_PACK_STR : string := "!HHH2x".
Definition OFP_ACTION_POP_MPLS_SIZE : Z := 8.
Definition OFP_ACTION_SET_FIELD_PACK_STR : string := "!HH4x".
Definition OFP_ACTION_SET_FIELD_SIZE : Z := 8.
Definition NXAST_REG_MOVE : Z := 6.
Definition NXAST_RESUBMIT_TABLE : Z := 14.
Definition NXAST_LEARN : Z := 16.
Definition NXAST_CONJUNCTION : Z := 34.
Definition NXAST_CT : Z := 35.

(** ** Loops that may not end

    [None] stands for a computation that has not returned within its fuel. *)

Definition run (A : Type) := option (res A).

#[global] Instance run_ret : MRet run := fun A a => Some (Ok a).
#[global] Instance run_bind : MBind run := fun A B f m =>
  match m with
  | None => None
  | Some (Err e) => Some (Err e)
  | Some (Ok a) => f a
  end.

Definition lift {A} (r : res A) : run A := Some r.

Lemma run_bind_lift {A B} (a : A) (f : A -> run B) : (lift (Ok a) ≫= f) = f a.
Proof. done. Qed.

(** ** Flow specifications of the learn action *)

Module FlowSpec.

(** A subfield of a register or header, by name and bit offset. *)
Definition subfield := (string * Z)%type.

Inductive source := SrcField (f : subfield) | SrcImm (i : Z).

(** [NXFlowSpecMatch], [NXFlowSpecLoad] and [NXFlowSpecOutput]. *)
Inductive t :=
  | NXFlowSpecMatch (src : source) (dst : subfield) (n_bits : Z)
  | NXFlowSpecLoad (src : source) (dst : subfield) (n_bits : Z)
  | NXFlowSpecOutput (src : source) (n_bits : Z).

#[global] Instance source_eq_dec : EqDecision source.
Proof. solve_decision. Defined.
#[global] Instance t_eq_dec : EqDecision t.
Proof. solve_decision. Defined.

(** [_serialize_header] of oxx_fields.py: the buffer and the bytes written. *)
Definition serialize_header (n : onum) (buf : bytes) (offset : nat) : res (bytes * nat) :=
  let value_len := match field_desc oxm_types n with
                   | Some d => type_size (d_type d) | None => 0%nat end in
  '(n, exp_hdr) ← make_exp_hdr oxm_types n;
  n9 ← shl9 n;
  let f := Format Big [Fi 4; Fs (length exp_hdr)] in
  buf ← fmsg_pack_into f buf offset
          [VInt (Z.lor (Z.lor n9 (Z.shiftl 0 8)) (Z.of_nat (length exp_hdr + value_len)));
           VBytes exp_hdr];
  Ok (buf, fmt_size f).

Definition _parse_subfield (buf : bytes) : res subfield :=
  '(n, len) ← parse_header buf 0;
  py_assert (len =? 4) ;;
  field ← _to_user_header n;
  let rest := drop (Z.to_nat len) buf in
  vs ← unpack_from "!H" rest 0;
  match vs with
  | [VInt ofs] => Ok (field, ofs)
  | _ => Err ValueError
  end.

Definition _serialize_subfield (s : subfield) : res bytes :=
  let '(field, ofs) := s in
  n ← _from_user_header field;
  '(buf, _) ← serialize_header n [] 0;
  py_assert (length buf =? 4)%nat ;;
  msg_pack_into "!H" buf 4 [VInt ofs].

Definition imm_len (n_bits : Z) : Z := (n_bits + 15) / 16 * 2.

Definition dst_type (s : t) : Z :=
  match s with NXFlowSpecMatch _ _ _ => 0 | NXFlowSpecLoad _ _ _ => 1 | NXFlowSpecOutput _ _ => 2 end.
Definition src (s : t) : source :=
  match s with NXFlowSpecMatch s _ _ | NXFlowSpecLoad s _ _ | NXFlowSpecOutput s _ => s end.
Definition n_bits (s : t) : Z :=
  match s with NXFlowSpecMatch _ _ n | NXFlowSpecLoad _ _ n | NXFlowSpecOutput _ n => n end.

(** [bytes(from_user(src))]: a negative size makes an empty range. *)
Definition serialize (s : t) : res bytes :=
  let src_type := match src s with SrcField _ => 0 | SrcImm _ => 1 end in
  let val := Z.lor (Z.lor (Z.shiftl src_type 13) (Z.shiftl (dst_type s) 11)) (n_bits s) in
  hdr ← msg_pack_into "!H" [] 0 [VInt val];
  sb ← match src s with
       | SrcField f => _serialize_subfield f
       | SrcImm i => Ok (int_from_user (Z.to_nat (imm_len (n_bits s))) i)
       end;
  db ← match s with
       | NXFlowSpecMatch _ dst _ | NXFlowSpecLoad _ dst _ => _serialize_subfield dst
       | NXFlowSpecOutput _ _ => Ok []
       end;
  Ok (hdr ++ sb ++ db).

(** [_NXFlowSpec.parse]: an all-zero header is padding. *)
Definition parse (buf : bytes) : res (option t * bytes) :=
  vs ← unpack_from "!H" buf 0;
  match vs with
  | [VInt hdr] =>
      let rest := drop 2 buf in
      if hdr =? 0 then Ok (None, rest)
      else
        let src_type := Z.land (Z.shiftr hdr 13) 1 in
        let dst_type := Z.land (Z.shiftr hdr 11) 3 in
        let n_bits := Z.land hdr 0x3ff in
        (if dst_type =? 3 then Err KeyError else Ok tt) ;;
        '(src, rest) ← (if src_type =? 0
                        then s ← _parse_subfield rest; Ok (SrcField s, drop 6 rest)
                        else
                          let src_len := Z.to_nat (imm_len n_bits) in
                          i ← int_to_user src_len (take src_len rest);
                          Ok (SrcImm i, drop src_len rest));
        if dst_type =? 2 then Ok (Some (NXFlowSpecOutput src n_bits), rest)
        else
          dst ← _parse_subfield rest;
          Ok (Some (if dst_type =? 0 then NXFlowSpecMatch src dst n_bits
                    else NXFlowSpecLoad src dst n_bits), drop 6 rest)
  | _ => Err ValueError
  end.

(** [while len(rest) > 0]: every turn consumes two bytes or more. *)
Fixpoint parse_specs (fuel : nat) (rest : bytes) : res (list t) :=
  match fuel with
  | O => Ok []
  | S fuel =>
      match rest with
      | [] => Ok []
      | _ =>
          '(spec, rest) ← parse rest;
          specs ← parse_specs fuel rest;
          Ok (match spec with Some s => s :: specs | None => specs end)
      end
  end.

End FlowSpec.

(** ** Actions *)

Module Action.

(** One constructor per class.  A set-field action holds a keyword with its value
    (new interface), a field object (old interface), or both after parsing. *)
Inductive t :=
  | OFPActionOutput (port max_len : Z)
  | OFPActionGroup (group_id : Z)
  | OFPActionSetQueue (queue_id : Z)
  | OFPActionSetMplsTtl (mpls_ttl : Z)
  | OFPActionDecMplsTtl
  | OFPActionSetNwTtl (nw_ttl : Z)
  | OFPActionDecNwTtl
  | OFPActionCopyTtlOut
  | OFPActionCopyTtlIn
  | OFPActionPushVlan (ethertype : Z)
  | OFPActionPushMpls (ethertype : Z)
  | OFPActionPopVlan
  | OFPActionPopMpls (ethertype : Z)
  | OFPActionSetField (kv : option (string * option uval)) (field : option MatchField.t)
  | OFPActionPushPbb (ethertype : Z)
  | OFPActionPopPbb
  | OFPActionExperimenterUnknown (a : ActionExperimenterUnknown.t)
  | NXActionRegMove (src_field dst_field : string) (n_bits src_ofs dst_ofs : Z)
  | NXActionLearn (table_id : Z) (specs : list FlowSpec.t)
      (idle_timeout hard_timeout priority cookie flags fin_idle_timeout fin_hard_timeout : Z)
  | NXActionConjunction (clause n_clauses id : Z)
  | NXActionResubmitTable (in_port table_id : Z)
  | NXActionCT (flags zone_src zone_ofs_nbits recirc_table alg : Z) (actions : list t).

(** [OFPActionSetField.__init__] with keyword arguments: exactly one, no mask. *)
Definition set_field_init (kwargs : list (string * uservalue)) : res t :=
  match kwargs with
  | [(key, Plain value)] => Ok (OFPActionSetField (Some (key, value)) None)
  | _ => Err AssertionError
  end.

(** ... and with a field object. *)
Definition set_field_old (f : MatchField.t) : t := OFPActionSetField None (Some f).

Section Codec.
Context `{C : AddrConv} `{I : IntConv}.

(** The fixed part of [OFPActionHeader.serialize] and of the classes that pack one
    more value: the buffer and [len]. *)
Definition pack_fixed (fmt : string) (buf : bytes) (offset : nat) (type_ len : Z)
    (vals : list Z) : res (bytes * nat) :=
  buf ← msg_pack_into fmt buf offset (VInt type_ :: VInt len :: (VInt <$> vals));
  Ok (buf, Z.to_nat len).

(** [msg_pack_into("%dx" % n, buf, offset)] *)
Definition pack_pad (n : nat) (buf : bytes) (offset : nat) : res bytes :=
  fmsg_pack_into (Format Big [Fx n]) buf offset [].

Definition set_field_serialize (kv : option (string * option uval))
    (field : option MatchField.t) (buf : bytes) (offset : nat) : res (bytes * nat) :=
  match kv with
  | Some (key, value) =>
      f ← _from_user key (Plain value);
      '(buf, len_) ← serialize_ifield f buf (offset + 4);
      let len := round_up (4 + Z.of_nat len_) 8 in
      buf ← msg_pack_into "!HH" buf offset [VInt OFPAT_SET_FIELD; VInt len];
      let pad_len := len - (4 + Z.of_nat len_) in
      buf ← pack_pad (Z.to_nat pad_len) buf (offset + 4 + len_);
      Ok (buf, Z.to_nat len)
  | None =>
      match field with
      | None => Err AttributeError
      | Some f =>
          let len_ := OFP_ACTION_SET_FIELD_SIZE + MatchField.oxm_len f in
          let len := round_up len_ 8 in
          let pad_len := len - len_ in
          buf ← msg_pack_into "!HH" buf offset [VInt OFPAT_SET_FIELD; VInt len];
          '(buf, _) ← MatchField.serialize f buf (offset + 4);
          buf ← pack_pad (Z.to_nat pad_len) buf (offset + Z.to_nat len_);
          Ok (buf, Z.to_nat len)
      end
  end.

(** The common end of the Nicira serializers: the experimenter header, the subtype
    and the data, which is not padded. *)
Definition nx_serialize (subtype : Z) (data : bytes) (buf : bytes) (offset : nat) :
    res (bytes * nat) :=
  let payload_offset := (OFP_ACTION_EXPERIMENTER_HEADER_SIZE + calcsize "!H")%nat in
  let len := round_up (Z.of_nat (payload_offset + length data)) 8 in
  buf ← msg_pack_into OFP_ACTION_EXPERIMENTER_HEADER_PACK_STR buf offset
          [VInt OFPAT_EXPERIMENTER; VInt len; VInt NX_EXPERIMENTER_ID];
  buf ← msg_pack_into "!H" buf (offset + OFP_ACTION_EXPERIMENTER_HEADER_SIZE) [VInt subtype];
  buf ← fmsg_pack_into (Format Big [Fs (length data)]) buf (offset + payload_offset)
          [VBytes data];
  Ok (buf, Z.to_nat len).

Definition NXActionRegMove_fmt : string := "!HHH".
Definition NXActionLearn_fmt : string := "!HHHQHBxHH".
Definition NXActionConjunction_fmt : string := "!BBI".
Definition NXActionResubmitTable_fmt : string := "!HB3x".
Definition NXActionCT_fmt : string := "!HIHB3xH".

Fixpoint serialize (a : t) (buf : bytes) (offset : nat) {struct a} : res (bytes * nat) :=
  match a with
  | OFPActionOutput port max_len =>
      pack_fixed OFP_ACTION_OUTPUT_PACK_STR buf offset OFPAT_OUTPUT OFP_ACTION_OUTPUT_SIZE
        [port; max_len]
  | OFPActionGroup group_id =>
      pack_fixed OFP_ACTION_GROUP_PACK_STR buf offset OFPAT_GROUP OFP_ACTION_GROUP_SIZE [group_id]
  | OFPActionSetQueue queue_id =>
      pack_fixed OFP_ACTION_SET_QUEUE_PACK_STR buf offset OFPAT_SET_QUEUE
        OFP_ACTION_SET_QUEUE_SIZE [queue_id]
  | OFPActionSetMplsTtl ttl =>
      pack_fixed OFP_ACTION_MPLS_TTL_PACK_STR buf offset OFPAT_SET_MPLS_TTL
        OFP_ACTION_MPLS_TTL_SIZE [ttl]
  | OFPActionDecMplsTtl =>
      pack_fixed OFP_ACTION_HEADER_PACK_STR buf offset OFPAT_DEC_MPLS_TTL OFP_ACTION_HEADER_SIZE []
  | OFPActionSetNwTtl ttl =>
      pack_fixed OFP_ACTION_NW_TTL_PACK_STR buf offset OFPAT_SET_NW_TTL OFP_ACTION_NW_TTL_SIZE [ttl]
  | OFPActionDecNwTtl =>
      pack_fixed OFP_ACTION_HEADER_PACK_STR buf offset OFPAT_DEC_NW_TTL OFP_ACTION_HEADER_SIZE []
  | OFPActionCopyTtlOut =>
      pack_fixed OFP_ACTION_HEADER_PACK_STR buf offset OFPAT_COPY_TTL_OUT OFP_ACTION_HEADER_SIZE []
  | OFPActionCopyTtlIn =>
      pack_fixed OFP_ACTION_HEADER_PACK_STR buf offset OFPAT_COPY_TTL_IN OFP_ACTION_HEADER_SIZE []
  | OFPActionPushVlan ethertype =>
      pack_fixed OFP_ACTION_PUSH_PACK_STR buf offset OFPAT_PUSH_VLAN OFP_ACTION_PUSH_SIZE [ethertype]
  | OFPActionPushMpls ethertype =>
      pack_fixed OFP_ACTION_PUSH_PACK_STR buf offset OFPAT_PUSH_MPLS OFP_ACTION_PUSH_SIZE [ethertype]
  | OFPActionPopVlan =>
      pack_fixed OFP_ACTION_HEADER_PACK_STR buf offset OFPAT_POP_VLAN OFP_ACTION_HEADER_SIZE []
  | OFPActionPopMpls ethertype =>
      pack_fixed OFP_ACTION_POP_MPLS_PACK_STR buf offset OFPAT_POP_MPLS OFP_ACTION_POP_MPLS_SIZE
        [ethertype]
  | OFPActionSetField kv field => set_field_serialize kv field buf offset
  | OFPActionPushPbb ethertype =>
      pack_fixed OFP_ACTION_PUSH_PACK_STR buf offset OFPAT_PUSH_PBB OFP_ACTION_PUSH_SIZE [ethertype]
  | OFPActionPopPbb =>
      pack_fixed OFP_ACTION_HEADER_PACK_STR buf offset OFPAT_POP_PBB OFP_ACTION_HEADER_SIZE []
  | OFPActionExperimenterUnknown a =>
      buf ← ActionExperimenterUnknown.serialize a buf offset;
      Ok (buf, ActionExperimenterUnknown.len a)
  | NXActionRegMove src_field dst_field n_bits src_ofs dst_ofs =>
      data ← msg_pack_into NXActionRegMove_fmt [] 0 [VInt n_bits; VInt src_ofs; VInt dst_ofs];
      n ← _from_user_header src_field;
      '(data, _) ← FlowSpec.serialize_header n data (length data);
      n ← _from_user_header dst_field;
      '(data, _) ← FlowSpec.serialize_header n data (length data);
      nx_serialize NXAST_REG_MOVE data buf offset
  | NXActionLearn table_id specs idle hard priority cookie flags fin_idle fin_hard =>
      data ← msg_pack_into NXActionLearn_fmt [] 0
        [VInt idle; VInt hard; VInt priority; VInt cookie; VInt flags; VInt table_id;
         VInt fin_idle; VInt fin_hard];
      data ← foldM (fun data s => b ← FlowSpec.serialize s; Ok (data ++ b)) data specs;
      nx_serialize NXAST_LEARN data buf offset
  | NXActionConjunction clause n_clauses id =>
      data ← msg_pack_into NXActionConjunction_fmt [] 0 [VInt clause; VInt n_clauses; VInt id];
      nx_serialize NXAST_CONJUNCTION data buf offset
  | NXActionResubmitTable in_port table_id =>
      data ← msg_pack_into NXActionResubmitTable_fmt [] 0 [VInt in_port; VInt table_id];
      nx_serialize NXAST_RESUBMIT_TABLE data buf offset
  | NXActionCT flags zone_src zone_ofs_nbits recirc_table alg actions =>
      data ← msg_pack_into NXActionCT_fmt [] 0
        [VInt flags; VInt zone_src; VInt zone_ofs_nbits; VInt recirc_table; VInt alg];
      data ← foldM (fun data a => '(data, _) ← serialize a data (length data); Ok data)
               data actions;
      nx_serialize NXAST_CT data buf offset
  end.

(** *** Parsing: the object and its [len] *)

Definition unpack1 {A} (fmt : string) (buf : bytes) (offset : nat) (k : Z -> A) : res A :=
  vs ← unpack_from fmt buf offset;
  match vs with [VInt _; VInt _; VInt x] => Ok (k x) | _ => Err ValueError end.

Definition unpack0 {A} (buf : bytes) (offset : nat) (a : A) : res A :=
  vs ← unpack_from OFP_ACTION_HEADER_PACK_STR buf offset;
  match vs with [VInt _; VInt _] => Ok a | _ => Err ValueError end.

(** The classes of one fixed format keep the length of their class, whatever the
    wire says. *)
Definition fixed_parser (type_ : Z) : option (bytes -> nat -> res (t * Z)) :=
  if type_ =? OFPAT_OUTPUT then Some (fun buf off =>
    a ← ActionOutput.parser buf off;
    Ok (OFPActionOutput (ActionOutput.port a) (ActionOutput.max_len a), OFP_ACTION_OUTPUT_SIZE))
  else if type_ =? OFPAT_GROUP then Some (fun buf off =>
    unpack1 OFP_ACTION_GROUP_PACK_STR buf off (fun x => (OFPActionGroup x, OFP_ACTION_GROUP_SIZE)))
  else if type_ =? OFPAT_SET_QUEUE then Some (fun buf off =>
    unpack1 OFP_ACTION_SET_QUEUE_PACK_STR buf off
      (fun x => (OFPActionSetQueue x, OFP_ACTION_SET_QUEUE_SIZE)))
  else if type_ =? OFPAT_SET_MPLS_TTL then Some (fun buf off =>
    unpack1 OFP_ACTION_MPLS_TTL_PACK_STR buf off
      (fun x => (OFPActionSetMplsTtl x, OFP_ACTION_MPLS_TTL_SIZE)))
  else if type_ =? OFPAT_DEC_MPLS_TTL then Some (fun buf off =>
    unpack0 buf off (OFPActionDecMplsTtl, OFP_ACTION_HEADER_SIZE))
  else if type_ =? OFPAT_SET_NW_TTL then Some (fun buf off =>
    unpack1 OFP_ACTION_NW_TTL_PACK_STR buf off
      (fun x => (OFPActionSetNwTtl x, OFP_ACTION_NW_TTL_SIZE)))
  else if type_ =? OFPAT_DEC_NW_TTL then Some (fun buf off =>
    unpack0 buf off (OFPActionDecNwTtl, OFP_ACTION_HEADER_SIZE))
  else if type_ =? OFPAT_COPY_TTL_OUT then Some (fun buf off =>
    unpack0 buf off (OFPActionCopyTtlOut, OFP_ACTION_HEADER_SIZE))
  else if type_ =? OFPAT_COPY_TTL_IN then Some (fun buf off =>
    unpack0 buf off (OFPActionCopyTtlIn, OFP_ACTION_HEADER_SIZE))
  else if type_ =? OFPAT_PUSH_VLAN then Some (fun buf off =>
    unpack1 OFP_ACTION_PUSH_PACK_STR buf off (fun x => (OFPActionPushVlan x, OFP_ACTION_PUSH_SIZE)))
  else if type_ =? OFPAT_PUSH_MPLS then Some (fun buf off =>
    unpack1 OFP_ACTION_PUSH_PACK_STR buf off (fun x => (OFPActionPushMpls x, OFP_ACTION_PUSH_SIZE)))
  else if type_ =? OFPAT_POP_VLAN then Some (fun buf off =>
    unpack0 buf off (OFPActionPopVlan, OFP_ACTION_HEADER_SIZE))
  else if type_ =? OFPAT_POP_MPLS then Some (fun buf off =>
    unpack1 OFP_ACTION_POP_MPLS_PACK_STR buf off
      (fun x => (OFPActionPopMpls x, OFP_ACTION_POP_MPLS_SIZE)))
  else if type_ =? OFPAT_PUSH_PBB then Some (fun buf off =>
    unpack1 OFP_ACTION_PUSH_PACK_STR buf off (fun x => (OFPActionPushPbb x, OFP_ACTION_PUSH_SIZE)))
  else if type_ =? OFPAT_POP_PBB then Some (fun buf off =>
    unpack0 buf off (OFPActionPopPbb, OFP_ACTION_HEADER_SIZE))
  else None.

(** [OFPActionSetField.parser]: a masked field violates the constructor's
    assertion. *)
Definition set_field_parser (buf : bytes) (offset : nat) : res (t * Z) :=
  vs ← unpack_from OFP_ACTION_SET_FIELD_PACK_STR buf offset;
  match vs with
  | [VInt type_; VInt len_] =>
      '(n, value, mask, _) ← parse buf (offset + 4);
      '(k, uv) ← _to_user n (Some value) mask;
      a ← set_field_init [(k, uv)];
      '(f, _) ← MatchField.parser buf (offset + 4);
      match a with
      | OFPActionSetField kv _ => Ok (OFPActionSetField kv (Some f), len_)
      | _ => Err TypeError
      end
  | _ => Err ValueError
  end.

(** [NXActionRegMove.parse] *)
Definition reg_move_parse (buf : bytes) : res t :=
  vs ← unpack_from NXActionRegMove_fmt buf 0;
  match vs with
  | [VInt n_bits; VInt src_ofs; VInt dst_ofs] =>
      let rest := drop (calcsize NXActionRegMove_fmt) buf in
      '(n, len) ← parse_header rest 0;
      src_field ← _to_user_header n;
      let rest := drop (Z.to_nat len) rest in
      '(n, _) ← parse_header rest 0;
      dst_field ← _to_user_header n;
      Ok (NXActionRegMove src_field dst_field n_bits src_ofs dst_ofs)
  | _ => Err ValueError
  end.

(** [NXActionLearn.parse] *)
Definition learn_parse (buf : bytes) : res t :=
  vs ← unpack_from NXActionLearn_fmt buf 0;
  match vs with
  | [VInt idle; VInt hard; VInt priority; VInt cookie; VInt flags; VInt table_id;
     VInt fin_idle; VInt fin_hard] =>
      let rest := drop (calcsize NXActionLearn_fmt) buf in
      specs ← FlowSpec.parse_specs (length rest) rest;
      Ok (NXActionLearn table_id specs idle hard priority cookie flags fin_idle fin_hard)
  | _ => Err ValueError
  end.

Definition conjunction_parse (buf : bytes) : res t :=
  vs ← unpack_from NXActionConjunction_fmt buf 0;
  match vs with
  | [VInt clause; VInt n_clauses; VInt id] => Ok (NXActionConjunction clause n_clauses id)
  | _ => Err ValueError
  end.

Definition resubmit_parse (buf : bytes) : res t :=
  vs ← unpack_from NXActionResubmitTable_fmt buf 0;
  match vs with
  | [VInt in_port; VInt table_id] => Ok (NXActionResubmitTable in_port table_id)
  | _ => Err ValueError
  end.

(** The loop of [NXActionCT.parse], for a given action parser. *)
Fixpoint ct_actions (action_parser : bytes -> nat -> run (t * Z)) (fuel : nat) (rest : bytes) :
    run (list t) :=
  match fuel with
  | O => None
  | S fuel =>
      match rest with
      | [] => mret []
      | _ =>
          '(a, len) ← action_parser rest 0%nat;
          l ← ct_actions action_parser fuel (drop (Z.to_nat len) rest);
          mret (a :: l)
      end
  end.

(** [NXAction.parse]: the class for unknown subtypes has no subtype of its own, so
    its constructor raises. *)
Definition nx_parse (action_parser : bytes -> nat -> run (t * Z)) (fuel : nat) (buf : bytes) :
    run t :=
  vs ← lift (unpack_from "!H" buf 0);
  match vs with
  | [VInt subtype] =>
      let rest := drop (calcsize "!H") buf in
      if subtype =? NXAST_REG_MOVE then lift (reg_move_parse rest)
      else if subtype =? NXAST_LEARN then lift (learn_parse rest)
      else if subtype =? NXAST_CONJUNCTION then lift (conjunction_parse rest)
      else if subtype =? NXAST_RESUBMIT_TABLE then lift (resubmit_parse rest)
      else if subtype =? NXAST_CT then
        vs ← lift (unpack_from NXActionCT_fmt rest 0);
        match vs with
        | [VInt flags; VInt zone_src; VInt zone_ofs_nbits; VInt recirc_table; VInt alg] =>
            actions ← ct_actions action_parser fuel (drop (calcsize NXActionCT_fmt) rest);
            mret (NXActionCT flags zone_src zone_ofs_nbits recirc_table alg actions)
        | _ => lift (Err ValueError)
        end
      else lift (Err AttributeError)
  | _ => lift (Err ValueError)
  end.

(** [OFPAction.parser] *)
Fixpoint parser (fuel : nat) (buf : bytes) (offset : nat) : run (t * Z) :=
  match fuel with
  | O => None
  | S fuel =>
      vs ← lift (unpack_from OFP_ACTION_HEADER_PACK_STR buf offset);
      match vs with
      | [VInt type_; VInt _] =>
          match fixed_parser type_ with
          | Some p => lift (p buf offset)
          | None =>
              if type_ =? OFPAT_SET_FIELD then lift (set_field_parser buf offset)
              else if type_ =? OFPAT_EXPERIMENTER then
                vs ← lift (unpack_from OFP_ACTION_EXPERIMENTER_HEADER_PACK_STR buf offset);
                match vs with
                | [VInt _; VInt len_; VInt experimenter] =>
                    let data := drop (offset + OFP_ACTION_EXPERIMENTER_HEADER_SIZE)
                                  (take (offset + Z.to_nat len_) buf) in
                    if experimenter =? NX_EXPERIMENTER_ID then
                      obj ← nx_parse (parser fuel) fuel data; mret (obj, len_)
                    else mret (OFPActionExperimenterUnknown
                                 (ActionExperimenterUnknown.Mk experimenter (Some data)), len_)
                | _ => lift (Err ValueError)
                end
              else lift (Err AssertionError)
          end
      | _ => lift (Err ValueError)
      end
  end.

End Codec.
End Action.

(** ** Properties *)

Module ActionFacts.
Import OxmFacts OxmUserFacts MatchFacts Action.

(** Induction over actions with the induction hypothesis for the nested ones. *)
Lemma action_ind (P : t -> Prop) :
  (forall a, (forall f z o r g l, a <> NXActionCT f z o r g l) -> P a) ->
  (forall f z o r g l, Forall P l -> P (NXActionCT f z o r g l)) ->
  forall a, P a.
Proof.
  intros Hflat Hct. fix IH 1.
  intros []; try (apply Hflat; discriminate).
  apply Hct. induction actions as [|a l IHl]; constructor; [apply IH|exact IHl].
Qed.

(** An action without the field object that parsing adds for the old interface. *)
Fixpoint erase (a : t) : t :=
  match a with
  | OFPActionSetField kv _ => OFPActionSetField kv None
  | NXActionCT f z o r g l => NXActionCT f z o r g (erase <$> l)
  | a => a
  end.

Section Facts.
Context `{C : AddrConv} `{I : IntConv} `{!AddrConvLaws C}.

(** What an action is on the wire: [p] is written, [pad] zero bytes complete its
    length, and the parser reads it back wherever it lies. *)
Record wire_of (a : t) (p : bytes) (pad : nat) : Prop := {
  wo_pos : (8 <= length p)%nat;
  wo_pad : (pad < 8)%nat;
  wo_aligned : ((length p + pad) mod 8 = 0)%nat;
  wo_small : Z.of_nat (length p + pad) < 65536;
  wo_serialize : forall buf off, (length buf <= off)%nat ->
    serialize a buf off
    = Ok (buf ++ replicate (off - length buf) 0 ++ p, (length p + pad)%nat);
  wo_parse : exists n, forall fuel pre rest, (n <= fuel)%nat ->
    exists a', parser fuel (pre ++ (p ++ replicate pad 0) ++ rest) (length pre)
               = Some (Ok (a', Z.of_nat (length p + pad))) /\ erase a' = erase a }.

(** *** Reading the two-word header *)

Lemma header_read ty l q pre :
  in_width 2 ty = true -> in_width 2 l = true -> (4 <= length q)%nat ->
  unpack_from OFP_ACTION_HEADER_PACK_STR (pre ++ be_encode 2 ty ++ be_encode 2 l ++ q) (length pre)
  = Ok [VInt ty; VInt l].
Proof.
  intros Ht Hl Hq. unfold OFP_ACTION_HEADER_PACK_STR. fmt_eval.
  rewrite funpack_from_ok by (autorewrite with beba; unfold fmt_size; simpl; lia).
  rewrite drop_app_length. cbn [f_codes f_order unpack_codes].
  rewrite take_app_length', drop_app_length' by (by rewrite be_encode_length).
  rewrite take_app_length' by (by rewrite be_encode_length).
  cbn [decode]. rewrite !be_decode_encode by (by apply in_width_iff). done.
Qed.

(** The experimenter header: three words, any data behind. *)
Lemma exp_header_read l e q pre :
  in_width 2 l = true -> in_width 4 e = true ->
  unpack_from OFP_ACTION_EXPERIMENTER_HEADER_PACK_STR
    (pre ++ be_encode 2 OFPAT_EXPERIMENTER ++ be_encode 2 l ++ be_encode 4 e ++ q) (length pre)
  = Ok [VInt OFPAT_EXPERIMENTER; VInt l; VInt e].
Proof.
  intros Hl He. unfold OFP_ACTION_EXPERIMENTER_HEADER_PACK_STR. fmt_eval.
  rewrite funpack_from_ok by (autorewrite with beba; unfold fmt_size; simpl; lia).
  rewrite drop_app_length. cbn [f_codes f_order unpack_codes].
  do 2 rewrite take_app_length', drop_app_length' by (by rewrite be_encode_length).
  rewrite take_app_length' by (by rewrite be_encode_length).
  cbn [decode]. rewrite !be_decode_encode by (by apply in_width_iff). done.
Qed.

(** *** Actions of a fixed format *)

(** What [pack_fixed] writes, and where the parser goes with it. *)
Lemma fixed_wire a f fmt ty l vals p q pf :
  parse_fmt fmt = Some f ->
  (forall buf off, serialize a buf off = pack_fixed fmt buf off ty l vals) ->
  fpack f (VInt ty :: VInt l :: (VInt <$> vals)) = Ok p ->
  p = be_encode 2 ty ++ be_encode 2 l ++ q -> Z.of_nat (length p) = l ->
  in_width 2 ty = true -> l = 8 \/ l = 16 ->
  fixed_parser ty = Some pf ->
  (forall pre rest, pf (pre ++ p ++ rest) (length pre) = Ok (a, l)) ->
  wire_of a p 0.
Proof.
  intros Hf Hs Hp Hq Hl Hty Hl8 Hpf Hparse.
  assert (Hw : in_width 2 l = true) by (apply in_width_2; lia).
  constructor; [lia|lia| |lia| |].
  - apply Nat2Z.inj. rewrite Nat2Z.inj_mod, Nat.add_0_r, Hl. by destruct Hl8 as [->| ->].
  - intros buf off Hoff. rewrite Hs. unfold pack_fixed, msg_pack_into, with_fmt. rewrite Hf.
    rewrite (fmsg_pack_into_gap _ _ _ _ _ Hp Hoff). cbn [mbind res_bind]. do 2 f_equal. lia.
  - exists 1%nat. intros [|fuel] pre rest Hfuel; [lia|]. exists a. split; [|done].
    cbn [replicate]. rewrite app_nil_r. cbn [parser]. specialize (Hparse pre rest).
    assert (Hql : (4 <= length (q ++ rest))%nat).
    { apply (f_equal length) in Hq. autorewrite with beba in Hq. rewrite length_app. lia. }
    subst p. rewrite <- !app_assoc in Hparse |- *. rewrite header_read by done.
    rewrite run_bind_lift, Hpf, Hparse. unfold lift. do 3 f_equal. rewrite Nat.add_0_r. lia.
Qed.

(** The values of an action fit their fields. *)
Definition fixed_ok (a : t) : Prop :=
  match a with
  | OFPActionOutput port max_len => in_width 4 port = true /\ in_width 2 max_len = true
  | OFPActionGroup x | OFPActionSetQueue x => in_width 4 x = true
  | OFPActionSetMplsTtl x | OFPActionSetNwTtl x => in_width 1 x = true
  | OFPActionPushVlan x | OFPActionPushMpls x | OFPActionPopMpls x | OFPActionPushPbb x =>
      in_width 2 x = true
  | OFPActionDecMplsTtl | OFPActionDecNwTtl | OFPActionCopyTtlOut | OFPActionCopyTtlIn
  | OFPActionPopVlan | OFPActionPopPbb => True
  | _ => False
  end.

Ltac unpack_back Hp :=
  unfold unpack1, unpack0, ActionOutput.parser;
  unfold OFP_ACTION_OUTPUT_PACK_STR, OFP_ACTION_GROUP_PACK_STR, OFP_ACTION_SET_QUEUE_PACK_STR,
    OFP_ACTION_MPLS_TTL_PACK_STR, OFP_ACTION_NW_TTL_PACK_STR, OFP_ACTION_PUSH_PACK_STR,
    OFP_ACTION_POP_MPLS_PACK_STR, OFP_ACTION_HEADER_PACK_STR;
  fmt_eval; rewrite (unpack_from_pack _ _ _ _ _ _ Hp eq_refl); reflexivity.

(** The packed bytes of a fixed action, and the parser on them. *)
Ltac fixed_case fmt H H' :=
  match goal with
  | |- exists p, wire_of ?a p 0 =>
      let r := eval cbn [serialize] in (serialize a [] 0) in
      match r with
      | pack_fixed _ _ _ ?ty ?l ?vals =>
          let f := eval vm_compute in (parse_fmt fmt) in
          match f with Some ?f =>
            let Hp := fresh "Hp" in
            assert (exists q, fpack f (VInt ty :: VInt l :: (VInt <$> vals))
                              = Ok (be_encode 2 ty ++ be_encode 2 l ++ q)) as [q Hp];
            [unfold fpack; cbn [f_codes f_order pack_codes fmap list_fmap];
             change (in_width 2 ty) with true; change (in_width 2 l) with true;
             cbn [mbind res_bind encode]; rewrite ?H, ?H'; eexists; reflexivity|];
            exists (be_encode 2 ty ++ be_encode 2 l ++ q);
            eapply (fixed_wire a f fmt ty l vals _ q);
            [vm_compute; reflexivity|reflexivity|exact Hp|reflexivity
            |apply fpack_length in Hp; rewrite Hp; reflexivity|reflexivity
            |first [by left|by right]|reflexivity|];
            intros pre rest; cbv beta; unpack_back Hp
          end
      end
  end.

Lemma fixed_actions a : fixed_ok a -> exists p, wire_of a p 0.
Proof.
  intros H. destruct a; try done; simpl in H.
  - destruct H as [H1 H2]. fixed_case OFP_ACTION_OUTPUT_PACK_STR H1 H2.
  - fixed_case OFP_ACTION_GROUP_PACK_STR H H.
  - fixed_case OFP_ACTION_SET_QUEUE_PACK_STR H H.
  - fixed_case OFP_ACTION_MPLS_TTL_PACK_STR H H.
  - fixed_case OFP_ACTION_HEADER_PACK_STR H H.
  - fixed_case OFP_ACTION_NW_TTL_PACK_STR H H.
  - fixed_case OFP_ACTION_HEADER_PACK_STR H H.
  - fixed_case OFP_ACTION_HEADER_PACK_STR H H.
  - fixed_case OFP_ACTION_HEADER_PACK_STR H H.
  - fixed_case OFP_ACTION_PUSH_PACK_STR H H.
  - fixed_case OFP_ACTION_PUSH_PACK_STR H H.
  - fixed_case OFP_ACTION_HEADER_PACK_STR H H.
  - fixed_case OFP_ACTION_POP_MPLS_PACK_STR H H.
  - fixed_case OFP_ACTION_PUSH_PACK_STR H H.
  - fixed_case OFP_ACTION_HEADER_PACK_STR H H.
Qed.

(** *** Set-field *)

Lemma plain_arg k v : arg_ok (k, Plain (Some v)) ->
  exists d b, d ∈ oxm_types /\ length b = type_size (d_type d)
    /\ _from_user k (Plain (Some v)) = Ok (num d, Some b, None)
    /\ _to_user (num d) (Some b) None = Ok (k, Plain (Some v)).
Proof.
  intros (d & Hd & Hk & Hv). cbn in Hk, Hv. subst k.
  destruct (type_from_to _ _ Hv) as (b & Hb & Hl & _ & Ht).
  exists d, b. split; [done|]. split; [done|]. split.
  - rewrite from_user_known by done. cbn [opt_from_user mbind res_bind]. by rewrite Hb.
  - unfold _to_user, _get_field_info_by_number. destruct (tables_agree d Hd) as [_ ->].
    cbn [mbind res_bind]. rewrite Hl, Nat.eqb_refl. cbn [mbind res_bind]. by rewrite Ht.
Qed.

Lemma two_words ty l : in_width 2 ty = true -> in_width 2 l = true ->
  fpack (Format Big [Fi 2; Fi 2]) [VInt ty; VInt l] = Ok (be_encode 2 ty ++ be_encode 2 l).
Proof.
  intros H1 H2. unfold fpack. cbn [f_codes f_order pack_codes]. rewrite H1, H2.
  cbn [mbind res_bind encode]. by rewrite app_nil_r.
Qed.

Lemma pack_pad_end n buf off : off = length buf -> pack_pad n buf off = Ok (buf ++ replicate n 0).
Proof.
  intros ->. unfold pack_pad. apply fmsg_pack_into_end. unfold fpack. cbn. by rewrite app_nil_r.
Qed.

Lemma set_field_wire k v f : arg_ok (k, Plain (Some v)) ->
  exists p, wire_of (OFPActionSetField (Some (k, Some v)) f) p 0.
Proof.
  intros Ha. destruct (plain_arg k v Ha) as (d & b & Hd & Hb & Hfu & Htu).
  destruct (serialize_parse_field oxm_types (num d) b None) as (fw & Hfw & Hser & Hpar).
  { apply well_sized_ok. exists d. done. }
  set (len := round_up (4 + Z.of_nat (length fw)) 8).
  pose proof (round_up_spec (4 + Z.of_nat (length fw)) 8 ltac:(lia)) as [Hr1 Hr2]. fold len in Hr1, Hr2.
  set (pad := Z.to_nat (len - (4 + Z.of_nat (length fw)))).
  assert (Hw : in_width 2 len = true) by (apply in_width_2; lia).
  exists (be_encode 2 OFPAT_SET_FIELD ++ be_encode 2 len ++ fw ++ replicate pad 0).
  assert (Hl : Z.of_nat (length (be_encode 2 OFPAT_SET_FIELD ++ be_encode 2 len ++ fw ++ replicate pad 0)
                 + 0) = len) by (autorewrite with beba; unfold pad; lia).
  constructor; [lia|lia| |lia| |].
  - apply Nat2Z.inj. rewrite Nat2Z.inj_mod, Hl. done.
  - intros buf off Hoff. cbn [serialize set_field_serialize]. rewrite Hfu. cbn [mbind res_bind serialize_ifield].
    rewrite Hser by lia. cbn [mbind res_bind]. fold len. fmt_eval.
    replace (buf ++ replicate (off + 4 - length buf) 0 ++ fw)
      with ((buf ++ replicate (off - length buf) 0) ++ replicate 4 0 ++ fw).
    2:{ rewrite <- app_assoc. f_equal. rewrite app_assoc. f_equal. rewrite <- replicate_add.
        f_equal. lia. }
    assert (Hpl : length (buf ++ replicate (off - length buf) 0) = off)
      by (autorewrite with beba; lia).
    pose proof (fmsg_pack_into_inside _ (buf ++ replicate (off - length buf) 0) (replicate 4 0) fw
      _ _ (two_words OFPAT_SET_FIELD len eq_refl Hw) eq_refl ltac:(done)) as E.
    rewrite Hpl in E. rewrite E.
    cbn [mbind res_bind]. fold pad.
    rewrite pack_pad_end by (autorewrite with beba; lia).
    cbn [mbind res_bind]. f_equal. f_equal; [by rewrite <- !app_assoc|]. lia.
  - exists 1%nat. intros [|fuel] pre rest Hfuel; [lia|]. cbn [replicate]. rewrite app_nil_r, Hl.
    rewrite <- !app_assoc. cbn [parser].
    assert (Hq : (4 <= length (fw ++ replicate pad 0%Z ++ rest))%nat) by (rewrite !length_app; lia).
    rewrite header_read by done. rewrite run_bind_lift. change (fixed_parser OFPAT_SET_FIELD) with (@None (bytes -> nat -> res (t * Z))).
    cbn [Z.eqb OFPAT_SET_FIELD Pos.eqb]. unfold set_field_parser.
    change OFP_ACTION_SET_FIELD_PACK_STR with OFP_ACTION_HEADER_PACK_STR.
    rewrite header_read by done. cbn [mbind res_bind].
    specialize (Hpar (pre ++ be_encode 2 OFPAT_SET_FIELD ++ be_encode 2 len) (replicate pad 0 ++ rest)).
    rewrite <- !app_assoc in Hpar.
    replace (length (pre ++ be_encode 2 OFPAT_SET_FIELD ++ be_encode 2 len)) with (length pre + 4)%nat in Hpar
      by (autorewrite with beba; lia).
    destruct (parse_old_agrees _ _ _ _ _ _ Hpar) as [o Ho].
    change 25 with OFPAT_SET_FIELD. rewrite Hpar. cbn [mbind res_bind]. rewrite Htu. cbn [mbind res_bind set_field_init].
    rewrite Ho. cbn [mbind res_bind]. eexists. split; [reflexivity|done].
Qed.

Lemma unpack_int0 w z rest : in_width w z = true ->
  funpack_from (Format Big [Fi w]) (be_encode w z ++ rest) 0 = Ok [VInt z].
Proof. apply (unpack_int w []). Qed.

(** *** Field headers and flow specifications *)

(** The header of a field of the table, written and parsed. *)
Lemma header_wire d : d ∈ oxm_types ->
  exists (hw e : bytes), length hw = (4 + length e)%nat /\ (length e <= 6)%nat
    /\ (experimenter_id (d_class d) = None -> e = [])
    /\ _from_user_header (d_name d) = Ok (num d)
    /\ _to_user_header (num d) = Ok (d_name d)
    /\ (forall data, FlowSpec.serialize_header (num d) data (length data)
          = Ok (data ++ hw, length hw))
    /\ (forall rest, parse_header (hw ++ rest) 0 = Ok (num d, Z.of_nat (length hw))).
Proof.
  intros Hd. destruct (exp_hdr_wire_inv _ _ (exp_hdr_wire_known d Hd)) as (t & e & He & Hw).
  pose proof (wire_form_bound _ _ _ Hw) as Ht. pose proof (type_size_bounds d Hd) as Hsz.
  pose proof (exp_hdr_len _ _ _ Hw) as Hel. destruct (tables_agree d Hd) as [Hn Hf].
  set (sz := type_size (d_type d)) in *.
  set (w := t * 512 + Z.of_nat (length e + sz)).
  assert (Hww : in_width 4 w = true) by (apply in_width_4; unfold w; lia).
  exists (be_encode 4 w ++ e), e.
  assert (Hl : length (be_encode 4 w ++ e) = (4 + length e)%nat) by (autorewrite with beba; lia).
  split; [done|]. split; [done|]. split.
  { intros Hx. unfold num in Hw. rewrite Hx in Hw. unfold wire_form in Hw.
    rewrite !andb_true_iff in Hw. destruct Hw as [_ [_ Hw]]. by apply bool_decide_eq_true in Hw. }
  split; [unfold _from_user_header, _get_field_info_by_name; by rewrite Hn|].
  split; [unfold _to_user_header, _get_field_info_by_number; by rewrite Hf|]. split.
  - intros data. unfold FlowSpec.serialize_header. rewrite Hf, He. cbn [mbind res_bind shl9].
    replace (Z.lor _ _) with w by (rewrite header_word by lia; unfold w; simpl; lia).
    rewrite (fmsg_pack_into_end _ _ _ (be_encode 4 w ++ e)).
    + cbn [mbind res_bind]. rewrite Hl. unfold fmt_size. simpl. do 2 f_equal. lia.
    + unfold fpack. cbn [f_codes f_order pack_codes]. rewrite Hww.
      cbn [mbind res_bind encode]. by rewrite resize_all, app_nil_r.
  - intros rest. unfold parse_header.
    pose proof (parse_header_wire (num d) t e false (Z.of_nat sz) [] rest Hw ltac:(lia) ltac:(lia)) as Hp.
    cbn zeta in Hp. cbn [app length Z.b2z] in Hp.
    replace (t * 512 + 0 * 256 + (Z.of_nat (length e) + Z.of_nat sz)) with w in Hp by (unfold w; lia).
    rewrite <- app_assoc, Hp. cbn [mbind res_bind h_num h_field_len h_value_len]. do 2 f_equal.
    rewrite Hl. lia.
Qed.

(** A subfield the learn action can name: a field with a four-byte header. *)
Definition subfield_ok (s : FlowSpec.subfield) : Prop :=
  in_width 2 s.2 = true
  /\ exists d, d ∈ oxm_types /\ s.1 = d_name d /\ experimenter_id (d_class d) = None.

Lemma subfield_wire s : subfield_ok s ->
  exists w, length w = 6%nat /\ FlowSpec._serialize_subfield s = Ok w
    /\ forall rest, FlowSpec._parse_subfield (w ++ rest) = Ok s.
Proof.
  destruct s as [k ofs]. intros [Ho (d & Hd & Hk & Hx)]. cbn in Ho, Hk. subst k.
  destruct (header_wire d Hd) as (hw & e & Hl & _ & He & Hfu & Htu & Hs & Hp).
  rewrite (He Hx) in Hl. cbn in Hl.
  assert (Hpk : pack "!H" [VInt ofs] = Ok (be_encode 2 ofs)).
  { fmt_eval. unfold fpack. cbn [f_codes f_order pack_codes]. rewrite Ho.
    cbn [mbind res_bind encode]. by rewrite app_nil_r. }
  exists (hw ++ be_encode 2 ofs). split; [autorewrite with beba; lia|]. split.
  - unfold FlowSpec._serialize_subfield. rewrite Hfu. cbn [mbind res_bind].
    specialize (Hs []). cbn [length app] in Hs. rewrite Hs. cbn [mbind res_bind].
    rewrite Hl. cbn [Nat.eqb py_assert mbind res_bind]. by rewrite (msg_pack_end _ _ _ _ _ Hpk).
  - intros rest. unfold FlowSpec._parse_subfield. rewrite <- app_assoc, Hp. cbn [mbind res_bind].
    rewrite Hl. cbn [Z.of_nat Pos.of_succ_nat Z.eqb Pos.eqb Pos.succ py_assert mbind res_bind]. rewrite Htu.
    cbn [mbind res_bind]. rewrite drop_app_length' by (rewrite Hl; done).
    fmt_eval. by rewrite unpack_int0.
Qed.

Definition spec_ok (s : FlowSpec.t) : Prop :=
  0 < FlowSpec.n_bits s < 1024
  /\ match FlowSpec.src s with
     | FlowSpec.SrcField f => subfield_ok f
     | FlowSpec.SrcImm i => 0 <= i < 256 ^ FlowSpec.imm_len (FlowSpec.n_bits s)
     end
  /\ match s with
     | FlowSpec.NXFlowSpecMatch _ d _ | FlowSpec.NXFlowSpecLoad _ d _ => subfield_ok d
     | FlowSpec.NXFlowSpecOutput _ _ => True
     end.

Lemma imm_len_bounds n : 0 < n -> 2 <= FlowSpec.imm_len n /\ FlowSpec.imm_len n mod 2 = 0.
Proof.
  intros Hn. unfold FlowSpec.imm_len. split; [|apply Z_mod_mult].
  assert (1 <= (n + 15) / 16) by (apply Z.div_le_lower_bound; lia). lia.
Qed.

(** The header word of a specification and its three parts. *)
Lemma spec_header st dt n : st = 0 \/ st = 1 -> 0 <= dt <= 2 -> 0 < n < 1024 ->
  let h := Z.lor (Z.lor (Z.shiftl st 13) (Z.shiftl dt 11)) n in
  0 < h < 65536 /\ Z.land (Z.shiftr h 13) 1 = st /\ Z.land (Z.shiftr h 11) 3 = dt
  /\ Z.land h 0x3ff = n.
Proof.
  intros Hst Hdt Hn h.
  assert (E : h = st * 8192 + dt * 2048 + n).
  { unfold h. rewrite (Z.shiftl_mul_pow2 st 13) by lia.
    replace (st * 2 ^ 13) with (Z.shiftl (st * 4) 11) by (rewrite Z.shiftl_mul_pow2 by lia; lia).
    rewrite <- Z.shiftl_lor.
    replace (Z.lor (st * 4) dt) with (st * 4 + dt)
      by (assert (dt = 0 \/ dt = 1 \/ dt = 2) as [->|[->| ->]] by lia; destruct Hst as [->| ->]; done).
    rewrite lor_shiftl_add by lia. lia. }
  rewrite E. split; [lia|]. split; [|split].
  - rewrite Z.shiftr_div_pow2 by lia. replace (_ / 2 ^ 13) with st; [by destruct Hst as [->| ->]|].
    apply (Z.div_unique _ _ _ (dt * 2048 + n)); [left; lia|lia].
  - rewrite Z.shiftr_div_pow2 by lia.
    replace ((st * 8192 + dt * 2048 + n) / 2 ^ 11) with (st * 4 + dt)
      by (apply (Z.div_unique _ _ _ n); [left; lia|lia]).
    change 3 with (Z.ones 2). rewrite Z.land_ones by lia.
    rewrite Z.add_comm, Z_mod_plus_full. apply Z.mod_small. lia.
  - change 0x3ff with (Z.ones 10). rewrite Z.land_ones by lia.
    replace (_ + n) with (n + (st * 8 + dt * 2) * 2 ^ 10) by lia.
    rewrite Z_mod_plus_full. apply Z.mod_small. lia.
Qed.

Lemma source_wire s : spec_ok s ->
  exists w : bytes, (length w mod 2 = 0)%nat
    /\ match FlowSpec.src s with
       | FlowSpec.SrcField f => FlowSpec._serialize_subfield f
       | FlowSpec.SrcImm i => Ok (int_from_user (Z.to_nat (FlowSpec.imm_len (FlowSpec.n_bits s))) i)
       end = Ok w
    /\ forall rest,
      match FlowSpec.src s with
      | FlowSpec.SrcField f => length w = 6%nat /\ FlowSpec._parse_subfield (w ++ rest) = Ok f
      | FlowSpec.SrcImm i =>
          length w = Z.to_nat (FlowSpec.imm_len (FlowSpec.n_bits s))
          /\ int_to_user (Z.to_nat (FlowSpec.imm_len (FlowSpec.n_bits s))) w = Ok i
      end.
Proof.
  intros (Hn & Hs & _). destruct (FlowSpec.src s) as [f|i].
  - destruct (subfield_wire f Hs) as (w & Hl & Hw & Hp). exists w. rewrite Hl. auto.
  - destruct (imm_len_bounds (FlowSpec.n_bits s)) as [Hb Hm]; [lia|].
    set (k := FlowSpec.imm_len _) in *.
    destruct (int_user_bytes (Z.to_nat k) i) as [E1 E2]; [by rewrite Z2Nat.id by lia|].
    exists (be_encode (Z.to_nat k) i). rewrite E1, be_encode_length. split; [|done].
    apply Nat2Z.inj. rewrite Nat2Z.inj_mod, Z2Nat.id by lia. done.
Qed.

(** The destination of a specification on the wire; an output has none. *)
Lemma dest_wire s : spec_ok s ->
  exists wd : bytes, (length wd mod 2 = 0)%nat
    /\ match s with
       | FlowSpec.NXFlowSpecMatch _ dst _ | FlowSpec.NXFlowSpecLoad _ dst _ =>
           FlowSpec._serialize_subfield dst
       | FlowSpec.NXFlowSpecOutput _ _ => Ok [] end = Ok wd
    /\ forall rest, match s with
       | FlowSpec.NXFlowSpecMatch _ dst _ | FlowSpec.NXFlowSpecLoad _ dst _ =>
           length wd = 6%nat /\ FlowSpec._parse_subfield (wd ++ rest) = Ok dst
       | FlowSpec.NXFlowSpecOutput _ _ => wd = [] end.
Proof.
  intros (_ & _ & Hd). destruct s as [? d ?|? d ?|]; [| |by exists []];
    destruct (subfield_wire d Hd) as (w & Hl & Hw & Hp); exists w; rewrite Hl; auto.
Qed.

(** A specification on the wire; its length is even. *)
Lemma spec_wire s : spec_ok s ->
  exists w : bytes, (2 <= length w)%nat /\ (length w mod 2 = 0)%nat /\ FlowSpec.serialize s = Ok w
    /\ forall rest, FlowSpec.parse (w ++ rest) = Ok (Some s, rest).
Proof.
  intros H. pose proof H as (Hn & _ & Hd). destruct (source_wire s H) as (ws & Hws2 & Hws & Hps).
  set (st := match FlowSpec.src s with FlowSpec.SrcField _ => 0 | FlowSpec.SrcImm _ => 1 end).
  assert (Hst : st = 0 \/ st = 1) by (unfold st; destruct (FlowSpec.src s); auto).
  assert (Hdt : 0 <= FlowSpec.dst_type s <= 2) by (destruct s; simpl; lia).
  destruct (spec_header st (FlowSpec.dst_type s) (FlowSpec.n_bits s) Hst Hdt Hn) as (Hh & H1 & H2 & H3).
  set (h := Z.lor _ _) in *.
  assert (Hpk : msg_pack_into "!H" [] 0 [VInt h] = Ok (be_encode 2 h)).
  { apply (msg_pack_end _ [] 0); [|done]. fmt_eval. unfold fpack. cbn [f_codes f_order pack_codes].
    rewrite (in_width_2 h) by lia. cbn [mbind res_bind encode]. by rewrite app_nil_r. }
  destruct (dest_wire s H) as (wd & Hwd2 & Hwd & Hpd).
  exists (be_encode 2 h ++ ws ++ wd). rewrite !length_app, be_encode_length.
  split; [lia|]. split.
  { rewrite Nat.Div0.add_mod, (Nat.Div0.add_mod (length ws)), Hws2, Hwd2. done. }
  split.
  - unfold FlowSpec.serialize. fold st. fold h. rewrite Hpk. cbn [mbind res_bind].
    rewrite Hws. cbn [mbind res_bind]. rewrite Hwd. done.
  - intros rest. unfold FlowSpec.parse. fmt_eval. rewrite <- app_assoc.
    rewrite unpack_int0 by (apply in_width_2; lia). cbn [mbind res_bind].
    rewrite (proj2 (Z.eqb_neq h 0)) by lia. rewrite H1, H2, H3.
    rewrite (proj2 (Z.eqb_neq (FlowSpec.dst_type s) 3)) by lia. cbn [mbind res_bind].
    rewrite drop_app_length' by (by rewrite be_encode_length). rewrite <- app_assoc.
    specialize (Hps (wd ++ rest)). specialize (Hpd rest).
    assert (Hsrc : (if st =? 0
        then s0 ← FlowSpec._parse_subfield (ws ++ wd ++ rest);
             Ok (FlowSpec.SrcField s0, drop 6 (ws ++ wd ++ rest))
        else let src_len := Z.to_nat (FlowSpec.imm_len (FlowSpec.n_bits s)) in
             i ← int_to_user src_len (take src_len (ws ++ wd ++ rest));
             Ok (FlowSpec.SrcImm i, drop src_len (ws ++ wd ++ rest)))
        = Ok (FlowSpec.src s, wd ++ rest)).
    { unfold st. destruct (FlowSpec.src s) as [f|i]; cbn [Z.eqb].
      - destruct Hps as [Hl ->]. cbn [mbind res_bind]. by rewrite drop_app_length'.
      - destruct Hps as [Hl Hi]. cbn zeta. rewrite take_app_length', drop_app_length' by done.
        by rewrite Hi. }
    cbn zeta in Hsrc. rewrite Hsrc. cbn [mbind res_bind]. destruct s as [? d ?|? d ?|]; cbn [FlowSpec.dst_type Z.eqb Pos.eqb].
    + destruct Hpd as [Hl ->]. cbn [mbind res_bind]. by rewrite drop_app_length'.
    + destruct Hpd as [Hl ->]. cbn [mbind res_bind]. by rewrite drop_app_length'.
    + by rewrite Hpd.
Qed.

(** *** Experimenter and Nicira actions *)

Lemma exp_head_write l e buf off :
  in_width 2 l = true -> in_width 4 e = true -> (length buf <= off)%nat ->
  msg_pack_into OFP_ACTION_EXPERIMENTER_HEADER_PACK_STR buf off
    [VInt OFPAT_EXPERIMENTER; VInt l; VInt e]
  = Ok (buf ++ replicate (off - length buf) 0
        ++ be_encode 2 OFPAT_EXPERIMENTER ++ be_encode 2 l ++ be_encode 4 e).
Proof.
  intros Hl He Hoff. unfold OFP_ACTION_EXPERIMENTER_HEADER_PACK_STR. fmt_eval.
  rewrite (fmsg_pack_into_gap _ _ _ _ (be_encode 2 OFPAT_EXPERIMENTER ++ be_encode 2 l ++ be_encode 4 e));
    [done| |done].
  unfold fpack. cbn [f_codes f_order pack_codes]. change (in_width 2 OFPAT_EXPERIMENTER) with true.
  rewrite Hl, He. cbn [mbind res_bind encode]. by rewrite app_nil_r.
Qed.

Lemma raw_write data buf off : off = length buf ->
  fmsg_pack_into (Format Big [Fs (length data)]) buf off [VBytes data] = Ok (buf ++ data).
Proof.
  intros ->. apply fmsg_pack_into_end. unfold fpack. cbn. by rewrite resize_all, app_nil_r.
Qed.

(** The payload that the experimenter parser cuts out. *)
Lemma payload_slice (pre hd body rest : bytes) k l :
  length hd = k -> l = Z.of_nat (k + length body) ->
  drop (length pre + k) (take (length pre + Z.to_nat l) (pre ++ (hd ++ body) ++ rest)) = body.
Proof.
  intros Hk ->. rewrite Nat2Z.id.
  rewrite (app_assoc pre), take_app_length' by (rewrite !length_app; lia).
  rewrite app_assoc. apply drop_app_length'. rewrite length_app. lia.
Qed.

(** The parser on an experimenter header: it dispatches on the experimenter. *)
Lemma exp_parse fuel pre l e body rest :
  in_width 2 l = true -> in_width 4 e = true -> l = Z.of_nat (8 + length body) ->
  parser (S fuel) (pre ++ ((be_encode 2 OFPAT_EXPERIMENTER ++ be_encode 2 l ++ be_encode 4 e) ++ body)
                     ++ rest) (length pre)
  = if e =? NX_EXPERIMENTER_ID then
      obj ← nx_parse (parser fuel) fuel body; mret (obj, l)
    else mret (OFPActionExperimenterUnknown (ActionExperimenterUnknown.Mk e (Some body)), l).
Proof.
  intros Hl He Hlen. cbn [parser].
  assert (Hsl := payload_slice pre
    (be_encode 2 OFPAT_EXPERIMENTER ++ be_encode 2 l ++ be_encode 4 e) body rest 8 l
    eq_refl Hlen).
  rewrite <- !app_assoc in Hsl |- *.
  rewrite header_read; [|done|done|rewrite !length_app, be_encode_length; lia].
  rewrite run_bind_lift.
  change (fixed_parser OFPAT_EXPERIMENTER) with (@None (bytes -> nat -> res (t * Z))).
  change (OFPAT_EXPERIMENTER =? OFPAT_SET_FIELD) with false.
  change (OFPAT_EXPERIMENTER =? OFPAT_EXPERIMENTER) with true. cbv iota.
  rewrite exp_header_read by done. rewrite run_bind_lift.
  change OFP_ACTION_EXPERIMENTER_HEADER_SIZE with 8%nat. rewrite Hsl. done.
Qed.

Lemma round_up_nat n : exists pad, (pad < 8)%nat /\ ((n + pad) mod 8 = 0)%nat
  /\ round_up (Z.of_nat n) 8 = Z.of_nat (n + pad).
Proof.
  pose proof (round_up_spec (Z.of_nat n) 8 ltac:(lia)) as [H1 H2].
  exists (Z.to_nat (round_up (Z.of_nat n) 8 - Z.of_nat n)).
  assert (E : round_up (Z.of_nat n) 8
              = Z.of_nat (n + Z.to_nat (round_up (Z.of_nat n) 8 - Z.of_nat n))) by lia.
  split; [lia|]. split; [|done]. apply Nat2Z.inj. rewrite Nat2Z.inj_mod, <- E. done.
Qed.

(** An action of an unknown experimenter with aligned data. *)
Lemma experimenter_wire e d :
  in_width 4 e = true -> e <> NX_EXPERIMENTER_ID -> (length d mod 8 = 0)%nat ->
  Z.of_nat (length d) + 8 < 65536 ->
  exists p, wire_of (OFPActionExperimenterUnknown (ActionExperimenterUnknown.Mk e (Some d))) p 0.
Proof.
  intros He Hne Hd Hs. set (l := Z.of_nat (8 + length d)).
  assert (Hl : in_width 2 l = true) by (apply in_width_2; lia).
  assert (Hlen : ActionExperimenterUnknown.len (ActionExperimenterUnknown.Mk e (Some d))
                 = (8 + length d)%nat).
  { unfold ActionExperimenterUnknown.len. cbn [ActionExperimenterUnknown.data default from_option id].
    rewrite round_up_id; [unfold OFP_ACTION_EXPERIMENTER_HEADER_SIZE; lia|lia|].
    change 8 with (Z.of_nat 8). by rewrite <- Nat2Z.inj_mod, Hd. }
  exists ((be_encode 2 OFPAT_EXPERIMENTER ++ be_encode 2 l ++ be_encode 4 e) ++ d).
  assert (Hpl : length ((be_encode 2 OFPAT_EXPERIMENTER ++ be_encode 2 l ++ be_encode 4 e) ++ d)
                = (8 + length d)%nat) by (autorewrite with beba; lia).
  constructor; rewrite ?Hpl, ?Nat.add_0_r; [lia|lia| |lia| |].
  - rewrite Nat.Div0.add_mod, Hd. done.
  - intros buf off Hoff. cbn [serialize]. rewrite Hlen.
    unfold ActionExperimenterUnknown.serialize. rewrite Hlen. fold l.
    cbn [ActionExperimenterUnknown.experimenter ActionExperimenterUnknown.data].
    rewrite exp_head_write by done. cbn [mbind res_bind].
    rewrite raw_write by (unfold OFP_ACTION_EXPERIMENTER_HEADER_SIZE; autorewrite with beba; lia).
    cbn [mbind res_bind]. by rewrite <- !app_assoc.
  - exists 1%nat. intros [|fuel] pre rest Hf; [lia|]. eexists. cbn [replicate]. rewrite app_nil_r.
    rewrite exp_parse by done. rewrite (proj2 (Z.eqb_neq _ _) Hne). split; [|done]. reflexivity.
Qed.

(** A Nicira action: [data] behind the subtype, completed by zero bytes. *)
Lemma nx_wire a subtype data n :
  (forall buf off, serialize a buf off = nx_serialize subtype data buf off) ->
  in_width 2 subtype = true -> Z.of_nat (10 + length data) <= 65528 ->
  (forall fuel pad, (n <= fuel)%nat -> (pad < 8)%nat -> ((10 + length data + pad) mod 8 = 0)%nat ->
     exists a', nx_parse (parser fuel) fuel (be_encode 2 subtype ++ data ++ replicate pad 0)
                = Some (Ok a') /\ erase a' = erase a) ->
  exists p pad, wire_of a p pad /\ (length p + pad)%nat = (10 + length data + pad)%nat.
Proof.
  intros Hs Hst Hd Hparse.
  destruct (round_up_nat (10 + length data)) as (pad & Hpad & Hmod & Hr).
  set (l := Z.of_nat (10 + length data + pad)) in *.
  assert (Hl : in_width 2 l = true) by (apply in_width_2; lia).
  exists ((be_encode 2 OFPAT_EXPERIMENTER ++ be_encode 2 l ++ be_encode 4 NX_EXPERIMENTER_ID)
          ++ be_encode 2 subtype ++ data), pad.
  set (p := _ ++ _).
  assert (Hpl : length p = (10 + length data)%nat) by (unfold p; autorewrite with beba; lia).
  split; [|lia]. constructor; rewrite ?Hpl; [lia|lia|done|lia| |].
  - intros buf off Hoff. rewrite Hs. unfold nx_serialize.
    change (OFP_ACTION_EXPERIMENTER_HEADER_SIZE + calcsize "!H")%nat with 10%nat. rewrite Hr. fold l.
    rewrite exp_head_write by done. cbn [mbind res_bind].
    assert (Hpk : pack "!H" [VInt subtype] = Ok (be_encode 2 subtype)).
    { fmt_eval. unfold fpack. cbn [f_codes f_order pack_codes]. rewrite Hst.
      cbn [mbind res_bind encode]. by rewrite app_nil_r. }
    rewrite (msg_pack_end _ _ _ _ _ Hpk)
      by (unfold OFP_ACTION_EXPERIMENTER_HEADER_SIZE; autorewrite with beba; lia).
    cbn [mbind res_bind]. rewrite raw_write by (autorewrite with beba; lia).
    cbn [mbind res_bind]. unfold p. rewrite <- !app_assoc. do 2 f_equal. lia.
  - exists (S n). intros [|fuel] pre rest Hf; [lia|].
    destruct (Hparse fuel pad ltac:(lia) Hpad Hmod) as (a' & Ha & He).
    exists a'. split; [|done]. unfold p. rewrite <- (app_assoc (be_encode 2 OFPAT_EXPERIMENTER ++ be_encode 2 l ++ be_encode 4 NX_EXPERIMENTER_ID)).
    rewrite exp_parse; [|done|done|unfold l; rewrite !length_app, length_replicate, be_encode_length; lia].
    rewrite Z.eqb_refl, <- app_assoc, Ha. done.
Qed.

(** *** The Nicira actions, one by one *)

Definition fits (a : t) : Prop := exists r, serialize a [] 0 = Ok r.

Lemma nx_fits subtype data r :
  nx_serialize subtype data [] 0 = Ok r -> Z.of_nat (10 + length data) <= 65528.
Proof.
  unfold nx_serialize. change (OFP_ACTION_EXPERIMENTER_HEADER_SIZE + calcsize "!H")%nat with 10%nat.
  pose proof (round_up_spec (Z.of_nat (10 + length data)) 8 ltac:(lia)) as [H1 H2].
  set (l := round_up _ 8) in *. destruct (in_width 2 l) eqn:Hl.
  { apply in_width_iff in Hl. change (256 ^ Z.of_nat 2) with 65536 in Hl. intros _. apply Zmod_divides in H2 as [c Hc]; lia. }
  unfold OFP_ACTION_EXPERIMENTER_HEADER_PACK_STR. fmt_eval. unfold fmsg_pack_into, fpack_into, fpack.
  cbn [f_codes f_order pack_codes]. change (in_width 2 OFPAT_EXPERIMENTER) with true. rewrite Hl.
  done.
Qed.

Lemma nx_subtype (p : bytes -> nat -> run (t * Z)) fuel subtype rest :
  in_width 2 subtype = true ->
  nx_parse p fuel (be_encode 2 subtype ++ rest) =
  (if subtype =? NXAST_REG_MOVE then lift (reg_move_parse rest)
   else if subtype =? NXAST_LEARN then lift (learn_parse rest)
   else if subtype =? NXAST_CONJUNCTION then lift (conjunction_parse rest)
   else if subtype =? NXAST_RESUBMIT_TABLE then lift (resubmit_parse rest)
   else if subtype =? NXAST_CT then
     vs ← lift (unpack_from NXActionCT_fmt rest 0);
     match vs with
     | [VInt flags; VInt zone_src; VInt zone_ofs_nbits; VInt recirc_table; VInt alg] =>
         actions ← ct_actions p fuel (drop (calcsize NXActionCT_fmt) rest);
         mret (NXActionCT flags zone_src zone_ofs_nbits recirc_table alg actions)
     | _ => lift (Err ValueError)
     end
   else lift (Err AttributeError)).
Proof.
  intros H. unfold nx_parse. fmt_eval. rewrite unpack_int0 by done. rewrite run_bind_lift.
  change (calcsize "!H") with 2%nat. by rewrite drop_app_length' by (by rewrite be_encode_length).
Qed.

(** A prefix of the data packed to an empty buffer, and read back. *)
Lemma pack_front fmt f vs w : msg_pack_into fmt [] 0 vs = Ok w -> parse_fmt fmt = Some f ->
  calcsize fmt = length w /\ forall rest, unpack_from fmt (w ++ rest) 0 = Ok (fit_args (f_codes f) vs).
Proof.
  intros H Hf. revert H. unfold msg_pack_into, calcsize, unpack_from, with_fmt. rewrite Hf. intros H.
  destruct (fpack f vs) as [b|e] eqn:Hb.
  - pose proof (fmsg_pack_into_end f [] _ _ Hb) as E. cbn [length] in E. rewrite E in H.
    injection H as <-. cbn [app]. rewrite (fpack_length _ _ _ Hb).
    split; [done|]. intros rest. by apply unpack_from_pack0.
  - unfold fmsg_pack_into, fpack_into in H. by rewrite Hb in H.
Qed.

(** A field named in a register move. *)
Definition header_ok (k : string) : Prop := exists d, d ∈ oxm_types /\ d_name d = k.

Lemma reg_move_wire s d n so d_ofs :
  header_ok s -> header_ok d -> fits (NXActionRegMove s d n so d_ofs) ->
  exists p pad, wire_of (NXActionRegMove s d n so d_ofs) p pad.
Proof.
  intros (ds & Hds & <-) (dd & Hdd & <-) [r Hr].
  destruct (header_wire ds Hds) as (hs & es & _ & _ & _ & Hfs & Hts & Hss & Hps).
  destruct (header_wire dd Hdd) as (hd & ed & _ & _ & _ & Hfd & Htd & Hsd & Hpd).
  cbn [serialize] in Hr. apply bind_Ok in Hr as (w & Hw & Hr).
  rewrite Hfs in Hr. cbn [mbind res_bind] in Hr. rewrite Hss in Hr. cbn [mbind res_bind] in Hr.
  rewrite Hfd in Hr. cbn [mbind res_bind] in Hr. rewrite Hsd in Hr. cbn [mbind res_bind] in Hr.
  destruct (pack_front _ _ _ _ Hw eq_refl) as [Hc Hu].
  destruct (nx_wire (NXActionRegMove (d_name ds) (d_name dd) n so d_ofs) NXAST_REG_MOVE
              ((w ++ hs) ++ hd) 0) as (p & pad & Hp & _).
  - intros buf off. cbn [serialize]. rewrite Hw. cbn [mbind res_bind]. rewrite Hfs.
    cbn [mbind res_bind]. rewrite Hss. cbn [mbind res_bind]. rewrite Hfd. cbn [mbind res_bind].
    rewrite Hsd. done.
  - done.
  - by eapply nx_fits.
  - intros fuel pad _ _ _. rewrite nx_subtype by done. cbn [Z.eqb NXAST_REG_MOVE Pos.eqb].
    unfold reg_move_parse. rewrite <- !app_assoc, Hu. cbn [mbind res_bind fit_args f_codes].
    rewrite Hc, drop_app_length, Hps. cbn [mbind res_bind]. rewrite Hts. cbn [mbind res_bind].
    rewrite Nat2Z.id, drop_app_length, Hpd. cbn [mbind res_bind]. rewrite Htd. by eexists.
  - by exists p, pad.
Qed.

Lemma conjunction_wire c n i : fits (NXActionConjunction c n i) ->
  exists p pad, wire_of (NXActionConjunction c n i) p pad.
Proof.
  intros [r Hr]. cbn [serialize] in Hr. apply bind_Ok in Hr as (w & Hw & Hr).
  destruct (pack_front _ _ _ _ Hw eq_refl) as [Hc Hu].
  destruct (nx_wire (NXActionConjunction c n i) NXAST_CONJUNCTION w 0) as (p & pad & Hp & _);
    [|done|by eapply nx_fits| |by exists p, pad].
  - intros buf off. cbn [serialize]. by rewrite Hw.
  - intros fuel pad _ _ _. rewrite nx_subtype by done.
    cbn [Z.eqb NXAST_REG_MOVE NXAST_LEARN NXAST_CONJUNCTION Pos.eqb].
    unfold conjunction_parse. rewrite Hu. cbn [mbind res_bind fit_args f_codes]. by eexists.
Qed.

Lemma resubmit_wire i n : fits (NXActionResubmitTable i n) ->
  exists p pad, wire_of (NXActionResubmitTable i n) p pad.
Proof.
  intros [r Hr]. cbn [serialize] in Hr. apply bind_Ok in Hr as (w & Hw & Hr).
  destruct (pack_front _ _ _ _ Hw eq_refl) as [Hc Hu].
  destruct (nx_wire (NXActionResubmitTable i n) NXAST_RESUBMIT_TABLE w 0) as (p & pad & Hp & _);
    [|done|by eapply nx_fits| |by exists p, pad].
  - intros buf off. cbn [serialize]. by rewrite Hw.
  - intros fuel pad _ _ _. rewrite nx_subtype by done.
    cbn [Z.eqb NXAST_REG_MOVE NXAST_LEARN NXAST_CONJUNCTION NXAST_RESUBMIT_TABLE Pos.eqb].
    unfold resubmit_parse. rewrite Hu. cbn [mbind res_bind fit_args f_codes]. by eexists.
Qed.

(** **** The specifications of a learn action *)

Lemma parse_pad_specs k fuel : (2 * k <= fuel)%nat ->
  FlowSpec.parse_specs fuel (replicate (2 * k) 0) = Ok [].
Proof.
  revert fuel. induction k as [|k IH]; intros fuel Hf; [by destruct fuel|].
  destruct fuel as [|fuel]; [lia|].
  replace (2 * S k)%nat with (S (S (2 * k))) by lia. cbn [replicate FlowSpec.parse_specs].
  unfold FlowSpec.parse. fmt_eval.
  change (0 :: 0 :: replicate (2 * k) 0) with (be_encode 2 0 ++ replicate (2 * k) 0).
  rewrite unpack_int0 by done. cbn [mbind res_bind Z.eqb].
  rewrite drop_app_length' by done. rewrite IH by lia. done.
Qed.

Lemma specs_wire specs : Forall spec_ok specs ->
  exists w, (length w mod 2 = 0)%nat
    /\ (forall data, foldM (fun data s => b ← FlowSpec.serialize s; Ok (data ++ b)) data specs
                     = Ok (data ++ w))
    /\ forall k fuel, (length w + 2 * k <= fuel)%nat ->
         FlowSpec.parse_specs fuel (w ++ replicate (2 * k) 0) = Ok specs.
Proof.
  induction 1 as [|s specs Hs _ (w & Hw2 & Hser & Hpar)].
  - exists []. split; [done|]. split; [intros; cbn; by rewrite app_nil_r|].
    intros k fuel Hf. by apply parse_pad_specs.
  - destruct (spec_wire s Hs) as (ws & Hws & Hws2 & Hs1 & Hs2).
    exists (ws ++ w). split; [|split].
    + rewrite length_app, Nat.Div0.add_mod, Hws2, Hw2. done.
    + intros data. cbn [foldM]. rewrite Hs1. cbn [mbind res_bind]. rewrite Hser.
      by rewrite app_assoc.
    + intros k fuel Hf. rewrite length_app in Hf. destruct fuel as [|fuel]; [lia|].
      rewrite <- app_assoc. cbn [FlowSpec.parse_specs].
      specialize (Hs2 (w ++ replicate (2 * k) 0)).
      destruct (ws ++ w ++ replicate (2 * k) 0) eqn:E.
      { apply app_eq_nil in E as [-> _]. cbn in Hws. lia. }
      rewrite Hs2. cbn [mbind res_bind]. by rewrite Hpar by lia.
Qed.

Lemma learn_wire a t specs i h pr c fl fi fh : a = NXActionLearn t specs i h pr c fl fi fh ->
  Forall spec_ok specs -> fits a -> exists p pad, wire_of a p pad.
Proof.
  intros -> Hspecs [r Hr]. destruct (specs_wire specs Hspecs) as (ws & Hws2 & Hser & Hpar).
  cbn [serialize] in Hr. apply bind_Ok in Hr as (w & Hw & Hr).
  rewrite Hser in Hr. cbn [mbind res_bind] in Hr.
  destruct (pack_front _ _ _ _ Hw eq_refl) as [Hc Hu].
  destruct (nx_wire (NXActionLearn t specs i h pr c fl fi fh) NXAST_LEARN (w ++ ws) 0)
    as (p & pad & Hp & _); [|done|by eapply nx_fits| |by exists p, pad].
  - intros buf off. cbn [serialize]. rewrite Hw. cbn [mbind res_bind]. by rewrite Hser.
  - intros fuel pad _ _ Hmod. rewrite nx_subtype by done.
    cbn [Z.eqb NXAST_REG_MOVE NXAST_LEARN Pos.eqb].
    unfold learn_parse. rewrite <- app_assoc, Hu. cbn [mbind res_bind fit_args f_codes].
    rewrite Hc, drop_app_length.
    assert (exists k, pad = 2 * k)%nat as [k ->].
    { rewrite length_app, <- Hc in Hmod. change (calcsize NXActionLearn_fmt) with 22%nat in Hmod.
      exists (pad / 2)%nat. apply Nat.Div0.div_exact.
      apply Nat.Div0.mod_divides in Hws2 as [c1 E1]. apply Nat.Div0.mod_divides in Hmod as [c2 E2].
      apply Nat.Div0.mod_divides. exists (4 * c2 - 16 - c1)%nat. lia. }
    rewrite Hpar by (rewrite length_app, length_replicate; lia). by eexists.
Qed.

(** **** The nested actions of a connection-tracking action *)

(** The action is written in full: no zero bytes complete its length. *)
Definition tight (a : t) : Prop :=
  match serialize a [] 0 with Ok (p, n) => length p = n | Err _ => False end.

Lemma tight_pad a p pad : wire_of a p pad -> tight a -> pad = 0%nat.
Proof.
  intros Hw Ht. unfold tight in Ht. rewrite (wo_serialize _ _ _ Hw [] 0) in Ht by done.
  cbn in Ht. lia.
Qed.

Definition wired (a : t) : Prop := exists p pad, wire_of a p pad.

(** A list of actions, one directly behind the other: [w] is written, and [pad] zero
    bytes complete the last one. *)
Definition actions_wire (l : list t) (w : bytes) (pad : nat) : Prop :=
  (pad < 8)%nat /\ ((length w + pad) mod 8 = 0)%nat
  /\ (forall data, foldM (fun data a => '(data, _) ← serialize a data (length data); Ok data) data l
                   = Ok (data ++ w))
  /\ exists n, forall pf fuel, (n <= pf)%nat -> (n <= fuel)%nat ->
       exists l', ct_actions (parser pf) fuel (w ++ replicate pad 0) = Some (Ok l')
                  /\ erase <$> l' = erase <$> l.

Lemma actions_wire_nil : actions_wire [] [] 0.
Proof.
  split; [lia|]. split; [done|]. split; [intros; cbn; by rewrite app_nil_r|].
  exists 1%nat. intros pf [|fuel] _ Hf; [lia|]. by exists [].
Qed.

Lemma actions_wire_cons a l p pa w pad : wire_of a p pa -> actions_wire l w pad ->
  pa = 0%nat \/ w = [] /\ pad = 0%nat -> actions_wire (a :: l) (p ++ w) (pa + pad).
Proof.
  intros Hw (Hpad & Hmod & Hs & n & Hp) Hz. destruct (wo_parse _ _ _ Hw) as [m Hm].
  pose proof (wo_pad _ _ _ Hw) as Hpa. pose proof (wo_aligned _ _ _ Hw) as Hal.
  assert (Heq : (p ++ replicate pa 0) ++ w ++ replicate pad 0 = (p ++ w) ++ replicate (pa + pad) 0).
  { destruct Hz as [->|[-> ->]]; cbn [replicate app]; rewrite ?app_nil_r, ?Nat.add_0_r; [|done].
    by rewrite app_assoc. }
  split; [lia|]. split; [|split].
  - rewrite length_app. replace (_ + _ + _)%nat with ((length p + pa) + (length w + pad))%nat by lia.
    by rewrite Nat.Div0.add_mod, Hal, Hmod.
  - intros data. cbn [foldM]. rewrite (wo_serialize _ _ _ Hw) by lia.
    rewrite Nat.sub_diag. cbn [mbind res_bind replicate app]. by rewrite Hs, app_assoc.
  - exists (S (m + n)). intros pf [|fuel] Hpf Hf; [lia|].
    destruct (Hm pf [] (w ++ replicate pad 0) ltac:(lia)) as (a' & Ha & Ea).
    destruct (Hp pf fuel ltac:(lia) ltac:(lia)) as (l' & Hl' & El).
    exists (a' :: l'). split; [|by rewrite !fmap_cons, Ea, El].
    cbn [app length] in Ha. rewrite <- Heq. cbn [ct_actions].
    pose proof (wo_pos _ _ _ Hw) as Hpos.
    destruct ((p ++ replicate pa 0) ++ w ++ replicate pad 0) eqn:E.
    { apply (f_equal length) in E. rewrite !length_app in E. cbn in E. lia. }
    rewrite Ha, <- E. cbn [mbind run_bind].
    rewrite Nat2Z.id, drop_app_length' by (rewrite length_app, length_replicate; lia).
    by rewrite Hl'.
Qed.

Lemma ct_actions_wire l : Forall wired l -> Forall tight (removelast l) ->
  exists w pad, actions_wire l w pad.
Proof.
  induction 1 as [|a l (p & pa & Hw) Hl IH]; intros Ht.
  { exists [], 0%nat. apply actions_wire_nil. }
  destruct l as [|b l].
  - exists (p ++ []), (pa + 0)%nat. eapply actions_wire_cons; [done|apply actions_wire_nil|by right].
  - cbn [removelast] in Ht. pose proof (Forall_inv Ht) as Ha; apply Forall_inv_tail in Ht.
    destruct (IH Ht) as (w & pad & Hwl). exists (p ++ w), (pa + pad)%nat.
    eapply actions_wire_cons; [done|done|left; by eapply tight_pad].
Qed.

Lemma ct_wire f z o r g l : Forall wired l -> Forall tight (removelast l) ->
  fits (NXActionCT f z o r g l) -> wired (NXActionCT f z o r g l).
Proof.
  intros Hl Ht [x Hx]. destruct (ct_actions_wire l Hl Ht) as (ws & pl & Hpl & Hm & Hs & n & Hp).
  cbn [serialize] in Hx. apply bind_Ok in Hx as (w & Hw & Hx).
  rewrite Hs in Hx. cbn [mbind res_bind] in Hx.
  destruct (pack_front _ _ _ _ Hw eq_refl) as [Hc Hu].
  destruct (nx_wire (NXActionCT f z o r g l) NXAST_CT (w ++ ws) n)
    as (p & pad & Hpw & _); [|done|by eapply nx_fits| |by exists p, pad].
  - intros buf off. cbn [serialize]. rewrite Hw. cbn [mbind res_bind]. by rewrite Hs.
  - intros fuel pad Hf Hpad Hmod. rewrite nx_subtype by done.
    cbn [Z.eqb NXAST_REG_MOVE NXAST_LEARN NXAST_CONJUNCTION NXAST_RESUBMIT_TABLE NXAST_CT Pos.eqb].
    rewrite <- app_assoc, Hu. rewrite run_bind_lift. cbn [fit_args f_codes].
    rewrite Hc, drop_app_length.
    replace pad with pl.
    2:{ rewrite length_app, <- Hc in Hmod. change (calcsize NXActionCT_fmt) with 14%nat in Hmod.
        apply Nat.Div0.mod_divides in Hm as [c1 E1]. apply Nat.Div0.mod_divides in Hmod as [c2 E2]. lia. }
    destruct (Hp fuel fuel Hf Hf) as (l' & -> & El). eexists. split; [reflexivity|].
    cbn [erase]. by rewrite El.
Qed.

(** Actions that survive the wire: values of the right kind, sizes that fit, and
    nested actions that need no padding but for the last one. *)
Inductive action_ok : t -> Prop :=
  | ok_fixed a : fixed_ok a -> action_ok a
  | ok_set_field k v f : arg_ok (k, Plain (Some v)) ->
      action_ok (OFPActionSetField (Some (k, Some v)) f)
  | ok_experimenter e d : in_width 4 e = true -> e <> NX_EXPERIMENTER_ID ->
      (length d mod 8 = 0)%nat -> Z.of_nat (length d) + 8 < 65536 ->
      action_ok (OFPActionExperimenterUnknown (ActionExperimenterUnknown.Mk e (Some d)))
  | ok_reg_move s d n so d_ofs : header_ok s -> header_ok d ->
      fits (NXActionRegMove s d n so d_ofs) -> action_ok (NXActionRegMove s d n so d_ofs)
  | ok_learn t specs i h pr c fl fi fh : Forall spec_ok specs ->
      fits (NXActionLearn t specs i h pr c fl fi fh) ->
      action_ok (NXActionLearn t specs i h pr c fl fi fh)
  | ok_conjunction c n i : fits (NXActionConjunction c n i) ->
      action_ok (NXActionConjunction c n i)
  | ok_resubmit i n : fits (NXActionResubmitTable i n) -> action_ok (NXActionResubmitTable i n)
  | ok_ct f z o r g l : Forall action_ok l -> Forall tight (removelast l) ->
      fits (NXActionCT f z o r g l) -> action_ok (NXActionCT f z o r g l).

Lemma action_wired a : action_ok a -> wired a.
Proof.
  induction a as [a Hflat|f z o r g l IH] using action_ind; intros Hok.
  - destruct Hok.
    + destruct (fixed_actions a) as [p Hp]; [done|]. by exists p, 0%nat.
    + destruct (set_field_wire k v f) as [p Hp]; [done|]. by exists p, 0%nat.
    + destruct (experimenter_wire e d) as [p Hp]; [done..|]. by exists p, 0%nat.
    + by apply reg_move_wire.
    + by eapply learn_wire.
    + by apply conjunction_wire.
    + by apply resubmit_wire.
    + by edestruct Hflat.
  - inversion Hok as [? Hbad| | | | | | |? ? ? ? ? ? Hl Ht Hfit]; subst; [destruct Hbad|].
    apply ct_wire; [|done|done]. rewrite Forall_forall in *. auto.
Qed.

(** *** Lengths of actions, for the callers that only add them up *)

(** [len] of an action that serializes. *)
Definition act_len (a : t) : nat :=
  match serialize a [] 0 with Ok (_, n) => n | Err _ => 0%nat end.

Lemma wire_act_len a p pad : wire_of a p pad -> act_len a = (length p + pad)%nat.
Proof. intros Hw. unfold act_len. by rewrite (wo_serialize _ _ _ Hw [] 0) by done. Qed.
End Facts.
End ActionFacts.

(** ** Properties of the actions *)

Module ActionClaims.
Import OxmFacts OxmUserFacts MatchFacts Action ActionFacts MatchClaims.

(** C11: Every well-formed action, nested ones included, goes over the wire: written at
    the end of a buffer its announced length is a multiple of eight that the written
    bytes reach up to fewer than eight zero bytes, and once those are in place
    [OFPAction.parser] gives the action and its length back, whatever follows.  The
    field object that parsing adds to set-field actions for the old interface is not
    compared. *)
Theorem action_roundtrip `{C : AddrConv} `{I : IntConv} `{!AddrConvLaws C}
    (a : Action.t) (buf : bytes) (Ha : action_ok a) :
  exists p pad n,
    serialize a buf (length buf) = Ok (buf ++ p, (length p + pad)%nat)
    /\ ((length p + pad) mod 8 = 0)%nat /\ (pad < 8)%nat
    /\ forall fuel rest, (n <= fuel)%nat ->
         exists a', parser fuel ((buf ++ p) ++ replicate pad 0 ++ rest) (length buf)
                    = Some (Ok (a', Z.of_nat (length p + pad)))
                    /\ erase a' = erase a.
Proof.
  destruct (action_wired a Ha) as (p & pad & Hw). destruct (wo_parse _ _ _ Hw) as [n Hn].
  exists p, pad, n. split; [|split; [apply Hw|split; [apply Hw|]]].
  - rewrite (wo_serialize _ _ _ Hw) by lia. by rewrite Nat.sub_diag.
  - intros fuel rest Hf. destruct (Hn fuel buf rest Hf) as (a' & H & He). exists a'.
    rewrite <- !app_assoc in H. rewrite <- app_assoc. done.
Qed.

(** A connection-tracking action with a register move, a learn action and, last, a
    set-field action inside. *)
Definition sample_action : Action.t :=
  NXActionCT 1 0 0 4 0
    [NXActionRegMove "ipv4_src" "ipv4_dst" 32 0 0;
     NXActionLearn 1
       [FlowSpec.NXFlowSpecMatch (FlowSpec.SrcImm 2048) ("eth_type", 0) 16;
        FlowSpec.NXFlowSpecLoad (FlowSpec.SrcField ("eth_src", 0)) ("eth_dst", 0) 48;
        FlowSpec.NXFlowSpecOutput (FlowSpec.SrcField ("in_port", 0)) 32] 10 0 100 0 0 0 0;
     OFPActionSetField (Some ("eth_type", Some (UInt 2048))) None]%string.

Lemma sample_action_ok : action_ok (C := RawConv.conv) (I := raw_int) sample_action.
Proof.
  assert (Hh : forall k, existsb (fun d => bool_decide (d_name d = k)) oxm_types = true -> header_ok k).
  { intros k Hk. apply existsb_exists in Hk as (d & Hd & Hk). exists d.
    split; [by apply list_elem_of_In|]. by apply bool_decide_eq_true in Hk. }
  assert (Hs : forall k, existsb (fun d => bool_decide (k = d_name d)
       && bool_decide (experimenter_id (d_class d) = None)) oxm_types = true -> subfield_ok (k, 0)).
  { intros k Hk. apply existsb_exists in Hk as (d & Hd & Hk). split; [done|]. exists d.
    rewrite andb_true_iff, !bool_decide_eq_true in Hk. split; [by apply list_elem_of_In|]. done. }
  apply ok_ct; [constructor; [|constructor; [|constructor; [|constructor]]]| |eexists; vm_compute; reflexivity].
  - apply ok_reg_move; [apply Hh; reflexivity..|eexists; vm_compute; reflexivity].
  - apply ok_learn; [|eexists; vm_compute; reflexivity].
    constructor; [|constructor; [|constructor; [|constructor]]];
      (split; [cbn; lia|split; [cbn [FlowSpec.src]; try (apply Hs; reflexivity)|]]);
      try (apply Hs; reflexivity); try done.
  - apply ok_set_field. exists (Desc "eth_type" OpenFlowBasic 5 Int2).
    split; [apply list_elem_of_In; vm_compute; tauto|]. split; [done|]. simpl. lia.
  - cbn [removelast]. apply Forall_cons_2; [|apply Forall_cons_2; [|apply Forall_nil_2]];
      vm_compute; reflexivity.
Qed.

Lemma action_roundtrip_witness :
  exists p pad a', serialize (C := RawConv.conv) (I := raw_int) sample_action [] 0
                   = Ok (p, (length p + pad)%nat)
    /\ (length p + pad = 128)%nat
    /\ (exists fuel, parser (C := RawConv.conv) fuel (p ++ replicate pad 0) 0
                     = Some (Ok (a', 128)))
    /\ erase a' = sample_action.
Proof.
  destruct (action_roundtrip (C := RawConv.conv) (I := raw_int) (AddrConvLaws0 := RawConv.laws)
    sample_action [] sample_action_ok) as (p & pad & n & Hs & _ & _ & Hp).
  destruct (Hp n [] (le_n n)) as (a' & Ha & He). cbn [app length] in Hs, Ha. rewrite app_nil_r in Ha.
  assert (Hl : act_len (C := RawConv.conv) (I := raw_int) sample_action = 128%nat)
    by (vm_compute; reflexivity).
  unfold act_len in Hl. rewrite Hs in Hl.
  exists p, pad, a'. split; [exact Hs|]. split; [exact Hl|]. split.
  - exists n. rewrite Ha, Hl. reflexivity.
  - exact He.
Defined.

(** A Nicira action whose subtype has no class of its own never parses: the class
    for unknown subtypes cannot be instantiated, so the parser raises
    [AttributeError] instead of returning an opaque action. *)
Theorem unknown_nicira_subtype_raises `{C : AddrConv}
    (fuel : nat) (pre data rest : bytes) (subtype : Z)
    (Hw : 0 <= subtype < 65536)
    (Hs : subtype ∉ [NXAST_REG_MOVE; NXAST_LEARN; NXAST_CONJUNCTION; NXAST_RESUBMIT_TABLE; NXAST_CT])
    (Hl : Z.of_nat (length data) < 65526) :
  parser (S fuel)
    (pre ++ ((be_encode 2 OFPAT_EXPERIMENTER ++ be_encode 2 (Z.of_nat (10 + length data))
             ++ be_encode 4 NX_EXPERIMENTER_ID) ++ be_encode 2 subtype ++ data) ++ rest) (length pre)
  = Some (Err AttributeError).
Proof.
  assert (in_width 2 subtype = true) by by apply in_width_2.
  rewrite exp_parse; [|apply in_width_2; lia|done|rewrite length_app, be_encode_length; lia].
  rewrite Z.eqb_refl, nx_subtype by done.
  rewrite !not_elem_of_cons in Hs. destruct Hs as (H1 & H2 & H3 & H4 & H5 & _).
  apply Z.eqb_neq in H1, H2, H3, H4, H5. by rewrite H1, H2, H3, H4, H5.
Qed.

Lemma unknown_nicira_subtype_raises_witness :
  parser (C := RawConv.conv) 3
    ((be_encode 2 OFPAT_EXPERIMENTER ++ be_encode 2 16 ++ be_encode 4 NX_EXPERIMENTER_ID)
     ++ be_encode 2 20 ++ [1; 2; 3; 4; 5; 6]) 0 = Some (Err AttributeError).
Proof.
  pose proof (unknown_nicira_subtype_raises (C := RawConv.conv) 2 []
    [1; 2; 3; 4; 5; 6] [] 20 ltac:(lia)) as H.
  cbn [app length] in H. rewrite app_nil_r in H. apply H; [|reflexivity].
  unfold NXAST_REG_MOVE, NXAST_LEARN, NXAST_CONJUNCTION, NXAST_RESUBMIT_TABLE, NXAST_CT.
  rewrite !not_elem_of_cons. repeat split; try lia. apply not_elem_of_nil.
Defined.

End ActionClaims.
