(* ===== verification/OfpInstr.v ===== *)
(** * Instructions, flow and group modifications, packet-out

    The instruction classes of ryu/ofproto/ofproto_v1_3_parser.py with their registry,
    the buckets of groups, the messages that carry instructions and actions
    ([OFPFlowMod], [OFPGroupMod], [OFPPacketOut]), and the entries of flow and group
    description statistics, which read instructions and buckets back. *)

From Stdlib Require Import ZArith Lia.
From stdpp Require Import base list gmap strings numbers.
From S2P Require Import Prelude Struct OfpMsg BebaMsg Oxm PktUtils PktHeaders OxmUser OfpMatch OfpActions.

(** ** Constants of ofproto_v1_3.py *)

Definition OFPT_PACKET_OUT : Z := 13.
Definition OFPT_FLOW_MOD : Z := 14.
Definition OFPT_GROUP_MOD : Z := 15.
Definition OFPIT_GOTO_TABLE : Z := 1.
Definition OFPIT_WRITE_METADATA : Z := 2.
Definition OFPIT_WRITE_ACTIONS : Z := 3.
Definition OFPIT_APPLY_ACTIONS : Z := 4.
Definition OFPIT_CLEAR_ACTIONS : Z := 5.
Definition OFPIT_METER : Z := 6.
Definition OFP_INSTRUCTION_GOTO_TABLE_PACK_STR : string := "!HHB3x".
Definition OFP_INSTRUCTION_GOTO_TABLE_SIZE : Z := 8.
Definition OFP_INSTRUCTION_WRITE_METADATA_PACK_STR : string := "!HH4xQQ".
Definition OFP_INSTRUCTION_WRITE_METADATA_SIZE : Z := 24.
Definition OFP_INSTRUCTION_ACTIONS_PACK_STR : string := "!HH4x".
Definition OFP_INSTRUCTION_ACTIONS_SIZE : nat := 8.
Definition OFP_INSTRUCTION_METER_PACK_STR : string := "!HHI".
Definition OFP_INSTRUCTION_METER_SIZE : Z := 8.
Definition OFP_FLOW_MOD_PACK_STR0 : string := "!QQBBHHHIIIH2x".
Definition OFP_FLOW_MOD_SIZE : nat := 56.
Definition OFP_MATCH_SIZE : nat := 8.
Definition OFP_GROUP_MOD_PACK_STR : string := "!HBxI".
Definition OFP_GROUP_MOD_SIZE : nat := 16.
Definition OFP_BUCKET_PACK_STR : string := "!HHII4x".
Definition OFP_BUCKET_SIZE : nat := 16.
Definition OFP_PACKET_OUT_PACK_STR : string := "!IIH6x".
Definition OFP_PACKET_OUT_SIZE : nat := 24.
Definition OFP_FLOW_STATS_0_PACK_STR : string := "!HBxIIHHHH4xQQQ".
Definition OFP_FLOW_STATS_0_SIZE : nat := 48.
Definition OFP_FLOW_STATS_SIZE : nat := 56.
Definition OFP_GROUP_DESC_STATS_PACK_STR : string := "!HBxI".
Definition OFP_GROUP_DESC_STATS_SIZE : nat := 8.
Definition OFP_NO_BUFFER : Z := 0xffffffff.

(** ** Loops over entries

    [while remaining > 0]: parse an entry, advance by its length. *)

Fixpoint parse_loop {A} (p : bytes -> nat -> run (A * Z)) (fuel : nat) (buf : bytes)
    (offset : nat) (remaining : Z) : run (list A) :=
  if remaining <=? 0 then mret []
  else
    match fuel with
    | O => None
    | S fuel =>
        '(a, len) ← p buf offset;
        l ← parse_loop p fuel buf (offset + Z.to_nat len) (remaining - len);
        mret (a :: l)
    end.

(** Writing entries one after the other, each advancing by its own length. *)
Definition serialize_loop {A} (s : A -> bytes -> nat -> res (bytes * nat)) (l : list A)
    (buf : bytes) (offset : nat) : res (bytes * nat) :=
  foldM (fun '(buf, off) a => '(buf, len) ← s a buf off; Ok (buf, (off + len)%nat)) (buf, offset) l.

(** The interface the Beba instruction serializes its actions through. *)
#[global] Instance ofp_action `{C : AddrConv} `{I : IntConv} : OfpMsg.Action Action.t := {
  act_serialize := fun a buf off => '(buf, _) ← Action.serialize a buf off; Ok buf;
  act_len := ActionFacts.act_len }.

(** ** Instructions *)

Module Instruction.

Inductive t :=
  | OFPInstructionGotoTable (table_id : Z)
  | OFPInstructionWriteMetadata (metadata metadata_mask : Z)
  | OFPInstructionActions (type_ : Z) (actions : list Action.t)
  | OFPInstructionMeter (meter_id : Z).

Section Codec.
Context `{C : AddrConv} `{I : IntConv}.

Definition serialize (i : t) (buf : bytes) (offset : nat) : res (bytes * nat) :=
  match i with
  | OFPInstructionGotoTable table_id =>
      buf ← msg_pack_into OFP_INSTRUCTION_GOTO_TABLE_PACK_STR buf offset
              [VInt OFPIT_GOTO_TABLE; VInt OFP_INSTRUCTION_GOTO_TABLE_SIZE; VInt table_id];
      Ok (buf, Z.to_nat OFP_INSTRUCTION_GOTO_TABLE_SIZE)
  | OFPInstructionWriteMetadata metadata metadata_mask =>
      buf ← msg_pack_into OFP_INSTRUCTION_WRITE_METADATA_PACK_STR buf offset
              [VInt OFPIT_WRITE_METADATA; VInt OFP_INSTRUCTION_WRITE_METADATA_SIZE;
               VInt metadata; VInt metadata_mask];
      Ok (buf, Z.to_nat OFP_INSTRUCTION_WRITE_METADATA_SIZE)
  | OFPInstructionActions type_ actions =>
      '(buf, action_offset) ← serialize_loop Action.serialize actions buf
                                (offset + OFP_INSTRUCTION_ACTIONS_SIZE);
      let len := Z.of_nat (action_offset - offset) in
      let pad_len := round_up len 8 - len in
      buf ← Action.pack_pad (Z.to_nat pad_len) buf action_offset;
      let len := len + pad_len in
      buf ← msg_pack_into OFP_INSTRUCTION_ACTIONS_PACK_STR buf offset [VInt type_; VInt len];
      Ok (buf, Z.to_nat len)
  | OFPInstructionMeter meter_id =>
      buf ← msg_pack_into OFP_INSTRUCTION_METER_PACK_STR buf offset
              [VInt OFPIT_METER; VInt OFP_INSTRUCTION_METER_SIZE; VInt meter_id];
      Ok (buf, Z.to_nat OFP_INSTRUCTION_METER_SIZE)
  end.

(** [OFPInstructionActions.parser] keeps the wire's length. *)
Definition actions_parser (fuel : nat) (buf : bytes) (offset : nat) : run (t * Z) :=
  vs ← lift (unpack_from OFP_INSTRUCTION_ACTIONS_PACK_STR buf offset);
  match vs with
  | [VInt type_; VInt len_] =>
      actions ← parse_loop (Action.parser fuel) fuel buf (offset + OFP_INSTRUCTION_ACTIONS_SIZE)
                  (len_ - Z.of_nat OFP_INSTRUCTION_ACTIONS_SIZE);
      mret (OFPInstructionActions type_ actions, len_)
  | _ => lift (Err ValueError)
  end.

(** [OFPInstruction.parser]: no class for a type is an attribute error. *)
Definition parser (fuel : nat) (buf : bytes) (offset : nat) : run (t * Z) :=
  vs ← lift (unpack_from "!HH" buf offset);
  match vs with
  | [VInt type_; VInt _] =>
      if type_ =? OFPIT_GOTO_TABLE then
        vs ← lift (unpack_from OFP_INSTRUCTION_GOTO_TABLE_PACK_STR buf offset);
        match vs with
        | [VInt _; VInt _; VInt table_id] =>
            mret (OFPInstructionGotoTable table_id, OFP_INSTRUCTION_GOTO_TABLE_SIZE)
        | _ => lift (Err ValueError)
        end
      else if type_ =? OFPIT_WRITE_METADATA then
        vs ← lift (unpack_from OFP_INSTRUCTION_WRITE_METADATA_PACK_STR buf offset);
        match vs with
        | [VInt _; VInt _; VInt metadata; VInt metadata_mask] =>
            mret (OFPInstructionWriteMetadata metadata metadata_mask,
                  OFP_INSTRUCTION_WRITE_METADATA_SIZE)
        | _ => lift (Err ValueError)
        end
      else if (type_ =? OFPIT_WRITE_ACTIONS) || (type_ =? OFPIT_APPLY_ACTIONS)
              || (type_ =? OFPIT_CLEAR_ACTIONS) then actions_parser fuel buf offset
      else if type_ =? OFPIT_METER then
        vs ← lift (unpack_from OFP_INSTRUCTION_METER_PACK_STR buf offset);
        match vs with
        | [VInt _; VInt _; VInt meter_id] =>
            mret (OFPInstructionMeter meter_id, OFP_INSTRUCTION_METER_SIZE)
        | _ => lift (Err ValueError)
        end
      else lift (Err AttributeError)
  | _ => lift (Err ValueError)
  end.

End Codec.
End Instruction.

(** What a flow modification accepts: the instructions of this version and the
    experimenter instruction of Beba, which is not registered for parsing. *)
Inductive any_instruction :=
  | Plain_instruction (i : Instruction.t)
  | Beba_instruction (i : PktGen.OFPInstructionInSwitchPktGen Action.t).

(** ** Packet-out *)

Module PacketOut.

(** The constructor insists on an input port; the other attributes may be missing. *)
Record t := Mk {
  buffer_id : option Z;
  in_port : Z;
  actions : option (list Action.t);
  data : option bytes;
}.

Section Codec.
Context `{C : AddrConv} `{I : IntConv}.

Definition serialize_body (m : t) (buf : bytes) : res bytes :=
  match actions m with
  | None => Err TypeError
  | Some actions =>
      '(buf, offset) ← serialize_loop Action.serialize actions buf OFP_PACKET_OUT_SIZE;
      let actions_len := (offset - OFP_PACKET_OUT_SIZE)%nat in
      buf ← match data m with
            | None => Ok buf
            | Some data => py_assert (bool_decide (buffer_id m = Some 0xffffffff)) ;; Ok (buf ++ data)
            end;
      match buffer_id m with
      | None => Err StructError
      | Some b =>
          msg_pack_into OFP_PACKET_OUT_PACK_STR buf OFP_HEADER_SIZE
            [VInt b; VInt (in_port m); VInt (Z.of_nat actions_len)]
      end
  end.

Definition serialize (m : t) (xid : option Z) : res bytes :=
  MsgBase.serialize OFP_VERSION OFPT_PACKET_OUT xid (serialize_body m).

End Codec.
End PacketOut.

(** ** Flow modification *)

Module FlowMod.

Record t := Mk {
  cookie : Z; cookie_mask : Z; table_id : Z; command : Z;
  idle_timeout : Z; hard_timeout : Z; priority : Z; buffer_id : Z;
  out_port : Z; out_group : Z; flags : Z;
  match_ : OFPMatch;
  instructions : list any_instruction;
}.

Section Codec.
Context `{C : AddrConv} `{I : IntConv}.

Definition serialize_instruction (i : any_instruction) (buf : bytes) (offset : nat) :
    res (bytes * nat) :=
  match i with
  | Plain_instruction i => Instruction.serialize i buf offset
  | Beba_instruction i =>
      buf ← PktGen.serialize i buf offset; Ok (buf, PktGen.total_len (PktGen.actions i))
  end.

(** The match object records its length as it is written. *)
Definition serialize_body (m : t) (buf : bytes) : res (bytes * OFPMatch) :=
  buf ← msg_pack_into OFP_FLOW_MOD_PACK_STR0 buf OFP_HEADER_SIZE
    [VInt (cookie m); VInt (cookie_mask m); VInt (table_id m); VInt (command m);
     VInt (idle_timeout m); VInt (hard_timeout m); VInt (priority m); VInt (buffer_id m);
     VInt (out_port m); VInt (out_group m); VInt (flags m)];
  let offset := (OFP_FLOW_MOD_SIZE - OFP_MATCH_SIZE)%nat in
  '(buf, match_len, match') ← OfpMatch.serialize (match_ m) buf offset;
  '(buf, _) ← serialize_loop serialize_instruction (instructions m) buf (offset + match_len);
  Ok (buf, match').

Definition serialize (m : t) (xid : option Z) : res bytes :=
  MsgBase.serialize OFP_VERSION OFPT_FLOW_MOD xid
    (fun buf => '(buf, _) ← serialize_body m buf; Ok buf).

End Codec.
End FlowMod.

(** ** Groups *)

Module Bucket.

Record t := Mk { weight : Z; watch_port : Z; watch_group : Z; actions : list Action.t }.

Section Codec.
Context `{C : AddrConv} `{I : IntConv}.

Definition serialize (b : t) (buf : bytes) (offset : nat) : res (bytes * nat) :=
  '(buf, action_offset) ← serialize_loop Action.serialize (actions b) buf (offset + OFP_BUCKET_SIZE);
  let action_len := (action_offset - (offset + OFP_BUCKET_SIZE))%nat in
  let len := round_up (Z.of_nat (OFP_BUCKET_SIZE + action_len)) 8 in
  buf ← msg_pack_into OFP_BUCKET_PACK_STR buf offset
          [VInt len; VInt (weight b); VInt (watch_port b); VInt (watch_group b)];
  Ok (buf, Z.to_nat len).

(** [while length < msg.len], with [length] counted from the bucket's start. *)
Definition parser (fuel : nat) (buf : bytes) (offset : nat) : run (t * Z) :=
  vs ← lift (unpack_from OFP_BUCKET_PACK_STR buf offset);
  match vs with
  | [VInt len_; VInt weight; VInt watch_port; VInt watch_group] =>
      actions ← parse_loop (Action.parser fuel) fuel buf (offset + OFP_BUCKET_SIZE)
                  (len_ - Z.of_nat OFP_BUCKET_SIZE);
      mret (Mk weight watch_port watch_group actions, len_)
  | _ => lift (Err ValueError)
  end.

End Codec.
End Bucket.

Module GroupMod.

Record t := Mk { command : Z; type_ : Z; group_id : Z; buckets : list Bucket.t }.

Section Codec.
Context `{C : AddrConv} `{I : IntConv}.

Definition serialize_body (m : t) (buf : bytes) : res bytes :=
  buf ← msg_pack_into OFP_GROUP_MOD_PACK_STR buf OFP_HEADER_SIZE
          [VInt (command m); VInt (type_ m); VInt (group_id m)];
  '(buf, _) ← serialize_loop Bucket.serialize (buckets m) buf OFP_GROUP_MOD_SIZE;
  Ok buf.

Definition serialize (m : t) (xid : option Z) : res bytes :=
  MsgBase.serialize OFP_VERSION OFPT_GROUP_MOD xid (serialize_body m).

End Codec.
End GroupMod.

(** ** Entries of statistics replies *)

Module FlowStats.

Record t := Mk {
  length_ : Z; table_id : Z; duration_sec : Z; duration_nsec : Z; priority : Z;
  idle_timeout : Z; hard_timeout : Z; flags : Z; cookie : Z; packet_count : Z; byte_count : Z;
  match_ : OFPMatch;
  instructions : list Instruction.t;
}.

(** A parsed match always has its length recorded. *)
Definition parser `{C : AddrConv} (fuel : nat) (buf : bytes) (offset : nat) : run (t * Z) :=
  vs ← lift (unpack_from OFP_FLOW_STATS_0_PACK_STR buf offset);
  match vs with
  | [VInt len; VInt table_id; VInt dsec; VInt dnsec; VInt priority; VInt idle; VInt hard;
     VInt flags; VInt cookie; VInt packets; VInt byts] =>
      let offset := (offset + OFP_FLOW_STATS_0_SIZE)%nat in
      m ← lift (OfpMatch.parser buf offset);
      match m_length m with
      | None => lift (Err TypeError)
      | Some l =>
          let match_length := round_up l 8 in
          let inst_length := len - (Z.of_nat (OFP_FLOW_STATS_SIZE - OFP_MATCH_SIZE) + match_length) in
          insts ← parse_loop (Instruction.parser fuel) fuel buf (offset + Z.to_nat match_length)
                    inst_length;
          mret (Mk len table_id dsec dnsec priority idle hard flags cookie packets byts m insts, len)
      end
  | _ => lift (Err ValueError)
  end.

End FlowStats.

Module GroupDescStats.

Record t := Mk { length_ : Z; type_ : Z; group_id : Z; buckets : list Bucket.t }.

Definition parser `{C : AddrConv} (fuel : nat) (buf : bytes) (offset : nat) : run (t * Z) :=
  vs ← lift (unpack_from OFP_GROUP_DESC_STATS_PACK_STR buf offset);
  match vs with
  | [VInt len; VInt type_; VInt group_id] =>
      buckets ← parse_loop (Bucket.parser fuel) fuel buf (offset + OFP_GROUP_DESC_STATS_SIZE)
                  (len - Z.of_nat OFP_GROUP_DESC_STATS_SIZE);
      mret (Mk len type_ group_id buckets, len)
  | _ => lift (Err ValueError)
  end.

End GroupDescStats.

(** ** Facts *)

Module InstrFacts.
Import OxmFacts OxmUserFacts MatchFacts Action ActionFacts.

(** [buf] extended with zero bytes up to [off]. *)
Definition padded (buf : bytes) (off : nat) : bytes := buf ++ replicate (off - length buf) 0.

Lemma padded_length buf off : (length buf <= off)%nat -> length (padded buf off) = off.
Proof. intros H. unfold padded. rewrite length_app, length_replicate. lia. Qed.

Lemma padded_full buf off : length buf = off -> padded buf off = buf.
Proof. intros <-. unfold padded. by rewrite Nat.sub_diag, app_nil_r. Qed.

Lemma padded_step buf off n : (length buf <= off)%nat ->
  padded buf (off + n) = padded buf off ++ replicate n 0.
Proof.
  intros H. unfold padded. rewrite <- app_assoc, <- replicate_add. do 2 f_equal. lia.
Qed.

Lemma padded_app buf p n : padded (buf ++ p) (length buf + length p + n) = buf ++ p ++ replicate n 0.
Proof. unfold padded. rewrite <- app_assoc. do 3 f_equal. rewrite length_app. lia. Qed.

Section Facts.
Context `{C : AddrConv} `{I : IntConv} `{!AddrConvLaws C}.

(** Packing at or behind the end of a buffer. *)
Lemma pack_padded s f args b buf off : parse_fmt s = Some f -> fpack f args = Ok b ->
  (length buf <= off)%nat -> msg_pack_into s buf off args = Ok (padded buf off ++ b).
Proof.
  intros Hf Hb Hl. unfold msg_pack_into, with_fmt. rewrite Hf.
  rewrite (fmsg_pack_into_gap _ _ _ _ _ Hb Hl). unfold padded. by rewrite app_assoc.
Qed.

(** Packing over reserved bytes inside the buffer. *)
Lemma pack_reserved s f args b pre old rest off : parse_fmt s = Some f -> fpack f args = Ok b ->
  length pre = off -> length old = fmt_size f -> (0 < length old)%nat ->
  msg_pack_into s (pre ++ old ++ rest) off args = Ok (pre ++ b ++ rest).
Proof.
  intros Hf Hb <- Ho H0. unfold msg_pack_into, with_fmt. rewrite Hf.
  apply fmsg_pack_into_inside; [done|done|]. destruct old; [cbn in H0; lia|done].
Qed.

(** *** Sequences of entries

    An entry of type [A] and its wire [p], to be completed by [pad] zero bytes: written
    at or behind the end of the buffer it is appended, and the parser reads it back up
    to the equivalence [R]. *)

Record entry {A} (ser : A -> bytes -> nat -> res (bytes * nat))
    (par : nat -> bytes -> nat -> run (A * Z)) (R : A -> A -> Prop)
    (a : A) (p : bytes) (pad : nat) : Prop := {
  e_pos : (0 < length p)%nat;
  e_aligned : ((length p + pad) mod 8 = 0)%nat;
  e_ser : forall buf off, (length buf <= off)%nat ->
    ser a buf off = Ok (padded buf off ++ p, (length p + pad)%nat);
  e_par : exists n, forall fuel pre rest, (n <= fuel)%nat ->
    exists a', par fuel (pre ++ (p ++ replicate pad 0) ++ rest) (length pre)
               = Some (Ok (a', Z.of_nat (length p + pad))) /\ R a' a }.

Lemma loop_fuel_step {A} (p : bytes -> nat -> run (A * Z)) fuel buf off rem :
  0 < rem -> parse_loop p (S fuel) buf off rem
  = ('(a, len) ← p buf off;
     l ← parse_loop p fuel buf (off + Z.to_nat len) (rem - len);
     mret (a :: l)).
Proof. intros H. cbn [parse_loop]. by rewrite (proj2 (Z.leb_gt _ _)). Qed.

(** The length of an entry, as its serializer announces it. *)
Definition ser_len {A} (ser : A -> bytes -> nat -> res (bytes * nat)) (a : A) : nat :=
  match ser a [] 0%nat with Ok (_, n) => n | Err _ => 0%nat end.

(** A list of entries and its wire [p], to be completed by [pad] zero bytes. *)
Record sequence {A} (ser : A -> bytes -> nat -> res (bytes * nat))
    (par : nat -> bytes -> nat -> run (A * Z)) (R : A -> A -> Prop)
    (l : list A) (p : bytes) (pad : nat) : Prop := {
  s_nil : l = [] -> p = [] /\ pad = 0%nat;
  s_pos : l <> [] -> (0 < length p)%nat;
  s_aligned : ((length p + pad) mod 8 = 0)%nat;
  s_length : (length p + pad)%nat = sum_list_with (ser_len ser) l;
  s_ser : forall buf off, (length buf <= off)%nat -> l <> [] ->
    serialize_loop ser l buf off = Ok (padded buf off ++ p, (off + (length p + pad))%nat);
  s_par : exists n, forall pf fuel pre rest, (n <= pf)%nat -> (n <= fuel)%nat ->
    exists l', parse_loop (par pf) fuel (pre ++ (p ++ replicate pad 0) ++ rest) (length pre)
                 (Z.of_nat (length p + pad)) = Some (Ok l') /\ Forall2 R l' l }.

Lemma entry_len {A} ser par R (a : A) p pad :
  entry ser par R a p pad -> ser_len ser a = (length p + pad)%nat.
Proof. intros He. unfold ser_len. by rewrite (e_ser _ _ _ _ _ _ He [] 0%nat) by done. Qed.

Lemma sequence_nil {A} ser par (R : A -> A -> Prop) : sequence ser par R [] [] 0.
Proof.
  split; try done. exists 0%nat. intros pf fuel pre rest _ _. exists []. split; [by destruct fuel|done].
Qed.

(** Reading one entry, then the others. *)
Lemma parse_cons {A} (par : nat -> bytes -> nat -> run (A * Z)) (R : A -> A -> Prop) a l
    (pw w : bytes) m n :
  (0 < length pw)%nat ->
  (forall fuel pre rest, (m <= fuel)%nat ->
     exists a', par fuel (pre ++ pw ++ rest) (length pre) = Some (Ok (a', Z.of_nat (length pw)))
                /\ R a' a) ->
  (forall pf fuel pre rest, (n <= pf)%nat -> (n <= fuel)%nat ->
     exists l', parse_loop (par pf) fuel (pre ++ w ++ rest) (length pre) (Z.of_nat (length w))
                = Some (Ok l') /\ Forall2 R l' l) ->
  forall pf fuel pre rest, (S (m + n) <= pf)%nat -> (S (m + n) <= fuel)%nat ->
    exists l', parse_loop (par pf) fuel (pre ++ (pw ++ w) ++ rest) (length pre)
                 (Z.of_nat (length pw + length w)) = Some (Ok l') /\ Forall2 R l' (a :: l).
Proof.
  intros Hpos Hm Hpar pf [|fuel] pre rest Hpf Hf; [lia|].
  destruct (Hm pf pre (w ++ rest) ltac:(lia)) as (a' & Ha & HR).
  destruct (Hpar pf fuel (pre ++ pw) rest ltac:(lia) ltac:(lia)) as (l' & Hl' & HRl).
  exists (a' :: l'). split; [|by constructor].
  rewrite loop_fuel_step by lia. rewrite <- app_assoc, Ha. cbn [mbind run_bind].
  rewrite Nat2Z.id, <- length_app.
  replace (Z.of_nat (length pw + length w) - Z.of_nat (length pw)) with (Z.of_nat (length w)) by lia.
  rewrite (app_assoc pre), Hl'. done.
Qed.

Lemma sequence_one {A} ser par R (a : A) p pad :
  entry ser par R a p pad -> sequence ser par R [a] p pad.
Proof.
  intros He. split; [done|intros _; apply He|apply He| | |].
  - cbn [sum_list_with]. rewrite (entry_len _ _ _ _ _ _ He). lia.
  - intros buf off Hb _. unfold serialize_loop. cbn [foldM].
    by rewrite (e_ser _ _ _ _ _ _ He) by done.
  - destruct (e_par _ _ _ _ _ _ He) as [m Hm]. destruct (s_par _ _ _ _ _ _ (sequence_nil ser par R))
      as [n Hn].
    assert (Hl : length (p ++ replicate pad 0) = (length p + pad)%nat)
      by (by rewrite length_app, length_replicate).
    pose proof (e_pos _ _ _ _ _ _ He) as Hpos.
    exists (S (m + n)). intros pf fuel pre rest Hpf Hf.
    destruct (parse_cons par R a [] (p ++ replicate pad 0) [] m n ltac:(lia)) with
      (pf := pf) (fuel := fuel) (pre := pre) (rest := rest) as (l' & Hp & HR); [|done|done|done|].
    { intros fu pr re Hfu. rewrite Hl. by apply Hm. }
    exists l'. rewrite app_nil_r, Hl, Nat.add_0_r in Hp. done.
Qed.

Lemma sequence_cons {A} ser par R (a : A) l pa pada p pad : l <> [] ->
  entry ser par R a pa pada -> sequence ser par R l p pad ->
  sequence ser par R (a :: l) (pa ++ replicate pada 0 ++ p) pad.
Proof.
  intros Hne He [_ _ Hw8 Hlen Hser (n & Hpar)].
  pose proof (e_pos _ _ _ _ _ _ He) as Hpos.
  assert (Hl : (length (pa ++ replicate pada 0%Z ++ p) + pad = length pa + pada + (length p + pad))%nat)
    by (rewrite !length_app, length_replicate; lia).
  split; rewrite ?Hl; [done| | | | |].
  - intros _. rewrite length_app. lia.
  - by rewrite Nat.Div0.add_mod, (e_aligned _ _ _ _ _ _ He), Hw8.
  - cbn [sum_list_with]. rewrite (entry_len _ _ _ _ _ _ He). lia.
  - intros buf off Hb _. unfold serialize_loop in *. cbn [foldM].
    rewrite (e_ser _ _ _ _ _ _ He) by done. cbn [mbind res_bind].
    assert (Hpb : length (padded buf off ++ pa) = (off + length pa)%nat)
      by (by rewrite length_app, padded_length).
    rewrite Hser by (done || lia). do 2 f_equal; [|lia].
    rewrite <- (padded_length buf off) at 2 by done.
    rewrite Nat.add_assoc, padded_app. by rewrite <- !app_assoc.
  - destruct (e_par _ _ _ _ _ _ He) as [m Hm]. exists (S (m + n)).
    intros pf fuel pre rest Hpf Hf.
    assert (Hla : length (pa ++ replicate pada 0) = (length pa + pada)%nat)
      by (by rewrite length_app, length_replicate).
    assert (Hlp : length (p ++ replicate pad 0) = (length p + pad)%nat)
      by (by rewrite length_app, length_replicate).
    destruct (parse_cons par R a l (pa ++ replicate pada 0) (p ++ replicate pad 0) m n ltac:(lia)) with
      (pf := pf) (fuel := fuel) (pre := pre) (rest := rest) as (l' & Hp & HR); [| |done|done|].
    { intros fu pr re Hfu. rewrite Hla. by apply Hm. }
    { rewrite Hlp. done. }
    exists l'. rewrite Hla, Hlp in Hp. rewrite <- !app_assoc in Hp |- *. done.
Qed.

Lemma entries {A} ser par R (l : list A) :
  Forall (fun a => exists p pad, entry ser par R a p pad) l -> exists p pad, sequence ser par R l p pad.
Proof.
  induction 1 as [|a l (p & pad & He) _ (w & pw & Hw)]; [do 2 eexists; apply sequence_nil|].
  destruct l as [|b l]; [exists p, pad; by apply sequence_one|].
  do 2 eexists. by eapply sequence_cons.
Qed.

Lemma entries_full {A} ser par R (l : list A) :
  Forall (fun a => exists p, entry ser par R a p 0) l -> exists p, sequence ser par R l p 0.
Proof.
  induction 1 as [|a l (p & He) _ (w & Hw)]; [eexists; apply sequence_nil|].
  destruct l as [|b l]; [exists p; by apply sequence_one|].
  eexists. by eapply sequence_cons.
Qed.

(** A sequence without padding is appended. *)
Lemma sequence_full {A} ser par R (l : list A) p buf :
  sequence ser par R l p 0 ->
  serialize_loop ser l buf (length buf) = Ok (buf ++ p, (length buf + length p)%nat).
Proof.
  intros Hs. destruct l as [|a l].
  - destruct (s_nil _ _ _ _ _ _ Hs eq_refl) as [-> _]. cbn. by rewrite Nat.add_0_r, app_nil_r.
  - rewrite (s_ser _ _ _ _ _ _ Hs) by done. by rewrite padded_full, Nat.add_0_r by done.
Qed.

(** Writing a sequence, whatever its length, up to zero bytes at the end. *)
Lemma sequence_padded {A} ser par R (l : list A) p pad buf off :
  sequence ser par R l p pad -> (length buf <= off)%nat ->
  exists buf', serialize_loop ser l buf off = Ok (buf', (off + (length p + pad))%nat)
    /\ (length buf' <= off + (length p + pad))%nat
    /\ padded buf' (off + (length p + pad)) = padded buf off ++ p ++ replicate pad 0.
Proof.
  intros Hs Hb. destruct l as [|a l].
  - destruct (s_nil _ _ _ _ _ _ Hs eq_refl) as [-> ->]. exists buf. cbn. rewrite Nat.add_0_r, app_nil_r.
    done.
  - rewrite (s_ser _ _ _ _ _ _ Hs) by done. eexists. split; [reflexivity|].
    pose proof (padded_length buf off Hb) as Hl. rewrite length_app, Hl. split; [lia|].
    rewrite <- Hl at 2. by rewrite Nat.add_assoc, padded_app.
Qed.

(** Actions are such entries. *)
Definition same_action (a b : Action.t) : Prop := erase a = erase b.

#[global] Instance same_action_equiv : Equivalence same_action.
Proof. split; unfold same_action; [intros ?|intros ???|intros ?????]; congruence. Qed.

Lemma action_entry a : action_ok a -> exists p pad, entry serialize parser same_action a p pad.
Proof.
  intros Ha. destruct (action_wired a Ha) as (p & pad & Hw). exists p, pad.
  constructor; [pose proof (wo_pos _ _ _ Hw); lia|apply Hw| |apply Hw].
  intros buf off Hl. rewrite (wo_serialize _ _ _ Hw) by done. unfold padded. by rewrite app_assoc.
Qed.

(** *** Instructions *)

Definition same_instruction (i j : Instruction.t) : Prop :=
  match i, j with
  | Instruction.OFPInstructionActions t l, Instruction.OFPInstructionActions t' l' =>
      t = t' /\ Forall2 same_action l l'
  | _, _ => i = j
  end.

#[global] Instance same_instruction_refl : Reflexive same_instruction.
Proof. by intros []. Qed.

Definition actions_size (l : list Action.t) : nat := sum_list_with (ser_len serialize) l.

Definition instr_ok (i : Instruction.t) : Prop :=
  match i with
  | Instruction.OFPInstructionGotoTable x => in_width 1 x = true
  | Instruction.OFPInstructionWriteMetadata x m => in_width 8 x = true /\ in_width 8 m = true
  | Instruction.OFPInstructionActions t l =>
      (t = OFPIT_WRITE_ACTIONS \/ t = OFPIT_APPLY_ACTIONS \/ t = OFPIT_CLEAR_ACTIONS)
      /\ Forall action_ok l /\ Z.of_nat (actions_size l) < 65528
  | Instruction.OFPInstructionMeter x => in_width 4 x = true
  end.

Lemma actions_sequence l : Forall action_ok l ->
  exists p pad, sequence serialize parser same_action l p pad.
Proof. intros H. apply entries. eapply list.Forall_impl; [exact H|]. intros a Ha. by apply action_entry. Qed.

(** The two-word header without the padding that some classes read on. *)
Lemma type_read ty l q pre : in_width 2 ty = true -> in_width 2 l = true ->
  unpack_from "!HH" (pre ++ be_encode 2 ty ++ be_encode 2 l ++ q) (length pre)
  = Ok [VInt ty; VInt l].
Proof.
  intros Ht Hl. fmt_eval. rewrite (app_assoc (be_encode 2 ty)).
  by rewrite (unpack_from_pack _ _ _ _ _ _ (two_words ty l Ht Hl) eq_refl).
Qed.

Lemma fixed_entry i f fmt ty l vals p q : parse_fmt fmt = Some f ->
  (forall buf off, Instruction.serialize i buf off
     = (buf ← msg_pack_into fmt buf off (VInt ty :: VInt l :: vals); Ok (buf, Z.to_nat l))) ->
  fpack f (VInt ty :: VInt l :: vals) = Ok p ->
  p = be_encode 2 ty ++ be_encode 2 l ++ q -> Z.of_nat (length p) = l ->
  in_width 2 ty = true -> l = 8 \/ l = 24 ->
  (forall fuel pre rest, unpack_from "!HH" (pre ++ p ++ rest) (length pre) = Ok [VInt ty; VInt l] ->
     Instruction.parser fuel (pre ++ p ++ rest) (length pre) = Some (Ok (i, l))) ->
  entry Instruction.serialize Instruction.parser same_instruction i p 0.
Proof.
  intros Hf Hs Hp Hq Hl Hty Hl8 Hpar.
  assert (Hw : in_width 2 l = true) by (apply in_width_2; lia).
  split; [lia| | |].
  - apply Nat2Z.inj. rewrite Nat2Z.inj_mod, Nat.add_0_r, Hl. by destruct Hl8 as [->| ->].
  - intros buf off Hb. rewrite Hs, (pack_padded _ _ _ _ _ _ Hf Hp Hb). cbn [mbind res_bind].
    do 2 f_equal. lia.
  - exists 0%nat. intros fuel pre rest _. exists i. cbn [replicate]. rewrite app_nil_r, Nat.add_0_r, Hl.
    split; [|reflexivity].
    apply Hpar. subst p. rewrite <- !app_assoc. by apply type_read.
Qed.

Lemma actions_header_packs t len : in_width 2 t = true -> in_width 2 len = true ->
  fpack (Format Big [Fi 2; Fi 2; Fx 4]) [VInt t; VInt len] = Ok (be_encode 2 t ++ be_encode 2 len ++ replicate 4 0).
Proof.
  intros Ht Hl. unfold fpack. cbn [f_codes f_order pack_codes]. rewrite Ht, Hl. cbn [mbind res_bind encode]. by rewrite app_nil_r.
Qed.

(** An actions instruction: the header is packed over reserved bytes once the actions
    and the padding of the last one are in place. *)
Lemma actions_entry t l : instr_ok (Instruction.OFPInstructionActions t l) ->
  exists p, entry Instruction.serialize Instruction.parser same_instruction
              (Instruction.OFPInstructionActions t l) p 0.
Proof.
  intros (Ht & Hl & Hsz). destruct (actions_sequence l Hl) as (pl & pad & Hseq).
  pose proof (s_length _ _ _ _ _ _ Hseq) as Hlen. pose proof (s_aligned _ _ _ _ _ _ Hseq) as Hw8.
  unfold actions_size in Hsz. rewrite <- Hlen in Hsz. set (w := pl ++ replicate pad 0).
  assert (Hwl : (length pl + pad)%nat = length w) by (unfold w; by rewrite length_app, length_replicate).
  rewrite Hwl in Hsz, Hw8.
  set (len := Z.of_nat (8 + length w)).
  assert (Hlw : in_width 2 len = true) by (apply in_width_2; lia).
  assert (Htw : in_width 2 t = true) by (by destruct Ht as [->|[->| ->]]).
  pose proof (actions_header_packs t len Htw Hlw) as Hh.
  set (h := be_encode 2 t ++ be_encode 2 len ++ replicate 4 0) in *.
  assert (Hhl : length h = 8%nat) by done.
  assert (Hm8 : ((8 + length w) mod 8 = 0)%nat) by (by rewrite Nat.Div0.add_mod, Hw8).
  exists (h ++ w). split; rewrite ?length_app, ?Hhl, ?Nat.add_0_r; [lia|done| |].
  - intros buf off Hb. cbn [Instruction.serialize].
    destruct (sequence_padded _ _ _ _ _ _ buf (off + 8)%nat Hseq ltac:(lia)) as (buf' & Hs & Hlb & Hpad).
    fold w in Hpad. rewrite Hwl in Hs, Hlb, Hpad.
    unfold OFP_INSTRUCTION_ACTIONS_SIZE. rewrite Hs. cbn [mbind res_bind].
    replace (off + 8 + length w - off)%nat with (8 + length w)%nat by lia. fold len.
    rewrite round_up_id; [|lia|unfold len; change 8 with (Z.of_nat 8); by rewrite <- Nat2Z.inj_mod, Hm8].
    rewrite Z.sub_diag, Z.add_0_r. change (Z.to_nat 0) with 0%nat. unfold pack_pad.
    rewrite (fmsg_pack_into_gap (Format Big [Fx 0]) _ _ [] [] eq_refl Hlb). rewrite app_nil_r. cbn [mbind res_bind].
    fold (padded buf' (off + 8 + length w)). rewrite Hpad, padded_step, <- app_assoc by done.
    rewrite (pack_reserved OFP_INSTRUCTION_ACTIONS_PACK_STR _ _ _ _ _ _ _ eq_refl Hh); [|by apply padded_length|done|cbn; lia].
    cbn [mbind res_bind]. do 2 f_equal. unfold len. lia.
  - destruct (s_par _ _ _ _ _ _ Hseq) as [n Hpar]. exists n. intros fuel pre rest Hf.
    destruct (Hpar fuel fuel (pre ++ h) rest Hf Hf) as (l' & Hp & HR).
    fold w in Hp. rewrite Hwl in Hp.
    exists (Instruction.OFPInstructionActions t l'). split; [|split; [done|exact HR]].
    cbn [replicate]. rewrite app_nil_r, <- app_assoc. unfold Instruction.parser.
    assert (Hr : unpack_from "!HH" (pre ++ h ++ w ++ rest) (length pre) = Ok [VInt t; VInt len])
      by (unfold h; rewrite <- !app_assoc; by apply type_read).
    rewrite Hr, run_bind_lift.
    assert (Ha : Instruction.actions_parser fuel (pre ++ h ++ w ++ rest) (length pre)
                 = Some (Ok (Instruction.OFPInstructionActions t l', len))).
    { unfold Instruction.actions_parser, OFP_INSTRUCTION_ACTIONS_PACK_STR. fmt_eval.
      rewrite (unpack_from_pack _ _ _ _ _ _ Hh eq_refl), run_bind_lift. cbn [fit_args f_codes].
      unfold OFP_INSTRUCTION_ACTIONS_SIZE. rewrite <- Hhl at 1. rewrite <- length_app.
      replace (len - Z.of_nat 8) with (Z.of_nat (length w)) by lia.
      rewrite <- app_assoc in Hp. by rewrite Hp. }
    rewrite Ha. by destruct Ht as [->|[->| ->]].
Qed.

Ltac fixed_instruction fmt :=
  match goal with
  | |- exists p, entry _ _ _ ?i p 0 =>
      let r := eval cbn [Instruction.serialize] in (Instruction.serialize i [] 0) in
      match r with
      | context [msg_pack_into _ _ _ (VInt ?ty :: VInt ?l :: ?vals)] =>
          let f := eval vm_compute in (parse_fmt fmt) in
          match f with Some ?f =>
            let Hp := fresh "Hp" in
            assert (exists q, fpack f (VInt ty :: VInt l :: vals)
                              = Ok (be_encode 2 ty ++ be_encode 2 l ++ q)) as [q Hp];
            [unfold fpack; cbn [f_codes f_order pack_codes];
             change (in_width 2 ty) with true; change (in_width 2 l) with true;
             repeat match goal with H : in_width _ _ = true |- _ => rewrite H; clear H end;
             cbn [mbind res_bind encode]; eexists; reflexivity|];
            exists (be_encode 2 ty ++ be_encode 2 l ++ q);
            eapply (fixed_entry i f fmt ty l _ _ q);
            [vm_compute; reflexivity| |exact Hp|reflexivity
            |apply fpack_length in Hp; rewrite Hp; reflexivity|reflexivity
            |first [by left|by right]|];
            [intros; reflexivity|];
            intros fuel pre rest Hr; unfold Instruction.parser; rewrite Hr, run_bind_lift;
            cbn [Z.eqb Pos.eqb OFPIT_GOTO_TABLE OFPIT_WRITE_METADATA OFPIT_METER
                 OFPIT_WRITE_ACTIONS OFPIT_APPLY_ACTIONS OFPIT_CLEAR_ACTIONS orb];
            unfold OFP_INSTRUCTION_GOTO_TABLE_PACK_STR, OFP_INSTRUCTION_WRITE_METADATA_PACK_STR,
              OFP_INSTRUCTION_METER_PACK_STR; fmt_eval; rewrite (unpack_from_pack _ _ _ _ _ _ Hp eq_refl); reflexivity
          end
      end
  end.

Lemma instr_entry i : instr_ok i ->
  exists p, entry Instruction.serialize Instruction.parser same_instruction i p 0.
Proof.
  destruct i as [x|x m|t l|x]; intros H.
  - cbn in H. fixed_instruction OFP_INSTRUCTION_GOTO_TABLE_PACK_STR.
  - destruct H as [H1 H2]. fixed_instruction OFP_INSTRUCTION_WRITE_METADATA_PACK_STR.
  - by apply actions_entry.
  - cbn in H. fixed_instruction OFP_INSTRUCTION_METER_PACK_STR.
Qed.

(** *** Buckets *)

Definition same_bucket (a b : Bucket.t) : Prop :=
  Bucket.weight a = Bucket.weight b /\ Bucket.watch_port a = Bucket.watch_port b
  /\ Bucket.watch_group a = Bucket.watch_group b
  /\ Forall2 same_action (Bucket.actions a) (Bucket.actions b).

Definition bucket_ok (b : Bucket.t) : Prop :=
  in_width 2 (Bucket.weight b) = true /\ in_width 4 (Bucket.watch_port b) = true
  /\ in_width 4 (Bucket.watch_group b) = true
  /\ Forall action_ok (Bucket.actions b) /\ Z.of_nat (actions_size (Bucket.actions b)) < 65520.

Lemma bucket_header b len : in_width 2 len = true -> bucket_ok b ->
  exists h, fpack (Format Big [Fi 2; Fi 2; Fi 4; Fi 4; Fx 4])
              [VInt len; VInt (Bucket.weight b); VInt (Bucket.watch_port b); VInt (Bucket.watch_group b)]
            = Ok h /\ length h = 16%nat.
Proof.
  intros Hl (H1 & H2 & H3 & _).
  assert (exists h, fpack (Format Big [Fi 2; Fi 2; Fi 4; Fi 4; Fx 4])
     [VInt len; VInt (Bucket.weight b); VInt (Bucket.watch_port b); VInt (Bucket.watch_group b)] = Ok h)
    as [h Hh].
  { unfold fpack. cbn [f_codes f_order pack_codes]. rewrite Hl, H1, H2, H3. by eexists. }
  exists h. split; [done|]. by apply fpack_length in Hh.
Qed.

(** The bytes of a bucket: unlike an instruction it leaves the padding of its last
    action to whoever writes next. *)
Lemma bucket_writes b p pad h buf off :
  sequence serialize parser same_action (Bucket.actions b) p pad ->
  fpack (Format Big [Fi 2; Fi 2; Fi 4; Fi 4; Fx 4])
    [VInt (Z.of_nat (16 + (length p + pad))); VInt (Bucket.weight b); VInt (Bucket.watch_port b);
     VInt (Bucket.watch_group b)] = Ok h -> length h = 16%nat ->
  (length buf <= off)%nat ->
  Bucket.serialize b buf off = Ok (padded buf off ++ h ++ p, (16 + (length p + pad))%nat).
Proof.
  intros Hseq Hh Hhl Hb. pose proof (s_aligned _ _ _ _ _ _ Hseq) as H8.
  assert (Hr : round_up (Z.of_nat (16 + (length p + pad))) 8 = Z.of_nat (16 + (length p + pad))).
  { apply round_up_id; [lia|]. change 8 with (Z.of_nat 8).
    rewrite <- Nat2Z.inj_mod, Nat.Div0.add_mod, H8. done. }
  unfold Bucket.serialize, OFP_BUCKET_SIZE. destruct (Bucket.actions b) as [|a l] eqn:E.
  - destruct (s_nil _ _ _ _ _ _ Hseq eq_refl) as [-> ->].
    cbn [serialize_loop foldM mbind res_bind]. rewrite Nat.sub_diag.
    cbn [length] in Hr, Hh |- *. change (0 + 0)%nat with 0%nat in Hr, Hh |- *. rewrite Hr.
    rewrite (pack_padded OFP_BUCKET_PACK_STR _ _ _ _ _ eq_refl Hh Hb). by rewrite app_nil_r.
  - rewrite (s_ser _ _ _ _ _ _ Hseq) by (done || lia). cbn [mbind res_bind].
    replace (off + 16 + (length p + pad) - (off + 16))%nat with (length p + pad)%nat by lia.
    rewrite Hr, padded_step, <- app_assoc by done.
    rewrite (pack_reserved OFP_BUCKET_PACK_STR _ _ _ _ _ _ _ eq_refl Hh);
      [|by apply padded_length|done|cbn; lia].
    cbn [mbind res_bind]. do 2 f_equal. by rewrite Nat2Z.id.
Qed.

Lemma bucket_entry b : bucket_ok b ->
  exists p pad, entry Bucket.serialize Bucket.parser same_bucket b p pad.
Proof.
  intros Hok. pose proof Hok as (_ & _ & _ & Hacts & Hsz).
  destruct (actions_sequence _ Hacts) as (p & pad & Hseq).
  unfold actions_size in Hsz. rewrite <- (s_length _ _ _ _ _ _ Hseq) in Hsz.
  set (len := Z.of_nat (16 + (length p + pad))).
  destruct (bucket_header b len) as (h & Hh & Hhl); [apply in_width_2; lia|done|].
  exists (h ++ p), pad. split; rewrite ?length_app, ?Hhl; [lia| | |].
  - by rewrite <- Nat.add_assoc, Nat.Div0.add_mod, (s_aligned _ _ _ _ _ _ Hseq).
  - intros buf off Hb. by rewrite (bucket_writes b p pad h) by done.
  - destruct (s_par _ _ _ _ _ _ Hseq) as [n Hn]. exists n. intros fuel pre rest Hf.
    destruct (Hn fuel fuel (pre ++ h) rest Hf Hf) as (l' & Hp & HR).
    exists (Bucket.Mk (Bucket.weight b) (Bucket.watch_port b) (Bucket.watch_group b) l').
    split; [|done]. unfold Bucket.parser, OFP_BUCKET_PACK_STR. fmt_eval. rewrite <- !app_assoc.
    rewrite (unpack_from_pack _ _ _ _ _ _ Hh eq_refl), run_bind_lift. cbn [fit_args f_codes].
    unfold OFP_BUCKET_SIZE. rewrite <- Hhl at 1. rewrite <- length_app.
    replace (len - Z.of_nat 16) with (Z.of_nat (length p + pad)) by lia.
    rewrite <- !app_assoc in Hp. rewrite Hp. cbn [mbind run_bind].
    reflexivity.
Qed.

(** *** Framing *)

Lemma msg_frame ty xid body payload :
  body MsgBase.serialize_pre = Ok (MsgBase.serialize_pre ++ payload) ->
  in_width 1 ty = true -> in_width 4 (default 0 xid) = true ->
  8 + Z.of_nat (length payload) < 65536 ->
  exists h, length h = 8%nat
    /\ MsgBase.serialize OFP_VERSION ty xid body = Ok (h ++ payload)
    /\ MsgBase.header (h ++ payload)
       = Ok (OFP_VERSION, ty, Z.of_nat (length (h ++ payload)), default 0 xid).
Proof.
  intros Hb Ht Hx Hl. set (args := [VInt OFP_VERSION; VInt ty; VInt (8 + Z.of_nat (length payload));
                                    VInt (default 0 xid)]).
  assert (exists h, fpack MsgBase.header_fmt args = Ok h) as [h Hh].
  { unfold fpack, args. cbn [MsgBase.header_fmt f_codes f_order pack_codes].
    change (in_width 1 OFP_VERSION) with true. rewrite Ht, Hx, in_width_2 by lia. by eexists. }
  assert (Hhl : length h = 8%nat) by (by apply fpack_length in Hh). exists h. split; [done|].
  split; [by apply (MsgBase.serialize_ok _ _ _ _ _ _ Hb)|].
  unfold MsgBase.header. rewrite (proj2 (Nat.leb_le OFP_HEADER_SIZE _))
    by (rewrite length_app, Hhl; unfold OFP_HEADER_SIZE; lia).
  fmt_eval. fold MsgBase.header_fmt. rewrite (unpack_from_pack0 _ _ _ _ Hh).
  cbn [py_assert mbind res_bind args fit_args MsgBase.header_fmt f_codes].
  do 3 f_equal. rewrite length_app, Hhl. lia.
Qed.

(** The words of the fixed part of a message are read back behind its header. *)
Lemma fixed_part s f args b (h rest : bytes) : parse_fmt s = Some f -> fpack f args = Ok b ->
  length h = OFP_HEADER_SIZE ->
  unpack_from s (h ++ b ++ rest) OFP_HEADER_SIZE = Ok (fit_args (f_codes f) args).
Proof.
  intros Hf Hb Hl. unfold unpack_from, with_fmt. rewrite Hf. by apply unpack_from_pack.
Qed.

End Facts.
End InstrFacts.

(** ** Properties of instructions, flow and group modifications and packet-out *)

Module InstrClaims.
Import OxmFacts OxmUserFacts MatchFacts MatchClaims Action ActionFacts ActionClaims InstrFacts.

(** The words of a flow modification fit their fields. *)
Definition flow_mod_words_ok (m : FlowMod.t) : Prop :=
  in_width 8 (FlowMod.cookie m) = true /\ in_width 8 (FlowMod.cookie_mask m) = true
  /\ in_width 1 (FlowMod.table_id m) = true /\ in_width 1 (FlowMod.command m) = true
  /\ in_width 2 (FlowMod.idle_timeout m) = true /\ in_width 2 (FlowMod.hard_timeout m) = true
  /\ in_width 2 (FlowMod.priority m) = true /\ in_width 4 (FlowMod.buffer_id m) = true
  /\ in_width 4 (FlowMod.out_port m) = true /\ in_width 4 (FlowMod.out_group m) = true
  /\ in_width 2 (FlowMod.flags m) = true.

Definition flow_mod_words (m : FlowMod.t) : list pyval :=
  [VInt (FlowMod.cookie m); VInt (FlowMod.cookie_mask m); VInt (FlowMod.table_id m);
   VInt (FlowMod.command m); VInt (FlowMod.idle_timeout m); VInt (FlowMod.hard_timeout m);
   VInt (FlowMod.priority m); VInt (FlowMod.buffer_id m); VInt (FlowMod.out_port m);
   VInt (FlowMod.out_group m); VInt (FlowMod.flags m)].

Lemma flow_mod_fixed m : flow_mod_words_ok m ->
  exists b, fpack (Format Big [Fi 8; Fi 8; Fi 1; Fi 1; Fi 2; Fi 2; Fi 2; Fi 4; Fi 4; Fi 4; Fi 2; Fx 2])
              (flow_mod_words m) = Ok b /\ length b = 40%nat.
Proof.
  intros (H1 & H2 & H3 & H4 & H5 & H6 & H7 & H8 & H9 & H10 & H11).
  eassert (exists b, fpack _ (flow_mod_words m) = Ok b) as [b Hb].
  2:{ exists b. split; [exact Hb|]. by apply fpack_length in Hb. }
  unfold fpack, flow_mod_words. cbn [f_codes f_order pack_codes].
  rewrite H1, H2, H3, H4, H5, H6, H7, H8, H9, H10, H11. by eexists.
Qed.

Section Claims.
Context `{C : AddrConv} `{I : IntConv} `{!AddrConvLaws C}.

Lemma plain_loop insts buf off :
  serialize_loop FlowMod.serialize_instruction (Plain_instruction <$> insts) buf off
  = serialize_loop Instruction.serialize insts buf off.
Proof.
  unfold serialize_loop. revert buf off. induction insts as [|i l IH]; intros buf off; [done|].
  cbn [fmap list_fmap foldM FlowMod.serialize_instruction].
  destruct (Instruction.serialize i buf off) as [[b n]|e]; [|done]. apply IH.
Qed.

Lemma instructions_wire insts : Forall instr_ok insts ->
  exists p, sequence Instruction.serialize Instruction.parser same_instruction insts p 0.
Proof.
  intros H. apply entries_full. eapply list.Forall_impl; [exact H|]. intros i Hi.
  by apply instr_entry.
Qed.

End Claims.

(** C2: A flow modification on the wire.  With a match built from keyword arguments and
    well-formed instructions the message is serialized; its header carries the type
    and its true length, a multiple of eight; the fixed part, the match and the
    instructions are found where the protocol puts them: the match parser gives the
    fields of the match and its length, and from the next eight-byte boundary to the
    end of the message the instruction loop gives the instructions back. *)
Theorem flow_mod_roundtrip `{C : AddrConv} `{I : IntConv} `{!AddrConvLaws C}
    (m : FlowMod.t) (xid : option Z) (kwargs : list (string * uservalue))
    (insts : list Instruction.t)
    (Hwords : flow_mod_words_ok m) (Hx : in_width 4 (default 0 xid) = true)
    (Hargs : Forall arg_ok kwargs) (Hn : (length kwargs <= 200)%nat)
    (Hm : match_of_kwargs kwargs = Ok (FlowMod.match_ m))
    (Hi : FlowMod.instructions m = Plain_instruction <$> insts) (Hok : Forall instr_ok insts)
    (Hsz : Z.of_nat (259 * length kwargs + sum_list_with (ser_len Instruction.serialize) insts) <= 65400) :
  exists out m' len n,
    FlowMod.serialize m xid = Ok out
    /\ MsgBase.header out = Ok (OFP_VERSION, OFPT_FLOW_MOD, Z.of_nat (length out), default 0 xid)
    /\ (length out mod 8 = 0)%nat
    /\ unpack_from OFP_FLOW_MOD_PACK_STR0 out OFP_HEADER_SIZE = Ok (flow_mod_words m)
    /\ OfpMatch.parser out 48 = Ok m' /\ _fields2 m' = _fields2 (FlowMod.match_ m)
    /\ m_length m' = Some len
    /\ forall fuel, (n <= fuel)%nat ->
         exists insts',
           parse_loop (Instruction.parser fuel) fuel out (48 + Z.to_nat (round_up len 8))
             (Z.of_nat (length out) - 48 - round_up len 8) = Some (Ok insts')
           /\ Forall2 same_instruction insts' insts.
Proof.
  destruct (flow_mod_fixed m Hwords) as (b & Hb & Hbl).
  destruct (kwargs_match_wire _ _ Hargs Hn Hm) as (mw & len & Hmw8 & Hmwl & Hmwb & Hms & Hmp).
  destruct (instructions_wire insts Hok) as (iw & Hseq).
  pose proof (s_length _ _ _ _ _ _ Hseq) as Hil. pose proof (s_aligned _ _ _ _ _ _ Hseq) as Hi8.
  rewrite Nat.add_0_r in Hil, Hi8.
  assert (Hbody : (fun buf => '(buf, _) ← FlowMod.serialize_body m buf; Ok buf) MsgBase.serialize_pre
                  = Ok (MsgBase.serialize_pre ++ b ++ mw ++ iw)).
  { cbv beta. unfold FlowMod.serialize_body. fold (flow_mod_words m).
    rewrite (pack_padded OFP_FLOW_MOD_PACK_STR0 _ _ _ _ _ eq_refl Hb) by done.
    rewrite padded_full by done. cbn [mbind res_bind].
    set (buf := MsgBase.serialize_pre ++ b).
    replace (OFP_FLOW_MOD_SIZE - OFP_MATCH_SIZE)%nat with (length buf)
      by (unfold buf; rewrite length_app, Hbl; done).
    destruct (Hms buf) as [m1 ->]. cbn [mbind res_bind]. rewrite Hi, plain_loop, <- length_app.
    rewrite (sequence_full _ _ _ _ _ _ Hseq). cbn [mbind res_bind]. unfold buf.
    by rewrite <- !app_assoc. }
  destruct (msg_frame OFPT_FLOW_MOD xid _ _ Hbody) as (h & Hhl & Hs & Hh);
    [done|done|rewrite !length_app; lia|].
  set (out := h ++ b ++ mw ++ iw) in *.
  assert (Hol : length out = (48 + length mw + length iw)%nat)
    by (unfold out; rewrite !length_app; lia).
  destruct (Hmp (h ++ b) iw) as (m' & Hp & Hf2 & Hml).
  replace (length (h ++ b)) with 48%nat in Hp by (rewrite length_app; lia).
  rewrite <- app_assoc in Hp. fold out in Hp.
  destruct (s_par _ _ _ _ _ _ Hseq) as [n Hpar]. exists out, m', len, n.
  split; [exact Hs|]. split; [exact Hh|]. split; [|split; [|split; [exact Hp|split; [exact Hf2|]]]].
  - rewrite Hol, <- Nat.add_assoc, Nat.Div0.add_mod, (Nat.Div0.add_mod (length mw)), Hmw8, Hi8. done.
  - exact (fixed_part OFP_FLOW_MOD_PACK_STR0 _ _ _ h (mw ++ iw) eq_refl Hb Hhl).
  - split; [exact Hml|]. intros fuel Hf. destruct (Hpar fuel fuel (h ++ b ++ mw) [] Hf Hf) as (l' & Hl' & HR).
    exists l'. split; [|exact HR]. cbn [replicate] in Hl'. rewrite !app_nil_r, <- !app_assoc in Hl'.
    fold out in Hl'. rewrite <- Hl', <- Hmwl. f_equal; [rewrite !length_app|]; lia.
Qed.

Definition sample_flow_mod `{C : AddrConv} `{I : IntConv} (m : OFPMatch) : FlowMod.t :=
  FlowMod.Mk 7 0 1 0 10 20 100 OFP_NO_BUFFER 0 0 0 m
    (Plain_instruction <$>
       [Instruction.OFPInstructionActions OFPIT_APPLY_ACTIONS [sample_action; OFPActionOutput 3 0];
        Instruction.OFPInstructionGotoTable 2]).

Lemma flow_mod_roundtrip_witness :
  exists m out, match_of_kwargs (C := RawConv.conv) (I := raw_int) sample_args = Ok m
    /\ FlowMod.serialize (C := RawConv.conv) (I := raw_int)
         (sample_flow_mod (C := RawConv.conv) (I := raw_int) m) (Some 5) = Ok out
    /\ MsgBase.header out = Ok (4, 14, 232, 5).
Proof.
  destruct (match_of_kwargs (C := RawConv.conv) (I := raw_int) sample_args) as [m|e] eqn:Hm;
    [|vm_compute in Hm; discriminate].
  destruct (flow_mod_roundtrip (C := RawConv.conv) (I := raw_int) (AddrConvLaws0 := RawConv.laws)
    (sample_flow_mod (C := RawConv.conv) (I := raw_int) m) (Some 5) sample_args
    [Instruction.OFPInstructionActions OFPIT_APPLY_ACTIONS [sample_action; OFPActionOutput 3 0];
     Instruction.OFPInstructionGotoTable 2]) as (out & m' & len & n & Hs & Hh & _).
  - repeat split.
  - reflexivity.
  - exact sample_args_ok.
  - vm_compute. lia.
  - exact Hm.
  - reflexivity.
  - constructor; [|constructor; [reflexivity|constructor]].
    split; [by right; left|]. split; [|vm_compute; reflexivity].
    constructor; [exact sample_action_ok|]. constructor; [|constructor].
    apply ok_fixed. split; reflexivity.
  - vm_compute. discriminate.
  - exists m, out. split; [reflexivity|]. split; [exact Hs|]. rewrite Hh.
    assert (El : length out = 232%nat); [|rewrite El; reflexivity].
    vm_compute in Hm. injection Hm as <-. vm_compute in Hs. injection Hs as <-. reflexivity.
Defined.

(** *** Packet-out *)

(** The zero bytes an action leaves to be written behind it. *)
Definition act_padding `{C : AddrConv} `{I : IntConv} (a : Action.t) : nat :=
  match Action.serialize a [] 0 with Ok (p, n) => (n - length p)%nat | Err _ => 0%nat end.

Section PacketOutFacts.
Context `{C : AddrConv} `{I : IntConv} `{!AddrConvLaws C}.

Lemma actions_last l a : Forall action_ok (l ++ [a]) ->
  exists p, sequence Action.serialize Action.parser same_action (l ++ [a]) p (act_padding a).
Proof.
  assert (Hone : forall b, action_ok b ->
            exists p, entry Action.serialize Action.parser same_action b p (act_padding b)).
  { intros b Hb. destruct (action_entry b Hb) as (p & pad & He). exists p.
    enough (act_padding b = pad) as -> by done.
    unfold act_padding. rewrite (e_ser _ _ _ _ _ _ He [] 0%nat) by done.
    change (padded [] 0) with (@nil Z). cbn [app]. lia. }
  induction l as [|b l IH]; intros H; cbn [app] in *.
  - apply Forall_inv in H. destruct (Hone a H) as [p He]. exists p. by apply sequence_one.
  - pose proof (Forall_inv H) as Hb. apply Forall_inv_tail in H.
    destruct (IH H) as [p Hp]. destruct (Hone b Hb) as [q Hq]. eexists.
    eapply sequence_cons; [by destruct l|exact Hq|exact Hp].
Qed.

Definition packet_out (in_port : Z) (actions : list Action.t) (data : bytes) : PacketOut.t :=
  PacketOut.Mk (Some OFP_NO_BUFFER) in_port (Some actions) (Some data).

Lemma packet_out_fixed in_port n : in_width 4 in_port = true -> Z.of_nat n < 65536 ->
  exists f, fpack (Format Big [Fi 4; Fi 4; Fi 2; Fx 6])
              [VInt OFP_NO_BUFFER; VInt in_port; VInt (Z.of_nat n)] = Ok f /\ length f = 16%nat.
Proof.
  intros Hp Hn. eassert (exists b, fpack _ _ = Ok b) as [b Hb].
  2:{ exists b. split; [exact Hb|]. by apply fpack_length in Hb. }
  unfold fpack. cbn [f_codes f_order pack_codes]. change (in_width 4 OFP_NO_BUFFER) with true.
  rewrite Hp, in_width_2 by lia. by eexists.
Qed.

Lemma packet_out_body in_port l a p data f :
  sequence Action.serialize Action.parser same_action (l ++ [a]) p (act_padding a) ->
  fpack (Format Big [Fi 4; Fi 4; Fi 2; Fx 6])
    [VInt OFP_NO_BUFFER; VInt in_port; VInt (Z.of_nat (length p + act_padding a))] = Ok f ->
  PacketOut.serialize_body (packet_out in_port (l ++ [a]) data) MsgBase.serialize_pre
  = Ok (MsgBase.serialize_pre ++ f ++ p ++ data).
Proof.
  intros Hseq Hf. unfold PacketOut.serialize_body, packet_out, OFP_PACKET_OUT_SIZE.
  cbn [PacketOut.actions PacketOut.data PacketOut.buffer_id PacketOut.in_port].
  rewrite (s_ser _ _ _ _ _ _ Hseq); [|cbn; lia|by destruct l]. cbn [mbind res_bind].
  rewrite bool_decide_eq_true_2 by done. cbn [py_assert mbind res_bind].
  replace (24 + (length p + act_padding a) - 24)%nat with (length p + act_padding a)%nat by lia.
  replace (padded MsgBase.serialize_pre 24) with (MsgBase.serialize_pre ++ replicate 16 0) by done.
  rewrite <- !app_assoc.
  apply (pack_reserved OFP_PACKET_OUT_PACK_STR _ _ _ _ _ _ _ eq_refl Hf); [done|done|cbn; lia].
Qed.

End PacketOutFacts.

(** A packet-out with actions, the last of which needs no padding, and packet data:
    the header and the fixed part announce the true lengths, the actions are read back
    from the announced actions length, and what follows them is the packet. *)
Theorem packet_out_roundtrip `{C : AddrConv} `{I : IntConv} `{!AddrConvLaws C}
    (in_port : Z) (l : list Action.t) (a : Action.t) (data : bytes) (xid : option Z)
    (Hp : in_width 4 in_port = true) (Hx : in_width 4 (default 0 xid) = true)
    (Hok : Forall action_ok (l ++ [a])) (Ha : act_padding a = 0%nat)
    (Hsz : Z.of_nat (actions_size (l ++ [a]) + length data) <= 65500) :
  exists out n,
    PacketOut.serialize (packet_out in_port (l ++ [a]) data) xid = Ok out
    /\ MsgBase.header out = Ok (OFP_VERSION, OFPT_PACKET_OUT, Z.of_nat (length out), default 0 xid)
    /\ unpack_from OFP_PACKET_OUT_PACK_STR out OFP_HEADER_SIZE
       = Ok [VInt OFP_NO_BUFFER; VInt in_port; VInt (Z.of_nat (actions_size (l ++ [a])))]
    /\ drop (OFP_PACKET_OUT_SIZE + actions_size (l ++ [a])) out = data
    /\ forall fuel, (n <= fuel)%nat -> exists l',
         parse_loop (Action.parser fuel) fuel out OFP_PACKET_OUT_SIZE
           (Z.of_nat (actions_size (l ++ [a]))) = Some (Ok l') /\ Forall2 same_action l' (l ++ [a]).
Proof.
  destruct (actions_last l a Hok) as [p Hseq]. pose proof (s_length _ _ _ _ _ _ Hseq) as Hlen.
  fold (actions_size (l ++ [a])) in Hlen. rewrite <- Hlen in Hsz |- *.
  destruct (packet_out_fixed in_port (length p + act_padding a) Hp ltac:(lia)) as (f & Hf & Hfl).
  pose proof (packet_out_body in_port l a p data f Hseq Hf) as Hbody.
  destruct (msg_frame OFPT_PACKET_OUT xid _ _ Hbody) as (h & Hhl & Hs & Hh);
    [done|done|rewrite !length_app; lia|].
  destruct (s_par _ _ _ _ _ _ Hseq) as [n Hn]. exists (h ++ f ++ p ++ data), n.
  split; [exact Hs|]. split; [exact Hh|].
  split; [exact (fixed_part OFP_PACKET_OUT_PACK_STR _ _ _ h (p ++ data) eq_refl Hf Hhl)|].
  rewrite Ha, Nat.add_0_r in *. unfold OFP_PACKET_OUT_SIZE. split.
  - rewrite !app_assoc. apply drop_app_length'. rewrite !length_app. lia.
  - intros fuel Hfu. destruct (Hn fuel fuel (h ++ f) data Hfu Hfu) as (l' & Hl' & HR). exists l'.
    split; [|exact HR]. cbn [replicate] in Hl'. rewrite app_nil_r, <- !app_assoc in Hl'.
    rewrite <- Hl'. f_equal. rewrite length_app. lia.
Qed.

Lemma packet_out_roundtrip_witness :
  exists out, PacketOut.serialize (C := RawConv.conv) (I := raw_int)
      (packet_out 3 [OFPActionPopVlan; OFPActionOutput 1 0] [1; 2; 3]) None = Ok out
    /\ drop 48 out = [1; 2; 3].
Proof.
  destruct (packet_out_roundtrip (C := RawConv.conv) (I := raw_int) (AddrConvLaws0 := RawConv.laws)
    3 [OFPActionPopVlan] (OFPActionOutput 1 0) [1; 2; 3] None eq_refl eq_refl)
    as (out & n & Hs & _ & _ & Hd & _).
  - constructor; [by apply ok_fixed|]. constructor; [by apply ok_fixed|constructor].
  - reflexivity.
  - vm_compute. discriminate.
  - exists out. split; [exact Hs|]. exact Hd.
Defined.

(** Where the packet of a packet-out ends up otherwise.  The padding of the last action
    is not written, so what the announced actions length points to is the packet
    without as many of its first bytes; and with no action at all the fixed part is
    packed over the first sixteen bytes of the packet. *)
Theorem packet_out_misplaced_data `{C : AddrConv} `{I : IntConv} `{!AddrConvLaws C}
    (in_port : Z) (l : list Action.t) (a : Action.t) (data : bytes) (xid : option Z)
    (Hp : in_width 4 in_port = true) (Hx : in_width 4 (default 0 xid) = true)
    (Hok : Forall action_ok (l ++ [a])) (Hd : (16 <= length data)%nat)
    (Hsz : Z.of_nat (actions_size (l ++ [a]) + length data) <= 65500) :
  (exists out, PacketOut.serialize (packet_out in_port (l ++ [a]) data) xid = Ok out
    /\ drop (OFP_PACKET_OUT_SIZE + actions_size (l ++ [a])) out = drop (act_padding a) data)
  /\ exists h f, length (h ++ f) = OFP_PACKET_OUT_SIZE
     /\ PacketOut.serialize (packet_out in_port [] data) xid = Ok ((h ++ f) ++ drop 16 data).
Proof.
  split.
  - destruct (actions_last l a Hok) as [p Hseq]. pose proof (s_length _ _ _ _ _ _ Hseq) as Hlen.
    fold (actions_size (l ++ [a])) in Hlen. rewrite <- Hlen in Hsz |- *.
    destruct (packet_out_fixed in_port (length p + act_padding a) Hp ltac:(lia)) as (f & Hf & Hfl).
    pose proof (packet_out_body in_port l a p data f Hseq Hf) as Hbody.
    destruct (msg_frame OFPT_PACKET_OUT xid _ _ Hbody) as (h & Hhl & Hs & _);
      [done|done|rewrite !length_app; lia|].
    exists (h ++ f ++ p ++ data). split; [exact Hs|]. unfold OFP_PACKET_OUT_SIZE.
    rewrite !app_assoc, drop_app, drop_ge; [|rewrite !length_app; lia].
    cbn [app]. f_equal. rewrite !length_app. lia.
  - destruct (packet_out_fixed in_port 0 Hp ltac:(lia)) as (f & Hf & Hfl).
    assert (Hbody : PacketOut.serialize_body (packet_out in_port [] data) MsgBase.serialize_pre
                    = Ok (MsgBase.serialize_pre ++ f ++ drop 16 data)).
    { unfold PacketOut.serialize_body, packet_out, OFP_PACKET_OUT_SIZE.
      cbn [PacketOut.actions PacketOut.data PacketOut.buffer_id PacketOut.in_port serialize_loop foldM
           mbind res_bind].
      rewrite bool_decide_eq_true_2 by done. cbn [py_assert mbind res_bind]. rewrite Nat.sub_diag.
      rewrite <- (take_drop 16 data) at 1.
      apply (pack_reserved OFP_PACKET_OUT_PACK_STR _ _ _ _ _ _ _ eq_refl Hf); [done| |];
        rewrite length_take_le by lia; [done|lia]. }
    destruct (msg_frame OFPT_PACKET_OUT xid _ _ Hbody) as (h & Hhl & Hs & _);
      [done|done|rewrite length_app, length_drop; lia|].
    exists h, f. rewrite length_app, Hhl, Hfl, <- app_assoc. done.
Qed.

Lemma packet_out_misplaced_data_witness :
  exists h f, length (h ++ f) = 24%nat
    /\ PacketOut.serialize (C := RawConv.conv) (I := raw_int)
         (packet_out 3 [] (replicate 16 7 ++ [1; 2])) None = Ok ((h ++ f) ++ [1; 2]).
Proof.
  destruct (packet_out_misplaced_data (C := RawConv.conv) (I := raw_int) (AddrConvLaws0 := RawConv.laws)
    3 [] (OFPActionOutput 1 0) (replicate 16 7 ++ [1; 2]) None eq_refl eq_refl)
    as [_ H].
  - constructor; [by apply ok_fixed|constructor].
  - vm_compute. lia.
  - vm_compute. discriminate.
  - exact H.
Defined.

(** *** Groups *)

Definition buckets_size `{C : AddrConv} `{I : IntConv} (l : list Bucket.t) : nat :=
  sum_list_with (ser_len Bucket.serialize) l.

(** A group modification on the wire.  The fixed part is read back, and so are the
    buckets with their actions, once the zero bytes are added that the last bucket
    announces but leaves unwritten: only they keep the message from being a multiple
    of eight bytes long. *)
Theorem group_mod_roundtrip `{C : AddrConv} `{I : IntConv} `{!AddrConvLaws C}
    (m : GroupMod.t) (xid : option Z)
    (Hc : in_width 2 (GroupMod.command m) = true) (Ht : in_width 1 (GroupMod.type_ m) = true)
    (Hg : in_width 4 (GroupMod.group_id m) = true) (Hx : in_width 4 (default 0 xid) = true)
    (Hok : Forall bucket_ok (GroupMod.buckets m))
    (Hsz : Z.of_nat (buckets_size (GroupMod.buckets m)) <= 65500) :
  exists out pad n,
    GroupMod.serialize m xid = Ok out
    /\ MsgBase.header out = Ok (OFP_VERSION, OFPT_GROUP_MOD, Z.of_nat (length out), default 0 xid)
    /\ unpack_from OFP_GROUP_MOD_PACK_STR out OFP_HEADER_SIZE
       = Ok [VInt (GroupMod.command m); VInt (GroupMod.type_ m); VInt (GroupMod.group_id m)]
    /\ (length out + pad)%nat = (OFP_GROUP_MOD_SIZE + buckets_size (GroupMod.buckets m))%nat
    /\ ((length out + pad) mod 8 = 0)%nat
    /\ forall fuel, (n <= fuel)%nat -> exists l',
         parse_loop (Bucket.parser fuel) fuel (out ++ replicate pad 0) OFP_GROUP_MOD_SIZE
           (Z.of_nat (buckets_size (GroupMod.buckets m))) = Some (Ok l')
         /\ Forall2 same_bucket l' (GroupMod.buckets m).
Proof.
  destruct (entries Bucket.serialize Bucket.parser same_bucket (GroupMod.buckets m)) as (p & pad & Hseq).
  { eapply list.Forall_impl; [exact Hok|]. intros b Hb. by apply bucket_entry. }
  pose proof (s_length _ _ _ _ _ _ Hseq) as Hlen. fold (buckets_size (GroupMod.buckets m)) in Hlen.
  pose proof (s_aligned _ _ _ _ _ _ Hseq) as H8. rewrite <- Hlen in Hsz |- *.
  assert (exists f, fpack (Format Big [Fi 2; Fi 1; Fx 1; Fi 4])
    [VInt (GroupMod.command m); VInt (GroupMod.type_ m); VInt (GroupMod.group_id m)] = Ok f) as [f Hf].
  { unfold fpack. cbn [f_codes f_order pack_codes]. rewrite Hc, Ht, Hg. by eexists. }
  assert (Hfl : length f = 8%nat) by (by apply fpack_length in Hf).
  assert (Hbody : GroupMod.serialize_body m MsgBase.serialize_pre
                  = Ok (MsgBase.serialize_pre ++ f ++ p)).
  { unfold GroupMod.serialize_body.
    rewrite (pack_padded OFP_GROUP_MOD_PACK_STR _ _ _ _ _ eq_refl Hf) by done.
    rewrite padded_full by done. cbn [mbind res_bind]. rewrite app_assoc.
    set (buf := MsgBase.serialize_pre ++ f).
    assert (Hbl : length buf = OFP_GROUP_MOD_SIZE) by (unfold buf; by rewrite length_app, Hfl).
    destruct (GroupMod.buckets m) as [|b l] eqn:E.
    - destruct (s_nil _ _ _ _ _ _ Hseq eq_refl) as [-> _]. by rewrite app_nil_r.
    - rewrite (s_ser _ _ _ _ _ _ Hseq) by (done || lia). cbn [mbind res_bind].
      by rewrite padded_full. }
  destruct (msg_frame OFPT_GROUP_MOD xid _ _ Hbody) as (h & Hhl & Hs & Hh);
    [done|done|rewrite !length_app; lia|].
  destruct (s_par _ _ _ _ _ _ Hseq) as [n Hn]. exists (h ++ f ++ p), pad, n.
  split; [exact Hs|]. split; [exact Hh|].
  split; [exact (fixed_part OFP_GROUP_MOD_PACK_STR _ _ _ h p eq_refl Hf Hhl)|].
  unfold OFP_GROUP_MOD_SIZE. rewrite !length_app, Hhl, Hfl. split; [lia|]. split.
  - replace (8 + (8 + length p) + pad)%nat with (2 * 8 + (length p + pad))%nat by lia.
    by rewrite Nat.Div0.add_mod, H8.
  - intros fuel Hfu. destruct (Hn fuel fuel (h ++ f) [] Hfu Hfu) as (l' & Hl' & HR). exists l'.
    split; [|exact HR]. rewrite app_nil_r in Hl'. rewrite <- !app_assoc in Hl'. rewrite <- !app_assoc.
    rewrite length_app, Hhl, Hfl in Hl'. exact Hl'.
Qed.

Lemma group_mod_roundtrip_witness :
  exists out, GroupMod.serialize (C := RawConv.conv) (I := raw_int)
      (GroupMod.Mk 0 1 9 [Bucket.Mk 5 1 2 [OFPActionGroup 4; OFPActionOutput 1 0]; Bucket.Mk 6 1 2 []])
      (Some 2) = Ok out
    /\ MsgBase.header out = Ok (4, 15, 72, 2).
Proof.
  destruct (group_mod_roundtrip (C := RawConv.conv) (I := raw_int) (AddrConvLaws0 := RawConv.laws)
    (GroupMod.Mk 0 1 9 [Bucket.Mk 5 1 2 [OFPActionGroup 4; OFPActionOutput 1 0]; Bucket.Mk 6 1 2 []])
    (Some 2) eq_refl eq_refl eq_refl eq_refl) as (out & pad & n & Hs & Hh & _).
  - constructor; [|constructor; [|constructor]]; repeat split.
    + constructor; [by apply ok_fixed|]. constructor; [by apply ok_fixed|constructor].
    + constructor.
  - vm_compute. discriminate.
  - exists out. split; [exact Hs|]. rewrite Hh.
    assert (El : length out = 72%nat); [|rewrite El; reflexivity].
    vm_compute in Hs. injection Hs as <-. reflexivity.
Defined.

(** *** Lengths from the wire *)

Lemma stuck_loop {A} (p : bytes -> nat -> run (A * Z)) a fuel buf off rem :
  (p buf off = None \/ p buf off = Some (Ok (a, 0))) -> 0 < rem -> parse_loop p fuel buf off rem = None.
Proof.
  intros Hp Hr. induction fuel as [|fuel IH].
  - cbn [parse_loop]. by rewrite (proj2 (Z.leb_gt _ _)).
  - rewrite loop_fuel_step by done. destruct Hp as [->| ->]; [done|]. cbn [mbind run_bind].
    change (Z.to_nat 0) with 0%nat. by rewrite Nat.add_0_r, Z.sub_0_r, IH.
Qed.

(** The action loop trusts the length on the wire: when the first action of an
    instruction is an experimenter action that announces the length zero, the parser
    never returns, whatever the instruction's own length and the bytes behind. *)
Theorem zero_length_action_diverges `{C : AddrConv} (fuel : nat) (ty l e : Z) (rest : bytes)
    (Hty : ty = OFPIT_WRITE_ACTIONS \/ ty = OFPIT_APPLY_ACTIONS \/ ty = OFPIT_CLEAR_ACTIONS)
    (Hl : 8 < l < 65536) (He : 0 <= e < 4294967296) (Hne : e <> NX_EXPERIMENTER_ID) :
  Instruction.parser fuel
    ((be_encode 2 ty ++ be_encode 2 l ++ replicate 4 0)
     ++ be_encode 2 OFPAT_EXPERIMENTER ++ be_encode 2 0 ++ be_encode 4 e ++ rest) 0 = None.
Proof.
  assert (Hlw : in_width 2 l = true) by (apply in_width_2; lia).
  assert (Htw : in_width 2 ty = true) by (by destruct Hty as [->|[->| ->]]).
  assert (Hew : in_width 4 e = true) by (by apply in_width_4).
  set (act := be_encode 2 OFPAT_EXPERIMENTER ++ be_encode 2 0 ++ be_encode 4 e ++ rest).
  set (hd := be_encode 2 ty ++ be_encode 2 l ++ replicate 4 0).
  assert (Ha : Action.parser fuel (hd ++ act) (length hd) = None
     \/ Action.parser fuel (hd ++ act) (length hd)
        = Some (Ok (OFPActionExperimenterUnknown (ActionExperimenterUnknown.Mk e (Some [])), 0))).
  { destruct fuel as [|fuel]; [by left|right]. cbn [Action.parser]. unfold act.
    rewrite header_read; [|done|done|rewrite length_app, be_encode_length; lia].
    rewrite run_bind_lift.
    change (fixed_parser OFPAT_EXPERIMENTER) with (@None (bytes -> nat -> res (Action.t * Z))).
    change (OFPAT_EXPERIMENTER =? OFPAT_SET_FIELD) with false.
    change (OFPAT_EXPERIMENTER =? OFPAT_EXPERIMENTER) with true. cbv iota.
    rewrite exp_header_read by done. rewrite run_bind_lift, (proj2 (Z.eqb_neq _ _) Hne).
    rewrite drop_ge; [done|]. rewrite length_take. cbn. lia. }
  unfold Instruction.parser.
  assert (Hr : unpack_from "!HH" (hd ++ act) 0 = Ok [VInt ty; VInt l])
    by (unfold hd; rewrite <- !app_assoc; by apply (type_read ty l _ [])).
  assert (Hr8 : unpack_from OFP_INSTRUCTION_ACTIONS_PACK_STR (hd ++ act) 0 = Ok [VInt ty; VInt l])
    by (unfold hd; rewrite <- !app_assoc; apply (header_read ty l _ []); try done;
        rewrite length_app, length_replicate; lia).
  assert (Hn : Instruction.actions_parser fuel (hd ++ act) 0 = None).
  { unfold Instruction.actions_parser. rewrite Hr8, run_bind_lift.
    change (0 + OFP_INSTRUCTION_ACTIONS_SIZE)%nat with (length hd).
    by rewrite (stuck_loop _ _ _ _ _ _ Ha) by (unfold OFP_INSTRUCTION_ACTIONS_SIZE; lia). }
  rewrite Hr, run_bind_lift, Hn. by destruct Hty as [->|[->| ->]].
Qed.

Lemma zero_length_action_diverges_witness :
  Instruction.parser (C := RawConv.conv) 50
    ((be_encode 2 4 ++ be_encode 2 16 ++ replicate 4 0)
     ++ be_encode 2 OFPAT_EXPERIMENTER ++ be_encode 2 0 ++ be_encode 4 0xBEBABEBA ++ []) 0 = None.
Proof.
  apply zero_length_action_diverges; [by right; left|lia|lia|discriminate].
Defined.

End InstrClaims.
