(* ===== verification/OfpMessages.v ===== *)
(** * OpenFlow 1.3 messages

    The symmetric, asynchronous and controller-switch messages of
    ryu/ofproto/ofproto_v1_3_parser.py outside statistics: hello with its version
    bitmaps, errors, echo, features, configuration, packet-in, flow removed, port
    status, port, meter and table modification, barrier, queue configuration, role and
    asynchronous configuration.  Each class is a constructor or a record; messages the
    controller receives have a parser on the message buffer, messages it sends have a
    serializer over [MsgBase.serialize]. *)

From Stdlib Require Import ZArith Lia.
From stdpp Require Import base list gmap strings numbers.
From S2P Require Import Prelude Struct OfpMsg Oxm PktUtils PktHeaders OxmUser OfpMatch OfpActions OfpInstr.

(** ** Constants of ofproto_v1_3.py *)

Definition OFPT_HELLO : Z := 0.
Definition OFPT_ERROR : Z := 1.
Definition OFPT_ECHO_REQUEST : Z := 2.
Definition OFPT_ECHO_REPLY : Z := 3.
Definition OFPT_FEATURES_REQUEST : Z := 5.
Definition OFPT_FEATURES_REPLY : Z := 6.
Definition OFPT_GET_CONFIG_REQUEST : Z := 7.
Definition OFPT_GET_CONFIG_REPLY : Z := 8.
Definition OFPT_SET_CONFIG : Z := 9.
Definition OFPT_PACKET_IN : Z := 10.
Definition OFPT_FLOW_REMOVED : Z := 11.
Definition OFPT_PORT_STATUS : Z := 12.
Definition OFPT_PORT_MOD : Z := 16.
Definition OFPT_TABLE_MOD : Z := 17.
Definition OFPT_MULTIPART_REPLY : Z := 19.
Definition OFPT_BARRIER_REQUEST : Z := 20.
Definition OFPT_BARRIER_REPLY : Z := 21.
Definition OFPT_QUEUE_GET_CONFIG_REQUEST : Z := 22.
Definition OFPT_QUEUE_GET_CONFIG_REPLY : Z := 23.
Definition OFPT_ROLE_REQUEST : Z := 24.
Definition OFPT_ROLE_REPLY : Z := 25.
Definition OFPT_GET_ASYNC_REQUEST : Z := 26.
Definition OFPT_GET_ASYNC_REPLY : Z := 27.
Definition OFPT_SET_ASYNC : Z := 28.
Definition OFPT_METER_MOD : Z := 29.
Definition OFPHET_VERSIONBITMAP : Z := 1.
Definition OFP_HELLO_HEADER_SIZE : nat := 8.
Definition OFP_HELLO_ELEM_HEADER_PACK_STR : string := "!HH".
Definition OFP_HELLO_ELEM_VERSIONBITMAP_HEADER_PACK_STR : string := "!HH".
Definition OFP_HELLO_ELEM_VERSIONBITMAP_HEADER_SIZE : nat := 4.
Definition OFPET_HELLO_FAILED : Z := 0.
Definition OFPHFC_INCOMPATIBLE : Z := 0.
Definition OFPET_EXPERIMENTER : Z := 0xffff.
Definition OFP_ERROR_MSG_PACK_STR : string := "!HH".
Definition OFP_ERROR_MSG_SIZE : nat := 12.
Definition OFP_ERROR_EXPERIMENTER_MSG_PACK_STR : string := "!HHI".
Definition OFP_ERROR_EXPERIMENTER_MSG_SIZE : nat := 16.
Definition OFP_SWITCH_FEATURES_PACK_STR : string := "!QIBB2xII".
Definition OFP_SWITCH_CONFIG_PACK_STR : string := "!HH".
Definition OFP_PACKET_IN_PACK_STR : string := "!IHBBQ".
Definition OFP_PACKET_IN_SIZE : nat := 32.
Definition OFP_FLOW_REMOVED_PACK_STR0 : string := "!QHBBIIHHQQ".
Definition OFP_FLOW_REMOVED_SIZE : nat := 56.
Definition OFP_PORT_PACK_STR : string := "!I4x6s2x16sIIIIIIII".
Definition OFP_PORT_SIZE : Z := 64.
Definition OFP_PORT_STATUS_PACK_STR : string := "!B7xI4x6s2x16sIIIIIIII".
Definition OFP_PORT_STATUS_DESC_OFFSET : nat := 16.
Definition OFP_PORT_MOD_PACK_STR : string := "!I4x6s2xIII4x".
Definition OFP_TABLE_MOD_PACK_STR : string := "!B3xI".
Definition OFP_METER_MOD_PACK_STR : string := "!HHI".
Definition OFP_METER_MOD_SIZE : nat := 16.
Definition OFPMBT_DROP : Z := 1.
Definition OFPMBT_DSCP_REMARK : Z := 2.
Definition OFPMBT_EXPERIMENTER : Z := 0xffff.
Definition OFP_METER_BAND_HEADER_PACK_STR : string := "!HHII".
Definition OFP_METER_BAND_DROP_PACK_STR : string := "!HHII4x".
Definition OFP_METER_BAND_DSCP_REMARK_PACK_STR : string := "!HHIIB3x".
Definition OFP_METER_BAND_EXPERIMENTER_PACK_STR : string := "!HHIII".
Definition OFP_METER_BAND_SIZE : Z := 16.
Definition OFP_QUEUE_GET_CONFIG_REQUEST_PACK_STR : string := "!I4x".
Definition OFP_QUEUE_GET_CONFIG_REPLY_PACK_STR : string := "!I4x".
Definition OFP_QUEUE_GET_CONFIG_REPLY_SIZE : nat := 16.
Definition OFP_PACKET_QUEUE_PACK_STR : string := "!IIH6x".
Definition OFP_PACKET_QUEUE_SIZE : nat := 16.
Definition OFP_QUEUE_PROP_HEADER_PACK_STR : string := "!HH4x".
Definition OFP_QUEUE_PROP_HEADER_SIZE : nat := 8.
Definition OFP_QUEUE_PROP_RATE_PACK_STR : string := "!H6x".
Definition OFP_QUEUE_PROP_EXPERIMENTER_PACK_STR : string := "!I4x".
Definition OFP_QUEUE_PROP_EXPERIMENTER_SIZE : nat := 16.
Definition OFPQT_MIN_RATE : Z := 1.
Definition OFPQT_MAX_RATE : Z := 2.
Definition OFPQT_EXPERIMENTER : Z := 0xffff.
Definition OFP_ROLE_REQUEST_PACK_STR : string := "!I4xQ".
Definition OFP_ASYNC_CONFIG_PACK_STR : string := "!2I2I2I".

(** [x.rstrip(b'\0')] *)
Fixpoint drop_zeros (b : bytes) : bytes :=
  match b with 0 :: b => drop_zeros b | _ => b end.
Definition rstrip0 (b : bytes) : bytes := reverse (drop_zeros (reverse b)).

(** ** Hello *)

Module Hello.

(** A version bitmap element: the versions and its wire length. *)
Record elem := Elem { versions : list Z; elength : Z }.

Record t := Mk { elements : list elem }.

(** [versions]: the test covers the shifts 0 to 30 of every word. *)
Definition bitmap_versions (bitmaps : list Z) : list Z :=
  mjoin (imap (fun i bitmap =>
    omap (fun shift => if negb (Z.land bitmap (Z.shiftl 1 shift) =? 0)
                       then Some (Z.of_nat i * 32 + shift) else None)
      (Z.of_nat <$> seq 0 31)) bitmaps).

(** [while bitmaps_len >= 4]; every turn takes four bytes off. *)
Fixpoint read_bitmaps (fuel : nat) (buf : bytes) (offset : nat) (bitmaps_len : Z) : res (list Z) :=
  match fuel with
  | O => Ok []
  | S fuel =>
      if 4 <=? bitmaps_len then
        vs ← unpack_from "!I" buf offset;
        match vs with
        | [VInt b] => l ← read_bitmaps fuel buf (offset + 4) (bitmaps_len - 4); Ok (b :: l)
        | _ => Err ValueError
        end
      else Ok []
  end.

(** [OFPHelloElemVersionBitmap.parser] *)
Definition elem_parser (buf : bytes) (offset : nat) : res elem :=
  vs ← unpack_from OFP_HELLO_ELEM_VERSIONBITMAP_HEADER_PACK_STR buf offset;
  match vs with
  | [VInt type_; VInt len] =>
      py_assert (type_ =? OFPHET_VERSIONBITMAP) ;;
      let bitmaps_len := len - Z.of_nat OFP_HELLO_ELEM_VERSIONBITMAP_HEADER_SIZE in
      bitmaps ← read_bitmaps (Z.to_nat bitmaps_len) buf
                  (offset + OFP_HELLO_ELEM_VERSIONBITMAP_HEADER_SIZE) bitmaps_len;
      Ok (Elem (bitmap_versions bitmaps) len)
  | _ => Err ValueError
  end.

(** An element of any type, with the length the loop advances by; other types are
    skipped. *)
Definition any_elem (buf : bytes) (offset : nat) : run (option elem * Z) :=
  vs ← lift (unpack_from OFP_HELLO_ELEM_HEADER_PACK_STR buf offset);
  match vs with
  | [VInt type_; VInt len] =>
      if type_ =? OFPHET_VERSIONBITMAP then
        e ← lift (elem_parser buf offset); mret (Some e, len)
      else mret (None, len)
  | _ => lift (Err ValueError)
  end.

Definition parser (fuel : nat) (msg_len : Z) (buf : bytes) : run t :=
  elems ← parse_loop any_elem fuel buf OFP_HELLO_HEADER_SIZE
            (msg_len - Z.of_nat OFP_HELLO_HEADER_SIZE);
  mret (Mk (omap id elems)).

(** The elements are not sent. *)
Definition serialize (m : t) (xid : option Z) : res bytes :=
  MsgBase.serialize OFP_VERSION OFPT_HELLO xid Ok.

End Hello.

(** ** Errors *)

Module ErrorMsg.

Inductive t :=
  | OFPErrorMsg (type_ code : option Z) (data : option bytes)
  | OFPErrorExperimenterMsg (exp_type experimenter : option Z) (data : option bytes).

Definition parser (buf : bytes) : res t :=
  vs ← unpack_from "!H" buf OFP_HEADER_SIZE;
  match vs with
  | [VInt type_] =>
      if type_ =? OFPET_EXPERIMENTER then
        vs ← unpack_from OFP_ERROR_EXPERIMENTER_MSG_PACK_STR buf OFP_HEADER_SIZE;
        match vs with
        | [VInt _; VInt exp_type; VInt experimenter] =>
            Ok (OFPErrorExperimenterMsg (Some exp_type) (Some experimenter)
                  (Some (drop OFP_ERROR_EXPERIMENTER_MSG_SIZE buf)))
        | _ => Err ValueError
        end
      else
        vs ← unpack_from OFP_ERROR_MSG_PACK_STR buf OFP_HEADER_SIZE;
        match vs with
        | [VInt type_; VInt code] =>
            Ok (OFPErrorMsg (Some type_) (Some code) (Some (drop OFP_ERROR_MSG_SIZE buf)))
        | _ => Err ValueError
        end
  | _ => Err ValueError
  end.

(** An attribute that is still [None] does not pack. *)
Definition serialize_body (m : t) (buf : bytes) : res bytes :=
  match m with
  | OFPErrorMsg type_ code data =>
      match data, type_, code with
      | None, _, _ => Err AssertionError
      | Some d, Some ty, Some c =>
          buf ← msg_pack_into OFP_ERROR_MSG_PACK_STR buf OFP_HEADER_SIZE [VInt ty; VInt c];
          Ok (buf ++ d)
      | _, _, _ => Err StructError
      end
  | OFPErrorExperimenterMsg exp_type experimenter data =>
      match data, exp_type, experimenter with
      | None, _, _ => Err AssertionError
      | Some d, Some et, Some e =>
          buf ← msg_pack_into OFP_ERROR_EXPERIMENTER_MSG_PACK_STR buf OFP_HEADER_SIZE
                  [VInt OFPET_EXPERIMENTER; VInt et; VInt e];
          Ok (buf ++ d)
      | _, _, _ => Err StructError
      end
  end.

Definition serialize (m : t) (xid : option Z) : res bytes :=
  MsgBase.serialize OFP_VERSION OFPT_ERROR xid (serialize_body m).

End ErrorMsg.

(** ** Echo *)

Module Echo.

(** [OFPEchoRequest] and [OFPEchoReply] hold the data. *)
Definition parser (buf : bytes) : bytes := drop OFP_HEADER_SIZE buf.

Definition request_body (data : option bytes) (buf : bytes) : res bytes :=
  Ok (match data with None => buf | Some d => buf ++ d end).
Definition reply_body (data : option bytes) (buf : bytes) : res bytes :=
  match data with None => Err AssertionError | Some d => Ok (buf ++ d) end.

Definition serialize_request (data : option bytes) (xid : option Z) : res bytes :=
  MsgBase.serialize OFP_VERSION OFPT_ECHO_REQUEST xid (request_body data).
Definition serialize_reply (data : option bytes) (xid : option Z) : res bytes :=
  MsgBase.serialize OFP_VERSION OFPT_ECHO_REPLY xid (reply_body data).

End Echo.

(** ** Messages that are a header or a header and fixed words *)

(** [OFPFeaturesRequest], [OFPGetConfigRequest], [OFPBarrierRequest],
    [OFPGetAsyncRequest]: no body. *)
Definition serialize_bare (msg_type : Z) (xid : option Z) : res bytes :=
  MsgBase.serialize OFP_VERSION msg_type xid Ok.

Definition serialize_fixed (msg_type : Z) (fmt : string) (vals : list pyval) (xid : option Z) :
    res bytes :=
  MsgBase.serialize OFP_VERSION msg_type xid
    (fun buf => msg_pack_into fmt buf OFP_HEADER_SIZE vals).

Definition OFPFeaturesRequest_serialize := serialize_bare OFPT_FEATURES_REQUEST.
Definition OFPGetConfigRequest_serialize := serialize_bare OFPT_GET_CONFIG_REQUEST.
Definition OFPBarrierRequest_serialize := serialize_bare OFPT_BARRIER_REQUEST.
Definition OFPGetAsyncRequest_serialize := serialize_bare OFPT_GET_ASYNC_REQUEST.

Module SwitchFeatures.

Record t := Mk { datapath_id : Z; n_buffers : Z; n_tables : Z; auxiliary_id : Z; capabilities : Z }.

Definition parser (buf : bytes) : res t :=
  vs ← unpack_from OFP_SWITCH_FEATURES_PACK_STR buf OFP_HEADER_SIZE;
  match vs with
  | [VInt id; VInt nb; VInt nt; VInt aux; VInt cap; VInt _] => Ok (Mk id nb nt aux cap)
  | _ => Err ValueError
  end.

End SwitchFeatures.

Module SwitchConfig.

Record t := Mk { flags : Z; miss_send_len : Z }.

(** [OFPGetConfigReply.parser] *)
Definition parser (buf : bytes) : res t :=
  vs ← unpack_from OFP_SWITCH_CONFIG_PACK_STR buf OFP_HEADER_SIZE;
  match vs with
  | [VInt flags; VInt miss] => Ok (Mk flags miss)
  | _ => Err ValueError
  end.

(** [OFPSetConfig] *)
Definition serialize (m : t) : option Z -> res bytes :=
  serialize_fixed OFPT_SET_CONFIG OFP_SWITCH_CONFIG_PACK_STR
    [VInt (flags m); VInt (miss_send_len m)].

End SwitchConfig.

Module Role.

Record t := Mk { role : Z; generation_id : Z }.

(** [OFPRoleReply.parser] *)
Definition parser (buf : bytes) : res t :=
  vs ← unpack_from OFP_ROLE_REQUEST_PACK_STR buf OFP_HEADER_SIZE;
  match vs with
  | [VInt role; VInt gen] => Ok (Mk role gen)
  | _ => Err ValueError
  end.

(** [OFPRoleRequest]: both attributes must be set. *)
Definition serialize (role generation_id : option Z) (xid : option Z) : res bytes :=
  match role, generation_id with
  | Some r, Some g =>
      serialize_fixed OFPT_ROLE_REQUEST OFP_ROLE_REQUEST_PACK_STR [VInt r; VInt g] xid
  | _, _ => Err AssertionError
  end.

End Role.

Module AsyncConfig.

(** Every mask has a word for the master and one for the slave role. *)
Record t := Mk { packet_in_mask : Z * Z; port_status_mask : Z * Z; flow_removed_mask : Z * Z }.

(** [OFPGetAsyncReply.parser] *)
Definition parser (buf : bytes) : res t :=
  vs ← unpack_from OFP_ASYNC_CONFIG_PACK_STR buf OFP_HEADER_SIZE;
  match vs with
  | [VInt a; VInt b; VInt c; VInt d; VInt e; VInt f] => Ok (Mk (a, b) (c, d) (e, f))
  | _ => Err ValueError
  end.

(** [OFPSetAsync] *)
Definition serialize (m : t) : option Z -> res bytes :=
  serialize_fixed OFPT_SET_ASYNC OFP_ASYNC_CONFIG_PACK_STR
    [VInt (packet_in_mask m).1; VInt (packet_in_mask m).2; VInt (port_status_mask m).1;
     VInt (port_status_mask m).2; VInt (flow_removed_mask m).1; VInt (flow_removed_mask m).2].

End AsyncConfig.

Definition OFPTableMod_serialize (table_id config : Z) : option Z -> res bytes :=
  serialize_fixed OFPT_TABLE_MOD OFP_TABLE_MOD_PACK_STR [VInt table_id; VInt config].

Definition OFPQueueGetConfigRequest_serialize (port : Z) : option Z -> res bytes :=
  serialize_fixed OFPT_QUEUE_GET_CONFIG_REQUEST OFP_QUEUE_GET_CONFIG_REQUEST_PACK_STR [VInt port].

Definition OFPPortMod_serialize `{C : AddrConv} (port_no : Z) (hw_addr : string)
    (config mask advertise : Z) (xid : option Z) : res bytes :=
  MsgBase.serialize OFP_VERSION OFPT_PORT_MOD xid (fun buf =>
    mac ← text_to_bin MAC hw_addr;
    msg_pack_into OFP_PORT_MOD_PACK_STR buf OFP_HEADER_SIZE
      [VInt port_no; VBytes mac; VInt config; VInt mask; VInt advertise]).

(** ** Ports *)

Module Port.

Record t := Mk {
  port_no : Z; hw_addr : string; name : bytes; config : Z; state : Z; curr : Z;
  advertised : Z; supported : Z; peer : Z; curr_speed : Z; max_speed : Z }.

(** [OFPPort.parser], with [length]. *)
Definition parser `{C : AddrConv} (buf : bytes) (offset : nat) : res (t * Z) :=
  vs ← unpack_from OFP_PORT_PACK_STR buf offset;
  match vs with
  | [VInt no; VBytes hw; VBytes name; VInt config; VInt state; VInt curr; VInt adv; VInt sup;
     VInt peer; VInt cs; VInt ms] =>
      hw_addr ← bin_to_text MAC hw;
      Ok (Mk no hw_addr (rstrip0 name) config state curr adv sup peer cs ms, OFP_PORT_SIZE)
  | _ => Err ValueError
  end.

End Port.

Module PortStatus.

Record t := Mk { reason : Z; desc : Port.t }.

Definition parser `{C : AddrConv} (buf : bytes) : res t :=
  vs ← unpack_from OFP_PORT_STATUS_PACK_STR buf OFP_HEADER_SIZE;
  match vs with
  | VInt reason :: _ =>
      '(desc, _) ← Port.parser buf OFP_PORT_STATUS_DESC_OFFSET;
      Ok (Mk reason desc)
  | _ => Err ValueError
  end.

End PortStatus.

(** ** Packet-in and flow removed *)

Module PacketIn.

Record t := Mk {
  buffer_id : Z; total_len : Z; reason : Z; table_id : Z; cookie : Z;
  match_ : OFPMatch; data : bytes }.

Definition parser `{C : AddrConv} (buf : bytes) : res t :=
  vs ← unpack_from OFP_PACKET_IN_PACK_STR buf OFP_HEADER_SIZE;
  match vs with
  | [VInt buffer_id; VInt total_len; VInt reason; VInt table_id; VInt cookie] =>
      m ← OfpMatch.parser buf (OFP_PACKET_IN_SIZE - OFP_MATCH_SIZE);
      match m_length m with
      | None => Err TypeError
      | Some l =>
          let match_len := round_up l 8 in
          let data := drop (Z.to_nat (Z.of_nat (OFP_PACKET_IN_SIZE - OFP_MATCH_SIZE)
                                      + match_len + 2)) buf in
          let data := if total_len <? Z.of_nat (length data)
                      then take (Z.to_nat total_len) data else data in
          Ok (Mk buffer_id total_len reason table_id cookie m data)
      end
  | _ => Err ValueError
  end.

End PacketIn.

Module FlowRemoved.

Record t := Mk {
  cookie : Z; priority : Z; reason : Z; table_id : Z; duration_sec : Z; duration_nsec : Z;
  idle_timeout : Z; hard_timeout : Z; packet_count : Z; byte_count : Z; match_ : OFPMatch }.

Definition parser `{C : AddrConv} (buf : bytes) : res t :=
  vs ← unpack_from OFP_FLOW_REMOVED_PACK_STR0 buf OFP_HEADER_SIZE;
  match vs with
  | [VInt cookie; VInt priority; VInt reason; VInt table_id; VInt sec; VInt nsec; VInt idle;
     VInt hard; VInt packets; VInt byts] =>
      m ← OfpMatch.parser buf (OFP_FLOW_REMOVED_SIZE - OFP_MATCH_SIZE);
      Ok (Mk cookie priority reason table_id sec nsec idle hard packets byts m)
  | _ => Err ValueError
  end.

End FlowRemoved.

(** ** Meters *)

Module MeterBand.

Inductive t :=
  | OFPMeterBandDrop (rate burst_size : Z)
  | OFPMeterBandDscpRemark (rate burst_size prec_level : Z)
  | OFPMeterBandExperimenter (rate burst_size : Z) (experimenter : option Z).

Definition serialize (b : t) (buf : bytes) (offset : nat) : res (bytes * nat) :=
  buf ← match b with
        | OFPMeterBandDrop rate burst =>
            msg_pack_into OFP_METER_BAND_DROP_PACK_STR buf offset
              [VInt OFPMBT_DROP; VInt OFP_METER_BAND_SIZE; VInt rate; VInt burst]
        | OFPMeterBandDscpRemark rate burst prec =>
            msg_pack_into OFP_METER_BAND_DSCP_REMARK_PACK_STR buf offset
              [VInt OFPMBT_DSCP_REMARK; VInt OFP_METER_BAND_SIZE; VInt rate; VInt burst; VInt prec]
        | OFPMeterBandExperimenter rate burst (Some e) =>
            msg_pack_into OFP_METER_BAND_EXPERIMENTER_PACK_STR buf offset
              [VInt OFPMBT_EXPERIMENTER; VInt OFP_METER_BAND_SIZE; VInt rate; VInt burst; VInt e]
        | OFPMeterBandExperimenter _ _ None => Err StructError
        end;
  Ok (buf, Z.to_nat OFP_METER_BAND_SIZE).

(** [OFPMeterBandHeader.parser]: all classes are sixteen bytes long and insist on
    it; an unknown type is a key error. *)
Definition parser (buf : bytes) (offset : nat) : res (t * Z) :=
  vs ← unpack_from OFP_METER_BAND_HEADER_PACK_STR buf offset;
  match vs with
  | [VInt type_; VInt len_; VInt _; VInt _] =>
      if type_ =? OFPMBT_DROP then
        py_assert (OFP_METER_BAND_SIZE =? len_) ;;
        vs ← unpack_from OFP_METER_BAND_DROP_PACK_STR buf offset;
        match vs with
        | [VInt _; VInt _; VInt rate; VInt burst] =>
            Ok (OFPMeterBandDrop rate burst, OFP_METER_BAND_SIZE)
        | _ => Err ValueError
        end
      else if type_ =? OFPMBT_DSCP_REMARK then
        py_assert (OFP_METER_BAND_SIZE =? len_) ;;
        vs ← unpack_from OFP_METER_BAND_DSCP_REMARK_PACK_STR buf offset;
        match vs with
        | [VInt _; VInt _; VInt rate; VInt burst; VInt prec] =>
            Ok (OFPMeterBandDscpRemark rate burst prec, OFP_METER_BAND_SIZE)
        | _ => Err ValueError
        end
      else if type_ =? OFPMBT_EXPERIMENTER then
        py_assert (OFP_METER_BAND_SIZE =? len_) ;;
        vs ← unpack_from OFP_METER_BAND_EXPERIMENTER_PACK_STR buf offset;
        match vs with
        | [VInt _; VInt _; VInt rate; VInt burst; VInt e] =>
            Ok (OFPMeterBandExperimenter rate burst (Some e), OFP_METER_BAND_SIZE)
        | _ => Err ValueError
        end
      else Err KeyError
  | _ => Err ValueError
  end.

End MeterBand.

Module MeterMod.

Record t := Mk { command : Z; flags : Z; meter_id : Z; bands : list MeterBand.t }.

Definition serialize_body (m : t) (buf : bytes) : res bytes :=
  buf ← msg_pack_into OFP_METER_MOD_PACK_STR buf OFP_HEADER_SIZE
          [VInt (command m); VInt (flags m); VInt (meter_id m)];
  '(buf, _) ← serialize_loop MeterBand.serialize (bands m) buf OFP_METER_MOD_SIZE;
  Ok buf.

Definition serialize (m : t) (xid : option Z) : res bytes :=
  MsgBase.serialize OFP_VERSION OFPT_METER_MOD xid (serialize_body m).

End MeterMod.

(** ** Queue configuration *)

Module QueueConfig.

Inductive prop :=
  | OFPQueuePropMinRate (rate : Z)
  | OFPQueuePropMaxRate (rate : Z)
  | OFPQueuePropExperimenter (experimenter : Z) (data : list Z).

(** [OFPQueueProp.parser], with the length from the wire; the experimenter's data is
    read byte by byte. *)
Definition prop_parser (buf : bytes) (offset : nat) : res (prop * Z) :=
  vs ← unpack_from OFP_QUEUE_PROP_HEADER_PACK_STR buf offset;
  match vs with
  | [VInt property_; VInt len_] =>
      let off := (offset + OFP_QUEUE_PROP_HEADER_SIZE)%nat in
      if (property_ =? OFPQT_MIN_RATE) || (property_ =? OFPQT_MAX_RATE) then
        vs ← unpack_from OFP_QUEUE_PROP_RATE_PACK_STR buf off;
        match vs with
        | [VInt rate] =>
            Ok (if property_ =? OFPQT_MIN_RATE then OFPQueuePropMinRate rate
                else OFPQueuePropMaxRate rate, len_)
        | _ => Err ValueError
        end
      else if property_ =? OFPQT_EXPERIMENTER then
        vs ← unpack_from OFP_QUEUE_PROP_EXPERIMENTER_PACK_STR buf off;
        match vs with
        | [VInt e] =>
            Ok (OFPQueuePropExperimenter e
                  (drop (offset + OFP_QUEUE_PROP_EXPERIMENTER_SIZE)
                     (take (offset + Z.to_nat len_) buf)), len_)
        | _ => Err ValueError
        end
      else Err AttributeError
  | _ => Err ValueError
  end.

Record queue := Queue { queue_id : Z; q_port : Z; properties : list prop }.

(** [OFPPacketQueue.parser] *)
Definition queue_parser (fuel : nat) (buf : bytes) (offset : nat) : run (queue * Z) :=
  vs ← lift (unpack_from OFP_PACKET_QUEUE_PACK_STR buf offset);
  match vs with
  | [VInt queue_id; VInt port; VInt len_] =>
      props ← parse_loop (fun buf off => lift (prop_parser buf off)) fuel buf
                (offset + OFP_PACKET_QUEUE_SIZE) (len_ - Z.of_nat OFP_PACKET_QUEUE_SIZE);
      mret (Queue queue_id port props, len_)
  | _ => lift (Err ValueError)
  end.

Record t := Mk { port : Z; queues : list queue }.

(** [OFPQueueGetConfigReply.parser] *)
Definition parser (fuel : nat) (msg_len : Z) (buf : bytes) : run t :=
  vs ← lift (unpack_from OFP_QUEUE_GET_CONFIG_REPLY_PACK_STR buf OFP_HEADER_SIZE);
  match vs with
  | [VInt port] =>
      queues ← parse_loop (queue_parser fuel) fuel buf OFP_QUEUE_GET_CONFIG_REPLY_SIZE
                 (msg_len - Z.of_nat OFP_QUEUE_GET_CONFIG_REPLY_SIZE);
      mret (Mk port queues)
  | _ => lift (Err ValueError)
  end.

End QueueConfig.

(** ** Facts and properties *)

Module MessageClaims.
Import OxmFacts OxmUserFacts MatchFacts MatchClaims ActionFacts InstrFacts.

(** *** Version bitmaps *)

Lemma bitmap_bit w shift : 0 <= shift -> negb (Z.land w (Z.shiftl 1 shift) =? 0) = Z.testbit w shift.
Proof.
  intros Hs. rewrite Z.shiftl_1_l. destruct (Z.testbit w shift) eqn:E.
  - apply negb_true_iff, Z.eqb_neq. intros H. apply (f_equal (fun z => Z.testbit z shift)) in H.
    rewrite Z.land_spec, E, Z.pow2_bits_true, Z.bits_0 in H by done. done.
  - apply negb_false_iff, Z.eqb_eq. apply Z.bits_inj'. intros n Hn.
    rewrite Z.land_spec, Z.bits_0, Z.pow2_bits_eqb by done.
    destruct (Z.eqb_spec shift n) as [->|]; [by rewrite E|by rewrite andb_false_r].
Qed.

Lemma bitmap_elem w i v :
  v ∈ omap (fun shift => if negb (Z.land w (Z.shiftl 1 shift) =? 0)
                         then Some (Z.of_nat i * 32 + shift) else None) (Z.of_nat <$> seq 0 31)
  <-> exists s, 0 <= s < 31 /\ v = Z.of_nat i * 32 + s /\ Z.testbit w s = true.
Proof.
  rewrite list_elem_of_omap. split.
  - intros (s & Hs & H). apply list_elem_of_fmap in Hs as (k & -> & Hk).
    apply elem_of_seq in Hk. rewrite bitmap_bit in H by lia.
    destruct (Z.testbit w (Z.of_nat k)) eqn:E; [|done]. injection H as <-.
    exists (Z.of_nat k). split; [lia|done].
  - intros (s & Hs & -> & Ht). exists s. split.
    + apply list_elem_of_fmap. exists (Z.to_nat s). split; [lia|]. apply elem_of_seq. lia.
    + by rewrite bitmap_bit, Ht by lia.
Qed.

Lemma elem_of_bitmap_versions bitmaps v :
  v ∈ Hello.bitmap_versions bitmaps
  <-> exists i w s, bitmaps !! i = Some w /\ 0 <= s < 31 /\ v = Z.of_nat i * 32 + s
                    /\ Z.testbit w s = true.
Proof.
  unfold Hello.bitmap_versions. rewrite list_elem_of_join. split.
  - intros (l & Hv & Hl). apply elem_of_lookup_imap in Hl as (i & w & -> & Hw).
    apply bitmap_elem in Hv as (s & ?). by exists i, w, s.
  - intros (i & w & s & Hw & H). eexists. split; [by apply bitmap_elem; exists s|].
    apply elem_of_lookup_imap. by exists i, w.
Qed.

Lemma read_bitmaps_words ws fuel pre rest : Forall (fun w => in_width 4 w = true) ws ->
  (length ws <= fuel)%nat ->
  Hello.read_bitmaps fuel (pre ++ concat (be_encode 4 <$> ws) ++ rest) (length pre)
    (4 * Z.of_nat (length ws)) = Ok ws.
Proof.
  intros H. revert fuel pre. induction H as [|w ws Hw _ IH]; intros [|fuel] pre Hf; try (cbn in Hf; lia); try done.
  - cbn [Hello.read_bitmaps fmap list_fmap concat].
    rewrite (proj2 (Z.leb_le 4 (4 * Z.of_nat (length (w :: ws))))) by (cbn [length]; lia).
    rewrite <- app_assoc. fmt_eval. rewrite unpack_int by done. cbn [mbind res_bind].
    specialize (IH fuel (pre ++ be_encode 4 w) ltac:(cbn [length] in Hf; lia)).
    rewrite length_app, be_encode_length, <- app_assoc in IH.
    replace (4 * Z.of_nat (length (w :: ws)) - 4) with (4 * Z.of_nat (length ws)) by (cbn [length]; lia).
    rewrite IH. done.
Qed.

(** A version bitmap element of a hello message is read as the set of versions whose
    bits are set, wherever it lies: version [32 i + s] is reported exactly when bit [s]
    of word [i] is set, for the bits 0 to 30 of a word. *)
Theorem hello_versions (ws : list Z) (pre rest : bytes)
    (Hw : Forall (fun w => in_width 4 w = true) ws) (Hn : Z.of_nat (length ws) < 16000) :
  let len := 4 + 4 * Z.of_nat (length ws) in
  exists e, Hello.any_elem (pre ++ (be_encode 2 OFPHET_VERSIONBITMAP ++ be_encode 2 len
                                    ++ concat (be_encode 4 <$> ws)) ++ rest) (length pre)
            = Some (Ok (Some e, len))
    /\ forall v, v ∈ Hello.versions e <->
         exists i w s, ws !! i = Some w /\ 0 <= s < 31 /\ v = Z.of_nat i * 32 + s
                       /\ Z.testbit w s = true.
Proof.
  intros len. assert (Hl : in_width 2 len = true) by (apply in_width_2; lia).
  exists (Hello.Elem (Hello.bitmap_versions ws) len). split; [|apply elem_of_bitmap_versions].
  unfold Hello.any_elem, Hello.elem_parser, OFP_HELLO_ELEM_HEADER_PACK_STR,
    OFP_HELLO_ELEM_VERSIONBITMAP_HEADER_PACK_STR. rewrite <- !app_assoc.
  rewrite type_read by done. rewrite run_bind_lift. cbn [Z.eqb OFPHET_VERSIONBITMAP Pos.eqb].
  cbn [mbind res_bind py_assert Z.eqb Pos.eqb].
  unfold OFP_HELLO_ELEM_VERSIONBITMAP_HEADER_SIZE.
  pose proof (read_bitmaps_words ws (Z.to_nat (4 * Z.of_nat (length ws))) (pre ++ be_encode 2 OFPHET_VERSIONBITMAP ++ be_encode 2 len)
    rest Hw ltac:(lia)) as E.
  rewrite !length_app, !be_encode_length, <- !app_assoc in E.
  replace (len - Z.of_nat 4) with (4 * Z.of_nat (length ws)) by lia.
  change (length pre + (2 + 2))%nat with (length pre + 4)%nat in E.
  rewrite E. done.
Qed.

Lemma hello_versions_witness :
  exists e, Hello.any_elem ((be_encode 2 1 ++ be_encode 2 8 ++ concat (be_encode 4 <$> [18])) ++ []) 0
            = Some (Ok (Some e, 8)) /\ 4 ∈ Hello.versions e.
Proof.
  destruct (hello_versions [18] [] []) as (e & He & Hv).
  - repeat constructor.
  - reflexivity.
  - exists e. split; [exact He|]. apply Hv. exists 0%nat, 18, 4. repeat split; lia.
Defined.

(** *** Messages with fixed words and data *)

(** A body of packed words followed by data: the frame, and the words read back. *)
Lemma words_frame ty fmt f vals b d xid body :
  parse_fmt fmt = Some f -> fpack f vals = Ok b ->
  (forall buf, body buf = (buf ← msg_pack_into fmt buf OFP_HEADER_SIZE vals; Ok (buf ++ d))) ->
  in_width 1 ty = true -> in_width 4 (default 0 xid) = true ->
  8 + Z.of_nat (length b + length d) < 65536 ->
  exists h, length h = 8%nat
    /\ MsgBase.serialize OFP_VERSION ty xid body = Ok (h ++ b ++ d)
    /\ MsgBase.header (h ++ b ++ d)
       = Ok (OFP_VERSION, ty, Z.of_nat (length (h ++ b ++ d)), default 0 xid)
    /\ unpack_from fmt (h ++ b ++ d) OFP_HEADER_SIZE = Ok (fit_args (f_codes f) vals).
Proof.
  intros Hf Hb Hbody Ht Hx Hl.
  destruct (msg_frame ty xid body (b ++ d)) as (h & Hh & Hs & Hhd).
  - rewrite Hbody, (pack_padded _ _ _ _ _ _ Hf Hb) by done. rewrite padded_full by done.
    cbn [mbind res_bind]. by rewrite <- app_assoc.
  - done.
  - done.
  - rewrite length_app. lia.
  - exists h. split; [done|]. split; [done|]. split; [done|].
    by apply (fixed_part _ _ _ _ h d Hf Hb).
Qed.

(** The type of an error is read before its class is chosen. *)
Lemma first_word h ty q : length h = 8%nat -> in_width 2 ty = true ->
  unpack_from "!H" (h ++ be_encode 2 ty ++ q) OFP_HEADER_SIZE = Ok [VInt ty].
Proof. intros Hh Ht. fmt_eval. change OFP_HEADER_SIZE with 8%nat. rewrite <- Hh. by apply unpack_int. Qed.

Section Roundtrips.
Context (xid : option Z) (Hx : in_width 4 (default 0 xid) = true).
Let sent (ty : Z) (out : bytes) : Prop :=
  MsgBase.header out = Ok (OFP_VERSION, ty, Z.of_nat (length out), default 0 xid).

Lemma error_roundtrip ty code d : in_width 2 ty = true -> ty <> OFPET_EXPERIMENTER ->
  in_width 2 code = true -> Z.of_nat (length d) < 65000 ->
  exists out, ErrorMsg.serialize (ErrorMsg.OFPErrorMsg (Some ty) (Some code) (Some d)) xid = Ok out
     /\ sent OFPT_ERROR out
     /\ ErrorMsg.parser out = Ok (ErrorMsg.OFPErrorMsg (Some ty) (Some code) (Some d)).
Proof.
  intros Hty Hne Hc Hd. pose proof (two_words ty code Hty Hc) as Hp.
  destruct (words_frame OFPT_ERROR OFP_ERROR_MSG_PACK_STR _ _ _ d xid
    (ErrorMsg.serialize_body (ErrorMsg.OFPErrorMsg (Some ty) (Some code) (Some d))) eq_refl Hp)
    as (h & Hh & Hs & Hhd & Hu); [done|done|done|rewrite length_app, !be_encode_length; lia|].
  exists (h ++ (be_encode 2 ty ++ be_encode 2 code) ++ d). split; [done|]. split; [done|].
  unfold ErrorMsg.parser. rewrite Hu. rewrite <- !app_assoc, first_word by done. cbn [mbind res_bind].
  rewrite (proj2 (Z.eqb_neq _ _) Hne). cbn [mbind res_bind fit_args f_codes].
  rewrite !app_assoc. rewrite drop_app_length' by (rewrite !length_app, Hh; done). done.
Qed.

Lemma error_experimenter_roundtrip et e d : in_width 2 et = true -> in_width 4 e = true ->
  Z.of_nat (length d) < 65000 ->
  exists out,
    ErrorMsg.serialize (ErrorMsg.OFPErrorExperimenterMsg (Some et) (Some e) (Some d)) xid = Ok out
    /\ sent OFPT_ERROR out
    /\ ErrorMsg.parser out = Ok (ErrorMsg.OFPErrorExperimenterMsg (Some et) (Some e) (Some d)).
Proof.
  intros Het He Hd.
  assert (Hp : fpack (Format Big [Fi 2; Fi 2; Fi 4]) [VInt OFPET_EXPERIMENTER; VInt et; VInt e]
               = Ok (be_encode 2 OFPET_EXPERIMENTER ++ be_encode 2 et ++ be_encode 4 e)).
  { unfold fpack. cbn [f_codes f_order pack_codes]. change (in_width 2 OFPET_EXPERIMENTER) with true.
    rewrite Het, He. cbn [mbind res_bind encode]. by rewrite app_nil_r. }
  destruct (words_frame OFPT_ERROR OFP_ERROR_EXPERIMENTER_MSG_PACK_STR _ _ _ d xid
    (ErrorMsg.serialize_body (ErrorMsg.OFPErrorExperimenterMsg (Some et) (Some e) (Some d))) eq_refl Hp)
    as (h & Hh & Hs & Hhd & Hu); [done|done|done|rewrite !length_app, !be_encode_length; lia|].
  eexists. split; [exact Hs|]. split; [exact Hhd|].
  unfold ErrorMsg.parser. rewrite Hu. rewrite <- !app_assoc, first_word by done. cbn [mbind res_bind].
  rewrite Z.eqb_refl. cbn [mbind res_bind fit_args f_codes].
  rewrite !app_assoc. rewrite drop_app_length' by (rewrite !length_app, Hh; done). done.
Qed.

Lemma data_frame ty d body : in_width 1 ty = true -> Z.of_nat (length d) < 65000 ->
  (forall buf, body buf = Ok (buf ++ d)) ->
  exists out, MsgBase.serialize OFP_VERSION ty xid body = Ok out /\ sent ty out /\ Echo.parser out = d.
Proof.
  intros Hty Hd Hb. destruct (msg_frame ty xid body d (Hb _) Hty Hx ltac:(lia)) as (h & Hh & Hs & Hhd).
  exists (h ++ d). split; [done|]. split; [done|]. unfold Echo.parser. by apply drop_app_length'.
Qed.

(** A message of fixed words only. *)
Lemma fixed_roundtrip ty fmt f vals b : parse_fmt fmt = Some f -> fpack f vals = Ok b ->
  in_width 1 ty = true -> (length b <= 100)%nat ->
  exists out, serialize_fixed ty fmt vals xid = Ok out /\ sent ty out
    /\ unpack_from fmt out OFP_HEADER_SIZE = Ok (fit_args (f_codes f) vals).
Proof.
  intros Hf Hb Ht Hl.
  destruct (words_frame ty fmt f vals b [] xid
    (fun buf => buf ← msg_pack_into fmt buf OFP_HEADER_SIZE vals; Ok (buf ++ [])) Hf Hb)
    as (h & Hh & Hs & Hhd & Hu); [done|done|done|cbn [length]; lia|].
  eexists. split; [|split; [exact Hhd|exact Hu]]. rewrite <- Hs.
  unfold serialize_fixed, MsgBase.serialize. destruct (msg_pack_into _ _ _ _) as [x|x]; [|done].
  cbn [mbind res_bind]. by rewrite app_nil_r.
Qed.

Lemma config_roundtrip c : in_width 2 (SwitchConfig.flags c) = true ->
  in_width 2 (SwitchConfig.miss_send_len c) = true ->
  exists out, SwitchConfig.serialize c xid = Ok out /\ sent OFPT_SET_CONFIG out
    /\ SwitchConfig.parser out = Ok c.
Proof.
  intros H1 H2.
  destruct (fixed_roundtrip OFPT_SET_CONFIG OFP_SWITCH_CONFIG_PACK_STR _ _ _ eq_refl
    (two_words _ _ H1 H2)) as (out & Hs & Hh & Hu);
    [done|rewrite length_app, !be_encode_length; lia|].
  exists out. split; [done|]. split; [done|]. unfold SwitchConfig.parser. rewrite Hu. by destruct c.
Qed.

Lemma role_roundtrip r : in_width 4 (Role.role r) = true -> in_width 8 (Role.generation_id r) = true ->
  exists out, Role.serialize (Some (Role.role r)) (Some (Role.generation_id r)) xid = Ok out
    /\ sent OFPT_ROLE_REQUEST out /\ Role.parser out = Ok r.
Proof.
  intros H1 H2.
  assert (exists b, fpack (Format Big [Fi 4; Fx 4; Fi 8]) [VInt (Role.role r); VInt (Role.generation_id r)]
                    = Ok b) as [b Hb].
  { unfold fpack. cbn [f_codes f_order pack_codes]. rewrite H1, H2. by eexists. }
  destruct (fixed_roundtrip OFPT_ROLE_REQUEST OFP_ROLE_REQUEST_PACK_STR _ _ _ eq_refl Hb)
    as (out & Hs & Hh & Hu); [done|apply fpack_length in Hb; rewrite Hb; vm_compute; lia|].
  exists out. split; [done|]. split; [done|]. unfold Role.parser. rewrite Hu. by destruct r.
Qed.

Lemma async_roundtrip a :
  Forall (fun p => in_width 4 p.1 = true /\ in_width 4 p.2 = true)
    [AsyncConfig.packet_in_mask a; AsyncConfig.port_status_mask a; AsyncConfig.flow_removed_mask a] ->
  exists out, AsyncConfig.serialize a xid = Ok out /\ sent OFPT_SET_ASYNC out
    /\ AsyncConfig.parser out = Ok a.
Proof.
  destruct a as [[a1 a2] [b1 b2] [c1 c2]]. cbn. intros H.
  pose proof (Forall_inv H) as [H1 H2]. apply Forall_inv_tail in H.
  pose proof (Forall_inv H) as [H3 H4]. apply Forall_inv_tail, Forall_inv in H as [H5 H6].
  cbn in H1, H2, H3, H4, H5, H6.
  assert (exists b, fpack (Format Big [Fi 4; Fi 4; Fi 4; Fi 4; Fi 4; Fi 4])
            [VInt a1; VInt a2; VInt b1; VInt b2; VInt c1; VInt c2] = Ok b) as [b Hb].
  { unfold fpack. cbn [f_codes f_order pack_codes]. rewrite H1, H2, H3, H4, H5, H6. by eexists. }
  destruct (fixed_roundtrip OFPT_SET_ASYNC OFP_ASYNC_CONFIG_PACK_STR _ _ _ eq_refl Hb)
    as (out & Hs & Hh & Hu); [done|apply fpack_length in Hb; rewrite Hb; vm_compute; lia|].
  exists out. split; [done|]. split; [done|]. unfold AsyncConfig.parser. by rewrite Hu.
Qed.

End Roundtrips.

(** Errors, echo messages, the switch configuration, the role and the asynchronous
    configuration survive the wire: the serialized message has the type and the true
    length in its header, and the parser of the corresponding reply gives every
    attribute back. *)
Theorem fixed_messages_roundtrip (xid : option Z) (ty code et e : Z) (d : bytes)
    (c : SwitchConfig.t) (r : Role.t) (a : AsyncConfig.t)
    (Hx : in_width 4 (default 0 xid) = true)
    (Hty : in_width 2 ty = true) (Hne : ty <> OFPET_EXPERIMENTER) (Hcode : in_width 2 code = true)
    (Het : in_width 2 et = true) (He : in_width 4 e = true) (Hd : Z.of_nat (length d) < 65000)
    (Hc : in_width 2 (SwitchConfig.flags c) = true /\ in_width 2 (SwitchConfig.miss_send_len c) = true)
    (Hr : in_width 4 (Role.role r) = true /\ in_width 8 (Role.generation_id r) = true)
    (Ha : Forall (fun p => in_width 4 p.1 = true /\ in_width 4 p.2 = true)
            [AsyncConfig.packet_in_mask a; AsyncConfig.port_status_mask a;
             AsyncConfig.flow_removed_mask a]) :
  let sent ty out := MsgBase.header out = Ok (OFP_VERSION, ty, Z.of_nat (length out), default 0 xid) in
  (exists out, ErrorMsg.serialize (ErrorMsg.OFPErrorMsg (Some ty) (Some code) (Some d)) xid = Ok out
     /\ sent OFPT_ERROR out
     /\ ErrorMsg.parser out = Ok (ErrorMsg.OFPErrorMsg (Some ty) (Some code) (Some d)))
  /\ (exists out,
     ErrorMsg.serialize (ErrorMsg.OFPErrorExperimenterMsg (Some et) (Some e) (Some d)) xid = Ok out
     /\ sent OFPT_ERROR out
     /\ ErrorMsg.parser out = Ok (ErrorMsg.OFPErrorExperimenterMsg (Some et) (Some e) (Some d)))
  /\ (exists out, Echo.serialize_request (Some d) xid = Ok out /\ sent OFPT_ECHO_REQUEST out
     /\ Echo.parser out = d)
  /\ (exists out, Echo.serialize_reply (Some d) xid = Ok out /\ sent OFPT_ECHO_REPLY out
     /\ Echo.parser out = d)
  /\ (exists out, SwitchConfig.serialize c xid = Ok out /\ sent OFPT_SET_CONFIG out
     /\ SwitchConfig.parser out = Ok c)
  /\ (exists out, Role.serialize (Some (Role.role r)) (Some (Role.generation_id r)) xid = Ok out
     /\ sent OFPT_ROLE_REQUEST out /\ Role.parser out = Ok r)
  /\ (exists out, AsyncConfig.serialize a xid = Ok out /\ sent OFPT_SET_ASYNC out
     /\ AsyncConfig.parser out = Ok a).
Proof.
  intros sent. destruct Hc as [Hc1 Hc2]. destruct Hr as [Hr1 Hr2].
  split; [by apply error_roundtrip|]. split; [by apply error_experimenter_roundtrip|].
  split; [by apply data_frame|]. split; [by apply data_frame|].
  split; [by apply config_roundtrip|]. split; [by apply role_roundtrip|by apply async_roundtrip].
Qed.

Lemma fixed_messages_roundtrip_witness :
  exists out, AsyncConfig.serialize (AsyncConfig.Mk (1, 2) (3, 4) (5, 6)) (Some 7) = Ok out
    /\ MsgBase.header out = Ok (4, 28, 32, 7).
Proof.
  destruct (fixed_messages_roundtrip (Some 7) 1 2 3 4 [5] (SwitchConfig.Mk 0 128) (Role.Mk 2 9)
    (AsyncConfig.Mk (1, 2) (3, 4) (5, 6))) as (_ & _ & _ & _ & _ & _ & out & Hs & Hh & _);
    try reflexivity; try discriminate; try (split; reflexivity); try lia.
  - repeat constructor.
  - exists out. split; [exact Hs|]. rewrite Hh.
    vm_compute in Hs. injection Hs as <-. reflexivity.
Defined.

(** *** Packet-in *)

Definition packet_in_words (m : PacketIn.t) : list pyval :=
  [VInt (PacketIn.buffer_id m); VInt (PacketIn.total_len m); VInt (PacketIn.reason m);
   VInt (PacketIn.table_id m); VInt (PacketIn.cookie m)].

(** A packet-in as a switch sends it - the fixed part, a match of well-formed fields, two
    bytes of padding and the frame, with any further bytes behind a complete frame - is
    parsed into its attributes: the words, the fields of the match, and the frame cut to
    its announced length. *)
Theorem packet_in_parses `{C : AddrConv} `{I : IntConv} `{!AddrConvLaws C}
    (kwargs : list (string * uservalue)) (sent : OFPMatch) (b h pad2 frame trailer : bytes)
    (buffer_id total_len reason table_id cookie : Z)
    (Hargs : Forall arg_ok kwargs) (Hn : (length kwargs <= 200)%nat)
    (Hm : match_of_kwargs kwargs = Ok sent)
    (Hb : fpack (Format Big [Fi 4; Fi 2; Fi 1; Fi 1; Fi 8])
            [VInt buffer_id; VInt total_len; VInt reason; VInt table_id; VInt cookie] = Ok b)
    (Hh : length h = 8%nat) (H2 : length pad2 = 2%nat)
    (Hlen : total_len = Z.of_nat (length frame)
            \/ (Z.of_nat (length frame) < total_len /\ trailer = [])) :
  exists w m' len m,
    OfpMatch.serialize sent [] 0 = Ok (w, len, m')
    /\ PacketIn.parser (h ++ b ++ w ++ pad2 ++ frame ++ trailer) = Ok m
    /\ packet_in_words m
       = [VInt buffer_id; VInt total_len; VInt reason; VInt table_id; VInt cookie]
    /\ _fields2 (PacketIn.match_ m) = _fields2 sent
    /\ PacketIn.data m = frame.
Proof.
  destruct (kwargs_match_wire _ _ Hargs Hn Hm) as (w & len & Hw8 & Hwl & _ & Hs & Hp).
  destruct (Hs []) as [m' Hm'].
  assert (Hbl : length b = 16%nat) by (by apply fpack_length in Hb).
  destruct (Hp (h ++ b) (pad2 ++ frame ++ trailer)) as (m2 & Hm2 & Hf2 & Hl2).
  rewrite length_app, Hh, Hbl, <- app_assoc in Hm2.
  exists w, m', (length w), (PacketIn.Mk buffer_id total_len reason table_id cookie m2 frame).
  split; [exact Hm'|]. split; [|done].
  unfold PacketIn.parser.
  rewrite (fixed_part OFP_PACKET_IN_PACK_STR (Format Big [Fi 4; Fi 2; Fi 1; Fi 1; Fi 8]) _ _ h (w ++ pad2 ++ frame ++ trailer) eq_refl Hb Hh).
  cbn [mbind res_bind fit_args f_codes]. change (OFP_PACKET_IN_SIZE - OFP_MATCH_SIZE)%nat with 24%nat.
  change (8 + 16)%nat with 24%nat in Hm2. rewrite Hm2. cbn [mbind res_bind]. rewrite Hl2, <- Hwl.
  replace (drop _ (h ++ b ++ w ++ pad2 ++ frame ++ trailer)) with (frame ++ trailer).
  2:{ rewrite !app_assoc, <- (app_assoc _ frame). symmetry. apply drop_app_length'.
      rewrite !length_app. lia. }
  rewrite length_app. destruct Hlen as [->|[Hlt ->]].
  - destruct (Z.ltb_spec (Z.of_nat (length frame)) (Z.of_nat (length frame + length trailer))).
    + by rewrite Nat2Z.id, take_app_length.
    + destruct trailer; [by rewrite app_nil_r|cbn [length] in *; lia].
  - rewrite (proj2 (Z.ltb_ge _ _)) by (cbn [length]; lia). by rewrite app_nil_r.
Qed.

Lemma packet_in_parses_witness :
  exists b w m, fpack (Format Big [Fi 4; Fi 2; Fi 1; Fi 1; Fi 8])
      [VInt 0xffffffff; VInt 3; VInt 0; VInt 1; VInt 9] = Ok b
    /\ PacketIn.parser (C := RawConv.conv) (replicate 8 0 ++ b ++ w ++ [0; 0] ++ [1; 2; 3] ++ [7])
       = Ok m /\ PacketIn.data m = [1; 2; 3].
Proof.
  destruct (match_of_kwargs (C := RawConv.conv) (I := raw_int) sample_args) as [sent|e] eqn:Hm;
    [|vm_compute in Hm; discriminate].
  eexists. destruct (packet_in_parses (C := RawConv.conv) (I := raw_int) (AddrConvLaws0 := RawConv.laws)
    sample_args sent _ (replicate 8 0) [0; 0] [1; 2; 3] [7] 0xffffffff 3 0 1 9 sample_args_ok
    ltac:(vm_compute; lia) Hm eq_refl eq_refl eq_refl (or_introl eq_refl))
    as (w & m' & len & m & _ & Hp & _ & _ & Hd).
  exists w, m. split; [reflexivity|]. split; [exact Hp|exact Hd].
Defined.

(** *** Meter modification *)

Definition band_ok (b : MeterBand.t) : Prop :=
  match b with
  | MeterBand.OFPMeterBandDrop r s => in_width 4 r = true /\ in_width 4 s = true
  | MeterBand.OFPMeterBandDscpRemark r s p =>
      in_width 4 r = true /\ in_width 4 s = true /\ in_width 1 p = true
  | MeterBand.OFPMeterBandExperimenter r s (Some e) =>
      in_width 4 r = true /\ in_width 4 s = true /\ in_width 4 e = true
  | MeterBand.OFPMeterBandExperimenter _ _ None => False
  end.

Definition band_parser (fuel : nat) (buf : bytes) (off : nat) : run (MeterBand.t * Z) :=
  lift (MeterBand.parser buf off).

(** The packed words of a band: the header word first, sixteen bytes. *)
Lemma band_words ty rate burst f vals b : in_width 2 ty = true -> in_width 4 rate = true ->
  in_width 4 burst = true -> fpack f (VInt ty :: VInt 16 :: VInt rate :: VInt burst :: vals) = Ok b ->
  (exists q, f = Format Big (Fi 2 :: Fi 2 :: Fi 4 :: Fi 4 :: q)) ->
  forall pre rest, unpack_from OFP_METER_BAND_HEADER_PACK_STR (pre ++ b ++ rest) (length pre)
                   = Ok [VInt ty; VInt 16; VInt rate; VInt burst].
Proof.
  intros Ht Hr Hs Hb (q & ->) pre rest. unfold fpack in Hb. cbn [f_codes f_order pack_codes] in Hb.
  rewrite Ht, Hr, Hs in Hb. change (in_width 2 16) with true in Hb. cbn [mbind res_bind encode] in Hb.
  apply bind_Ok in Hb as (q' & Hq & Hb). apply bind_Ok in Hq as (q1 & Hq1 & Hq).
  apply bind_Ok in Hq1 as (q2 & Hq2 & Hq1). apply bind_Ok in Hq2 as (q3 & Hq3 & Hq2).
  injection Hb as <-. injection Hq as <-. injection Hq1 as <-. injection Hq2 as <-.
  unfold OFP_METER_BAND_HEADER_PACK_STR. fmt_eval.
  assert (Hp : fpack (Format Big [Fi 2; Fi 2; Fi 4; Fi 4]) [VInt ty; VInt 16; VInt rate; VInt burst]
               = Ok (be_encode 2 ty ++ be_encode 2 16 ++ be_encode 4 rate ++ be_encode 4 burst)).
  { unfold fpack. cbn [f_codes f_order pack_codes]. rewrite Ht, Hr, Hs. change (in_width 2 16) with true.
    cbn [mbind res_bind encode]. by rewrite app_nil_r. }
  rewrite <- !app_assoc. rewrite (app_assoc (be_encode 4 rate)), (app_assoc (be_encode 2 16)),
    (app_assoc (be_encode 2 ty)).
  rewrite (unpack_from_pack _ _ _ pre _ _ Hp eq_refl). done.
Qed.

Ltac band_case f A B :=
  match goal with
  | |- exists p, entry _ _ _ ?b p 0 =>
      let r := eval cbv beta iota delta [MeterBand.serialize] in (MeterBand.serialize b [] 0%nat) in
      match r with
      | context [msg_pack_into ?fmt _ _ (VInt ?ty :: VInt OFP_METER_BAND_SIZE :: ?vals)] =>
          assert (exists p, fpack f (VInt ty :: VInt 16 :: vals) = Ok p) as [p Hp];
          [unfold fpack; cbn [f_codes f_order pack_codes]; change (in_width 2 ty) with true;
           change (in_width 2 16) with true;
           repeat match goal with H : in_width _ _ = true |- _ => rewrite H; clear H end;
           eexists; reflexivity|];
          assert (Hl : length p = 16%nat) by (by apply fpack_length in Hp);
          exists p; split; [lia|by rewrite Hl| |];
          [intros buf off Hb; cbv beta iota delta [MeterBand.serialize OFP_METER_BAND_SIZE];
           rewrite (pack_padded fmt f _ _ _ _ eq_refl Hp Hb); by rewrite Hl
          |exists 0%nat; intros fuel pre rest _; exists b; split; [|done];
           cbn [replicate]; rewrite app_nil_r, Hl; unfold band_parser, MeterBand.parser;
           rewrite (band_words ty _ _ f _ p eq_refl A B Hp
             ltac:(eexists; reflexivity));
           cbv delta [fmt]; fmt_eval; rewrite (unpack_from_pack _ _ _ pre _ _ Hp eq_refl); reflexivity]
      end
  end.

Lemma band_entry b : band_ok b ->
  exists p, entry MeterBand.serialize band_parser eq b p 0.
Proof.
  destruct b as [r s|r s pl|r s [e|]]; intros H; [| | |done].
  - destruct H as [H1 H2]. band_case (Format Big [Fi 2; Fi 2; Fi 4; Fi 4; Fx 4]) H1 H2.
  - destruct H as (H1 & H2 & H3). band_case (Format Big [Fi 2; Fi 2; Fi 4; Fi 4; Fi 1; Fx 3]) H1 H2.
  - destruct H as (H1 & H2 & H3). band_case (Format Big [Fi 2; Fi 2; Fi 4; Fi 4; Fi 4]) H1 H2.
Qed.

(** A meter modification on the wire: the fixed part and the bands, of every type, are
    read back from the places the protocol gives them. *)
Theorem meter_mod_roundtrip (m : MeterMod.t) (xid : option Z)
    (Hc : in_width 2 (MeterMod.command m) = true) (Hf : in_width 2 (MeterMod.flags m) = true)
    (Hi : in_width 4 (MeterMod.meter_id m) = true) (Hx : in_width 4 (default 0 xid) = true)
    (Hb : Forall band_ok (MeterMod.bands m)) (Hn : Z.of_nat (length (MeterMod.bands m)) < 4000) :
  exists out n,
    MeterMod.serialize m xid = Ok out
    /\ MsgBase.header out = Ok (OFP_VERSION, OFPT_METER_MOD, Z.of_nat (length out), default 0 xid)
    /\ length out = (OFP_METER_MOD_SIZE + 16 * length (MeterMod.bands m))%nat
    /\ unpack_from OFP_METER_MOD_PACK_STR out OFP_HEADER_SIZE
       = Ok [VInt (MeterMod.command m); VInt (MeterMod.flags m); VInt (MeterMod.meter_id m)]
    /\ forall fuel, (n <= fuel)%nat ->
         parse_loop (band_parser fuel) fuel out OFP_METER_MOD_SIZE
           (16 * Z.of_nat (length (MeterMod.bands m))) = Some (Ok (MeterMod.bands m)).
Proof.
  destruct (entries_full MeterBand.serialize band_parser eq (MeterMod.bands m)) as [p Hseq].
  { eapply list.Forall_impl; [exact Hb|]. intros b Hok. by apply band_entry. }
  assert (Hpl : length p = (16 * length (MeterMod.bands m))%nat).
  { pose proof (s_length _ _ _ _ _ _ Hseq) as Hl. rewrite Nat.add_0_r in Hl. rewrite Hl.
    clear -Hb. induction Hb as [|b l Hok _ IH]; [done|]. cbn [sum_list_with length].
    destruct (band_entry b Hok) as [q Hq]. rewrite (entry_len _ _ _ _ _ _ Hq), IH.
    pose proof (e_ser _ _ _ _ _ _ Hq [] 0%nat ltac:(done)) as Hs.
    unfold MeterBand.serialize in Hs. apply bind_Ok in Hs as (? & _ & Hs).
    injection Hs as _ Hs. rewrite <- Hs. change (Z.to_nat OFP_METER_BAND_SIZE) with 16%nat. lia. }
  assert (exists f, fpack (Format Big [Fi 2; Fi 2; Fi 4])
    [VInt (MeterMod.command m); VInt (MeterMod.flags m); VInt (MeterMod.meter_id m)] = Ok f) as [f Hfx].
  { unfold fpack. cbn [f_codes f_order pack_codes]. rewrite Hc, Hf, Hi. by eexists. }
  assert (Hfl : length f = 8%nat) by (by apply fpack_length in Hfx).
  assert (Hbody : MeterMod.serialize_body m MsgBase.serialize_pre
                  = Ok (MsgBase.serialize_pre ++ f ++ p)).
  { unfold MeterMod.serialize_body.
    rewrite (pack_padded OFP_METER_MOD_PACK_STR _ _ _ _ _ eq_refl Hfx) by done.
    rewrite padded_full by done. cbn [mbind res_bind].
    replace OFP_METER_MOD_SIZE with (length (MsgBase.serialize_pre ++ f))
      by (by rewrite length_app, Hfl).
    rewrite (sequence_full _ _ _ _ _ _ Hseq). cbn [mbind res_bind]. by rewrite <- app_assoc. }
  destruct (msg_frame OFPT_METER_MOD xid _ _ Hbody) as (h & Hhl & Hs & Hh);
    [done|done|rewrite !length_app; lia|].
  destruct (s_par _ _ _ _ _ _ Hseq) as [n Hpar]. exists (h ++ f ++ p), n.
  split; [exact Hs|]. split; [exact Hh|]. unfold OFP_METER_MOD_SIZE.
  split; [rewrite !length_app; lia|].
  split; [exact (fixed_part OFP_METER_MOD_PACK_STR _ _ _ h p eq_refl Hfx Hhl)|].
  intros fuel Hfu. destruct (Hpar fuel fuel (h ++ f) [] Hfu Hfu) as (l' & Hl' & HR).
  cbn [replicate] in Hl'. rewrite !app_nil_r, <- app_assoc, length_app, Hhl, Hfl, Nat.add_0_r, Hpl in Hl'.
  replace (16 * Z.of_nat (length (MeterMod.bands m))) with (Z.of_nat (16 * length (MeterMod.bands m)))
    by lia.
  change (8 + 8)%nat with 16%nat in Hl'. rewrite Hl'. do 2 f_equal.
  clear -HR. induction HR; congruence.
Qed.

Lemma meter_mod_roundtrip_witness :
  exists out, MeterMod.serialize (MeterMod.Mk 0 1 7 [MeterBand.OFPMeterBandDrop 100 10;
                 MeterBand.OFPMeterBandDscpRemark 50 5 1]) None = Ok out
    /\ length out = 48%nat.
Proof.
  destruct (meter_mod_roundtrip (MeterMod.Mk 0 1 7 [MeterBand.OFPMeterBandDrop 100 10;
    MeterBand.OFPMeterBandDscpRemark 50 5 1]) None eq_refl eq_refl eq_refl eq_refl)
    as (out & n & Hs & _ & Hl & _).
  - repeat constructor.
  - reflexivity.
  - exists out. split; [exact Hs|exact Hl].
Defined.
End MessageClaims.
