(* ===== verification/OfpStats.v ===== *)
(** * Statistics of OpenFlow 1.3

    The multipart requests of ryu/ofproto/ofproto_v1_3_parser.py, the entries of the
    multipart replies with their parsers, the properties of table features, the reply
    loop of [OFPMultipartReply.parser] and the dispatch of [msg_parser] over all the
    messages of this version. *)

From Stdlib Require Import ZArith Lia.
From stdpp Require Import base list gmap strings numbers.
From S2P Require Import Prelude Struct OfpMsg Oxm PktUtils PktHeaders OxmUser OfpMatch OfpActions OfpInstr OfpMessages.

(** ** Constants of ofproto_v1_3.py *)

Definition OFPMP_DESC : Z := 0.
Definition OFPMP_FLOW : Z := 1.
Definition OFPMP_AGGREGATE : Z := 2.
Definition OFPMP_TABLE : Z := 3.
Definition OFPMP_PORT_STATS : Z := 4.
Definition OFPMP_QUEUE : Z := 5.
Definition OFPMP_GROUP : Z := 6.
Definition OFPMP_GROUP_DESC : Z := 7.
Definition OFPMP_GROUP_FEATURES : Z := 8.
Definition OFPMP_METER : Z := 9.
Definition OFPMP_METER_CONFIG : Z := 10.
Definition OFPMP_METER_FEATURES : Z := 11.
Definition OFPMP_TABLE_FEATURES : Z := 12.
Definition OFPMP_PORT_DESC : Z := 13.
Definition OFP_MULTIPART_REQUEST_SIZE : nat := 16.
Definition OFP_MULTIPART_REPLY_PACK_STR : string := "!HH4x".
Definition OFP_MULTIPART_REPLY_SIZE : nat := 16.
Definition OFP_DESC_PACK_STR : string := "!256s256s256s32s256s".
Definition OFP_DESC_SIZE : Z := 1056.
Definition OFP_FLOW_STATS_REQUEST_0_PACK_STR : string := "!B3xII4xQQ".
Definition OFP_FLOW_STATS_REQUEST_0_SIZE : nat := 32.
Definition OFP_AGGREGATE_STATS_REPLY_PACK_STR : string := "!QQI4x".
Definition OFP_AGGREGATE_STATS_REPLY_SIZE : Z := 24.
Definition OFP_TABLE_STATS_PACK_STR : string := "!B3xIQQ".
Definition OFP_TABLE_STATS_SIZE : Z := 24.
Definition OFP_PORT_STATS_REQUEST_PACK_STR : string := "!I4x".
Definition OFP_PORT_STATS_PACK_STR : string := "!I4xQQQQQQQQQQQQII".
Definition OFP_PORT_STATS_SIZE : Z := 112.
Definition OFP_QUEUE_STATS_REQUEST_PACK_STR : string := "!II".
Definition OFP_QUEUE_STATS_PACK_STR : string := "!IIQQQII".
Definition OFP_QUEUE_STATS_SIZE : Z := 40.
Definition OFP_GROUP_STATS_REQUEST_PACK_STR : string := "!I4x".
Definition OFP_GROUP_STATS_PACK_STR : string := "!H2xII4xQQII".
Definition OFP_GROUP_STATS_SIZE : nat := 40.
Definition OFP_BUCKET_COUNTER_PACK_STR : string := "!QQ".
Definition OFP_BUCKET_COUNTER_SIZE : Z := 16.
Definition OFP_GROUP_FEATURES_PACK_STR : string := "!II4I4I".
Definition OFP_GROUP_FEATURES_SIZE : Z := 40.
Definition OFP_METER_MULTIPART_REQUEST_PACK_STR : string := "!I4x".
Definition OFP_METER_STATS_PACK_STR : string := "!IH6xIQQII".
Definition OFP_METER_STATS_SIZE : nat := 40.
Definition OFP_METER_BAND_STATS_PACK_STR : string := "!QQ".
Definition OFP_METER_BAND_STATS_SIZE : Z := 16.
Definition OFP_METER_CONFIG_PACK_STR : string := "!HHI".
Definition OFP_METER_CONFIG_SIZE : nat := 8.
Definition OFP_METER_FEATURES_PACK_STR : string := "!IIIBB2x".
Definition OFP_METER_FEATURES_SIZE : Z := 16.
Definition OFP_TABLE_FEATURES_PACK_STR : string := "!HB5x32sQQII".
Definition OFP_TABLE_FEATURES_SIZE : nat := 64.
Definition OFP_PROP_EXPERIMENTER_PACK_STR : string := "!HHII".
Definition OFP_PROP_EXPERIMENTER_SIZE : nat := 12.
Definition ONFMP_FLOW_MONITOR : Z := 1870.
Definition ONF_FLOW_MONITOR_REQUEST_PACK_STR : string := "!IHHIB3x".

(** ** Table features *)

Module TableFeatures.

(** [while rest]: parse an item, go on with what it leaves. *)
Fixpoint rest_loop {A} (p : bytes -> run (A * bytes)) (fuel : nat) (rest : bytes) : run (list A) :=
  match rest with
  | [] => mret []
  | _ =>
      match fuel with
      | O => None
      | S fuel => '(a, rest) ← p rest; l ← rest_loop p fuel rest; mret (a :: l)
      end
  end.

(** [OFPInstructionId.parse] and [OFPActionId.parse]: type and wire length. *)
Definition id_parse (buf : bytes) : run (Z * Z * bytes) :=
  vs ← lift (unpack_from "!HH" buf 0);
  match vs with
  | [VInt type_; VInt len_] => mret (type_, len_, drop (Z.to_nat len_) buf)
  | _ => lift (Err ValueError)
  end.

(** ... and [serialize], which announces four bytes. *)
Definition id_serialize (type_ : Z) : res bytes := msg_pack_into "!HH" [] 0 [VInt type_; VInt 4].

Inductive oxm_id :=
  | OFPOxmId (type_ : string) (hasmask length : Z)
  | OFPExperimenterOxmId (type_ : string) (exp_id hasmask length : Z).

Section Codec.
Context `{C : AddrConv} `{I : IntConv}.

(** [OFPOxmId.parse]: the number of an experimenter field is looked up without its
    experimenter. *)
Definition oxm_id_parse (buf : bytes) : run (oxm_id * bytes) :=
  vs ← lift (unpack_from "!I" buf 0);
  match vs with
  | [VInt oxm] =>
      '(type_, _) ← lift (_to_user (NumInt (Z.shiftr oxm 9)) None None);
      let rest := drop 4 buf in
      let hasmask := Z.land (Z.shiftr oxm 8) 1 in
      let len := Z.land oxm 0xff in
      if Z.shiftr oxm 16 =? OFPXMC_EXPERIMENTER then
        vs ← lift (unpack_from "!I" rest 0);
        match vs with
        | [VInt exp_id] => mret (OFPExperimenterOxmId type_ exp_id hasmask len, drop 4 rest)
        | _ => lift (Err ValueError)
        end
      else mret (OFPOxmId type_ hasmask len, rest)
  | _ => lift (Err ValueError)
  end.

(** [OFPOxmId.serialize] *)
Definition oxm_id_base (type_ : string) (hasmask : Z) : res bytes :=
  '(n, _, _) ← _from_user type_ (Plain None);
  n9 ← shl9 n;
  buf ← msg_pack_into "!I" [] 0 [VInt (Z.lor (Z.lor n9 (Z.shiftl hasmask 8)) 0)];
  match n with
  | NumInt n => py_assert (negb (Z.shiftr n 7 =? OFPXMC_EXPERIMENTER)) ;; Ok buf
  | NumExp _ _ => Err TypeError
  end.

(** The experimenter's [serialize] packs the identifier and returns nothing, which
    the caller cannot append. *)
Definition oxm_id_serialize (i : oxm_id) : res bytes :=
  match i with
  | OFPOxmId type_ hasmask _ => oxm_id_base type_ hasmask
  | OFPExperimenterOxmId type_ exp_id hasmask _ =>
      buf ← oxm_id_base type_ hasmask;
      _ ← msg_pack_into "!I" buf 4 [VInt exp_id];
      Err TypeError
  end.

Inductive prop :=
  | PropInstructions (type_ : Z) (instruction_ids : list Z)
  | PropNextTables (type_ : Z) (table_ids : list Z)
  | PropActions (type_ : Z) (action_ids : list Z)
  | PropOxm (type_ : Z) (oxm_ids : list oxm_id)
  | PropExperimenter (type_ experimenter exp_type : Z) (data : list Z)
  | PropUnknown (type_ : Z) (buf : bytes).

Definition get_rest (buf : bytes) (len : Z) : bytes := drop 4 (take (Z.to_nat len) buf).

Definition is_instructions (t : Z) : bool := (t =? 0) || (t =? 1).
Definition is_next_tables (t : Z) : bool := (t =? 2) || (t =? 3).
Definition is_actions (t : Z) : bool := (4 <=? t) && (t <=? 7).
Definition is_oxm (t : Z) : bool := bool_decide (t ∈ [8; 10; 12; 13; 14; 15]).
Definition is_experimenter (t : Z) : bool := (t =? 0xfffe) || (t =? 0xffff).

(** [OFPTableFeatureProp.parse] with the classes of its registry. *)
Definition prop_parse (fuel : nat) (buf : bytes) : run (prop * bytes) :=
  vs ← lift (unpack_from "!HH" buf 0);
  match vs with
  | [VInt type_; VInt len] =>
      let rest := drop (Z.to_nat (round_up len 8)) buf in
      p ← (if is_instructions type_ then
             ids ← rest_loop id_parse fuel (get_rest buf len);
             mret (PropInstructions type_ (fst <$> ids))
           else if is_next_tables type_ then
             mret (PropNextTables type_ (get_rest buf len))
           else if is_actions type_ then
             ids ← rest_loop id_parse fuel (get_rest buf len);
             mret (PropActions type_ (fst <$> ids))
           else if is_oxm type_ then
             ids ← rest_loop oxm_id_parse fuel (get_rest buf len);
             mret (PropOxm type_ ids)
           else if is_experimenter type_ then
             vs ← lift (unpack_from OFP_PROP_EXPERIMENTER_PACK_STR buf 0);
             match vs with
             | [VInt _; VInt len; VInt e; VInt et] =>
                 data ← rest_loop (fun rest =>
                            vs ← lift (unpack_from "!I" rest 0);
                            match vs with
                            | [VInt d] => mret (d, drop 4 rest)
                            | _ => lift (Err ValueError)
                            end) fuel
                          (drop OFP_PROP_EXPERIMENTER_SIZE (take (Z.to_nat len) buf));
                 mret (PropExperimenter type_ e et data)
             | _ => lift (Err ValueError)
             end
           else mret (PropUnknown type_ buf));
      mret (p, rest)
  | _ => lift (Err ValueError)
  end.

(** [for x in xs: data += f(x)] *)
Definition concat_res {A} (f : A -> res bytes) (l : list A) : res bytes :=
  foldM (fun data x => b ← f x; Ok (data ++ b)) [] l.

(** The header, the body and the padding of [OFPPropBase.serialize]. *)
Definition prop_wrap (type_ : Z) (body : bytes) : res bytes :=
  let len := Z.of_nat (length body + 4) in
  buf ← msg_pack_into "!HH" [] 0 [VInt type_; VInt len];
  Ok ((buf ++ body) ++ replicate (Z.to_nat (round_up len 8 - len)) 0).

Definition prop_serialize (p : prop) : res bytes :=
  match p with
  | PropInstructions type_ ids | PropActions type_ ids =>
      body ← concat_res id_serialize ids; prop_wrap type_ body
  | PropNextTables type_ ids =>
      body ← concat_res (fun i => msg_pack_into "!B" [] 0 [VInt i]) ids; prop_wrap type_ body
  | PropOxm type_ ids => body ← concat_res oxm_id_serialize ids; prop_wrap type_ body
  | PropExperimenter type_ e et data =>
      bin_data ← concat_res (fun d => msg_pack_into "!I" [] 0 [VInt d]) data;
      let len := Z.of_nat (OFP_PROP_EXPERIMENTER_SIZE + length bin_data) in
      buf ← msg_pack_into OFP_PROP_EXPERIMENTER_PACK_STR [] 0 [VInt type_; VInt len; VInt e; VInt et];
      Ok ((buf ++ bin_data) ++ replicate (Z.to_nat (round_up len 8 - len)) 0)
  | PropUnknown _ _ => Err AttributeError
  end.

Record t := Mk {
  table_id : Z; name : bytes; metadata_match : Z; metadata_write : Z; config : Z;
  max_entries : Z; properties : list prop }.

Definition parser (fuel : nat) (buf : bytes) (offset : nat) : run (t * Z) :=
  vs ← lift (unpack_from OFP_TABLE_FEATURES_PACK_STR buf offset);
  match vs with
  | [VInt len; VInt table_id; VBytes name; VInt mm; VInt mw; VInt config; VInt max_entries] =>
      props ← rest_loop (prop_parse fuel) fuel
                (drop (offset + OFP_TABLE_FEATURES_SIZE) (take (offset + Z.to_nat len) buf));
      mret (Mk table_id (rstrip0 name) mm mw config max_entries props, len)
  | _ => lift (Err ValueError)
  end.

Definition serialize (f : t) : res bytes :=
  bin_props ← concat_res prop_serialize (properties f);
  let len := Z.of_nat (OFP_TABLE_FEATURES_SIZE + length bin_props) in
  buf ← msg_pack_into OFP_TABLE_FEATURES_PACK_STR [] 0
          [VInt len; VInt (table_id f); VBytes (name f); VInt (metadata_match f);
           VInt (metadata_write f); VInt (config f); VInt (max_entries f)];
  Ok (buf ++ bin_props).

End Codec.
End TableFeatures.

(** ** Requests *)

(** [OFPMultipartRequest._serialize_body] with the body of the class. *)
Definition multipart_request (type_ flags : Z) (stats_body : bytes -> res bytes) (xid : option Z) :
    res bytes :=
  MsgBase.serialize OFP_VERSION OFPT_MULTIPART_REQUEST xid (fun buf =>
    buf ← msg_pack_into OFP_MULTIPART_REQUEST_PACK_STR buf OFP_HEADER_SIZE [VInt type_; VInt flags];
    stats_body buf).

Module StatsRequest.

Inductive t :=
  | OFPDescStatsRequest
  | OFPFlowStatsRequest (table_id out_port out_group cookie cookie_mask : Z) (match_ : OFPMatch)
  | OFPAggregateStatsRequest (table_id out_port out_group cookie cookie_mask : Z) (match_ : OFPMatch)
  | OFPTableStatsRequest
  | OFPPortStatsRequest (port_no : Z)
  | OFPQueueStatsRequest (port_no queue_id : Z)
  | OFPGroupStatsRequest (group_id : Z)
  | OFPGroupDescStatsRequest
  | OFPGroupFeaturesStatsRequest
  | OFPMeterStatsRequest (meter_id : Z)
  | OFPMeterConfigStatsRequest (meter_id : Z)
  | OFPMeterFeaturesStatsRequest
  | OFPTableFeaturesStatsRequest (body : list TableFeatures.t)
  | OFPPortDescStatsRequest.

Definition stats_type (r : t) : Z :=
  match r with
  | OFPDescStatsRequest => OFPMP_DESC
  | OFPFlowStatsRequest _ _ _ _ _ _ => OFPMP_FLOW
  | OFPAggregateStatsRequest _ _ _ _ _ _ => OFPMP_AGGREGATE
  | OFPTableStatsRequest => OFPMP_TABLE
  | OFPPortStatsRequest _ => OFPMP_PORT_STATS
  | OFPQueueStatsRequest _ _ => OFPMP_QUEUE
  | OFPGroupStatsRequest _ => OFPMP_GROUP
  | OFPGroupDescStatsRequest => OFPMP_GROUP_DESC
  | OFPGroupFeaturesStatsRequest => OFPMP_GROUP_FEATURES
  | OFPMeterStatsRequest _ => OFPMP_METER
  | OFPMeterConfigStatsRequest _ => OFPMP_METER_CONFIG
  | OFPMeterFeaturesStatsRequest => OFPMP_METER_FEATURES
  | OFPTableFeaturesStatsRequest _ => OFPMP_TABLE_FEATURES
  | OFPPortDescStatsRequest => OFPMP_PORT_DESC
  end.

Section Codec.
Context `{C : AddrConv} `{I : IntConv}.

(** [OFPFlowStatsRequestBase._serialize_stats_body] *)
Definition flow_request_body (table_id out_port out_group cookie cookie_mask : Z) (m : OFPMatch)
    (buf : bytes) : res bytes :=
  buf ← msg_pack_into OFP_FLOW_STATS_REQUEST_0_PACK_STR buf OFP_MULTIPART_REQUEST_SIZE
          [VInt table_id; VInt out_port; VInt out_group; VInt cookie; VInt cookie_mask];
  '(buf, _, _) ← OfpMatch.serialize m buf (OFP_MULTIPART_REQUEST_SIZE + OFP_FLOW_STATS_REQUEST_0_SIZE);
  Ok buf.

Definition stats_body (r : t) (buf : bytes) : res bytes :=
  match r with
  | OFPFlowStatsRequest table_id out_port out_group cookie cookie_mask m
  | OFPAggregateStatsRequest table_id out_port out_group cookie cookie_mask m =>
      flow_request_body table_id out_port out_group cookie cookie_mask m buf
  | OFPPortStatsRequest port_no =>
      msg_pack_into OFP_PORT_STATS_REQUEST_PACK_STR buf OFP_MULTIPART_REQUEST_SIZE [VInt port_no]
  | OFPQueueStatsRequest port_no queue_id =>
      msg_pack_into OFP_QUEUE_STATS_REQUEST_PACK_STR buf OFP_MULTIPART_REQUEST_SIZE
        [VInt port_no; VInt queue_id]
  | OFPGroupStatsRequest group_id =>
      msg_pack_into OFP_GROUP_STATS_REQUEST_PACK_STR buf OFP_MULTIPART_REQUEST_SIZE [VInt group_id]
  | OFPMeterStatsRequest meter_id | OFPMeterConfigStatsRequest meter_id =>
      msg_pack_into OFP_METER_MULTIPART_REQUEST_PACK_STR buf OFP_MULTIPART_REQUEST_SIZE [VInt meter_id]
  | OFPTableFeaturesStatsRequest body =>
      bin_body ← TableFeatures.concat_res TableFeatures.serialize body; Ok (buf ++ bin_body)
  | _ => Ok buf
  end.

Definition serialize (r : t) (flags : Z) (xid : option Z) : res bytes :=
  multipart_request (stats_type r) flags (stats_body r) xid.

End Codec.
End StatsRequest.

(** *** The flow monitor request of the ONF extension *)

Module FlowMonitor.

Record t := Mk { id_ : Z; flags : Z; match_ : OFPMatch; out_port : Z; table_id : Z }.

Section Codec.
Context `{C : AddrConv} `{I : IntConv}.

(** The header and the padding of the match are cut off. *)
Definition serialize (r : t) : res bytes :=
  '(bin_match, ofp_match_len, m) ← OfpMatch.serialize (match_ r) [] 0;
  py_assert (length bin_match =? ofp_match_len)%nat ;;
  match m_length m with
  | None => Err TypeError
  | Some match_len =>
      let bin_match := drop (OFP_MATCH_SIZE - 4) (take (Z.to_nat match_len) bin_match) in
      let match_len := Z.of_nat (length bin_match) in
      buf ← msg_pack_into ONF_FLOW_MONITOR_REQUEST_PACK_STR [] 0
              [VInt (id_ r); VInt (flags r); VInt match_len; VInt (out_port r); VInt (table_id r)];
      Ok ((buf ++ bin_match) ++ replicate (Z.to_nat (round_up match_len 8 - match_len)) 0)
  end.

(** [ONFFlowMonitorStatsRequest] *)
Definition request (flags : Z) (body : list t) (xid : option Z) : res bytes :=
  multipart_request OFPMP_EXPERIMENTER flags (fun buf =>
    data ← TableFeatures.concat_res serialize body;
    b ← ExperimenterStatsRequest.multipart_serialize ONF_EXPERIMENTER_ID ONFMP_FLOW_MONITOR data;
    Ok (buf ++ b)) xid.

End Codec.
End FlowMonitor.

(** ** Replies *)

Module StatsReply.

(** One constructor per entry class. *)
Inductive entry :=
  | OFPDescStats (mfr_desc hw_desc sw_desc serial_num dp_desc : bytes)
  | OFPFlowStats (s : FlowStats.t)
  | OFPAggregateStats (packet_count byte_count flow_count : Z)
  | OFPTableStats (table_id active_count lookup_count matched_count : Z)
  | OFPPortStats (port_no rx_packets tx_packets rx_bytes tx_bytes rx_dropped tx_dropped rx_errors
      tx_errors rx_frame_err rx_over_err rx_crc_err collisions duration_sec duration_nsec : Z)
  | OFPQueueStats (port_no queue_id tx_bytes tx_packets tx_errors duration_sec duration_nsec : Z)
  | OFPGroupStats (length_ group_id ref_count packet_count byte_count duration_sec duration_nsec : Z)
      (bucket_stats : list (Z * Z))
  | OFPGroupDescStats (s : GroupDescStats.t)
  | OFPGroupFeaturesStats (types capabilities : Z) (max_groups actions : list Z)
  | OFPMeterStats (meter_id len flow_count packet_in_count byte_in_count duration_sec
      duration_nsec : Z) (band_stats : list (Z * Z))
  | OFPMeterConfigStats (length_ flags meter_id : Z) (bands : list MeterBand.t)
  | OFPMeterFeaturesStats (max_meter band_types capabilities max_bands max_color : Z)
  | OFPTableFeaturesStats (f : TableFeatures.t)
  | OFPPort (p : Port.t)
  | OFPExperimenterMultipart (experimenter exp_type : Z) (data : bytes).

Section Codec.
Context `{C : AddrConv}.

(** [OFPBucketCounter.parser] and [OFPMeterBandStats.parser]: two counters, sixteen
    bytes. *)
Definition pair_parser (fmt : string) (size : Z) (buf : bytes) (offset : nat) : run (Z * Z * Z) :=
  vs ← lift (unpack_from fmt buf offset);
  match vs with
  | [VInt p; VInt b] => mret (p, b, size)
  | _ => lift (Err TypeError)
  end.

(** The parsers of the entry classes: the entry and the length the reply loop
    advances by, which is a constant of the class or the length on the wire. *)
Definition desc_parser (buf : bytes) (offset : nat) : run (entry * Z) :=
  vs ← lift (unpack_from OFP_DESC_PACK_STR buf offset);
  match vs with
  | [VBytes a; VBytes b; VBytes c; VBytes d; VBytes e] =>
      mret (OFPDescStats (rstrip0 a) (rstrip0 b) (rstrip0 c) (rstrip0 d) (rstrip0 e), OFP_DESC_SIZE)
  | _ => lift (Err TypeError)
  end.

Definition aggregate_parser (buf : bytes) (offset : nat) : run (entry * Z) :=
  vs ← lift (unpack_from OFP_AGGREGATE_STATS_REPLY_PACK_STR buf offset);
  match vs with
  | [VInt p; VInt b; VInt f] => mret (OFPAggregateStats p b f, OFP_AGGREGATE_STATS_REPLY_SIZE)
  | _ => lift (Err TypeError)
  end.

Definition table_parser (buf : bytes) (offset : nat) : run (entry * Z) :=
  vs ← lift (unpack_from OFP_TABLE_STATS_PACK_STR buf offset);
  match vs with
  | [VInt a; VInt b; VInt c; VInt d] => mret (OFPTableStats a b c d, OFP_TABLE_STATS_SIZE)
  | _ => lift (Err TypeError)
  end.

Definition port_stats_parser (buf : bytes) (offset : nat) : run (entry * Z) :=
  vs ← lift (unpack_from OFP_PORT_STATS_PACK_STR buf offset);
  match vs with
  | [VInt a; VInt b; VInt c; VInt d; VInt e; VInt f; VInt g; VInt h; VInt i; VInt j; VInt k; VInt l;
     VInt m; VInt n; VInt o] =>
      mret (OFPPortStats a b c d e f g h i j k l m n o, OFP_PORT_STATS_SIZE)
  | _ => lift (Err TypeError)
  end.

Definition queue_parser (buf : bytes) (offset : nat) : run (entry * Z) :=
  vs ← lift (unpack_from OFP_QUEUE_STATS_PACK_STR buf offset);
  match vs with
  | [VInt a; VInt b; VInt c; VInt d; VInt e; VInt f; VInt g] =>
      mret (OFPQueueStats a b c d e f g, OFP_QUEUE_STATS_SIZE)
  | _ => lift (Err TypeError)
  end.

Definition group_parser (fuel : nat) (buf : bytes) (offset : nat) : run (entry * Z) :=
  vs ← lift (unpack_from OFP_GROUP_STATS_PACK_STR buf offset);
  match vs with
  | [VInt len; VInt group_id; VInt ref_count; VInt packets; VInt byts; VInt sec; VInt nsec] =>
      buckets ← parse_loop (pair_parser OFP_BUCKET_COUNTER_PACK_STR OFP_BUCKET_COUNTER_SIZE) fuel buf
                  (offset + OFP_GROUP_STATS_SIZE) (len - Z.of_nat OFP_GROUP_STATS_SIZE);
      mret (OFPGroupStats len group_id ref_count packets byts sec nsec buckets, len)
  | _ => lift (Err TypeError)
  end.

Definition group_features_parser (buf : bytes) (offset : nat) : run (entry * Z) :=
  vs ← lift (unpack_from OFP_GROUP_FEATURES_PACK_STR buf offset);
  match vs with
  | [VInt types; VInt cap; VInt a; VInt b; VInt c; VInt d; VInt e; VInt f; VInt g; VInt h] =>
      mret (OFPGroupFeaturesStats types cap [a; b; c; d] [e; f; g; h], OFP_GROUP_FEATURES_SIZE)
  | _ => lift (Err IndexError)
  end.

Definition meter_parser (fuel : nat) (buf : bytes) (offset : nat) : run (entry * Z) :=
  vs ← lift (unpack_from OFP_METER_STATS_PACK_STR buf offset);
  match vs with
  | [VInt meter_id; VInt len; VInt flows; VInt packets; VInt byts; VInt sec; VInt nsec] =>
      bands ← parse_loop (pair_parser OFP_METER_BAND_STATS_PACK_STR OFP_METER_BAND_STATS_SIZE) fuel buf
                (offset + OFP_METER_STATS_SIZE) (len - Z.of_nat OFP_METER_STATS_SIZE);
      mret (OFPMeterStats meter_id len flows packets byts sec nsec bands, len)
  | _ => lift (Err ValueError)
  end.

Definition meter_config_parser (fuel : nat) (buf : bytes) (offset : nat) : run (entry * Z) :=
  vs ← lift (unpack_from OFP_METER_CONFIG_PACK_STR buf offset);
  match vs with
  | [VInt len; VInt flags; VInt meter_id] =>
      bands ← parse_loop (fun buf off => lift (MeterBand.parser buf off)) fuel buf
                (offset + OFP_METER_CONFIG_SIZE) (len - Z.of_nat OFP_METER_CONFIG_SIZE);
      mret (OFPMeterConfigStats len flags meter_id bands, len)
  | _ => lift (Err ValueError)
  end.

Definition meter_features_parser (buf : bytes) (offset : nat) : run (entry * Z) :=
  vs ← lift (unpack_from OFP_METER_FEATURES_PACK_STR buf offset);
  match vs with
  | [VInt a; VInt b; VInt c; VInt d; VInt e] =>
      mret (OFPMeterFeaturesStats a b c d e, OFP_METER_FEATURES_SIZE)
  | _ => lift (Err TypeError)
  end.

(** [OFPExperimenterMultipart.parser]: the data runs to the end of the message, the
    recorded length is that of a meter features entry. *)
Definition experimenter_parser (buf : bytes) (offset : nat) : run (entry * Z) :=
  '(e, et, data) ← lift (ExperimenterStatsRequest.multipart_parser buf offset);
  mret (OFPExperimenterMultipart e et data, OFP_METER_FEATURES_SIZE).

Definition wrap {A} (k : A -> entry) (p : run (A * Z)) : run (entry * Z) :=
  '(a, len) ← p; mret (k a, len).

(** The registry of reply classes: the entry parser and whether the body is a single
    entry. *)
Definition stats_class (type_ : Z) : option ((nat -> bytes -> nat -> run (entry * Z)) * bool) :=
  if type_ =? OFPMP_DESC then Some (fun _ => desc_parser, true)
  else if type_ =? OFPMP_FLOW then
    Some (fun fuel buf off => wrap OFPFlowStats (FlowStats.parser fuel buf off), false)
  else if type_ =? OFPMP_AGGREGATE then Some (fun _ => aggregate_parser, true)
  else if type_ =? OFPMP_TABLE then Some (fun _ => table_parser, false)
  else if type_ =? OFPMP_PORT_STATS then Some (fun _ => port_stats_parser, false)
  else if type_ =? OFPMP_QUEUE then Some (fun _ => queue_parser, false)
  else if type_ =? OFPMP_GROUP then Some (group_parser, false)
  else if type_ =? OFPMP_GROUP_DESC then
    Some (fun fuel buf off => wrap OFPGroupDescStats (GroupDescStats.parser fuel buf off), false)
  else if type_ =? OFPMP_GROUP_FEATURES then Some (fun _ => group_features_parser, true)
  else if type_ =? OFPMP_METER then Some (meter_parser, false)
  else if type_ =? OFPMP_METER_CONFIG then Some (meter_config_parser, false)
  else if type_ =? OFPMP_METER_FEATURES then Some (fun _ => meter_features_parser, false)
  else if type_ =? OFPMP_TABLE_FEATURES then
    Some (fun fuel buf off => wrap OFPTableFeaturesStats (TableFeatures.parser fuel buf off), false)
  else if type_ =? OFPMP_PORT_DESC then
    Some (fun _ buf off => wrap OFPPort (lift (Port.parser buf off)), false)
  else if type_ =? OFPMP_EXPERIMENTER then Some (fun _ => experimenter_parser, true)
  else None.

Inductive body := Single (e : entry) | Many (l : list entry).

Record t := Mk { type_ : Z; flags : Z; body_ : body }.

(** [OFPMultipartReply.parser] *)
Definition parser (fuel : nat) (msg_len : Z) (buf : bytes) : run t :=
  vs ← lift (unpack_from OFP_MULTIPART_REPLY_PACK_STR buf OFP_HEADER_SIZE);
  match vs with
  | [VInt type_; VInt flags] =>
      match stats_class type_ with
      | None => lift (Err AttributeError)
      | Some (p, single) =>
          l ← parse_loop (p fuel) fuel buf OFP_MULTIPART_REPLY_SIZE
                (msg_len - Z.of_nat OFP_MULTIPART_REPLY_SIZE);
          if single then
            match l with
            | [] => lift (Err IndexError)
            | e :: _ => mret (Mk type_ flags (Single e))
            end
          else mret (Mk type_ flags (Many l))
      end
  | _ => lift (Err ValueError)
  end.

End Codec.
End StatsReply.

(** ** Dispatch over message types *)

Module Message.

(** The messages that have a registered parser. *)
Inductive t :=
  | OFPHello (m : Hello.t)
  | OFPError (m : ErrorMsg.t)
  | OFPEchoRequest (data : bytes)
  | OFPEchoReply (data : bytes)
  | OFPExperimenter (m : Experimenter.t)
  | OFPSwitchFeatures (m : SwitchFeatures.t)
  | OFPGetConfigReply (m : SwitchConfig.t)
  | OFPPacketIn (m : PacketIn.t)
  | OFPFlowRemoved (m : FlowRemoved.t)
  | OFPPortStatus (m : PortStatus.t)
  | OFPMultipartReply (m : StatsReply.t)
  | OFPBarrierReply
  | OFPQueueGetConfigReply (m : QueueConfig.t)
  | OFPRoleReply (m : Role.t)
  | OFPGetAsyncReply (m : AsyncConfig.t).

Definition tag {A} (k : A -> t) (r : run A) : run t := a ← r; mret (k a).

(** [msg_parser]; a type without parser is [None], which cannot be called. *)
Definition msg_parser `{C : AddrConv} (fuel : nat) (msg_type msg_len : Z) (buf : bytes) : run t :=
  if msg_type =? OFPT_HELLO then tag OFPHello (Hello.parser fuel msg_len buf)
  else if msg_type =? OFPT_ERROR then tag OFPError (lift (ErrorMsg.parser buf))
  else if msg_type =? OFPT_ECHO_REQUEST then mret (OFPEchoRequest (Echo.parser buf))
  else if msg_type =? OFPT_ECHO_REPLY then mret (OFPEchoReply (Echo.parser buf))
  else if msg_type =? OFPT_EXPERIMENTER then tag OFPExperimenter (lift (Experimenter.parser msg_type buf))
  else if msg_type =? OFPT_FEATURES_REPLY then tag OFPSwitchFeatures (lift (SwitchFeatures.parser buf))
  else if msg_type =? OFPT_GET_CONFIG_REPLY then tag OFPGetConfigReply (lift (SwitchConfig.parser buf))
  else if msg_type =? OFPT_PACKET_IN then tag OFPPacketIn (lift (PacketIn.parser buf))
  else if msg_type =? OFPT_FLOW_REMOVED then tag OFPFlowRemoved (lift (FlowRemoved.parser buf))
  else if msg_type =? OFPT_PORT_STATUS then tag OFPPortStatus (lift (PortStatus.parser buf))
  else if msg_type =? OFPT_MULTIPART_REPLY then tag OFPMultipartReply (StatsReply.parser fuel msg_len buf)
  else if msg_type =? OFPT_BARRIER_REPLY then mret OFPBarrierReply
  else if msg_type =? OFPT_QUEUE_GET_CONFIG_REPLY then
    tag OFPQueueGetConfigReply (QueueConfig.parser fuel msg_len buf)
  else if msg_type =? OFPT_ROLE_REPLY then tag OFPRoleReply (lift (Role.parser buf))
  else if msg_type =? OFPT_GET_ASYNC_REPLY then tag OFPGetAsyncReply (lift (AsyncConfig.parser buf))
  else lift (Err TypeError).

End Message.

(** ** Facts *)

Module StatsFacts.
Import OxmFacts OxmUserFacts MatchFacts ActionFacts InstrFacts TableFeatures.

(** *** Sequences without offsets *)

Lemma concat_res_app {A} (f : A -> res bytes) l acc :
  foldM (fun data x => b ← f x; Ok (data ++ b)) acc l
  = (b ← concat_res f l; Ok (acc ++ b)).
Proof.
  unfold concat_res. revert acc. induction l as [|x l IH]; intros acc.
  - cbn. by rewrite app_nil_r.
  - cbn [foldM]. destruct (f x) as [b|e]; [|done]. cbn [mbind res_bind].
    rewrite IH, (IH ([] ++ b)). destruct (foldM _ [] l) as [c|e]; [|done]. cbn [mbind res_bind].
    by rewrite app_assoc.
Qed.

Lemma concat_res_cons {A} (f : A -> res bytes) x l :
  concat_res f (x :: l) = (b ← f x; c ← concat_res f l; Ok (b ++ c)).
Proof.
  unfold concat_res at 1. cbn [foldM]. destruct (f x) as [b|e]; [|done]. cbn [mbind res_bind].
  by rewrite concat_res_app.
Qed.

(** Items that are written by [ser] and read back by [par] with everything behind. *)
Lemma rest_sequence {A B} (ser : A -> res bytes) (par : bytes -> run (B * bytes)) (g : A -> B) l :
  Forall (fun a => exists w, (0 < length w)%nat /\ ser a = Ok w
                   /\ forall rest, par (w ++ rest) = Some (Ok (g a, rest))) l ->
  exists w, concat_res ser l = Ok w
    /\ forall fuel, (length l <= fuel)%nat -> rest_loop par fuel w = Some (Ok (g <$> l)).
Proof.
  induction 1 as [|a l (w & Hw & Hs & Hp) _ (ws & Hss & Hpp)].
  - exists []. split; [done|]. by intros [|fuel].
  - exists (w ++ ws). split; [by rewrite concat_res_cons, Hs; cbn [mbind res_bind]; rewrite Hss|].
    intros [|fuel] Hf; cbn [length] in Hf; [lia|]. cbn [rest_loop].
    destruct (w ++ ws) eqn:E; [apply app_eq_nil in E as [-> _]; cbn in Hw; lia|].
    rewrite <- E, Hp. cbn [mbind run_bind]. rewrite Hpp by lia. done.
Qed.

Lemma concat_res_length {A} (ser : A -> res bytes) k l w :
  Forall (fun a => exists w, length w = k /\ ser a = Ok w) l -> concat_res ser l = Ok w ->
  length w = (k * length l)%nat.
Proof.
  intros H. revert w. induction H as [|a l (v & Hv & Hs) _ IH]; intros w Hw.
  - injection Hw as <-. cbn. lia.
  - rewrite concat_res_cons, Hs in Hw. cbn [mbind res_bind] in Hw.
    apply bind_Ok in Hw as (c & Hc & [= <-]). rewrite length_app, (IH _ Hc). cbn [length]. lia.
Qed.

(** Items of [k] bytes each. *)
Lemma item_sequence {A B} (ser : A -> res bytes) (par : bytes -> run (B * bytes)) (g : A -> B) k l :
  (0 < k)%nat ->
  Forall (fun a => exists w, length w = k /\ ser a = Ok w
                   /\ forall rest, par (w ++ rest) = Some (Ok (g a, rest))) l ->
  exists w, concat_res ser l = Ok w /\ length w = (k * length l)%nat
    /\ forall fuel, (length l <= fuel)%nat -> rest_loop par fuel w = Some (Ok (g <$> l)).
Proof.
  intros Hk H. destruct (rest_sequence ser par g l) as (w & Hs & Hp).
  { eapply list.Forall_impl; [exact H|]. intros a (w & Hw & Ha). exists w. split; [lia|done]. }
  exists w. split; [done|]. split; [|done]. eapply concat_res_length; [|exact Hs].
  eapply list.Forall_impl; [exact H|]. intros a (v & Hv & Ha & _). by exists v.
Qed.

Lemma pack_empty fmt f vals b : parse_fmt fmt = Some f -> fpack f vals = Ok b ->
  msg_pack_into fmt [] 0 vals = Ok b.
Proof.
  intros Hf Hb. rewrite (pack_padded fmt f vals b [] 0 Hf Hb) by done. done.
Qed.

(** *** Identifiers *)

Lemma id_item ty : in_width 2 ty = true ->
  exists w, length w = 4%nat /\ id_serialize ty = Ok w
    /\ forall rest, id_parse (w ++ rest) = Some (Ok (ty, 4, rest)).
Proof.
  intros Ht. pose proof (two_words ty 4 Ht eq_refl) as Hp. eexists. split; [|split].
  - assert (length (be_encode 2 ty ++ be_encode 2 4) = 4%nat) as H by done. exact H.
  - unfold id_serialize. exact (pack_empty "!HH" _ _ _ eq_refl Hp).
  - intros rest. unfold id_parse. rewrite <- app_assoc.
    pose proof (type_read ty 4 rest [] Ht eq_refl) as Hr. cbn [app length] in Hr.
    rewrite Hr, run_bind_lift.
    rewrite app_assoc. change (Z.to_nat 4) with (length (be_encode 2 ty ++ be_encode 2 4)).
    by rewrite drop_app_length.
Qed.

(** The fields a feature property can name: those without an experimenter header. *)
Definition oxm_id_ok (i : oxm_id) : Prop :=
  match i with
  | OFPOxmId k hasmask len =>
      (hasmask = 0 \/ hasmask = 1) /\ len = 0
      /\ exists d, d ∈ oxm_types /\ d_name d = k /\ experimenter_id (d_class d) = None
  | OFPExperimenterOxmId _ _ _ _ => False
  end.

Lemma oxm_word n hm : 0 <= n < 8388608 -> hm = 0 \/ hm = 1 ->
  let w := Z.lor (Z.lor (Z.shiftl n 9) (Z.shiftl hm 8)) 0 in
  0 <= w < 4294967296 /\ Z.shiftr w 9 = n /\ Z.land (Z.shiftr w 8) 1 = hm /\ Z.land w 0xff = 0
  /\ Z.shiftr w 16 = Z.shiftr n 7.
Proof.
  intros Hn Hm w. assert (E : w = n * 512 + hm * 256).
  { unfold w. rewrite Z.lor_0_r, lor_shiftl_add; rewrite ?Z.shiftl_mul_pow2; lia. }
  rewrite E. split; [lia|]. split; [|split; [|split]].
  - rewrite Z.shiftr_div_pow2 by lia. symmetry. apply (Z.div_unique _ _ _ (hm * 256)); [left; lia|lia].
  - rewrite Z.shiftr_div_pow2 by lia.
    replace ((n * 512 + hm * 256) / 2 ^ 8) with (n * 2 + hm)
      by (apply (Z.div_unique _ _ _ 0); [left; lia|lia]).
    change 1 with (Z.ones 1) at 1. rewrite Z.land_ones by lia.
    rewrite Z.add_comm, Z_mod_plus_full. apply Z.mod_small. lia.
  - change 0xff with (Z.ones 8). rewrite Z.land_ones by lia.
    replace (n * 512 + hm * 256) with (0 + (n * 2 + hm) * 2 ^ 8) by lia.
    by rewrite Z_mod_plus_full.
  - rewrite !Z.shiftr_div_pow2 by lia.
    change (2 ^ 16) with (512 * 2 ^ 7). rewrite <- Z.div_div by lia. f_equal.
    symmetry. apply (Z.div_unique _ _ _ (hm * 256)); [left; lia|lia].
Qed.

Section Props.
Context `{C : AddrConv} `{I : IntConv}.

Lemma oxm_id_item i : oxm_id_ok i ->
  exists w, length w = 4%nat /\ oxm_id_serialize i = Ok w
    /\ forall rest, oxm_id_parse (w ++ rest) = Some (Ok (i, rest)).
Proof.
  destruct i as [k hm len|]; [|done]. intros (Hm & -> & d & Hd & <- & Hx).
  destruct (exp_hdr_wire_inv _ _ (exp_hdr_wire_known d Hd)) as (t & e & _ & Hw).
  pose proof (wire_form_bound _ _ _ Hw) as Ht. destruct (tables_agree d Hd) as [Hn Hf].
  assert (num d = NumInt t /\ (Z.shiftr t 7 =? OFPXMC_EXPERIMENTER) = false) as [Hnum Hcls].
  { unfold wire_form in Hw. unfold num in *. rewrite Hx in *. rewrite !andb_true_iff in Hw.
    destruct Hw as [_ [[Hk Hc] _]]. apply Z.eqb_eq in Hk as ->. by apply negb_true_iff in Hc. }
  destruct (oxm_word t hm Ht Hm) as (Hb & H9 & H8 & Hl & H16).
  set (w := Z.lor (Z.lor (Z.shiftl t 9) (Z.shiftl hm 8)) 0) in *.
  assert (Hww : in_width 4 w = true) by (by apply in_width_4).
  exists (be_encode 4 w). split; [by rewrite be_encode_length|]. split.
  - cbn [oxm_id_serialize]. unfold oxm_id_base, _from_user, _get_field_info_by_name. rewrite Hn, Hnum.
    cbn [mbind res_bind opt_from_user shl9]. fold w.
    rewrite (pack_empty "!I" (Format Big [Fi 4]) _ (be_encode 4 w)); [|done|].
    + cbn [mbind res_bind]. by rewrite Hcls.
    + unfold fpack. cbn [f_codes f_order pack_codes]. rewrite Hww. cbn [mbind res_bind encode].
      by rewrite app_nil_r.
  - intros rest. unfold oxm_id_parse. fmt_eval. rewrite unpack_int0 by done. rewrite run_bind_lift.
    rewrite H9, H8, Hl, H16, Hcls. unfold _to_user, _get_field_info_by_number.
    rewrite <- Hnum, Hf. cbn [mbind res_bind]. rewrite run_bind_lift.
    by rewrite drop_app_length' by (by rewrite be_encode_length).
Qed.

Lemma word_item w v : (0 < w)%nat -> in_width w v = true ->
  exists b, length b = w /\ fpack (Format Big [Fi w]) [VInt v] = Ok b
    /\ forall rest, funpack_from (Format Big [Fi w]) (b ++ rest) 0 = Ok [VInt v]
                    /\ drop w (b ++ rest) = rest.
Proof.
  intros Hw Hv. exists (be_encode w v). split; [by rewrite be_encode_length|]. split.
  - unfold fpack. cbn [f_codes f_order pack_codes]. rewrite Hv. cbn [mbind res_bind encode].
    by rewrite app_nil_r.
  - intros rest. split; [by apply unpack_int0|].
    by rewrite drop_app_length' by (by rewrite be_encode_length).
Qed.

(** *** Properties *)

Definition prop_ok (p : prop) : Prop :=
  match p with
  | PropInstructions t ids =>
      is_instructions t = true /\ Forall (fun i => in_width 2 i = true) ids
      /\ Z.of_nat (length ids) < 10000
  | PropNextTables t ids =>
      is_next_tables t = true /\ Forall (fun i => in_width 1 i = true) ids
      /\ Z.of_nat (length ids) < 10000
  | PropActions t ids =>
      is_actions t = true /\ Forall (fun i => in_width 2 i = true) ids
      /\ Z.of_nat (length ids) < 10000
  | PropOxm t ids => is_oxm t = true /\ Forall oxm_id_ok ids /\ Z.of_nat (length ids) < 10000
  | PropExperimenter t e et data =>
      is_experimenter t = true /\ in_width 4 e = true /\ in_width 4 et = true
      /\ Forall (fun d => in_width 4 d = true) data /\ Z.of_nat (length data) < 10000
  | PropUnknown _ _ => False
  end.

(** The wrapped body: header, body, padding. *)
Lemma prop_wrap_spec ty body : in_width 2 ty = true -> Z.of_nat (length body) < 65000 ->
  exists w pad, prop_wrap ty body = Ok w /\ (length w mod 8 = 0)%nat /\ (4 <= length w)%nat
    /\ w = be_encode 2 ty ++ be_encode 2 (Z.of_nat (length body + 4)) ++ body ++ replicate pad 0
    /\ Z.of_nat (length w) = round_up (Z.of_nat (length body + 4)) 8.
Proof.
  intros Ht Hl. set (len := Z.of_nat (length body + 4)).
  assert (Hw : in_width 2 len = true) by (apply in_width_2; lia).
  pose proof (round_up_spec len 8 ltac:(lia)) as [Hr1 Hr2].
  set (pad := Z.to_nat (round_up len 8 - len)).
  exists (be_encode 2 ty ++ be_encode 2 len ++ body ++ replicate pad 0), pad.
  assert (Hlen : Z.of_nat (length (be_encode 2 ty ++ be_encode 2 len ++ body ++ replicate pad 0))
                 = round_up len 8) by (autorewrite with beba; unfold pad; lia).
  split; [|split; [|split; [|done]]].
  - unfold prop_wrap. fold len.
    rewrite (pack_empty "!HH" _ _ _ eq_refl (two_words ty len Ht Hw)). cbn [mbind res_bind].
    fold pad. by rewrite <- !app_assoc.
  - apply Nat2Z.inj. rewrite Nat2Z.inj_mod, Hlen. done.
  - rewrite !length_app, !be_encode_length. lia.
Qed.

(** What the header of a wrapped body gives the parser. *)
Lemma prop_header ty len body pad rest : in_width 2 ty = true -> in_width 2 len = true ->
  len = Z.of_nat (length body + 4) -> Z.of_nat (4 + length body + pad) = round_up len 8 ->
  let w := be_encode 2 ty ++ be_encode 2 len ++ body ++ replicate pad 0 in
  unpack_from "!HH" (w ++ rest) 0 = Ok [VInt ty; VInt len]
  /\ get_rest (w ++ rest) len = body
  /\ drop (Z.to_nat (round_up len 8)) (w ++ rest) = rest.
Proof.
  intros Ht Hw Hl Hr w. split; [|split].
  - unfold w. rewrite <- !app_assoc. exact (type_read ty len (body ++ replicate pad 0 ++ rest) [] Ht Hw).
  - unfold get_rest, w. replace (Z.to_nat len) with (length (be_encode 2 ty ++ be_encode 2 len ++ body))
      by (autorewrite with beba; lia).
    rewrite <- !app_assoc.
    rewrite (app_assoc (be_encode 2 len) body), (app_assoc (be_encode 2 ty) (be_encode 2 len ++ body)).
    rewrite take_app_length, app_assoc.
    by rewrite drop_app_length' by (by rewrite length_app, !be_encode_length).
  - apply drop_app_length'. unfold w. rewrite <- Hr, Nat2Z.id. autorewrite with beba. lia.
Qed.

(** A property as it is written and read, with any bytes behind. *)
Definition prop_wire (p : prop) (w : bytes) : Prop :=
  (0 < length w)%nat /\ (length w mod 8 = 0)%nat /\ prop_serialize p = Ok w
  /\ exists n, forall fuel rest, (n <= fuel)%nat -> prop_parse fuel (w ++ rest) = Some (Ok (p, rest)).

Lemma wrapped_prop p ty body n : in_width 2 ty = true -> Z.of_nat (length body) < 65000 ->
  prop_serialize p = prop_wrap ty body ->
  (forall fuel buf rest len, (n <= fuel)%nat ->
     unpack_from "!HH" buf 0 = Ok [VInt ty; VInt len] -> get_rest buf len = body ->
     drop (Z.to_nat (round_up len 8)) buf = rest -> prop_parse fuel buf = Some (Ok (p, rest))) ->
  exists w, prop_wire p w.
Proof.
  intros Ht Hl Hs Hp. destruct (prop_wrap_spec ty body Ht Hl) as (w & pad & Hw & H8 & H4 & E & Hr).
  exists w. split; [lia|]. split; [done|]. split; [by rewrite Hs|].
  exists n. intros fuel rest Hf. set (len := Z.of_nat (length body + 4)) in *.
  destruct (prop_header ty len body pad rest Ht) as (H1 & H2 & H3).
  - apply in_width_2. lia.
  - done.
  - rewrite <- Hr, E. autorewrite with beba. lia.
  - rewrite <- E in H1, H2, H3. by eapply Hp.
Qed.

Lemma id_prop p ty ids : in_width 2 ty = true -> Forall (fun i => in_width 2 i = true) ids ->
  Z.of_nat (length ids) < 10000 ->
  (p = PropInstructions ty ids /\ is_instructions ty = true
   \/ p = PropActions ty ids /\ is_actions ty = true) ->
  exists w, prop_wire p w.
Proof.
  intros Ht Hids Hn Hp.
  destruct (item_sequence id_serialize id_parse (fun t => (t, 4)) 4 ids) as (body & Hs & Hl & Hpar); [lia| |].
  { eapply list.Forall_impl; [exact Hids|]. intros i Hi. by apply id_item. }
  apply (wrapped_prop p ty body (length ids) Ht); [lia| |].
  - destruct Hp as [[-> _]|[-> _]]; cbn [prop_serialize]; by rewrite Hs.
  - intros fuel buf rest len Hf Hu Hg Hd. unfold prop_parse. rewrite Hu, run_bind_lift, Hg, Hpar, Hd by done.
    assert (Hfst : fst <$> ((fun t => (t, 4)) <$> ids) = ids)
      by (rewrite <- list_fmap_compose; apply list_fmap_id).
    destruct Hp as [[-> Hty]|[-> Hty]].
    + rewrite Hty. cbn [mbind run_bind mret run_ret]. by rewrite Hfst.
    + unfold is_instructions, is_next_tables, is_actions in *.
      rewrite Hty. replace ((ty =? 0) || (ty =? 1)) with false by lia.
      replace ((ty =? 2) || (ty =? 3)) with false by lia.
      cbn [mbind run_bind mret run_ret]. by rewrite Hfst.
Qed.

Lemma tables_prop ty ids : in_width 2 ty = true -> Forall (fun i => in_width 1 i = true) ids ->
  Z.of_nat (length ids) < 10000 -> is_next_tables ty = true ->
  exists w, prop_wire (PropNextTables ty ids) w.
Proof.
  intros Ht Hids Hn Hty.
  assert (Hb : concat_res (fun i => msg_pack_into "!B" [] 0 [VInt i]) ids = Ok ids).
  { induction Hids as [|i l Hi _ IH]; [done|]. rewrite concat_res_cons.
    rewrite (pack_empty "!B" (Format Big [Fi 1]) [VInt i] [i] eq_refl).
    - cbn [mbind res_bind]. rewrite IH by (cbn [length] in Hn; lia). done.
    - unfold fpack. cbn [f_codes f_order pack_codes]. rewrite Hi. cbn [mbind res_bind encode].
      by rewrite be_encode_1. }
  apply (wrapped_prop _ ty ids 0 Ht); [lia|cbn [prop_serialize]; by rewrite Hb|].
  intros fuel buf rest len _ Hu Hg Hd. unfold prop_parse. rewrite Hu, run_bind_lift, Hg, Hd, Hty.
  unfold is_instructions, is_next_tables in *. replace ((ty =? 0) || (ty =? 1)) with false by lia. done.
Qed.

Lemma oxm_prop ty ids : in_width 2 ty = true -> Forall oxm_id_ok ids ->
  Z.of_nat (length ids) < 10000 -> is_oxm ty = true -> exists w, prop_wire (PropOxm ty ids) w.
Proof.
  intros Ht Hids Hn Hty.
  destruct (item_sequence oxm_id_serialize oxm_id_parse id 4 ids) as (body & Hs & Hl & Hpar); [lia| |].
  { eapply list.Forall_impl; [exact Hids|]. intros i Hi. by apply oxm_id_item. }
  apply (wrapped_prop _ ty body (length ids) Ht); [lia|cbn [prop_serialize]; by rewrite Hs|].
  intros fuel buf rest len Hf Hu Hg Hd. unfold prop_parse. rewrite Hu, run_bind_lift, Hg, Hpar, Hd, Hty by done.
  assert (is_instructions ty = false /\ is_next_tables ty = false /\ is_actions ty = false) as (-> & -> & ->).
  { unfold is_oxm in Hty. apply bool_decide_eq_true in Hty. rewrite !elem_of_cons, elem_of_nil in Hty.
    unfold is_instructions, is_next_tables, is_actions. lia. }
  cbn [mbind run_bind mret run_ret]. by rewrite list_fmap_id.
Qed.

(** The loop that reads the words of an experimenter property. *)
Definition word_parser (rest : bytes) : run (Z * bytes) :=
  vs ← lift (unpack_from "!I" rest 0);
  match vs with
  | [VInt d] => mret (d, drop 4 rest)
  | _ => lift (Err ValueError)
  end.

Lemma word_item_parses d : in_width 4 d = true ->
  exists w, length w = 4%nat /\ msg_pack_into "!I" [] 0 [VInt d] = Ok w
    /\ forall rest, word_parser (w ++ rest) = Some (Ok (d, rest)).
Proof.
  intros Hd. destruct (word_item 4 d ltac:(lia) Hd) as (b & Hb & Hp & Hr). exists b. split; [done|].
  split; [exact (pack_empty "!I" _ _ _ eq_refl Hp)|]. intros rest. destruct (Hr rest) as [H1 H2].
  unfold word_parser. fmt_eval. by rewrite H1, run_bind_lift, H2.
Qed.

Lemma experimenter_only ty : is_experimenter ty = true ->
  is_instructions ty = false /\ is_next_tables ty = false /\ is_actions ty = false /\ is_oxm ty = false.
Proof.
  unfold is_experimenter, is_instructions, is_next_tables, is_actions, is_oxm. intros Hty.
  repeat split; try lia. apply bool_decide_eq_false. rewrite !elem_of_cons, elem_of_nil. lia.
Qed.

Lemma experimenter_prop ty e et data : in_width 2 ty = true -> in_width 4 e = true ->
  in_width 4 et = true -> Forall (fun d => in_width 4 d = true) data ->
  Z.of_nat (length data) < 10000 -> is_experimenter ty = true ->
  exists w, prop_wire (PropExperimenter ty e et data) w.
Proof.
  intros Ht He Het Hdata Hn Hty.
  destruct (item_sequence (fun d => msg_pack_into "!I" [] 0 [VInt d]) word_parser id 4 data)
    as (body & Hs & Hl & Hpar); [lia|exact (list.Forall_impl _ _ _ Hdata word_item_parses)|].
  set (len := Z.of_nat (OFP_PROP_EXPERIMENTER_SIZE + length body)).
  assert (Hlen : len = 12 + Z.of_nat (length body)) by (unfold len, OFP_PROP_EXPERIMENTER_SIZE; lia).
  assert (Hlw : in_width 2 len = true) by (apply in_width_2; lia).
  set (h := be_encode 2 ty ++ be_encode 2 len ++ be_encode 4 e ++ be_encode 4 et).
  assert (Hh : fpack (Format Big [Fi 2; Fi 2; Fi 4; Fi 4]) [VInt ty; VInt len; VInt e; VInt et] = Ok h).
  { unfold fpack. cbn [f_codes f_order pack_codes]. rewrite Ht, Hlw, He, Het.
    cbn [mbind res_bind encode]. by rewrite app_nil_r. }
  assert (Hhl : length h = 12%nat) by done.
  pose proof (round_up_spec len 8 ltac:(lia)) as [Hr1 Hr2].
  set (pad := Z.to_nat (round_up len 8 - len)). set (w := (h ++ body) ++ replicate pad 0).
  assert (Hwl : Z.of_nat (length w) = round_up len 8)
    by (unfold w, pad; rewrite !length_app, length_replicate, Hhl; lia).
  exists w. split; [lia|]. split; [|split].
  - apply Nat2Z.inj. rewrite Nat2Z.inj_mod, Hwl. done.
  - cbn [prop_serialize]. rewrite Hs. cbn [mbind res_bind]. fold len.
    by rewrite (pack_empty OFP_PROP_EXPERIMENTER_PACK_STR _ _ _ eq_refl Hh).
  - exists (length data). intros fuel rest Hf. unfold prop_parse.
    assert (Hu : unpack_from "!HH" (w ++ rest) 0 = Ok [VInt ty; VInt len])
      by (unfold w, h; rewrite <- !app_assoc;
          exact (type_read ty len (be_encode 4 e ++ be_encode 4 et ++ body ++ replicate pad 0 ++ rest) [] Ht Hlw)).
    rewrite Hu, run_bind_lift, Hty.
    replace (drop (Z.to_nat (round_up len 8)) (w ++ rest)) with rest
      by (symmetry; apply drop_app_length'; lia).
    destruct (experimenter_only ty Hty) as (-> & -> & -> & ->).
    unfold OFP_PROP_EXPERIMENTER_PACK_STR. fmt_eval.
    replace (w ++ rest) with (h ++ (body ++ replicate pad 0 ++ rest)) by (unfold w; by rewrite <- !app_assoc).
    rewrite (unpack_from_pack0 _ _ _ (body ++ replicate pad 0 ++ rest) Hh), run_bind_lift.
    cbn [fit_args f_codes]. rewrite (app_assoc h).
    replace (Z.to_nat len) with (length (h ++ body))
      by (rewrite length_app, Hhl; lia).
    rewrite take_app_length. change OFP_PROP_EXPERIMENTER_SIZE with (length h). rewrite drop_app_length.
    fold word_parser. rewrite Hpar by done. cbn [mbind run_bind mret run_ret]. by rewrite list_fmap_id.
Qed.

Lemma prop_item p : prop_ok p -> exists w, prop_wire p w.
Proof.
  destruct p as [t ids|t ids|t ids|t ids|t e et data|t buf]; [| | | | |done].
  - intros (Ht & Hids & Hn). apply (id_prop _ t ids); [|done|done|by left].
    apply in_width_2. unfold is_instructions in Ht. lia.
  - intros (Ht & Hids & Hn). apply tables_prop; [|done..].
    apply in_width_2. unfold is_next_tables in Ht. lia.
  - intros (Ht & Hids & Hn). apply (id_prop _ t ids); [|done|done|by right].
    apply in_width_2. unfold is_actions in Ht. lia.
  - intros (Ht & Hids & Hn). apply oxm_prop; [|done..]. apply in_width_2.
    unfold is_oxm in Ht. apply bool_decide_eq_true in Ht.
    rewrite !elem_of_cons, elem_of_nil in Ht. lia.
  - intros (Ht & He & Het & Hdata & Hn). apply experimenter_prop; [|done..].
    apply in_width_2. unfold is_experimenter in Ht. lia.
Qed.

(** A list of properties, for one fuel that is enough for all of them. *)
Lemma props_wire l : Forall prop_ok l ->
  exists w, concat_res prop_serialize l = Ok w /\ (length w mod 8 = 0)%nat
    /\ exists n, forall pf fuel, (n <= pf)%nat -> (n <= fuel)%nat ->
         rest_loop (prop_parse pf) fuel w = Some (Ok l).
Proof.
  induction 1 as [|p l Hp _ (w & Hs & H8 & n & Hpar)].
  - exists []. split; [done|]. split; [done|]. exists 0%nat. by intros pf [|fuel].
  - destruct (prop_item p Hp) as (v & Hv & Hv8 & Hvs & m & Hvp). exists (v ++ w).
    split; [by rewrite concat_res_cons, Hvs; cbn [mbind res_bind]; rewrite Hs|].
    split; [by rewrite length_app, Nat.Div0.add_mod, Hv8, H8|].
    exists (S (m + n)). intros pf [|fuel] Hpf Hf; [lia|]. cbn [rest_loop].
    destruct (v ++ w) eqn:E; [apply app_eq_nil in E as [-> _]; cbn in Hv; lia|].
    rewrite <- E, Hvp by lia. cbn [mbind run_bind]. rewrite Hpar by lia. done.
Qed.

(** *** Table features *)

Lemma drop_zeros_replicate n b : drop_zeros (replicate n 0 ++ b) = drop_zeros b.
Proof. by induction n. Qed.

(** Padding a name that has no zero byte at its end and stripping the zeros. *)
Lemma rstrip0_resize n b : (length b <= n)%nat -> list.last b <> Some 0 -> rstrip0 (resize n 0 b) = b.
Proof.
  intros Hn Hl. unfold rstrip0. rewrite resize_ge by done.
  rewrite reverse_app, reverse_replicate, drop_zeros_replicate.
  rewrite <- (reverse_involutive b) at 2. f_equal.
  rewrite <- head_reverse in Hl.
  by destruct (reverse b) as [|[]].
Qed.

Record features_ok (f : TableFeatures.t) : Prop := {
  fo_table : in_width 1 (table_id f) = true;
  fo_name : (length (name f) <= 32)%nat /\ list.last (name f) <> Some 0;
  fo_match : in_width 8 (metadata_match f) = true;
  fo_write : in_width 8 (metadata_write f) = true;
  fo_config : in_width 4 (config f) = true;
  fo_entries : in_width 4 (max_entries f) = true;
  fo_props : Forall prop_ok (properties f);
  fo_length : forall b, concat_res prop_serialize (properties f) = Ok b -> Z.of_nat (length b) < 65000 }.

Lemma features_wire f : features_ok f ->
  exists w, TableFeatures.serialize f = Ok w /\ (0 < length w)%nat
    /\ exists n, forall fuel pre rest, (n <= fuel)%nat ->
         TableFeatures.parser fuel (pre ++ w ++ rest) (length pre)
         = Some (Ok (f, Z.of_nat (length w))).
Proof.
  intros H. destruct (props_wire _ (fo_props _ H)) as (b & Hb & _ & n & Hn).
  pose proof (fo_length _ H _ Hb) as Hl.
  set (len := Z.of_nat (OFP_TABLE_FEATURES_SIZE + length b)).
  assert (Hlw : in_width 2 len = true)
    by (apply in_width_2; unfold len, OFP_TABLE_FEATURES_SIZE; lia).
  set (args := [VInt len; VInt (table_id f); VBytes (name f); VInt (metadata_match f);
                VInt (metadata_write f); VInt (config f); VInt (max_entries f)]).
  set (fm := Format Big [Fi 2; Fi 1; Fx 5; Fs 32; Fi 8; Fi 8; Fi 4; Fi 4]).
  assert (exists h, fpack fm args = Ok h) as [h Hh].
  { unfold fpack, args. cbn [f_codes f_order fm pack_codes].
    rewrite Hlw, (fo_table _ H), (fo_match _ H), (fo_write _ H), (fo_config _ H), (fo_entries _ H).
    by eexists. }
  assert (Hhl : length h = OFP_TABLE_FEATURES_SIZE) by (by apply fpack_length in Hh).
  exists (h ++ b). split; [|split].
  - unfold TableFeatures.serialize. rewrite Hb. cbn [mbind res_bind]. fold len. fold args.
    by rewrite (pack_empty OFP_TABLE_FEATURES_PACK_STR fm _ _ eq_refl Hh).
  - rewrite length_app, Hhl. unfold OFP_TABLE_FEATURES_SIZE. lia.
  - exists n. intros fuel pre rest Hf. unfold TableFeatures.parser, unpack_from, with_fmt.
    change (parse_fmt OFP_TABLE_FEATURES_PACK_STR) with (Some fm).
    rewrite <- app_assoc, (unpack_from_pack fm args h pre (b ++ rest) _ Hh eq_refl), run_bind_lift.
    cbn [fit_args f_codes args fm].
    replace (Z.to_nat len) with (length (h ++ b)) by (rewrite length_app, Hhl; lia).
    rewrite (app_assoc h), (app_assoc pre), <- length_app, take_app_length.
    rewrite app_assoc, <- Hhl, <- length_app, drop_app_length, Hn by done.
    cbn [mbind run_bind mret run_ret].
    rewrite (rstrip0_resize 32) by apply (fo_name _ H). unfold len. rewrite <- Hhl, <- length_app.
    by destruct f.
Qed.

(** *** Replies *)

(** A reply up to its body. *)
Definition reply_head (h : bytes) (ty fl : Z) : bytes :=
  h ++ be_encode 2 ty ++ be_encode 2 fl ++ replicate 4 0.

Lemma reply_head_read h ty fl body : length h = OFP_HEADER_SIZE -> in_width 2 ty = true ->
  in_width 2 fl = true ->
  unpack_from OFP_MULTIPART_REPLY_PACK_STR (reply_head h ty fl ++ body) OFP_HEADER_SIZE
  = Ok [VInt ty; VInt fl].
Proof.
  intros Hh Ht Hf. unfold reply_head. rewrite <- app_assoc.
  refine (fixed_part OFP_MULTIPART_REPLY_PACK_STR (Format Big [Fi 2; Fi 2; Fx 4]) [VInt ty; VInt fl] _ h body eq_refl _ Hh).
  unfold fpack. cbn [f_codes f_order pack_codes]. rewrite Ht, Hf. done.
Qed.

Lemma reply_head_length h ty fl : length h = OFP_HEADER_SIZE ->
  length (reply_head h ty fl) = OFP_MULTIPART_REPLY_SIZE.
Proof. intros H. unfold reply_head. rewrite !length_app, !be_encode_length, H. done. Qed.

(** The reply of a class is its loop over the body. *)
Lemma reply_parse h ty fl p single body fuel : length h = OFP_HEADER_SIZE -> in_width 2 ty = true ->
  in_width 2 fl = true -> StatsReply.stats_class ty = Some (p, single) ->
  StatsReply.parser fuel (16 + Z.of_nat (length body)) (reply_head h ty fl ++ body)
  = (l ← parse_loop (p fuel) fuel (reply_head h ty fl ++ body) (length (reply_head h ty fl))
           (Z.of_nat (length body));
     if single then
       match l with
       | [] => lift (Err IndexError)
       | e :: _ => mret (StatsReply.Mk ty fl (StatsReply.Single e))
       end
     else mret (StatsReply.Mk ty fl (StatsReply.Many l))).
Proof.
  intros Hh Ht Hf Hc. unfold StatsReply.parser. rewrite (reply_head_read h ty fl body Hh Ht Hf), run_bind_lift, Hc.
  rewrite (reply_head_length h ty fl Hh).
  by replace (16 + Z.of_nat (length body) - Z.of_nat OFP_MULTIPART_REPLY_SIZE)
    with (Z.of_nat (length body)) by (unfold OFP_MULTIPART_REPLY_SIZE; lia).
Qed.

(** Entries written one behind the other are read back one behind the other. *)
Lemma entries_loop {A B} (ser : A -> res bytes) (par : nat -> bytes -> nat -> run (B * Z)) (g : A -> B) l :
  Forall (fun a => exists w, ser a = Ok w /\ (0 < length w)%nat
    /\ exists n, forall fuel pre rest, (n <= fuel)%nat ->
         par fuel (pre ++ w ++ rest) (length pre) = Some (Ok (g a, Z.of_nat (length w)))) l ->
  exists w, concat_res ser l = Ok w
    /\ exists n, forall pf fuel pre rest, (n <= pf)%nat -> (n <= fuel)%nat ->
         parse_loop (par pf) fuel (pre ++ w ++ rest) (length pre) (Z.of_nat (length w))
         = Some (Ok (g <$> l)).
Proof.
  induction 1 as [|a l (v & Hv & Hpos & m & Hm) _ (w & Hw & n & Hn)].
  - exists []. split; [done|]. exists 0%nat. intros pf [|fuel]; done.
  - exists (v ++ w). split; [by rewrite concat_res_cons, Hv; cbn [mbind res_bind]; rewrite Hw|].
    exists (S (m + n)). intros pf fuel pre rest Hpf Hf.
    assert (Hone : forall fuel pre rest, (m <= fuel)%nat -> exists a',
              par fuel (pre ++ v ++ rest) (length pre) = Some (Ok (a', Z.of_nat (length v))) /\ a' = g a)
      by (intros f' pre' rest' Hf'; rewrite (Hm f' pre' rest' Hf'); by eexists).
    assert (Hall : forall pf fuel pre rest, (n <= pf)%nat -> (n <= fuel)%nat -> exists l',
              parse_loop (par pf) fuel (pre ++ w ++ rest) (length pre) (Z.of_nat (length w))
              = Some (Ok l') /\ Forall2 eq l' (g <$> l))
      by (intros pf' f' pre' rest' Hp' Hf'; rewrite (Hn pf' f' pre' rest' Hp' Hf');
          eexists; split; [done|]; by apply list_eq_Forall2).
    destruct (parse_cons par eq (g a) (g <$> l) v w m n Hpos Hone Hall pf fuel pre rest Hpf Hf)
      as (l' & Hl' & HR%list_eq_Forall2).
    by rewrite length_app, Hl', HR.
Qed.

End Props.
End StatsFacts.

(** ** Properties of statistics *)

Module StatsClaims.
Import MatchClaims StatsReply StatsFacts.

(** C26: Table features sent in a request, as a switch returns them in a reply with the
    same body, are read back: every property list, the name, the masks and limits. *)
Theorem table_features_roundtrip `{C : AddrConv} `{I : IntConv} (l : list TableFeatures.t)
    (h : bytes) (fl : Z)
    (Hh : length h = OFP_HEADER_SIZE) (Hf : in_width 2 fl = true) (Hl : Forall features_ok l) :
  exists body n,
    StatsRequest.stats_body (StatsRequest.OFPTableFeaturesStatsRequest l) [] = Ok body
    /\ forall fuel, (n <= fuel)%nat ->
       StatsReply.parser fuel (16 + Z.of_nat (length body))
         (reply_head h OFPMP_TABLE_FEATURES fl ++ body)
       = Some (Ok (Mk OFPMP_TABLE_FEATURES fl (Many (OFPTableFeaturesStats <$> l)))).
Proof.
  destruct (entries_loop TableFeatures.serialize
              (fun fuel buf off => wrap OFPTableFeaturesStats (TableFeatures.parser fuel buf off))
              OFPTableFeaturesStats l) as (w & Hw & n & Hn).
  { eapply list.Forall_impl; [exact Hl|]. intros f Hok.
    destruct (features_wire f Hok) as (w & Hs & Hp & n & Hpar). exists w. split; [done|].
    split; [done|]. exists n. intros fuel pre rest Hfu. by rewrite Hpar. }
  exists w, n. split; [cbn [StatsRequest.stats_body]; by rewrite Hw|].
  intros fuel Hfu. rewrite (reply_parse h OFPMP_TABLE_FEATURES fl _ _ w fuel Hh eq_refl Hf eq_refl).
  specialize (Hn fuel fuel (reply_head h OFPMP_TABLE_FEATURES fl) [] Hfu Hfu).
  rewrite app_nil_r in Hn. by rewrite Hn.
Qed.

Definition sample_features : TableFeatures.t :=
  TableFeatures.Mk 3 [116; 49] 0 0xff 0 1000
    [TableFeatures.PropInstructions 0 [1; 4]; TableFeatures.PropNextTables 2 [4; 5; 6];
     TableFeatures.PropActions 4 [0; 25]; TableFeatures.PropOxm 8 [TableFeatures.OFPOxmId "eth_dst" 1 0];
     TableFeatures.PropExperimenter 0xffff 0xBEBABEBA 7 [1; 2]].

Lemma sample_features_ok : features_ok (C := RawConv.conv) (I := raw_int) sample_features.
Proof.
  split; try reflexivity.
  - split; [vm_compute; lia|done].
  - cbn [TableFeatures.properties sample_features].
    repeat (apply Forall_cons || apply Forall_nil); cbn [prop_ok]; repeat split;
      repeat (apply Forall_cons || apply Forall_nil); try reflexivity.
    split; [by right|]. split; [done|].
    eexists. split; [apply (list_elem_of_lookup_2 _ 3); reflexivity|]. by split.
  - intros b Hb. vm_compute in Hb. injection Hb as <-. reflexivity.
Qed.

Lemma table_features_roundtrip_witness :
  exists body n,
    StatsRequest.stats_body (C := RawConv.conv) (I := raw_int)
      (StatsRequest.OFPTableFeaturesStatsRequest [sample_features; sample_features]) [] = Ok body
    /\ forall fuel, (n <= fuel)%nat ->
       StatsReply.parser (C := RawConv.conv) fuel (16 + Z.of_nat (length body))
         (reply_head (replicate 8 7) OFPMP_TABLE_FEATURES 1 ++ body)
       = Some (Ok (Mk OFPMP_TABLE_FEATURES 1
                     (Many [OFPTableFeaturesStats sample_features; OFPTableFeaturesStats sample_features]))).
Proof.
  apply (table_features_roundtrip (C := RawConv.conv) (I := raw_int)
           [sample_features; sample_features] (replicate 8 7) 1); [done|done|].
  pose proof sample_features_ok as Hok. exact (Forall_cons _ _ _ Hok (Forall_cons _ _ _ Hok (Forall_nil _))).
Defined.

(** *** Experimenter replies *)

(** The rest of the last sixteen bytes is too short for the two words of an entry. *)
Definition short_rest (r : nat) : bool := (0 <? r mod 16)%nat && (r mod 16 <? 8)%nat.

(** An entry is read wherever eight bytes are left. *)
Lemma experimenter_entry `{C : AddrConv} (buf : bytes) off :
  experimenter_parser buf off
  = if (off + 8 <=? length buf)%nat then
      Some (Ok (OFPExperimenterMultipart (be_decode (take 4 (drop off buf)))
                  (be_decode (take 4 (drop (off + 4) buf))) (drop (off + 8) buf), 16))
    else Some (Err StructError).
Proof.
  unfold experimenter_parser, ExperimenterStatsRequest.multipart_parser. fmt_eval.
  destruct (Nat.leb_spec (off + 8) (length buf)) as [H|H].
  - rewrite funpack_from_ok by (cbn; lia). cbn [f_codes f_order unpack_codes mbind res_bind decode].
    rewrite run_bind_lift, drop_drop. done.
  - by rewrite funpack_from_short by (cbn; lia).
Qed.

(** Sixteen bytes are skipped behind every entry, whatever it holds. *)
Lemma experimenter_loop `{C : AddrConv} (buf : bytes) fuel : forall off r,
  (r <= fuel)%nat -> (off + r = length buf)%nat ->
  exists l, parse_loop experimenter_parser fuel buf off (Z.of_nat r)
            = Some (if short_rest r then Err StructError else Ok l).
Proof.
  induction fuel as [|fuel IH]; intros off r Hr Hb.
  { assert (r = 0%nat) as -> by lia. by exists []. }
  destruct (decide (r = 0%nat)) as [->|Hr0]; [by exists []|].
  rewrite InstrFacts.loop_fuel_step, experimenter_entry by lia.
  destruct (Nat.leb_spec (off + 8) (length buf)) as [H8|H8].
  - cbn [mbind run_bind]. destruct (le_lt_dec 16 r) as [H16|H16].
    + destruct (IH (off + 16)%nat (r - 16)%nat ltac:(lia) ltac:(lia)) as [l Hl].
      replace (Z.of_nat r - 16) with (Z.of_nat (r - 16)) by lia. change (Z.to_nat 16) with 16%nat.
      rewrite Hl. assert (short_rest (r - 16) = short_rest r) as ->.
      { unfold short_rest. replace r with (r - 16 + 1 * 16)%nat at 3 4 by lia.
        by rewrite Nat.Div0.mod_add. }
      destruct (short_rest r); by eexists.
    + assert (Hl : parse_loop experimenter_parser fuel buf (off + Z.to_nat 16) (Z.of_nat r - 16) = Some (Ok []))
        by (destruct fuel; cbn [parse_loop]; by rewrite (proj2 (Z.leb_le _ _)) by lia).
      rewrite Hl. assert (short_rest r = false) as ->
        by (unfold short_rest; rewrite !Nat.mod_small by lia; apply andb_false_iff || apply andb_true_iff; rewrite !Nat.ltb_lt || rewrite !Nat.ltb_ge; lia).
      by eexists.
  - exists []. assert (short_rest r = true) as -> by (unfold short_rest; rewrite !Nat.mod_small by lia; apply andb_false_iff || apply andb_true_iff; rewrite !Nat.ltb_lt || rewrite !Nat.ltb_ge; lia).
    done.
Qed.

(** An experimenter reply, which carries the state statistics of a switch, is one entry
    that runs to the end of the message, but the loop goes on in steps of sixteen
    bytes, the size of a meter features entry: the reply is read when the length of its
    body modulo sixteen is zero or at least eight, and otherwise the message is lost
    with a struct.error. *)
Theorem experimenter_multipart_reply `{C : AddrConv} (h data : bytes) (fl e et : Z) (fuel : nat)
    (Hh : length h = OFP_HEADER_SIZE) (Hf : in_width 2 fl = true) (He : in_width 4 e = true)
    (Het : in_width 4 et = true) (Hfuel : (8 + length data <= fuel)%nat) :
  let body := be_encode 4 e ++ be_encode 4 et ++ data in
  StatsReply.parser fuel (16 + Z.of_nat (length body)) (reply_head h OFPMP_EXPERIMENTER fl ++ body)
  = Some (if short_rest (8 + length data) then Err StructError
          else Ok (Mk OFPMP_EXPERIMENTER fl (Single (OFPExperimenterMultipart e et data)))).
Proof.
  intros body. rewrite (reply_parse h OFPMP_EXPERIMENTER fl _ _ body fuel Hh eq_refl Hf eq_refl).
  assert (Hbl : length body = (8 + length data)%nat) by (unfold body; autorewrite with beba; lia).
  set (buf := reply_head h OFPMP_EXPERIMENTER fl ++ body).
  set (off := length (reply_head h OFPMP_EXPERIMENTER fl)).
  assert (Hb : length buf = (off + length body)%nat) by (unfold buf; by rewrite length_app).
  destruct (experimenter_loop buf fuel off (length body) ltac:(lia) ltac:(lia)) as [l Hl].
  rewrite Hl. rewrite Hbl in *. destruct (short_rest _) eqn:Hs; [done|]. cbn [mbind run_bind].
  destruct fuel as [|fuel]; [lia|].
  rewrite InstrFacts.loop_fuel_step, experimenter_entry, (proj2 (Nat.leb_le _ _)) in Hl by lia.
  cbn [mbind run_bind] in Hl.
  destruct (parse_loop _ _ _ _ _) as [[l'|]|]; [|done|done]. injection Hl as <-.
  assert (Hd : forall k, drop (off + k) buf = drop k body)
    by (intros k; unfold buf, off; by rewrite drop_app_add).
  rewrite <- (Nat.add_0_r off) at 1. rewrite !Hd. unfold body.
  rewrite drop_0, take_app_length' by (by rewrite be_encode_length).
  rewrite (drop_app_length' (be_encode 4 e) _ 4), take_app_length' by (by rewrite be_encode_length).
  rewrite app_assoc, (drop_app_length' _ data 8) by (autorewrite with beba; lia).
  rewrite !be_decode_encode by (by apply in_width_iff). done.
Qed.

Lemma experimenter_multipart_reply_witness :
  StatsReply.parser (C := RawConv.conv) 100 28
    (reply_head (replicate 8 0) OFPMP_EXPERIMENTER 0 ++ be_encode 4 0xBEBABEBA ++ be_encode 4 0 ++ [1; 2; 3; 4])
  = Some (Ok (Mk OFPMP_EXPERIMENTER 0 (Single (OFPExperimenterMultipart 0xBEBABEBA 0 [1; 2; 3; 4]))))
  /\ StatsReply.parser (C := RawConv.conv) 100 36
    (reply_head (replicate 8 0) OFPMP_EXPERIMENTER 0 ++ be_encode 4 0xBEBABEBA ++ be_encode 4 0
     ++ replicate 12 9)
  = Some (Err StructError).
Proof.
  split; apply (experimenter_multipart_reply (C := RawConv.conv) (replicate 8 0)); (reflexivity || (cbn; lia)).
Defined.

(** *** Entries of a fixed layout *)

(** The statistics type, the format and the words of an entry, for the classes whose
    entries have a fixed length. *)
Definition entry_layout (e : entry) : option (Z * string * list pyval) :=
  match e with
  | OFPDescStats a b c d e => Some (OFPMP_DESC, OFP_DESC_PACK_STR, [VBytes a; VBytes b; VBytes c; VBytes d; VBytes e])
  | OFPAggregateStats a b c =>
      Some (OFPMP_AGGREGATE, OFP_AGGREGATE_STATS_REPLY_PACK_STR, [VInt a; VInt b; VInt c])
  | OFPTableStats a b c d => Some (OFPMP_TABLE, OFP_TABLE_STATS_PACK_STR, [VInt a; VInt b; VInt c; VInt d])
  | OFPPortStats a b c d e f g h i j k l m n o =>
      Some (OFPMP_PORT_STATS, OFP_PORT_STATS_PACK_STR,
            [VInt a; VInt b; VInt c; VInt d; VInt e; VInt f; VInt g; VInt h; VInt i; VInt j; VInt k;
             VInt l; VInt m; VInt n; VInt o])
  | OFPQueueStats a b c d e f g =>
      Some (OFPMP_QUEUE, OFP_QUEUE_STATS_PACK_STR, [VInt a; VInt b; VInt c; VInt d; VInt e; VInt f; VInt g])
  | OFPGroupFeaturesStats t c [a0; a1; a2; a3] [b0; b1; b2; b3] =>
      Some (OFPMP_GROUP_FEATURES, OFP_GROUP_FEATURES_PACK_STR,
            [VInt t; VInt c; VInt a0; VInt a1; VInt a2; VInt a3; VInt b0; VInt b1; VInt b2; VInt b3])
  | OFPMeterFeaturesStats a b c d e =>
      Some (OFPMP_METER_FEATURES, OFP_METER_FEATURES_PACK_STR, [VInt a; VInt b; VInt c; VInt d; VInt e])
  | _ => None
  end.

Definition layout_pack (e : entry) : res bytes :=
  match entry_layout e with Some (_, fmt, vals) => pack fmt vals | None => Err ValueError end.

(** The texts of a description fit and have no zero byte at their end. *)
Definition texts_ok (e : entry) : Prop :=
  match e with
  | OFPDescStats a b c d e =>
      Forall (fun t => Z.of_nat (length t) <= 256 /\ list.last t <> Some 0) [a; b; c; e]
      /\ Z.of_nat (length d) <= 32 /\ list.last d <> Some 0
  | _ => True
  end.

Lemma texts_rstrip n t : Z.of_nat (length t) <= Z.of_nat n /\ list.last t <> Some 0 ->
  rstrip0 (resize n 0 t) = t.
Proof. intros [H1 H2]. apply rstrip0_resize; [lia|done]. Qed.

Lemma layout_entry `{C : AddrConv} e ty fmt vals b :
  entry_layout e = Some (ty, fmt, vals) -> texts_ok e -> pack fmt vals = Ok b ->
  exists p single, stats_class ty = Some (p, single) /\ (0 < length b)%nat
    /\ forall fuel pre rest, p fuel (pre ++ b ++ rest) (length pre)
                             = Some (Ok (e, Z.of_nat (length b))).
Proof.
  intros He Ht Hb. destruct e; try done; cbn [entry_layout] in He.
  all: repeat match type of He with context [match ?l with [] => _ | _ => _ end] => destruct l; try done end.
  all: injection He as <- <- <-.
  all: unfold pack in Hb; unfold with_fmt in Hb; vm_compute (parse_fmt _) in Hb.
  all: pose proof (fpack_length _ _ _ Hb) as Hl; cbn in Hl.
  all: eexists _, _; split; [reflexivity|]; split; [lia|]; intros fuel pre rest; rewrite Hl.
  all: unfold desc_parser, aggregate_parser, table_parser, port_stats_parser, queue_parser,
    group_features_parser, meter_features_parser; fmt_eval;
    rewrite (unpack_from_pack _ _ b pre rest _ Hb eq_refl), run_bind_lift; cbn [fit_args f_codes].
  all: try reflexivity.
  destruct Ht as (Hs & H32). rewrite !list.Forall_cons in Hs. destruct Hs as (Ha & Hb' & Hc & He & _).
  by rewrite !(texts_rstrip 256), (texts_rstrip 32).
Qed.

(** Replies whose entries have a fixed layout (description, aggregate, table, port,
    queue, group features and meter features statistics) are read back: all entries in
    their order, or the first one for the classes with a single entry. *)
Theorem fixed_entries_roundtrip `{C : AddrConv} (h : bytes) (ty fl : Z) (l : list entry)
    (p : nat -> bytes -> nat -> run (entry * Z)) (single : bool) (body : bytes)
    (Hh : length h = OFP_HEADER_SIZE) (Ht : in_width 2 ty = true) (Hf : in_width 2 fl = true)
    (Hl : Forall (fun e => exists fmt vals, entry_layout e = Some (ty, fmt, vals)) l)
    (Htexts : Forall texts_ok l) (Hc : stats_class ty = Some (p, single))
    (Hb : TableFeatures.concat_res layout_pack l = Ok body) :
  exists n, forall fuel, (n <= fuel)%nat ->
    StatsReply.parser fuel (16 + Z.of_nat (length body)) (reply_head h ty fl ++ body)
    = Some (if single then
              match l with
              | [] => Err IndexError
              | e :: _ => Ok (Mk ty fl (Single e))
              end
            else Ok (Mk ty fl (Many l))).
Proof.
  destruct (entries_loop layout_pack p id l) as (w & Hw & n & Hn).
  { clear Hh. revert body Hb. induction l as [|e l IH]; intros body Hb; [constructor|].
    rewrite concat_res_cons in Hb. apply bind_Ok in Hb as (b & He & Hb).
    apply bind_Ok in Hb as (b' & Hb & _).
    pose proof (Forall_inv Hl) as (fmt & vals & Hlay). pose proof (Forall_inv Htexts) as Hok.
    constructor; [|apply (IH (Forall_inv_tail Hl) (Forall_inv_tail Htexts) _ Hb)].
    exists b. split; [done|]. unfold layout_pack in He. rewrite Hlay in He.
    destruct (layout_entry e ty fmt vals b Hlay Hok He) as (p' & s' & Hc' & Hpos & Hp).
    rewrite Hc in Hc'. injection Hc' as <- <-. split; [done|]. exists 0%nat. intros fuel pre rest _. apply Hp. }
  rewrite Hb in Hw. injection Hw as <-. exists n. intros fuel Hfu.
  rewrite (reply_parse h ty fl p single body fuel Hh Ht Hf Hc).
  specialize (Hn fuel fuel (reply_head h ty fl) [] Hfu Hfu). rewrite app_nil_r in Hn. rewrite Hn.
  cbn [mbind run_bind]. rewrite list_fmap_id. by destruct single, l.
Qed.

Lemma fixed_entries_roundtrip_witness :
  exists body n, TableFeatures.concat_res layout_pack [OFPTableStats 0 1 2 3; OFPTableStats 1 5 6 7] = Ok body
  /\ forall fuel, (n <= fuel)%nat ->
     StatsReply.parser (C := RawConv.conv) fuel (16 + Z.of_nat (length body))
       (reply_head (replicate 8 0) OFPMP_TABLE 0 ++ body)
     = Some (Ok (Mk OFPMP_TABLE 0 (Many [OFPTableStats 0 1 2 3; OFPTableStats 1 5 6 7]))).
Proof.
  destruct (TableFeatures.concat_res layout_pack [OFPTableStats 0 1 2 3; OFPTableStats 1 5 6 7]) as [b|] eqn:Hb;
    [|vm_compute in Hb; discriminate].
  destruct (fixed_entries_roundtrip (C := RawConv.conv) (replicate 8 0) OFPMP_TABLE 0
              [OFPTableStats 0 1 2 3; OFPTableStats 1 5 6 7] (fun _ => table_parser) false b eq_refl eq_refl eq_refl) as [n Hn];
    [|repeat constructor|reflexivity|exact Hb|by exists b, n].
  repeat constructor; by eexists _, _.
Defined.

End StatsClaims.
