(* ===== verification/Controller.v ===== *)
(** * Datapath connections

    The connection of a switch: [Datapath] of ryu/controller/controller.py with its
    receive loop, the handshake of ryu/controller/ofp_handler.py, the version
    descriptors of ryu/ofproto/ofproto_protocol.py and the parser registry of
    ryu/ofproto/ofproto_parser.py. What a protocol version offers the connection is the
    class [Protocols]; OpenFlow 1.3 is an instance over any other versions. *)

From Stdlib Require Import ZArith Lia.
From stdpp Require Import base list gmap strings numbers.
From S2P Require Import Prelude Struct OfpMsg PktUtils PktHeaders OfpActions OfpInstr OfpMessages OfpStats.

Definition MAX_XID : Z := 0xffffffff.
Definition OFPMPF_REPLY_MORE : Z := 1.

(** ** Protocol versions *)

(** The messages the connection itself sends. *)
Inductive out_msg :=
  | SendHello
  | SendFeaturesRequest
  | SendPortDescStatsRequest (flags : Z)
  | SendEchoReply (data : bytes)
  | SendErrorMsg (type_ code : Z) (data : bytes).

(** The messages it receives, by the class of the event they make. *)
Inductive in_msg (port : Type) :=
  | RecvHello (elements : list (list Z))
  | RecvSwitchFeatures (datapath_id : Z) (ports : gmap Z port)
  | RecvPortDescStatsReply (flags : Z) (body : list port)
  | RecvEchoRequest (data : bytes)
  | RecvErrorMsg (data : bytes)
  | RecvErrorExperimenterMsg (experimenter : Z) (data : bytes)
  | RecvOther.
Arguments RecvHello {port}.
Arguments RecvSwitchFeatures {port}.
Arguments RecvPortDescStatsReply {port}.
Arguments RecvEchoRequest {port}.
Arguments RecvErrorMsg {port}.
Arguments RecvErrorExperimenterMsg {port}.
Arguments RecvOther {port}.

(** [_supported_versions], [_MSG_PARSERS] and the parser and message classes of the
    versions. *)
Class Protocols := {
  port : Type;
  port_no : port -> Z;
  supported_ofp_version : list Z;
  has_parser : Z -> bool;
  msg_parser : Z -> Z -> Z -> bytes -> run (in_msg port);
  msg_serialize : Z -> out_msg -> Z -> res bytes }.

(** A whole message: its header gives its own length. *)
Definition framed (b : bytes) : Prop :=
  exists v ty x, MsgBase.header b = Ok (v, ty, Z.of_nat (length b), x).

(** What the connection relies on: [set_app_supported_versions] keeps the set of
    versions non-empty, and what a version serializes is a whole message. *)
Class ProtocolsLaws `(P : Protocols) := {
  supported_nonempty : supported_ofp_version <> [];
  serialize_framed v m x b : msg_serialize v m x = Ok b -> framed b }.

(** *** OpenFlow 1.3 *)

Section OpenFlow13.
Context `{C : AddrConv} (pf : nat) (other : Protocols).

(** The events of the messages of this version. *)
Definition event13 (m : Message.t) : in_msg (Port.t + @port other) :=
  match m with
  | Message.OFPHello h => RecvHello (Hello.versions <$> Hello.elements h)
  | Message.OFPError (ErrorMsg.OFPErrorMsg _ _ data) => RecvErrorMsg (default [] data)
  | Message.OFPError (ErrorMsg.OFPErrorExperimenterMsg _ e data) =>
      RecvErrorExperimenterMsg (default 0 e) (default [] data)
  | Message.OFPEchoRequest data => RecvEchoRequest data
  | Message.OFPSwitchFeatures f => RecvSwitchFeatures (SwitchFeatures.datapath_id f) ∅
  | Message.OFPMultipartReply r =>
      if StatsReply.type_ r =? OFPMP_PORT_DESC then
        match StatsReply.body_ r with
        | StatsReply.Many l =>
            RecvPortDescStatsReply (StatsReply.flags r)
              (omap (fun e => match e with StatsReply.OFPPort p => Some (inl p) | _ => None end) l)
        | StatsReply.Single _ => RecvOther
        end
      else RecvOther
  | _ => RecvOther
  end.

Definition serialize13 (m : out_msg) (xid : option Z) : res bytes :=
  match m with
  | SendHello => Hello.serialize (Hello.Mk []) xid
  | SendFeaturesRequest => OFPFeaturesRequest_serialize xid
  | SendPortDescStatsRequest flags =>
      multipart_request OFPMP_PORT_DESC flags Ok xid
  | SendEchoReply data => Echo.serialize_reply (Some data) xid
  | SendErrorMsg ty code data =>
      ErrorMsg.serialize (ErrorMsg.OFPErrorMsg (Some ty) (Some code) (Some data)) xid
  end.

Definition map_port {A B} (f : A -> B) (m : in_msg A) : in_msg B :=
  match m with
  | RecvHello e => RecvHello e
  | RecvSwitchFeatures id ports => RecvSwitchFeatures id (f <$> ports)
  | RecvPortDescStatsReply fl body => RecvPortDescStatsReply fl (f <$> body)
  | RecvEchoRequest d => RecvEchoRequest d
  | RecvErrorMsg d => RecvErrorMsg d
  | RecvErrorExperimenterMsg e d => RecvErrorExperimenterMsg e d
  | RecvOther => RecvOther
  end.

(** The registry with version 4 beside the others. *)
Definition with_of13 (supported : list Z) : Protocols := {|
  port := Port.t + @port other;
  port_no := fun p => match p with inl p => Port.port_no p | inr p => @port_no other p end;
  supported_ofp_version := supported;
  has_parser := fun v => (v =? OFP_VERSION) || @has_parser other v;
  msg_parser := fun v ty len buf =>
    if v =? OFP_VERSION then m ← Message.msg_parser pf ty len buf; mret (event13 m)
    else m ← @msg_parser other v ty len buf; mret (map_port inr m);
  msg_serialize := fun v m xid =>
    if v =? OFP_VERSION then serialize13 m (Some xid) else @msg_serialize other v m xid |}.

End OpenFlow13.

(** ** The datapath *)

(** The dispatchers of ryu/controller/handler.py. *)
Inductive dispatcher := HANDSHAKE_DISPATCHER | CONFIG_DISPATCHER | MAIN_DISPATCHER | DEAD_DISPATCHER.

#[global] Instance dispatcher_eq_dec : EqDecision dispatcher.
Proof. solve_decision. Defined.

(** What [_hello_failed] is told. *)
Inductive error_desc :=
  | NoUsable (switch_versions : list Z) (controller negotiated : Z)
  | FoundUsable (switch controller : Z) (negotiated usable : list Z)
  | LowerUsable (switch controller usable : Z)
  | Unsupported (version : Z).

Section Connection.
Context `{P : Protocols} (desc_text : error_desc -> bytes).

Inductive event :=
  | EventOFPStateChange (state : dispatcher)
  | EventOFPMsg (m : in_msg port).

(** [events] are the events given to the observers, with the state they are given
    for; [send_q] is [None] once the send loop has ended. *)
Record datapath := Datapath {
  version : Z; xid : Z; dpid : option Z; ports : option (gmap Z port); state : dispatcher;
  send_active : bool; close_requested : bool; send_q : option (list bytes);
  events : list (event * dispatcher) }.

Definition with_version v d := Datapath v (xid d) (dpid d) (ports d) (state d) (send_active d) (close_requested d) (send_q d) (events d).
Definition with_xid x d := Datapath (version d) x (dpid d) (ports d) (state d) (send_active d) (close_requested d) (send_q d) (events d).
Definition with_id i d := Datapath (version d) (xid d) i (ports d) (state d) (send_active d) (close_requested d) (send_q d) (events d).
Definition with_ports p d := Datapath (version d) (xid d) (dpid d) p (state d) (send_active d) (close_requested d) (send_q d) (events d).
Definition with_active a d := Datapath (version d) (xid d) (dpid d) (ports d) (state d) a (close_requested d) (send_q d) (events d).
Definition with_close c d := Datapath (version d) (xid d) (dpid d) (ports d) (state d) (send_active d) c (send_q d) (events d).
Definition with_queue q d := Datapath (version d) (xid d) (dpid d) (ports d) (state d) (send_active d) (close_requested d) q (events d).

Definition send_event_to_observers (e : event) (st : dispatcher) : stm datapath unit :=
  modify (fun d => Datapath (version d) (xid d) (dpid d) (ports d) (state d) (send_active d)
                     (close_requested d) (send_q d) (events d ++ [(e, st)])).

Definition set_state (st : dispatcher) : stm datapath unit :=
  modify (fun d => Datapath (version d) (xid d) (dpid d) (ports d) st (send_active d)
                     (close_requested d) (send_q d) (events d)) ;;
  send_event_to_observers (EventOFPStateChange st) st.

(** [max] of a set of versions. *)
Definition max_version (l : list Z) : res Z :=
  match l with [] => Err ValueError | v :: l => Ok (foldl Z.max v l) end.

(** [ProtocolDesc.__init__] and [Datapath.__init__]; [xid0] is the random first
    transaction id. *)
Definition init (xid0 : Z) : res datapath :=
  v ← max_version supported_ofp_version;
  Ok ((set_state HANDSHAKE_DISPATCHER
         (Datapath v xid0 None None HANDSHAKE_DISPATCHER true false (Some []) [])).2).

Definition set_version (v : Z) : stm datapath unit :=
  lift_res (py_assert (bool_decide (v ∈ supported_ofp_version))) ;; modify (with_version v).

Definition send (buf : bytes) : stm datapath unit :=
  modify (fun d => with_queue (match send_q d with Some q => Some (q ++ [buf]) | None => None end) d).

Definition set_xid : stm datapath Z :=
  modify (fun d => with_xid (Z.land (xid d + 1) MAX_XID) d) ;; gets xid.

(** [send_msg]; [mxid] is the transaction id the message has already. *)
Definition send_msg (m : out_msg) (mxid : option Z) : stm datapath unit :=
  x ← match mxid with Some x => mret x | None => set_xid end;
  v ← gets version;
  buf ← lift_res (msg_serialize v m x);
  send buf.

(** ** The handshake *)

Definition _hello_failed (desc : error_desc) : stm datapath unit :=
  send_msg (SendErrorMsg OFPET_HELLO_FAILED OFPHFC_INCOMPATIBLE (desc_text desc)) None.

(** The end of [hello_handler]: a version is left or not. *)
Definition hello_accept (msg_version : Z) (usable_versions : list Z) : stm datapath unit :=
  match usable_versions with
  | [] => _hello_failed (Unsupported msg_version)
  | _ =>
      v ← lift_res (max_version usable_versions);
      set_version v ;;
      set_state CONFIG_DISPATCHER ;;
      send_msg SendFeaturesRequest None
  end.

Definition hello_handler (msg_version : Z) (elements : list (list Z)) : stm datapath unit :=
  match elements with
  | _ :: _ =>
      let switch_versions := mjoin elements in
      let usable_versions := filter (fun v => v ∈ supported_ofp_version) switch_versions in
      controller ← lift_res (max_version supported_ofp_version);
      let negotiated_versions := filter (fun v => v <= controller) switch_versions in
      match max_version negotiated_versions, max_version usable_versions with
      | Ok n, Err _ => _hello_failed (NoUsable switch_versions controller n)
      | Ok n, Ok u =>
          if n =? u then hello_accept msg_version usable_versions
          else
            s ← lift_res (max_version switch_versions);
            _hello_failed (FoundUsable s controller negotiated_versions usable_versions)
      | _, _ => hello_accept msg_version usable_versions
      end
  | [] =>
      let usable_versions := filter (fun v => v <= msg_version) supported_ofp_version in
      own ← gets version;
      match max_version usable_versions with
      | Ok u => if u =? Z.min msg_version own then hello_accept msg_version usable_versions
                else _hello_failed (LowerUsable msg_version own u)
      | Err _ => hello_accept msg_version usable_versions
      end
  end.

Definition switch_features_handler (datapath_id : Z) (msg_ports : gmap Z port) : stm datapath unit :=
  modify (with_id (Some datapath_id)) ;;
  v ← gets version;
  modify (with_ports (Some (if v <? 4 then msg_ports else ∅))) ;;
  if v <? 4 then set_state MAIN_DISPATCHER
  else send_msg (SendPortDescStatsRequest 0) None.

(** A port is stored in the dictionary, which is [None] before the features. *)
Definition store_port (p : port) : stm datapath unit :=
  ps ← gets ports;
  match ps with
  | None => raise TypeError
  | Some m => modify (with_ports (Some (<[port_no p := p]> m)))
  end.

Definition multipart_reply_handler (flags : Z) (body : list port) : stm datapath unit :=
  iterM store_port body ;;
  if Z.land flags OFPMPF_REPLY_MORE =? 0 then set_state MAIN_DISPATCHER else mret tt.

Definition echo_request_handler (msg_xid : Z) (data : bytes) : stm datapath unit :=
  send_msg (SendEchoReply data) (Some msg_xid).

(** The data of an error is read as the header of the message it answers. *)
Definition error_msg_handler (data : bytes) : stm datapath unit :=
  _ ← lift_res (MsgBase.header data); mret tt.

Definition exp_error_msg_handler (experimenter : Z) (data : bytes) : stm datapath unit :=
  if experimenter =? BEBA_EXPERIMENTER_ID then
    _ ← lift_res (unpack_from OFP_HEADER_PACK_STR data 0); mret tt
  else mret tt.

(** The dispatchers the handler of a message is registered for. *)
Definition dispatchers (m : in_msg port) : list dispatcher :=
  match m with
  | RecvHello _ => [HANDSHAKE_DISPATCHER]
  | RecvSwitchFeatures _ _ | RecvPortDescStatsReply _ _ => [CONFIG_DISPATCHER]
  | RecvEchoRequest _ | RecvErrorMsg _ | RecvErrorExperimenterMsg _ _ =>
      [HANDSHAKE_DISPATCHER; CONFIG_DISPATCHER; MAIN_DISPATCHER]
  | RecvOther => []
  end.

Definition handler (msg_version msg_xid : Z) (m : in_msg port) : stm datapath unit :=
  match m with
  | RecvHello elements => hello_handler msg_version elements
  | RecvSwitchFeatures id ps => switch_features_handler id ps
  | RecvPortDescStatsReply fl body => multipart_reply_handler fl body
  | RecvEchoRequest data => echo_request_handler msg_xid data
  | RecvErrorMsg data => error_msg_handler data
  | RecvErrorExperimenterMsg e data => exp_error_msg_handler e data
  | RecvOther => mret tt
  end.

(** The event of a message, then the handlers of the current state. *)
Definition dispatch (msg_version msg_xid : Z) (m : in_msg port) : stm datapath unit :=
  st ← gets state;
  send_event_to_observers (EventOFPMsg m) st ;;
  if bool_decide (st ∈ dispatchers m) then handler msg_version msg_xid m else mret tt.

(** ** The receive loop *)

(** [ofproto_parser.msg]: any exception of a parser drops the message. *)
Definition msg (version msg_type msg_len : Z) (buf : bytes) : run (option (in_msg port)) :=
  lift (py_assert (msg_len <=? Z.of_nat (length buf))) ;;
  if has_parser version then
    match msg_parser version msg_type msg_len buf with
    | None => None
    | Some (Err _) => Some (Ok None)
    | Some (Ok m) => Some (Ok (Some m))
    end
  else lift (Err OFPUnknownVersion).

(** A complete message at the front of the buffer. *)
Definition receive (version msg_type msg_len xid : Z) (buf : bytes) (d : datapath) :
    option (res unit * datapath) :=
  match msg version msg_type msg_len (take (Z.to_nat msg_len) buf) with
  | None => None
  | Some (Err e) => Some (Err e, d)
  | Some (Ok None) => Some (Ok tt, d)
  | Some (Ok (Some m)) => Some (dispatch version xid m d)
  end.

(** [while len(buf) >= required_len] *)
Fixpoint message_loop (fuel : nat) (buf : bytes) (required_len : Z) (d : datapath) :
    option (res (bytes * Z) * datapath) :=
  match fuel with
  | O => None
  | S fuel =>
      if required_len <=? Z.of_nat (length buf) then
        match MsgBase.header buf with
        | Err e => Some (Err e, d)
        | Ok (version, msg_type, msg_len, xid) =>
            if Z.of_nat (length buf) <? msg_len then Some (Ok (buf, msg_len), d)
            else match receive version msg_type msg_len xid buf d with
                 | None => None
                 | Some (Err e, d) => Some (Err e, d)
                 | Some (Ok _, d) =>
                     message_loop fuel (drop (Z.to_nat msg_len) buf) (Z.of_nat OFP_HEADER_SIZE) d
                 end
        end
      else Some (Ok (buf, required_len), d)
  end.

(** What a call of [socket.recv] yields, and calls of [close] in between. *)
Inductive sock_event := Data (b : bytes) | SocketTimeout | SocketError | CloseCalled.

(** [finally] of [_deactivate] *)
Definition deactivate (d : datapath) : datapath :=
  (set_state DEAD_DISPATCHER (with_active false d)).2.

Definition close (d : datapath) : datapath := deactivate (with_close true d).

(** The loop waits for more, or it has ended, with the exception it raised. *)
Inductive outcome := Waiting (buf : bytes) (required_len : Z) | Ended (r : res unit).

(** [_recv_loop] on the events of a socket. *)
Fixpoint recv_loop (fuel : nat) (script : list sock_event) (buf : bytes) (required_len : Z)
    (d : datapath) : option (outcome * datapath) :=
  match script with
  | [] => Some (Waiting buf required_len, d)
  | CloseCalled :: script => recv_loop fuel script buf required_len (close d)
  | SocketTimeout :: script =>
      if close_requested d then Some (Ended (Ok tt), deactivate d)
      else recv_loop fuel script buf required_len d
  | SocketError :: _ => Some (Ended (Ok tt), deactivate (with_close true d))
  | Data ret :: script =>
      if (length ret =? 0)%nat || close_requested d then Some (Ended (Ok tt), deactivate d)
      else match message_loop fuel (buf ++ ret) required_len d with
           | None => None
           | Some (Err e, d) => Some (Ended (Err e), deactivate d)
           | Some (Ok (buf, required_len), d) => recv_loop fuel script buf required_len d
           end
  end.

(** [serve]: the hello message, then the receive loop. *)
Definition serve (fuel : nat) (script : list sock_event) (d : datapath) :
    option (outcome * datapath) :=
  match send_msg SendHello None d with
  | (Err e, d) => Some (Ended (Err e), d)
  | (Ok _, d) => recv_loop fuel script [] (Z.of_nat OFP_HEADER_SIZE) d
  end.

End Connection.

(** ** Facts *)

Module ConnFacts.

Section Facts.
Context `{P : Protocols} (desc_text : error_desc -> bytes).

(** *** What sending changes *)

(** [d'] is [d] with another transaction id and what was queued behind the queue. *)
Definition sent (d d' : datapath) (m : out_msg) : Prop :=
  exists x q, d' = with_queue q (with_xid x d)
    /\ (x = xid d \/ x = Z.land (xid d + 1) MAX_XID)
    /\ (q = send_q d \/ exists b y, msg_serialize (version d) m y = Ok b
                                    /\ q = (fun l => l ++ [b]) <$> send_q d).

Lemma send_msg_sent m mx d r d' : send_msg m mx d = (r, d') -> sent d d' m.
Proof.
  unfold sent, send_msg, set_xid, send. stm_unfold. intros H.
  destruct mx as [y|].
  - destruct (msg_serialize (version d) m y) as [b|e] eqn:Hs; injection H as <- <-.
    + exists (xid d), ((fun l => l ++ [b]) <$> send_q d). split; [by destruct d as [v x i p s a c [q|] e]|].
      split; [by left|]. right. by exists b, y.
    + exists (xid d), (send_q d). split; [by destruct d|]. split; by left.
  - cbn [xid with_xid version] in H.
    destruct (msg_serialize (version d) m (Z.land (xid d + 1) MAX_XID)) as [b|e] eqn:Hs;
      injection H as <- <-.
    + exists (Z.land (xid d + 1) MAX_XID), ((fun l => l ++ [b]) <$> send_q d).
      split; [by destruct d as [v x i p s a c [q|] e]|]. split; [by right|]. right. by exists b, (Z.land (xid d + 1) MAX_XID).
    + exists (Z.land (xid d + 1) MAX_XID), (send_q d). split; [by destruct d|]. split; [by right|by left].
Qed.

Lemma send_msg_ok m d b : msg_serialize (version d) m (Z.land (xid d + 1) MAX_XID) = Ok b ->
  send_msg m None d
  = (Ok tt, with_queue ((fun l => l ++ [b]) <$> send_q d) (with_xid (Z.land (xid d + 1) MAX_XID) d)).
Proof.
  intros Hb. unfold send_msg, set_xid, send. stm_unfold. cbn [xid with_xid version]. rewrite Hb.
  by destruct d as [v x i p s a c [q|] e].
Qed.

(** *** Well-formed connections *)

(** The state changes the observers have seen. *)
Definition changes (d : datapath) : list dispatcher :=
  omap (fun '(e, _) => match e with EventOFPStateChange st => Some st | EventOFPMsg _ => None end)
    (events d).

(** The order of the states: handshake, configuration, main, up to the state [st]. *)
Inductive path : list dispatcher -> dispatcher -> Prop :=
  | path_handshake : path [HANDSHAKE_DISPATCHER] HANDSHAKE_DISPATCHER
  | path_config : path [HANDSHAKE_DISPATCHER; CONFIG_DISPATCHER] CONFIG_DISPATCHER
  | path_main : path [HANDSHAKE_DISPATCHER; CONFIG_DISPATCHER; MAIN_DISPATCHER] MAIN_DISPATCHER
  | path_dead l st : path l st -> path (l ++ [DEAD_DISPATCHER]) DEAD_DISPATCHER.

Record conn_ok (d : datapath) : Prop := {
  co_version : version d ∈ supported_ofp_version;
  co_xid : 0 <= xid d <= MAX_XID;
  co_ports : ports d = None <-> dpid d = None;
  co_new : state d = HANDSHAKE_DISPATCHER ->
    dpid d = None /\ max_version supported_ofp_version = Ok (version d);
  co_path : path (changes d) (state d);
  co_active : send_active d = false -> state d = DEAD_DISPATCHER;
  co_closed : close_requested d = true -> state d = DEAD_DISPATCHER }.

Lemma next_xid x : 0 <= Z.land (x + 1) MAX_XID <= MAX_XID.
Proof.
  change MAX_XID with (Z.ones 32). rewrite Z.land_ones by lia.
  pose proof (Z.mod_pos_bound (x + 1) (2 ^ 32) ltac:(lia)) as H. change (Z.ones 32) with (2 ^ 32 - 1). lia.
Qed.

Lemma sent_ok d d' m : sent d d' m -> conn_ok d -> conn_ok d'.
Proof.
  intros (x & q & -> & Hx & _) [H1 H2 H3 H4 H5 H6 H7].
  split; try done. cbn. destruct Hx as [-> | ->]; [done|apply next_xid].
Qed.

Lemma changes_snoc d e st : changes (send_event_to_observers e st d).2
  = changes d ++ match e with EventOFPStateChange st => [st] | EventOFPMsg _ => [] end.
Proof.
  unfold changes. cbn [send_event_to_observers modify snd events]. rewrite omap_app. by destruct e.
Qed.

Lemma changes_set_state st d : changes (set_state st d).2 = changes d ++ [st].
Proof. exact (changes_snoc _ (EventOFPStateChange st) st). Qed.

(** A state change along the path. *)
Lemma set_state_ok d st : conn_ok d -> path (changes d ++ [st]) st -> st <> HANDSHAKE_DISPATCHER ->
  state d <> DEAD_DISPATCHER \/ st = DEAD_DISPATCHER -> conn_ok (set_state st d).2.
Proof.
  intros [H1 H2 H3 H4 H5 H6 H7] Hp Hst Hd. split; try done.
  - by rewrite changes_set_state.
  - cbn. intros Ha. destruct Hd as [Hd|Hd]; [|done]. by apply H6 in Ha.
  - cbn. intros Ha. destruct Hd as [Hd|Hd]; [|done]. by apply H7 in Ha.
Qed.

Lemma deactivate_ok d : conn_ok d -> conn_ok (deactivate d).
Proof.
  intros [H1 H2 H3 H4 H5 H6 H7]. split; try done.
  unfold deactivate. rewrite changes_set_state. by apply (path_dead _ (state d)).
Qed.

Lemma close_ok d : conn_ok d -> conn_ok (close d).
Proof.
  intros [H1 H2 H3 H4 H5 H6 H7]. split; try done.
  unfold close, deactivate. rewrite changes_set_state. by apply (path_dead _ (state d)).
Qed.

(** *** Versions *)

Lemma max_version_spec l v : max_version l = Ok v <-> v ∈ l /\ Forall (fun w => w <= v) l.
Proof.
  assert (Hf : forall l x, foldl Z.max x l ∈ x :: l /\ x <= foldl Z.max x l
                           /\ Forall (fun w => w <= foldl Z.max x l) l).
  { clear. induction l as [|y l IH]; intros x; cbn [foldl].
    - split; [apply list_elem_of_here|]. split; [lia|constructor].
    - destruct (IH (Z.max x y)) as (H1 & H2 & H3). split; [|split; [lia|constructor; [lia|done]]].
      apply elem_of_cons in H1 as [H1|H1]; [rewrite H1|by do 2 right].
      destruct (Z.max_spec x y) as [[_ ->]|[_ ->]]; [right; left|left]. }
  destruct l as [|x l]; cbn [max_version].
  - split; [done|]. intros [H _]. by apply elem_of_nil in H.
  - destruct (Hf l x) as (H1 & H2 & H3). split.
    + intros [= <-]. split; [done|]. by constructor.
    + intros [Hv Hall]. f_equal. apply Z.le_antisymm.
      * rewrite Forall_forall in Hall. by apply Hall, list_elem_of_In.
      * assert (Forall (fun w => w <= foldl Z.max x l) (x :: l)) as Hb by (by constructor).
        rewrite Forall_forall in Hb. by apply Hb, list_elem_of_In.
Qed.

Lemma max_version_err l e : max_version l = Err e -> l = [].
Proof. by destruct l. Qed.

(** *** Version negotiation *)

(** The version [v] is agreed with a switch that sends a hello of version [mv]. With
    version bitmaps it is the highest version of the switch that is not above those of
    the controller, [c]; without, the lower of the two header versions. In both cases
    it must be a version the controller supports. *)
Definition agreed (c mv : Z) (elements : list (list Z)) (v : Z) : Prop :=
  v ∈ supported_ofp_version
  /\ match elements with
     | [] => v = Z.min mv c
     | _ => v ∈ mjoin elements /\ forall w, w ∈ mjoin elements -> w <= c -> w <= v
     end.

Definition accept (v : Z) : stm datapath unit :=
  modify (with_version v) ;; set_state CONFIG_DISPATCHER ;; send_msg SendFeaturesRequest None.

Lemma hello_accept_max mv l v d : max_version l = Ok v -> v ∈ supported_ofp_version ->
  hello_accept desc_text mv l d = accept v d.
Proof.
  intros Hv Hs. destruct l as [|w l]; [done|]. unfold hello_accept. rewrite Hv.
  unfold accept, set_version. stm_unfold. by rewrite bool_decide_eq_true_2.
Qed.

Lemma supported_bound c v : max_version supported_ofp_version = Ok c -> v ∈ supported_ofp_version -> v <= c.
Proof.
  intros [_ Hc]%max_version_spec Hv. rewrite Forall_forall in Hc. by apply Hc, list_elem_of_In.
Qed.

Lemma hello_plain c mv d : max_version supported_ofp_version = Ok c -> version d = c ->
  exists o, (forall v, agreed c mv [] v <-> o = Some v)
    /\ match o with
       | Some v => hello_handler desc_text mv [] d = accept v d
       | None => exists desc, hello_handler desc_text mv [] d = _hello_failed desc_text desc d
       end.
Proof.
  intros Hc Hd. unfold hello_handler. set (l := filter (fun v => v <= mv) supported_ofp_version).
  assert (Hl : forall v, v ∈ l <-> v <= mv /\ v ∈ supported_ofp_version)
    by (intros v; unfold l; by rewrite list_elem_of_filter).
  destruct (decide (Z.min mv c ∈ supported_ofp_version)) as [Hin|Hin].
  - exists (Some (Z.min mv c)). split.
    { intros v. split; [by intros [_ ->]|]. intros [= <-]. done. }
    assert (Hmax : max_version l = Ok (Z.min mv c)).
    { apply max_version_spec. split; [apply Hl; split; [lia|done]|].
      apply Forall_forall. intros w Hw%list_elem_of_In. apply Hl in Hw as [Hw1 Hw2].
      pose proof (supported_bound c w Hc Hw2). lia. }
    stm_unfold. rewrite Hmax, Hd, Z.eqb_refl. by apply hello_accept_max.
  - exists None. split; [intros v; split; [intros [Hv ->]; done|done]|].
    stm_unfold. destruct (max_version l) as [u|e] eqn:Hu.
    + destruct (Z.eqb_spec u (Z.min mv (version d))) as [->|]; [|by eexists].
      apply max_version_spec in Hu as [Hu _]. apply Hl in Hu as [_ Hu]. by rewrite Hd in Hu.
    + apply max_version_err in Hu. rewrite Hu. cbn [hello_accept]. by eexists.
Qed.

Lemma hello_elements c mv els d : els <> [] -> max_version supported_ofp_version = Ok c ->
  exists o, (forall v, agreed c mv els v <-> o = Some v)
    /\ match o with
       | Some v => hello_handler desc_text mv els d = accept v d
       | None => exists desc, hello_handler desc_text mv els d = _hello_failed desc_text desc d
       end.
Proof.
  intros He Hc. destruct els as [|e els]; [done|]. unfold hello_handler, agreed.
  cbv iota zeta. generalize (mjoin (e :: els)). intros S. set (U := filter (fun v => v ∈ supported_ofp_version) S).
  assert (HU : forall v, v ∈ U <-> v ∈ supported_ofp_version /\ v ∈ S) by (intros v; unfold U; by rewrite list_elem_of_filter).
  set (N := filter (fun v => v <= c) S).
  assert (HN : forall v, v ∈ N <-> v <= c /\ v ∈ S) by (intros v; unfold N; by rewrite list_elem_of_filter).
  rewrite Hc. stm_unfold. fold N U.
  destruct (max_version U) as [u|eu] eqn:Hu; destruct (max_version N) as [n|en] eqn:Hn.
  - pose proof (proj1 (max_version_spec _ _) Hu) as [Hu1 Hu2].
    pose proof (proj1 (max_version_spec _ _) Hn) as [Hn1 Hn2].
    rewrite Forall_forall in Hu2, Hn2. apply HU in Hu1 as [Hs1 Hs2]. apply HN in Hn1 as [Hn1 Hn3].
    pose proof (supported_bound c u Hc Hs1) as Huc.
    destruct (Z.eqb_spec n u) as [->|Hne].
    + exists (Some u). split; [|by apply hello_accept_max].
      intros v. split.
      * intros (Hv1 & Hv2 & Hv3). f_equal. apply Z.le_antisymm; [by apply Hv3|].
        apply Hu2, list_elem_of_In, HU. done.
      * intros [= <-]. split; [done|]. split; [done|]. intros w Hw Hwc. apply Hn2, list_elem_of_In, HN. done.
    + exists None. split.
      * intros v. split; [|done]. intros (Hv1 & Hv2 & Hv3). destruct Hne. apply Z.le_antisymm.
        -- transitivity v; [by apply Hv3|]. apply Hu2, list_elem_of_In, HU. done.
        -- apply Hn2, list_elem_of_In, HN. done.
      * destruct (max_version S) as [sm|] eqn:Hsm; [by eexists|].
        apply max_version_err in Hsm. rewrite Hsm in Hs2. by apply elem_of_nil in Hs2.
  - apply max_version_err in Hn. apply max_version_spec in Hu as [Hu _]. apply HU in Hu as [Hu1 Hu2].
    assert (u ∈ N) as Hbad by (apply HN; split; [by apply (supported_bound c)|done]).
    rewrite Hn in Hbad. by apply elem_of_nil in Hbad.
  - apply max_version_err in Hu. exists None. split; [|by eexists].
    intros v. split; [|done]. intros (Hv1 & Hv2 & _).
    assert (v ∈ U) as Hbad by (by apply HU). rewrite Hu in Hbad. by apply elem_of_nil in Hbad.
  - apply max_version_err in Hu. exists None. split; [|rewrite Hu; cbn [hello_accept]; by eexists].
    intros v. split; [|done]. intros (Hv1 & Hv2 & _).
    assert (v ∈ U) as Hbad by (by apply HU). rewrite Hu in Hbad. by apply elem_of_nil in Hbad.
Qed.

Lemma hello_decision c mv els d : max_version supported_ofp_version = Ok c -> version d = c ->
  exists o, (forall v, agreed c mv els v <-> o = Some v)
    /\ match o with
       | Some v => hello_handler desc_text mv els d = accept v d
       | None => exists desc, hello_handler desc_text mv els d = _hello_failed desc_text desc d
       end.
Proof.
  intros Hc Hd. destruct els as [|e els]; [by apply hello_plain|by apply hello_elements].
Qed.

(** *** Every handler keeps the connection well-formed *)

Lemma msg_event_ok d m st : conn_ok d -> conn_ok (send_event_to_observers (EventOFPMsg m) st d).2.
Proof.
  intros [H1 H2 H3 H4 H5 H6 H7]. split; try done.
  rewrite changes_snoc, app_nil_r. done.
Qed.

Lemma path_state l st : path l st -> st = HANDSHAKE_DISPATCHER -> l = [HANDSHAKE_DISPATCHER].
Proof. intros [| | | l' st' _] Hs; congruence. Qed.

Lemma path_state_config l st : path l st -> st = CONFIG_DISPATCHER ->
  l = [HANDSHAKE_DISPATCHER; CONFIG_DISPATCHER].
Proof. intros [| | | l' st' _] Hs; congruence. Qed.

Lemma main_ok d : conn_ok d -> state d = CONFIG_DISPATCHER -> conn_ok (set_state MAIN_DISPATCHER d).2.
Proof.
  intros H Hs. apply set_state_ok; [done| |done|left; by rewrite Hs].
  rewrite (path_state_config _ _ (co_path _ H) Hs). constructor.
Qed.

Lemma accept_ok d v r d' : conn_ok d -> state d = HANDSHAKE_DISPATCHER -> v ∈ supported_ofp_version ->
  accept v d = (r, d') -> conn_ok d'.
Proof.
  intros H Hs Hv Hr.
  change (send_msg SendFeaturesRequest None (set_state CONFIG_DISPATCHER (with_version v d)).2 = (r, d')) in Hr.
  eapply sent_ok; [exact (send_msg_sent _ _ _ _ _ Hr)|]. destruct H as [H1 H2 H3 H4 H5 H6 H7].
  split; try done.
  - rewrite changes_set_state. change (changes (with_version v d)) with (changes d).
    rewrite (path_state _ _ H5 Hs). constructor.
  - intros Ha. apply H6 in Ha. by rewrite Hs in Ha.
  - intros Ha. apply H7 in Ha. by rewrite Hs in Ha.
Qed.

Lemma hello_ok mv els d r d' : conn_ok d -> state d = HANDSHAKE_DISPATCHER ->
  hello_handler desc_text mv els d = (r, d') -> conn_ok d'.
Proof.
  intros H Hs. destruct (co_new _ H Hs) as [_ Hc].
  destruct (hello_decision (version d) mv els d Hc eq_refl) as (o & Ho & Hh).
  destruct o as [v|].
  - rewrite Hh. apply accept_ok; [done|done|]. by apply (Ho v).
  - destruct Hh as [desc ->]. unfold _hello_failed. intros Hr. eapply sent_ok; [|exact H]. exact (send_msg_sent _ _ _ _ _ Hr).
Qed.

Lemma features_handler_ok id ps d r d' : conn_ok d -> state d = CONFIG_DISPATCHER ->
  switch_features_handler id ps d = (r, d') -> conn_ok d'.
Proof.
  intros H Hs. set (d1 := with_ports (Some (if version d <? 4 then ps else ∅)) (with_id (Some id) d)).
  change (switch_features_handler id ps d)
    with ((if version d <? 4 then set_state MAIN_DISPATCHER
           else send_msg (SendPortDescStatsRequest 0) None) d1).
  assert (Hd1 : conn_ok d1).
  { destruct H as [H1 H2 H3 H4 H5 H6 H7]. split; cbn; try done. by rewrite Hs. }
  destruct (version d <? 4).
  - intros [= <- <-]. by apply (main_ok d1).
  - intros Hr. eapply sent_ok; [exact (send_msg_sent _ _ _ _ _ Hr)|done].
Qed.

Lemma store_port_eq p d :
  store_port p d = match ports d with
                   | None => (Err TypeError, d)
                   | Some m => (Ok tt, with_ports (Some (<[port_no p := p]> m)) d)
                   end.
Proof. unfold store_port. stm_unfold. by destruct (ports d). Qed.

Lemma store_ports_ok body : forall d r d', conn_ok d -> iterM store_port body d = (r, d') ->
  conn_ok d' /\ state d' = state d.
Proof.
  induction body as [|p body IH]; intros d r d' H; cbn [iterM].
  - by intros [= <- <-].
  - unfold mbind, stm_bind. rewrite store_port_eq. destruct (ports d) as [m|] eqn:Hp.
    + intros Hr. apply IH in Hr as [Hr1 Hr2]; [done|].
      destruct H as [H1 H2 H3 H4 H5 H6 H7]. split; cbn; try done. rewrite Hp in H3. split; [done|]. by intros ?%H3.
    + intros [= <- <-]. done.
Qed.

Lemma dispatch_ok v x m d r d' : conn_ok d -> dispatch desc_text v x m d = (r, d') -> conn_ok d'.
Proof.
  intros H. unfold dispatch. stm_unfold. 
  set (d1 := Datapath _ _ _ _ _ _ _ _ _).
  assert (Hd1 : conn_ok d1) by (by apply (msg_event_ok d m (state d))).
  case_bool_decide as Hin; [|by intros [= <- <-]].
  destruct m; cbn [handler dispatchers] in *; rewrite ?list_elem_of_singleton in Hin.
  - by apply hello_ok.
  - by apply features_handler_ok.
  - unfold multipart_reply_handler. stm_unfold.
    destruct (iterM store_port body d1) as [[u|e] d2] eqn:Hi;
      destruct (store_ports_ok _ _ _ _ Hd1 Hi) as [H2 Hs2]; [|by intros [= <- <-]].
    destruct (_ =? 0); intros [= <- <-]; [|done]. apply (main_ok d2); [done|by rewrite Hs2].
  - unfold echo_request_handler. intros Hr. eapply sent_ok; [exact (send_msg_sent _ _ _ _ _ Hr)|done].
  - unfold error_msg_handler. stm_unfold. destruct (MsgBase.header data); by intros [= <- <-].
  - unfold exp_error_msg_handler. stm_unfold. destruct (_ =? _); [|by intros [= <- <-]].
    stm_unfold. destruct (unpack_from _ _ _); by intros [= <- <-].
  - by intros [= <- <-].
Qed.

Lemma message_loop_ok fuel : forall buf n d r d', conn_ok d ->
  message_loop desc_text fuel buf n d = Some (r, d') -> conn_ok d'.
Proof.
  induction fuel as [|fuel IH]; intros buf n d r d' H; cbn [message_loop]; [done|].
  destruct (n <=? _); [|by intros [= <- <-]].
  destruct (MsgBase.header buf) as [[[[v ty] len] x]|e]; [|by intros [= <- <-]].
  destruct (_ <? len); [by intros [= <- <-]|].
  destruct (receive _ _ _ _ _ _ _) as [[[u|e] d1]|] eqn:Hr; [| |done].
  - intros Hl. eapply IH; [|exact Hl]. unfold receive in Hr.
    destruct (msg _ _ _ _) as [[[m|]|]|]; [|by simplify_eq|done|done].
    injection Hr as Hr. by eapply dispatch_ok.
  - intros [= <- <-]. unfold receive in Hr.
    destruct (msg _ _ _ _) as [[[m|]|]|]; [|done|by simplify_eq|done].
    injection Hr as Hr. by eapply dispatch_ok.
Qed.

Lemma recv_loop_ok fuel script : forall buf n d o d', conn_ok d ->
  recv_loop desc_text fuel script buf n d = Some (o, d') -> conn_ok d'.
Proof.
  induction script as [|[b| | |] script IH]; intros buf n d o d' H; cbn [recv_loop].
  - by intros [= <- <-].
  - destruct (_ || _); [intros [= <- <-]; by apply deactivate_ok|].
    destruct (message_loop _ _ _ _ _) as [[[[buf' n']|e] d1]|] eqn:Hm; [| |done].
    + apply IH. by eapply message_loop_ok.
    + intros [= <- <-]. apply deactivate_ok. by eapply message_loop_ok.
  - destruct (close_requested d); [intros [= <- <-]; by apply deactivate_ok|]. by apply IH.
  - intros [= <- <-]. by apply close_ok.
  - apply IH. by apply close_ok.
Qed.

(** *** What the handlers leave alone *)

(** Properties of the queue and of the request to close only: they hold after a handler
    when sending keeps them. *)
Definition same_queue (d d' : datapath) : Prop :=
  send_q d' = send_q d /\ close_requested d' = close_requested d.

Definition keeps (Q : datapath -> Prop) {A} (m : stm datapath A) : Prop := forall d, Q d -> Q (m d).2.

Record stable (Q : datapath -> Prop) : Prop := {
  st_same : forall d d', same_queue d d' -> Q d -> Q d';
  st_send : forall m x, keeps Q (send_msg m x) }.

Section Keeps.
Context (Q : datapath -> Prop) (HQ : stable Q).

Lemma dp_keeps_bind {A B} (m : stm datapath A) (f : A -> stm datapath B) :
  keeps Q m -> (forall a, keeps Q (f a)) -> keeps Q (m ≫= f).
Proof.
  intros Hm Hf d Hd. unfold mbind, stm_bind. specialize (Hm d Hd).
  destruct (m d) as [[a|e] d1]; [|done]. by apply Hf.
Qed.

Lemma dp_keeps_ret {A} (a : A) : keeps Q (mret a).
Proof. by intros d. Qed.
Lemma dp_keeps_raise {A} e : keeps Q (raise e : stm datapath A).
Proof. by intros d. Qed.
Lemma dp_keeps_gets {A} (f : datapath -> A) : keeps Q (gets f).
Proof. by intros d. Qed.
Lemma dp_keeps_lift {A} (r : res A) : keeps Q (lift_res r).
Proof. by intros d. Qed.
Lemma keeps_modify f : (forall d, same_queue d (f d)) -> keeps Q (modify f).
Proof. intros H d. by apply (st_same Q HQ). Qed.

Ltac keeps_tac :=
  repeat first
    [ apply (st_send Q HQ) | apply dp_keeps_bind; [|intros] | apply dp_keeps_ret | apply dp_keeps_raise
    | apply dp_keeps_gets | apply dp_keeps_lift | (apply keeps_modify; by intros)
    | case_match ].

Lemma keeps_dispatch v x m : keeps Q (dispatch desc_text v x m).
Proof using HQ.
  assert (Hset : forall st, keeps Q (set_state st))
    by (intros st; unfold set_state, send_event_to_observers; keeps_tac).
  unfold dispatch, send_event_to_observers. keeps_tac.
  destruct m; cbn [handler];
    unfold hello_handler, _hello_failed, hello_accept, set_version, switch_features_handler,
      multipart_reply_handler, echo_request_handler, error_msg_handler, exp_error_msg_handler;
    keeps_tac; try apply Hset.
  clear -HQ. induction body as [|p body IH]; cbn [iterM]; [apply dp_keeps_ret|].
  apply dp_keeps_bind; [|intros; exact IH]. unfold store_port. keeps_tac.
Qed.

Lemma keeps_receive v ty len x buf d r d' : receive desc_text v ty len x buf d = Some (r, d') -> Q d -> Q d'.
Proof using HQ.
  unfold receive. destruct (msg _ _ _ _) as [[[m|]|]|]; [|by intros [= <- <-]|by intros [= <- <-]|done].
  intros [= Hd] Hq. pose proof (keeps_dispatch v x m d Hq) as H. by rewrite Hd in H.
Qed.

Lemma keeps_message_loop fuel : forall buf n d r d', Q d ->
  message_loop desc_text fuel buf n d = Some (r, d') -> Q d'.
Proof using HQ.
  induction fuel as [|fuel IH]; intros buf n d r d' H; cbn [message_loop]; [done|].
  destruct (n <=? _); [|by intros [= <- <-]].
  destruct (MsgBase.header buf) as [[[[v ty] len] x]|e]; [|by intros [= <- <-]].
  destruct (_ <? len); [by intros [= <- <-]|].
  destruct (receive _ _ _ _ _ _ _) as [[[u|e] d1]|] eqn:Hr; [| |done].
  - apply IH. by eapply keeps_receive.
  - intros [= <- <-]. by eapply keeps_receive.
Qed.

Lemma keeps_recv_loop fuel script :
  (forall d, Q d -> Q (deactivate d)) -> (forall d, Q d -> Q (with_close true d)) ->
  forall buf n d o d', Q d -> recv_loop desc_text fuel script buf n d = Some (o, d') -> Q d'.
Proof using HQ.
  intros HD HC. induction script as [|[b| | |] script IH]; intros buf n d o d' H; cbn [recv_loop].
  - by intros [= <- <-].
  - destruct (_ || _); [intros [= <- <-]; by apply HD|].
    destruct (message_loop _ _ _ _ _) as [[[[buf' n']|e] d1]|] eqn:Hm; [| |done].
    + apply IH. by eapply keeps_message_loop.
    + intros [= <- <-]. apply HD. by eapply keeps_message_loop.
  - destruct (close_requested d); [intros [= <- <-]; by apply HD|]. by apply IH.
  - intros [= <- <-]. by apply HD, HC.
  - apply IH. by apply HD, HC.
Qed.
End Keeps.

Lemma close_stable c : stable (fun d => close_requested d = c).
Proof.
  split; [by intros d d' [_ ->]|]. intros m x d Hd.
  destruct (send_msg m x d) as [r d'] eqn:Hs. by apply send_msg_sent in Hs as (y & q & -> & _).
Qed.

Definition queue_framed (d : datapath) : Prop := Forall framed (default [] (send_q d)).

Lemma queue_stable `{!ProtocolsLaws P} : stable queue_framed.
Proof.
  split; [intros d d' [Hq _]; unfold queue_framed; by rewrite Hq|]. intros m x d Hd.
  destruct (send_msg m x d) as [r d'] eqn:Hs.
  apply send_msg_sent in Hs as (y & q & -> & _ & [->|(b & z & Hb & ->)]); [done|].
  unfold queue_framed in *. cbn. destruct (send_q d) as [l|]; [|done]. cbn in *.
  apply Forall_app. split; [done|]. constructor; [by eapply serialize_framed|done].
Qed.

Lemma receive_close v ty len x buf d r d' : receive desc_text v ty len x buf d = Some (r, d') ->
  close_requested d' = close_requested d.
Proof. intros H. by apply (keeps_receive _ (close_stable (close_requested d)) _ _ _ _ _ _ _ _ H). Qed.

(** *** Messages of a stream *)

(** The specification of the receive loop: the messages of a byte stream, one after
    the other, while one is complete; what is left is returned. *)
Fixpoint deliver (fuel : nat) (stream : bytes) (d : datapath) : option (res bytes * datapath) :=
  match fuel with
  | O => None
  | S fuel =>
      match MsgBase.header stream with
      | Err _ => Some (Ok stream, d)
      | Ok (version, msg_type, msg_len, xid) =>
          if Z.of_nat (length stream) <? msg_len then Some (Ok stream, d)
          else match receive desc_text version msg_type msg_len xid stream d with
               | None => None
               | Some (Err e, d) => Some (Err e, d)
               | Some (Ok _, d) => deliver fuel (drop (Z.to_nat msg_len) stream) d
               end
      end
  end.

(** The number of bytes the loop waits for with [buf] in hand. *)
Definition required (buf : bytes) : Z :=
  match MsgBase.header buf with Ok (_, _, msg_len, _) => msg_len | Err _ => 8 end.

Definition incomplete (buf : bytes) : Prop :=
  (length buf < 8)%nat \/ Z.of_nat (length buf) < required buf.

Lemma header_short buf : (length buf < 8)%nat -> MsgBase.header buf = Err AssertionError.
Proof. intros H. unfold MsgBase.header. by rewrite (proj2 (Nat.leb_gt _ _)) by (unfold OFP_HEADER_SIZE; lia). Qed.

Lemma header_long buf : (8 <= length buf)%nat -> exists h, MsgBase.header buf = Ok h.
Proof.
  intros H. unfold MsgBase.header. rewrite (proj2 (Nat.leb_le _ _)) by (unfold OFP_HEADER_SIZE; lia).
  fmt_eval. rewrite funpack_from_ok by (cbn; lia). by eexists.
Qed.

Lemma header_app buf t : (8 <= length buf)%nat -> MsgBase.header (buf ++ t) = MsgBase.header buf.
Proof.
  intros H. unfold MsgBase.header.
  rewrite !(proj2 (Nat.leb_le _ _)) by (rewrite ?length_app; unfold OFP_HEADER_SIZE; lia).
  fmt_eval. rewrite !funpack_from_ok by (rewrite ?length_app; cbn; lia).
  cbn [py_assert mbind res_bind f_codes f_order unpack_codes].
  rewrite !drop_drop, !drop_0. rewrite !drop_app_le by lia.
  by rewrite !take_app_le by (rewrite ?length_drop; lia).
Qed.

Lemma deliver_mono k : forall s d R, deliver k s d = Some R -> forall n, (k <= n)%nat -> deliver n s d = Some R.
Proof.
  induction k as [|k IH]; intros s d R; cbn [deliver]; [done|].
  intros H [|n] Hn; [lia|]. cbn [deliver].
  destruct (MsgBase.header s) as [[[[v ty] len] x]|]; [|done].
  destruct (_ <? len); [done|]. destruct (receive _ _ _ _ _ _ _) as [[[u|e] d1]|]; [|done|done].
  apply (IH _ _ _ H). lia.
Qed.

(** What is left is not a complete message. *)
Lemma deliver_rest k : forall s d rest d', deliver k s d = Some (Ok rest, d') -> incomplete rest.
Proof.
  induction k as [|k IH]; intros s d rest d'; cbn [deliver]; [done|].
  destruct (MsgBase.header s) as [[[[v ty] len] x]|] eqn:Hh.
  - destruct (Z.ltb_spec (Z.of_nat (length s)) len).
    + intros [= <- <-]. right. unfold required. by rewrite Hh.
    + destruct (receive _ _ _ _ _ _ _) as [[[u|e] d1]|]; [|done|done]. apply IH.
  - intros [= <- <-]. left. destruct (le_lt_dec 8 (length s)) as [H8|]; [|done].
    apply header_long in H8 as [h H8]. congruence.
Qed.

(** A message that is complete in a prefix is received from the prefix. *)
Lemma receive_app v ty len x s t d : 0 <= len <= Z.of_nat (length s) ->
  receive desc_text v ty len x (s ++ t) d = receive desc_text v ty len x s d.
Proof. intros H. unfold receive. by rewrite take_app_le by lia. Qed.

Lemma header_len_pos buf v ty len x : MsgBase.header buf = Ok (v, ty, len, x) -> bytes_ok buf -> 0 <= len.
Proof.
  intros H Hb. destruct (le_lt_dec 8 (length buf)) as [H8|H8]; [|by rewrite header_short in H].
  unfold MsgBase.header in H. rewrite (proj2 (Nat.leb_le _ _)) in H by (unfold OFP_HEADER_SIZE; lia).
  fmt_eval. rewrite funpack_from_ok in H by (cbn; lia).
  cbn [py_assert mbind res_bind f_codes f_order unpack_codes decode] in H. injection H as _ _ <- _.
  apply be_decode_bound. apply Forall_take. by repeat apply Forall_drop.
Qed.

Lemma deliver_split k : forall s t d R, bytes_ok s -> deliver k (s ++ t) d = Some R ->
  (exists rest d1, deliver k s d = Some (Ok rest, d1) /\ bytes_ok rest /\ deliver k (rest ++ t) d1 = Some R
                   /\ close_requested d1 = close_requested d)
  \/ exists e d1, deliver k s d = Some (Err e, d1) /\ R = (Err e, d1).
Proof.
  induction k as [|k IH]; intros s t d R Hb H; [done|].
  destruct (le_lt_dec 8 (length s)) as [H8|H8].
  - pose proof H as Hall. cbn [deliver] in H |- *. rewrite header_app in H by done.
    destruct (MsgBase.header s) as [[[[v ty] len] x]|e] eqn:Hh; [|by left; exists s, d].
    pose proof (header_len_pos _ _ _ _ _ Hh Hb) as Hpos.
    destruct (Z.ltb_spec (Z.of_nat (length s)) len) as [Hlen|Hlen].
    { left. exists s, d. split; [done|]. split; [done|]. by split. }
    rewrite (proj2 (Z.ltb_ge _ _)) in H by (rewrite length_app; lia).
    rewrite receive_app, drop_app_le in H by lia.
    destruct (receive _ _ _ _ _ _ _) as [[[u|e] d1]|] eqn:Hr; [| |done].
    + destruct (IH _ _ _ _ (Forall_drop _ (Z.to_nat len) _ Hb) H) as [(rest & d2 & H1 & H2 & H3 & H4)|He];
        [|by right].
      left. exists rest, d2. split; [done|]. split; [done|].
      split; [by apply (deliver_mono k _ _ _ H3 (S k) ltac:(lia))|].
      rewrite H4. by eapply receive_close.
    + injection H as <-. right. by exists e, d1.
  - left. exists s, d. split; [cbn [deliver]; by rewrite header_short|]. by split.
Qed.

(** The loop over the buffer delivers the messages of the buffer. *)
Lemma message_loop_deliver k : forall buf n d, n = 8 \/ (8 <= length buf)%nat /\ n = required buf ->
  message_loop desc_text k buf n d
  = match deliver k buf d with
    | Some (Ok rest, d') => Some (Ok (rest, required rest), d')
    | Some (Err e, d') => Some (Err e, d')
    | None => None
    end.
Proof.
  induction k as [|k IH]; intros buf n d Hn; [done|]. cbn [message_loop deliver].
  destruct (le_lt_dec 8 (length buf)) as [H8|H8].
  - unfold required in Hn. destruct (header_long buf H8) as [[[[v ty] len] x] Hh]. rewrite Hh in Hn |- *.
    destruct (Z.ltb_spec (Z.of_nat (length buf)) len) as [Hl|Hl].
    + unfold required. rewrite Hh. destruct (n <=? _) eqn:E; [done|].
      destruct Hn as [-> | [_ ->]]; [|done]. apply Z.leb_gt in E. lia.
    + rewrite (proj2 (Z.leb_le n _)) by lia.
      destruct (receive _ _ _ _ _ _ _) as [[[u|e] d1]|]; [|done|done]. apply IH. by left.
  - destruct Hn as [-> | [Hn _]]; [|lia]. rewrite (proj2 (Z.leb_gt _ _)) by lia.
    rewrite header_short by done. unfold required. by rewrite header_short.
Qed.

(** The receive loop over chunks of data delivers the messages of the stream they
    make up. *)
Lemma recv_chunks k : forall chunks buf d R d', Forall (fun c => c <> [] /\ bytes_ok c) chunks ->
  bytes_ok buf -> incomplete buf -> close_requested d = false ->
  deliver k (buf ++ mjoin chunks) d = Some (R, d') ->
  recv_loop desc_text k (Data <$> chunks) buf (required buf) d
  = Some (match R with
          | Ok rest => (Waiting rest (required rest), d')
          | Err e => (Ended (Err e), deactivate d')
          end).
Proof.
  induction chunks as [|c chunks IH]; intros buf d R d' Hc Hb Hi Hcl H.
  - cbn [mjoin list_join] in H. rewrite app_nil_r in H. destruct k; [done|].
    cbn [deliver] in H. cbn [fmap list_fmap recv_loop]. unfold incomplete, required in *.
    destruct (MsgBase.header buf) as [[[[v ty] len] x]|] eqn:Hh.
    + rewrite (proj2 (Z.ltb_lt _ _)) in H; [injection H as <- <-; by rewrite Hh|].
      destruct Hi as [Hi|Hi]; [|done]. by rewrite header_short in Hh.
    + injection H as <- <-. by rewrite Hh.
  - pose proof (Forall_inv Hc) as [Hne Hcb]. cbn [fmap list_fmap recv_loop].
    destruct c as [|b c]; [done|]. cbn [length]. rewrite Hcl. cbn [Nat.eqb orb].
    rewrite message_loop_deliver.
    2:{ destruct (le_lt_dec 8 (length buf)) as [H8|H8].
        - right. split; [rewrite length_app; lia|]. unfold required. by rewrite header_app.
        - left. unfold required. by rewrite header_short. }
    change (mjoin ((b :: c) :: chunks)) with ((b :: c) ++ mjoin chunks) in H. rewrite app_assoc in H.
    apply deliver_split in H as [(rest & d1 & H1 & H2 & H3 & H4)|(e & d1 & H1 & H2)];
      [| |by apply Forall_app].
    + rewrite H1. apply (IH _ _ _ _ (Forall_inv_tail Hc)); [done|by eapply deliver_rest|congruence|done].
    + rewrite H1. by injection H2 as -> ->.
Qed.

(** *** Frames *)

(** The messages of a connection, one after the other, with their headers. *)
Fixpoint run_frames (frames : list bytes) (d : datapath) : option (res unit * datapath) :=
  match frames with
  | [] => Some (Ok tt, d)
  | f :: fs =>
      match MsgBase.header f with
      | Err e => Some (Err e, d)
      | Ok (v, ty, len, x) =>
          match receive desc_text v ty len x f d with
          | Some (Ok _, d) => run_frames fs d
          | r => r
          end
      end
  end.

Lemma framed_length b : framed b -> (8 <= length b)%nat.
Proof.
  intros (v & ty & x & H). destruct (le_lt_dec 8 (length b)); [done|]. by rewrite header_short in H.
Qed.

Lemma deliver_frames frames : forall rest d r d', Forall framed frames -> incomplete rest ->
  run_frames frames d = Some (r, d') ->
  deliver (S (length frames)) (mjoin frames ++ rest) d
  = Some (match r with Ok _ => Ok rest | Err e => Err e end, d').
Proof.
  induction frames as [|f fs IH]; intros rest d r d' Hf Hi H; cbn [run_frames length] in H |- *.
  - injection H as <- <-. cbn [deliver mjoin list_join app]. unfold incomplete, required in Hi.
    destruct (MsgBase.header rest) as [[[[v ty] len] x]|] eqn:Hh; [|done].
    rewrite (proj2 (Z.ltb_lt _ _)); [done|]. destruct Hi as [Hi|Hi]; [|done]. by rewrite header_short in Hh.
  - pose proof (Forall_inv Hf) as Hff. pose proof (framed_length f Hff) as H8.
    destruct Hff as (v & ty & x & Hh). rewrite Hh in H.
    cbn [deliver]. change (mjoin (f :: fs)) with (f ++ mjoin fs). rewrite <- app_assoc, header_app, Hh by done.
    rewrite (proj2 (Z.ltb_ge _ _)) by (rewrite length_app; lia).
    rewrite receive_app, Nat2Z.id, drop_app_length by lia.
    destruct (receive _ _ _ _ _ _ _) as [[[u|e] d1]|]; [| |done].
    + exact (IH rest d1 r d' (Forall_inv_tail Hf) Hi H).
    + by injection H as <- <-.
Qed.

End Facts.

(** *** OpenFlow 1.3 keeps the laws *)

Lemma msg_base_framed v ty xid body b : MsgBase.serialize v ty xid body = Ok b -> framed b.
Proof.
  unfold MsgBase.serialize, MsgBase.serialize_header. intros H.
  apply bind_Ok in H as (buf & _ & H). apply bind_Ok in H as (u & Hu & H).
  assert (H8 : (8 <= length buf)%nat).
  { unfold py_assert in Hu. destruct (OFP_HEADER_SIZE <=? length buf)%nat eqn:E; [|done].
    by apply Nat.leb_le in E. }
  fmt_eval. unfold fpack_into in H. apply bind_Ok in H as (h & Hh & H).
  pose proof (fpack_length _ _ _ Hh) as Hl. change (fmt_size _) with 8%nat in Hl, H.
  rewrite (proj2 (Nat.leb_le _ _)) in H by lia. injection H as <-.
  exists v, ty, (default 0 xid). cbn [take app].
  unfold MsgBase.header. rewrite (proj2 (Nat.leb_le _ _)) by (rewrite length_app, Hl; unfold OFP_HEADER_SIZE; lia).
  fmt_eval. rewrite (unpack_from_pack0 _ _ _ _ Hh). cbn [py_assert mbind res_bind fit_args f_codes].
  do 3 f_equal. rewrite length_app, length_drop. cbn [Nat.add]. lia.
Qed.

Lemma with_of13_laws `{C : AddrConv} pf other supported :
  supported <> [] -> ProtocolsLaws other -> ProtocolsLaws (with_of13 pf other supported).
Proof.
  intros Hs Ho. split; [done|]. intros v m x b. cbn [with_of13 msg_serialize].
  destruct (v =? OFP_VERSION); [|apply serialize_framed].
  destruct m; cbn [serialize13]; apply msg_base_framed.
Qed.

End ConnFacts.

(** ** Properties of a connection *)

Module ConnClaims.
Import ConnFacts.

Section Claims.
Context `{P : Protocols} (desc_text : error_desc -> bytes).

(** C4: The receive loop implements the sequence of messages: however the bytes of a
    connection are cut into the chunks that [recv] returns, the messages are received
    one by one in their order, each by itself, the loop then waits for the rest of the
    message that is not complete, and the first exception ends the connection. *)
Theorem recv_refines_messages (chunks frames : list bytes) (rest : bytes) (d d' : datapath)
    (r : res unit)
    (Hc : Forall (fun c => c <> [] /\ bytes_ok c) chunks)
    (Hs : mjoin chunks = mjoin frames ++ rest)
    (Hf : Forall framed frames) (Hrest : incomplete rest)
    (Hopen : close_requested d = false) (Hrun : run_frames desc_text frames d = Some (r, d')) :
  forall fuel, (length frames < fuel)%nat ->
    recv_loop desc_text fuel (Data <$> chunks) [] (Z.of_nat OFP_HEADER_SIZE) d
    = Some (match r with
            | Ok _ => (Waiting rest (required rest), d')
            | Err e => (Ended (Err e), deactivate d')
            end).
Proof.
  intros fuel Hfuel. pose proof (deliver_frames desc_text frames rest d r d' Hf Hrest Hrun) as Hd.
  apply (deliver_mono _ _ _ _ _) with (n := fuel) in Hd; [|lia].
  rewrite <- Hs in Hd. change (Z.of_nat OFP_HEADER_SIZE) with (required []).
  rewrite (recv_chunks desc_text fuel chunks [] d _ d' Hc ltac:(constructor) ltac:(left; cbn; lia) Hopen Hd).
  by destruct r.
Qed.

(** A message whose header announces the length zero and whose parser raises is never
    taken off the buffer: the loop does not end, whatever the fuel. *)
Theorem zero_length_message_diverges (v ty x : Z) (buf : bytes) (d : datapath) (e : exn)
    (Hh : MsgBase.header buf = Ok (v, ty, 0, x)) (Hv : has_parser v = true)
    (Hp : msg_parser v ty 0 [] = Some (Err e)) :
  forall fuel, message_loop desc_text fuel buf (Z.of_nat OFP_HEADER_SIZE) d = None.
Proof.
  assert (H8 : (8 <= length buf)%nat)
    by (destruct (le_lt_dec 8 (length buf)); [done|by rewrite header_short in Hh]).
  induction fuel as [|fuel IH]; [done|]. cbn [message_loop].
  rewrite (proj2 (Z.leb_le _ _)) by (unfold OFP_HEADER_SIZE; lia). rewrite Hh.
  rewrite (proj2 (Z.ltb_ge _ 0)) by lia. unfold receive, msg. change (Z.to_nat 0) with 0%nat. rewrite take_0.
  cbn [length py_assert mbind run_bind lift]. rewrite Hv, Hp. exact IH.
Qed.




(** An error message whose data is shorter than a message header ends the connection:
    the handler takes the data for the message the error answers. *)
Theorem short_error_ends_connection (v x : Z) (data : bytes) (d : datapath)
    (Hs : state d <> DEAD_DISPATCHER) (Hd : (length data < 8)%nat) :
  (dispatch desc_text v x (RecvErrorMsg data) d).1 = Err AssertionError.
Proof.
  unfold dispatch. stm_unfold. rewrite bool_decide_eq_true_2.
  - cbn [handler]. unfold error_msg_handler. stm_unfold. by rewrite header_short.
  - cbn [dispatchers]. destruct (state d); [by left|by right; left|by right; right; left|done].
Qed.

(** A message of the connection, as it is parsed. *)
Definition parsed (f : bytes) (v x : Z) (m : in_msg port) : Prop :=
  exists ty, MsgBase.header f = Ok (v, ty, Z.of_nat (length f), x) /\ has_parser v = true
    /\ msg_parser v ty (Z.of_nat (length f)) f = Some (Ok m).

Lemma run_frame f v x m fs d : parsed f v x m ->
  run_frames desc_text (f :: fs) d
  = match dispatch desc_text v x m d with
    | (Ok _, d) => run_frames desc_text fs d
    | r => Some r
    end.
Proof.
  intros (ty & Hh & Hv & Hp). cbn [run_frames]. rewrite Hh. unfold receive, msg. rewrite Nat2Z.id, take_ge by done.
  rewrite (proj2 (Z.leb_le _ _)) by done. cbn [py_assert mbind run_bind lift]. rewrite Hv, Hp.
  by destruct (dispatch desc_text v x m d) as [[u|e] d1].
Qed.

Lemma parsed_framed f v x m : parsed f v x m -> framed f.
Proof. intros (ty & H & _). by exists v, ty, x. Qed.

Lemma store_ports_all body : forall m d, ports d = Some m ->
  iterM store_port body d
  = (Ok tt, with_ports (Some (foldl (fun m p => <[port_no p := p]> m) m body)) d).
Proof.
  induction body as [|p body IH]; intros m d Hd; cbn [iterM foldl].
  - destruct d; cbn in Hd. by rewrite Hd.
  - unfold mbind, stm_bind. rewrite store_port_eq, Hd.
    by rewrite (IH (<[port_no p := p]> m) (with_ports (Some (<[port_no p := p]> m)) d) eq_refl).
Qed.

Lemma dispatch_in v x m d : state d ∈ dispatchers m ->
  dispatch desc_text v x m d
  = handler desc_text v x m (send_event_to_observers (EventOFPMsg m) (state d) d).2.
Proof. intros H. unfold dispatch. stm_unfold. by rewrite bool_decide_eq_true_2. Qed.

(** The messages of the handshake, one after the other. *)
Lemma handshake_run xid0 c mv v id fl x1 v2 x2 v3 x3 els ps body f1 f2 f3 b1 b2 d
    (Hi : init xid0 = Ok d) (Hmax : max_version supported_ofp_version = Ok c)
    (Hag : agreed c mv els v) (Hv : 4 <= v)
    (H1 : parsed f1 mv x1 (RecvHello els)) (H2 : parsed f2 v2 x2 (RecvSwitchFeatures id ps))
    (H3 : parsed f3 v3 x3 (RecvPortDescStatsReply fl body)) (Hfl : Z.land fl OFPMPF_REPLY_MORE = 0)
    (Hb1 : msg_serialize v SendFeaturesRequest (Z.land (xid0 + 1) MAX_XID) = Ok b1)
    (Hb2 : msg_serialize v (SendPortDescStatsRequest 0)
             (Z.land (Z.land (xid0 + 1) MAX_XID + 1) MAX_XID) = Ok b2) :
  close_requested d = false
  /\ exists d', run_frames desc_text [f1; f2; f3] d = Some (Ok tt, d')
    /\ state d' = MAIN_DISPATCHER /\ version d' = v /\ dpid d' = Some id
    /\ ports d' = Some (foldl (fun m p => <[port_no p := p]> m) ∅ body)
    /\ send_q d' = Some [b1; b2]
    /\ changes d' = [HANDSHAKE_DISPATCHER; CONFIG_DISPATCHER; MAIN_DISPATCHER].
Proof.
  unfold init in Hi. rewrite Hmax in Hi. injection Hi as <-. set (d0 := Datapath _ _ _ _ _ _ _ _ _).
  split; [done|].
  rewrite (run_frame _ _ _ _ _ _ H1), dispatch_in by (apply list_elem_of_here). cbn [handler].
  match goal with |- context [hello_handler _ _ _ ?x] => set (d1 := x) end.
  destruct (hello_decision desc_text c mv els d1 Hmax eq_refl) as (o & Ho & Hh).
  apply Ho in Hag as ->. rewrite Hh.
  change (accept v d1)
    with (send_msg SendFeaturesRequest None (set_state CONFIG_DISPATCHER (with_version v d1)).2).
  rewrite (send_msg_ok _ (set_state CONFIG_DISPATCHER (with_version v d1)).2 b1 Hb1), (run_frame _ _ _ _ _ _ H2), dispatch_in by (apply list_elem_of_here).
  cbn [handler]. match goal with |- context [switch_features_handler _ _ ?x] => set (d2 := x) end.
  change (switch_features_handler id ps d2)
    with ((if v <? 4 then set_state MAIN_DISPATCHER else send_msg (SendPortDescStatsRequest 0) None)
            (with_ports (Some (if v <? 4 then ps else ∅)) (with_id (Some id) d2))).
  rewrite (proj2 (Z.ltb_ge v 4)) by done.
  rewrite (send_msg_ok _ (with_ports (Some ∅) (with_id (Some id) d2)) b2 Hb2).
  rewrite (run_frame _ _ _ _ _ _ H3), dispatch_in by (apply list_elem_of_here). cbn [handler].
  match goal with |- context [multipart_reply_handler _ _ ?x] => set (d3 := x) end.
  unfold multipart_reply_handler. rewrite Hfl. unfold mbind, stm_bind.
  rewrite (store_ports_all body ∅ d3 eq_refl). cbn [Z.eqb run_frames].
  eexists. split; [reflexivity|]. do 4 (split; [done|]). split; [done|]. reflexivity.
Qed.

(** C13: Three messages complete the handshake with a switch of version 1.3 or later: a
    hello on which a version is agreed, the features, and a description of the ports
    that is the last one. However they arrive, the datapath ends in the main state
    with the agreed version, its id and its ports, after the states in order, and the
    features and the ports have been asked for. *)
Theorem handshake_completes (xid0 c mv v id fl x1 v2 x2 v3 x3 : Z) (els : list (list Z))
    (ps : gmap Z port) (body : list port) (f1 f2 f3 b1 b2 : bytes) (chunks : list bytes) (d : datapath)
    (Hi : init xid0 = Ok d) (Hmax : max_version supported_ofp_version = Ok c)
    (Hag : agreed c mv els v) (Hv : 4 <= v)
    (H1 : parsed f1 mv x1 (RecvHello els)) (H2 : parsed f2 v2 x2 (RecvSwitchFeatures id ps))
    (H3 : parsed f3 v3 x3 (RecvPortDescStatsReply fl body)) (Hfl : Z.land fl OFPMPF_REPLY_MORE = 0)
    (Hb1 : msg_serialize v SendFeaturesRequest (Z.land (xid0 + 1) MAX_XID) = Ok b1)
    (Hb2 : msg_serialize v (SendPortDescStatsRequest 0)
             (Z.land (Z.land (xid0 + 1) MAX_XID + 1) MAX_XID) = Ok b2)
    (Hc : Forall (fun c => c <> [] /\ bytes_ok c) chunks) (Hs : mjoin chunks = f1 ++ f2 ++ f3) :
  exists d', (forall fuel, (3 < fuel)%nat ->
      recv_loop desc_text fuel (Data <$> chunks) [] (Z.of_nat OFP_HEADER_SIZE) d = Some (Waiting [] 8, d'))
    /\ state d' = MAIN_DISPATCHER /\ version d' = v /\ dpid d' = Some id
    /\ ports d' = Some (foldl (fun m p => <[port_no p := p]> m) ∅ body)
    /\ send_q d' = Some [b1; b2]
    /\ changes d' = [HANDSHAKE_DISPATCHER; CONFIG_DISPATCHER; MAIN_DISPATCHER].
Proof.
  destruct (handshake_run xid0 c mv v id fl x1 v2 x2 v3 x3 els ps body f1 f2 f3 b1 b2 d
              Hi Hmax Hag Hv H1 H2 H3 Hfl Hb1 Hb2) as (Hcl & d' & Hrun & Hrest).
  exists d'. split; [|done]. intros fuel Hf.
  pose proof (deliver_frames desc_text [f1; f2; f3] [] d (Ok tt) d') as Hdel.
  apply deliver_mono with (n := fuel) in Hdel; [| |left; cbn; lia|done|done].
  - change (mjoin [f1; f2; f3]) with (f1 ++ f2 ++ f3 ++ []) in Hdel. rewrite !app_nil_r, <- Hs in Hdel.
    exact (recv_chunks desc_text fuel chunks [] d _ d' Hc ltac:(constructor) ltac:(left; cbn; lia) Hcl Hdel).
  - repeat constructor; by eapply parsed_framed.
Qed.

End Claims.

(** *** A connection with OpenFlow 1.3 alone *)

Definition no_other : Protocols := {|
  port := unit; port_no := fun _ => 0; supported_ofp_version := [1]; has_parser := fun _ => false;
  msg_parser := fun _ _ _ _ => Some (Err GenericException);
  msg_serialize := fun _ _ _ => Err GenericException |}.

Lemma no_other_laws : ProtocolsLaws no_other.
Proof. by split. Qed.

Definition of13 : Protocols := with_of13 (C := RawConv.conv) 100 no_other [4].
Definition no_text (e : error_desc) : bytes := [].

Definition hello_bytes : bytes := [4; 0; 0; 8; 0; 0; 0; 1].
Definition features_bytes : bytes :=
  [4; 6; 0; 32; 0; 0; 0; 2] ++ be_encode 8 7 ++ be_encode 4 256 ++ [254; 0; 0; 0] ++ replicate 8 0.
Definition sample_port : Port.t :=
  {| Port.port_no := 1; Port.hw_addr := "abcdef"; Port.name := [101; 49]; Port.config := 0; Port.state := 4;
     Port.curr := 0; Port.advertised := 0; Port.supported := 0; Port.peer := 0; Port.curr_speed := 10;
     Port.max_speed := 10 |}.
Definition port_bytes : bytes :=
  [4; 19; 0; 80; 0; 0; 0; 3; 0; 13; 0; 0; 0; 0; 0; 0] ++ be_encode 4 1 ++ replicate 4 0
  ++ [97; 98; 99; 100; 101; 102] ++ replicate 2 0 ++ [101; 49] ++ replicate 14 0
  ++ be_encode 4 0 ++ be_encode 4 4 ++ replicate 16 0 ++ be_encode 4 10 ++ be_encode 4 10.

Definition cut (n : nat) (b : bytes) : list bytes := [take n b; drop n b].

Definition start : datapath (P := of13) :=
  {| version := 4; xid := 41; dpid := None; ports := None; state := HANDSHAKE_DISPATCHER;
     send_active := true; close_requested := false; send_q := Some [];
     events := [(EventOFPStateChange HANDSHAKE_DISPATCHER, HANDSHAKE_DISPATCHER)] |}.

Lemma cut_ok n b : bytes_ok b -> (0 < n < length b)%nat ->
  Forall (fun c => c <> [] /\ bytes_ok c) (cut n b) /\ mjoin (cut n b) = b.
Proof.
  intros Hb Hn. split.
  - constructor; [|constructor; [|constructor]]; (split; [|by apply Forall_take || by apply Forall_drop]).
    + intros H. apply (f_equal length) in H. rewrite length_take in H. cbn in H. lia.
    + intros H. apply (f_equal length) in H. rewrite length_drop in H. cbn in H. lia.
  - cbn. by rewrite app_nil_r, take_drop.
Qed.

Lemma sample_bytes_ok : bytes_ok (hello_bytes ++ features_bytes ++ port_bytes).
Proof.
  apply Forall_forall. intros x Hx.
  assert (H : forallb (fun x => (0 <=? x) && (x <? 256)) (hello_bytes ++ features_bytes ++ port_bytes) = true)
    by (vm_compute; reflexivity).
  rewrite forallb_forall in H. specialize (H x Hx). unfold byte_ok. lia.
Qed.

Lemma recv_refines_messages_witness :
  recv_loop (P := of13) no_text 3 (Data <$> cut 5 (hello_bytes ++ [4; 0])) [] 8 start
  = Some (Waiting [4; 0] 8, (dispatch (P := of13) no_text 4 1 (RecvHello []) start).2).
Proof.
  destruct (cut_ok 5 (hello_bytes ++ [4; 0])) as [Hc Hj]; [repeat (apply Forall_cons || apply Forall_nil); unfold byte_ok; lia|cbn; lia|].
  apply (recv_refines_messages (P := of13) no_text (cut 5 (hello_bytes ++ [4; 0])) [hello_bytes] [4; 0]
           start _ (Ok tt) Hc Hj).
  - apply Forall_cons; [by exists 4, 0, 1|apply Forall_nil].
  - left. cbn. lia.
  - reflexivity.
  - rewrite (run_frame (P := of13) no_text hello_bytes 4 1 (RecvHello []) [] start);
      [|exists 0; repeat split; reflexivity].
    assert (Hok : (dispatch (P := of13) no_text 4 1 (RecvHello []) start).1 = Ok tt) by (vm_compute; reflexivity).
    destruct (dispatch (P := of13) no_text 4 1 (RecvHello []) start) as [r d'].
    cbn [fst snd] in Hok |- *. rewrite Hok. reflexivity.
  - cbn. lia.
Defined.

Lemma zero_length_message_diverges_witness :
  message_loop (P := of13) no_text 500 ([4; 1; 0; 0; 0; 0; 0; 9] ++ hello_bytes) 8 start = None.
Proof.
  apply (zero_length_message_diverges (P := of13) no_text 4 1 9 _ start StructError); reflexivity.
Defined.



Lemma start_ok : conn_ok start.
Proof. split; try done. apply list_elem_of_here. constructor. Qed.


Lemma short_error_ends_connection_witness :
  (dispatch (P := of13) no_text 4 9 (RecvErrorMsg [1; 2; 3]) start).1 = Err AssertionError.
Proof.
  apply (short_error_ends_connection (P := of13) no_text 4 9 [1; 2; 3] start); [discriminate|cbn; lia].
Defined.

Lemma handshake_completes_witness :
  exists d' b1 b2,
    recv_loop (P := of13) no_text 9 (Data <$> cut 21 (hello_bytes ++ features_bytes ++ port_bytes)) [] 8 start
    = Some (Waiting [] 8, d')
    /\ state d' = MAIN_DISPATCHER /\ dpid d' = Some 7 /\ send_q d' = Some [b1; b2]
    /\ ports d' = Some {[ 1 := inl sample_port ]}.
Proof.
  destruct (cut_ok 21 (hello_bytes ++ features_bytes ++ port_bytes)) as [Hc Hj];
    [apply sample_bytes_ok|vm_compute; lia|].
  destruct (handshake_completes (P := of13) no_text 41 4 4 4 7 0 1 4 2 4 3 [] ∅ [inl sample_port]
    hello_bytes features_bytes port_bytes
    [4; 5; 0; 8; 0; 0; 0; 42] [4; 18; 0; 16; 0; 0; 0; 43; 0; 13; 0; 0; 0; 0; 0; 0]
    (cut 21 (hello_bytes ++ features_bytes ++ port_bytes)) start) as (d' & Hr & H1 & _ & H2 & H3 & H4 & _).
  - reflexivity.
  - reflexivity.
  - split; [apply list_elem_of_here|reflexivity].
  - lia.
  - exists 0. repeat split; reflexivity.
  - exists 6. repeat split; reflexivity.
  - exists 19. repeat split; reflexivity.
  - reflexivity.
  - reflexivity.
  - reflexivity.
  - exact Hc.
  - exact Hj.
  - eexists d', _, _. split; [apply (Hr 9%nat); lia|]. split; [exact H1|]. split; [exact H2|].
    split; [exact H4|]. rewrite H3. reflexivity.
Defined.

End ConnClaims.
