(* ===== verification/Ovs.v ===== *)
(** * The Open vSwitch wrapper

    [OVSDatapath] of ryu/ofproto/beba_v1_0_parser.py: a datapath whose [send_msg]
    rewrites the messages of Beba for Open vSwitch, where a stateful stage [t] is a
    state table [2 t] and a flow table [2 t + 1] and the state is register 0. *)

From Stdlib Require Import ZArith Lia Ascii.
From stdpp Require Import base list gmap strings numbers pretty.
From S2P Require Import Prelude Struct OfpMsg Oxm BebaProto BebaMsg BebaStats PktUtils PktHeaders OxmUser OfpMatch OfpActions OfpInstr Controller.

Definition OFPFC_ADD : Z := 0.
Definition OFPFC_DELETE : Z := 3.
Definition OFPP_ANY : Z := 0xffffffff.
Definition OFPG_ANY : Z := 0xffffffff.

(** ** Loading a masked state *)

Module Loads.
Import FlowSpec.

(** ['{0:032b}'.format(z)] of a non-negative number. *)
Definition format_032b (z : Z) : list ascii :=
  let ds := Masked.bin_digits z in replicate (32 - length ds) "0"%char ++ ds.

(** [re.finditer('1+', s)]: first and last index of every maximal run; [cur] is the
    start of the run that is open. *)
Fixpoint find_runs (s : list ascii) (i : nat) (cur : option nat) : list (nat * nat) :=
  match s with
  | [] => match cur with Some b => [(b, (i - 1)%nat)] | None => [] end
  | c :: s =>
      if decide (c = "1"%char) then find_runs s (S i) (Some (default i cur))
      else match cur with
           | Some b => (b, (i - 1)%nat) :: find_runs s (S i) None
           | None => find_runs s (S i) None
           end
  end.

Definition copy_state : FlowSpec.t := NXFlowSpecLoad (SrcField ("reg0", 0)) ("reg0", 0) 32.

Definition load_run (masked_state_str : list ascii) (run : nat * nat) : res FlowSpec.t :=
  let '(s, e) := run in
  v ← Masked.int2 (take (e + 1 - s) (drop s masked_state_str));
  Ok (NXFlowSpecLoad (SrcImm v) ("reg0", 31 - Z.of_nat e) (Z.of_nat e - Z.of_nat s + 1)).

(** [zip] of no pair cannot be taken apart into two names. *)
Definition generate_NXFlowSpecLoad (state state_mask : Z) : res (list FlowSpec.t) :=
  if state_mask =? 0xffffffff then Ok [NXFlowSpecLoad (SrcImm state) ("reg0", 0) 32]
  else if state_mask =? 0 then Ok [copy_state]
  else
    let state_mask_str := format_032b state_mask in
    let idxs := find_runs state_mask_str 0 None in
    match idxs with
    | [] => Err ValueError
    | _ =>
        let masked_state_str := format_032b (Z.land state state_mask) in
        loads ← mapM_res (load_run masked_state_str) idxs;
        Ok (copy_state :: loads)
    end.

End Loads.

(** ** Fields and keys *)

(** The match prerequisites of table 11 of the OpenFlow 1.3 specification, as both
    [options] dictionaries have them. *)
Definition prereqs : list (Z * (string * Z)) :=
  [ (OXM_OF "ipv4_src", ("eth_type", 0x800)); (OXM_OF "ipv4_dst", ("eth_type", 0x800));
    (OXM_OF "tcp_src", ("ip_proto", 6)); (OXM_OF "tcp_dst", ("ip_proto", 6));
    (OXM_OF "udp_src", ("ip_proto", 17)); (OXM_OF "udp_dst", ("ip_proto", 17));
    (OXM_OF "sctp_src", ("ip_proto", 132)); (OXM_OF "sctp_dst", ("ip_proto", 132));
    (OXM_OF "icmpv4_type", ("ip_proto", 1)); (OXM_OF "icmpv4_code", ("ip_proto", 1));
    (OXM_OF "arp_op", ("eth_type", 0x0806)); (OXM_OF "arp_spa", ("eth_type", 0x0806));
    (OXM_OF "arp_tpa", ("eth_type", 0x0806)); (OXM_OF "arp_sha", ("eth_type", 0x0806));
    (OXM_OF "arp_tha", ("eth_type", 0x0806)); (OXM_OF "ipv6_src", ("eth_type", 0x86dd));
    (OXM_OF "ipv6_dst", ("eth_type", 0x86dd)); (OXM_OF "ipv6_flabel", ("eth_type", 0x86dd));
    (OXM_OF "icmpv6_type", ("ip_proto", 58)); (OXM_OF "icmpv6_code", ("ip_proto", 58));
    (OXM_OF "ipv6_nd_sll", ("icmpv6_type", 135)); (OXM_OF "ipv6_nd_tll", ("icmpv6_type", 136));
    (OXM_OF "pbb_isid", ("eth_type", 0x88e7)); (OXM_OF "ipv6_exthdr", ("eth_type", 0x86dd)) ].

Definition prereq_of (field : Z) : option (string * Z) :=
  match list_find (fun p => p.1 = field) prereqs with Some (_, p) => Some p.2 | None => None end.

(** [_FIELDS_HEADERS[f](f,0,0).oxm_len()] *)
Definition field_bytes_num (f : Z) : res Z :=
  match _FIELDS_HEADERS f with
  | None => Err KeyError
  | Some c => Ok (MatchField.oxm_len (MatchField.init c f (FInt 0) (Some (FInt 0))))
  end.

(** [_NXFlowSpec._parse_subfield(bytearray(struct.pack('!IH',f,0)))] *)
Definition subfield_of (f : Z) : res FlowSpec.subfield :=
  b ← pack "!IH" [VInt f; VInt 0]; FlowSpec._parse_subfield b.

Definition mac_fields : list Z :=
  OXM_OF <$> ["eth_src"; "eth_dst"; "arp_sha"; "arp_tha"; "ipv6_nd_sll"; "ipv6_nd_tll"].
Definition ipv4_fields : list Z := OXM_OF <$> ["ipv4_src"; "ipv4_dst"; "arp_spa"; "arp_tpa"].
Definition ipv6_fields : list Z := OXM_OF <$> ["ipv6_src"; "ipv6_dst"; "ipv6_nd_target"].

(** Pairs of bytes as two hexadecimal digits each, with colons between the pairs. *)
Fixpoint hex_pairs (key : list Z) : string :=
  match key with
  | [a; b] => (KeyStr.hex02 a +:+ KeyStr.hex02 b)%string
  | a :: b :: key => (KeyStr.hex02 a +:+ KeyStr.hex02 b +:+ ":" +:+ hex_pairs key)%string
  | _ => ""
  end.

Definition bytes_to_match_value (field : Z) (field_value : list Z) : res (option uval) :=
  let n := length field_value in
  if bool_decide (field ∈ mac_fields) then
    match field_value with
    | [a; b; c; d; e; f] =>
        Ok (Some (UText (KeyStr.hex02 a +:+ ":" +:+ KeyStr.hex02 b +:+ ":" +:+ KeyStr.hex02 c +:+ ":"
                         +:+ KeyStr.hex02 d +:+ ":" +:+ KeyStr.hex02 e +:+ ":" +:+ KeyStr.hex02 f)%string))
    | _ => Err StructError
    end
  else if bool_decide (field ∈ ipv4_fields) then
    match field_value with
    | [a; b; c; d] =>
        Ok (Some (UText (pretty a +:+ "." +:+ pretty b +:+ "." +:+ pretty c +:+ "." +:+ pretty d)%string))
    | _ => Err TypeError
    end
  else if bool_decide (field ∈ ipv6_fields) then
    if (n =? 16)%nat then Ok (Some (UText (hex_pairs field_value))) else Err StructError
  else if (n =? 8)%nat || (n =? 4)%nat || (n =? 2)%nat || (n =? 1)%nat then
    Ok (Some (UInt (be_decode field_value)))
  else Ok None.

(** [d[k] = v] on a dictionary whose order does not matter. *)
Fixpoint dict_set {A} (k : string) (v : A) (d : list (string * A)) : list (string * A) :=
  match d with
  | [] => [(k, v)]
  | (k', v') :: d => if decide (k = k') then (k, v) :: d else (k', v') :: dict_set k v d
  end.

Definition add_prereq_match_to_dict (scope : list Z) (d : list (string * option uval)) :
    list (string * option uval) :=
  foldl (fun d f => match prereq_of f with
                    | Some (name, value) => dict_set name (Some (UInt value)) d
                    | None => d
                    end) d scope.

(** The loop over the lookup scope: the values of its fields, from the bytes of the key. *)
Definition lookup_fields (scope : list Z) (key : bytes) : res (list (string * option uval)) :=
  '(_, d) ← foldM (fun '(offset, d) f =>
      n ← field_bytes_num f;
      '(field_name, _) ← subfield_of f;
      let slice := take (Z.to_nat n) (drop offset key) in
      (if (length slice =? Z.to_nat n)%nat then Ok tt else Err StructError) ;;
      v ← bytes_to_match_value f slice;
      Ok ((offset + Z.to_nat n)%nat, dict_set field_name v d)) (0%nat, []) scope;
  Ok d.

(** ** The datapath *)

Module Ovs.

(** The messages a program sends. *)
Inductive msg :=
  | MsgExperimenter (m : Experimenter.t)
  | MsgExperimenterStats (m : ExperimenterStatsRequest.t)
  | MsgFlowMod (m : FlowMod.t)
  | MsgGroupMod (m : GroupMod.t).

(** [flowSpecMatchDict] holds sets, here in the order of insertion; [sent] is what the
    base class has queued. *)
Record t := Mk {
  xid : Z; sent : list bytes;
  lookup_scope : gmap Z (list Z); update_scope : gmap Z (list Z);
  flowSpecMatchDict : gmap Z (list FlowSpec.t);
  stateful_stages_in_use : gset Z }.

Definition with_dict d o := Mk (xid o) (sent o) (lookup_scope o) (update_scope o) d (stateful_stages_in_use o).
Definition with_lookup l o := Mk (xid o) (sent o) l (update_scope o) (flowSpecMatchDict o) (stateful_stages_in_use o).
Definition with_update u o := Mk (xid o) (sent o) (lookup_scope o) u (flowSpecMatchDict o) (stateful_stages_in_use o).
Definition with_stage s o := Mk (xid o) (sent o) (lookup_scope o) (update_scope o) (flowSpecMatchDict o) ({[ s ]} ∪ stateful_stages_in_use o).

(** [Beba2OVSWrapper]: the attributes the decorator gives the datapath. *)
Definition wrap (xid : Z) (sent : list bytes) : t := Mk xid sent ∅ ∅ ∅ ∅.

Definition get_state_table_id (table_id : Z) : Z := 2 * table_id.
Definition get_flow_table_id (table_id : Z) : Z := 2 * table_id + 1.

Section Send.
Context `{C : AddrConv} `{I : IntConv} (set_order : list FlowSpec.t -> list FlowSpec.t).

Definition serialize (m : msg) (xid : Z) : res bytes :=
  match m with
  | MsgExperimenter m => Experimenter.serialize m (Some xid)
  | MsgExperimenterStats m => ExperimenterStatsRequest.serialize m (Some xid)
  | MsgFlowMod m => FlowMod.serialize m (Some xid)
  | MsgGroupMod m => GroupMod.serialize m (Some xid)
  end.

(** [Datapath.send_msg] on a message without transaction id. *)
Definition super_send_msg (m : msg) : stm t unit :=
  modify (fun o => Mk (Z.land (xid o + 1) MAX_XID) (sent o) (lookup_scope o) (update_scope o)
                     (flowSpecMatchDict o) (stateful_stages_in_use o)) ;;
  x ← gets xid;
  b ← lift_res (serialize m x);
  modify (fun o => Mk (xid o) (sent o ++ [b]) (lookup_scope o) (update_scope o)
                     (flowSpecMatchDict o) (stateful_stages_in_use o)).

Definition reg (name : string) (v : Z) : string * uservalue := (name, Plain (Some (UInt v))).

Definition flow_mod (table_id command priority out_port out_group : Z) (m : OFPMatch)
    (instructions : list any_instruction) : msg :=
  MsgFlowMod {| FlowMod.cookie := 0; FlowMod.cookie_mask := 0; FlowMod.table_id := table_id;
     FlowMod.command := command; FlowMod.idle_timeout := 0; FlowMod.hard_timeout := 0;
     FlowMod.priority := priority; FlowMod.buffer_id := OFP_NO_BUFFER; FlowMod.out_port := out_port;
     FlowMod.out_group := out_group; FlowMod.flags := 0; FlowMod.match_ := m;
     FlowMod.instructions := instructions |}.

Definition apply_actions (actions : list Action.t) : list any_instruction :=
  [Plain_instruction (Instruction.OFPInstructionActions OFPIT_APPLY_ACTIONS actions)].

(** The table miss of a state table: look up the state, then go to the flow table. *)
Definition send_control_flow (table_id : Z) : stm t unit :=
  m ← lift_res (match_of_kwargs [reg "reg1" 0]);
  set ← lift_res (Action.set_field_init [reg "reg1" 1]);
  super_send_msg (flow_mod (get_state_table_id table_id) OFPFC_ADD 10 0 0 m
    (apply_actions [set; Action.NXActionResubmitTable 0xfff8 (get_state_table_id table_id);
                    Action.NXActionResubmitTable 0xfff8 (get_flow_table_id table_id)])).

(** OFPExpMsgConfigureStatefulTable *)
Definition configure_stateful_table (table_id : Z) : stm t unit :=
  send_control_flow table_id ;;
  m ← lift_res (match_of_kwargs [reg "reg1" 1]);
  set ← lift_res (Action.set_field_init [reg "reg0" 0]);
  super_send_msg (flow_mod (get_state_table_id table_id) OFPFC_ADD 10 0 0 m (apply_actions [set])) ;;
  modify (with_stage table_id).

Definition dict_get {A} (m : gmap Z A) (k : Z) : res A :=
  match m !! k with Some a => Ok a | None => Err KeyError end.

Definition kwargs (d : list (string * option uval)) : list (string * uservalue) :=
  (fun '(k, v) => (k, Plain v)) <$> d.

(** The match of a flow of a state table. *)
Definition key_match (table_id : Z) (key : bytes) : stm t OFPMatch :=
  scopes ← gets lookup_scope;
  scope ← lift_res (dict_get scopes table_id);
  d ← lift_res (lookup_fields scope key);
  let d := add_prereq_match_to_dict scope d in
  lift_res (match_of_kwargs (reg "reg1" 1 :: kwargs d)).

Definition set_flow_state (table_id state : Z) (key : bytes) : stm t unit :=
  m ← key_match table_id key;
  s1 ← lift_res (Action.set_field_init [reg "reg1" 0]);
  s0 ← lift_res (Action.set_field_init [reg "reg0" state]);
  super_send_msg (flow_mod (get_state_table_id table_id) OFPFC_ADD 100 OFPP_ANY OFPG_ANY m
    (apply_actions [s1; s0])).

Definition del_flow_state (table_id : Z) (key : bytes) : stm t unit :=
  m ← key_match table_id key;
  super_send_msg (flow_mod (get_state_table_id table_id) OFPFC_DELETE 100 OFPP_ANY OFPG_ANY m []).

(** [for f in range(field_count)]: every field is appended to the list that is
    already stored. *)
Definition read_fields (add : Z -> stm t unit) (data : bytes) (fields_offset : nat) (field_count : Z) :
    stm t unit :=
  iterM (fun f =>
    vs ← lift_res (unpack "!I" (take 4 (drop (fields_offset + 4 * f) data)));
    match vs with
    | [VInt v] => add v
    | _ => raise IndexError
    end) (seq 0 (Z.to_nat field_count)).

(** The first bytes of the data of a message, as [struct.unpack] takes them. *)
Definition unpack_slice (fmt : string) (data : bytes) (offset : nat) : res (list pyval) :=
  unpack fmt (take (calcsize fmt) (drop offset data)).

(** A state modification, with the message to send on if the command is unknown. *)
Definition state_mod (data : bytes) : stm t bool :=
  let command_offset := calcsize OFP_EXP_STATE_MOD_PACK_STR in
  vs ← lift_res (unpack_slice OFP_EXP_STATE_MOD_PACK_STR data 0);
  match vs with
  | [VInt command] =>
      if command =? OFPSC_EXP_STATEFUL_TABLE_CONFIG then
        vs ← lift_res (unpack_slice OFP_EXP_STATE_MOD_STATEFUL_TABLE_CONFIG_PACK_STR data command_offset);
        match vs with
        | [VInt table_id; VInt stateful] => configure_stateful_table table_id ;; mret true
        | _ => raise ValueError
        end
      else if (command =? OFPSC_EXP_SET_L_EXTRACTOR) || (command =? OFPSC_EXP_SET_U_EXTRACTOR) then
        vs ← lift_res (unpack_slice OFP_EXP_STATE_MOD_EXTRACTOR_PACK_STR data command_offset);
        match vs with
        | [VInt table_id; VInt field_count] =>
            (if 0 <? field_count then
               let fields_offset := (command_offset + calcsize OFP_EXP_STATE_MOD_EXTRACTOR_PACK_STR)%nat in
               if command =? OFPSC_EXP_SET_L_EXTRACTOR then
                 modify (fun o => with_lookup (<[table_id := []]> (lookup_scope o)) o) ;;
                 read_fields (fun v => modify (fun o =>
                   with_lookup (alter (fun l => l ++ [v]) table_id (lookup_scope o)) o)) data fields_offset field_count
               else
                 modify (fun o => with_update (<[table_id := []]> (update_scope o)) o) ;;
                 read_fields (fun v => modify (fun o =>
                   with_update (alter (fun l => l ++ [v]) table_id (update_scope o)) o)) data fields_offset field_count
             else mret tt) ;; mret true
        | _ => raise ValueError
        end
      else if command =? OFPSC_EXP_SET_FLOW_STATE then
        vs ← lift_res (unpack_slice OFP_EXP_STATE_MOD_SET_FLOW_STATE_PACK_STR data command_offset);
        match vs with
        | [VInt table_id; VInt key_count; VInt state; VInt _; VInt _; VInt _; VInt _; VInt _] =>
            (if 0 <? key_count then
               set_flow_state table_id state
                 (drop (command_offset + calcsize OFP_EXP_STATE_MOD_SET_FLOW_STATE_PACK_STR) data)
             else mret tt) ;; mret true
        | _ => raise ValueError
        end
      else if command =? OFPSC_EXP_DEL_FLOW_STATE then
        vs ← lift_res (unpack_slice OFP_EXP_STATE_MOD_DEL_FLOW_STATE_PACK_STR data command_offset);
        match vs with
        | [VInt table_id; VInt key_count] =>
            (if 0 <? key_count then
               del_flow_state table_id
                 (drop (command_offset + calcsize OFP_EXP_STATE_MOD_DEL_FLOW_STATE_PACK_STR) data)
             else mret tt) ;; mret true
        | _ => raise ValueError
        end
      else mret ((command =? OFPSC_EXP_SET_GLOBAL_STATE) || (command =? OFPSC_EXP_RESET_GLOBAL_STATE))
  | _ => raise ValueError
  end.

(** *** Learn actions *)

(** [Set.add] *)
Definition set_add (s : FlowSpec.t) (l : list FlowSpec.t) : list FlowSpec.t :=
  if decide (s ∈ l) then l else l ++ [s].

(** The prerequisite of a field; its exceptions are swallowed. *)
Definition add_prereq_spec (field : Z) (l : list FlowSpec.t) : list FlowSpec.t :=
  match prereq_of field with
  | None => l
  | Some (name, value) =>
      match (b ← FlowSpec._serialize_subfield (name, 0);
             vs ← unpack "!I" (take 4 b);
             match vs with [VInt h] => field_bytes_num h | _ => Err IndexError end) with
      | Ok n => set_add (FlowSpec.NXFlowSpecMatch (FlowSpec.SrcImm value) (name, 0) (n * 8)) l
      | Err _ => l
      end
  end.

(** The set is stored in the dictionary before it is filled, so that an exception
    leaves what was added. *)
Definition generate_NXFlowSpecMatch_and_prereq (table_id : Z) : stm t (list FlowSpec.t) :=
  cached ← gets (fun o => flowSpecMatchDict o !! table_id);
  match cached with
  | Some (s :: l) => mret (set_order (s :: l))
  | _ =>
      modify (fun o => with_dict (<[table_id := []]> (flowSpecMatchDict o)) o) ;;
      scopes ← gets lookup_scope;
      scope ← lift_res (dict_get scopes table_id);
      iterM (fun '(idx, field) =>
        n ← lift_res (field_bytes_num field);
        updates ← gets update_scope;
        up ← lift_res (dict_get updates table_id);
        u ← lift_res (match up !! idx with Some u => Ok u | None => Err IndexError end);
        src ← lift_res (subfield_of u);
        dst ← lift_res (subfield_of field);
        modify (fun o => with_dict (alter (fun l => add_prereq_spec field
                   (set_add (FlowSpec.NXFlowSpecMatch (FlowSpec.SrcField src) dst (n * 8)) l))
                   table_id (flowSpecMatchDict o)) o))
        (imap (fun i f => (i, f)) scope) ;;
      gets (fun o => set_order (default [] (flowSpecMatchDict o !! table_id)))
  end.

Definition learn_action (table_id state state_mask : Z) : stm t Action.t :=
  ms ← generate_NXFlowSpecMatch_and_prereq table_id;
  ls ← lift_res (Loads.generate_NXFlowSpecLoad state state_mask);
  mret (Action.NXActionLearn (get_state_table_id table_id)
    ([FlowSpec.NXFlowSpecMatch (FlowSpec.SrcImm 1) ("reg1", 0) 32;
      FlowSpec.NXFlowSpecLoad (FlowSpec.SrcImm 0) ("reg1", 0) 32] ++ ms ++ ls) 0 0 100 0 0 0 0).

(** An action of Beba is replaced or dropped, any other is kept. *)
Definition translate_action (act : Action.t) : stm t (list Action.t) :=
  match act with
  | Action.OFPActionExperimenterUnknown a =>
      if ActionExperimenterUnknown.experimenter a =? BEBA_EXPERIMENTER_ID then
        data ← lift_res (match ActionExperimenterUnknown.data a with Some d => Ok d | None => Err TypeError end);
        vs ← lift_res (unpack_slice "!I" data 0);
        match vs with
        | [VInt act_type] =>
            if act_type =? OFPAT_EXP_SET_STATE then
              vs ← lift_res (unpack_slice OFP_EXP_ACTION_SET_STATE_PACK_STR data 0);
              match vs with
              | [VInt _; VInt state; VInt state_mask; VInt table_id; VInt _; VInt _; VInt _; VInt _] =>
                  l ← learn_action table_id state state_mask; mret [l]
              | _ => raise ValueError
              end
            else mret []
        | _ => raise ValueError
        end
      else mret [act]
  | _ => mret [act]
  end.

Fixpoint translate_actions (l : list Action.t) : stm t (list Action.t) :=
  match l with
  | [] => mret []
  | act :: l => a ← translate_action act; r ← translate_actions l; mret (a ++ r)
  end.

(** An instruction of a flow modification. *)
Definition translate_instruction (i : any_instruction) : stm t any_instruction :=
  match i with
  | Plain_instruction (Instruction.OFPInstructionActions ty actions) =>
      if (ty =? OFPIT_WRITE_ACTIONS) || (ty =? OFPIT_APPLY_ACTIONS) then
        actions ← translate_actions actions;
        mret (Plain_instruction (Instruction.OFPInstructionActions ty actions))
      else mret i
  | Plain_instruction (Instruction.OFPInstructionGotoTable table_id) =>
      stages ← gets stateful_stages_in_use;
      (if decide (table_id ∈ stages) then mret tt
       else send_control_flow table_id ;; modify (with_stage table_id)) ;;
      mret (Plain_instruction (Instruction.OFPInstructionGotoTable (get_state_table_id table_id)))
  | _ => mret i
  end.

Fixpoint translate_instructions (l : list any_instruction) : stm t (list any_instruction) :=
  match l with
  | [] => mret []
  | i :: l => i ← translate_instruction i; r ← translate_instructions l; mret (i :: r)
  end.

(** The Beba fields of a match: the state is register 0, global states are dropped. *)
Definition translate_field (f : string * uservalue) : option (string * uservalue) :=
  if decide (f.1 = "state") then Some ("reg0", f.2)
  else if decide (f.1 = "global_state") then None
  else Some f.

Definition translate_match (m : OFPMatch) : OFPMatch :=
  MkMatch (_wc m) (_flow m) (fields m) (omap translate_field (_fields2 m)) (m_type m) (m_length m)
    (_serialized m).

Definition translate_flow_mod (m : FlowMod.t) : stm t FlowMod.t :=
  insts ← translate_instructions (FlowMod.instructions m);
  mret {| FlowMod.cookie := FlowMod.cookie m; FlowMod.cookie_mask := FlowMod.cookie_mask m;
     FlowMod.table_id := get_flow_table_id (FlowMod.table_id m); FlowMod.command := FlowMod.command m;
     FlowMod.idle_timeout := FlowMod.idle_timeout m; FlowMod.hard_timeout := FlowMod.hard_timeout m;
     FlowMod.priority := FlowMod.priority m; FlowMod.buffer_id := FlowMod.buffer_id m;
     FlowMod.out_port := FlowMod.out_port m; FlowMod.out_group := FlowMod.out_group m;
     FlowMod.flags := FlowMod.flags m; FlowMod.match_ := translate_match (FlowMod.match_ m);
     FlowMod.instructions := insts |}.

Fixpoint translate_buckets (l : list Bucket.t) : stm t (list Bucket.t) :=
  match l with
  | [] => mret []
  | b :: l =>
      actions ← translate_actions (Bucket.actions b);
      r ← translate_buckets l;
      mret (Bucket.Mk (Bucket.weight b) (Bucket.watch_port b) (Bucket.watch_group b) actions :: r)
  end.

(** [OVSDatapath.send_msg] *)
Definition send_msg (m : msg) : stm t unit :=
  match m with
  | MsgExperimenter e =>
      if (Experimenter.experimenter e =? BEBA_EXPERIMENTER_ID) && (Experimenter.exp_type e =? OFPT_EXP_STATE_MOD)
      then
        data ← lift_res (match Experimenter.data e with Some d => Ok d | None => Err TypeError end);
        dropped ← state_mod data;
        if dropped : bool then mret tt else super_send_msg m
      else super_send_msg m
  | MsgExperimenterStats s =>
      if ExperimenterStatsRequest.experimenter s =? BEBA_EXPERIMENTER_ID then mret tt else super_send_msg m
  | MsgFlowMod f => f ← translate_flow_mod f; super_send_msg (MsgFlowMod f)
  | MsgGroupMod g =>
      buckets ← translate_buckets (GroupMod.buckets g);
      super_send_msg (MsgGroupMod (GroupMod.Mk (GroupMod.command g) (GroupMod.type_ g) (GroupMod.group_id g) buckets))
  end.

End Send.
End Ovs.

(** ** Facts *)

Module LoadFacts.
Import FlowSpec Loads Masked.

(** *** What the switch does with a load *)

(** [n] bits of a register at [ofs] are replaced. *)
Definition load_bits (r ofs n v : Z) : Z :=
  Z.lor (Z.ldiff r (Z.shiftl (Z.ones n) ofs)) (Z.shiftl (Z.land v (Z.ones n)) ofs).

(** The load of a learned flow on register 0, with the register's value [old] at the
    time the flow is learned. *)
Definition run_load (old r : Z) (s : FlowSpec.t) : Z :=
  match s with
  | NXFlowSpecLoad (SrcImm v) (_, ofs) n => load_bits r ofs n v
  | NXFlowSpecLoad (SrcField (_, o)) (_, ofs) n => load_bits r ofs n (Z.shiftr old o)
  | _ => r
  end.

Lemma load_bits_spec r ofs n v k : 0 <= ofs -> 0 <= n -> 0 <= k ->
  Z.testbit (load_bits r ofs n v) k
  = if (ofs <=? k) && (k <? ofs + n) then Z.testbit v (k - ofs) else Z.testbit r k.
Proof.
  intros Ho Hn Hk. unfold load_bits.
  rewrite Z.lor_spec, Z.ldiff_spec, !Z.shiftl_spec, Z.land_spec by lia.
  destruct (Z.leb_spec ofs k) as [H1|H1]; cbn [andb].
  - destruct (Z.ltb_spec k (ofs + n)) as [H2|H2].
    + rewrite Z.ones_spec_low by lia. cbn. by rewrite andb_false_r, andb_true_r.
    + rewrite Z.ones_spec_high by lia. cbn. by rewrite andb_true_r, andb_false_r, orb_false_r.
  - rewrite !(Z.testbit_neg_r _ (k - ofs)) by lia. cbn. by rewrite andb_true_r, orb_false_r.
Qed.

(** *** Binary numerals *)

Lemma div2_double v b : b = 0 \/ b = 1 -> (2 * v + b) / 2 = v.
Proof. intros H. symmetry. apply (Z.div_unique _ _ _ b); lia. Qed.

Lemma bin_val_bit s : forall k, (k < length s)%nat ->
  Z.testbit (bin_val s) (Z.of_nat k) = bool_decide (s !! (length s - 1 - k)%nat = Some "1"%char).
Proof.
  induction s as [|c s IH] using rev_ind; intros k Hk; [cbn in Hk; lia|].
  rewrite bin_val_snoc, length_app in *. cbn [length] in *.
  destruct k as [|k].
  - rewrite lookup_app_r by lia. replace (length s + 1 - 1 - 0 - length s)%nat with 0%nat by lia.
    cbn [lookup list_lookup]. change (Z.of_nat 0) with 0. rewrite Z.bit0_odd, Z.add_comm, Z.odd_add_mul_2.
    case_bool_decide; case_bool_decide; congruence || done.
  - replace (length s + 1 - 1 - S k)%nat with (length s - 1 - k)%nat by lia.
    rewrite lookup_app_l by lia. rewrite <- IH by lia. rewrite Nat2Z.inj_succ.
    rewrite <- Z.div2_bits by lia. rewrite div2_double by (case_bool_decide; lia). done.
Qed.

Lemma format_spec z : 0 <= z < 2 ^ 32 ->
  length (format_032b z) = 32%nat /\ Forall (fun c => is_bit c = true) (format_032b z)
  /\ forall k, (k < 32)%nat ->
       Z.testbit z (Z.of_nat k) = bool_decide (format_032b z !! (31 - k)%nat = Some "1"%char).
Proof.
  intros Hz. destruct (bin_digits_spec z 32 ltac:(lia) Hz) as (Hv & Hl & Hb). unfold format_032b.
  assert (Hlen : length (replicate (32 - length (bin_digits z)) "0"%char ++ bin_digits z) = 32%nat)
    by (rewrite length_app, length_replicate; lia).
  split; [done|]. split; [apply Forall_app; split; [apply zeros_bits|done]|].
  intros k Hk. rewrite <- Hv at 1. rewrite <- (bin_val_zeros_l _ (32 - length (bin_digits z))).
  rewrite bin_val_bit by lia. by rewrite Hlen.
Qed.

(** *** Runs *)

(** The runs cover exactly the ones, within the string. *)
Lemma find_runs_spec s : forall i cur k,
  (match cur with Some b => (b < i)%nat | None => True end) ->
  (exists b e, (b, e) ∈ find_runs s i cur /\ (b <= k <= e)%nat)
  <-> (match cur with Some b => (b <= k < i)%nat | None => False end)
      \/ (i <= k)%nat /\ s !! (k - i)%nat = Some "1"%char.
Proof.
  induction s as [|c s IH]; intros i cur k Hcur; cbn [find_runs].
  - destruct cur as [b|].
    + setoid_rewrite list_elem_of_singleton. split.
      * intros (b' & e & [= -> ->] & H). left. lia.
      * intros [H|[_ H]]; [|done]. exists b, (i - 1)%nat. split; [done|lia].
    + split; [intros (b & e & H & _); by apply elem_of_nil in H|by intros [[]|[_ H]]].
  - assert (Hs : forall P : Prop, ((i <= k)%nat /\ (c :: s) !! (k - i)%nat = Some "1"%char)
               <-> (k = i /\ c = "1"%char \/ (S i <= k)%nat /\ s !! (k - S i)%nat = Some "1"%char)).
    { intros _. destruct (decide (k = i)) as [->|Hne].
      - rewrite Nat.sub_diag. cbn. split; [intros [_ [= ->]]; by left|]. intros [[_ ->]|[H _]]; [done|lia].
      - split.
        + intros [H1 H2]. right. replace (k - i)%nat with (S (k - S i)) in H2 by lia. cbn in H2. split; [lia|done].
        + intros [[H _]|[H1 H2]]; [done|]. split; [lia|]. by replace (k - i)%nat with (S (k - S i)) by lia. }
    rewrite (Hs True). clear Hs. destruct (decide (c = "1"%char)) as [->|Hc].
    + rewrite IH by (destruct cur; cbn; lia). destruct cur as [b|]; cbn [default from_option id]; split.
      * intros [H|H]; [|by right; right]. destruct (decide (k = i)); [by right; left|left; lia].
      * intros [H|[[-> _]|H]]; [left; lia|left; lia|by right].
      * intros [H|H]; [right; left; split; [lia|done]|by right; right].
      * intros [[]|[[-> _]|H]]; [left; lia|by right].
    + destruct cur as [b|].
      * setoid_rewrite elem_of_cons. specialize (IH (S i) None k I). split.
        -- intros (b' & e & [[= -> ->]|H] & Hbe); [left; lia|].
           destruct (proj1 IH) as [[]|H']; [by exists b', e|]. right. by right.
        -- intros [H|[[_ H]|H]]; [|done|].
           ++ exists b, (i - 1)%nat. split; [by left|lia].
           ++ destruct (proj2 IH (or_intror H)) as (b' & e & H1 & H2). exists b', e. split; [by right|done].
      * rewrite IH by done. intuition congruence.
Qed.

(** A run lies within the string and is not empty. *)
Lemma find_runs_bounds s : forall i cur b e,
  (match cur with Some b => (b < i)%nat | None => True end) ->
  (b, e) ∈ find_runs s i cur -> (b <= e < i + length s)%nat.
Proof.
  induction s as [|c s IH]; intros i cur b e Hcur; cbn [find_runs length].
  - destruct cur as [b'|]; [|by intros ?%elem_of_nil].
    rewrite list_elem_of_singleton. intros [= -> ->]. lia.
  - destruct (decide (c = "1"%char)) as [->|Hc].
    + intros H. apply IH in H; [lia|]. destruct cur; cbn; lia.
    + destruct cur as [b'|].
      * rewrite elem_of_cons. intros [[= -> ->]|H]; [lia|]. apply IH in H; [lia|done].
      * intros H. apply IH in H; [lia|done].
Qed.

(** *** A run is loaded with the bits of the masked state *)

Definition mbit (M : list ascii) (k : nat) : bool := bool_decide (M !! (31 - k)%nat = Some "1"%char).

Lemma load_run_ok M b e : length M = 32%nat -> Forall (fun c => is_bit c = true) M -> (b <= e < 32)%nat ->
  exists v, load_run M (b, e) = Ok (NXFlowSpecLoad (SrcImm v) ("reg0", 31 - Z.of_nat e) (Z.of_nat e - Z.of_nat b + 1))
    /\ forall k, (31 - e <= k <= 31 - b)%nat -> Z.testbit v (Z.of_nat k - (31 - Z.of_nat e)) = mbit M k.
Proof.
  intros Hl Hb He. set (d := take (e + 1 - b) (drop b M)).
  assert (Hd : length d = (e + 1 - b)%nat) by (unfold d; rewrite length_take, length_drop; lia).
  exists (bin_val d). split.
  - unfold load_run. fold d. rewrite int2_bits; [done|unfold d; by apply Forall_take, Forall_drop|].
    intros H. rewrite H in Hd. cbn in Hd. lia.
  - intros k Hk. replace (Z.of_nat k - (31 - Z.of_nat e)) with (Z.of_nat (k - (31 - e))) by lia.
    rewrite bin_val_bit by lia. rewrite Hd. unfold mbit, d. rewrite lookup_take_lt, lookup_drop by lia.
    by replace (b + (e + 1 - b - 1 - (k - (31 - e))))%nat with (31 - k)%nat by lia.
Qed.

Definition covered (runs : list (nat * nat)) (k : nat) : Prop :=
  Exists (fun p => (p.1 <= 31 - k <= p.2)%nat) runs.

Lemma loads_run M old runs : length M = 32%nat -> Forall (fun c => is_bit c = true) M ->
  (forall b e, (b, e) ∈ runs -> (b <= e < 32)%nat) ->
  exists loads, mapM_res (load_run M) runs = Ok loads
    /\ forall r k, (covered runs k -> (k < 32)%nat ->
                    Z.testbit (foldl (run_load old) r loads) (Z.of_nat k) = mbit M k)
                   /\ (~ covered runs k \/ (32 <= k)%nat ->
                       Z.testbit (foldl (run_load old) r loads) (Z.of_nat k) = Z.testbit r (Z.of_nat k)).
Proof.
  intros Hl Hb. induction runs as [|[b e] runs IH]; intros Hr.
  - exists []. split; [done|]. intros r k. split; [by intros H%Exists_nil|done].
  - destruct IH as (loads & Hm & Hk). { intros b' e' H. apply Hr. by right. }
    pose proof (Hr b e (list_elem_of_here _ _)) as Hbe.
    destruct (load_run_ok M b e Hl Hb Hbe) as (v & Hv & Hvk). eexists (_ :: loads).
    split; [cbn [mapM_res]; rewrite Hv; cbn [mbind res_bind]; by rewrite Hm|]. intros r k.
    cbn [foldl run_load]. set (r' := load_bits _ _ _ _).
    assert (Hr' : Z.testbit r' (Z.of_nat k)
                  = if decide (31 - e <= k <= 31 - b)%nat then mbit M k else Z.testbit r (Z.of_nat k)).
    { unfold r'. rewrite load_bits_spec by lia. destruct (decide _) as [Hin|Hout].
      - replace ((31 - Z.of_nat e <=? Z.of_nat k) && _) with true by lia. by apply Hvk.
      - by replace ((31 - Z.of_nat e <=? Z.of_nat k) && _) with false by lia. }
    destruct (Hk r' k) as [H1 H2]. unfold covered in *. rewrite Exists_cons. cbn [fst snd]. split.
    + intros Hc Hlt. destruct (decide (Exists (fun p => (p.1 <= 31 - k <= p.2)%nat) runs)) as [Hc'|Hc'];
        [by apply H1|].
      rewrite H2, Hr' by (by left). destruct Hc as [Hc|Hc]; [|done]. by destruct (decide _); [|lia].
    + intros Hc. rewrite H2, Hr'; [|tauto]. destruct (decide _) as [Hin|]; [|done].
      destruct Hc as [Hc|Hc]; [|lia]. destruct Hc. left. lia.
Qed.

(** *** The loads of a masked state *)

Definition masked_state (old state mask : Z) : Z := Z.lor (Z.ldiff old mask) (Z.land state mask).

Lemma runs_of_mask mask k : 0 <= mask < 2 ^ 32 -> (k < 32)%nat ->
  covered (find_runs (format_032b mask) 0 None) k <-> Z.testbit mask (Z.of_nat k) = true.
Proof.
  intros Hm Hk. destruct (format_spec mask Hm) as (Hl & _ & Hb). rewrite (Hb k Hk), bool_decide_eq_true.
  pose proof (find_runs_spec (format_032b mask) 0 None (31 - k) I) as H. rewrite Nat.sub_0_r in H.
  unfold covered. rewrite Exists_exists. split.
  - intros ([b e] & Hin & Hbe). destruct (proj1 H) as [[]|[_ H1]]; [by exists b, e|done].
  - intros H1. destruct (proj2 H) as (b & e & Hin & Hbe); [right; split; [lia|done]|]. by exists (b, e).
Qed.

Lemma bits_above z k : 0 <= z < 2 ^ 32 -> 32 <= k -> Z.testbit z k = false.
Proof.
  intros Hz Hk. destruct (Z.eq_dec z 0) as [->|Hne]; [by rewrite Z.bits_0|].
  apply Z.bits_above_log2; [lia|]. apply Z.log2_lt_pow2; [lia|].
  eapply Z.lt_le_trans; [apply Hz|]. apply Z.pow_le_mono_r; lia.
Qed.

Lemma land_bound a b : 0 <= a < 2 ^ 32 -> 0 <= b < 2 ^ 32 -> 0 <= Z.land a b < 2 ^ 32.
Proof.
  intros Ha Hb. split; [apply Z.land_nonneg; lia|].
  destruct (Z.eq_dec (Z.land a b) 0) as [->|Hne]; [lia|].
  apply Z.log2_lt_pow2; [pose proof (proj2 (Z.land_nonneg a b)); lia|].
  eapply Z.le_lt_trans; [apply Z.log2_land; lia|].
  destruct (Z.eq_dec a 0) as [->|]; [by rewrite Z.land_0_l in Hne|].
  apply Z.min_lt_iff. left. apply Z.log2_lt_pow2; lia.
Qed.

End LoadFacts.

(** ** Properties of the wrapper *)

Module OvsClaims.
Import Loads LoadFacts Ovs.

Lemma masked_state_bit old state mask k : 0 <= k ->
  Z.testbit (masked_state old state mask) k = if Z.testbit mask k then Z.testbit state k else Z.testbit old k.
Proof.
  intros Hk. unfold masked_state. rewrite Z.lor_spec, Z.ldiff_spec, Z.land_spec.
  destruct (Z.testbit mask k), (Z.testbit state k), (Z.testbit old k); done.
Qed.

(** C6: The loads that the wrapper gives a learned flow implement the masked update of the
    state: run one after the other on any value of the register, they leave the old
    state outside the mask and the new one inside. *)
Theorem masked_loads_refine (state mask old r : Z) (Hs : 0 <= state < 2 ^ 32)
    (Hm : 0 <= mask < 2 ^ 32) (Ho : 0 <= old < 2 ^ 32) (Hr : 0 <= r < 2 ^ 32) :
  exists loads, generate_NXFlowSpecLoad state mask = Ok loads
    /\ foldl (run_load old) r loads = masked_state old state mask.
Proof.
  unfold generate_NXFlowSpecLoad.
  assert (Hall : forall v k, 0 <= k ->
    Z.testbit (load_bits r 0 32 v) k = if k <? 32 then Z.testbit v k else Z.testbit r k).
  { intros v k Hk. rewrite load_bits_spec by lia. rewrite Z.sub_0_r.
    by replace (0 <=? k) with true by lia. }
  destruct (Z.eqb_spec mask 0xffffffff) as [->|Hf]; [|destruct (Z.eqb_spec mask 0) as [->|H0]].
  - eexists. split; [done|]. cbn [foldl run_load]. apply Z.bits_inj'. intros k Hk.
    rewrite Hall, masked_state_bit by done. destruct (Z.ltb_spec k 32).
    + change 0xffffffff with (Z.ones 32). by rewrite Z.ones_spec_low by lia.
    + by rewrite (bits_above 0xffffffff), (bits_above r), (bits_above old) by lia.
  - eexists. split; [done|]. cbn [foldl run_load copy_state]. apply Z.bits_inj'. intros k Hk.
    rewrite Hall, masked_state_bit, Z.bits_0, Z.shiftr_0_r by done. destruct (Z.ltb_spec k 32); [done|].
    by rewrite (bits_above r), (bits_above old) by lia.
  - set (runs := find_runs (format_032b mask) 0 None).
    destruct (format_spec _ (land_bound state mask Hs Hm)) as (HMl & HMb & HMk).
    destruct (loads_run _ old runs HMl HMb) as (loads & Hload & Hk).
    { intros b e Hin. apply (find_runs_bounds _ 0 None) in Hin; [|done].
      destruct (format_spec mask Hm) as [Hl _]. lia. }
    destruct runs as [|run runs'] eqn:Hruns.
    { exfalso. apply H0. apply Z.bits_inj'. intros k Hk0. rewrite Z.bits_0.
      destruct (Z.lt_ge_cases k 32); [|by apply bits_above]. apply not_true_is_false. intros Hbit.
      rewrite <- (Z2Nat.id k) in Hbit by done. apply runs_of_mask in Hbit; [|done|lia].
      unfold runs in Hruns. rewrite Hruns in Hbit. by apply Exists_nil in Hbit. }
    rewrite Hload. cbn [mbind res_bind]. eexists. split; [done|]. cbn [foldl run_load copy_state].
    apply Z.bits_inj'. intros k Hk0. rewrite <- (Z2Nat.id k) by done. set (n := Z.to_nat k).
    rewrite masked_state_bit by lia. destruct (Hk (load_bits r 0 32 (Z.shiftr old 0)) n) as [H1 H2].
    destruct (le_lt_dec 32 n) as [Hn|Hn].
    + rewrite H2, Hall by (lia || by right). replace (Z.of_nat n <? 32) with false by lia.
      by rewrite !bits_above by lia.
    + pose proof (runs_of_mask mask n Hm Hn) as Hcov. unfold runs in Hruns. rewrite Hruns in Hcov.
      destruct (Z.testbit mask (Z.of_nat n)) eqn:Hbit.
      * rewrite H1 by (done || by apply Hcov). unfold mbit. rewrite <- HMk by done.
        by rewrite Z.land_spec, Hbit, andb_true_r.
      * rewrite H2, Hall by (lia || (left; intros Hc; apply Hcov in Hc; congruence)).
        replace (Z.of_nat n <? 32) with true by lia. by rewrite Z.shiftr_0_r.
Qed.

Lemma masked_loads_refine_witness :
  exists loads, generate_NXFlowSpecLoad 88 92 = Ok loads
    /\ foldl (run_load 0x123) 0xabcdef loads = masked_state 0x123 88 92.
Proof. apply (masked_loads_refine 88 92 0x123 0xabcdef); lia. Defined.

(** *** Messages that the wrapper cannot take apart *)

Lemma unpack_slice_pack fmt f args b pre rest : parse_fmt fmt = Some f -> fpack f args = Ok b ->
  unpack_slice fmt (pre ++ b ++ rest) (length pre) = Ok (fit_args (f_codes f) args).
Proof.
  intros Hf Hb. pose proof (fpack_length _ _ _ Hb) as Hl.
  unfold unpack_slice, unpack, with_fmt, calcsize. rewrite Hf, drop_app_length.
  rewrite take_app_length' by done. rewrite Hl, Nat.eqb_refl.
  rewrite <- (app_nil_r b). by apply unpack_from_pack0.
Qed.

(** The data of a key-extract message starts with the command and the extractor. *)
Lemma key_extract_data dp command fields table_id bit e dp' :
  Messages.OFPExpMsgKeyExtract dp command fields table_id bit = Ok (e, dp') ->
  exists d1 d2 args rest, e = Messages.state_mod (d1 ++ d2 ++ rest)
    /\ fpack (Format Big [Fi 1; Fx 1]) [VInt command] = Ok d1
    /\ fpack (Format Big [Fi 1; Fx 3; Fi 1; Fx 3; Fi 4]) args = Ok d2 /\ length args = 3%nat.
Proof.
  unfold Messages.OFPExpMsgKeyExtract. intros H. apply bind_Ok in H as (d1 & H1 & H).
  apply bind_Ok in H as (d2 & H2 & H). apply bind_Ok in H as (data & H3 & H). injection H as <- _.
  assert (exists rest, data = d1 ++ d2 ++ rest) as [rest ->].
  { destruct (_ <=? _)%nat; [|injection H3 as <-; exists []; by rewrite app_nil_r].
    rewrite BuilderFacts.append_packed_I in H3. destruct (forallb _ _); [|done]. injection H3 as <-.
    eexists. by rewrite <- app_assoc. }
  eexists d1, d2, _, rest. split; [done|]. split; [exact H1|]. split; [exact H2|]. done.
Qed.

Section Raises.
Context `{C : AddrConv} `{I : IntConv} (set_order : list FlowSpec.t -> list FlowSpec.t).

Lemma set_state_action_raises state table_id bit hard idle hard_rb idle_rb mask a o :
  Actions.OFPExpActionSetState state table_id bit hard idle hard_rb idle_rb mask = Ok a ->
  translate_action set_order (Action.OFPActionExperimenterUnknown a) o = (Err ValueError, o).
Proof.
  unfold Actions.OFPExpActionSetState. intros H. apply bind_Ok in H as (data & Hd & H). injection H as <-.
  unfold translate_action. cbn [ActionExperimenterUnknown.experimenter ActionExperimenterUnknown.data].
  change (0xBEBABEBA =? BEBA_EXPERIMENTER_ID) with true. cbv iota.
  pose proof (unpack_slice_pack OFP_EXP_ACTION_SET_STATE_PACK_STR _ _ data [] [] eq_refl Hd) as Hu.
  cbn [app length] in Hu. rewrite app_nil_r in Hu.
  assert (exists rest, data = be_encode 4 OFPAT_EXP_SET_STATE ++ rest) as [rest Hr].
  { fmt_eval. unfold fpack in Hd. cbn [f_codes f_order pack_codes] in Hd.
    change (in_width 4 OFPAT_EXP_SET_STATE) with true in Hd. cbv iota in Hd.
    apply bind_Ok in Hd as (r & _ & [= <-]). by eexists. }
  assert (Hw : unpack_slice "!I" data 0 = Ok [VInt OFPAT_EXP_SET_STATE]).
  { rewrite Hr. exact (unpack_slice_pack "!I" (Format Big [Fi 4]) [VInt OFPAT_EXP_SET_STATE] _ [] rest
                         eq_refl eq_refl). }
  stm_unfold. rewrite Hw. cbv iota. rewrite Hu. done.
Qed.

(** An action the wrapper keeps. *)
Definition kept (a : Action.t) : Prop :=
  match a with
  | Action.OFPActionExperimenterUnknown a => ActionExperimenterUnknown.experimenter a <> BEBA_EXPERIMENTER_ID
  | _ => True
  end.

Lemma translate_kept a o : kept a -> translate_action set_order a o = (Ok [a], o).
Proof.
  destruct a; try done. cbn [kept]. intros H. unfold translate_action.
  by rewrite (proj2 (Z.eqb_neq _ _) H).
Qed.


End Raises.

(** *** Configuring a stateful stage *)

Section Configure.
Context `{C : AddrConv} `{I : IntConv} (set_order : list FlowSpec.t -> list FlowSpec.t).

(** The two flow modifications of a stateful stage. *)
Definition miss_flow (t : Z) : res msg :=
  m ← match_of_kwargs [reg "reg1" 0];
  set ← Action.set_field_init [reg "reg1" 1];
  Ok (flow_mod (get_state_table_id t) OFPFC_ADD 10 0 0 m
        (apply_actions [set; Action.NXActionResubmitTable 0xfff8 (get_state_table_id t);
                        Action.NXActionResubmitTable 0xfff8 (get_flow_table_id t)])).

Definition default_flow (t : Z) : res msg :=
  m ← match_of_kwargs [reg "reg1" 1];
  set ← Action.set_field_init [reg "reg0" 0];
  Ok (flow_mod (get_state_table_id t) OFPFC_ADD 10 0 0 m (apply_actions [set])).

(** The body of the message as it is written: its length, or the exception. *)
Definition body_of (m : res msg) : res nat :=
  match m with
  | Ok (MsgFlowMod f) => '(b, _) ← FlowMod.serialize_body f MsgBase.serialize_pre; Ok (length b)
  | Ok _ => Err TypeError
  | Err e => Err e
  end.

Definition is_len (r : res nat) (n : nat) : bool := match r with Ok m => (m =? n)%nat | Err _ => false end.
Definition is_struct_error (r : res nat) : bool :=
  match r with Err StructError => true | _ => false end.

(** All tables of a byte, by evaluation. *)
Lemma table_bodies :
  forallb (fun t => if t <? 128 then is_len (body_of (miss_flow t)) 120 && is_len (body_of (default_flow t)) 88
                    else is_struct_error (body_of (miss_flow t))) (Z.of_nat <$> seq 0 256) = true.
Proof. vm_compute. reflexivity. Qed.

Lemma table_body t : 0 <= t < 256 ->
  if t <? 128 then body_of (miss_flow t) = Ok 120%nat /\ body_of (default_flow t) = Ok 88%nat
  else body_of (miss_flow t) = Err StructError.
Proof.
  intros Ht. pose proof (proj1 (forallb_forall _ _) table_bodies t) as H.
  assert (Hin : In t (Z.of_nat <$> seq 0 256)).
  { apply list_elem_of_In, list_elem_of_fmap. exists (Z.to_nat t). split; [lia|]. apply elem_of_seq. lia. }
  specialize (H Hin). cbv beta in H. destruct (t <? 128).
  - apply andb_true_iff in H as [H1 H2]. unfold is_len in *.
    destruct (body_of (miss_flow t)) as [n1|]; [|done]. destruct (body_of (default_flow t)) as [n2|]; [|done].
    by apply Nat.eqb_eq in H1 as ->; apply Nat.eqb_eq in H2 as ->.
  - unfold is_struct_error in H. destruct (body_of (miss_flow t)) as [|[]]; done.
Qed.

Lemma header_fits ty x buf : in_width 1 ty = true -> in_width 4 x = true -> (8 <= length buf)%nat ->
  Z.of_nat (length buf) < 65536 ->
  exists b, MsgBase.serialize_header OFP_VERSION ty (Some x) buf = Ok b /\ length b = length buf.
Proof.
  intros Ht Hx H8 Hl. unfold MsgBase.serialize_header.
  rewrite (proj2 (Nat.leb_le _ _)) by (unfold OFP_HEADER_SIZE; lia). cbn [py_assert mbind res_bind default from_option id].
  fmt_eval. set (args := [VInt OFP_VERSION; VInt ty; VInt (Z.of_nat (length buf)); VInt x]).
  set (f := Format Big [Fi 1; Fi 1; Fi 2; Fi 4]).
  assert (exists h, fpack f args = Ok h) as [h Hh].
  { unfold fpack, f, args. cbn [f_codes f_order pack_codes]. change (in_width 1 OFP_VERSION) with true.
    rewrite Ht, Hx, in_width_2 by lia. by eexists. }
  pose proof (fpack_length _ _ _ Hh) as Hhl. change (fmt_size f) with 8%nat in Hhl.
  unfold fpack_into. rewrite Hh. cbn [mbind res_bind]. change (fmt_size f) with 8%nat.
  rewrite (proj2 (Nat.leb_le _ _)) by lia. eexists. split; [done|].
  rewrite take_0, app_nil_l, length_app, length_drop, Hhl. lia.
Qed.

Definition after_send (bs : list bytes) (x : Z) (o : Ovs.t) : Ovs.t :=
  Mk x (sent o ++ bs) (lookup_scope o) (update_scope o) (flowSpecMatchDict o) (stateful_stages_in_use o).

(** A message whose body is written is sent, one whose body is not raises. *)
Lemma send_body m o : 
  match body_of (Ok m) with
  | Ok n => (8 <= n)%nat -> Z.of_nat n < 65536 ->
      exists b, length b = n /\ super_send_msg m o = (Ok tt, after_send [b] (Z.land (xid o + 1) MAX_XID) o)
  | Err e => match m with
             | MsgFlowMod _ => super_send_msg m o = (Err e, after_send [] (Z.land (xid o + 1) MAX_XID) o)
             | _ => True
             end
  end.
Proof.
  destruct m as [| |f|]; cbn [body_of]; try done.
  unfold super_send_msg. stm_unfold. cbn [xid serialize]. unfold FlowMod.serialize, MsgBase.serialize.
  destruct (FlowMod.serialize_body f [0; 0; 0; 0; 0; 0; 0; 0]) as [[buf m']|e]; unfold mbind, res_bind; cbv beta iota.
  - intros H8 Hn. destruct (header_fits OFPT_FLOW_MOD (Z.land (xid o + 1) MAX_XID) buf) as (b & Hb & Hl);
      [done| |done|done|].
    { pose proof (ConnFacts.next_xid (xid o)) as Hx. apply in_width_4. unfold MAX_XID in *. lia. }
    rewrite Hb. by exists b.
  - unfold after_send. by rewrite app_nil_r.
Qed.

Lemma stage_message stateful t e : Messages.OFPExpMsgConfigureStatefulTable stateful t = Ok e ->
  0 <= t < 256 /\ forall o, send_msg set_order (MsgExperimenter e) o = (configure_stateful_table t ;; mret tt) o.
Proof.
  unfold Messages.OFPExpMsgConfigureStatefulTable. intros H. apply bind_Ok in H as (d1 & H1 & H).
  apply bind_Ok in H as (d2 & H2 & [= <-]).
  assert (Hcmd : unpack_slice OFP_EXP_STATE_MOD_PACK_STR (d1 ++ d2) 0 = Ok [VInt OFPSC_EXP_STATEFUL_TABLE_CONFIG])
    by exact (unpack_slice_pack OFP_EXP_STATE_MOD_PACK_STR (Format Big [Fi 1; Fx 1]) _ d1 [] d2 eq_refl H1).
  assert (Hl : calcsize OFP_EXP_STATE_MOD_PACK_STR = length d1) by (by rewrite (fpack_length _ _ _ H1)).
  pose proof (unpack_slice_pack OFP_EXP_STATE_MOD_STATEFUL_TABLE_CONFIG_PACK_STR
                (Format Big [Fi 1; Fi 1]) [VInt t; VInt stateful] d2 d1 [] eq_refl H2) as Hx.
  rewrite app_nil_r in Hx. split.
  - fmt_eval. unfold fpack in H2. cbn [f_codes f_order pack_codes] in H2.
    destruct (in_width 1 t) eqn:Hw; [|done]. by apply in_width_iff in Hw.
  - intros o. unfold send_msg, Messages.state_mod.
    cbn [Experimenter.experimenter Experimenter.exp_type Experimenter.data]. change (_ && _) with true. cbv iota.
    unfold state_mod, mbind, stm_bind, lift_res. rewrite Hcmd. cbv iota.
    change (OFPSC_EXP_STATEFUL_TABLE_CONFIG =? OFPSC_EXP_STATEFUL_TABLE_CONFIG) with true. cbv iota.
    rewrite Hl, Hx. cbn [fit_args f_codes].
    by destruct (configure_stateful_table t o) as [[u|ex] o'].
Qed.

(** Configuring a stateful stage: for the tables 0 to 127 the wrapper sends the two
    flow modifications of the state table, of 120 and 88 bytes, with the next two
    transaction ids, and records the stage; the other tables of a byte have no state
    table, the first flow modification raises a struct.error and nothing is sent. *)
Theorem stateful_stage_bounds (stateful t : Z) (e : Experimenter.t) (o : Ovs.t)
    (He : Messages.OFPExpMsgConfigureStatefulTable stateful t = Ok e) :
  if t <? 128 then
    exists b1 b2, length b1 = 120%nat /\ length b2 = 88%nat
      /\ send_msg set_order (MsgExperimenter e) o
         = (Ok tt, with_stage t (after_send [b1; b2]
                     (Z.land (Z.land (xid o + 1) MAX_XID + 1) MAX_XID) o))
  else send_msg set_order (MsgExperimenter e) o
       = (Err StructError, after_send [] (Z.land (xid o + 1) MAX_XID) o).
Proof.
  destruct (stage_message _ _ _ He) as [Ht Hsend]. rewrite !Hsend. pose proof (table_body t Ht) as Hb.
  assert (Hcfg : forall o, configure_stateful_table t o
    = (m1 ← lift_res (miss_flow t); super_send_msg m1 ;;
       m2 ← lift_res (default_flow t); super_send_msg m2 ;; modify (with_stage t)) o) by reflexivity.
  assert (exists f1, miss_flow t = Ok (MsgFlowMod f1)) as [f1 H1] by (eexists; reflexivity).
  assert (exists f2, default_flow t = Ok (MsgFlowMod f2)) as [f2 H2] by (eexists; reflexivity).
  rewrite H1, H2 in Hb, Hcfg. unfold mbind, stm_bind, lift_res in Hcfg |- *. rewrite !Hcfg.
  pose proof (send_body (MsgFlowMod f1) o) as Hs1. destruct (t <? 128).
  - destruct Hb as [Hb1 Hb2]. rewrite Hb1 in Hs1. destruct Hs1 as (b1 & Hl1 & Hs1); [lia|lia|].
    pose proof (send_body (MsgFlowMod f2) (after_send [b1] (Z.land (xid o + 1) MAX_XID) o)) as Hs2.
    rewrite Hb2 in Hs2. destruct Hs2 as (b2 & Hl2 & Hs2); [lia|lia|].
    exists b1, b2. split; [done|]. split; [done|]. rewrite Hs1, Hs2. cbn [modify]. do 2 f_equal.
    unfold after_send. cbn [sent xid lookup_scope update_scope flowSpecMatchDict stateful_stages_in_use].
    by rewrite <- app_assoc.
  - rewrite Hb in Hs1. by rewrite Hs1.
Qed.

End Configure.


Lemma stateful_stage_bounds_witness :
  exists e1 e2 b1 b2 o, Messages.OFPExpMsgConfigureStatefulTable 1 7 = Ok e1
    /\ send_msg (C := RawConv.conv) (I := MatchClaims.raw_int) id (MsgExperimenter e1) (wrap 0 []) = (Ok tt, o)
    /\ sent o = [b1; b2] /\ 7 ∈ stateful_stages_in_use o
    /\ Messages.OFPExpMsgConfigureStatefulTable 1 200 = Ok e2
    /\ (send_msg (C := RawConv.conv) (I := MatchClaims.raw_int) id (MsgExperimenter e2) (wrap 0 [])).1 = Err StructError.
Proof.
  destruct (Messages.OFPExpMsgConfigureStatefulTable 1 7) as [e1|] eqn:H1; [|vm_compute in H1; discriminate].
  destruct (Messages.OFPExpMsgConfigureStatefulTable 1 200) as [e2|] eqn:H2; [|vm_compute in H2; discriminate].
  destruct (stateful_stage_bounds (C := RawConv.conv) (I := MatchClaims.raw_int) id 1 7 e1 (wrap 0 []) H1)
    as (b1 & b2 & _ & _ & Hs).
  pose proof (stateful_stage_bounds (C := RawConv.conv) (I := MatchClaims.raw_int) id 1 200 e2 (wrap 0 []) H2) as Hs2.
  cbn [Z.ltb Z.compare Pos.compare Pos.compare_cont] in Hs2.
  eexists e1, e2, b1, b2, _. split; [reflexivity|]. split; [exact Hs|]. split; [reflexivity|].
  split; [apply elem_of_union_l, elem_of_singleton; reflexivity|]. split; [reflexivity|].
  rewrite Hs2. reflexivity.
Defined.

End OvsClaims.
