(* ===== verification/Network.v ===== *)
(** * Stores of the controller (ryu/controller: network, mac_to_port, mac_to_network)

    The network, port and MAC address stores, their operations with the
    exceptions they raise and the events they send, and the consistency between
    the stores that the operations keep. *)

From Stdlib Require Import ZArith Lia.
From stdpp Require Import base list gmap strings numbers sorting.
From S2P Require Import Prelude.

(** ** Networks, ports and MAC addresses *)

Module Network.

(** Network identifiers are strings, the empty one being false; a port is a pair
    of datapath identifier and port number. *)
Record Port := MkPort { port_no : Z; network_id : string; mac_address : option string }.

Inductive event :=
  | EventNetworkDel (network_id : string)
  | EventNetworkPort (network_id : string) (dpid port_no : Z) (add_del : bool)
  | EventMacAddress (dpid port_no : Z) (network_id mac_address : string) (add_del : bool).

Record state := MkState {
  networks : gmap string (gset (Z * Z));
  dpids : gmap Z (gmap Z Port);
  mac_addresses : gmap string (gmap string (gset (Z * Z)));
  events : list event }.

Definition truthy (s : string) : bool := negb (bool_decide (s = ""%string)).

Definition set_networks (n : gmap string (gset (Z * Z))) (s : state) : state :=
  MkState n (dpids s) (mac_addresses s) (events s).
Definition set_dpids (d : gmap Z (gmap Z Port)) (s : state) : state :=
  MkState (networks s) d (mac_addresses s) (events s).
Definition set_macs (m : gmap string (gmap string (gset (Z * Z)))) (s : state) : state :=
  MkState (networks s) (dpids s) m (events s).
Definition send_event (e : event) : stm state unit :=
  modify (fun s => MkState (networks s) (dpids s) (mac_addresses s) (events s ++ [e])).

(** [self[k]] of a dictionary. *)
Definition getitem {K A} `{Countable K} (sel : state -> gmap K A) (k : K) : stm state A :=
  fun s => (or_raise KeyError (sel s !! k), s).

(** *** Networks: network_id -> set of (dpid, port_no) *)

Definition list_networks : stm state (list string) :=
  gets (fun s => elements (dom (networks s))).

Definition has_network (nw : string) : stm state bool :=
  gets (fun s => bool_decide (nw ∈ dom (networks s))).

Definition networks_update_network (nw : string) : stm state unit :=
  modify (fun s => match networks s !! nw with
                   | Some _ => s
                   | None => set_networks (<[nw := ∅]> (networks s)) s
                   end).

Definition networks_create_network (nw : string) : stm state unit :=
  s ← get;
  match networks s !! nw with
  | Some _ => raise NetworkAlreadyExist
  | None => put (set_networks (<[nw := ∅]> (networks s)) s)
  end.

Definition remove_event (nw : string) (p : Z * Z) : stm state unit :=
  send_event (EventNetworkPort nw p.1 p.2 false).

(** The ports are popped one by one, in the order of the set; then the network. *)
Definition networks_remove_network (nw : string) : stm state unit :=
  ports ← try_except (getitem networks nw) KeyError (raise NetworkNotFound);
  iterM (fun p =>
           modify (fun s => set_networks (alter (fun ps => ps ∖ {[p]}) nw (networks s)) s) ;;
           remove_event nw p) (elements ports) ;;
  modify (fun s => set_networks (delete nw (networks s)) s) ;;
  send_event (EventNetworkDel nw).

Definition networks_list_ports (nw : string) : stm state (list (Z * Z)) :=
  ports ← try_except (getitem networks nw) KeyError (raise NetworkNotFound);
  mret (elements ports).

Definition add_raw (nw : string) (dpid port : Z) : stm state unit :=
  ports ← getitem networks nw;
  modify (fun s => set_networks (<[nw := ports ∪ {[(dpid, port)]}]> (networks s)) s).

Definition add_event (nw : string) (dpid port : Z) : stm state unit :=
  send_event (EventNetworkPort nw dpid port true).

Definition remove_raw (nw : string) (dpid port : Z) : stm state unit :=
  ports ← getitem networks nw;
  if bool_decide ((dpid, port) ∈ ports) then
    modify (fun s => set_networks (<[nw := ports ∖ {[(dpid, port)]}]> (networks s)) s) ;;
    remove_event nw (dpid, port)
  else mret tt.

Definition networks_remove (nw : string) (dpid port : Z) : stm state unit :=
  try_except (try_except (remove_raw nw dpid port) KeyError (raise NetworkNotFound))
    ValueError (raise PortNotFound).

Definition has_port (nw : string) (dpid port : Z) : stm state bool :=
  ports ← getitem networks nw; mret (bool_decide ((dpid, port) ∈ ports)).

Definition get_dpids (nw : string) : stm state (gset Z) :=
  gets (fun s => match networks s !! nw with
                 | Some ports => set_map fst ports
                 | None => ∅
                 end).

(** *** DPIDs: dpid -> port_no -> Port *)

Section Ops.
Variable nw_id_unknown : string.

Definition port_of (s : state) (dpid port : Z) : option Port :=
  dpids s !! dpid ≫= (fun ports => ports !! port).

Definition set_port (dpid port : Z) (p : Port) (s : state) : state :=
  set_dpids (<[dpid := <[port := p]> (default ∅ (dpids s !! dpid))]> (dpids s)) s.

Definition setdefault_network (dpid port : Z) (default_nw : string) : stm state Port :=
  s ← get;
  match port_of s dpid port with
  | Some p => mret p
  | None =>
      let p := MkPort port default_nw None in
      put (set_port dpid port p s) ;; mret p
  end.

Definition dpids_update_port (dpid port : Z) (nw : string) : stm state unit :=
  p ← setdefault_network dpid port nw;
  modify (set_port dpid port (MkPort (port_no p) nw (mac_address p))).

Definition dpids_remove_port (dpid port : Z) : stm state unit :=
  ports ← try_except (getitem dpids dpid) KeyError (raise PortNotFound);
  modify (fun s => set_dpids (<[dpid := delete port ports]> (dpids s)) s) ;;
  match ports !! port with
  | Some (MkPort _ nw (Some mac)) =>
      if truthy nw && truthy mac
      then send_event (EventMacAddress dpid port nw mac false) else mret tt
  | _ => mret tt
  end.

Definition get_ports (dpid : Z) (nw mac : option string) : stm state (list Port) :=
  gets (fun s =>
    let ps := (map_to_list (default ∅ (dpids s !! dpid))).*2 in
    match nw with
    | None => ps
    | Some n =>
        match mac with
        | None => filter (fun p => network_id p = n) ps
        | Some m => filter (fun p => network_id p = n /\ mac_address p = Some m) ps
        end
    end).

Definition get_port (dpid port : Z) : stm state Port :=
  fun s => (or_raise PortNotFound (port_of s dpid port), s).

Definition get_network (dpid port : Z) : stm state string :=
  fun s => (or_raise PortUnknown (network_id <$> port_of s dpid port), s).

Definition get_network_safe (s : state) (dpid port : Z) : string :=
  match port_of s dpid port with Some p => network_id p | None => nw_id_unknown end.

Definition dpids_get_mac (dpid port : Z) : stm state (option string) :=
  p ← get_port dpid port; mret (mac_address p).

Definition _set_mac (nw : string) (dpid port : Z) (p : Port) (mac : string) :
    stm state unit :=
  if negb (bool_decide (network_id p = nw) || bool_decide (network_id p = nw_id_unknown))
  then raise PortNotFound
  else
    modify (set_port dpid port (MkPort (port_no p) nw (Some mac))) ;;
    if truthy nw && truthy mac
    then send_event (EventMacAddress dpid port nw mac true) else mret tt.

Definition dpids_set_mac (nw : string) (dpid port : Z) (mac : string) : stm state unit :=
  p ← get_port dpid port;
  match mac_address p with
  | Some _ => raise MacAddressAlreadyExist
  | None => _set_mac nw dpid port p mac
  end.

Definition dpids_update_mac (nw : string) (dpid port : Z) (mac : string) : stm state unit :=
  p ← get_port dpid port;
  match mac_address p with
  | None => _set_mac nw dpid port p mac
  | Some m => if bool_decide (m = mac) then mret tt else raise MacAddressAlreadyExist
  end.

(** *** MacAddresses: network_id -> mac_address -> set of (dpid, port_no) *)

Definition mac_add_port (nw : string) (dpid port : Z) (mac : string) : stm state unit :=
  modify (fun s =>
    let m := default ∅ (mac_addresses s !! nw) in
    let ps := default ∅ (m !! mac) in
    set_macs (<[nw := <[mac := ps ∪ {[(dpid, port)]}]> m]> (mac_addresses s)) s).

Definition mac_remove_port (nw : string) (dpid port : Z) (mac : string) : stm state unit :=
  modify (fun s =>
    match mac_addresses s !! nw with
    | None => s
    | Some m =>
        let ps := default ∅ (m !! mac) ∖ {[(dpid, port)]} in
        let m := if decide (ps = ∅) then delete mac m else <[mac := ps]> m in
        set_macs (if decide (m = ∅) then delete nw (mac_addresses s)
                  else <[nw := m]> (mac_addresses s)) s
    end).

(** Reading a missing address leaves an empty set behind. *)
Definition mac_get_ports (nw : string) (mac : string) : stm state (gset (Z * Z)) :=
  s ← get;
  match mac_addresses s !! nw with
  | None => mret ∅
  | Some m =>
      if decide (m = ∅) then mret ∅
      else match m !! mac with
           | Some ps => mret ps
           | None => put (set_macs (<[nw := <[mac := ∅]> m]> (mac_addresses s)) s) ;; mret ∅
           end
  end.

(** *** The Network application *)

Definition check_nw_id_unknown (nw : string) : stm state unit :=
  if bool_decide (nw = nw_id_unknown) then raise NetworkAlreadyExist else mret tt.

Definition update_network (nw : string) : stm state unit :=
  check_nw_id_unknown nw ;; networks_update_network nw.

Definition create_network (nw : string) : stm state unit :=
  check_nw_id_unknown nw ;; networks_create_network nw.

Definition remove_network (nw : string) : stm state unit := networks_remove_network nw.

Definition list_ports (nw : string) : stm state (list (Z * Z)) := networks_list_ports nw.

Definition list_ports_noraise (nw : string) : stm state (list (Z * Z)) :=
  try_except (list_ports nw) NetworkNotFound (mret []).

Definition known_nw_id (nw : string) : bool := negb (bool_decide (nw = nw_id_unknown)).

Definition _update_port (nw : string) (dpid port : Z) (port_may_exist : bool) :
    stm state unit :=
  check_nw_id_unknown nw ;;
  queue_add_event ← try_except (
    old ← gets (fun s => get_network_safe s dpid port);
    b ← has_port nw dpid port;
    (if (b || known_nw_id old) && negb port_may_exist
     then raise PortAlreadyExist else mret tt) ;;
    if bool_decide (old = nw) then mret false
    else
      add_raw nw dpid port ;;
      (if known_nw_id old then remove_raw old dpid port else mret tt) ;;
      mret true) KeyError (raise NetworkNotFound);
  dpids_update_port dpid port nw ;;
  if (queue_add_event : bool) then add_event nw dpid port else mret tt.

Definition create_port (nw : string) (dpid port : Z) : stm state unit :=
  _update_port nw dpid port false.
Definition update_port (nw : string) (dpid port : Z) : stm state unit :=
  _update_port nw dpid port true.

Definition get_old_mac (nw : string) (dpid port : Z) : stm state (option string) :=
  gets (fun s => match port_of s dpid port with
                 | Some p => if bool_decide (network_id p = nw) then mac_address p else None
                 | None => None
                 end).

Definition remove_port (nw : string) (dpid port : Z) : stm state unit :=
  old ← get_old_mac nw dpid port;
  dpids_remove_port dpid port ;;
  try_except (networks_remove nw dpid port) NetworkNotFound (mret tt) ;;
  match old with Some mac => mac_remove_port nw dpid port mac | None => mret tt end.

Definition create_mac (nw : string) (dpid port : Z) (mac : string) : stm state unit :=
  mac_add_port nw dpid port mac ;; dpids_set_mac nw dpid port mac.

Definition update_mac (nw : string) (dpid port : Z) (mac : string) : stm state unit :=
  old ← get_old_mac nw dpid port;
  dpids_update_mac nw dpid port mac ;;
  (match old with Some m => mac_remove_port nw dpid port m | None => mret tt end) ;;
  mac_add_port nw dpid port mac.

Definition get_mac (dpid port : Z) : stm state (option string) := dpids_get_mac dpid port.

Definition list_mac (dpid port : Z) : stm state (list string) :=
  m ← dpids_get_mac dpid port; mret (option_list m).

(** [set(self[dpid].values())]: the port objects, which are distinct. *)
Definition get_networks (dpid : Z) : stm state (list Port) :=
  ports ← getitem dpids dpid; mret (map_to_list ports).*2.

Definition get_ports_with_mac (nw mac : string) : stm state (gset (Z * Z)) :=
  mac_get_ports nw mac.

(** *** Datapaths and isolation *)

Definition setdefault_dpid (dpid : Z) : stm state unit :=
  modify (fun s => match dpids s !! dpid with
                   | Some _ => s
                   | None => set_dpids (<[dpid := ∅]> (dpids s)) s
                   end).

(** [ofpp_max] is OFPP_MAX of the datapath's protocol version. *)
Definition port_added (ofpp_max dpid port : Z) : stm state unit :=
  if (port =? 0) || (ofpp_max <=? port) then mret tt
  else setdefault_network dpid port nw_id_unknown ;; mret tt.

Definition add_datapath (ofpp_max dpid : Z) (ports : list Z) : stm state unit :=
  setdefault_dpid dpid ;; iterM (port_added ofpp_max dpid) ports.

Definition port_deleted (dpid port : Z) : stm state unit := dpids_remove_port dpid port.

Definition same_network (dpid : Z) (nw : string) (out_port : Z) (ext : option string) :
    stm state bool :=
  lift_res (py_assert (negb (bool_decide (nw = nw_id_unknown)))) ;;
  out_nw ← gets (fun s => get_network_safe s dpid out_port);
  mret (bool_decide (nw = out_nw) || bool_decide (ext = Some nw)
        || bool_decide (ext = Some out_nw)).

Definition filter_ports (dpid in_port : Z) (nw : string) (ext : option string) :
    stm state (list Z) :=
  lift_res (py_assert (negb (bool_decide (nw = nw_id_unknown)))) ;;
  ps ← get_ports dpid None None;
  mret (port_no <$> filter (fun p => port_no p <> in_port
          /\ (network_id p = nw \/ ext = Some (network_id p))) ps).

End Ops.
End Network.

(** ** Consistency of the stores *)

Module NetworkInv.
Import Network.

Section Inv.
Variable nw_id_unknown : string.

Inductive op :=
  | OpCreateNetwork (nw : string)
  | OpUpdateNetwork (nw : string)
  | OpRemoveNetwork (nw : string)
  | OpCreatePort (nw : string) (dpid port : Z)
  | OpUpdatePort (nw : string) (dpid port : Z)
  | OpRemovePort (nw : string) (dpid port : Z)
  | OpCreateMac (nw : string) (dpid port : Z) (mac : string)
  | OpUpdateMac (nw : string) (dpid port : Z) (mac : string)
  | OpAddDatapath (ofpp_max dpid : Z) (ports : list Z)
  | OpPortAdded (ofpp_max dpid port : Z)
  | OpPortDeleted (dpid port : Z).

Definition run (o : op) : stm state unit :=
  match o with
  | OpCreateNetwork nw => create_network nw_id_unknown nw
  | OpUpdateNetwork nw => update_network nw_id_unknown nw
  | OpRemoveNetwork nw => remove_network nw
  | OpCreatePort nw d p => create_port nw_id_unknown nw d p
  | OpUpdatePort nw d p => update_port nw_id_unknown nw d p
  | OpRemovePort nw d p => remove_port nw d p
  | OpCreateMac nw d p m => create_mac nw_id_unknown nw d p m
  | OpUpdateMac nw d p m => update_mac nw_id_unknown nw d p m
  | OpAddDatapath m d ps => add_datapath nw_id_unknown m d ps
  | OpPortAdded m d p => port_added nw_id_unknown m d p
  | OpPortDeleted d p => port_deleted d p
  end.

(** The calls the stores stay consistent under: a port is moved only out of a
    network that still exists, removed from the network it is recorded in, and
    deleted by the datapath only when it is in no network. *)
Definition legal (s : state) (o : op) : Prop :=
  match o with
  | OpUpdatePort _ d p =>
      let old := get_network_safe nw_id_unknown s d p in
      old <> nw_id_unknown -> is_Some (networks s !! old)
  | OpRemovePort nw d p => forall q, port_of s d p = Some q -> network_id q = nw
  | OpPortDeleted d p => forall nw ps, networks s !! nw = Some ps -> (d, p) ∉ ps
  | _ => True
  end.

(** One call, whatever its outcome. *)
Inductive step : state -> op -> state -> Prop :=
  | step_call s o : legal s o -> step s o (run o s).2.

Inductive reachable : state -> Prop :=
  | reach_init : reachable (MkState ∅ ∅ ∅ [])
  | reach_step s o s' : reachable s -> step s o s' -> reachable s'.

(** Every port of a network is recorded with that network, and the reserved
    identifier is no network. *)
Record Inv (s : state) : Prop := {
  inv_unknown : networks s !! nw_id_unknown = None;
  inv_ports nw ps d p : networks s !! nw = Some ps -> (d, p) ∈ ps ->
    exists q, port_of s d p = Some q /\ network_id q = nw }.

(** *** Lookups *)

Lemma port_of_set s d p q d' p' :
  port_of (set_port d p q s) d' p'
  = if decide (d = d' /\ p = p') then Some q else port_of s d' p'.
Proof.
  unfold port_of, set_port, set_dpids. cbn.
  destruct (decide (d = d')) as [->|Hd].
  - rewrite lookup_insert_eq. cbn. destruct (decide (p = p')) as [->|Hp].
    + rewrite lookup_insert_eq. by rewrite decide_True.
    + rewrite lookup_insert_ne, decide_False by tauto.
      by destruct (dpids s !! d').
  - rewrite lookup_insert_ne, decide_False by tauto. done.
Qed.

Lemma networks_set_port s d p q : networks (set_port d p q s) = networks s.
Proof. done. Qed.

(** *** Preservation, operation by operation *)

(** A state with the same networks and with ports that keep their network. *)
Lemma Inv_ports_only s s' :
  Inv s -> networks s' = networks s ->
  (forall d p q, port_of s d p = Some q -> network_id q <> nw_id_unknown ->
     exists q', port_of s' d p = Some q' /\ network_id q' = network_id q) -> Inv s'.
Proof.
  intros [Hu Hp] En Hk. split; rewrite En; [done|].
  intros nw ps d p Hnw Hin. destruct (Hp _ _ _ _ Hnw Hin) as (q & Hq & Enw).
  destruct (Hk d p q Hq) as (q' & Hq' & Eq'); [intros E; rewrite E in Enw; congruence|].
  exists q'. split; [done|congruence].
Qed.

Lemma Inv_new_network s nw :
  Inv s -> nw <> nw_id_unknown -> Inv (set_networks (<[nw := ∅]> (networks s)) s).
Proof.
  intros [Hu Hp] Hne. split; cbn.
  - by rewrite lookup_insert_ne.
  - intros nw' ps d p Hl Hin. apply lookup_insert_Some in Hl as [[<- <-]|[_ Hl]].
    + set_solver.
    + by apply (Hp nw' ps d p).
Qed.

Lemma create_network_inv s nw : Inv s -> Inv (create_network nw_id_unknown nw s).2.
Proof.
  intros HI. unfold create_network, check_nw_id_unknown, networks_create_network.
  case_bool_decide as Hu; [done|]. stm_unfold. destruct (networks s !! nw) eqn:E; [done|].
  by apply Inv_new_network.
Qed.

Lemma update_network_inv s nw : Inv s -> Inv (update_network nw_id_unknown nw s).2.
Proof.
  intros HI. unfold update_network, check_nw_id_unknown, networks_update_network.
  case_bool_decide as Hu; [done|]. stm_unfold. destruct (networks s !! nw) eqn:E; [done|].
  by apply Inv_new_network.
Qed.

(** The loop of [remove_network] empties the set, sending an event per port. *)
Lemma remove_loop nw l s :
  exists s', iterM (fun p =>
     modify (fun s => set_networks (alter (fun ps => ps ∖ {[p]}) nw (networks s)) s) ;;
     remove_event nw p) l s = (Ok tt, s')
  /\ dpids s' = dpids s /\ mac_addresses s' = mac_addresses s
  /\ events s' = events s ++ ((fun p => EventNetworkPort nw p.1 p.2 false) <$> l)
  /\ delete nw (networks s') = delete nw (networks s).
Proof.
  revert s. induction l as [|p l IH]; intros s.
  - exists s. cbn. by rewrite app_nil_r.
  - cbn [iterM]. set (s1 := MkState (alter (fun ps => ps ∖ {[p]}) nw (networks s)) (dpids s)
      (mac_addresses s) (events s ++ [EventNetworkPort nw p.1 p.2 false])).
    destruct (IH s1) as (s' & Hr & E1 & E2 & E3 & E4). exists s'. split; [exact Hr|].
    rewrite E1, E2, E3, E4. cbn. rewrite <- app_assoc. cbn. repeat split.
    apply map_eq. intros k. destruct (decide (k = nw)) as [->|].
    + by rewrite !lookup_delete_eq.
    + rewrite !lookup_delete_ne by done. by rewrite lookup_alter_ne.
Qed.

Lemma remove_network_spec s nw :
  (remove_network nw s) =
  match networks s !! nw with
  | None => (Err NetworkNotFound, s)
  | Some ports =>
      (Ok tt, MkState (delete nw (networks s)) (dpids s) (mac_addresses s)
        (events s ++ ((fun p => EventNetworkPort nw p.1 p.2 false) <$> elements ports)
         ++ [EventNetworkDel nw]))
  end.
Proof.
  unfold remove_network, networks_remove_network.
  destruct (networks s !! nw) as [ports|] eqn:E.
  - erewrite stm_bind_ok; [|unfold try_except, getitem; rewrite E; reflexivity].
    destruct (remove_loop nw (elements ports) s) as (s' & Hr & E1 & E2 & E3 & E4).
    erewrite stm_bind_ok; [|exact Hr]. unfold send_event. stm_unfold. rewrite E1, E2, E3, E4.
    by rewrite <- app_assoc.
  - apply stm_bind_err. unfold try_except, getitem. by rewrite E.
Qed.

Lemma remove_network_inv s nw : Inv s -> Inv (remove_network nw s).2.
Proof.
  intros HI. rewrite remove_network_spec. destruct (networks s !! nw); [|done].
  destruct HI as [Hu Hp]. split; cbn.
  - by apply lookup_delete_None; right.
  - intros nw' ps d p [_ Hl]%lookup_delete_Some Hin. by apply (Hp nw' ps d p).
Qed.

(** *** Moving a port *)

(** The stores after a port was put into a network: the networks differ in at most
    the old and the new one, and the port is recorded with the new one. *)
Definition moved (s : state) (nw old : string) (d p : Z) (s' : state) : Prop :=
  (exists q, port_of s' d p = Some q /\ network_id q = nw)
  /\ (forall d' p', (d', p') <> (d, p) -> port_of s' d' p' = port_of s d' p')
  /\ (forall k, networks s' !! k =
        if decide (old = nw) then networks s !! k
        else if decide (k = nw) then (fun ps => ps ∪ {[(d, p)]}) <$> networks s !! k
        else if decide (k = old /\ old <> nw_id_unknown)
             then (fun ps => ps ∖ {[(d, p)]}) <$> networks s !! k
             else networks s !! k).

Lemma moved_inv s nw old d p s' :
  Inv s -> nw <> nw_id_unknown -> old = get_network_safe nw_id_unknown s d p ->
  moved s nw old d p s' -> Inv s'.
Proof.
  intros [Hu Hp] Hne -> (Hq & Hother & Hnet). set (old := get_network_safe _ s d p) in *.
  assert (Honly : forall k ps, networks s !! k = Some ps -> (d, p) ∈ ps -> k = old).
  { intros k ps Hk Hin. destruct (Hp k ps d p Hk Hin) as (q & E & Ek).
    unfold old, get_network_safe. by rewrite E. }
  clearbody old. split.
  - rewrite Hnet. repeat case_decide; subst; try done; rewrite Hu; done.
  - intros k ps d' p' Hk Hin. destruct (decide ((d', p') = (d, p))) as [[= -> ->]|Hdp].
    + destruct Hq as (q & Eq & En). exists q. split; [done|]. rewrite En.
      rewrite Hnet in Hk.
      destruct (decide (old = nw)) as [Eo|_]; [rewrite <- Eo; symmetry; by apply (Honly k ps)|].
      destruct (decide (k = nw)) as [->|_]; [done|]. exfalso.
      destruct (decide (k = old /\ _)) as [[-> _]|Hno].
      * apply fmap_Some in Hk as (ps0 & _ & ->). set_solver.
      * assert (k = old) as -> by by apply (Honly k ps).
        destruct (decide (old = nw_id_unknown)) as [E|]; [rewrite E in Hk; congruence|tauto].
    + rewrite Hother by done. rewrite Hnet in Hk.
      assert (exists ps0, networks s !! k = Some ps0 /\ (d', p') ∈ ps0) as (ps0 & E0 & H0).
      { repeat case_decide; subst; eauto;
          apply fmap_Some in Hk as (ps0 & E0 & ->); exists ps0; split; try done; set_solver. }
      by apply (Hp k ps0).
Qed.

(** The events a move sends. *)
Lemma dpids_update_port_spec s d p nw :
  exists q s', dpids_update_port d p nw s = (Ok tt, s')
    /\ port_of s' d p = Some q /\ network_id q = nw
    /\ (forall d' p', (d', p') <> (d, p) -> port_of s' d' p' = port_of s d' p')
    /\ networks s' = networks s /\ mac_addresses s' = mac_addresses s
    /\ events s' = events s.
Proof.
  unfold dpids_update_port, setdefault_network. stm_unfold.
  destruct (port_of s d p) as [q|] eqn:E.
  - eexists _, _. split; [reflexivity|]. rewrite port_of_set, decide_True by done.
    split; [done|]. split; [done|]. split; [|done]. intros d' p' Hne.
    rewrite port_of_set, decide_False; [done|]. intros [-> ->]. done.
  - eexists _, _. split; [reflexivity|]. rewrite port_of_set, decide_True by done.
    split; [done|]. split; [done|]. split; [|done]. intros d' p' Hne.
    assert (Hf : ~ (d = d' /\ p = p')) by (intros [-> ->]; done).
    by rewrite !port_of_set, !decide_False.
Qed.

(** The guarded part of [_update_port]: which branch is taken, and what it does to
    the networks. *)
Lemma move_networks s nw old d p ports :
  networks s !! nw = Some ports -> old <> nw ->
  (old <> nw_id_unknown -> is_Some (networks s !! old)) ->
  exists s', (add_raw nw d p ;;
     (if known_nw_id nw_id_unknown old then remove_raw old d p else mret tt)) s = (Ok tt, s')
    /\ dpids s' = dpids s
    /\ (forall k, networks s' !! k =
        if decide (k = nw) then (fun ps => ps ∪ {[(d, p)]}) <$> networks s !! k
        else if decide (k = old /\ old <> nw_id_unknown)
             then (fun ps => ps ∖ {[(d, p)]}) <$> networks s !! k
             else networks s !! k).
Proof.
  intros Hnw Hne Hold. unfold add_raw, known_nw_id, getitem. stm_unfold. rewrite Hnw. cbn.
  case_bool_decide as Hk; cbn.
  - eexists. split; [reflexivity|]. split; [done|]. intros k. cbn.
    destruct (decide (k = nw)) as [->|]; [by rewrite lookup_insert_eq, Hnw|].
    rewrite lookup_insert_ne, decide_False by (done || tauto). done.
  - destruct (Hold Hk) as [ops Hops]. unfold remove_raw, getitem, remove_event, send_event.
    stm_unfold. rewrite lookup_insert_ne, Hops by done. cbn.
    case_bool_decide as Hin; cbn; (eexists; split; [reflexivity|]; split; [done|]);
      intros k; cbn; destruct (decide (k = nw)) as [->|];
      try (rewrite ?(lookup_insert_ne _ old nw) by done; by rewrite lookup_insert_eq, Hnw).
    + destruct (decide (k = old)) as [->|].
      * by rewrite lookup_insert_eq, decide_True, Hops by done.
      * rewrite !lookup_insert_ne, decide_False by (done || tauto). done.
    + rewrite lookup_insert_ne by done. case_decide as Hc; [|done].
      destruct Hc as [-> _]. rewrite Hops. cbn. f_equal. set_solver.
Qed.

(** [_update_port] on every branch. *)
Lemma update_port_outcome s nw d p may :
  let old := get_network_safe nw_id_unknown s d p in
  (old <> nw_id_unknown -> may = true -> is_Some (networks s !! old)) ->
  let r := _update_port nw_id_unknown nw d p may s in
  (r = (Err NetworkAlreadyExist, s) /\ nw = nw_id_unknown)
  \/ (r = (Err NetworkNotFound, s) /\ networks s !! nw = None)
  \/ (r = (Err PortAlreadyExist, s) /\ may = false)
  \/ (exists s', r = (Ok tt, s') /\ nw <> nw_id_unknown /\ moved s nw old d p s').
Proof.
  intros old Hold r. unfold r, _update_port, check_nw_id_unknown.
  case_bool_decide as Hu; [by left|]. right.
  destruct (networks s !! nw) as [ports|] eqn:Hnw.
  2:{ left. split; [|done]. unfold has_port, getitem. stm_unfold. by rewrite Hnw. }
  right. destruct ((bool_decide ((d, p) ∈ ports) || known_nw_id nw_id_unknown old)
                   && negb may) eqn:Hg.
  { left. split; [|by destruct may; rewrite ?andb_false_r in Hg]. unfold has_port, getitem.
    stm_unfold. rewrite Hnw. cbn. fold old. by rewrite Hg. }
  right. unfold has_port, getitem. stm_unfold. rewrite Hnw. cbn. fold old. rewrite Hg. cbn.
  destruct (decide (old = nw)) as [Ho|Ho];
    [rewrite (bool_decide_eq_true_2 (old = nw)) by done
    |rewrite (bool_decide_eq_false_2 (old = nw)) by done]; cbn.
  - destruct (dpids_update_port_spec s d p nw)
      as (q & s' & Hr & Hq & Hqn & Hot & En & _). rewrite Hr. exists s'.
    split; [done|]. split; [done|]. split; [by exists q|]. split; [done|].
    intros k. by rewrite En, decide_True.
  - destruct (move_networks s nw old d p ports Hnw Ho) as (s1 & H1 & Ed & En1).
    { intros Hk. apply Hold; [done|]. destruct may; [done|]. exfalso. revert Hg.
      unfold known_nw_id. rewrite (bool_decide_eq_false_2 (old = _)) by done.
      by rewrite orb_true_r. }
    unfold mbind, stm_bind, mret, stm_ret in H1. cbn in H1.
    destruct (add_raw nw d p s) as [[[]|] s0] eqn:E0; [|done]. rewrite H1. cbn.
    destruct (dpids_update_port_spec s1 d p nw)
      as (q & s' & Hr & Hq & Hqn & Hot & En & Em & Ee). rewrite Hr. unfold add_event, send_event.
    stm_unfold. eexists. split; [reflexivity|]. split; [done|].
    assert (Hpo : forall d' p', port_of s1 d' p' = port_of s d' p')
      by (intros; unfold port_of; by rewrite Ed).
    split; [by exists q|]. split; [intros; by rewrite <- Hpo, <- Hot|].
    intros k. cbn. rewrite En, En1. by rewrite (decide_False (P := old = nw)).
Qed.

Lemma update_port_inv s nw d p may :
  Inv s ->
  (get_network_safe nw_id_unknown s d p <> nw_id_unknown -> may = true ->
   is_Some (networks s !! get_network_safe nw_id_unknown s d p)) ->
  Inv (_update_port nw_id_unknown nw d p may s).2.
Proof.
  intros HI Hold.
  destruct (update_port_outcome s nw d p may Hold)
    as [[-> _]|[[-> _]|[[-> _]|(s' & -> & Hne & Hm)]]]; try done.
  by eapply moved_inv.
Qed.

(** *** Removing a port and MAC addresses *)

Lemma set_mac_ports s nw d p q mac :
  Inv s -> port_of s d p = Some q -> Inv (_set_mac nw_id_unknown nw d p q mac s).2.
Proof.
  intros HI Hq. unfold _set_mac.
  destruct (bool_decide (network_id q = nw) || _) eqn:E; cbn; [|done].
  assert (HI' : Inv (set_port d p (MkPort (port_no q) nw (Some mac)) s)).
  { eapply Inv_ports_only; [exact HI|done|]. intros d' p' q' Hq' Hu. rewrite port_of_set.
    destruct (decide (d = d' /\ p = p')) as [[<- <-]|]; [|eauto]. rewrite Hq in Hq'.
    injection Hq' as <-. eexists. split; [done|]. cbn. apply orb_true_iff in E as [E|E];
      apply bool_decide_eq_true in E; [done|]. done. }
  unfold send_event. stm_unfold. destruct (_ && _); [|done].
  cbn. eapply Inv_ports_only; [exact HI'|done|eauto].
Qed.

Lemma mac_only_inv s m : Inv s -> Inv (set_macs m s).
Proof. intros HI. eapply Inv_ports_only; [exact HI|done|eauto]. Qed.

Lemma mac_remove_inv s nw d p mac : Inv s -> Inv (mac_remove_port nw d p mac s).2.
Proof.
  intros HI. unfold mac_remove_port. stm_unfold. destruct (mac_addresses s !! nw); [|done].
  by apply mac_only_inv.
Qed.

Lemma create_mac_inv s nw d p mac : Inv s -> Inv (create_mac nw_id_unknown nw d p mac s).2.
Proof.
  intros HI. unfold create_mac, mac_add_port, dpids_set_mac, get_port. stm_unfold.
  set (s1 := set_macs _ s). assert (HI1 : Inv s1) by by apply mac_only_inv.
  destruct (port_of s1 d p) as [q|] eqn:E; cbn; [|done].
  destruct (mac_address q); [done|]. by apply set_mac_ports.
Qed.

Lemma update_mac_inv s nw d p mac : Inv s -> Inv (update_mac nw_id_unknown nw d p mac s).2.
Proof.
  intros HI. unfold update_mac, get_old_mac, dpids_update_mac, get_port. stm_unfold.
  destruct (port_of s d p) as [q|] eqn:E; cbn; [|done].
  assert (Htail : forall o s1, Inv s1 ->
    Inv (match (match o with Some m => mac_remove_port nw d p m | None => mret tt end) s1 with
         | (Ok _, s2) => mac_add_port nw d p mac s2
         | (Err x, s2) => (Err x, s2)
         end).2).
  { intros o s1 H1. destruct o as [m|].
    - pose proof (mac_remove_inv s1 nw d p m H1) as H2. revert H2.
      unfold mac_remove_port, mac_add_port. stm_unfold.
      intros H2. apply mac_only_inv. by destruct (mac_addresses s1 !! nw).
    - unfold mac_add_port. stm_unfold. by apply mac_only_inv. }
  set (o := if bool_decide (network_id q = nw) then _ else _).
  destruct (mac_address q) as [m|] eqn:Em.
  - case_bool_decide; cbn; [|done]. by apply Htail.
  - pose proof (set_mac_ports s nw d p q mac HI E) as Hs.
    destruct (_set_mac nw_id_unknown nw d p q mac s) as [[[]|x] s1]; cbn in *; [|done].
    by apply Htail.
Qed.

Lemma dpids_remove_port_spec s d p :
  match dpids s !! d with
  | None => dpids_remove_port d p s = (Err PortNotFound, s)
  | Some ports =>
      exists ev, dpids_remove_port d p s
      = (Ok tt, MkState (networks s) (<[d := delete p ports]> (dpids s)) (mac_addresses s)
                        (events s ++ ev))
  end.
Proof.
  unfold dpids_remove_port, getitem. stm_unfold.
  destruct (dpids s !! d) as [ports|] eqn:E; cbn; [|done].
  destruct (ports !! p) as [[pn nw [mac|]]|]; cbn.
  - destruct (truthy nw && truthy mac).
    + unfold send_event. stm_unfold. by eexists.
    + exists []. by rewrite app_nil_r.
  - exists []. by rewrite app_nil_r.
  - exists []. by rewrite app_nil_r.
Qed.

(** Taking a port out of the network it is recorded in, or out of no network. *)
Lemma drop_port_inv s s' nw d p :
  Inv s -> (forall q, port_of s d p = Some q -> network_id q = nw) ->
  (forall d' p', port_of s' d' p' = if decide (d = d' /\ p = p') then None else port_of s d' p') ->
  networks s' = alter (fun ps => ps ∖ {[(d, p)]}) nw (networks s) -> Inv s'.
Proof.
  intros [Hu Hp] Hq Hpo En. split.
  - rewrite En. destruct (decide (nw = nw_id_unknown)) as [->|].
    + by rewrite lookup_alter_eq, Hu.
    + by rewrite lookup_alter_ne.
  - intros k ps d' p' Hk Hin. rewrite En in Hk.
    assert (exists ps0, networks s !! k = Some ps0 /\ (d', p') ∈ ps0
            /\ (k = nw -> (d', p') <> (d, p))) as (ps0 & E0 & H0 & Hne).
    { destruct (decide (k = nw)) as [->|].
      - rewrite lookup_alter_eq in Hk. apply fmap_Some in Hk as (ps0 & E & ->).
        exists ps0. apply elem_of_difference in Hin as [Hin Hn].
        split; [done|]. split; [done|]. intros _ [= -> ->]. by apply Hn, elem_of_singleton.
      - rewrite lookup_alter_ne in Hk by done. exists ps. split; [done|]. by split. }
    destruct (Hp k ps0 d' p' E0 H0) as (q & Eq & Ek). exists q. split; [|done].
    rewrite Hpo, decide_False; [done|]. intros [<- <-].
    apply (Hne); [|done]. rewrite <- Ek. by apply Hq.
Qed.

Lemma networks_remove_spec s nw d p :
  exists s', try_except (networks_remove nw d p) NetworkNotFound (mret tt) s = (Ok tt, s')
    /\ dpids s' = dpids s
    /\ networks s' = alter (fun ps => ps ∖ {[(d, p)]}) nw (networks s).
Proof.
  unfold networks_remove, remove_raw, getitem. stm_unfold.
  destruct (networks s !! nw) as [ports|] eqn:E; cbn.
  - case_bool_decide as Hin; cbn.
    + unfold remove_event, send_event. stm_unfold. eexists. split; [reflexivity|].
      split; [done|]. cbn. apply map_eq. intros k. destruct (decide (k = nw)) as [->|].
      * by rewrite lookup_insert_eq, lookup_alter_eq, E.
      * by rewrite lookup_insert_ne, lookup_alter_ne.
    + eexists. split; [reflexivity|]. split; [done|]. apply map_eq. intros k.
      destruct (decide (k = nw)) as [->|]; [|by rewrite lookup_alter_ne].
      rewrite lookup_alter_eq, E. cbn. f_equal. set_solver.
  - eexists. split; [reflexivity|]. split; [done|]. apply map_eq. intros k.
    destruct (decide (k = nw)) as [->|]; [|by rewrite lookup_alter_ne].
    by rewrite lookup_alter_eq, E.
Qed.

Lemma remove_port_inv s nw d p :
  Inv s -> (forall q, port_of s d p = Some q -> network_id q = nw) ->
  Inv (remove_port nw d p s).2.
Proof.
  intros HI Hq. unfold remove_port, get_old_mac. stm_unfold.
  set (o := match port_of s d p with Some _ => _ | None => _ end). clearbody o.
  pose proof (dpids_remove_port_spec s d p) as Hr.
  destruct (dpids s !! d) as [ports|] eqn:Ed; [|by rewrite Hr]. destruct Hr as [ev ->]. cbn.
  set (s1 := MkState _ _ _ _).
  assert (Hpo : forall d' p', port_of s1 d' p'
     = if decide (d = d' /\ p = p') then None else port_of s d' p').
  { intros d' p'. unfold port_of, s1. cbn. destruct (decide (d = d')) as [<-|].
    - rewrite lookup_insert_eq, Ed. cbn. destruct (decide (p = p')) as [<-|].
      + by rewrite lookup_delete_eq, decide_True.
      + by rewrite lookup_delete_ne, decide_False by (done || tauto).
    - by rewrite lookup_insert_ne, decide_False by (done || tauto). }
  destruct (networks_remove_spec s1 nw d p) as (s2 & Hr & Ed2 & En2).
  unfold try_except, mret, stm_ret in Hr. rewrite Hr.
  assert (HI2 : Inv s2).
  { apply (drop_port_inv s s2 nw d p HI Hq); [|done]. intros. rewrite <- Hpo.
    unfold port_of. by rewrite Ed2. }
  destruct o as [mac|]; [by apply mac_remove_inv|done].
Qed.

(** *** Datapaths *)

Lemma setdefault_inv s d p :
  Inv s -> Inv (setdefault_network d p nw_id_unknown s).2.
Proof.
  intros HI. unfold setdefault_network. stm_unfold.
  destruct (port_of s d p) as [q|] eqn:E; [done|].
  apply (Inv_ports_only s); [done|done|]. intros d' p' q Hq _. cbn [snd].
  rewrite port_of_set. destruct (decide (d = d' /\ p = p')) as [[-> ->]|]; [congruence|eauto].
Qed.

Lemma port_added_inv s m d p : Inv s -> Inv (port_added nw_id_unknown m d p s).2.
Proof.
  intros HI. unfold port_added. destruct ((p =? 0) || (m <=? p)); [done|].
  pose proof (setdefault_inv s d p HI) as H. unfold mbind, stm_bind.
  by destruct (setdefault_network d p nw_id_unknown s) as [[?|?] s'].
Qed.

Lemma setdefault_dpid_inv s d : Inv s -> Inv (setdefault_dpid d s).2.
Proof.
  intros HI. unfold setdefault_dpid. stm_unfold. destruct (dpids s !! d) eqn:E; [done|].
  apply (Inv_ports_only s); [done|done|]. intros d' p' q Hq _. exists q. split; [|done].
  unfold port_of, set_dpids in *. cbn. destruct (decide (d = d')) as [->|].
  - by rewrite E in Hq.
  - by rewrite lookup_insert_ne.
Qed.

Lemma add_datapath_inv s m d ps : Inv s -> Inv (add_datapath nw_id_unknown m d ps s).2.
Proof.
  intros HI. unfold add_datapath. unfold mbind, stm_bind.
  change (setdefault_dpid d s) with (Ok tt, (setdefault_dpid d s).2).
  pose proof (setdefault_dpid_inv s d HI) as H. revert H. generalize ((setdefault_dpid d s).2).
  induction ps as [|p ps IH]; intros s1 H1; cbn [iterM]; [done|].
  pose proof (port_added_inv s1 m d p H1) as H2. unfold mbind, stm_bind.
  destruct (port_added nw_id_unknown m d p s1) as [[[]|e] s2]; [by apply IH|done].
Qed.

Lemma port_deleted_inv s d p :
  Inv s -> (forall nw ps, networks s !! nw = Some ps -> (d, p) ∉ ps) -> Inv (port_deleted d p s).2.
Proof.
  intros [Hu Hp] Hno. unfold port_deleted. pose proof (dpids_remove_port_spec s d p) as Hr.
  destruct (dpids s !! d) as [ports|] eqn:Ed; [|by rewrite Hr]. destruct Hr as [ev ->].
  split; [done|]. cbn. intros nw ps d' p' Hn Hin.
  destruct (Hp nw ps d' p' Hn Hin) as (q & Hq & Hnw). exists q. split; [|done].
  unfold port_of in *. cbn. destruct (decide (d = d')) as [<-|].
  - rewrite lookup_insert_eq. cbn. rewrite Ed in Hq. cbn in Hq.
    rewrite lookup_delete_ne; [done|]. intros <-. by apply (Hno nw ps Hn).
  - by rewrite lookup_insert_ne.
Qed.

(** *** All operations *)

Lemma run_inv s o : Inv s -> legal s o -> Inv (run o s).2.
Proof.
  intros HI Hl. destruct o; cbn [run legal] in *.
  - by apply create_network_inv.
  - by apply update_network_inv.
  - by apply remove_network_inv.
  - by apply update_port_inv.
  - apply update_port_inv; [done|]. intros; by apply Hl.
  - by apply remove_port_inv.
  - by apply create_mac_inv.
  - by apply update_mac_inv.
  - by apply add_datapath_inv.
  - by apply port_added_inv.
  - by apply port_deleted_inv.
Qed.

Lemma reachable_inv s : reachable s -> Inv s.
Proof.
  induction 1 as [|s o s' _ IH Hs].
  - split; [done|]. intros nw ps d p Hl. cbn in Hl. by rewrite lookup_empty in Hl.
  - destruct Hs. by apply run_inv.
Qed.

End Inv.
End NetworkInv.

(** ** MAC learning table (mac_to_port.py) *)

Module MacToPortTable.

Abbreviation table := (gmap Z (gmap string Z)).

Definition dpid_add (dpid : Z) : stm table unit :=
  modify (fun t => match t !! dpid with Some _ => t | None => <[dpid := ∅]> t end).

(** Returns the old port if one was learned. *)
Definition port_add (dpid port : Z) (mac : string) : stm table (option Z) :=
  fun t => match t !! dpid with
           | None => (Err KeyError, t)
           | Some m => (Ok (m !! mac), <[dpid := <[mac := port]> m]> t)
           end.

Definition port_get (dpid : Z) (mac : string) : stm table (option Z) :=
  fun t => match t !! dpid with
           | None => (Err KeyError, t)
           | Some m => (Ok (m !! mac), t)
           end.

(** [self.mac_to_port.get(dpid).items()]: [None] has no items. *)
Definition mac_list (dpid port : Z) : stm table (list string) :=
  fun t => match t !! dpid with
           | None => (Err AttributeError, t)
           | Some m => (Ok ((filter (fun kv => kv.2 = port) (map_to_list m)).*1), t)
           end.

Definition mac_del (dpid : Z) (mac : string) : stm table unit :=
  fun t => match t !! dpid ≫= (fun m => m !! mac) with
           | None => (Err KeyError, t)
           | Some _ => (Ok tt, alter (delete mac) dpid t)
           end.

End MacToPortTable.

(** ** MAC address to network (mac_to_network.py) *)

Module MacToNetwork.

Abbreviation table := (gmap string string).

Definition get_network (mac : string) (default : option string) : stm table (option string) :=
  gets (fun t => match t !! mac with Some n => Some n | None => default end).

Definition add_mac (mac nw_id : string) (nw_id_external : option string) : stm table unit :=
  fun t =>
    let _nw_id := t !! mac in
    if bool_decide (_nw_id = Some nw_id) then (Ok tt, t)
    else if bool_decide (_nw_id = None) || bool_decide (_nw_id = nw_id_external)
    then (Ok tt, <[mac := nw_id]> t)
    else if bool_decide (Some nw_id = nw_id_external) then (Ok tt, t)
    else (Err MacAddressDuplicated, t).

Definition del_mac (mac : string) : stm table unit :=
  fun t => match t !! mac with
           | None => (Err KeyError, t)
           | Some _ => (Ok tt, delete mac t)
           end.

End MacToNetwork.

(** ** Claims *)

Module NetworkClaims.
Import Network NetworkInv.


Definition run_all (u : string) (l : list op) : state :=
  foldl (fun s o => (run u o s).2) (MkState ∅ ∅ ∅ []) l.


(** Moving a port out of a network that was removed is not atomic: when the port
    is still recorded with a network that no longer exists, [update_port] raises
    [NetworkNotFound] although the target network exists, and leaves the port in
    the target network while the port's record keeps the removed one. *)
Theorem failed_move_is_not_undone (u nw : string) (d p : Z) (s : state) (q : Port)
    (ports : gset (Z * Z)) :
  nw <> u -> networks s !! nw = Some ports ->
  port_of s d p = Some q -> network_id q <> nw -> network_id q <> u ->
  networks s !! network_id q = None ->
  exists s', update_port u nw d p s = (Err NetworkNotFound, s')
    /\ port_of s' d p = Some q
    /\ networks s' !! nw = Some (ports ∪ {[(d, p)]}).
Proof.
  intros Hu Hn Hq Hne Hqu Hgone. unfold update_port, _update_port, check_nw_id_unknown.
  rewrite (bool_decide_eq_false_2 (nw = u)) by done.
  unfold has_port, getitem, add_raw, remove_raw, known_nw_id, getitem, get_network_safe.
  stm_unfold. rewrite Hn, Hq. cbn. rewrite andb_false_r.
  rewrite (bool_decide_eq_false_2 (network_id q = nw)) by done. cbn. rewrite Hn. cbn.
  rewrite (bool_decide_eq_false_2 (network_id q = u)) by done. cbn.
  rewrite lookup_insert_ne, Hgone by done. cbn.
  eexists. split; [reflexivity|]. split; [done|]. cbn. by rewrite lookup_insert_eq.
Qed.

Definition moved_state : state :=
  (run_all "u" [OpCreateNetwork "n1"; OpCreateNetwork "n2"; OpCreatePort "n1" 1 2;
                OpRemoveNetwork "n1"])%string.

Lemma failed_move_is_not_undone_witness :
  exists s', update_port "u" "n2" 1 2 moved_state = (Err NetworkNotFound, s')
    /\ networks s' !! "n2"%string = Some (∅ ∪ {[(1, 2)]}).
Proof.
  destruct (port_of moved_state 1 2) as [q|] eqn:E; [|vm_compute in E; discriminate].
  destruct (failed_move_is_not_undone "u" "n2" 1 2 moved_state q ∅) as (s' & H1 & _ & H2).
  - discriminate.
  - vm_compute. reflexivity.
  - exact E.
  - vm_compute in E. injection E as <-. discriminate.
  - vm_compute in E. injection E as <-. discriminate.
  - vm_compute in E. injection E as <-. vm_compute. reflexivity.
  - exists s'. split; [exact H1|exact H2].
Defined.

(** Removing a network sends one port event per port and then the network
    event, removes the network and leaves the port records as they are. *)
Theorem remove_network_outcome (nw : string) (s : state) :
  remove_network nw s =
  match networks s !! nw with
  | None => (Err NetworkNotFound, s)
  | Some ports =>
      (Ok tt, MkState (delete nw (networks s)) (dpids s) (mac_addresses s)
        (events s ++ ((fun p => EventNetworkPort nw p.1 p.2 false) <$> elements ports)
         ++ [EventNetworkDel nw]))
  end.
Proof. apply remove_network_spec. Qed.

(** Isolation: for a packet of a known network, [filter_ports] returns exactly the
    recorded ports of the datapath other than the input port that are in the
    packet's network or in the external one, [same_network] accepts exactly the
    same networks and the external one as origin, and both raise for the reserved
    identifier. *)
Theorem isolation (u nw : string) (d in_port : Z) (ext : option string) (s : state) :
  let allowed q := network_id q = nw \/ ext = Some (network_id q) in
  (nw = u ->
     (filter_ports u d in_port nw ext s).1 = Err AssertionError
     /\ forall k, (same_network u d nw k ext s).1 = Err AssertionError)
  /\ (nw <> u ->
     (exists l, filter_ports u d in_port nw ext s = (Ok l, s)
        /\ forall n, n ∈ l <-> n <> in_port
             /\ exists k q, port_of s d k = Some q /\ port_no q = n /\ allowed q)
     /\ forall k q, port_of s d k = Some q ->
          exists b, same_network u d nw k ext s = (Ok b, s)
            /\ (b = true <-> allowed q \/ ext = Some nw)).
Proof.
  intros allowed. split; intros Hu.
  - unfold filter_ports, same_network. rewrite (bool_decide_eq_true_2 (nw = u)) by done. done.
  - unfold filter_ports, same_network, get_ports. rewrite (bool_decide_eq_false_2 (nw = u)) by done.
    split.
    + eexists. split; [reflexivity|]. intros n. rewrite list_elem_of_fmap. split.
      * intros (q & -> & Hq). apply list_elem_of_filter in Hq as [[Hne Ha] Hq]. split; [done|].
        apply list_elem_of_fmap in Hq as ([k q'] & E & Hk). cbn in E. subst q'.
        apply elem_of_map_to_list in Hk. exists k, q. split; [|done]. unfold port_of.
        destruct (dpids s !! d); [done|]. cbn in Hk. by rewrite lookup_empty in Hk.
      * intros (Hne & k & q & Hk & <- & Ha). exists q. split; [done|].
        apply list_elem_of_filter. split; [done|]. apply list_elem_of_fmap. exists (k, q).
        split; [done|]. apply elem_of_map_to_list. unfold port_of in Hk.
        by destruct (dpids s !! d).
    + intros k q Hk. eexists. split; [reflexivity|]. unfold get_network_safe. rewrite Hk.
      rewrite !orb_true_iff, !bool_decide_eq_true. unfold allowed.
      split; [intros [[?|?]|?]|intros [[?|?]|?]]; auto.
Qed.

Lemma isolation_witness :
  exists l, filter_ports "u" 1 2 "n1" None
              (run_all "u" [OpCreateNetwork "n1"; OpCreatePort "n1" 1 2; OpCreatePort "n1" 1 3])%string
            = (Ok l, (run_all "u" [OpCreateNetwork "n1"; OpCreatePort "n1" 1 2;
                                   OpCreatePort "n1" 1 3])%string) /\ 3 ∈ l.
Proof.
  destruct (proj2 (isolation "u" "n1" 1 2 None
    (run_all "u" [OpCreateNetwork "n1"; OpCreatePort "n1" 1 2; OpCreatePort "n1" 1 3])%string)
    ltac:(discriminate)) as ((l & E & H) & _).
  exists l. split; [exact E|]. apply H. split; [discriminate|].
  exists 3, (MkPort 3 "n1" None). split; [vm_compute; reflexivity|].
  split; [reflexivity|left; reflexivity].
Defined.

(** MAC learning: an address once assigned to a network stays with it, except
    that the external network gives way to a known one; a conflicting assignment
    raises [MacAddressDuplicated] and changes nothing.  In the port table a
    learned port is what the next lookup returns and the old one is reported. *)
Theorem mac_assignment_stable (t : MacToNetwork.table) (mac nw : string)
    (ext : option string) :
  let '(r, t') := MacToNetwork.add_mac mac nw ext t in
  (forall m, m <> mac -> t' !! m = t !! m)
  /\ (forall old, t !! mac = Some old -> Some old <> ext -> t' = t
        /\ (old = nw \/ Some nw = ext \/ r = Err MacAddressDuplicated))
  /\ (t !! mac = None -> r = Ok tt /\ t' !! mac = Some nw)
  /\ (forall tab dpid port m, tab !! dpid = Some m ->
        let '(old, tab') := MacToPortTable.port_add dpid port mac tab in
        old = Ok (m !! mac) /\ (MacToPortTable.port_get dpid mac tab').1 = Ok (Some port)).
Proof.
  unfold MacToNetwork.add_mac.
  assert (Htab : forall tab dpid port m, tab !! dpid = Some m ->
     let '(old, tab') := MacToPortTable.port_add dpid port mac tab in
     old = Ok (m !! mac) /\ (MacToPortTable.port_get dpid mac tab').1 = Ok (Some port)).
  { intros tab dpid port m Hm. unfold MacToPortTable.port_add, MacToPortTable.port_get.
    rewrite Hm. split; [done|]. by rewrite !lookup_insert_eq. }
  destruct (decide (t !! mac = Some nw)) as [E|E].
  { rewrite bool_decide_eq_true_2 by done. split; [done|]. split; [|by split; [rewrite E|]].
    intros old Ho _. split; [done|]. left. congruence. }
  rewrite bool_decide_eq_false_2 by done.
  destruct (bool_decide (t !! mac = None) || bool_decide (t !! mac = ext)) eqn:Eb.
  - split; [intros; by rewrite lookup_insert_ne|]. split.
    + intros old Ho Hx. exfalso. apply orb_true_iff in Eb as [Eb|Eb];
        apply bool_decide_eq_true in Eb; congruence.
    + split; [|done]. intros _. split; [done|]. by rewrite lookup_insert_eq.
  - apply orb_false_iff in Eb as [E1 E2]. apply bool_decide_eq_false in E1, E2.
    case_bool_decide; (split; [done|]); (split; [|by split]); intros old Ho Hx;
      (split; [done|]); auto.
Qed.

Lemma mac_assignment_stable_witness :
  let '(old, tab) := MacToPortTable.port_add 1 7 "m" {[1 := ∅]} in
  old = Ok None /\ (MacToPortTable.port_get 1 "m" tab).1 = Ok (Some 7).
Proof.
  pose proof (mac_assignment_stable ∅ "m" "n" None) as H.
  destruct (MacToNetwork.add_mac "m" "n" None ∅) as [r t'].
  destruct H as (_ & _ & _ & H). exact (H {[1 := ∅]} 1 7 ∅ (lookup_singleton_eq _ _)).
Defined.

End NetworkClaims.
