(* ===== verification/Tunnels.v ===== *)
(** * Tunnels (ryu/controller/tunnels.py)

    The tunnel keys of networks and the remote datapaths of tunnel ports.  The
    port store is a [defaultdict]: looking a datapath up creates an empty entry
    for it. *)

From Stdlib Require Import ZArith Lia.
From stdpp Require Import base list gmap strings numbers.
From S2P Require Import Prelude.

Module Tunnels.

Inductive event :=
  | EventTunnelKeyAdd (network_id : string) (tunnel_key : Z)
  | EventTunnelKeyDel (network_id : string) (tunnel_key : Z)
  | EventTunnelPort (dpid port_no remote_dpid : Z) (add_del : bool).

Record state := MkState {
  tunnel_keys : gmap string Z;
  dpids : gmap Z (gmap Z Z);
  events : list event }.

Definition send_event (e : event) : stm state unit :=
  modify (fun s => MkState (tunnel_keys s) (dpids s) (events s ++ [e])).
Definition set_keys (k : gmap string Z) (s : state) : state :=
  MkState k (dpids s) (events s).
Definition set_dpids (d : gmap Z (gmap Z Z)) (s : state) : state :=
  MkState (tunnel_keys s) d (events s).

(** *** TunnelKeys: network id <-> tunnel key *)

Definition get_key (nw : string) : stm state Z :=
  fun s => (or_raise TunnelKeyNotFound (tunnel_keys s !! nw), s).

Definition _set_key (nw : string) (key : Z) : stm state unit :=
  modify (fun s => set_keys (<[nw := key]> (tunnel_keys s)) s) ;;
  send_event (EventTunnelKeyAdd nw key).

(** [tunnel_key in self.values()] *)
Definition key_in_use (key : Z) (s : state) : bool :=
  bool_decide (key ∈ (map_to_list (tunnel_keys s)).*2).

Definition register_key (nw : string) (key : Z) : stm state unit :=
  s ← get;
  if bool_decide (nw ∈ dom (tunnel_keys s)) then raise NetworkAlreadyExist
  else if key_in_use key s then raise TunnelKeyAlreadyExist
  else _set_key nw key.

Definition update_key (nw : string) (key : Z) : stm state unit :=
  s ← get;
  if negb (bool_decide (nw ∈ dom (tunnel_keys s))) && key_in_use key s
  then raise TunnelKeyAlreadyExist
  else match tunnel_keys s !! nw with
       | None => _set_key nw key
       | Some k => if k =? key then mret tt else raise NetworkAlreadyExist
       end.

Definition delete_key (nw : string) : stm state unit :=
  s ← get;
  match tunnel_keys s !! nw with
  | None => raise NetworkNotFound
  | Some k =>
      send_event (EventTunnelKeyDel nw k) ;;
      modify (fun s => set_keys (delete nw (tunnel_keys s)) s)
  end.

(** *** DPIDs: dpid -> port_no -> remote_dpid *)

(** [self.dpids[dpid]] *)
Definition dpid_item (dpid : Z) : stm state (gmap Z Z) :=
  s ← get;
  match dpids s !! dpid with
  | Some m => mret m
  | None => put (set_dpids (<[dpid := ∅]> (dpids s)) s) ;; mret ∅
  end.

Definition list_ports (dpid : Z) : stm state (list Z) :=
  m ← dpid_item dpid; mret (map_to_list m).*1.

Definition _add_remote_dpid (dpid port remote : Z) : stm state unit :=
  m ← dpid_item dpid;
  modify (fun s => set_dpids (<[dpid := <[port := remote]> m]> (dpids s)) s) ;;
  send_event (EventTunnelPort dpid port remote true).

Definition register_port (dpid port remote : Z) : stm state unit :=
  m ← dpid_item dpid;
  match m !! port with
  | Some _ => raise PortAlreadyExist
  | None => _add_remote_dpid dpid port remote
  end.

(** The conflict branch names [ryu_exc.RemoteDPIDAlreadyExist], which is declared
    in tunnels.py and not in ryu/exception.py. *)
Definition update_port (dpid port remote : Z) : stm state unit :=
  m ← dpid_item dpid;
  match m !! port with
  | None => _add_remote_dpid dpid port remote
  | Some r => if r =? remote then mret tt else raise AttributeError
  end.

Definition get_remote_dpid (dpid port : Z) : stm state Z :=
  m ← dpid_item dpid; lift_res (or_raise PortNotFound (m !! port)).

Definition delete_port (dpid port : Z) : stm state unit :=
  m ← dpid_item dpid;
  match m !! port with
  | None => raise PortNotFound
  | Some r =>
      send_event (EventTunnelPort dpid port r false) ;;
      modify (fun s => set_dpids (<[dpid := delete port m]> (dpids s)) s)
  end.

Definition get_port (dpid remote : Z) : stm state Z :=
  m ← dpid_item dpid;
  let l := (filter (fun kv => kv.2 = remote) (map_to_list m)).*1 in
  match l with
  | [] => raise PortNotFound
  | [p] => mret p
  | _ => raise AssertionError
  end.

(** ** The store keeps keys distinct *)

Inductive op :=
  | OpRegisterKey (nw : string) (key : Z)
  | OpUpdateKey (nw : string) (key : Z)
  | OpDeleteKey (nw : string)
  | OpRegisterPort (dpid port remote : Z)
  | OpUpdatePort (dpid port remote : Z)
  | OpDeletePort (dpid port : Z).

Definition run (o : op) : stm state unit :=
  match o with
  | OpRegisterKey nw k => register_key nw k
  | OpUpdateKey nw k => update_key nw k
  | OpDeleteKey nw => delete_key nw
  | OpRegisterPort d p r => register_port d p r
  | OpUpdatePort d p r => update_port d p r
  | OpDeletePort d p => delete_port d p
  end.

Definition init : state := MkState ∅ ∅ [].

(** The state after a sequence of calls, whatever their outcomes. *)
Definition run_all (l : list op) : state := foldl (fun s o => (run o s).2) init l.

Definition keys_distinct (s : state) : Prop :=
  forall n1 n2 k, tunnel_keys s !! n1 = Some k -> tunnel_keys s !! n2 = Some k -> n1 = n2.

Lemma key_in_use_false key s nw k :
  key_in_use key s = false -> tunnel_keys s !! nw = Some k -> k <> key.
Proof.
  unfold key_in_use. intros H Hk ->. apply bool_decide_eq_false in H. apply H.
  apply list_elem_of_fmap. exists (nw, key). split; [done|]. by apply elem_of_map_to_list.
Qed.

Lemma set_key_distinct s nw key :
  keys_distinct s -> key_in_use key s = false -> keys_distinct (_set_key nw key s).2.
Proof.
  intros Hd Hu n1 n2 k. unfold _set_key, send_event. stm_unfold. intros H1 H2.
  apply lookup_insert_Some in H1 as [[<- <-]|[Hn1 H1]];
    apply lookup_insert_Some in H2 as [[<- Ek]|[Hn2 H2]]; try done.
  - exfalso. by eapply key_in_use_false in H2.
  - exfalso. subst k. by eapply key_in_use_false in H1.
  - by eapply Hd.
Qed.

Lemma keys_only s s' : tunnel_keys s' = tunnel_keys s -> keys_distinct s -> keys_distinct s'.
Proof. intros E H n1 n2 k. rewrite E. apply H. Qed.

Lemma dpid_item_spec d s :
  exists m s', dpid_item d s = (Ok m, s') /\ tunnel_keys s' = tunnel_keys s
    /\ events s' = events s /\ m = default ∅ (dpids s !! d) /\ dpids s' !! d = Some m.
Proof.
  unfold dpid_item. stm_unfold. destruct (dpids s !! d) as [m|] eqn:E.
  - exists m, s. done.
  - exists ∅. eexists. split; [reflexivity|]. cbn. by rewrite lookup_insert_eq.
Qed.

Lemma add_remote_keys d p r s :
  tunnel_keys (_add_remote_dpid d p r s).2 = tunnel_keys s.
Proof.
  unfold _add_remote_dpid. destruct (dpid_item_spec d s) as (m & s' & H & E & _).
  erewrite stm_bind_ok; [|exact H]. unfold send_event. stm_unfold. done.
Qed.

Lemma port_ops_keys o s :
  match o with OpRegisterKey _ _ | OpUpdateKey _ _ | OpDeleteKey _ => False | _ => True end ->
  tunnel_keys (run o s).2 = tunnel_keys s.
Proof.
  destruct o as [| | |d p r|d p r|d p]; try done; intros _; cbn [run];
    unfold register_port, update_port, delete_port;
    destruct (dpid_item_spec d s) as (m & s' & H & E & _);
    (erewrite stm_bind_ok; [|exact H]); destruct (m !! p) as [r'|]; stm_unfold; try done;
    rewrite ?add_remote_keys; try done.
  destruct (r' =? r); done.
Qed.

Lemma run_keys_distinct o s : keys_distinct s -> keys_distinct (run o s).2.
Proof.
  intros Hd. destruct o as [nw k|nw k|nw| | |]; try (by eapply keys_only, Hd; apply port_ops_keys);
    cbn [run]; unfold register_key, update_key, delete_key; stm_unfold.
  - case_bool_decide; [done|]. destruct (key_in_use k s) eqn:E; [done|].
    by apply set_key_distinct.
  - destruct (tunnel_keys s !! nw) as [k'|] eqn:E.
    + destruct (_ && _); [done|]. by destruct (k' =? k).
    + rewrite bool_decide_eq_false_2 by by apply not_elem_of_dom. cbn.
      destruct (key_in_use k s) eqn:E'; [done|]. by apply set_key_distinct.
  - destruct (tunnel_keys s !! nw) as [k'|] eqn:E; [|done].
    intros n1 n2 k. unfold send_event. stm_unfold.
    intros [_ H1]%lookup_delete_Some [_ H2]%lookup_delete_Some. by eapply Hd.
Qed.

End Tunnels.

(** ** Claims *)

Module TunnelsClaims.
Import Tunnels.

(** After any sequence of calls, successful or not, no two networks share a
    tunnel key. *)
Theorem tunnel_keys_distinct (l : list op) : keys_distinct (run_all l).
Proof.
  unfold run_all. induction l as [|o l IH] using rev_ind.
  - intros n1 n2 k H. cbn in H. by rewrite lookup_empty in H.
  - rewrite foldl_app. by apply run_keys_distinct.
Qed.

(** Tunnel ports: a registered port is found again under its number, a second
    registration raises [PortAlreadyExist], and an update with another remote
    datapath raises [AttributeError] in place of the intended exception; the
    failing calls leave keys, ports and events as they are. *)
Theorem tunnel_port_conflicts (s : state) (d p r r' : Z) :
  default ∅ (dpids s !! d) !! p = Some r ->
  (get_remote_dpid d p s).1 = Ok r
  /\ (register_port d p r' s).1 = Err PortAlreadyExist
  /\ (update_port d p r' s).1 = (if r =? r' then Ok tt else Err AttributeError)
  /\ (register_port d p r' s).2 = s /\ (update_port d p r' s).2 = s.
Proof.
  intros H. destruct (dpids s !! d) as [m|] eqn:E; cbn in H; [|by rewrite lookup_empty in H].
  unfold get_remote_dpid, register_port, update_port, dpid_item. stm_unfold.
  rewrite E, H. repeat split; try done; by destruct (r =? r').
Qed.

Lemma tunnel_port_conflicts_witness :
  (update_port 1 2 4 (run_all [OpRegisterPort 1 2 3])).1 = Err AttributeError.
Proof.
  apply (tunnel_port_conflicts (run_all [OpRegisterPort 1 2 3]) 1 2 3 4).
  vm_compute. reflexivity.
Defined.

End TunnelsClaims.
