(* ===== verification/Bpdu.v ===== *)
(** * Bridge protocol data units (ryu/lib/packet/bpdu.py)

    The BPDU classes of IEEE 802.1D: configuration, topology change notification
    and rapid spanning tree, with the bridge and port identifiers that
    ryu/lib/stplib.py compares.  Timers are Python numbers: the decoder yields
    exact multiples of 1/256 second, so a timer is kept as a canonical rational. *)

From Stdlib Require Import ZArith QArith Qcanon Lia.
From stdpp Require Import base list gmap strings numbers.
From S2P Require Import Prelude Struct PktUtils PktHeaders.

Local Close Scope Qc_scope.
Local Close Scope Q_scope.
#[local] Open Scope Z_scope.

Definition BRIDGE_GROUP_ADDRESS : bytes := [0x01; 0x80; 0xc2; 0; 0; 0].
Definition PROTOCOL_IDENTIFIER : Z := 0.
Definition PROTOCOLVERSION_ID_BPDU : Z := 0.
Definition PROTOCOLVERSION_ID_RSTBPDU : Z := 2.
Definition TYPE_CONFIG_BPDU : Z := 0.
Definition TYPE_TOPOLOGY_CHANGE_BPDU : Z := 128.
Definition TYPE_RSTBPDU : Z := 2.
Definition DEFAULT_BRIDGE_PRIORITY : Z := 32768.
Definition DEFAULT_PORT_PRIORITY : Z := 128.
Definition PORT_PATH_COST_10MB : Z := 2000000.
Definition PORT_PATH_COST_100MB : Z := 200000.
Definition PORT_PATH_COST_1GB : Z := 20000.
Definition PORT_PATH_COST_10GB : Z := 2000.
Definition VERSION_1_LENGTH : Z := 0.

(** Seconds. *)
Abbreviation seconds := Qc.
Definition sec (z : Z) : seconds := Q2Qc (inject_Z z).
Definition DEFAULT_MAX_AGE : seconds := sec 20.
Definition DEFAULT_HELLO_TIME : seconds := sec 2.
Definition DEFAULT_FORWARD_DELAY : seconds := sec 15.

Module Bpdu.

(** The attributes of ConfigurationBPDUs and of its subclass RstBPDUs. *)
Record config := Config {
  flags : Z;
  root_priority : Z;
  root_system_id_extension : Z;
  root_mac_address : string;
  root_path_cost : Z;
  bridge_priority : Z;
  bridge_system_id_extension : Z;
  bridge_mac_address : string;
  port_priority : Z;
  port_number : Z;
  message_age : seconds;
  max_age : seconds;
  hello_time : seconds;
  forward_delay : seconds }.

(** The registered classes. *)
Inductive cls := ConfigurationBPDUs | TopologyChangeNotificationBPDUs | RstBPDUs.

Inductive bpdu :=
  | BConfig (c : config)
  | BTcn
  | BRst (c : config).

Definition VERSION_ID (c : cls) : Z :=
  match c with
  | ConfigurationBPDUs | TopologyChangeNotificationBPDUs => PROTOCOLVERSION_ID_BPDU
  | RstBPDUs => PROTOCOLVERSION_ID_RSTBPDU
  end.

Definition BPDU_TYPE (c : cls) : Z :=
  match c with
  | ConfigurationBPDUs => TYPE_CONFIG_BPDU
  | TopologyChangeNotificationBPDUs => TYPE_TOPOLOGY_CHANGE_BPDU
  | RstBPDUs => TYPE_RSTBPDU
  end.

Definition _PACK_STR : string := "!HBB".
Definition _PACK_LEN : nat := calcsize _PACK_STR.
Definition config_PACK_STR : string := "!BQIQHHHHH".
Definition rst_PACK_STR : string := "!B".

Definition PACK_LEN (c : cls) : nat :=
  match c with
  | ConfigurationBPDUs => calcsize config_PACK_STR
  | TopologyChangeNotificationBPDUs => 0
  | RstBPDUs => calcsize rst_PACK_STR
  end.

Definition register_bpdu_type (types : gmap Z (gmap Z cls)) (sub_cls : cls) :
    gmap Z (gmap Z cls) :=
  <[VERSION_ID sub_cls :=
      <[BPDU_TYPE sub_cls := sub_cls]> (default ∅ (types !! VERSION_ID sub_cls))]> types.

Definition _BPDU_TYPES : gmap Z (gmap Z cls) :=
  foldl register_bpdu_type ∅ [ConfigurationBPDUs; TopologyChangeNotificationBPDUs; RstBPDUs].

(** [version_id in _BPDU_TYPES and bpdu_type in _BPDU_TYPES[version_id]] *)
Definition registered (version_id bpdu_type : Z) : option cls :=
  m ← _BPDU_TYPES !! version_id; m !! bpdu_type.

(** ** Identifiers and timers *)

Definition _BRIDGE_PRIORITY_STEP : Z := 4096.
Definition _PORT_PRIORITY_STEP : Z := 16.

Section Ids.
Context `{C : AddrConv}.

(** The six bytes of a 48-bit number, most significant first. *)
Definition mac_bytes (mac_addr : Z) : bytes :=
  reverse ((fun i => Z.land (Z.shiftr mac_addr (8 * i)) 0xff) <$> [0; 1; 2; 3; 4; 5]).

Definition _decode_bridge_id (bridge_id : Z) : res (Z * Z * string) :=
  let priority := Z.land (Z.shiftr bridge_id 48) 0xf000 in
  let system_id_extension := Z.land (Z.shiftr bridge_id 48) 0xfff in
  let mac_addr := Z.land bridge_id 0xffffffffffff in
  mac_address ← bin_to_text MAC (mac_bytes mac_addr);
  Ok (priority, system_id_extension, mac_address).

Definition encode_bridge_id (priority system_id_extension : Z) (mac_address : string) : res Z :=
  b ← text_to_bin MAC mac_address;
  Ok (Z.shiftl (priority + system_id_extension) 48 + be_decode b).

Definition _decode_port_id (port_id : Z) : Z * Z :=
  (Z.land (Z.shiftr port_id 8) 0xf0, Z.land port_id 0xfff).

Definition encode_port_id (priority port_number : Z) : Z :=
  Z.shiftl priority 8 + port_number.

Definition _decode_timer (timer : Z) : seconds := Q2Qc (timer # 256).

Definition _encode_timer (timer : seconds) : seconds := Qcmult timer (sec 256).

(** [timer % (float(1) / 256) == 0] *)
Definition timer_ok (timer : seconds) : bool :=
  (Qden (this (_encode_timer timer)) =? 1)%positive.

(** The argument of [struct.pack] for a number: its integer part. *)
Definition to_int (q : seconds) : Z := Z.quot (Qnum (this q)) (Zpos (Qden (this q))).

(** ** Objects *)

(** [RstBPDUs.check_parameters] *)
Definition check_rst (c : config) : res unit :=
  py_assert (root_priority c mod _BRIDGE_PRIORITY_STEP =? 0);;
  py_assert (bridge_priority c mod _BRIDGE_PRIORITY_STEP =? 0);;
  py_assert (port_priority c mod _PORT_PRIORITY_STEP =? 0);;
  py_assert (timer_ok (message_age c));;
  py_assert (timer_ok (max_age c));;
  py_assert (timer_ok (hello_time c));;
  py_assert (timer_ok (forward_delay c)).

(** [ConfigurationBPDUs.check_parameters] *)
Definition check_config (c : config) : res unit :=
  py_assert (Z.land (Z.shiftr (flags c) 1) 0x3f =? 0);;
  check_rst c.

(** The constructors, which [cls(...)] runs. *)
Definition new_config (c : config) : res bpdu := check_config c;; Ok (BConfig c).
Definition new_rst (c : config) : res bpdu := check_rst c;; Ok (BRst c).

(** [ConfigurationBPDUs.parser] before the constructor, with the rest of the
    buffer. *)
Definition parse_fields (buf : bytes) : res (config * bytes) :=
  vs ← unpack_from config_PACK_STR buf 0;
  match vs with
  | [VInt flags; VInt root_id; VInt root_path_cost; VInt bridge_id; VInt port_id;
     VInt message_age; VInt max_age; VInt hello_time; VInt forward_delay] =>
      '(root_priority, root_ext, root_mac) ← _decode_bridge_id root_id;
      '(bridge_priority, bridge_ext, bridge_mac) ← _decode_bridge_id bridge_id;
      let '(port_priority, port_number) := _decode_port_id port_id in
      Ok (Config flags root_priority root_ext root_mac root_path_cost
            bridge_priority bridge_ext bridge_mac port_priority port_number
            (_decode_timer message_age) (_decode_timer max_age)
            (_decode_timer hello_time) (_decode_timer forward_delay),
          drop (PACK_LEN ConfigurationBPDUs) buf)
  | _ => Err ValueError
  end.

Definition config_parser (buf : bytes) : res (bpdu * bytes) :=
  '(c, rest) ← parse_fields buf;
  b ← new_config c;
  Ok (b, rest).

(** [TopologyChangeNotificationBPDUs.parser]: the header was removed by the
    caller, and as many bytes are removed once more. *)
Definition tcn_parser (buf : bytes) : res (bpdu * bytes) :=
  Ok (BTcn, drop _PACK_LEN buf).

Definition rst_parser (buf : bytes) : res (bpdu * bytes) :=
  '(c, rest) ← parse_fields buf;
  b ← new_rst c;
  vs ← unpack_from rst_PACK_STR rest 0;
  match vs with
  | [VInt version_1_length] =>
      py_assert (version_1_length =? VERSION_1_LENGTH);;
      Ok (b, drop (PACK_LEN RstBPDUs) rest)
  | _ => Err ValueError
  end.

Definition sub_parser (c : cls) (buf : bytes) : res (bpdu * bytes) :=
  match c with
  | ConfigurationBPDUs => config_parser buf
  | TopologyChangeNotificationBPDUs => tcn_parser buf
  | RstBPDUs => rst_parser buf
  end.

(** [bpdu.parser]: an object and the rest of the buffer, or the buffer itself for
    a type that is not registered. *)
Definition parser (buf : bytes) : res ((bpdu * bytes) + bytes) :=
  py_assert (_PACK_LEN <=? length buf)%nat;;
  vs ← unpack_from _PACK_STR buf 0;
  match vs with
  | [VInt protocol_id; VInt version_id; VInt bpdu_type] =>
      py_assert (protocol_id =? PROTOCOL_IDENTIFIER);;
      match registered version_id bpdu_type with
      | Some bpdu_cls =>
          py_assert (PACK_LEN bpdu_cls <=? length (drop _PACK_LEN buf))%nat;;
          r ← sub_parser bpdu_cls (drop _PACK_LEN buf);
          Ok (inl r)
      | None => Ok (inr buf)
      end
  | _ => Err ValueError
  end.

(** [bpdu.serialize] *)
Definition base_serialize (c : cls) : res bytes :=
  pack _PACK_STR [VInt PROTOCOL_IDENTIFIER; VInt (VERSION_ID c); VInt (BPDU_TYPE c)].

(** [ConfigurationBPDUs.serialize] after the call of the base class. *)
Definition sub_serialize (c : config) : res bytes :=
  root_id ← encode_bridge_id (root_priority c) (root_system_id_extension c)
              (root_mac_address c);
  bridge_id ← encode_bridge_id (bridge_priority c) (bridge_system_id_extension c)
                (bridge_mac_address c);
  let port_id := encode_port_id (port_priority c) (port_number c) in
  pack config_PACK_STR
    [VInt (flags c); VInt root_id; VInt (root_path_cost c); VInt bridge_id; VInt port_id;
     VInt (to_int (_encode_timer (message_age c)));
     VInt (to_int (_encode_timer (max_age c)));
     VInt (to_int (_encode_timer (hello_time c)));
     VInt (to_int (_encode_timer (forward_delay c)))].

Definition serialize (b : bpdu) : res bytes :=
  match b with
  | BConfig c => base ← base_serialize ConfigurationBPDUs; sub ← sub_serialize c;
                 Ok (base ++ sub)
  | BTcn => base_serialize TopologyChangeNotificationBPDUs
  | BRst c => base ← base_serialize RstBPDUs; sub ← sub_serialize c;
              v1 ← pack rst_PACK_STR [VInt VERSION_1_LENGTH];
              Ok ((base ++ sub) ++ v1)
  end.

(** ** Identifiers round trip *)

Lemma land_high x n m : 0 <= n -> 0 <= m ->
  Z.land x (Z.shiftl (Z.ones m) n) = (x / 2 ^ n) mod 2 ^ m * 2 ^ n.
Proof.
  intros Hn Hm. rewrite <- Z.land_ones, <- Z.shiftr_div_pow2, <- Z.shiftl_mul_pow2 by lia.
  apply Z.bits_inj'; intros i Hi. rewrite Z.land_spec.
  destruct (Z.lt_ge_cases i n).
  - rewrite !Z.shiftl_spec_low by lia. apply andb_false_r.
  - rewrite !Z.shiftl_spec by lia. rewrite Z.land_spec, Z.shiftr_spec by lia.
    by replace (i - n + n) with i by lia.
Qed.

Lemma mac_bytes_encode m : mac_bytes m = be_encode 6 m.
Proof.
  unfold mac_bytes. change 0xff with (Z.ones 8). cbn [fmap list_fmap].
  rewrite !Z.land_ones by lia. rewrite !Z.shiftr_div_pow2 by lia.
  Local Transparent be_encode. cbn [be_encode app reverse rev_append]. Local Opaque be_encode.
  rewrite !Z.div_div by lia. change (2 ^ 8) with 256. cbn. by rewrite Z.div_1_r.
Qed.

Lemma decode_encode_bridge_id `{!AddrConvLaws C} p x m v :
  p mod _BRIDGE_PRIORITY_STEP = 0 -> 0 <= x < 4096 -> canonical MAC m ->
  encode_bridge_id p x m = Ok v -> in_width 8 v = true ->
  _decode_bridge_id v = Ok (p, x, m).
Proof.
  unfold _BRIDGE_PRIORITY_STEP. intros Hp Hx Hm H Hv. unfold encode_bridge_id in H.
  apply bind_Ok in H as (b & Eb & H). injection H as <-.
  destruct (canonical_bin _ _ _ Hm Eb) as (Tb & Lb & Ob).
  pose proof (be_decode_bound b Ob) as Bb. rewrite Lb in Bb. cbn [alen] in *.
  change (256 ^ Z.of_nat 6) with (2 ^ 48) in Bb.
  apply in_width_iff in Hv. change (256 ^ Z.of_nat 8) with (2 ^ 16 * 2 ^ 48) in Hv.
  unfold _decode_bridge_id. rewrite Z.shiftl_mul_pow2 in * by lia.
  rewrite shiftr_add by lia. change 0xffffffffffff with (Z.ones 48).
  rewrite land_ones_add, mac_bytes_encode by lia.
  rewrite <- Lb, be_encode_decode, Tb by done. cbn [mbind res_bind].
  change 0xf000 with (Z.shiftl (Z.ones 4) 12). change 0xfff with (Z.ones 12).
  rewrite land_high, Z.land_ones by lia.
  apply Z.mod_divide in Hp as [k ->]; [|lia].
  change (2 ^ 12) with 4096 in *. change (2 ^ 4) with 16.
  rewrite Z.div_add_l, (Z.div_small x), Z.add_0_r by lia.
  rewrite (Z.mod_small k) by lia. by rewrite Z.add_comm, Z_mod_plus_full, Z.mod_small by lia.
Qed.

Lemma decode_encode_port_id p n :
  p mod _PORT_PRIORITY_STEP = 0 -> 0 <= n < 4096 -> in_width 2 (encode_port_id p n) = true ->
  _decode_port_id (encode_port_id p n) = (p, n).
Proof.
  unfold _PORT_PRIORITY_STEP. intros Hp Hn Hv. apply in_width_iff in Hv.
  unfold _decode_port_id, encode_port_id in *.
  change 0xf0 with (Z.shiftl (Z.ones 4) 4). change 0xfff with (Z.ones 12).
  rewrite land_high, Z.land_ones, Z.shiftl_mul_pow2, Z.shiftr_div_pow2 in * by lia.
  apply Z.mod_divide in Hp as [k ->]; [|lia].
  change (2 ^ 12) with 4096. change (2 ^ 4) with 16. change (2 ^ 8) with 256 in *.
  change (256 ^ Z.of_nat 2) with 65536 in *. rewrite Z.div_div by lia.
  replace (k * 16 * 256 + n) with (n + k * 4096) by lia.
  change (256 * 16) with 4096. rewrite Z.div_add, Z_mod_plus_full by lia.
  rewrite (Z.div_small n), (Z.mod_small n), (Z.mod_small (0 + k)) by lia. f_equal; lia.
Qed.

Lemma decode_encode_timer t :
  timer_ok t = true -> _decode_timer (to_int (_encode_timer t)) = t.
Proof.
  unfold timer_ok, to_int. intros H. apply Pos.eqb_eq in H. rewrite H, Z.quot_1_r.
  set (q := _encode_timer t) in *.
  assert (Eq : (t * inject_Z 256 == inject_Z (Qnum q))%Q).
  { transitivity (this q); [|unfold Qeq, inject_Z; cbn [Qnum Qden]; rewrite H; lia].
    unfold q, _encode_timer, sec. cbn [this Q2Qc Qcmult]. by rewrite !Qred_correct. }
  apply Qc_is_canon. unfold _decode_timer. cbn [this Q2Qc]. rewrite Qred_correct.
  unfold Qeq, inject_Z in *. cbn [Qnum Qden Qmult] in *. lia.
Qed.

(** ** Well-formed objects *)

Definition wf_config (c : config) : Prop :=
  0 <= root_system_id_extension c < 4096 /\ 0 <= bridge_system_id_extension c < 4096
  /\ 0 <= port_number c < 4096
  /\ canonical MAC (root_mac_address c) /\ canonical MAC (bridge_mac_address c).

Lemma check_rst_ok c : check_rst c = Ok tt ->
  root_priority c mod _BRIDGE_PRIORITY_STEP = 0
  /\ bridge_priority c mod _BRIDGE_PRIORITY_STEP = 0
  /\ port_priority c mod _PORT_PRIORITY_STEP = 0
  /\ timer_ok (message_age c) = true /\ timer_ok (max_age c) = true
  /\ timer_ok (hello_time c) = true /\ timer_ok (forward_delay c) = true.
Proof.
  unfold check_rst. intros H.
  assert (Ha : forall (b : bool) (k : res unit),
    (py_assert b;; k) = Ok tt -> b = true /\ k = Ok tt) by (by intros []).
  do 6 (apply Ha in H as [? H]). destruct (timer_ok (forward_delay c)); [|done].
  rewrite !Z.eqb_eq in *. done.
Qed.

Lemma parse_sub_serialize `{!AddrConvLaws C} c w rest :
  wf_config c -> check_rst c = Ok tt -> sub_serialize c = Ok w ->
  parse_fields (w ++ rest) = Ok (c, rest).
Proof.
  intros (Hx1 & Hx2 & Hn & Hm1 & Hm2) Hc H.
  apply check_rst_ok in Hc as (Hp1 & Hp2 & Hp3 & Ht1 & Ht2 & Ht3 & Ht4).
  unfold sub_serialize in H. apply bind_Ok in H as (r & Er & H).
  apply bind_Ok in H as (b & Eb & H). fmt_eval. pose proof H as Hp. revert H.
  pack_cases. all: intros; try discriminate. clear H.
  unfold parse_fields. fmt_eval. rewrite (unpack_from_pack0 _ _ _ _ Hp).
  cbn [mbind res_bind fit_args f_codes].
  rewrite (decode_encode_bridge_id (root_priority c) _ _ _ Hp1 Hx1 Hm1 Er) by done. cbn [mbind res_bind].
  rewrite (decode_encode_bridge_id (bridge_priority c) _ _ _ Hp2 Hx2 Hm2 Eb) by done. cbn [mbind res_bind].
  rewrite decode_encode_port_id by eassumption.
  rewrite !decode_encode_timer by done. change (PACK_LEN _) with 31%nat.
  rewrite (drop_packed _ _ _ rest Hp : drop 31 _ = _). by destruct c.
Qed.

Lemma bpdu_header c rest : exists w,
  base_serialize c = Ok w /\ length w = 4%nat
  /\ unpack_from _PACK_STR (w ++ rest) 0
     = Ok [VInt PROTOCOL_IDENTIFIER; VInt (VERSION_ID c); VInt (BPDU_TYPE c)]
  /\ drop _PACK_LEN (w ++ rest) = rest
  /\ registered (VERSION_ID c) (BPDU_TYPE c) = Some c.
Proof. destruct c; (eexists; split; [vm_compute; reflexivity|]; done). Qed.

(** The dispatch of [parser] on the header that [base_serialize] writes. *)
Lemma parser_dispatch c w body :
  base_serialize c = Ok w -> (PACK_LEN c <= length body)%nat ->
  parser (w ++ body) = (r ← sub_parser c body; Ok (inl r)).
Proof.
  intros Hw Hl. destruct (bpdu_header c body) as (w' & Hw' & Lw & Hu & Hd & Ht).
  rewrite Hw in Hw'. injection Hw' as <-. unfold parser.
  rewrite (proj2 (Nat.leb_le _ _)) by (rewrite length_app, Lw; change _PACK_LEN with 4%nat; lia).
  cbn [py_assert mbind res_bind]. rewrite Hu, Hd. cbn [mbind res_bind]. rewrite Z.eqb_refl.
  cbn [py_assert]. rewrite Ht.
  by rewrite (proj2 (Nat.leb_le _ _)) by lia.
Qed.

Lemma sub_serialize_length c w : sub_serialize c = Ok w -> length w = 31%nat.
Proof.
  unfold sub_serialize. intros H. apply bind_Ok in H as (r & _ & H).
  apply bind_Ok in H as (b & _ & H). fmt_eval. by apply fpack_length in H.
Qed.

Lemma config_parse_serialize `{!AddrConvLaws C} c w rest :
  wf_config c -> new_config c = Ok (BConfig c) -> serialize (BConfig c) = Ok w ->
  parser (w ++ rest) = Ok (inl (BConfig c, rest)).
Proof.
  intros Hwf Hn H. cbn [serialize] in H. apply bind_Ok in H as (base & Hb & H).
  apply bind_Ok in H as (sub & Hs & H). injection H as <-. rewrite <- app_assoc.
  rewrite (parser_dispatch _ _ _ Hb); [|rewrite length_app, (sub_serialize_length _ _ Hs);
    change (PACK_LEN _) with 31%nat; lia].
  cbn [sub_parser]. unfold config_parser.
  assert (Hc : check_rst c = Ok tt).
  { unfold new_config, check_config in Hn. apply bind_Ok in Hn as ([] & Hc & _).
    by apply bind_Ok in Hc as ([] & _ & Hc). }
  rewrite (parse_sub_serialize _ _ rest Hwf Hc Hs). cbn [mbind res_bind]. by rewrite Hn.
Qed.

Lemma rst_parse_serialize `{!AddrConvLaws C} c w rest :
  wf_config c -> new_rst c = Ok (BRst c) -> serialize (BRst c) = Ok w ->
  parser (w ++ rest) = Ok (inl (BRst c, rest)).
Proof.
  intros Hwf Hn H. cbn [serialize] in H. apply bind_Ok in H as (base & Hb & H).
  apply bind_Ok in H as (sub & Hs & H). apply bind_Ok in H as (v1 & Hv & H).
  injection H as <-. rewrite <- !app_assoc.
  rewrite (parser_dispatch _ _ _ Hb); [|rewrite length_app, (sub_serialize_length _ _ Hs);
    change (PACK_LEN _) with 1%nat; lia].
  cbn [sub_parser]. unfold rst_parser.
  assert (Hc : check_rst c = Ok tt) by (by apply bind_Ok in Hn as ([] & Hc & _)).
  rewrite (parse_sub_serialize _ _ _ Hwf Hc Hs). cbn [mbind res_bind]. rewrite Hn.
  vm_compute in Hv. injection Hv as <-. fmt_eval. reflexivity.
Qed.

End Ids.
End Bpdu.

(** ** Claims *)

Module BpduClaims.
Import Bpdu.

(** A BPDU object that its constructor accepts is read back from its wire form:
    configuration and rapid spanning tree BPDUs with the same priorities,
    extensions, addresses, port numbers and timers and with the bytes that
    follow; a topology change notification is recognised too, and the four bytes
    after it are dropped with it. *)
Theorem bpdu_roundtrip `{C : AddrConv} `{!AddrConvLaws C} (c : config)
    (w1 w2 w3 rest : bytes) :
  wf_config c ->
  serialize (BConfig c) = Ok w1 -> serialize BTcn = Ok w2 -> serialize (BRst c) = Ok w3 ->
  (new_config c = Ok (BConfig c) -> parser (w1 ++ rest) = Ok (inl (BConfig c, rest)))
  /\ parser (w2 ++ rest) = Ok (inl (BTcn, drop 4 rest))
  /\ (new_rst c = Ok (BRst c) -> parser (w3 ++ rest) = Ok (inl (BRst c, rest))).
Proof.
  intros Hwf H1 H2 H3. split; [intros; by apply config_parse_serialize|].
  split; [|intros; by apply rst_parse_serialize].
  rewrite (parser_dispatch TopologyChangeNotificationBPDUs _ _ H2) by (cbn; lia). reflexivity.
Qed.

Definition sample_config : config :=
  Config 1 32768 5 PktHeadersClaims.mac1 20000 4096 7 PktHeadersClaims.mac1 128 3
    (_decode_timer 128) (sec 20) (sec 2) (sec 15).

Lemma bpdu_roundtrip_witness :
  exists w1 w3,
    parser (C := RawConv.conv) (w1 ++ [1; 2; 3; 4; 5]) = Ok (inl (BConfig sample_config, [1; 2; 3; 4; 5]))
    /\ parser (C := RawConv.conv) ([0; 0; 0; 128] ++ [1; 2; 3; 4; 5]) = Ok (inl (BTcn, [5]))
    /\ parser (C := RawConv.conv) (w3 ++ [1; 2; 3; 4; 5]) = Ok (inl (BRst sample_config, [1; 2; 3; 4; 5])).
Proof.
  destruct (serialize (C := RawConv.conv) (BConfig sample_config)) as [w1|?] eqn:E1;
    [|vm_compute in E1; discriminate].
  destruct (serialize (C := RawConv.conv) (BRst sample_config)) as [w3|?] eqn:E3;
    [|vm_compute in E3; discriminate].
  exists w1, w3.
  assert (Hm : canonical (H := RawConv.conv) MAC PktHeadersClaims.mac1)
    by (apply RawConv.canonical_raw; [reflexivity|solve_bytes_ok]).
  destruct (bpdu_roundtrip (C := RawConv.conv) (AddrConvLaws0 := RawConv.laws) sample_config
    w1 [0; 0; 0; 128] w3 [1; 2; 3; 4; 5]) as (R1 & R2 & R3).
  - unfold wf_config. cbn [sample_config root_system_id_extension bridge_system_id_extension
      port_number root_mac_address bridge_mac_address].
    split; [lia|]. split; [lia|]. split; [lia|]. split; exact Hm.
  - exact E1.
  - vm_compute. reflexivity.
  - exact E3.
  - split; [apply R1|split; [exact R2|apply R3]]; vm_compute; reflexivity.
Defined.

End BpduClaims.
