(* ===== verification/Stp.v ===== *)
(** * The spanning tree library (ryu/lib/stplib.py)

    A switch as a spanning tree bridge: the comparison of BPDU priorities, the
    selection of port roles, the port state machine, the reaction to BPDUs, to
    link changes and to timers, and the [Stp] application that keeps one bridge
    per datapath.  A green thread is represented by whether it runs; one turn of
    each thread's loop is an operation, and a handler runs to its end before
    another one starts. *)

From Stdlib Require Import ZArith QArith Qcanon Lia.
From stdpp Require Import base list gmap strings numbers.
From S2P Require Import Prelude Struct PktUtils PktHeaders Bpdu.

Local Close Scope Qc_scope.
Local Close Scope Q_scope.
#[local] Open Scope Z_scope.

Module Stp.

Definition MAX_PORT_NO : Z := 0xfff.

(** Result of compared config BPDU priority. *)
Inductive result := SUPERIOR | REPEATED | INFERIOR.
Inductive port_role := DESIGNATED_PORT | ROOT_PORT | NON_DESIGNATED_PORT.
Inductive port_state := DISABLE | BLOCK | LISTEN | LEARN | FORWARD.
Inductive ofproto := V1_0 | V1_2 | V1_3.

#[global] Instance result_eq_dec : EqDecision result.
Proof. solve_decision. Defined.
#[global] Instance port_role_eq_dec : EqDecision port_role.
Proof. solve_decision. Defined.
#[global] Instance port_state_eq_dec : EqDecision port_state.
Proof. solve_decision. Defined.

(** ** Port configuration on the switch *)

Definition OFPPC_NO_RECV : Z := Z.shiftl 1 2.
Definition OFPPC_NO_RECV_STP : Z := Z.shiftl 1 3.
Definition OFPPC_NO_FLOOD : Z := Z.shiftl 1 4.
Definition OFPPC_NO_FWD : Z := Z.shiftl 1 5.
Definition OFPPC_NO_PACKET_IN : Z := Z.shiftl 1 6.

Definition PORT_CONFIG_V1_0 (s : port_state) : Z :=
  match s with
  | DISABLE => Z.lor (Z.lor (Z.lor OFPPC_NO_RECV_STP OFPPC_NO_RECV) OFPPC_NO_FLOOD) OFPPC_NO_FWD
  | BLOCK => Z.lor (Z.lor OFPPC_NO_RECV OFPPC_NO_FLOOD) OFPPC_NO_FWD
  | LISTEN => Z.lor OFPPC_NO_RECV OFPPC_NO_FLOOD
  | LEARN => OFPPC_NO_FLOOD
  | FORWARD => 0
  end.

(** PORT_CONFIG_V1_2 and PORT_CONFIG_V1_3 *)
Definition PORT_CONFIG_V1_2 (s : port_state) : Z :=
  match s with
  | DISABLE => Z.lor OFPPC_NO_RECV OFPPC_NO_FWD
  | BLOCK => Z.lor OFPPC_NO_FWD OFPPC_NO_PACKET_IN
  | LISTEN | LEARN => OFPPC_NO_PACKET_IN
  | FORWARD => 0
  end.

(** ** Identifiers, priorities and times *)

Record BridgeId := mkBridgeId {
  bid_priority : Z; system_id_extension : Z; mac_addr : string; bid_value : Z }.

Record PortId := mkPortId { pid_priority : Z; pid_port_no : Z; pid_value : Z }.

Record Priority := mkPriority {
  root_id : BridgeId;
  root_path_cost : Z;
  designated_bridge_id : option BridgeId;
  designated_port_id : option PortId }.

Record Times := mkTimes {
  message_age : seconds; max_age : seconds; hello_time : seconds; forward_delay : seconds }.

#[global] Instance times_eq_dec : EqDecision Times.
Proof. solve_decision. Defined.

Definition new_PortId (priority port_no : Z) : PortId :=
  mkPortId priority port_no (Bpdu.encode_port_id priority port_no).

(** ** Comparison *)

Definition _cmp_value (value1 value2 : Z) : result :=
  match value1 ?= value2 with Lt => SUPERIOR | Eq => REPEATED | Gt => INFERIOR end.

Definition compare_root_path (path_cost1 path_cost2 bridge_id1 bridge_id2 port_id1 port_id2 : Z)
    : result :=
  match _cmp_value path_cost1 path_cost2 with
  | REPEATED =>
      match _cmp_value bridge_id1 bridge_id2 with
      | REPEATED => _cmp_value port_id1 port_id2
      | r => r
      end
  | r => r
  end.

(** [cmp] of an integer and a string in Python 2: numbers come first. *)
Definition cmp_int_str (value : Z) (s : string) : result := SUPERIOR.

(** The attributes of both objects are those of [Times]. *)
Definition _cmp_obj (obj1 obj2 : Times) : result :=
  if decide (obj1 = obj2) then REPEATED else SUPERIOR.

Definition attr_value (b : option BridgeId) : res Z := i ← attr b; Ok (bid_value i).
Definition attr_pvalue (b : option PortId) : res Z := i ← attr b; Ok (pid_value i).

(** The priority and the times a port holds are assigned and cleared together. *)
Definition compare_bpdu_info (mine : option (Priority * Times))
    (rcv_priority : Priority) (rcv_times : Times) : res result :=
  match mine with
  | None => Ok SUPERIOR
  | Some (my_priority, my_times) =>
      match _cmp_value (bid_value (root_id rcv_priority)) (bid_value (root_id my_priority)) with
      | REPEATED =>
          rb ← attr_value (designated_bridge_id rcv_priority);
          mb ← attr_value (designated_bridge_id my_priority);
          rp ← attr_pvalue (designated_port_id rcv_priority);
          mp ← attr_pvalue (designated_port_id my_priority);
          match compare_root_path (root_path_cost rcv_priority) (root_path_cost my_priority)
                  rb mb rp mp with
          | REPEATED =>
              mbid ← attr (designated_bridge_id my_priority);
              mpid ← attr (designated_port_id my_priority);
              let result1 := cmp_int_str rb (mac_addr mbid) in
              let result2 := _cmp_value rp (pid_port_no mpid) in
              if decide (result1 = REPEATED /\ result2 = REPEATED) then Ok SUPERIOR
              else Ok (_cmp_obj rcv_times my_times)
          | r => Ok r
          end
      | r => Ok r
      end
  end.

(** ** Ports and bridges *)

(** What the code reads of [OFPPhyPort]. *)
Record OfPort := mkOfPort { of_port_no : Z; hw_addr : string; curr : Z }.

Record Port := mkPort {
  ofport : OfPort;
  config_enable : bool;
  port_id : PortId;
  path_cost : Z;
  port_priority : Priority;                     (* root bridge data *)
  port_times : Times;
  state : option port_state;
  role : option port_role;
  designated : option (Priority * Times);       (* received BPDU data *)
  send_tc_flg : bool;
  send_tc_timer : option seconds;
  send_tcn_flg : bool;
  send_bpdu_thread : bool;                      (* running or not *)
  wait_bpdu_thread : bool }.

Definition port_no (p : Port) : Z := of_port_no (ofport p).

(** Configuration given by the user; a missing field is omitted. *)
Record PortConf := mkPortConf {
  pc_priority : option Z; pc_path_cost : option Z; pc_enable : option bool }.

Definition no_conf : PortConf := mkPortConf None None None.

Record Bridge := mkBridge {
  dpid : Z;
  version : ofproto;
  bridge_id : BridgeId;
  bridge_times : Times;
  root_priority : Priority;
  root_times : Times;
  ports : list Port;                            (* the values of the dict, in its order *)
  ports_conf : gmap Z PortConf }.

(** What leaves the bridge: events, messages to the switch and timer restarts. *)
Inductive output :=
  | EventTopologyChange
  | EventPortStateChange (n : Z) (s : port_state)
  | EventPacketIn
  | PortMod (n : Z) (mac : string) (config mask : Z)
  | AddNoPktInFlow (n : Z)
  | DelNoPktInFlow (n : Z)
  | AddBpduPktInFlow
  | PacketOut (n : Z) (b : Bpdu.bpdu)
  | WaitTimerRestart (n : Z).

Record World := mkWorld {
  now : seconds;
  port_cost_default : Z;            (* Port._DEFAULT_VALUE['path_cost'] *)
  trace : list output;
  bridge : Bridge }.

Abbreviation M := (stm World).

Definition set_trace (w : World) (t : list output) : World :=
  mkWorld (now w) (port_cost_default w) t (bridge w).
Definition set_cost (c : Z) (w : World) : World :=
  mkWorld (now w) c (trace w) (bridge w).
Definition set_bridge (w : World) (b : Bridge) : World :=
  mkWorld (now w) (port_cost_default w) (trace w) b.
Definition set_ports (b : Bridge) (ps : list Port) : Bridge :=
  mkBridge (dpid b) (version b) (bridge_id b) (bridge_times b) (root_priority b)
    (root_times b) ps (ports_conf b).
Definition set_root (b : Bridge) (rp : Priority) (rt : Times) : Bridge :=
  mkBridge (dpid b) (version b) (bridge_id b) (bridge_times b) rp rt (ports b) (ports_conf b).

Definition send (o : output) : M unit := modify (fun w => set_trace w (trace w ++ [o])).
Definition self : M Bridge := gets bridge.
Definition map_ports (f : list Port -> list Port) : M unit :=
  modify (fun w => set_bridge w (set_ports (bridge w) (f (ports (bridge w))))).

Definition find_port (n : Z) (ps : list Port) : option Port :=
  List.find (fun p => port_no p =? n) ps.

(** [self.ports[n]] *)
Definition get_port (n : Z) : M Port :=
  b ← self; lift_res (or_raise KeyError (find_port n (ports b))).

Definition at_port (n : Z) (f : Port -> Port) (p : Port) : Port :=
  if port_no p =? n then f p else p.

Definition upd_port (n : Z) (f : Port -> Port) : M unit := map_ports (map (at_port n f)).

Definition when (c : bool) (m : M unit) : M unit := if c then m else mret tt.

(** ** Messages to the switch *)

(** [OfCtl_v1_0.set_port_status] and the override of [OfCtl_v1_2later]. *)
Definition set_port_status (v : ofproto) (port : OfPort) (s : port_state) : list output :=
  match v with
  | V1_0 => [PortMod (of_port_no port) (hw_addr port) (PORT_CONFIG_V1_0 s) 0x7f]
  | V1_2 | V1_3 =>
      PortMod (of_port_no port) (hw_addr port) (PORT_CONFIG_V1_2 s) 0x65 ::
      [if Z.land (PORT_CONFIG_V1_2 s) OFPPC_NO_PACKET_IN =? 0
       then DelNoPktInFlow (of_port_no port) else AddNoPktInFlow (of_port_no port)]
  end.

(** ** Topology change *)

Definition is_root_bridge (b : Bridge) : bool :=
  bid_value (bridge_id b) =? bid_value (root_id (root_priority b)).

Definition set_tc (p : Port) (flg : bool) (timer : option seconds) : Port :=
  mkPort (ofport p) (config_enable p) (port_id p) (path_cost p) (port_priority p)
    (port_times p) (state p) (role p) (designated p) flg timer (send_tcn_flg p)
    (send_bpdu_thread p) (wait_bpdu_thread p).
Definition set_tcn (flg : bool) (p : Port) : Port :=
  mkPort (ofport p) (config_enable p) (port_id p) (path_cost p) (port_priority p)
    (port_times p) (state p) (role p) (designated p) (send_tc_flg p) (send_tc_timer p) flg
    (send_bpdu_thread p) (wait_bpdu_thread p).

Definition transmit_tc_bpdu (t : seconds) (p : Port) : Port :=
  if send_tc_flg p then p
  else set_tc p true
         (Some (Qcplus t (Qcplus (max_age (port_times p)) (forward_delay (port_times p))))).

Definition _transmit_tc_bpdu : M unit :=
  t ← gets now; map_ports (map (transmit_tc_bpdu t)).

Definition has_role (r : port_role) (p : Port) : bool := bool_decide (role p = Some r).
Definition has_state (s : port_state) (p : Port) : bool := bool_decide (state p = Some s).

Definition _transmit_tcn_bpdu : M unit :=
  b ← self;
  match List.find (has_role ROOT_PORT) (ports b) with
  | Some root_port => upd_port (port_no root_port) (set_tcn true)
  | None => mret tt
  end.

Definition _forward_tc_bpdu (fwd_flg : bool) : M unit :=
  map_ports (map (fun p => set_tc p fwd_flg (send_tc_timer p))).

Definition topology_change_notify (port_state : option port_state) : M unit :=
  b ← self;
  let notice := if decide (port_state = Some FORWARD)
                then existsb (has_role DESIGNATED_PORT) (ports b) else true in
  when notice
    (send EventTopologyChange;;
     if is_root_bridge b then _transmit_tc_bpdu else _transmit_tcn_bpdu).

(** ** Port operations *)

Definition set_role (new_role : port_role) (p : Port) : Port :=
  mkPort (ofport p) (config_enable p) (port_id p) (path_cost p) (port_priority p)
    (port_times p) (state p) (Some new_role) (designated p) (send_tc_flg p)
    (send_tc_timer p) (send_tcn_flg p) (send_bpdu_thread p)
    (negb (bool_decide (new_role = DESIGNATED_PORT))).

Definition _change_role (n : Z) (new_role : port_role) : M unit :=
  p ← get_port n;
  if has_role new_role p then mret tt else upd_port n (set_role new_role).

(** The assignments of [_change_status] to the port. *)
Definition set_status (new_state : port_state) (p : Port) : Port :=
  let stop := bool_decide (new_state = DISABLE \/ new_state = BLOCK) in
  mkPort (ofport p) (config_enable p) (port_id p) (path_cost p) (port_priority p)
    (port_times p) (Some new_state) (role p) (designated p)
    (if stop then false else send_tc_flg p) (if stop then None else send_tc_timer p)
    (if stop then false else send_tcn_flg p)
    (if stop then false else if decide (new_state = LISTEN) then true else send_bpdu_thread p)
    (wait_bpdu_thread p).

Definition notifies (old : option port_state) (new_state : port_state) : bool :=
  bool_decide (new_state = FORWARD
    \/ (old = Some FORWARD /\ (new_state = DISABLE \/ new_state = BLOCK))).

Definition _change_status (n : Z) (new_state : port_state) : M unit :=
  b ← self; p ← get_port n;
  when (negb (bool_decide (new_state = DISABLE)))
    (iterM send (set_port_status (version b) (ofport p) new_state));;
  when (notifies (state p) new_state) (topology_change_notify (Some new_state));;
  upd_port n (set_status new_state);;
  send (EventPortStateChange n new_state).

Definition set_root_info (rp : Priority) (rt : Times) (p : Port) : Port :=
  mkPort (ofport p) (config_enable p) (port_id p) (path_cost p) rp rt (state p) (role p)
    (designated p) (send_tc_flg p) (send_tc_timer p) (send_tcn_flg p) (send_bpdu_thread p)
    (wait_bpdu_thread p).
Definition set_designated (d : option (Priority * Times)) (p : Port) : Port :=
  mkPort (ofport p) (config_enable p) (port_id p) (path_cost p) (port_priority p)
    (port_times p) (state p) (role p) d (send_tc_flg p) (send_tc_timer p) (send_tcn_flg p)
    (send_bpdu_thread p) (wait_bpdu_thread p).

(** [Port.up] *)
Definition up (n : Z) (r : port_role) (rp : Priority) (rt : Times) : M unit :=
  upd_port n (set_root_info rp rt);;
  p ← get_port n;
  let st := if config_enable p then LISTEN else DISABLE in
  _change_role n r;;
  _change_status n st.

(** [Port.down] *)
Definition down (n : Z) (st : port_state) (msg_init : bool) : M unit :=
  lift_res (py_assert (bool_decide (st = DISABLE \/ st = BLOCK)));;
  p ← get_port n;
  if negb (config_enable p) then mret tt
  else
    when msg_init (upd_port n (set_designated None));;
    _change_role n DESIGNATED_PORT;;
    _change_status n st.

Definition _get_timer (p : Port) : option seconds :=
  match state p with
  | Some LISTEN | Some LEARN => Some (forward_delay (port_times p))
  | _ => None
  end.

Definition _get_next_state (p : Port) : option port_state :=
  match state p with
  | Some LISTEN => Some LEARN
  | Some LEARN => Some (if has_role ROOT_PORT p || has_role DESIGNATED_PORT p
                        then FORWARD else BLOCK)
  | _ => None
  end.

(** One turn of [_state_machine] in which the timer expires; a port whose timer is
    not set, or set to zero, waits for ever. *)
Definition state_timeout (n : Z) : M unit :=
  p ← get_port n;
  match _get_timer p with
  | Some t =>
      if decide (t = sec 0) then mret tt
      else match _get_next_state p with
           | Some new_state => _change_status n new_state
           | None => raise KeyError
           end
  | None => mret tt
  end.

(** ** Role selection *)

Definition enabled (p : Port) : bool := negb (has_state DISABLE p).

Definition prefer (b : Bridge) (root_port : option Port) (p : Port) : res (option Port) :=
  let root_msg := match root_port with
                  | Some r => from_option fst (root_priority b) (designated r)
                  | None => root_priority b
                  end in
  match designated p with
  | None => Ok root_port
  | Some (port_msg, _) =>
      if negb (enabled p) then Ok root_port
      else
        r ← (if bid_value (root_id port_msg) <? bid_value (root_id root_msg) then Ok SUPERIOR
             else if bid_value (root_id port_msg) =? bid_value (root_id root_msg) then
               match designated_bridge_id root_msg with
               | None => Ok INFERIOR
               | Some rb =>
                   pb ← attr_value (designated_bridge_id port_msg);
                   pp ← attr_pvalue (designated_port_id port_msg);
                   rp ← attr_pvalue (designated_port_id root_msg);
                   Ok (compare_root_path (root_path_cost port_msg) (root_path_cost root_msg)
                         pb (bid_value rb) pp rp)
               end
             else Ok INFERIOR);
        Ok (if decide (r = SUPERIOR) then Some p else root_port)
  end.

Definition _select_root_port (b : Bridge) : res (option Port) :=
  foldM (prefer b) None (ports b).

(** The body of the loop of [_select_designated_port]: whether the port is
    designated. *)
Definition designates (b : Bridge) (root_port p : Port) (root_msg : Priority) : res bool :=
  if negb (enabled p) || (port_no p =? port_no root_port) then Ok false
  else
    match designated p with
    | None => Ok true
    | Some (port_msg, _) =>
        if negb (bid_value (root_id port_msg) =? bid_value (root_id root_msg)) then Ok true
        else
          pb ← attr_value (designated_bridge_id port_msg);
          pp ← attr_pvalue (designated_port_id port_msg);
          Ok (bool_decide (compare_root_path (root_path_cost root_msg)
                (root_path_cost port_msg - path_cost p)
                (bid_value (bridge_id b)) pb (pid_value (port_id p)) pp = SUPERIOR))
    end.

Fixpoint designated_ports (b : Bridge) (root_port : Port) (root_msg : Priority)
    (ps : list Port) : res (list Z) :=
  match ps with
  | [] => Ok []
  | p :: ps =>
      d ← designates b root_port p root_msg;
      l ← designated_ports b root_port root_msg ps;
      Ok (if d : bool then port_no p :: l else l)
  end.

(** [port_roles.setdefault(n, r)] *)
Definition setdefault (roles : list (Z * port_role)) (n : Z) (r : port_role) :=
  if existsb (fun e => e.1 =? n) roles then roles else roles ++ [(n, r)].

Definition _spanning_tree_algorithm (b : Bridge) :
    res (list (Z * port_role) * Priority * Times) :=
  root_port ← _select_root_port b;
  match root_port with
  | None =>
      Ok ((fun p => (port_no p, DESIGNATED_PORT)) <$> filter (fun p => enabled p = true) (ports b),
          root_priority b, root_times b)
  | Some r =>
      '(root_msg, times) ← attr (designated r);
      d_ports ← designated_ports b r root_msg (ports b);
      let port_roles := (port_no r, ROOT_PORT) :: ((fun n => (n, DESIGNATED_PORT)) <$> d_ports) in
      Ok (foldl (fun roles p => if enabled p
                                then setdefault roles (port_no p) NON_DESIGNATED_PORT else roles)
            port_roles (ports b),
          root_msg, times)
  end.

Definition recalculate_spanning_tree (init : bool) : M unit :=
  b ← self;
  iterM (fun n => p ← get_port n; when (enabled p) (down n BLOCK init)) (port_no <$> ports b);;
  when init (send EventTopologyChange);;
  modify (fun w => let b := bridge w in
    set_bridge w (set_root b (mkPriority (bridge_id b) 0 None None) (bridge_times b)));;
  b ← self;
  '(port_roles, rp, rt) ← (if init
     then mret ((fun p => (port_no p, DESIGNATED_PORT)) <$> ports b, root_priority b, root_times b)
     else lift_res (_spanning_tree_algorithm b));
  modify (fun w => set_bridge w (set_root (bridge w) rp rt));;
  iterM (fun '(n, r) => p ← get_port n; when (enabled p) (up n r rp rt)) port_roles.

(** ** Sending BPDUs *)

Definition new_config_bpdu (b : Bridge) (p : Port) (flags : Z) : Bpdu.config :=
  Bpdu.Config flags
    (bid_priority (root_id (port_priority p))) 0 (mac_addr (root_id (port_priority p)))
    (root_path_cost (port_priority p) + path_cost p)
    (bid_priority (bridge_id b)) 0 (mac_addr (bridge_id b))
    (pid_priority (port_id p)) (port_no p)
    (Qcplus (message_age (port_times p)) (sec 1)) (max_age (port_times p))
    (hello_time (port_times p)) (forward_delay (port_times p)).

(** The BPDU of [_generate_config_bpdu]; its constructor checks the fields. *)
Definition _generate_config_bpdu (n flags : Z) : M Bpdu.bpdu :=
  b ← self; p ← get_port n;
  lift_res (Bpdu.new_config (new_config_bpdu b p flags)).

(** One turn of the loop of [_transmit_bpdu]. *)
Definition _transmit_bpdu (n : Z) : M unit :=
  p ← get_port n; t ← gets now;
  when (has_role DESIGNATED_PORT p)
    (when (match send_tc_timer p with
           | Some timer => if Qclt_le_dec timer t then true else false
           | None => false
           end) (upd_port n (fun p => set_tc p false None));;
     p ← get_port n;
     b ← _generate_config_bpdu n (if send_tc_flg p then 1 else 0);
     send (PacketOut n b));;
  p ← get_port n;
  when (send_tcn_flg p) (send (PacketOut n Bpdu.BTcn)).

Definition transmit_ack_bpdu (n : Z) : M unit :=
  b ← _generate_config_bpdu n 0x81; send (PacketOut n b).

(** ** Ports come and go *)

(** The first rate of [path_costs], from the fastest on, that the port runs at. *)
Definition link_cost (curr : Z) : option Z :=
  snd <$> List.find (fun '(rate, _) => negb (Z.land curr rate =? 0))
    [(Z.shiftl 1 6, PORT_PATH_COST_10GB);
     (Z.shiftl 1 5, PORT_PATH_COST_1GB); (Z.shiftl 1 4, PORT_PATH_COST_1GB);
     (Z.shiftl 1 3, PORT_PATH_COST_100MB); (Z.shiftl 1 2, PORT_PATH_COST_100MB);
     (Z.shiftl 1 1, PORT_PATH_COST_10MB); (Z.shiftl 1 0, PORT_PATH_COST_10MB)].

(** [self.ports[n] = p]: an existing key keeps its place. *)
Definition put_port (p : Port) (ps : list Port) : list Port :=
  if existsb (fun q => port_no q =? port_no p) ps
  then map (at_port (port_no p) (fun _ => p)) ps else ps ++ [p].

(** [Port.__init__].  Of the configuration only 'enable' is read; the cost of the
    link is written into the defaults of the class.  The object is entered into
    the table before [up] runs: [up] on a port without a state notifies nobody. *)
Definition new_port (conf : PortConf) (op : OfPort) : M unit :=
  b ← self;
  let enable := default true (pc_enable conf) in
  match link_cost (curr op) with
  | Some c => modify (set_cost c)
  | None => mret tt
  end;;
  cost ← gets port_cost_default;
  let own := mkPriority (bridge_id b) 0 None None in
  map_ports (put_port
    (mkPort op enable (new_PortId DEFAULT_PORT_PRIORITY (of_port_no op)) cost own
       (bridge_times b) (if enable then None else Some DISABLE) None None false None false
       false false));;
  up (of_port_no op) DESIGNATED_PORT own (bridge_times b);;
  (* the start of _state_machine *)
  when (negb enable) (iterM send (set_port_status (version b) op DISABLE)).

Definition port_add (op : OfPort) : M unit :=
  b ← self;
  when (of_port_no op <=? MAX_PORT_NO)
    (new_port (default no_conf (ports_conf b !! of_port_no op)) op).

Definition link_up (n : Z) : M unit :=
  get_port n;;
  b ← self; up n DESIGNATED_PORT (root_priority b) (root_times b).

Definition link_down (n : Z) : M unit :=
  p ← get_port n;
  let init_stp_flg := has_role ROOT_PORT p in
  down n DISABLE true;;
  when init_stp_flg (recalculate_spanning_tree true).

(** The threads of the removed port are stopped. *)
Definition port_delete (n : Z) : M unit :=
  link_down n;;
  get_port n;;
  map_ports (filter (fun p => port_no p <> n)).

(** One turn of [_wait_bpdu_timer] in which the timer expires: the tree is
    calculated anew. *)
Definition wait_timeout (n : Z) : M unit :=
  p ← get_port n; when (wait_bpdu_thread p) (recalculate_spanning_tree true).

(** ** Receiving *)

Section Receive.
Context `{C : AddrConv}.

Definition new_BridgeId (priority ext : Z) (mac : string) : res BridgeId :=
  value ← Bpdu.encode_bridge_id priority ext mac;
  Ok (mkBridgeId priority ext mac value).

Definition bpdu_priority (c : Bpdu.config) : res Priority :=
  root_id ← new_BridgeId (Bpdu.root_priority c) (Bpdu.root_system_id_extension c)
              (Bpdu.root_mac_address c);
  bridge_id ← new_BridgeId (Bpdu.bridge_priority c) (Bpdu.bridge_system_id_extension c)
                (Bpdu.bridge_mac_address c);
  Ok (mkPriority root_id (Bpdu.root_path_cost c) (Some bridge_id)
        (Some (new_PortId (Bpdu.port_priority c) (Bpdu.port_number c)))).

Definition bpdu_times (c : Bpdu.config) : Times :=
  mkTimes (Bpdu.message_age c) (Bpdu.max_age c) (Bpdu.hello_time c) (Bpdu.forward_delay c).

Definition rcv_config_bpdu (n : Z) (c : Bpdu.config) : M (result * bool) :=
  p ← get_port n;
  msg_priority ← lift_res (bpdu_priority c);
  let msg_times := bpdu_times c in
  rcv_info ← lift_res (compare_bpdu_info (designated p) msg_priority msg_times);
  when (bool_decide (rcv_info = SUPERIOR))
    (upd_port n (set_designated (Some (msg_priority, msg_times))));;
  chk_flg ← (if bool_decide (rcv_info <> INFERIOR)
                && (has_role ROOT_PORT p || has_role NON_DESIGNATED_PORT p)
             then send (WaitTimerRestart n);; mret true
             else mret (bool_decide (rcv_info = INFERIOR) && has_role DESIGNATED_PORT p));
  let rcv_tc := chk_flg && negb (Z.land (Bpdu.flags c) 0x01 =? 0) in
  when (chk_flg && negb (Z.land (Bpdu.flags c) 0x80 =? 0)) (upd_port n (set_tcn false));;
  mret (rcv_info, rcv_tc).

Definition is_config (b : Bpdu.bpdu) : bool := match b with Bpdu.BConfig _ => true | _ => false end.
Definition is_tcn (b : Bpdu.bpdu) : bool := match b with Bpdu.BTcn => true | _ => false end.
Definition is_rst (b : Bpdu.bpdu) : bool := match b with Bpdu.BRst _ => true | _ => false end.

(** [pkt.get_protocols(bpdu.ConfigurationBPDUs)]: also instances of the subclass. *)
Definition config_bpdus (pkt : list Bpdu.bpdu) : list Bpdu.config :=
  omap (fun b => match b with
                 | Bpdu.BConfig c | Bpdu.BRst c => Some c
                 | Bpdu.BTcn => None
                 end) pkt.

(** [Bridge.packet_in_handler], for the input port of the message and the BPDU
    headers of its packet. *)
Definition packet_in_handler (in_port_no : option Z) (pkt : list Bpdu.bpdu) : M unit :=
  b ← self;
  match in_port_no ≫= (fun n => find_port n (ports b)) with
  | None => mret tt
  | Some in_port =>
      let n := port_no in_port in
      if has_state DISABLE in_port then mret tt
      else if existsb is_config pkt then
        match config_bpdus pkt with
        | [bpdu_pkt] =>
            if Qclt_le_dec (Bpdu.max_age bpdu_pkt) (Bpdu.message_age bpdu_pkt) then mret tt
            else
              '(rcv_info, rcv_tc) ← rcv_config_bpdu n bpdu_pkt;
              (if bool_decide (rcv_info = SUPERIOR) then recalculate_spanning_tree false
               else when rcv_tc (send EventTopologyChange));;
              p ← get_port n;
              when (has_role ROOT_PORT p) (_forward_tc_bpdu rcv_tc)
        | _ => raise ValueError
        end
      else if existsb is_tcn pkt then
        transmit_ack_bpdu n;; topology_change_notify None
      else if existsb is_rst pkt then mret tt
      else send EventPacketIn
  end.

(** ** The bridge and the application *)

Record BridgeConf := mkBridgeConf {
  bc_priority : option Z; bc_sys_ext_id : option Z;
  bc_max_age : option seconds; bc_hello_time : option seconds; bc_fwd_delay : option seconds }.

(** Bridge._DEFAULT_VALUE, a dictionary of the class. *)
Record BridgeValues := mkBridgeValues {
  v_priority : Z; v_sys_ext_id : Z; v_max_age : seconds; v_hello_time : seconds;
  v_fwd_delay : seconds }.

Definition bridge_defaults : BridgeValues :=
  mkBridgeValues DEFAULT_BRIDGE_PRIORITY 0 DEFAULT_MAX_AGE DEFAULT_HELLO_TIME
    DEFAULT_FORWARD_DELAY.

Definition merge_conf (v : BridgeValues) (c : BridgeConf) : BridgeValues :=
  mkBridgeValues (default (v_priority v) (bc_priority c))
    (default (v_sys_ext_id v) (bc_sys_ext_id c)) (default (v_max_age v) (bc_max_age c))
    (default (v_hello_time v) (bc_hello_time c)) (default (v_fwd_delay v) (bc_fwd_delay c)).

Record Conf := mkConf { c_bridge : BridgeConf; c_ports : gmap Z PortConf }.
Definition empty_conf : Conf := mkConf (mkBridgeConf None None None None None) ∅.

(** What the code reads of a datapath. *)
Record Datapath := mkDatapath { dp_id : Z; dp_version : ofproto; dp_ports : list OfPort }.

(** The fields of [Bridge.__init__] before the ports are added. *)
Definition bridge_init (v : BridgeValues) (conf : Conf) (dp : Datapath) : res Bridge :=
  op ← or_raise IndexError (head (dp_ports dp));
  bridge_id ← new_BridgeId (v_priority v) (v_sys_ext_id v) (hw_addr op);
  let times := mkTimes (sec 0) (v_max_age v) (v_hello_time v) (v_fwd_delay v) in
  Ok (mkBridge (dp_id dp) (dp_version dp) bridge_id times (mkPriority bridge_id 0 None None)
        times [] (c_ports conf)).

(** The rest of [Bridge.__init__]. *)
Definition add_ports (dp : Datapath) : M unit :=
  iterM port_add (dp_ports dp);;
  match dp_version dp with V1_0 => mret tt | V1_2 | V1_3 => send AddBpduPktInFlow end.

Record App := mkApp {
  a_config : gmap Z Conf;
  a_values : BridgeValues;
  a_now : seconds;
  a_cost : Z;
  a_trace : list output;
  bridge_list : gmap Z Bridge }.

Definition set_bridges (a : App) (l : gmap Z Bridge) : App :=
  mkApp (a_config a) (a_values a) (a_now a) (a_cost a) (a_trace a) l.

(** Run an operation of a bridge on a bridge object. *)
Definition on_bridge {A} (b : Bridge) (m : M A) : stm App (A * Bridge) := fun a =>
  match m (mkWorld (a_now a) (a_cost a) (a_trace a) b) with
  | (r, w) =>
      let a' := mkApp (a_config a) (a_values a) (a_now a) (port_cost_default w) (trace w)
                  (bridge_list a) in
      match r with
      | Ok x => (Ok (x, bridge w), a')
      | Err e => (Err e, a')
      end
  end.

(** The methods of a registered bridge change it in place, also when they raise. *)
Definition with_bridge (id : Z) (m : M unit) : stm App unit := fun a =>
  match bridge_list a !! id with
  | None => (Ok tt, a)
  | Some b =>
      match m (mkWorld (a_now a) (a_cost a) (a_trace a) b) with
      | (r, w) => (r, mkApp (a_config a) (a_values a) (a_now a) (port_cost_default w) (trace w)
                        (<[id := bridge w]> (bridge_list a)))
      end
  end.

Definition set_config (config : gmap Z Conf) : stm App unit :=
  modify (fun a => mkApp config (a_values a) (a_now a) (a_cost a) (a_trace a) (bridge_list a)).

Definition _unregister_bridge (id : Z) : stm App unit :=
  modify (fun a => set_bridges a (delete id (bridge_list a))).

Definition _register_bridge (dp : Datapath) : stm App unit :=
  _unregister_bridge (dp_id dp);;
  a ← get;
  let conf := default empty_conf (a_config a !! dp_id dp) in
  let v := merge_conf (a_values a) (c_bridge conf) in
  modify (fun a => mkApp (a_config a) v (a_now a) (a_cost a) (a_trace a) (bridge_list a));;
  try_except
    (b ← lift_res (bridge_init v conf dp);
     '(_, b) ← on_bridge b (add_ports dp);
     modify (fun a => set_bridges a (<[dp_id dp := b]> (bridge_list a))))
    OFPUnknownVersion (mret tt).

(** A datapath enters the main phase or dies. *)
Definition dispacher_change (main : bool) (dp : Datapath) : stm App unit :=
  if main then _register_bridge dp else _unregister_bridge (dp_id dp).

Definition close : stm App unit :=
  a ← get; iterM (fun '(id, _) => _unregister_bridge id) (map_to_list (bridge_list a)).

Inductive reason := OFPPR_ADD | OFPPR_DELETE | OFPPR_MODIFY.

Definition port_status_handler (id : Z) (r : reason) (port : OfPort) (port_state : Z) :
    stm App unit :=
  with_bridge id
    (match r with
     | OFPPR_ADD => port_add port
     | OFPPR_DELETE => port_delete (of_port_no port)
     | OFPPR_MODIFY =>
         if negb (Z.land port_state 1 =? 0) then link_down (of_port_no port)
         else link_up (of_port_no port)
     end).

Definition app_packet_in_handler (id : Z) (in_port_no : option Z) (pkt : list Bpdu.bpdu) :
    stm App unit := with_bridge id (packet_in_handler in_port_no pkt).

End Receive.
End Stp.
