(* ===== verification/StpFacts.v ===== *)
(** * Facts about the spanning tree library

    What the operations of Stp.v do to the table of ports, the optimality of the
    root port and the roles of the others, the invariant of a bridge under any
    sequence of events, and the claims. *)

From Stdlib Require Import ZArith QArith Qcanon Lia.
From stdpp Require Import base list gmap strings numbers.
From S2P Require Import Prelude Struct PktUtils PktHeaders Bpdu Stp.

Local Close Scope Qc_scope.
Local Close Scope Q_scope.
#[local] Open Scope Z_scope.

(** ** What the operations do

    The invariants and the role selection depend on neither the topology change
    flags nor their timer.  [core] forgets them, and the operations of a port are
    described as functions on the cores of the table. *)

Module StpFacts.
Import Stp.

Definition core (p : Port) : Port := set_tcn false (set_tc p false None).

Definition cores (w : World) : list Port := map core (ports (bridge w)).

(** [m] succeeds from [w], acts as [f] on the cores and leaves the rest of the
    bridge alone. *)
Definition acts (m : M unit) (f : list Port -> list Port) (w : World) : Prop :=
  exists w', m w = (Ok tt, w') /\ cores w' = f (cores w)
    /\ bridge w' = set_ports (bridge w) (ports (bridge w')).

Definition compat (g : Port -> Port) : Prop :=
  forall p, core (g p) = core (g (core p)) /\ port_no (g p) = port_no p.

(** Apply [g] to port [n]. *)
Definition lift (n : Z) (g : Port -> Port) : list Port -> list Port :=
  map (at_port n (fun p => core (g p))).

Lemma core_core p : core (core p) = core p.
Proof. done. Qed.

Lemma core_no p : port_no (core p) = port_no p.
Proof. done. Qed.

Lemma set_ports_set b ps ps' : set_ports (set_ports b ps) ps' = set_ports b ps'.
Proof. done. Qed.

Lemma acts_bind m1 m2 f1 f2 w :
  acts m1 f1 w -> (forall w1, m1 w = (Ok tt, w1) -> acts m2 f2 w1) ->
  acts (m1;; m2) (fun l => f2 (f1 l)) w.
Proof.
  intros (w1 & E1 & C1 & B1) H2. destruct (H2 w1 E1) as (w2 & E2 & C2 & B2).
  exists w2. unfold mbind, stm_bind. rewrite E1. split; [done|]. rewrite C2, C1.
  split; [done|]. by rewrite B2, B1.
Qed.

Lemma acts_ext m f g w : acts m f w -> f (cores w) = g (cores w) -> acts m g w.
Proof. intros (w' & ? & E & ?) Hfg. exists w'. by rewrite <- Hfg. Qed.

Lemma acts_ret w : acts (mret tt) id w.
Proof. exists w. split; [done|]. split; [done|]. by destruct w as [? ? ? []]. Qed.

Lemma acts_send o w : acts (send o) id w.
Proof. eexists; split; [reflexivity|]. split; [done|]. by destruct w as [? ? ? []]. Qed.

Lemma acts_iter_send os w : acts (iterM send os) id w.
Proof.
  revert w; induction os as [|o os IH]; intros w; cbn [iterM]; [apply acts_ret|].
  eapply (acts_bind _ _ id id); [apply acts_send|intros; apply IH].
Qed.

Lemma acts_when c m f w : (c = true -> acts m f w) -> acts (when c m) (if c then f else id) w.
Proof. intros H. destruct c; [by apply H|apply acts_ret]. Qed.

(** Operations on the table that do not touch the cores. *)
Lemma acts_map_id (g : Port -> Port) w :
  (forall p, core (g p) = core p) -> acts (map_ports (map g)) id w.
Proof.
  intros Hg. eexists; split; [reflexivity|]. split; [|done].
  unfold cores. cbn. rewrite map_map. by apply map_ext.
Qed.

Lemma acts_upd n g w : compat g -> acts (upd_port n g) (lift n g) w.
Proof.
  intros Hg. eexists; split; [reflexivity|]. split; [|done].
  unfold cores, lift, at_port. cbn. rewrite !map_map. apply map_ext. intros p.
  rewrite core_no. case_match; [apply Hg|done].
Qed.

Lemma lift_compose n g1 g2 l : compat g1 -> compat g2 ->
  lift n g2 (lift n g1 l) = lift n (fun p => g2 (g1 p)) l.
Proof.
  intros H1 H2. unfold lift. rewrite map_map. apply map_ext. intros p. unfold at_port.
  destruct (port_no p =? n) eqn:E.
  - rewrite core_no, (proj2 (H1 p)), E. by rewrite <- (proj1 (H2 _)).
  - by rewrite E.
Qed.

Lemma compat_compose g1 g2 : compat g1 -> compat g2 -> compat (fun p => g2 (g1 p)).
Proof.
  intros H1 H2 p. rewrite (proj2 (H2 _)), (proj2 (H1 _)). split; [|done].
  rewrite (proj1 (H2 (g1 p))), (proj1 (H1 p)). by rewrite <- (proj1 (H2 _)).
Qed.

(** ** Lookups *)

Lemma find_port_no n ps p : find_port n ps = Some p -> port_no p = n /\ p ∈ ps.
Proof.
  intros H. apply List.find_some in H as [Hin Hn]. split; [lia|by apply list_elem_of_In].
Qed.

Lemma find_port_is_Some n ps : n ∈ map port_no ps -> exists p, find_port n ps = Some p.
Proof.
  induction ps as [|q ps IH]; cbn [map]; [by intros ?%elem_of_nil|].
  intros H. unfold find_port. cbn [List.find]. destruct (Z.eqb_spec (port_no q) n); [eauto|].
  apply elem_of_cons in H as [?|H]; [lia|by apply IH].
Qed.

Lemma numbers_cores w : map port_no (ports (bridge w)) = map port_no (cores w).
Proof. unfold cores. by rewrite map_map. Qed.

(** The table has port [n], and its numbers are distinct. *)
Definition ready (n : Z) (w : World) : Prop :=
  NoDup (map port_no (cores w)) /\ n ∈ map port_no (cores w).

Lemma ready_find n w : ready n w -> exists p, find_port n (ports (bridge w)) = Some p.
Proof. intros [_ H]. rewrite <- numbers_cores in H. by apply find_port_is_Some. Qed.

Lemma get_port_some n w p : find_port n (ports (bridge w)) = Some p -> get_port n w = (Ok p, w).
Proof. intros H. unfold get_port, self. stm_unfold. by rewrite H. Qed.

Lemma get_port_none n w : find_port n (ports (bridge w)) = None -> get_port n w = (Err KeyError, w).
Proof. intros H. unfold get_port, self. stm_unfold. by rewrite H. Qed.

Lemma bind_get {A} n w p (k : Port -> M A) :
  find_port n (ports (bridge w)) = Some p -> (p ← get_port n; k p) w = k p w.
Proof. intros H. by rewrite (stm_bind_ok _ _ _ _ _ (get_port_some _ _ _ H)). Qed.

Lemma bind_self {A} w (k : Bridge -> M A) : (b ← self; k b) w = k (bridge w) w.
Proof. done. Qed.

(** Rewriting the computation under [acts]. *)
Lemma acts_eq m m' f w : m w = m' w -> acts m' f w -> acts m f w.
Proof. intros E (w' & H & R). exists w'. by rewrite E. Qed.

Lemma map_no_lift n g l : compat g -> map port_no (lift n g l) = map port_no l.
Proof.
  intros Hg. unfold lift. rewrite map_map. apply map_ext. intros p. unfold at_port.
  case_match; [|done]. rewrite core_no. apply Hg.
Qed.

Lemma ready_after n m g k w w1 :
  acts m (lift k g) w -> compat g -> m w = (Ok tt, w1) -> ready n w -> ready n w1.
Proof.
  intros (w' & E & Ec & _) Hg E1. rewrite E in E1. injection E1 as <-.
  unfold ready. rewrite Ec, map_no_lift; done.
Qed.

Lemma ready_id n m w w1 : acts m id w -> m w = (Ok tt, w1) -> ready n w -> ready n w1.
Proof.
  intros (w' & E & Ec & _) E1. rewrite E in E1. injection E1 as <-. unfold ready. by rewrite Ec.
Qed.

Lemma same_number ps p q :
  NoDup (map port_no ps) -> p ∈ ps -> q ∈ ps -> port_no p = port_no q -> p = q.
Proof.
  intros Hn Hp Hq E. apply list_elem_of_lookup in Hp as [i Hi], Hq as [j Hj].
  assert (i = j); [|congruence]. eapply (NoDup_lookup _ i j (port_no p) Hn).
  - change (map port_no ps) with (port_no <$> ps).
    by rewrite list_lookup_fmap, Hi.
  - change (map port_no ps) with (port_no <$> ps). by rewrite list_lookup_fmap, Hj, E.
Qed.

(** Only the port found under [n] matters. *)
Lemma lift_local n w p g g' :
  ready n w -> find_port n (ports (bridge w)) = Some p -> core (g p) = core (g' p) ->
  compat g -> compat g' -> lift n g (cores w) = lift n g' (cores w).
Proof.
  intros [Hn _] Hp Hg Cg Cg'. unfold lift, cores. rewrite !map_map. apply map_ext_in.
  intros q Hq%list_elem_of_In. unfold at_port. rewrite core_no.
  destruct (Z.eqb_spec (port_no q) n) as [E|]; [|done].
  rewrite <- numbers_cores in Hn. apply find_port_no in Hp as [En Hp].
  assert (q = p) as -> by (eapply same_number; [exact Hn|done|done|congruence]).
  by rewrite <- (proj1 (Cg p)), <- (proj1 (Cg' p)).
Qed.

Lemma lift_id n l : Forall (fun p => core p = p) l -> lift n id l = l.
Proof.
  intros H. induction H as [|p l Hp _ IH]; [done|]. unfold lift in *. cbn [map]. rewrite IH.
  f_equal. unfold at_port. by case_match.
Qed.

Lemma cores_core w : Forall (fun p => core p = p) (cores w).
Proof. unfold cores. apply Forall_map. by apply Forall_true. Qed.

(** ** The operations of a port *)

Definition chg_role (r : port_role) (p : Port) : Port := if has_role r p then p else set_role r p.

Lemma compat_chg_role r : compat (chg_role r).
Proof.
  intros p. unfold chg_role. change (has_role r (core p)) with (has_role r p).
  by case_match.
Qed.

Lemma compat_set_status s : compat (set_status s).
Proof. intros p. split; [|done]. unfold set_status, core. cbn. done. Qed.

Lemma compat_root_info rp rt : compat (set_root_info rp rt).
Proof. done. Qed.

Lemma compat_designated d : compat (set_designated d).
Proof. done. Qed.

Lemma compat_id : compat id.
Proof. done. Qed.

Lemma compat_chg_root r rp rt : compat (fun p => chg_role r (set_root_info rp rt p)).
Proof. apply (compat_compose _ _ (compat_root_info rp rt) (compat_chg_role r)). Qed.

Create HintDb stp discriminated.
#[local] Hint Resolve compat_chg_role compat_set_status compat_root_info compat_designated
  compat_id compat_chg_root : stp.

Lemma acts_notify s w : acts (topology_change_notify s) id w.
Proof.
  unfold topology_change_notify. eapply acts_eq; [apply bind_self|]. cbv zeta.
  set (notice := if decide _ then _ else _). destruct notice; cbn [when]; [|apply acts_ret].
  eapply (acts_bind _ _ id id); [apply acts_send|]. intros w1 E1. case_match.
  - unfold _transmit_tc_bpdu. eapply acts_eq; [reflexivity|].
    apply (acts_map_id (transmit_tc_bpdu _)). intros p. unfold transmit_tc_bpdu. by case_match.
  - unfold _transmit_tcn_bpdu. eapply acts_eq; [apply bind_self|]. case_match; [|apply acts_ret].
    apply acts_map_id. intros q. unfold at_port. by case_match.
Qed.

Lemma acts_change_role n r w : ready n w -> acts (_change_role n r) (lift n (chg_role r)) w.
Proof.
  intros Hr. destruct (ready_find _ _ Hr) as [p Hp]. unfold _change_role.
  eapply acts_eq; [by apply bind_get|]. destruct (has_role r p) eqn:E.
  - eapply acts_ext; [apply acts_ret|]. unfold id.
    rewrite <- (lift_id n (cores w)) at 1 by apply cores_core.
    eapply lift_local; [done|done| |apply compat_id|apply compat_chg_role].
    unfold chg_role. by rewrite E.
  - eapply acts_ext; [by apply acts_upd|].
    eapply lift_local; [done|done| |done|apply compat_chg_role].
    unfold chg_role. by rewrite E.
Qed.

Lemma acts_change_status n s w :
  ready n w -> acts (_change_status n s) (lift n (set_status s)) w.
Proof.
  intros Hr. destruct (ready_find _ _ Hr) as [p Hp]. unfold _change_status.
  eapply acts_eq; [etransitivity; [apply bind_self|by apply bind_get]|].
  eapply (acts_bind _ _ id (lift n (set_status s))).
  - destruct (negb _); cbn [when]; [apply acts_iter_send|apply acts_ret].
  - intros w1 _. eapply (acts_bind _ _ id (lift n (set_status s))).
    + destruct (notifies _ _); cbn [when]; [apply acts_notify|apply acts_ret].
    + intros w2 _. eapply (acts_bind _ _ (lift n (set_status s)) id).
      * apply acts_upd, compat_set_status.
      * intros w3 _. apply acts_send.
Qed.

Definition up_fun (r : port_role) (rp : Priority) (rt : Times) (p : Port) : Port :=
  set_status (if config_enable p then LISTEN else DISABLE) (chg_role r (set_root_info rp rt p)).

Lemma compat_up r rp rt : compat (up_fun r rp rt).
Proof.
  intros p. unfold up_fun.
  apply (compat_compose (fun p => chg_role r (set_root_info rp rt p))
           (set_status (if config_enable p then LISTEN else DISABLE))).
  - apply (compat_compose _ _ (compat_root_info rp rt) (compat_chg_role r)).
  - apply compat_set_status.
Qed.

Lemma find_at_port n g ps :
  (forall p, port_no (g p) = port_no p) ->
  find_port n (map (at_port n g) ps) = g <$> find_port n ps.
Proof.
  intros Hg. unfold find_port. induction ps as [|a ps IH]; [done|]. cbn [List.find map].
  assert (E : at_port n g a = if port_no a =? n then g a else a) by done. rewrite E.
  destruct (port_no a =? n) eqn:En; rewrite ?Hg, En; done.
Qed.

Lemma acts_up n r rp rt w : ready n w -> acts (up n r rp rt) (lift n (up_fun r rp rt)) w.
Proof.
  intros Hr. destruct (ready_find _ _ Hr) as [p Hp].
  assert (Hq : find_port n (map (at_port n (set_root_info rp rt)) (ports (bridge w)))
               = Some (set_root_info rp rt p)) by (by rewrite find_at_port, Hp).
  assert (A1 := acts_upd n (set_root_info rp rt) w (compat_root_info rp rt)).
  eapply acts_ext.
  - unfold up. eapply acts_bind; [exact A1|]. intros w1 E1.
    pose proof (ready_after n _ _ _ _ _ A1 (compat_root_info _ _) E1 Hr) as Hr1.
    injection E1 as <-. eapply acts_eq; [by apply bind_get|].
    eapply acts_bind; [by apply acts_change_role|]. intros w2 E2.
    apply acts_change_status.
    by apply (ready_after n _ _ _ _ _ (acts_change_role n r _ Hr1) (compat_chg_role r) E2).
  - cbv beta. rewrite (lift_compose n (set_root_info rp rt) (chg_role r)) by auto with stp.
    rewrite (lift_compose n (fun p => chg_role r (set_root_info rp rt p))) by auto with stp.
    eapply lift_local; [done|done|done| |apply compat_up].
    apply (compat_compose (fun p => chg_role r (set_root_info rp rt p))); auto with stp.
Qed.

Definition down_fun (st : port_state) (init : bool) (p : Port) : Port :=
  if config_enable p
  then set_status st (chg_role DESIGNATED_PORT (if init then set_designated None p else p))
  else p.

Lemma compat_down st init : compat (down_fun st init).
Proof.
  intros p. unfold down_fun. change (config_enable (core p)) with (config_enable p).
  destruct (config_enable p); [|done]. destruct init.
  - apply (compat_compose (fun p => chg_role DESIGNATED_PORT (set_designated None p))
             (set_status st)); [|auto with stp].
    apply (compat_compose (set_designated None) (chg_role DESIGNATED_PORT)); auto with stp.
  - apply (compat_compose (chg_role DESIGNATED_PORT) (set_status st)); auto with stp.
Qed.

Lemma acts_down n st init w :
  ready n w -> st = DISABLE \/ st = BLOCK ->
  acts (down n st init) (lift n (down_fun st init)) w.
Proof.
  intros Hr Hst. destruct (ready_find _ _ Hr) as [p Hp]. unfold down.
  rewrite bool_decide_eq_true_2 by done. eapply acts_eq; [apply (bind_get n w p); done|].
  destruct (config_enable p) eqn:Ee; cbn [negb].
  - set (g := if init then set_designated None else id).
    assert (Hg : compat g) by (by destruct init).
    assert (A1 : acts (when init (upd_port n (set_designated None))) (lift n g) w).
    { destruct init; cbn [when]; [by apply acts_upd|].
      eapply acts_ext; [apply acts_ret|]. symmetry. apply lift_id, cores_core. }
    eapply acts_ext.
    + eapply acts_bind; [exact A1|]. intros w1 E1.
      pose proof (ready_after n _ _ _ _ _ A1 Hg E1 Hr) as Hr1.
      eapply acts_bind; [by apply acts_change_role|]. intros w2 E2. apply acts_change_status.
      by apply (ready_after n _ _ _ _ _ (acts_change_role n _ _ Hr1) (compat_chg_role _) E2).
    + cbv beta. rewrite (lift_compose n g) by auto with stp.
      assert (Hg' : compat (fun p => chg_role DESIGNATED_PORT (g p)))
        by (apply (compat_compose g); auto with stp).
      rewrite (lift_compose n (fun p => chg_role DESIGNATED_PORT (g p))) by auto with stp.
      eapply lift_local; [done|done| | |apply compat_down].
      * unfold down_fun, g. rewrite Ee. by destruct init.
      * apply (compat_compose (fun p => chg_role DESIGNATED_PORT (g p))); auto with stp.
  - eapply acts_ext; [apply acts_ret|]. unfold id.
    rewrite <- (lift_id n (cores w)) at 1 by apply cores_core.
    eapply lift_local; [done|done| |done|apply compat_down]. unfold down_fun. by rewrite Ee.
Qed.

(** ** Loops over the table *)

Definition assoc {A} (l : list (Z * A)) (n : Z) : option A :=
  snd <$> List.find (fun e => e.1 =? n) l.

Lemma assoc_none {A} (l : list (Z * A)) n : n ∉ l.*1 -> assoc l n = None.
Proof.
  intros H. unfold assoc. destruct (List.find _ l) as [e|] eqn:E; [|done].
  apply List.find_some in E as [Hin He]. destruct H.
  apply list_elem_of_fmap. exists e. split; [lia|by apply list_elem_of_In].
Qed.

(** What a loop over port numbers with arguments does to one port. *)
Definition loop_fun {A} (g : A -> Port -> Port) (l : list (Z * A)) (p : Port) : Port :=
  match assoc l (port_no p) with
  | Some a => if enabled p then core (g a p) else p
  | None => p
  end.

Lemma acts_guarded n m g w :
  ready n w -> compat g -> acts m (lift n g) w ->
  acts (p ← get_port n; when (enabled p) m)
    (lift n (fun p => if enabled p then g p else p)) w.
Proof.
  intros Hr Hg Hm. destruct (ready_find _ _ Hr) as [p Hp].
  assert (Hc : compat (fun p => if enabled p then g p else p)).
  { intros q. change (enabled (core q)) with (enabled q). case_match; [apply Hg|done]. }
  eapply acts_eq; [apply (bind_get n w p); done|]. destruct (enabled p) eqn:E; cbn [when].
  - eapply acts_ext; [exact Hm|]. eapply lift_local; [done|done| |done|done]. by rewrite E.
  - eapply acts_ext; [apply acts_ret|]. unfold id.
    rewrite <- (lift_id n (cores w)) at 1 by apply cores_core.
    eapply lift_local; [done|done| |done|done]. by rewrite E.
Qed.

Lemma acts_loop {A} (op : Z -> A -> M unit) (g : A -> Port -> Port) l w :
  (forall n a w, ready n w -> acts (op n a) (lift n (g a)) w) -> (forall a, compat (g a)) ->
  NoDup (map port_no (cores w)) -> NoDup l.*1 ->
  Forall (fun e => e.1 ∈ map port_no (cores w)) l ->
  acts (iterM (fun '(n, a) => p ← get_port n; when (enabled p) (op n a)) l)
    (map (loop_fun g l)) w.
Proof.
  intros Hop Hg. revert w; induction l as [|[n a] l IH]; intros w Hn Hl Hin.
  - cbn [iterM]. eapply acts_ext; [apply acts_ret|]. symmetry. apply map_id.
  - inversion Hin as [|? ? Hin1 Hin2]; subst. inversion Hl as [|? ? Hni Hl2]; subst.
    assert (Hr : ready n w) by done.
    set (g1 := fun p => if enabled p then g a p else p).
    assert (Hc : compat g1).
    { intros q. unfold g1. change (enabled (core q)) with (enabled q).
      case_match; [apply Hg|done]. }
    assert (A1 := acts_guarded n (op n a) (g a) w Hr (Hg a) (Hop _ _ _ Hr)).
    fold g1 in A1. cbn [iterM]. eapply acts_ext.
    + eapply acts_bind; [exact A1|]. intros w1 E1.
      destruct A1 as (w' & E & Ec & _). rewrite E in E1. injection E1 as <-.
      apply IH; rewrite ?Ec, ?map_no_lift by done; done.
    + cbv beta. unfold lift. rewrite map_map. apply map_ext_in. intros p Hp.
      assert (Cp : core p = p).
      { unfold cores in Hp. apply in_map_iff in Hp as (q & <- & _). done. }
      unfold at_port. unfold loop_fun at 2, assoc. cbn [List.find fst].
      rewrite (Z.eqb_sym n). destruct (Z.eqb_spec (port_no p) n) as [<-|Hne].
      * unfold loop_fun. rewrite core_no, (proj2 (Hc p)), (assoc_none _ _ Hni). cbn.
        unfold g1. by case_match.
      * done.
Qed.

(** ** The order of priorities *)

Definition own_priority (b : Bridge) : Priority := mkPriority (bridge_id b) 0 None None.

Definition root_of (m : Priority) : Z := bid_value (root_id m).
Definition bridge_of (m : Priority) : Z := from_option bid_value 0 (designated_bridge_id m).
Definition port_of (m : Priority) : Z := from_option pid_value 0 (designated_port_id m).

(** Lexicographic: cost of the path, designated bridge, designated port. *)
Definition lex3 (c1 c2 b1 b2 p1 p2 : Z) : Prop :=
  c1 < c2 \/ (c1 = c2 /\ (b1 < b2 \/ (b1 = b2 /\ p1 < p2))).

(** The priority vector of 802.1D: the root comes first. *)
Definition better (m1 m2 : Priority) : Prop :=
  root_of m1 < root_of m2
  \/ (root_of m1 = root_of m2
      /\ lex3 (root_path_cost m1) (root_path_cost m2) (bridge_of m1) (bridge_of m2)
           (port_of m1) (port_of m2)).

Lemma cmp_value_spec x y :
  (_cmp_value x y = SUPERIOR <-> x < y) /\ (_cmp_value x y = REPEATED <-> x = y)
  /\ (_cmp_value x y = INFERIOR <-> y < x).
Proof.
  unfold _cmp_value. destruct (Z.compare_spec x y);
    (split; [split; (done || lia)|split; split; (done || lia)]).
Qed.

Lemma compare_root_path_spec c1 c2 b1 b2 p1 p2 :
  (compare_root_path c1 c2 b1 b2 p1 p2 = SUPERIOR <-> lex3 c1 c2 b1 b2 p1 p2)
  /\ (compare_root_path c1 c2 b1 b2 p1 p2 = REPEATED <-> c1 = c2 /\ b1 = b2 /\ p1 = p2)
  /\ (compare_root_path c1 c2 b1 b2 p1 p2 = INFERIOR <-> lex3 c2 c1 b2 b1 p2 p1).
Proof.
  unfold compare_root_path, lex3, _cmp_value.
  destruct (Z.compare_spec c1 c2); [|(split; [split; (done || lia)|split; split; (done || lia)])..].
  destruct (Z.compare_spec b1 b2); [|(split; [split; (done || lia)|split; split; (done || lia)])..].
  destruct (Z.compare_spec p1 p2); (split; [split; (done || lia)|split; split; (done || lia)]).
Qed.

Definition info_ok (d : option (Priority * Times)) : Prop :=
  match d with
  | Some (m, _) => is_Some (designated_bridge_id m) /\ is_Some (designated_port_id m)
  | None => True
  end.

(** ** The root port *)

(** A port that has heard of a root better than this bridge. *)
Definition candidate (b : Bridge) (p : Port) (m : Priority) : Prop :=
  enabled p = true /\ (exists t, designated p = Some (m, t))
  /\ root_of m < bid_value (bridge_id b).

Definition elected (b : Bridge) (ps : list Port) (root : option (Port * Priority)) : Prop :=
  match root with
  | None => forall p m, p ∈ ps -> ~ candidate b p m
  | Some (r, m) => r ∈ ps /\ candidate b r m
                   /\ forall q mq, q ∈ ps -> candidate b q mq -> ~ better mq m
  end.

Lemma candidate_unique b p m m' : candidate b p m -> candidate b p m' -> m = m'.
Proof. intros (_ & [t E] & _) (_ & [t' E'] & _). congruence. Qed.

Lemma elected_skip b ps p root :
  elected b ps root -> (forall m, ~ candidate b p m) -> elected b (ps ++ [p]) root.
Proof.
  intros H Hp. destruct root as [[r m]|]; cbn [elected] in *.
  - destruct H as (Hr & Hc & Hb). split; [set_solver|]. split; [done|].
    intros q mq [Hq|Hq]%elem_of_app Hcq; [by eapply Hb|].
    apply list_elem_of_singleton in Hq as ->. by apply Hp in Hcq.
  - intros q m [Hq|Hq]%elem_of_app Hcq; [by eapply H|].
    apply list_elem_of_singleton in Hq as ->. by apply Hp in Hcq.
Qed.

(** The comparison in the loop of [_select_root_port] decides the order. *)
Definition takes (b : Bridge) (root : option (Port * Priority)) (p : Port) (m : Priority) : Prop :=
  candidate b p m /\ match root with None => True | Some (_, rm) => better m rm end.

(** A comparison that decides the order decides who is taken. *)
Lemma rank_outcome b p r m rm t :
  enabled p = true -> designated p = Some (m, t) -> root_of rm < bid_value (bridge_id b) ->
  forall res', (res' = SUPERIOR <-> better m rm) ->
  exists root' : option (Port * Priority),
    Ok (if decide (res' = SUPERIOR) then Some p else Some r) = Ok (fst <$> root')
    /\ ((exists m0, root' = Some (p, m0) /\ takes b (Some (r, rm)) p m0)
        \/ (root' = Some (r, rm) /\ forall m0, ~ takes b (Some (r, rm)) p m0)).
Proof.
  intros Een Ed Hrv res' Hres. destruct (decide (res' = SUPERIOR)) as [E|E].
  - exists (Some (p, m)). split; [done|]. left. exists m. split; [done|].
    apply Hres in E. split; [|done]. split; [done|]. split; [eauto|].
    destruct E as [|[]]; unfold root_of in *; lia.
  - exists (Some (r, rm)). split; [done|]. right. split; [done|].
    intros m0 ((_ & [t' E'] & _) & Hb). apply E, Hres. by replace m with m0 by congruence.
Qed.

Lemma prefer_takes b ps root p :
  root_priority b = own_priority b -> elected b ps root ->
  Forall (fun p => info_ok (designated p)) (p :: ps) ->
  exists root', prefer b (fst <$> root) p = Ok (fst <$> root')
    /\ ((exists m, root' = Some (p, m) /\ takes b root p m)
        \/ (root' = root /\ forall m, ~ takes b root p m)).
Proof.
  intros Hown Hel Hok. apply Forall_cons_1 in Hok as [Hp Hps].
  unfold prefer. destruct (designated p) as [[m t]|] eqn:Ed.
  2:{ exists root. split; [done|]. right. split; [done|].
      intros m ((_ & [t Ht] & _) & _). congruence. }
  destruct (enabled p) eqn:Een; cbn [negb].
  2:{ exists root. split; [done|]. right. split; [done|]. intros m' ((He & _) & _). congruence. }
  cbn [info_ok] in Hp. destruct Hp as [[pb Epb] [pp Epp]].
  assert (Hcand : forall m', takes b root p m' -> m' = m)
    by (intros m' ((_ & [t' E] & _) & _); congruence).
  destruct root as [[r rm]|]; cbn [fmap option_fmap option_map fst].
  - destruct Hel as (Hr & (Hre & [tr Er] & Hrv) & _). rewrite Er. cbn [from_option fst].
    assert (Hrok : info_ok (designated r)) by (rewrite list.Forall_forall in Hps; by apply Hps).
    rewrite Er in Hrok. destruct Hrok as [[rb Erb] [rp Erp]].
    pose proof (rank_outcome b p r m rm t Een Ed Hrv) as Hrank.
    destruct (Z.ltb_spec (bid_value (root_id m)) (bid_value (root_id rm))).
    { cbn [mbind res_bind]. apply (Hrank SUPERIOR). unfold better, root_of. split; [lia|done]. }
    destruct (Z.eqb_spec (bid_value (root_id m)) (bid_value (root_id rm))) as [E|].
    + unfold attr_value, attr_pvalue. rewrite Epb, Epp, Erb, Erp. cbn [attr or_raise mbind res_bind].
      apply Hrank. unfold better, root_of, bridge_of, port_of. rewrite Epb, Epp, Erb, Erp, E.
      cbn [from_option]. rewrite (proj1 (compare_root_path_spec _ _ _ _ _ _)).
      split; [by right|]. intros [?|[_ ?]]; [lia|done].
    + cbn [mbind res_bind]. apply (Hrank INFERIOR). unfold better, root_of. split; [done|lia].
  - rewrite Hown. cbn [root_id own_priority designated_bridge_id].
    destruct (Z.ltb_spec (bid_value (root_id m)) (bid_value (bridge_id b))) as [Hlt|Hge];
      cbn [mbind res_bind].
    + exists (Some (p, m)). split; [by rewrite decide_True|]. left. exists m. split; [done|].
      split; [|done]. split; [done|]. split; [eauto|done].
    + exists None. split; [case_match; cbn; by rewrite decide_False|]. right. split; [done|].
      intros m' H'. pose proof (Hcand _ H') as ->. destruct H' as ((_ & _ & H') & _).
      unfold root_of in *. lia.
Qed.

Lemma better_trans m1 m2 m3 : better m1 m2 -> better m2 m3 -> better m1 m3.
Proof. unfold better, lex3. lia. Qed.
Lemma better_irrefl m : ~ better m m.
Proof. unfold better, lex3. lia. Qed.

Lemma prefer_elected b ps root p :
  root_priority b = own_priority b -> elected b ps root ->
  Forall (fun p => info_ok (designated p)) (p :: ps) ->
  exists root', prefer b (fst <$> root) p = Ok (fst <$> root') /\ elected b (ps ++ [p]) root'.
Proof.
  intros Hown Hel Hok. destruct (prefer_takes b ps root p Hown Hel Hok) as (root' & E & H).
  exists root'. split; [done|]. destruct H as [(m & -> & Hc & Hb)|[-> Hn]].
  - cbn [elected]. split; [set_solver|]. split; [done|].
    intros q mq [Hq|Hq]%elem_of_app Hcq.
    + destruct root as [[r rm]|]; cbn [elected] in Hel.
      * destruct Hel as (_ & _ & Hel). intros Hbq. apply (Hel q mq Hq Hcq).
        by eapply better_trans.
      * by apply Hel in Hcq.
    + apply list_elem_of_singleton in Hq as ->. rewrite (candidate_unique _ _ _ _ Hcq Hc).
      apply better_irrefl.
  - destruct root as [[r rm]|]; cbn [elected] in *.
    + destruct Hel as (Hr & Hc & Hb). split; [set_solver|]. split; [done|].
      intros q mq [Hq|Hq]%elem_of_app Hcq; [by eapply Hb|].
      apply list_elem_of_singleton in Hq as ->. intros Hbq. by apply (Hn mq).
    + intros q m [Hq|Hq]%elem_of_app Hcq; [by eapply Hel|].
      apply list_elem_of_singleton in Hq as ->. by apply (Hn m).
Qed.

Lemma select_root_port_elected b :
  root_priority b = own_priority b -> Forall (fun p => info_ok (designated p)) (ports b) ->
  exists root, _select_root_port b = Ok (fst <$> root) /\ elected b (ports b) root.
Proof.
  intros Hown. unfold _select_root_port.
  assert (G : forall qs ps root, Forall (fun p => info_ok (designated p)) (ps ++ qs) ->
    elected b ps root ->
    exists root', foldM (prefer b) (fst <$> root) qs = Ok (fst <$> root')
      /\ elected b (ps ++ qs) root').
  { induction qs as [|q qs IH]; intros ps root Hok Hel; cbn [foldM].
    - exists root. by rewrite app_nil_r.
    - destruct (prefer_elected b ps root q Hown Hel) as (root' & E & Hel').
      { apply Forall_app in Hok as [H1 H2]. apply Forall_cons_1 in H2 as [H2 _]. by constructor. }
      rewrite E. cbn [mbind res_bind]. replace (ps ++ q :: qs) with ((ps ++ [q]) ++ qs) in *
        by (by rewrite <- app_assoc). by apply IH. }
  intros Hok. apply (G (ports b) [] None); [done|]. intros p m Hp. by apply elem_of_nil in Hp.
Qed.

(** ** The other roles *)

(** The bridge offers the link of [p] a better path to the root than the sender of
    the BPDU the port holds: it holds none, or one for another root, or a worse one. *)
Definition offers (b : Bridge) (m : Priority) (p : Port) : bool :=
  match designated p with
  | None => true
  | Some (pm, _) =>
      negb (root_of pm =? root_of m)
      || bool_decide (compare_root_path (root_path_cost m) (root_path_cost pm - path_cost p)
           (bid_value (bridge_id b)) (bridge_of pm) (pid_value (port_id p)) (port_of pm)
         = SUPERIOR)
  end.

Definition role_of (b : Bridge) (root : option (Port * Priority)) (p : Port) : port_role :=
  match root with
  | None => DESIGNATED_PORT
  | Some (r, m) =>
      if port_no p =? port_no r then ROOT_PORT
      else if offers b m p then DESIGNATED_PORT else NON_DESIGNATED_PORT
  end.

Lemma designates_spec b r m p :
  info_ok (designated p) ->
  designates b r p m = Ok (enabled p && negb (port_no p =? port_no r) && offers b m p).
Proof.
  intros Hp. unfold designates, offers. destruct (enabled p); cbn [negb orb andb]; [|done].
  destruct (port_no p =? port_no r); cbn [negb andb]; [done|].
  destruct (designated p) as [[pm t]|]; [|done]. unfold root_of, bridge_of, port_of.
  destruct (_ =? _); cbn [negb orb]; [|done]. destruct Hp as [[? ->] [? ->]]. done.
Qed.

Lemma designated_ports_spec b r m ps :
  Forall (fun p => info_ok (designated p)) ps ->
  designated_ports b r m ps
  = Ok (port_no <$> filter (fun p => enabled p && negb (port_no p =? port_no r)
                                     && offers b m p = true) ps).
Proof.
  induction 1 as [|p ps Hp _ IH]; [done|]. cbn [designated_ports].
  rewrite designates_spec, IH by done. cbn [mbind res_bind]. rewrite filter_cons.
  by destruct (_ && offers b m p).
Qed.

(** ** Dictionaries of roles *)

Lemma assoc_cons {A} n (a : A) l k :
  assoc ((n, a) :: l) k = if n =? k then Some a else assoc l k.
Proof. unfold assoc. cbn. by destruct (n =? k). Qed.

Lemma assoc_app {A} (l1 l2 : list (Z * A)) k :
  assoc (l1 ++ l2) k = match assoc l1 k with Some a => Some a | None => assoc l2 k end.
Proof.
  induction l1 as [|[n a] l1 IH]; [done|]. cbn [app]. rewrite !assoc_cons, IH. by destruct (n =? k).
Qed.

Lemma assoc_some {A} (l : list (Z * A)) k : k ∈ l.*1 <-> is_Some (assoc l k).
Proof.
  induction l as [|[n a] l IH]; [split; [by intros ?%elem_of_nil|intros [? H]; discriminate H]|].
  rewrite assoc_cons, fmap_cons, elem_of_cons, IH. cbn [fst].
  destruct (Z.eqb_spec n k); [|split; [intros [?|?]; [lia|done]|by intros; right]].
  split; [by intros; eexists|by intros; left].
Qed.

Lemma setdefault_spec roles n r k :
  assoc (setdefault roles n r) k
  = match assoc roles k with
    | Some x => Some x
    | None => if k =? n then Some r else None
    end.
Proof.
  unfold setdefault. assert (E : existsb (fun e => e.1 =? n) roles = bool_decide (is_Some (assoc roles n))).
  { unfold assoc. induction roles as [|[m a] l IH]; [done|]. cbn [existsb List.find fst].
    destruct (m =? n); [done|]. rewrite IH. done. }
  rewrite E. case_bool_decide as Hs.
  - destruct (assoc roles k) eqn:Ek; [done|]. destruct (Z.eqb_spec k n); [|done]. subst.
    rewrite Ek in Hs. by destruct Hs.
  - rewrite assoc_app, assoc_cons. cbn. by rewrite (Z.eqb_sym n).
Qed.

Lemma setdefault_NoDup roles n r : NoDup roles.*1 -> NoDup (setdefault roles n r).*1.
Proof.
  intros H. unfold setdefault. destruct (existsb _ roles) eqn:E; [done|].
  rewrite fmap_app. apply list.NoDup_app. split; [done|]. split; [|apply NoDup_singleton].
  intros k Hk Hn. apply list_elem_of_singleton in Hn as ->. cbn [fst] in Hk.
  apply list_elem_of_fmap in Hk as (e & He & Hin). apply not_true_iff_false in E. apply E.
  apply existsb_exists. exists e. split; [by apply list_elem_of_In|]. lia.
Qed.

Definition fill (roles : list (Z * port_role)) (p : Port) : list (Z * port_role) :=
  if enabled p then setdefault roles (port_no p) NON_DESIGNATED_PORT else roles.

Lemma fill_spec ps roles k :
  assoc (foldl fill roles ps) k
  = match assoc roles k with
    | Some x => Some x
    | None => if existsb (fun p => enabled p && (port_no p =? k)) ps
              then Some NON_DESIGNATED_PORT else None
    end.
Proof.
  revert roles; induction ps as [|p ps IH]; intros roles; cbn [foldl existsb].
  - by destruct (assoc roles k).
  - rewrite IH. unfold fill. destruct (enabled p); cbn [andb orb]; [|done].
    rewrite setdefault_spec. destruct (assoc roles k); [done|]. rewrite (Z.eqb_sym k).
    by destruct (port_no p =? k).
Qed.

Lemma fill_NoDup ps roles : NoDup roles.*1 -> NoDup (foldl fill roles ps).*1.
Proof.
  revert roles; induction ps as [|p ps IH]; intros roles H; cbn [foldl]; [done|].
  apply IH. unfold fill. case_match; [by apply setdefault_NoDup|done].
Qed.

(** Looking a number up in the entries of a filtered table. *)
Lemma assoc_filter (f : Port -> bool) (r : port_role) ps p :
  NoDup (map port_no ps) -> p ∈ ps ->
  assoc ((fun n => (n, r)) <$> (port_no <$> filter (fun q => f q = true) ps)) (port_no p)
  = if f p then Some r else None.
Proof.
  intros Hn Hp. induction ps as [|q ps IH]; [by apply elem_of_nil in Hp|].
  inversion Hn as [|? ? Hq Hn']; subst. rewrite filter_cons.
  apply elem_of_cons in Hp as [->|Hp].
  - destruct (decide (f q = true)) as [E|E].
    + rewrite !fmap_cons, assoc_cons, Z.eqb_refl, E. done.
    + rewrite assoc_none; [by destruct (f q)|]. intros Hin. destruct Hq.
      rewrite <- list_fmap_compose in Hin. apply list_elem_of_fmap in Hin as (n & En & Hin).
      cbn in En. subst n. apply list_elem_of_fmap in Hin as (x & Ex & Hin).
      apply list_elem_of_filter in Hin as [_ Hin]. rewrite Ex.
      apply list_elem_of_In, in_map. by apply list_elem_of_In.
  - assert (port_no q <> port_no p).
    { intros E. destruct Hq. rewrite E. apply list_elem_of_In, in_map. by apply list_elem_of_In. }
    destruct (decide (f q = true)); [|by apply IH].
    rewrite !fmap_cons, assoc_cons. rewrite (proj2 (Z.eqb_neq _ _)) by done. by apply IH.
Qed.

Definition chosen (b : Bridge) (root : option (Port * Priority)) (rp : Priority) (rt : Times) :=
  match root with
  | None => rp = root_priority b /\ rt = root_times b
  | Some (r, m) => rp = m /\ designated r = Some (m, rt)
  end.

Definition roles_spec (b : Bridge) (root : option (Port * Priority))
    (roles : list (Z * port_role)) : Prop :=
  NoDup roles.*1 /\ Forall (fun e => e.1 ∈ map port_no (ports b)) roles
  /\ forall p, p ∈ ports b ->
       assoc roles (port_no p) = if enabled p then Some (role_of b root p) else None.

Lemma number_in p ps : p ∈ ps -> port_no p ∈ map port_no ps.
Proof. intros. apply list_elem_of_In, in_map. by apply list_elem_of_In. Qed.

Lemma filtered_numbers (f : Port -> bool) ps :
  NoDup (map port_no ps) ->
  NoDup (port_no <$> filter (fun q => f q = true) ps)
  /\ forall n, n ∈ port_no <$> filter (fun q => f q = true) ps -> n ∈ map port_no ps.
Proof.
  intros Hn. split.
  - eapply sublist_NoDup; [exact Hn|]. change (map port_no ps) with (port_no <$> ps).
    apply fmap_sublist. apply sublist_filter.
  - intros n Hin. apply list_elem_of_fmap in Hin as (x & -> & Hin).
    apply list_elem_of_filter in Hin as [_ Hin]. by apply number_in.
Qed.

Lemma entries_fst {A} (r : A) (l : list Z) : ((fun n => (n, r)) <$> l).*1 = l.
Proof. rewrite <- list_fmap_compose. apply list_fmap_id. Qed.

Lemma roles_root_bridge b :
  NoDup (map port_no (ports b)) ->
  roles_spec b None ((fun p => (port_no p, DESIGNATED_PORT))
                       <$> filter (fun p => enabled p = true) (ports b)).
Proof.
  intros Hn. destruct (filtered_numbers enabled _ Hn) as [H1 H2].
  rewrite (list_fmap_compose port_no (fun n => (n, DESIGNATED_PORT))).
  split; [by rewrite entries_fst|]. split.
  - apply Forall_fmap. apply list.Forall_forall. intros n Hin. by apply H2.
  - intros p Hp. by rewrite assoc_filter.
Qed.

Lemma roles_other_root b r m :
  NoDup (map port_no (ports b)) -> r ∈ ports b -> enabled r = true ->
  roles_spec b (Some (r, m))
    (foldl fill ((port_no r, ROOT_PORT) :: ((fun n => (n, DESIGNATED_PORT)) <$>
       (port_no <$> filter (fun p => enabled p && negb (port_no p =? port_no r)
                                     && offers b m p = true) (ports b)))) (ports b)).
Proof.
  intros Hn Hr Her. set (f := fun p => enabled p && negb (port_no p =? port_no r) && offers b m p).
  destruct (filtered_numbers f _ Hn) as [H1 H2].
  set (l := (fun n => (n, DESIGNATED_PORT)) <$> _).
  assert (Hl : l.*1 = port_no <$> filter (fun q => f q = true) (ports b)) by apply entries_fst.
  assert (Hex : forall k, existsb (fun p => enabled p && (port_no p =? k)) (ports b) = true ->
                k ∈ map port_no (ports b)).
  { intros k E. apply existsb_exists in E as (p & Hp & E).
    apply andb_true_iff in E as [_ E]. replace k with (port_no p) by lia.
    apply number_in. by apply list_elem_of_In. }
  split; [|split].
  - apply fill_NoDup. rewrite fmap_cons, Hl. constructor; [|done].
    intros Hin. apply list_elem_of_fmap in Hin as (x & Ex & Hin). cbn [fst] in Ex.
    apply list_elem_of_filter in Hin as [Hf _]. unfold f in Hf. rewrite <- Ex, Z.eqb_refl in Hf.
    by rewrite andb_false_r in Hf.
  - apply list.Forall_forall. intros [k x] Hin. cbn [fst].
    assert (Hk : k ∈ (foldl fill ((port_no r, ROOT_PORT) :: l) (ports b)).*1)
      by (apply list_elem_of_fmap; by exists (k, x)).
    apply assoc_some in Hk as [y Hy]. rewrite fill_spec, assoc_cons in Hy.
    destruct (Z.eqb_spec (port_no r) k) as [<-|]; [by apply number_in|].
    destruct (assoc l k) eqn:El; [|destruct (existsb _ _) eqn:E; [by apply Hex|done]].
    apply H2. rewrite <- Hl. apply assoc_some. by eexists.
  - intros p Hp. rewrite fill_spec, assoc_cons. unfold l. rewrite assoc_filter by done.
    cbn [role_of]. rewrite (Z.eqb_sym (port_no r)).
    destruct (Z.eqb_spec (port_no p) (port_no r)) as [E|E].
    + rewrite (same_number _ _ _ Hn Hp Hr E), Her. done.
    + unfold f. cbn [negb]. rewrite andb_true_r.
      destruct (enabled p) eqn:Ee; cbn [andb].
      * destruct (offers b m p); [done|].
        replace (existsb _ _) with true; [done|]. symmetry. apply existsb_exists.
        exists p. split; [by apply list_elem_of_In|]. by rewrite Ee, Z.eqb_refl.
      * replace (existsb _ _) with false; [done|]. symmetry. apply not_true_iff_false.
        intros Ex. apply existsb_exists in Ex as (q & Hq & Eq).
        apply andb_true_iff in Eq as [Eq1 Eq2].
        assert (q = p) by (eapply same_number; [exact Hn|by apply list_elem_of_In|done|lia]).
        congruence.
Qed.

Lemma algorithm_spec b :
  root_priority b = own_priority b -> Forall (fun p => info_ok (designated p)) (ports b) ->
  NoDup (map port_no (ports b)) ->
  exists root roles rp rt, elected b (ports b) root
    /\ _spanning_tree_algorithm b = Ok (roles, rp, rt)
    /\ roles_spec b root roles /\ chosen b root rp rt.
Proof.
  intros Hown Hok Hn. destruct (select_root_port_elected b Hown Hok) as (root & E & Hel).
  unfold _spanning_tree_algorithm. rewrite E. cbn [mbind res_bind].
  destruct root as [[r m]|]; cbn [fmap option_fmap option_map fst].
  - destruct Hel as (Hr & (Her & [t Et] & Hv) & Hb). rewrite Et. cbn [attr or_raise mbind res_bind].
    rewrite designated_ports_spec by done. cbn [mbind res_bind].
    exists (Some (r, m)). do 3 eexists. split; [by split; [|split; [split; [|split; [eauto|]]|]]|].
    split; [reflexivity|]. split; [by apply roles_other_root|]. by split.
  - exists None. do 3 eexists. split; [done|]. split; [reflexivity|].
    split; [by apply roles_root_bridge|done].
Qed.

(** ** Recalculation *)

Lemma iterM_fmap {S A B} (f : B -> stm S unit) (g : A -> B) l :
  iterM f (g <$> l) = iterM (fun x => f (g x)) l.
Proof. induction l as [|a l IH]; [done|]. cbn [fmap list_fmap iterM]. by rewrite <- IH. Qed.

Definition down_all (init : bool) (p : Port) : Port :=
  if enabled p then core (down_fun BLOCK init p) else p.

Lemma acts_down_all init w :
  NoDup (map port_no (cores w)) ->
  acts (iterM (fun n => p ← get_port n; when (enabled p) (down n BLOCK init))
          (port_no <$> ports (bridge w))) (map (down_all init)) w.
Proof.
  intros Hn. set (l := (fun p => (port_no p, tt)) <$> ports (bridge w)).
  assert (El : l.*1 = map port_no (cores w)).
  { unfold l. rewrite <- list_fmap_compose. rewrite <- numbers_cores. done. }
  eapply acts_ext.
  - eapply acts_eq; [|apply (acts_loop (fun n _ => down n BLOCK init)
                               (fun _ => down_fun BLOCK init) l)].
    + unfold l. by rewrite !iterM_fmap.
    + intros; apply acts_down; auto.
    + intros; apply compat_down.
    + done.
    + by rewrite El.
    + apply list.Forall_forall. intros e He. rewrite <- El. apply list_elem_of_fmap. by exists e.
  - apply map_ext_in. intros p Hp. unfold loop_fun, down_all.
    assert (Hk : port_no p ∈ l.*1) by (rewrite El; apply number_in; by apply list_elem_of_In).
    apply assoc_some in Hk as [[] ->]. done.
Qed.

Definition reset (b : Bridge) : Bridge := set_root b (own_priority b) (bridge_times b).

(** The bridge in the middle of a recalculation: all ports are blocked and the
    bridge takes itself for the root. *)
Definition blocked (init : bool) (w : World) (b1 : Bridge) : Prop :=
  map core (ports b1) = map (down_all init) (cores w)
  /\ b1 = reset (set_ports (bridge w) (ports b1)).

Definition assigned (init : bool) (b1 : Bridge) (roles : list (Z * port_role))
    (rp : Priority) (rt : Times) : Prop :=
  if init then
    roles = ((fun p => (port_no p, DESIGNATED_PORT)) <$> ports b1)
    /\ rp = own_priority b1 /\ rt = bridge_times b1
  else _spanning_tree_algorithm b1 = Ok (roles, rp, rt).

Lemma recalculate_spec init w :
  NoDup (map port_no (cores w)) ->
  (forall b1, blocked init w b1 -> exists roles rp rt, assigned init b1 roles rp rt
     /\ NoDup roles.*1 /\ Forall (fun e => e.1 ∈ map port_no (ports b1)) roles) ->
  exists w' b1 roles rp rt,
    recalculate_spanning_tree init w = (Ok tt, w')
    /\ blocked init w b1 /\ assigned init b1 roles rp rt
    /\ cores w' = map (loop_fun (fun r => up_fun r rp rt) roles) (map core (ports b1))
    /\ bridge w' = set_root (set_ports (bridge w) (ports (bridge w'))) rp rt.
Proof.
  intros Hn Hass. destruct (acts_down_all init w Hn) as (w1 & E1 & C1 & B1).
  destruct (acts_when init (send EventTopologyChange) id w1 (fun _ => acts_send _ _))
    as (w2 & E2 & C2 & B2).
  assert (C2' : cores w2 = cores w1) by (by destruct init). clear C2.
  set (b1 := reset (bridge w2)). set (w3 := set_bridge w2 b1).
  assert (Hb : blocked init w b1).
  { split; [unfold b1; cbn; fold (cores w2); by rewrite C2', C1|].
    unfold b1. cbn [ports reset set_root]. rewrite B2 at 1. by rewrite B1. }
  destruct (Hass b1 Hb) as (roles & rp & rt & Ha & Hnd & Hin).
  set (w4 := set_bridge w3 (set_root b1 rp rt)).
  assert (C4 : cores w4 = map core (ports b1)) by done.
  assert (N4 : NoDup (map port_no (cores w4))).
  { rewrite C4, (proj1 Hb). rewrite map_map. erewrite map_ext; [exact Hn|].
    intros p. unfold down_all. case_match; [|done]. rewrite core_no. apply compat_down. }
  destruct (acts_loop (fun n r => up n r rp rt) (fun r => up_fun r rp rt) roles w4)
    as (w5 & E5 & C5 & B5);
    [intros; by apply acts_up|intros; apply compat_up|done|done| |].
  { rewrite <- numbers_cores. exact Hin. }
  exists w5, b1, roles, rp, rt. split; [|split; [done|split; [done|split]]].
  - unfold recalculate_spanning_tree. rewrite bind_self.
    rewrite (stm_bind_ok _ _ _ _ _ E1), (stm_bind_ok _ _ _ _ _ E2).
    rewrite (stm_bind_ok _ _ w2 tt w3) by done. rewrite bind_self.
    rewrite (stm_bind_ok _ _ w3 (roles, rp, rt) w3).
    + rewrite (stm_bind_ok _ _ w3 tt w4) by done. exact E5.
    + destruct init; cbn [assigned] in Ha.
      * destruct Ha as (-> & -> & ->). done.
      * change (bridge w3) with b1. by rewrite Ha.
  - by rewrite C5, C4.
  - rewrite B5. change (bridge w4) with (set_root (reset (bridge w2)) rp rt). rewrite B2, B1. done.
Qed.

(** ** The invariant *)

Definition port_ok (p : Port) : Prop :=
  port_no p <= MAX_PORT_NO /\ info_ok (designated p) /\
  exists s r, state p = Some s /\ role p = Some r
    /\ (config_enable p = false -> s = DISABLE)
    /\ (s = DISABLE -> r = DESIGNATED_PORT)
    /\ (r = NON_DESIGNATED_PORT -> s <> FORWARD)
    /\ wait_bpdu_thread p = negb (bool_decide (r = DESIGNATED_PORT))
    /\ send_bpdu_thread p = bool_decide (s = LISTEN \/ s = LEARN \/ s = FORWARD).

(** The table of ports of a bridge with number [own] that follows the root [root]. *)
Definition table_ok (ps : list Port) (root own : Z) : Prop :=
  NoDup (map port_no ps) /\ Forall port_ok ps
  /\ (forall p q, p ∈ ps -> q ∈ ps -> role p = Some ROOT_PORT -> role q = Some ROOT_PORT -> p = q)
  /\ (forall p, p ∈ ps -> role p = Some ROOT_PORT -> root < own).

Definition world_ok (w : World) : Prop :=
  table_ok (cores w) (root_of (root_priority (bridge w))) (bid_value (bridge_id (bridge w))).

Lemma table_map (h : Port -> Port) ps root own :
  table_ok ps root own ->
  (forall p, p ∈ ps -> port_ok p ->
     port_ok (h p) /\ port_no (h p) = port_no p
     /\ (role (h p) = Some ROOT_PORT -> role p = Some ROOT_PORT)) ->
  table_ok (map h ps) root own.
Proof.
  intros (Hn & Hok & Hu & Hr) Hh. rewrite list.Forall_forall in Hok.
  assert (Hh' : forall p, p ∈ ps -> port_ok (h p) /\ port_no (h p) = port_no p
     /\ (role (h p) = Some ROOT_PORT -> role p = Some ROOT_PORT)) by auto.
  assert (Hin : forall q, q ∈ map h ps -> exists p, p ∈ ps /\ q = h p).
  { intros q Hq%list_elem_of_In. apply in_map_iff in Hq as (p & <- & Hp%list_elem_of_In). eauto. }
  split; [|split; [|split]].
  - rewrite map_map. erewrite map_ext_in; [exact Hn|].
    intros p Hp%list_elem_of_In. by apply Hh'.
  - apply list.Forall_forall. intros q (p & Hp & ->)%Hin. by apply Hh'.
  - intros q1 q2 (p1 & H1 & ->)%Hin (p2 & H2 & ->)%Hin R1 R2.
    apply Hh' in R1; [|done]. apply Hh' in R2; [|done]. by rewrite (Hu p1 p2).
  - intros q (p & Hp & ->)%Hin R. apply Hh' in R; [|done]. eauto.
Qed.

Lemma table_no_root ps root own :
  NoDup (map port_no ps) -> Forall port_ok ps ->
  (forall p, p ∈ ps -> role p <> Some ROOT_PORT) -> table_ok ps root own.
Proof.
  intros Hn Hok Hno. split; [done|]. split; [done|].
  split; [intros p q Hp _ R|intros p Hp R]; by apply Hno in R.
Qed.

Ltac port_cases H :=
  let s := fresh "s" in let r := fresh "r" in
  destruct H as (? & ? & s & r & ? & ? & ? & ? & ? & ? & ?).

Lemma chg_role_fields r p :
  port_ok p ->
  role (chg_role r p) = Some r
  /\ wait_bpdu_thread (chg_role r p) = negb (bool_decide (r = DESIGNATED_PORT))
  /\ designated (chg_role r p) = designated p /\ port_no (chg_role r p) = port_no p
  /\ config_enable (chg_role r p) = config_enable p /\ path_cost (chg_role r p) = path_cost p
  /\ port_id (chg_role r p) = port_id p
  /\ port_priority (chg_role r p) = port_priority p /\ port_times (chg_role r p) = port_times p.
Proof.
  intros H. port_cases H. unfold chg_role, has_role. destruct (decide (role p = Some r)) as [E|E];
    [rewrite bool_decide_eq_true_2 by done|rewrite bool_decide_eq_false_2 by done; done].
  assert (r0 = r) as -> by congruence. repeat split; assumption.
Qed.

Lemma up_ok r rp rt p :
  port_ok p -> config_enable p = true \/ r = DESIGNATED_PORT ->
  port_ok (up_fun r rp rt p) /\ role (up_fun r rp rt p) = Some r.
Proof.
  intros H Hr. assert (H' : port_ok (set_root_info rp rt p)) by done.
  destruct (chg_role_fields r _ H') as (E1 & E2 & E3 & E4 & E5 & _).
  unfold up_fun. split; [|done]. destruct H as (Hno & Hi & _).
  split; [exact (eq_ind_r (fun n => n <= MAX_PORT_NO) Hno E4)|].
  split; [cbn [designated set_status]; by rewrite E3|].
  exists (if config_enable p then LISTEN else DISABLE), r.
  cbn [state role config_enable wait_bpdu_thread send_bpdu_thread set_status].
  rewrite E5. cbn [config_enable set_root_info] in *.
  split; [done|]. split; [done|]. split; [by intros ->|].
  split; [destruct (config_enable p); [done|by destruct Hr]|].
  split; [by destruct (config_enable p)|]. split; [done|]. by destruct (config_enable p).
Qed.

Lemma down_ok st init p :
  port_ok p -> st = DISABLE \/ st = BLOCK ->
  port_ok (down_fun st init p) /\ role (down_fun st init p) = Some DESIGNATED_PORT
  /\ port_no (down_fun st init p) = port_no p
  /\ designated (down_fun st init p)
     = (if config_enable p && init then None else designated p)
  /\ path_cost (down_fun st init p) = path_cost p /\ port_id (down_fun st init p) = port_id p
  /\ config_enable (down_fun st init p) = config_enable p
  /\ state (down_fun st init p) = if config_enable p then Some st else state p.
Proof.
  intros H Hst. unfold down_fun. destruct (config_enable p) eqn:Ee.
  - set (q := if init then set_designated None p else p).
    assert (Hq : port_ok q).
    { unfold q. destruct init; [|done]. port_cases H. repeat (split; [done|]). by exists s, r. }
    destruct (chg_role_fields DESIGNATED_PORT q Hq) as (E1 & E2 & E3 & E4 & E5 & E6 & E7 & _).
    assert (Eq : port_no q = port_no p /\ path_cost q = path_cost p /\ port_id q = port_id p
                 /\ config_enable q = true
                 /\ designated q = if true && init then None else designated p)
      by (unfold q; by destruct init).
    destruct Eq as (Q1 & Q2 & Q3 & Q4 & Q5).
    assert (Q6 : port_no (set_status st (chg_role DESIGNATED_PORT q)) = port_no p)
      by (rewrite <- Q1; exact E4).
    cbn [role designated path_cost port_id config_enable state set_status]. rewrite E3, E6, E7, E5.
    split; [|by repeat (split; [done|])]. destruct Hq as (Hno & Hi & _).
    split; [by rewrite Q6, <- Q1|]. split; [cbn [designated set_status]; by rewrite E3|].
    exists st, DESIGNATED_PORT.
    cbn [state role config_enable wait_bpdu_thread send_bpdu_thread set_status]. rewrite E5, Q4.
    by destruct Hst as [-> | ->].
  - split; [done|]. split; [|done].
    destruct H as (_ & _ & s & r & _ & Er & Hc & Hd & _). by rewrite Er, Hd by auto.
Qed.

Lemma enabled_config p : port_ok p -> enabled p = true -> config_enable p = true.
Proof.
  intros (_ & _ & s & r & Es & _ & Hc & _) He. destruct (config_enable p); [done|].
  unfold enabled, has_state in He. rewrite Es, Hc in He by done.
  by rewrite bool_decide_eq_true_2 in He.
Qed.

Lemma disabled_role p : port_ok p -> enabled p = false -> role p = Some DESIGNATED_PORT.
Proof.
  intros (_ & _ & s & r & Es & Er & _ & Hd & _) He. unfold enabled, has_state in He.
  rewrite Es in He. destruct (decide (s = DISABLE)) as [E|E].
  - by rewrite Er, Hd.
  - rewrite bool_decide_eq_false_2 in He by congruence. done.
Qed.

Lemma down_all_ok init p :
  port_ok p ->
  port_ok (down_all init p) /\ role (down_all init p) = Some DESIGNATED_PORT
  /\ port_no (down_all init p) = port_no p /\ enabled (down_all init p) = enabled p
  /\ path_cost (down_all init p) = path_cost p /\ port_id (down_all init p) = port_id p
  /\ (init = false -> designated (down_all init p) = designated p).
Proof.
  intros H. unfold down_all. destruct (enabled p) eqn:Ee.
  - destruct (down_ok BLOCK init p H) as (D1 & D2 & D3 & D4 & D5 & D6 & _ & D8); [auto|].
    split; [exact D1|]. split; [exact D2|]. split; [exact D3|].
    split; [|split; [exact D5|split; [exact D6|]]].
    + rewrite (enabled_config p H Ee) in D8.
      change (enabled (core (down_fun BLOCK init p))) with (enabled (down_fun BLOCK init p)).
      unfold enabled, has_state. rewrite D8. done.
    + intros ->. change (designated (core (down_fun BLOCK false p)))
        with (designated (down_fun BLOCK false p)). by rewrite D4, andb_false_r.
  - split; [done|]. split; [by apply disabled_role|]. done.
Qed.

(** A blocked port after the second loop. *)
Lemma assign_ok rp rt roles q :
  port_ok q -> role q = Some DESIGNATED_PORT ->
  let q' := loop_fun (fun r => up_fun r rp rt) roles q in
  port_ok q' /\ port_no q' = port_no q
  /\ role q' = Some (if enabled q then default DESIGNATED_PORT (assoc roles (port_no q))
                     else DESIGNATED_PORT).
Proof.
  intros H Hr q'. unfold q', loop_fun. destruct (assoc roles (port_no q)) as [r|].
  - destruct (enabled q) eqn:Ee; [|done].
    destruct (up_ok r rp rt q H) as [U1 U2]; [left; by apply enabled_config|].
    split; [exact U1|]. split; [|exact U2]. rewrite core_no. apply compat_up.
  - split; [done|]. split; [done|]. by destruct (enabled q).
Qed.

Lemma map_Forall2 {A B T} (f : A -> T) (g : B -> T) l k :
  map g k = map f l -> Forall2 (fun a b => g b = f a) l k.
Proof.
  revert k; induction l as [|a l IH]; intros [|b k] E; try discriminate; [constructor|].
  injection E as E1 E2. constructor; [done|by apply IH].
Qed.

(** The ports before a recalculation and blocked in the middle of it. *)
Lemma blocked_Forall2 init w b1 :
  blocked init w b1 ->
  Forall2 (fun p p1 => core p1 = down_all init (core p)) (ports (bridge w)) (ports b1).
Proof.
  intros [E _]. unfold cores in E. rewrite map_map in E.
  by apply (map_Forall2 (fun p => down_all init (core p)) core).
Qed.

Lemma blocked_table init w b1 :
  world_ok w -> blocked init w b1 ->
  NoDup (map port_no (ports b1))
  /\ Forall (fun q => port_ok q /\ role q = Some DESIGNATED_PORT) (map core (ports b1)).
Proof.
  intros (Hn & Hok & _) [E _]. rewrite list.Forall_forall in Hok. split.
  - replace (map port_no (ports b1)) with (map port_no (map core (ports b1)))
      by (by rewrite map_map).
    rewrite E, map_map. erewrite map_ext_in; [exact Hn|]. intros p Hp%list_elem_of_In.
    by apply down_all_ok, Hok.
  - rewrite E. apply list.Forall_forall. intros q Hq%list_elem_of_In.
    apply in_map_iff in Hq as (p & <- & Hp%list_elem_of_In).
    split; by apply down_all_ok, Hok.
Qed.

Lemma Forall_core (P : Port -> Prop) ps :
  (forall p, P (core p) -> P p) -> Forall P (map core ps) -> Forall P ps.
Proof.
  intros HP H. rewrite list.Forall_forall in *. intros p Hp. apply HP, H.
  apply list_elem_of_In, in_map. by apply list_elem_of_In.
Qed.

(** The final table. *)
Lemma assign_table ps rp rt roles root own :
  NoDup (map port_no ps) ->
  Forall (fun q => port_ok q /\ role q = Some DESIGNATED_PORT) ps ->
  (forall p q, p ∈ ps -> q ∈ ps -> assoc roles (port_no p) = Some ROOT_PORT ->
     assoc roles (port_no q) = Some ROOT_PORT -> p = q) ->
  (forall p, p ∈ ps -> enabled p = true -> assoc roles (port_no p) = Some ROOT_PORT ->
     root < own) ->
  table_ok (map (loop_fun (fun r => up_fun r rp rt) roles) ps) root own.
Proof.
  intros Hn Hok Hu Hr. rewrite list.Forall_forall in Hok.
  set (h := loop_fun (fun r => up_fun r rp rt) roles).
  assert (Hh : forall p, p ∈ ps -> port_ok (h p) /\ port_no (h p) = port_no p
    /\ role (h p) = Some (if enabled p then default DESIGNATED_PORT (assoc roles (port_no p))
                          else DESIGNATED_PORT))
    by (intros p Hp; apply assign_ok; by apply Hok).
  assert (Hroot : forall p, p ∈ ps -> role (h p) = Some ROOT_PORT ->
    enabled p = true /\ assoc roles (port_no p) = Some ROOT_PORT).
  { intros p Hp R. rewrite (proj2 (proj2 (Hh p Hp))) in R. destruct (enabled p); [|done].
    split; [done|]. by destruct (assoc roles (port_no p)); cbn in R; [congruence|]. }
  assert (Hin : forall q, q ∈ map h ps -> exists p, p ∈ ps /\ q = h p).
  { intros q Hq%list_elem_of_In. apply in_map_iff in Hq as (p & <- & Hp%list_elem_of_In). eauto. }
  split; [|split; [|split]].
  - rewrite map_map. erewrite map_ext_in; [exact Hn|].
    intros p Hp%list_elem_of_In. by apply Hh.
  - apply list.Forall_forall. intros q (p & Hp & ->)%Hin. by apply Hh.
  - intros q1 q2 (p1 & H1 & ->)%Hin (p2 & H2 & ->)%Hin R1 R2.
    apply Hroot in R1 as [_ R1]; [|done]. apply Hroot in R2 as [_ R2]; [|done].
    by rewrite (Hu p1 p2).
  - intros q (p & Hp & ->)%Hin R. apply Hroot in R as [? R]; [|done]. eauto.
Qed.

Lemma recalculate_init_ok w :
  world_ok w ->
  exists w', recalculate_spanning_tree true w = (Ok tt, w') /\ world_ok w'
    /\ (forall p, p ∈ cores w' -> role p = Some DESIGNATED_PORT)
    /\ root_priority (bridge w') = own_priority (bridge w).
Proof.
  intros Hw. pose proof Hw as (Hn & _).
  destruct (recalculate_spec true w Hn) as (w' & b1 & roles & rp & rt & E & Hb & Ha & Hc & Hbr).
  { intros b1 Hb. destruct (blocked_table true w b1 Hw Hb) as [N1 _].
    do 3 eexists. split; [by split|]. rewrite <- list_fmap_compose. split; [exact N1|].
    apply Forall_fmap. apply list.Forall_forall. intros p Hp. by apply number_in. }
  destruct (blocked_table true w b1 Hw Hb) as [N1 O1].
  destruct Ha as (Hroles & Hrp & Hrt).
  assert (Hno : forall n, assoc roles n <> Some ROOT_PORT).
  { intros n. rewrite Hroles. clear. induction (ports b1) as [|p ps IH]; [done|].
    rewrite fmap_cons, assoc_cons. by case_match. }
  exists w'. split; [done|]. split; [|split].
  - unfold world_ok. rewrite Hc. apply assign_table; [by rewrite map_map|done| |].
    + intros p q _ _ R. by apply Hno in R.
    + intros p _ _ R. by apply Hno in R.
  - intros p Hp. rewrite Hc in Hp. apply list_elem_of_In, in_map_iff in Hp as (q & <- & Hq).
    apply list_elem_of_In in Hq. rewrite list.Forall_forall in O1. destruct (O1 _ Hq) as [Q1 Q2].
    destruct (assign_ok rp rt roles q Q1 Q2) as (_ & _ & ->). case_match; [|done].
    rewrite Hroles. f_equal. clear. induction (ports b1) as [|p ps IH]; [done|].
    rewrite fmap_cons, assoc_cons. by case_match.
  - rewrite Hbr. cbn [root_priority set_root]. rewrite Hrp. destruct Hb as [_ Hb].
    rewrite Hb. done.
Qed.

(** ** Recalculation after a superior BPDU *)

(** The inputs of the role selection. *)
Definition same (p p1 : Port) : Prop :=
  enabled p1 = enabled p /\ designated p1 = designated p /\ port_no p1 = port_no p
  /\ path_cost p1 = path_cost p /\ port_id p1 = port_id p.

Definition follows (b : Bridge) (root : option (Port * Priority)) (rp : Priority) (rt : Times) :=
  match root with
  | None => rp = own_priority b /\ rt = bridge_times b
  | Some (r, m) => rp = m /\ designated r = Some (m, rt)
  end.

Lemma world_ports_ok w p : world_ok w -> p ∈ ports (bridge w) -> port_ok p.
Proof.
  intros (_ & Hok & _) Hp. rewrite list.Forall_forall in Hok.
  apply (Hok (core p)). apply list_elem_of_In, in_map. by apply list_elem_of_In.
Qed.

Lemma Forall2_in {A B} (R : A -> B -> Prop) l k :
  Forall2 R l k -> Forall2 (fun a b => a ∈ l /\ b ∈ k /\ R a b) l k.
Proof.
  intros H. apply Forall2_same_length_lookup_2; [by eapply Forall2_length|].
  intros i a b Ha Hb. split; [by eapply list_elem_of_lookup_2|].
  split; [by eapply list_elem_of_lookup_2|]. by eapply Forall2_lookup_lr.
Qed.

Lemma blocked_same w b1 :
  world_ok w -> blocked false w b1 -> Forall2 same (ports (bridge w)) (ports b1).
Proof.
  intros Hw Hb. apply blocked_Forall2, Forall2_in in Hb. eapply list.Forall2_impl; [exact Hb|].
  intros p p1 (Hp & _ & E). pose proof (world_ports_ok w p Hw Hp) as Hok.
  destruct (down_all_ok false (core p) Hok) as (_ & _ & D3 & D4 & D5 & D6 & D7).
  rewrite <- E in *. specialize (D7 eq_refl). unfold same. done.
Qed.

Lemma candidate_same b b1 p p1 m :
  bridge_id b1 = bridge_id b -> same p p1 -> candidate b1 p1 m <-> candidate b p m.
Proof. intros Eb (E1 & E2 & _). unfold candidate. by rewrite Eb, E1, E2. Qed.

Lemma role_of_same b b1 r r1 m p p1 :
  bridge_id b1 = bridge_id b -> same r r1 -> same p p1 ->
  role_of b1 (Some (r1, m)) p1 = role_of b (Some (r, m)) p.
Proof.
  intros Eb (_ & _ & R3 & _) (_ & P2 & P3 & P4 & P5). unfold role_of, offers.
  by rewrite Eb, R3, P2, P3, P4, P5.
Qed.

Lemma elected_same b b1 root1 :
  bridge_id b1 = bridge_id b -> bridge_times b1 = bridge_times b ->
  root_priority b1 = own_priority b1 -> root_times b1 = bridge_times b1 ->
  Forall2 same (ports b) (ports b1) -> elected b1 (ports b1) root1 ->
  exists root, elected b (ports b) root
    /\ (forall p p1, same p p1 -> role_of b1 root1 p1 = role_of b root p)
    /\ (forall rp rt, chosen b1 root1 rp rt -> follows b root rp rt).
Proof.
  intros Eb Et Erp Ert Hs Hel.
  assert (Hlr : forall p, p ∈ ports b -> exists p1, p1 ∈ ports b1 /\ same p p1).
  { intros p [i Hi]%list_elem_of_lookup. destruct (Forall2_lookup_l _ _ _ _ _ Hs Hi) as (p1 & H1 & ?).
    exists p1. split; [by eapply list_elem_of_lookup_2|done]. }
  destruct root1 as [[r1 m]|]; cbn [elected] in Hel.
  - destruct Hel as ([i Hi]%list_elem_of_lookup & Hc & Hb).
    destruct (Forall2_lookup_r _ _ _ _ _ Hs Hi) as (r & Hr & Hsr). exists (Some (r, m)).
    split; [|split].
    + split; [by eapply list_elem_of_lookup_2|]. split; [by apply (candidate_same b b1 r r1 m Eb Hsr)|].
      intros q mq Hq Hcq. destruct (Hlr q Hq) as (q1 & Hq1 & Hsq).
      apply (Hb q1); [done|]. by apply (candidate_same b b1 q q1 mq Eb Hsq).
    + intros p p1 Hp. by apply role_of_same.
    + intros rp rt [-> Hd]. split; [done|]. destruct Hsr as (_ & Hsr & _). by rewrite <- Hsr.
  - exists None. split; [|split; [done|]].
    + intros p m Hp Hcp. destruct (Hlr p Hp) as (p1 & Hp1 & Hsp).
      apply (Hel p1 m Hp1). by apply (candidate_same b b1 p p1 m Eb Hsp).
    + intros rp rt [-> ->]. cbn [follows]. rewrite Erp, Ert. unfold own_priority.
      by rewrite Eb, Et.
Qed.

(** What a recalculation makes of a port. *)
Definition recalculated (b : Bridge) (root : option (Port * Priority)) (rp : Priority)
    (rt : Times) (p p' : Port) : Prop :=
  if enabled p then
    state p' = Some LISTEN /\ role p' = Some (role_of b root p)
    /\ port_priority p' = rp /\ port_times p' = rt /\ designated p' = designated p
    /\ port_no p' = port_no p
  else core p' = core p.

Lemma recalculated_port b b1 root1 root rp rt roles p p1 p' :
  port_ok p -> roles_spec b1 root1 roles -> p1 ∈ ports b1 ->
  core p1 = down_all false (core p) -> same p p1 ->
  role_of b1 root1 p1 = role_of b root p ->
  core p' = loop_fun (fun r => up_fun r rp rt) roles (core p1) ->
  recalculated b root rp rt p p'.
Proof.
  intros Hok (_ & _ & Hroles) Hp1 E1 Hs Er E'. unfold recalculated.
  destruct (down_all_ok false (core p) Hok) as (Q1 & Q2 & _). rewrite <- E1 in *.
  pose proof Hs as (S1 & S2 & S3 & _). unfold loop_fun in E'. rewrite core_no in E'.
  rewrite (Hroles p1 Hp1), S1 in E'. change (enabled (core p1)) with (enabled p1) in E'.
  rewrite S1 in E'. destruct (enabled p) eqn:Ee.
  - rewrite Er in E'.
    assert (Hce : config_enable (core p1) = true)
      by (apply enabled_config; [done|]; by rewrite <- S1 in Ee).
    destruct (up_ok (role_of b root p) rp rt (core p1) Q1 (or_introl Hce)) as [_ U2].
    assert (F : forall {T} (f : Port -> T), (forall q, f (core q) = f q) ->
      f p' = f (up_fun (role_of b root p) rp rt (core p1)))
      by (intros T f Hf; rewrite <- (Hf p'), E'; apply Hf).
    assert (Q1' : port_ok (set_root_info rp rt (core p1))) by done.
    destruct (chg_role_fields (role_of b root p) _ Q1') as (_ & _ & G3 & G4 & _ & _ & _ & G8 & G9).
    rewrite (F _ state), (F _ role), (F _ port_priority), (F _ port_times), (F _ designated),
      (F _ port_no) by done.
    split; [unfold up_fun; cbn [state set_status]; by rewrite Hce|]. split; [exact U2|].
    split; [exact G8|]. split; [exact G9|]. split; [exact (eq_trans G3 S2)|exact (eq_trans G4 S3)].
  - rewrite E'. rewrite E1. unfold down_all. change (enabled (core p)) with (enabled p).
    by rewrite Ee.
Qed.

Lemma recalculated_all w w' b1 root1 root rp rt roles :
  world_ok w -> blocked false w b1 -> roles_spec b1 root1 roles ->
  (forall p p1, same p p1 -> role_of b1 root1 p1 = role_of (bridge w) root p) ->
  cores w' = map (loop_fun (fun r => up_fun r rp rt) roles) (map core (ports b1)) ->
  Forall2 (recalculated (bridge w) root rp rt) (ports (bridge w)) (ports (bridge w')).
Proof.
  intros Hw Hb Hsp Hrole Hc. pose proof (blocked_same w b1 Hw Hb) as Hs.
  pose proof (blocked_Forall2 _ _ _ Hb) as Hd.
  assert (H' : Forall2 (fun p1 p' => core p' = loop_fun (fun r => up_fun r rp rt) roles (core p1))
                 (ports b1) (ports (bridge w'))).
  { unfold cores in Hc. rewrite map_map in Hc. by apply (map_Forall2 (fun p1 => loop_fun (fun r => up_fun r rp rt) roles (core p1)) core). }
  apply Forall2_same_length_lookup_2.
  { by rewrite (Forall2_length Hs), (Forall2_length H'). }
  intros i p p' Hp Hp'. destruct (Forall2_lookup_l _ _ _ _ _ Hs Hp) as (p1 & Hp1 & S1).
  eapply recalculated_port.
  - eapply world_ports_ok; [done|]. by eapply list_elem_of_lookup_2.
  - done.
  - by eapply list_elem_of_lookup_2.
  - exact (Forall2_lookup_lr _ _ _ _ _ _ Hd Hp Hp1).
  - done.
  - by apply Hrole.
  - exact (Forall2_lookup_lr _ _ _ _ _ _ H' Hp1 Hp').
Qed.

(** The root port is one of the ports, and its root is better than the bridge. *)
Lemma recalculated_table w w' b1 root1 rp rt roles :
  world_ok w -> blocked false w b1 -> elected b1 (ports b1) root1 ->
  roles_spec b1 root1 roles -> chosen b1 root1 rp rt ->
  cores w' = map (loop_fun (fun r => up_fun r rp rt) roles) (map core (ports b1)) ->
  bridge w' = set_root (set_ports (bridge w) (ports (bridge w'))) rp rt -> world_ok w'.
Proof.
  intros Hw Hb Hel (_ & _ & Hroles) Hch Hc Hbr.
  destruct (blocked_table false w b1 Hw Hb) as [N1 O1].
  assert (Hid : bridge_id b1 = bridge_id (bridge w)) by (destruct Hb as [_ ->]; done).
  assert (Hroot : forall p, p ∈ map core (ports b1) -> assoc roles (port_no p) = Some ROOT_PORT ->
    exists r m, root1 = Some (r, m) /\ port_no p = port_no r).
  { intros p Hp R. apply list_elem_of_In, in_map_iff in Hp as (q & <- & Hq%list_elem_of_In).
    rewrite core_no, (Hroles q Hq) in R. destruct (enabled q); [|done].
    destruct root1 as [[r m]|]; [|done]. exists r, m. split; [done|]. rewrite core_no.
    injection R as R. unfold role_of in R. destruct (Z.eqb_spec (port_no q) (port_no r)); [done|].
    by destruct (offers b1 m q). }
  unfold world_ok. rewrite Hc. apply assign_table; [by rewrite map_map|done| |].
  - intros p q Hp Hq Rp Rq. destruct (Hroot p Hp Rp) as (r & m & E & Ep).
    destruct (Hroot q Hq Rq) as (r' & m' & E' & Eq).
    eapply same_number; [|done|done|congruence]. by rewrite map_map.
  - intros p Hp _ Rp. destruct (Hroot p Hp Rp) as (r & m & -> & _).
    destruct Hel as (_ & (_ & _ & Hlt) & _). destruct Hch as [-> _].
    replace (root_priority (bridge w')) with m by (rewrite Hbr; done).
    replace (bridge_id (bridge w')) with (bridge_id b1) by (rewrite Hbr; done). exact Hlt.
Qed.

Lemma recalculate_outcome w :
  world_ok w ->
  exists w' root rp rt,
    recalculate_spanning_tree false w = (Ok tt, w')
    /\ elected (bridge w) (ports (bridge w)) root /\ follows (bridge w) root rp rt
    /\ Forall2 (recalculated (bridge w) root rp rt) (ports (bridge w)) (ports (bridge w'))
    /\ bridge w' = set_root (set_ports (bridge w) (ports (bridge w'))) rp rt
    /\ world_ok w'.
Proof.
  intros Hw. pose proof Hw as (Hn & _).
  assert (Halg : forall b1, blocked false w b1 ->
    exists root roles rp rt, elected b1 (ports b1) root
      /\ _spanning_tree_algorithm b1 = Ok (roles, rp, rt)
      /\ roles_spec b1 root roles /\ chosen b1 root rp rt).
  { intros b1 Hb. destruct (blocked_table false w b1 Hw Hb) as [N1 O1]. apply algorithm_spec.
    - destruct Hb as [_ Hb]. rewrite Hb. done.
    - apply (Forall_core (fun p => info_ok (designated p))); [done|].
      eapply list.Forall_impl; [exact O1|]. by intros p [(_ & ? & _) _].
    - done. }
  destruct (recalculate_spec false w Hn) as (w' & b1 & roles & rp & rt & E & Hb & Ha & Hc & Hbr).
  { intros b1 Hb. destruct (Halg b1 Hb) as (root & roles & rp & rt & _ & Ha & (R1 & R2 & _) & _).
    by exists roles, rp, rt. }
  destruct (Halg b1 Hb) as (root1 & roles' & rp' & rt' & Hel & Ha' & Hsp & Hch).
  cbn [assigned] in Ha. rewrite Ha in Ha'. injection Ha' as <- <- <-.
  pose proof (blocked_same w b1 Hw Hb) as Hs.
  destruct (blocked_table false w b1 Hw Hb) as [N1 O1].
  assert (Hb1 : bridge_id b1 = bridge_id (bridge w) /\ bridge_times b1 = bridge_times (bridge w)
    /\ root_priority b1 = own_priority b1 /\ root_times b1 = bridge_times b1)
    by (destruct Hb as [_ Hb]; rewrite Hb; done).
  destruct Hb1 as (B1 & B2 & B3 & B4).
  destruct (elected_same (bridge w) b1 root1 B1 B2 B3 B4 Hs Hel) as (root & Hel' & Hrole & Hfol).
  exists w', root, rp, rt. split; [done|]. split; [done|]. split; [by apply Hfol|].
  split; [|split; [done|]].
  - by apply (recalculated_all w w' b1 root1 root rp rt roles).
  - by apply (recalculated_table w w' b1 root1 rp rt roles).
Qed.

(** ** Every operation keeps the invariant, also when it raises *)

Definition keeps {A} (m : M A) : Prop := forall w, world_ok w -> world_ok (m w).2.

Lemma keeps_bind {A B} (m : M A) (f : A -> M B) :
  keeps m -> (forall a, keeps (f a)) -> keeps (m ≫= f).
Proof.
  intros Hm Hf w Hw. unfold mbind, stm_bind. specialize (Hm w Hw).
  destruct (m w) as [[a|e] w1]; [by apply Hf|done].
Qed.

Lemma keeps_ret {A} (a : A) : keeps (mret a).
Proof. intros w Hw. exact Hw. Qed.
Lemma keeps_self : keeps self.
Proof. intros w Hw. exact Hw. Qed.
Lemma keeps_gets {A} (f : World -> A) : keeps (gets f).
Proof. intros w Hw. exact Hw. Qed.
Lemma keeps_lift {A} (r : res A) : keeps (lift_res r).
Proof. intros w Hw. exact Hw. Qed.
Lemma keeps_raise {A} e : keeps (raise e : M A).
Proof. intros w Hw. exact Hw. Qed.
Lemma keeps_get_port n : keeps (get_port n).
Proof. apply keeps_bind; [apply keeps_self|]. intros; apply keeps_lift. Qed.
Lemma keeps_send o : keeps (send o).
Proof. intros w Hw. exact Hw. Qed.
Lemma keeps_when c m : keeps m -> keeps (when c m).
Proof. intros Hm. destruct c; [exact Hm|apply keeps_ret]. Qed.

Lemma keeps_acts (m : M unit) f w :
  acts m f w -> world_ok w ->
  table_ok (f (cores w)) (root_of (root_priority (bridge w))) (bid_value (bridge_id (bridge w))) ->
  world_ok (m w).2.
Proof.
  intros (w' & E & C & B) Hw Ht. rewrite E. unfold world_ok. cbn [snd].
  rewrite C, B. exact Ht.
Qed.

Lemma keeps_id m : (forall w, acts m id w) -> keeps m.
Proof. intros H w Hw. by apply (keeps_acts _ id). Qed.

Lemma keeps_notify s : keeps (topology_change_notify s).
Proof. apply keeps_id, acts_notify. Qed.

Lemma keeps_flags (g : Port -> Port) : (forall p, core (g p) = core p) -> keeps (map_ports (map g)).
Proof. intros Hg. apply keeps_id. intros w. by apply acts_map_id. Qed.

Lemma keeps_upd_flags n (g : Port -> Port) : (forall p, core (g p) = core p) -> keeps (upd_port n g).
Proof. intros Hg. apply keeps_flags. intros p. unfold at_port. by case_match. Qed.

Lemma keeps_recalculate init : keeps (recalculate_spanning_tree init).
Proof.
  intros w Hw. destruct init.
  - destruct (recalculate_init_ok w Hw) as (w' & E & H & _). by rewrite E.
  - destruct (recalculate_outcome w Hw) as (w' & _ & _ & _ & E & _ & _ & _ & _ & H). by rewrite E.
Qed.

#[local] Hint Resolve keeps_ret keeps_self keeps_gets keeps_lift keeps_raise keeps_get_port
  keeps_send keeps_when keeps_notify keeps_recalculate : stp.

Lemma found_ready n w p : world_ok w -> find_port n (ports (bridge w)) = Some p -> ready n w.
Proof.
  intros (Hn & _) H. split; [done|]. apply find_port_no in H as [<- H].
  rewrite <- numbers_cores. by apply number_in.
Qed.

(** An operation on one port. *)
Lemma table_lift n w p g :
  world_ok w -> find_port n (ports (bridge w)) = Some p -> compat g ->
  port_ok (g p) -> (role (g p) = Some ROOT_PORT -> role p = Some ROOT_PORT) ->
  table_ok (lift n g (cores w)) (root_of (root_priority (bridge w)))
    (bid_value (bridge_id (bridge w))).
Proof.
  intros Hw Hp Hg Hok Hrole. apply table_map; [exact Hw|]. intros q Hq Hqok. unfold at_port.
  destruct (Z.eqb_spec (port_no q) n) as [E|]; [|done].
  unfold cores in Hq. apply list_elem_of_In, in_map_iff in Hq as (q0 & <- & Hq0%list_elem_of_In).
  apply find_port_no in Hp as [En Hp].
  assert (q0 = p) as ->.
  { destruct Hw as (Hn & _). rewrite <- numbers_cores in Hn.
    eapply same_number; [exact Hn|done|done|]. rewrite core_no in E. congruence. }
  rewrite <- (proj1 (Hg p)). split; [exact Hok|]. split; [exact (proj2 (Hg p))|exact Hrole].
Qed.

(** [get_port] and what follows for the port it finds. *)
Lemma keeps_found {A} n (k : Port -> M A) :
  (forall w p, world_ok w -> find_port n (ports (bridge w)) = Some p -> world_ok (k p w).2) ->
  keeps (p ← get_port n; k p).
Proof.
  intros Hk w Hw. destruct (find_port n (ports (bridge w))) as [p|] eqn:E.
  - rewrite (bind_get n w p) by done. by apply Hk.
  - by rewrite (stm_bind_err _ _ _ _ _ (get_port_none _ _ E)).
Qed.

Lemma find_ok n w p : world_ok w -> find_port n (ports (bridge w)) = Some p -> port_ok p.
Proof. intros Hw H. apply find_port_no in H as [_ H]. by eapply world_ports_ok. Qed.

Lemma up_keeps n rp rt w p :
  world_ok w -> find_port n (ports (bridge w)) = Some p ->
  world_ok (up n DESIGNATED_PORT rp rt w).2.
Proof.
  intros Hw Hp. destruct (up_ok DESIGNATED_PORT rp rt p (find_ok _ _ _ Hw Hp)) as [U1 U2]; [auto|].
  eapply keeps_acts; [apply acts_up; by eapply found_ready|done|].
  eapply table_lift; [done|done|apply compat_up|done|]. by rewrite U2.
Qed.

Lemma keeps_link_up n : keeps (link_up n).
Proof. apply keeps_found. intros w p Hw Hp. by eapply up_keeps. Qed.

Lemma keeps_down n st init : st = DISABLE \/ st = BLOCK -> keeps (down n st init).
Proof.
  intros Hst w Hw. destruct (find_port n (ports (bridge w))) as [p|] eqn:E.
  - destruct (down_ok st init p (find_ok _ _ _ Hw E) Hst) as (D1 & D2 & _).
    eapply keeps_acts; [apply acts_down; [by eapply found_ready|done]|done|].
    eapply table_lift; [done|done|apply compat_down|done|]. by rewrite D2.
  - unfold down. rewrite bool_decide_eq_true_2 by done. cbn [py_assert].
    rewrite (stm_bind_ok _ _ w tt w) by done.
    by rewrite (stm_bind_err _ _ _ _ _ (get_port_none _ _ E)).
Qed.

Lemma keeps_link_down n : keeps (link_down n).
Proof.
  apply keeps_bind; [auto with stp|]. intros p. cbv zeta.
  apply keeps_bind; [apply keeps_down; auto|]. auto with stp.
Qed.

Lemma table_filter n ps root own :
  table_ok ps root own -> table_ok (filter (fun p => port_no p <> n) ps) root own.
Proof.
  intros (Hn & Hok & Hu & Hr). split; [|split; [|split]].
  - eapply sublist_NoDup; [exact Hn|]. change (map port_no ps) with (port_no <$> ps).
    apply fmap_sublist. apply sublist_filter.
  - rewrite list.Forall_forall in *. intros p [_ Hp]%list_elem_of_filter. auto.
  - intros p q [_ Hp]%list_elem_of_filter [_ Hq]%list_elem_of_filter. by apply Hu.
  - intros p [_ Hp]%list_elem_of_filter. by apply Hr.
Qed.

Lemma filter_cores n ps :
  map core (filter (fun p => port_no p <> n) ps) = filter (fun p => port_no p <> n) (map core ps).
Proof.
  induction ps as [|p ps IH]; [done|]. cbn [map]. rewrite !filter_cons, core_no.
  case_decide; cbn [map]; by rewrite IH.
Qed.

Lemma keeps_port_delete n : keeps (port_delete n).
Proof.
  apply keeps_bind; [apply keeps_link_down|]. intros _.
  apply keeps_bind; [auto with stp|]. intros _ w Hw.
  unfold world_ok, cores. cbn. rewrite filter_cores. by apply table_filter.
Qed.

Lemma keeps_state_timeout n : keeps (state_timeout n).
Proof.
  apply keeps_found. intros w p Hw Hp. destruct (_get_timer p) as [t|] eqn:Et; [|done].
  case_decide; [done|]. destruct (_get_next_state p) as [s|] eqn:Es; [|done].
  eapply keeps_acts; [apply acts_change_status; by eapply found_ready|done|].
  eapply table_lift; [done|done|apply compat_set_status| |done].
  destruct (find_ok _ _ _ Hw Hp) as (Hno & Hi & s0 & r & E1 & E2 & Hc & Hd & Hf & Hwt & Hsd).
  split; [done|]. split; [done|]. exists s, r. unfold _get_next_state in Es. rewrite E1 in *.
  cbn [state role config_enable wait_bpdu_thread send_bpdu_thread set_status].
  split; [done|]. split; [done|]. unfold has_role in Es. rewrite E2 in Es.
  destruct s0; try done; injection Es as <-.
  - split; [intros Hce; by apply Hc in Hce|]. split; [done|]. split; [done|]. split; [done|]. done.
  - split; [intros Hce; by apply Hc in Hce|]. destruct r; done.
Qed.

Lemma keeps_wait_timeout n : keeps (wait_timeout n).
Proof. apply keeps_bind; auto with stp. Qed.

(** ** New ports *)

Lemma table_snoc ps q root own :
  table_ok ps root own -> port_ok q -> role q <> Some ROOT_PORT -> port_no q ∉ map port_no ps ->
  table_ok (ps ++ [q]) root own.
Proof.
  intros (Hn & Hok & Hu & Hr) Hq Hrole Hnew. split; [|split; [|split]].
  - rewrite map_app. apply list.NoDup_app. split; [done|]. split; [|apply NoDup_singleton].
    intros n H1 H2. apply list_elem_of_singleton in H2 as ->. done.
  - apply Forall_app. split; [done|]. by constructor.
  - intros p1 p2 [H1|H1]%elem_of_app [H2|H2]%elem_of_app R1 R2;
      try (apply list_elem_of_singleton in H1 as ->; done);
      try (apply list_elem_of_singleton in H2 as ->; done). by apply Hu.
  - intros p [H1|H1]%elem_of_app R; [by eapply Hr|].
    apply list_elem_of_singleton in H1 as ->. done.
Qed.

Lemma existsb_number n ps : existsb (fun q => port_no q =? n) ps = bool_decide (n ∈ map port_no ps).
Proof.
  induction ps as [|p ps IH]; [done|]. cbn [existsb map]. rewrite IH.
  destruct (Z.eqb_spec (port_no p) n) as [->|].
  - cbn [orb]. symmetry. apply bool_decide_eq_true_2, elem_of_cons. by left.
  - cbn [orb]. apply bool_decide_ext. rewrite elem_of_cons. split; [by right|]. by intros [?|?].
Qed.

Lemma put_numbers p ps :
  map port_no (put_port p ps)
  = if bool_decide (port_no p ∈ map port_no ps) then map port_no ps else map port_no ps ++ [port_no p].
Proof.
  unfold put_port. rewrite existsb_number. case_bool_decide; [|by rewrite map_app].
  rewrite map_map. apply map_ext. intros q. unfold at_port.
  destruct (Z.eqb_spec (port_no q) (port_no p)); [by symmetry|done].
Qed.

Lemma put_cores p ps : core p = p -> map core (put_port p ps) = put_port p (map core ps).
Proof.
  intros Hp. unfold put_port. rewrite !existsb_number, map_map.
  change (map (fun x => port_no (core x)) ps) with (map port_no ps).
  case_bool_decide; [|by rewrite map_app; cbn; rewrite Hp].
  rewrite !map_map. apply map_ext. intros q. unfold at_port. rewrite core_no. by case_match.
Qed.

Lemma put_ready p w :
  world_ok w -> core p = p ->
  ready (port_no p) (set_bridge w (set_ports (bridge w) (put_port p (ports (bridge w))))).
Proof.
  intros (Hn & _) Hc. unfold ready, cores. cbn [bridge set_bridge ports set_ports].
  rewrite put_cores, put_numbers by done. fold (cores w). case_bool_decide as E; [done|].
  split; [|set_solver]. apply list.NoDup_app. split; [done|]. split; [|apply NoDup_singleton].
  intros n H1 H2. apply list_elem_of_singleton in H2 as ->. done.
Qed.

(** Entering a port and applying [g] to it. *)
Lemma put_table p g ps root own :
  table_ok ps root own -> port_no (g p) = port_no p -> port_ok (core (g p)) ->
  role (g p) <> Some ROOT_PORT -> table_ok (lift (port_no p) g (put_port p ps)) root own.
Proof.
  intros Ht Hno Hok Hrole. unfold lift, put_port. rewrite existsb_number.
  case_bool_decide as E.
  - rewrite map_map. apply table_map; [done|]. intros q Hq Hqok. unfold at_port.
    destruct (Z.eqb_spec (port_no q) (port_no p)) as [Eq|Eq].
    + rewrite Z.eqb_refl. split; [done|]. split; [rewrite core_no; congruence|].
      intros R. by destruct Hrole.
    + by rewrite (proj2 (Z.eqb_neq _ _) Eq).
  - rewrite map_app. cbn [map]. unfold at_port at 2. rewrite Z.eqb_refl.
    apply table_snoc; [|done|done|].
    + apply table_map; [done|]. intros q Hq Hqok. unfold at_port.
      rewrite (proj2 (Z.eqb_neq _ _)); [done|]. intros Eq. apply E. rewrite <- Eq.
      by apply number_in.
    + rewrite core_no, Hno, map_map. intros Hin. apply E. erewrite map_ext_in; [exact Hin|].
      intros q Hq%list_elem_of_In. cbv beta. unfold at_port. case_match; [|done].
      rewrite core_no. destruct E.
      match goal with H : (_ =? _) = true |- _ => apply Z.eqb_eq in H; rewrite <- H end.
      by apply number_in.
Qed.

Lemma keeps_iter_send os : keeps (iterM send os).
Proof. apply keeps_id, acts_iter_send. Qed.

Lemma keeps_new_port conf op : of_port_no op <= MAX_PORT_NO -> keeps (new_port conf op).
Proof.
  intros Hmax w Hw. unfold new_port. rewrite bind_self. cbv zeta.
  set (w0 := match link_cost (curr op) with Some c => set_cost c w | None => w end).
  assert (H0 : world_ok w0 /\ bridge w0 = bridge w) by (unfold w0; by case_match).
  rewrite (stm_bind_ok _ _ w tt w0) by (unfold w0; by case_match).
  rewrite (stm_bind_ok _ _ w0 (port_cost_default w0) w0) by done.
  set (p := mkPort op _ _ _ _ _ _ _ _ _ _ _ _ _). destruct H0 as [H0 Hb].
  set (w1 := set_bridge w0 (set_ports (bridge w0) (put_port p (ports (bridge w0))))).
  rewrite (stm_bind_ok _ _ w0 tt w1) by done.
  assert (A := acts_up (port_no p) DESIGNATED_PORT (mkPriority (bridge_id (bridge w)) 0 None None)
                 (bridge_times (bridge w)) w1 (put_ready p w0 H0 eq_refl)).
  destruct A as (w2 & E & C & B). rewrite (stm_bind_ok _ _ w1 tt w2) by exact E.
  apply (keeps_when _ _ (keeps_iter_send _)). unfold world_ok. rewrite C, B.
  change (cores w1) with (map core (put_port p (ports (bridge w0)))). rewrite put_cores by done.
  change (bridge_id (set_ports (bridge w1) _)) with (bridge_id (bridge w0)).
  change (root_priority (set_ports (bridge w1) _)) with (root_priority (bridge w0)).
  apply put_table; [exact H0|apply compat_up| |done].
  split; [exact Hmax|]. split; [done|].
  exists (if default true (pc_enable conf) then LISTEN else DISABLE), DESIGNATED_PORT.
  by destruct (default true (pc_enable conf)).
Qed.

Lemma keeps_port_add op : keeps (port_add op).
Proof.
  apply keeps_bind; [auto with stp|]. intros b. destruct (Z.leb_spec (of_port_no op) MAX_PORT_NO);
    cbn [when]; [by apply keeps_new_port|auto with stp].
Qed.

(** ** BPDUs *)

Section Receive.
Context `{C : AddrConv}.

Lemma bpdu_priority_ids c m t : bpdu_priority c = Ok m -> info_ok (Some (m, t)).
Proof.
  unfold bpdu_priority. intros H. apply bind_Ok in H as (r & _ & H).
  apply bind_Ok in H as (b & _ & H). injection H as <-. split; by eexists.
Qed.

Lemma keeps_set_designated n d : info_ok d -> keeps (upd_port n (set_designated d)).
Proof.
  intros Hd w Hw. eapply keeps_acts; [by apply acts_upd|done|].
  apply table_map; [exact Hw|]. intros p _ Hp. unfold at_port.
  case_match; [|done]. destruct Hp as (Hno & _ & s & r & Hp). split; [|done]. split; [done|]. split; [done|]. by exists s, r.
Qed.

Lemma keeps_rcv n c : keeps (rcv_config_bpdu n c).
Proof.
  apply keeps_bind; [auto with stp|]. intros p.
  destruct (bpdu_priority c) as [m|e] eqn:E; [|by intros w Hw].
  intros w Hw. rewrite (stm_bind_ok _ _ w m w) by done. revert w Hw. fold (keeps (A := result * bool)).
  apply keeps_bind; [auto with stp|]. intros info.
  apply keeps_bind; [apply keeps_when, keeps_set_designated; by eapply bpdu_priority_ids|].
  intros _. apply keeps_bind; [case_match; [apply keeps_bind|]; auto with stp|]. intros chk.
  apply keeps_bind; [|auto with stp]. apply keeps_when, keeps_upd_flags. done.
Qed.

Lemma keeps_generate n f : keeps (_generate_config_bpdu n f).
Proof. apply keeps_bind; [auto with stp|]. intros b. apply keeps_bind; auto with stp. Qed.

Lemma keeps_transmit n : keeps (_transmit_bpdu n).
Proof.
  apply keeps_bind; [auto with stp|]. intros p. apply keeps_bind; [auto with stp|]. intros t.
  apply keeps_bind.
  - apply keeps_when. apply keeps_bind; [by apply keeps_when, keeps_upd_flags|]. intros _.
    apply keeps_bind; [auto with stp|]. intros q.
    apply keeps_bind; [apply keeps_generate|auto with stp].
  - intros _. apply keeps_bind; auto with stp.
Qed.

Lemma keeps_packet_in n pkt : keeps (packet_in_handler n pkt).
Proof.
  apply keeps_bind; [auto with stp|]. intros b. destruct (n ≫= _) as [p|]; [|auto with stp].
  cbv zeta. destruct (has_state _ _); [auto with stp|].
  destruct (existsb is_config pkt).
  - destruct (config_bpdus pkt) as [|c [|]]; [auto with stp| |auto with stp].
    case_match; [auto with stp|]. apply keeps_bind; [apply keeps_rcv|]. intros [info tc].
    apply keeps_bind; [case_match; auto with stp|]. intros _.
    apply keeps_bind; [auto with stp|]. intros p'. by apply keeps_when, keeps_flags.
  - destruct (existsb is_tcn pkt).
    + apply keeps_bind; [|auto with stp].
      apply keeps_bind; [apply keeps_generate|auto with stp].
    + destruct (existsb is_rst pkt); auto with stp.
Qed.

(** ** Events *)

(** What happens to a bridge: messages of the switch, expired timers, turns of the
    threads, and time. *)
Inductive stp_event :=
  | EPacketIn (in_port : option Z) (pkt : list Bpdu.bpdu)
  | EPortAdd (op : OfPort)
  | EPortDelete (n : Z)
  | ELinkUp (n : Z)
  | ELinkDown (n : Z)
  | EStateTimer (n : Z)
  | EWaitTimer (n : Z)
  | ETransmit (n : Z)
  | ETick (t : seconds).

Definition handle (e : stp_event) : M unit :=
  match e with
  | EPacketIn n pkt => packet_in_handler n pkt
  | EPortAdd op => port_add op
  | EPortDelete n => port_delete n
  | ELinkUp n => link_up n
  | ELinkDown n => link_down n
  | EStateTimer n => state_timeout n
  | EWaitTimer n => wait_timeout n
  | ETransmit n => _transmit_bpdu n
  | ETick t => modify (fun w => mkWorld t (port_cost_default w) (trace w) (bridge w))
  end.

(** The event loop goes on after an exception. *)
Definition run (es : list stp_event) (w : World) : World := foldl (fun w e => (handle e w).2) w es.

Lemma keeps_handle e : keeps (handle e).
Proof.
  destruct e; cbn [handle]; [apply keeps_packet_in|apply keeps_port_add|apply keeps_port_delete|
    apply keeps_link_up|apply keeps_link_down|apply keeps_state_timeout|
    apply keeps_wait_timeout|apply keeps_transmit|intros w Hw; exact Hw].
Qed.

Lemma run_ok es w : world_ok w -> world_ok (run es w).
Proof.
  revert w; induction es as [|e es IH]; intros w Hw; [done|]. cbn. apply IH. by apply keeps_handle.
Qed.

Lemma init_ok v conf dp b t c tr : bridge_init v conf dp = Ok b -> world_ok (mkWorld t c tr b).
Proof.
  unfold bridge_init. intros H. apply bind_Ok in H as (op & _ & H).
  apply bind_Ok in H as (i & _ & H). injection H as <-.
  apply table_no_root; [constructor|constructor|]. intros p Hp. by apply elem_of_nil in Hp.
Qed.

End Receive.

(** ** A port on its own *)

Lemma find_cores n ps : find_port n (map core ps) = core <$> find_port n ps.
Proof.
  unfold find_port. induction ps as [|p ps IH]; [done|]. cbn [map List.find]. rewrite core_no.
  by case_match.
Qed.

Lemma find_after m n g w w1 p :
  acts m (lift n g) w -> m w = (Ok tt, w1) -> compat g ->
  find_port n (ports (bridge w)) = Some p ->
  exists p1, find_port n (ports (bridge w1)) = Some p1 /\ core p1 = core (g p).
Proof.
  intros (w' & E & C & _) E1 Hg Hp. rewrite E in E1. injection E1 as <-.
  assert (H : find_port n (cores w') = Some (core (g (core p)))).
  { rewrite C. unfold lift. rewrite find_at_port.
    - unfold cores. by rewrite find_cores, Hp.
    - intros q. rewrite core_no. apply Hg. }
  unfold cores in H. rewrite find_cores in H.
  destruct (find_port n (ports (bridge w'))) as [p1|]; [|done].
  exists p1. split; [done|]. rewrite (proj1 (Hg p)). by apply (inj Some).
Qed.

(** One expired timer of a listening or learning port. *)
Lemma timeout_step n w p s s' :
  world_ok w -> find_port n (ports (bridge w)) = Some p -> state p = Some s ->
  s = LISTEN \/ s = LEARN -> forward_delay (port_times p) <> sec 0 -> _get_next_state p = Some s' ->
  exists w1 p1, state_timeout n w = (Ok tt, w1) /\ world_ok w1
    /\ find_port n (ports (bridge w1)) = Some p1
    /\ state p1 = Some s' /\ role p1 = role p /\ port_times p1 = port_times p.
Proof.
  intros Hw Hp Hs Hs' Hd Hn.
  assert (A := acts_change_status n s' w (found_ready n w p Hw Hp)).
  assert (E : state_timeout n w = _change_status n s' w).
  { unfold state_timeout. rewrite (bind_get n w p) by done. unfold _get_timer. rewrite Hs.
    destruct Hs' as [-> | ->]; rewrite decide_False by done; by rewrite Hn. }
  pose proof (keeps_state_timeout n w Hw) as Hk. rewrite E in Hk |- *.
  destruct A as (w1 & E1 & C1 & B1) eqn:HA. rewrite E1 in Hk.
  destruct (find_after _ n _ w w1 p A E1 (compat_set_status s') Hp) as (p1 & Hp1 & Hc).
  exists w1, p1. split; [done|]. split; [done|]. split; [done|].
  assert (F : forall {T} (f : Port -> T), (forall q, f (core q) = f q) -> f p1 = f (set_status s' p))
    by (intros T f Hf; rewrite <- (Hf p1), Hc; apply Hf).
  split; [by rewrite (F _ state)|]. split; [by rewrite (F _ role)|by rewrite (F _ port_times)].
Qed.

(** ** Comparing a received BPDU *)

Lemma compare_bpdu_info_spec d m t :
  info_ok d -> info_ok (Some (m, t)) ->
  exists r, compare_bpdu_info d m t = Ok r
    /\ match d with
       | None => r = SUPERIOR
       | Some (m0, t0) =>
           (r = SUPERIOR <-> better m m0 \/ (~ better m0 m /\ t <> t0))
           /\ (r = INFERIOR <-> better m0 m)
       end.
Proof.
  intros Hd Hm. destruct d as [[m0 t0]|]; cbn [compare_bpdu_info]; [|eauto].
  destruct Hm as [[b Eb] [p Ep]], Hd as [[b0 Eb0] [p0 Ep0]].
  unfold better, root_of, bridge_of, port_of. rewrite Eb, Ep, Eb0, Ep0. cbn [from_option].
  unfold _cmp_value at 1.
  destruct (Z.compare_spec (bid_value (root_id m)) (bid_value (root_id m0))) as [E|E|E].
  - cbn [attr_value attr_pvalue attr or_raise mbind res_bind].
    pose proof (compare_root_path_spec (root_path_cost m) (root_path_cost m0) (bid_value b)
                  (bid_value b0) (pid_value p) (pid_value p0)) as (K1 & K2 & K3).
    destruct (compare_root_path _ _ _ _ _ _).
    + eexists; split; [done|]. destruct K1 as [K1 _]. specialize (K1 eq_refl).
      split; split; try done; [tauto|]. unfold lex3 in *. lia.
    + destruct K2 as [K2 _]. specialize (K2 eq_refl). rewrite decide_False by (by intros [? _]).
      eexists; split; [done|]. unfold _cmp_obj, lex3. case_decide.
      * split; split; try done; [|lia]. intros [?|[_ ?]]; [lia|done].
      * split; split; try done; [|lia]. intros _. right. split; [lia|done].
    + eexists; split; [done|]. destruct K3 as [K3 _]. specialize (K3 eq_refl).
      unfold lex3 in *. split; split; try done; [|lia]. intros [?|[? _]]; lia.
  - eexists; split; [done|]. split; split; try done; [by left; left|lia].
  - eexists; split; [done|]. split; split; try done; [|by left].
    intros [?|[? _]]; [lia|]. lia.
Qed.

Lemma upd_find n g w p :
  compat g -> find_port n (ports (bridge w)) = Some p ->
  find_port n (ports (bridge (upd_port n g w).2)) = Some (g p).
Proof. 
  intros Hg Hp.
  change (ports (bridge (upd_port n g w).2)) with (map (at_port n g) (ports (bridge w))).
  rewrite find_at_port by apply Hg. by rewrite Hp.
Qed.

Lemma receive_spec `{C : AddrConv} n c w p m :
  find_port n (ports (bridge w)) = Some p -> port_ok p -> bpdu_priority c = Ok m ->
  exists info tc w' p', rcv_config_bpdu n c w = (Ok (info, tc), w')
    /\ compare_bpdu_info (designated p) m (bpdu_times c) = Ok info
    /\ find_port n (ports (bridge w')) = Some p'
    /\ designated p' = (if decide (info = SUPERIOR) then Some (m, bpdu_times c) else designated p)
    /\ role p' = role p /\ state p' = state p.
Proof.
  intros Hp (_ & Hi & _) Hm.
  destruct (compare_bpdu_info_spec (designated p) m (bpdu_times c) Hi
              (bpdu_priority_ids c m _ Hm)) as (info & Ei & _).
  unfold rcv_config_bpdu. rewrite (bind_get n w p) by done. rewrite Hm.
  rewrite (stm_bind_ok _ _ w m w) by done. cbv zeta. rewrite Ei.
  rewrite (stm_bind_ok _ _ w info w) by done.
  set (p1 := if decide (info = SUPERIOR) then set_designated (Some (m, bpdu_times c)) p else p).
  assert (H1 : exists w1, when (bool_decide (info = SUPERIOR))
      (upd_port n (set_designated (Some (m, bpdu_times c)))) w = (Ok tt, w1)
      /\ find_port n (ports (bridge w1)) = Some p1).
  { unfold p1. destruct (decide (info = SUPERIOR)) as [E|E].
    - rewrite bool_decide_eq_true_2 by done. eexists. split; [reflexivity|]. by apply upd_find.
    - rewrite bool_decide_eq_false_2 by done. by exists w. }
  destruct H1 as (w1 & E1 & F1). rewrite (stm_bind_ok _ _ _ _ _ E1).
  match goal with |- context [(if ?c then _ else mret ?d) ≫= _] =>
    set (guard := c); set (other := d) end.
  set (w2 := if guard then (send (WaitTimerRestart n) w1).2 else w1).
  assert (F2 : find_port n (ports (bridge w2)) = Some p1) by (unfold w2; by destruct guard).
  rewrite (stm_bind_ok _ _ w1 (if guard then true else other) w2) by (unfold w2; by destruct guard).
  set (chk := if guard then true else other). set (ack := chk && _) at 2.
  exists info. eexists. exists (when ack (upd_port n (set_tcn false)) w2).2,
    (if ack then set_tcn false p1 else p1).
  split; [by destruct ack|]. split; [done|]. split; [|].
  - destruct ack; cbn [when]; [by apply upd_find|done].
  - unfold p1. destruct ack, (decide (info = SUPERIOR)); done.
Qed.

End StpFacts.

(** ** Claims *)

Module StpClaims.
Import Stp StpFacts.

Lemma core_unique w p q :
  world_ok w -> p ∈ ports (bridge w) -> q ∈ ports (bridge w) -> core p = core q -> p = q.
Proof.
  intros (Hn & _) Hp Hq E. rewrite <- numbers_cores in Hn.
  eapply same_number; [exact Hn|done|done|]. by rewrite <- (core_no p), E.
Qed.

Lemma core_in w p : p ∈ ports (bridge w) -> core p ∈ cores w.
Proof. intros. apply list_elem_of_In, in_map. by apply list_elem_of_In. Qed.

(** C3: Whatever sequence of packets, port and link changes, expired timers and
    thread turns a bridge goes through, and whichever of them raise: port numbers
    are distinct and bounded; at most one port is the root port, and only while
    the bridge follows a root better than itself; a port disabled by
    configuration stays disabled, a disabled port is designated, and a
    non-designated port never forwards; a port waits for BPDUs exactly when it is
    not designated and sends them exactly when it is listening, learning or
    forwarding. *)
Theorem spanning_tree_invariant `{C : AddrConv} (v : BridgeValues) (conf : Conf) (dp : Datapath)
    (b : Bridge) (t : seconds) (cost : Z) (tr : list output) (es : list stp_event) :
  bridge_init v conf dp = Ok b ->
  let b' := bridge (run es (mkWorld t cost tr b)) in
  NoDup (map port_no (ports b'))
  /\ (forall p q, p ∈ ports b' -> q ∈ ports b' ->
        role p = Some ROOT_PORT -> role q = Some ROOT_PORT -> p = q)
  /\ (forall p, p ∈ ports b' -> role p = Some ROOT_PORT ->
        bid_value (root_id (root_priority b')) < bid_value (bridge_id b'))
  /\ (forall p, p ∈ ports b' -> port_no p <= MAX_PORT_NO /\
        exists s r, state p = Some s /\ role p = Some r
          /\ (config_enable p = false -> s = DISABLE)
          /\ (s = DISABLE -> r = DESIGNATED_PORT)
          /\ (r = NON_DESIGNATED_PORT -> s <> FORWARD)
          /\ (wait_bpdu_thread p = true <-> r <> DESIGNATED_PORT)
          /\ (send_bpdu_thread p = true <-> s = LISTEN \/ s = LEARN \/ s = FORWARD)).
Proof.
  intros Hi b'. set (w := run es (mkWorld t cost tr b)).
  assert (Hw : world_ok w) by (by apply run_ok, (init_ok v conf dp)).
  pose proof Hw as (Hn & _ & Hu & Hr). split; [by rewrite <- numbers_cores in Hn|].
  split; [|split].
  - intros p q Hp Hq Rp Rq. apply (core_unique w); [done..|].
    by apply Hu; [apply core_in|apply core_in| |].
  - intros p Hp Rp. by apply (Hr (core p)); [apply core_in|].
  - intros p Hp. destruct (world_ports_ok w p Hw Hp)
      as (Hno & _ & s & r & E1 & E2 & Hc & Hd & Hf & Hwt & Hsd).
    split; [done|]. exists s, r. do 5 (split; [done|]). rewrite Hwt, Hsd.
    by rewrite negb_true_iff, bool_decide_eq_false, bool_decide_eq_true.
Qed.

(** A switch with three ports next to a better root bridge. *)
Definition mac (x : Z) : string := RawConv.to_string [2; 0; 0; 0; 0; x].
Definition dp3 : Datapath :=
  mkDatapath 7 V1_3 [mkOfPort 1 (mac 7) 64; mkOfPort 2 (mac 8) 32; mkOfPort 3 (mac 9) 32].
Definition from_root (cost bridge n : Z) : Bpdu.config :=
  Bpdu.Config 0 4096 0 (mac 1) cost 32768 0 (mac bridge) 128 n (sec 1) (sec 20) (sec 2) (sec 15).
Definition sample_events : list stp_event :=
  map EPortAdd (dp_ports dp3) ++
  [EPacketIn (Some 1) [Bpdu.BConfig (from_root 20000 2 1)];
   EPacketIn (Some 2) [Bpdu.BConfig (from_root 40000 3 1)];
   EStateTimer 1; EStateTimer 2; EStateTimer 3; EStateTimer 1; EStateTimer 2; EStateTimer 3;
   ELinkDown 4094; ETransmit 3].

Lemma spanning_tree_invariant_witness :
  exists b, bridge_init (C := RawConv.conv) bridge_defaults empty_conf dp3 = Ok b
    /\ let b' := bridge (run (C := RawConv.conv) sample_events (mkWorld (sec 0) 2000000 [] b)) in
       map (fun p => (state p, role p)) (ports b')
       = [(Some FORWARD, Some ROOT_PORT); (Some BLOCK, Some NON_DESIGNATED_PORT);
          (Some FORWARD, Some DESIGNATED_PORT)]
       /\ forall p q, p ∈ ports b' -> q ∈ ports b' -> role p = Some ROOT_PORT ->
            role q = Some ROOT_PORT -> p = q.
Proof.
  destruct (bridge_init (C := RawConv.conv) bridge_defaults empty_conf dp3) as [b|?] eqn:E;
    [|vm_compute in E; discriminate].
  exists b. split; [reflexivity|].
  destruct (spanning_tree_invariant (C := RawConv.conv) bridge_defaults empty_conf dp3 b (sec 0)
    2000000 [] sample_events E) as (_ & H & _).
  split; [|exact H]. vm_compute in E. injection E as <-. vm_compute. reflexivity.
Defined.

(** C14: Recalculation elects the spanning tree from any reachable state and never
    raises: the root port is an enabled port whose information names a root better
    than the bridge and is not beaten, in the order root, path cost, sender and
    sender's port, by that of any other enabled port; without such a port the
    bridge is the root itself.  Every enabled port is listening in the role that
    follows (root, designated where the bridge offers its link the better path,
    non-designated otherwise) and advertises the root chosen; disabled ports are
    untouched. *)
Theorem roles_are_elected `{C : AddrConv} (v : BridgeValues) (conf : Conf) (dp : Datapath)
    (b0 : Bridge) (t : seconds) (cost : Z) (tr : list output) (es : list stp_event) :
  bridge_init v conf dp = Ok b0 ->
  let w := run es (mkWorld t cost tr b0) in
  exists w' root rp rt,
    recalculate_spanning_tree false w = (Ok tt, w')
    /\ elected (bridge w) (ports (bridge w)) root /\ follows (bridge w) root rp rt
    /\ root_priority (bridge w') = rp /\ root_times (bridge w') = rt
    /\ Forall2 (recalculated (bridge w) root rp rt) (ports (bridge w)) (ports (bridge w')).
Proof.
  intros Hi w. assert (Hw : world_ok w) by (by apply run_ok, (init_ok v conf dp)).
  destruct (recalculate_outcome w Hw) as (w' & root & rp & rt & E & H1 & H2 & H3 & H4 & _).
  exists w', root, rp, rt. do 3 (split; [done|]). split; [by rewrite H4|].
  split; [by rewrite H4|done].
Qed.

Lemma roles_are_elected_witness :
  exists b0 w' root rp rt,
    bridge_init (C := RawConv.conv) bridge_defaults empty_conf dp3 = Ok b0
    /\ recalculate_spanning_tree false
         (run (C := RawConv.conv) sample_events (mkWorld (sec 0) 2000000 [] b0)) = (Ok tt, w')
    /\ Forall2 (recalculated (bridge (run (C := RawConv.conv) sample_events
                  (mkWorld (sec 0) 2000000 [] b0))) root rp rt)
         (ports (bridge (run (C := RawConv.conv) sample_events (mkWorld (sec 0) 2000000 [] b0))))
         (ports (bridge w')).
Proof.
  destruct (bridge_init (C := RawConv.conv) bridge_defaults empty_conf dp3) as [b|?] eqn:E;
    [|vm_compute in E; discriminate].
  destruct (roles_are_elected (C := RawConv.conv) bridge_defaults empty_conf dp3 b (sec 0)
    2000000 [] sample_events E) as (w' & root & rp & rt & H1 & _ & _ & _ & _ & H2).
  exists b, w', root, rp, rt. split; [reflexivity|]. split; [exact H1|exact H2].
Defined.

(** A port accepts a configuration BPDU exactly when it improves on what the port
    holds: it holds nothing, or something worse, or the same priority with other
    times.  An accepted one replaces what the port held; otherwise that is kept,
    and the BPDU is reported inferior exactly when what the port holds is better.
    Receiving never changes the role or the state of the port. *)
Theorem superior_bpdu_is_kept `{C : AddrConv} (v : BridgeValues) (conf : Conf) (dp : Datapath)
    (b0 : Bridge) (t : seconds) (cost : Z) (tr : list output) (es : list stp_event)
    (n : Z) (p : Port) (c : Bpdu.config) (m : Priority) :
  bridge_init v conf dp = Ok b0 ->
  let w := run es (mkWorld t cost tr b0) in
  find_port n (ports (bridge w)) = Some p -> bpdu_priority c = Ok m ->
  exists info tc w' p',
    rcv_config_bpdu n c w = (Ok (info, tc), w')
    /\ find_port n (ports (bridge w')) = Some p'
    /\ designated p' = (if decide (info = SUPERIOR) then Some (m, bpdu_times c) else designated p)
    /\ role p' = role p /\ state p' = state p
    /\ match designated p with
       | None => info = SUPERIOR
       | Some (m0, t0) =>
           (info = SUPERIOR <-> better m m0 \/ (~ better m0 m /\ bpdu_times c <> t0))
           /\ (info = INFERIOR <-> better m0 m)
       end.
Proof.
  intros Hi w Hp Hm. assert (Hw : world_ok w) by (by apply run_ok, (init_ok v conf dp)).
  pose proof (find_ok n w p Hw Hp) as Hok.
  destruct (receive_spec n c w p m Hp Hok Hm) as (info & tc & w' & p' & E & Ei & F & D & R & S).
  destruct Hok as (_ & Hinfo & _).
  destruct (compare_bpdu_info_spec (designated p) m (bpdu_times c) Hinfo
              (bpdu_priority_ids c m _ Hm)) as (info' & Ei' & Hspec).
  rewrite Ei in Ei'. injection Ei' as <-. by exists info, tc, w', p'.
Qed.

Lemma superior_bpdu_is_kept_witness :
  exists b0 p info tc w' p',
    bridge_init (C := RawConv.conv) bridge_defaults empty_conf dp3 = Ok b0
    /\ find_port 1 (ports (bridge (run (C := RawConv.conv) sample_events
                                      (mkWorld (sec 0) 2000000 [] b0)))) = Some p
    /\ rcv_config_bpdu (C := RawConv.conv) 1 (from_root 10000 2 1)
         (run (C := RawConv.conv) sample_events (mkWorld (sec 0) 2000000 [] b0))
       = (Ok (info, tc), w')
    /\ find_port 1 (ports (bridge w')) = Some p' /\ state p' = state p.
Proof.
  destruct (bridge_init (C := RawConv.conv) bridge_defaults empty_conf dp3) as [b|?] eqn:E;
    [|vm_compute in E; discriminate].
  destruct (find_port 1 (ports (bridge (run (C := RawConv.conv) sample_events
    (mkWorld (sec 0) 2000000 [] b))))) as [p|] eqn:Ep;
    [|exfalso; vm_compute in E; injection E as <-; vm_compute in Ep; discriminate].
  destruct (bpdu_priority (C := RawConv.conv) (from_root 10000 2 1)) as [m|?] eqn:Em;
    [|vm_compute in Em; discriminate].
  destruct (superior_bpdu_is_kept (C := RawConv.conv) bridge_defaults empty_conf dp3 b (sec 0)
    2000000 [] sample_events 1 p (from_root 10000 2 1) m E Ep Em)
    as (info & tc & w' & p' & H1 & H2 & _ & _ & H3 & _).
  exists b, p, info, tc, w', p'. split; [reflexivity|]. split; [exact Ep|]. split; [exact H1|].
  split; [exact H2|exact H3].
Defined.

(** C40: The port state machine makes progress: a listening port whose forward delay is
    not zero learns after one expired timer and after the next one forwards, or
    blocks if it is non-designated; its role is unchanged, and then no timer moves
    it any more. *)
Theorem port_reaches_its_state `{C : AddrConv} (v : BridgeValues) (conf : Conf) (dp : Datapath)
    (b0 : Bridge) (t : seconds) (cost : Z) (tr : list output) (es : list stp_event)
    (n : Z) (p : Port) :
  bridge_init v conf dp = Ok b0 ->
  let w := run es (mkWorld t cost tr b0) in
  find_port n (ports (bridge w)) = Some p -> state p = Some LISTEN ->
  forward_delay (port_times p) <> sec 0 ->
  exists w1 p1 w2 p2,
    state_timeout n w = (Ok tt, w1) /\ find_port n (ports (bridge w1)) = Some p1
    /\ state p1 = Some LEARN
    /\ state_timeout n w1 = (Ok tt, w2) /\ find_port n (ports (bridge w2)) = Some p2
    /\ state p2 = Some (if decide (role p = Some NON_DESIGNATED_PORT) then BLOCK else FORWARD)
    /\ role p2 = role p /\ state_timeout n w2 = (Ok tt, w2).
Proof.
  intros Hi w Hp Hs Hd. assert (Hw : world_ok w) by (by apply run_ok, (init_ok v conf dp)).
  pose proof (find_ok n w p Hw Hp) as (_ & _ & _ & r & _ & Er & _).
  destruct (timeout_step n w p LISTEN LEARN Hw Hp Hs) as (w1 & p1 & E1 & Hw1 & F1 & S1 & R1 & T1);
    [auto|done|unfold _get_next_state; by rewrite Hs|].
  destruct (timeout_step n w1 p1 LEARN
    (if decide (role p = Some NON_DESIGNATED_PORT) then BLOCK else FORWARD) Hw1 F1 S1)
    as (w2 & p2 & E2 & Hw2 & F2 & S2 & R2 & T2); [auto|by rewrite T1| |].
  { unfold _get_next_state, has_role. rewrite S1, R1, Er. by destruct r. }
  exists w1, p1, w2, p2. do 6 (split; [done|]). split; [congruence|].
  unfold state_timeout. rewrite (bind_get n w2 p2) by done. unfold _get_timer. rewrite S2.
  by case_decide.
Qed.

Lemma port_reaches_its_state_witness :
  exists b0 p w1 p1 w2 p2,
    bridge_init (C := RawConv.conv) bridge_defaults empty_conf dp3 = Ok b0
    /\ find_port 1 (ports (bridge (run (C := RawConv.conv) (map EPortAdd (dp_ports dp3))
                                      (mkWorld (sec 0) 2000000 [] b0)))) = Some p
    /\ state p1 = Some LEARN /\ state_timeout 1 w1 = (Ok tt, w2)
    /\ find_port 1 (ports (bridge w2)) = Some p2 /\ role p2 = role p.
Proof.
  destruct (bridge_init (C := RawConv.conv) bridge_defaults empty_conf dp3) as [b|?] eqn:E;
    [|vm_compute in E; discriminate].
  destruct (find_port 1 (ports (bridge (run (C := RawConv.conv) (map EPortAdd (dp_ports dp3))
    (mkWorld (sec 0) 2000000 [] b))))) as [p|] eqn:Ep;
    [|exfalso; vm_compute in E; injection E as <-; vm_compute in Ep; discriminate].
  assert (Hp : state p = Some LISTEN /\ forward_delay (port_times p) = sec 15).
  { vm_compute in E. injection E as <-. vm_compute in Ep. injection Ep as <-.
    split; vm_compute; reflexivity. }
  destruct (port_reaches_its_state (C := RawConv.conv) bridge_defaults empty_conf dp3 b (sec 0)
    2000000 [] (map EPortAdd (dp_ports dp3)) 1 p E Ep (proj1 Hp))
    as (w1 & p1 & w2 & p2 & _ & _ & H1 & H2 & H3 & _ & H4 & _).
  { rewrite (proj2 Hp). intros Hq. apply (f_equal (fun q => Qnum (this q))) in Hq.
    vm_compute in Hq. discriminate. }
  exists b, p, w1, p1, w2, p2. split; [reflexivity|]. split; [exact Ep|]. split; [exact H1|].
  split; [exact H2|]. split; [exact H3|exact H4].
Defined.

(** A port beyond MAX_PORT_NO is never entered, so a link change of such a port (the
    local port of the switch) raises [KeyError]. *)
Theorem reserved_port_raises `{C : AddrConv} (v : BridgeValues) (conf : Conf) (dp : Datapath)
    (b0 : Bridge) (t : seconds) (cost : Z) (tr : list output) (es : list stp_event) (n : Z) :
  bridge_init v conf dp = Ok b0 -> MAX_PORT_NO < n ->
  let w := run es (mkWorld t cost tr b0) in
  link_up n w = (Err KeyError, w) /\ link_down n w = (Err KeyError, w)
  /\ port_delete n w = (Err KeyError, w).
Proof.
  intros Hi Hn w. assert (Hw : world_ok w) by (by apply run_ok, (init_ok v conf dp)).
  assert (E : find_port n (ports (bridge w)) = None).
  { destruct (find_port n (ports (bridge w))) as [p|] eqn:E; [|done].
    pose proof (find_ok n w p Hw E) as (Hno & _). apply find_port_no in E as [En _]. lia. }
  assert (Hd : link_down n w = (Err KeyError, w))
    by (unfold link_down; by rewrite (stm_bind_err _ _ _ _ _ (get_port_none _ _ E))).
  split; [|split; [done|]].
  - unfold link_up. by rewrite (stm_bind_err _ _ _ _ _ (get_port_none _ _ E)).
  - unfold port_delete. by rewrite (stm_bind_err _ _ _ _ _ Hd).
Qed.

(** The configured priority and path cost of a port have no effect. *)
Theorem port_conf_is_ignored (c1 c2 : PortConf) (op : OfPort) :
  pc_enable c1 = pc_enable c2 -> new_port c1 op = new_port c2 op.
Proof. intros E. unfold new_port. by rewrite E. Qed.

(** The configuration of one bridge stays in the defaults of the class: a bridge that
    registers later without configuration gets the priority of the first. *)
Theorem bridge_conf_leaks :
  let conf := mkConf (mkBridgeConf (Some 4096) None None None None) ∅ in
  let a0 := mkApp {[1 := conf]} bridge_defaults (sec 0) 2000000 [] ∅ in
  let a := ((_register_bridge (C := RawConv.conv) (mkDatapath 1 V1_3 [mkOfPort 1 (mac 1) 32]);;
             _register_bridge (C := RawConv.conv) (mkDatapath 2 V1_3 [mkOfPort 1 (mac 2) 32])) a0).2 in
  (fun b => bid_priority (bridge_id b)) <$> bridge_list a !! 2 = Some 4096.
Proof. vm_compute. reflexivity. Qed.

End StpClaims.
