(* ===== verification/TopoStores.v ===== *)
(** * Stores of the topology discovery (ryu/topology/switches.py)

    [Port] and the dictionaries of the application: [PortDataState], a dictionary
    with a doubly linked list that keeps the order of its keys, [LinkState] and
    [HostState].  A [Port] is compared and hashed by datapath id and port number
    only, so a key is this pair.  The nodes of the linked list are Python lists
    that refer to each other; they are kept in a store and referred to by their
    location, and every assignment of the code is an update of the store.

    [OrderedList] is the abstract specification of [PortDataState]: an association
    list in iteration order.  Time is in microseconds. *)

From Stdlib Require Import ZArith Lia.
From stdpp Require Import base list gmap strings numbers.
From S2P Require Import Prelude Struct.

(** ** Ports *)

(** The identity of a [Port]: [dpid] and [port_no]. *)
Definition pid : Type := Z * Z.

(** Constants of the protocol modules of the versions 1.0 and 1.2 to 1.4. *)
Definition OFPP_MAX (version : Z) : Z := if version =? 1 then 0xff00 else 0xffffff00.
Definition OFPP_CONTROLLER (version : Z) : Z := if version =? 1 then 0xfffd else 0xfffffffd.
Definition OFPPS_LINK_DOWN : Z := 1.
Definition OFPPC_PORT_DOWN : Z := 1.
Definition OFP_NO_BUFFER : Z := 0xffffffff.
Definition OFPCML_NO_BUFFER : Z := 0xffff.

(** The attributes of an OFPPort that are read. *)
Record OFPPort := MkOFPPort {
  op_port_no : Z; op_hw_addr : string; op_name : string; op_config : Z; op_state : Z }.

Record Port := MkPort {
  dpid : Z; _version : Z; _config : Z; _state : Z; port_no : Z; hw_addr : string; name : string }.

Definition Port_init (dpid version : Z) (ofpport : OFPPort) : Port :=
  MkPort dpid version (op_config ofpport) (op_state ofpport) (op_port_no ofpport)
    (op_hw_addr ofpport) (op_name ofpport).

Definition is_reserved (p : Port) : bool := OFPP_MAX (_version p) <? port_no p.

Definition is_down (p : Port) : bool :=
  (0 <? Z.land (_state p) OFPPS_LINK_DOWN) || (0 <? Z.land (_config p) OFPPC_PORT_DOWN).

Definition is_live (p : Port) : bool := negb (is_down p).

(** What [__eq__] and [__hash__] look at. *)
Definition key_of (p : Port) : pid := (dpid p, port_no p).

(** ** Data kept per port *)

Record PortData := MkPortData {
  pd_is_down : bool; lldp_data : bytes; timestamp : option Z; sent : Z }.

#[global] Instance PortData_eq_dec : EqDecision PortData.
Proof. solve_decision. Defined.

Definition PortData_init (is_down : bool) (lldp_data : bytes) : PortData :=
  MkPortData is_down lldp_data None 0.

Definition pd_lldp_sent (now : Z) (d : PortData) : PortData :=
  MkPortData (pd_is_down d) (lldp_data d) (Some now) (sent d + 1).

Definition pd_lldp_received (d : PortData) : PortData :=
  MkPortData (pd_is_down d) (lldp_data d) (timestamp d) 0.

Definition pd_lldp_dropped (d : PortData) : Z := sent d.

Definition pd_clear_timestamp (d : PortData) : PortData :=
  MkPortData (pd_is_down d) (lldp_data d) None (sent d).

Definition pd_set_down (is_down : bool) (d : PortData) : PortData :=
  MkPortData is_down (lldp_data d) (timestamp d) (sent d).

(** ** The ordered dictionary *)

Module PortDataState.

(** A node [[_PREV, _NEXT, _KEY]]; the key of the root is [None]. *)
Record node := Node { _PREV : nat; _NEXT : nat; _KEY : option pid }.

(** The store of the nodes: a location without entry is a list that was emptied.
    [brk] is the next location to allocate. *)
Record t := Mk {
  heap : gmap nat node; brk : nat; _root : nat; _map : gmap pid nat; dict : gmap pid PortData }.

Definition init : t := Mk {[0%nat := Node 0 0 None]} 1 0 ∅ ∅.

Definition with_heap (h : gmap nat node) (s : t) : t := Mk h (brk s) (_root s) (_map s) (dict s).
Definition with_map (m : gmap pid nat) (s : t) : t := Mk (heap s) (brk s) (_root s) m (dict s).
Definition with_dict (d : gmap pid PortData) (s : t) : t := Mk (heap s) (brk s) (_root s) (_map s) d.

(** [l[_PREV]] and [l[_NEXT]] of a node and the assignments to them *)
Definition load (l : nat) : stm t node :=
  h ← gets heap; lift_res (or_raise IndexError (h !! l)).

Definition set_NEXT (l v : nat) : stm t unit :=
  n ← load l; modify (fun s => with_heap (<[l := Node (_PREV n) v (_KEY n)]> (heap s)) s).

Definition set_PREV (l v : nat) : stm t unit :=
  n ← load l; modify (fun s => with_heap (<[l := Node v (_NEXT n) (_KEY n)]> (heap s)) s).

(** A new list *)
Definition alloc (n : node) : stm t nat :=
  l ← gets brk;
  modify (fun s => Mk (<[l := n]> (heap s)) (S l) (_root s) (_map s) (dict s)) ;;
  mret l.

(** The node popped from the map is taken apart into three names. *)
Definition _remove_key (key : pid) : stm t unit :=
  m ← gets _map;
  l ← lift_res (or_raise KeyError (m !! key));
  modify (with_map (delete key m)) ;;
  h ← gets heap;
  n ← lift_res (or_raise ValueError (h !! l));
  set_NEXT (_PREV n) (_NEXT n) ;;
  set_PREV (_NEXT n) (_PREV n).

(** The targets of the assignment are assigned from left to right. *)
Definition _append_key (key : pid) : stm t unit :=
  root ← gets _root;
  r ← load root;
  let last := _PREV r in
  x ← alloc (Node last root (Some key));
  set_NEXT last x ;;
  set_PREV root x ;;
  modify (fun s => with_map (<[key := x]> (_map s)) s).

Definition _prepend_key (key : pid) : stm t unit :=
  root ← gets _root;
  r ← load root;
  let first := _NEXT r in
  x ← alloc (Node root first (Some key));
  set_PREV first x ;;
  set_NEXT root x ;;
  modify (fun s => with_map (<[key := x]> (_map s)) s).

Definition _move_last_key (key : pid) : stm t unit := _remove_key key ;; _append_key key.
Definition _move_front_key (key : pid) : stm t unit := _remove_key key ;; _prepend_key key.

(** [self[port]] and [self[port] = data] *)
Definition getitem (port : pid) : stm t PortData :=
  d ← gets dict; lift_res (or_raise KeyError (d !! port)).

Definition setitem (port : pid) (data : PortData) : stm t unit :=
  modify (fun s => with_dict (<[port := data]> (dict s)) s).

Definition add_port (port : pid) (is_down : bool) (lldp_data : bytes) : stm t unit :=
  d ← gets dict;
  match d !! port with
  | None => _prepend_key port ;; setitem port (PortData_init is_down lldp_data)
  | Some data => setitem port (pd_set_down is_down data)
  end.

Definition lldp_sent (now : Z) (port : pid) : stm t PortData :=
  port_data ← getitem port;
  setitem port (pd_lldp_sent now port_data) ;;
  _move_last_key port ;;
  mret (pd_lldp_sent now port_data).

Definition lldp_received (port : pid) : stm t unit :=
  port_data ← getitem port; setitem port (pd_lldp_received port_data).

Definition move_front (port : pid) : stm t unit :=
  d ← gets dict;
  match d !! port with
  | None => mret tt
  | Some data => setitem port (pd_clear_timestamp data) ;; _move_front_key port
  end.

Definition set_down (port : pid) (is_down : bool) : stm t bool :=
  port_data ← getitem port;
  setitem port (pd_clear_timestamp (pd_set_down is_down port_data)) ;;
  (if is_down then mret tt else _move_front_key port) ;;
  mret is_down.

Definition get_port (port : pid) : stm t PortData := getitem port.

Definition del_port (port : pid) : stm t unit :=
  d ← gets dict;
  lift_res (or_raise KeyError (d !! port)) ;;
  modify (with_dict (delete port d)) ;;
  _remove_key port.

(** [__iter__]: from the root along [_NEXT] until the root is met again; [None] when
    that has not happened after [fuel] nodes. *)
Fixpoint walk (fuel : nat) (h : gmap nat node) (root curr : nat) : option (list pid) :=
  match fuel with
  | O => None
  | S fuel =>
      if (curr =? root)%nat then Some []
      else match h !! curr with
           | Some (Node _ nxt (Some k)) => cons k <$> walk fuel h root nxt
           | _ => None
           end
  end.

Definition keys (s : t) : option (list pid) :=
  r ← heap s !! _root s; walk (S (size (_map s))) (heap s) (_root s) (_NEXT r).

(** [items]: keys in order with their values *)
Definition items (s : t) : option (list (pid * PortData)) :=
  ks ← keys s; mapM (fun k => d ← dict s !! k; Some (k, d)) ks.

Definition clear : stm t unit :=
  modify (fun s =>
    Mk {[_root s := Node (_root s) (_root s) None]} (brk s) (_root s) ∅ ∅).

End PortDataState.

(** ** The specification: an association list in iteration order *)

Module OrderedList.

Definition t : Type := list (pid * PortData).

(** The entries in front of a key, its value and the entries behind it. *)
Fixpoint split_at (k : pid) (l : t) : option (t * PortData * t) :=
  match l with
  | [] => None
  | (k', d) :: l =>
      if decide (k' = k) then Some ([], d, l)
      else match split_at k l with
           | Some (l1, d', l2) => Some ((k', d) :: l1, d', l2)
           | None => None
           end
  end.

(** Apply [f] to the value of a key, which must be there, and put the entry where
    [place] says. *)
Definition at_key (k : pid) (f : PortData -> PortData)
    (place : t -> pid * PortData -> t -> t) : stm t PortData := fun l =>
  match split_at k l with
  | Some (l1, d, l2) => (Ok (f d), place l1 (k, f d) l2)
  | None => (Err KeyError, l)
  end.

Definition stay (l1 : t) (e : pid * PortData) (l2 : t) : t := l1 ++ e :: l2.
Definition to_front (l1 : t) (e : pid * PortData) (l2 : t) : t := e :: l1 ++ l2.
Definition to_end (l1 : t) (e : pid * PortData) (l2 : t) : t := (l1 ++ l2) ++ [e].
Definition gone (l1 : t) (e : pid * PortData) (l2 : t) : t := l1 ++ l2.

Definition add_port (k : pid) (is_down : bool) (lldp_data : bytes) : stm t unit := fun l =>
  match split_at k l with
  | None => (Ok tt, (k, PortData_init is_down lldp_data) :: l)
  | Some (l1, d, l2) => (Ok tt, l1 ++ (k, pd_set_down is_down d) :: l2)
  end.

Definition lldp_sent (now : Z) (k : pid) : stm t PortData := at_key k (pd_lldp_sent now) to_end.

Definition lldp_received (k : pid) : stm t unit := at_key k pd_lldp_received stay ;; mret tt.

Definition move_front (k : pid) : stm t unit := fun l =>
  match split_at k l with
  | None => (Ok tt, l)
  | Some (l1, d, l2) => (Ok tt, (k, pd_clear_timestamp d) :: l1 ++ l2)
  end.

Definition set_down (k : pid) (is_down : bool) : stm t bool :=
  at_key k (fun d => pd_clear_timestamp (pd_set_down is_down d))
    (if is_down then stay else to_front) ;;
  mret is_down.

Definition get_port (k : pid) : stm t PortData := at_key k id stay.

Definition del_port (k : pid) : stm t unit := at_key k id gone ;; mret tt.

End OrderedList.

(** ** The linked list keeps the order of its keys *)

Module ListFacts.
Import PortDataState.

Definition nxt (h : gmap nat node) (l : nat) : option nat := _NEXT <$> h !! l.
Definition prv (h : gmap nat node) (l : nat) : option nat := _PREV <$> h !! l.
Definition key_at (h : gmap nat node) (l : nat) : option (option pid) := _KEY <$> h !! l.

Definition upd_next (l v : nat) (h : gmap nat node) : gmap nat node :=
  alter (fun n => Node (_PREV n) v (_KEY n)) l h.
Definition upd_prev (l v : nat) (h : gmap nat node) : gmap nat node :=
  alter (fun n => Node v (_NEXT n) (_KEY n)) l h.

Lemma fmap_alter_same {A} (p : node -> A) (f : node -> node) l l' (h : gmap nat node) :
  (forall n, p (f n) = p n) -> p <$> alter f l h !! l' = p <$> h !! l'.
Proof.
  intros Hp. destruct (decide (l = l')) as [->|Hne].
  - rewrite lookup_alter_eq. destruct (h !! l'); cbn; [by rewrite Hp|done].
  - by rewrite lookup_alter_ne.
Qed.

Lemma nxt_upd_prev l v h l' : nxt (upd_prev l v h) l' = nxt h l'.
Proof. by apply fmap_alter_same. Qed.
Lemma prv_upd_next l v h l' : prv (upd_next l v h) l' = prv h l'.
Proof. by apply fmap_alter_same. Qed.
Lemma key_upd_next l v h l' : key_at (upd_next l v h) l' = key_at h l'.
Proof. by apply fmap_alter_same. Qed.
Lemma key_upd_prev l v h l' : key_at (upd_prev l v h) l' = key_at h l'.
Proof. by apply fmap_alter_same. Qed.

Lemma nxt_upd_next l v h : is_Some (h !! l) -> nxt (upd_next l v h) l = Some v.
Proof. intros [n Hn]. unfold nxt, upd_next. by rewrite lookup_alter_eq, Hn. Qed.
Lemma prv_upd_prev l v h : is_Some (h !! l) -> prv (upd_prev l v h) l = Some v.
Proof. intros [n Hn]. unfold prv, upd_prev. by rewrite lookup_alter_eq, Hn. Qed.
Lemma nxt_upd_next_ne l v h l' : l <> l' -> nxt (upd_next l v h) l' = nxt h l'.
Proof. intros. unfold nxt, upd_next. by rewrite lookup_alter_ne. Qed.
Lemma prv_upd_prev_ne l v h l' : l <> l' -> prv (upd_prev l v h) l' = prv h l'.
Proof. intros. unfold prv, upd_prev. by rewrite lookup_alter_ne. Qed.

Lemma upd_next_some l v h l' : is_Some (upd_next l v h !! l') <-> is_Some (h !! l').
Proof. unfold upd_next. apply lookup_alter_is_Some. Qed.
Lemma upd_prev_some l v h l' : is_Some (upd_prev l v h !! l') <-> is_Some (h !! l').
Proof. unfold upd_prev. apply lookup_alter_is_Some. Qed.

Create Rewrite HintDb links.
#[local] Hint Rewrite nxt_upd_prev prv_upd_next key_upd_next key_upd_prev : links.

(** The nodes [ls] lie, linked in both directions, between [a] and [b]. *)
Fixpoint dls (h : gmap nat node) (a : nat) (ls : list nat) (b : nat) : Prop :=
  match ls with
  | [] => nxt h a = Some b /\ prv h b = Some a
  | x :: ls => nxt h a = Some x /\ prv h x = Some a /\ dls h x ls b
  end.

Lemma nxt_some h a b : nxt h a = Some b -> is_Some (h !! a).
Proof. unfold nxt. destruct (h !! a); [by eexists|done]. Qed.
Lemma prv_some h a b : prv h a = Some b -> is_Some (h !! a).
Proof. unfold prv. destruct (h !! a); [by eexists|done]. Qed.

(** A chain depends on the forward links of its nodes but the last and on the backward
    links of its nodes but the first. *)
Lemma dls_frame h h' a ls b :
  (forall l, l ∈ a :: ls -> nxt h' l = nxt h l) -> (forall l, l ∈ ls ++ [b] -> prv h' l = prv h l) ->
  dls h a ls b -> dls h' a ls b.
Proof.
  revert a. induction ls as [|x ls IH]; intros a Hn Hp; cbn [dls].
  - intros [H1 H2]. rewrite Hn, Hp by set_solver. done.
  - intros (H1 & H2 & H3). rewrite Hn, Hp by set_solver. split; [done|]. split; [done|].
    apply IH; [| |done]; intros l Hl; [apply Hn|apply Hp]; set_solver.
Qed.

Lemma dls_ends h a ls b : dls h a ls b ->
  (exists x, nxt h a = Some x /\ x ∈ ls ++ [b]) /\ (exists y, prv h b = Some y /\ y ∈ a :: ls).
Proof.
  revert a. induction ls as [|x ls IH]; intros a; cbn [dls].
  - intros [H1 H2]. split; eexists; (split; [done|set_solver]).
  - intros (H1 & H2 & H3). destruct (IH x H3) as [_ (y & Hy & Hin)].
    split; eexists; (split; [done|set_solver]).
Qed.

(** Taking a node out of a chain by the two assignments of [_remove_key]. *)
Lemma dls_remove h a ls1 x ls2 b : dls h a (ls1 ++ x :: ls2) b ->
  NoDup (a :: ls1 ++ x :: ls2) -> NoDup (ls1 ++ x :: ls2 ++ [b]) ->
  exists p n, prv h x = Some p /\ nxt h x = Some n /\ p ∈ a :: ls1 /\ n ∈ ls2 ++ [b]
    /\ dls (upd_prev n p (upd_next p n h)) a (ls1 ++ ls2) b.
Proof.
  revert a. induction ls1 as [|c ls1 IH]; intros a Hd Hn Hp; cbn [app dls] in *.
  - destruct Hd as (H1 & H2 & H3). exists a. destruct ls2 as [|y ls2]; cbn [dls app] in *.
    + destruct H3 as [H3 H4]. exists b. do 2 (split; [done|]). split; [set_solver|]. split; [set_solver|].
      autorewrite with links. rewrite nxt_upd_next by (by eapply nxt_some).
      rewrite prv_upd_prev by (apply upd_next_some; by eapply prv_some). done.
    + destruct H3 as (H3 & H4 & H5). exists y. do 2 (split; [done|]). split; [set_solver|]. split; [set_solver|].
      autorewrite with links. rewrite nxt_upd_next by (by eapply nxt_some).
      rewrite prv_upd_prev by (apply upd_next_some; by eapply prv_some). split; [done|]. split; [done|].
      apply list.NoDup_cons in Hn as [Hn _]. apply list.NoDup_cons in Hp as [_ Hp]. apply list.NoDup_cons in Hp as [Hp _].
      eapply dls_frame; [| |exact H5]; intros l Hl; autorewrite with links.
      * rewrite nxt_upd_next_ne; [done|set_solver].
      * rewrite prv_upd_prev_ne; [by autorewrite with links|set_solver].
  - destruct Hd as (H1 & H2 & H3). apply list.NoDup_cons in Hn as [Hna Hn]. apply list.NoDup_cons in Hp as [Hpc Hp].
    destruct (IH c H3 Hn Hp) as (p & n & Hpx & Hnx & Hpin & Hnin & Hd).
    exists p, n. do 2 (split; [done|]). split; [set_solver|]. split; [done|].
    autorewrite with links. rewrite nxt_upd_next_ne by set_solver.
    rewrite prv_upd_prev_ne by set_solver. by autorewrite with links.
Qed.

(** Putting a new node [x] at the two ends of a chain. *)
Lemma dls_prepend h a ls b x k f : dls h a ls b -> NoDup (a :: ls) -> NoDup (ls ++ [b]) ->
  h !! x = None -> nxt h a = Some f ->
  dls (upd_next a x (upd_prev f x (<[x := Node a f k]> h))) a (x :: ls) b.
Proof.
  intros Hd Hn Hp Hx Hf. assert (Hax : a <> x) by (intros ->; unfold nxt in Hf; by rewrite Hx in Hf).
  assert (Hfx : is_Some (h !! f)).
  { destruct ls; cbn in Hd; [destruct Hd as [? H]|destruct Hd as (? & H & _)];
      apply prv_some in H; congruence. }
  assert (f <> x) by (intros ->; by rewrite Hx in Hfx; apply is_Some_None in Hfx).
  set (h1 := <[x := Node a f k]> h).
  assert (Hs : forall l, l <> x -> h1 !! l = h !! l) by (intros; by apply lookup_insert_ne).
  cbn [dls]. autorewrite with links. rewrite nxt_upd_next by (apply upd_prev_some; rewrite Hs by done; by eapply nxt_some).
  split; [done|]. rewrite prv_upd_prev_ne by done. split; [unfold prv, h1; by rewrite lookup_insert_eq|].
  assert (Hx1 : nxt (upd_next a x (upd_prev f x h1)) x = Some f).
  { rewrite nxt_upd_next_ne by done. autorewrite with links. unfold nxt, h1. by rewrite lookup_insert_eq. }
  assert (Hf1 : prv (upd_next a x (upd_prev f x h1)) f = Some x).
  { autorewrite with links. apply prv_upd_prev. by rewrite Hs. }
  assert (Hout : forall l, l ∈ ls ++ [b] -> l <> x).
  { intros l Hl ->. clear - Hd Hx Hl. revert a Hd. induction ls as [|y ls IH]; intros a; cbn [dls].
    - intros [_ H]. apply prv_some in H. assert (x = b) as -> by set_solver. rewrite Hx in H.
      by apply is_Some_None in H.
    - intros (_ & H & Hd). apply prv_some in H. destruct (decide (x = y)) as [->|].
      + rewrite Hx in H. by apply is_Some_None in H.
      + eapply IH; [set_solver|done]. }
  destruct ls as [|y ls]; cbn [dls] in *.
  - destruct Hd as [H1 H2]. rewrite Hf in H1. injection H1 as ->. done.
  - destruct Hd as (H1 & H2 & H3). rewrite Hf in H1. injection H1 as ->.
    split; [done|]. split; [done|]. apply list.NoDup_cons in Hn as [Hn _]. apply list.NoDup_cons in Hp as [Hp _].
    eapply dls_frame; [| |exact H3]; intros l Hl; autorewrite with links.
    + rewrite nxt_upd_next_ne by set_solver. autorewrite with links. unfold nxt. rewrite Hs; [done|].
      apply Hout. set_solver.
    + rewrite prv_upd_prev_ne by set_solver. unfold prv. rewrite Hs; [done|]. apply Hout. set_solver.
Qed.

Lemma dls_append h a ls b x k p : dls h a ls b -> NoDup (a :: ls) -> NoDup (ls ++ [b]) ->
  h !! x = None -> prv h b = Some p ->
  dls (upd_prev b x (upd_next p x (<[x := Node p b k]> h))) a (ls ++ [x]) b.
Proof.
  intros Hd Hn Hp Hx. assert (Hxs : forall l, is_Some (h !! l) -> l <> x).
  { intros l Hl ->. rewrite Hx in Hl. by apply is_Some_None in Hl. }
  set (h1 := <[x := Node p b k]> h).
  assert (Hs : forall l, l <> x -> h1 !! l = h !! l) by (intros; by apply lookup_insert_ne).
  revert a Hd Hn. induction ls as [|y ls IH]; intros a Hd Hn Hb; cbn [dls app] in *.
  - destruct Hd as [H1 H2]. rewrite Hb in H2. injection H2 as ->.
    pose proof (Hxs a (nxt_some _ _ _ H1)). pose proof (Hxs b (prv_some _ _ _ Hb)).
    autorewrite with links. rewrite nxt_upd_next by (rewrite Hs by done; by eapply nxt_some).
    rewrite prv_upd_prev_ne by done. autorewrite with links.
    rewrite nxt_upd_next_ne by done. rewrite prv_upd_prev by (apply upd_next_some; rewrite Hs by done; by eapply prv_some).
    unfold nxt, prv, h1. rewrite lookup_insert_eq. done.
  - destruct Hd as (H1 & H2 & H3). apply list.NoDup_cons in Hn as [Hna Hn].
    pose proof Hp as Hp'. apply list.NoDup_cons in Hp' as [Hpy Hp'].
    pose proof (Hxs a (nxt_some _ _ _ H1)). pose proof (Hxs y (prv_some _ _ _ H2)).
    destruct (dls_ends _ _ _ _ H3) as [_ (q & Hq & Hqin)]. rewrite Hb in Hq. injection Hq as <-.
    split; [|split; [|by apply IH]].
    + autorewrite with links. rewrite nxt_upd_next_ne by set_solver. unfold nxt. by rewrite Hs.
    + rewrite prv_upd_prev_ne by set_solver. autorewrite with links. unfold prv. by rewrite Hs.
Qed.

(** The state of the dictionary's linked list: its keys are [ks], in this order. *)
Definition linked (s : t) (ks : list pid) : Prop :=
  exists ls, NoDup (_root s :: ls) /\ Forall (fun l => l < brk s)%nat (_root s :: ls)
    /\ dls (heap s) (_root s) ls (_root s)
    /\ Forall2 (fun k x => _map s !! k = Some x /\ key_at (heap s) x = Some (Some k)) ks ls
    /\ dom (_map s) = list_to_set ks
    /\ (forall l, (brk s <= l)%nat -> heap s !! l = None).

Lemma run_load s l n : heap s !! l = Some n -> load l s = (Ok n, s).
Proof. intros H. unfold load. stm_unfold. by rewrite H. Qed.

Lemma alter_some (f : node -> node) (l : nat) (h : gmap nat node) n : h !! l = Some n -> <[l := f n]> h = alter f l h.
Proof.
  intros H. apply map_eq. intros i. destruct (decide (l = i)) as [->|].
  - by rewrite lookup_insert_eq, lookup_alter_eq, H.
  - by rewrite lookup_insert_ne, lookup_alter_ne.
Qed.

Lemma run_set_NEXT s l v : is_Some (heap s !! l) ->
  set_NEXT l v s = (Ok tt, with_heap (upd_next l v (heap s)) s).
Proof.
  intros [n Hn]. unfold set_NEXT. rewrite (stm_bind_ok _ _ _ _ _ (run_load s l n Hn)).
  stm_unfold. unfold upd_next. by rewrite <- (alter_some _ l (heap s) n Hn).
Qed.

Lemma run_set_PREV s l v : is_Some (heap s !! l) ->
  set_PREV l v s = (Ok tt, with_heap (upd_prev l v (heap s)) s).
Proof.
  intros [n Hn]. unfold set_PREV. rewrite (stm_bind_ok _ _ _ _ _ (run_load s l n Hn)).
  stm_unfold. unfold upd_prev. by rewrite <- (alter_some _ l (heap s) n Hn).
Qed.

Lemma root_prev_nodup r ls : NoDup (r :: ls) -> NoDup (ls ++ [r : nat]).
Proof. intros H. rewrite <- Permutation_cons_append. done. Qed.

Lemma dls_nodes h a ls b : dls h a ls b -> forall l, l ∈ a :: ls -> is_Some (h !! l).
Proof.
  revert a. induction ls as [|x ls IH]; intros a; cbn [dls].
  - intros [H _] l Hl. assert (l = a) as -> by set_solver. by eapply nxt_some.
  - intros (H & _ & Hd) l [->|Hl]%elem_of_cons; [by eapply nxt_some|by eapply IH].
Qed.

Lemma Forall2_impl_in {A B} (P Q : A -> B -> Prop) l k : Forall2 P l k ->
  (forall a b, a ∈ l -> b ∈ k -> P a b -> Q a b) -> Forall2 Q l k.
Proof.
  induction 1 as [|a b l k Hab _ IH]; intros H; constructor.
  - apply H; [left|left|done].
  - apply IH. intros. apply H; [by right|by right|done].
Qed.

Lemma remove_linked s k1 k k2 : linked s (k1 ++ k :: k2) -> NoDup (k1 ++ k :: k2) ->
  exists s', _remove_key k s = (Ok tt, s') /\ linked s' (k1 ++ k2) /\ dict s' = dict s.
Proof.
  intros (ls & Hnd & Hb & Hd & Hk & Hdom & Hfree) Hks.
  apply Forall2_app_inv_l in Hk as (ls1 & ls' & Hk1 & Hk2 & ->).
  apply Forall2_cons_inv_l in Hk2 as (x & ls2 & [Hm Hkx] & Hk2 & ->).
  pose proof (dls_nodes _ _ _ _ Hd) as Hnodes.
  pose proof (root_prev_nodup _ _ Hnd) as Hnd'. rewrite <- app_assoc in Hnd'. cbn [app] in Hnd'.
  destruct (dls_remove _ _ _ _ _ _ Hd Hnd Hnd') as (p & n & Hp & Hn & Hpin & Hnin & Hd').
  destruct (heap s !! x) as [nd|] eqn:Ex; [|unfold prv in Hp; by rewrite Ex in Hp].
  unfold prv, nxt in Hp, Hn. rewrite Ex in Hp, Hn. injection Hp as <-. injection Hn as <-.
  set (s1 := with_map (delete k (_map s)) s).
  set (s2 := with_heap (upd_next (_PREV nd) (_NEXT nd) (heap s1)) s1).
  exists (with_heap (upd_prev (_NEXT nd) (_PREV nd) (heap s2)) s2). split.
  - unfold _remove_key. unfold mbind, stm_bind, gets at 1. cbn [lift_res or_raise]. rewrite Hm.
    cbn [or_raise lift_res modify gets]. cbn [heap with_map]. rewrite Ex. cbn [or_raise lift_res].
    fold s1. rewrite run_set_NEXT by (apply Hnodes; set_solver).
    fold s2. rewrite run_set_PREV; [done|]. apply upd_next_some. apply Hnodes. set_solver.
  - split; [|done]. exists (ls1 ++ ls2). cbn [heap brk _root _map with_heap with_map s2 s1].
    assert (Hsub : forall l, l ∈ ls1 ++ ls2 -> l ∈ ls1 ++ x :: ls2) by set_solver.
    split_and!.
    + apply list.NoDup_cons in Hnd as [H1 H2]. apply list.NoDup_cons. split; [set_solver|].
      apply list.NoDup_app in H2 as (H2 & H3 & H4). apply list.NoDup_cons in H4 as [_ H4].
      apply list.NoDup_app. set_solver.
    + rewrite list.Forall_forall in Hb |- *. intros l Hl. apply Hb. set_solver.
    + done.
    + assert (Hdel : forall kk l, kk <> k ->
        _map s !! kk = Some l /\ key_at (heap s) l = Some (Some kk) ->
        delete k (_map s) !! kk = Some l
        /\ key_at (upd_prev (_NEXT nd) (_PREV nd) (upd_next (_PREV nd) (_NEXT nd) (heap s))) l
           = Some (Some kk)).
      { intros kk l Hne [H1 H2]. autorewrite with links. by rewrite lookup_delete_ne. }
      apply list.NoDup_app in Hks as (_ & Hni & Hks). apply list.NoDup_cons in Hks as [Hks _].
      apply Forall2_app; (eapply Forall2_impl_in; [eassumption|]); intros kk l Hin _ H;
        apply Hdel; try done; set_solver.
    + rewrite dom_delete_L, Hdom. apply list.NoDup_app in Hks as (_ & Hni & Hks).
      apply list.NoDup_cons in Hks as [Hks _]. rewrite !list_to_set_app_L. cbn [list_to_set].
      set_solver.
    + intros l Hl. apply eq_None_not_Some. rewrite upd_prev_some, upd_next_some.
      rewrite Hfree by done. apply is_Some_None.
Qed.

(** A node for a new key: what holds of the nodes whichever end they are linked to. *)
Lemma new_node s ks ls k (h' : gmap nat node) p n :
  NoDup (_root s :: ls) -> Forall (fun l => l < brk s)%nat (_root s :: ls) ->
  Forall2 (fun k x => _map s !! k = Some x /\ key_at (heap s) x = Some (Some k)) ks ls ->
  (forall l, (brk s <= l)%nat -> heap s !! l = None) -> k ∉ ks ->
  (forall l, key_at h' l = key_at (<[brk s := Node p n (Some k)]> (heap s)) l) ->
  NoDup (_root s :: brk s :: ls) /\ Forall (fun l => l < S (brk s))%nat (_root s :: brk s :: ls)
  /\ Forall2 (fun k' x => <[k := brk s]> (_map s) !! k' = Some x /\ key_at h' x = Some (Some k'))
       (k :: ks) (brk s :: ls)
  /\ (forall l, (S (brk s) <= l)%nat -> h' !! l = None).
Proof.
  intros Hnd Hb Hk Hfree Hni Hkey. rewrite list.Forall_forall in Hb.
  assert (Hx : forall l, l ∈ _root s :: ls -> l <> brk s) by (intros l Hl ->; apply Hb in Hl; lia).
  split_and!.
  - apply list.NoDup_cons in Hnd as [H1 H2]. rewrite !list.NoDup_cons. split; [|split; [|done]].
    + intros [E|E]%elem_of_cons; [|done]. eapply Hx; [|exact E]. set_solver.
    + intros E. eapply Hx; [by right|done].
  - apply list.Forall_forall. intros l Hl. rewrite !elem_of_cons in Hl.
    destruct Hl as [->|[->|Hl]]; [|lia|]; [specialize (Hb (_root s))|specialize (Hb l)]; set_solver by lia.
  - constructor.
    + rewrite lookup_insert_eq, Hkey. unfold key_at. by rewrite lookup_insert_eq.
    + eapply Forall2_impl_in; [exact Hk|]. intros k' x Hk' Hxin [H1 H2].
      rewrite lookup_insert_ne by set_solver. split; [done|]. rewrite Hkey. unfold key_at.
      rewrite lookup_insert_ne; [done|]. intros E. eapply Hx; [right; exact Hxin|done].
  - intros l Hl. specialize (Hkey l). unfold key_at in Hkey. rewrite lookup_insert_ne in Hkey by lia.
    rewrite Hfree in Hkey by lia. by destruct (h' !! l).
Qed.

Lemma prepend_linked s ks k : linked s ks -> k ∉ ks ->
  exists s', _prepend_key k s = (Ok tt, s') /\ linked s' (k :: ks) /\ dict s' = dict s.
Proof.
  intros (ls & Hnd & Hb & Hd & Hk & Hdom & Hfree) Hni.
  destruct (dls_ends _ _ _ _ Hd) as [(f & Hf & Hfin) _].
  pose proof (dls_nodes _ _ _ _ Hd) as Hnodes.
  destruct (heap s !! _root s) as [r|] eqn:Er; [|unfold nxt in Hf; by rewrite Er in Hf].
  assert (Hx : heap s !! brk s = None) by (apply Hfree; lia).
  pose proof (dls_prepend _ _ _ _ (brk s) (Some k) f Hd Hnd (root_prev_nodup _ _ Hnd) Hx Hf) as Hd'.
  set (x := brk s) in *. set (h1 := <[x := Node (_root s) f (Some k)]> (heap s)) in *.
  set (s1 := Mk h1 (S x) (_root s) (_map s) (dict s)).
  set (h2 := upd_next (_root s) x (upd_prev f x h1)) in *.
  exists (with_map (<[k := x]> (_map s)) (with_heap h2 s1)).
  assert (Hin : forall l, l ∈ _root s :: ls -> is_Some (h1 !! l)).
  { intros l Hl. apply Hnodes in Hl. unfold h1. apply lookup_insert_is_Some'. by right. }
  split.
  - unfold _prepend_key. unfold mbind at 1, stm_bind at 1, gets at 1.
    rewrite (stm_bind_ok _ _ _ _ _ (run_load s _ r Er)). cbn zeta.
    unfold nxt in Hf. rewrite Er in Hf. injection Hf as ->.
    unfold alloc. unfold mbind, stm_bind, gets, modify, mret, stm_ret. fold x. fold h1. fold s1.
    rewrite run_set_PREV by (apply Hin; set_solver). rewrite run_set_NEXT; [done|].
    apply upd_prev_some, Hin. set_solver.
  - split; [|done]. exists (x :: ls). cbn [heap brk _root _map with_heap with_map s1].
    destruct (new_node s ks ls k h2 (_root s) f Hnd Hb Hk Hfree Hni) as (N1 & N2 & N3 & N4).
    { intros l. unfold h2. by autorewrite with links. }
    split_and!; try done. rewrite dom_insert_L, Hdom. done.
Qed.

Lemma append_linked s ks k : linked s ks -> k ∉ ks ->
  exists s', _append_key k s = (Ok tt, s') /\ linked s' (ks ++ [k]) /\ dict s' = dict s.
Proof.
  intros (ls & Hnd & Hb & Hd & Hk & Hdom & Hfree) Hni.
  destruct (dls_ends _ _ _ _ Hd) as [_ (p & Hp & Hpin)].
  pose proof (dls_nodes _ _ _ _ Hd) as Hnodes.
  destruct (heap s !! _root s) as [r|] eqn:Er; [|unfold prv in Hp; by rewrite Er in Hp].
  assert (Hx : heap s !! brk s = None) by (apply Hfree; lia).
  pose proof (dls_append _ _ _ _ (brk s) (Some k) p Hd Hnd (root_prev_nodup _ _ Hnd) Hx Hp) as Hd'.
  set (x := brk s) in *. set (h1 := <[x := Node p (_root s) (Some k)]> (heap s)) in *.
  set (s1 := Mk h1 (S x) (_root s) (_map s) (dict s)).
  set (h2 := upd_prev (_root s) x (upd_next p x h1)) in *.
  exists (with_map (<[k := x]> (_map s)) (with_heap h2 s1)).
  assert (Hin : forall l, l ∈ _root s :: ls -> is_Some (h1 !! l)).
  { intros l Hl. apply Hnodes in Hl. unfold h1. apply lookup_insert_is_Some'. by right. }
  split.
  - unfold _append_key. unfold mbind at 1, stm_bind at 1, gets at 1.
    rewrite (stm_bind_ok _ _ _ _ _ (run_load s _ r Er)). cbn zeta.
    unfold prv in Hp. rewrite Er in Hp. injection Hp as ->.
    unfold alloc. unfold mbind, stm_bind, gets, modify, mret, stm_ret. fold x. fold h1. fold s1.
    rewrite run_set_NEXT by (apply Hin; set_solver). rewrite run_set_PREV; [done|].
    apply upd_next_some, Hin. set_solver.
  - split; [|done]. exists (ls ++ [x]). cbn [heap brk _root _map with_heap with_map s1].
    destruct (new_node s ks ls k h2 p (_root s) Hnd Hb Hk Hfree Hni) as (N1 & N2 & N3 & N4).
    { intros l. unfold h2. by autorewrite with links. }
    assert (Hperm : _root s :: ls ++ [x] ≡ₚ _root s :: x :: ls) by (by rewrite <- Permutation_cons_append).
    apply Forall2_cons_1 in N3 as [N3 N3'].
    split_and!; [by rewrite Hperm|by rewrite Hperm|done| |by rewrite dom_insert_L, Hdom, list_to_set_app_L; set_solver|done].
    apply Forall2_app; [done|]. by constructor.
Qed.

End ListFacts.

(** ** The dictionary implements the ordered list *)

Module OrderFacts.
Import ListFacts.
Module P := PortDataState.
Module L := OrderedList.

Definition represents (s : P.t) (l : L.t) : Prop :=
  linked s l.*1 /\ NoDup l.*1 /\ P.dict s = list_to_map l.

(** An operation of the dictionary and one of the specification: in related states they
    have the same outcome and leave related states. *)
Definition simulates {A} (m : stm P.t A) (m' : stm L.t A) : Prop :=
  forall s l, represents s l -> (m s).1 = (m' l).1 /\ represents (m s).2 (m' l).2.

Lemma split_at_some k l l1 d l2 : L.split_at k l = Some (l1, d, l2) -> l = l1 ++ (k, d) :: l2.
Proof.
  revert l1. induction l as [|[k' d'] l IH]; intros l1 H; cbn [L.split_at] in H; [done|].
  destruct (decide (k' = k)) as [->|]; [by injection H as <- <- <-|].
  destruct (L.split_at k l) as [[[l1' d1] l2']|]; [|done]. injection H as <- <- <-.
  cbn [app]. f_equal. by apply IH.
Qed.

Lemma split_at_none k l : L.split_at k l = None -> k ∉ l.*1.
Proof.
  induction l as [|[k' d'] l IH]; cbn [L.split_at fmap list_fmap fst]; [set_solver|].
  destruct (decide (k' = k)); [done|]. destruct (L.split_at k l) as [[[? ?] ?]|]; [done|].
  intros _. specialize (IH eq_refl). set_solver.
Qed.

Section Entry.
Context (s : P.t) (l1 l2 : L.t) (k : pid) (d : PortData).
Context (H : represents s (l1 ++ (k, d) :: l2)).

Lemma entry_dict : P.dict s = <[k := d]> (list_to_map (l1 ++ l2)).
Proof.
  destruct H as (_ & Hnd & ->). rewrite <- list_to_map_cons. apply list_to_map_proper; [done|].
  by rewrite Permutation_middle.
Qed.

Lemma entry_lookup : P.dict s !! k = Some d.
Proof. rewrite entry_dict. apply lookup_insert_eq. Qed.

Lemma entry_keys : (l1 ++ (k, d) :: l2).*1 = l1.*1 ++ k :: l2.*1.
Proof. by rewrite fmap_app. Qed.

Lemma entry_fresh : k ∉ (l1 ++ l2).*1 /\ NoDup (l1 ++ l2).*1.
Proof.
  destruct H as (_ & Hnd & _). rewrite entry_keys in Hnd. rewrite fmap_app.
  apply list.NoDup_app in Hnd as (N1 & N2 & N3). apply list.NoDup_cons in N3 as [N3 N4].
  split; [set_solver|]. apply list.NoDup_app. set_solver.
Qed.

Lemma set_entry d' : represents (P.with_dict (<[k := d']> (P.dict s)) s) (l1 ++ (k, d') :: l2).
Proof.
  destruct H as (Hl & Hnd & _). split_and!.
  - rewrite fmap_app in *. exact Hl.
  - rewrite fmap_app in *. exact Hnd.
  - cbn [P.dict P.with_dict]. rewrite entry_dict, insert_insert_eq, <- list_to_map_cons.
    symmetry. apply list_to_map_proper; [by rewrite fmap_app in *|]. by rewrite Permutation_middle.
Qed.

Lemma dict_of_remaining : delete k (P.dict s) = list_to_map (l1 ++ l2).
Proof.
  rewrite entry_dict, delete_insert_eq, delete_id; [done|].
  apply not_elem_of_list_to_map_1. apply entry_fresh.
Qed.

End Entry.

Lemma move_entry s l1 l2 k d front : represents s (l1 ++ (k, d) :: l2) ->
  exists s', (if front : bool then P._move_front_key k else P._move_last_key k) s = (Ok tt, s')
    /\ represents s' (if front then (k, d) :: l1 ++ l2 else (l1 ++ l2) ++ [(k, d)]).
Proof.
  intros H. pose proof H as (Hl & Hnd & Hd). destruct (entry_fresh _ _ _ _ _ H) as [Hni Hnd'].
  rewrite entry_keys in Hl, Hnd.
  destruct (remove_linked s _ _ _ Hl Hnd) as (s1 & E1 & Hl1 & Hd1). rewrite <- fmap_app in Hl1.
  assert (Hdict : list_to_map (l1 ++ (k, d) :: l2) = (list_to_map ((l1 ++ l2) ++ [(k, d)]) : gmap pid PortData)).
  { apply list_to_map_proper; [by rewrite entry_keys|].
    rewrite <- Permutation_cons_append. by rewrite Permutation_middle. }
  destruct front.
  - destruct (prepend_linked s1 _ k Hl1 Hni) as (s2 & E2 & Hl2 & Hd2). exists s2. split.
    + unfold P._move_front_key. by rewrite (stm_bind_ok _ _ _ _ _ E1).
    + split_and!; [done|by apply list.NoDup_cons|]. rewrite Hd2, Hd1, Hd, Hdict.
      symmetry. apply list_to_map_proper; [by apply list.NoDup_cons|]. apply Permutation_cons_append.
  - destruct (append_linked s1 _ k Hl1 Hni) as (s2 & E2 & Hl2 & Hd2). exists s2. split.
    + unfold P._move_last_key. by rewrite (stm_bind_ok _ _ _ _ _ E1).
    + split_and!; [by rewrite fmap_app| |by rewrite Hd2, Hd1, Hd, Hdict].
      rewrite fmap_app. cbn. rewrite <- Permutation_cons_append. by apply list.NoDup_cons.
Qed.

(** The two ways a key of the dictionary is looked up. *)
Lemma missing s l k : represents s l -> L.split_at k l = None -> P.dict s !! k = None.
Proof.
  intros (_ & _ & ->) Hs. apply split_at_none in Hs. by apply not_elem_of_list_to_map_1.
Qed.

Lemma getitem_run s l k : represents s l ->
  P.getitem k s = match L.split_at k l with
                  | Some (_, d, _) => (Ok d, s)
                  | None => (Err KeyError, s)
                  end.
Proof.
  intros H. unfold P.getitem. stm_unfold. destruct (L.split_at k l) as [[[l1 d] l2]|] eqn:E.
  - apply split_at_some in E as ->. by rewrite (entry_lookup _ _ _ _ _ H).
  - by rewrite (missing _ _ _ H E).
Qed.

Lemma run_setitem k d s : P.setitem k d s = (Ok tt, P.with_dict (<[k := d]> (P.dict s)) s).
Proof. done. Qed.

(** Split on where the key is: absent, or between two parts of the list. *)
Ltac at_entry H k :=
  match type of H with
  | represents ?s ?l =>
      let E := fresh "E" in
      destruct (L.split_at k l) as [[[l1 d] l2]|] eqn:E;
      [apply split_at_some in E; subst l | pose proof (missing _ _ _ H E)]
  end.

Lemma add_port_sim k dn data : simulates (P.add_port k dn data) (L.add_port k dn data).
Proof.
  intros s l H. unfold P.add_port, L.add_port. unfold mbind, stm_bind, gets.
  at_entry H k.
  - rewrite (entry_lookup _ _ _ _ _ H), run_setitem. split; [done|]. by apply set_entry with (d := d).
  - rewrite H0. pose proof H as (Hl & Hnd & Hd).
    destruct (prepend_linked s _ k Hl (split_at_none _ _ E)) as (s' & E' & Hl' & Hd').
    rewrite E', run_setitem. split; [done|]. split_and!; [done|apply list.NoDup_cons; split; [by apply split_at_none|done]|].
    cbn [P.dict P.with_dict]. by rewrite Hd', Hd.
Qed.

Lemma move_front_sim k : simulates (P.move_front k) (L.move_front k).
Proof.
  intros s l H. unfold P.move_front, L.move_front. unfold mbind, stm_bind, gets. at_entry H k.
  - rewrite (entry_lookup _ _ _ _ _ H), run_setitem.
    destruct (move_entry _ l1 l2 k _ true (set_entry _ _ _ _ _ H (pd_clear_timestamp d))) as (s' & E1 & E2).
    by rewrite E1.
  - by rewrite H0.
Qed.

(** The operations that look up, assign and perhaps move. *)
Lemma at_key_sim {A} k (f : PortData -> PortData) place (mv : stm P.t unit) (g : PortData -> A) :
  (forall s l1 d l2, represents s (l1 ++ (k, d) :: l2) ->
     exists s', mv s = (Ok tt, s') /\ represents s' (place l1 (k, d) l2)) ->
  simulates (d ← P.getitem k; P.setitem k (f d) ;; mv ;; mret (g (f d)))
            (d ← L.at_key k f place; mret (g d)).
Proof.
  intros Hmv s l H. unfold mbind, stm_bind, mret, stm_ret. rewrite (getitem_run _ _ _ H). unfold L.at_key.
  at_entry H k; [|done]. rewrite run_setitem.
  destruct (Hmv _ _ _ _ (set_entry _ _ _ _ _ H (f d))) as (s' & -> & Hs'). done.
Qed.

Lemma keep_entry k s l1 d l2 : represents s (l1 ++ (k, d) :: l2) ->
  exists s', (mret tt : stm P.t unit) s = (Ok tt, s') /\ represents s' (L.stay l1 (k, d) l2).
Proof. intros H. by exists s. Qed.

Lemma simulates_ext {A} (m1 m2 : stm P.t A) (n1 n2 : stm L.t A) :
  (forall s, m1 s = m2 s) -> (forall l, n1 l = n2 l) -> simulates m1 n1 -> simulates m2 n2.
Proof. intros Hm Hn H s l Hr. rewrite <- Hm, <- Hn. by apply H. Qed.

Lemma lldp_sent_sim now k : simulates (P.lldp_sent now k) (L.lldp_sent now k).
Proof.
  eapply simulates_ext; [| |apply (at_key_sim k (pd_lldp_sent now) L.to_end (P._move_last_key k) id)].
  - done.
  - intros l. unfold L.lldp_sent, L.at_key. unfold mbind, stm_bind. by destruct (L.split_at k l) as [[[? ?] ?]|].
  - intros s l1 d l2 H. apply (move_entry s l1 l2 k d false H).
Qed.

Lemma lldp_received_sim k : simulates (P.lldp_received k) (L.lldp_received k).
Proof.
  eapply simulates_ext; [| |apply (at_key_sim k pd_lldp_received L.stay (mret tt) (fun _ => tt))].
  - intros s. unfold P.lldp_received. unfold mbind, stm_bind. by destruct (P.getitem k s) as [[?|?] ?].
  - done.
  - apply keep_entry.
Qed.

Lemma set_down_sim k dn : simulates (P.set_down k dn) (L.set_down k dn).
Proof.
  eapply simulates_ext; [| |apply (at_key_sim k (fun d => pd_clear_timestamp (pd_set_down dn d))
    (if dn then L.stay else L.to_front) (if dn then mret tt else P._move_front_key k) (fun _ => dn))].
  - done.
  - done.
  - intros s l1 d l2 H. destruct dn; [by apply keep_entry|]. apply (move_entry s l1 l2 k d true H).
Qed.

Lemma get_port_sim k : simulates (P.get_port k) (L.get_port k).
Proof.
  intros s l H. unfold P.get_port, L.get_port, L.at_key. rewrite (getitem_run _ _ _ H). by at_entry H k.
Qed.

Lemma del_port_sim k : simulates (P.del_port k) (L.del_port k).
Proof.
  intros s l H. unfold P.del_port, L.del_port, L.at_key. unfold mbind, stm_bind, gets, lift_res, modify.
  at_entry H k.
  - rewrite (entry_lookup _ _ _ _ _ H). cbn [or_raise].
    pose proof H as (Hl & Hnd & _). destruct (entry_fresh _ _ _ _ _ H) as [_ Hnd']. rewrite entry_keys in Hl, Hnd.
    destruct (remove_linked (P.with_dict (delete k (P.dict s)) s) _ _ _ Hl Hnd) as (s1 & -> & Hl1 & Hd1).
    split; [done|]. cbn [snd mret stm_ret L.gone]. unfold L.gone. split_and!; [by rewrite fmap_app|done|].
    rewrite Hd1. cbn [P.dict P.with_dict]. by eapply dict_of_remaining.
  - by rewrite H0.
Qed.

(** Iteration follows the links and comes back to the root. *)
Lemma walk_keys h root a ls ks fuel : dls h a ls root -> root ∉ ls -> (length ls < fuel)%nat ->
  Forall2 (fun k x => key_at h x = Some (Some k)) ks ls ->
  exists x, nxt h a = Some x /\ P.walk fuel h root x = Some ks.
Proof.
  revert a ks fuel. induction ls as [|y ls IH]; intros a ks fuel Hd Hr Hf Hk; (destruct fuel as [|fuel]; [cbn in Hf; lia|]);
    cbn [dls] in Hd.
  - destruct Hd as [H1 _]. exists root. split; [done|]. cbn [P.walk]. rewrite Nat.eqb_refl.
    by apply Forall2_nil_inv_r in Hk as ->.
  - destruct Hd as (H1 & _ & Hd). apply Forall2_cons_inv_r in Hk as (k & ks' & Hk & Hks & ->).
    exists y. split; [done|]. cbn [P.walk]. rewrite (proj2 (Nat.eqb_neq _ _)) by set_solver.
    cbn [length] in Hf. destruct (IH y ks' fuel Hd ltac:(set_solver) ltac:(lia) Hks) as (x & Hx & Hw).
    unfold key_at in Hk. unfold nxt in Hx. destruct (h !! y) as [[p n kk]|]; [|done].
    injection Hk as ->. injection Hx as ->. by rewrite Hw.
Qed.

Lemma items_run s l : represents s l -> P.items s = Some l.
Proof.
  intros ((ls & Hnd & _ & Hd & Hk & Hdom & _) & Hnk & Hdict). unfold P.items, P.keys.
  apply list.NoDup_cons in Hnd as [Hr _].
  destruct (walk_keys (P.heap s) (P._root s) (P._root s) ls l.*1 (S (size (P._map s))) Hd Hr) as (x & Hx & Hw).
  - apply Forall2_length in Hk as <-. rewrite <- size_dom, Hdom, size_list_to_set by done. lia.
  - eapply Forall2_impl_in; [exact Hk|]. by intros k x _ _ [_ H].
  - unfold nxt in Hx. destruct (P.heap s !! P._root s) as [r|]; [|done]. injection Hx as <-.
    cbn [mbind option_bind]. rewrite Hw. cbn [mbind option_bind]. clear -Hdict Hnk. rewrite Hdict. clear Hdict.
    apply mapM_Some. rewrite Forall2_fmap_l. apply Forall_Forall2_diag, list.Forall_forall. intros [k d] Hin. cbn.
    by rewrite (elem_of_list_to_map_1 l k d Hnk Hin).
Qed.

Lemma init_represents : represents P.init [].
Proof.
  split_and!; [|constructor|done]. exists []. split_and!.
  - apply NoDup_singleton.
  - apply Forall_singleton. cbn. lia.
  - by split.
  - constructor.
  - done.
  - intros l Hl. apply lookup_singleton_ne. cbn in Hl. lia.
Qed.

End OrderFacts.

Module StoreClaims.
Import OrderFacts.

(** C5: The dictionary of ports with its linked list implements an association list in
    iteration order: every operation, in related states, has the outcome of the
    corresponding operation on the list and leaves related states, and iteration
    yields the list. *)
Theorem port_data_refines_list :
  represents PortDataState.init []
  /\ (forall k dn data, simulates (PortDataState.add_port k dn data) (OrderedList.add_port k dn data))
  /\ (forall now k, simulates (PortDataState.lldp_sent now k) (OrderedList.lldp_sent now k))
  /\ (forall k, simulates (PortDataState.lldp_received k) (OrderedList.lldp_received k))
  /\ (forall k, simulates (PortDataState.move_front k) (OrderedList.move_front k))
  /\ (forall k dn, simulates (PortDataState.set_down k dn) (OrderedList.set_down k dn))
  /\ (forall k, simulates (PortDataState.get_port k) (OrderedList.get_port k))
  /\ (forall k, simulates (PortDataState.del_port k) (OrderedList.del_port k))
  /\ (forall s l, represents s l -> PortDataState.items s = Some l).
Proof.
  split_and!; auto using init_represents, add_port_sim, lldp_sent_sim, lldp_received_sim,
    move_front_sim, set_down_sim, get_port_sim, del_port_sim, items_run.
Qed.

(** Four ports through the linked list. *)
Lemma port_data_example :
  option_map (map fst) (PortDataState.items
    (snd ((PortDataState.add_port (1, 1) false [] ;; PortDataState.add_port (1, 2) false [] ;;
           PortDataState.add_port (1, 3) true [] ;; PortDataState.add_port (1, 4) false [] ;;
           PortDataState.lldp_sent 5 (1, 4) ;; PortDataState.move_front (1, 1) ;;
           PortDataState.del_port (1, 2)) PortDataState.init)))
  = Some [(1, 1); (1, 3); (1, 4)] :> option (list pid).
Proof. vm_compute. reflexivity. Qed.

End StoreClaims.
