(* ===== verification/Topology.v ===== *)
(** * Topology discovery (ryu/topology/switches.py)

    The application [Switches]: it learns the switches and their ports from the
    events of the controller, sends LLDP frames out of the ports and concludes from
    the frames it receives which ports are linked, and which hosts are attached.
    [LinkState] and [HostState] are its other dictionaries, [LLDPPacket] the frames.

    The state of the application is a record; a handler is a method of the monad
    [stm], so what was assigned before an exception stays assigned.  Python's
    dictionaries are iterated in an order that is not specified: it is given by the
    class [DictOrder], which may depend on the step of the run.  A frame that
    makes the packet library loop makes the handler loop; this is the outcome [None]
    of the handlers that decode a packet.  The thread that sends LLDP frames sleeps
    between two frames; its turns are separate steps ([lldp_loop] up to its first
    sleep and [lldp_resume]), so that any handler may run in between. *)

From Stdlib Require Import ZArith Lia Sorted.
From stdpp Require Import base list gmap strings numbers.
From S2P Require Import Prelude Struct PktUtils PktHeaders PktTransport Packet Ident Lldp TopoStores.

(** ** Iteration over dictionaries *)

Class DictOrder :=
  dict_items : forall {K : Type} `{Countable K} {V : Type}, nat -> gmap K V -> list (K * V).

Class DictOrderLaws (D : DictOrder) :=
  dict_items_perm : forall {K : Type} `{Countable K} {V : Type} (t : nat) (m : gmap K V),
    dict_items t m ≡ₚ map_to_list m.

Definition sorted_order : DictOrder := fun _ _ _ _ _ m => map_to_list m.
Lemma sorted_order_laws : DictOrderLaws sorted_order.
Proof. intros K EqK CK V t m. reflexivity. Qed.

(** ** Links *)

Module LinkState.

(** A link is the pair of the keys of its ports. *)
Abbreviation link := (pid * pid)%type.

Record t := Mk { links : gmap link Z; _map : gmap pid pid }.

Definition init : t := Mk ∅ ∅.

Definition get_peer (src : pid) (s : t) : option pid := _map s !! src.

(** [del self[link]] and [del self._map[src]] *)
Definition del_link (l : link) : stm t unit :=
  s ← get;
  lift_res (or_raise KeyError (links s !! l)) ;;
  put (Mk (delete l (links s)) (_map s)).

Definition del_map (src : pid) : stm t unit :=
  s ← get;
  lift_res (or_raise KeyError (_map s !! src)) ;;
  put (Mk (links s) (delete src (_map s))).

(** Whether the reverse link is up too. *)
Definition update_link (now : Z) (src dst : pid) : stm t bool :=
  modify (fun s => Mk (<[(src, dst) := now]> (links s)) (<[src := dst]> (_map s))) ;;
  s ← get;
  mret (bool_decide (is_Some (links s !! (dst, src)))).

Definition link_down (l : link) : stm t unit := del_link l ;; del_map l.1.

Definition rev_link_set_timestamp (rev_link : link) (timestamp : Z) : stm t unit :=
  s ← get;
  match links s !! rev_link with
  | Some _ => put (Mk (<[rev_link := timestamp]> (links s)) (_map s))
  | None => mret tt
  end.

Definition port_deleted (src : pid) : stm t (pid * option pid) :=
  s ← get;
  match get_peer src s with
  | None => raise KeyError
  | Some dst =>
      del_link (src, dst) ;;
      del_map src ;;
      modify (fun s => Mk (delete (dst, src) (links s)) (_map s)) ;;
      s ← get;
      put (Mk (links s) (delete dst (_map s))) ;;
      mret (dst, _map s !! dst)
  end.

End LinkState.

(** ** Hosts *)

Module HostState.

Record Host := MkHost { mac : string; host_port : pid; ipv4 : list string; ipv6 : list string }.

Definition Host_init (mac : string) (port : pid) : Host := MkHost mac port [] [].

Abbreviation t := (gmap string Host).

(** [setdefault] *)
Definition add (h : Host) (s : t) : t :=
  match s !! mac h with Some _ => s | None => <[mac h := h]> s end.

Definition add_ip (ip : option string) (l : list string) : list string :=
  match ip with
  | None => l
  | Some a => if decide (a ∈ l) then l else l ++ [a]
  end.

(** The host of the store is changed, not the argument. *)
Definition update_ip (m : string) (ip_v4 ip_v6 : option string) (s : t) : t :=
  match s !! m with
  | None => s
  | Some h =>
      <[m := MkHost (mac h) (host_port h) (add_ip ip_v4 (ipv4 h)) (add_ip ip_v6 (ipv6 h))]> s
  end.

Definition get_by_dpid `{D : DictOrder} (tick : nat) (dpid : Z) (s : t) : list Host :=
  filter (fun h => (host_port h).1 = dpid) (snd <$> dict_items tick s).

End HostState.

(** ** LLDP frames of the discovery *)

Module LLDPPacket.

Definition CHASSIS_ID_PREFIX : bytes := [100; 112; 105; 100; 58].   (* dpid: *)
Definition CHASSIS_ID_PREFIX_LEN : nat := length CHASSIS_ID_PREFIX.
Definition PORT_ID_STR : string := "!I".
Definition PORT_ID_SIZE : nat := 4.
Definition SUB_LOCALLY_ASSIGNED : Z := 7.
Definition SUB_PORT_COMPONENT : Z := 2.

Section LLDPPacket.
Context `{C : AddrConv} (e : endian) (X : Others).

Definition lldp_packet (dpid port_no : Z) (dl_addr : string) (ttl : Z) : res bytes :=
  let eth_pkt := Ethernet.Mk LLDP_MAC_NEAREST_BRIDGE dl_addr ETH_TYPE_LLDP in
  tlv_chassis_id ← new_ChassisID SUB_LOCALLY_ASSIGNED (CHASSIS_ID_PREFIX ++ dpid_to_str dpid);
  port_id ← pack PORT_ID_STR [VInt port_no];
  tlv_port_id ← new_PortID SUB_PORT_COMPONENT port_id;
  tlv_ttl ← new_TTL ttl;
  let tlvs := [tlv_chassis_id; tlv_port_id; tlv_ttl; new_End] in
  '(data, _) ← Packet.serialize e (with_lldp X)
    [Header (Peth eth_pkt); Header (Pother (X := with_lldp X) (inr (Some tlvs)))];
  Ok data.

(** The two TLVs read: chassis id and port id.  A port id of another length is
    formatted with [%d], which a byte string does not have. *)
Definition parse_tlvs_of (tlvs : list tlv) : res (Z * Z) :=
  match body <$> tlvs !! 0%nat with
  | Some (ChassisID subtype chassis_id) =>
      if subtype =? SUB_LOCALLY_ASSIGNED then
        if bool_decide (take CHASSIS_ID_PREFIX_LEN chassis_id = CHASSIS_ID_PREFIX) then
          src_dpid ← str_to_dpid (drop CHASSIS_ID_PREFIX_LEN chassis_id);
          match body <$> tlvs !! 1%nat with
          | Some (PortID subtype port_id) =>
              if subtype =? SUB_PORT_COMPONENT then
                if (length port_id =? PORT_ID_SIZE)%nat then
                  vs ← unpack PORT_ID_STR port_id;
                  match vs with [VInt n] => Ok (src_dpid, n) | _ => Err ValueError end
                else Err TypeError
              else Err LLDPUnknownFormat
          | _ => Err AttributeError
          end
        else Err LLDPUnknownFormat
      else Err LLDPUnknownFormat
  | _ => Err AttributeError
  end.

(** [next] of the iterator of the packet raises when there is no element left. *)
Definition lldp_parse_items (l : list (item (with_lldp X))) : res (Z * Z) :=
  match l with
  | [] => Err StopIteration
  | Header (Peth _) :: l =>
      match l with
      | [] => Err StopIteration
      | Header (Pother (inr (Some tlvs))) :: _ => parse_tlvs_of tlvs
      | _ => Err LLDPUnknownFormat
      end
  | _ => Err AssertionError
  end.

Definition lldp_parse (fuel : nat) (data : bytes) : option (res (Z * Z)) :=
  match packet (with_lldp X) fuel data Cethernet with
  | None => None
  | Some r => Some (l ← r; lldp_parse_items l)
  end.

End LLDPPacket.
End LLDPPacket.

(** ** The application *)

Module Switches.

(** What the application sends: events to its observers and messages to switches.
    A message is described by the arguments of its constructor. *)
Record datapath := MkDp { conn : nat; version : Z; dp_ports : gmap Z OFPPort }.

Inductive effect :=
  | EventSwitchEnter (dpid : Z) (ports : list Port)
  | EventSwitchLeave (switch : option (Z * list Port))
  | EventPortAdd (p : Port)
  | EventPortDelete (p : Port)
  | EventPortModify (p : Port)
  | EventLinkAdd (l : LinkState.link)
  | EventLinkDelete (l : LinkState.link)
  | EventHostAdd (h : HostState.Host)
  | FlowMod10 (dp : datapath) (dl_dst : bytes) (dl_type out_port max_len priority : Z)
  | FlowMod (dp : datapath) (eth_type : Z) (eth_dst : string) (out_port max_len priority : Z)
  | PacketOut (dp : datapath) (out_port : Z) (data : bytes)
  | PacketDrop (dp : datapath) (buffer_id in_port : Z).

Record t := Mk {
  dps : gmap Z datapath;
  port_state : gmap Z (gmap Z OFPPort);
  ports : PortDataState.t;
  links : LinkState.t;
  hosts : HostState.t;
  lldp_event : bool;
  lldp_pending : list pid;
  out : list effect;
  tick : nat }.

Definition init : t := Mk ∅ ∅ PortDataState.init LinkState.init ∅ false [] [] 0.

(** Assignments to the attributes *)
Definition with_dps x s := Mk x (port_state s) (ports s) (links s) (hosts s) (lldp_event s) (lldp_pending s) (out s) (tick s).
Definition with_port_state x s := Mk (dps s) x (ports s) (links s) (hosts s) (lldp_event s) (lldp_pending s) (out s) (tick s).
Definition with_ports x s := Mk (dps s) (port_state s) x (links s) (hosts s) (lldp_event s) (lldp_pending s) (out s) (tick s).
Definition with_links x s := Mk (dps s) (port_state s) (ports s) x (hosts s) (lldp_event s) (lldp_pending s) (out s) (tick s).
Definition with_hosts x s := Mk (dps s) (port_state s) (ports s) (links s) x (lldp_event s) (lldp_pending s) (out s) (tick s).
Definition with_event x s := Mk (dps s) (port_state s) (ports s) (links s) (hosts s) x (lldp_pending s) (out s) (tick s).
Definition with_pending x s := Mk (dps s) (port_state s) (ports s) (links s) (hosts s) (lldp_event s) x (out s) (tick s).
Definition with_out x s := Mk (dps s) (port_state s) (ports s) (links s) (hosts s) (lldp_event s) (lldp_pending s) x (tick s).
Definition with_tick x s := Mk (dps s) (port_state s) (ports s) (links s) (hosts s) (lldp_event s) (lldp_pending s) (out s) x.

(** A method of one of the dictionaries *)
Definition on_ports {A} (m : stm PortDataState.t A) : stm t A := fun s =>
  let '(r, p) := m (ports s) in (r, with_ports p s).
Definition on_links {A} (m : stm LinkState.t A) : stm t A := fun s =>
  let '(r, l) := m (links s) in (r, with_links l s).

Definition emit (x : effect) : stm t unit := modify (fun s => with_out (out s ++ [x]) s).
Definition set_event : stm t unit := modify (with_event true).

Definition DEFAULT_TTL : Z := 120.
Definition LLDP_SEND_PERIOD_PER_PORT : Z := 900000.
Definition LINK_TIMEOUT : Z := 10000000.
Definition LINK_LLDP_DROP : Z := 5.
Definition OFPPR_ADD : Z := 0.
Definition OFPPR_DELETE : Z := 1.
Definition OFPPR_MODIFY : Z := 2.
Definition DONTCARE_STR : string := "00:00:00:00:00:00".

Section Switches.
Context `{C : AddrConv} `{D : DictOrder} (e : endian) (X : Others).
(** The command line options, the same for the whole run. *)
Context (link_discovery install_flow explicit_drop : bool).

Definition LLDP_PACKET_LEN : Z :=
  match LLDPPacket.lldp_packet e X 0 0 DONTCARE_STR 0 with
  | Ok data => Z.of_nat (length data)
  | Err _ => 0
  end.

Definition _register (dpid : option Z) (dp : datapath) : stm t unit :=
  match dpid with
  | None => raise AssertionError
  | Some id =>
      modify (fun s => with_dps (<[id := dp]> (dps s)) s) ;;
      s ← get;
      match port_state s !! id with
      | Some _ => mret tt
      | None =>
          put (with_port_state (<[id :=
            foldl (fun m p => <[op_port_no p := p]> m) ∅ (snd <$> dict_items (tick s) (dp_ports dp))]>
            (port_state s)) s)
      end
  end.

Definition _unregister (id : Z) : stm t unit :=
  s ← get;
  match dps s !! id with
  | None => mret tt
  | Some _ =>
      put (with_dps (delete id (dps s)) s) ;;
      s ← get;
      lift_res (or_raise KeyError (port_state s !! id)) ;;
      put (with_port_state (delete id (port_state s)) s)
  end.

(** The switch of a datapath id: its ports that are not reserved. *)
Definition switch_ports (id : Z) (dp : datapath) (tk : nat) (m : gmap Z OFPPort) : list Port :=
  filter (fun p => is_reserved p = false)
    (Port_init id (version dp) <$> (snd <$> dict_items tk m)).

Definition _get_switch (dpid : Z) : stm t (option (list Port)) :=
  s ← get;
  match dps s !! dpid with
  | None => mret None
  | Some dp =>
      m ← lift_res (or_raise KeyError (port_state s !! dpid));
      mret (Some (switch_ports dpid dp (tick s) m))
  end.

Definition _get_port (dpid no : Z) : stm t (option Port) :=
  sw ← _get_switch dpid;
  mret (ps ← sw; snd <$> list_find (fun p => port_no p = no) ps).

Definition _port_added (p : Port) : stm t unit :=
  data ← lift_res (LLDPPacket.lldp_packet e X (dpid p) (port_no p) (hw_addr p) DEFAULT_TTL);
  on_ports (PortDataState.add_port (key_of p) (is_down p) data).

Definition _link_down (port : pid) : stm t unit :=
  r ← try_except (x ← on_links (LinkState.port_deleted port); mret (Some x)) KeyError (mret None);
  match r with
  | None => mret tt
  | Some (dst, rev_link_dst) =>
      emit (EventLinkDelete (port, dst)) ;;
      match rev_link_dst with
      | Some r => emit (EventLinkDelete (dst, r))
      | None => mret tt
      end ;;
      on_ports (PortDataState.move_front dst)
  end.

Definition _is_edge_port (port : pid) (s : t) : bool :=
  forallb (fun l => negb (bool_decide (port = l.1 \/ port = l.2)))
    ((map_to_list (LinkState.links (links s))).*1).

(** *** Datapaths come and go *)

Definition install_lldp_flow (dp : datapath) : stm t unit :=
  if version dp =? 1 then
    dst ← lift_res (text_to_bin MAC LLDP_MAC_NEAREST_BRIDGE);
    emit (FlowMod10 dp dst ETH_TYPE_LLDP (OFPP_CONTROLLER (version dp)) LLDP_PACKET_LEN 0xFFFF)
  else if 3 <=? version dp then
    emit (FlowMod dp ETH_TYPE_LLDP LLDP_MAC_NEAREST_BRIDGE (OFPP_CONTROLLER (version dp))
            OFPCML_NO_BUFFER 0xFFFF)
  else mret tt.

Definition enter_handler (dpid : option Z) (dp : datapath) : stm t unit :=
  s ← get;
  let dp_multiple_conns := match dpid with Some id => bool_decide (is_Some (dps s !! id)) | None => false end in
  _register dpid dp ;;
  match dpid with
  | None => mret tt
  | Some id =>
      switch ← _get_switch id;
      let sports := default [] switch in
      (if dp_multiple_conns then mret tt else emit (EventSwitchEnter id sports)) ;;
      if link_discovery then
        (if install_flow then install_lldp_flow dp else mret tt) ;;
        (if dp_multiple_conns then mret tt
         else iterM (fun p => if is_reserved p then mret tt else _port_added p) sports) ;;
        set_event
      else mret tt
  end.

(** A switch that is not known any more has no ports to iterate over. *)
Definition leave_handler (dpid : option Z) : stm t unit :=
  match dpid with
  | None => mret tt
  | Some id =>
      switch ← _get_switch id;
      _unregister id ;;
      emit (EventSwitchLeave ((fun ps => (id, ps)) <$> switch)) ;;
      if link_discovery then
        match switch with
        | None => raise AttributeError
        | Some sports =>
            iterM (fun p => if is_reserved p then mret tt
                            else on_ports (PortDataState.del_port (key_of p)) ;; _link_down (key_of p))
              sports ;;
            set_event
        end
      else mret tt
  end.

Definition state_change_handler (main : bool) (dpid : option Z) (dp : datapath) : stm t unit :=
  if main then enter_handler dpid dp else leave_handler dpid.

(** *** Ports come and go *)

(** [self.port_state[dp.id]] *)
Definition dp_port_state (dpid : option Z) : stm t (Z * gmap Z OFPPort) :=
  s ← get;
  lift_res (or_raise KeyError (id ← dpid; m ← port_state s !! id; Some (id, m))).

Definition set_port_state (id : Z) (m : gmap Z OFPPort) : stm t unit :=
  modify (fun s => with_port_state (<[id := m]> (port_state s)) s).

Definition port_status_handler (reason : Z) (dpid : option Z) (dp : datapath) (ofpport : OFPPort) :
    stm t unit :=
  let no := op_port_no ofpport in
  if reason =? OFPPR_ADD then
    '(id, m) ← dp_port_state dpid;
    set_port_state id (<[no := ofpport]> m) ;;
    emit (EventPortAdd (Port_init id (version dp) ofpport)) ;;
    if link_discovery then
      port ← _get_port id no;
      match port with
      | Some p => if is_reserved p then mret tt else _port_added p ;; set_event
      | None => mret tt
      end
    else mret tt
  else if reason =? OFPPR_DELETE then
    '(id, m) ← dp_port_state dpid;
    lift_res (or_raise KeyError (m !! no)) ;;
    set_port_state id (delete no m) ;;
    emit (EventPortDelete (Port_init id (version dp) ofpport)) ;;
    if link_discovery then
      port ← _get_port id no;
      match port with
      | Some p =>
          if is_reserved p then mret tt
          else on_ports (PortDataState.del_port (key_of p)) ;; _link_down (key_of p) ;; set_event
      | None => mret tt
      end
    else mret tt
  else if reason =? OFPPR_MODIFY then
    '(id, m) ← dp_port_state dpid;
    set_port_state id (<[no := ofpport]> m) ;;
    emit (EventPortModify (Port_init id (version dp) ofpport)) ;;
    if link_discovery then
      port ← _get_port id no;
      match port with
      | Some p =>
          if is_reserved p then mret tt
          else
            down ← on_ports (PortDataState.set_down (key_of p) (is_down p));
            (if down : bool then _link_down (key_of p) else mret tt) ;;
            set_event
      | None => mret tt
      end
    else mret tt
  else raise AssertionError.

(** *** Frames are received *)

(** The packet-in message: [in_port] is missing when the match does not have it. *)
Record packet_in := MkPin {
  pi_dpid : option Z; pi_dp : datapath; buffer_id : Z; in_port : option Z; pi_data : bytes }.

Definition _drop_packet (msg : packet_in) : stm t unit :=
  if buffer_id msg =? OFP_NO_BUFFER then mret tt
  else
    port ← lift_res (or_raise KeyError (in_port msg));
    emit (PacketDrop (pi_dp msg) (buffer_id msg) port).

(** The port a frame came in by; no branch assigns it for version 1.1. *)
Definition dst_port_no (msg : packet_in) : res (option Z) :=
  let v := version (pi_dp msg) in
  if v =? 1 then Some <$> or_raise AttributeError (in_port msg)
  else if 3 <=? v then Some <$> or_raise KeyError (in_port msg)
  else Ok None.

(** Hosts on ports that are not edge ports are forgotten. *)
Definition remove_hosts : stm t unit :=
  s ← get;
  iterM (fun h : HostState.Host =>
           s ← get;
           if _is_edge_port (HostState.host_port h) s then mret tt
           else
             lift_res (or_raise KeyError (hosts s !! HostState.mac h)) ;;
             put (with_hosts (delete (HostState.mac h) (hosts s)) s))
    (snd <$> dict_items (tick s) (hosts s)).

Definition link_found (now : Z) (src dst : pid) (msg : packet_in) : stm t unit :=
  s ← get;
  match LinkState.get_peer src (links s) with
  | Some old_peer =>
      if decide (old_peer = dst) then mret tt else emit (EventLinkDelete (src, old_peer))
  | None => mret tt
  end ;;
  match LinkState.links (links s) !! (src, dst) with
  | Some _ => mret tt
  | None => emit (EventLinkAdd (src, dst)) ;; remove_hosts
  end ;;
  rev ← on_links (LinkState.update_link now src dst);
  (if rev : bool then mret tt
   else on_ports (PortDataState.move_front dst) ;; set_event) ;;
  if explicit_drop then _drop_packet msg else mret tt.

Definition lldp_handler (now : Z) (parsed : res (Z * Z)) (msg : packet_in) : stm t unit :=
  match parsed with
  | Err LLDPUnknownFormat => mret tt
  | Err x => raise x
  | Ok (src_dpid, src_port_no) =>
      dst_no ← lift_res (dst_port_no msg);
      src ← _get_port src_dpid src_port_no;
      match src with
      | None => mret tt
      | Some src =>
          if bool_decide (Some (dpid src) = pi_dpid msg) then mret tt
          else
            try_except (on_ports (PortDataState.lldp_received (key_of src))) KeyError (mret tt) ;;
            no ← lift_res (or_raise UnboundLocalError dst_no);
            dst ← match pi_dpid msg with
                  | Some id => _get_port id no
                  | None => mret None
                  end;
            match dst with
            | None => mret tt
            | Some dst => link_found now (key_of src) (key_of dst) msg
            end
      end
  end.

Definition lldp_packet_in_handler (fuel : nat) (now : Z) (msg : packet_in) :
    t -> option (res unit * t) := fun s =>
  if link_discovery then
    match LLDPPacket.lldp_parse X fuel (pi_data msg) with
    | None => None
    | Some parsed => Some (lldp_handler now parsed msg s)
    end
  else Some (Ok tt, s).

(** [pkt.get_protocols(cls)[0].src] and the like *)
Definition src_of (c : pcls) (l : list (item (with_lldp X))) : res (option string) :=
  match get_protocol (with_lldp X) c l with
  | None => Err IndexError
  | Some (Parp h) => Ok (Some (Arp.src_ip h))
  | Some p => Ok (o_src (outer_of (with_lldp X) (Header p)))
  end.

Definition update_host (m : string) (v4 v6 : option string) : stm t unit :=
  modify (fun s => with_hosts (HostState.update_ip m v4 v6 (hosts s)) s).

Definition host_handler (l : list (item (with_lldp X))) (msg : packet_in) : stm t unit :=
  match get_protocol (with_lldp X) Cethernet l with
  | Some (Peth eth) =>
      if Ethernet.ethertype eth =? ETH_TYPE_LLDP then mret tt
      else
        no ← lift_res (or_raise (if version (pi_dp msg) =? 1 then AttributeError else KeyError) (in_port msg));
        port ← match pi_dpid msg with Some id => _get_port id no | None => mret None end;
        match port with
        | None => mret tt
        | Some port =>
            s ← get;
            if _is_edge_port (key_of port) s then
              let host_mac := Ethernet.src eth in
              let host := HostState.Host_init host_mac (key_of port) in
              match hosts s !! host_mac with
              | Some _ => mret tt
              | None =>
                  put (with_hosts (HostState.add host (hosts s)) s) ;;
                  emit (EventHostAdd host)
              end ;;
              (if Ethernet.ethertype eth =? ETH_TYPE_ARP then
                 ip ← lift_res (src_of Carp l); update_host host_mac ip None
               else if Ethernet.ethertype eth =? ETH_TYPE_IP then
                 ip ← lift_res (src_of Cipv4 l); update_host host_mac ip None
               else if Ethernet.ethertype eth =? ETH_TYPE_IPV6 then
                 ip ← lift_res (src_of Cipv6 l); update_host host_mac None ip
               else mret tt)
            else mret tt
        end
  | _ => raise IndexError
  end.

Definition host_discovery_packet_in_handler (fuel : nat) (msg : packet_in) :
    t -> option (res unit * t) := fun s =>
  match packet (with_lldp X) fuel (pi_data msg) Cethernet with
  | None => None
  | Some (Err x) => Some (Err x, s)
  | Some (Ok l) => Some (host_handler l msg s)
  end.

(** *** Frames are sent *)

Definition send_lldp_packet (now : Z) (port : pid) : stm t unit :=
  r ← try_except (d ← on_ports (PortDataState.lldp_sent now port); mret (Some d)) KeyError (mret None);
  match r with
  | None => mret tt
  | Some port_data =>
      if pd_is_down port_data then mret tt
      else
        s ← get;
        match dps s !! port.1 with
        | None => mret tt
        | Some dp =>
            if (version dp =? 1) || (3 <=? version dp)
            then emit (PacketOut dp port.2 (lldp_data port_data)) else mret tt
        end
  end.

(** The ports never probed and the ports due, up to the first that is not due. *)
Fixpoint lldp_scan (now : Z) (l : list (pid * PortData)) : list pid * list pid :=
  match l with
  | [] => ([], [])
  | (key, data) :: l =>
      match timestamp data with
      | None => let '(a, b) := lldp_scan now l in (key :: a, b)
      | Some ts =>
          if ts + LLDP_SEND_PERIOD_PER_PORT <=? now
          then let '(a, b) := lldp_scan now l in (a, key :: b)
          else ([], [])
      end
  end.

(** The next port of the loop with sleeps *)
Definition lldp_resume (now : Z) : stm t unit :=
  s ← get;
  match lldp_pending s with
  | [] => mret tt
  | port :: rest =>
      put (with_pending rest s) ;;
      send_lldp_packet now port
  end.

(** A turn of the loop up to its first sleep *)
Definition lldp_loop (now : Z) : stm t unit :=
  modify (with_event false) ;;
  s ← get;
  match PortDataState.items (ports s) with
  | None => raise IndexError
  | Some l =>
      let '(ports_now, due) := lldp_scan now l in
      iterM (send_lldp_packet now) ports_now ;;
      modify (with_pending due) ;;
      lldp_resume now
  end.

(** *** Links time out *)

Definition link_timed_out (now : Z) (s : t) (x : LinkState.link * Z) : bool :=
  (x.2 + LINK_TIMEOUT <? now)
  && match PortDataState.dict (ports s) !! x.1.1 with
     | Some d => LINK_LLDP_DROP <? pd_lldp_dropped d
     | None => false
     end.

Definition delete_link (now : Z) (deleted : list LinkState.link) (l : LinkState.link) : stm t unit :=
  on_links (LinkState.link_down l) ;;
  emit (EventLinkDelete l) ;;
  let rev_link := (l.2, l.1) in
  if bool_decide (rev_link ∈ deleted) then mret tt
  else
    on_links (LinkState.rev_link_set_timestamp rev_link (now - LINK_TIMEOUT)) ;;
    s ← get;
    match PortDataState.dict (ports s) !! l.2 with
    | Some _ => on_ports (PortDataState.move_front l.2) ;; set_event
    | None => mret tt
    end.

Definition link_loop (now : Z) : stm t unit :=
  s ← get;
  let deleted :=
    (List.filter (link_timed_out now s) (dict_items (tick s) (LinkState.links (links s)))).*1 in
  iterM (delete_link now deleted) deleted.

(** *** Requests *)

Definition switch_request_handler (dpid : option Z) : stm t (list (list Port)) :=
  s ← get;
  match dpid with
  | None =>
      lift_res (mapM_res (fun x : Z * datapath =>
        m ← or_raise KeyError (port_state s !! x.1); Ok (switch_ports x.1 x.2 (tick s) m))
        (dict_items (tick s) (dps s)))
  | Some id => sw ← _get_switch id; mret (match sw with Some ps => [ps] | None => [] end)
  end.

Definition link_request_handler (dpid : option Z) (s : t) : list LinkState.link :=
  let l := (dict_items (tick s) (LinkState.links (links s))).*1 in
  match dpid with
  | None => l
  | Some id => filter (fun x => x.1.1 = id) l
  end.

Definition host_request_handler (dpid : option Z) (s : t) : list HostState.Host :=
  match dpid with
  | None => snd <$> dict_items (tick s) (hosts s)
  | Some id => HostState.get_by_dpid (tick s) id (hosts s)
  end.

(** *** Runs *)

Inductive event :=
  | StateChange (main : bool) (dpid : option Z) (dp : datapath)
  | PortStatus (reason : Z) (dpid : option Z) (dp : datapath) (ofpport : OFPPort)
  | PacketIn (msg : packet_in)
  | LldpLoop
  | LldpResume
  | LinkLoop.

(** One event at a time [now].  A packet-in message is given to both handlers, in the
    order of their names, as they are registered. *)
Definition step (fuel : nat) (now : Z) (ev : event) (s : t) : option (res unit * t) :=
  let s := with_tick (S (tick s)) s in
  match ev with
  | StateChange main dpid dp => Some (state_change_handler main dpid dp s)
  | PortStatus reason dpid dp p => Some (port_status_handler reason dpid dp p s)
  | PacketIn msg =>
      match host_discovery_packet_in_handler fuel msg s with
      | None => None
      | Some (Err x, s) => Some (Err x, s)
      | Some (Ok _, s) => lldp_packet_in_handler fuel now msg s
      end
  | LldpLoop => Some (lldp_loop now s)
  | LldpResume => Some (lldp_resume now s)
  | LinkLoop => Some (link_loop now s)
  end.

(** States that the application reaches, with the time of the last event. *)
Inductive reachable : Z -> t -> Prop :=
  | reach_init now : reachable now init
  | reach_step now now' fuel ev s r s' :
      reachable now s -> now <= now' -> step fuel now' ev s = Some (r, s') -> reachable now' s'.

End Switches.
End Switches.

(** ** The invariant *)

Module TopoFacts.
Import OrderFacts Switches.

(** The ports are probed in the order of their last probe: the times of the probes are
    ascending along the list, and not in the future. *)
Definition stamps (l : OrderedList.t) : list Z := omap (fun e => timestamp e.2) l.

Definition sched (now : Z) (l : OrderedList.t) : Prop :=
  StronglySorted Z.le (stamps l) /\ Forall (fun ts => ts <= now) (stamps l).

Record topo_ok (now : Z) (s : t) : Prop := {
  ok_ports : exists l, represents (ports s) l /\ sched now l;
  ok_peers : forall a b, LinkState._map (links s) !! a = Some b -> is_Some (LinkState.links (links s) !! (a, b));
  ok_ends : forall a b, is_Some (LinkState.links (links s) !! (a, b)) -> a.1 <> b.1;
  ok_dps : dom (dps s) = dom (port_state s);
  ok_numbers : forall id m n p, port_state s !! id = Some m -> m !! n = Some p -> op_port_no p = n;
  ok_hosts : forall m h, hosts s !! m = Some h ->
    HostState.mac h = m /\ NoDup (HostState.ipv4 h) /\ NoDup (HostState.ipv6 h) }.

(** *** The schedule *)

Lemma Forall_sublist {A} (P : A -> Prop) (l k : list A) : k `sublist_of` l -> Forall P l -> Forall P k.
Proof.
  intros Hs. rewrite !list.Forall_forall. intros H x Hx. apply H. by eapply elem_of_sublist.
Qed.

Lemma sched_sub now l l' : sched now l -> stamps l' `sublist_of` stamps l -> sched now l'.
Proof.
  intros [H1 H2] Hs. split; [|by eapply Forall_sublist].
  clear H2. revert H1. generalize (stamps l) (stamps l') Hs. clear. intros k k' Hs Hk.
  induction Hs as [|x k' k Hs IH|x k' k Hs IH]; [done| |]; apply StronglySorted_inv in Hk as [Hk Hx].
  - constructor; [by apply IH|]. by eapply Forall_sublist.
  - by apply IH.
Qed.

Lemma sched_later now now' l : sched now l -> now <= now' -> sched now' l.
Proof. intros [H1 H2] Hn. split; [done|]. eapply list.Forall_impl; [exact H2|]. cbn. lia. Qed.

Lemma stamps_app l1 l2 : stamps (l1 ++ l2) = stamps l1 ++ stamps l2.
Proof. apply omap_app. Qed.

Lemma stamps_cons k d l :
  stamps ((k, d) :: l) = match timestamp d with Some ts => ts :: stamps l | None => stamps l end.
Proof. done. Qed.

Lemma sorted_snoc l (x : Z) : StronglySorted Z.le l -> Forall (fun y => y <= x) l ->
  StronglySorted Z.le (l ++ [x]).
Proof.
  induction 1 as [|y l Hl IH Hy]; intros Hx; cbn [app]; [by repeat constructor|].
  apply Forall_cons_1 in Hx as [Hyx Hx]. constructor; [by apply IH|].
  apply Forall_app. split; [done|]. by constructor.
Qed.

(** What an operation of the dictionary does to the schedule, from what the operation on
    the list does. *)
Lemma keeps_sched {A} now s (m : stm PortDataState.t A) (m' : stm OrderedList.t A) :
  simulates m m' -> (forall l, sched now l -> sched now (m' l).2) ->
  (exists l, represents s l /\ sched now l) -> exists l, represents (m s).2 l /\ sched now l.
Proof.
  intros Hsim Hm (l & Hl & Hs). exists (m' l).2. split; [by apply Hsim|by apply Hm].
Qed.

Ltac at_list k l :=
  destruct (OrderedList.split_at k l) as [[[l1 d] l2]|] eqn:E; [apply split_at_some in E; subst l|].

Ltac sublist_stamps :=
  match goal with H : sched _ _ |- _ => eapply sched_sub; [exact H|] end;
  rewrite ?stamps_cons, ?stamps_app, ?stamps_cons; cbn [timestamp pd_clear_timestamp pd_set_down pd_lldp_received PortData_init];
  repeat first [reflexivity | apply sublist_app | apply sublist_skip | apply sublist_cons
               | case_match ].

Lemma add_port_sched now k dn data l : sched now l -> sched now (OrderedList.add_port k dn data l).2.
Proof. intros H. unfold OrderedList.add_port. at_list k l; cbn [snd]; sublist_stamps. Qed.

Lemma lldp_received_sched now k l : sched now l -> sched now (OrderedList.lldp_received k l).2.
Proof.
  intros H. unfold OrderedList.lldp_received, OrderedList.at_key. unfold mbind, stm_bind.
  at_list k l; [|done]. cbn [snd mret stm_ret]. unfold OrderedList.stay. sublist_stamps.
Qed.

Lemma move_front_sched now k l : sched now l -> sched now (OrderedList.move_front k l).2.
Proof. intros H. unfold OrderedList.move_front. at_list k l; [|done]. cbn [snd]. sublist_stamps. Qed.

Lemma set_down_sched now k dn l : sched now l -> sched now (OrderedList.set_down k dn l).2.
Proof.
  intros H. unfold OrderedList.set_down, OrderedList.at_key. unfold mbind, stm_bind.
  at_list k l; [|done]. cbn [snd mret stm_ret]. unfold OrderedList.stay, OrderedList.to_front.
  destruct dn; sublist_stamps.
Qed.

Lemma del_port_sched now k l : sched now l -> sched now (OrderedList.del_port k l).2.
Proof.
  intros H. unfold OrderedList.del_port, OrderedList.at_key. unfold mbind, stm_bind.
  at_list k l; [|done]. cbn [snd mret stm_ret]. unfold OrderedList.gone. sublist_stamps.
Qed.

Lemma lldp_sent_sched now k l : sched now l -> sched now (OrderedList.lldp_sent now k l).2.
Proof.
  intros H. unfold OrderedList.lldp_sent, OrderedList.at_key. at_list k l; [|done]. cbn [snd].
  unfold OrderedList.to_end. assert (Hs : sched now (l1 ++ l2)) by sublist_stamps.
  destruct Hs as [H1 H2]. unfold sched. rewrite !stamps_app in *. cbn [stamps omap list_omap timestamp pd_lldp_sent snd].
  split; [by apply sorted_snoc|]. apply Forall_app. split; [done|]. by repeat constructor.
Qed.

(** *** Every handler keeps the invariant *)

Notation any := (fun _ => True).

Section Kept.
Context `{C : AddrConv} `{D : DictOrder} `{!DictOrderLaws D} (en : endian) (X : Others).
Context (link_discovery install_flow explicit_drop : bool) (now : Z).

Notation ok := (topo_ok now).

(** Changes of the attributes the invariant does not mention, or mentions alone. *)
Lemma ok_with_out x s : ok s -> ok (with_out x s).
Proof. by intros []; split. Qed.
Lemma ok_with_event x s : ok s -> ok (with_event x s).
Proof. by intros []; split. Qed.
Lemma ok_with_pending x s : ok s -> ok (with_pending x s).
Proof. by intros []; split. Qed.

Lemma on_ports_safe {A} (m : stm PortDataState.t A) m' :
  simulates m m' -> (forall l, sched now l -> sched now (m' l).2) -> safe ok (on_ports m) any.
Proof.
  intros Hsim Hm s []. unfold on_ports. split; [|done].
  pose proof (keeps_sched now (ports s) m m' Hsim Hm ok_ports0) as Hp.
  destruct (m (ports s)) as [r p]. split; try done.
Qed.

Definition links_ok (l : LinkState.t) : Prop :=
  (forall a b, LinkState._map l !! a = Some b -> is_Some (LinkState.links l !! (a, b)))
  /\ (forall a b, is_Some (LinkState.links l !! (a, b)) -> a.1 <> b.1).

Lemma on_links_safe {A} (m : stm LinkState.t A) Q : safe links_ok m Q -> safe ok (on_links m) Q.
Proof.
  intros Hm s []. unfold on_links. destruct (Hm (links s)) as [[H1 H2] HQ]; [by split|].
  destruct (m (links s)) as [r l]. split; [|done]. split; try done.
Qed.

Lemma update_link_safe src dst : src.1 <> dst.1 -> safe links_ok (LinkState.update_link now src dst) any.
Proof.
  intros Hne s [H1 H2]. split; [|done]. unfold LinkState.update_link. stm_unfold. cbn [snd].
  split; cbn [LinkState.links LinkState._map]; intros a b.
  - destruct (decide (src = a)) as [->|].
    + rewrite lookup_insert_eq. intros [= ->]. by rewrite lookup_insert_eq.
    + rewrite lookup_insert_ne by done. intros H. apply H1 in H. rewrite lookup_insert_ne by congruence. done.
  - intros [H|H]%lookup_insert_is_Some; [by injection H as <- <-|]. apply H2. by destruct H.
Qed.

Lemma delete_links_ok l s : links_ok s ->
  links_ok (LinkState.Mk (delete l (LinkState.links s)) (delete l.1 (LinkState._map s))).
Proof.
  intros [H1 H2]. split; cbn [LinkState.links LinkState._map]; intros a b.
  - intros [Hne H]%lookup_delete_Some. apply H1 in H. rewrite lookup_delete_ne; [done|].
    intros ->. by apply Hne.
  - intros [_ H]%lookup_delete_is_Some. by apply H2.
Qed.

Lemma remove_link_ok l s : links_ok s -> (forall b, LinkState._map s !! l.1 = Some b -> b <> l.2) ->
  links_ok (LinkState.Mk (delete l (LinkState.links s)) (LinkState._map s)).
Proof.
  intros [H1 H2] Hb. split; cbn [LinkState.links LinkState._map]; intros a b.
  - intros H. pose proof (H1 _ _ H) as H'. rewrite lookup_delete_ne; [done|]. intros ->. by eapply Hb.
  - intros [_ H]%lookup_delete_is_Some. by apply H2.
Qed.

Lemma link_down_safe l : safe links_ok (LinkState.link_down l) any.
Proof.
  intros s Hs. split; [|done]. unfold LinkState.link_down, LinkState.del_link, LinkState.del_map.
  stm_unfold. destruct (LinkState.links s !! l) as [ts|] eqn:El; cbn [or_raise]; [|done].
  cbn [LinkState._map LinkState.links].
  destruct (LinkState._map s !! l.1) as [b|] eqn:Em; cbn [or_raise snd].
  - by apply delete_links_ok.
  - apply remove_link_ok; [done|]. intros b. by rewrite Em.
Qed.

Lemma set_timestamp_safe l ts : safe links_ok (LinkState.rev_link_set_timestamp l ts) any.
Proof.
  intros s [H1 H2]. split; [|done]. unfold LinkState.rev_link_set_timestamp. stm_unfold.
  destruct (LinkState.links s !! l) as [x|] eqn:El; cbn [snd]; [|by split].
  split; cbn [LinkState.links LinkState._map]; intros a b H.
  - apply lookup_insert_is_Some'. right. by apply H1.
  - apply lookup_insert_is_Some' in H as [->|H]; apply H2; [by eexists|done].
Qed.

Lemma port_deleted_safe src : safe links_ok (LinkState.port_deleted src) any.
Proof.
  intros s Hs. split; [|done]. unfold LinkState.port_deleted, LinkState.get_peer, LinkState.del_link, LinkState.del_map.
  stm_unfold. destruct (LinkState._map s !! src) as [dst|] eqn:Em; [|done]. cbn [snd].
  destruct (proj1 Hs _ _ Em) as [ts El]. rewrite El. cbn [or_raise LinkState._map LinkState.links].
  rewrite Em. cbn [or_raise snd LinkState._map LinkState.links].
  pose proof (delete_links_ok (src, dst) s Hs) as H. apply (delete_links_ok (dst, src)) in H. exact H.
Qed.

Lemma safe_state {S A} (I : S -> Prop) (m : stm S A) Q s : safe I m Q -> I s -> I (m s).2.
Proof. intros H Hs. by apply H. Qed.

Lemma emit_safe x : safe ok (emit x) any.
Proof. apply safe_modify; [|done]. intros s. apply ok_with_out. Qed.
Lemma event_safe : safe ok set_event any.
Proof. apply safe_modify; [|done]. intros s. apply ok_with_event. Qed.

Lemma add_port_safe k dn data : safe ok (on_ports (PortDataState.add_port k dn data)) any.
Proof. eapply on_ports_safe; [apply add_port_sim|]. intros. by apply add_port_sched. Qed.
Lemma lldp_sent_safe k : safe ok (on_ports (PortDataState.lldp_sent now k)) any.
Proof. eapply on_ports_safe; [apply lldp_sent_sim|]. intros. by apply lldp_sent_sched. Qed.
Lemma lldp_received_safe k : safe ok (on_ports (PortDataState.lldp_received k)) any.
Proof. eapply on_ports_safe; [apply lldp_received_sim|]. intros. by apply lldp_received_sched. Qed.
Lemma move_front_safe k : safe ok (on_ports (PortDataState.move_front k)) any.
Proof. eapply on_ports_safe; [apply move_front_sim|]. intros. by apply move_front_sched. Qed.
Lemma set_down_safe k dn : safe ok (on_ports (PortDataState.set_down k dn)) any.
Proof. eapply on_ports_safe; [apply set_down_sim|]. intros. by apply set_down_sched. Qed.
Lemma del_port_safe k : safe ok (on_ports (PortDataState.del_port k)) any.
Proof. eapply on_ports_safe; [apply del_port_sim|]. intros. by apply del_port_sched. Qed.

#[local] Hint Resolve emit_safe event_safe add_port_safe lldp_sent_safe lldp_received_safe move_front_safe
  set_down_safe del_port_safe : topo.

(** Sequencing, returning, raising and the known methods. *)
Ltac safe_tac :=
  repeat first
    [ solve [auto with topo nocore]
    | apply safe_ret; done | apply safe_raise | (apply safe_lift; done)
    | apply (safe_bind _ _ _ any); [|intros ? _]
    | apply safe_try
    | (apply safe_iter, list.Forall_forall; intros ? ?)
    | case_match ].

Lemma get_switch_safe id :
  safe ok (_get_switch id)
    (fun r => forall ps p, r = Some ps -> p ∈ ps -> dpid p = id /\ is_reserved p = false).
Proof.
  unfold _get_switch. apply safe_get. intros s Hs.
  destruct (dps s !! id) as [dp|]; [|split; [done|]; by intros a [= <-]].
  unfold mbind, stm_bind, lift_res. destruct (port_state s !! id) as [m|]; cbn [or_raise]; [|by split].
  split; [done|]. cbn. intros a [= <-] ps p [= <-]. unfold switch_ports.
  intros [Hr Hp]%list_elem_of_filter. by apply list_elem_of_fmap in Hp as (o & -> & _).
Qed.

Lemma get_port_safe id no :
  safe ok (_get_port id no)
    (fun r => forall p, r = Some p -> dpid p = id /\ port_no p = no /\ is_reserved p = false).
Proof.
  unfold _get_port. eapply safe_bind; [apply get_switch_safe|]. intros sw Hsw. apply safe_ret.
  intros p. destruct sw as [ps|]; [|done]. cbn [mbind option_bind].
  destruct (list_find _ ps) as [[i q]|] eqn:E; [|done]. intros [= ->].
  apply list_find_Some in E as (E & Hn & _).
  destruct (Hsw ps p eq_refl (list_elem_of_lookup_2 _ _ _ E)). done.
Qed.

Lemma port_added_safe p : safe ok (_port_added en X p) any.
Proof. unfold _port_added. safe_tac. Qed.

Lemma link_down_handler_safe p : safe ok (_link_down p) any.
Proof.
  unfold _link_down. apply (safe_bind _ _ _ any); [|intros r _; safe_tac].
  apply safe_try; [|safe_tac]. apply (safe_bind _ _ _ any); [|intros; safe_tac].
  apply on_links_safe, port_deleted_safe.
Qed.

#[local] Hint Resolve port_added_safe link_down_handler_safe : topo.

Lemma install_flow_safe dp : safe ok (install_lldp_flow en X dp) any.
Proof. unfold install_lldp_flow. safe_tac. Qed.

Lemma port_numbers (m : gmap Z OFPPort) tk : forall n p,
  foldl (fun m p => <[op_port_no p := p]> m) (∅ : gmap Z OFPPort) (snd <$> dict_items tk m) !! n = Some p ->
  op_port_no p = n.
Proof.
  generalize (snd <$> dict_items tk m). intros l.
  enough (forall m0 : gmap Z OFPPort, (forall n p, m0 !! n = Some p -> op_port_no p = n) ->
    forall n p, foldl (fun m p => <[op_port_no p := p]> m) m0 l !! n = Some p -> op_port_no p = n) as H
    by (apply H; intros n p; by rewrite lookup_empty).
  induction l as [|q l IH]; intros m0 H0; [done|]. cbn [foldl]. apply IH. intros n p.
  intros [[<- <-]|[_ H]]%lookup_insert_Some; [done|by apply H0].
Qed.

Lemma register_safe dpid dp : safe ok (_register dpid dp) any.
Proof.
  destruct dpid as [id|]; [|apply safe_raise]. cbn [_register]. intros s Hs. split; [|done].
  destruct Hs. unfold mbind, stm_bind, modify, get. cbn [port_state with_dps tick].
  destruct (port_state s !! id) as [m|] eqn:E; cbn [mret stm_ret put snd].
  - split; try done. cbn [dps port_state with_dps]. rewrite dom_insert_L, ok_dps0.
    apply elem_of_dom_2 in E. set_solver.
  - split; try done; cbn [dps port_state with_dps with_port_state].
    + by rewrite !dom_insert_L, ok_dps0.
    + intros id' m n p [[<- <-]|[_ H]]%lookup_insert_Some; [apply port_numbers|by eapply ok_numbers0].
Qed.

Lemma unregister_safe id : safe ok (_unregister id) any.
Proof.
  intros s Hs. split; [|done]. unfold _unregister. unfold mbind, stm_bind, get, put.
  destruct (dps s !! id) as [dp|] eqn:E; [|done].
  assert (is_Some (port_state s !! id)) as [m Em].
  { apply elem_of_dom. rewrite <- (ok_dps _ _ Hs). by eapply elem_of_dom_2. }
  unfold lift_res. cbn [port_state with_dps]. rewrite Em. cbn [or_raise snd].
  destruct Hs. split; try done; cbn [dps port_state with_dps with_port_state].
  - by rewrite !dom_delete_L, ok_dps0.
  - intros id' m' n p [_ H]%lookup_delete_Some. by eapply ok_numbers0.
Qed.

#[local] Hint Resolve install_flow_safe register_safe unregister_safe : topo.

Lemma state_change_safe main dpid dp :
  safe ok (state_change_handler en X link_discovery install_flow main dpid dp) any.
Proof.
  unfold state_change_handler, enter_handler, leave_handler. destruct main.
  - apply safe_get. intros s Hs. revert s Hs. 
    enough (forall b : bool, safe ok (_register dpid dp ;;
      match dpid with
      | None => mret tt
      | Some id =>
          switch ← _get_switch id;
          let sports := default [] switch in
          (if b : bool then mret tt else emit (EventSwitchEnter id sports)) ;;
          if link_discovery then
            (if install_flow then install_lldp_flow en X dp else mret tt) ;;
            (if b then mret tt
             else iterM (fun p => if is_reserved p then mret tt else _port_added en X p) sports) ;;
            set_event
          else mret tt
      end) any) as H by (intros s Hs; by apply H).
    intros b. apply (safe_bind _ _ _ any); [auto with topo|]. intros _ _. destruct dpid as [id|]; [|safe_tac].
    eapply safe_bind; [apply get_switch_safe|]. intros sw _. cbn zeta. safe_tac.
  - destruct dpid as [id|]; [|safe_tac]. eapply safe_bind; [apply get_switch_safe|]. intros sw _. safe_tac.
Qed.

Lemma dp_port_state_run dpid s :
  dp_port_state dpid s = (Err KeyError, s)
  \/ exists id m, dpid = Some id /\ port_state s !! id = Some m /\ dp_port_state dpid s = (Ok (id, m), s).
Proof.
  unfold dp_port_state. stm_unfold. destruct dpid as [id|]; [|by left]. cbn.
  destruct (port_state s !! id) as [m|] eqn:E; [|by left]. right. exists id, m. by rewrite E.
Qed.

(** The ports of a switch are replaced by others under their own numbers. *)
Lemma set_port_state_ok id m m' s : ok s -> port_state s !! id = Some m ->
  (forall n p, m' !! n = Some p -> op_port_no p = n) ->
  ok (with_port_state (<[id := m']> (port_state s)) s).
Proof.
  intros [] Hm Hn. split; try done; cbn [dps port_state with_port_state].
  - rewrite dom_insert_L, ok_dps0. apply elem_of_dom_2 in Hm. set_solver.
  - intros id' m0 n p [[<- <-]|[_ H]]%lookup_insert_Some; [by apply Hn|by eapply ok_numbers0].
Qed.

Lemma port_status_safe reason dpid dp op :
  safe ok (port_status_handler en X link_discovery reason dpid dp op) any.
Proof.
  assert (Hup : forall (m : gmap Z OFPPort), (forall n p, m !! n = Some p -> op_port_no p = n) ->
    forall n p, <[op_port_no op := op]> m !! n = Some p -> op_port_no p = n).
  { intros m Hm n p [[<- <-]|[_ H]]%lookup_insert_Some; [done|by apply Hm]. }
  assert (Hport : forall id (k : option Port -> stm t unit), (forall p, safe ok (k p) any) ->
    safe ok (p ← _get_port id (op_port_no op); k p) any).
  { intros id k Hk. eapply safe_bind; [apply get_port_safe|]. intros p _. apply Hk. }
  unfold port_status_handler. cbn zeta.
  destruct (reason =? OFPPR_ADD); [|destruct (reason =? OFPPR_DELETE); [|destruct (reason =? OFPPR_MODIFY); [|apply safe_raise]]];
    intros s Hs; (split; [|done]); unfold mbind at 1, stm_bind at 1;
    destruct (dp_port_state_run dpid s) as [->|(id & m & -> & Hm & ->)]; try done;
    pose proof (fun n p => ok_numbers _ _ Hs id m n p Hm) as Hnum.
  - unfold set_port_state, modify, mbind at 1, stm_bind at 1.
    refine (safe_state _ _ any _ _ (set_port_state_ok id m _ s Hs Hm _)); [|by eauto].
    apply (safe_bind _ _ _ any); [auto with topo|]. intros _ _. destruct link_discovery; [|by apply safe_ret].
    apply Hport. intros p. safe_tac.
  - unfold mbind at 1, stm_bind at 1, lift_res at 1. destruct (m !! op_port_no op); cbn [or_raise]; [|done].
    unfold set_port_state, modify, mbind at 1, stm_bind at 1.
    refine (safe_state _ _ any _ _ (set_port_state_ok id m _ s Hs Hm _)).
    2:{ intros n p [_ H]%lookup_delete_Some. by eapply Hnum. }
    apply (safe_bind _ _ _ any); [auto with topo|]. intros _ _. destruct link_discovery; [|by apply safe_ret].
    apply Hport. intros p. safe_tac.
  - unfold set_port_state, modify, mbind at 1, stm_bind at 1.
    refine (safe_state _ _ any _ _ (set_port_state_ok id m _ s Hs Hm _)); [|by eauto].
    apply (safe_bind _ _ _ any); [auto with topo|]. intros _ _. destruct link_discovery; [|by apply safe_ret].
    apply Hport. intros p. safe_tac.
Qed.

Lemma hosts_safe (f : HostState.t -> HostState.t) s : ok s ->
  (forall m h, f (hosts s) !! m = Some h ->
     HostState.mac h = m /\ NoDup (HostState.ipv4 h) /\ NoDup (HostState.ipv6 h)) ->
  ok (with_hosts (f (hosts s)) s).
Proof. by intros [] H; split. Qed.

Lemma add_ip_nodup ip l : NoDup l -> NoDup (HostState.add_ip ip l).
Proof.
  intros Hl. destruct ip as [a|]; [|done]. cbn. destruct (decide (a ∈ l)); [done|].
  rewrite <- Permutation_cons_append. by apply list.NoDup_cons.
Qed.

Lemma update_host_safe m v4 v6 : safe ok (update_host m v4 v6) any.
Proof.
  apply safe_modify; [|done]. intros s Hs. apply (hosts_safe (HostState.update_ip m v4 v6)); [done|].
  pose proof (ok_hosts _ _ Hs) as Hh. unfold HostState.update_ip. intros k h.
  destruct (hosts s !! m) as [h0|] eqn:E; [|by apply Hh].
  intros [[<- <-]|[_ H]]%lookup_insert_Some; [|by apply Hh]. destruct (Hh _ _ E) as (-> & H4 & H6).
  cbn. auto using add_ip_nodup.
Qed.

Lemma remove_hosts_safe : safe ok remove_hosts any.
Proof.
  unfold remove_hosts. apply safe_get. intros s0 Hs0. revert s0 Hs0.
  enough (forall l, safe ok (iterM (fun h : HostState.Host =>
           s ← get;
           if _is_edge_port (HostState.host_port h) s then mret tt
           else
             lift_res (or_raise KeyError (hosts s !! HostState.mac h)) ;;
             put (with_hosts (delete (HostState.mac h) (hosts s)) s)) l) any) as H
    by (intros s0 Hs0; by apply H).
  intros l. apply safe_iter, list.Forall_forall. intros h _. apply safe_get. intros s Hs.
  destruct (_is_edge_port _ s); [by split|]. unfold mbind, stm_bind, lift_res, put.
  destruct (hosts s !! HostState.mac h); cbn [or_raise]; [|by split]. split; [|done].
  apply (hosts_safe (delete (HostState.mac h))); [done|]. intros m h' [_ H]%lookup_delete_Some.
  by apply (ok_hosts _ _ Hs).
Qed.

#[local] Hint Resolve update_host_safe remove_hosts_safe : topo.

Lemma update_link_ok src dst : src.1 <> dst.1 -> safe ok (on_links (LinkState.update_link now src dst)) any.
Proof. intros H. by apply on_links_safe, update_link_safe. Qed.

Lemma link_found_safe src dst msg : src.1 <> dst.1 -> safe ok (link_found explicit_drop now src dst msg) any.
Proof.
  intros Hne. unfold link_found. apply safe_get. intros s Hs. refine ((_ : safe ok _ any) s Hs).
  pose proof (update_link_ok src dst Hne). unfold _drop_packet. safe_tac.
Qed.

Lemma lldp_handler_safe parsed msg : safe ok (lldp_handler explicit_drop now parsed msg) any.
Proof.
  unfold lldp_handler. destruct parsed as [[sd sp]|[]]; try by safe_tac.
  apply (safe_bind _ _ _ any); [by apply safe_lift|]. intros dst_no _.
  eapply safe_bind; [apply get_port_safe|]. intros [src|] Hsrc; [|safe_tac].
  destruct (bool_decide _) eqn:Hb; [safe_tac|]. apply bool_decide_eq_false in Hb.
  apply (safe_bind _ _ _ any); [safe_tac|]. intros _ _.
  apply (safe_bind _ _ _ any); [by apply safe_lift|]. intros no _.
  destruct (pi_dpid msg) as [id|]; [|safe_tac].
  eapply safe_bind; [apply get_port_safe|]. intros [dst|] Hdst; [|safe_tac].
  apply link_found_safe. cbn. destruct (Hsrc src eq_refl) as (-> & _). destruct (Hdst dst eq_refl) as (-> & _).
  destruct (Hsrc src eq_refl) as (E & _). congruence.
Qed.

Lemma host_handler_safe l msg : safe ok (host_handler X l msg) any.
Proof.
  unfold host_handler. destruct (get_protocol _ _ _) as [[eth| | | | | | | | | |]|]; try by apply safe_raise.
  destruct (_ =? ETH_TYPE_LLDP); [safe_tac|]. apply (safe_bind _ _ _ any); [by apply safe_lift|]. intros no _.
  destruct (pi_dpid msg) as [id|]; [|safe_tac].
  eapply safe_bind; [apply get_port_safe|]. intros [p|] _; [|safe_tac].
  apply safe_get. intros s Hs. destruct (_is_edge_port _ s); [|by split].
  assert (Hrest : forall s', ok s' -> ok ((if Ethernet.ethertype eth =? ETH_TYPE_ARP then
                 ip ← lift_res (src_of X Carp l); update_host (Ethernet.src eth) ip None
               else if Ethernet.ethertype eth =? ETH_TYPE_IP then
                 ip ← lift_res (src_of X Cipv4 l); update_host (Ethernet.src eth) ip None
               else if Ethernet.ethertype eth =? ETH_TYPE_IPV6 then
                 ip ← lift_res (src_of X Cipv6 l); update_host (Ethernet.src eth) None ip
               else mret tt) s').2).
  { intros s' Hs'. eapply (safe_state _ _ any); [safe_tac|done]. }
  split; [|done]. cbn zeta. unfold mbind at 1, stm_bind at 1.
  destruct (hosts s !! Ethernet.src eth) as [h|] eqn:E; [by apply Hrest|].
  unfold mbind at 1, stm_bind at 1, put, emit, modify. apply Hrest. apply ok_with_out.
  apply (hosts_safe (HostState.add (HostState.Host_init (Ethernet.src eth) (key_of p)))); [done|].
  unfold HostState.add. cbn [HostState.mac HostState.Host_init]. rewrite E.
  intros m h [[<- <-]|[_ H]]%lookup_insert_Some; [|by apply (ok_hosts _ _ Hs)].
  split; [done|]. split; constructor.
Qed.

Lemma send_lldp_safe p : safe ok (send_lldp_packet now p) any.
Proof.
  unfold send_lldp_packet. apply (safe_bind _ _ _ any); [safe_tac|]. intros [d|] _; [|safe_tac].
  destruct (pd_is_down d); [safe_tac|]. apply safe_get. intros s Hs. refine ((_ : safe ok _ any) s Hs). safe_tac.
Qed.

#[local] Hint Resolve send_lldp_safe : topo.

Lemma lldp_resume_safe : safe ok (lldp_resume now) any.
Proof.
  unfold lldp_resume. apply safe_get. intros s Hs. destruct (lldp_pending s) as [|p rest]; [by split|].
  apply (send_lldp_safe p). by apply ok_with_pending.
Qed.

Lemma lldp_loop_safe : safe ok (lldp_loop now) any.
Proof.
  unfold lldp_loop. apply (safe_bind _ _ _ any).
  { apply safe_modify; [|done]. intros s. apply ok_with_event. }
  intros _ _. apply safe_get. intros s Hs. refine ((_ : safe ok _ any) s Hs).
  destruct (PortDataState.items (ports s)) as [l|]; [|apply safe_raise].
  destruct (lldp_scan now l) as [pn due]. apply (safe_bind _ _ _ any); [safe_tac|]. intros _ _.
  apply (safe_bind _ _ _ any); [|intros _ _; apply lldp_resume_safe].
  apply safe_modify; [|done]. intros s'. apply ok_with_pending.
Qed.

Lemma delete_link_safe del l : safe ok (delete_link now del l) any.
Proof.
  unfold delete_link. apply (safe_bind _ _ _ any); [apply on_links_safe, link_down_safe|]. intros _ _.
  apply (safe_bind _ _ _ any); [auto with topo|]. intros _ _. cbn zeta. destruct (bool_decide _); [safe_tac|].
  apply (safe_bind _ _ _ any); [apply on_links_safe, set_timestamp_safe|]. intros _ _.
  apply safe_get. intros s Hs. refine ((_ : safe ok _ any) s Hs). safe_tac.
Qed.

Lemma link_loop_safe : safe ok (link_loop now) any.
Proof.
  unfold link_loop. apply safe_get. intros s Hs. refine ((_ : safe ok _ any) s Hs). cbn zeta.
  apply safe_iter, list.Forall_forall. intros l _. apply delete_link_safe.
Qed.

Lemma step_ok fuel ev s r s' : ok s ->
  step en X link_discovery install_flow explicit_drop fuel now ev s = Some (r, s') -> ok s'.
Proof.
  intros Hs. unfold step. assert (Ht : ok (with_tick (S (tick s)) s)) by (by destruct Hs; split).
  set (s0 := with_tick _ s) in *. clearbody s0. clear Hs.
  destruct ev as [main dpid dp|reason dpid dp p|msg| | |].
  - intros [= E]. pose proof (safe_state _ _ _ _ (state_change_safe main dpid dp) Ht) as H. by rewrite E in H.
  - intros [= E]. pose proof (safe_state _ _ _ _ (port_status_safe reason dpid dp p) Ht) as H. by rewrite E in H.
  - unfold host_discovery_packet_in_handler, lldp_packet_in_handler.
    assert (Hl : forall s1, ok s1 ->
      (if link_discovery then
         match LLDPPacket.lldp_parse X fuel (pi_data msg) with
         | None => None
         | Some parsed => Some (lldp_handler explicit_drop now parsed msg s1)
         end
       else Some (Ok tt, s1)) = Some (r, s') -> ok s').
    { intros s1 Hs1. destruct link_discovery; [|by intros [= <- <-]].
      destruct (LLDPPacket.lldp_parse _ _ _) as [parsed|]; [|done]. intros [= E].
      pose proof (safe_state _ _ _ _ (lldp_handler_safe parsed msg) Hs1) as H. by rewrite E in H. }
    destruct (packet _ _ _ _) as [[l|x]|]; [|by intros [= <- <-]|done].
    pose proof (safe_state _ _ _ _ (host_handler_safe l msg) Ht) as H.
    destruct (host_handler X l msg s0) as [[u|x] s1]; [by apply Hl|by intros [= <- <-]].
  - intros [= E]. pose proof (safe_state _ _ _ _ lldp_loop_safe Ht) as H. by rewrite E in H.
  - intros [= E]. pose proof (safe_state _ _ _ _ lldp_resume_safe Ht) as H. by rewrite E in H.
  - intros [= E]. pose proof (safe_state _ _ _ _ link_loop_safe Ht) as H. by rewrite E in H.
Qed.

End Kept.

Lemma topo_init_ok now : topo_ok now init.
Proof.
  split; try done.
  - exists []. split; [apply init_represents|]. by split; constructor.
  - intros a b [x H]. done.
Qed.

Lemma later_ok now now' s : topo_ok now s -> now <= now' -> topo_ok now' s.
Proof.
  intros [(l & Hl & Hs)] Hn. split; try done. exists l. split; [done|]. by eapply sched_later.
Qed.

Lemma reachable_ok `{C : AddrConv} `{D : DictOrder} `{!DictOrderLaws D} en X link_discovery install_flow explicit_drop now s :
  reachable en X link_discovery install_flow explicit_drop now s -> topo_ok now s.
Proof.
  induction 1 as [now|now now' fuel ev s r s' _ IH Hn Hs]; [apply topo_init_ok|].
  eapply step_ok; [|exact Hs]. by eapply later_ok.
Qed.

End TopoFacts.

(** ** What the handlers do *)

Module TopoRuns.
Import OrderFacts Switches TopoFacts.

Section Runs.
Context `{C : AddrConv} `{D : DictOrder} `{!DictOrderLaws D} (en : endian) (X : Others).

(** *** The frame of a port names the port *)

Lemma ethernet_reparse `{!AddrConvLaws C} h w rest : Ethernet.serialize h = Ok w ->
  exists h', Ethernet.parser (w ++ rest) = Ok (h', get_packet_type_802_3 (Ethernet.ethertype h), rest).
Proof.
  intros H. unfold Ethernet.serialize in H.
  apply bind_Ok in H as (d & Ed & H). apply bind_Ok in H as (s & Es & H).
  destruct (text_to_bin_ok _ _ _ Ed) as [Ld Bd]. destruct (text_to_bin_ok _ _ _ Es) as [Ls Bs].
  destruct (bin_to_text_ok MAC d Ld Bd) as (td & Td & _). destruct (bin_to_text_ok MAC s Ls Bs) as (ts & Ts & _).
  exists (Ethernet.Mk td ts (Ethernet.ethertype h)).
  unfold Ethernet.parser. change Ethernet._MIN_LEN with 14%nat. fmt_eval.
  rewrite (unpack_from_pack0 _ _ _ _ H). cbn [mbind res_bind fit_args f_codes].
  cbn [alen] in *. rewrite !resize_all_alt by done. rewrite Td. cbn [mbind res_bind]. rewrite Ts.
  cbn [mbind res_bind]. by rewrite (drop_packed _ _ _ rest H : drop 14 _ = _).
Qed.

(** The TLVs of a probe. *)
Lemma probe_tlvs dpid no ttl c pi p t : 0 <= dpid < 2 ^ 64 -> 0 <= no < 2 ^ 32 -> 0 <= ttl < 65536 ->
  new_ChassisID LLDPPacket.SUB_LOCALLY_ASSIGNED (LLDPPacket.CHASSIS_ID_PREFIX ++ dpid_to_str dpid) = Ok c ->
  pack LLDPPacket.PORT_ID_STR [VInt no] = Ok pi ->
  new_PortID LLDPPacket.SUB_PORT_COMPONENT pi = Ok p -> new_TTL ttl = Ok t ->
  LldpFacts.wf c /\ LldpFacts.wf p /\ LldpFacts.wf t
  /\ body c = ChassisID LLDPPacket.SUB_LOCALLY_ASSIGNED (LLDPPacket.CHASSIS_ID_PREFIX ++ dpid_to_str dpid)
  /\ body p = PortID LLDPPacket.SUB_PORT_COMPONENT pi /\ body t = TTL ttl
  /\ LLDPPacket.parse_tlvs_of [c; p; t; new_End] = Ok (dpid, no).
Proof.
  intros Hd Hn Ht Hc Hpi Hp Htt.
  assert (Wc : LldpFacts.wf c) by (eapply LldpFacts.make_wf; [exact Hc|split; [done|reflexivity]]).
  assert (Wp : LldpFacts.wf p) by (eapply LldpFacts.make_wf; [exact Hp|split; [done|reflexivity]]).
  assert (Wt : LldpFacts.wf t)
    by (eapply LldpFacts.make_wf; [exact Htt|split; [by apply in_width_2|reflexivity]]).
  unfold new_ChassisID, new_PortID, new_TTL, make in Hc, Hp, Htt.
  apply bind_Ok in Hc as ([] & _ & [= <-]). apply bind_Ok in Hp as ([] & _ & [= <-]).
  apply bind_Ok in Htt as ([] & _ & [= <-]). do 6 (split; [done|]).
  unfold LLDPPacket.parse_tlvs_of. cbn [lookup list_lookup fmap option_fmap option_map body].
  rewrite Z.eqb_refl. change (take _ _) with LLDPPacket.CHASSIS_ID_PREFIX. change (drop _ _) with (dpid_to_str dpid).
  rewrite bool_decide_eq_true_2 by done. rewrite dpid_text_roundtrip by done. cbn [mbind res_bind].
  rewrite Z.eqb_refl. unfold LLDPPacket.PORT_ID_STR in *. fmt_eval.
  rewrite (fpack_length _ _ _ Hpi). change (fmt_size _ =? LLDPPacket.PORT_ID_SIZE)%nat with true. cbv iota.
  change (fmt_size _ =? fmt_size _)%nat with true. cbv iota.
  pose proof (unpack_from_pack0 _ _ _ [] Hpi) as E. rewrite app_nil_r in E. by rewrite E.
Qed.

Lemma probe_parses `{!AddrConvLaws C} dpid no addr ttl data rest fuel :
  0 <= dpid < 2 ^ 64 -> 0 <= no < 2 ^ 32 -> 0 <= ttl < 65536 ->
  LLDPPacket.lldp_packet en X dpid no addr ttl = Ok data ->
  LLDPPacket.lldp_parse X (3 + fuel) (data ++ rest) = Some (Ok (dpid, no)).
Proof.
  intros Hd Hn Ht H. unfold LLDPPacket.lldp_packet in H.
  apply bind_Ok in H as (c & Hc & H). apply bind_Ok in H as (pi & Hpi & H).
  apply bind_Ok in H as (p & Hp & H). apply bind_Ok in H as (t & Htt & H).
  destruct (probe_tlvs dpid no ttl c pi p t Hd Hn Ht Hc Hpi Hp Htt) as (Wc & Wp & Wt & Bc & Bp & Bt & Hres).
  apply bind_Ok in H as ([w its] & Hs & [= <-]). unfold Packet.serialize in Hs.
  apply serialize_cons_inv in Hs as (d1 & l1 & we & i1 & Hs & Hi & -> & ->).
  apply serialize_cons_inv in Hs as (d2 & l2 & wl & i2 & Hs & Hl & -> & ->).
  injection Hs as <- <-. rewrite app_nil_r in *. cbn [serialize_item] in Hi, Hl. unfold keep in Hi.
  apply bind_Ok in Hi as (we' & Hi & [= <- <-]). unfold changed in Hl.
  apply bind_Ok in Hl as ([wl' o] & Hl & [= <- <-]). cbn [other_serialize with_lldp] in Hl.
  apply bind_Ok in Hl as (wl'' & Hl & [= <- <-]).
  assert (Hwf : Forall LldpFacts.wf [c; p; t; new_End]) 
    by (apply list.Forall_cons; split; [exact Wc|]; apply list.Forall_cons; split; [exact Wp|];
        apply list.Forall_cons; split; [exact Wt|]; apply Forall_singleton, LldpFacts.new_End_wf).
  destruct (LldpFacts.tlvs_roundtrip c p t new_End [] wl'' rest) as (Hpar & Hlen);
    [by rewrite Bc|by rewrite Bp|by rewrite Bt|done|constructor|exact Hwf|exact Hl|].
  pose proof (LldpFacts.lldp_len_bound _ Hwf) as Hb. cbn [app length] in Hpar, Hlen, Hb.
  destruct (ethernet_reparse _ _ (wl'' ++ rest) Hi) as (h' & He).
  assert (Hne : (we' ++ wl'') ++ rest <> []).
  { destruct wl''; [cbn [length] in Hlen; lia|by destruct we']. }
  unfold LLDPPacket.lldp_parse. rewrite packet_nonempty by done. rewrite <- app_assoc.
  change (3 + fuel)%nat with (S (S (S fuel))).
  rewrite (parse_loop_step _ _ _ _ _ (Peth h') (Some Clldp) (Some (wl'' ++ rest)) 14); [| |done|done].
  2:{ cbn [parse_cls]. unfold lift. rewrite He. cbn [mbind res_bind Ethernet.ethertype].
      by change (get_packet_type_802_3 ETH_TYPE_LLDP) with (Some Clldp). }
  rewrite (parse_loop_step _ _ _ _ _ (Pother (X := with_lldp X) (inr (Some [c; p; t; new_End]))) None (Some rest)
             (lldp_len [c; p; t; new_End])).
  - cbn [parse_loop]. unfold finish. destruct rest; cbn [mbind res_bind app LLDPPacket.lldp_parse_items]; by rewrite Hres.
  - cbn [parse_cls other_parser with_lldp]. destruct (decide (Clldp = Clldp)); [|done]. by rewrite Hpar.
  - done.
  - lia.
Qed.

(** *** Ports are found *)

(** Port [no] of switch [id], a port that is not reserved. *)
Definition known_port (s : t) (id no : Z) (dp : datapath) (p : Port) : Prop :=
  dps s !! id = Some dp
  /\ exists m op, port_state s !! id = Some m /\ m !! no = Some op
     /\ p = Port_init id (version dp) op /\ is_reserved p = false.

Lemma dict_elem {V} tk (m : gmap Z V) k v : (k, v) ∈ dict_items tk m <-> m !! k = Some v.
Proof. rewrite dict_items_perm. apply elem_of_map_to_list. Qed.

Lemma get_port_known now s id no dp p : topo_ok now s -> known_port s id no dp p ->
  _get_port id no s = (Ok (Some p), s) /\ key_of p = (id, no).
Proof.
  intros Hok (Hdp & m & op & Hm & Hop & -> & Hr).
  assert (Hnum : forall n q, m !! n = Some q -> op_port_no q = n) by (intros; by eapply ok_numbers).
  split; [|unfold key_of; cbn; by rewrite (Hnum _ _ Hop)].
  unfold _get_port, _get_switch. unfold mbind at 1, stm_bind, get. unfold mbind at 1, stm_bind.
  rewrite Hdp. unfold mbind at 1, stm_bind, lift_res. rewrite Hm. cbn [or_raise mret stm_ret mbind option_bind].
  set (ps := switch_ports id dp (tick s) m).
  assert (Hin : forall q, q ∈ ps -> port_no q = no -> q = Port_init id (version dp) op).
  { intros q Hq Hn. unfold ps, switch_ports in Hq. apply list_elem_of_filter in Hq as [_ Hq].
    apply list_elem_of_fmap in Hq as (o & -> & Ho). apply list_elem_of_fmap in Ho as ([k o'] & -> & Ho).
    cbn [snd] in *. apply dict_elem in Ho. pose proof (Hnum _ _ Ho) as Hk. cbn in Hn. congruence. }
  destruct (list_find (fun q => port_no q = no) ps) as [[i q]|] eqn:E; cbn.
  - apply list_find_Some in E as (E & Hn & _). by rewrite (Hin q (list_elem_of_lookup_2 _ _ _ E) Hn).
  - exfalso. apply list_find_None in E. rewrite list.Forall_forall in E.
    apply (E (Port_init id (version dp) op)); [|by apply Hnum].
    unfold ps, switch_ports. apply list_elem_of_filter. split; [done|]. apply list_elem_of_fmap.
    exists op. split; [done|]. apply list_elem_of_fmap. exists (no, op). split; [done|]. by apply dict_elem.
Qed.

Lemma topo_get_port_none s id no m : port_state s !! id = Some m ->
  (forall n q, m !! n = Some q -> op_port_no q = n) -> m !! no = None ->
  _get_port id no s = (Ok None, s).
Proof.
  intros Hm Hnum Hno. unfold _get_port, _get_switch. unfold mbind at 1, stm_bind, get. unfold mbind at 1, stm_bind.
  destruct (dps s !! id) as [dp|]; [|done]. unfold mbind at 1, stm_bind, lift_res. rewrite Hm.
  cbn [or_raise mret stm_ret mbind option_bind].
  destruct (list_find _ _) as [[i q]|] eqn:E; [|done]. exfalso.
  apply list_find_Some in E as (E & Hn & _). apply list_elem_of_lookup_2 in E. unfold switch_ports in E.
  apply list_elem_of_filter in E as [_ E]. apply list_elem_of_fmap in E as (o & -> & Ho).
  apply list_elem_of_fmap in Ho as ([k o'] & -> & Ho). cbn [snd] in *. apply dict_elem in Ho.
  pose proof (Hnum _ _ Ho). cbn in Hn. congruence.
Qed.

(** *** Hosts on links are forgotten *)

Lemma edge_with_hosts p x s : _is_edge_port p (with_hosts x s) = _is_edge_port p s.
Proof. done. Qed.

(** One host of the list after the other. *)
Definition remove_host (h : HostState.Host) : stm t unit :=
  s ← get;
  if _is_edge_port (HostState.host_port h) s then mret tt
  else
    lift_res (or_raise KeyError (hosts s !! HostState.mac h)) ;;
    put (with_hosts (delete (HostState.mac h) (hosts s)) s).

Lemma remove_list s l : NoDup (HostState.mac <$> l) ->
  forall cur, (forall h, h ∈ l -> cur !! HostState.mac h = Some h) ->
  exists hs, iterM remove_host l (with_hosts cur s) = (Ok tt, with_hosts hs s)
    /\ forall m h, hs !! m = Some h <->
        cur !! m = Some h /\ ~ (exists g, g ∈ l /\ HostState.mac g = m /\ _is_edge_port (HostState.host_port g) s = false).
Proof.
  induction l as [|g l IH]; intros Hnd cur Hcur; cbn [iterM].
  - exists cur. split; [done|]. set_solver.
  - cbn [fmap list_fmap] in Hnd. apply list.NoDup_cons in Hnd as [Hg Hnd].
    unfold mbind at 1, stm_bind at 1. unfold remove_host at 1. unfold mbind at 1, stm_bind at 1, get at 1.
    rewrite edge_with_hosts.
    destruct (_is_edge_port (HostState.host_port g) s) eqn:Eg.
    + destruct (IH Hnd cur) as (hs & E & Hhs); [by intros; apply Hcur; right|]. exists hs. split; [exact E|].
      intros m h. rewrite Hhs. split; intros [H1 H2]; (split; [done|]); intros (g' & Hg' & Hm & He).
      * apply elem_of_cons in Hg' as [->|Hg']; [congruence|]. apply H2. eauto.
      * apply H2. exists g'. split; [by right|done].
    + unfold mbind at 1, stm_bind at 1, lift_res at 1. cbn [hosts with_hosts].
      rewrite (Hcur g) by left. cbn [or_raise]. unfold put at 1.
      destruct (IH Hnd (delete (HostState.mac g) cur)) as (hs & E & Hhs).
      { intros h Hh. rewrite lookup_delete_ne; [by apply Hcur; right|]. intros Heq. apply Hg.
        rewrite Heq. by apply list_elem_of_fmap_2. }
      exists hs. split; [exact E|]. intros m h. rewrite Hhs, lookup_delete_Some. split.
      * intros [[H1 H2] H3]. split; [done|]. intros (g' & Hg' & Hm & He).
        apply elem_of_cons in Hg' as [->|Hg']; [congruence|]. apply H3. eauto.
      * intros [H1 H2]. split; [split; [|done]|].
        -- intros Heq. apply H2. exists g. split; [left|done].
        -- intros (g' & Hg' & Hm & He). apply H2. exists g'. split; [by right|done].
Qed.

Lemma remove_hosts_run now s : topo_ok now s ->
  exists hs, remove_hosts s = (Ok tt, with_hosts hs s)
    /\ forall m h, hs !! m = Some h <-> hosts s !! m = Some h /\ _is_edge_port (HostState.host_port h) s = true.
Proof.
  intros Hok. unfold remove_hosts. unfold mbind at 1, stm_bind at 1, get at 1.
  set (l := snd <$> dict_items (tick s) (hosts s)).
  assert (Hl : forall h, h ∈ l <-> hosts s !! HostState.mac h = Some h).
  { intros h. unfold l. rewrite list_elem_of_fmap. split.
    - intros ([k h'] & -> & H). rewrite dict_items_perm in H. apply elem_of_map_to_list in H. cbn.
      by destruct (ok_hosts _ _ Hok _ _ H) as (-> & _).
    - intros H. exists (HostState.mac h, h). split; [done|]. rewrite dict_items_perm. by apply elem_of_map_to_list. }
  assert (Hnd : NoDup (HostState.mac <$> l)).
  { unfold l. rewrite <- list_fmap_compose.
    assert (Heq : (HostState.mac ∘ snd) <$> dict_items (tick s) (hosts s) = (dict_items (tick s) (hosts s)).*1).
    { apply list_fmap_ext. intros i [k h] H. apply list_elem_of_lookup_2 in H.
      rewrite dict_items_perm in H. apply elem_of_map_to_list in H. cbn.
      by destruct (ok_hosts _ _ Hok _ _ H) as (-> & _). }
    rewrite Heq. rewrite dict_items_perm. apply NoDup_fst_map_to_list. }
  assert (Hsub : forall h, h ∈ l -> hosts s !! HostState.mac h = Some h) by (intros; by apply Hl).
  destruct (remove_list s l Hnd (hosts s) Hsub) as (hs & E & Hhs). exists hs. split.
  { rewrite <- E. by destruct s. }
  intros m h. rewrite Hhs. split; intros [H1 H2]; (split; [done|]).
  - destruct (_is_edge_port _ s) eqn:Ee; [done|]. exfalso. apply H2.
    destruct (ok_hosts _ _ Hok _ _ H1) as (Em & _). exists h. split; [|done]. apply Hl. by rewrite Em.
  - intros (g & Hg & Hm & He). apply Hl in Hg. rewrite Hm in Hg. congruence.
Qed.

(** *** A link is recorded *)

(** The effects of [link_found]. *)
Definition link_effects (explicit_drop : bool) (src dst : pid) (msg : packet_in) (no : Z) (s : t) : list effect :=
  match LinkState.get_peer src (links s) with
  | Some o => if decide (o = dst) then [] else [EventLinkDelete (src, o)]
  | None => []
  end
  ++ match LinkState.links (links s) !! (src, dst) with
     | Some _ => []
     | None => [EventLinkAdd (src, dst)]
     end
  ++ (if explicit_drop && negb (buffer_id msg =? OFP_NO_BUFFER)
      then [PacketDrop (pi_dp msg) (buffer_id msg) no] else []).

Lemma emit_run x s : emit x s = (Ok tt, with_out (out s ++ [x]) s).
Proof. done. Qed.

Lemma move_front_run now k s : topo_ok now s ->
  exists p, on_ports (PortDataState.move_front k) s = (Ok tt, with_ports p s).
Proof.
  intros Hok. destruct (ok_ports _ _ Hok) as (l & Hl & _). unfold on_ports.
  pose proof (proj1 (move_front_sim k _ _ Hl)) as E. unfold OrderedList.move_front in E.
  destruct (PortDataState.move_front k (ports s)) as [r p]. exists p. cbn [fst] in E.
  destruct (OrderedList.split_at k l) as [[[? ?] ?]|]; cbn [fst] in E; by rewrite E.
Qed.

(** Hosts on edge ports are still known. *)
Definition keeps_edge_hosts (s s' : t) : Prop :=
  forall m h, hosts s !! m = Some h -> _is_edge_port (HostState.host_port h) s = true -> hosts s' !! m = Some h.

(** The steps in front of the update leave the links alone. *)
Lemma before_update now src dst s : topo_ok now s ->
  exists s1, (match LinkState.get_peer src (links s) with
   | Some old_peer => if decide (old_peer = dst) then mret tt else emit (EventLinkDelete (src, old_peer))
   | None => mret tt
   end ;;
   match LinkState.links (links s) !! (src, dst) with
   | Some _ => mret tt
   | None => emit (EventLinkAdd (src, dst)) ;; remove_hosts
   end) s = (Ok tt, s1)
  /\ topo_ok now s1 /\ links s1 = links s /\ ports s1 = ports s /\ keeps_edge_hosts s s1
  /\ out s1 = out s ++ match LinkState.get_peer src (links s) with
                       | Some o => if decide (o = dst) then [] else [EventLinkDelete (src, o)]
                       | None => [] end
                    ++ match LinkState.links (links s) !! (src, dst) with
                       | Some _ => [] | None => [EventLinkAdd (src, dst)] end.
Proof.
  intros Hok. unfold mbind at 1, stm_bind at 1.
  set (m1 := match LinkState.get_peer src (links s) with Some _ => _ | None => mret tt end).
  assert (exists o1, m1 s = (Ok tt, with_out o1 s) /\ o1 = out s ++ match LinkState.get_peer src (links s) with
     | Some o => if decide (o = dst) then [] else [EventLinkDelete (src, o)] | None => [] end) as (o1 & -> & Ho1).
  { unfold m1. destruct (LinkState.get_peer src (links s)) as [o|]; [destruct (decide (o = dst))|];
      eexists; (split; [|rewrite ?app_nil_r; reflexivity]); by destruct s. }
  assert (Hok1 : topo_ok now (with_out o1 s)) by (by apply ok_with_out).
  destruct (LinkState.links (links s) !! (src, dst)) as [ts|].
  - exists (with_out o1 s). split; [done|]. do 3 (split; [done|]). split; [by intros m h|]. cbn [out with_out]. by rewrite app_nil_r.
  - unfold mbind at 1, stm_bind at 1. rewrite emit_run. set (s2 := with_out _ (with_out o1 s)).
    assert (Hok2 : topo_ok now s2) by (by apply ok_with_out).
    destruct (remove_hosts_run now s2 Hok2) as (hs & E & Hhs). exists (with_hosts hs s2). split; [exact E|].
    split; [|do 2 (split; [done|]); split; [|cbn [out with_out with_hosts s2]; by rewrite Ho1, <- app_assoc]].
    2:{ intros m h Hm He. by apply Hhs. }
    apply (hosts_safe now (fun _ => hs)); [done|]. intros m h H. apply Hhs in H as [H _]. by apply (ok_hosts _ _ Hok2).
Qed.

Lemma link_found_run explicit_drop now src dst msg no s : topo_ok now s -> src.1 <> dst.1 ->
  in_port msg = Some no ->
  exists s', link_found explicit_drop now src dst msg s = (Ok tt, s')
    /\ links s' = LinkState.Mk (<[(src, dst) := now]> (LinkState.links (links s)))
                     (<[src := dst]> (LinkState._map (links s)))
    /\ out s' = out s ++ link_effects explicit_drop src dst msg no s /\ keeps_edge_hosts s s'.
Proof.
  intros Hok Hne Hin. unfold link_found. unfold mbind at 1, stm_bind at 1, get at 1.
  destruct (before_update now src dst s Hok) as (s1 & E1 & Hok1 & Hl1 & Hp1 & Hh1 & Ho1).
  unfold mbind at 1, stm_bind at 1 in E1. unfold mbind at 1, stm_bind at 1.
  match type of E1 with context [let (_, _) := ?r in _] => destruct r as [[[]|x] s0]; [|done] end.
  unfold mbind at 1, stm_bind at 1. rewrite E1.
  assert (Hok2 := safe_state _ _ _ _ (update_link_ok now src dst Hne) Hok1).
  unfold mbind at 1, stm_bind at 1. unfold on_links at 1. unfold on_links in Hok2.
  unfold LinkState.update_link in Hok2 |- *. stm_unfold. rewrite Hl1 in Hok2 |- *.
  set (s2 := with_links _ s1) in *.
  assert (Hfin : forall s3, links s3 = links s2 -> out s3 = out s1 -> hosts s3 = hosts s1 ->
    exists s', (if explicit_drop then _drop_packet msg else mret tt) s3 = (Ok tt, s')
      /\ links s' = links s2 /\ out s' = out s ++ link_effects explicit_drop src dst msg no s
      /\ keeps_edge_hosts s s').
  { intros s3 Hl3 Ho3 Hh3. unfold link_effects, _drop_packet. rewrite <- Ho3 in Ho1.
    destruct explicit_drop; [destruct (buffer_id msg =? OFP_NO_BUFFER)|]; cbn [andb negb];
      rewrite ?app_nil_r; unfold keeps_edge_hosts; [exists s3; by rewrite Hh3| |exists s3; by rewrite Hh3].
    rewrite Hin. eexists. split; [reflexivity|]. split; [done|]. cbn [out with_out hosts]. rewrite Ho1, Hh3.
    by rewrite <- !app_assoc. }
  destruct (bool_decide _).
  - destruct (Hfin s2) as (s' & E & Hl & Ho); [done..|]. exists s'. split; [exact E|done].
  - destruct (move_front_run now dst s2 Hok2) as (p & Ep).
    destruct (Hfin (with_event true (with_ports p s2))) as (s' & E & Hl & Ho); [done..|].
    exists s'. split; [|done]. rewrite Ep. exact E.
Qed.

(** *** Links that time out *)

Lemma link_down_cases l L :
  (exists L', LinkState.link_down l L = (Err KeyError, L')
     /\ (LinkState.links L !! l = None \/ LinkState._map L !! l.1 = None))
  \/ (is_Some (LinkState._map L !! l.1)
      /\ LinkState.link_down l L
         = (Ok tt, LinkState.Mk (delete l (LinkState.links L)) (delete l.1 (LinkState._map L)))).
Proof.
  unfold LinkState.link_down, LinkState.del_link, LinkState.del_map. stm_unfold.
  destruct (LinkState.links L !! l) as [ts|]; cbn; [|left; eexists; by split; [|left]].
  destruct (LinkState._map L !! l.1) as [pr|]; cbn; [|left; eexists; by split; [|right]].
  right. by split; [eexists|].
Qed.

(** What follows when the link is deleted: no link comes or goes. *)
Definition after_down (now : Z) (del : list LinkState.link) (l : LinkState.link) : stm t unit :=
  emit (EventLinkDelete l) ;;
  if bool_decide ((l.2, l.1) ∈ del) then mret tt
  else
    on_links (LinkState.rev_link_set_timestamp (l.2, l.1) (now - LINK_TIMEOUT)) ;;
    s ← get;
    match PortDataState.dict (ports s) !! l.2 with
    | Some _ => on_ports (PortDataState.move_front l.2) ;; set_event
    | None => mret tt
    end.

Lemma after_down_run now del l s : topo_ok now s ->
  exists s', after_down now del l s = (Ok tt, s') /\ topo_ok now s'
    /\ LinkState._map (links s') = LinkState._map (links s)
    /\ dom (LinkState.links (links s')) = dom (LinkState.links (links s))
    /\ out s' = out s ++ [EventLinkDelete l].
Proof.
  intros Hok. unfold after_down. unfold mbind at 1, stm_bind at 1. rewrite emit_run.
  set (s1 := with_out _ s). assert (Hok1 : topo_ok now s1) by (by apply ok_with_out).
  destruct (bool_decide _); [by exists s1|]. unfold mbind at 1, stm_bind at 1.
  assert (exists s2, on_links (LinkState.rev_link_set_timestamp (l.2, l.1) (now - LINK_TIMEOUT)) s1 = (Ok tt, s2)
    /\ LinkState._map (links s2) = LinkState._map (links s1) /\ out s2 = out s1
    /\ dom (LinkState.links (links s2)) = dom (LinkState.links (links s1))) as (s2 & E2 & Hm & Ho & Hd).
  { unfold on_links, LinkState.rev_link_set_timestamp. stm_unfold.
    destruct (LinkState.links (links s) !! (l.2, l.1)) as [ts|] eqn:E; [|eexists; split; [reflexivity|done]].
    eexists. split; [reflexivity|]. do 2 (split; [done|]). cbn. rewrite dom_insert_L.
    apply elem_of_dom_2 in E. set_solver. }
  assert (Hok2 : topo_ok now s2).
  { pose proof (safe_state _ _ _ _ (on_links_safe now _ _ (set_timestamp_safe (l.2, l.1) (now - LINK_TIMEOUT))) Hok1) as H.
    by rewrite E2 in H. }
  rewrite E2. unfold mbind at 1, stm_bind at 1, get at 1.
  destruct (PortDataState.dict (ports s2) !! l.2) as [pd|]; [|exists s2; rewrite Hm, Ho, Hd; done].
  destruct (move_front_run now l.2 s2 Hok2) as (p & Ep).
  exists (with_event true (with_ports p s2)). unfold mbind at 1, stm_bind at 1. rewrite Ep.
  split; [done|]. split; [|cbn; rewrite Hm, Ho, Hd; done]. apply ok_with_event.
  pose proof (safe_state _ _ _ _ (move_front_safe now l.2) Hok2) as H. by rewrite Ep in H.
Qed.

Lemma delete_link_cases now del l s : topo_ok now s ->
  ((delete_link now del l s).1 = Err KeyError
     /\ (LinkState.links (links s) !! l = None \/ LinkState._map (links s) !! l.1 = None))
  \/ exists s', delete_link now del l s = (Ok tt, s') /\ topo_ok now s'
      /\ is_Some (LinkState._map (links s) !! l.1)
      /\ LinkState._map (links s') = delete l.1 (LinkState._map (links s))
      /\ dom (LinkState.links (links s')) = dom (LinkState.links (links s)) ∖ {[l]}
      /\ out s' = out s ++ [EventLinkDelete l].
Proof.
  intros Hok. pose proof (safe_state _ _ _ _ (on_links_safe now _ _ (link_down_safe l)) Hok) as Hok1.
  change (delete_link now del l) with (on_links (LinkState.link_down l) ;; after_down now del l).
  unfold mbind at 1 2, stm_bind at 1 2. unfold on_links in Hok1 |- *.
  destruct (link_down_cases l (links s)) as [(L' & E & Hn)|(Hs & E)]; rewrite E in *; [by left|]. right.
  destruct (after_down_run now del l _ Hok1) as (s' & E' & Hok' & Hm & Hd & Ho).
  exists s'. split; [exact E'|]. do 2 (split; [done|]). split; [by rewrite Hm|].
  split; [rewrite Hd; cbn; by rewrite dom_delete_L|by rewrite Ho].
Qed.

(** Deleting a link whose source has no peer raises, and so does deleting two links of
    one source. *)
Lemma iter_absent now del L s : topo_ok now s ->
  (exists l, l ∈ L /\ LinkState._map (links s) !! l.1 = None) ->
  (iterM (delete_link now del) L s).1 = Err KeyError.
Proof.
  revert s. induction L as [|h L IH]; intros s Hok (l & Hl & Hn); [by apply elem_of_nil in Hl|].
  cbn [iterM]. unfold mbind at 1, stm_bind at 1.
  destruct (delete_link_cases now del h s Hok) as [[E _]|(s' & E & Hok' & Hs & Hm & _)].
  - by destruct (delete_link now del h s) as [[?|?] ?].
  - rewrite E. apply IH; [done|]. apply elem_of_cons in Hl as [->|Hl].
    + rewrite Hn in Hs. by apply is_Some_None in Hs.
    + exists l. split; [done|]. rewrite Hm. apply lookup_delete_None. by right.
Qed.

Lemma iter_two now del L s a b c : topo_ok now s -> b <> c -> (a, b) ∈ L -> (a, c) ∈ L ->
  (iterM (delete_link now del) L s).1 = Err KeyError.
Proof.
  revert s. induction L as [|h L IH]; intros s Hok Hbc Hb Hc; [by apply elem_of_nil in Hb|].
  cbn [iterM]. unfold mbind at 1, stm_bind at 1.
  destruct (delete_link_cases now del h s Hok) as [[E _]|(s' & E & Hok' & Hs & Hm & _)].
  { by destruct (delete_link now del h s) as [[?|?] ?]. }
  rewrite E. apply elem_of_cons in Hb as [<-|Hb]; [|apply elem_of_cons in Hc as [<-|Hc]].
  - apply iter_absent; [done|]. exists (a, c). split; [|by rewrite Hm; apply lookup_delete_eq].
    apply elem_of_cons in Hc as [Hc|Hc]; [congruence|done].
  - apply iter_absent; [done|]. exists (a, b). split; [done|by rewrite Hm; apply lookup_delete_eq].
  - by apply IH.
Qed.

(** Links of distinct sources, each the peer of its source, are deleted one by one. *)
Lemma iter_all now del L s : topo_ok now s -> NoDup (L.*1) ->
  (forall l, l ∈ L -> LinkState._map (links s) !! l.1 = Some l.2) ->
  exists s', iterM (delete_link now del) L s = (Ok tt, s')
    /\ dom (LinkState.links (links s')) = dom (LinkState.links (links s)) ∖ list_to_set L
    /\ out s' = out s ++ (EventLinkDelete <$> L).
Proof.
  revert s. induction L as [|h L IH]; intros s Hok Hnd Hp.
  - exists s. split; [done|]. cbn. rewrite app_nil_r. split; [set_solver|done].
  - cbn [iterM fmap list_fmap] in *. unfold mbind at 1, stm_bind at 1. apply list.NoDup_cons in Hnd as [Hh Hnd].
    assert (Hph := Hp h ltac:(left)).
    destruct (delete_link_cases now del h s Hok) as [[_ [Hn|Hn]]|(s' & E & Hok' & Hs & Hm & Hd & Ho)].
    + destruct (ok_peers _ _ Hok _ _ Hph) as [ts Hts]. destruct h; cbn in *. congruence.
    + congruence.
    + rewrite E. destruct (IH s' Hok' Hnd) as (s2 & E2 & Hd2 & Ho2).
      { intros l Hl. rewrite Hm, lookup_delete_ne; [apply Hp; by right|]. intros Heq. apply Hh. rewrite Heq.
        by apply list_elem_of_fmap_2. }
      exists s2. split; [done|]. rewrite Hd2, Hd, Ho2, Ho, <- app_assoc. split; [|done]. cbn [list_to_set]. set_solver.
Qed.

Lemma links_filter_nodup s f :
  NoDup (List.filter f (dict_items (tick s) (LinkState.links (links s)))).*1.
Proof.
  apply NoDup_fmap_2_strong.
  - intros [l x] [l' x'] H1 H2 Heq. cbn in Heq. subst l'. f_equal.
    apply list_elem_of_In, filter_In in H1 as [H1 _], H2 as [H2 _]. apply list_elem_of_In in H1, H2.
    rewrite dict_items_perm in H1, H2. apply elem_of_map_to_list in H1, H2. congruence.
  - apply NoDup_ListNoDup, List.NoDup_filter, NoDup_ListNoDup. rewrite dict_items_perm.
    apply NoDup_map_to_list.
Qed.

(** *** The ports that are due *)

Lemma scan_due now l k : sched now l -> NoDup l.*1 -> forall d ts, (k, d) ∈ l -> timestamp d = Some ts ->
  (k ∈ (lldp_scan now l).2 <-> ts + LLDP_SEND_PERIOD_PER_PORT <= now).
Proof.
  induction l as [|[k0 d0] l IH]; intros Hs Hnd d ts Hin Hts; [by apply elem_of_nil in Hin|].
  assert (Hsl : sched now l).
  { eapply sched_sub; [exact Hs|]. rewrite stamps_cons. case_match; [by apply sublist_cons|done]. }
  cbn [fmap list_fmap fst] in Hnd. apply list.NoDup_cons in Hnd as [Hk Hnd].
  assert (Hkeys : forall x, x ∈ (lldp_scan now l).2 -> x ∈ l.*1).
  { clear. induction l as [|[k0 d0] l IH]; intros x; cbn [lldp_scan]; [done|].
    destruct (timestamp d0) as [ts|]; [destruct (_ <=? _)|]; destruct (lldp_scan now l) as [a b]; cbn in *; set_solver. }
  cbn [lldp_scan]. apply elem_of_cons in Hin as [[= -> ->]|Hin].
  - rewrite Hts. destruct (Z.leb_spec (ts + LLDP_SEND_PERIOD_PER_PORT) now).
    + destruct (lldp_scan now l) as [x y]. cbn. split; [done|]. intros _. left.
    + split; [by intros ?%elem_of_nil|lia].
  - assert (Hne : k <> k0) by (intros ->; apply Hk; by apply (list_elem_of_fmap_2 fst l (k0, d))).
    specialize (IH Hsl Hnd d ts Hin Hts). destruct (timestamp d0) as [ts0|] eqn:E0.
    + destruct Hs as [Hs _]. rewrite stamps_cons, E0 in Hs. apply StronglySorted_inv in Hs as [_ Hs].
      rewrite list.Forall_forall in Hs. assert (ts0 <= ts).
      { apply Hs. unfold stamps. apply list_elem_of_omap. by exists (k, d). }
      destruct (Z.leb_spec (ts0 + LLDP_SEND_PERIOD_PER_PORT) now).
      * destruct (lldp_scan now l) as [x y]. cbn in *. rewrite elem_of_cons. naive_solver.
      * split; [by intros ?%elem_of_nil|lia].
    + destruct (lldp_scan now l) as [x y]. done.
Qed.

End Runs.
End TopoRuns.

Module TopoClaims.
Import OrderFacts Switches TopoFacts TopoRuns.

Section Claims.
Context `{C : AddrConv} `{D : DictOrder} `{!DictOrderLaws D} (en : endian) (X : Others).

(** C17: Whatever events come in whatever order, and whether handlers return or raise: the
    linked list of ports is intact and ordered by the time of the last probe, every
    recorded peer is a recorded link, links join different switches, the known
    switches are those with a port table, ports and hosts are filed under their own
    numbers and addresses, and no address of a host is listed twice. *)
Theorem topology_invariant (link_discovery install_flow explicit_drop : bool) (now : Z) (s : t)
    (Hr : reachable en X link_discovery install_flow explicit_drop now s) : topo_ok now s.
Proof.
  by eapply reachable_ok.
Qed.

(** C16: Discovery works: when the frame built for a port of one switch comes in by a port
    of another, followed by any padding, the link from the one port to the other is
    recorded with the time of arrival and as the peer of its source; observers are told
    of a new link, and that the link to a former peer is gone. *)
Theorem probe_discovers_link `{!AddrConvLaws C} (explicit_drop : bool) (now : Z) (s : t)
    (d1 n1 d2 n2 ttl : Z) (dp1 dp2 : datapath) (p1 p2 : Port) (addr : string) (data pad : bytes)
    (msg : packet_in) (fuel : nat) (Hok : topo_ok now s)
    (H1 : known_port s d1 n1 dp1 p1) (H2 : known_port s d2 n2 dp2 p2) (Hne : d1 <> d2)
    (Hd : 0 <= d1 < 2 ^ 64) (Hn : 0 <= n1 < 2 ^ 32) (Ht : 0 <= ttl < 65536)
    (Hdata : LLDPPacket.lldp_packet en X d1 n1 addr ttl = Ok data) (Hmsg : pi_data msg = data ++ pad)
    (Hid : pi_dpid msg = Some d2) (Hin : in_port msg = Some n2)
    (Hv : version (pi_dp msg) = 1 \/ 3 <= version (pi_dp msg)) :
  exists s', lldp_packet_in_handler X true explicit_drop (3 + fuel) now msg s = Some (Ok tt, s')
    /\ links s' = LinkState.Mk (<[((d1, n1), (d2, n2)) := now]> (LinkState.links (links s)))
                    (<[(d1, n1) := (d2, n2)]> (LinkState._map (links s)))
    /\ out s' = out s ++ link_effects explicit_drop (d1, n1) (d2, n2) msg n2 s.
Proof.
  destruct (get_port_known now s d1 n1 dp1 p1 Hok H1) as [G1 K1].
  unfold lldp_packet_in_handler. rewrite Hmsg, (probe_parses en X d1 n1 addr ttl data pad fuel Hd Hn Ht Hdata).
  unfold lldp_handler. unfold mbind at 1, stm_bind at 1, lift_res at 1.
  assert (Hno : dst_port_no msg = Ok (Some n2)).
  { unfold dst_port_no. rewrite Hin. destruct Hv as [->|Hv]; [done|].
    destruct (_ =? 1); [done|]. by rewrite (proj2 (Z.leb_le _ _)). }
  rewrite Hno. unfold mbind at 1, stm_bind at 1. rewrite G1.
  assert (Hdp : dpid p1 = d1) by (by injection K1). rewrite bool_decide_eq_false_2 by congruence.
  unfold mbind at 1, stm_bind at 1.
  assert (exists p, try_except (on_ports (PortDataState.lldp_received (key_of p1))) KeyError (mret tt) s
                    = (Ok tt, with_ports p s)) as (p & E1).
  { destruct (ok_ports _ _ Hok) as (l & Hl & _). unfold try_except, on_ports.
    pose proof (proj1 (lldp_received_sim (key_of p1) _ _ Hl)) as E.
    destruct (PortDataState.lldp_received (key_of p1) (ports s)) as [r p]. cbn [fst] in E. exists p.
    unfold OrderedList.lldp_received, OrderedList.at_key in E. unfold mbind, stm_bind in E.
    destruct (OrderedList.split_at _ l) as [[[? ?] ?]|]; cbn in E; rewrite E; [done|].
    by destruct (decide (KeyError = KeyError)). }
  assert (Hok1 : topo_ok now (with_ports p s)).
  { pose proof (safe_state _ _ _ _ (safe_try _ _ _ KeyError _ (lldp_received_safe now (key_of p1))
      (safe_ret _ tt _ I)) Hok) as H. by rewrite E1 in H. }
  rewrite E1. unfold mbind at 1, stm_bind at 1, lift_res at 1. cbn [or_raise]. rewrite Hid.
  unfold mbind at 1, stm_bind at 1.
  destruct (get_port_known now (with_ports p s) d2 n2 dp2 p2 Hok1 H2) as [G2 K2]. rewrite G2, K1, K2.
  destruct (link_found_run explicit_drop now (d1, n1) (d2, n2) msg n2 _ Hok1 Hne Hin) as (s' & E & Hl & Ho & _).
  exists s'. split; [by rewrite E|done].
Qed.

(** A port that a switch reports as deleted is taken out of the table of ports, but not
    out of the list of ports to probe, and its links stay: the handler looks the port up
    after it has deleted it. *)
Theorem deleted_port_stays (id no : Z) (dp : datapath) (m : gmap Z OFPPort) (op : OFPPort) (now : Z) (s : t)
    (Hok : topo_ok now s) (Hm : port_state s !! id = Some m) (Hop : is_Some (m !! op_port_no op)) :
  exists s', port_status_handler en X true OFPPR_DELETE (Some id) dp op s = (Ok tt, s')
    /\ port_state s' = <[id := delete (op_port_no op) m]> (port_state s)
    /\ ports s' = ports s /\ links s' = links s
    /\ out s' = out s ++ [EventPortDelete (Port_init id (version dp) op)].
Proof.
  destruct Hop as [op' Hop]. unfold port_status_handler. cbn zeta.
  change (OFPPR_DELETE =? OFPPR_ADD) with false. rewrite Z.eqb_refl.
  destruct (dp_port_state_run (Some id) s) as [E|(id' & m' & [= <-] & Hm' & E)].
  { unfold dp_port_state in E. revert E. stm_unfold. by rewrite Hm. }
  assert (m' = m) as -> by congruence.
  unfold mbind at 1, stm_bind at 1. rewrite E. unfold mbind at 1, stm_bind at 1, lift_res at 1.
  rewrite Hop. cbn [or_raise]. unfold mbind at 1, stm_bind at 1, set_port_state, modify.
  unfold mbind at 1, stm_bind at 1. rewrite emit_run. set (s1 := with_out _ _).
  eexists. split; [|do 3 (split; [shelve|]); shelve].
  unfold mbind at 1, stm_bind at 1.
  rewrite (topo_get_port_none s1 id (op_port_no op) (delete (op_port_no op) m)); [reflexivity| | |].
  - unfold s1. cbn. by rewrite lookup_insert_eq.
  - intros n q [_ H]%lookup_delete_Some. by eapply (ok_numbers _ _ Hok).
  - apply lookup_delete_eq.
  Unshelve. all: reflexivity.
Qed.

(** C29: A port that was moved has two links until the old one is found to be dead.  When both
    time out in the same turn, the check raises [KeyError], in whatever order the links
    are visited, and the thread that checks links ends. *)
Theorem two_links_end_the_check (now : Z) (s : t) (a b c : pid) (t1 t2 : Z) (Hok : topo_ok now s)
    (Hbc : b <> c) (H1 : LinkState.links (links s) !! (a, b) = Some t1)
    (H2 : LinkState.links (links s) !! (a, c) = Some t2)
    (T1 : link_timed_out now s ((a, b), t1) = true) (T2 : link_timed_out now s ((a, c), t2) = true) :
  (link_loop now s).1 = Err KeyError.
Proof.
  assert (Hin : forall l ts, LinkState.links (links s) !! l = Some ts -> link_timed_out now s (l, ts) = true ->
    l ∈ (List.filter (link_timed_out now s) (dict_items (tick s) (LinkState.links (links s)))).*1).
  { intros l ts Hl Ht. apply list_elem_of_fmap. exists (l, ts). split; [done|].
    apply list_elem_of_In, filter_In. split; [|done]. apply list_elem_of_In.
    rewrite dict_items_perm. by apply elem_of_map_to_list. }
  unfold link_loop. unfold mbind at 1, stm_bind at 1, get at 1. cbn zeta.
  by apply (iter_two now _ _ s a b c); eauto.
Qed.


(** C27: The list of ports is scanned only up to the first that is not due, and yet no due port
    is missed: in a reachable state the ports with a probe that the scan selects are
    exactly those whose last probe is at least a period ago. *)
Theorem due_ports_scanned (link_discovery install_flow explicit_drop : bool) (now now' : Z) (s : t)
    (Hr : reachable en X link_discovery install_flow explicit_drop now s) (Hn : now <= now') :
  exists l, PortDataState.items (ports s) = Some l
    /\ forall k d ts, (k, d) ∈ l -> timestamp d = Some ts ->
         (k ∈ (lldp_scan now' l).2 <-> ts + LLDP_SEND_PERIOD_PER_PORT <= now').
Proof.
  pose proof (reachable_ok en X _ _ _ _ _ Hr) as Hok.
  destruct (ok_ports _ _ Hok) as (l & Hl & Hs). exists l. split; [by apply items_run|].
  intros k d ts Hin Hts. eapply scan_due; [by eapply sched_later|by destruct Hl as (_ & ? & _)|done|done].
Qed.

(** The hosts on a port are not forgotten when the port turns out to be linked: the edge
    ports are determined before the new link is recorded. *)
Theorem host_outlives_link (explicit_drop : bool) (now : Z) (s : t) (src dst : pid) (msg : packet_in)
    (no : Z) (m : string) (h : HostState.Host) (Hok : topo_ok now s) (Hne : src.1 <> dst.1)
    (Hin : in_port msg = Some no) (Hh : hosts s !! m = Some h) (Hp : HostState.host_port h = src)
    (He : _is_edge_port src s = true) :
  exists s', link_found explicit_drop now src dst msg s = (Ok tt, s')
    /\ hosts s' !! m = Some h /\ _is_edge_port src s' = false.
Proof.
  destruct (link_found_run explicit_drop now src dst msg no s Hok Hne Hin) as (s' & E & Hl & _ & Hk).
  exists s'. split; [done|]. split; [apply Hk; [done|by rewrite Hp]|].
  apply not_true_iff_false. unfold _is_edge_port. rewrite forallb_forall. intros Hall.
  specialize (Hall (src, dst)). rewrite bool_decide_eq_true_2 in Hall by (by left).
  enough (false = true) by done. apply Hall. apply list_elem_of_In, list_elem_of_fmap.
  exists ((src, dst), now). split; [done|]. apply elem_of_map_to_list. rewrite Hl. apply lookup_insert_eq.
Qed.

End Claims.

(** *** A run with three switches *)

(** Addresses are their bytes, except the text of the LLDP group address. *)
Definition conv : AddrConv := {|
  bin_to_text := bin_to_text (AddrConv := RawConv.conv);
  text_to_bin k t :=
    match k, String.eqb t LLDP_MAC_NEAREST_BRIDGE with
    | MAC, true => Ok [1; 128; 194; 0; 0; 14]
    | _, _ => text_to_bin (AddrConv := RawConv.conv) k t
    end |}.

Lemma conv_laws : AddrConvLaws conv.
Proof.
  split.
  - intros k t b. cbn [text_to_bin conv].
    destruct k; try apply RawConv.laws. destruct (String.eqb t _); [|apply RawConv.laws].
    intros [= <-]. split; [done|solve_bytes_ok].
  - intros k b Hl Hb. destruct (@bin_to_text_ok _ RawConv.laws k b Hl Hb) as (t & H1 & H2).
    exists t. split; [done|]. cbn [text_to_bin conv]. destruct k; try done.
    destruct (String.eqb_spec t LLDP_MAC_NEAREST_BRIDGE) as [->|_]; [|done].
    exfalso. vm_compute in H2. discriminate.
Qed.

Definition hw : string := RawConv.to_string [2; 0; 0; 0; 0; 1].
Definition port1 : OFPPort := MkOFPPort 1 hw "p1" 0 0.
Definition sw (n : nat) : datapath := MkDp n 4 {[1 := port1]}.

Notation the_step := (step (C := conv) (D := sorted_order) Little PacketClaims.no_others true true false 10).
Notation the_reachable := (reachable (C := conv) (D := sorted_order) Little PacketClaims.no_others true true false).

Fixpoint run (evs : list (Z * event)) (s : t) : t :=
  match evs with
  | [] => s
  | (now, ev) :: evs => match the_step now ev s with Some (_, s') => run evs s' | None => s end
  end.

Fixpoint ascending (now : Z) (evs : list (Z * event)) : bool :=
  match evs with [] => true | (n, _) :: evs => (now <=? n) && ascending n evs end.

Fixpoint end_time (now : Z) (evs : list (Z * event)) : Z :=
  match evs with [] => now | (n, _) :: evs => end_time n evs end.

Lemma run_reachable evs : forall now s, the_reachable now s -> ascending now evs = true ->
  exists n, the_reachable n (run evs s) /\ n <= end_time now evs.
Proof.
  induction evs as [|[n ev] evs IH]; intros now s Hr Ha; cbn [run ascending end_time] in *.
  - by exists now.
  - apply andb_true_iff in Ha as [Hn Ha]. apply Z.leb_le in Hn.
    destruct (the_step n ev s) as [[r s']|] eqn:E; [apply IH; [by eapply reach_step|done]|].
    exists now. split; [done|]. clear -Hn Ha. revert n Hn Ha. induction evs as [|[m ev] evs IH]; intros n Hn Ha; cbn in *; [done|].
    apply andb_true_iff in Ha as [Hm Ha]. apply IH; [lia|done].
Qed.

(** The frame of port 1 of switch 1. *)
Definition frame : bytes :=
  match LLDPPacket.lldp_packet (C := conv) Little PacketClaims.no_others 1 1 hw DEFAULT_TTL with Ok d => d | Err _ => [] end.
Definition arrival (n : nat) : packet_in := MkPin (Some (Z.of_nat n)) (sw n) OFP_NO_BUFFER (Some 1) frame.

(** The loop of seven seconds, with the two turns after a sleep. *)
Definition probing : list (Z * event) :=
  flat_map (fun k => [(k * 1000000, LldpLoop); (k * 1000000, LldpResume); (k * 1000000, LldpResume)])
    [1; 2; 3; 4; 5; 6; 7].

Definition entered : t := run [(0, StateChange true (Some 1) (sw 1)); (0, StateChange true (Some 2) (sw 2));
  (0, StateChange true (Some 3) (sw 3))] init.
Definition moved : t := run ((1, PacketIn (arrival 2)) :: (2, PacketIn (arrival 3))
  :: probing) entered.

Lemma entered_reachable : exists n, the_reachable n entered /\ n <= 0.
Proof.
  exact (run_reachable [(0, StateChange true (Some 1) (sw 1)); (0, StateChange true (Some 2) (sw 2));
    (0, StateChange true (Some 3) (sw 3))] 0 init (reach_init _ _ _ _ _ 0) eq_refl).
Qed.

Lemma after_entering e evs : ascending 0 (e :: evs) = true ->
  exists n, the_reachable n (run (e :: evs) entered) /\ n <= end_time 0 (e :: evs).
Proof.
  intros Ha. destruct entered_reachable as (n & Hr & Hn).
  destruct (run_reachable (e :: evs) n entered Hr) as (n' & Hr' & Hn').
  - destruct e as [m ev]. cbn [ascending] in *. apply andb_true_iff in Ha as [Hm Ha]. apply Z.leb_le in Hm.
    apply andb_true_iff. split; [apply Z.leb_le; lia|done].
  - exists n'. split; [done|]. by destruct e.
Qed.

Lemma reached_ok n m s : the_reachable n s -> n <= m -> topo_ok m s.
Proof.
  intros Hr Hn. eapply later_ok; [|exact Hn].
  by eapply (reachable_ok (D := sorted_order) (DictOrderLaws0 := sorted_order_laws)).
Qed.

Lemma entered_ok : topo_ok 0 entered.
Proof. destruct entered_reachable as (n & Hr & Hn). by eapply reached_ok. Qed.

Lemma moved_reachable : exists n, the_reachable n moved /\ n <= 7000000.
Proof. exact (after_entering (1, PacketIn (arrival 2)) ((2, PacketIn (arrival 3)) :: probing) eq_refl). Qed.

Lemma moved_ok : topo_ok 20000000 moved.
Proof. destruct moved_reachable as (n & Hr & Hn). eapply reached_ok; [exact Hr|lia]. Qed.

Lemma topology_invariant_witness :
  exists now, topo_ok now moved /\ LinkState._map (links moved) !! (1, 1) = Some (3, 1).
Proof.
  destruct moved_reachable as (n & Hr & _). exists n. split; [|vm_compute; reflexivity].
  exact (topology_invariant (D := sorted_order) (DictOrderLaws0 := sorted_order_laws) _ _ _ _ _ _ _ Hr).
Defined.

Lemma entered_port id : id = 1 \/ id = 2 \/ id = 3 ->
  known_port entered id 1 (sw (Z.to_nat id)) (Port_init id 4 port1).
Proof.
  intros Hid. split; [destruct Hid as [->|[->| ->]]; vm_compute; reflexivity|].
  exists {[1 := port1]}, port1. destruct Hid as [->|[->| ->]]; vm_compute; auto.
Qed.

Lemma probe_discovers_link_witness :
  exists s', lldp_packet_in_handler (C := conv) (D := sorted_order) PacketClaims.no_others true false 3 5
               (arrival 2) entered = Some (Ok tt, s')
    /\ LinkState._map (links s') !! (1, 1) = Some (2, 1).
Proof.
  destruct (probe_discovers_link (C := conv) (D := sorted_order) (DictOrderLaws0 := sorted_order_laws)
    (AddrConvLaws0 := conv_laws) Little PacketClaims.no_others false 5 entered 1 1 2 1 120 (sw 1) (sw 2)
    (Port_init 1 4 port1) (Port_init 2 4 port1) hw frame [] (arrival 2) 0) as (s' & H1 & H2 & _).
  - eapply later_ok; [exact entered_ok|discriminate].
  - apply (entered_port 1). auto.
  - apply (entered_port 2). auto.
  - discriminate.
  - split; [discriminate|reflexivity].
  - split; [discriminate|reflexivity].
  - split; [discriminate|reflexivity].
  - vm_compute. reflexivity.
  - symmetry. apply app_nil_r.
  - reflexivity.
  - reflexivity.
  - right. discriminate.
  - exists s'. split; [exact H1|]. rewrite H2. apply lookup_insert_eq.
Defined.

Lemma deleted_port_stays_witness :
  exists s', port_status_handler (C := conv) (D := sorted_order) Little PacketClaims.no_others true OFPPR_DELETE (Some 1) (sw 1) port1
               moved = (Ok tt, s')
    /\ ports s' = ports moved /\ links s' = links moved.
Proof.
  destruct (deleted_port_stays (C := conv) (D := sorted_order) (DictOrderLaws0 := sorted_order_laws) Little
    PacketClaims.no_others 1 1 (sw 1) {[1 := port1]} port1 20000000 moved moved_ok) as (s' & H1 & _ & H2 & H3 & _).
  - vm_compute. reflexivity.
  - eexists. vm_compute. reflexivity.
  - exists s'. split; [exact H1|]. split; [exact H2|exact H3].
Defined.

Lemma two_links_end_the_check_witness :
  (link_loop (D := sorted_order) 20000000 moved).1 = Err KeyError.
Proof.
  apply (two_links_end_the_check (D := sorted_order) (DictOrderLaws0 := sorted_order_laws) 20000000 moved
    (1, 1) (2, 1) (3, 1) 1 2 moved_ok).
  - discriminate.
  - vm_compute. reflexivity.
  - vm_compute. reflexivity.
  - vm_compute. reflexivity.
  - vm_compute. reflexivity.
Defined.

(** One link, whose source is not heard of any more. *)
Definition silent : t := run ((1, PacketIn (arrival 2))
  :: probing) entered.

Lemma silent_ok : topo_ok 20000000 silent.
Proof.
  destruct (after_entering (1, PacketIn (arrival 2)) probing eq_refl) as (n & Hr & Hn).
  eapply reached_ok; [exact Hr|]. change (n <= 7000000) in Hn. lia.
Qed.


Lemma due_ports_scanned_witness :
  exists l, PortDataState.items (ports moved) = Some l
    /\ forall k d ts, (k, d) ∈ l -> timestamp d = Some ts ->
         (k ∈ (lldp_scan 20000000 l).2 <-> ts + LLDP_SEND_PERIOD_PER_PORT <= 20000000).
Proof.
  destruct moved_reachable as (n & Hr & Hn).
  apply (due_ports_scanned (C := conv) (D := sorted_order) (DictOrderLaws0 := sorted_order_laws) Little
    PacketClaims.no_others true true false n 20000000 moved Hr). transitivity 7000000; [exact Hn|discriminate].
Defined.

Definition with_host : t := with_hosts {["h"%string := HostState.MkHost "h" (1, 1) [] []]} entered.

Lemma host_outlives_link_witness :
  exists s', link_found (D := sorted_order) false 5 (1, 1) (2, 1) (arrival 2) with_host = (Ok tt, s')
    /\ hosts s' !! "h"%string = Some (HostState.MkHost "h" (1, 1) [] []) /\ _is_edge_port (1, 1) s' = false.
Proof.
  apply (host_outlives_link (D := sorted_order) (DictOrderLaws0 := sorted_order_laws) false 5 with_host
    (1, 1) (2, 1) (arrival 2) 1 "h"%string (HostState.MkHost "h" (1, 1) [] [])).
  - apply (hosts_safe 5 (fun _ => {["h"%string := HostState.MkHost "h" (1, 1) [] []]}) entered).
    + eapply later_ok; [exact entered_ok|discriminate].
    + intros m h [<- <-]%lookup_singleton_Some. split; [reflexivity|]. split; constructor.
  - discriminate.
  - reflexivity.
  - reflexivity.
  - reflexivity.
  - vm_compute. reflexivity.
Defined.

End TopoClaims.
