(* ===== verification/DpSet.v ===== *)
(** * The set of datapaths (ryu/controller/dpset.py)

    The application [DPSet]: the connected switches and the ports of each.  A
    datapath object is known by its connection: two objects are equal only if they
    are the same.  The dictionaries are iterated in the order of [DictOrder]. *)

From Stdlib Require Import ZArith Lia.
From stdpp Require Import base list gmap strings numbers.
From S2P Require Import Prelude Struct PktUtils PktHeaders PktTransport Packet TopoStores Topology.

Module DPSet.

(** [conn] is the identity of the object. *)
Record datapath := MkDp { conn : nat; id : option Z; dp_ports : gmap Z OFPPort; version : Z }.

Inductive effect :=
  | EventDP (dp : datapath) (enter : bool) (ports : list OFPPort)
  | EventDPReconnected (dp : datapath)
  | EventPortAdd (dp : datapath) (port : OFPPort)
  | EventPortDelete (dp : datapath) (port : OFPPort)
  | EventPortModify (dp : datapath) (port : OFPPort)
  | Close (dp : datapath).

Record t := Mk { dps : gmap Z datapath; port_state : gmap Z (gmap Z OFPPort); out : list effect; tick : nat }.

Definition init : t := Mk ∅ ∅ [] 0.

Definition with_dps x s := Mk x (port_state s) (out s) (tick s).
Definition with_port_state x s := Mk (dps s) x (out s) (tick s).
Definition emit (x : effect) : stm t unit := modify (fun s => Mk (dps s) (port_state s) (out s ++ [x]) (tick s)).

(** [self.port_state[datapath.id]]; a datapath without id is not a key. *)
Definition ports_of (dp : datapath) : stm t (Z * gmap Z OFPPort) :=
  s ← get;
  lift_res (or_raise KeyError (i ← id dp; m ← port_state s !! i; Some (i, m))).

Definition set_ports (i : Z) (m : gmap Z OFPPort) : stm t unit :=
  modify (fun s => with_port_state (<[i := m]> (port_state s)) s).

Definition _port_added (dp : datapath) (port : OFPPort) : stm t unit :=
  '(i, m) ← ports_of dp; set_ports i (<[op_port_no port := port]> m).

Definition _port_deleted (dp : datapath) (port : OFPPort) : stm t unit :=
  '(i, m) ← ports_of dp;
  lift_res (or_raise KeyError (m !! op_port_no port)) ;;
  set_ports i (delete (op_port_no port) m).

Section DPSet.
Context `{D : DictOrder}.

Definition _register (dp : datapath) : stm t unit :=
  match id dp with
  | None => raise AssertionError
  | Some i =>
      s ← get;
      let send_dp_reset := bool_decide (is_Some (dps s !! i)) in
      match dps s !! i with
      | Some old => emit (Close old)
      | None => mret tt
      end ;;
      modify (fun s => with_dps (<[i := dp]> (dps s)) s) ;;
      s ← get;
      match port_state s !! i with
      | Some _ => mret tt
      | None =>
          set_ports i ∅ ;;
          let ports := snd <$> dict_items (tick s) (dp_ports dp) in
          iterM (_port_added dp) ports ;;
          emit (EventDP dp true ports)
      end ;;
      if send_dp_reset then emit (EventDPReconnected dp) else mret tt
  end.

(** Whether the object is one of the values of [dps]. *)
Definition registered (dp : datapath) (s : t) : bool :=
  existsb (fun x : Z * datapath => (conn x.2 =? conn dp)%nat) (map_to_list (dps s)).

Definition _unregister (dp : datapath) : stm t unit :=
  s ← get;
  if registered dp s then
    match id dp with
    | None => raise KeyError
    | Some i =>
        cur ← lift_res (or_raise KeyError (dps s !! i));
        lift_res (py_assert (conn cur =? conn dp)%nat) ;;
        let ports := snd <$> dict_items (tick s) (default ∅ (port_state s !! i)) in
        iterM (_port_deleted dp) ports ;;
        emit (EventDP dp false ports) ;;
        modify (fun s => with_dps (delete i (dps s)) s) ;;
        s ← get;
        lift_res (or_raise KeyError (port_state s !! i)) ;;
        put (with_port_state (delete i (port_state s)) s)
    end
  else mret tt.

(** [get] of the application; [get_all] *)
Definition lookup_dp (i : Z) (s : t) : option datapath := dps s !! i.
Definition get_all (s : t) : list (Z * datapath) := dict_items (tick s) (dps s).

Definition dispatcher_change (main : bool) (dp : datapath) : stm t unit :=
  if main then _register dp else _unregister dp.

(** The ports of the message become the ports of the datapath object for the versions
    before 1.3. *)
Definition switch_features_handler (dp : datapath) (msg_ports : gmap Z OFPPort) : datapath :=
  if version dp <? 4 then MkDp (conn dp) (id dp) msg_ports (version dp) else dp.

Definition port_status_handler (reason : Z) (dp : datapath) (port : OFPPort) : stm t unit :=
  if reason =? Switches.OFPPR_ADD then _port_added dp port ;; emit (EventPortAdd dp port)
  else if reason =? Switches.OFPPR_DELETE then _port_deleted dp port ;; emit (EventPortDelete dp port)
  else if reason =? Switches.OFPPR_MODIFY then
    '(i, m) ← ports_of dp;
    set_ports i (<[op_port_no port := port]> m) ;;
    emit (EventPortModify dp port)
  else raise AssertionError.

Definition get_port (dpid port_no : Z) (s : t) : res OFPPort :=
  or_raise PortNotFound (m ← port_state s !! dpid; m !! port_no).

Definition get_ports (dpid : Z) (s : t) : res (list OFPPort) :=
  m ← or_raise KeyError (port_state s !! dpid); Ok (snd <$> dict_items (tick s) m).

Inductive event :=
  | StateChange (main : bool) (dp : datapath)
  | PortStatus (reason : Z) (dp : datapath) (port : OFPPort).

Definition step (ev : event) (s : t) : res unit * t :=
  let s := Mk (dps s) (port_state s) (out s) (S (tick s)) in
  match ev with
  | StateChange main dp => dispatcher_change main dp s
  | PortStatus reason dp port => port_status_handler reason dp port s
  end.

Fixpoint run (evs : list event) (s : t) : t :=
  match evs with [] => s | ev :: evs => run evs (step ev s).2 end.

End DPSet.
End DPSet.

(** ** The invariant *)

Module DpSetFacts.
Import DPSet.

(** Every registered datapath is filed under its id and has a port table, and ports are
    filed under their numbers. *)
Record dpset_ok (s : t) : Prop := {
  ok_ids : forall i dp, dps s !! i = Some dp -> id dp = Some i;
  ok_tables : dom (dps s) = dom (port_state s);
  ok_numbers : forall i m n p, port_state s !! i = Some m -> m !! n = Some p -> op_port_no p = n }.

Notation any := (fun _ => True).

Section Facts.
Context `{D : DictOrder} `{!DictOrderLaws D}.

Lemma ports_of_run dp s :
  ports_of dp s = (Err KeyError, s)
  \/ exists i m, id dp = Some i /\ port_state s !! i = Some m /\ ports_of dp s = (Ok (i, m), s).
Proof.
  unfold ports_of. stm_unfold. destruct (id dp) as [i|]; [|by left]. cbn.
  destruct (port_state s !! i) as [m|] eqn:E; [|by left]. right. exists i, m. by rewrite E.
Qed.

(** What the port operations change: the table of the datapath, kept by numbers. *)
Definition same_but_ports (s s' : t) : Prop :=
  dps s' = dps s /\ tick s' = tick s /\ dom (port_state s') = dom (port_state s)
  /\ ((forall i m n p, port_state s !! i = Some m -> m !! n = Some p -> op_port_no p = n) ->
      forall i m n p, port_state s' !! i = Some m -> m !! n = Some p -> op_port_no p = n).

Lemma same_refl s : same_but_ports s s.
Proof. by unfold same_but_ports. Qed.

Lemma same_trans s1 s2 s3 : same_but_ports s1 s2 -> same_but_ports s2 s3 -> same_but_ports s1 s3.
Proof.
  intros (A1 & A2 & A3 & A4) (B1 & B2 & B3 & B4). unfold same_but_ports. rewrite B1, B2, B3.
  split_and!; eauto.
Qed.

Lemma set_ports_same i m m' s : port_state s !! i = Some m ->
  ((forall n p, m !! n = Some p -> op_port_no p = n) -> forall n p, m' !! n = Some p -> op_port_no p = n) ->
  same_but_ports s (with_port_state (<[i := m']> (port_state s)) s).
Proof.
  intros Hm Hn. unfold same_but_ports. do 2 (split; [done|]). split; cbn [port_state with_port_state].
  - rewrite dom_insert_L. apply elem_of_dom_2 in Hm. set_solver.
  - intros H j m0 n p [[<- <-]|[_ Hj]]%lookup_insert_Some; [apply Hn; intros n' p'; by apply (H i m)|by apply (H j m0)].
Qed.

Lemma number_insert (m : gmap Z OFPPort) port :
  (forall n p, m !! n = Some p -> op_port_no p = n) ->
  forall n p, <[op_port_no port := port]> m !! n = Some p -> op_port_no p = n.
Proof. intros H n p [[<- <-]|[_ Hj]]%lookup_insert_Some; [done|by apply H]. Qed.

Lemma port_added_same dp port s : same_but_ports s (_port_added dp port s).2.
Proof.
  unfold _port_added. unfold mbind, stm_bind.
  destruct (ports_of_run dp s) as [->|(i & m & _ & Hm & ->)]; [apply same_refl|]. cbn.
  apply (set_ports_same i m); [done|]. apply number_insert.
Qed.

Lemma port_deleted_same dp port s : same_but_ports s (_port_deleted dp port s).2.
Proof.
  unfold _port_deleted. unfold mbind, stm_bind.
  destruct (ports_of_run dp s) as [->|(i & m & _ & Hm & ->)]; [apply same_refl|]. unfold lift_res.
  destruct (m !! op_port_no port); cbn; [|apply same_refl].
  apply (set_ports_same i m); [done|]. intros H n p [_ Hp]%lookup_delete_Some. by apply H.
Qed.

Lemma iter_same (f : OFPPort -> stm t unit) l s :
  (forall p s, same_but_ports s (f p s).2) -> same_but_ports s (iterM f l s).2.
Proof.
  intros Hf. revert s. induction l as [|p l IH]; intros s; cbn [iterM]; [apply same_refl|].
  unfold mbind, stm_bind. specialize (Hf p s). destruct (f p s) as [[[]|x] s1]; cbn in *; [|done].
  eapply same_trans; [exact Hf|apply IH].
Qed.

Lemma same_ok s s' : same_but_ports s s' -> dpset_ok s -> dpset_ok s'.
Proof.
  intros (A1 & _ & A3 & A4) []. split; [by rewrite A1|by rewrite A1, A3|by apply A4].
Qed.

Lemma dps_emit_run x s : emit x s = (Ok tt, Mk (dps s) (port_state s) (out s ++ [x]) (tick s)).
Proof. done. Qed.

Lemma out_ok o s : dpset_ok s -> dpset_ok (Mk (dps s) (port_state s) o (tick s)).
Proof. by intros []; split. Qed.

Lemma register_ok dp s : dpset_ok s -> dpset_ok (_register dp s).2.
Proof.
  intros Hok. unfold _register. destruct (id dp) as [i|] eqn:Hid; [|done].
  unfold mbind at 1, stm_bind at 1, get at 1. cbn zeta. unfold mbind at 1, stm_bind at 1.
  assert (exists o, (match dps s !! i with Some old => emit (Close old) | None => mret tt end) s
    = (Ok tt, Mk (dps s) (port_state s) o (tick s))) as [o ->]
    by (destruct (dps s !! i); [eexists; apply dps_emit_run|exists (out s); by destruct s]).
  unfold mbind at 1, stm_bind at 1, modify at 1. unfold mbind at 1, stm_bind at 1, get at 1.
  set (s1 := with_dps _ _). unfold mbind at 1, stm_bind at 1.
  assert (Hfin : forall s2 (r : res unit), dpset_ok s2 ->
    dpset_ok (match r with
              | Ok _ => (if bool_decide (is_Some (dps s !! i)) then emit (EventDPReconnected dp) else mret tt) s2
              | Err e => (Err e, s2)
              end).2).
  { intros s2 [u|e] H2; [|done]. destruct (bool_decide _); [|done]. rewrite dps_emit_run. by apply out_ok. }
  assert (Hids : forall j d, <[i := dp]> (dps s) !! j = Some d -> id d = Some j).
  { intros j d [[<- <-]|[_ H]]%lookup_insert_Some; [done|by apply (ok_ids _ Hok)]. }
  destruct (port_state s1 !! i) as [m|] eqn:Em.
  - apply (Hfin s1 (Ok tt)). split; [exact Hids| |apply (ok_numbers _ Hok)].
    cbn. rewrite dom_insert_L, (ok_tables _ Hok). apply elem_of_dom_2 in Em. cbn in Em. set_solver.
  - unfold mbind at 1, stm_bind at 1, set_ports, modify at 1. set (s2 := with_port_state _ s1).
    assert (H2 : dpset_ok s2).
    { split; [exact Hids| |].
      - cbn. rewrite !dom_insert_L, (ok_tables _ Hok). done.
      - cbn. intros j m n p [[<- <-]|[_ H]]%lookup_insert_Some; [by rewrite lookup_empty|by eapply (ok_numbers _ Hok)]. }
    unfold mbind at 1, stm_bind at 1.
    pose proof (same_ok _ _ (iter_same (_port_added dp) (snd <$> dict_items (tick s1) (dp_ports dp)) s2 (port_added_same dp)) H2) as H3.
    destruct (iterM _ _ s2) as [[[]|x] s3]; cbn [snd] in H3; [rewrite dps_emit_run; by apply (Hfin _ (Ok tt)), out_ok|exact H3].
Qed.

Lemma unregister_ok dp s : dpset_ok s -> dpset_ok (_unregister dp s).2.
Proof.
  intros Hok. unfold _unregister. unfold mbind at 1, stm_bind at 1, get at 1.
  destruct (registered dp s); [|done]. destruct (id dp) as [i|]; [|done].
  unfold mbind at 1, stm_bind at 1, lift_res at 1. destruct (dps s !! i) as [cur|]; [|done]. cbn [or_raise].
  unfold mbind at 1, stm_bind at 1, lift_res at 1. destruct (conn cur =? conn dp)%nat; [|done]. cbn [py_assert].
  set (l := snd <$> _). unfold mbind at 1, stm_bind at 1.
  pose proof (same_ok _ _ (iter_same (_port_deleted dp) l s (port_deleted_same dp)) Hok) as H1.
  destruct (iterM _ l s) as [[[]|x] s1]; cbn [snd] in H1; [|exact H1].
  unfold mbind at 1, stm_bind at 1. rewrite dps_emit_run. unfold mbind at 1, stm_bind at 1, modify at 1.
  unfold mbind at 1, stm_bind at 1, get at 1. unfold mbind at 1, stm_bind at 1, lift_res at 1, put.
  set (s2 := with_dps _ _). destruct (port_state s2 !! i) as [m|] eqn:Em; cbn [or_raise snd].
  - split; cbn.
    + intros j d [_ H]%lookup_delete_Some. by apply (ok_ids _ H1).
    + by rewrite !dom_delete_L, (ok_tables _ H1).
    + intros j m' n p [_ H]%lookup_delete_Some. by eapply (ok_numbers _ H1).
  - cbn in Em. assert (i ∉ dom (dps s1)) by (rewrite (ok_tables _ H1); by apply not_elem_of_dom).
    destruct H1. split; cbn; try done; rewrite delete_id by (by apply not_elem_of_dom); done.
Qed.

Lemma dps_step_ok ev s : dpset_ok s -> dpset_ok (step ev s).2.
Proof.
  intros Hok. unfold step. set (s0 := Mk _ _ _ _). assert (H0 : dpset_ok s0) by (by destruct Hok; split).
  clearbody s0. destruct ev as [[] dp|reason dp port]; cbn [dispatcher_change].
  - by apply register_ok.
  - by apply unregister_ok.
  - unfold port_status_handler.
    destruct (_ =? _); [|destruct (_ =? _); [|destruct (_ =? _); [|done]]]; unfold mbind at 1, stm_bind at 1.
    + pose proof (same_ok _ _ (port_added_same dp port s0) H0) as H1.
      destruct (_port_added dp port s0) as [[u|x] s1]; [rewrite dps_emit_run; by apply out_ok|done].
    + pose proof (same_ok _ _ (port_deleted_same dp port s0) H0) as H1.
      destruct (_port_deleted dp port s0) as [[u|x] s1]; [rewrite dps_emit_run; by apply out_ok|done].
    + destruct (ports_of_run dp s0) as [->|(i & m & _ & Hm & ->)]; [done|].
      unfold mbind at 1, stm_bind at 1, set_ports, modify at 1. rewrite dps_emit_run. apply out_ok.
      eapply same_ok; [|exact H0]. apply (set_ports_same i m); [done|]. apply number_insert.
Qed.

(** *** Entering and leaving *)

Lemma iter_added dp i l s m : id dp = Some i -> port_state s !! i = Some m ->
  iterM (_port_added dp) l s
  = (Ok tt, with_port_state (<[i := foldl (fun m p => <[op_port_no p := p]> m) m l]> (port_state s)) s).
Proof.
  intros Hid. revert s m. induction l as [|p l IH]; intros s m Hm; cbn [iterM foldl].
  - rewrite insert_id by done. by destruct s.
  - unfold mbind at 1, stm_bind at 1.
    assert (_port_added dp p s = (Ok tt, with_port_state (<[i := <[op_port_no p := p]> m]> (port_state s)) s)) as ->.
    { unfold _port_added, ports_of. stm_unfold. rewrite Hid. cbn. by rewrite Hm. }
    rewrite (IH _ (<[op_port_no p := p]> m)); [|by cbn; rewrite lookup_insert_eq].
    cbn. by rewrite insert_insert_eq.
Qed.

Lemma iter_deleted dp i l s m : id dp = Some i -> port_state s !! i = Some m ->
  NoDup (op_port_no <$> l) -> (forall p, p ∈ l -> is_Some (m !! op_port_no p)) ->
  exists m', iterM (_port_deleted dp) l s = (Ok tt, with_port_state (<[i := m']> (port_state s)) s).
Proof.
  intros Hid. revert s m. induction l as [|p l IH]; intros s m Hm Hnd Hin; cbn [iterM fmap list_fmap] in *.
  - exists m. rewrite insert_id by done. by destruct s.
  - apply list.NoDup_cons in Hnd as [Hp Hnd]. destruct (Hin p ltac:(left)) as [q Hq].
    unfold mbind at 1, stm_bind at 1.
    assert (_port_deleted dp p s = (Ok tt, with_port_state (<[i := delete (op_port_no p) m]> (port_state s)) s)) as ->.
    { unfold _port_deleted, ports_of. stm_unfold. rewrite Hid. cbn. rewrite Hm. cbn. by rewrite Hq. }
    destruct (IH (with_port_state (<[i := delete (op_port_no p) m]> (port_state s)) s) (delete (op_port_no p) m))
      as [m' E]; [by cbn; rewrite lookup_insert_eq|done| |].
    + intros r Hr. rewrite lookup_delete_ne; [by apply Hin; right|]. intros Heq. apply Hp. rewrite Heq.
      by apply list_elem_of_fmap_2.
    + exists m'. rewrite E. cbn. by rewrite insert_insert_eq.
Qed.

(** The ports of a table filed by numbers, each once. *)
Lemma table_ports tk (m : gmap Z OFPPort) : (forall n p, m !! n = Some p -> op_port_no p = n) ->
  NoDup (op_port_no <$> (snd <$> dict_items tk m)) /\ forall p, p ∈ snd <$> dict_items tk m -> is_Some (m !! op_port_no p).
Proof.
  intros Hn. split.
  - rewrite <- list_fmap_compose.
    assert (Heq : (op_port_no ∘ snd) <$> dict_items tk m = (dict_items tk m).*1).
    { apply list_fmap_ext. intros i [k p] H. apply list_elem_of_lookup_2 in H.
      rewrite dict_items_perm in H. apply elem_of_map_to_list in H. cbn. by apply Hn. }
    rewrite Heq, dict_items_perm. apply NoDup_fst_map_to_list.
  - intros p Hp. apply list_elem_of_fmap in Hp as ([k q] & -> & H). rewrite dict_items_perm in H. apply elem_of_map_to_list in H.
    cbn. rewrite (Hn _ _ H). by eexists.
Qed.

Lemma registered_here dp i s : dps s !! i = Some dp -> registered dp s = true.
Proof.
  intros H. unfold registered. apply existsb_exists. exists (i, dp). split.
  - by apply list_elem_of_In, elem_of_map_to_list.
  - apply Nat.eqb_refl.
Qed.

Definition table (dp : datapath) (tk : nat) : gmap Z OFPPort :=
  foldl (fun m p => <[op_port_no p := p]> m) ∅ (snd <$> dict_items tk (dp_ports dp)).

Lemma register_new dp i s : dpset_ok s -> id dp = Some i -> dps s !! i = None ->
  _register dp s
  = (Ok tt, Mk (<[i := dp]> (dps s)) (<[i := table dp (tick s)]> (port_state s))
              (out s ++ [EventDP dp true (snd <$> dict_items (tick s) (dp_ports dp))]) (tick s)).
Proof.
  intros Hok Hid Hnew.
  assert (Hp : port_state s !! i = None).
  { apply not_elem_of_dom. rewrite <- (ok_tables _ Hok). by apply not_elem_of_dom. }
  unfold _register. rewrite Hid. unfold mbind at 1, stm_bind at 1, get at 1. cbn zeta. rewrite Hnew.
  unfold mbind at 1, stm_bind at 1, mret at 1, stm_ret at 1.
  unfold mbind at 1, stm_bind at 1, modify at 1. unfold mbind at 1, stm_bind at 1, get at 1.
  set (s1 := with_dps _ _). unfold mbind at 1, stm_bind at 1.
  change (port_state s1 !! i) with (port_state s !! i). rewrite Hp.
  unfold mbind at 1, stm_bind at 1, set_ports, modify at 1. unfold mbind at 1, stm_bind at 1.
  rewrite (iter_added dp i _ _ ∅ Hid) by (cbn; by rewrite lookup_insert_eq).
  rewrite dps_emit_run. rewrite bool_decide_eq_false_2 by (intros [x Hx]; discriminate).
  cbn. by rewrite insert_insert_eq.
Qed.

Lemma unregister_known dp i m s : id dp = Some i -> dps s !! i = Some dp -> port_state s !! i = Some m ->
  (forall n p, m !! n = Some p -> op_port_no p = n) ->
  _unregister dp s
  = (Ok tt, Mk (delete i (dps s)) (delete i (port_state s))
              (out s ++ [EventDP dp false (snd <$> dict_items (tick s) m)]) (tick s)).
Proof.
  intros Hid Hdp Hm Hn. unfold _unregister. unfold mbind at 1, stm_bind at 1, get at 1.
  rewrite (registered_here dp i s Hdp), Hid. unfold mbind at 1, stm_bind at 1, lift_res at 1. rewrite Hdp.
  cbn [or_raise]. unfold mbind at 1, stm_bind at 1, lift_res at 1. rewrite Nat.eqb_refl. cbn [py_assert].
  rewrite Hm. change (default ∅ (Some m)) with m. unfold mbind at 1, stm_bind at 1.
  destruct (table_ports (tick s) m Hn) as [Hnd Hin].
  destruct (iter_deleted dp i _ s m Hid Hm Hnd Hin) as [m' E].
  rewrite E. unfold mbind at 1, stm_bind at 1. rewrite dps_emit_run.
  unfold mbind at 1, stm_bind at 1, modify at 1. unfold mbind at 1, stm_bind at 1, get at 1.
  unfold mbind at 1, stm_bind at 1, lift_res at 1. cbn. rewrite lookup_insert_eq. cbn.
  unfold put. by rewrite delete_insert_eq.
Qed.

(** A connection that is not registered leaves without a trace. *)
Lemma unregister_other dp s : registered dp s = false -> _unregister dp s = (Ok tt, s).
Proof. intros H. unfold _unregister. unfold mbind, stm_bind, get. by rewrite H. Qed.

(** A second connection of a known switch takes its place. *)
Lemma register_again dp old i m s : id dp = Some i -> dps s !! i = Some old -> port_state s !! i = Some m ->
  _register dp s
  = (Ok tt, Mk (<[i := dp]> (dps s)) (port_state s) (out s ++ [Close old; EventDPReconnected dp]) (tick s)).
Proof.
  intros Hid Hold Hm. unfold _register. rewrite Hid. unfold mbind at 1, stm_bind at 1, get at 1. cbn zeta.
  rewrite Hold. rewrite bool_decide_eq_true_2 by (by eexists).
  unfold mbind at 1, stm_bind at 1. rewrite dps_emit_run. unfold mbind at 1, stm_bind at 1, modify at 1.
  unfold mbind at 1, stm_bind at 1, get at 1. unfold mbind at 1, stm_bind at 1. cbn. rewrite Hm.
  unfold mret, stm_ret. rewrite dps_emit_run. cbn. by rewrite <- app_assoc.
Qed.

(** The topology application without link discovery. *)
Lemma enter_again `{C : AddrConv} en X now i dp ts : TopoFacts.topo_ok now ts -> is_Some (Switches.dps ts !! i) ->
  exists ts', Switches.state_change_handler en X false false true (Some i) dp ts = (Ok tt, ts')
    /\ TopoFacts.topo_ok now ts' /\ Switches.dps ts' !! i = Some dp.
Proof.
  intros Hok [d Hd].
  pose proof (TopoFacts.safe_state _ _ _ _ (TopoFacts.state_change_safe en X false false now true (Some i) dp) Hok) as Hok'.
  assert (exists m, Switches.port_state ts !! i = Some m) as [m Hm].
  { apply elem_of_dom. rewrite <- (TopoFacts.ok_dps _ _ Hok). by eapply elem_of_dom_2. }
  assert (E : Switches.state_change_handler en X false false true (Some i) dp ts
    = (Ok tt, Switches.with_dps (<[i := dp]> (Switches.dps ts)) ts)).
  { unfold Switches.state_change_handler, Switches.enter_handler. unfold mbind at 1, stm_bind at 1, get at 1. cbn zeta.
    rewrite Hd, bool_decide_eq_true_2 by (by eexists). unfold mbind at 1, stm_bind at 1, Switches._register.
    unfold mbind at 1, stm_bind at 1, modify at 1. unfold mbind at 1, stm_bind at 1, get at 1. cbn. rewrite Hm.
    unfold Switches._get_switch. stm_unfold. rewrite lookup_insert_eq. cbn. by rewrite Hm. }
  rewrite E in *. eexists. split; [reflexivity|]. split; [done|]. apply lookup_insert_eq.
Qed.

Lemma leave_forgets `{C : AddrConv} en X now i dp d ts : TopoFacts.topo_ok now ts -> Switches.dps ts !! i = Some d ->
  Switches.dps (Switches.state_change_handler en X false false false (Some i) dp ts).2 !! i = None.
Proof.
  intros Hok Hd. assert (exists m, Switches.port_state ts !! i = Some m) as [m Hm].
  { apply elem_of_dom. rewrite <- (TopoFacts.ok_dps _ _ Hok). by eapply elem_of_dom_2. }
  unfold Switches.state_change_handler, Switches.leave_handler, Switches._get_switch, Switches._unregister, Switches.emit.
  stm_unfold. rewrite Hd. cbn. rewrite Hm. cbn. rewrite Hd. cbn. rewrite Hm. cbn. apply lookup_delete_eq.
Qed.

End Facts.
End DpSetFacts.

Module DpSetClaims.
Import DpSetFacts DPSet.

Section Claims.
Context `{D : DictOrder} `{!DictOrderLaws D}.

(** After any events, returning or raising: the registered switches are those with a
    port table, each is filed under its own id, and every port under its number. *)
Theorem dpset_invariant (evs : list event) : dpset_ok (run evs init).
Proof.
  enough (forall s, dpset_ok s -> dpset_ok (run evs s)) as H by (apply H; by split).
  induction evs as [|ev evs IH]; intros s Hs; cbn [run]; [done|]. by apply IH, dps_step_ok.
Qed.

(** A switch that enters and leaves leaves no trace: whatever was known before is known
    again, and the observers are told of its ports both times. *)
Theorem enter_leave (dp : datapath) (i : Z) (s : t) (Hok : dpset_ok s) (Hid : id dp = Some i)
    (Hnew : dps s !! i = None) :
  let s1 := (step (StateChange true dp) s).2 in
  (step (StateChange true dp) s).1 = Ok tt
  /\ dps s1 = <[i := dp]> (dps s)
  /\ (step (StateChange false dp) s1).1 = Ok tt
  /\ dps (step (StateChange false dp) s1).2 = dps s
  /\ port_state (step (StateChange false dp) s1).2 = port_state s
  /\ exists ps qs, out (step (StateChange false dp) s1).2 = out s ++ [EventDP dp true ps; EventDP dp false qs].
Proof.
  cbn zeta. set (s0 := Mk (dps s) (port_state s) (out s) (S (tick s))).
  assert (H0 : dpset_ok s0) by (by destruct Hok; split).
  change (step (StateChange true dp) s) with (_register dp s0). rewrite (register_new dp i s0 H0 Hid Hnew).
  set (s1 := Mk _ _ _ _). cbn [fst snd]. split; [done|]. split; [done|].
  set (s2 := Mk (dps s1) (port_state s1) (out s1) (S (tick s1))).
  change (step (StateChange false dp) s1) with (_unregister dp s2).
  rewrite (unregister_known dp i (table dp (tick s0)) s2 Hid).
  - cbn [fst snd dps port_state out s2 s1 s0]. split; [done|].
    rewrite !delete_insert_id; [|apply not_elem_of_dom; rewrite <- (ok_tables _ Hok); by apply not_elem_of_dom|done].
    do 2 (split; [done|]). rewrite <- app_assoc. by eexists _, _.
  - apply lookup_insert_eq.
  - apply lookup_insert_eq.
  - apply TopoFacts.port_numbers.
Qed.

End Claims.

Definition p1 : OFPPort := MkOFPPort 1 "" "p1" 0 0.
Definition dp_of (c : nat) : datapath := MkDp c (Some 5) {[1 := p1]} 4.

Lemma enter_leave_witness :
  exists ps qs, out (run (D := sorted_order) [StateChange true (dp_of 1); StateChange false (dp_of 1)] init)
    = [EventDP (dp_of 1) true ps; EventDP (dp_of 1) false qs].
Proof.
  destruct (enter_leave (D := sorted_order) (DictOrderLaws0 := sorted_order_laws) (dp_of 1) 5 init) as (_ & _ & _ & _ & _ & H).
  - split; [intros i dp H; discriminate|reflexivity|intros i m n p H; discriminate].
  - reflexivity.
  - reflexivity.
  - exact H.
Defined.


End DpSetClaims.
