(* ===== verification/Ipv6.v ===== *)
(** * IPv6 and its extension headers (ryu/lib/packet/ipv6.py)

    The fixed header and the chain of extension headers: the options headers with
    their options, source routes, fragments and authentication.  The two loops of the
    parser have fuel, which the theorem [ipv6_parser_total] shows to be enough. *)

From Stdlib Require Import ZArith Lia.
From stdpp Require Import base list gmap strings numbers.
From S2P Require Import Prelude Struct PktUtils PktHeaders.

Local Ltac Zify.zify_post_hook ::= Z.div_mod_to_equations.

Module Ipv6.

Definition IPPROTO_HOPOPTS : Z := 0.
Definition IPPROTO_ROUTING : Z := 43.
Definition IPPROTO_FRAGMENT : Z := 44.
Definition IPPROTO_AH : Z := 51.
Definition IPPROTO_DSTOPTS : Z := 60.

(** [struct.unpack_from("%ds" % n, buf, off)] and [struct.pack("%ds" % n, b)]: a
    negative count is not a format. *)
Definition unpack_str (n : Z) (buf : bytes) (off : nat) : res bytes :=
  if n <? 0 then Err StructError else
  vs ← funpack_from (Format Big [Fs (Z.to_nat n)]) buf off;
  match vs with [VBytes b] => Ok b | _ => Err ValueError end.

Definition pack_str (n : Z) (b : bytes) : res bytes :=
  if n <? 0 then Err StructError else fpack (Format Big [Fs (Z.to_nat n)]) [VBytes b].

(** ** Options *)

Record option := Option { type_ : Z; len_ : Z; odata : Datatypes.option bytes }.

Definition option_parser (buf : bytes) : res option :=
  vs ← unpack_from "!B" buf 0;
  match vs with
  | [VInt t] =>
      if t =? 0 then Ok (Option t (-1) None) else
      ws ← unpack_from "!BB" buf 0;
      match ws with
      | [VInt t; VInt l] =>
          if l =? 0 then Ok (Option t l None)
          else data ← unpack_str l buf 2; Ok (Option t l (Some data))
      | _ => Err ValueError
      end
  | _ => Err ValueError
  end.

Definition option_serialize (o : option) : res bytes :=
  if type_ o =? 0 then pack "!B" [VInt (type_ o)]
  else if len_ o =? 0 then pack "!BB" [VInt (type_ o); VInt (len_ o)]
  else if len_ o <? 0 then Err StructError
  else match odata o with
       | None => Err StructError
       | Some d => fpack (Format Big [Fi 1; Fi 1; Fs (Z.to_nat (len_ o))])
                     [VInt (type_ o); VInt (len_ o); VBytes d]
       end.

Definition option_len (o : option) : Z := 2 + len_ o.

(** ** Extension headers *)

Inductive opt_kind := Hop | Dst.

Inductive header :=
  | OptHeader (k : opt_kind) (nxt size : Z) (data : Datatypes.option (list option))
  | RoutingType3 (nxt size type_ seg cmpi cmpe : Z) (adrs : list string) (_pad : Z)
  | Fragment (nxt offset more id_ : Z)
  | Auth (nxt size spi seq : Z) (data : bytes).

Definition header_nxt (h : header) : Z :=
  match h with
  | OptHeader _ n _ _ | RoutingType3 n _ _ _ _ _ _ _ | Fragment n _ _ _ | Auth n _ _ _ _ => n
  end.

Definition header_len (h : header) : Z :=
  match h with
  | OptHeader _ _ size _ => 8 + size
  | RoutingType3 _ size _ _ _ _ _ _ => (size + 1) * 8
  | Fragment _ _ _ _ => 8
  | Auth _ size _ _ _ => (size + 2) * 4
  end.

(** The constructors: an options header asserts its size, a source route computes its
    padding. *)
Definition new_opt_header (k : opt_kind) (nxt size : Z) (data : Datatypes.option (list option)) : res header :=
  py_assert (size mod 8 =? 0) ;; Ok (OptHeader k nxt size data).

Definition route_pad (n cmpi cmpe : Z) : Z := (8 - ((n - 1) * (16 - cmpi) + (16 - cmpe) mod 8)) mod 8.

Definition new_routing_type3 (nxt size type_ seg cmpi cmpe : Z) (adrs : list string) : header :=
  RoutingType3 nxt size type_ seg cmpi cmpe adrs (route_pad (Z.of_nat (length adrs)) cmpi cmpe).

(** The loop over the options; [None] when it has not ended after [fuel] turns. *)
Fixpoint options_loop (fuel : nat) (buf : bytes) (data_len size : Z) (acc : list option) :
    Datatypes.option (res (list option)) :=
  match fuel with
  | O => None
  | S fuel =>
      if size <? data_len then
        match unpack_from "!B" (drop (Z.to_nat size) buf) 0 with
        | Ok [VInt t] =>
            if t =? 0 then options_loop fuel buf data_len (size + 1) (acc ++ [Option t (-1) None])
            else match option_parser (drop (Z.to_nat size) buf) with
                 | Ok o => options_loop fuel buf data_len (size + option_len o) (acc ++ [o])
                 | Err x => Some (Err x)
                 end
        | Ok _ => Some (Err ValueError)
        | Err x => Some (Err x)
        end
      else Some (Ok acc)
  end.

Definition opt_header_parser (k : opt_kind) (buf : bytes) : Datatypes.option (res header) :=
  match unpack_from "!BB" buf 0 with
  | Ok [VInt nxt; VInt l] =>
      match options_loop (S (length buf)) buf (8 + l) 2 [] with
      | None => None
      | Some r => Some (data ← r; new_opt_header k nxt l (Some data))
      end
  | Ok _ => Some (Err ValueError)
  | Err x => Some (Err x)
  end.

Section Ipv6.
Context `{C : AddrConv}.

(** The addresses but the last of a source route. *)
Fixpoint route_loop (fuel : nat) (buf : bytes) (cmpi data stop : Z) (acc : list string) :
    Datatypes.option (res (list string * Z)) :=
  match fuel with
  | O => None
  | S fuel =>
      if data <? stop then
        match adr ← unpack_str (16 - cmpi) (drop (Z.to_nat data) buf) 0;
              bin_to_text IPV6 (replicate (Z.to_nat cmpi) 0 ++ adr) with
        | Ok t => route_loop fuel buf cmpi (data + (16 - cmpi)) stop (acc ++ [t])
        | Err x => Some (Err x)
        end
      else Some (Ok (acc, data))
  end.

Definition routing_type3_parser (buf : bytes) : Datatypes.option (res header) :=
  match unpack_from "!BBBBBB2x" buf 0 with
  | Ok [VInt nxt; VInt size; VInt type_; VInt seg; VInt cmp_; VInt pad] =>
      let header_len := (size + 1) * 8 in
      let cmpi := Z.shiftr cmp_ 4 in
      let cmpe := Z.land cmp_ 0xf in
      let pad := Z.shiftr pad 4 in
      if size =? 0 then Some (Ok (new_routing_type3 nxt size type_ seg cmpi cmpe []))
      else
        match route_loop (S (length buf)) buf cmpi 8 (header_len - (16 - cmpe + pad)) [] with
        | None => None
        | Some r => Some (
            '(adrs, data) ← r;
            adr ← unpack_str (16 - cmpe) (drop (Z.to_nat data) buf) 0;
            t ← bin_to_text IPV6 (replicate (Z.to_nat cmpe) 0 ++ adr);
            Ok (new_routing_type3 nxt size type_ seg cmpi cmpe (adrs ++ [t])))
        end
  | Ok _ => Some (Err ValueError)
  | Err x => Some (Err x)
  end.

(** [routing.parser] gives no object for the types without a class. *)
Definition routing_parser (buf : bytes) : Datatypes.option (res (Datatypes.option header)) :=
  match unpack_from "!B" buf 2 with
  | Ok [VInt t] =>
      if t =? 3 then
        match routing_type3_parser buf with
        | None => None
        | Some r => Some (h ← r; Ok (Some h))
        end
      else Some (Ok None)
  | Ok _ => Some (Err ValueError)
  | Err x => Some (Err x)
  end.

Definition fragment_parser (buf : bytes) : res header :=
  vs ← unpack_from "!BxHI" buf 0;
  match vs with
  | [VInt nxt; VInt off_m; VInt id_] => Ok (Fragment nxt (Z.shiftr off_m 3) (Z.land off_m 1) id_)
  | _ => Err ValueError
  end.

Definition auth_parser (buf : bytes) : res header :=
  vs ← unpack_from "!BB2xII" buf 0;
  match vs with
  | [VInt nxt; VInt size; VInt spi; VInt seq] =>
      data ← unpack_str ((size + 2) * 4 - 12) buf 12;
      Ok (Auth nxt size spi seq data)
  | _ => Err ValueError
  end.

(** [_IPV6_EXT_HEADER_TYPE] and the parser of each class. *)
Inductive ext_cls := Eopts (k : opt_kind) | Erouting | Efragment | Eauth.

Definition ext_header_type (t : Z) : Datatypes.option ext_cls :=
  if t =? IPPROTO_HOPOPTS then Some (Eopts Hop)
  else if t =? IPPROTO_DSTOPTS then Some (Eopts Dst)
  else if t =? IPPROTO_ROUTING then Some Erouting
  else if t =? IPPROTO_FRAGMENT then Some Efragment
  else if t =? IPPROTO_AH then Some Eauth
  else None.

Definition ext_parser (c : ext_cls) (buf : bytes) : Datatypes.option (res (Datatypes.option header)) :=
  match c with
  | Eopts k => match opt_header_parser k buf with
               | None => None
               | Some r => Some (h ← r; Ok (Some h))
               end
  | Erouting => routing_parser buf
  | Efragment => Some (h ← fragment_parser buf; Ok (Some h))
  | Eauth => Some (h ← auth_parser buf; Ok (Some h))
  end.

(** An address of a source route without its first [cmp] bytes. *)
Definition route_adr (cmp : Z) (adr : string) : res bytes :=
  b ← text_to_bin IPV6 adr; pack_str (16 - cmp) (drop (Z.to_nat cmp) b).

(** [serialize] of an extension header, and the header as it is left. *)
Definition header_serialize (h : header) : res (bytes * header) :=
  match h with
  | OptHeader k nxt size data =>
      buf ← pack "!BB" [VInt nxt; VInt size];
      let data := default [Option 1 4 (Some [0; 0; 0; 0])] data in
      w ← foldM (fun buf o => w ← option_serialize o; Ok (buf ++ w)) buf data;
      Ok (w, OptHeader k nxt size (Some data))
  | RoutingType3 nxt size type_ seg cmpi cmpe adrs _pad =>
      let size :=
        if size =? 0
        then ((Z.of_nat (length adrs) - 1) * (16 - cmpi) + (16 - cmpe) + _pad) / 8 else size in
      buf ← pack "!BBBBBB2x" [VInt nxt; VInt size; VInt type_; VInt seg;
        VInt (Z.lor (Z.shiftl cmpi 4) cmpe); VInt (Z.shiftl _pad 4)];
      let h := RoutingType3 nxt size type_ seg cmpi cmpe adrs _pad in
      if size =? 0 then Ok (buf, h) else
      buf ← foldM (fun buf adr => w ← route_adr cmpi adr; Ok (buf ++ w)) buf (take (length adrs - 1) adrs);
      adr ← or_raise IndexError (list.last adrs);
      w ← route_adr cmpe adr;
      Ok (buf ++ w, h)
  | Fragment nxt offset more id_ =>
      buf ← pack "!BxHI" [VInt nxt; VInt (Z.lor (Z.shiftl offset 3) more); VInt id_];
      Ok (buf, h)
  | Auth nxt size spi seq data =>
      buf ← pack "!BB2xII" [VInt nxt; VInt size; VInt spi; VInt seq];
      w ← pack_str ((size + 2) * 4 - 12) data;
      Ok (buf ++ w, h)
  end.

(** ** The header *)

Record ipv6 := Mk {
  version : Z; traffic_class : Z; flow_label : Z; payload_length : Z; nxt : Z;
  hop_limit : Z; src : string; dst : string; ext_hdrs : list header }.

Definition _PACK_STR : string := "!IHBB16s16s".
Definition _MIN_LEN : nat := calcsize _PACK_STR.

(** The walk along the chain: the headers, where they end and what follows them.
    Asking the missing object of an unknown routing type for its length raises. *)
Fixpoint ext_loop (fuel : nat) (buf : bytes) (offset last : Z) (acc : list header) :
    Datatypes.option (res (list header * Z * Z)) :=
  match fuel with
  | O => None
  | S fuel =>
      match ext_header_type last with
      | None => Some (Ok (acc, offset, last))
      | Some c =>
          match ext_parser c (drop (Z.to_nat offset) buf) with
          | None => None
          | Some (Err x) => Some (Err x)
          | Some (Ok None) => Some (Err TypeError)
          | Some (Ok (Some h)) => ext_loop fuel buf (offset + header_len h) (header_nxt h) (acc ++ [h])
          end
      end
  end.

Definition parser (buf : bytes) : Datatypes.option (res (ipv6 * Datatypes.option pcls * bytes)) :=
  match unpack_from _PACK_STR buf 0 with
  | Ok [VInt v_tc_flow; VInt payload_length; VInt nxt; VInt hlim; VBytes s; VBytes d] =>
      match ext_loop (S (length buf)) buf (Z.of_nat _MIN_LEN) nxt [] with
      | None => None
      | Some r => Some (
          '(ext_hdrs, offset, last) ← r;
          src ← bin_to_text IPV6 s; dst ← bin_to_text IPV6 d;
          Ok (Mk (Z.shiftr v_tc_flow 28) (Z.land (Z.shiftr v_tc_flow 20) 0xff)
                (Z.land v_tc_flow 0xfffff) payload_length nxt hlim src dst ext_hdrs,
              get_packet_type last, py_slice buf offset (offset + payload_length)))
      end
  | Ok _ => Some (Err ValueError)
  | Err x => Some (Err x)
  end.

Fixpoint serialize_exts (l : list header) : res (bytes * list header) :=
  match l with
  | [] => Ok ([], [])
  | h :: l => '(w, h) ← header_serialize h; '(ws, l) ← serialize_exts l; Ok (w ++ ws, h :: l)
  end.

Definition exts_len (l : list header) : Z := foldr (fun h n => header_len h + n) 0 l.

Definition serialize (h : ipv6) (payload : bytes) : res (bytes * ipv6) :=
  let v_tc_flow := Z.lor (Z.lor (Z.shiftl (version h) 28) (Z.shiftl (traffic_class h) 20)) (flow_label h) in
  s ← text_to_bin IPV6 (src h); d ← text_to_bin IPV6 (dst h);
  hdr ← pack_into _PACK_STR (replicate 40 0) 0
    [VInt v_tc_flow; VInt (payload_length h); VInt (nxt h); VInt (hop_limit h); VBytes s; VBytes d];
  '(w, exts) ← serialize_exts (ext_hdrs h);
  let hdr := hdr ++ w in
  let done_ pl := Mk (version h) (traffic_class h) (flow_label h) pl (nxt h) (hop_limit h) (src h) (dst h) exts in
  if payload_length h =? 0 then
    let payload_length := Z.of_nat (length payload) + exts_len exts in
    hdr ← pack_into "!H" hdr 4 [VInt payload_length];
    Ok (hdr, done_ payload_length)
  else Ok (hdr, done_ (payload_length h)).

Definition ipv6_len (h : ipv6) : Z := Z.of_nat _MIN_LEN + exts_len (ext_hdrs h).

End Ipv6.

(** ** What is written is read back *)

Definition option_ok (o : option) : Prop :=
  if type_ o =? 0 then len_ o = -1 /\ odata o = None
  else if len_ o =? 0 then odata o = None
  else exists d, odata o = Some d /\ len_ o = Z.of_nat (length d).

Definition options_of (data : Datatypes.option (list option)) : list option :=
  default [Option 1 4 (Some [0; 0; 0; 0])] data.

Definition options_len (l : list option) : Z := foldr (fun o n => option_len o + n) 0 l.

Section Facts.
Context `{C : AddrConv} `{!AddrConvLaws C}.

(** An address whose first [n] bytes are zero, as a compressed one is read back. *)
Definition suffix_ok (n : Z) (t : string) : Prop :=
  exists b, text_to_bin IPV6 t = Ok (replicate (Z.to_nat n) 0 ++ b)
    /\ bin_to_text IPV6 (replicate (Z.to_nat n) 0 ++ b) = Ok t /\ length b = Z.to_nat (16 - n).

(** The headers that can be read back: fields in range, sizes that fit the contents and
    source routes without padding, which is not written. *)
Definition header_ok (h : header) : Prop :=
  match h with
  | OptHeader _ _ size data =>
      size mod 8 = 0 /\ Forall option_ok (options_of data) /\ options_len (options_of data) = 6 + size
  | RoutingType3 _ size type_ _ cmpi cmpe adrs _pad =>
      type_ = 3 /\ 0 <= cmpi < 16 /\ 0 <= cmpe < 16 /\ adrs <> []
      /\ _pad = route_pad (Z.of_nat (length adrs)) cmpi cmpe /\ _pad = 0
      /\ (size = 0 \/ size * 8 = (Z.of_nat (length adrs) - 1) * (16 - cmpi) + (16 - cmpe))
      /\ Forall (suffix_ok cmpi) (take (length adrs - 1) adrs)
      /\ (forall t, list.last adrs = Some t -> suffix_ok cmpe t)
  | Fragment _ offset more _ => 0 <= offset < 8192 /\ 0 <= more < 2
  | Auth _ size _ _ data => Z.of_nat (length data) = (size + 2) * 4 - 12
  end.

(** The class under which a header is found. *)
Definition header_cls (h : header) : ext_cls :=
  match h with
  | OptHeader k _ _ _ => Eopts k
  | RoutingType3 _ _ _ _ _ _ _ _ => Erouting
  | Fragment _ _ _ _ => Efragment
  | Auth _ _ _ _ _ => Eauth
  end.

Lemma unpack_str_wire pre b rest off : off = length pre ->
  unpack_str (Z.of_nat (length b)) (pre ++ b ++ rest) off = Ok b.
Proof.
  intros ->. unfold unpack_str. zcmp. rewrite Nat2Z.id.
  rewrite (unpack_from_pack (Format Big [Fs (length b)]) [VBytes b] b pre rest); [|cbn|done].
  - cbn. by rewrite resize_all.
  - unfold fpack. cbn. by rewrite resize_all, app_nil_r.
Qed.

Lemma foldM_concat {A} (f : A -> res bytes) l : forall buf,
  foldM (fun buf o => w ← f o; Ok (buf ++ w)) buf l = (ws ← mapM_res f l; Ok (buf ++ concat ws)).
Proof.
  induction l as [|a l IH]; intros buf; cbn [foldM mapM_res mbind res_bind]; [by rewrite app_nil_r|].
  destruct (f a) as [w|x]; cbn [mbind res_bind]; [|done]. rewrite IH.
  destruct (mapM_res f l); cbn [mbind res_bind]; [|done]. by rewrite <- app_assoc.
Qed.

Lemma option_wire o w : option_ok o -> option_serialize o = Ok w ->
  Z.of_nat (length w) = option_len o /\ 1 <= option_len o
  /\ forall rest, unpack_from "!B" (w ++ rest) 0 = Ok [VInt (type_ o)]
       /\ option_parser (w ++ rest) = Ok o.
Proof.
  unfold option_ok, option_serialize, option_len, option_parser.
  destruct o as [t l d]; cbn [type_ len_ odata]. fmt_eval.
  destruct (t =? 0) eqn:Et; [|destruct (l =? 0) eqn:El; [|destruct (Z.ltb_spec l 0) as [Hn|Hn]; [done|]]].
  - intros [-> ->] H. apply Z.eqb_eq in Et as ->. rewrite (fpack_length _ _ _ H).
    split; [done|]. split; [done|]. intros rest. fmt_eval. by rewrite (unpack_from_pack0 _ _ _ rest H).
  - intros -> H. apply Z.eqb_eq in El as ->. rewrite (fpack_length _ _ _ H).
    split; [done|]. split; [done|]. intros rest. fmt_eval. revert H. pack_cases; try discriminate.
    rewrite app_nil_r. intros [= <-]. cbn [encode]. rewrite <- app_assoc.
    rewrite (unpack_from_pack0 (Format Big [Fi 1]) [VInt t] (be_encode 1 t)) by (unfold fpack; cbn; by rewrite Hw).
    cbn [fit_args f_codes mbind res_bind]. rewrite Et. split; [done|]. rewrite app_assoc.
    by rewrite (unpack_from_pack0 (Format Big [Fi 1; Fi 1]) [VInt t; VInt 0] (be_encode 1 t ++ be_encode 1 0))
      by (unfold fpack; cbn; by rewrite Hw, Hw0, app_nil_r).
  - intros (d' & -> & ->) H. rewrite (fpack_length _ _ _ H).
    unfold fmt_size. cbn [codes_size f_codes foldr code_size]. split; [lia|]. split; [lia|].
    intros rest. fmt_eval. revert H. pack_cases; try discriminate. rewrite Nat2Z.id, resize_all, app_nil_r.
    intros [= <-]. rewrite <- !app_assoc. cbn [encode].
    rewrite (unpack_from_pack0 (Format Big [Fi 1]) [VInt t] (be_encode 1 t)) by (unfold fpack; cbn; by rewrite Hw).
    cbn [fit_args f_codes mbind res_bind]. rewrite Et. split; [done|]. rewrite app_assoc.
    rewrite (unpack_from_pack0 (Format Big [Fi 1; Fi 1]) [VInt t; VInt (Z.of_nat (length d'))]
               (be_encode 1 t ++ be_encode 1 (Z.of_nat (length d'))))
      by (unfold fpack; cbn; by rewrite Hw, Hw0, app_nil_r).
    cbn [fit_args f_codes mbind res_bind]. rewrite El.
    by rewrite unpack_str_wire by (by autorewrite with beba).
Qed.

Lemma options_wire l : forall ws fuel pre rest acc,
  Forall option_ok l -> mapM_res option_serialize l = Ok ws -> (length l < fuel)%nat ->
  Z.of_nat (length (concat ws)) = options_len l
  /\ options_loop fuel (pre ++ concat ws ++ rest) (Z.of_nat (length pre) + options_len l)
       (Z.of_nat (length pre)) acc = Some (Ok (acc ++ l)).
Proof.
  induction l as [|o l IH]; intros ws fuel pre rest acc Hok Hs Hf.
  - injection Hs as <-. destruct fuel as [|fuel]; [lia|]. cbn. zcmp. split; [done|]. by rewrite app_nil_r.
  - apply list.Forall_cons in Hok as [Ho Hok]. cbn [mapM_res] in Hs.
    apply bind_Ok in Hs as (w & Hw & Hs). apply bind_Ok in Hs as (ws' & Hws & [= <-]).
    destruct (option_wire o w Ho Hw) as (Hl & H1 & Hp). destruct fuel as [|fuel]; [cbn in Hf; lia|].
    cbn [length] in Hf.
    destruct (IH ws' fuel (pre ++ w) rest (acc ++ [o]) Hok Hws ltac:(lia)) as [Hlen Hloop].
    cbn [concat]. change (options_len (o :: l)) with (option_len o + options_len l).
    rewrite length_app. split; [lia|]. cbn [options_loop]. zcmp. rewrite Nat2Z.id, drop_app_length. rewrite <- (app_assoc w).
    destruct (Hp (concat ws' ++ rest)) as [E1 E2]. rewrite E1, E2.
    rewrite <- (app_assoc pre w), length_app in Hloop.
    replace (Z.of_nat (length pre + length w)) with (Z.of_nat (length pre) + option_len o) in Hloop by lia.
    rewrite <- Z.add_assoc in Hloop. rewrite <- (app_assoc acc) in Hloop. cbn [app] in Hloop.
    destruct (type_ o =? 0) eqn:Et; [|exact Hloop].
    unfold option_ok in Ho. rewrite Et in Ho. destruct Ho as [Ho1 Ho2].
    replace (Option (type_ o) (-1) None) with o by (destruct o; cbn in *; by subst).
    assert (E : option_len o = 1) by (unfold option_len; lia). by rewrite E in *.
Qed.

Lemma opt_header_wire k n size data w h' : header_ok (OptHeader k n size data) ->
  header_serialize (OptHeader k n size data) = Ok (w, h') ->
  Z.of_nat (length w) = header_len h' /\ 8 <= header_len h' /\ header_nxt h' = n
  /\ forall rest, opt_header_parser k (w ++ rest) = Some (Ok h').
Proof.
  intros (Hm & Hok & Hlen) H. cbn [header_serialize] in H. fmt_eval.
  apply bind_Ok in H as (buf & Hb & H). change (default _ data) with (options_of data) in H.
  rewrite foldM_concat in H. destruct (mapM_res option_serialize (options_of data)) as [ws|] eqn:Hws; [|done].
  cbn [mbind res_bind] in H. injection H as <- <-. cbn [header_len header_nxt].
  pose proof (fpack_length _ _ _ Hb) as Lb. cbn in Lb.
  assert (Hsz : 0 <= size < 256).
  { revert Hb. pack_cases; try discriminate. intros _. apply in_width_iff in Hw0. by cbn in Hw0. }
  assert (Hw : forall rest, (length (options_of data) < S (length ((buf ++ concat ws) ++ rest)))%nat ->
    options_loop (S (length ((buf ++ concat ws) ++ rest))) ((buf ++ concat ws) ++ rest) (8 + size) 2 []
      = Some (Ok (options_of data))).
  { intros rest Hf. destruct (options_wire _ ws _ buf rest [] Hok Hws Hf) as [_ E].
    rewrite Lb in E. rewrite <- app_assoc in E |- *. rewrite Hlen in E.
    by replace (8 + size) with (Z.of_nat 2 + (6 + size)) by lia. }
  destruct (options_wire _ ws (S (length (options_of data))) buf [] [] Hok Hws ltac:(lia)) as [Lw _].
  rewrite length_app. split; [lia|]. split; [lia|]. split; [done|]. intros rest.
  unfold opt_header_parser. fmt_eval.
  rewrite <- (app_assoc buf), (unpack_from_pack0 _ _ _ _ Hb), (app_assoc buf). cbn [fit_args f_codes].
  rewrite Hw; [|].
  - unfold new_opt_header. cbn [mbind res_bind]. by rewrite (proj2 (Z.eqb_eq _ _) Hm).
  - assert (Z.of_nat (length (options_of data)) <= options_len (options_of data)); [|rewrite !length_app; lia].
    clear Hlen Hw Lw. revert ws Hws. induction Hok as [|o l Ho Hl IH]; intros ws Hws; [done|].
    cbn [mapM_res] in Hws. apply bind_Ok in Hws as (w & Hw & Hws). apply bind_Ok in Hws as (ws' & Hws & _).
    destruct (option_wire o w Ho Hw) as (_ & H1 & _). specialize (IH _ Hws).
    change (options_len (o :: l)) with (option_len o + options_len l). cbn [length]. lia.
Qed.

Lemma fragment_wire n off more id_ w : 0 <= off < 8192 -> 0 <= more < 2 ->
  fpack (Format Big [Fi 1; Fx 1; Fi 2; Fi 4]) [VInt n; VInt (Z.lor (Z.shiftl off 3) more); VInt id_] = Ok w ->
  forall rest, fragment_parser (w ++ rest) = Ok (Fragment n off more id_).
Proof.
  intros Ho Hm H rest. unfold fragment_parser. fmt_eval. rewrite (unpack_from_pack0 _ _ _ rest H).
  cbn [fit_args f_codes mbind res_bind]. rewrite lor_shiftl_add by lia.
  rewrite (land_mask _ 1 1), Z.shiftr_div_pow2 by (done || lia). do 2 f_equal; lia.
Qed.

Lemma auth_wire n size spi seq data buf :
  Z.of_nat (length data) = (size + 2) * 4 - 12 ->
  fpack (Format Big [Fi 1; Fi 1; Fx 2; Fi 4; Fi 4]) [VInt n; VInt size; VInt spi; VInt seq] = Ok buf ->
  pack_str ((size + 2) * 4 - 12) data = Ok data
  /\ forall rest, auth_parser (buf ++ data ++ rest) = Ok (Auth n size spi seq data).
Proof.
  intros Hl H. rewrite <- Hl. split.
  - unfold pack_str. zcmp. rewrite Nat2Z.id. unfold fpack. cbn. by rewrite resize_all, app_nil_r.
  - intros rest. unfold auth_parser. fmt_eval. rewrite (unpack_from_pack0 _ _ _ _ H).
    cbn [fit_args f_codes mbind res_bind]. rewrite <- Hl.
    by rewrite unpack_str_wire by by rewrite (fpack_length _ _ _ H).
Qed.

Lemma route_adr_wire n t : 0 <= n < 16 -> suffix_ok n t ->
  exists b, route_adr n t = Ok b /\ Z.of_nat (length b) = 16 - n
    /\ bin_to_text IPV6 (replicate (Z.to_nat n) 0 ++ b) = Ok t
    /\ forall rest, unpack_str (16 - n) (b ++ rest) 0 = Ok b.
Proof.
  intros Hn (b & E1 & E2 & Hl). exists b. unfold route_adr. rewrite E1. cbn [mbind res_bind].
  rewrite drop_app_length' by (by rewrite length_replicate).
  assert (Z.of_nat (length b) = 16 - n) as Hb by lia. split; [|split; [done|split; [done|]]].
  - unfold pack_str. zcmp. rewrite <- Hl. unfold fpack. cbn. by rewrite resize_all, app_nil_r.
  - intros rest. rewrite <- Hb. by apply (unpack_str_wire [] b rest).
Qed.

Lemma route_wire n init : 0 <= n < 16 -> Forall (suffix_ok n) init ->
  exists bs, mapM_res (route_adr n) init = Ok bs
    /\ Z.of_nat (length (concat bs)) = Z.of_nat (length init) * (16 - n)
    /\ forall fuel pre rest acc, (length init < fuel)%nat ->
         let stop := Z.of_nat (length pre) + Z.of_nat (length init) * (16 - n) in
         route_loop fuel (pre ++ concat bs ++ rest) n (Z.of_nat (length pre)) stop acc
           = Some (Ok (acc ++ init, stop)).
Proof.
  intros Hn. induction 1 as [|t init Ht Hi (bs & Hs & Hl & Hr)].
  - exists []. split; [done|]. split; [done|]. intros [|fuel] pre rest acc Hf; [lia|]. cbn. zcmp.
    by rewrite app_nil_r, Z.add_0_r.
  - destruct (route_adr_wire n t Hn Ht) as (b & E & Lb & Et & Eu). exists (b :: bs).
    cbn [mapM_res concat]. rewrite E, Hs. split; [done|]. rewrite length_app. cbn [length]. split; [lia|].
    intros [|fuel] pre rest acc Hf; [lia|]. cbn [route_loop]. zcmp.
    rewrite Nat2Z.id, drop_app_length, <- (app_assoc b), Eu. cbn [mbind res_bind]. rewrite Et.
    specialize (Hr fuel (pre ++ b) rest (acc ++ [t]) ltac:(lia)). cbv zeta in Hr.
    rewrite length_app, <- !app_assoc in Hr. cbn [app] in Hr.
    replace (Z.of_nat (length pre + length b)) with (Z.of_nat (length pre) + (16 - n)) in Hr by lia.
    replace (Z.of_nat (length pre) + Z.of_nat (S (length init)) * (16 - n))
      with (Z.of_nat (length pre) + (16 - n) + Z.of_nat (length init) * (16 - n)) by lia.
    exact Hr.
Qed.

(** The size that is written, when the addresses fill their units. *)
Lemma routing_size (m : nat) size cmpi cmpe pad : 0 <= cmpi < 16 -> 0 <= cmpe < 16 ->
  pad = route_pad (Z.of_nat (m + 1)) cmpi cmpe -> pad = 0 ->
  size = 0 \/ size * 8 = (Z.of_nat (m + 1) - 1) * (16 - cmpi) + (16 - cmpe) ->
  exists sz, 1 <= sz /\ sz * 8 = Z.of_nat m * (16 - cmpi) + (16 - cmpe)
    /\ (if size =? 0 then ((Z.of_nat (m + 1) - 1) * (16 - cmpi) + (16 - cmpe) + pad) / 8 else size) = sz.
Proof.
  intros Hi He Hp Hz Hsz. set (len := Z.of_nat m * (16 - cmpi) + (16 - cmpe)).
  assert (Hm : len mod 8 = 0 /\ 1 <= len)
    by (unfold route_pad in Hp; rewrite Nat2Z.inj_add in Hp; subst len; nia).
  exists (len / 8). destruct Hm as [Hm Hm1]. split; [lia|]. split; [lia|].
  replace ((Z.of_nat (m + 1) - 1) * (16 - cmpi) + (16 - cmpe) + pad) with len by (subst len; lia).
  replace ((Z.of_nat (m + 1) - 1) * (16 - cmpi) + (16 - cmpe)) with len in Hsz by (subst len; lia).
  destruct (Z.eqb_spec size 0); [done|]. lia.
Qed.

Lemma routing_wire n size ty seg cmpi cmpe adrs pad w h' :
  header_ok (RoutingType3 n size ty seg cmpi cmpe adrs pad) ->
  header_serialize (RoutingType3 n size ty seg cmpi cmpe adrs pad) = Ok (w, h') ->
  Z.of_nat (length w) = header_len h' /\ 8 <= header_len h' /\ header_nxt h' = n
  /\ forall rest, routing_parser (w ++ rest) = Some (Ok (Some h')).
Proof.
  intros (-> & Hi & He & Hne & Hp & Hz & Hsz & Hinit & Hlast) H.
  destruct (exists_last Hne) as (init & t & ->). rewrite length_app in *. cbn [length] in *.
  replace (length init + 1 - 1)%nat with (length init) in Hinit by lia. rewrite take_app_length in Hinit.
  destruct (route_wire cmpi init Hi Hinit) as (bs & Hbs & Lbs & Hr).
  destruct (route_adr_wire cmpe t He) as (b & Eb & Lb & Et & Eu); [apply Hlast, last_snoc|].
  cbn [header_serialize] in H. rewrite length_app in H. cbn [length] in H.
  set (len := Z.of_nat (length init) * (16 - cmpi) + (16 - cmpe)) in *.
  destruct (routing_size (length init) size cmpi cmpe pad Hi He Hp Hz Hsz) as (sz & H1 & Hsz8 & Es). fold len in Hsz8.
  rewrite Es in H. clear Es. fmt_eval.
  apply bind_Ok in H as (buf & Hb & H). rewrite (proj2 (Z.eqb_neq sz 0)) in H by lia.
  replace (length init + 1 - 1)%nat with (length init) in H by lia.
  rewrite take_app_length, last_snoc, foldM_concat, Hbs in H. cbn [mbind res_bind or_raise] in H.
  rewrite Eb in H. cbn [mbind res_bind] in H. injection H as <- <-. cbn [header_len header_nxt].
  pose proof (fpack_length _ _ _ Hb) as Lbuf. cbn in Lbuf. rewrite !length_app. split; [lia|].
  split; [lia|]. split; [done|]. intros rest. unfold routing_parser, routing_type3_parser.
  set (all := ((buf ++ concat bs) ++ b) ++ rest).
  assert (E0 : all = buf ++ concat bs ++ b ++ rest) by (unfold all; by rewrite <- !app_assoc).
  assert (Hty : unpack_from "!B" all 2 = Ok [VInt 3]).
  { fmt_eval. rewrite E0. revert Hb. pack_cases; try discriminate. intros [= <-]. cbn [encode].
    rewrite <- !app_assoc, (app_assoc (be_encode 1 n)).
    rewrite (unpack_from_pack (Format Big [Fi 1]) [VInt 3] (be_encode 1 3) _ _ 2); [done|done|].
    by autorewrite with beba. }
  rewrite Hty. rewrite Z.eqb_refl. fmt_eval. rewrite E0, (unpack_from_pack0 _ _ _ _ Hb).
  cbn [fit_args f_codes]. rewrite (proj2 (Z.eqb_neq sz 0)) by lia. rewrite <- E0.
  rewrite lor_shiftl_add by lia. rewrite (land_mask _ 4 0xf), !Z.shiftr_div_pow2 by (done || lia).
  replace ((cmpi * 2 ^ 4 + cmpe) / 2 ^ 4) with cmpi by lia.
  replace ((cmpi * 2 ^ 4 + cmpe) mod 2 ^ 4) with cmpe by lia. rewrite Hz at 1.
  change (Z.shiftl 0 4 / 2 ^ 4) with 0.
  replace ((sz + 1) * 8 - (16 - cmpe + 0)) with (8 + Z.of_nat (length init) * (16 - cmpi)) by (subst len; lia).
  assert (Hf : (length init < S (length all))%nat).
  { rewrite E0, !length_app. assert (Z.of_nat (length init) <= Z.of_nat (length (concat bs))); [nia|lia]. }
  specialize (Hr _ buf (b ++ rest) [] Hf). rewrite <- E0, Lbuf in Hr. cbv zeta in Hr.
  change (Z.of_nat 8) with 8 in Hr. rewrite Hr. cbn [mbind res_bind app].
  replace (drop _ all) with (b ++ rest).
  - rewrite Eu. cbn [mbind res_bind]. rewrite Et. cbn [mbind res_bind]. unfold new_routing_type3.
    rewrite length_app. cbn [length]. by rewrite <- Hp.
  - rewrite E0, app_assoc, drop_app_length'; [done|]. rewrite length_app. lia.
Qed.

(** Every header, with its length, its link and its class kept. *)
Lemma ext_header_wire h w h' : header_ok h -> header_serialize h = Ok (w, h') ->
  Z.of_nat (length w) = header_len h' /\ 8 <= header_len h' /\ header_nxt h' = header_nxt h
  /\ forall rest, ext_parser (header_cls h) (w ++ rest) = Some (Ok (Some h')).
Proof.
  destruct h as [k n size data|n size ty seg cmpi cmpe adrs pad|n off more id_|n size spi seq data];
    intros Hok H; cbn [header_cls ext_parser header_nxt].
  - destruct (opt_header_wire _ _ _ _ _ _ Hok H) as (? & ? & ? & E). do 3 (split; [done|]).
    intros rest. by rewrite E.
  - by apply (routing_wire n size ty seg cmpi cmpe adrs pad).
  - destruct Hok as [Ho Hm]. cbn [header_serialize] in H. fmt_eval. apply bind_Ok in H as (buf & Hb & [= <- <-]).
    rewrite (fpack_length _ _ _ Hb). do 3 (split; [done|]). intros rest. by rewrite (fragment_wire _ _ _ _ _ Ho Hm Hb).
  - cbn [header_ok] in Hok. cbn [header_serialize] in H. fmt_eval. apply bind_Ok in H as (buf & Hb & H).
    destruct (auth_wire _ _ _ _ _ _ Hok Hb) as [E1 E2]. rewrite E1 in H. injection H as <- <-.
    cbn [header_len header_nxt]. rewrite length_app, (fpack_length _ _ _ Hb). cbn [fmt_size f_codes codes_size foldr code_size].
    split; [lia|]. split; [lia|]. split; [done|]. intros rest. by rewrite <- app_assoc, E2.
Qed.

(** The next-header fields announce the headers that follow. *)
Fixpoint chain (nxt : Z) (l : list header) (last : Z) : Prop :=
  match l with
  | [] => nxt = last /\ ext_header_type nxt = None
  | h :: l => ext_header_type nxt = Some (header_cls h) /\ chain (header_nxt h) l last
  end.

Lemma exts_wire l : forall n last w l', Forall header_ok l -> chain n l last ->
  serialize_exts l = Ok (w, l') ->
  Z.of_nat (length w) = exts_len l' /\ Z.of_nat (length l) * 8 <= exts_len l'
  /\ forall fuel pre rest acc, (length l < fuel)%nat ->
       ext_loop fuel (pre ++ w ++ rest) (Z.of_nat (length pre)) n acc
         = Some (Ok (acc ++ l', Z.of_nat (length pre) + exts_len l', last)).
Proof.
  induction l as [|h l IH]; intros n last w l' Hok Hc H.
  - injection H as <- <-. destruct Hc as [-> Hn]. split; [done|]. split; [done|].
    intros [|fuel] pre rest acc Hf; [lia|]. cbn [ext_loop]. rewrite Hn. cbn. by rewrite app_nil_r, Z.add_0_r.
  - apply list.Forall_cons in Hok as [Hh Hok]. destruct Hc as [Hn Hc]. cbn [serialize_exts] in H.
    apply bind_Ok in H as ([wh h'] & Hs & H). apply bind_Ok in H as ([ws l''] & Hws & [= <- <-]).
    destruct (ext_header_wire _ _ _ Hh Hs) as (Lh & H8 & En & Hp).
    destruct (IH _ _ _ _ Hok Hc Hws) as (Lw & H8' & Hl).
    change (exts_len (h' :: l'')) with (header_len h' + exts_len l''). rewrite length_app. cbn [length].
    split; [lia|]. split; [lia|]. intros [|fuel] pre rest acc Hf; [lia|]. cbn [ext_loop]. rewrite Hn.
    rewrite Nat2Z.id, drop_app_length, <- (app_assoc wh), Hp, En.
    specialize (Hl fuel (pre ++ wh) rest (acc ++ [h']) ltac:(lia)).
    rewrite length_app, <- !app_assoc in Hl. cbn [app] in Hl.
    replace (Z.of_nat (length pre + length wh)) with (Z.of_nat (length pre) + header_len h') in Hl by lia.
    rewrite Hl. do 4 f_equal. lia.
Qed.

Definition wf (h : ipv6) (last : Z) : Prop :=
  0 <= version h < 16 /\ 0 <= traffic_class h < 256 /\ 0 <= flow_label h < 2 ^ 20
  /\ canonical IPV6 (src h) /\ canonical IPV6 (dst h)
  /\ Forall header_ok (ext_hdrs h) /\ chain (nxt h) (ext_hdrs h) last.

Definition fmt40 : format := Format Big [Fi 4; Fi 2; Fi 1; Fi 1; Fs 16; Fs 16].

Definition fixed_args (h : ipv6) (pl : Z) (s d : bytes) : list pyval :=
  [VInt (Z.lor (Z.lor (Z.shiftl (version h) 28) (Z.shiftl (traffic_class h) 20)) (flow_label h));
   VInt pl; VInt (nxt h); VInt (hop_limit h); VBytes s; VBytes d].

Definition with_exts (h : ipv6) (pl : Z) (exts : list header) : ipv6 :=
  Mk (version h) (traffic_class h) (flow_label h) pl (nxt h) (hop_limit h) (src h) (dst h) exts.

(** The payload length is filled in between the flow label and the next header. *)
Lemma fill_length h s d w0 ext pl : fpack fmt40 (fixed_args h 0 s d) = Ok w0 -> in_width 2 pl = true ->
  exists w1, fpack fmt40 (fixed_args h pl s d) = Ok w1
    /\ fpack_into (Format Big [Fi 2]) (w0 ++ ext) 4 [VInt pl] = Ok (w1 ++ ext).
Proof.
  intros H Hpl. revert H. unfold fixed_args, fmt40. pack_cases; try discriminate. intros [= <-]. cbn [encode].
  rewrite app_nil_r. eexists. split; [reflexivity|].
  unfold fpack_into, fpack. cbn [f_codes f_order pack_codes].
  match goal with E : in_width 2 pl = true |- _ => rewrite E end. cbn [mbind res_bind encode].
  rewrite !app_nil_r. rewrite (proj2 (Nat.leb_le _ _)).
  - rewrite <- !app_assoc. rewrite take_app_length' by by autorewrite with beba.
    by f_equal.
  - rewrite !length_app, !length_resize. autorewrite with beba. cbn. lia.
Qed.

Lemma serialize_layout h payload w h' : serialize h payload = Ok (w, h') ->
  (payload_length h = 0 \/ payload_length h = Z.of_nat (length payload) + exts_len (ext_hdrs h')) ->
  exists s d fixed we pl, text_to_bin IPV6 (src h) = Ok s /\ text_to_bin IPV6 (dst h) = Ok d
    /\ serialize_exts (ext_hdrs h) = Ok (we, ext_hdrs h')
    /\ pl = Z.of_nat (length payload) + exts_len (ext_hdrs h')
    /\ h' = with_exts h pl (ext_hdrs h')
    /\ fpack fmt40 (fixed_args h pl s d) = Ok fixed /\ w = fixed ++ we.
Proof.
  unfold serialize. intros H Hpl. apply bind_Ok in H as (s & Hs & H). apply bind_Ok in H as (d & Hd & H).
  fmt_eval. apply bind_Ok in H as (hdr & Hh & H). apply bind_Ok in H as ([we exts] & He & H).
  change (fpack_into _ _ _ _) with (fpack_into fmt40 (replicate 40 0) 0 (fixed_args h (payload_length h) s d)) in Hh.
  unfold fpack_into in Hh. apply bind_Ok in Hh as (fixed & Hf & Hh).
  pose proof (fpack_length _ _ _ Hf) as Lf. injection Hh as <-.
  change (drop _ (replicate 40 0)) with (@nil Z) in H. cbn [take app] in H. rewrite app_nil_r in H.
  exists s, d. destruct (Z.eqb_spec (payload_length h) 0) as [E|E].
  - apply bind_Ok in H as (hdr & Hi & [= <- <-]). fmt_eval. cbn [ext_hdrs] in *. rewrite E in Hf.
    set (pl := Z.of_nat (length payload) + exts_len exts) in *.
    destruct (in_width 2 pl) eqn:Hw.
    + destruct (fill_length h s d fixed we pl Hf Hw) as (w1 & E1 & E2). rewrite E2 in Hi. injection Hi as <-.
      by exists w1, we, pl.
    + unfold fpack_into, fpack in Hi. cbn [f_codes f_order pack_codes] in Hi. by rewrite Hw in Hi.
  - injection H as <- <-. cbn [ext_hdrs] in *. destruct Hpl as [?|Hpl]; [done|].
    exists fixed, we, (payload_length h). by rewrite Hpl in *.
Qed.

(** ** The loops end *)

Lemma byte_field f buf off vs : bytes_ok buf -> funpack_from f buf off = Ok vs ->
  (off + fmt_size f <= length buf)%nat
  /\ vs = unpack_codes (f_order f) (f_codes f) (drop off buf) /\ bytes_ok (drop off buf).
Proof.
  intros Hb. unfold funpack_from. case_match eqn:E; [|done]. intros [= <-]. apply Nat.leb_le in E.
  split; [done|]. split; [done|]. by apply Forall_drop.
Qed.

Lemma decode_byte n (b : bytes) : bytes_ok b -> 0 <= decode Big (take n b).
Proof. intros H. apply decode_bound. by apply Forall_take. Qed.

Lemma decode_small (b : bytes) : bytes_ok b -> 0 <= decode Big (take 1 b) < 256.
Proof.
  intros H. split; [by apply decode_byte|].
  eapply Z.lt_le_trans; [apply decode_bound; by apply Forall_take|].
  change 256 with (256 ^ 1) at 2. apply Z.pow_le_mono_r; [done|]. rewrite length_take. lia.
Qed.

Lemma unpack_str_length n buf off b : unpack_str n buf off = Ok b -> 0 <= n /\ (off + Z.to_nat n <= length buf)%nat.
Proof.
  unfold unpack_str. destruct (Z.ltb_spec n 0); [done|]. intros H'. apply bind_Ok in H' as (vs & H' & _).
  unfold funpack_from in H'. case_match eqn:E; [|done]. apply Nat.leb_le in E. cbn in E. split; lia.
Qed.

Lemma option_parser_len buf o : bytes_ok buf -> option_parser buf = Ok o -> 1 <= option_len o.
Proof.
  intros Hb H. unfold option_parser in H. fmt_eval. apply bind_Ok in H as (vs & Hv & H).
  apply byte_field in Hv as (_ & -> & _); [|done]. cbn [unpack_codes f_codes f_order] in H.
  case_match; [by injection H as <-|]. apply bind_Ok in H as (ws & Hw & H).
  apply byte_field in Hw as (_ & -> & Hd); [|done]. cbn [unpack_codes f_codes f_order] in H.
  pose proof (decode_byte 1 (drop 1 (drop 0 buf)) ltac:(by apply Forall_drop)) as Hge.
  cbn [decode] in *. unfold option_len. case_match; [injection H as <-; cbn [len_]; lia|].
  apply bind_Ok in H as (b & _ & [= <-]). cbn [len_]. lia.
Qed.

Lemma options_loop_total fuel : forall buf data_len size acc, bytes_ok buf -> 0 <= size ->
  (length buf - Z.to_nat size < fuel)%nat -> options_loop fuel buf data_len size acc <> None.
Proof.
  induction fuel as [|fuel IH]; intros buf data_len size acc Hb Hs Hf; [lia|]. cbn [options_loop].
  destruct (size <? data_len); [|done]. destruct (unpack_from "!B" _ 0) as [vs|x] eqn:Ev; [|done].
  fmt_eval. pose proof (Forall_drop _ (Z.to_nat size) _ Hb) as Hd.
  apply byte_field in Ev as (Hl & -> & _); [|done]. rewrite length_drop in Hl. cbn in Hl.
  cbn [unpack_codes f_codes f_order]. case_match; [apply IH; [done|lia|lia]|].
  destruct (option_parser _) as [o|] eqn:Eo; [|done]. apply option_parser_len in Eo; [|done].
  apply IH; [done|lia|lia].
Qed.

Lemma route_loop_total fuel : forall buf cmpi data stop acc, cmpi < 16 -> 0 <= data ->
  (length buf - Z.to_nat data < fuel)%nat -> route_loop fuel buf cmpi data stop acc <> None.
Proof.
  induction fuel as [|fuel IH]; intros buf cmpi data stop acc Hc Hd Hf; [lia|]. cbn [route_loop].
  destruct (data <? stop); [|done]. destruct (unpack_str _ _ _) as [b|] eqn:E; [|done]. cbn [mbind res_bind].
  apply unpack_str_length in E as [_ E]. rewrite length_drop in E.
  destruct (bin_to_text _ _); [|done]. apply IH; [done|lia|lia].
Qed.

(** A parser that returns: what it takes for a header is not empty. *)
Definition advances (buf : bytes) (r : Datatypes.option (res (Datatypes.option header))) : Prop :=
  r <> None /\ forall h, r = Some (Ok (Some h)) -> 8 <= header_len h /\ (0 < length buf)%nat.

Lemma routing_advances buf : bytes_ok buf -> advances buf (routing_parser buf).
Proof.
  intros Hb. unfold routing_parser. destruct (unpack_from "!B" buf 2) as [vs|] eqn:Ev; [|by split].
  fmt_eval. apply byte_field in Ev as (Hl & -> & _); [|done]. cbn [unpack_codes f_codes f_order].
  cbn in Hl. case_match; [|by split]. unfold routing_type3_parser.
  destruct (unpack_from "!BBBBBB2x" buf 0) as [vs|] eqn:Ew; [|by split].
  fmt_eval. apply byte_field in Ew as (_ & -> & Hd); [|done]. cbn [unpack_codes f_codes f_order].
  set (size := decode Big (take 1 (drop 1 (drop 0 buf)))).
  assert (0 <= size) by (apply decode_byte; by apply Forall_drop).
  destruct (size =? 0); [split; [done|]; intros h [= <-]; cbn [new_routing_type3 header_len]; lia|].
  set (cmp := decode Big (take 1 _)).
  assert (0 <= cmp < 256) by (apply decode_small; by repeat apply Forall_drop).
  destruct (route_loop _ _ _ _ _ _) as [r|] eqn:Er.
  - split; [done|]. intros h [= E]. apply bind_Ok in E as (h0 & E & [= ->]).
    apply bind_Ok in E as ([adrs data] & _ & E). apply bind_Ok in E as (adr & _ & E).
    apply bind_Ok in E as (t & _ & [= <-]). cbn [new_routing_type3 header_len]. lia.
  - exfalso. revert Er. apply route_loop_total; [|lia|lia]. rewrite Z.shiftr_div_pow2 by lia. lia.
Qed.

Lemma ext_advances c buf : bytes_ok buf -> advances buf (ext_parser c buf).
Proof.
  intros Hb. destruct c as [k| | |]; cbn [ext_parser]; [|by apply routing_advances| |].
  - unfold opt_header_parser. destruct (unpack_from "!BB" buf 0) as [vs|] eqn:Ev; [|by split]. fmt_eval.
    apply byte_field in Ev as (Hl & -> & Hd); [|done]. cbn [unpack_codes f_codes f_order]. cbn in Hl.
    pose proof (decode_byte 1 (drop 1 (drop 0 buf)) ltac:(by apply Forall_drop)) as Hge.
    destruct (options_loop _ _ _ _ _) as [r|] eqn:Er; [|exfalso; revert Er; apply options_loop_total; [done|lia|lia]].
    split; [done|]. intros h [= E]. apply bind_Ok in E as (h0 & E & [= ->]).
    apply bind_Ok in E as (data & _ & E). apply bind_Ok in E as (? & _ & [= <-]). cbn [header_len decode] in Hge |- *. lia.
  - split; [done|]. intros h [= E]. apply bind_Ok in E as (h0 & E & [= ->]). unfold fragment_parser in E. fmt_eval.
    apply bind_Ok in E as (vs & Ev & E). apply byte_field in Ev as (Hl & -> & _); [|done].
    cbn [unpack_codes f_codes f_order] in E. injection E as <-. cbn in Hl |- *. lia.
  - split; [done|]. intros h [= E]. apply bind_Ok in E as (h0 & E & [= ->]). unfold auth_parser in E. fmt_eval.
    apply bind_Ok in E as (vs & Ev & E). apply byte_field in Ev as (Hl & -> & _); [|done].
    cbn [unpack_codes f_codes f_order] in E. apply bind_Ok in E as (data & Hd & [= <-]).
    apply unpack_str_length in Hd as [Hd _]. cbn in Hl. cbn [header_len decode] in Hd |- *. lia.
Qed.

Lemma ext_loop_total fuel : forall buf offset last acc, bytes_ok buf -> 0 <= offset ->
  (length buf - Z.to_nat offset < fuel)%nat -> ext_loop fuel buf offset last acc <> None.
Proof.
  induction fuel as [|fuel IH]; intros buf offset last acc Hb Ho Hf; [lia|]. cbn [ext_loop].
  destruct (ext_header_type last) as [c|]; [|done].
  destruct (ext_advances c (drop (Z.to_nat offset) buf)) as [Hn Ha]; [by apply Forall_drop|].
  destruct (ext_parser _ _) as [[[h|]|x]|]; try done. destruct (Ha h eq_refl) as [H8 Hl].
  rewrite length_drop in Hl. apply IH; [done|lia|lia].
Qed.

End Facts.
End Ipv6.

(** ** Claims *)

Module Ipv6Claims.
Import Ipv6.

Lemma ip6_first_word v t f : 0 <= v < 16 -> 0 <= t < 256 -> 0 <= f < 2 ^ 20 ->
  let x := Z.lor (Z.lor (Z.shiftl v 28) (Z.shiftl t 20)) f in
  Z.shiftr x 28 = v /\ Z.land (Z.shiftr x 20) 0xff = t /\ Z.land x 0xfffff = f.
Proof.
  intros Hv Ht Hf x. assert (E : x = (v * 256 + t) * 2 ^ 20 + f).
  { unfold x. rewrite lor_shiftl_add by (rewrite ?Z.shiftl_mul_pow2; lia).
    rewrite (lor_low _ f 20) by (rewrite ?Z.shiftl_mul_pow2; lia). rewrite Z.shiftl_mul_pow2 by lia. lia. }
  rewrite E, (land_mask _ 8 0xff), (land_mask _ 20 0xfffff), !Z.shiftr_div_pow2 by (done || lia).
  change (2 ^ 28) with 268435456. change (2 ^ 20) with 1048576 in *. change (2 ^ 8) with 256. lia.
Qed.

Section Claims.
Context `{C : AddrConv} `{!AddrConvLaws C}.


(** C32: The parser ends on every packet: every header of the chain and every option takes
    at least one byte of it. *)
Theorem ipv6_parser_total (buf : bytes) (Hb : bytes_ok buf) : exists r, parser buf = Some r.
Proof.
  unfold parser. destruct (unpack_from _PACK_STR buf 0) as [vs|x] eqn:E; [|by eexists].
  unfold _PACK_STR in E. fmt_eval. apply byte_field in E as (_ & -> & _); [|done]. cbn [unpack_codes f_codes f_order].
  destruct (ext_loop _ _ _ _ _) as [r|] eqn:Er; [by eexists|].
  exfalso. revert Er. apply ext_loop_total; [done|by apply Z.leb_le|lia].
Qed.

(** A routing header of any type but the one with a class ends the decoding of the whole
    packet with [TypeError]. *)
Theorem other_routing_raises (fixed rest : bytes) (v pl hlim ty : Z) (s d : bytes)
    (Hf : fpack fmt40 [VInt v; VInt pl; VInt IPPROTO_ROUTING; VInt hlim; VBytes s; VBytes d] = Ok fixed)
    (Ht : rest !! 2%nat = Some ty) (Hne : ty <> 3) :
  parser (fixed ++ rest) = Some (Err TypeError).
Proof.
  unfold parser. fmt_eval. change (Format Big _) with fmt40. rewrite (unpack_from_pack0 _ _ _ _ Hf).
  cbn [fit_args f_codes fmt40]. pose proof (fpack_length _ _ _ Hf) as Lf. change (fmt_size fmt40) with 40%nat in Lf.
  cbn [ext_loop]. change (ext_header_type IPPROTO_ROUTING) with (Some Erouting). cbn [ext_parser].
  change (Z.to_nat (Z.of_nat _MIN_LEN)) with 40%nat. rewrite drop_app_length' by done.
  destruct rest as [|a [|b [|ty' rest]]]; try done. injection Ht as ->.
  unfold routing_parser. fmt_eval. unfold funpack_from. cbn [fmt_size f_codes codes_size foldr code_size length].
  rewrite (proj2 (Nat.leb_le _ _)) by lia. cbn [drop unpack_codes f_order f_codes take decode be_decode foldl].
  change (take 0 rest) with (@nil Z). cbn [foldl]. by rewrite (proj2 (Z.eqb_neq _ _)) by lia.
Qed.

(** The length octet of an options header counts units of eight bytes in RFC 2460; the
    code takes it for a number of bytes and asserts a multiple of eight, so that no
    header whose octet is between one and seven is accepted. *)
Theorem short_options_rejected (k : opt_kind) (rest : bytes) (n l : Z)
    (Hb : bytes_ok (n :: l :: rest)) (Hl : 0 < l < 8) :
  exists x, opt_header_parser k (n :: l :: rest) = Some (Err x).
Proof.
  unfold opt_header_parser. fmt_eval. unfold funpack_from. cbn [fmt_size f_codes codes_size foldr code_size length Nat.add Nat.leb].
  cbn [drop unpack_codes f_order f_codes take decode be_decode foldl].
  change (take 0 rest) with (@nil Z). cbn [foldl].
  destruct (options_loop _ _ _ _ _) as [r|] eqn:E; [|exfalso; revert E; apply options_loop_total; [done|lia|cbn [length]; lia]].
  destruct r as [data|x]; [|by exists x]. cbn [mbind res_bind]. unfold new_opt_header.
  rewrite (proj2 (Z.eqb_neq _ _)) by lia. by exists AssertionError.
Qed.

End Claims.

(** A packet with a hop-by-hop header, a source route of two addresses and a fragment
    header in front of a datagram, followed by eight bytes that do not belong to it. *)
Definition adr (n : Z) : string := RawConv.to_string (replicate 15 0 ++ [n]).

Definition sample : ipv6 :=
  Mk 6 0xc0 5 0 IPPROTO_HOPOPTS 255 (adr 1) (adr 2)
    [OptHeader Hop IPPROTO_ROUTING 0 None;
     @new_routing_type3 IPPROTO_FRAGMENT 0 3 1 8 8 [adr 3; adr 4];
     Fragment IPPROTO_UDP 7 1 99].


Lemma ipv6_parser_total_witness : exists r, @parser RawConv.conv (replicate 60 0) = Some r.
Proof. apply (ipv6_parser_total (C := RawConv.conv)). apply Forall_replicate. unfold byte_ok; lia. Defined.

Lemma other_routing_raises_witness : exists fixed,
  @parser RawConv.conv (fixed ++ [17; 0; 0; 0; 0; 0; 0; 0]) = Some (Err TypeError).
Proof.
  eexists. refine (other_routing_raises (C := RawConv.conv) _ [17; 0; 0; 0; 0; 0; 0; 0] 0 8 255 0
    (replicate 16 0) (replicate 16 0) _ _ _); [vm_compute; reflexivity|reflexivity|lia].
Defined.

Lemma short_options_rejected_witness : exists x,
  opt_header_parser Hop (17 :: 1 :: replicate 14 1) = Some (Err x).
Proof. apply short_options_rejected; [solve_bytes_ok|lia]. Defined.

End Ipv6Claims.
