(* ===== verification/VrrpPkt.v ===== *)
(** * VRRP advertisements (ryu/lib/packet/vrrp.py)

    The header class of VRRP versions 2 and 3 with its codec, checksums and checks,
    and the packets around it.  [with_vrrp] adds IPv6 and VRRP to the header classes a
    packet is decoded with.  Intervals are exact rationals of seconds. *)

From Stdlib Require Import ZArith QArith Lia.
From stdpp Require Import base list gmap strings numbers.
From S2P Require Import Prelude Struct PktUtils PktHeaders PktTransport Packet Ident Ipv6.

#[local] Open Scope Z_scope.
Local Ltac Zify.zify_post_hook ::= Z.div_mod_to_equations.

Module Vrrp.

Definition VRRP_IPV4_DST_MAC_ADDRESS : string := "01:00:5E:00:00:12".
Definition VRRP_IPV4_DST_ADDRESS : string := "224.0.0.18".
Definition VRRP_IPV4_TTL : Z := 255.
Definition VRRP_IPV6_DST_MAC_ADDRESS : string := "33:33:00:00:00:12".
Definition VRRP_IPV6_DST_ADDRESS : string := "ff02::12".
Definition VRRP_IPV6_HOP_LIMIT : Z := 255.

Definition vrrp_ipv4_src_mac_address (vrid : Z) : string :=
  "00:00:5E:00:01:" +:+ RawConv.to_string (Hex.format_0x 2 vrid).
Definition vrrp_ipv6_src_mac_address (vrid : Z) : string :=
  "00:00:5E:00:02:" +:+ RawConv.to_string (Hex.format_0x 2 vrid).

Definition vrrp_from_version_type (version_type : Z) : Z * Z :=
  (Z.shiftr version_type 4, Z.land version_type 0xf).
Definition vrrp_to_version_type (version type_ : Z) : Z := Z.lor (Z.shiftl version 4) type_.

Definition VRRP_VERSION_V2 : Z := 2.
Definition VRRP_VERSION_V3 : Z := 3.
Definition VRRP_TYPE_ADVERTISEMENT : Z := 1.
Definition VRRP_PRIORITY_RELEASE_RESPONSIBILITY : Z := 0.
Definition VRRP_PRIORITY_BACKUP_DEFAULT : Z := 100.
Definition VRRP_PRIORITY_ADDRESS_OWNER : Z := 255.
Definition VRRP_AUTH_NO_AUTH : Z := 0.
Definition VRRP_AUTH_DATA : Z * Z := (0, 0).
Definition VRRP_V3_MAX_ADVER_INT_MASK : Z := 0xfff.

(** The classes registered for the versions, and their units per second. *)
Definition _SEC_IN_MAX_ADVER_INT_UNIT (version : Z) : res positive :=
  if version =? VRRP_VERSION_V2 then Ok 1%positive
  else if version =? VRRP_VERSION_V3 then Ok 100%positive
  else Err KeyError.

Definition known_version (version : Z) : bool := (version =? VRRP_VERSION_V2) || (version =? VRRP_VERSION_V3).

(** [int(seconds * unit)] truncates; [float(n) / unit] does not. *)
Definition sec_to_max_adver_int (version : Z) (seconds : Q) : res Z :=
  u ← _SEC_IN_MAX_ADVER_INT_UNIT version;
  Ok (Z.quot (Qnum seconds * Zpos u) (Zpos (Qden seconds))).

Definition max_adver_int_to_sec (version max_adver_int : Z) : res Q :=
  u ← _SEC_IN_MAX_ADVER_INT_UNIT version; Ok (max_adver_int # u).

Record vrrp := Mk {
  version : Z; type_ : Z; vrid : Z; priority : Z; count_ip : Z; max_adver_int : Z;
  checksum : option Z; ip_addresses : list string;
  auth_type : option Z; auth_data : option (Z * Z); _is_ipv6 : bool; identification : Z }.

Definition with_checksum (v : vrrp) (c : option Z) : vrrp :=
  Mk (version v) (type_ v) (vrid v) (priority v) (count_ip v) (max_adver_int v) c (ip_addresses v)
     (auth_type v) (auth_data v) (_is_ipv6 v) (identification v).
Definition with_auth (v : vrrp) (t : Z) (d : Z * Z) : vrrp :=
  Mk (version v) (type_ v) (vrid v) (priority v) (count_ip v) (max_adver_int v) (checksum v) (ip_addresses v)
     (Some t) (Some d) (_is_ipv6 v) (identification v).
Definition with_identification (v : vrrp) (i : Z) : vrrp :=
  Mk (version v) (type_ v) (vrid v) (priority v) (count_ip v) (max_adver_int v) (checksum v) (ip_addresses v)
     (auth_type v) (auth_data v) (_is_ipv6 v) i.

Section Vrrp.
Context `{C : AddrConv} (e : endian).

(** Whatever the conversion of an IPv4 address raises makes it an IPv6 address. *)
Definition is_ipv6 (ip_address : string) : res bool :=
  match text_to_bin IPV4 ip_address with
  | Ok _ => Ok false
  | Err _ => text_to_bin IPV6 ip_address ;; Ok true
  end.

Definition ip_text_to_bin (ip_text : string) : res bytes :=
  b ← is_ipv6 ip_text;
  text_to_bin (if b : bool then IPV6 else IPV4) ip_text.

(** [<] on byte strings *)
Fixpoint bytes_lt (a b : bytes) : bool :=
  match a, b with
  | _, [] => false
  | [], _ => true
  | x :: a, y :: b => (x <? y) || ((x =? y) && bytes_lt a b)
  end.

Definition ip_address_lt (ip1 ip2 : string) : res bool :=
  a ← ip_text_to_bin ip1; b ← ip_text_to_bin ip2; Ok (bytes_lt a b).

(** The constructor *)
Definition new (version type_ vrid priority count_ip max_adver_int : Z) (checksum : option Z)
    (ip_addresses : list string) (auth_type : option Z) (auth_data : option (Z * Z)) : res vrrp :=
  py_assert (Z.of_nat (length ip_addresses) =? count_ip) ;;
  a ← or_raise IndexError (head ip_addresses);
  v6 ← is_ipv6 a;
  Ok (Mk version type_ vrid priority count_ip max_adver_int checksum ip_addresses auth_type auth_data v6 0).

(** A missing interval calls [sec_to_max_adver_int] without the version. *)
Definition create_version (version type_ vrid : Z) (priority max_adver_int : option Z)
    (ip_addresses : list string) (auth_type : option Z) (auth_data : option (Z * Z)) : res vrrp :=
  if known_version version then
    n ← or_raise TypeError max_adver_int;
    new version type_ vrid (default VRRP_PRIORITY_BACKUP_DEFAULT priority)
      (Z.of_nat (length ip_addresses)) n None ip_addresses auth_type auth_data
  else Err ValueError.

(** [create] of the class of a version *)
Definition create (version type_ vrid priority max_adver_int : Z) (ip_addresses : list string) : res vrrp :=
  if version =? VRRP_VERSION_V2
  then create_version version type_ vrid (Some priority) (Some max_adver_int) ip_addresses
         (Some VRRP_AUTH_NO_AUTH) (Some VRRP_AUTH_DATA)
  else create_version version type_ vrid (Some priority) (Some max_adver_int) ip_addresses None None.

Definition get_identification (v : vrrp) : Z * vrrp :=
  let i := Z.land (identification v + 1) 0xffff in
  let i := if i =? 0 then Z.land (i + 1) 0xffff else i in
  (i, with_identification v i).

Definition vrrp_len (v : vrrp) : res Z :=
  if version v =? VRRP_VERSION_V2 then Ok (8 + 4 * count_ip v + 8)
  else if version v =? VRRP_VERSION_V3
  then Ok (8 + (if _is_ipv6 v then 16 else 4) * count_ip v)
  else Err KeyError.

Definition max_adver_int_in_sec (v : vrrp) : res Q := max_adver_int_to_sec (version v) (max_adver_int v).

(** ** Decoding *)

Definition address_fmt (len : nat) (count : Z) : format := Format Big (replicate (Z.to_nat count) (Fs len)).

Definition address_texts (k : akind) (vs : list pyval) : res (list string) :=
  mapM_res (fun v => match v with VBytes b => bin_to_text k b | VInt _ => Err ValueError end) vs.

Definition vrrpv2_parser (buf : bytes) : res (vrrp * option pcls * bytes) :=
  vs ← unpack_from "!BBBBBBH" buf 0;
  match vs with
  | [VInt version_type; VInt vrid; VInt priority; VInt count_ip; VInt auth_type; VInt adver_int; VInt checksum] =>
      let '(version, type_) := vrrp_from_version_type version_type in
      let f := address_fmt 4 count_ip in
      bins ← funpack_from f buf 8;
      ip_addresses ← address_texts IPV4 bins;
      ws ← unpack_from "!II" buf (8 + fmt_size f);
      match ws with
      | [VInt a1; VInt a2] =>
          msg ← new version type_ vrid priority count_ip adver_int (Some checksum) ip_addresses
                    (Some auth_type) (Some (a1, a2));
          n ← vrrp_len msg;
          Ok (msg, None, drop (Z.to_nat n) buf)
      | _ => Err ValueError
      end
  | _ => Err ValueError
  end.

Definition vrrpv3_parser (buf : bytes) : res (vrrp * option pcls * bytes) :=
  vs ← unpack_from "!BBBBHH" buf 0;
  match vs with
  | [VInt version_type; VInt vrid; VInt priority; VInt count_ip; VInt max_adver_int; VInt checksum] =>
      let '(version, type_) := vrrp_from_version_type version_type in
      let max_adver_int := Z.land max_adver_int VRRP_V3_MAX_ADVER_INT_MASK in
      if count_ip =? 0 then Err ZeroDivisionError else
      let address_len := (Z.of_nat (length buf) - 8) / count_ip in
      kind ← (if address_len =? 4 then Ok IPV4 else if address_len =? 16 then Ok IPV6 else Err ValueError);
      bins ← funpack_from (address_fmt (alen kind) count_ip) buf 8;
      ip_addresses ← address_texts kind bins;
      msg ← new version type_ vrid priority count_ip max_adver_int (Some checksum) ip_addresses None None;
      n ← vrrp_len msg;
      Ok (msg, None, drop (Z.to_nat n) buf)
  | _ => Err ValueError
  end.

Definition parser (buf : bytes) : res (vrrp * option pcls * bytes) :=
  vs ← unpack_from "!B" buf 0;
  match vs with
  | [VInt version_type] =>
      let '(version, _) := vrrp_from_version_type version_type in
      if version =? VRRP_VERSION_V2 then vrrpv2_parser buf
      else if version =? VRRP_VERSION_V3 then vrrpv3_parser buf
      else Err KeyError
  | _ => Err ValueError
  end.

(** ** Encoding *)

Definition address_bins (k : akind) (v : vrrp) : res (list pyval) :=
  bs ← mapM_res (text_to_bin k) (ip_addresses v); Ok (List.map VBytes bs).

Definition vrrpv2_serialize (v : vrrp) : res (bytes * vrrp) :=
  py_assert (negb (_is_ipv6 v)) ;;
  let f := address_fmt 4 (count_ip v) in
  let v0 := with_auth v (default VRRP_AUTH_NO_AUTH (auth_type v)) (default VRRP_AUTH_DATA (auth_data v)) in
  let auth_type := default VRRP_AUTH_NO_AUTH (auth_type v) in
  let auth_data := default VRRP_AUTH_DATA (auth_data v) in
  let buf := replicate (8 + fmt_size f + 8) 0 in
  buf ← pack_into "!BBBBBBH" buf 0
    [VInt (vrrp_to_version_type (version v) (type_ v)); VInt (vrid v); VInt (priority v);
     VInt (count_ip v); VInt auth_type; VInt (max_adver_int v); VInt (default 0 (checksum v))];
  bins ← address_bins IPV4 v;
  buf ← fpack_into f buf 8 bins;
  buf ← pack_into "!II" buf (8 + fmt_size f) [VInt auth_data.1; VInt auth_data.2];
  match checksum v with
  | None =>
      let c := PktUtils.checksum e buf in
      buf ← pack_into "!H" buf 6 [VInt c];
      Ok (buf, with_checksum v0 (Some c))
  | Some _ => Ok (buf, v0)
  end.

(** Of the attributes read of an outer header, [version] with [proto] are those of IPv4
    and [nxt] is one of IPv6: what the [isinstance] tests distinguish. *)
Definition ip_kind (prev : option outer) : option akind :=
  match prev with
  | Some o => match o_version o, o_proto o, o_nxt o with
              | Some _, Some _, _ => Some IPV4
              | Some _, _, Some _ => Some IPV6
              | _, _, _ => None
              end
  | None => None
  end.

Definition vrrpv3_serialize (v : vrrp) (prev : option outer) : res (bytes * vrrp) :=
  match prev, ip_kind prev with
  | Some p, Some k =>
      or_raise IndexError (head (ip_addresses v)) ;;
      let f := address_fmt (alen k) (count_ip v) in
      let buf := replicate (8 + fmt_size f) 0 in
      py_assert (max_adver_int v <=? VRRP_V3_MAX_ADVER_INT_MASK) ;;
      buf ← pack_into "!BBBBHH" buf 0
        [VInt (vrrp_to_version_type (version v) (type_ v)); VInt (vrid v); VInt (priority v);
         VInt (count_ip v); VInt (max_adver_int v); VInt (default 0 (checksum v))];
      bins ← address_bins k v;
      buf ← fpack_into f buf 8 bins;
      match checksum v with
      | None =>
          c ← checksum_ip e p (Z.of_nat (length buf)) buf;
          buf ← pack_into "!H" buf 6 [VInt c];
          Ok (buf, with_checksum v (Some c))
      | Some _ => Ok (buf, v)
      end
  | _, _ => Err ValueError
  end.

Definition serialize (v : vrrp) (prev : option outer) : res (bytes * vrrp) :=
  if version v =? VRRP_VERSION_V2 then vrrpv2_serialize v
  else if version v =? VRRP_VERSION_V3 then vrrpv3_serialize v prev
  else Err KeyError.

(** ** Checks *)

Definition in_range (x lo hi : Z) : bool := (lo <=? x) && (x <=? hi).

Definition is_valid (v : vrrp) : bool :=
  if version v =? VRRP_VERSION_V2 then
    (type_ v =? VRRP_TYPE_ADVERTISEMENT) && in_range (vrid v) 1 255 && in_range (priority v) 0 255
    && bool_decide (auth_type v = Some VRRP_AUTH_NO_AUTH)
    && in_range (max_adver_int v) 1 0xff && (count_ip v =? Z.of_nat (length (ip_addresses v)))
  else if version v =? VRRP_VERSION_V3 then
    (type_ v =? VRRP_TYPE_ADVERTISEMENT) && in_range (vrid v) 1 255 && in_range (priority v) 0 255
    && in_range (max_adver_int v) 1 0xfff && (count_ip v =? Z.of_nat (length (ip_addresses v)))
  else false.

Definition checksum_ok (v : vrrp) (ipvx : outer) (vrrp_buf : bytes) : res bool :=
  if version v =? VRRP_VERSION_V2 then Ok (PktUtils.checksum e vrrp_buf =? 0)
  else if version v =? VRRP_VERSION_V3 then
    n ← vrrp_len v; c ← checksum_ip e ipvx n vrrp_buf; Ok (c =? 0)
  else Err KeyError.

End Vrrp.

(** ** Packets with IPv6 and VRRP *)

Inductive net_obj (X : Others) := Nbase (o : obj X) | Nipv6 (h : Ipv6.ipv6) | Nvrrp (v : vrrp).
Arguments Nbase {X}. Arguments Nipv6 {X}. Arguments Nvrrp {X}.

Section Packets.
Context `{C : AddrConv} (e : endian) (X : Others).

Definition ipv6_outer (h : Ipv6.ipv6) : outer :=
  Outer (Some (Ipv6.version h)) (Some (Ipv6.src h)) (Some (Ipv6.dst h)) None (Some (Ipv6.nxt h)).

Definition with_vrrp : Others := {|
  obj := net_obj X;
  other_parser c buf :=
    if decide (c = Cipv6) then
      match Ipv6.parser buf with
      | None => None
      | Some r => Some ('(h, c, rest) ← r; Ok (Nipv6 h, c, Some rest))
      end
    else if decide (c = Cvrrp) then Some ('(v, c, rest) ← parser buf; Ok (Nvrrp v, c, Some rest))
    else match other_parser X c buf with
         | None => None
         | Some r => Some ('(o, c, rest) ← r; Ok (Nbase o, c, rest))
         end;
  other_serialize o payload prev :=
    match o with
    | Nbase o => '(w, o) ← other_serialize X o payload prev; Ok (w, Nbase o)
    | Nipv6 h => '(w, h) ← Ipv6.serialize h payload; Ok (w, Nipv6 h)
    | Nvrrp v => '(w, v) ← serialize e v prev; Ok (w, Nvrrp v)
    end;
  other_len o :=
    match o with
    | Nbase o => other_len X o
    | Nipv6 h => Ok (Ipv6.ipv6_len h)
    | Nvrrp v => vrrp_len v
    end;
  other_cls o := match o with Nbase o => other_cls X o | Nipv6 _ => Cipv6 | Nvrrp _ => Cvrrp end;
  other_outer o :=
    match o with
    | Nbase o => other_outer X o
    | Nipv6 h => ipv6_outer h
    | Nvrrp v => Outer (Some (version v)) None None None None
    end |}.

Abbreviation vitem := (item with_vrrp).
Definition hvrrp (v : vrrp) : vitem := Header (@Pother with_vrrp (Nvrrp v)).
Definition hipv6 (h : Ipv6.ipv6) : vitem := Header (@Pother with_vrrp (Nipv6 h)).

(** [create_packet]: the headers around an advertisement, and the object with its new
    identification. *)
Definition create_packet (v : vrrp) (primary_ip_address : string) (vlan_id : option Z) : res (list vitem * vrrp) :=
  '(eth, etype, ip, v) ←
    (if _is_ipv6 v then
      n ← vrrp_len v;
      Ok (Ethernet.Mk VRRP_IPV6_DST_MAC_ADDRESS (vrrp_ipv6_src_mac_address (vrid v)), ETH_TYPE_IPV6,
          hipv6 (Ipv6.Mk 6 0xc0 0 (Z.of_nat Ipv6._MIN_LEN + n) IPPROTO_VRRP VRRP_IPV6_HOP_LIMIT
                   primary_ip_address VRRP_IPV6_DST_ADDRESS []), v)
    else
      let '(i, v) := get_identification v in
      Ok (Ethernet.Mk VRRP_IPV4_DST_MAC_ADDRESS (vrrp_ipv4_src_mac_address (vrid v)), ETH_TYPE_IP,
          Header (Pipv4 (Ipv4.Mk 4 (Z.of_nat Ipv4._MIN_LEN / 4) 0xc0 0 i 0 0 VRRP_IPV4_TTL IPPROTO_VRRP 0
                   primary_ip_address VRRP_IPV4_DST_ADDRESS None)), v));
  Ok (match vlan_id with
      | Some vid => [Header (Peth (eth ETH_TYPE_8021Q)); Header (Pvlan (Vlan.Mk 0 0 vid etype)); ip; hvrrp v]
      | None => [Header (Peth (eth etype)); ip; hvrrp v]
      end, v).

(** The network header of a packet, of one of the two classes. *)
Inductive ip_header := Ip4 (h : Ipv4.ipv4) | Ip6 (h : Ipv6.ipv6).

Definition ip_of (i : vitem) : option ip_header :=
  match i with
  | Header (Pipv4 h) => Some (Ip4 h)
  | Header (Pother (Nipv6 h)) => Some (Ip6 h)
  | _ => None
  end.

Definition vrrp_of (i : vitem) : option vrrp :=
  match i with Header (Pother (Nvrrp v)) => Some v | _ => None end.

(** [create_packet] followed by [Packet.serialize] *)
Definition packet_data (v : vrrp) (primary_ip_address : string) (vlan_id : option Z) : res (bytes * vrrp) :=
  '(p, _) ← create_packet v primary_ip_address vlan_id;
  '(data, p) ← Packet.serialize e with_vrrp p;
  v ← or_raise TypeError (list.last p ≫= vrrp_of);
  Ok (data, v).

(** [get_payload] looks at the first network header only; [break] in [finally] discards
    the [IndexError] of a packet that ends there.  Both objects must be true. *)
Fixpoint get_payload (l : list vitem) : res (option (ip_header * vrrp)) :=
  match l with
  | [] => Ok None
  | i :: l =>
      match ip_of i with
      | None => get_payload l
      | Some ip =>
          match head l ≫= vrrp_of with
          | None => Ok None
          | Some v =>
              let n := match ip with Ip4 h => Ipv4.header_length h * 4 | Ip6 h => Ipv6.ipv6_len h end in
              if n =? 0 then Ok None else
              m ← vrrp_len v;
              Ok (if m =? 0 then None else Some (ip, v))
          end
      end
  end.

(** [is_valid_ttl]: the version is the one of the header, whatever its class. *)
Definition is_valid_ttl (ip : ip_header) : res bool :=
  let v := match ip with Ip4 h => Ipv4.version h | Ip6 h => Ipv6.version h end in
  if v =? 4 then
    match ip with Ip4 h => Ok (Ipv4.ttl h =? VRRP_IPV4_TTL) | Ip6 _ => Err AttributeError end
  else if v =? 6 then
    match ip with Ip6 h => Ok (Ipv6.hop_limit h =? VRRP_IPV6_HOP_LIMIT) | Ip4 _ => Err AttributeError end
  else Err ValueError.

Definition ip_src (ip : ip_header) : string := match ip with Ip4 h => Ipv4.src h | Ip6 h => Ipv6.src h end.
Definition ip_outer (ip : ip_header) : outer :=
  match ip with
  | Ip4 h => outer_of with_vrrp (Header (Pipv4 h))
  | Ip6 h => ipv6_outer h
  end.

End Packets.
End Vrrp.

(** ** What is written is read back *)

Module VrrpFacts.
Import Vrrp.

Lemma into_inv f off pre old post args r : fpack_into f (pre ++ old ++ post) off args = Ok r ->
  off = length pre -> length old = fmt_size f -> exists bs, fpack f args = Ok bs /\ r = pre ++ bs ++ post.
Proof. intros H ->. by apply Tcp.fpack_into_inv. Qed.

Lemma address_size n c : fmt_size (address_fmt n c) = (Z.to_nat c * n)%nat.
Proof.
  unfold fmt_size, address_fmt. cbn [f_codes]. induction (Z.to_nat c) as [|m IH]; [done|].
  cbn [replicate codes_size foldr code_size]. unfold codes_size in IH. lia.
Qed.

Lemma pack_addresses n bs : Forall (fun b => length b = n) bs ->
  pack_codes Big (replicate (length bs) (Fs n)) (List.map VBytes bs) = Ok (concat bs)
  /\ fit_args (replicate (length bs) (Fs n)) (List.map VBytes bs) = List.map VBytes bs.
Proof.
  induction 1 as [|b bs Hb _ [IH1 IH2]]; [done|]. cbn [length replicate List.map pack_codes fit_args concat].
  rewrite IH1, IH2. by rewrite resize_all_alt.
Qed.

Section Facts.
Context `{C : AddrConv} `{!AddrConvLaws C} (e : endian).

Lemma addresses_wire k l bins : Forall (canonical k) l ->
  (bs ← mapM_res (text_to_bin k) l; Ok (List.map VBytes bs)) = Ok bins ->
  let f := address_fmt (alen k) (Z.of_nat (length l)) in
  exists w, fpack f bins = Ok w /\ length w = (length l * alen k)%nat /\ bytes_ok w
    /\ (forall pre rest, funpack_from f (pre ++ w ++ rest) (length pre) = Ok bins)
    /\ address_texts k bins = Ok l.
Proof.
  intros Hc H f. apply bind_Ok in H as (bs & Hbs & [= <-]).
  assert (Hall : Forall (fun b => length b = alen k) bs /\ bytes_ok (concat bs)
                 /\ address_texts k (List.map VBytes bs) = Ok l).
  { revert bs Hbs. induction Hc as [|t l Ht _ IH]; intros bs Hbs; [by injection Hbs as <-|].
    cbn [mapM_res] in Hbs. apply bind_Ok in Hbs as (b & Hb & Hbs). apply bind_Ok in Hbs as (bs' & Hbs & [= <-]).
    destruct (canonical_bin _ _ _ Ht Hb) as (Tb & Lb & Ob). destruct (IH _ Hbs) as (H1 & H2 & H3).
    split; [by constructor|]. split; [by apply Forall_app|]. unfold address_texts in *. cbn [List.map mapM_res].
    rewrite Tb. cbn [mbind res_bind]. by rewrite H3. }
  destruct Hall as (Hl & Hb & Ht). destruct (pack_addresses _ _ Hl) as [E1 E2].
  pose proof (mapM_res_length _ _ _ Hbs) as L. exists (concat bs).
  assert (Ef : f = Format Big (replicate (length bs) (Fs (alen k))))
    by (unfold f, address_fmt; by rewrite Nat2Z.id, L).
  rewrite Ef. split; [done|]. split; [|split; [done|split; [|done]]].
  - rewrite <- L. clear -Hl. induction Hl as [|b bs Hb _ IH]; [done|]. cbn [concat length]. rewrite length_app. lia.
  - intros pre rest.
    rewrite (unpack_from_pack (Format Big (replicate (length bs) (Fs (alen k)))) _ _ pre rest _ E1 eq_refl).
    cbn [f_codes]. by rewrite E2.
Qed.

Definition address_kind (v : vrrp) : akind := if _is_ipv6 v then IPV6 else IPV4.

(** An object as the constructors leave it, with addresses in printed form. *)
Definition wf (v : vrrp) : Prop :=
  (version v = VRRP_VERSION_V2 /\ default VRRP_AUTH_NO_AUTH (auth_type v) = VRRP_AUTH_NO_AUTH
     /\ default VRRP_AUTH_DATA (auth_data v) = VRRP_AUTH_DATA
   \/ version v = VRRP_VERSION_V3 /\ auth_type v = None /\ auth_data v = None)
  /\ 0 <= type_ v < 16 /\ count_ip v = Z.of_nat (length (ip_addresses v))
  /\ Forall (canonical (address_kind v)) (ip_addresses v)
  /\ exists a, head (ip_addresses v) = Some a /\ is_ipv6 a = Ok (_is_ipv6 v).

Lemma version_byte v t : 0 <= v < 16 -> 0 <= t < 16 ->
  vrrp_from_version_type (vrrp_to_version_type v t) = (v, t).
Proof.
  intros Hv Ht. unfold vrrp_from_version_type, vrrp_to_version_type. rewrite lor_shiftl_add by lia.
  rewrite (land_mask _ 4 0xf), Z.shiftr_div_pow2 by (done || lia). f_equal; lia.
Qed.

(** The fixed part of either version, with a given checksum at its end. *)
Definition fixed_fmt (v : vrrp) : format :=
  Format Big (if version v =? VRRP_VERSION_V2 then [Fi 1; Fi 1; Fi 1; Fi 1; Fi 1; Fi 1; Fi 2]
              else [Fi 1; Fi 1; Fi 1; Fi 1; Fi 2; Fi 2]).

Definition fixed_args (v : vrrp) (c : Z) : list pyval :=
  [VInt (vrrp_to_version_type (version v) (type_ v)); VInt (vrid v); VInt (priority v); VInt (count_ip v)]
  ++ (if version v =? VRRP_VERSION_V2 then [VInt (default VRRP_AUTH_NO_AUTH (auth_type v))] else [])
  ++ [VInt (max_adver_int v); VInt c].

Lemma advert_fixed_wire v c w : fpack (fixed_fmt v) (fixed_args v c) = Ok w ->
  exists pre, length pre = 6%nat /\ bytes_ok pre /\ w = pre ++ be_encode 2 c /\ 0 <= c < 65536
    /\ 0 <= count_ip v < 256 /\ 0 <= max_adver_int v
    /\ forall c', 0 <= c' < 65536 -> fpack (fixed_fmt v) (fixed_args v c') = Ok (pre ++ be_encode 2 c').
Proof.
  unfold fixed_fmt, fixed_args, fpack. destruct (version v =? VRRP_VERSION_V2); cbn [app f_codes f_order pack_codes];
    (destruct (in_width 1 (vrrp_to_version_type _ _)), (in_width 1 (vrid v)), (in_width 1 (priority v));
       cbn [mbind res_bind]; try discriminate);
    (destruct (in_width 1 (count_ip v)) eqn:Hc; [|discriminate]; apply in_width_iff in Hc);
    [destruct (in_width 1 (default _ _)), (in_width 1 (max_adver_int v)) eqn:Hm|destruct (in_width 2 (max_adver_int v)) eqn:Hm];
    cbn [mbind res_bind]; try discriminate; apply in_width_iff in Hm;
    (destruct (in_width 2 c) eqn:Hw; [|discriminate]); cbn [mbind res_bind encode]; intros [= <-];
    apply in_width_iff in Hw;
    [eexists (be_encode 1 _ ++ be_encode 1 _ ++ be_encode 1 _ ++ be_encode 1 _ ++ be_encode 1 _ ++ be_encode 1 _)
    |eexists (be_encode 1 _ ++ be_encode 1 _ ++ be_encode 1 _ ++ be_encode 1 _ ++ be_encode 2 _)];
    (split; [by autorewrite with beba|]; split; [auto 20 with beba|];
     split; [by rewrite <- !app_assoc, app_nil_r|]; split; [done|]; split; [done|]; split; [lia|];
     intros c' Hc'; rewrite in_width_2 by done; cbn [mbind res_bind]; by rewrite <- !app_assoc, app_nil_r).
Qed.

(** Reading the first byte selects the class. *)
Lemma version_dispatch v c w : 0 <= version v < 16 -> 0 <= type_ v < 16 ->
  fpack (fixed_fmt v) (fixed_args v c) = Ok w ->
  forall tail, parser (w ++ tail) = if version v =? VRRP_VERSION_V2 then vrrpv2_parser (w ++ tail)
    else if version v =? VRRP_VERSION_V3 then vrrpv3_parser (w ++ tail) else Err KeyError.
Proof.
  intros Hv Ht H tail.
  assert (exists r, in_width 1 (vrrp_to_version_type (version v) (type_ v)) = true
    /\ w = be_encode 1 (vrrp_to_version_type (version v) (type_ v)) ++ r) as (r & Hw & ->).
  { unfold fixed_fmt, fixed_args, fpack in H. cbn [f_codes f_order] in H.
    destruct (version v =? VRRP_VERSION_V2); cbn [app pack_codes] in H;
      (destruct (in_width 1 (vrrp_to_version_type _ _)); [|done]); apply bind_Ok in H as (r & _ & [= <-]); by exists r. }
  unfold parser. fmt_eval. rewrite <- app_assoc.
  rewrite (unpack_from_pack0 (Format Big [Fi 1]) [VInt (vrrp_to_version_type (version v) (type_ v))] (be_encode 1 _))
    by (unfold fpack; cbn; by rewrite Hw).
  cbn [mbind res_bind fit_args f_codes]. by rewrite version_byte.
Qed.

Lemma put_checksum pre c c' rest : length pre = 6%nat -> 0 <= c' < 65536 ->
  fpack_into (Format Big [Fi 2]) ((pre ++ be_encode 2 c) ++ rest) 6 [VInt c'] = Ok (pre ++ be_encode 2 c' ++ rest).
Proof.
  intros Hl Hc. rewrite <- app_assoc, <- Hl. apply Tcp.fpack_into_at; [|by rewrite be_encode_length].
  unfold fpack. cbn. by rewrite in_width_2, app_nil_r.
Qed.

(** Version 2 fills in the authentication it does not use. *)
Definition authenticated (v : vrrp) : vrrp :=
  if version v =? VRRP_VERSION_V2 then with_auth v VRRP_AUTH_NO_AUTH VRRP_AUTH_DATA else v.

(** The bytes of an advertisement and the object as it is left: the checksum is in
    place, and valid when it was to be computed. *)
Definition written (v : vrrp) (prev : option outer) (w : bytes) (v' : vrrp) : Prop :=
  exists pre c adr bins auth,
    v' = with_checksum (authenticated v) (Some c) /\ w = (pre ++ be_encode 2 c) ++ adr ++ auth /\ length pre = 6%nat
    /\ fpack (fixed_fmt v) (fixed_args v c) = Ok (pre ++ be_encode 2 c)
    /\ address_bins (address_kind v) v = Ok bins
    /\ fpack (address_fmt (alen (address_kind v)) (count_ip v)) bins = Ok adr
    /\ auth = (if version v =? VRRP_VERSION_V2 then replicate 8 0 else [])
    /\ (version v = VRRP_VERSION_V2 -> _is_ipv6 v = false)
    /\ (version v = VRRP_VERSION_V3 -> max_adver_int v <= VRRP_V3_MAX_ADVER_INT_MASK)
    /\ (checksum v = None -> forall p, (version v = VRRP_VERSION_V3 -> prev = Some p) -> checksum_ok e v' p w = Ok true)
    /\ default c (checksum v) = c.

Lemma adr_facts v bins adr : wf v -> address_bins (address_kind v) v = Ok bins ->
  fpack (address_fmt (alen (address_kind v)) (count_ip v)) bins = Ok adr ->
  bytes_ok adr /\ length adr = (Z.to_nat (count_ip v) * alen (address_kind v))%nat
  /\ (forall pre rest, funpack_from (address_fmt (alen (address_kind v)) (count_ip v)) (pre ++ adr ++ rest) (length pre) = Ok bins)
  /\ address_texts (address_kind v) bins = Ok (ip_addresses v).
Proof.
  intros (_ & _ & Hn & Hc & _) Hb H. destruct (addresses_wire _ _ _ Hc Hb) as (w & E & L & O & U & T).
  rewrite <- Hn in E, U. rewrite H in E. injection E as ->. rewrite Hn, Nat2Z.id. rewrite <- Hn. by repeat split.
Qed.

Lemma v2_written v w v' : wf v -> version v = VRRP_VERSION_V2 -> vrrpv2_serialize e v = Ok (w, v') ->
  forall prev, written v prev w v'.
Proof.
  intros Hwf0 Hv H prev. pose proof Hwf0 as ([(_ & Ha & Hd)|(E & _)] & _); [|by rewrite Hv in E].
  unfold vrrpv2_serialize in H. destruct (_is_ipv6 v) eqn:H6; [done|]. cbn [py_assert negb mbind res_bind] in H.
  rewrite Ha, Hd in H. cbn [fst snd VRRP_AUTH_DATA] in H. fmt_eval.
  assert (Hk : address_kind v = IPV4) by (unfold address_kind; by rewrite H6).
  set (f := address_fmt 4 (count_ip v)) in *. rewrite !replicate_add, <- app_assoc in H.
  apply bind_Ok in H as (b1 & H1 & H). apply (Tcp.fpack_into_inv _ []) in H1 as (fixed & H1 & ->); [|done].
  assert (E1 : fpack (fixed_fmt v) (fixed_args v (default 0 (checksum v))) = Ok fixed).
  { unfold fixed_fmt, fixed_args. rewrite Hv, Ha. rewrite Hv in H1. exact H1. }
  apply advert_fixed_wire in E1 as (pre & Lp & Op & -> & Hc0 & Hn0 & _ & Hf).
  apply bind_Ok in H as (bins & Hb & H). apply bind_Ok in H as (b2 & H2 & H).
  cbn [app] in H2. apply into_inv in H2 as (adr & H2 & ->);
    [|by rewrite length_app, be_encode_length, Lp|by rewrite length_replicate].
  pose proof (fpack_length _ _ _ H2) as La. apply bind_Ok in H as (b3 & H3 & H).
  rewrite app_assoc in H3. rewrite <- (app_nil_r (replicate 8 0)) in H3.
  apply into_inv in H3 as (auth & H3 & ->); [|by rewrite !length_app, be_encode_length, Lp, La|done].
  assert (auth = replicate 8 0) as -> by (vm_compute in H3; by injection H3 as <-). clear H3.
  rewrite app_nil_r, <- app_assoc in H.
  assert (Hwf : with_auth v VRRP_AUTH_NO_AUTH VRRP_AUTH_DATA = authenticated v) by (unfold authenticated; by rewrite Hv).
  assert (Hva : version (authenticated v) = VRRP_VERSION_V2) by (by rewrite <- Hwf).
  assert (Hfin : forall c, default c (checksum v) = c -> fpack (fixed_fmt v) (fixed_args v c) = Ok (pre ++ be_encode 2 c) ->
    (checksum v = None -> PktUtils.checksum e ((pre ++ be_encode 2 c) ++ adr ++ replicate 8 0) = 0) ->
    written v prev ((pre ++ be_encode 2 c) ++ adr ++ replicate 8 0) (with_checksum (authenticated v) (Some c))).
  { intros c Hd0 Ec Hz. exists pre, c, adr, bins, (replicate 8 0). rewrite Hk, Hv. do 9 (split; [done|]). split; [|done]. intros Hnone p _.
    unfold checksum_ok. cbn [version with_checksum]. rewrite Hva. cbn [Z.eqb Pos.eqb]. by rewrite (Hz Hnone). }
  destruct (checksum v) as [c0|] eqn:Ec; cbn [default] in *.
  - injection H as <- <-. specialize (Hfin c0 eq_refl (Hf _ Hc0)). rewrite <- Hwf in Hfin.
    replace (with_checksum (with_auth v VRRP_AUTH_NO_AUTH VRRP_AUTH_DATA) (Some c0))
      with (with_auth v VRRP_AUTH_NO_AUTH VRRP_AUTH_DATA) in Hfin by (destruct v; cbn in *; by subst). by apply Hfin.
  - destruct (adr_facts v bins adr Hwf0) as [Oa _]; [by rewrite Hk|by rewrite Hk|].
    assert (EW : (pre ++ be_encode 2 0) ++ adr ++ replicate 8 0 = pre ++ [0; 0] ++ adr ++ replicate 8 0)
      by (by rewrite <- app_assoc).
    destruct (checksum_inserted e pre (adr ++ replicate 8 0)) as [Hcs Hz]; [by rewrite Lp|done|
      apply bytes_ok_app; [done|apply Forall_replicate; unfold byte_ok; lia]|
      rewrite !length_app, Lp, La, length_replicate; unfold f; rewrite address_size; cbn; lia|].
    rewrite Hwf, EW in H. set (c := PktUtils.checksum e _) in *. rewrite <- EW in H.
    fmt_eval. rewrite (put_checksum pre 0 c) in H by done. cbn [mbind res_bind] in H.
    injection H as <- <-. rewrite app_assoc.
    apply Hfin; [done|by apply Hf|]. intros _. by rewrite <- app_assoc.
Qed.

Lemma v3_written v p w v' : wf v -> version v = VRRP_VERSION_V3 -> ip_kind (Some p) = Some (address_kind v) ->
  vrrpv3_serialize e v (Some p) = Ok (w, v') -> written v (Some p) w v'.
Proof.
  intros Hwf Hv Hk H. pose proof Hwf as (_ & _ & Hn & _ & a & Ha & _).
  unfold vrrpv3_serialize in H. rewrite Hk, Ha in H. cbn [or_raise mbind res_bind] in H.
  apply bind_Ok in H as ([] & Hmax & H). fmt_eval.
  assert (Hm : max_adver_int v <= VRRP_V3_MAX_ADVER_INT_MASK)
    by (unfold py_assert in Hmax; by destruct (Z.leb_spec (max_adver_int v) VRRP_V3_MAX_ADVER_INT_MASK)).
  assert (Hva : authenticated v = v) by (unfold authenticated; by rewrite Hv).
  set (f := address_fmt (alen (address_kind v)) (count_ip v)) in *. rewrite replicate_add in H.
  apply bind_Ok in H as (b1 & H1 & H). apply (Tcp.fpack_into_inv _ []) in H1 as (fixed & H1 & ->); [|done].
  assert (E1 : fpack (fixed_fmt v) (fixed_args v (default 0 (checksum v))) = Ok fixed).
  { unfold fixed_fmt, fixed_args. rewrite Hv. rewrite Hv in H1. exact H1. }
  apply advert_fixed_wire in E1 as (pre & Lp & Op & -> & Hc0 & Hn0 & _ & Hf).
  apply bind_Ok in H as (bins & Hb & H). apply bind_Ok in H as (b2 & H2 & H).
  cbn [app] in H2. rewrite <- (app_nil_r (replicate (fmt_size f) 0)) in H2. apply into_inv in H2 as (adr & H2 & ->);
    [|by rewrite length_app, be_encode_length, Lp|by rewrite length_replicate].
  destruct (adr_facts v bins adr Hwf Hb H2) as (Oa & La & _).
  assert (Lw : forall c, vrrp_len (with_checksum v c) = Ok (Z.of_nat (length ((pre ++ be_encode 2 0) ++ adr ++ [])))).
  { intros c. unfold vrrp_len, with_checksum. cbn [version _is_ipv6 count_ip]. rewrite Hv. cbn [Z.eqb Pos.eqb].
    rewrite app_nil_r, !length_app, be_encode_length, Lp, La. unfold address_kind. destruct (_is_ipv6 v); cbn [alen]; f_equal; lia. }
  assert (Hfin : forall c, default c (checksum v) = c -> fpack (fixed_fmt v) (fixed_args v c) = Ok (pre ++ be_encode 2 c) ->
    (checksum v = None -> checksum_ip e p (Z.of_nat (length ((pre ++ be_encode 2 0) ++ adr ++ [])))
       ((pre ++ be_encode 2 c) ++ adr ++ []) = Ok 0) ->
    written v (Some p) ((pre ++ be_encode 2 c) ++ adr ++ []) (with_checksum v (Some c))).
  { intros c Hd0 Ec Hz. exists pre, c, adr, bins, []. rewrite Hva, Hv. do 9 (split; [done|]). split; [|done]. intros Hnone q Hq.
    injection (Hq eq_refl) as <-. unfold checksum_ok. cbn [version with_checksum]. rewrite Hv. cbn [Z.eqb Pos.eqb].
    rewrite Lw. cbn [mbind res_bind]. by rewrite (Hz Hnone). }
  destruct (checksum v) as [c0|] eqn:Ec; cbn [default] in *.
  - injection H as <- <-. specialize (Hfin c0 eq_refl (Hf _ Hc0)).
    replace (with_checksum v (Some c0)) with v in Hfin by (destruct v; cbn in *; by subst). by apply Hfin.
  - apply bind_Ok in H as (c & Hc & H). cbn [from_option] in Hc, H.
    assert (EW : (pre ++ be_encode 2 0) ++ adr ++ [] = pre ++ [0; 0] ++ adr ++ []) by (by rewrite <- app_assoc).
    rewrite EW in Hc. destruct (checksum_ip_inserted e p (Z.of_nat (length (pre ++ [0; 0] ++ adr ++ []))) pre (adr ++ []) c) as [Hcs Hz];
      [by rewrite Lp|done|by rewrite app_nil_r
      |rewrite app_nil_r, !length_app, Lp, La; unfold address_kind; destruct (_is_ipv6 v); cbn [alen length]; lia|done|].
    fmt_eval. rewrite (put_checksum pre 0 c) in H by done. injection H as <- <-. rewrite app_assoc.
    apply Hfin; [done|by apply Hf|]. intros _. rewrite EW, <- (app_assoc pre). exact Hz.
Qed.

(** The constructor, on what was written, gives the object that is left. *)
Lemma written_new v c at_ ad : count_ip v = Z.of_nat (length (ip_addresses v)) ->
  (exists a, head (ip_addresses v) = Some a /\ is_ipv6 a = Ok (_is_ipv6 v)) ->
  at_ = auth_type (authenticated v) -> ad = auth_data (authenticated v) ->
  new (version v) (type_ v) (vrid v) (priority v) (count_ip v) (max_adver_int v) (Some c) (ip_addresses v) at_ ad
  = Ok (with_identification (with_checksum (authenticated v) (Some c)) 0).
Proof.
  intros Hn (a & Ha & H6) -> ->. unfold new. rewrite (proj2 (Z.eqb_eq _ _)), Ha by done.
  cbn [py_assert mbind res_bind or_raise]. rewrite H6. unfold authenticated. by destruct (version v =? VRRP_VERSION_V2).
Qed.

Lemma written_len v c adr : version v = VRRP_VERSION_V2 \/ version v = VRRP_VERSION_V3 -> 0 <= count_ip v ->
  (version v = VRRP_VERSION_V2 -> _is_ipv6 v = false) -> length adr = (Z.to_nat (count_ip v) * alen (address_kind v))%nat ->
  vrrp_len (with_identification (with_checksum (authenticated v) (Some c)) 0)
  = Ok (Z.of_nat (8 + length (adr : bytes) + length (if (version v =? VRRP_VERSION_V2)%Z then replicate 8 0%Z else []))).
Proof.
  intros Hver Hn H4 La. replace (vrrp_len _) with (vrrp_len v)
    by (unfold authenticated; by destruct (version v =? VRRP_VERSION_V2)). unfold vrrp_len.
  unfold address_kind in La. destruct Hver as [Hv|Hv]; rewrite Hv; unfold VRRP_VERSION_V2, VRRP_VERSION_V3; cbn [Z.eqb Pos.eqb];
    [rewrite (H4 Hv) in La|destruct (_is_ipv6 v)]; cbn [alen length replicate] in *; f_equal; lia.
Qed.

(** The parser of version 3 on the parts of a packet: the size of an address follows from
    the length of the packet and the number of addresses. *)
Lemma vrrpv3_reads v v' w bins c : 0 <= type_ v < 16 -> 0 < count_ip v -> 0 <= max_adver_int v <= VRRP_V3_MAX_ADVER_INT_MASK ->
  length w = (8 + Z.to_nat (count_ip v) * alen (address_kind v))%nat ->
  funpack_from (Format Big [Fi 1; Fi 1; Fi 1; Fi 1; Fi 2; Fi 2]) w 0
    = Ok [VInt (vrrp_to_version_type VRRP_VERSION_V3 (type_ v)); VInt (vrid v); VInt (priority v); VInt (count_ip v); VInt (max_adver_int v); VInt c] ->
  funpack_from (address_fmt (alen (address_kind v)) (count_ip v)) w 8 = Ok bins ->
  address_texts (address_kind v) bins = Ok (ip_addresses v) ->
  new VRRP_VERSION_V3 (type_ v) (vrid v) (priority v) (count_ip v) (max_adver_int v) (Some c) (ip_addresses v) None None = Ok v' ->
  vrrp_len v' = Ok (Z.of_nat (length w)) -> vrrpv3_parser w = Ok (v', None, []).
Proof.
  intros Hty Hn Hmax Lw H0 Hu Ht Hnew Hlen. unfold address_kind in *. unfold vrrpv3_parser. fmt_eval. rewrite H0. cbn [mbind res_bind].
  rewrite version_byte by done. unfold VRRP_V3_MAX_ADVER_INT_MASK in *.
  rewrite (land_mask _ 12), Z.mod_small by (done || (change (2 ^ 12) with 4096; lia)).
  rewrite (proj2 (Z.eqb_neq (count_ip v) 0)) by lia.
  replace ((Z.of_nat (length w) - 8) / count_ip v) with (Z.of_nat (alen (if _is_ipv6 v then IPV6 else IPV4))).
  2:{ rewrite Lw, Nat2Z.inj_add, Nat2Z.inj_mul, Z2Nat.id by lia. change (Z.of_nat 8) with 8.
      rewrite Z.add_simpl_l, Z.mul_comm, Z.div_mul; lia. }
  replace (if Z.of_nat _ =? 4 then _ else _) with (@Ok akind (if _is_ipv6 v then IPV6 else IPV4)) by (by destruct (_is_ipv6 v)).
  cbn [mbind res_bind]. rewrite Hu. cbn [mbind res_bind]. rewrite Ht. cbn [mbind res_bind]. rewrite Hnew. cbn [mbind res_bind].
  rewrite Hlen. cbn [mbind res_bind]. by rewrite Nat2Z.id, drop_all.
Qed.

(** Either version: the packet is read back as the object that is left, but for the
    identification, which belongs to the network header. *)
Lemma written_parses v prev w v' : wf v -> written v prev w v' ->
  vrrp_len v' = Ok (Z.of_nat (length w)) /\ parser w = Ok (with_identification v' 0, None, []).
Proof.
  intros Hwf (pre & c & adr & bins & auth & -> & -> & Lp & Hf & Hb & Hp & -> & H4 & Hmax & _).
  destruct (adr_facts v bins adr Hwf Hb Hp) as (Oa & La & Hu & Ht).
  destruct Hwf as (Hver & Hty & Hn & Hc & a & Ha & H6).
  destruct (advert_fixed_wire _ _ _ Hf) as (_ & _ & _ & _ & _ & Hn0 & Hm0 & _).
  assert (Lf : length (pre ++ be_encode 2 c) = 8%nat) by (by rewrite length_app, be_encode_length, Lp).
  assert (Hnew := fun at_ ad => written_new v c at_ ad Hn (ex_intro _ a (conj Ha H6))).
  assert (Hlen : forall n, n = (8 + length adr + length (if (version v =? VRRP_VERSION_V2)%Z then replicate 8 0%Z else []))%nat ->
    vrrp_len (with_identification (with_checksum (authenticated v) (Some c)) 0) = Ok (Z.of_nat n))
    by (intros n ->; apply written_len; [destruct Hver as [[? _]|[? _]]; [by left|by right]|lia|done|done]).
  set (auth := if version v =? VRRP_VERSION_V2 then replicate 8 0 else []) in *.
  assert (Lw : length ((pre ++ be_encode 2 c) ++ adr ++ auth) = (8 + length adr + length auth)%nat)
    by (rewrite length_app, Lf, length_app; lia).
  split; [rewrite Lw; by apply Hlen|]. specialize (Hlen _ eq_refl). rewrite <- Lw in Hlen.
  specialize (Hu (pre ++ be_encode 2 c) auth). rewrite Lf in Hu.
  set (w := (pre ++ be_encode 2 c) ++ adr ++ auth) in *.
  assert (Hd : drop (Z.to_nat (Z.of_nat (length w))) w = []) by (by rewrite Nat2Z.id, drop_all).
  assert (H0 : funpack_from (fixed_fmt v) w 0 = Ok (fit_args (f_codes (fixed_fmt v)) (fixed_args v c)))
    by (by apply unpack_from_pack0).
  assert (Hv16 : 0 <= version v < 16) by (destruct Hver as [(-> & _)|(-> & _)]; done).
  pose proof (version_dispatch v c _ Hv16 Hty Hf (adr ++ auth)) as Hp0.
  change ((pre ++ be_encode 2 c) ++ adr ++ auth) with w in Hp0. rewrite Hp0. clear Hp0.
  unfold address_kind in *. unfold fixed_fmt, fixed_args in H0.
  destruct Hver as [(Hv & E1 & E2)|(Hv & E1 & E2)]; rewrite Hv in H0 |- *;
    change (VRRP_VERSION_V2 =? VRRP_VERSION_V2) with true in *; change (VRRP_VERSION_V3 =? VRRP_VERSION_V2) with false in *;
    cbv iota in H0 |- *.
  - unfold vrrpv2_parser. rewrite (H4 Hv) in *. change (alen IPV4) with 4%nat in *. fmt_eval. rewrite H0. cbn [mbind res_bind fit_args f_codes app].
    rewrite version_byte, Hu by done. cbn [mbind res_bind]. rewrite Ht. cbn [mbind res_bind].
    fmt_eval. rewrite address_size, <- La.
    replace w with (((pre ++ be_encode 2 c) ++ adr) ++ auth ++ []) at 1 by (unfold w; by rewrite app_nil_r, <- !app_assoc).
    rewrite (unpack_from_pack (Format Big [Fi 4; Fi 4]) [VInt 0; VInt 0] auth);
      [|unfold auth; rewrite Hv; reflexivity|by rewrite length_app, Lf].
    cbn [mbind res_bind fit_args f_codes]. rewrite <- Hv, Hnew by (unfold authenticated; rewrite ?Hv, ?E1, ?E2; done). cbn [mbind res_bind].
    rewrite Hlen. cbn [mbind res_bind]. by rewrite Hd.
  - apply (vrrpv3_reads v _ w bins c); [done| |by split; [|apply Hmax]| |done|done|done| |done].
    + rewrite Hn. destruct (ip_addresses v); [done|cbn [length]; lia].
    + rewrite Lw, La. unfold auth, address_kind. rewrite Hv. cbn. lia.
    + rewrite <- Hv. apply Hnew; unfold authenticated; rewrite Hv; done.
Qed.

(** *** Whole packets *)

Lemma ethernet_reads X h w : Ethernet.serialize h = Ok w -> length w = 14%nat /\
  exists h', forall fuel d, packet (with_vrrp e X) (S fuel) (w ++ d) Cethernet
    = parse_loop (with_vrrp e X) fuel (get_packet_type_802_3 (Ethernet.ethertype h)) (Some d) [Header (Peth h')].
Proof.
  intros H. unfold Ethernet.serialize in H. apply bind_Ok in H as (d & Ed & H). apply bind_Ok in H as (s & Es & H).
  unfold Ethernet._PACK_STR in H. fmt_eval. pose proof (fpack_length _ _ _ H) as Lw. split; [exact Lw|].
  apply text_to_bin_ok in Ed as [Ld Od]. apply text_to_bin_ok in Es as [Ls Os].
  destruct (bin_to_text_ok MAC d Ld Od) as (td & Td & _). destruct (bin_to_text_ok MAC s Ls Os) as (ts & Ts & _).
  exists (Ethernet.Mk td ts (Ethernet.ethertype h)). intros fuel rest. rewrite packet_nonempty by (intros [-> _]%app_eq_nil; done).
  rewrite (parse_loop_step (with_vrrp e X) fuel Cethernet (w ++ rest) [] (Peth (Ethernet.Mk td ts (Ethernet.ethertype h)))
    (get_packet_type_802_3 (Ethernet.ethertype h)) (Some rest) 14); [done| |done|done]. cbn [parse_cls lift]. unfold Ethernet.parser.
  change Ethernet._MIN_LEN with 14%nat. fmt_eval. rewrite (unpack_from_pack0 _ _ _ _ H).
  cbn [mbind res_bind fit_args f_codes]. cbn [alen] in *. rewrite !resize_all_alt by done. rewrite Td, Ts.
  cbn [mbind res_bind]. rewrite (drop_packed _ _ _ rest H : drop 14 _ = _). reflexivity.
Qed.

Definition vrrp_ip (primary : string) (i : Z) : Ipv4.ipv4 :=
  Ipv4.Mk 4 (Z.of_nat Ipv4._MIN_LEN / 4) 0xc0 0 i 0 0 VRRP_IPV4_TTL IPPROTO_VRRP 0 primary VRRP_IPV4_DST_ADDRESS None.

(** An IPv4 header followed by an advertisement is decoded from where it starts. *)
Lemma ip_vrrp_decodes X prev primary i v d its : wf v -> _is_ipv6 v = false ->
  canonical IPV4 primary -> canonical IPV4 VRRP_IPV4_DST_ADDRESS ->
  serialize_from e (with_vrrp e X) prev [Header (Pipv4 (vrrp_ip primary i)); hvrrp e X v] = Ok (d, its) ->
  exists wi w ip' v', d = wi ++ w /\ its = [Header (Pipv4 ip'); hvrrp e X v'] /\ length wi = 20%nat
    /\ written v (Some (outer_of (with_vrrp e X) (Header (Pipv4 (vrrp_ip primary i))))) w v'
    /\ Ipv4.version ip' = 4 /\ Ipv4.header_length ip' = 5 /\ Ipv4.ttl ip' = VRRP_IPV4_TTL
    /\ Ipv4.src ip' = primary /\ Ipv4.dst ip' = VRRP_IPV4_DST_ADDRESS /\ Ipv4.proto ip' = IPPROTO_VRRP
    /\ forall fuel padding acc, (3 <= fuel)%nat ->
         parse_loop (with_vrrp e X) fuel (Some Cipv4) (Some (d ++ padding)) acc
           = Some (Ok (acc ++ [Header (Pipv4 ip'); hvrrp e X (with_identification v' 0)])).
Proof.
  intros Hwf H6 Hc Hd H.
  apply serialize_cons_inv in H as (d1 & l1 & wi & i1 & H & Hi & -> & ->).
  apply serialize_cons_inv in H as (d2 & l2 & w & i2 & H & Hv & -> & ->). injection H as <- <-. rewrite app_nil_r in *.
  cbn [serialize_item hvrrp] in Hv. unfold changed in Hv. apply bind_Ok in Hv as ([w0 o] & Hv & [= <- <-]).
  cbn [other_serialize with_vrrp] in Hv. apply bind_Ok in Hv as ([w1 v'] & Hv & [= <- <-]).
  cbn [serialize_item] in Hi. unfold changed in Hi. apply bind_Ok in Hi as ([wi0 ip'] & Hi & [= <- <-]).
  rename w1 into w, wi0 into wi.
  assert (Hw : Ipv4.wf (vrrp_ip primary i) w) by (repeat split; cbn; (lia || by left || done)).
  assert (HW : written v (Some (outer_of (with_vrrp e X) (Header (Pipv4 (vrrp_ip primary i))))) w v').
  { unfold serialize in Hv. destruct (Z.eqb_spec (version v) VRRP_VERSION_V2); [by apply v2_written|].
    destruct (Z.eqb_spec (version v) VRRP_VERSION_V3); [|done]. apply v3_written; try done.
    unfold address_kind. by rewrite H6. }
  exists wi, w, ip', v'. do 2 (split; [done|]).
  destruct (Ipv4.ipv4_serialize_layout e _ _ _ _ Hw Hi) as (s & dd & fixed & _ & _ & Eh & _ & _ & Lw & _).
  change (Ipv4.header_length (vrrp_ip primary i) * 4) with 20 in Lw. split; [lia|]. split; [done|].
  rewrite Eh. do 6 (split; [done|]). rewrite <- Eh. intros fuel padding acc Hf.
  destruct (written_parses _ _ _ _ Hwf HW) as [Ln Hp]. do 3 (destruct fuel as [|fuel]; [lia|]).
  pose proof (Ipv4.ipv4_parse_serialize e _ _ _ _ padding Hw Hi) as Pi.
  erewrite parse_loop_step; [|cbn [parse_cls lift]; rewrite <- app_assoc, Pi; reflexivity|reflexivity|by rewrite Eh].
  change (get_packet_type (Ipv4.proto (vrrp_ip primary i))) with (Some Cvrrp).
  erewrite parse_loop_step; [|cbn [parse_cls with_vrrp other_parser]; cbn [decide pcls_eq_dec]; rewrite Hp; reflexivity| |].
  - cbn [parse_loop finish]. by rewrite <- app_assoc.
  - cbn [proto_len with_vrrp other_len]. unfold vrrp_len in *. cbn [version _is_ipv6 count_ip with_identification]. exact Ln.
  - destruct HW as (pre & c & adr & bins & auth & _ & -> & Lp & _). rewrite !length_app, Lp. lia.
Qed.

Definition identified (v : vrrp) : vrrp := (get_identification v).2.

(** The headers in front of the network header, as they are decoded. *)
Definition link_headers (X : Others) (vlan_id : option Z) (hs : list (item (with_vrrp e X))) : Prop :=
  exists eth, hs = Header (Peth eth) :: match vlan_id with
                                      | Some vid => [Header (Pvlan (Vlan.Mk 0 0 vid ETH_TYPE_IP))]
                                      | None => []
                                      end.

(** The frame of an advertisement over IPv4, with any padding behind it. *)
Lemma frame_decodes X v primary vlan_id data v' : wf v -> _is_ipv6 v = false ->
  canonical IPV4 primary -> canonical IPV4 VRRP_IPV4_DST_ADDRESS ->
  match vlan_id with Some vid => 0 <= vid < 4096 | None => True end ->
  packet_data e X v primary vlan_id = Ok (data, v') ->
  exists hs ip pre w i, link_headers X vlan_id hs /\ data = pre ++ w
    /\ length pre = (match vlan_id with Some _ => 38 | None => 34 end)%nat
    /\ written (identified v) (Some (outer_of (with_vrrp e X) (Header (Pipv4 (vrrp_ip primary i))))) w v'
    /\ Ipv4.version ip = 4 /\ Ipv4.header_length ip = 5 /\ Ipv4.ttl ip = VRRP_IPV4_TTL
    /\ Ipv4.src ip = primary /\ Ipv4.dst ip = VRRP_IPV4_DST_ADDRESS /\ Ipv4.proto ip = IPPROTO_VRRP
    /\ forall fuel padding, (5 <= fuel)%nat ->
         packet (with_vrrp e X) fuel (data ++ padding) Cethernet
           = Some (Ok (hs ++ [Header (Pipv4 ip); hvrrp e X (with_identification v' 0)])).
Proof.
  intros Hwf H6 Hc Hd Hvl H. unfold packet_data, create_packet in H. rewrite H6 in H.
  destruct (get_identification v) as [i v1] eqn:Hi.
  assert (Hv1 : identified v = v1) by (unfold identified; by rewrite Hi).
  assert (Hwf1 : wf v1 /\ _is_ipv6 v1 = false)
    by (revert Hi; unfold get_identification; intros [= _ <-]; by split).
  destruct Hwf1 as [Hwf1 H61]. cbn [mbind res_bind] in H.
  change (Header (Pipv4 _)) with (@Header (with_vrrp e X) (Pipv4 (vrrp_ip primary i))) in H.
  apply bind_Ok in H as ([data0 its] & Hs & H). apply bind_Ok in H as (v0 & Hl & [= <- <-]).
  rewrite Hv1. unfold Packet.serialize in Hs. destruct vlan_id as [vid|].
  - apply serialize_cons_inv in Hs as (d1 & l1 & we & i1 & Hs & He & -> & ->).
    apply serialize_cons_inv in Hs as (d2 & l2 & wv & i2 & Hs & Hvv & -> & ->).
    cbn [serialize_item] in He, Hvv. unfold keep in He, Hvv.
    apply bind_Ok in He as (we' & He & [= <- <-]). apply bind_Ok in Hvv as (wv' & Hvv & [= <- <-]).
    destruct (ip_vrrp_decodes X _ primary i v1 _ _ Hwf1 H61 Hc Hd Hs)
      as (wi & w & ip & v2 & -> & -> & Li & HW & E1 & E2 & E3 & E4 & E5 & E6 & Hp).
    injection Hl as <-. destruct (ethernet_reads X _ _ He) as [Le (eth & Pe)].
    assert (Lv : length wv' = 4%nat) by (unfold Vlan.serialize in Hvv; fmt_eval; apply (fpack_length _ _ _ Hvv)).
    assert (Hvw : Vlan.wf (Vlan.Mk 0 0 vid ETH_TYPE_IP)) by (repeat split; cbn; lia).
    exists [Header (Peth eth); Header (Pvlan (Vlan.Mk 0 0 vid ETH_TYPE_IP))], ip, (we' ++ wv' ++ wi), w, i.
    split; [by exists eth|]. split; [by rewrite <- !app_assoc|]. split; [rewrite !length_app; lia|].
    do 7 (split; [done|]). intros fuel padding Hf. do 2 (destruct fuel as [|fuel]; [lia|]).
    rewrite <- !app_assoc, Pe. change (get_packet_type_802_3 _) with (Some Cvlan).
    erewrite parse_loop_step; [|cbn [parse_cls lift]; rewrite (Vlan.vlan_parse_serialize _ _ _ Hvw Hvv); reflexivity|done|done].
    rewrite (app_assoc wi). by rewrite Hp by lia.
  - apply serialize_cons_inv in Hs as (d1 & l1 & we & i1 & Hs & He & -> & ->).
    cbn [serialize_item] in He. unfold keep in He. apply bind_Ok in He as (we' & He & [= <- <-]).
    destruct (ip_vrrp_decodes X _ primary i v1 _ _ Hwf1 H61 Hc Hd Hs)
      as (wi & w & ip & v2 & -> & -> & Li & HW & E1 & E2 & E3 & E4 & E5 & E6 & Hp).
    injection Hl as <-. destruct (ethernet_reads X _ _ He) as [Le (eth & Pe)].
    exists [Header (Peth eth)], ip, (we' ++ wi), w, i.
    split; [by exists eth|]. split; [by rewrite <- !app_assoc|]. split; [rewrite !length_app; lia|].
    do 7 (split; [done|]). intros fuel padding Hf. destruct fuel as [|fuel]; [lia|].
    rewrite <- !app_assoc, Pe. change (get_packet_type_802_3 _) with (Some Cipv4).
    rewrite (app_assoc wi). by rewrite Hp by lia.
Qed.

(** *** Sending does not fail *)

Definition in_ranges (v : vrrp) : Prop :=
  0 <= vrid v < 256 /\ 0 <= priority v < 256 /\ Z.of_nat (length (ip_addresses v)) < 256
  /\ 0 <= max_adver_int v <= (if version v =? VRRP_VERSION_V2 then 0xff else VRRP_V3_MAX_ADVER_INT_MASK)
  /\ match checksum v with Some c => 0 <= c < 65536 | None => True end.

Lemma fixed_total v c : wf v -> in_ranges v -> 0 <= c < 65536 -> exists w, fpack (fixed_fmt v) (fixed_args v c) = Ok w.
Proof.
  intros (Hver & Hty & Hn & _) (H1 & H2 & H3 & H4 & _) Hc. unfold fixed_fmt, fixed_args, fpack. cbn [f_order f_codes].
  assert (Hb : in_width 1 (vrrp_to_version_type (version v) (type_ v)) = true).
  { apply in_width_1. unfold vrrp_to_version_type. rewrite lor_shiftl_add by lia.
    destruct Hver as [(-> & _)|(-> & _)]; unfold VRRP_VERSION_V2, VRRP_VERSION_V3; lia. }
  unfold VRRP_V3_MAX_ADVER_INT_MASK in *.
  destruct Hver as [(Hv & Ha & _)|(Hv & _)]; rewrite Hv in *;
    change (VRRP_VERSION_V2 =? VRRP_VERSION_V2) with true in *; change (VRRP_VERSION_V3 =? VRRP_VERSION_V2) with false in *;
    cbv iota in *; cbn [app pack_codes]; rewrite ?Ha, Hb, ?in_width_1, ?in_width_2 by (unfold VRRP_AUTH_NO_AUTH; lia); cbn [mbind res_bind]; by eexists.
Qed.

Lemma addresses_total v : wf v -> exists bins adr, address_bins (address_kind v) v = Ok bins
  /\ fpack (address_fmt (alen (address_kind v)) (count_ip v)) bins = Ok adr.
Proof.
  intros (_ & _ & Hn & Hc & _).
  assert (exists bs, mapM_res (text_to_bin (address_kind v)) (ip_addresses v) = Ok bs) as (bs & E).
  { clear Hn. generalize dependent (ip_addresses v). intros l. induction 1 as [|a l (b & Hb & _) _ (bs & IH)]; [by eexists|].
    cbn [mapM_res]. rewrite Hb, IH. by eexists. }
  assert (Eb : address_bins (address_kind v) v = Ok (List.map VBytes bs)) by (unfold address_bins; by rewrite E).
  destruct (addresses_wire _ _ _ Hc Eb) as (w & Hw & _). rewrite <- Hn in Hw. by eexists _, _.
Qed.

(** The steps of either encoder up to the checksum. *)
Lemma body_total v tail : wf v -> in_ranges v -> exists pre bins adr,
  address_bins (address_kind v) v = Ok bins /\ length pre = 6%nat /\ bytes_ok pre /\ bytes_ok adr
  /\ length adr = fmt_size (address_fmt (alen (address_kind v)) (count_ip v))
  /\ (forall c, 0 <= c < 65536 -> fpack_into (fixed_fmt v) (replicate 8 0 ++ replicate (length adr) 0 ++ tail) 0 (fixed_args v c)
        = Ok ((pre ++ be_encode 2 c) ++ replicate (length adr) 0 ++ tail))
  /\ forall c, fpack_into (address_fmt (alen (address_kind v)) (count_ip v)) ((pre ++ be_encode 2 c) ++ replicate (length adr) 0 ++ tail) 8 bins
        = Ok ((pre ++ be_encode 2 c) ++ adr ++ tail).
Proof.
  intros Hwf Hr. destruct (fixed_total v 0 Hwf Hr ltac:(lia)) as (w0 & E0).
  destruct (advert_fixed_wire _ _ _ E0) as (pre & Lp & Op & _ & _ & _ & _ & Hf).
  destruct (addresses_total v Hwf) as (bins & adr & Eb & Ea). destruct (adr_facts v bins adr Hwf Eb Ea) as (Oa & _).
  exists pre, bins, adr. pose proof (fpack_length _ _ _ Ea) as La. do 5 (split; [done|]). split.
  - intros c Hc. apply (Tcp.fpack_into_at _ [] (replicate 8 0)); [by apply Hf|].
    rewrite <- (fpack_length _ _ _ (Hf c Hc)), length_app, be_encode_length, Lp. done.
  - intros c. replace 8%nat with (length (pre ++ be_encode 2 c)) by (by rewrite length_app, be_encode_length, Lp).
    apply Tcp.fpack_into_at; [done|by rewrite length_replicate].
Qed.

(** The checksum that is computed always fits. *)
Lemma checksum_fits pre rest : length pre = 6%nat -> bytes_ok pre -> bytes_ok rest -> Z.of_nat (length rest) <= 100000 ->
  0 <= PktUtils.checksum e ((pre ++ be_encode 2 0) ++ rest) < 65536.
Proof.
  intros Lp Op Or Lr. rewrite <- app_assoc. change (be_encode 2 0) with [0; 0].
  apply checksum_inserted; [by rewrite Lp|done|done|]. rewrite !length_app, Lp. cbn [length]. lia.
Qed.

Lemma address_bound v : wf v -> in_ranges v ->
  (fmt_size (address_fmt (alen (address_kind v)) (count_ip v)) <= 4080)%nat.
Proof.
  intros (_ & _ & Hn & _) (_ & _ & Hlt & _). rewrite address_size, Hn, Nat2Z.id.
  unfold address_kind. destruct (_is_ipv6 v); cbn [alen]; lia.
Qed.

Lemma v2_total v : wf v -> in_ranges v -> version v = VRRP_VERSION_V2 -> _is_ipv6 v = false ->
  exists w v', vrrpv2_serialize e v = Ok (w, v') /\ (length w <= 4104)%nat.
Proof.
  intros Hwf Hr Hv H6. unfold vrrpv2_serialize.
  pose proof Hwf as ([(_ & Eat & Ead)|(Hv' & _)] & _); [|by rewrite Hv in Hv'].
  assert (Hc0 : 0 <= default 0 (checksum v) < 65536) by (destruct Hr as (_ & _ & _ & _ & Hr); destruct (checksum v); cbn; lia).
  pose proof (address_bound v Hwf Hr) as Hb. rewrite H6, Eat, Ead. cbn [py_assert negb mbind res_bind VRRP_AUTH_DATA fst snd]. fmt_eval.
  destruct (body_total v (replicate 8 0) Hwf Hr) as (pre & bins & adr & Eb & Lp & Op & Oa & La & Hf & Had).
  unfold address_kind in *. rewrite H6 in *. change (alen IPV4) with 4%nat in *.
  rewrite <- La, replicate_add, replicate_add, <- app_assoc. unfold fixed_fmt, fixed_args in Hf. rewrite Eat in Hf.
  specialize (Hf _ Hc0). rewrite Hv in Hf |- *. cbn [app Z.eqb Pos.eqb VRRP_VERSION_V2] in Hf.
  rewrite Hf. cbn [mbind res_bind]. rewrite Eb. cbn [mbind res_bind]. rewrite Had. cbn [mbind res_bind]. fmt_eval.
  set (fixed := pre ++ be_encode 2 (default 0 (checksum v))).
  assert (Lf : length fixed = 8%nat) by (unfold fixed; by rewrite length_app, be_encode_length, Lp).
  assert (Hz : fpack_into (Format Big [Fi 4; Fi 4]) (fixed ++ adr ++ replicate 8 0) (8 + length adr) [VInt 0; VInt 0]
    = Ok (fixed ++ adr ++ replicate 8 0)).
  { rewrite app_assoc, <- (app_nil_r (replicate 8 0)). replace (8 + length adr)%nat with (length (fixed ++ adr)) by (by rewrite length_app, Lf).
    by apply Tcp.fpack_into_at. }
  rewrite Hz. cbn [mbind res_bind]. destruct (checksum v) as [c|] eqn:Ec.
  - eexists _, _. split; [done|]. rewrite !length_app, Lf, length_replicate. lia.
  - fmt_eval. unfold fixed. cbn [default from_option]. rewrite put_checksum; [|done|].
    + eexists _, _. split; [done|]. rewrite !length_app, Lp, be_encode_length, length_replicate. lia.
    + apply checksum_fits; [done|done|apply bytes_ok_app; [done|apply Forall_replicate; unfold byte_ok; lia]|].
      rewrite length_app, length_replicate. lia.
Qed.

Lemma v3_total v p : wf v -> in_ranges v -> version v = VRRP_VERSION_V3 ->
  ip_kind (Some p) = Some (address_kind v) -> (forall n, 0 <= n < 65536 -> exists h, pseudo_header p n = Ok h) ->
  exists w v', vrrpv3_serialize e v (Some p) = Ok (w, v') /\ (length w <= 4104)%nat.
Proof.
  intros Hwf Hr Hv Hk Hp. unfold vrrpv3_serialize. rewrite Hk.
  pose proof Hwf as (_ & _ & _ & _ & a & Ha & _). pose proof Hr as (_ & _ & _ & Hm & Hcs). rewrite Hv in Hm.
  change (VRRP_VERSION_V3 =? VRRP_VERSION_V2) with false in Hm. cbv iota in Hm.
  assert (Hc0 : 0 <= default 0 (checksum v) < 65536) by (destruct (checksum v); cbn; lia).
  pose proof (address_bound v Hwf Hr) as Hb. rewrite Ha. cbn [or_raise mbind res_bind].
  rewrite (proj2 (Z.leb_le _ _)) by lia. cbn [py_assert mbind res_bind]. fmt_eval.
  destruct (body_total v [] Hwf Hr) as (pre & bins & adr & Eb & Lp & Op & Oa & La & Hf & Had).
  rewrite <- La, replicate_add, <- (app_nil_r (replicate (length adr) 0)). unfold fixed_fmt, fixed_args in Hf.
  specialize (Hf _ Hc0). rewrite Hv in Hf |- *. cbn [app Z.eqb Pos.eqb VRRP_VERSION_V2 VRRP_VERSION_V3] in Hf.
  rewrite Hf. cbn [mbind res_bind]. rewrite Eb. cbn [mbind res_bind]. rewrite Had. cbn [mbind res_bind].
  assert (Lw : forall c, length ((pre ++ be_encode 2 c) ++ adr ++ []) = (8 + length adr)%nat)
    by (intros c; rewrite app_nil_r, !length_app, be_encode_length, Lp; lia).
  destruct (checksum v) as [c|] eqn:Ec; [eexists _, _; split; [done|]; rewrite Lw; lia|].
  cbn [default from_option]. rewrite Lw.
  destruct (checksum_ip e p (Z.of_nat (8 + length adr)) ((pre ++ be_encode 2 0) ++ adr ++ [])) as [c|x] eqn:Ecs.
  - cbn [mbind res_bind]. fmt_eval.
    assert (Hc : 0 <= c < 65536).
    { rewrite <- app_assoc in Ecs. change (be_encode 2 0) with [0; 0] in Ecs.
      apply (checksum_ip_inserted e p (Z.of_nat (8 + length adr)) pre (adr ++ []) c); try done; [by rewrite Lp|by rewrite app_nil_r|].
      rewrite app_nil_r, !length_app, Lp. cbn [length]. lia. }
    rewrite put_checksum by done. eexists _, _. split; [done|]. rewrite app_assoc, Lw. lia.
  - exfalso. unfold checksum_ip in Ecs. destruct (Hp (Z.of_nat (8 + length adr))) as (h & E); [lia|]. by rewrite E in Ecs.
Qed.

Lemma ipv4_total primary i payload : 0 <= i < 65536 -> canonical IPV4 primary -> canonical IPV4 VRRP_IPV4_DST_ADDRESS ->
  (length payload <= 4104)%nat -> exists w h, Ipv4.serialize e (vrrp_ip primary i) payload = Ok (w, h).
Proof.
  intros Hi (s & Es & Ts) (d & Ed & Td) Hl. unfold Ipv4.serialize.
  change (Ipv4.header_length (vrrp_ip primary i)) with 5. cbn [Z.mul Z.ltb Z.compare Pos.mul].
  cbn [Ipv4.src Ipv4.dst Ipv4.option_ Ipv4.total_length vrrp_ip]. rewrite Es, Ed. cbn [mbind res_bind]. fmt_eval.
  destruct (text_to_bin_ok _ _ _ Es) as [Ls Os]. destruct (text_to_bin_ok _ _ _ Ed) as [Ld Od]. cbn [alen] in *.
  set (tl := if 0 =? 0 then _ else _). assert (Htl : in_width 2 tl = true) by (unfold tl; cbn [Z.eqb]; apply in_width_2; lia).
  assert (Hf : exists w, fpack Ipv4.fmt20 (Ipv4.fixed_args (vrrp_ip primary i) tl 0 s d) = Ok w).
  { unfold fpack, Ipv4.fmt20, Ipv4.fixed_args. cbn [f_codes f_order pack_codes].
    rewrite Htl, (in_width_2 (Ipv4.identification _)) by done. cbn [mbind res_bind]. by eexists. }
  destruct Hf as (w & Hf). destruct (Ipv4.fpack_fixed _ _ 0 _ _ Ls Ld ltac:(lia) _ Hf) as (pre & Lp & Op & -> & _).
  match goal with |- context [fpack_into ?f (replicate ?n 0) 0 ?args] =>
    change (fpack_into f (replicate n 0) 0 args)
      with (fpack_into Ipv4.fmt20 (replicate 20 0) 0 (Ipv4.fixed_args (vrrp_ip primary i) tl 0 s d)) end.
  assert (Hin := Tcp.fpack_into_at Ipv4.fmt20 [] (replicate 20 0) [] _ _ Hf eq_refl). rewrite !app_nil_r in Hin.
  cbn [app length] in Hin. rewrite Hin. cbn [mbind res_bind]. fmt_eval.
  set (hdr := pre ++ 0 :: 0 :: s ++ d). set (c := PktUtils.checksum e hdr).
  assert (Hc : 0 <= c < 65536).
  { apply (checksum_inserted e pre (s ++ d)); [by rewrite Lp|done|by apply bytes_ok_app|].
    rewrite !length_app, Lp, Ls, Ld. cbn. lia. }
  change hdr with (pre ++ [0; 0] ++ s ++ d). replace 10%nat with (length pre).
  rewrite (Tcp.fpack_into_at _ pre [0; 0] (s ++ d) [VInt c] (be_encode 2 c)); [by eexists _, _| |done].
  unfold fpack. cbn [f_codes f_order pack_codes encode]. rewrite in_width_2 by done. cbn [mbind res_bind]. by rewrite app_nil_r.
Qed.

Definition frame_ok (v : vrrp) (primary : string) (vlan_id : option Z) : Prop :=
  (exists b, text_to_bin MAC VRRP_IPV4_DST_MAC_ADDRESS = Ok b)
  /\ (exists b, text_to_bin MAC (vrrp_ipv4_src_mac_address (vrid v)) = Ok b)
  /\ canonical IPV4 primary /\ canonical IPV4 VRRP_IPV4_DST_ADDRESS
  /\ match vlan_id with Some vid => 0 <= vid < 4096 | None => True end.

Lemma ethernet_total h : (exists b, text_to_bin MAC (Ethernet.dst h) = Ok b) ->
  (exists b, text_to_bin MAC (Ethernet.src h) = Ok b) -> 0 <= Ethernet.ethertype h < 65536 ->
  exists w, Ethernet.serialize h = Ok w.
Proof.
  intros (d & Ed) (s & Es) Ht. unfold Ethernet.serialize. rewrite Ed, Es. cbn [mbind res_bind]. fmt_eval.
  unfold fpack. cbn [f_codes f_order pack_codes]. rewrite in_width_2 by done. cbn [mbind res_bind]. by eexists.
Qed.

Lemma advert_total X v primary i : wf v -> in_ranges v -> _is_ipv6 v = false ->
  canonical IPV4 primary -> canonical IPV4 VRRP_IPV4_DST_ADDRESS ->
  exists w v', serialize e v (Some (outer_of (with_vrrp e X) (Header (Pipv4 (vrrp_ip primary i))))) = Ok (w, v')
    /\ (length w <= 4104)%nat.
Proof.
  intros Hwf Hr H6 Hp Hd. unfold serialize. destruct (proj1 Hwf) as [(Hv & _)|(Hv & _)]; rewrite Hv;
    [change (VRRP_VERSION_V2 =? VRRP_VERSION_V2) with true; by apply v2_total|].
  change (VRRP_VERSION_V3 =? VRRP_VERSION_V2) with false. change (VRRP_VERSION_V3 =? VRRP_VERSION_V3) with true.
  cbv iota. apply v3_total; try done; [unfold address_kind; by rewrite H6|].
  intros n Hn. unfold pseudo_header. cbn [outer_of o_version o_src o_dst o_proto attr or_raise mbind res_bind vrrp_ip
    Ipv4.version Ipv4.src Ipv4.dst Ipv4.proto Z.eqb Pos.eqb].
  destruct Hp as (b1 & E1 & _), Hd as (b2 & E2 & _). rewrite E1, E2. cbn [mbind res_bind]. fmt_eval.
  unfold fpack. cbn [f_codes f_order pack_codes]. rewrite (in_width_2 n) by done. cbn [mbind res_bind]. by eexists.
Qed.

Lemma vlan_total vid : 0 <= vid < 4096 -> exists w, Vlan.serialize (Vlan.Mk 0 0 vid ETH_TYPE_IP) = Ok w.
Proof.
  intros Hv. unfold Vlan.serialize. fmt_eval. unfold fpack.
  cbn [f_codes f_order pack_codes Vlan.pcp Vlan.cfi Vlan.vid Vlan.ethertype].
  change (Z.lor (Z.shiftl 0 13) (Z.shiftl 0 12)) with 0. rewrite Z.lor_0_l, in_width_2 by lia. by eexists.
Qed.

Lemma packet_data_total X v primary vlan_id : wf v -> in_ranges v -> _is_ipv6 v = false -> 0 <= identification v ->
  frame_ok v primary vlan_id -> exists data v', packet_data e X v primary vlan_id = Ok (data, v').
Proof.
  intros Hwf Hr H6 Hid (Hm & Hs & Hp & Hd & Hvl). unfold packet_data, create_packet. rewrite H6.
  destruct (get_identification v) as [i v1] eqn:Ei.
  assert (Hv1 : wf v1 /\ in_ranges v1 /\ _is_ipv6 v1 = false /\ vrid v1 = vrid v /\ version v1 = version v)
    by (revert Ei; unfold get_identification; intros [= _ <-]; exact (conj Hwf (conj Hr (conj H6 (conj eq_refl eq_refl))))).
  destruct Hv1 as (Hwf1 & Hr1 & H61 & Evr & Eve).
  assert (Hi : 0 <= i < 65536).
  { revert Ei. unfold get_identification. intros [= <- _]. rewrite !(land_mask _ 16 0xffff) by (done || lia).
    destruct (_ =? 0); lia. }
  pose proof (advert_total X v1 primary i Hwf1 Hr1 H61 Hp Hd) as Hw.
  destruct Hw as (w & v' & Hw & Lw). destruct (ipv4_total primary i w Hi Hp Hd Lw) as (wi & ip & Hip).
  assert (Htail : forall prev, serialize_from e (with_vrrp e X) prev [Header (Pipv4 (vrrp_ip primary i)); hvrrp e X v1]
    = Ok (wi ++ w, [Header (Pipv4 ip); hvrrp e X v'])).
  { intros prev. cbn [serialize_from hvrrp serialize_item changed with_vrrp other_serialize mbind res_bind]. rewrite Hw.
    cbn [mbind res_bind]. rewrite app_nil_r, Hip. done. }
  cbn [mbind res_bind]. change (Header (Pipv4 _)) with (@Header (with_vrrp e X) (Pipv4 (vrrp_ip primary i))).
  rewrite Evr. unfold Packet.serialize. destruct vlan_id as [vid|].
  - destruct (ethernet_total (Ethernet.Mk VRRP_IPV4_DST_MAC_ADDRESS (vrrp_ipv4_src_mac_address (vrid v)) ETH_TYPE_8021Q) Hm Hs ltac:(done)) as (we & He).
    destruct (vlan_total vid Hvl) as (wv & Hv). cbn [serialize_from] in Htail |- *. rewrite Htail. cbn [mbind res_bind serialize_item keep].
    unfold keep. rewrite Hv. cbn [mbind res_bind]. rewrite He. cbn. by eexists _, _.
  - destruct (ethernet_total (Ethernet.Mk VRRP_IPV4_DST_MAC_ADDRESS (vrrp_ipv4_src_mac_address (vrid v)) ETH_TYPE_IP) Hm Hs ltac:(done)) as (we & He).
    cbn [serialize_from] in Htail |- *. rewrite Htail. cbn [mbind res_bind serialize_item keep].
    unfold keep. rewrite He. cbn. by eexists _, _.
Qed.

(** *** Repeated transmission

    The object keeps the checksum of its first transmission. *)

Definition ip4_outer (primary : string) : outer :=
  Outer (Some 4) (Some primary) (Some VRRP_IPV4_DST_ADDRESS) (Some IPPROTO_VRRP) None.

Lemma rewritten v p w v1 p' w' v2 : wf v -> written v p w v1 -> written (identified v1) p' w' v2 ->
  w' = w /\ version v2 = version v1 /\ vrrp_len v2 = vrrp_len v1.
Proof.
  intros Hwf (pre & c & adr & bins & auth & -> & -> & _ & Hf & Hb & Ha & -> & _)
    (pre' & c' & adr' & bins' & auth' & -> & -> & _ & Hf' & Hb' & Ha' & -> & _ & _ & _ & Hc').
  change (checksum (identified (with_checksum (authenticated v) (Some c)))) with (Some c) in Hc'. cbn [default from_option] in Hc'. subst c'.
  destruct Hwf as [[(Hv & At & Ad)|(Hv & At & Ad)] _];
    unfold authenticated, identified, get_identification, vrrp_len, fixed_fmt, fixed_args, address_bins, address_kind in *;
    destruct v; cbn in *; subst; cbn in *; rewrite ?At, ?Ad in *; cbn in *;
    rewrite Hb in Hb'; injection Hb' as <-; rewrite Ha in Ha'; injection Ha' as <-;
    rewrite Hf in Hf'; injection Hf' as Hf'; rewrite Hf'; done.
Qed.

(** The next transmission has a valid checksum. *)
Definition settled (v : vrrp) (primary : string) : Prop :=
  forall w v', written (identified v) (Some (ip4_outer primary)) w v' -> checksum_ok e v' (ip4_outer primary) w = Ok true.

Lemma fresh_settled v primary : checksum v = None -> settled v primary.
Proof. intros Hc w v' (pre & c & adr & bins & auth & _ & _ & _ & _ & _ & _ & _ & _ & _ & H & _). by apply H. Qed.

Lemma written_settled v primary w v' : wf v -> settled v primary ->
  written (identified v) (Some (ip4_outer primary)) w v' -> settled v' primary.
Proof.
  intros Hwf Hs Hw w2 v2 Hw2. destruct (rewritten (identified v) _ _ _ _ _ _ Hwf Hw Hw2) as (-> & Hv & Hl).
  rewrite <- (Hs _ _ Hw). unfold checksum_ok. by rewrite Hv, Hl.
Qed.

Definition ipv4_addresses (l : list string) : Prop :=
  Forall (canonical IPV4) l /\ exists a, head l = Some a /\ is_ipv6 a = Ok false.

(** What the router keeps of the object it sends: everything but the checksum, the
    authentication of version 2 and the identification. *)
Record sendable (primary : string) (v : vrrp) : Prop := {
  se_wf : wf v; se_ipv4 : _is_ipv6 v = false; se_id : 0 <= identification v; se_settled : settled v primary;
  se_checksum : match checksum v with Some c => 0 <= c < 65536 | None => True end }.

Definition same_advert (v v' : vrrp) : Prop :=
  version v' = version v /\ type_ v' = type_ v /\ vrid v' = vrid v /\ priority v' = priority v
  /\ max_adver_int v' = max_adver_int v /\ ip_addresses v' = ip_addresses v.

Lemma created_sendable version vrid prio n l auth_type auth_data primary :
  version = VRRP_VERSION_V2 /\ default VRRP_AUTH_NO_AUTH auth_type = VRRP_AUTH_NO_AUTH
    /\ default VRRP_AUTH_DATA auth_data = VRRP_AUTH_DATA
  \/ version = VRRP_VERSION_V3 /\ auth_type = None /\ auth_data = None ->
  ipv4_addresses l ->
  exists v, create_version version VRRP_TYPE_ADVERTISEMENT vrid (Some prio) (Some n) l auth_type auth_data = Ok v
    /\ sendable primary v
    /\ same_advert (Mk version VRRP_TYPE_ADVERTISEMENT vrid prio (Z.of_nat (length l)) n None l None None false 0) v.
Proof.
  intros Hver (Hc & a & Ha & H6). unfold create_version.
  replace (known_version version) with true by (by destruct Hver as [[-> _]|[-> _]]).
  cbn [or_raise mbind res_bind default from_option]. unfold new. rewrite Z.eqb_refl, Ha. cbn [py_assert or_raise mbind res_bind].
  rewrite H6. cbn [mbind res_bind]. eexists. split; [done|]. split; [|done]. constructor; [|done|done|by apply fresh_settled|done].
  split; [exact Hver|]. split; [done|]. split; [done|]. split; [done|]. by exists a.
Qed.

Lemma create_sendable version vrid prio n l primary : version = VRRP_VERSION_V2 \/ version = VRRP_VERSION_V3 ->
  ipv4_addresses l ->
  exists v, create version VRRP_TYPE_ADVERTISEMENT vrid prio n l = Ok v /\ sendable primary v
    /\ same_advert (Mk version VRRP_TYPE_ADVERTISEMENT vrid prio (Z.of_nat (length l)) n None l None None false 0) v.
Proof. intros [-> | ->] Hl; (apply created_sendable; [|done]); [by left|by right]. Qed.

Lemma written_sendable primary v w v' : sendable primary v ->
  written (identified v) (Some (ip4_outer primary)) w v' -> sendable primary v' /\ same_advert v v'.
Proof.
  intros [Hwf H6 Hid Hs Hc] HW. pose proof (written_settled _ _ _ _ Hwf Hs HW) as Hs'.
  destruct HW as (pre & c & adr & bins & auth & Ev & _ & _ & Hf & _).
  destruct (advert_fixed_wire _ _ _ Hf) as (_ & _ & _ & _ & Hc' & _ & _ & _).
  destruct Hwf as (Hver & Hty & Hn & Hca & a & Ha & Ha6).
  assert (Hi : 0 <= identification (identified v)).
  { cbn [identified get_identification snd identification with_identification]. rewrite !(land_mask _ 16 0xffff) by (done || lia).
    destruct (_ =? 0); lia. }
  subst v'. unfold authenticated in *. change (version (identified v)) with (version v) in *. split.
  - destruct Hver as [(Hv & At & Ad)|(Hv & At & Ad)]; rewrite Hv in *; cbn [Z.eqb Pos.eqb VRRP_VERSION_V2 VRRP_VERSION_V3] in *.
    + constructor; try done.
      split; [by left|]. split; [done|]. split; [done|]. split; [done|]. by exists a.
    + constructor; try done.
      split; [by right|]. split; [done|]. split; [done|]. split; [done|]. by exists a.
  - by destruct (_ =? _).
Qed.

End Facts.
End VrrpFacts.

(** ** Claims *)

Module VrrpPktClaims.
Import Vrrp VrrpFacts.

Section Claims.
Context `{C : AddrConv} `{!AddrConvLaws C} (e : endian) (X : Others).

(** C33: An advertisement of either version, over either protocol, is read back as the object
    the encoder leaves, but for the identification, which is not part of it: only the
    checksum is filled in, it is valid under the network header in front, and the length
    the class computes is the number of bytes. *)
Theorem vrrp_roundtrip (v v' : vrrp) (p : outer) (w : bytes) (Hwf : wf v)
    (Hk : version v = VRRP_VERSION_V3 -> ip_kind (Some p) = Some (address_kind v))
    (Hs : serialize e v (Some p) = Ok (w, v')) :
  parser w = Ok (with_identification v' 0, None, [])
  /\ vrrp_len v' = Ok (Z.of_nat (length w))
  /\ (exists c, v' = with_checksum (authenticated v) (Some c))
  /\ (checksum v = None -> checksum_ok e v' p w = Ok true).
Proof.
  assert (HW : written e v (Some p) w v').
  { unfold serialize in Hs. destruct (Z.eqb_spec (version v) VRRP_VERSION_V2); [by apply v2_written|].
    destruct (Z.eqb_spec (version v) VRRP_VERSION_V3); [|done]. by apply v3_written; [| |apply Hk|]. }
  destruct (written_parses e _ _ _ _ Hwf HW) as [Hl Hp].
  destruct HW as (pre & c & adr & bins & auth & E & _ & _ & _ & _ & _ & _ & _ & _ & Hc & _).
  split; [done|]. split; [done|]. split; [by exists c|]. intros Hn. by apply Hc.
Qed.

(** Advertisements the parser does not expect end the decoding of the packet, and the
    handler that asked for it, with an exception: an unknown version with [KeyError], an
    empty address list with [IndexError] in version 2 and [ZeroDivisionError] in 3. *)
Theorem malformed_vrrp_raises (fuel : nat) (acc : list (item (with_vrrp e X))) (b vrid prio : Z) (rest : bytes) :
  let decode_ buf := parse_loop (with_vrrp e X) (S fuel) (Some Cvrrp) (Some buf) acc in
  (Z.shiftr b 4 <> 2 -> Z.shiftr b 4 <> 3 -> decode_ (b :: rest) = Some (Err KeyError))
  /\ (Z.shiftr b 4 = 2 -> (12 <= length rest)%nat -> decode_ (b :: vrid :: prio :: 0 :: rest) = Some (Err IndexError))
  /\ (Z.shiftr b 4 = 3 -> (4 <= length rest)%nat -> decode_ (b :: vrid :: prio :: 0 :: rest) = Some (Err ZeroDivisionError)).
Proof.
  cbv zeta. cbn [parse_loop parse_cls with_vrrp other_parser default from_option id].
  rewrite decide_False by done. rewrite decide_True by done.
  assert (Hp : forall r, parser (b :: r) = if Z.shiftr b 4 =? 2 then vrrpv2_parser (b :: r)
                 else if Z.shiftr b 4 =? 3 then vrrpv3_parser (b :: r) else Err KeyError).
  { intros r. unfold parser. fmt_eval. reflexivity. }
  rewrite !Hp. split; [|split].
  - intros H2 H3. by rewrite !(proj2 (Z.eqb_neq _ _)).
  - intros E Hl. rewrite E. cbn [Z.eqb Pos.eqb]. unfold vrrpv2_parser. fmt_eval.
    do 12 (destruct rest as [|? rest]; [cbn in Hl; lia|]). reflexivity.
  - intros E Hl. rewrite E. cbn [Z.eqb Pos.eqb]. unfold vrrpv3_parser. fmt_eval.
    do 4 (destruct rest as [|? rest]; [cbn in Hl; lia|]). reflexivity.
Qed.

(** Over IPv6 the network header announces forty bytes more than the advertisement has:
    its own length is counted as payload, which the encoder leaves as it is given. *)
Theorem ipv6_length_overstated (v v' : vrrp) (primary : string) (data : bytes) (Hwf : wf v)
    (H3 : version v = VRRP_VERSION_V3) (H6 : _is_ipv6 v = true)
    (Hs : packet_data e X v primary None = Ok (data, v')) :
  exists eth fixed w v_tc_flow s d, data = eth ++ fixed ++ w /\ length eth = 14%nat
    /\ fpack Ipv6.fmt40 [VInt v_tc_flow; VInt (Z.of_nat (length w) + 40); VInt IPPROTO_VRRP;
                         VInt VRRP_IPV6_HOP_LIMIT; VBytes s; VBytes d] = Ok fixed.
Proof.
  unfold packet_data, create_packet in Hs. rewrite H6 in Hs.
  apply bind_Ok in Hs as ([p v1] & Hs & Hd). apply bind_Ok in Hs as ([[[eth0 ty] ip] v2] & Hs & [= <- <-]).
  apply bind_Ok in Hs as (n & Hn & [= <- <- <- <-]).
  apply bind_Ok in Hd as ([data0 its] & Hd & Hv). apply bind_Ok in Hv as (v3 & Hl & [= <- <-]).
  unfold Packet.serialize in Hd. apply serialize_cons_inv in Hd as (d1 & l1 & we & i1 & Hd & He & -> & ->).
  apply serialize_cons_inv in Hd as (d2 & l2 & wi & i2 & Hd & Hi & -> & ->).
  apply serialize_cons_inv in Hd as (d3 & l3 & w & i3 & Hd & Hv & -> & ->). injection Hd as <- <-. rewrite app_nil_r in *.
  cbn [serialize_item] in He. unfold keep in He. apply bind_Ok in He as (we' & He & [= <- <-]).
  unfold hvrrp in Hv. cbn [serialize_item] in Hv. unfold changed in Hv. apply bind_Ok in Hv as ([w0 o] & Hv & [= <- <-]).
  cbn [other_serialize with_vrrp] in Hv. apply bind_Ok in Hv as ([w1 v4] & Hv & [= <- <-]).
  unfold hipv6 in Hi. cbn [serialize_item] in Hi. unfold changed in Hi. apply bind_Ok in Hi as ([wi0 o] & Hi & [= <- <-]).
  cbn [other_serialize with_vrrp] in Hi. apply bind_Ok in Hi as ([wi1 h'] & Hi & [= <- <-]).
  assert (Hlen : Z.of_nat (length w1) = n).
  { unfold serialize in Hv. rewrite H3 in Hv. change (VRRP_VERSION_V3 =? VRRP_VERSION_V2) with false in Hv.
    change (VRRP_VERSION_V3 =? VRRP_VERSION_V3) with true in Hv. cbv iota in Hv.
    apply v3_written in Hv; [|done|done|unfold address_kind; by rewrite H6].
    destruct (written_parses e _ _ _ _ Hwf Hv) as [Hl4 _]. destruct Hv as (pre & c & adr & bins & auth & -> & _).
    unfold authenticated in Hl4. rewrite H3 in Hl4. change (vrrp_len v = Ok (Z.of_nat (length w1))) in Hl4.
    congruence. }
  assert (Hpl : 0 <= n) by lia. unfold Ipv6.serialize in Hi. fmt_eval.
  apply bind_Ok in Hi as (s & Es & Hi). apply bind_Ok in Hi as (d & Ed & Hi). apply bind_Ok in Hi as (hdr & Hh & Hi).
  cbn [Ipv6.ext_hdrs Ipv6.serialize_exts mbind res_bind] in Hi. rewrite app_nil_r in Hi.
  cbn [Ipv6.payload_length] in Hi. change (Z.of_nat Ipv6._MIN_LEN) with 40 in *.
  rewrite (proj2 (Z.eqb_neq (40 + n) 0)) in Hi by lia. injection Hi as <- _.
  unfold fpack_into in Hh. apply bind_Ok in Hh as (fixed & Hf & Hh). injection Hh as <-.
  destruct (ethernet_reads e X _ _ He) as [Le _]. eexists we', fixed, w1, _, s, d.
  split; [by rewrite app_nil_r|]. split; [done|]. rewrite Hlen, (Z.add_comm n 40). exact Hf.
Qed.

End Claims.

(** *** Concrete addresses *)

(** Addresses are their bytes, except the texts that the packets of virtual router 7
    contain; of those, the network addresses are in printed form. *)
Definition known_texts : list (akind * string * bytes) :=
  [(MAC, VRRP_IPV4_DST_MAC_ADDRESS, [1; 0; 0x5e; 0; 0; 0x12]);
   (MAC, vrrp_ipv4_src_mac_address 7, [0; 0; 0x5e; 0; 1; 7]);
   (MAC, VRRP_IPV6_DST_MAC_ADDRESS, [0x33; 0x33; 0; 0; 0; 0x12]);
   (MAC, vrrp_ipv6_src_mac_address 7, [0; 0; 0x5e; 0; 2; 7]);
   (IPV4, VRRP_IPV4_DST_ADDRESS, [224; 0; 0; 18]);
   (IPV6, VRRP_IPV6_DST_ADDRESS, [255; 2] ++ replicate 13 0 ++ [18])].

Definition akind_eqb (a b : akind) : bool :=
  match a, b with MAC, MAC | IPV4, IPV4 | IPV6, IPV6 => true | _, _ => false end.

Definition find_text (k : akind) (t : string) : option bytes :=
  snd <$> List.find (fun x => akind_eqb k x.1.1 && String.eqb t x.1.2) known_texts.

Definition find_bin (k : akind) (b : bytes) : option string :=
  match k with
  | MAC => None
  | _ => (fun x => x.1.2) <$> List.find (fun x => akind_eqb k x.1.1 && bool_decide (b = x.2)) known_texts
  end.

Definition conv : AddrConv := {|
  bin_to_text k b := match find_bin k b with Some t => Ok t | None => bin_to_text (AddrConv := RawConv.conv) k b end;
  text_to_bin k t := match find_text k t with Some b => Ok b | None => text_to_bin (AddrConv := RawConv.conv) k t end |}.

Lemma find_text_ok k t b : find_text k t = Some b ->
  length b = alen k /\ bytes_ok b /\ length (RawConv.of_string t) <> alen k.
Proof.
  unfold find_text. intros H. destruct (List.find _ known_texts) as [[[k' t'] b']|] eqn:E; [|done].
  injection H as <-. apply List.find_some in E as [Hin [Hk Ht]%andb_prop]. apply String.eqb_eq in Ht. cbn in Hk, Ht. subst t'.
  assert (k = k') as <- by (by destruct k, k').
  revert Hin. unfold known_texts. cbn [In]. intros H.
  repeat (destruct H as [[= <- <- <-]|H]; [split; [done|split; [solve_bytes_ok|done]]|]). done.
Qed.

Lemma vrrp_conv_laws : AddrConvLaws conv.
Proof.
  split.
  - intros k t b. cbn [text_to_bin conv]. destruct (find_text k t) as [b'|] eqn:E; [|apply RawConv.laws].
    intros [= <-]. apply find_text_ok in E as (? & ? & _). by split.
  - intros k b Hl Hb. cbn [bin_to_text text_to_bin conv]. destruct (find_bin k b) as [t|] eqn:E.
    + exists t. split; [done|]. unfold find_bin in E. destruct k; [done| |];
        (destruct (List.find _ known_texts) as [[[k' t'] b']|] eqn:F; [|done]); injection E as <-;
        apply List.find_some in F as [Hin [Hk Ht]%andb_prop]; apply bool_decide_eq_true in Ht; cbn in Hk, Ht; subst b';
        revert Hin; unfold known_texts; cbn [In]; intros H;
        repeat (destruct H as [[= <- <- <-]|H]; [done|]); done.
    + destruct (@bin_to_text_ok _ RawConv.laws k b Hl Hb) as (t & H1 & H2). exists t. split; [done|].
      destruct (find_text k t) as [b'|] eqn:F; [|done]. apply find_text_ok in F as (_ & _ & F).
      exfalso. apply F. cbn in H2. by destruct (Nat.eqb_spec (length (RawConv.of_string t)) (alen k)).
Qed.

Definition ip_n (n : Z) : string := RawConv.to_string [10; 0; 0; n].
Definition ip6_n (n : Z) : string := RawConv.to_string (replicate 15 0 ++ [n]).

Definition advert (version : Z) (priority : Z) : vrrp :=
  Mk version VRRP_TYPE_ADVERTISEMENT 7 priority 2 1 None [ip_n 1; ip_n 2]
     (if version =? 2 then Some 0 else None) (if version =? 2 then Some (0, 0) else None) false 0.

Definition advert6 : vrrp := Mk 3 VRRP_TYPE_ADVERTISEMENT 7 100 1 100 None [ip6_n 1] None None true 0.

Lemma advert_wf version priority : version = 2 \/ version = 3 -> wf (C := conv) (advert version priority).
Proof.
  intros [-> | ->]; (split; [by (left + right)|]); (split; [done|]); (split; [done|]);
    (split; [repeat constructor; eexists; split; vm_compute; reflexivity|by eexists]).
Qed.

Lemma vrrp_roundtrip_witness : exists w v',
  serialize (C := conv) Little (advert 3 100) (Some (Outer (Some 4) (Some (ip_n 9)) (Some (ip_n 8)) (Some 112) None)) = Ok (w, v')
  /\ parser (C := conv) w = Ok (with_identification v' 0, None, []).
Proof.
  eexists _, _. split; [vm_compute; reflexivity|].
  refine (proj1 (vrrp_roundtrip (C := conv) (AddrConvLaws0 := vrrp_conv_laws) Little (advert 3 100) _
    (Outer (Some 4) (Some (ip_n 9)) (Some (ip_n 8)) (Some 112) None) _ _ _ _)); [by apply advert_wf; right|done|vm_compute; reflexivity].
Defined.

Lemma malformed_vrrp_raises_witness :
  parse_loop (C := conv) (with_vrrp (C := conv) Little PacketClaims.no_others) 1 (Some Cvrrp) (Some [0x31; 7; 100; 0; 0; 100; 0; 0]) []
    = Some (Err ZeroDivisionError).
Proof. apply (malformed_vrrp_raises (C := conv) Little PacketClaims.no_others 0 [] 0x31 7 100 [0; 100; 0; 0]); [done|cbn; lia]. Defined.

Lemma ipv6_length_overstated_witness : exists data v',
  packet_data (C := conv) Little PacketClaims.no_others advert6 (ip6_n 9) None = Ok (data, v')
  /\ exists eth fixed w v_tc_flow s d, data = eth ++ fixed ++ w /\ length eth = 14%nat
    /\ fpack Ipv6.fmt40 [VInt v_tc_flow; VInt (Z.of_nat (length w) + 40); VInt IPPROTO_VRRP;
                         VInt VRRP_IPV6_HOP_LIMIT; VBytes s; VBytes d] = Ok fixed.
Proof.
  eexists _, _. split; [vm_compute; reflexivity|].
  eapply (ipv6_length_overstated (C := conv) (AddrConvLaws0 := vrrp_conv_laws) Little PacketClaims.no_others advert6 _ (ip6_n 9));
    [|done|done|vm_compute; reflexivity].
  split; [by right|]. split; [done|]. split; [done|].
  split; [repeat constructor; eexists; split; vm_compute; reflexivity|by eexists].
Defined.

End VrrpPktClaims.
