(* ===== verification/VrrpRouter.v ===== *)
(** * The VRRP router (ryu/services/protocols/vrrp: router.py, monitor.py, event.py, api.py)

    The state machine of one virtual router with its timers, the filter in front of it
    and the calls of its clients.  A timer is the thread it has started: waiting, done
    (its handler has put an event in the queue of the application) or none.  A step of
    the world is a timer that expires, an event that arrives or the handling of the first
    event of the queue; an exception ends the event loop.  What an exception leaves of a
    cached packet object is not tracked, as nothing is handled after it. *)

From Stdlib Require Import ZArith QArith Lia Lqa.
From stdpp Require Import base list gmap strings numbers.
From S2P Require Import Prelude Struct PktUtils PktHeaders PktTransport Packet Ipv6 VrrpPkt.

#[local] Open Scope Z_scope.
Import Vrrp.

(** ** Timers *)

Inductive timer := Idle | Waiting (interval : Q) | Fired.

Definition timer_start (interval : Q) (t : timer) : timer := Waiting interval.
Definition timer_cancel (t : timer) : timer := Idle.
Definition is_running (t : timer) : bool := match t with Idle => false | _ => true end.

(** ** Configuration and events *)

Record VRRPConfig := MkConfig {
  c_version : Z; c_vrid : Z; admin_state : option string; c_priority : Z;
  c_ip_addresses : list string; advertisement_interval : Q; preempt_mode : bool;
  preempt_delay : Q; accept_mode : bool; c_is_ipv6 : bool; statistics_interval : Q }.

Definition address_owner (c : VRRPConfig) : bool := c_priority c =? VRRP_PRIORITY_ADDRESS_OWNER.

Record VRRPInterface := MkInterface { primary_ip_address : string; vlan_id : option Z }.

Record config_change := MkChange {
  ch_priority : option Z; ch_advertisement_interval : option Q; ch_preempt_mode : option bool;
  ch_preempt_delay : option Q; ch_accept_mode : option bool }.

Inductive vstate := Initialize | Master | Backup.

#[global] Instance vstate_eq_dec : EqDecision vstate.
Proof. solve_decision. Defined.

(** The change a client asks for, as a number or a truth value is used as a delay. *)
Definition py_number (b : bool) : Q := if b then 1 # 1 else 0 # 1.

(** [api.vrrp_config_change]: the positional arguments of the event are priority,
    interval, preemption and its delay. *)
Definition vrrp_config_change (priority : option Z) (interval : option Q)
    (preempt accept : option bool) : config_change :=
  MkChange priority interval preempt (py_number <$> accept) None.

Definition apply_change (ch : config_change) (c : VRRPConfig) : VRRPConfig :=
  MkConfig (c_version c) (c_vrid c) (admin_state c) (default (c_priority c) (ch_priority ch)) (c_ip_addresses c)
    (default (advertisement_interval c) (ch_advertisement_interval ch))
    (default (preempt_mode c) (ch_preempt_mode ch)) (default (preempt_delay c) (ch_preempt_delay ch))
    (default (accept_mode c) (ch_accept_mode ch)) (c_is_ipv6 c) (statistics_interval c).

Section Router.
Context `{C : AddrConv} (e : endian) (X : Others).

Abbreviation pkt := (list (item (with_vrrp e X))).

Inductive event :=
  | EvMasterDown
  | EvAdver
  | EvPreemptDelay
  | EvStatisticsOut
  | EvReceived (packet : pkt)
  | EvShutdown
  | EvConfigChange (ch : config_change).

Inductive effect := StateChanged (old : option vstate) (new : vstate) | Transmit (data : bytes).

Record t := MkT {
  interface : VRRPInterface; config : VRRPConfig;
  tx_vrrp_packets : Z; tx_vrrp_zero_prio_packets : Z;
  master_adver_interval : option Q;
  state : option vstate; cached : option vrrp;
  master_down_timer : timer; adver_timer : timer; preempt_delay_timer : timer; stats_out_timer : timer;
  out : list effect }.

Definition init (i : VRRPInterface) (c : VRRPConfig) : t :=
  MkT i c 0 0 None None None Idle Idle Idle Idle [].

Definition with_config c s := MkT (interface s) c (tx_vrrp_packets s) (tx_vrrp_zero_prio_packets s) (master_adver_interval s) (state s) (cached s) (master_down_timer s) (adver_timer s) (preempt_delay_timer s) (stats_out_timer s) (out s).
Definition with_interval i s := MkT (interface s) (config s) (tx_vrrp_packets s) (tx_vrrp_zero_prio_packets s) i (state s) (cached s) (master_down_timer s) (adver_timer s) (preempt_delay_timer s) (stats_out_timer s) (out s).
Definition with_cached v s := MkT (interface s) (config s) (tx_vrrp_packets s) (tx_vrrp_zero_prio_packets s) (master_adver_interval s) (state s) v (master_down_timer s) (adver_timer s) (preempt_delay_timer s) (stats_out_timer s) (out s).
Definition with_stats n z s := MkT (interface s) (config s) n z (master_adver_interval s) (state s) (cached s) (master_down_timer s) (adver_timer s) (preempt_delay_timer s) (stats_out_timer s) (out s).
Definition with_state st o s := MkT (interface s) (config s) (tx_vrrp_packets s) (tx_vrrp_zero_prio_packets s) (master_adver_interval s) st (cached s) (master_down_timer s) (adver_timer s) (preempt_delay_timer s) (stats_out_timer s) o.
Definition with_timers md ad pd so s := MkT (interface s) (config s) (tx_vrrp_packets s) (tx_vrrp_zero_prio_packets s) (master_adver_interval s) (state s) (cached s) md ad pd so (out s).

Definition on_master_down (f : timer -> timer) : stm t unit :=
  modify (fun s => with_timers (f (master_down_timer s)) (adver_timer s) (preempt_delay_timer s) (stats_out_timer s) s).
Definition on_adver (f : timer -> timer) : stm t unit :=
  modify (fun s => with_timers (master_down_timer s) (f (adver_timer s)) (preempt_delay_timer s) (stats_out_timer s) s).
Definition on_preempt_delay (f : timer -> timer) : stm t unit :=
  modify (fun s => with_timers (master_down_timer s) (adver_timer s) (f (preempt_delay_timer s)) (stats_out_timer s) s).
Definition on_stats_out (f : timer -> timer) : stm t unit :=
  modify (fun s => with_timers (master_down_timer s) (adver_timer s) (preempt_delay_timer s) (f (stats_out_timer s)) s).

(** ** VRRPParams *)

Definition skew_time (s : t) : res Q :=
  let priority := inject_Z (c_priority (config s)) in
  let version := c_version (config s) in
  if version =? VRRP_VERSION_V2 then Ok ((256 - priority) / 256)%Q
  else if version =? VRRP_VERSION_V3 then
    i ← or_raise TypeError (master_adver_interval s); Ok ((256 - priority) * i / 256)%Q
  else Err ValueError.

Definition master_down_interval (s : t) : res Q :=
  i ← or_raise TypeError (master_adver_interval s); k ← skew_time s; Ok (3 * i + k)%Q.

(** ** VRRPRouter *)

(** [send_advertisement]: the packet is cached until the configuration changes; the
    release is a copy with priority zero. *)
Definition send_advertisement (release : bool) : stm t unit :=
  s ← get;
  (match cached s with
   | Some _ => mret tt
   | None =>
       let c := config s in
       max_adver_int ← lift_res (sec_to_max_adver_int (c_version c) (advertisement_interval c));
       v ← lift_res (create_version (c_version c) VRRP_TYPE_ADVERTISEMENT (c_vrid c) (Some (c_priority c))
                       (Some max_adver_int) (c_ip_addresses c) None None);
       modify (with_cached (Some v))
   end) ;;
  s ← get;
  v ← lift_res (or_raise AttributeError (cached s));
  vrrp_ ← (if release
           then lift_res (create (version v) (type_ v) (vrid v) VRRP_PRIORITY_RELEASE_RESPONSIBILITY
                            (max_adver_int v) (ip_addresses v))
           else mret v);
  (if priority v =? 0 then modify (fun s => with_stats (tx_vrrp_packets s) (tx_vrrp_zero_prio_packets s + 1) s)
   else mret tt) ;;
  '(data, v') ← lift_res (packet_data e X vrrp_ (primary_ip_address (interface s)) (vlan_id (interface s)));
  modify (fun s => with_state (state s) (out s ++ [Transmit data])
                     (with_cached (if release then cached s else Some v') s)) ;;
  modify (fun s => with_stats (tx_vrrp_packets s + 1) (tx_vrrp_zero_prio_packets s) s).

Definition state_change (new_state : vstate) : stm t unit :=
  modify (fun s => with_state (Some new_state) (out s ++ [StateChanged (state s) new_state]) s).

(** The abstract class of a state: one method per event. *)
Record VRRPState := MkState {
  master_down : stm t unit; adver : stm t unit; preempt_delay_ : stm t unit;
  vrrp_received : pkt -> stm t unit; vrrp_shutdown_request : stm t unit;
  vrrp_config_change_request : config_change -> stm t unit }.

Definition start_adver : stm t unit :=
  s ← get; on_adver (timer_start (advertisement_interval (config s))).

Definition start_master_down : stm t unit :=
  s ← get; i ← lift_res (master_down_interval s); on_master_down (timer_start i).

Definition is_set {A} (o : option A) : bool := match o with Some _ => true | None => false end.

(** [vrrp.get_payload(ev.packet)] and the attributes that are read of the result. *)
Definition payload (packet : pkt) : stm t (ip_header * vrrp) :=
  o ← lift_res (get_payload e X packet); lift_res (or_raise AttributeError o).

(** A better master: a higher priority, or the same with a higher address. *)
Definition superior (c : VRRPConfig) (primary : string) (ip : ip_header) (v : vrrp) : res bool :=
  if c_priority c <? priority v then Ok true
  else if c_priority c =? priority v then ip_address_lt primary (ip_src ip)
  else Ok false.

Definition VRRPV2StateInitialize : VRRPState :=
  MkState (mret tt) (mret tt) (mret tt) (fun _ => mret tt) (mret tt) (fun _ => mret tt).

Definition _adver : stm t unit := send_advertisement false ;; start_adver.

Definition VRRPV2StateMaster : VRRPState := {|
  master_down := mret tt;
  adver := _adver;
  preempt_delay_ := mret tt;
  vrrp_received packet :=
    '(ip, v) ← payload packet;
    s ← get;
    if priority v =? 0 then send_advertisement false ;; start_adver
    else
      b ← lift_res (superior (config s) (primary_ip_address (interface s)) ip v);
      if b : bool then
        on_adver timer_cancel ;; state_change Backup ;; start_master_down
      else mret tt;
  vrrp_shutdown_request :=
    on_adver timer_cancel ;; send_advertisement true ;; state_change Initialize;
  vrrp_config_change_request ch :=
    if is_set (ch_priority ch) || is_set (ch_advertisement_interval ch)
    then on_adver timer_cancel ;; _adver else mret tt |}.

Definition _master_down : stm t unit :=
  send_advertisement false ;; on_preempt_delay timer_cancel ;; state_change Master ;; start_adver.

(** [if not preempt_delay_timer.is_running(): start] and the restart that follows. *)
Definition delay_preemption : stm t unit :=
  s ← get;
  (if is_running (preempt_delay_timer s) then mret tt
   else on_preempt_delay (timer_start (preempt_delay (config s)))) ;;
  start_master_down.

Definition start_skew_time : stm t unit :=
  s ← get; i ← lift_res (skew_time s); on_master_down (timer_start i).

Definition VRRPV2StateBackup : VRRPState := {|
  master_down := _master_down;
  adver := mret tt;
  preempt_delay_ := _master_down;
  vrrp_received packet :=
    '(_, v) ← payload packet;
    s ← get;
    let c := config s in
    if priority v =? 0 then start_skew_time
    else if negb (preempt_mode c) || (c_priority c <=? priority v) then
      on_preempt_delay timer_cancel ;; start_master_down
    else if Qle_bool (preempt_delay c) 0 then mret tt
    else delay_preemption;
  vrrp_shutdown_request :=
    on_master_down timer_cancel ;; on_preempt_delay timer_cancel ;; state_change Initialize;
  vrrp_config_change_request ch :=
    s ← get;
    (if is_set (ch_priority ch) && address_owner (config s)
     then on_master_down timer_cancel ;; _master_down else mret tt) ;;
    (if is_set (ch_preempt_mode ch) || is_set (ch_preempt_delay ch)
     then on_preempt_delay timer_cancel else mret tt) |}.

Definition VRRPV3StateInitialize : VRRPState :=
  MkState (mret tt) (mret tt) (mret tt) (fun _ => mret tt) (mret tt) (fun _ => mret tt).

Definition set_master_adver_interval (v : vrrp) : stm t unit :=
  i ← lift_res (max_adver_int_in_sec v); modify (with_interval (Some i)).

Definition VRRPV3StateMaster : VRRPState := {|
  master_down := mret tt;
  adver := _adver;
  preempt_delay_ := mret tt;
  vrrp_received packet :=
    '(ip, v) ← payload packet;
    s ← get;
    if priority v =? 0 then send_advertisement false ;; start_adver
    else
      b ← lift_res (superior (config s) (primary_ip_address (interface s)) ip v);
      if b : bool then
        on_adver timer_cancel ;; set_master_adver_interval v ;; state_change Backup ;; start_master_down
      else mret tt;
  vrrp_shutdown_request :=
    on_adver timer_cancel ;; send_advertisement true ;; state_change Initialize;
  vrrp_config_change_request ch :=
    if is_set (ch_priority ch) || is_set (ch_advertisement_interval ch)
    then on_adver timer_cancel ;; _adver else mret tt |}.

Definition VRRPV3StateBackup : VRRPState := {|
  master_down := _master_down;
  adver := mret tt;
  preempt_delay_ := _master_down;
  vrrp_received packet :=
    '(_, v) ← payload packet;
    s ← get;
    let c := config s in
    if priority v =? 0 then start_skew_time
    else if negb (preempt_mode c) || (c_priority c <=? priority v) then
      set_master_adver_interval v ;; start_master_down
    else if Qle_bool (preempt_delay c) 0 then mret tt
    else delay_preemption;
  vrrp_shutdown_request :=
    on_preempt_delay timer_cancel ;; on_master_down timer_cancel ;; state_change Initialize;
  vrrp_config_change_request ch :=
    s ← get;
    (if is_set (ch_priority ch) && address_owner (config s)
     then on_master_down timer_cancel ;; _master_down else mret tt) ;;
    (if is_set (ch_preempt_mode ch) || is_set (ch_preempt_delay ch)
     then on_preempt_delay timer_cancel else mret tt) |}.

(** [_STATE_MAP] of the class of a version *)
Definition _STATE_MAP (version : Z) (st : vstate) : VRRPState :=
  match version =? VRRP_VERSION_V2, st with
  | true, Initialize => VRRPV2StateInitialize
  | true, Master => VRRPV2StateMaster
  | true, Backup => VRRPV2StateBackup
  | false, Initialize => VRRPV3StateInitialize
  | false, Master => VRRPV3StateMaster
  | false, Backup => VRRPV3StateBackup
  end.

(** The part of [start] of either version before the event loop is started. *)
Definition startV2 : stm t unit :=
  s ← get;
  modify (with_interval (Some (advertisement_interval (config s)))) ;;
  state_change Initialize ;;
  if address_owner (config s) then send_advertisement false ;; state_change Master ;; start_adver
  else state_change Backup ;; start_master_down.

Definition startV3 : stm t unit :=
  s ← get;
  state_change Initialize ;;
  (if address_owner (config s) || bool_decide (admin_state (config s) = Some "master") then
     send_advertisement false ;; state_change Master ;; start_adver
   else
     modify (with_interval (Some (advertisement_interval (config s)))) ;;
     state_change Backup ;; start_master_down) ;;
  on_stats_out (timer_start (statistics_interval (config s))).

(** [VRRPRouter.factory] picks the class of the version. *)
Definition start : stm t unit :=
  s ← get;
  if c_version (config s) =? VRRP_VERSION_V2 then startV2
  else if c_version (config s) =? VRRP_VERSION_V3 then startV3
  else raise KeyError.

Definition state_impl (s : t) : res VRRPState :=
  st ← or_raise AttributeError (state s); Ok (_STATE_MAP (c_version (config s)) st).

(** The handlers of the router *)
Definition vrrp_config_change_request_handler (ch : config_change) : stm t unit :=
  modify (fun s => with_cached None (with_config (apply_change ch (config s)) s)) ;;
  s ← get; impl ← lift_res (state_impl s); vrrp_config_change_request impl ch.

Definition statistics_handler : stm t unit :=
  s ← get; on_stats_out (timer_start (statistics_interval (config s))).

Definition handle (ev : event) : stm t unit :=
  match ev with
  | EvStatisticsOut => statistics_handler
  | EvConfigChange ch => vrrp_config_change_request_handler ch
  | _ =>
      s ← get; impl ← lift_res (state_impl s);
      match ev with
      | EvMasterDown => master_down impl
      | EvAdver => adver impl
      | EvPreemptDelay => preempt_delay_ impl
      | EvReceived p => vrrp_received impl p
      | _ => vrrp_shutdown_request impl
      end
  end.

(** ** The event loop *)

Record world := MkWorld { router : t; events : list event; running : bool }.

Inductive step : world -> world -> Prop :=
  | MasterDownExpires w i : master_down_timer (router w) = Waiting i ->
      step w (MkWorld ((on_master_down (fun _ => Fired) (router w)).2) (events w ++ [EvMasterDown]) (running w))
  | AdverExpires w i : adver_timer (router w) = Waiting i ->
      step w (MkWorld ((on_adver (fun _ => Fired) (router w)).2) (events w ++ [EvAdver]) (running w))
  | PreemptDelayExpires w i : preempt_delay_timer (router w) = Waiting i ->
      step w (MkWorld ((on_preempt_delay (fun _ => Fired) (router w)).2) (events w ++ [EvPreemptDelay]) (running w))
  | StatisticsExpires w i : stats_out_timer (router w) = Waiting i ->
      step w (MkWorld ((on_stats_out (fun _ => Fired) (router w)).2) (events w ++ [EvStatisticsOut]) (running w))
  | Arrives w ev : match ev with EvReceived _ | EvShutdown | EvConfigChange _ => True | _ => False end ->
      step w (MkWorld (router w) (events w ++ [ev]) (running w))
  | Handles w ev evs : running w = true -> events w = ev :: evs ->
      step w (MkWorld (handle ev (router w)).2 evs (is_ok (handle ev (router w)).1)).

Inductive reachable : world -> Prop :=
  | Started i c s : start (init i c) = (Ok tt, s) -> reachable (MkWorld s [] true)
  | Stepped w w' : reachable w -> step w w' -> reachable w'.

(** ** The monitor *)

(** The bytes in front of the advertisement: the headers up to the network header. *)
Fixpoint vrrp_offset (l : pkt) : res Z :=
  match l with
  | [] => Ok 0
  | Data b :: l => n ← vrrp_offset l; Ok (Z.of_nat (length b) + n)
  | Header p :: l =>
      m ← proto_len (with_vrrp e X) p;
      match ip_of e X (Header p) with
      | Some _ => Ok m
      | None => n ← vrrp_offset l; Ok (m + n)
      end
  end.

Definition vlan_of (i : item (with_vrrp e X)) : option Vlan.tag :=
  match i with Header (Pvlan h) => Some h | _ => None end.

(** [_parse_received_packet]: the packet is passed on or dropped; [None] when the decoder
    has not ended after [fuel] turns. *)
Definition accept (c : VRRPConfig) (ifc : VRRPInterface) (data : bytes) (protocols : pkt) : res bool :=
  match protocols with
  | _ :: may_vlan :: _ =>
      if negb (Bool.eqb (is_set (vlan_id ifc)) (is_set (vlan_of may_vlan))) then Ok false
      else if bool_decide (Vlan.vid <$> vlan_of may_vlan <> vlan_id ifc) then Ok false
      else
        o ← get_payload e X protocols;
        match o with
        | None => Ok false
        | Some (ip, v) =>
            b ← is_valid_ttl ip;
            if negb b then Ok false
            else if negb (version v =? c_version c) then Ok false
            else if negb (is_valid v) then Ok false
            else
              offset ← vrrp_offset protocols;
              n ← vrrp_len v;
              b ← checksum_ok e v (ip_outer e X ip) (py_slice data offset (offset + n));
              Ok (b && (vrid v =? c_vrid c) && Bool.eqb (_is_ipv6 v) (c_is_ipv6 c))
        end
  | _ => Ok false
  end.

Record rx := MkRx { rx_vrrp_packets : Z; rx_vrrp_zero_prio_packets : Z; rx_vrrp_invalid_packets : Z }.

(** [_send_vrrp_packet_received]: the counters, and the packet the router is sent. *)
Definition send_vrrp_packet_received (fuel : nat) (c : VRRPConfig) (ifc : VRRPInterface) (data : bytes) (n : rx) :
    option (res (option pkt) * rx) :=
  match packet (with_vrrp e X) fuel data Cethernet with
  | None => None
  | Some (Err x) => Some (Err x, n)
  | Some (Ok protocols) => Some
      match accept c ifc data protocols with
      | Err x => (Err x, n)
      | Ok false => (Ok None, MkRx (rx_vrrp_packets n) (rx_vrrp_zero_prio_packets n) (rx_vrrp_invalid_packets n + 1))
      | Ok true =>
          let zero := match get_payload e X protocols with
                      | Ok (Some (_, v)) => if priority v =? 0 then 1 else 0
                      | _ => 0
                      end in
          (Ok (Some protocols),
           MkRx (rx_vrrp_packets n + 1) (rx_vrrp_zero_prio_packets n + zero) (rx_vrrp_invalid_packets n))
      end
  end.

End Router.
Arguments EvMasterDown {_ _ _}. Arguments EvAdver {_ _ _}. Arguments EvPreemptDelay {_ _ _}.
Arguments EvStatisticsOut {_ _ _}. Arguments EvShutdown {_ _ _}. Arguments EvConfigChange {_ _ _}.

(** ** Invariants *)

Module RouterFacts.
Import VrrpFacts.

Definition is_transmit (x : effect) : bool := match x with Transmit _ => true | _ => false end.
Definition transmits (l : list effect) : Z := Z.of_nat (length (List.filter is_transmit l)).

(** What never changes of a router over IPv4 *)
Record static_ok `{C : AddrConv} (ifc : VRRPInterface) (c : VRRPConfig) : Prop := {
  st_version : c_version c = VRRP_VERSION_V2 \/ c_version c = VRRP_VERSION_V3;
  st_addresses : ipv4_addresses (c_ip_addresses c);
  st_primary : canonical IPV4 (primary_ip_address ifc);
  st_group : canonical IPV4 VRRP_IPV4_DST_ADDRESS;
  st_vlan : match vlan_id ifc with Some vid => 0 <= vid < 4096 | None => True end }.

Section Facts.
Context `{C : AddrConv} `{!AddrConvLaws C} (e : endian) (X : Others).

(** The cached packet is the one the configuration asks for. *)
Record advertises (c : VRRPConfig) (v : vrrp) : Prop := {
  ad_version : version v = c_version c; ad_type : type_ v = VRRP_TYPE_ADVERTISEMENT; ad_vrid : vrid v = c_vrid c;
  ad_priority : priority v = c_priority c;
  ad_interval : sec_to_max_adver_int (c_version c) (advertisement_interval c) = Ok (max_adver_int v);
  ad_addresses : ip_addresses v = c_ip_addresses c }.

Definition cached_ok (ifc : VRRPInterface) (c : VRRPConfig) (o : option vrrp) : Prop :=
  static_ok ifc c -> match o with Some v => sendable e (primary_ip_address ifc) v /\ advertises c v | None => True end.

Lemma nothing_cached ifc c : cached_ok ifc c None.
Proof. done. Qed.

Lemma same_advertises c v v' : same_advert v v' -> advertises c v -> advertises c v'.
Proof. intros (H1 & H2 & H3 & H4 & H5 & H6) []. constructor; congruence. Qed.

(** What sending leaves in the cache *)
Lemma sent_cached_ok ifc c v data v' : cached_ok ifc c (Some v) ->
  packet_data e X v (primary_ip_address ifc) (vlan_id ifc) = Ok (data, v') -> cached_ok ifc c (Some v').
Proof.
  intros Hc Hd Hst. destruct (Hc Hst) as [Hse Had]. destruct Hst. pose proof Hse as [Hwf H6 _ _ _].
  destruct (frame_decodes e X v _ _ _ _ Hwf H6 st_primary0 st_group0 st_vlan0 Hd)
    as (hs & ip & pre & w & i & _ & _ & _ & HW & _).
  destruct (written_sendable e _ _ _ _ Hse HW) as [Hse' Hsame]. split; [done|]. by eapply same_advertises.
Qed.

Lemma transmits_app l m : transmits (l ++ m) = transmits l + transmits m.
Proof. unfold transmits. rewrite List.filter_app, length_app. lia. Qed.

Lemma transmits_sent d : transmits [Transmit d] = 1.
Proof. done. Qed.

Lemma transmits_changed a b : transmits [StateChanged a b] = 0.
Proof. done. Qed.

(** The packet a configuration asks for *)
Lemma built ifc c : static_ok ifc c -> forall n, sec_to_max_adver_int (c_version c) (advertisement_interval c) = Ok n ->
  exists v, create_version (c_version c) VRRP_TYPE_ADVERTISEMENT (c_vrid c) (Some (c_priority c)) (Some n)
      (c_ip_addresses c) None None = Ok v
    /\ sendable e (primary_ip_address ifc) v /\ advertises c v.
Proof.
  intros [Hv Ha _ _ _] n Hn.
  destruct (created_sendable e (c_version c) (c_vrid c) (c_priority c) n (c_ip_addresses c) None None (primary_ip_address ifc))
    as (v & E & Hs & (H1 & H2 & H3 & H4 & H5 & H6)); [destruct Hv; [left|right]; done|done|].
  exists v. split; [done|]. split; [done|]. constructor; try done. rewrite Hn. by rewrite H5.
Qed.

Lemma with_cached_same s : with_cached (cached s) s = s.
Proof. by destruct s. Qed.

(** The first part of [send_advertisement] *)
Definition fill_cache (s : t) : stm t unit :=
  match cached s with
  | Some _ => mret tt
  | None =>
      let c := config s in
      max_adver_int ← lift_res (sec_to_max_adver_int (c_version c) (advertisement_interval c));
      v ← lift_res (create_version (c_version c) VRRP_TYPE_ADVERTISEMENT (c_vrid c) (Some (c_priority c))
                      (Some max_adver_int) (c_ip_addresses c) None None);
      modify (with_cached (Some v))
  end.

Lemma fill_cache_inv s : exists v r, fill_cache s s = (r, with_cached v s)
  /\ (cached_ok (interface s) (config s) (cached s) -> cached_ok (interface s) (config s) v).
Proof.
  unfold fill_cache. destruct (cached s) as [v|] eqn:E; [exists (Some v), (Ok tt); by rewrite <- E, with_cached_same|].
  unfold mbind at 1, stm_bind at 1, lift_res at 1.
  destruct (sec_to_max_adver_int _ _) as [n|x] eqn:En; [|exists None, (Err x); by rewrite <- E, with_cached_same].
  unfold mbind at 1, stm_bind at 1, lift_res at 1.
  destruct (create_version _ _ _ _ _ _ _ _) as [v|x] eqn:Ev; [|exists None, (Err x); by rewrite <- E, with_cached_same].
  exists (Some v), (Ok tt). split; [done|]. intros _ Hst.
  destruct (built _ _ Hst n En) as (v' & Ev' & H). rewrite Ev in Ev'. by injection Ev' as <-.
Qed.

(** What sending an advertisement changes. *)
Lemma send_inv r (s s' : t) : send_advertisement e X r s = (Ok tt, s') ->
  exists data v z, s' = with_stats (tx_vrrp_packets s + 1) z
    (with_state (state s) (out s ++ [Transmit data]) (with_cached v s))
    /\ (cached_ok (interface s) (config s) (cached s) -> cached_ok (interface s) (config s) v).
Proof.
  unfold send_advertisement. unfold mbind at 1, stm_bind at 1, get at 1.
  change (match cached s with Some _ => _ | None => _ end) with (fill_cache s).
  destruct (fill_cache_inv s) as (v & r0 & Hm & Hc). unfold mbind at 1, stm_bind at 1. rewrite Hm. destruct r0 as [[]|x]; [|done].
  unfold mbind at 1, stm_bind at 1, get at 1. unfold mbind at 1, stm_bind at 1, lift_res at 1. cbn [cached with_cached].
  destruct v as [v|]; [|done]. cbn [or_raise]. unfold mbind at 1, stm_bind at 1.
  destruct r; unfold mbind, stm_bind, modify, mret, stm_ret, lift_res; [destruct (create _ _ _ _ _ _) as [v'|x]; [|done]|];
    destruct (priority v =? 0); destruct (packet_data _ _ _ _ _) as [[data v2]|x] eqn:Hd; try done; intros [= <-];
    eexists _, _, _; (split; [done|]); intros H; try (by apply Hc); by eapply sent_cached_ok; [apply Hc|exact Hd].
Qed.

Record router_ok (s : t) : Prop := {
  ok_version : c_version (config s) = VRRP_VERSION_V2 \/ c_version (config s) = VRRP_VERSION_V3;
  ok_state : state s <> None;
  ok_adver : adver_timer s <> Idle <-> state s = Some Master;
  ok_preempt : preempt_delay_timer s <> Idle -> state s = Some Backup;
  ok_backup : state s = Some Backup -> master_down_timer s <> Idle;
  ok_interval : state s = Some Backup \/ c_version (config s) = VRRP_VERSION_V2 -> master_adver_interval s <> None;
  ok_tx : tx_vrrp_packets s = transmits (out s);
  ok_cached : cached_ok (interface s) (config s) (cached s) }.

(** The timers a handler leaves done were done before, and it was not their event. *)
Record fired (ev : event e X) (s s' : t) : Prop := {
  fired_adver : adver_timer s' = Fired -> adver_timer s = Fired /\ ev <> EvAdver;
  fired_down : state s' = Some Backup -> master_down_timer s' = Fired ->
    master_down_timer s = Fired /\ state s = Some Backup /\ ev <> EvMasterDown;
  fired_preempt : preempt_delay_timer s' = Fired -> preempt_delay_timer s = Fired /\ ev <> EvPreemptDelay }.

Lemma stm_bind_inv {S A B} (m : stm S A) (f : A -> stm S B) s b s' : (m ≫= f) s = (Ok b, s') ->
  exists a s1, m s = (Ok a, s1) /\ f a s1 = (Ok b, s').
Proof. unfold mbind, stm_bind. destruct (m s) as [[a|x] s1]; [|done]. by eexists _, _. Qed.

Lemma modify_inv {S} (f : S -> S) s u s' : modify f s = (Ok u, s') -> s' = f s.
Proof. by intros [= _ <-]. Qed.

Lemma mret_inv {S A} (a b : A) (s s' : S) : (mret a : stm S A) s = (Ok b, s') -> b = a /\ s' = s.
Proof. by intros [= <- <-]. Qed.

(** Follow a handler that returns, statement by statement. *)
Ltac follow :=
  repeat match goal with
  | H : (_ ≫= _) _ = (Ok _, _) |- _ =>
      let H1 := fresh in apply stm_bind_inv in H as (? & ? & H1 & H)
  | H : (match ?p with (_, _) => _ end) _ = (Ok _, _) |- _ => destruct p
  | H : (if ?b then _ else _) _ = (Ok _, _) |- _ => destruct b eqn:?
  | H : send_advertisement _ _ _ _ = (Ok ?u, _) |- _ =>
      destruct u; apply send_inv in H as (? & ? & ? & -> & ?)
  | H : get _ = (Ok _, _) |- _ => injection H as <- <-
  | H : modify _ _ = (Ok _, _) |- _ => apply modify_inv in H as ->
  | H : mret _ _ = (Ok _, _) |- _ => apply mret_inv in H as [? ->]
  | H : lift_res ?r _ = (Ok _, _) |- _ => unfold lift_res in H; injection H as H <-
  end.

Ltac settle :=
  repeat match goal with
  | H : router_ok _ |- _ => destruct H
  end; split; constructor; cbn in *; unfold timer_start, timer_cancel in *;
  rewrite ?transmits_app, ?transmits_sent, ?transmits_changed; try (intuition (congruence || lia)).

(** A handler that keeps what the invariant says of the router. *)
Definition keeps (ev : event e X) (st : vstate) (version : Z) (m : stm t unit) : Prop :=
  forall s s', router_ok s -> state s = Some st -> c_version (config s) = version -> m s = (Ok tt, s') ->
    router_ok s' /\ fired ev s s'.

Ltac unfold_methods :=
  unfold _adver, _master_down, delay_preemption, start_adver, start_master_down, start_skew_time,
    set_master_adver_interval, payload, state_change, on_adver, on_master_down, on_preempt_delay in *.

Ltac method := intros s s' Hok Hst Hv H; unfold_methods; cbv beta iota in H; follow; settle.

Lemma nothing_kept ev st version : ev <> EvAdver \/ st <> Master -> ev <> EvMasterDown \/ st <> Backup ->
  ev <> EvPreemptDelay \/ st <> Backup -> keeps ev st version (mret tt).
Proof. intros H1 H2 H3. method. Qed.

Lemma adver_kept ev version : keeps ev Master version (_adver e X).
Proof. method. Qed.

Lemma master_down_kept ev version : keeps ev Backup version (_master_down e X).
Proof. method. Qed.

Lemma receive_master_kept p : keeps (EvReceived e X p) Master VRRP_VERSION_V2 (vrrp_received e X (VRRPV2StateMaster e X) p).
Proof. cbn [vrrp_received VRRPV2StateMaster]. method. Qed.

Lemma receive_master3_kept p : keeps (EvReceived e X p) Master VRRP_VERSION_V3 (vrrp_received e X (VRRPV3StateMaster e X) p).
Proof. cbn [vrrp_received VRRPV3StateMaster]. method. Qed.

Lemma receive_backup_kept p : keeps (EvReceived e X p) Backup VRRP_VERSION_V2 (vrrp_received e X (VRRPV2StateBackup e X) p).
Proof. cbn [vrrp_received VRRPV2StateBackup]. method. Qed.

Lemma receive_backup3_kept p : keeps (EvReceived e X p) Backup VRRP_VERSION_V3 (vrrp_received e X (VRRPV3StateBackup e X) p).
Proof. cbn [vrrp_received VRRPV3StateBackup]. method. Qed.

Lemma shutdown_master_kept version impl : vrrp_shutdown_request e X impl = vrrp_shutdown_request e X (VRRPV2StateMaster e X) ->
  keeps EvShutdown Master version (vrrp_shutdown_request e X impl).
Proof. intros ->. cbn [vrrp_shutdown_request VRRPV2StateMaster]. method. Qed.

Lemma shutdown_backup_kept version : keeps EvShutdown Backup version (vrrp_shutdown_request e X (VRRPV2StateBackup e X)).
Proof. cbn [vrrp_shutdown_request VRRPV2StateBackup]. method. Qed.

Lemma shutdown_backup3_kept version : keeps EvShutdown Backup version (vrrp_shutdown_request e X (VRRPV3StateBackup e X)).
Proof. cbn [vrrp_shutdown_request VRRPV3StateBackup]. method. Qed.

Lemma change_master_kept ch version : keeps (EvConfigChange ch) Master version (vrrp_config_change_request e X (VRRPV2StateMaster e X) ch).
Proof. cbn [vrrp_config_change_request VRRPV2StateMaster]. method. Qed.

Lemma change_backup_kept ch version : keeps (EvConfigChange ch) Backup version (vrrp_config_change_request e X (VRRPV2StateBackup e X) ch).
Proof. cbn [vrrp_config_change_request VRRPV2StateBackup]. method. Qed.

Lemma changed_config_ok ch s : router_ok s -> router_ok (with_cached None (with_config (apply_change ch (config s)) s)).
Proof. intros []. by constructor. Qed.

Definition method_of (ev : event e X) (impl : VRRPState e X) : stm t unit :=
  match ev with
  | EvMasterDown => master_down e X impl
  | EvAdver => adver e X impl
  | EvPreemptDelay => preempt_delay_ e X impl
  | EvReceived _ _ p => vrrp_received e X impl p
  | EvShutdown => vrrp_shutdown_request e X impl
  | EvConfigChange ch => vrrp_config_change_request e X impl ch
  | EvStatisticsOut => mret tt
  end.

Lemma methods_kept ev st version : version = VRRP_VERSION_V2 \/ version = VRRP_VERSION_V3 ->
  ev <> EvStatisticsOut -> keeps ev st version (method_of ev (_STATE_MAP e X version st)).
Proof.
  intros [-> | ->] Hs; destruct st, ev; try done; cbn;
    first [apply nothing_kept; (left; discriminate) || (right; discriminate)
          | apply adver_kept | apply master_down_kept | apply receive_master_kept | apply receive_master3_kept
          | apply receive_backup_kept | apply receive_backup3_kept
          | apply (shutdown_master_kept _ (VRRPV2StateMaster e X)); reflexivity
          | apply shutdown_backup_kept | apply shutdown_backup3_kept | apply change_master_kept | apply change_backup_kept].
Qed.

(** Every event, in every state of either version. *)
Lemma handle_ok ev (s s' : t) : router_ok s -> handle e X ev s = (Ok tt, s') -> router_ok s' /\ fired ev s s'.
Proof.
  assert (Hrun : forall s, router_ok s -> ev <> EvStatisticsOut ->
    (s1 ← get; impl ← lift_res (state_impl e X s1); method_of ev impl) s = (Ok tt, s') -> router_ok s' /\ fired ev s s').
  { clear s. intros s Hok Hne H. apply stm_bind_inv in H as (s1 & s2 & [= <- <-] & H).
    apply stm_bind_inv in H as (impl & s2 & Hi & H). unfold lift_res, state_impl in Hi.
    destruct (state s) as [st|] eqn:Hst; [|done]. injection Hi as <- <-.
    apply (methods_kept ev st (c_version (config s))); try done. apply Hok. }
  intros Hok H. destruct ev; try (by apply Hrun).
  - unfold handle, statistics_handler, on_stats_out in H. follow. settle.
  - unfold handle, vrrp_config_change_request_handler in H. apply stm_bind_inv in H as ([] & s1 & H1 & H).
    apply modify_inv in H1 as ->. destruct (Hrun _ (changed_config_ok ch s Hok) ltac:(done) H) as [H1 []]. by split; [|split].
Qed.

Lemma router_start_ok i c s : start e X (init i c) = (Ok tt, s) -> router_ok s
  /\ adver_timer s <> Fired /\ master_down_timer s <> Fired /\ preempt_delay_timer s <> Fired.
Proof.
  intros H. unfold start in H. apply stm_bind_inv in H as (s0 & s1 & [= <- <-] & H). cbn [config init] in H.
  destruct (Z.eqb_spec (c_version c) VRRP_VERSION_V2) as [Hv|_];
    [|destruct (Z.eqb_spec (c_version c) VRRP_VERSION_V3) as [Hv|_]; [|done]];
    unfold startV2, startV3, on_stats_out in H; unfold_methods; follow; cbn in *; unfold timer_start, VRRP_VERSION_V2, VRRP_VERSION_V3 in *;
    (split; [constructor; unfold VRRP_VERSION_V2, VRRP_VERSION_V3; cbn; rewrite ?transmits_app, ?transmits_sent, ?transmits_changed; try (intuition (congruence || lia)); auto using nothing_cached|done]).
Qed.

(** The event of a timer that has expired is in the queue. *)
Record world_ok (w : world e X) : Prop := {
  wok_router : router_ok (router e X w);
  wok_adver : adver_timer (router e X w) = Fired -> EvAdver ∈ events e X w;
  wok_down : state (router e X w) = Some Backup -> master_down_timer (router e X w) = Fired -> EvMasterDown ∈ events e X w;
  wok_preempt : preempt_delay_timer (router e X w) = Fired -> EvPreemptDelay ∈ events e X w }.

Lemma timers_ok md ad pd so s : router_ok s ->
  (ad <> Idle <-> adver_timer s <> Idle) -> (pd <> Idle -> preempt_delay_timer s <> Idle) ->
  (master_down_timer s <> Idle -> md <> Idle) -> router_ok (with_timers md ad pd so s).
Proof. intros [] H1 H2 H3. constructor; cbn; tauto. Qed.

Lemma step_ok_world w w' : step e X w w' -> (running e X w = true -> world_ok w) -> running e X w' = true -> world_ok w'.
Proof.
  intros Hs Hw Hr. destruct Hs as [w i Hi|w i Hi|w i Hi|w i Hi|w ev Hev|w ev evs Hrun Hq]; cbn [running] in *.
  1-4: destruct (Hw Hr) as [Hok H1 H2 H3];
    (constructor; cbn; [apply timers_ok; [done|rewrite ?Hi; done..]| | |]); set_solver by congruence.
  - destruct (Hw Hr). constructor; cbn; [done|set_solver..].
  - destruct (Hw Hrun) as [Hok H1 H2 H3]. destruct (handle e X ev (router e X w)) as [[[]|x] s'] eqn:Hh; [|done]. cbn.
    destruct (handle_ok _ _ _ Hok Hh) as [Hok' [F1 F2 F3]]. constructor; cbn; [done| | |].
    + intros F. destruct (F1 F) as [Ha Hne]. specialize (H1 Ha). rewrite Hq in H1. set_solver.
    + intros Hst F. destruct (F2 Hst F) as (Ha & Hb & Hne). specialize (H2 Hb Ha). rewrite Hq in H2. set_solver.
    + intros F. destruct (F3 F) as [Ha Hne]. specialize (H3 Ha). rewrite Hq in H3. set_solver.
Qed.

Lemma reachable_world_ok w : reachable e X w -> running e X w = true -> world_ok w.
Proof.
  induction 1 as [i c s Hs|w w' _ IH Hstep]; intros Hr; [|by eapply step_ok_world].
  destruct (router_start_ok _ _ _ Hs) as (Hok & H1 & H2 & H3). by constructor.
Qed.

End Facts.
End RouterFacts.
