(* ===== verification/VrrpElection.v ===== *)
(** * Virtual routers that hear each other (ryu/services/protocols/vrrp, ryu/lib/packet/vrrp.py)

    What the state machine of [VrrpRouter], the packets of [VrrpPkt] and the filter of the
    monitor promise together: the advertisement of a router is accepted by the monitor of
    another one of the same virtual router, of two masters exactly one yields, a backup
    takes over when the master is silent, and a master that is shut down makes way. *)

From Stdlib Require Import ZArith QArith Qround Lia Lqa.
From stdpp Require Import base list gmap strings numbers.
From S2P Require Import Prelude Struct PktUtils PktHeaders PktTransport Packet Ipv6 VrrpPkt VrrpRouter.

#[local] Open Scope Z_scope.
Import Vrrp VrrpFacts RouterFacts.

(** ** One advertisement from one router to another *)

Module ElectionFacts.
Section Facts.
Context `{C : AddrConv} `{!AddrConvLaws C} (e : endian) (X : Others).

(** A configuration whose advertisements are valid packets over IPv4. *)
Record config_ok (ifc : VRRPInterface) (c : VRRPConfig) : Prop := {
  cf_static : static_ok ifc c;
  cf_ipv4 : c_is_ipv6 c = false;
  cf_vrid : 1 <= c_vrid c <= 255;
  cf_priority : 0 <= c_priority c <= 255;
  cf_addresses : Z.of_nat (length (c_ip_addresses c)) < 256;
  cf_interval : exists n, sec_to_max_adver_int (c_version c) (advertisement_interval c) = Ok n
    /\ 1 <= n <= (if c_version c =? VRRP_VERSION_V2 then 0xff else VRRP_V3_MAX_ADVER_INT_MASK);
  cf_mac : exists b, text_to_bin MAC VRRP_IPV4_DST_MAC_ADDRESS = Ok b;
  cf_src_mac : exists b, text_to_bin MAC (vrrp_ipv4_src_mac_address (c_vrid c)) = Ok b }.

(** Two routers of one virtual router. *)
Record peers (c : VRRPConfig) (ifc : VRRPInterface) (c' : VRRPConfig) (ifc' : VRRPInterface) : Prop := {
  pe_version : c_version c = c_version c'; pe_vrid : c_vrid c = c_vrid c'; pe_vlan : vlan_id ifc = vlan_id ifc' }.

Lemma advert_ranges ifc c v : config_ok ifc c -> sendable e (primary_ip_address ifc) v -> advertises c v ->
  in_ranges v /\ is_valid (authenticated v) = true.
Proof.
  intros [] [Hwf H6 Hid Hs Hc] []. destruct cf_interval0 as (n & En & Hn). rewrite ad_interval0 in En. injection En as <-.
  destruct Hwf as (Hver & Hty & Hcnt & _). split.
  - repeat split; try lia; try (rewrite ?ad_version0, ?ad_addresses0; lia). exact Hc.
  - unfold is_valid, authenticated, in_range. rewrite ad_version0 in *.
    destruct (st_version _ _ cf_static0) as [Hv|Hv]; rewrite Hv in *; cbn [Z.eqb Pos.eqb VRRP_VERSION_V2 VRRP_VERSION_V3 version with_auth
      type_ vrid priority auth_type max_adver_int count_ip ip_addresses] in *; rewrite ?ad_version0, ?Hv; cbn [Z.eqb Pos.eqb VRRP_VERSION_V2 VRRP_VERSION_V3];
      unfold VRRP_V3_MAX_ADVER_INT_MASK in *; rewrite ?andb_true_iff, ?Z.leb_le, ?Z.eqb_eq, ?bool_decide_eq_true; repeat split; lia || done.
Qed.

(** The headers of a frame are skipped to the network header. *)
Lemma link_payload vid hs ip v : link_headers e X vid hs -> Ipv4.header_length ip = 5 ->
  (exists n, vrrp_len v = Ok n /\ 0 < n) ->
  get_payload e X (hs ++ [Header (Pipv4 ip); hvrrp e X v]) = Ok (Some (Ip4 ip, v))
  /\ vrrp_offset e X (hs ++ [Header (Pipv4 ip); hvrrp e X v]) = Ok (match vid with Some _ => 38 | None => 34 end).
Proof.
  intros (eth & ->) Hh (n & Hn & Hpos). destruct vid; cbn; rewrite Hh; cbn; rewrite Hn; cbn;
    (destruct (Z.eqb_spec n 0); [lia|done]).
Qed.

Lemma ip_outer_of primary ip : Ipv4.version ip = 4 -> Ipv4.src ip = primary -> Ipv4.dst ip = VRRP_IPV4_DST_ADDRESS ->
  Ipv4.proto ip = IPPROTO_VRRP -> ip_outer e X (Ip4 ip) = ip4_outer primary.
Proof. intros H1 H2 H3 H4. unfold ip_outer, ip4_outer, outer_of. by rewrite H1, H2, H3, H4. Qed.

(** The monitor of a peer passes the advertisement on. *)
Lemma advert_accepted ifc c ifc' c' v data v' fuel padding n :
  config_ok ifc c -> config_ok ifc' c' -> peers c ifc c' ifc' ->
  sendable e (primary_ip_address ifc) v -> advertises c v ->
  packet_data e X v (primary_ip_address ifc) (vlan_id ifc) = Ok (data, v') -> (5 <= fuel)%nat ->
  exists p ip v'', send_vrrp_packet_received e X fuel c' ifc' (data ++ padding) n
      = Some (Ok (Some p), MkRx (rx_vrrp_packets n + 1) (rx_vrrp_zero_prio_packets n + if c_priority c =? 0 then 1 else 0) (rx_vrrp_invalid_packets n))
    /\ get_payload e X p = Ok (Some (Ip4 ip, v'')) /\ Ipv4.src ip = primary_ip_address ifc /\ advertises c v''.
Proof.
  intros Hcf Hcf' [Pv Pr Pl] Hse Had Hd Hfu. destruct (advert_ranges _ _ _ Hcf Hse Had) as [Hr Hval].
  pose proof Hse as [Hwf H6 Hid Hset Hcs]. destruct (cf_static _ _ Hcf) as [_ _ Hp Hg Hvl].
  destruct (frame_decodes e X v _ _ _ _ Hwf H6 Hp Hg Hvl Hd)
    as (hs & ip & pre & w & i & Hl & -> & Lp & HW & E1 & E2 & E3 & E4 & E5 & E6 & Hdec).
  pose proof (Hset _ _ HW) as Hck. destruct (written_parses e (identified v) _ _ _ Hwf HW) as [Hlen _].
  destruct (written_sendable e _ _ _ _ Hse HW) as [Hse' Hsame].
  pose proof (same_advertises _ _ _ Hsame Had) as Had'.
  destruct HW as (pre0 & c0 & adr & bins & auth & Ev & Ew & L0 & _).
  set (v'' := with_identification v' 0).
  assert (Hlen' : vrrp_len v'' = Ok (Z.of_nat (length w))) by exact Hlen.
  assert (Lw : (6 <= length w)%nat) by (rewrite Ew, !length_app; lia).
  destruct (link_payload (vlan_id ifc) hs ip v'' Hl E2) as [Hpay Hoff]; [eexists; split; [exact Hlen'|lia]|].
  exists (hs ++ [Header (Pipv4 ip); hvrrp e X v'']), ip, v''.
  split; [|split; [done|split; [done|by destruct Had'; constructor]]].
  unfold send_vrrp_packet_received. rewrite Hdec by done. change (with_identification v' 0) with v''.
  assert (Hacc : accept e X c' ifc' ((pre ++ w) ++ padding) (hs ++ [Header (Pipv4 ip); hvrrp e X v'']) = Ok true).
  { assert (Hvals : is_valid v'' = true).
    { revert Hval. unfold v''. rewrite Ev. unfold authenticated. change (version (identified v)) with (version v). by destruct (_ =? _). }
    assert (Hslice : forall o : Z, Z.of_nat (length pre) = o -> py_slice ((pre ++ w) ++ padding) o (o + Z.of_nat (length w)) = w).
    { intros o <-. unfold py_slice. rewrite Nat2Z.id, <- Nat2Z.inj_add, Nat2Z.id, <- app_assoc, drop_app_length.
      replace (length pre + length w - length pre)%nat with (length w) by lia. apply take_app_length. }
    assert (Hout := ip_outer_of _ _ E1 E4 E5 E6).
    assert (Hck' : checksum_ok e v'' (ip_outer e X (Ip4 ip)) w = Ok true) by (rewrite Hout; exact Hck).
    assert (Hver : version v'' =? c_version c' = true) by (apply Z.eqb_eq; cbn; destruct Had'; congruence).
    assert (Hrid : vrid v'' =? c_vrid c' = true) by (apply Z.eqb_eq; cbn; destruct Had'; congruence).
    assert (H6' : _is_ipv6 v'' = c_is_ipv6 c') by (rewrite (cf_ipv4 _ _ Hcf'); apply Hse').
    destruct Hl as (eth & ->). rewrite Pl in *. destruct (vlan_id ifc') as [vid|] eqn:Evl; unfold accept; cbn [app vlan_of] in *;
      rewrite Evl; cbn [is_set Bool.eqb negb fmap option_fmap option_map Vlan.vid]; rewrite bool_decide_false by (intros ?; done);
      rewrite Hpay; cbn [mbind res_bind]; unfold is_valid_ttl; rewrite E1, E3; cbn [Z.eqb Pos.eqb mbind res_bind negb VRRP_IPV4_TTL];
      rewrite Hver, Hvals; cbn [negb]; rewrite Hoff; cbn [mbind res_bind]; rewrite Hlen'; cbn [mbind res_bind];
      rewrite Hslice by (rewrite Lp; done); rewrite Hck'; cbn [mbind res_bind];
      rewrite Hrid, H6', Bool.eqb_reflx; done. }
  rewrite Hacc, Hpay. change (priority v'') with (priority v'). by rewrite (ad_priority _ _ Had').
Qed.

(** ** Handlers that do not fail *)

Definition sent (data : bytes) (v : vrrp) (z : Z) (s : t) : t :=
  with_stats (tx_vrrp_packets s + 1) z (with_state (state s) (out s ++ [Transmit data]) (with_cached (Some v) s)).

Lemma fill_cache_total s : config_ok (interface s) (config s) -> cached_ok e (interface s) (config s) (cached s) ->
  exists v, fill_cache s s = (Ok tt, with_cached (Some v) s)
    /\ sendable e (primary_ip_address (interface s)) v /\ advertises (config s) v.
Proof.
  intros [Hst ? ? ? ? (n & En & _)] Hc. specialize (Hc Hst). unfold fill_cache. destruct (cached s) as [v|] eqn:E.
  - exists v. by rewrite <- E, with_cached_same.
  - destruct (built e _ _ Hst n En) as (v & Ev & Hv). exists v. split; [|done].
    unfold mbind, stm_bind, lift_res. rewrite En. by rewrite Ev.
Qed.

Lemma data_total ifc c v : config_ok ifc c -> sendable e (primary_ip_address ifc) v -> advertises c v ->
  exists data v', packet_data e X v (primary_ip_address ifc) (vlan_id ifc) = Ok (data, v').
Proof.
  intros Hcf Hse Had. destruct (advert_ranges _ _ _ Hcf Hse Had) as [Hr _]. destruct Hse as [Hwf H6 Hid _ _].
  apply packet_data_total; try done. destruct Hcf as [[] ? ? ? ? ? Hm Hs], Had. split; [done|]. split; [by rewrite ad_vrid0|]. done.
Qed.

Lemma send_total s : config_ok (interface s) (config s) -> cached_ok e (interface s) (config s) (cached s) ->
  exists v data v' z, send_advertisement e X false s = (Ok tt, sent data v' z s)
    /\ sendable e (primary_ip_address (interface s)) v /\ advertises (config s) v
    /\ packet_data e X v (primary_ip_address (interface s)) (vlan_id (interface s)) = Ok (data, v').
Proof.
  intros Hcf Hc. destruct (fill_cache_total s Hcf Hc) as (v & Hf & Hse & Had).
  destruct (data_total _ _ _ Hcf Hse Had) as (data & v' & Hd).
  exists v, data, v', (if priority v =? 0 then tx_vrrp_zero_prio_packets s + 1 else tx_vrrp_zero_prio_packets s). split; [|done].
  unfold send_advertisement. unfold mbind at 1, stm_bind at 1, get at 1.
  change (match cached s with Some _ => _ | None => _ end) with (fill_cache s).
  unfold mbind at 1, stm_bind at 1. rewrite Hf. unfold mbind, stm_bind, modify, mret, stm_ret, lift_res, get.
  cbn [cached with_cached or_raise]. destruct (priority v =? 0); cbn [interface with_stats with_cached]; by rewrite Hd.
Qed.

Ltac run := unfold mbind, stm_bind, modify, mret, stm_ret, lift_res, get in *.

(** The state machine of the two versions runs the same methods. *)
Lemma handle_method s st ev : state s = Some st ->
  match ev with EvStatisticsOut | EvConfigChange _ => False | _ => True end ->
  handle e X ev s = method_of e X ev (_STATE_MAP e X (c_version (config s)) st) s.
Proof. intros Hs Hev. destruct ev; try done; cbn [handle]; unfold state_impl; run; by rewrite Hs. Qed.

Definition armed (interval : Q) (s : t) : t :=
  with_timers (master_down_timer s) (Waiting interval) (preempt_delay_timer s) (stats_out_timer s) s.

Lemma adver_handled s data v' z : state s = Some Master ->
  send_advertisement e X false s = (Ok tt, sent data v' z s) ->
  handle e X EvAdver s = (Ok tt, armed (advertisement_interval (config s)) (sent data v' z s)).
Proof.
  intros Hs Hsend. rewrite (handle_method s Master) by done.
  assert (E : forall version, adver e X (_STATE_MAP e X version Master) = _adver e X)
    by (intros version; unfold _STATE_MAP; by destruct (_ =? _)).
  cbn [method_of]. rewrite E. unfold _adver, start_adver, on_adver. run. by rewrite Hsend.
Qed.

(** *** The order of routers *)

Definition bin (address : string) : bytes := match text_to_bin IPV4 address with Ok b => b | Err _ => [] end.

(** The second router is the better one: a higher priority, or an equal one with a higher
    address. *)
Definition beaten (c : VRRPConfig) (ifc : VRRPInterface) (c' : VRRPConfig) (ifc' : VRRPInterface) : bool :=
  (c_priority c <? c_priority c')
  || ((c_priority c =? c_priority c') && bytes_lt (bin (primary_ip_address ifc)) (bin (primary_ip_address ifc'))).

Lemma bytes_lt_total a b : a <> b -> bytes_lt a b = negb (bytes_lt b a).
Proof.
  revert b. induction a as [|x a IH]; intros [|y b] Hne; try done. cbn [bytes_lt]. rewrite (Z.eqb_sym y x).
  destruct (Z.eqb_spec x y) as [->|Hxy].
  - rewrite Z.ltb_irrefl. cbn. apply IH. congruence.
  - cbn. rewrite !orb_false_r. destruct (Z.ltb_spec x y), (Z.ltb_spec y x); lia || done.
Qed.

Lemma beaten_total c ifc c' ifc' : canonical IPV4 (primary_ip_address ifc) -> canonical IPV4 (primary_ip_address ifc') ->
  primary_ip_address ifc <> primary_ip_address ifc' -> beaten c ifc c' ifc' = negb (beaten c' ifc' c ifc).
Proof.
  intros (x & Ex & Tx) (y & Ey & Ty) Hne. unfold beaten, bin. rewrite Ex, Ey, (Z.eqb_sym (c_priority c')).
  assert (x <> y) by congruence. rewrite (bytes_lt_total x y) by done.
  destruct (Z.eqb_spec (c_priority c) (c_priority c')) as [->|Hp].
  - rewrite Z.ltb_irrefl. by rewrite negb_orb, negb_andb.
  - destruct (Z.ltb_spec (c_priority c) (c_priority c')), (Z.ltb_spec (c_priority c') (c_priority c)); lia || done.
Qed.

Lemma superior_beaten c ifc c' ifc' ip v : canonical IPV4 (primary_ip_address ifc) -> canonical IPV4 (primary_ip_address ifc') ->
  Ipv4.src ip = primary_ip_address ifc' -> advertises c' v ->
  superior c (primary_ip_address ifc) (Ip4 ip) v = Ok (beaten c ifc c' ifc').
Proof.
  intros (x & Ex & Tx) (y & Ey & Ty) Hs Had. unfold superior, beaten, bin, ip_address_lt, ip_text_to_bin, is_ipv6, ip_src.
  rewrite (ad_priority _ _ Had), Hs, Ex, Ey. cbn [mbind res_bind]. rewrite Ex, Ey. cbn [mbind res_bind].
  destruct (_ <? _); [done|]. by destruct (_ =? _).
Qed.

(** *** What a master does with an advertisement *)

Lemma master_received s p ip v b : router_ok e s -> state s = Some Master ->
  get_payload e X p = Ok (Some (ip, v)) -> priority v <> 0 -> version v = c_version (config s) ->
  superior (config s) (primary_ip_address (interface s)) ip v = Ok b ->
  exists s', handle e X (EvReceived e X p) s = (Ok tt, s') /\
    if b then state s' = Some Backup /\ adver_timer s' = Idle /\ (exists i, master_down_timer s' = Waiting i)
    else s' = s.
Proof.
  intros Hok Hs Hp Hpr Hv Hb. rewrite (handle_method s Master) by done. cbn [method_of].
  apply Z.eqb_neq in Hpr. pose proof (ok_interval _ _ Hok) as Hi. unfold _STATE_MAP.
  destruct (ok_version _ _ Hok) as [V|V]; rewrite V in *;
    [change (VRRP_VERSION_V2 =? VRRP_VERSION_V2) with true|change (VRRP_VERSION_V3 =? VRRP_VERSION_V2) with false];
    cbn [vrrp_received VRRPV2StateMaster VRRPV3StateMaster]; unfold payload; run; rewrite Hp; cbn [or_raise]; rewrite Hpr, Hb;
    destruct b; try (by eexists).
  - destruct (master_adver_interval s) as [m|] eqn:E; [|by destruct Hi; auto].
    unfold on_adver, state_change, start_master_down, on_master_down, master_down_interval, skew_time. run. cbn. rewrite E. cbn.
    unfold skew_time. cbn. rewrite V. cbn. eexists. split; [done|]. cbn. eauto.
  - unfold on_adver, state_change, start_master_down, on_master_down, set_master_adver_interval, max_adver_int_in_sec,
      max_adver_int_to_sec, master_down_interval, skew_time. run. rewrite Hv. cbn.
    unfold skew_time. cbn. rewrite V. cbn. eexists. split; [done|]. cbn. eauto.
Qed.

(** *** Taking over *)

Lemma takes_over s ev data v' z : ev = EvMasterDown \/ ev = EvPreemptDelay -> state s = Some Backup ->
  send_advertisement e X false s = (Ok tt, sent data v' z s) ->
  exists s', handle e X ev s = (Ok tt, s') /\ state s' = Some Master
    /\ adver_timer s' = Waiting (advertisement_interval (config s)) /\ preempt_delay_timer s' = Idle
    /\ out s' = out s ++ [Transmit data; StateChanged (Some Backup) Master].
Proof.
  intros Hev Hs Hsend. rewrite (handle_method s Backup) by (destruct Hev as [-> | ->]; done).
  assert (E : method_of e X ev (_STATE_MAP e X (c_version (config s)) Backup) = _master_down e X)
    by (unfold _STATE_MAP; destruct Hev as [-> | ->]; by destruct (_ =? _)).
  rewrite E. unfold _master_down, on_preempt_delay, state_change, start_adver, on_adver. run. rewrite Hsend.
  eexists. split; [done|]. cbn. rewrite Hs, <- app_assoc. done.
Qed.

(** *** Making way *)

(** The configuration that the packet of a leaving master advertises. *)
Definition released (c : VRRPConfig) : VRRPConfig :=
  MkConfig (c_version c) (c_vrid c) (admin_state c) VRRP_PRIORITY_RELEASE_RESPONSIBILITY (c_ip_addresses c)
    (advertisement_interval c) (preempt_mode c) (preempt_delay c) (accept_mode c) (c_is_ipv6 c) (statistics_interval c).

Lemma released_ok ifc c : config_ok ifc c -> config_ok ifc (released c).
Proof. intros [[] ? ? ? ? ? ? ?]. by constructor. Qed.

Lemma release_total s : config_ok (interface s) (config s) -> cached_ok e (interface s) (config s) (cached s) ->
  exists v data v' s', send_advertisement e X true s = (Ok tt, s')
    /\ state s' = state s /\ adver_timer s' = adver_timer s /\ out s' = out s ++ [Transmit data]
    /\ sendable e (primary_ip_address (interface s)) v /\ advertises (released (config s)) v
    /\ packet_data e X v (primary_ip_address (interface s)) (vlan_id (interface s)) = Ok (data, v').
Proof.
  intros Hcf Hc. destruct (fill_cache_total s Hcf Hc) as (v & Hf & Hse & Had).
  assert (Hr : exists r, create (version v) (type_ v) (vrid v) VRRP_PRIORITY_RELEASE_RESPONSIBILITY (max_adver_int v) (ip_addresses v) = Ok r
    /\ sendable e (primary_ip_address (interface s)) r /\ advertises (released (config s)) r).
  { destruct Had, Hcf as [[Hv Ha _ _ _] _ _ _ _ _ _ _]. rewrite ad_version0, ad_type0, ad_vrid0, ad_addresses0.
    destruct (create_sendable e (c_version (config s)) (c_vrid (config s)) VRRP_PRIORITY_RELEASE_RESPONSIBILITY (max_adver_int v)
      (c_ip_addresses (config s)) (primary_ip_address (interface s)) Hv Ha) as (r & E & Hs & H1 & H2 & H3 & H4 & H5 & H6).
    exists r. split; [done|]. split; [done|]. constructor; try done.
    cbn [released c_version advertisement_interval]. by rewrite ad_interval0, H5. }
  destruct Hr as (r & Er & Hsr & Har). destruct (data_total _ _ _ (released_ok _ _ Hcf) Hsr Har) as (data & v' & Hd).
  exists r, data, v'. unfold send_advertisement. unfold mbind at 1, stm_bind at 1, get at 1.
  change (match cached s with Some _ => _ | None => _ end) with (fill_cache s).
  unfold mbind at 1, stm_bind at 1. rewrite Hf. run. cbn [cached with_cached or_raise]. rewrite Er.
  destruct (priority v =? 0); cbn [interface with_stats with_cached]; rewrite Hd; by eexists.
Qed.

Lemma shutdown_handled s : router_ok e s -> state s = Some Master -> config_ok (interface s) (config s) ->
  exists v data v' s', handle e X EvShutdown s = (Ok tt, s') /\ state s' = Some Initialize /\ adver_timer s' = Idle
    /\ out s' = out s ++ [Transmit data; StateChanged (Some Master) Initialize]
    /\ sendable e (primary_ip_address (interface s)) v /\ advertises (released (config s)) v
    /\ packet_data e X v (primary_ip_address (interface s)) (vlan_id (interface s)) = Ok (data, v').
Proof.
  intros Hok Hs Hcf. rewrite (handle_method s Master) by done. cbn [method_of].
  set (s1 := with_timers (master_down_timer s) Idle (preempt_delay_timer s) (stats_out_timer s) s).
  destruct (release_total s1 Hcf (ok_cached _ _ Hok)) as (v & data & v' & s' & Hsend & H1 & H2 & H3 & H4 & H5 & H6).
  assert (E : vrrp_shutdown_request e X (_STATE_MAP e X (c_version (config s)) Master)
    = vrrp_shutdown_request e X (VRRPV2StateMaster e X)) by (unfold _STATE_MAP; by destruct (_ =? _)).
  rewrite E. cbn [vrrp_shutdown_request VRRPV2StateMaster]. unfold on_adver, state_change, timer_cancel. run.
  fold s1. rewrite Hsend. exists v, data, v'. eexists. split; [done|]. split; [done|]. split; [done|]. split; [|done].
  cbn. rewrite H3, H1. cbn. by rewrite Hs, <- app_assoc.
Qed.

(** A backup that hears it waits for its skew time only. *)
Lemma release_received s p ip v : router_ok e s -> state s = Some Backup ->
  get_payload e X p = Ok (Some (ip, v)) -> priority v = 0 ->
  exists k s', skew_time s = Ok k /\ handle e X (EvReceived e X p) s = (Ok tt, s')
    /\ state s' = Some Backup /\ master_down_timer s' = Waiting k.
Proof.
  intros Hok Hs Hp Hpr. assert (Hk : exists k, skew_time s = Ok k).
  { pose proof (ok_interval _ _ Hok (or_introl Hs)) as Hi. unfold skew_time.
    destruct (master_adver_interval s) as [m|]; [|done].
    destruct (ok_version _ _ Hok) as [-> | ->]; by eexists. }
  destruct Hk as (k & Hk). exists k. rewrite (handle_method s Backup) by done. cbn [method_of].
  unfold _STATE_MAP. destruct (_ =? _); cbn [vrrp_received VRRPV2StateBackup VRRPV3StateBackup]; unfold payload, start_skew_time, on_master_down;
    run; rewrite Hp; cbn [or_raise]; rewrite Hpr; cbn [Z.eqb]; rewrite Hk; eexists; by repeat split.
Qed.

(** *** Timers *)

(** The bound of the skew: a second in version 2, the interval of the master in version 3. *)
Definition skew_unit (s : t) (m : Q) : Q := if c_version (config s) =? VRRP_VERSION_V2 then 1%Q else m.

Lemma skew_bounds s m : master_adver_interval s = Some m -> (0 < m)%Q ->
  c_version (config s) = VRRP_VERSION_V2 \/ c_version (config s) = VRRP_VERSION_V3 -> 1 <= c_priority (config s) <= 255 ->
  exists k, skew_time s = Ok k /\ (0 < k < skew_unit s m)%Q
    /\ forall s' k', master_adver_interval s' = Some m -> c_version (config s') = c_version (config s) ->
         c_priority (config s) < c_priority (config s') -> skew_time s' = Ok k' -> (k' < k)%Q.
Proof.
  intros Hm Hpos Hv [Hp1 Hp2]. assert (Q1 : (1 <= inject_Z (c_priority (config s)) <= 255)%Q)
    by (change 1%Q with (inject_Z 1); change 255%Q with (inject_Z 255); rewrite <- !Zle_Qle; done).
  unfold skew_time, skew_unit. destruct Hv as [Hv|Hv]; rewrite Hv;
    [change (VRRP_VERSION_V2 =? VRRP_VERSION_V2) with true
    |change (VRRP_VERSION_V3 =? VRRP_VERSION_V2) with false; change (VRRP_VERSION_V3 =? VRRP_VERSION_V3) with true; rewrite Hm];
    cbv iota; cbn [or_raise mbind res_bind]; (eexists; split; [done|]); unfold Qdiv; change (/ 256)%Q with (1 # 256)%Q.
  - split; [lra|]. intros s' k' Hm' Hv' Hp'. rewrite Hv'. change (VRRP_VERSION_V2 =? VRRP_VERSION_V2) with true. cbv iota.
    intros [= <-]. rewrite Zlt_Qlt in Hp'. change (/ 256)%Q with (1 # 256)%Q. lra.
  - set (q := inject_Z (c_priority (config s))) in *. split; [split; nra|].
    intros s' k' Hm' Hv' Hp'. rewrite Hv', Hm'. change (VRRP_VERSION_V3 =? VRRP_VERSION_V2) with false.
    change (VRRP_VERSION_V3 =? VRRP_VERSION_V3) with true. cbv iota. cbn [or_raise mbind res_bind].
    intros [= <-]. rewrite Zlt_Qlt in Hp'. fold q in Hp'. unfold Qdiv. change (/ 256)%Q with (1 # 256)%Q. nra.
Qed.

(** *** What a backup does with the advertisement of a router it respects *)

Lemma backup_received s p ip v : router_ok e s -> state s = Some Backup -> get_payload e X p = Ok (Some (ip, v)) ->
  version v = c_version (config s) -> c_priority (config s) <= priority v -> priority v <> 0 ->
  exists s', handle e X (EvReceived e X p) s = (Ok tt, s') /\ state s' = Some Backup
    /\ preempt_delay_timer s' = if c_version (config s) =? VRRP_VERSION_V2 then Idle else preempt_delay_timer s.
Proof.
  intros Hok Hs Hp Hv Hpr H0. apply Z.eqb_neq in H0. apply Z.leb_le in Hpr.
  pose proof (ok_interval _ _ Hok (or_introl Hs)) as Hi. destruct (master_adver_interval s) as [m|] eqn:E; [|done].
  rewrite (handle_method s Backup) by done. cbn [method_of]. unfold _STATE_MAP.
  destruct (ok_version _ _ Hok) as [V|V]; rewrite V in *;
    [change (VRRP_VERSION_V2 =? VRRP_VERSION_V2) with true|change (VRRP_VERSION_V3 =? VRRP_VERSION_V2) with false];
    cbn [vrrp_received VRRPV2StateBackup VRRPV3StateBackup]; unfold payload; run; rewrite Hp; cbn [or_raise];
    rewrite H0, Hpr, orb_true_r.
  - unfold on_preempt_delay, start_master_down, on_master_down, master_down_interval, skew_time. run. cbn. rewrite E. cbn.
    unfold skew_time. cbn. rewrite V. cbn. by eexists.
  - unfold start_master_down, on_master_down, set_master_adver_interval, max_adver_int_in_sec, max_adver_int_to_sec,
      master_down_interval, skew_time. run. rewrite Hv. cbn. unfold skew_time. cbn. rewrite V. cbn. by eexists.
Qed.

End Facts.
End ElectionFacts.

(** ** Claims *)

Module ElectionClaims.
Import ElectionFacts.

(** A timer that is waiting, or whose event is on its way. *)
Definition pending `{C : AddrConv} {e : endian} {X : Others} (w : world e X) (timer_of : t -> timer) (ev : event e X) : Prop :=
  (exists i, timer_of (router e X w) = Waiting i) \/ ev ∈ events e X w.

Section Claims.
Context `{C : AddrConv} `{!AddrConvLaws C} (e : endian) (X : Others).

(** C9: In every state a router reaches while its event loop runs, whatever the order in
    which timers expire and events arrive: a master has its next advertisement pending and
    a backup the detection of a silent master, so that neither gets stuck; only a master
    advertises, only a backup waits to preempt; as many packets are counted as were
    transmitted; and the cached packet is the one its configuration asks for. *)
Theorem router_invariant (w : world e X) (Hr : reachable e X w) (Hrun : running e X w = true) :
  let s := router e X w in
  match state s with
  | Some Master => pending w adver_timer EvAdver
  | Some Backup => pending w master_down_timer EvMasterDown
  | Some Initialize => True
  | None => False
  end
  /\ (state s <> Some Master -> adver_timer s = Idle)
  /\ (state s <> Some Backup -> preempt_delay_timer s = Idle)
  /\ tx_vrrp_packets s = transmits (out s)
  /\ (static_ok (interface s) (config s) -> forall v, cached s = Some v -> advertises (config s) v).
Proof.
  destruct (reachable_world_ok e X w Hr Hrun) as [[? ? Oad Opr Obk ? ? Oca] Ha Hd Hp]. cbv zeta. set (s := router e X w) in *.
  split; [|split; [|split; [|split; [done|]]]].
  - destruct (state s) as [[]|] eqn:Hs; try done; unfold pending; fold s.
    + destruct (adver_timer s) eqn:E; [exfalso; by apply (proj2 Oad)|left; by eexists|right; by apply Ha].
    + destruct (master_down_timer s) eqn:E; [exfalso; by apply Obk|left; by eexists|right; by apply Hd].
  - intros Hn. destruct (adver_timer s) eqn:E; [done|exfalso; apply Hn, Oad; congruence..].
  - intros Hn. destruct (preempt_delay_timer s) eqn:E; [done|exfalso; apply Hn, Opr; congruence..].
  - intros Hst v Hv. specialize (Oca Hst). rewrite Hv in Oca. by destruct Oca.
Qed.

(** C7: When two masters of one virtual router hear each other's advertisement, as bytes
    through the monitors and with any padding behind, exactly one of them becomes backup,
    with its timer running, and the other stays as it is: the one with the lower priority,
    or of equal ones with the lower address, compared as bytes. *)
Theorem masters_resolve (wa wb : world e X) (fuel : nat) (pada padb : bytes) (na nb : rx)
    (Ra : reachable e X wa) (Rb : reachable e X wb)
    (Na : running e X wa = true) (Nb : running e X wb = true) (Hf : (5 <= fuel)%nat) :
  let a := router e X wa in let b := router e X wb in
  state a = Some Master -> state b = Some Master ->
  config_ok (interface a) (config a) -> config_ok (interface b) (config b) ->
  1 <= c_priority (config a) -> 1 <= c_priority (config b) ->
  peers (config a) (interface a) (config b) (interface b) ->
  primary_ip_address (interface a) <> primary_ip_address (interface b) ->
  exists a1 b1 da db pa pb na' nb' a' b',
    handle e X EvAdver a = (Ok tt, a1) /\ out a1 = out a ++ [Transmit da]
    /\ handle e X EvAdver b = (Ok tt, b1) /\ out b1 = out b ++ [Transmit db]
    /\ send_vrrp_packet_received e X fuel (config b) (interface b) (da ++ pada) nb = Some (Ok (Some pa), nb')
    /\ send_vrrp_packet_received e X fuel (config a) (interface a) (db ++ padb) na = Some (Ok (Some pb), na')
    /\ handle e X (EvReceived e X pb) a1 = (Ok tt, a') /\ handle e X (EvReceived e X pa) b1 = (Ok tt, b')
    /\ if beaten (config a) (interface a) (config b) (interface b)
       then state a' = Some Backup /\ adver_timer a' = Idle /\ (exists i, master_down_timer a' = Waiting i) /\ b' = b1
       else state b' = Some Backup /\ adver_timer b' = Idle /\ (exists i, master_down_timer b' = Waiting i) /\ a' = a1.
Proof.
  intros a b Sa Sb Ca Cb Pa Pb Hpeer Hne.
  pose proof (wok_router _ _ _ (reachable_world_ok e X wa Ra Na)) as Oa. fold a in Oa.
  pose proof (wok_router _ _ _ (reachable_world_ok e X wb Rb Nb)) as Ob. fold b in Ob.
  destruct (send_total e X a Ca (ok_cached _ _ Oa)) as (va & da & va' & za & Ha & Sea & Ada & Da).
  destruct (send_total e X b Cb (ok_cached _ _ Ob)) as (vb & db & vb' & zb & Hb & Seb & Adb & Db).
  pose proof (adver_handled e X a da va' za Sa Ha) as H1. pose proof (adver_handled e X b db vb' zb Sb Hb) as H2.
  assert (Hpeer' : peers (config b) (interface b) (config a) (interface a)) by (by destruct Hpeer; constructor).
  destruct (advert_accepted e X _ _ _ _ _ _ _ fuel pada nb Ca Cb Hpeer Sea Ada Da Hf) as (pa & ipa & wa' & Ra' & Ga & Ia & Ad1).
  destruct (advert_accepted e X _ _ _ _ _ _ _ fuel padb na Cb Ca Hpeer' Seb Adb Db Hf) as (pb & ipb & wb' & Rb' & Gb & Ib & Ad2).
  destruct (handle_ok e X _ _ _ Oa H1) as [Oa1 _]. destruct (handle_ok e X _ _ _ Ob H2) as [Ob1 _].
  set (a1 := armed _ (sent da va' za a)) in *. set (b1 := armed _ (sent db vb' zb b)) in *.
  pose proof (st_primary _ _ (cf_static _ _ Ca)) as Ka. pose proof (st_primary _ _ (cf_static _ _ Cb)) as Kb.
  destruct (master_received e X a1 pb (Ip4 ipb) wb' (beaten (config a) (interface a) (config b) (interface b)) Oa1 Sa Gb) as (a' & Ea & Fa);
    [rewrite (ad_priority _ _ Ad2); lia|rewrite (ad_version _ _ Ad2); symmetry; apply Hpeer|by apply superior_beaten|].
  destruct (master_received e X b1 pa (Ip4 ipa) wa' (beaten (config b) (interface b) (config a) (interface a)) Ob1 Sb Ga) as (b' & Eb & Fb);
    [rewrite (ad_priority _ _ Ad1); lia|rewrite (ad_version _ _ Ad1); apply Hpeer|by apply superior_beaten|].
  rewrite (beaten_total (config b) (interface b)) in Fb by (done || congruence).
  do 10 eexists. do 8 (split; [eassumption || reflexivity|]).
  destruct (beaten (config a) _ _ _); cbn in Fa, Fb; naive_solver.
Qed.

(** C34: A backup that hears nothing takes over: once its timer expires and the event is
    handled, it has advertised itself, told the observers, and waits for its next
    advertisement. *)
Theorem backup_takes_over (w : world e X) (Hr : reachable e X w) (Hrun : running e X w = true) :
  let s := router e X w in
  events e X w = [] -> state s = Some Backup -> config_ok (interface s) (config s) ->
  exists w' data, rtc (step e X) w w' /\ running e X w' = true /\ events e X w' = []
    /\ state (router e X w') = Some Master
    /\ adver_timer (router e X w') = Waiting (advertisement_interval (config s))
    /\ out (router e X w') = out s ++ [Transmit data; StateChanged (Some Backup) Master].
Proof.
  cbv zeta. intros Hq Hs Hcf. destruct (reachable_world_ok e X w Hr Hrun) as [Hok _ Hd _].
  destruct (master_down_timer (router e X w)) as [|i|] eqn:Hm;
    [by destruct (ok_backup _ _ Hok Hs)| |specialize (Hd Hs eq_refl); rewrite Hq in Hd; by apply elem_of_nil in Hd].
  set (s1 := (on_master_down (fun _ => Fired) (router e X w)).2).
  destruct (send_total e X s1 Hcf (ok_cached _ _ Hok)) as (v & data & v' & z & Hsend & _).
  destruct (takes_over e X s1 EvMasterDown data v' z (or_introl eq_refl) Hs Hsend) as (s' & Hh & H1 & H2 & _ & H4).
  exists (MkWorld e X s' [] true), data. split; [|by repeat split].
  eapply rtc_l; [by eapply MasterDownExpires|]. apply rtc_once. fold s1. rewrite Hq. cbn [app].
  pose proof (Handles e X (MkWorld e X s1 [EvMasterDown] (running e X w)) EvMasterDown [] Hrun eq_refl) as Hstep.
  cbn [router] in Hstep. by rewrite Hh in Hstep.
Qed.

(** C35: A master that is shut down makes way: it stops advertising and sends a last packet of
    priority zero, which the monitor of a backup accepts and counts as such and for which
    the backup waits for its skew time only. *)
Theorem master_release (wa wb : world e X) (fuel : nat) (padding : bytes) (n : rx)
    (Ra : reachable e X wa) (Rb : reachable e X wb)
    (Na : running e X wa = true) (Nb : running e X wb = true) (Hf : (5 <= fuel)%nat) :
  let a := router e X wa in let b := router e X wb in
  state a = Some Master -> state b = Some Backup ->
  config_ok (interface a) (config a) -> config_ok (interface b) (config b) ->
  peers (config a) (interface a) (config b) (interface b) ->
  exists a' data p n' k b', handle e X EvShutdown a = (Ok tt, a')
    /\ state a' = Some Initialize /\ adver_timer a' = Idle
    /\ out a' = out a ++ [Transmit data; StateChanged (Some Master) Initialize]
    /\ send_vrrp_packet_received e X fuel (config b) (interface b) (data ++ padding) n = Some (Ok (Some p), n')
    /\ rx_vrrp_zero_prio_packets n' = rx_vrrp_zero_prio_packets n + 1
    /\ skew_time b = Ok k /\ handle e X (EvReceived e X p) b = (Ok tt, b')
    /\ state b' = Some Backup /\ master_down_timer b' = Waiting k.
Proof.
  intros a b Sa Sb Ca Cb Hpeer.
  pose proof (wok_router _ _ _ (reachable_world_ok e X wa Ra Na)) as Oa. fold a in Oa.
  pose proof (wok_router _ _ _ (reachable_world_ok e X wb Rb Nb)) as Ob. fold b in Ob.
  destruct (shutdown_handled e X a Oa Sa Ca) as (v & data & v' & a' & Hh & H1 & H2 & H3 & Hse & Had & Hd).
  assert (Hpeer' : peers (released (config a)) (interface a) (config b) (interface b)) by (by destruct Hpeer; constructor).
  destruct (advert_accepted e X _ _ _ _ _ _ _ fuel padding n (released_ok _ _ Ca) Cb Hpeer' Hse Had Hd Hf)
    as (p & ip & w & Hrx & Hg & _ & Had').
  destruct (release_received e X b p (Ip4 ip) w Ob Sb Hg (ad_priority _ _ Had')) as (k & b' & Hk & Hb & S' & T').
  exists a', data, p. eexists. exists k, b'. do 5 (split; [eassumption|]). done.
Qed.

(** C36: The timers of a backup: it waits for more than three intervals of the master and, by
    the skew, for less than one more (of the master's intervals in version 3, of a second
    in version 2); of two backups that heard the same master the one with the higher
    priority expires first. *)
Theorem timer_bounds (s : t) (m : Q) (Hm : master_adver_interval s = Some m) (Hpos : (0 < m)%Q)
    (Hv : c_version (config s) = VRRP_VERSION_V2 \/ c_version (config s) = VRRP_VERSION_V3)
    (Hp : 1 <= c_priority (config s) <= 255) :
  exists k i, skew_time s = Ok k /\ master_down_interval s = Ok i
    /\ (0 < k < skew_unit s m)%Q /\ (3 * m < i < 3 * m + skew_unit s m)%Q
    /\ forall s' k' i', master_adver_interval s' = Some m -> c_version (config s') = c_version (config s) ->
         c_priority (config s) < c_priority (config s') -> skew_time s' = Ok k' -> master_down_interval s' = Ok i' ->
         (k' < k)%Q /\ (i' < i)%Q.
Proof.
  destruct (skew_bounds s m Hm Hpos Hv Hp) as (k & Hk & Hb & Hless). exists k, (3 * m + k)%Q.
  assert (Hi : forall s' k', master_adver_interval s' = Some m -> skew_time s' = Ok k' -> master_down_interval s' = Ok (3 * m + k')%Q)
    by (intros s' k' Hm' Hk'; unfold master_down_interval; rewrite Hm'; cbn [or_raise mbind res_bind]; by rewrite Hk').
  split; [done|]. split; [by apply Hi|]. split; [done|]. split; [split; lra|].
  intros s' k' i' Hm' Hv' Hp' Hk' Hi'. rewrite (Hi s' k') in Hi' by done. injection Hi' as <-.
  specialize (Hless s' k' Hm' Hv' Hp' Hk'). split; lra.
Qed.

(** Preemption with a delay: a backup of version 2 whose delay is running gives it up when
    it hears a router that it must respect again; one of version 3 does not, and takes
    over from that router when the delay ends. *)
Theorem preempt_delay_not_cancelled (s : t) (p : list (item (with_vrrp e X))) (ip : ip_header) (v : vrrp) (d : Q)
    (Hok : router_ok e s) (Hs : state s = Some Backup) (Hd : preempt_delay_timer s = Waiting d)
    (Hp : get_payload e X p = Ok (Some (ip, v))) (Hv : version v = c_version (config s))
    (Hpr : c_priority (config s) <= priority v) (H0 : priority v <> 0) :
  exists s', handle e X (EvReceived e X p) s = (Ok tt, s') /\ state s' = Some Backup
    /\ preempt_delay_timer s' = if c_version (config s) =? VRRP_VERSION_V2 then Idle else Waiting d.
Proof.
  destruct (backup_received e X s p ip v Hok Hs Hp Hv Hpr H0) as (s' & Hh & Hst & Hpd). exists s'.
  split; [done|]. split; [done|]. rewrite Hpd. by destruct (_ =? _).
Qed.

(** The last packet of a leaving master has priority zero but is not counted as such by
    the sender, whose counter looks at the packet it has cached. *)
Theorem release_not_counted (s s' : t) (v : vrrp) (Hc : cached s = Some v) (Hv : priority v <> 0)
    (Hs : send_advertisement e X true s = (Ok tt, s')) :
  tx_vrrp_packets s' = tx_vrrp_packets s + 1 /\ tx_vrrp_zero_prio_packets s' = tx_vrrp_zero_prio_packets s.
Proof.
  apply Z.eqb_neq in Hv. revert Hs. unfold send_advertisement, get. unfold mbind at 1, stm_bind at 1. rewrite Hc.
  unfold mbind, stm_bind, modify, mret, stm_ret, lift_res. rewrite Hc. cbn [or_raise].
  destruct (create _ _ _ _ _ _) as [r|x]; [|done]. rewrite Hv. destruct (packet_data _ _ _ _ _) as [[data v2]|x]; [|done].
  by intros [= <-].
Qed.

(** [accept_mode] asked for through the interface for other applications sets the
    preemption delay instead, to one or zero seconds, and leaves the mode as it is. *)
Theorem accept_mode_sets_delay (priority : option Z) (interval : option Q) (preempt : option bool) (accept : bool) (c : VRRPConfig) :
  let c' := apply_change (vrrp_config_change priority interval preempt (Some accept)) c in
  accept_mode c' = accept_mode c /\ preempt_delay c' = py_number accept.
Proof. done. Qed.

End Claims.

(** *** Concrete routers *)

Import VrrpPktClaims PacketClaims.

(** Routers of the virtual router 7 on the addresses 10.0.0.n *)
Definition cfg (version priority : Z) : VRRPConfig :=
  MkConfig version 7 None priority [ip_n 1; ip_n 2] (1 # 1) true (2 # 1) false false (30 # 1).
Definition ifc (n : Z) : VRRPInterface := MkInterface (ip_n n) (Some 5).

Definition started (version priority n : Z) : t :=
  (start (C := conv) Little no_others (init (ifc n) (cfg version priority))).2.

Definition world_of (version priority n : Z) : world (C := conv) Little no_others :=
  MkWorld Little no_others (started version priority n) [] true.

Lemma cfg_ok version priority n : version = 2 \/ version = 3 -> 0 <= priority <= 255 ->
  canonical (H := conv) IPV4 (ip_n n) -> config_ok (C := conv) (ifc n) (cfg version priority).
Proof.
  intros Hv Hp Hn. constructor; try done.
  - constructor; try done.
    + split; [repeat constructor; eexists; split; vm_compute; reflexivity|by eexists].
    + eexists; split; vm_compute; reflexivity.
  - destruct Hv as [-> | ->]; [exists 1|exists 100]; by split.
  - eexists; vm_compute; reflexivity.
  - eexists; vm_compute; reflexivity.
Qed.

Lemma ip_n_canonical n : n = 8 \/ n = 9 -> canonical (H := conv) IPV4 (ip_n n).
Proof. intros [-> | ->]; eexists; split; vm_compute; reflexivity. Qed.

Lemma started_ok version priority n : interface (started version priority n) = ifc n ->
  config (started version priority n) = cfg version priority -> version = 2 \/ version = 3 -> 0 <= priority <= 255 -> n = 8 \/ n = 9 ->
  config_ok (C := conv) (interface (started version priority n)) (config (started version priority n)).
Proof. intros -> -> Hv Hp Hn. apply cfg_ok; [done|done|by apply ip_n_canonical]. Qed.

Lemma world_reachable version priority n :
  (start (C := conv) Little no_others (init (ifc n) (cfg version priority))).1 = Ok tt ->
  reachable Little no_others (world_of version priority n).
Proof.
  intros H. apply (Started _ _ (ifc n) (cfg version priority)). unfold started.
  destruct (start _ _ _) as [r s]. cbn in *. by subst.
Qed.

Lemma router_invariant_witness : pending (world_of 2 100 9) master_down_timer EvMasterDown.
Proof.
  exact (proj1 (router_invariant (C := conv) (AddrConvLaws0 := vrrp_conv_laws) Little no_others (world_of 2 100 9)
    (world_reachable 2 100 9 ltac:(vm_compute; reflexivity)) eq_refl)).
Defined.

Lemma masters_resolve_witness : exists a1 b1 a' b' pa pb,
  handle (C := conv) Little no_others EvAdver (started 3 255 9) = (Ok tt, a1) /\ handle (C := conv) Little no_others EvAdver (started 3 255 8) = (Ok tt, b1)
  /\ handle (C := conv) Little no_others (EvReceived Little no_others pb) a1 = (Ok tt, a')
  /\ handle (C := conv) Little no_others (EvReceived Little no_others pa) b1 = (Ok tt, b')
  /\ state b' = Some Backup /\ a' = a1.
Proof.
  destruct (masters_resolve (C := conv) (AddrConvLaws0 := vrrp_conv_laws) Little no_others (world_of 3 255 9) (world_of 3 255 8) 5
    (replicate 8 0) [] (MkRx 0 0 0) (MkRx 0 0 0)
    (world_reachable 3 255 9 ltac:(vm_compute; reflexivity)) (world_reachable 3 255 8 ltac:(vm_compute; reflexivity))
    eq_refl eq_refl (le_n 5) ltac:(vm_compute; reflexivity) ltac:(vm_compute; reflexivity)
    (started_ok 3 255 9 ltac:(vm_compute; reflexivity) ltac:(vm_compute; reflexivity) ltac:(by right) ltac:(done) ltac:(by right))
    (started_ok 3 255 8 ltac:(vm_compute; reflexivity) ltac:(vm_compute; reflexivity) ltac:(by right) ltac:(done) ltac:(by left))
    ltac:(vm_compute; discriminate) ltac:(vm_compute; discriminate) ltac:(constructor; vm_compute; reflexivity)
    ltac:(vm_compute; discriminate))
    as (a1 & b1 & da & db & pa & pb & na & nb & a' & b' & H1 & _ & H2 & _ & _ & _ & H3 & H4 & H5).
  exists a1, b1, a', b', pa, pb. split; [exact H1|]. split; [exact H2|]. split; [exact H3|]. split; [exact H4|].
  match type of H5 with if ?b then _ else _ => replace b with false in H5 by (vm_compute; reflexivity) end.
  destruct H5 as (H5 & _ & _ & H6). exact (conj H5 H6).
Defined.

Lemma backup_takes_over_witness : exists w', rtc (step Little no_others) (world_of 2 100 9) w'
  /\ state (router Little no_others w') = Some Master.
Proof.
  destruct (backup_takes_over (C := conv) (AddrConvLaws0 := vrrp_conv_laws) Little no_others (world_of 2 100 9)
    (world_reachable 2 100 9 ltac:(vm_compute; reflexivity)) eq_refl eq_refl ltac:(vm_compute; reflexivity)
    (started_ok 2 100 9 ltac:(vm_compute; reflexivity) ltac:(vm_compute; reflexivity) ltac:(by left) ltac:(done) ltac:(by right))) as (w' & data & H1 & _ & _ & H2 & _).
  exact (ex_intro _ w' (conj H1 H2)).
Defined.

Lemma master_release_witness : exists a' p b' k,
  handle (C := conv) Little no_others EvShutdown (started 2 255 9) = (Ok tt, a')
  /\ handle (C := conv) Little no_others (EvReceived Little no_others p) (started 2 100 8) = (Ok tt, b')
  /\ master_down_timer b' = Waiting k /\ skew_time (started 2 100 8) = Ok k.
Proof.
  destruct (master_release (C := conv) (AddrConvLaws0 := vrrp_conv_laws) Little no_others (world_of 2 255 9) (world_of 2 100 8) 5 [] (MkRx 0 0 0)
    (world_reachable 2 255 9 ltac:(vm_compute; reflexivity)) (world_reachable 2 100 8 ltac:(vm_compute; reflexivity))
    eq_refl eq_refl (le_n 5) ltac:(vm_compute; reflexivity) ltac:(vm_compute; reflexivity)
    (started_ok 2 255 9 ltac:(vm_compute; reflexivity) ltac:(vm_compute; reflexivity) ltac:(by left) ltac:(done) ltac:(by right))
    (started_ok 2 100 8 ltac:(vm_compute; reflexivity) ltac:(vm_compute; reflexivity) ltac:(by left) ltac:(done) ltac:(by left)) ltac:(constructor; vm_compute; reflexivity))
    as (a' & data & p & n' & k & b' & H1 & _ & _ & _ & _ & _ & H2 & H3 & _ & H4).
  exists a', p, b', k. exact (conj H1 (conj H3 (conj H4 H2))).
Defined.

Lemma timer_bounds_witness : exists k i, skew_time (started 3 100 9) = Ok k /\ master_down_interval (started 3 100 9) = Ok i
  /\ (0 < k < 1)%Q /\ (3 < i < 4)%Q.
Proof.
  destruct (timer_bounds (started 3 100 9) (1 # 1) ltac:(vm_compute; reflexivity) ltac:(reflexivity) ltac:(right; vm_compute; reflexivity)
    ltac:(vm_compute; split; discriminate)) as (k & i & H1 & H2 & H3 & H4 & _).
  replace (skew_unit (started 3 100 9) (1 # 1)) with (1 # 1)%Q in H3, H4 by (vm_compute; reflexivity).
  exists k, i. split; [exact H1|]. split; [exact H2|]. split; [exact H3|]. destruct H4. split; lra.
Defined.

End ElectionClaims.
