(* ===== verification/BgpPath.v ===== *)
(** * Best path selection of the BGP speaker (ryu/services/protocols/bgp: processor.py, info_base/base.py)

    Paths, the rules by which two of them are compared, and the selection among the known
    paths of a destination.  A path is an object: it is compared by identity, which is the
    field [oid].  Peers are named by a number; what the rules read of them is looked up
    when they are compared.  Texts of router identifiers are converted by the class that
    stands for address conversion, with which [inet_pton] agrees on printed addresses. *)

From Stdlib Require Import ZArith Lia.
From stdpp Require Import base list gmap strings numbers.
From S2P Require Import Prelude Struct PktUtils PktHeaders.

#[local] Open Scope Z_scope.

(** ** Paths *)

(** The entity that gave a path: the network controller ([None]), a peer, or the name of
    the table it was exported from. *)
Inductive source_t := NC | Peer (p : Z) | TableName (name : string).

#[global] Instance source_eq_dec : EqDecision source_t.
Proof. solve_decision. Defined.

(** A segment of an AS path is a list or a set. *)
Inductive segment := AsSequence (l : list Z) | AsSet (l : list Z).

(** The attributes are those of [_path_attr_map] that are read. *)
Record path := MkPath {
  oid : Z; source : source_t; family : Z; prefix : string; source_version_num : Z;
  local_pref : option Z; as_path : option (list segment); origin : option Z; med : option Z;
  nexthop : option string; is_withdraw : bool }.

(** The tables that can be named as a source. *)
Definition VPN_TABLE : string := "vpn_table".
Definition VRF_TABLE : string := "vrf_table".
Definition valid_source (s : source_t) : bool :=
  match s with TableName n => String.eqb n VRF_TABLE || String.eqb n VPN_TABLE | _ => true end.

(** [Path.__init__]: the checks on what is given. *)
Definition new_path (oid : Z) (source : source_t) (nlri_family family : Z) (prefix : string) (src_ver_num : Z)
    (local_pref : option Z) (as_path : option (list segment)) (origin med : option Z)
    (pattrs_given : bool) (nexthop : option string) (is_withdraw : bool) : res path :=
  if negb (nlri_family =? family) then Err ValueError
  else if negb (valid_source source) then Err ValueError
  else if negb is_withdraw && negb (pattrs_given && bool_decide (nexthop <> None /\ nexthop <> Some ""%string)) then Err ValueError
  else Ok (MkPath oid source family prefix src_ver_num local_pref as_path origin med nexthop is_withdraw).

(** [clone(for_withdrawal=True)], a new object without attributes. *)
Definition withdrawal (oid : Z) (p : path) : path :=
  MkPath oid (source p) (family p) (prefix p) (source_version_num p) None None None None (nexthop p) true.

Definition is_local (p : path) : bool := bool_decide (source p = NC).

Definition has_nexthop (p : path) : bool :=
  match nexthop p with
  | None => false
  | Some n => negb (String.eqb n "") && negb (String.eqb n "0.0.0.0") && negb (String.eqb n "::")
  end.

(** [get_as_path_len]: a set counts as one. *)
Definition get_as_path_len (value : list segment) : Z :=
  foldl (fun count seg => count + match seg with AsSequence l => Z.of_nat (length l) | AsSet _ => 1 end) 0 value.

(** ** Peers *)

(** The session of a peer, when there is one, has the identifiers of both ends. *)
Record session := MkSession { sent_bgp_identifier : string; recv_bgp_identifier : string }.
Record peer := MkPeer { remote_as : Z; protocol : option session }.

Inductive reason :=
  | BPR_UNKNOWN | BPR_ONLY_PATH | BPR_REACHABLE_NEXT_HOP | BPR_HIGHEST_WEIGHT | BPR_LOCAL_PREF | BPR_LOCAL_ORIGIN
  | BPR_ASPATH | BPR_ORIGIN | BPR_MED | BPR_ASN | BPR_IGP_COST | BPR_ROUTER_ID.

Section Compare.
Context `{C : AddrConv} (local_asn : Z) (peers : Z -> peer).

Definition _compare_by_version (path1 path2 : path) : option path :=
  if decide (source path1 = source path2) then
    Some (if source_version_num path2 <? source_version_num path1 then path1 else path2)
  else None.

Definition _cmp_by_reachable_nh (path1 path2 : path) : option path := None.
Definition _cmp_by_higest_wg (path1 path2 : path) : option path := None.

Definition _cmp_by_local_pref (path1 path2 : path) : option path :=
  match local_pref path1, local_pref path2 with
  | Some lp1, Some lp2 => if lp2 <? lp1 then Some path1 else if lp1 <? lp2 then Some path2 else None
  | _, _ => None
  end.

Definition _cmp_by_local_origin (path1 path2 : path) : option path :=
  if decide (source path1 = source path2) then None
  else if decide (source path1 = NC) then Some path1
  else if decide (source path2 = NC) then Some path2
  else None.

Definition _cmp_by_aspath (path1 path2 : path) : res (option path) :=
  as_path1 ← or_raise AssertionError (as_path path1);
  as_path2 ← or_raise AssertionError (as_path path2);
  let l1 := get_as_path_len as_path1 in
  let l2 := get_as_path_len as_path2 in
  Ok (if l2 <? l1 then Some path2 else if l1 <? l2 then Some path1 else None).

Definition BGP_ATTR_ORIGIN_IGP : Z := 0.
Definition BGP_ATTR_ORIGIN_EGP : Z := 1.
Definition BGP_ATTR_ORIGIN_INCOMPLETE : Z := 2.

Definition get_origin_pref (origin : Z) : Z :=
  if origin =? BGP_ATTR_ORIGIN_IGP then 3
  else if origin =? BGP_ATTR_ORIGIN_EGP then 2
  else if origin =? BGP_ATTR_ORIGIN_INCOMPLETE then 1
  else 0.

Definition _cmp_by_origin (path1 path2 : path) : res (option path) :=
  origin1 ← or_raise AssertionError (origin path1);
  origin2 ← or_raise AssertionError (origin path2);
  Ok (if origin1 =? origin2 then None
      else
        let origin1 := get_origin_pref origin1 in
        let origin2 := get_origin_pref origin2 in
        if origin1 =? origin2 then None
        else if origin2 <? origin1 then Some path1 else Some path2).

Definition get_path_med (p : path) : Z := default 0 (med p).

Definition _cmp_by_med (path1 path2 : path) : option path :=
  let med1 := get_path_med path1 in
  let med2 := get_path_med path2 in
  if med1 =? med2 then None else if med1 <? med2 then Some path1 else Some path2.

(** A name has no attribute [remote_as]. *)
Definition get_asn (s : source_t) : res Z :=
  match s with
  | NC => Ok local_asn
  | Peer p => Ok (remote_as (peers p))
  | TableName _ => Err AttributeError
  end.

Definition _cmp_by_asn (path1 path2 : path) : res (option path) :=
  p1_asn ← get_asn (source path1);
  p2_asn ← get_asn (source path2);
  Ok (if (p1_asn =? local_asn) && negb (p2_asn =? local_asn) then Some path2
      else if (p2_asn =? local_asn) && negb (p1_asn =? local_asn) then Some path1
      else None).

Definition _cmp_by_igp_cost (path1 path2 : path) : option path := None.

(** [path_source.protocol.<message>.bgp_identifier] *)
Definition session_of (s : source_t) : res session :=
  match s with
  | Peer p => or_raise AttributeError (protocol (peers p))
  | _ => Err AttributeError
  end.

Definition get_router_id (s : source_t) (local_bgp_id : string) : res string :=
  match s with
  | NC => Ok local_bgp_id
  | _ => x ← session_of s; Ok (recv_bgp_identifier x)
  end.

(** [ValueError] is caught and gives [None], which is less than every number. *)
Definition from_inet_ptoi (bgp_id : string) : res (option Z) :=
  match text_to_bin IPV4 bgp_id with
  | Ok packed_byte => Ok (Some (be_decode packed_byte))
  | Err ValueError => Ok None
  | Err x => Err x
  end.

Definition id_lt (a b : option Z) : bool :=
  match a, b with
  | _, None => false
  | None, Some _ => true
  | Some a, Some b => a <? b
  end.

Definition _cmp_by_router_id (path1 path2 : path) : res (option path) :=
  match source path1, source path2 with
  | NC, NC => Ok None
  | s1, s2 =>
      asn1 ← get_asn s1;
      asn2 ← get_asn s2;
      let is_ebgp1 := negb (asn1 =? local_asn) in
      let is_ebgp2 := negb (asn2 =? local_asn) in
      if is_ebgp1 && is_ebgp2 then Ok None
      else if negb (Bool.eqb is_ebgp1 is_ebgp2) then Err ValueError
      else
        local_ ← session_of (if decide (s1 = NC) then s2 else s1);
        let local_bgp_id := sent_bgp_identifier local_ in
        router_id1 ← get_router_id s1 local_bgp_id;
        router_id2 ← get_router_id s2 local_bgp_id;
        if String.eqb router_id1 router_id2 then Ok None
        else
          n1 ← from_inet_ptoi router_id1;
          n2 ← from_inet_ptoi router_id2;
          Ok (Some (if id_lt n1 n2 then path1 else path2))
  end.

(** The next rule, when none has decided. *)
Definition orelse (r : res (option path * reason)) (next : res (option path)) (why : reason) : res (option path * reason) :=
  '(best, because) ← r;
  match best with
  | Some _ => Ok (best, because)
  | None => best ← next; Ok (best, why)
  end.

Definition compute_best_path (path1 path2 : path) : res (option path * reason) :=
  let r := Ok (_cmp_by_reachable_nh path1 path2, BPR_REACHABLE_NEXT_HOP) in
  let r := orelse r (Ok (_cmp_by_higest_wg path1 path2)) BPR_HIGHEST_WEIGHT in
  let r := orelse r (Ok (_cmp_by_local_pref path1 path2)) BPR_LOCAL_PREF in
  let r := orelse r (Ok (_cmp_by_local_origin path1 path2)) BPR_LOCAL_ORIGIN in
  let r := orelse r (_cmp_by_aspath path1 path2) BPR_ASPATH in
  let r := orelse r (_cmp_by_origin path1 path2) BPR_ORIGIN in
  let r := orelse r (Ok (_cmp_by_med path1 path2)) BPR_MED in
  let r := orelse r (_cmp_by_asn path1 path2) BPR_ASN in
  let r := orelse r (Ok (_cmp_by_igp_cost path1 path2)) BPR_IGP_COST in
  let r := orelse r (_cmp_by_router_id path1 path2) BPR_ROUTER_ID in
  '(best, because) ← r;
  Ok (best, match best with Some _ => because | None => BPR_UNKNOWN end).

(** [_compute_best_known_path]: the first path, challenged by the others in turn; the
    reason is the one of the last comparison. *)
Fixpoint challenge (current : path) (because : reason) (l : list path) : res (path * reason) :=
  match l with
  | [] => Ok (current, because)
  | next :: l =>
      '(best, why) ← compute_best_path current next;
      challenge (default current best) why l
  end.

Definition _compute_best_known_path (known : list path) : res (path * reason) :=
  match known with
  | [] => Err BgpProcessorError
  | p :: l => challenge p BPR_ONLY_PATH l
  end.

End Compare.

(** ** The order behind the rules *)

Module BestFacts.

Fixpoint lex (a b : list Z) : comparison :=
  match a, b with
  | x :: a, y :: b => match x ?= y with Eq => lex a b | c => c end
  | _, _ => Eq
  end.

Lemma lex_refl a : lex a a = Eq.
Proof. induction a as [|x a IH]; [done|]. cbn [lex]. by rewrite Z.compare_refl. Qed.

Lemma lex_opp a b : lex b a = CompOpp (lex a b).
Proof.
  revert b. induction a as [|x a IH]; intros [|y b]; try done. cbn [lex]. rewrite (Z.compare_antisym x y).
  destruct (x ?= y); [apply IH|done|done].
Qed.

Lemma lex_trans a b c : length a = length b -> length b = length c -> lex a b <> Gt -> lex b c <> Gt ->
  lex a c <> Gt /\ (lex a b = Lt \/ lex b c = Lt -> lex a c = Lt).
Proof.
  revert b c. induction a as [|x a IH]; intros [|y b] [|z c] H1 H2; try done; cbn [lex]; [naive_solver|].
  injection H1 as H1. injection H2 as H2.
  destruct (Z.compare_spec x y) as [->|Hxy|Hxy]; [|intros _|done].
  - destruct (Z.compare_spec y z) as [->|Hyz|Hyz]; [by apply IH|done|done].
  - intros Hyz. replace (x ?= z) with Lt; [done|]. symmetry. apply Z.compare_lt_iff.
    destruct (Z.compare_spec y z); lia || done.
Qed.

Definition pick {A} (c : comparison) (p1 p2 : A) : option A :=
  match c with Gt => Some p1 | Lt => Some p2 | Eq => None end.

Section Order.
Context `{C : AddrConv} `{!AddrConvLaws C} (local_asn : Z) (peers : Z -> peer).

Definition ebgp (s : source_t) : bool :=
  match s with Peer p => negb (remote_as (peers p) =? local_asn) | _ => false end.

Definition router_number (s : source_t) : Z :=
  match s with
  | Peer p => match protocol (peers p) with
              | Some x => match text_to_bin IPV4 (recv_bgp_identifier x) with Ok b => be_decode b | Err _ => 0 end
              | None => 0
              end
  | _ => 0
  end.

(** What the rules look at, in their order, each to be as high as possible. *)
Definition key (p : path) : list Z :=
  [default 0 (local_pref p); Z.b2z (is_local p); - get_as_path_len (default [] (as_path p));
   get_origin_pref (default 0 (origin p)); - get_path_med p; Z.b2z (ebgp (source p));
   if ebgp (source p) then 0 else - router_number (source p)].

(** A path that has what the rules need: the local preference, the mandatory attributes,
    and a source that is the controller or a peer with a session. *)
Record comparable (p : path) : Prop := {
  cp_local_pref : local_pref p <> None;
  cp_as_path : as_path p <> None;
  cp_origin : origin p <> None;
  cp_source : match source p with
              | NC => True
              | Peer n => exists x, protocol (peers n) = Some x /\ canonical IPV4 (recv_bgp_identifier x)
              | TableName _ => False
              end }.

Lemma pick_lt (A : Type) (a b : Z) (p1 p2 : A) :
  (if b <? a then Some p1 else if a <? b then Some p2 else None) = pick (a ?= b) p1 p2.
Proof. destruct (Z.compare_spec a b), (Z.ltb_spec b a), (Z.ltb_spec a b); lia || done. Qed.

Lemma local_origin_rule p1 p2 : _cmp_by_local_origin p1 p2 = pick (Z.b2z (is_local p1) ?= Z.b2z (is_local p2)) p1 p2.
Proof.
  unfold _cmp_by_local_origin, is_local. destruct (decide (source p1 = source p2)) as [->|Hne]; [by rewrite Z.compare_refl|].
  by destruct (source p1), (source p2).
Qed.

Lemma origin_rule p1 p2 o1 o2 : origin p1 = Some o1 -> origin p2 = Some o2 ->
  _cmp_by_origin p1 p2 = Ok (pick (get_origin_pref o1 ?= get_origin_pref o2) p1 p2).
Proof.
  intros H1 H2. unfold _cmp_by_origin. rewrite H1, H2. cbn [or_raise mbind res_bind]. f_equal.
  destruct (Z.eqb_spec o1 o2) as [->|_]; [by rewrite Z.compare_refl|].
  destruct (Z.eqb_spec (get_origin_pref o1) (get_origin_pref o2)) as [->|Hne]; [by rewrite Z.compare_refl|].
  destruct (Z.ltb_spec (get_origin_pref o2) (get_origin_pref o1)), (Z.compare_spec (get_origin_pref o1) (get_origin_pref o2)); lia || done.
Qed.

Lemma med_rule p1 p2 : _cmp_by_med p1 p2 = pick (- get_path_med p1 ?= - get_path_med p2) p1 p2.
Proof.
  unfold _cmp_by_med. destruct (Z.eqb_spec (get_path_med p1) (get_path_med p2)) as [->|]; [by rewrite Z.compare_refl|].
  destruct (Z.ltb_spec (get_path_med p1) (get_path_med p2)), (Z.compare_spec (- get_path_med p1) (- get_path_med p2)); lia || done.
Qed.

Lemma aspath_rule p1 p2 l1 l2 : as_path p1 = Some l1 -> as_path p2 = Some l2 ->
  _cmp_by_aspath p1 p2 = Ok (pick (- get_as_path_len l1 ?= - get_as_path_len l2) p1 p2).
Proof.
  intros H1 H2. unfold _cmp_by_aspath. rewrite H1, H2. cbn [or_raise mbind res_bind]. f_equal.
  destruct (Z.ltb_spec (get_as_path_len l2) (get_as_path_len l1)), (Z.ltb_spec (get_as_path_len l1) (get_as_path_len l2)),
    (Z.compare_spec (- get_as_path_len l1) (- get_as_path_len l2)); lia || done.
Qed.

Lemma asn_of p : comparable p -> exists n, get_asn local_asn peers (source p) = Ok n /\ negb (n =? local_asn) = ebgp (source p).
Proof.
  intros [_ _ _ Hs]. destruct (source p) as [|n|]; [|by eexists|done]. exists local_asn. by rewrite Z.eqb_refl.
Qed.

Lemma asn_rule p1 p2 : comparable p1 -> comparable p2 ->
  _cmp_by_asn local_asn peers p1 p2 = Ok (pick (Z.b2z (ebgp (source p1)) ?= Z.b2z (ebgp (source p2))) p1 p2).
Proof.
  intros (n1 & E1 & <-)%asn_of (n2 & E2 & <-)%asn_of. unfold _cmp_by_asn. rewrite E1, E2. cbn [mbind res_bind].
  by destruct (n1 =? local_asn), (n2 =? local_asn).
Qed.

Lemma be_decode_inj (a b : bytes) : length a = length b -> bytes_ok a -> bytes_ok b -> be_decode a = be_decode b -> a = b.
Proof.
  revert b. induction a as [|x a IH] using rev_ind; intros b Hl Ha Hb H.
  - by destruct b.
  - destruct b as [|y b _] using rev_ind; [rewrite length_app in Hl; cbn in Hl; lia|].
    rewrite !length_app in Hl. cbn in Hl. rewrite !be_decode_snoc in H.
    apply Forall_app in Ha as [Ha Hx], Hb as [Hb Hy]. apply list.Forall_cons in Hx as [Hx _], Hy as [Hy _]. unfold byte_ok in *.
    assert (x = y) as -> by lia. f_equal. apply IH; try done; lia.
Qed.

Lemma router_id_rule p1 p2 : comparable p1 -> comparable p2 -> is_local p1 = is_local p2 -> ebgp (source p1) = ebgp (source p2) ->
  _cmp_by_router_id local_asn peers p1 p2
  = Ok (pick ((if ebgp (source p1) then 0 else - router_number (source p1)) ?= (if ebgp (source p2) then 0 else - router_number (source p2))) p1 p2).
Proof.
  intros H1 H2 Hl He. destruct (asn_of p1 H1) as (n1 & A1 & B1), (asn_of p2 H2) as (n2 & A2 & B2).
  destruct H1 as [_ _ _ H1], H2 as [_ _ _ H2]. unfold _cmp_by_router_id, is_local in *.
  destruct (source p1) as [|m1|] eqn:S1, (source p2) as [|m2|] eqn:S2; try done.
  rewrite A1, A2. cbn [mbind res_bind]. rewrite B1, B2, He. destruct (ebgp (Peer m2)); [done|]. cbn [andb negb Bool.eqb].
  rewrite decide_False by done. destruct H1 as (x1 & P1 & b1 & T1 & U1), H2 as (x2 & P2 & b2 & T2 & U2).
  unfold session_of, get_router_id, router_number. cbn [session_of]. rewrite P1, P2. cbn [or_raise mbind res_bind].
  rewrite T1, T2. destruct (String.eqb_spec (recv_bgp_identifier x1) (recv_bgp_identifier x2)) as [E|Hne].
  - rewrite E in T1. rewrite T1 in T2. injection T2 as <-. by rewrite Z.compare_refl.
  - assert (be_decode b1 <> be_decode b2).
    { intros E. destruct (text_to_bin_ok _ _ _ T1), (text_to_bin_ok _ _ _ T2).
      apply be_decode_inj in E; try done; [|congruence]. subst. congruence. }
    unfold from_inet_ptoi. rewrite T1, T2. cbn [mbind res_bind id_lt].
    destruct (Z.ltb_spec (be_decode b1) (be_decode b2)), (Z.compare_spec (- be_decode b1) (- be_decode b2)); lia || done.
Qed.

(** The rules, one after the other, compare the keys. *)
Lemma compare_keys p1 p2 : comparable p1 -> comparable p2 ->
  exists why, compute_best_path local_asn peers p1 p2 = Ok (pick (lex (key p1) (key p2)) p1 p2, why).
Proof.
  intros H1 H2. pose proof H1 as [L1 A1 O1 _]. pose proof H2 as [L2 A2 O2 _].
  destruct (local_pref p1) as [lp1|] eqn:E1; [|done]. destruct (local_pref p2) as [lp2|] eqn:E2; [|done].
  destruct (as_path p1) as [l1|] eqn:F1; [|done]. destruct (as_path p2) as [l2|] eqn:F2; [|done].
  destruct (origin p1) as [o1|] eqn:G1; [|done]. destruct (origin p2) as [o2|] eqn:G2; [|done].
  unfold compute_best_path, _cmp_by_reachable_nh, _cmp_by_higest_wg, _cmp_by_igp_cost, _cmp_by_local_pref.
  rewrite E1, E2, pick_lt, local_origin_rule, (aspath_rule _ _ _ _ F1 F2), (origin_rule _ _ _ _ G1 G2), med_rule,
    (asn_rule _ _ H1 H2).
  unfold key. rewrite E1, E2, F1, F2, G1, G2. cbn [default from_option id lex orelse mbind res_bind].
  destruct (lp1 ?= lp2); cbn [pick orelse mbind res_bind]; try (by eexists).
  destruct (Z.compare_spec (Z.b2z (is_local p1)) (Z.b2z (is_local p2))) as [El| |]; cbn [pick orelse mbind res_bind]; try (by eexists).
  destruct (- get_as_path_len l1 ?= _); cbn [pick orelse mbind res_bind]; try (by eexists).
  destruct (get_origin_pref o1 ?= _); cbn [pick orelse mbind res_bind]; try (by eexists).
  destruct (- get_path_med p1 ?= _); cbn [pick orelse mbind res_bind]; try (by eexists).
  destruct (Z.compare_spec (Z.b2z (ebgp (source p1))) (Z.b2z (ebgp (source p2)))) as [Ee| |]; cbn [pick orelse mbind res_bind]; try (by eexists).
  rewrite router_id_rule by (done || (by apply Z.b2z_inj)). cbn [mbind res_bind].
  destruct (_ ?= _); cbn [pick]; by eexists.
Qed.

(** *** The first maximum *)

Lemma key_length p : length (key p) = 7%nat.
Proof. done. Qed.

(** No path of the list is better, and those before it are worse. *)
Definition first_best (l : list path) (b : path) : Prop :=
  exists l1 l2, l = l1 ++ b :: l2 /\ Forall (fun p => lex (key p) (key b) = Lt) l1
    /\ Forall (fun p => lex (key p) (key b) <> Gt) l2.

Lemma first_best_unique l b b' : first_best l b -> first_best l b' -> b = b'.
Proof.
  intros (l1 & l2 & -> & H1 & H2) (l1' & l2' & E & H1' & H2').
  assert (Hno : forall (x y : path), lex (key x) (key y) = Lt -> lex (key y) (key x) <> Gt -> False)
    by (intros x y Hx Hy; apply Hy; by rewrite lex_opp, Hx).
  apply app_eq_inv in E as [(k & -> & E)|(k & -> & E)]; (destruct k as [|x k]; [cbn in E; congruence|injection E as <- E; exfalso; subst]).
  - rewrite list.Forall_app, list.Forall_cons in H1, H2'. apply (Hno b' b); tauto.
  - rewrite list.Forall_app, list.Forall_cons in H1', H2. apply (Hno b b'); tauto.
Qed.

Lemma first_best_extend l b next : first_best l b ->
  first_best (l ++ [next]) (default b (pick (lex (key b) (key next)) b next)).
Proof.
  intros (l1 & l2 & -> & H1 & H2). destruct (lex (key b) (key next)) eqn:E; cbn [pick default from_option id].
  - exists l1, (l2 ++ [next]). split; [by rewrite <- app_assoc|]. split; [done|]. apply Forall_app. split; [done|].
    constructor; [|done]. by rewrite lex_opp, E.
  - exists (l1 ++ b :: l2), []. split; [done|]. split; [|done].
    assert (Hlt : forall p, lex (key p) (key b) <> Gt -> lex (key p) (key next) = Lt).
    { intros p Hp. apply (lex_trans (key p) (key b) (key next)); [done|done|done|by rewrite E|by right]. }
    apply Forall_app. split; [|constructor; [done|]]; (eapply list.Forall_impl; [eassumption|]); intros p Hp; apply Hlt; congruence.
  - exists l1, (l2 ++ [next]). split; [by rewrite <- app_assoc|]. split; [done|]. apply Forall_app. split; [done|].
    constructor; [|done]. by rewrite lex_opp, E.
Qed.

Lemma challenge_best l seen current why : comparable current -> Forall comparable l -> first_best seen current ->
  exists b why', challenge local_asn peers current why l = Ok (b, why') /\ first_best (seen ++ l) b.
Proof.
  revert seen current why. induction l as [|next l IH]; intros seen current why Hc Hl Hb.
  - exists current, why. split; [done|]. by rewrite app_nil_r.
  - apply list.Forall_cons in Hl as [Hn Hl]. cbn [challenge]. destruct (compare_keys current next Hc Hn) as (w & ->). cbn [mbind res_bind].
    destruct (IH (seen ++ [next]) (default current (pick (lex (key current) (key next)) current next)) w) as (b & w' & E & F);
      [by destruct (lex _ _)|done|by apply first_best_extend|].
    exists b, w'. split; [done|]. by rewrite <- app_assoc in F.
Qed.

Lemma best_known l : l <> [] -> Forall comparable l ->
  exists b why, _compute_best_known_path local_asn peers l = Ok (b, why) /\ first_best l b.
Proof.
  destruct l as [|p l]; [done|]. intros _ [Hp Hl]%list.Forall_cons.
  apply (challenge_best l [p] p BPR_ONLY_PATH Hp Hl). by exists [], [].
Qed.

Lemma first_best_in l b : first_best l b -> b ∈ l.
Proof. intros (l1 & l2 & -> & _). apply elem_of_app. right. by left. Qed.

End Order.
End BestFacts.

(** ** Claims *)

Module PathClaims.
Import BestFacts.

Section Claims.
Context `{C : AddrConv} `{!AddrConvLaws C} (local_asn : Z) (peers : Z -> peer).

(** C10: The pairwise rules implement an order: on paths that have a local preference, the
    mandatory attributes and a source with a session, the path that comes out of the
    successive comparisons is the first maximum of the known paths under the lexicographic
    order of local preference, local origin, AS path length, origin, MED, kind of peer and,
    between internal peers, router identifier; and there is only one such path. *)
Theorem best_path_is_first_maximum (known : list path) (Hne : known <> []) (Hc : Forall (comparable peers) known) :
  exists b why, _compute_best_known_path local_asn peers known = Ok (b, why)
    /\ first_best local_asn peers known b
    /\ forall b', first_best local_asn peers known b' -> b' = b.
Proof.
  destruct (best_known local_asn peers known Hne Hc) as (b & why & H & Hf). exists b, why. split; [done|]. split; [done|].
  intros b' Hb'. by eapply first_best_unique.
Qed.

End Claims.

(** *** Concrete routes *)

(** Two internal peers, 1 and 2, of the autonomous system 65000, and external ones. *)
Definition ident (n : Z) : string := RawConv.to_string [10; 0; 0; n].
Definition example_peers (n : Z) : peer :=
  MkPeer (if n <=? 2 then 65000 else 65000 + n) (Some (MkSession (ident 9) (ident (n mod 256)))).

Definition route (oid n lp len_ : Z) : path :=
  MkPath oid (Peer n) 1 "10.0.0.0/24" 1 (Some lp) (Some [AsSequence (replicate (Z.to_nat len_) 65009)]) (Some 0) None
    (Some "10.0.0.1"%string) false.
Definition no_pref (oid n len_ : Z) : path :=
  MkPath oid (Peer n) 1 "10.0.0.0/24" 1 None (Some [AsSequence (replicate (Z.to_nat len_) 65009)]) (Some 0) None
    (Some "10.0.0.1"%string) false.

Lemma route_comparable oid n lp len_ : comparable (C := RawConv.conv) example_peers (route oid n lp len_).
Proof.
  constructor; try done. cbn. eexists. split; [done|].
  apply (RawConv.canonical_raw IPV4 [10; 0; 0; n mod 256]); [done|].
  repeat constructor; unfold byte_ok; try lia; pose proof (Z.mod_pos_bound n 256); lia.
Qed.

Lemma best_path_is_first_maximum_witness : exists b why,
  _compute_best_known_path (C := RawConv.conv) 65000 example_peers [route 1 1 100 2; route 2 3 100 2; route 3 4 100 2] = Ok (b, why)
  /\ first_best (C := RawConv.conv) 65000 example_peers [route 1 1 100 2; route 2 3 100 2; route 3 4 100 2] b.
Proof.
  destruct (best_path_is_first_maximum (C := RawConv.conv) (AddrConvLaws0 := RawConv.laws) 65000 example_peers
    [route 1 1 100 2; route 2 3 100 2; route 3 4 100 2] ltac:(done)
    ltac:(repeat constructor; apply route_comparable)) as (b & why & H1 & H2 & _).
  exists b, why. exact (conj H1 H2).
Defined.

End PathClaims.
