(* ===== verification/CircList.v ===== *)
(** * Circular lists through attributes of their nodes (ryu/services/protocols/bgp/utils/circlist.py)

    [CircularListType.List] links objects by two attributes of the objects themselves; the
    list object is the head.  The attributes are two finite maps from objects to objects:
    an object without the attribute is not in the map.  The interface [Queue] is what the
    processor of the speaker needs of such a list; the laws are proved for this one. *)

From Stdlib Require Import ZArith Lia.
From stdpp Require Import base list gmap.
From S2P Require Import Prelude.

#[local] Open Scope Z_scope.

(** ** The interface *)

Class Queue (Q : Type) := {
  is_empty : Q -> res bool;
  is_on_list : Z -> Q -> res bool;
  append : Z -> stm Q unit;
  pop_first : stm Q (option Z) }.

(** A queue that behaves as the list of its elements. *)
Class QueueLaws (Q : Type) `{!Queue Q} := {
  node_ok : Z -> Prop;
  represents : Q -> list Z -> Prop;
  is_empty_spec q l : represents q l -> is_empty q = Ok (bool_decide (l = []));
  is_on_list_spec q l x : represents q l -> node_ok x -> is_on_list x q = Ok (bool_decide (x ∈ l));
  append_spec q l x : represents q l -> node_ok x -> x ∉ l ->
    exists q', append x q = (Ok tt, q') /\ represents q' (l ++ [x]);
  pop_first_spec q l : represents q l ->
    exists q', pop_first q = (Ok (head l), q') /\ represents q' (tail l) }.

(** ** The attributes *)

Module CircularList.

Record t := MkList { nexts : gmap Z Z; prevs : gmap Z Z }.

Definition node_next (node : Z) (s : t) : option Z := nexts s !! node.
Definition node_prev (node : Z) (s : t) : option Z := prevs s !! node.
Definition node_set_next (node next : Z) : stm t unit := modify (fun s => MkList (<[node := next]> (nexts s)) (prevs s)).
Definition node_set_prev (node prev : Z) : stm t unit := modify (fun s => MkList (nexts s) (<[node := prev]> (prevs s))).

(** Deleting stops at the first attribute that is missing. *)
Definition node_del_attrs (node : Z) : stm t unit :=
  modify (fun s =>
    match nexts s !! node with
    | None => s
    | Some _ => MkList (delete node (nexts s)) (delete node (prevs s))
    end).

Definition node_is_on_list (node : Z) (s : t) : res bool :=
  let next := node_next node s in
  if decide (next = Some node \/ next = None) then
    py_assert (bool_decide (node_prev node s = next)) ;; Ok false
  else Ok true.

Definition node_init (node : Z) : stm t unit :=
  s ← get;
  b ← lift_res (node_is_on_list node s);
  lift_res (py_assert (negb b)) ;;
  node_set_next node node ;;
  node_set_prev node node.

Definition node_insert_after (node new_node : Z) : stm t unit :=
  s ← get;
  b ← lift_res (node_is_on_list new_node s);
  lift_res (py_assert (negb b)) ;;
  lift_res (py_assert (negb (node =? new_node))) ;;
  next ← lift_res (or_raise AssertionError (node_next node s));
  node_set_next node new_node ;;
  node_set_prev new_node node ;;
  node_set_next new_node next ;;
  node_set_prev next new_node.

Definition node_insert_before (node new_node : Z) : stm t unit :=
  s ← get;
  b ← lift_res (node_is_on_list new_node s);
  lift_res (py_assert (negb b)) ;;
  lift_res (py_assert (negb (node =? new_node))) ;;
  prev ← lift_res (or_raise AssertionError (node_prev node s));
  node_set_prev node new_node ;;
  node_set_next new_node node ;;
  node_set_prev new_node prev ;;
  node_set_next prev new_node.

(** The attributes of the [None] that a missing neighbour is cannot be set. *)
Definition node_unlink (node : Z) : stm t unit :=
  s ← get;
  b ← lift_res (node_is_on_list node s);
  if negb b then mret tt
  else
    prev ← lift_res (or_raise AttributeError (node_prev node s));
    next ← lift_res (or_raise AttributeError (node_next node s));
    node_set_next prev next ;;
    node_set_prev next prev ;;
    node_set_next node node ;;
    node_set_prev node node.

(** ** [List] *)

(** The list object itself *)
Definition head_ : Z := 0.

Definition list_init : stm t unit := node_init head_.
Definition list_is_empty (s : t) : res bool := b ← node_is_on_list head_ s; Ok (negb b).
Definition list_is_on_list (node : Z) (s : t) : res bool := node_is_on_list node s.
Definition list_append (node : Z) : stm t unit := node_insert_before head_ node.
Definition list_prepend (node : Z) : stm t unit := node_insert_after head_ node.
Definition list_remove (node : Z) : stm t unit := node_unlink node ;; node_del_attrs node.

Definition list_pop_first : stm t (option Z) :=
  s ← get;
  node ← lift_res (or_raise AttributeError (node_next head_ s));
  if node =? head_ then mret None
  else list_remove node ;; mret (Some node).

#[global] Instance circular_queue : Queue t := {|
  is_empty := list_is_empty; is_on_list := list_is_on_list; append := list_append; pop_first := list_pop_first |}.

End CircularList.

(** ** Chains *)

Module CircFacts.
Import CircularList.

(** The map that links every element to the next one *)
Fixpoint chain (l : list Z) : gmap Z Z :=
  match l with
  | a :: l' => match l' with [] => ∅ | b :: _ => <[a := b]> (chain l') end
  | [] => ∅
  end.

Lemma chain_cons a b l : chain (a :: b :: l) = <[a := b]> (chain (b :: l)).
Proof. done. Qed.

Lemma chain_not_in l x : x ∉ removelast l -> chain l !! x = None.
Proof.
  induction l as [|a l IH]; [done|]. destruct l as [|b l]; [done|]. intros H. rewrite chain_cons.
  cbn [removelast] in H. rewrite lookup_insert_ne by set_solver. apply IH. set_solver.
Qed.

(** A ring: from the head through the elements and back *)
Definition ring (l : list Z) : list Z := head_ :: l ++ [head_].

Lemma ring_last l : removelast (ring l) = head_ :: l.
Proof. unfold ring. rewrite app_comm_cons. apply removelast_last. Qed.

Lemma chain_head a r h : chain (a :: r ++ [h]) = <[a := hd h r]> (chain (r ++ [h])).
Proof. by destruct r. Qed.

Lemma last_in a (l : list Z) : List.last l a ∈ a :: l.
Proof. revert a. induction l as [|b l IH]; intros a; [set_solver|]. cbn. destruct l as [|c l]; [set_solver|]. specialize (IH a). set_solver. Qed.

Lemma last_cons a b (l : list Z) : List.last (b :: l) a = List.last l b.
Proof. revert b. induction l as [|c l IH]; intros b; [done|]. cbn in *. destruct l; [done|]. apply IH. Qed.

Lemma chain_snoc a l x h : NoDup (a :: l) -> x ∉ a :: l ->
  chain (a :: l ++ [x; h]) = <[x := h]> (<[List.last l a := x]> (chain (a :: l ++ [h]))).
Proof.
  revert a. induction l as [|b l IH]; intros a Hnd Hx.
  - cbn. rewrite insert_insert_eq. by rewrite insert_insert_ne by set_solver.
  - apply list.NoDup_cons in Hnd as [Ha Hnd]. rewrite last_cons.
    change ((b :: l) ++ [x; h]) with (b :: l ++ [x; h]). change ((b :: l) ++ [h]) with (b :: l ++ [h]).
    rewrite !chain_cons, IH by set_solver. pose proof (last_in b l).
    rewrite (insert_insert_ne _ a x), (insert_insert_ne _ a (List.last l b)) by set_solver. done.
Qed.

Lemma chain_last a l h : NoDup (a :: l) -> chain (a :: l ++ [h]) !! List.last l a = Some h.
Proof.
  revert a. induction l as [|b l IH]; intros a Hnd; [cbn; by rewrite lookup_insert_eq|].
  apply list.NoDup_cons in Hnd as [Ha Hnd]. rewrite last_cons. pose proof (last_in b l).
  change ((b :: l) ++ [h]) with (b :: l ++ [h]). rewrite chain_cons, lookup_insert_ne by set_solver. by apply IH.
Qed.

Lemma chain_in a l h x : NoDup (a :: l) -> h ∉ l -> x ∈ l -> exists y, chain (a :: l ++ [h]) !! x = Some y /\ y <> x.
Proof.
  revert a. induction l as [|b l IH]; intros a Hnd Hh Hx; [set_solver|].
  apply list.NoDup_cons in Hnd as [Ha Hnd]. change ((b :: l) ++ [h]) with (b :: l ++ [h]).
  rewrite chain_cons, lookup_insert_ne by set_solver. destruct (decide (x = b)) as [->|Hne].
  - rewrite chain_head, lookup_insert_eq. eexists. split; [done|].
    destruct l as [|c l]; cbn [hd]; intros ->; [by apply Hh; left|]. by apply list.NoDup_cons in Hnd as [[]%not_elem_of_cons _].
  - apply IH; set_solver.
Qed.

Lemma hd_reverse (l : list Z) h : hd h (reverse l) = List.last l h.
Proof.
  revert h. induction l as [|a l IH]; intros h; [done|]. rewrite last_cons, reverse_cons, <- IH.
  by destruct (reverse l).
Qed.

Lemma last_reverse (l : list Z) h : List.last (reverse l) h = hd h l.
Proof. rewrite <- (reverse_involutive l) at 2. by rewrite hd_reverse. Qed.

(** *** The list of the nodes *)

Definition linked (s : t) (l : list Z) : Prop :=
  NoDup (head_ :: l) /\ nexts s = chain (ring l) /\ prevs s = chain (ring (reverse l)).

Lemma linked_absent s l x : linked s l -> x <> head_ -> x ∉ l -> nexts s !! x = None /\ prevs s !! x = None.
Proof.
  intros (_ & -> & ->) Hx Hl. split; apply chain_not_in; rewrite ring_last; [set_solver|].
  intros [->|H]%elem_of_cons; [done|]. apply Hl. by apply elem_of_reverse.
Qed.

Lemma linked_on s l x : linked s l -> x <> head_ -> node_is_on_list x s = Ok (bool_decide (x ∈ l)).
Proof.
  intros HL Hx. unfold node_is_on_list, node_next, node_prev. destruct (decide (x ∈ l)) as [Hin|Hout].
  - rewrite (bool_decide_true (x ∈ l)) by done. destruct HL as (Hnd & Hn & _). apply list.NoDup_cons in Hnd as [Hh Hnd].
    destruct (chain_in head_ l head_ x) as (y & Hy & Hne); [by apply list.NoDup_cons|done|done|].
    rewrite Hn. unfold ring. rewrite Hy. rewrite decide_False; [done|]. by intros [[= ?]|[=]].
  - destruct (linked_absent _ _ _ HL Hx Hout) as [-> ->]. rewrite decide_True by (by right). by rewrite (bool_decide_false (x ∈ l)).
Qed.

Lemma linked_head s l : linked s l -> nexts s !! head_ = Some (hd head_ l) /\ prevs s !! head_ = Some (List.last l head_).
Proof.
  intros (_ & -> & ->). unfold ring. rewrite !chain_head, !lookup_insert_eq. by rewrite hd_reverse.
Qed.

Lemma linked_init : exists s, list_init (MkList ∅ ∅) = (Ok tt, s) /\ linked s [].
Proof. eexists. split; [reflexivity|]. split; [apply NoDup_singleton|]. done. Qed.

Lemma linked_empty s l : linked s l -> list_is_empty s = Ok (bool_decide (l = [])).
Proof.
  intros HL. destruct (linked_head s l HL) as [Hn Hp]. destruct HL as (Hnd & _).
  unfold list_is_empty, node_is_on_list, node_next, node_prev. rewrite Hn, Hp. destruct l as [|x l]; [done|].
  apply list.NoDup_cons in Hnd as [Hh _]. cbn [hd]. rewrite decide_False; [done|].
  intros [[= ->]|[=]]. set_solver.
Qed.

Lemma linked_append s l x : linked s l -> x <> head_ -> x ∉ l ->
  exists s', list_append x s = (Ok tt, s') /\ linked s' (l ++ [x]).
Proof.
  intros HL Hx Hl. pose proof (linked_on s l x HL Hx) as Hon. rewrite bool_decide_false in Hon by done.
  destruct (linked_head s l HL) as [_ Hp]. destruct HL as (Hnd & Hn & Hpv).
  unfold list_append, node_insert_before, get, lift_res. unfold mbind at 1, stm_bind at 1. unfold mbind at 1, stm_bind at 1.
  rewrite Hon. unfold node_prev. rewrite Hp, (proj2 (Z.eqb_neq head_ x)) by congruence.
  eexists. split; [reflexivity|]. pose proof (last_in head_ l) as Hin.
  split; [rewrite app_comm_cons; apply NoDup_app; split; [done|]; split; [set_solver|apply NoDup_singleton]|].
  cbn [nexts prevs]. split.
  - unfold ring. rewrite <- app_assoc. cbn [app]. rewrite chain_snoc by set_solver. rewrite Hn.
    by rewrite insert_insert_ne by set_solver.
  - unfold ring. rewrite reverse_snoc. cbn [app]. rewrite chain_cons, (chain_head x), Hpv. unfold ring.
    rewrite chain_head, insert_insert_eq, hd_reverse. by rewrite insert_insert_ne by congruence.
Qed.

Lemma linked_pop s l : linked s l -> exists s', list_pop_first s = (Ok (head l), s') /\ linked s' (tail l).
Proof.
  intros HL. destruct (linked_head s l HL) as [Hn Hp]. unfold list_pop_first, get, lift_res. unfold mbind at 1, stm_bind at 1.
  unfold mbind at 1, stm_bind at 1, node_next. rewrite Hn. cbn [or_raise]. destruct l as [|x l].
  - exists s. by split.
  - cbn [hd]. pose proof HL as (Hnd & Hnx & Hpv). pose proof Hnd as [Hh Hnd']%list.NoDup_cons.
    pose proof Hnd' as [Hx Hndl]%list.NoDup_cons.
    assert (Hxh : x <> head_) by set_solver. rewrite (proj2 (Z.eqb_neq x head_)) by done.
    pose proof (linked_on s _ x HL Hxh) as Hon. rewrite bool_decide_true in Hon by set_solver.
    assert (Ndr : NoDup (head_ :: reverse l)).
    { apply list.NoDup_cons. rewrite elem_of_reverse. split; [set_solver|]. by rewrite reverse_Permutation. }
    assert (Hxr : x ∉ head_ :: reverse l) by (rewrite elem_of_cons, elem_of_reverse; set_solver).
    assert (Ep : prevs s = <[x := head_]> (<[hd head_ l := x]> (chain (ring (reverse l))))).
    { rewrite Hpv. unfold ring. rewrite reverse_cons, <- app_assoc. cbn [app]. rewrite chain_snoc by done. by rewrite last_reverse. }
    assert (En : nexts s = <[head_ := x]> (<[x := hd head_ l]> (chain (l ++ [head_])))).
    { rewrite Hnx. unfold ring. cbn [app]. by rewrite chain_cons, chain_head. }
    unfold list_remove, node_unlink, get, lift_res. unfold mbind at 1, stm_bind at 1. unfold mbind at 1, stm_bind at 1.
    unfold mbind at 1, stm_bind at 1. unfold mbind at 1, stm_bind at 1. rewrite Hon. cbn [negb].
    unfold node_next, node_prev. rewrite Ep, En, lookup_insert_eq.
    rewrite lookup_insert_ne, lookup_insert_eq by done. cbn [or_raise].
    unfold node_set_next, node_set_prev, node_del_attrs, modify, mbind, stm_bind, mret, stm_ret. cbn [nexts prevs].
    rewrite lookup_insert_eq. eexists. split; [reflexivity|]. split; [by apply list.NoDup_cons; set_solver|]. cbn [nexts prevs].
    rewrite En, Ep, !delete_insert_eq. split.
    + rewrite insert_insert_eq, delete_insert_ne, delete_insert_eq, delete_id; [by unfold ring; rewrite chain_head| |done].
      apply chain_not_in. rewrite removelast_last. done.
    + assert (Hy : hd head_ l <> x) by (destruct l; cbn; set_solver).
      rewrite insert_insert_ne, insert_insert_eq, delete_insert_eq by done.
      rewrite delete_insert_ne, delete_id by (done || apply chain_not_in; rewrite ring_last; done).
      apply insert_id. unfold ring. rewrite <- last_reverse. by apply chain_last.
Qed.

End CircFacts.

#[global] Instance circular_laws : QueueLaws CircularList.t := {|
  node_ok x := x <> CircularList.head_;
  represents := CircFacts.linked;
  is_empty_spec := CircFacts.linked_empty;
  is_on_list_spec := fun q l x H Hx => CircFacts.linked_on q l x H Hx;
  append_spec := CircFacts.linked_append;
  pop_first_spec := CircFacts.linked_pop |}.
