(* ===== verification/BgpRib.v ===== *)
(** * Destinations, tables and the processor of the BGP speaker
      (ryu/services/protocols/bgp: info_base/base.py, info_base/ipv4.py, processor.py)

    A destination collects the paths to one prefix: those that are known, those that are
    new and the withdrawals that wait to be processed.  Processing picks the best path and
    tells the peers.  The table is the dictionary of destinations; the processor takes the
    changed ones from its queue, which is any queue with the laws of [CircList]. *)

From Stdlib Require Import ZArith Lia.
From stdpp Require Import base list gmap strings numbers.
From S2P Require Import Prelude Struct PktUtils PktHeaders BgpPath CircList.

#[local] Open Scope Z_scope.

(** ** Destinations *)

(** What leaves a destination: the best path for the peers, a withdrawal of the route that
    was sent to a peer, and the signal for other components. *)
Inductive effect :=
  | Communicate (p : path)
  | EnqueWithdraw (peer : Z) (sent_path : path)
  | BestPathChanged (p : option path) (is_withdraw : bool).

Record dest := MkDest {
  known_path_list : list path; new_path_list : list path; withdraw_list : list path;
  best_path : option path; best_path_reason : option reason;
  sent_routes : list (Z * path); out : list effect }.

Definition empty_dest : dest := MkDest [] [] [] None None [] [].

Definition with_known l s := MkDest l (new_path_list s) (withdraw_list s) (best_path s) (best_path_reason s) (sent_routes s) (out s).
Definition with_new l s := MkDest (known_path_list s) l (withdraw_list s) (best_path s) (best_path_reason s) (sent_routes s) (out s).
Definition with_withdraws l s := MkDest (known_path_list s) (new_path_list s) l (best_path s) (best_path_reason s) (sent_routes s) (out s).
Definition with_best b s := MkDest (known_path_list s) (new_path_list s) (withdraw_list s) b (best_path_reason s) (sent_routes s) (out s).
Definition with_reason r s := MkDest (known_path_list s) (new_path_list s) (withdraw_list s) (best_path s) r (sent_routes s) (out s).
Definition with_sent l s := MkDest (known_path_list s) (new_path_list s) (withdraw_list s) (best_path s) (best_path_reason s) l (out s).
Definition emit (x : effect) : stm dest unit :=
  modify (fun s => MkDest (known_path_list s) (new_path_list s) (withdraw_list s) (best_path s) (best_path_reason s) (sent_routes s) (out s ++ [x])).

(** [list.remove]: the first element that is the object *)
Fixpoint remove (p : path) (l : list path) : res (list path) :=
  match l with
  | [] => Err ValueError
  | q :: l => if oid q =? oid p then Ok l else l' ← remove p l; Ok (q :: l')
  end.

Definition known_remove (p : path) : stm dest unit :=
  s ← get; l ← lift_res (remove p (known_path_list s)); modify (with_known l).
Definition withdraw_remove (p : path) : stm dest unit :=
  s ← get; l ← lift_res (remove p (withdraw_list s)); modify (with_withdraws l).

Definition find_source (s : source_t) (l : list path) : option path :=
  List.find (fun p => bool_decide (source p = s)) l.

(** A set of objects, in the order in which they were added; what is done with its
    elements does not depend on the order. *)
Definition set_add (acc : list path) (p : path) : list path :=
  if existsb (fun q => oid q =? oid p) acc then acc else acc ++ [p].
Definition set_of (l : list path) : list path := foldl set_add [] l.

Section Dest.
Context `{C : AddrConv} (local_asn : Z) (peers : Z -> peer) (ROUTE_FAMILY : Z).

Definition _validate_path (p : path) : stm dest unit :=
  if family p =? ROUTE_FAMILY then mret tt else raise ValueError.

Definition add_new_path (p : path) : stm dest unit :=
  _validate_path p ;; modify (fun s => with_new (new_path_list s ++ [p]) s).

Definition add_withdraw (p : path) : stm dest unit :=
  _validate_path p ;; modify (fun s => with_withdraws (withdraw_list s ++ [p]) s).

(** The dictionary of sent routes: a replaced entry keeps its place. *)
Fixpoint dict_set (k : Z) (v : path) (l : list (Z * path)) : list (Z * path) :=
  match l with
  | [] => [(k, v)]
  | (k', v') :: l => if k' =? k then (k, v) :: l else (k', v') :: dict_set k v l
  end.

Definition add_sent_route (peer : Z) (p : path) : stm dest unit :=
  modify (fun s => with_sent (dict_set peer p (sent_routes s)) s).

Definition was_sent_to (peer : Z) (s : dest) : bool := existsb (fun x => x.1 =? peer) (sent_routes s).

Definition remove_sent_route (peer : Z) : stm dest bool :=
  s ← get;
  if was_sent_to peer s then
    modify (fun s => with_sent (List.filter (fun x => negb (x.1 =? peer)) (sent_routes s)) s) ;; mret true
  else mret false.

Definition withdraw_if_sent_to (peer : Z) : stm dest bool :=
  s ← get;
  match List.find (fun x => x.1 =? peer) (sent_routes s) with
  | None => mret false
  | Some (_, p) =>
      modify (fun s => with_sent (List.filter (fun x => negb (x.1 =? peer)) (sent_routes s)) s) ;;
      emit (EnqueWithdraw peer p) ;; mret true
  end.

Definition sent_routes_by_peer (peer : Z) (s : dest) : list path :=
  List.map snd (List.filter (fun x => x.1 =? peer) (sent_routes s)).

(** [withdraw_path]: the withdrawal is a new object. *)
Definition withdraw_path (new_oid : Z) (p : path) : stm dest unit :=
  s ← get;
  if existsb (fun q => oid q =? oid p) (known_path_list s) then
    modify (fun s => with_withdraws (withdraw_list s ++ [withdrawal new_oid p]) s)
  else raise ValueError.

(** The paths of a session that has ended; the removed ones, from the last to the first. *)
Definition remove_old_paths_from_source (peer : Z) (version_num : Z) : stm dest (list path) :=
  s ← get;
  let old p := bool_decide (source p = Peer peer) && (source_version_num p <? version_num) in
  modify (fun s => with_known (List.filter (fun p => negb (old p)) (known_path_list s)) s) ;;
  mret (rev (List.filter old (known_path_list s))).

Definition _remove_withdrawals : stm dest unit :=
  s ← get;
  match withdraw_list s, known_path_list s with
  | [], _ => mret tt
  | _, [] => modify (with_withdraws [])
  | ws, known =>
      let found := omap (fun w => match find_source (source w) known with Some p => Some (w, p) | None => None end) ws in
      iterM known_remove (set_of (List.map snd found)) ;;
      iterM withdraw_remove (set_of (List.map fst found))
  end.

Definition _remove_old_paths : stm dest unit :=
  s ← get;
  iterM (fun new_path =>
    s ← get;
    match find_source (source new_path) (known_path_list s) with
    | Some old_path => known_remove old_path
    | None => mret tt
    end) (new_path_list s).

(** The new paths become known, and the best of all is computed. *)
Definition collect_paths : stm dest (option path * reason) :=
  modify (fun s => with_known (known_path_list s ++ new_path_list s) s) ;;
  modify (with_new []) ;;
  s ← get;
  match known_path_list s with
  | [] => mret (None, BPR_UNKNOWN)
  | known => '(b, why) ← lift_res (_compute_best_known_path local_asn peers known); mret (Some b, why)
  end.

Definition _process_paths : stm dest (option path * reason) :=
  _remove_withdrawals ;;
  s ← get;
  match known_path_list s, new_path_list s with
  | [], [p] =>
      modify (with_known [p]) ;; modify (with_new []) ;; mret (Some p, BPR_ONLY_PATH)
  | _, _ => _remove_old_paths ;; collect_paths
  end.

(** The sent routes are withdrawn from the peers they were sent to. *)
Definition withdraw_sent : stm dest unit :=
  s ← get; iterM (fun x => emit (EnqueWithdraw x.1 x.2)) (sent_routes s).

(** [_best_path_lost] and [_new_best_path] of an IPv4 destination, with the mixin. *)
Definition _best_path_lost : stm dest unit :=
  s ← get;
  let old_best_path := best_path s in
  modify (with_best None) ;;
  withdraw_sent ;;
  modify (with_sent []) ;;
  emit (BestPathChanged old_best_path true).

Definition same_path (a b : option path) : bool :=
  match a, b with
  | Some a, Some b => oid a =? oid b
  | None, None => true
  | _, _ => false
  end.

Definition _new_best_path (new_best_path : path) : stm dest unit :=
  s ← get;
  let old_best_path := best_path s in
  modify (with_best (Some new_best_path)) ;;
  (match old_best_path with
   | Some p => if existsb (fun q => oid q =? oid p) (known_path_list s) then mret tt else modify (with_sent [])
   | None => mret tt
   end) ;;
  emit (Communicate new_best_path) ;;
  (match old_best_path with
   | Some _ => withdraw_sent ;; modify (with_sent [])
   | None => mret tt
   end) ;;
  emit (BestPathChanged (Some new_best_path) false).

Definition _process : stm dest unit :=
  '(new_best_path, why) ← _process_paths;
  modify (with_reason (Some why)) ;;
  s ← get;
  if same_path (best_path s) new_best_path then mret tt
  else match new_best_path with
       | None => lift_res (py_assert (bool_decide (known_path_list s = []))) ;; _best_path_lost
       | Some p => _new_best_path p
       end.

(** [process]: whether the destination is to be removed from its table. *)
Definition process : stm dest bool :=
  _process ;;
  s ← get;
  mret (bool_decide (known_path_list s = []) && bool_decide (best_path s = None)).

End Dest.

(** ** Tables and the processor *)

Section Processor.
Context `{C : AddrConv} {Q : Type} `{!Queue Q} (local_asn : Z) (peers : Z -> peer) (ROUTE_FAMILY : Z).

(** Destinations are objects, each with its prefix; the table of IPv4 routes maps prefixes
    to them.  The processor waits for the event [dest_que_evt]. *)
Record speaker := MkSpeaker {
  heap : gmap Z (string * dest); table : gmap string Z; next_obj : Z; dest_queue : Q; dest_que_evt : bool }.

Definition with_heap h s := MkSpeaker h (table s) (next_obj s) (dest_queue s) (dest_que_evt s).
Definition with_table t s := MkSpeaker (heap s) t (next_obj s) (dest_queue s) (dest_que_evt s).
Definition with_queue q s := MkSpeaker (heap s) (table s) (next_obj s) q (dest_que_evt s).

Definition on_dest {A} (n : Z) (m : stm dest A) : stm speaker A := fun s =>
  match heap s !! n with
  | None => (Err AttributeError, s)
  | Some (k, d) => let '(r, d') := m d in (r, with_heap (<[n := (k, d')]> (heap s)) s)
  end.

Definition on_queue {A} (m : stm Q A) : stm speaker A := fun s =>
  let '(r, q) := m (dest_queue s) in (r, with_queue q s).

Definition _get_or_create_dest (table_key : string) : stm speaker Z :=
  s ← get;
  match table s !! table_key with
  | Some n => mret n
  | None =>
      let n := next_obj s in
      modify (fun s => MkSpeaker (<[n := (table_key, empty_dest)]> (heap s)) (<[table_key := n]> (table s)) (n + 1)
                         (dest_queue s) (dest_que_evt s)) ;;
      mret n
  end.

Definition insert (p : path) : stm speaker Z :=
  (if family p =? ROUTE_FAMILY then mret tt else raise ValueError) ;;
  n ← _get_or_create_dest (prefix p);
  on_dest n (if is_withdraw p then add_withdraw ROUTE_FAMILY p else add_new_path ROUTE_FAMILY p) ;;
  mret n.

Definition insert_sent_route (peer : Z) (p : path) : stm speaker unit :=
  (if family p =? ROUTE_FAMILY then mret tt else raise ValueError) ;;
  n ← _get_or_create_dest (prefix p);
  on_dest n (add_sent_route peer p).

Definition delete_dest (n : Z) : stm speaker unit :=
  s ← get;
  '(k, _) ← lift_res (or_raise AttributeError (heap s !! n));
  match table s !! k with
  | None => raise KeyError
  | Some _ => modify (with_table (delete k (table s)))
  end.

(** [delete_dest_by_nlri] looks the destination up by its key and deletes the entry whose
    key is the destination. *)
Definition delete_dest_by_nlri (table_key : string) : stm speaker (option Z) :=
  s ← get;
  match table s !! table_key with
  | None => mret None
  | Some _ => raise KeyError
  end.

Definition enqueue (n : Z) : stm speaker unit :=
  s ← get;
  b ← lift_res (is_on_list n (dest_queue s));
  (if b : bool then mret tt else on_queue (append n)) ;;
  modify (fun s => MkSpeaker (heap s) (table s) (next_obj s) (dest_queue s) true).

(** A path from a peer: the destination it goes to has changed. *)
Definition learn (p : path) : stm speaker unit := n ← insert p; enqueue n.

Definition cleanup_paths_for_peer (peer version_num : Z) : stm speaker unit :=
  s ← get;
  iterM (fun n =>
    paths_deleted ← on_dest n (remove_old_paths_from_source peer version_num);
    on_dest n (remove_sent_route peer) ;;
    match paths_deleted with [] => mret tt | _ => enqueue n end) (map_to_list (table s)).*2.

Definition process_one (n : Z) : stm speaker unit :=
  remove ← on_dest n (process local_asn peers);
  if remove : bool then delete_dest n else mret tt.

(** One batch; a queue that is not empty has a first element. *)
Fixpoint _process_dest (work_units : nat) : stm speaker unit :=
  match work_units with
  | O => mret tt
  | S n =>
      s ← get;
      e ← lift_res (is_empty (dest_queue s));
      if e : bool then mret tt
      else
        next_dest ← on_queue pop_first;
        match next_dest with
        | Some d => process_one d ;; _process_dest n
        | None => mret tt
        end
  end.

Fixpoint batches (n work_units : nat) : stm speaker unit :=
  match n with O => mret tt | S n => _process_dest work_units ;; batches n work_units end.

End Processor.

(** ** Routes by their source *)

Module RibFacts.
Import BestFacts.

Definition other_source (s : source_t) (p : path) : bool := negb (bool_decide (source p = s)).

(** The abstract table of routes to a prefix: the last path of every source that has not
    withdrawn it, the oldest first. *)
Definition announce (p : path) (l : list path) : list path := List.filter (other_source (source p)) l ++ [p].
Definition retract (s : source_t) (l : list path) : list path := List.filter (other_source s) l.

Record distinct (l : list path) : Prop := {
  di_oid : NoDup (oid <$> l); di_source : NoDup (source <$> l) }.

Lemma distinct_cons p l : distinct (p :: l) -> oid p ∉ oid <$> l /\ source p ∉ source <$> l /\ distinct l.
Proof. intros [[H1 H2]%list.NoDup_cons [H3 H4]%list.NoDup_cons]. by repeat split. Qed.

Lemma filter_absent s l : s ∉ source <$> l -> List.filter (other_source s) l = l.
Proof.
  induction l as [|q l IH]; [done|]. rewrite fmap_cons, not_elem_of_cons. intros [Hq Hl]. cbn.
  unfold other_source at 1. rewrite bool_decide_false by congruence. cbn. by rewrite IH.
Qed.

Lemma find_source_none s l : find_source s l = None -> s ∉ source <$> l.
Proof.
  unfold find_source. induction l as [|q l IH]; [set_solver|]. cbn. destruct (bool_decide_reflect (source q = s)); [done|].
  intros H. rewrite not_elem_of_cons. split; [congruence|by apply IH].
Qed.

Lemma find_source_some s l p : find_source s l = Some p -> p ∈ l /\ source p = s.
Proof.
  unfold find_source. induction l as [|q l IH]; [done|]. cbn. destruct (bool_decide_reflect (source q = s)) as [Hs|_].
  - intros [= <-]. split; [by left|done].
  - intros H. destruct (IH H). split; [by right|done].
Qed.

Lemma find_source_in s l : s ∈ source <$> l -> exists p, find_source s l = Some p.
Proof.
  intros H. destruct (find_source s l) as [p|] eqn:E; [by eexists|]. by apply find_source_none in E.
Qed.

Lemma remove_found s l p : distinct l -> find_source s l = Some p -> remove p l = Ok (retract s l).
Proof.
  intros Hd H. pose proof (find_source_some _ _ _ H) as [_ Hs]. revert Hd H. unfold find_source.
  induction l as [|q l IH]; [done|]. intros (Ho & Hq & Hd)%distinct_cons. cbn. unfold other_source at 1.
  destruct (bool_decide_reflect (source q = s)) as [E|E]; cbn.
  - intros [= <-]. rewrite Z.eqb_refl. f_equal. symmetry. apply filter_absent. congruence.
  - intros H. rewrite (proj2 (Z.eqb_neq _ _)), IH; [done|done|done|].
    intros Eo. apply Ho. rewrite Eo. apply list_elem_of_fmap. exists p. split; [done|]. by apply (find_source_some s).
Qed.

Lemma sub_filter {A} (f : path -> A) g l x : x ∈ f <$> List.filter g l -> x ∈ f <$> l.
Proof.
  rewrite !list_elem_of_fmap. intros (p & -> & Hp). exists p. split; [done|].
  apply list_elem_of_In, filter_In in Hp as [Hp _]. by apply list_elem_of_In.
Qed.

Lemma nodup_filter {A} (f : path -> A) g l : NoDup (f <$> l) -> NoDup (f <$> List.filter g l).
Proof.
  induction l as [|q l IH]; [done|]. rewrite fmap_cons. intros [H1 H2]%list.NoDup_cons. cbn. destruct (g q); [|by apply IH].
  rewrite fmap_cons. apply list.NoDup_cons. split; [|by apply IH]. intros H. by apply sub_filter in H.
Qed.

Lemma distinct_retract s l : distinct l -> distinct (retract s l).
Proof. intros []. split; by apply nodup_filter. Qed.

Lemma retract_no_source s l : s ∉ source <$> retract s l.
Proof.
  rewrite list_elem_of_fmap. intros (p & -> & Hp). apply list_elem_of_In, filter_In in Hp as [_ Hp].
  unfold other_source in Hp. by rewrite bool_decide_true in Hp.
Qed.

Lemma distinct_announce p l : distinct l -> oid p ∉ oid <$> l -> distinct (announce p l).
Proof.
  intros Hd Ho. destruct (distinct_retract (source p) l Hd) as [H1 H2]. unfold announce.
  split; rewrite fmap_app; apply list.NoDup_app; (split; [done|split; [|apply NoDup_singleton]]); intros x Hx [= ->]%list_elem_of_singleton.
  - apply Ho. by apply sub_filter in Hx.
  - by apply (retract_no_source (source p) l).
Qed.

Lemma forall_retract (P : path -> Prop) s l : Forall P l -> Forall P (retract s l).
Proof.
  rewrite !list.Forall_forall. intros H p Hp. apply H. apply list_elem_of_In, filter_In in Hp as [Hp _]. by apply list_elem_of_In.
Qed.

Lemma forall_announce (P : path -> Prop) p l : Forall P l -> P p -> Forall P (announce p l).
Proof. intros H Hp. apply Forall_app. split; [by apply forall_retract|by constructor]. Qed.

(** ** Processing *)

Section Process.
Context `{C : AddrConv} `{!AddrConvLaws C} (local_asn : Z) (peers : Z -> peer) (ROUTE_FAMILY : Z).

Ltac run := unfold mbind, stm_bind, modify, mret, stm_ret, lift_res, get in *.

(** Nothing waits to be processed. *)
Definition at_rest (s : dest) (l : list path) : Prop :=
  known_path_list s = l /\ new_path_list s = [] /\ withdraw_list s = [].

Lemma collect_best s l : known_path_list s ++ new_path_list s = l -> l <> [] -> Forall (comparable peers) l ->
  exists b why, collect_paths local_asn peers s = (Ok (Some b, why), with_new [] (with_known l s)) /\ first_best local_asn peers l b.
Proof.
  intros Hl Hne Hc. destruct (best_known local_asn peers l Hne Hc) as (b & why & Hb & Hf). exists b, why. split; [|done].
  unfold collect_paths. run. cbn [known_path_list with_known with_new]. rewrite Hl. destruct l; [done|]. by rewrite Hb.
Qed.

(** One new path, with nothing else to do. *)
Lemma remove_old_one s l p : known_path_list s = l -> new_path_list s = [p] -> distinct l ->
  _remove_old_paths s = (Ok tt, with_known (retract (source p) l) s).
Proof.
  intros Hk Hn Hd. unfold _remove_old_paths. run. rewrite Hn. cbn [iterM]. run. rewrite Hk.
  destruct (find_source (source p) l) as [old|] eqn:Ef.
  - unfold known_remove. run. rewrite Hk, (remove_found _ _ _ Hd Ef). done.
  - apply find_source_none in Ef. unfold retract. rewrite filter_absent by done. destruct s; cbn in *; by subst.
Qed.

Lemma announce_paths s l p : at_rest s l -> distinct l -> Forall (comparable peers) (announce p l) ->
  exists b why, _process_paths local_asn peers (with_new [p] s) = (Ok (Some b, why), with_known (announce p l) s)
    /\ first_best local_asn peers (announce p l) b.
Proof.
  intros (Hk & Hn & Hw) Hd Hc. unfold _process_paths. unfold mbind at 1, stm_bind at 1.
  assert (Hr : _remove_withdrawals (with_new [p] s) = (Ok tt, with_new [p] s))
    by (unfold _remove_withdrawals; run; cbn; by rewrite Hw).
  rewrite Hr. unfold mbind at 1, stm_bind at 1, get at 1. cbn [known_path_list new_path_list with_new]. rewrite Hk.
  destruct l as [|q l].
  - exists p, BPR_ONLY_PATH. split; [destruct s; cbn in *; by subst|]. by exists [], [].
  - unfold mbind, stm_bind. rewrite (remove_old_one _ (q :: l) p) by done.
    set (s' := with_known _ (with_new [p] s)).
    destruct (collect_best s' (announce p (q :: l))) as (b & why & H & Hf); [done|by intros [_ [=]]%app_eq_nil|done|].
    exists b, why. split; [|done]. rewrite H. f_equal. unfold s'. destruct s; cbn in *; by subst.
Qed.

(** One withdrawal of a known path. *)
Lemma withdrawal_paths s l w : at_rest s l -> distinct l -> Forall (comparable peers) l ->
  l = [] \/ source w ∈ source <$> l ->
  exists ob why, _process_paths local_asn peers (with_withdraws [w] s) = (Ok (ob, why), with_known (retract (source w) l) s)
    /\ match ob with Some b => first_best local_asn peers (retract (source w) l) b | None => retract (source w) l = [] end.
Proof.
  intros (Hk & Hn & Hw) Hd Hc Hin. unfold _process_paths. unfold mbind at 1, stm_bind at 1.
  assert (Hr : _remove_withdrawals (with_withdraws [w] s) = (Ok tt, with_known (retract (source w) l) s)).
  { unfold _remove_withdrawals. unfold mbind at 1, stm_bind at 1, get at 1. cbn [withdraw_list known_path_list with_withdraws]. rewrite Hk.
    destruct l as [|q l]; [destruct s; cbn in *; by subst|]. destruct Hin as [|Hin]; [done|].
    destruct (find_source_in _ _ Hin) as (p & Ef). cbn [omap list_omap]. rewrite Ef. cbn. unfold known_remove, withdraw_remove. run.
    cbn [known_path_list withdraw_list with_withdraws]. rewrite Hk, (remove_found _ _ _ Hd Ef). cbn. rewrite Z.eqb_refl.
    destruct s; cbn in *; by subst. }
  rewrite Hr. unfold mbind at 1, stm_bind at 1, get at 1. cbn [known_path_list new_path_list with_known]. rewrite Hn.
  set (k := retract (source w) l) in *. set (s' := with_known k s).
  assert (Ho : _remove_old_paths s' = (Ok tt, s')) by (unfold _remove_old_paths; run; cbn; by rewrite Hn).
  assert (Hs : s' = with_new [] (with_known k s')) by (unfold s'; destruct s; cbn in *; by subst).
  assert (Hrest : exists ob why, (_remove_old_paths ;; collect_paths local_asn peers) s' = (Ok (ob, why), s')
    /\ match ob with Some b => first_best local_asn peers k b | None => k = [] end).
  { unfold mbind, stm_bind. rewrite Ho. destruct (decide (k = [])) as [Ek|Hne].
    - exists None, BPR_UNKNOWN. split; [|done]. unfold collect_paths. run.
      assert (Hs2 : with_new [] (with_known (known_path_list s' ++ new_path_list s') s') = s')
        by (unfold s'; cbn [known_path_list new_path_list with_known]; rewrite Hn, app_nil_r; symmetry; exact Hs).
      rewrite Hs2. change (known_path_list s') with k. by rewrite Ek.
    - destruct (collect_best s' k) as (b & why & H & Hf); [cbn; by rewrite Hn, app_nil_r|done|by apply forall_retract|].
      exists (Some b), why. split; [|done]. by rewrite H, <- Hs. }
  destruct k; exact Hrest.
Qed.

(** *** Telling the peers *)

Definition emitted (l : list effect) (s : dest) : dest :=
  MkDest (known_path_list s) (new_path_list s) (withdraw_list s) (best_path s) (best_path_reason s) (sent_routes s) (out s ++ l).

Lemma withdraw_sent_run s :
  withdraw_sent s = (Ok tt, emitted (List.map (fun x => EnqueWithdraw x.1 x.2) (sent_routes s)) s).
Proof.
  unfold withdraw_sent. unfold mbind at 1, stm_bind at 1, get at 1. generalize (sent_routes s) at 1 2. intros l. revert s.
  induction l as [|x l IH]; intros s; cbn [iterM List.map].
  - run. unfold emitted. rewrite app_nil_r. by destruct s.
  - unfold mbind, stm_bind. unfold emit at 1, modify. rewrite IH. unfold emitted. cbn. by rewrite <- app_assoc.
Qed.

(** What a new best path makes the destination send: the path first, then withdrawals of
    the routes that were sent, unless the old best path has gone. *)
Lemma new_best_run p s : exists s', _new_best_path p s = (Ok tt, s')
  /\ known_path_list s' = known_path_list s /\ new_path_list s' = new_path_list s /\ withdraw_list s' = withdraw_list s
  /\ best_path s' = Some p
  /\ out s' = out s ++ Communicate p ::
       (match best_path s with
        | Some old => if existsb (fun q => oid q =? oid old) (known_path_list s)
                      then List.map (fun x => EnqueWithdraw x.1 x.2) (sent_routes s) else []
        | None => []
        end) ++ [BestPathChanged (Some p) false].
Proof.
  unfold _new_best_path. run. destruct (best_path s) as [old|]; [destruct (existsb _ _)|];
    unfold emit at 1, modify; rewrite ?withdraw_sent_run; (eexists; split; [reflexivity|]); cbn; by rewrite <- ?app_assoc.
Qed.

Lemma lost_run s : exists s', _best_path_lost s = (Ok tt, s')
  /\ known_path_list s' = known_path_list s /\ new_path_list s' = new_path_list s /\ withdraw_list s' = withdraw_list s
  /\ best_path s' = None.
Proof. unfold _best_path_lost. run. rewrite withdraw_sent_run. eexists. split; [reflexivity|]. done. Qed.

Lemma process_run s s1 ob why : _process_paths local_asn peers s = (Ok (ob, why), s1) -> (ob = None -> known_path_list s1 = []) ->
  exists r s', process local_asn peers s = (Ok r, s')
    /\ known_path_list s' = known_path_list s1 /\ new_path_list s' = new_path_list s1 /\ withdraw_list s' = withdraw_list s1
    /\ best_path s' = (if same_path (best_path s1) ob then best_path s1 else ob)
    /\ r = bool_decide (known_path_list s' = []) && bool_decide (best_path s' = None).
Proof.
  intros Hp Hno. unfold process, _process. run. rewrite Hp. cbn [best_path with_reason].
  destruct (same_path (best_path s1) ob) eqn:E; [by eexists _, _|]. destruct ob as [p|].
  - destruct (new_best_run p (with_reason (Some why) s1)) as (s' & -> & H1 & H2 & H3 & H4 & _). by eexists _, s'.
  - cbn [known_path_list with_reason]. rewrite Hno, bool_decide_true by done. cbn [py_assert].
    destruct (lost_run (with_reason (Some why) s1)) as (s' & -> & H1 & H2 & H3 & H4). eexists _, s'.
    split; [done|]. rewrite H1, H2, H3, H4. cbn. by rewrite Hno.
Qed.

(** ** The refinement *)

Inductive update := Announce (p : path) | Withdraw (w : path).

(** An update that is processed at once. *)
Definition apply_update (u : update) : stm dest bool :=
  match u with
  | Announce p => add_new_path ROUTE_FAMILY p ;; process local_asn peers
  | Withdraw w => add_withdraw ROUTE_FAMILY w ;; process local_asn peers
  end.

Definition apply_spec (l : list path) (u : update) : list path :=
  match u with Announce p => announce p l | Withdraw w => retract (source w) l end.

(** A new object that can be compared, or a withdrawal of a route that was announced. *)
Definition update_ok (l : list path) (u : update) : Prop :=
  match u with
  | Announce p => family p = ROUTE_FAMILY /\ oid p ∉ oid <$> l /\ comparable peers p
  | Withdraw w => family w = ROUTE_FAMILY /\ (l = [] \/ source w ∈ source <$> l)
  end.

Fixpoint updates_ok (l : list path) (us : list update) : Prop :=
  match us with [] => True | u :: us => update_ok l u /\ updates_ok (apply_spec l u) us end.

Definition best_is (l : list path) (o : option path) : Prop :=
  match o with Some b => first_best local_asn peers l b | None => l = [] end.

Record rib (s : dest) (l : list path) : Prop := {
  rib_rest : at_rest s l; rib_distinct : distinct l; rib_comparable : Forall (comparable peers) l;
  rib_best : best_is l (best_path s) }.

Lemma same_oid l p q : distinct l -> p ∈ l -> q ∈ l -> oid p = oid q -> p = q.
Proof.
  intros [Hn _] (i & Hi)%list_elem_of_lookup (j & Hj)%list_elem_of_lookup E.
  assert (i = j) as <-; [|congruence].
  apply (NoDup_lookup (oid <$> l) i j (oid p)); [done|by rewrite list_lookup_fmap, Hi|by rewrite list_lookup_fmap, Hj, E].
Qed.

(** The best path that is kept is the one that was computed. *)
Lemma kept_best l k o o' : best_is l o -> best_is k o' -> distinct l ->
  (forall p q, p ∈ l -> q ∈ k -> oid p = oid q -> q ∈ l) -> best_is k (if same_path o o' then o else o').
Proof.
  intros Ho Ho' Hd Hsub. destruct (same_path o o') eqn:E; [|done].
  destruct o as [p|], o' as [q|]; try done. cbn in E. apply Z.eqb_eq in E.
  pose proof (first_best_in _ _ _ _ Ho) as Hp. pose proof (first_best_in _ _ _ _ Ho') as Hq.
  by rewrite (same_oid l p q Hd Hp (Hsub p q Hp Hq E) E).
Qed.

Lemma update_refines s l u : rib s l -> update_ok l u ->
  exists r s', apply_update u s = (Ok r, s') /\ rib s' (apply_spec l u) /\ r = bool_decide (apply_spec l u = []).
Proof.
  intros [Hrest Hd Hc Hb] Hu. destruct u as [p|w]; cbn [apply_update apply_spec update_ok] in *.
  - destruct Hu as (Hf & Ho & Hp). pose proof (forall_announce _ p l Hc Hp) as Hc'.
    destruct (announce_paths s l p Hrest Hd Hc') as (b & why & Hpp & Hfb).
    destruct (process_run _ _ _ _ Hpp ltac:(done)) as (r & s' & Hpr & H1 & H2 & H3 & H4 & ->).
    exists (bool_decide (known_path_list s' = []) && bool_decide (best_path s' = None)), s'.
    destruct Hrest as (Hk & Hn & Hw). split; [|split].
    + unfold add_new_path, _validate_path. rewrite Hf, Z.eqb_refl. run. rewrite Hn. exact Hpr.
    + constructor; [by repeat split; rewrite ?H1, ?H2, ?H3|by apply distinct_announce|done|].
      rewrite H4. apply (kept_best l); [done|exact Hfb|done|].
      intros x y Hx Hy E. apply elem_of_app in Hy as [Hy|Hy%list_elem_of_singleton].
      * apply list_elem_of_In, filter_In in Hy as [Hy _]. by apply list_elem_of_In.
      * subst. exfalso. apply Ho. rewrite <- E. by apply list_elem_of_fmap_2.
    + rewrite H1. cbn [known_path_list with_known]. assert (Hne : announce p l <> []) by (by intros [_ [=]]%app_eq_nil).
      by rewrite !bool_decide_false by done.
  - destruct Hu as (Hf & Hin). destruct (withdrawal_paths s l w Hrest Hd Hc Hin) as (ob & why & Hpp & Hfb).
    destruct (process_run _ _ _ _ Hpp) as (r & s' & Hpr & H1 & H2 & H3 & H4 & ->); [by intros ->|].
    exists (bool_decide (known_path_list s' = []) && bool_decide (best_path s' = None)), s'.
    destruct Hrest as (Hk & Hn & Hw). assert (Hbest : best_is (retract (source w) l) (best_path s')).
    { rewrite H4. apply (kept_best l); [done|exact Hfb|done|].
      intros x y Hx Hy E. apply list_elem_of_In, filter_In in Hy as [Hy _]. by apply list_elem_of_In. }
    split; [|split].
    + unfold add_withdraw, _validate_path. rewrite Hf, Z.eqb_refl. run. rewrite Hw. exact Hpr.
    + constructor; [by repeat split; rewrite ?H1, ?H2, ?H3|by apply distinct_retract|by apply forall_retract|done].
    + rewrite H1. cbn [known_path_list with_known]. destruct (decide (retract (source w) l = [])) as [E|E].
      * rewrite E in *. destruct (best_path s') as [b|]; [by apply first_best_in in Hbest; set_solver|done].
      * by rewrite !bool_decide_false by done.
Qed.

(** ** Processing ends *)

Lemma remove_total p l : p ∈ l -> exists l', remove p l = Ok l' /\ (forall q, q ∈ l' -> q ∈ l)
  /\ (forall q, q ∈ l -> oid q <> oid p -> q ∈ l').
Proof.
  induction l as [|x l IH]; [by intros ?%elem_of_nil|]. intros Hp. cbn [remove]. destruct (Z.eqb_spec (oid x) (oid p)) as [E|E].
  - exists l. split; [done|]. split; [by right|]. intros q [->|Hq]%elem_of_cons Hne; done.
  - apply elem_of_cons in Hp as [->|Hp]; [done|]. destruct (IH Hp) as (l' & -> & H1 & H2). exists (x :: l').
    split; [done|]. split; intros q [->|Hq]%elem_of_cons; [by left|right; by apply H1|by left|right; by apply H2].
Qed.

Lemma iter_known_remove ps s : NoDup (oid <$> ps) -> (forall p, p ∈ ps -> p ∈ known_path_list s) ->
  exists k, iterM known_remove ps s = (Ok tt, with_known k s) /\ (forall q, q ∈ k -> q ∈ known_path_list s).
Proof.
  revert s. induction ps as [|p ps IH]; intros s Hn Hin; cbn [iterM].
  - exists (known_path_list s). split; [by destruct s|done].
  - rewrite fmap_cons in Hn. apply list.NoDup_cons in Hn as [Hp Hn].
    destruct (remove_total p (known_path_list s) (Hin p ltac:(by left))) as (l & Hr & H1 & H2).
    assert (E : known_remove p s = (Ok tt, with_known l s)) by (unfold known_remove; run; by rewrite Hr).
    unfold mbind, stm_bind. rewrite E. clear E. destruct (IH (with_known l s) Hn) as (k & Hk & Hs).
    + intros q Hq. apply H2; [apply Hin; by right|]. intros E. apply Hp. rewrite <- E. by apply list_elem_of_fmap_2.
    + exists k. split; [by rewrite Hk; destruct s|]. intros q Hq. by apply H1, Hs.
Qed.

Lemma iter_withdraw_remove ps s : NoDup (oid <$> ps) -> (forall p, p ∈ ps -> p ∈ withdraw_list s) ->
  exists k, iterM withdraw_remove ps s = (Ok tt, with_withdraws k s).
Proof.
  revert s. induction ps as [|p ps IH]; intros s Hn Hin; cbn [iterM].
  - exists (withdraw_list s). by destruct s.
  - rewrite fmap_cons in Hn. apply list.NoDup_cons in Hn as [Hp Hn].
    destruct (remove_total p (withdraw_list s) (Hin p ltac:(by left))) as (l & Hr & _ & H2).
    assert (E : withdraw_remove p s = (Ok tt, with_withdraws l s)) by (unfold withdraw_remove; run; by rewrite Hr).
    unfold mbind, stm_bind. rewrite E. clear E. destruct (IH (with_withdraws l s) Hn) as (k & Hk).
    + intros q Hq. apply H2; [apply Hin; by right|]. intros E. apply Hp. rewrite <- E. by apply list_elem_of_fmap_2.
    + exists k. by rewrite Hk; destruct s.
Qed.

Lemma set_of_ok l : NoDup (oid <$> set_of l) /\ forall p, p ∈ set_of l -> p ∈ l.
Proof.
  induction l as [|x l IH] using rev_ind; [split; [apply NoDup_nil_2|done]|]. destruct IH as [Hn Hs].
  unfold set_of in *. rewrite foldl_app. cbn [foldl]. unfold set_add at 1 3. destruct (existsb _ _) eqn:E.
  - split; [done|]. intros p Hp. apply elem_of_app. left. by apply Hs.
  - split.
    + rewrite fmap_app. apply list.NoDup_app. split; [done|]. split; [|apply NoDup_singleton].
      intros o Ho ->%list_elem_of_singleton. apply list_elem_of_fmap in Ho as (q & Eq & Hq).
      assert (existsb (fun q => oid q =? oid x) (foldl set_add [] l) = true); [|congruence].
      apply existsb_exists. exists q. split; [by apply list_elem_of_In|]. by apply Z.eqb_eq.
    + intros p [Hp|Hp]%elem_of_app; apply elem_of_app; [left; by apply Hs|by right].
Qed.

Lemma remove_withdrawals_total s : exists k ws, _remove_withdrawals s = (Ok tt, with_withdraws ws (with_known k s))
  /\ (forall q, q ∈ k -> q ∈ known_path_list s).
Proof.
  unfold _remove_withdrawals. unfold mbind at 1, stm_bind at 1, get at 1.
  destruct (withdraw_list s) as [|w ws] eqn:Ew; [exists (known_path_list s), []; split; [destruct s; cbn in *; by subst|done]|].
  destruct (known_path_list s) as [|p l] eqn:Ek; [exists [], []; split; [destruct s; cbn in *; by subst|done]|].
  set (found := omap _ (w :: ws)).
  assert (Hf : forall x, x ∈ found -> x.1 ∈ w :: ws /\ x.2 ∈ p :: l).
  { intros [a b] Hx. unfold found in Hx. apply list_elem_of_omap in Hx as (w' & Hw & Hx).
    destruct (find_source _ _) as [q|] eqn:E; [|done]. injection Hx as <- <-. split; [done|]. by apply find_source_some in E as [? _]. }
  destruct (set_of_ok (List.map snd found)) as [N1 S1]. destruct (set_of_ok (List.map fst found)) as [N2 S2].
  destruct (iter_known_remove (set_of (List.map snd found)) s N1) as (k & Hk & Hs).
  { intros q Hq%S1. rewrite Ek. apply list_elem_of_In, in_map_iff in Hq as (x & <- & Hx). apply Hf. by apply list_elem_of_In. }
  unfold mbind, stm_bind. rewrite Hk.
  destruct (iter_withdraw_remove (set_of (List.map fst found)) (with_known k s) N2) as (ws' & Hw).
  { intros q Hq%S2. cbn. rewrite Ew. apply list_elem_of_In, in_map_iff in Hq as (x & <- & Hx). apply Hf. by apply list_elem_of_In. }
  exists k, ws'. split; [done|]. by rewrite <- Ek.
Qed.

Lemma remove_old_total s : exists k, _remove_old_paths s = (Ok tt, with_known k s) /\ (forall q, q ∈ k -> q ∈ known_path_list s).
Proof.
  unfold _remove_old_paths. unfold mbind at 1, stm_bind at 1, get at 1. generalize (new_path_list s). intros l. revert s.
  induction l as [|p l IH]; intros s; cbn [iterM]; [exists (known_path_list s); split; [by destruct s|done]|].
  unfold mbind at 1, stm_bind at 1. unfold mbind at 1, stm_bind at 1, get at 1.
  destruct (find_source (source p) (known_path_list s)) as [old|] eqn:E.
  - apply find_source_some in E as [Hin _]. destruct (remove_total old _ Hin) as (l' & Hr & H1 & _).
    assert (E : known_remove old s = (Ok tt, with_known l' s)) by (unfold known_remove; run; by rewrite Hr).
    rewrite E. clear E. destruct (IH (with_known l' s)) as (k & -> & Hs). exists k.
    split; [by destruct s|]. intros q Hq. by apply H1, Hs.
  - destruct (IH s) as (k & Hk & Hs). exists k. split; [exact Hk|done].
Qed.

Definition paths_ok (s : dest) : Prop := Forall (comparable peers) (known_path_list s ++ new_path_list s).

Lemma process_total s : paths_ok s ->
  exists r s', process local_asn peers s = (Ok r, s') /\ new_path_list s' = [] /\ paths_ok s'.
Proof.
  intros Hok. destruct (remove_withdrawals_total s) as (k & ws & Hr & Hk). set (s1 := with_withdraws ws (with_known k s)) in *.
  assert (Hsub : forall q, q ∈ k ++ new_path_list s -> q ∈ known_path_list s ++ new_path_list s)
    by (intros q [Hq|Hq]%elem_of_app; apply elem_of_app; [left; by apply Hk|by right]).
  assert (Hpp : exists ob why s2, _process_paths local_asn peers s = (Ok (ob, why), s2) /\ new_path_list s2 = []
    /\ (ob = None -> known_path_list s2 = []) /\ (forall q, q ∈ known_path_list s2 -> q ∈ k ++ new_path_list s)).
  { destruct (remove_old_total s1) as (k2 & Ho & Hk2). set (s2 := with_known k2 s1) in *.
    assert (Hrest : exists ob why s3, (_remove_old_paths ;; collect_paths local_asn peers) s1 = (Ok (ob, why), s3) /\ new_path_list s3 = []
      /\ (ob = None -> known_path_list s3 = []) /\ (forall q, q ∈ known_path_list s3 -> q ∈ k ++ new_path_list s)).
    { unfold mbind, stm_bind. rewrite Ho.
      assert (H2 : forall q, q ∈ k2 ++ new_path_list s -> q ∈ k ++ new_path_list s)
        by (intros q [Hq|Hq]%elem_of_app; apply elem_of_app; [left; by apply Hk2|by right]).
      destruct (decide (k2 ++ new_path_list s = [])) as [E|Hne].
      - exists None, BPR_UNKNOWN, (with_new [] (with_known (k2 ++ new_path_list s) s2)).
        split; [|cbn; rewrite E; by repeat split; intros q ?%elem_of_nil].
        unfold collect_paths. run. cbn. by rewrite E.
      - destruct (collect_best s2 (k2 ++ new_path_list s)) as (b & why & -> & _); [done|done| |eexists _, _, _; split; [reflexivity|]; by repeat split].
        unfold paths_ok in Hok. rewrite list.Forall_forall in Hok |- *. intros q Hq. by apply Hok, Hsub, H2. }
    unfold _process_paths. unfold mbind at 1, stm_bind at 1. rewrite Hr. unfold mbind at 1, stm_bind at 1, get at 1.
    cbn [known_path_list new_path_list s1 with_withdraws with_known]. destruct k; [|exact Hrest].
    destruct (new_path_list s) as [|p [|p' l]] eqn:En; [exact Hrest| |exact Hrest].
    eexists _, _, _. split; [reflexivity|]. cbn. by repeat split. }
  destruct Hpp as (ob & why & s2 & Hpp & Hnew & Hno & Hin).
  destruct (process_run _ _ _ _ Hpp Hno) as (r & s' & -> & H1 & H2 & _). eexists _, _. split; [done|]. rewrite H2. split; [done|].
  unfold paths_ok. rewrite H1, H2, Hnew, app_nil_r. unfold paths_ok in Hok. rewrite list.Forall_forall in Hok |- *.
  intros q Hq. by apply Hok, Hsub, Hin.
Qed.

End Process.
End RibFacts.

(** ** The processor works off its queue *)

Module SpeakerFacts.
Import BestFacts RibFacts.

Section Speaker.
Context `{C : AddrConv} `{!AddrConvLaws C} {Q : Type} `{!Queue Q} `{!QueueLaws Q}.
Context (local_asn : Z) (peers : Z -> peer) (ROUTE_FAMILY : Z).

(** The queue holds destinations of the table, and every one that has new paths. *)
Record speaker_ok (s : speaker (Q := Q)) (q : list Z) : Prop := {
  sp_queue : represents (dest_queue s) q;
  sp_nodup : NoDup q;
  sp_table : forall k n, table s !! k = Some n -> exists d, heap s !! n = Some (k, d) /\ n < next_obj s /\ node_ok n
    /\ paths_ok peers d /\ (new_path_list d <> [] -> n ∈ q);
  sp_on : forall n, n ∈ q -> exists k, table s !! k = Some n;
  sp_fresh : forall n, next_obj s <= n -> node_ok n }.

Lemma table_inj s q k k' n : speaker_ok s q -> table s !! k = Some n -> table s !! k' = Some n -> k = k'.
Proof.
  intros Hok H1 H2. destruct (sp_table _ _ Hok _ _ H1) as (d & E & _), (sp_table _ _ Hok _ _ H2) as (d' & E' & _). congruence.
Qed.

Definition fresh_dest (k : string) (s : speaker (Q := Q)) : speaker :=
  MkSpeaker (<[next_obj s := (k, empty_dest)]> (heap s)) (<[k := next_obj s]> (table s)) (next_obj s + 1) (dest_queue s) (dest_que_evt s).

Lemma fresh_ok s q k : speaker_ok s q -> table s !! k = None -> speaker_ok (fresh_dest k s) q.
Proof.
  intros [H1 H2 H3 H4 H5] Hk. constructor; cbn [dest_queue table heap next_obj fresh_dest]; [done|done| | |intros n Hn; apply H5; lia].
  - intros k' n Hn. destruct (decide (k' = k)) as [->|Hne].
    + rewrite lookup_insert_eq in Hn. injection Hn as <-. exists empty_dest. rewrite lookup_insert_eq.
      split; [done|]. split; [lia|]. split; [apply H5; lia|]. by split; [constructor|].
    + rewrite lookup_insert_ne in Hn by done. destruct (H3 _ _ Hn) as (d & Hd & Hlt & Hrest). exists d.
      rewrite lookup_insert_ne by lia. split; [done|]. by split; [lia|].
  - intros n Hn. destruct (H4 n Hn) as (k' & Hk'). exists k'. rewrite lookup_insert_ne by congruence. done.
Qed.

(** A destination that changes is put on the queue. *)
Lemma change_ok s q n k d d' : speaker_ok s q -> table s !! k = Some n -> heap s !! n = Some (k, d) -> paths_ok peers d' ->
  let s' := with_heap (<[n := (k, d')]> (heap s)) s in
  exists s'', enqueue n s' = (Ok tt, s'') /\ speaker_ok s'' (if decide (n ∈ q) then q else q ++ [n])
    /\ heap s'' = heap s' /\ table s'' = table s'.
Proof.
  intros Hok Hk Hd Hp s'. destruct (sp_table _ _ Hok _ _ Hk) as (d0 & _ & Hlt & Hn & _ & _). destruct Hok as [H1 H2 H3 H4 H5].
  assert (Htab : forall (q' : list Z) k' m, (forall x, x ∈ q -> x ∈ q') -> n ∈ q' -> table s !! k' = Some m ->
    exists d, <[n := (k, d')]> (heap s) !! m = Some (k', d) /\ m < next_obj s /\ node_ok m /\ paths_ok peers d
      /\ (new_path_list d <> [] -> m ∈ q')).
  { intros q' k' m Hsub Hnq Hm. destruct (H3 _ _ Hm) as (dm & E & L & N & P & W). destruct (decide (m = n)) as [->|Hne].
    - exists d'. rewrite lookup_insert_eq. rewrite Hd in E. injection E as <- <-. done.
    - exists dm. rewrite lookup_insert_ne by done. split; [done|]. split; [done|]. split; [done|]. split; [done|].
      intros Hne'. by apply Hsub, W. }
  unfold enqueue. unfold mbind, stm_bind, get, lift_res, modify. cbn [dest_queue s' with_heap].
  rewrite (is_on_list_spec _ q n H1 Hn). destruct (decide (n ∈ q)) as [Hin|Hout].
  - rewrite bool_decide_true by done. eexists. split; [reflexivity|]. split; [|done]. constructor; try done. intros k' m Hm. by apply Htab.
  - rewrite bool_decide_false by done. destruct (append_spec _ q n H1 Hn Hout) as (qq & Ha & Hr). unfold on_queue.
    cbn [dest_queue s' with_heap]. rewrite Ha. eexists. split; [reflexivity|]. split; [|done]. constructor; cbn; try done.
    + apply list.NoDup_app. split; [done|]. split; [by intros x Hx ->%list_elem_of_singleton|apply NoDup_singleton].
    + intros k' m Hm. apply Htab; [intros x Hx; apply elem_of_app; by left|apply elem_of_app; right; by left|done].
    + intros m [Hm|Hm%list_elem_of_singleton]%elem_of_app; [by apply H4|subst; by exists k].
Qed.

(** A path that is learned waits at its destination, which is on the queue. *)
Definition path_ok (p : path) : Prop := family p = ROUTE_FAMILY /\ (is_withdraw p = false -> comparable peers p).

Lemma learn_ok s q p : speaker_ok s q -> path_ok p ->
  exists s' q' n k d, learn ROUTE_FAMILY p s = (Ok tt, s') /\ speaker_ok s' q' /\ (length q' <= S (length q))%nat
    /\ table s' !! prefix p = Some n /\ n ∈ q' /\ heap s' !! n = Some (k, d)
    /\ p ∈ (if is_withdraw p then withdraw_list d else new_path_list d).
Proof.
  intros Hok [Hf Hc]. unfold learn, insert. rewrite Hf, Z.eqb_refl.
  assert (Hget : exists s1 n d, _get_or_create_dest (prefix p) s = (Ok n, s1) /\ speaker_ok s1 q
    /\ table s1 !! prefix p = Some n /\ heap s1 !! n = Some (prefix p, d)).
  { unfold _get_or_create_dest. unfold mbind, stm_bind, get, modify, mret, stm_ret. destruct (table s !! prefix p) as [n|] eqn:E.
    - destruct (sp_table _ _ Hok _ _ E) as (d & Hd & _). by exists s, n, d.
    - exists (fresh_dest (prefix p) s), (next_obj s), empty_dest. split; [done|]. split; [by apply fresh_ok|].
      cbn [table heap fresh_dest]. by rewrite !lookup_insert_eq. }
  destruct Hget as (s1 & n & d & Hg & Hok1 & Hk & Hd). destruct (sp_table _ _ Hok1 _ _ Hk) as (d0 & E & _ & _ & Hp & _).
  rewrite Hd in E. injection E as <-.
  set (d' := if is_withdraw p then with_withdraws (withdraw_list d ++ [p]) d else with_new (new_path_list d ++ [p]) d).
  assert (Hm : (if is_withdraw p then add_withdraw ROUTE_FAMILY p else add_new_path ROUTE_FAMILY p) d = (Ok tt, d')).
  { unfold d', add_withdraw, add_new_path, _validate_path. rewrite Hf, Z.eqb_refl. by destruct (is_withdraw p). }
  assert (Hp' : paths_ok peers d').
  { unfold d', paths_ok in *. destruct (is_withdraw p); [done|]. cbn. rewrite app_assoc. apply Forall_app. split; [done|]. by repeat constructor; apply Hc. }
  destruct (change_ok s1 q n (prefix p) d d' Hok1 Hk Hd Hp') as (s2 & He & Hok2 & Eh & Et).
  exists s2, (if decide (n ∈ q) then q else q ++ [n]), n, (prefix p), d'. split.
  - unfold mbind, stm_bind, mret, stm_ret. unfold mbind, stm_bind, mret, stm_ret in Hg. rewrite Hg. unfold on_dest. rewrite Hd, Hm. exact He.
  - split; [done|]. split; [destruct (decide (n ∈ q)); rewrite ?length_app; cbn; lia|]. rewrite Et, Eh. cbn. split; [done|].
    split; [destruct (decide (n ∈ q)); [done|apply elem_of_app; right; by left]|]. rewrite lookup_insert_eq. split; [done|].
    unfold d'. destruct (is_withdraw p); apply elem_of_app; right; by left.
Qed.

(** The first destination of the queue is processed. *)
Lemma pop_process s n q : speaker_ok s (n :: q) -> exists s1 s2, on_queue pop_first s = (Ok (Some n), s1)
  /\ process_one local_asn peers n s1 = (Ok tt, s2) /\ speaker_ok s2 q.
Proof.
  intros Hok. destruct (sp_on _ _ Hok n ltac:(by left)) as (k & Hk).
  destruct (sp_table _ _ Hok _ _ Hk) as (d & Hd & Hlt & Hn & Hp & _). pose proof Hok as [H1 H2 H3 H4 H5].
  destruct (pop_first_spec _ _ H1) as (qq & Ha & Hr). apply list.NoDup_cons in H2 as [Hnq H2].
  destruct (process_total local_asn peers d Hp) as (r & d' & Hpr & Hnew & Hp').
  exists (with_queue qq s). unfold on_queue. rewrite Ha. cbn [head].
  set (s1 := with_heap (<[n := (k, d')]> (heap s)) (with_queue qq s)).
  assert (Hstay : forall t, (forall k' m, t !! k' = Some m -> table s !! k' = Some m) ->
    (forall m, m ∈ q -> exists k, t !! k = Some m) -> speaker_ok (with_table t s1) q).
  { intros t Ht Hon. constructor; cbn; try done. intros k' m Hm%Ht. destruct (H3 _ _ Hm) as (dm & E & L & N & P & W).
    destruct (decide (m = n)) as [->|Hne].
    - exists d'. rewrite lookup_insert_eq. assert (k' = k) as -> by (by eapply table_inj). by rewrite Hnew.
    - exists dm. rewrite lookup_insert_ne by done. split; [done|]. split; [done|]. split; [done|]. split; [done|].
      intros Hw. by apply W, elem_of_cons in Hw as [->|Hw]. }
  assert (Hod : on_dest n (process local_asn peers) (with_queue qq s) = (Ok r, s1))
    by (unfold on_dest; cbn [heap with_queue]; by rewrite Hd, Hpr).
  assert (Hq : forall m, m ∈ q -> exists k', table s !! k' = Some m) by (intros m Hm; apply H4; by right).
  unfold process_one. unfold mbind at 1, stm_bind at 1. rewrite Hod. destruct r.
  - exists (with_table (delete k (table s)) s1). split; [done|]. split.
    + unfold delete_dest. unfold mbind, stm_bind, get, lift_res. cbn [heap s1 with_heap table]. rewrite lookup_insert_eq. cbn [or_raise table with_queue].
      rewrite Hk. done.
    + apply Hstay; [by intros k' m [_ ?]%lookup_delete_Some|]. intros m Hm. destruct (Hq m Hm) as (k' & Hk'). exists k'.
      rewrite lookup_delete_ne; [done|]. intros ->. congruence.
  - exists s1. split; [done|]. split; [done|]. exact (Hstay (table s) ltac:(done) Hq).
Qed.

Lemma process_dest_ok u s q : speaker_ok s q ->
  exists s', _process_dest local_asn peers u s = (Ok tt, s') /\ speaker_ok s' (drop u q).
Proof.
  revert s q. induction u as [|u IH]; intros s q Hok; [by exists s|]. cbn [_process_dest].
  unfold mbind at 1, stm_bind at 1, get at 1. unfold mbind at 1, stm_bind at 1, lift_res at 1.
  rewrite (is_empty_spec _ _ (sp_queue _ _ Hok)). destruct q as [|n q]; [by exists s|].
  rewrite bool_decide_false by done. destruct (pop_process s n q Hok) as (s1 & s2 & Hpop & Hpr & Hok2).
  destruct (IH s2 q Hok2) as (s3 & Hrest & Hok3). exists s3. split; [|done].
  unfold mbind, stm_bind. rewrite Hpop, Hpr. exact Hrest.
Qed.

Lemma batches_ok k u s q : speaker_ok s q -> exists s', batches local_asn peers k u s = (Ok tt, s') /\ speaker_ok s' (drop (k * u) q).
Proof.
  revert s q. induction k as [|k IH]; intros s q Hok; [by exists s|]. cbn [batches Nat.mul].
  destruct (process_dest_ok u s q Hok) as (s1 & H1 & Hok1). destruct (IH s1 _ Hok1) as (s2 & H2 & Hok2). exists s2.
  unfold mbind, stm_bind. rewrite H1. split; [done|]. by rewrite drop_drop in Hok2.
Qed.

Definition start (q : Q) : speaker := MkSpeaker ∅ ∅ 1 q false.

Lemma start_speaker_ok q : represents q [] -> (forall n, 1 <= n -> node_ok n) -> speaker_ok (start q) [].
Proof.
  intros Hq Hn. constructor; cbn; try done; [apply NoDup_nil_2|intros n ?%elem_of_nil; done].
Qed.

Lemma learn_all_ok ps s q : speaker_ok s q -> Forall path_ok ps ->
  exists s' q', iterM (learn ROUTE_FAMILY) ps s = (Ok tt, s') /\ speaker_ok s' q' /\ (length q' <= length q + length ps)%nat.
Proof.
  revert s q. induction ps as [|p ps IH]; intros s q Hok Hps; cbn [iterM length].
  - exists s, q. split; [done|]. split; [done|lia].
  - apply list.Forall_cons in Hps as [Hp Hps]. destruct (learn_ok s q p Hok Hp) as (s1 & q1 & n & k & d & H1 & Hok1 & Hl & _).
    destruct (IH s1 q1 Hok1 Hps) as (s2 & q2 & H2 & Hok2 & Hl2). exists s2, q2. unfold mbind, stm_bind. rewrite H1.
    split; [done|]. split; [done|lia].
Qed.

End Speaker.
End SpeakerFacts.

(** ** Claims *)

Module BgpClaims.
Import BestFacts PathClaims RibFacts SpeakerFacts.

Section Claims.
Context `{C : AddrConv} `{!AddrConvLaws C} (local_asn : Z) (peers : Z -> peer) (ROUTE_FAMILY : Z).

(** C8: When every update is processed before the next one arrives, and only announced routes
    are withdrawn, a destination is the list of the last announcement of each source, the
    oldest first; its best path is the first maximum of them, and it asks to be removed
    from its table exactly when no route is left. *)
Theorem rib_refines (us : list update) (Hu : updates_ok peers ROUTE_FAMILY [] us) :
  let l := foldl apply_spec [] us in
  exists s, iterM (fun u => apply_update local_asn peers ROUTE_FAMILY u ;; mret tt) us empty_dest = (Ok tt, s)
    /\ known_path_list s = l /\ new_path_list s = [] /\ withdraw_list s = []
    /\ best_is local_asn peers l (best_path s) /\ NoDup (source <$> l).
Proof.
  assert (H : forall us s l, rib local_asn peers s l -> updates_ok peers ROUTE_FAMILY l us ->
    exists s', iterM (fun u => apply_update local_asn peers ROUTE_FAMILY u ;; mret tt) us s = (Ok tt, s')
      /\ rib local_asn peers s' (foldl apply_spec l us)).
  { clear us Hu. induction us as [|u us IH]; intros s l Hr Hok; [by exists s|]. destruct Hok as [Hu Hok].
    destruct (update_refines local_asn peers ROUTE_FAMILY s l u Hr Hu) as (r & s1 & H1 & Hr1 & _).
    destruct (IH s1 _ Hr1 Hok) as (s2 & H2 & Hr2). exists s2. split; [|done]. cbn [iterM].
    unfold mbind, stm_bind, mret, stm_ret. rewrite H1. exact H2. }
  destruct (H us empty_dest []) as (s & Hs & [(H1 & H2 & H3) [_ Hd] _ Hb]); [|done|by exists s].
  constructor; [done|by split; apply NoDup_nil_2|done|done].
Qed.


Ltac unfold_process :=
  unfold process, _process, _process_paths, _remove_withdrawals, _remove_old_paths, collect_paths, find_source, known_remove, withdraw_remove.
Ltac evaluate :=
  do 4 (unfold mbind, stm_bind, modify, mret, stm_ret, lift_res, get;
        cbn -[compute_best_path pick lex key bool_decide Z.eqb]).

(** Two updates of one source that are processed together both stay: the first, which the
    second replaces, can remain the best path. *)
Theorem replaced_path_stays (p1 p2 : path) (Hs : source p1 = source p2) (H1 : comparable peers p1) (H2 : comparable peers p2)
    (Hbest : lex (key local_asn peers p2) (key local_asn peers p1) <> Gt) :
  exists r s, process local_asn peers (MkDest [] [p1; p2] [] None None [] []) = (Ok r, s)
    /\ known_path_list s = [p1; p2] /\ best_path s = Some p1.
Proof.
  destruct (compare_keys local_asn peers p1 p2 H1 H2) as (why & Hcmp). rewrite lex_opp in Hbest.
  assert (Hb : default p1 (pick (lex (key local_asn peers p1) (key local_asn peers p2)) p1 p2) = p1) by (by destruct (lex _ _)).
  unfold_process. evaluate. rewrite Hcmp. evaluate. rewrite Hb. by eexists _, _.
Qed.

(** A path that is announced and withdrawn before the destination is processed is
    installed: withdrawals are handled first. *)
Theorem withdrawn_path_installed (p w : path) (Hs : source w = source p) :
  exists r s, process local_asn peers (MkDest [] [p] [w] None None [] []) = (Ok r, s)
    /\ known_path_list s = [p] /\ best_path s = Some p /\ withdraw_list s = [].
Proof. by eexists _, _. Qed.

(** A withdrawal without a matching path is kept when there are other paths, and removes a
    path that its source announces later. *)
Theorem late_withdrawal (a p w : path) (Ha : comparable peers a) (Hp : comparable peers p)
    (Hs : source w = source p) (Hne : source a <> source p) (Ho : oid a <> oid p) :
  exists r1 s1 r2 s2 r3 s3, process local_asn peers (MkDest [a] [] [w] (Some a) None [] []) = (Ok r1, s1)
    /\ process local_asn peers (with_new [p] s1) = (Ok r2, s2) /\ known_path_list s2 = [a; p]
    /\ process local_asn peers s2 = (Ok r3, s3) /\ known_path_list s3 = [a].
Proof.
  destruct (compare_keys local_asn peers a p Ha Hp) as (why & Hcmp).
  set (b := default a (pick (lex (key local_asn peers a) (key local_asn peers p)) a p)) in *.
  assert (Hna : bool_decide (source a = source p) = false) by (by apply bool_decide_false).
  assert (Hoa : (oid a =? oid p) = false) by (by apply Z.eqb_neq).
  assert (H1 : exists r1, process local_asn peers (MkDest [a] [] [w] (Some a) None [] [])
    = (Ok r1, MkDest [a] [] [w] (Some a) (Some BPR_ONLY_PATH) [] [])).
  { unfold_process. evaluate. rewrite Hs, Hna. evaluate. rewrite Z.eqb_refl. by eexists. }
  destruct H1 as (r1 & H1). set (s1 := MkDest [a] [] [w] (Some a) (Some BPR_ONLY_PATH) [] []) in H1.
  assert (H2 : _process_paths local_asn peers (with_new [p] s1) = (Ok (Some b, why), with_known [a; p] s1)).
  { unfold_process. evaluate. rewrite Hs, Hna. evaluate. rewrite Hna. evaluate. rewrite Hcmp. by evaluate. }
  destruct (process_run _ _ _ _ _ _ H2 ltac:(done)) as (r2 & s2 & P2 & K2 & N2 & W2 & _).
  assert (H3 : exists o, _process_paths local_asn peers s2 = (Ok (Some a, BPR_ONLY_PATH), o) /\ known_path_list o = [a]).
  { destruct s2. cbn in K2, N2, W2. subst. unfold_process. evaluate. rewrite Hs, Hna, (bool_decide_true (source p = source p)) by done.
    evaluate. rewrite Hoa, Z.eqb_refl. evaluate. rewrite Z.eqb_refl. evaluate. by eexists. }
  destruct H3 as (o & H3 & Ko). destruct (process_run _ _ _ _ _ _ H3 ltac:(done)) as (r3 & s3 & P3 & K3 & _).
  exists r1, s1, r2, s2, r3, s3. by rewrite K3, K2.
Qed.

(** The signal of a better path reaches the peers before the withdrawal of the old one,
    which is for the same prefix: the last thing each peer is sent is a withdrawal. *)
Theorem best_path_then_withdrawn (s : dest) (old p : path) (Hold : best_path s = Some old) (Hin : old ∈ known_path_list s) :
  exists s', _new_best_path p s = (Ok tt, s')
    /\ out s' = out s ++ Communicate p :: List.map (fun x => EnqueWithdraw x.1 x.2) (sent_routes s) ++ [BestPathChanged (Some p) false].
Proof.
  destruct (new_best_run p s) as (s' & H & _ & _ & _ & _ & Ho). exists s'. split; [done|]. rewrite Ho, Hold.
  replace (existsb _ _) with true; [done|]. symmetry. apply existsb_exists. exists old. split; [by apply list_elem_of_In|apply Z.eqb_refl].
Qed.

(** A path that was exported from another table cannot be compared with one that is its
    equal in the other rules. *)
Theorem table_source_raises (p1 p2 : path) (name : string) (Hs : source p1 = TableName name) (Hn : source p2 <> NC)
    (Hl : local_pref p1 = local_pref p2) (Ha : as_path p1 = as_path p2) (Ho : origin p1 = origin p2)
    (Hm : med p1 = med p2) (Hap : as_path p1 <> None) (Hop : origin p1 <> None) :
  compute_best_path local_asn peers p1 p2 = Err AttributeError.
Proof.
  destruct (as_path p1) as [l|] eqn:El; [|done]. destruct (origin p1) as [o|] eqn:Eo; [|done].
  unfold compute_best_path. rewrite local_origin_rule, (aspath_rule p1 p2 l l), (origin_rule p1 p2 o o), med_rule by done.
  assert (Hlp : _cmp_by_local_pref p1 p2 = None) by (unfold _cmp_by_local_pref; rewrite <- Hl; destruct (local_pref p1); [by rewrite Z.ltb_irrefl|done]).
  rewrite Hlp, !Z.compare_refl. unfold is_local, get_path_med. rewrite Hm, Z.compare_refl, Hs.
  rewrite (bool_decide_false (source p2 = NC)), bool_decide_false by done. unfold _cmp_by_asn. rewrite Hs. done.
Qed.

End Claims.

(** *** Concrete routes *)

Definition session_updates : list update :=
  [Announce (route 1 1 100 2); Announce (route 2 3 100 1); Announce (route 3 1 200 4); Withdraw (withdrawal 4 (route 3 1 200 4))].

Lemma rib_refines_witness : exists s,
  iterM (fun u => apply_update (C := RawConv.conv) 65000 example_peers 1 u ;; mret tt) session_updates empty_dest = (Ok tt, s)
  /\ known_path_list s = [route 2 3 100 1] /\ best_is (C := RawConv.conv) 65000 example_peers [route 2 3 100 1] (best_path s).
Proof.
  destruct (rib_refines (C := RawConv.conv) (AddrConvLaws0 := RawConv.laws) 65000 example_peers 1 session_updates)
    as (s & H1 & H2 & _ & _ & H3 & _); [|exists s; exact (conj H1 (conj H2 H3))].
  repeat split; try apply route_comparable; try (vm_compute; set_solver).
Defined.

(** Without a local preference the order is not one: the first path beats the second by
    its preference, the second beats the third and the third beats the first by the AS
    path, so that the best path depends on the order of arrival. *)
Example preference_cycle :
  let a := route 1 3 200 3 in let b := route 2 4 100 1 in let c := no_pref 3 5 2 in
  let best l := fst <$> _compute_best_known_path (C := RawConv.conv) 65000 example_peers l in
  best [a; b] = Ok a /\ best [b; c] = Ok b /\ best [c; a] = Ok c
  /\ best [a; b; c] = Ok c /\ best [b; c; a] = Ok a /\ best [c; a; b] = Ok b.
Proof. vm_compute. done. Qed.

Definition fresh_queue : CircularList.t := (CircularList.list_init (CircularList.MkList ∅ ∅)).2.


End BgpClaims.
