(* ===== verification/Lacp.v ===== *)
(** * Link aggregation (ryu/lib: packet/slow.py, lacplib.py)

    LACP packets and the library that answers them for the ports of bonding interfaces,
    in passive mode, on switches that speak OpenFlow 1.3.  [with_slow] adds the slow
    protocols to the header classes a packet is decoded with.  The attributes of the actor
    and of the partner have the same shape, the record [info]. *)

From Stdlib Require Import ZArith Lia.
From stdpp Require Import base list gmap strings numbers.
From S2P Require Import Prelude Struct OfpMsg Oxm PktUtils PktHeaders PktTransport Packet OxmUser OfpMatch OfpActions OfpInstr.

#[local] Open Scope Z_scope.
Local Ltac Zify.zify_post_hook ::= Z.div_mod_to_equations.

(** ** Packets *)

Module Lacp.

Definition SLOW_PROTOCOL_MULTICAST : string := "01:80:c2:00:00:02".
Definition SLOW_SUBTYPE_LACP : Z := 1.

Definition LACP_VERSION_NUMBER : Z := 1.
Definition LACP_TLV_TYPE_ACTOR : Z := 1.
Definition LACP_TLV_TYPE_PARTNER : Z := 2.
Definition LACP_TLV_TYPE_COLLECTOR : Z := 3.
Definition LACP_TLV_TYPE_TERMINATOR : Z := 0.
Definition LACP_STATE_PASSIVE : Z := 0.
Definition LACP_STATE_SHORT_TIMEOUT : Z := 1.
Definition LACP_STATE_OPERATIONAL_PARTNER : Z := 0.
Definition LACP_STATE_NOT_EXPIRED : Z := 0.
Definition SHORT_TIMEOUT_TIME : Z := 3 * 1.
Definition LONG_TIMEOUT_TIME : Z := 3 * 30.

Definition _HLEN_PACK_STR : string := "!BB".
Definition _HLEN_PACK_LEN : nat := calcsize _HLEN_PACK_STR.
Definition _ACTPRT_INFO_PACK_STR : string := "!BBH6sHHHB3x".
Definition _ACTPRT_INFO_PACK_LEN : nat := calcsize _ACTPRT_INFO_PACK_STR.
Definition _COL_INFO_PACK_STR : string := "!BBH12x".
Definition _COL_INFO_PACK_LEN : nat := calcsize _COL_INFO_PACK_STR.
Definition _TRM_PACK_STR : string := "!BB50x".
Definition _TRM_PACK_LEN : nat := calcsize _TRM_PACK_STR.
Definition _ALL_PACK_LEN : nat :=
  _HLEN_PACK_LEN + _ACTPRT_INFO_PACK_LEN * 2 + _COL_INFO_PACK_LEN + _TRM_PACK_LEN.

Record info := MkInfo {
  system_priority : Z; system : string; key : Z; port_priority : Z; port : Z;
  state_activity : Z; state_timeout : Z; state_aggregation : Z; state_synchronization : Z;
  state_collecting : Z; state_distributing : Z; state_defaulted : Z; state_expired : Z }.

Record lacp := MkLacp { version : Z; actor : info; partner : info; collector_max_delay : Z }.

(** [_actor_state] and [_partner_state], which the constructor computes. *)
Definition _state (i : info) : Z :=
  Z.lor (Z.lor (Z.lor (Z.lor (Z.lor (Z.lor (Z.lor (Z.shiftl (state_activity i) 0) (Z.shiftl (state_timeout i) 1))
    (Z.shiftl (state_aggregation i) 2)) (Z.shiftl (state_synchronization i) 3)) (Z.shiftl (state_collecting i) 4))
    (Z.shiftl (state_distributing i) 5)) (Z.shiftl (state_defaulted i) 6)) (Z.shiftl (state_expired i) 7).

(** [1 == flag | 1] *)
Definition flag_check (flag : Z) : bool := Z.lor flag 1 =? 1.

Definition flags (i : info) : list Z :=
  [state_activity i; state_timeout i; state_aggregation i; state_synchronization i;
   state_collecting i; state_distributing i; state_defaulted i; state_expired i].

(** [lacp.__init__] *)
Definition new (version : Z) (actor partner : info) (collector_max_delay : Z) : res lacp :=
  py_assert (forallb flag_check (flags actor)) ;;
  py_assert (forallb flag_check (flags partner)) ;;
  Ok (MkLacp version actor partner collector_max_delay).

Section Codec.
Context `{C : AddrConv}.

(** An actor or partner part of the packet: the tag and the length are checked. *)
Definition parse_info (tag : Z) (buf : bytes) (offset : nat) : res (info * bytes) :=
  vs ← unpack_from _ACTPRT_INFO_PACK_STR buf offset;
  match vs with
  | [VInt tag'; VInt len; VInt priority; VBytes system; VInt key; VInt port_priority; VInt port; VInt state] =>
      py_assert (tag =? tag') ;;
      py_assert (Z.of_nat _ACTPRT_INFO_PACK_LEN =? len) ;;
      Ok (MkInfo priority "" key port_priority port
            (Z.land (Z.shiftr state 0) 1) (Z.land (Z.shiftr state 1) 1) (Z.land (Z.shiftr state 2) 1) (Z.land (Z.shiftr state 3) 1)
            (Z.land (Z.shiftr state 4) 1) (Z.land (Z.shiftr state 5) 1) (Z.land (Z.shiftr state 6) 1) (Z.land (Z.shiftr state 7) 1),
          system)
  | _ => Err ValueError
  end.

Definition with_system (i : info) (s : string) : info :=
  MkInfo (system_priority i) s (key i) (port_priority i) (port i) (state_activity i) (state_timeout i) (state_aggregation i)
    (state_synchronization i) (state_collecting i) (state_distributing i) (state_defaulted i) (state_expired i).

(** [lacp.parser]: the systems are converted when the object is made. *)
Definition lacp_parser (buf : bytes) : res (lacp * option pcls * bytes) :=
  py_assert (_ALL_PACK_LEN =? length buf)%nat ;;
  vs ← unpack_from _HLEN_PACK_STR buf 0;
  match vs with
  | [VInt subtype; VInt version] =>
      py_assert (SLOW_SUBTYPE_LACP =? subtype) ;;
      py_assert (LACP_VERSION_NUMBER =? version) ;;
      let offset := _HLEN_PACK_LEN in
      '(actor, actor_system) ← parse_info LACP_TLV_TYPE_ACTOR buf offset;
      let offset := (offset + _ACTPRT_INFO_PACK_LEN)%nat in
      '(partner, partner_system) ← parse_info LACP_TLV_TYPE_PARTNER buf offset;
      let offset := (offset + _ACTPRT_INFO_PACK_LEN)%nat in
      vs ← unpack_from _COL_INFO_PACK_STR buf offset;
      match vs with
      | [VInt collector_tag; VInt collector_length; VInt collector_max_delay] =>
          py_assert (LACP_TLV_TYPE_COLLECTOR =? collector_tag) ;;
          py_assert (Z.of_nat _COL_INFO_PACK_LEN =? collector_length) ;;
          let offset := (offset + _COL_INFO_PACK_LEN)%nat in
          vs ← unpack_from _TRM_PACK_STR buf offset;
          match vs with
          | [VInt terminator_tag; VInt terminator_length] =>
              py_assert (LACP_TLV_TYPE_TERMINATOR =? terminator_tag) ;;
              py_assert (0 =? terminator_length) ;;
              actor_system ← bin_to_text MAC actor_system;
              partner_system ← bin_to_text MAC partner_system;
              l ← new version (with_system actor actor_system) (with_system partner partner_system) collector_max_delay;
              Ok (l, None, drop _ALL_PACK_LEN buf)
          | _ => Err ValueError
          end
      | _ => Err ValueError
      end
  | _ => Err ValueError
  end.

(** [slow.parser]: only LACP has a class. *)
Definition slow_parser (buf : bytes) : res (option lacp * option pcls * bytes) :=
  vs ← unpack_from "!B" buf 0;
  match vs with
  | [VInt subtype] =>
      if subtype =? SLOW_SUBTYPE_LACP then '(l, c, rest) ← lacp_parser buf; Ok (Some l, c, rest)
      else Ok (None, None, buf)
  | _ => Err ValueError
  end.

Definition serialize_info (tag : Z) (i : info) : res bytes :=
  system ← text_to_bin MAC (system i);
  pack _ACTPRT_INFO_PACK_STR
    [VInt tag; VInt (Z.of_nat _ACTPRT_INFO_PACK_LEN); VInt (system_priority i); VBytes system; VInt (key i);
     VInt (port_priority i); VInt (port i); VInt (_state i)].

(** [lacp.serialize] *)
Definition serialize (l : lacp) : res bytes :=
  header ← pack _HLEN_PACK_STR [VInt SLOW_SUBTYPE_LACP; VInt (version l)];
  actor ← serialize_info LACP_TLV_TYPE_ACTOR (actor l);
  partner ← serialize_info LACP_TLV_TYPE_PARTNER (partner l);
  collector ← pack _COL_INFO_PACK_STR [VInt LACP_TLV_TYPE_COLLECTOR; VInt (Z.of_nat _COL_INFO_PACK_LEN); VInt (collector_max_delay l)];
  terminator ← pack _TRM_PACK_STR [VInt LACP_TLV_TYPE_TERMINATOR; VInt 0];
  Ok (header ++ actor ++ partner ++ collector ++ terminator).

(** *** The slow protocols in packets *)

Context (X : Others).

(** What the classes of slow protocols return; [Snone] is the [None] of a subtype without
    a class, which is false and is not kept. *)
Inductive slow_obj := Sbase (o : obj X) | Slacp (l : lacp) | Snone.

Definition with_slow : Others := {|
  obj := slow_obj;
  other_parser c buf :=
    if decide (c = Cslow) then
      Some ('(o, c, rest) ← slow_parser buf; Ok (match o with Some l => Slacp l | None => Snone end, c, Some rest))
    else match other_parser X c buf with
         | None => None
         | Some r => Some ('(o, c, rest) ← r; Ok (Sbase o, c, rest))
         end;
  other_serialize o payload prev :=
    match o with
    | Sbase o => '(w, o) ← other_serialize X o payload prev; Ok (w, Sbase o)
    | Slacp l => w ← serialize l; Ok (w, Slacp l)
    | Snone => Err AttributeError
    end;
  other_len o :=
    match o with Sbase o => other_len X o | Slacp _ => Ok (Z.of_nat _ALL_PACK_LEN) | Snone => Ok 0 end;
  other_cls o := match o with Sbase o => other_cls X o | Slacp _ => Clacp | Snone => Cslow end;
  other_outer o :=
    match o with
    | Sbase o => other_outer X o
    | Slacp l => Outer (Some (version l)) None None None None
    | Snone => Outer None None None None None
    end |}.

Abbreviation sitem := (item with_slow).
Definition hlacp (l : lacp) : sitem := Header (@Pother with_slow (Slacp l)).

End Codec.
End Lacp.

(** ** The library *)

Module LacpLib.
Import Lacp.

Definition OFPP_IN_PORT : Z := 0xfffffff8.
Definition OFPP_CONTROLLER : Z := 0xfffffffd.
Definition OFPP_LOCAL : Z := 0xfffffffe.
Definition OFPCML_MAX : Z := 0xffe5.
Definition OFPFF_SEND_FLOW_REM : Z := 1.
Definition OFPFC_ADD : Z := 0.

(** A switch, with the hardware address of each of its ports. *)
Record datapath := MkDatapath { id : Z; ports : gmap Z string }.

(** The entry of a slave interface. *)
Record slave := MkSlave { enabled : bool; slave_timeout : Z }.

(** What the library does: events for its observers and messages that are handed to
    [send_msg] of the switch [dpid]. *)
Inductive effect :=
  | EventPacketIn (dpid : Z)
  | EventSlaveStateChanged (dpid port : Z) (enabled : bool)
  | SendFlowMod (dpid : Z) (m : FlowMod.t)
  | SendPacketOut (dpid : Z) (m : PacketOut.t).

(** A bond is a dictionary with one switch, whose value maps ports to slaves. *)
Record lib := MkLib { _bonds : list (Z * gmap Z slave); out : list effect }.

Definition init : lib := MkLib [] [].
Definition emit (x : effect) : stm lib unit := modify (fun s => MkLib (_bonds s) (out s ++ [x])).

Definition add (dpid : Z) (ports : list Z) : stm lib unit :=
  lift_res (py_assert (2 <=? length ports)%nat) ;;
  let ifs := list_to_map (List.map (fun port => (port, MkSlave false 0)) ports) in
  modify (fun s => MkLib (_bonds s ++ [(dpid, ifs)]) (out s)).

(** The slave of the first bond that has the port. *)
Fixpoint _get_slave (bonds : list (Z * gmap Z slave)) (dpid port : Z) : option slave :=
  match bonds with
  | [] => None
  | (d, ifs) :: bonds =>
      match (if d =? dpid then ifs !! port else None) with
      | Some x => Some x
      | None => _get_slave bonds dpid port
      end
  end.

(** An assignment to an attribute of that slave. *)
Fixpoint update_slave (f : slave -> slave) (bonds : list (Z * gmap Z slave)) (dpid port : Z) : list (Z * gmap Z slave) :=
  match bonds with
  | [] => []
  | (d, ifs) :: bonds =>
      match (if d =? dpid then ifs !! port else None) with
      | Some x => (d, <[port := f x]> ifs) :: bonds
      | None => (d, ifs) :: update_slave f bonds dpid port
      end
  end.

Definition _get_slave_enabled (dpid port : Z) (s : lib) : bool :=
  match _get_slave (_bonds s) dpid port with Some x => enabled x | None => false end.
Definition _get_slave_timeout (dpid port : Z) (s : lib) : Z :=
  match _get_slave (_bonds s) dpid port with Some x => slave_timeout x | None => 0 end.
Definition _set_slave_enabled (dpid port : Z) (b : bool) : stm lib unit :=
  modify (fun s => MkLib (update_slave (fun x => MkSlave b (slave_timeout x)) (_bonds s) dpid port) (out s)).
Definition _set_slave_timeout (dpid port : Z) (t : Z) : stm lib unit :=
  modify (fun s => MkLib (update_slave (fun x => MkSlave (enabled x) t) (_bonds s) dpid port) (out s)).

Section Handlers.
Context `{C : AddrConv} `{I : IntConv} (e : endian) (X : Others).

(** [_add_flow_v1_2]: the packets of the port keep an entry alive. *)
Definition flow_kwargs (src : string) (port : Z) : list (string * uservalue) :=
  [("in_port", Plain (Some (UInt port))); ("eth_src", Plain (Some (UText src)));
   ("eth_type", Plain (Some (UInt ETH_TYPE_SLOW)))]%string.

Definition lacp_flow (m : OFPMatch) (timeout : Z) : FlowMod.t :=
  FlowMod.Mk 0 0 0 OFPFC_ADD timeout 0 65535 OFP_NO_BUFFER 0 0 OFPFF_SEND_FLOW_REM m
    [Plain_instruction (Instruction.OFPInstructionActions OFPIT_APPLY_ACTIONS
       [Action.OFPActionOutput OFPP_CONTROLLER OFPCML_MAX])].

Definition _add_flow_v1_2 (src : string) (port timeout : Z) (dp : datapath) : stm lib unit :=
  m ← lift_res (match_of_kwargs (flow_kwargs src port));
  emit (SendFlowMod (id dp) (lacp_flow m timeout)).

Definition _create_lacp (dp : datapath) (port : Z) (req : lacp) : res lacp :=
  actor_system ← or_raise KeyError (ports dp !! OFPP_LOCAL);
  let a := actor req in
  new LACP_VERSION_NUMBER
    (MkInfo 0xffff actor_system (key a) 0xff port LACP_STATE_PASSIVE (state_timeout a) (state_aggregation a)
       (state_synchronization a) (state_collecting a) (state_distributing a) LACP_STATE_OPERATIONAL_PARTNER LACP_STATE_NOT_EXPIRED)
    (MkInfo (system_priority a) (system a) (key a) (port_priority a) (Lacp.port a) (state_activity a) (state_timeout a)
       (state_aggregation a) (state_synchronization a) (state_collecting a) (state_distributing a) (state_defaulted a) (state_expired a))
    0.

(** [_create_response]: the bytes of the packet. *)
Definition _create_response (dp : datapath) (port : Z) (req : lacp) : res bytes :=
  src ← or_raise KeyError (ports dp !! port);
  l ← _create_lacp dp port req;
  '(data, _) ← Packet.serialize e (with_slow X)
    [Header (Peth (Ethernet.Mk SLOW_PROTOCOL_MULTICAST src ETH_TYPE_SLOW)); hlacp X l];
  Ok data.

Definition idle_timeout (req : lacp) : Z :=
  if LACP_STATE_SHORT_TIMEOUT =? state_timeout (actor req) then SHORT_TIMEOUT_TIME else LONG_TIMEOUT_TIME.

Definition _do_lacp (dp : datapath) (port : Z) (req : lacp) (src : string) : stm lib unit :=
  s ← get;
  (if _get_slave_enabled (id dp) port s then mret tt
   else
     _set_slave_enabled (id dp) port true ;;
     emit (EventSlaveStateChanged (id dp) port true)) ;;
  s ← get;
  (if idle_timeout req =? _get_slave_timeout (id dp) port s then mret tt
   else
     _set_slave_timeout (id dp) port (idle_timeout req) ;;
     _add_flow_v1_2 src port (idle_timeout req) dp) ;;
  data ← lift_res (_create_response dp port req);
  emit (SendPacketOut (id dp) (PacketOut.Mk (Some OFP_NO_BUFFER) port (Some [Action.OFPActionOutput OFPP_IN_PORT OFPCML_MAX]) (Some data))).

(** The port is the value of a field of the match; a number. *)
Definition field_int (m : OFPMatch) (name : string) : res Z :=
  v ← match_getitem (_fields2 m) name;
  match v with Plain (Some (UInt n)) => Ok n | _ => Err TypeError end.

Definition lacp_of (i : item (with_slow X)) : option lacp :=
  match i with
  | Header (Pother o) => match (o : slow_obj X) with Slacp _ l => Some l | _ => None end
  | _ => None
  end.
Definition ethernet_of (i : item (with_slow X)) : option Ethernet.ethernet :=
  match i with Header (Peth h) => Some h | _ => None end.

(** The handler of packets; [None] when the decoder does not end. *)
Definition packet_in_handler (fuel : nat) (dp : datapath) (m : OFPMatch) (data : bytes) (s : lib) : option (res unit * lib) :=
  match packet (with_slow X) fuel data Cethernet with
  | None => None
  | Some r =>
      Some ((req_pkt ← lift_res r;
             match omap lacp_of req_pkt with
             | [] => emit (EventPacketIn (id dp))
             | [req_lacp] =>
                 match omap ethernet_of req_pkt with
                 | [req_eth] =>
                     port ← lift_res (field_int m "in_port");
                     _do_lacp dp port req_lacp (Ethernet.src req_eth)
                 | _ => raise ValueError
                 end
             | _ => raise ValueError
             end) s)
  end.

Definition flow_removed_handler (dp : datapath) (m : OFPMatch) : stm lib unit :=
  port ← lift_res (field_int m "in_port");
  dl_type ← lift_res (field_int m "eth_type");
  if negb (ETH_TYPE_SLOW =? dl_type) then mret tt
  else
    _set_slave_enabled (id dp) port false ;;
    _set_slave_timeout (id dp) port 0 ;;
    emit (EventSlaveStateChanged (id dp) port false).

(** The events of a run. *)
Inductive event :=
  | PacketIn (dp : datapath) (m : OFPMatch) (data : bytes)
  | FlowRemoved (dp : datapath) (m : OFPMatch).

Definition handle (fuel : nat) (ev : event) (s : lib) : option (res unit * lib) :=
  match ev with
  | PacketIn dp m data => packet_in_handler fuel dp m data s
  | FlowRemoved dp m => Some (flow_removed_handler dp m s)
  end.

(** The states of an application: it is configured, then handles events, whatever the
    outcome of a handler. *)
Inductive reachable (fuel : nat) : lib -> Prop :=
  | reachable_configured bonds r s : iterM (fun b => add b.1 b.2) bonds init = (r, s) -> reachable fuel s
  | reachable_step s ev r s' : reachable fuel s -> handle fuel ev s = Some (r, s') -> reachable fuel s'.

End Handlers.
End LacpLib.

(** ** Facts *)

Module LacpFacts.
Import Lacp LacpLib.

Lemma flag_cases x : flag_check x = true -> x = 0 \/ x = 1.
Proof.
  unfold flag_check. intros H%Z.eqb_eq. apply (f_equal (fun z => Z.shiftr z 1)) in H. rewrite Z.shiftr_lor in H.
  change (Z.shiftr 1 1) with 0 in H. rewrite Z.lor_0_r, Z.shiftr_div_pow2 in H by lia. change (2 ^ 1) with 2 in H. lia.
Qed.

Section Codec.
Context `{C : AddrConv} `{!AddrConvLaws C}.

Record info_ok (i : info) : Prop := {
  io_system : canonical MAC (system i);
  io_priority : in_width 2 (system_priority i) = true; io_key : in_width 2 (key i) = true;
  io_port_priority : in_width 2 (port_priority i) = true; io_port : in_width 2 (port i) = true;
  io_flags : forallb flag_check (flags i) = true }.

Record lacp_ok (l : lacp) : Prop := {
  lo_version : version l = LACP_VERSION_NUMBER; lo_actor : info_ok (actor l); lo_partner : info_ok (partner l);
  lo_delay : in_width 2 (collector_max_delay l) = true }.

(** The flags of a packed state. *)
Lemma state_flags i : forallb flag_check (flags i) = true ->
  in_width 1 (_state i) = true /\ (fun k => Z.land (Z.shiftr (_state i) k) 1) <$> [0; 1; 2; 3; 4; 5; 6; 7] = flags i.
Proof.
  intros H. rewrite forallb_forall in H. assert (Hf : forall x, In x (flags i) -> x = 0 \/ x = 1) by (intros; by apply flag_cases, H).
  destruct i as [? ? ? ? ? f1 f2 f3 f4 f5 f6 f7 f8]. cbn in Hf. unfold flags, _state. cbn.
  destruct (Hf f1), (Hf f2), (Hf f3), (Hf f4); try tauto; subst; destruct (Hf f5), (Hf f6), (Hf f7), (Hf f8); try tauto; subst; by split.
Qed.

Lemma info_wire tag i : info_ok i -> in_width 1 tag = true -> exists w b, serialize_info tag i = Ok w /\ length w = 20%nat
  /\ bin_to_text MAC b = Ok (system i)
  /\ forall pre rest, parse_info tag (pre ++ w ++ rest) (length pre) = Ok (with_system i "", b).
Proof.
  intros [(b & Hb & Ht) H1 H2 H3 H4 H5] Htag. destruct (state_flags i H5) as [Hs Hfl].
  destruct (text_to_bin_ok MAC _ _ Hb) as [Lb Ob]. unfold serialize_info, _ACTPRT_INFO_PACK_STR. rewrite Hb. cbn [mbind res_bind].
  fmt_eval. change (Z.of_nat _ACTPRT_INFO_PACK_LEN) with 20.
  destruct (fpack _ _) as [w|x] eqn:Hw.
  2:{ unfold fpack in Hw. cbn [f_codes pack_codes] in Hw. rewrite Htag, H1, H2, H3, H4, Hs in Hw. discriminate. }
  exists w, b. split; [done|]. split; [exact (fpack_length _ _ _ Hw)|]. split; [done|]. intros pre rest.
  unfold parse_info, _ACTPRT_INFO_PACK_STR. fmt_eval. rewrite (unpack_from_pack _ _ _ _ _ _ Hw eq_refl). cbn [mbind res_bind fit_args f_codes].
  rewrite resize_all_alt by done. unfold py_assert. rewrite !Z.eqb_refl. cbn. injection Hfl as -> -> -> -> -> -> -> ->. by destruct i.
Qed.

Lemma lacp_wire l : lacp_ok l -> exists w, serialize l = Ok w /\ length w = 110%nat
  /\ head w = Some SLOW_SUBTYPE_LACP /\ lacp_parser w = Ok (l, None, []).
Proof.
  intros [Hv Ha Hp Hd]. destruct (info_wire 1 _ Ha eq_refl) as (wa & ba & Sa & La & Ta & Pa).
  destruct (info_wire 2 _ Hp eq_refl) as (wp & bp & Sp & Lp & Tp & Pp).
  unfold serialize, _HLEN_PACK_STR, _COL_INFO_PACK_STR, _TRM_PACK_STR, LACP_TLV_TYPE_ACTOR, LACP_TLV_TYPE_PARTNER.
  fmt_eval. rewrite Hv. change (fpack _ [VInt SLOW_SUBTYPE_LACP; _]) with (@Ok bytes [1; 1]). cbn [mbind res_bind].
  rewrite Sa, Sp. cbn [mbind res_bind]. change (fpack _ [VInt LACP_TLV_TYPE_TERMINATOR; _]) with (@Ok bytes (replicate 52 0)).
  destruct (fpack _ [VInt LACP_TLV_TYPE_COLLECTOR; _; _]) as [wc|x] eqn:Hc.
  2:{ unfold fpack in Hc. cbn [f_codes pack_codes] in Hc. rewrite Hd in Hc. discriminate. }
  pose proof (fpack_length _ _ _ Hc) as Lc. change (length wc = 16%nat) in Lc.
  eexists. split; [reflexivity|]. set (w := [1; 1] ++ wa ++ wp ++ wc ++ replicate 52 0).
  assert (L : length w = 110%nat) by (unfold w; rewrite !length_app, La, Lp, Lc; done).
  assert (R1 := Pa [1; 1] (wp ++ wc ++ replicate 52 0)). change (parse_info 1 w 2 = Ok (with_system (actor l) "", ba)) in R1.
  assert (R2 := Pp ([1; 1] ++ wa) (wc ++ replicate 52 0)). rewrite <- app_assoc in R2. fold w in R2. rewrite length_app, La in R2.
  assert (R3 := unpack_from_pack _ _ _ ([1; 1] ++ wa ++ wp) (replicate 52 0) 42 Hc ltac:(by rewrite !length_app, La, Lp)).
  rewrite <- !app_assoc in R3. fold w in R3.
  assert (R4 := unpack_from_pack (Format Big [Fi 1; Fi 1; Fx 50]) [VInt 0; VInt 0] (replicate 52 0) ([1; 1] ++ wa ++ wp ++ wc) [] 58 eq_refl
    ltac:(by rewrite !length_app, La, Lp, Lc)). rewrite app_nil_r, <- !app_assoc in R4. fold w in R4.
  split; [exact L|]. split; [done|]. unfold lacp_parser. rewrite L. change _ALL_PACK_LEN with 110%nat.
  unfold _HLEN_PACK_STR, _COL_INFO_PACK_STR, _TRM_PACK_STR. fmt_eval. rewrite drop_ge by (rewrite L; lia).
  change (funpack_from _ w 0) with (@Ok (list pyval) [VInt 1; VInt 1]). cbn [py_assert mbind res_bind Nat.eqb Z.eqb Pos.eqb].
  unfold LACP_TLV_TYPE_ACTOR, LACP_TLV_TYPE_PARTNER. change _HLEN_PACK_LEN with 2%nat. change _ACTPRT_INFO_PACK_LEN with 20%nat.
  change _COL_INFO_PACK_LEN with 16%nat. cbn [Nat.add length] in R2 |- *. rewrite R1. cbn [mbind res_bind]. rewrite R2. cbn [mbind res_bind].
  rewrite R3. cbn [mbind res_bind fit_args f_codes]. cbn [py_assert mbind res_bind Z.eqb Pos.eqb].
  rewrite R4. cbn -[new]. rewrite Ta. cbn -[new]. rewrite Tp. cbn -[new]. apply io_flags in Ha, Hp. destruct l as [v [] [] d]. cbn in *.
  unfold new, flags. cbn [state_activity state_timeout state_aggregation state_synchronization state_collecting state_distributing
    state_defaulted state_expired with_system system_priority key port_priority port]. unfold flags in Ha, Hp. cbn in Ha, Hp.
  cbn [forallb]. rewrite Ha, Hp, Hv. done.
Qed.

(** A frame with a packet is decoded to its two headers. *)
Lemma lacp_frame_decodes (e : endian) (X : Others) dst src l : canonical MAC dst -> canonical MAC src -> lacp_ok l ->
  let its := [Header (Peth (Ethernet.Mk dst src ETH_TYPE_SLOW)); hlacp X l] in
  exists w, Packet.serialize e (with_slow X) its = Ok (w, its)
    /\ forall fuel, (3 <= fuel)%nat -> packet (with_slow X) fuel w Cethernet = Some (Ok its).
Proof.
  intros Hd Hs Hl. destruct (lacp_wire l Hl) as (w & Sw & Lw & Hw & Pw).
  assert (He : exists we, Ethernet.serialize (Ethernet.Mk dst src ETH_TYPE_SLOW) = Ok we).
  { destruct Hd as (bd & Hd & _), Hs as (bs & Hs & _). unfold Ethernet.serialize. cbn [Ethernet.dst Ethernet.src Ethernet.ethertype].
    rewrite Hd, Hs. cbn [mbind res_bind]. unfold Ethernet._PACK_STR. fmt_eval. by eexists. }
  destruct He as (we & He). cbv zeta. exists (we ++ w). split.
  { unfold Packet.serialize. cbn [serialize_from serialize_item hlacp]. unfold changed, keep. cbn [other_serialize with_slow]. rewrite Sw.
    cbn [mbind res_bind]. rewrite He. cbn [mbind res_bind]. by rewrite app_nil_r. }
  intros fuel Hf. destruct fuel as [|[|[|fuel]]]; try lia. rewrite packet_nonempty by (intros [_ ->]%app_eq_nil; done).
  rewrite (parse_loop_step (with_slow X) (S (S fuel)) Cethernet (we ++ w) [] (Peth (Ethernet.Mk dst src ETH_TYPE_SLOW)) (Some Cslow) (Some w) 14);
    [|cbn [parse_cls lift]; by rewrite (Ethernet.ethernet_parse_serialize (Ethernet.Mk dst src ETH_TYPE_SLOW) _ _ Hd Hs He)|done|done].
  rewrite (parse_loop_step (with_slow X) (S fuel) Cslow w _ (@Pother (with_slow X) (Slacp X l)) None (Some []) 110);
    [done| |done|done].
  cbn [parse_cls other_parser with_slow]. rewrite decide_True by done. unfold slow_parser. fmt_eval.
  destruct w as [|b w]; [done|]. injection Hw as ->. change (funpack_from _ (SLOW_SUBTYPE_LACP :: w) 0) with (@Ok (list pyval) [VInt 1]).
  cbn [mbind res_bind Z.eqb SLOW_SUBTYPE_LACP Pos.eqb] in *. by rewrite Pw.
Qed.

End Codec.

(** *** Slaves *)

Lemma get_update f bonds d p d' p' :
  _get_slave (update_slave f bonds d p) d' p'
  = if decide (d' = d /\ p' = p) then f <$> _get_slave bonds d p else _get_slave bonds d' p'.
Proof.
  induction bonds as [|[d0 ifs] bonds IH]; cbn [_get_slave update_slave]; [by case_decide|].
  destruct (Z.eqb_spec d0 d) as [->|Hd].
  - destruct (ifs !! p) as [x|] eqn:Ex; cbn [_get_slave].
    + case_decide as Hc; [destruct Hc as [-> ->]; by rewrite Z.eqb_refl, lookup_insert_eq|].
      destruct (Z.eqb_spec d d') as [->|]; [|done]. by rewrite lookup_insert_ne by naive_solver.
    + rewrite IH. case_decide as Hc; [|done]. destruct Hc as [-> ->]. by rewrite Z.eqb_refl, Ex.
  - cbn [_get_slave]. rewrite IH. case_decide as Hc; [|done]. destruct Hc as [-> ->]. by rewrite (proj2 (Z.eqb_neq d0 d)).
Qed.

Lemma update_update f g bonds d p : update_slave g (update_slave f bonds d p) d p = update_slave (fun x => g (f x)) bonds d p.
Proof.
  induction bonds as [|[d0 ifs] bonds IH]; cbn [update_slave]; [done|].
  destruct (if d0 =? d then ifs !! p else None) as [x|] eqn:E; cbn [update_slave].
  - destruct (d0 =? d); [|done]. by rewrite lookup_insert_eq, insert_insert_eq.
  - by rewrite E, IH.
Qed.

Lemma update_same f bonds d p : (forall x, _get_slave bonds d p = Some x -> f x = x) -> update_slave f bonds d p = bonds.
Proof.
  induction bonds as [|[d0 ifs] bonds IH]; cbn [update_slave _get_slave]; [done|]. intros H.
  destruct (if d0 =? d then ifs !! p else None) as [x|] eqn:E; [|by rewrite IH].
  rewrite H by done. destruct (d0 =? d); [|done]. by rewrite insert_id.
Qed.

Lemma update_ext f g bonds d p : (forall x, _get_slave bonds d p = Some x -> f x = g x) -> update_slave f bonds d p = update_slave g bonds d p.
Proof.
  induction bonds as [|[d0 ifs] bonds IH]; cbn [update_slave _get_slave]; [done|]. intros H.
  destruct (if d0 =? d then ifs !! p else None) as [x|] eqn:E; [by rewrite H|by rewrite IH].
Qed.

Section Library.
Context `{C : AddrConv} `{I : IntConv} `{!AddrConvLaws C} (e : endian) (X : Others).

(** A packet of a partner marks the slave of the port as up, with the timeout that the
    partner asks for; an observer is told when it was down. *)
Definition marked (d p : Z) (req : lacp) (s : lib) : lib :=
  MkLib (update_slave (fun _ => MkSlave true (idle_timeout req)) (_bonds s) d p)
    (out s ++ if _get_slave_enabled d p s then [] else [EventSlaveStateChanged d p true]).

(** What follows: the flow, when the timeout has changed, and the answer. *)
Definition answer (dp : datapath) (port : Z) (req : lacp) (src : string) (same : bool) : stm lib unit :=
  (if same then mret tt else _add_flow_v1_2 src port (idle_timeout req) dp) ;;
  data ← lift_res (_create_response e X dp port req);
  emit (SendPacketOut (id dp) (PacketOut.Mk (Some OFP_NO_BUFFER) port (Some [Action.OFPActionOutput OFPP_IN_PORT OFPCML_MAX]) (Some data))).

Lemma do_lacp_split dp port req src s :
  _do_lacp e X dp port req src s
  = answer dp port req src (idle_timeout req =? _get_slave_timeout (id dp) port s) (marked (id dp) port req s).
Proof.
  unfold _do_lacp, answer, marked, _get_slave_enabled, _get_slave_timeout, _set_slave_enabled, _set_slave_timeout, emit.
  unfold mbind, stm_bind, get, modify, mret, stm_ret. cbn [_bonds out].
  destruct (_get_slave (_bonds s) (id dp) port) as [[en t]|] eqn:E; cbn [enabled slave_timeout].
  - destruct en; cbn [_bonds out].
    + rewrite E. cbn [slave_timeout]. destruct (Z.eqb_spec (idle_timeout req) t) as [<-|Hne]; cbn [_bonds out]; rewrite app_nil_r.
      * rewrite (update_same (fun _ => MkSlave true _)); [by destruct s|]. rewrite E. by intros x [= <-].
      * erewrite update_ext; [reflexivity|]. rewrite E. by intros x [= <-].
    + rewrite get_update, decide_True, E by done. cbn [fmap option_fmap option_map slave_timeout].
      destruct (Z.eqb_spec (idle_timeout req) t) as [<-|Hne]; cbn [_bonds out].
      * erewrite update_ext; [reflexivity|]. rewrite E. by intros x [= <-].
      * rewrite update_update. erewrite update_ext; [reflexivity|]. by rewrite E.
  - cbn [_bonds out]. rewrite get_update, decide_True, E by done. cbn [fmap option_fmap option_map].
    destruct (idle_timeout req =? 0); cbn [_bonds out]; rewrite ?update_update; erewrite !(update_same _ (_bonds s)); try done; by rewrite E.
Qed.

(** A field with a plain value comes out of the constructor of a match as it was given. *)
Lemma plain_field d u : d ∈ oxm_types -> OxmUserFacts.uval_ok (d_type d) u -> exists b,
  _from_user (d_name d) (Plain (Some u)) = Ok (num d, Some b, None) /\ _to_user (num d) (Some b) None = Ok (d_name d, Plain (Some u))
  /\ _normalize_user (d_name d) (Plain (Some u)) = Ok (d_name d, Plain (Some u)).
Proof.
  intros Hd Hu. destruct (OxmUserFacts.type_from_to _ _ Hu) as (b & Hb & Hl & _ & Ht). exists b.
  assert (H1 : _from_user (d_name d) (Plain (Some u)) = Ok (num d, Some b, None)).
  { rewrite OxmUserFacts.from_user_known by done. cbn [opt_from_user mbind res_bind]. by rewrite Hb. }
  assert (H2 : _to_user (num d) (Some b) None = Ok (d_name d, Plain (Some u))).
  { unfold _to_user, _get_field_info_by_number. destruct (OxmUserFacts.tables_agree d Hd) as [_ ->]. cbn [mbind res_bind].
    rewrite Hl, Nat.eqb_refl. cbn [mbind res_bind]. by rewrite Ht. }
  split; [done|]. split; [done|]. unfold _normalize_user. rewrite H1. cbn [mbind res_bind]. rewrite H2, bool_decide_true by done. done.
Qed.

(** The match of the flow exists, and gives the port and the type back. *)
Lemma flow_match src port : canonical MAC src -> 0 <= port < 2 ^ 32 ->
  exists m, match_of_kwargs (flow_kwargs src port) = Ok m /\ field_int m "in_port" = Ok port /\ field_int m "eth_type" = Ok ETH_TYPE_SLOW.
Proof.
  intros Hs Hp. set (d0 := Desc "in_port" OpenFlowBasic 0 Int4). set (d1 := Desc "eth_src" OpenFlowBasic 4 MacAddr).
  set (d2 := Desc "eth_type" OpenFlowBasic 5 Int2).
  destruct (plain_field d0 (UInt port)) as (b0 & F0 & T0 & N0); [apply list_elem_of_In; vm_compute; tauto|done|].
  destruct (plain_field d1 (UText src)) as (b1 & F1 & T1 & N1); [apply list_elem_of_In; vm_compute; tauto|done|].
  destruct (plain_field d2 (UInt ETH_TYPE_SLOW)) as (b2 & F2 & T2 & N2); [apply list_elem_of_In; vm_compute; tauto|done|].
  cbn [d_name d0 d1 d2] in *. eexists. split.
  { unfold match_of_kwargs, match_init, flow_kwargs. cbn [mapM_res]. rewrite N0, N1, N2. cbn [mbind res_bind mapM_res].
    rewrite F0, F1, F2. cbn [mbind res_bind].
    change (sort_fields _) with [(num d0, Some b0, @None bytes); (num d1, Some b1, None); (num d2, Some b2, None)].
    cbn [mapM_res]. rewrite T0, T1, T2. reflexivity. }
  by split.
Qed.

(** The answer to a packet: the local system as a passive actor, and the actor of the
    packet as the partner. *)
Definition response (port : Z) (sys : string) (req : lacp) : lacp :=
  let a := actor req in
  MkLacp LACP_VERSION_NUMBER
    (MkInfo 0xffff sys (key a) 0xff port LACP_STATE_PASSIVE (state_timeout a) (state_aggregation a)
       (state_synchronization a) (state_collecting a) (state_distributing a) LACP_STATE_OPERATIONAL_PARTNER LACP_STATE_NOT_EXPIRED)
    a 0.

Lemma response_ok port sys req : lacp_ok req -> canonical MAC sys -> 0 <= port < 65536 -> lacp_ok (response port sys req).
Proof.
  intros [_ Ha _ _] Hs Hp. constructor; [done| |done|done]. destruct Ha as [_ H1 H2 H3 H4 Hf].
  constructor; cbn; [done|done|done|done|by apply in_width_2|]. unfold flags in Hf. cbn in Hf.
  rewrite !andb_true_iff in Hf |- *. naive_solver.
Qed.

Lemma create_response dp port hw sys req : lacp_ok req -> canonical MAC SLOW_PROTOCOL_MULTICAST -> canonical MAC hw -> canonical MAC sys ->
  0 <= port < 65536 -> ports dp !! port = Some hw -> ports dp !! OFPP_LOCAL = Some sys ->
  exists data, _create_response e X dp port req = Ok data /\ forall fuel, (3 <= fuel)%nat ->
    packet (with_slow X) fuel data Cethernet
    = Some (Ok [Header (Peth (Ethernet.Mk SLOW_PROTOCOL_MULTICAST hw ETH_TYPE_SLOW)); hlacp X (response port sys req)]).
Proof.
  intros Hr Hm Hh Hs Hp Eh Es. pose proof (response_ok port sys req Hr Hs Hp) as Hl.
  destruct (lacp_frame_decodes e X _ hw _ Hm Hh Hl) as (w & Hw & Hd). exists w. split; [|done].
  unfold _create_response, _create_lacp, new. rewrite Eh, Es. cbn [or_raise mbind res_bind].
  pose proof (io_flags _ (lo_actor _ Hl)) as F1. pose proof (io_flags _ (lo_partner _ Hl)) as F2. cbn [actor partner response] in F1, F2.
  rewrite F1. cbn [py_assert mbind res_bind].
  change (flags (MkInfo (system_priority (actor req)) _ _ _ _ _ _ _ _ _ _ _ _)) with (flags (actor req)). rewrite F2. cbn [py_assert mbind res_bind].
  replace (MkLacp _ _ _ _) with (response port sys req) by (unfold response; by destruct (actor req)). by rewrite Hw.
Qed.

Lemma answer_run dp port req src same s mt res : match_of_kwargs (flow_kwargs src port) = Ok mt -> _create_response e X dp port req = Ok res ->
  answer dp port req src same s = (Ok tt, MkLib (_bonds s) (out s ++ (if same then [] else [SendFlowMod (id dp) (lacp_flow mt (idle_timeout req))])
    ++ [SendPacketOut (id dp) (PacketOut.Mk (Some OFP_NO_BUFFER) port (Some [Action.OFPActionOutput OFPP_IN_PORT OFPCML_MAX]) (Some res))])).
Proof.
  intros Hm Hr. unfold answer, _add_flow_v1_2, mbind, stm_bind, lift_res, emit, modify, mret, stm_ret. rewrite Hr.
  destruct same; [done|]. rewrite Hm. cbn [_bonds out]. by rewrite <- app_assoc.
Qed.

(** *** The status of slaves *)

(** What the observers were told last about a port. *)
Definition tell (d p : Z) (b : bool) (x : effect) : bool :=
  match x with
  | EventSlaveStateChanged d' p' b' => if bool_decide (d = d' /\ p = p') then b' else b
  | _ => b
  end.
Definition notified (d p : Z) (l : list effect) : bool := foldl (tell d p) false l.

Definition slave_ok (x : slave) : Prop :=
  x = MkSlave false 0 \/ x = MkSlave true SHORT_TIMEOUT_TIME \/ x = MkSlave true LONG_TIMEOUT_TIME.

Definition status (s : lib) : Prop := forall d p x, _get_slave (_bonds s) d p = Some x ->
  slave_ok x /\ notified d p (out s) = enabled x.

Lemma notified_app d p l x : notified d p (l ++ [x]) = tell d p (notified d p l) x.
Proof. unfold notified. by rewrite foldl_app. Qed.

Lemma marked_status d p req s : status s -> status (marked d p req s).
Proof.
  intros H d' p' x. unfold marked. cbn [_bonds out]. rewrite get_update. unfold _get_slave_enabled.
  case_decide as Hc.
  - destruct Hc as [-> ->]. destruct (_get_slave (_bonds s) d p) as [y|] eqn:E; [|done]. intros [= <-]. split.
    + unfold slave_ok, idle_timeout. destruct (_ =? _); naive_solver.
    + destruct (H _ _ _ E) as [_ Hn]. destruct (enabled y); [by rewrite app_nil_r|]. rewrite notified_app. cbn. by rewrite bool_decide_true.
  - intros E. destruct (H _ _ _ E) as [Hx Hn]. split; [done|]. destruct (match _ with Some _ => _ | None => _ end); [by rewrite app_nil_r|].
    rewrite notified_app. cbn. by rewrite bool_decide_false.
Qed.

Lemma quiet_emit x s : (forall d p b, tell d p b x = b) -> status s -> status (MkLib (_bonds s) (out s ++ [x])).
Proof. intros Hx H d p y E. destruct (H d p y E) as [H1 H2]. split; [done|]. cbn [out]. by rewrite notified_app, Hx. Qed.

Lemma answer_status dp port req src same s : status s -> status (answer dp port req src same s).2.
Proof.
  intros H. unfold answer, _add_flow_v1_2. unfold mbind, stm_bind, lift_res, emit, modify, mret, stm_ret.
  assert (Hr : forall s, status s -> status (match _create_response e X dp port req with
    | Ok data => (Ok (), MkLib (_bonds s) (out s ++ [SendPacketOut (id dp) (PacketOut.Mk (Some OFP_NO_BUFFER) port
        (Some [Action.OFPActionOutput OFPP_IN_PORT OFPCML_MAX]) (Some data))])) | Err x => (Err x, s) end).2)
    by (intros s' Hs; destruct (_create_response _ _ _ _ _); [by apply quiet_emit|done]).
  destruct same; [by apply (Hr s)|]. destruct (match_of_kwargs _) as [m|x]; [|done].
  by apply (Hr (MkLib _ _)), quiet_emit.
Qed.

Lemma removed_status d p s : status s ->
  status (MkLib (update_slave (fun _ => MkSlave false 0) (_bonds s) d p) (out s ++ [EventSlaveStateChanged d p false])).
Proof.
  intros H d' p' x. cbn [_bonds out]. rewrite get_update, notified_app. cbn [tell]. case_decide as Hc.
  - destruct Hc as [-> ->]. destruct (_get_slave _ _ _); [|done]. intros [= <-]. rewrite bool_decide_true by done. split; [by left|done].
  - intros E. rewrite bool_decide_false by done. by apply H.
Qed.

Lemma flow_removed_status dp m s : status s -> status (flow_removed_handler dp m s).2.
Proof.
  intros H. unfold flow_removed_handler, _set_slave_enabled, _set_slave_timeout, emit. unfold mbind, stm_bind, lift_res, modify, mret, stm_ret.
  destruct (field_int m "in_port") as [port|x]; [|done]. destruct (field_int m "eth_type") as [ty|x]; [|done].
  destruct (negb _); [done|]. cbn [snd _bonds out]. rewrite update_update. by apply removed_status.
Qed.

Lemma packet_in_status fuel dp m data s r s' : packet_in_handler e X fuel dp m data s = Some (r, s') -> status s -> status s'.
Proof.
  unfold packet_in_handler. destruct (packet _ _ _ _) as [[pkt|x]|]; [|intros [= <- <-]; done|done].
  intros H Hs. apply (f_equal (fun o => default s (snd <$> o))) in H. cbn in H. subst s'. unfold mbind, stm_bind, lift_res.
  destruct (omap _ _) as [|l []]; [by apply quiet_emit| |done]. destruct (omap _ _) as [|h []]; [done| |done].
  destruct (field_int _ _) as [port|x]; [|done]. rewrite do_lacp_split. by apply answer_status, marked_status.
Qed.

(** Nothing is up before the first event. *)
Definition fresh (s : lib) : Prop := out s = [] /\ forall d p x, _get_slave (_bonds s) d p = Some x -> x = MkSlave false 0.

Lemma get_app b1 b2 d p : _get_slave (b1 ++ b2) d p = match _get_slave b1 d p with Some x => Some x | None => _get_slave b2 d p end.
Proof.
  induction b1 as [|[d0 ifs] b1 IH]; cbn [_get_slave app]; [done|]. by destruct (if d0 =? d then ifs !! p else None).
Qed.

Lemma add_fresh d l s : fresh s -> fresh (add d l s).2.
Proof.
  intros [Ho Hb]. unfold add, mbind, stm_bind, lift_res, modify. destruct (py_assert _); [|done]. cbn [snd]. split; [done|].
  intros d' p x. cbn [_bonds]. rewrite get_app. destruct (_get_slave (_bonds s) d' p) eqn:E; [by intros [= <-]; eapply Hb|].
  cbn [_get_slave]. destruct (d =? d'); [|done]. destruct (list_to_map _ !! p) as [y|] eqn:Ey; [|done]. intros [= <-].
  apply elem_of_list_to_map_2, list_elem_of_In, in_map_iff in Ey as (q & [= _ <-] & _). done.
Qed.

Lemma configured_fresh bonds s r s' : fresh s -> iterM (fun b => add b.1 b.2) bonds s = (r, s') -> fresh s'.
Proof.
  revert s. induction bonds as [|b bonds IH]; intros s Hs; cbn [iterM]; [by intros [= <- <-]|].
  unfold mbind, stm_bind. pose proof (add_fresh b.1 b.2 s Hs) as Ha. destruct (add b.1 b.2 s) as [[[]|x] s1]; cbn [snd] in Ha.
  - by apply IH.
  - by intros [= <- <-].
Qed.

Lemma reachable_status fuel s : reachable e X fuel s -> status s.
Proof.
  induction 1 as [bonds r s H|s ev r s' _ IH H].
  - destruct (configured_fresh bonds init r s ltac:(by split) H) as [Ho Hb]. intros d p x E. rewrite (Hb d p x E), Ho. split; [by left|done].
  - destruct ev as [dp m data|dp m]; cbn [handle] in H; [by eapply packet_in_status|].
    injection H as H. pose proof (flow_removed_status dp m s IH) as Hs. by rewrite H in Hs.
Qed.

End Library.
End LacpFacts.

(** ** Claims *)

Module LacpClaims.
Import Lacp LacpLib LacpFacts.

Section Claims.
Context `{C : AddrConv} `{I : IntConv} `{!AddrConvLaws C} (e : endian) (X : Others).

(** C18: A packet of a partner, from its bytes to the answer: the slave of the port it arrives
    at is up afterwards, with the timeout the partner asks for, and no other slave has
    changed; the observers are told if it was down; a flow with that idle timeout is
    entered if the timeout has changed; and the bytes of the answer decode to a packet whose
    partner is the actor of the one received. *)
Theorem lacp_exchange (s : lib) (dp : datapath) (m : OFPMatch) (req : lacp) (src hw sys : string) (port : Z) (fuel : nat)
    (Hreq : lacp_ok req) (Hmul : canonical MAC SLOW_PROTOCOL_MULTICAST) (Hsrc : canonical MAC src)
    (Hhw : canonical MAC hw) (Hsys : canonical MAC sys) (Hm : field_int m "in_port" = Ok port) (Hport : 0 <= port < 65536)
    (Eh : ports dp !! port = Some hw) (Es : ports dp !! OFPP_LOCAL = Some sys) (Hf : (3 <= fuel)%nat) :
  exists data its s' mt res,
    Packet.serialize e (with_slow X) [Header (Peth (Ethernet.Mk SLOW_PROTOCOL_MULTICAST src ETH_TYPE_SLOW)); hlacp X req] = Ok (data, its)
    /\ packet_in_handler e X fuel dp m data s = Some (Ok tt, s')
    /\ (forall d p, _get_slave (_bonds s') d p
         = if decide (d = id dp /\ p = port) then (fun _ => MkSlave true (idle_timeout req)) <$> _get_slave (_bonds s) d p
           else _get_slave (_bonds s) d p)
    /\ match_of_kwargs (flow_kwargs src port) = Ok mt
    /\ out s' = out s ++ (if _get_slave_enabled (id dp) port s then [] else [EventSlaveStateChanged (id dp) port true])
         ++ (if idle_timeout req =? _get_slave_timeout (id dp) port s then [] else [SendFlowMod (id dp) (lacp_flow mt (idle_timeout req))])
         ++ [SendPacketOut (id dp) (PacketOut.Mk (Some OFP_NO_BUFFER) port (Some [Action.OFPActionOutput OFPP_IN_PORT OFPCML_MAX]) (Some res))]
    /\ packet (with_slow X) fuel res Cethernet
       = Some (Ok [Header (Peth (Ethernet.Mk SLOW_PROTOCOL_MULTICAST hw ETH_TYPE_SLOW)); hlacp X (response port sys req)])
    /\ partner (response port sys req) = actor req.
Proof.
  destruct (lacp_frame_decodes e X _ src req Hmul Hsrc Hreq) as (data & Hd & Hp). specialize (Hp fuel Hf).
  destruct (flow_match src port Hsrc ltac:(lia)) as (mt & Hmt & _ & _).
  destruct (create_response e X dp port hw sys req Hreq Hmul Hhw Hsys Hport Eh Es) as (res & Hr & Hres).
  eexists data, _, _, mt, res. split; [exact Hd|]. split.
  { unfold packet_in_handler. rewrite Hp. f_equal. unfold mbind, stm_bind, lift_res at 1. cbn [omap list_omap lacp_of ethernet_of hlacp].
    unfold lift_res. rewrite Hm, do_lacp_split, (answer_run e X dp port req src _ _ mt res Hmt Hr). reflexivity. }
  cbn [_bonds out marked]. split; [intros d p; rewrite get_update; case_decide as Hc; [by destruct Hc as [-> ->]|done]|].
  split; [done|]. split; [by rewrite <- app_assoc|]. split; [by apply Hres|done].
Qed.

(** C19: In every state that a configured library reaches, whatever packets and removed flows
    it handles and however the handlers end, a slave is down without a timeout, or up with
    one of the two timeouts of the protocol, and its status is the last thing that the
    observers were told about its port. *)
Theorem slave_status_invariant (fuel : nat) (s : lib) (d p : Z) (x : slave)
    (Hs : reachable e X fuel s) (Hx : _get_slave (_bonds s) d p = Some x) :
  slave_ok x /\ notified d p (out s) = enabled x.
Proof. by apply (reachable_status e X fuel s Hs). Qed.

(** The entry that is removed when a partner falls silent is the one that its packets have
    entered: its match leads the library back to the port, whose slave goes down. *)
Theorem silent_partner_goes_down (s : lib) (dp : datapath) (src : string) (port : Z)
    (Hsrc : canonical MAC src) (Hport : 0 <= port < 65536) :
  exists mt s', match_of_kwargs (flow_kwargs src port) = Ok mt
    /\ flow_removed_handler dp mt s = (Ok tt, s')
    /\ (forall d p, _get_slave (_bonds s') d p
         = if decide (d = id dp /\ p = port) then (fun _ => MkSlave false 0) <$> _get_slave (_bonds s) d p else _get_slave (_bonds s) d p)
    /\ out s' = out s ++ [EventSlaveStateChanged (id dp) port false].
Proof.
  destruct (flow_match src port Hsrc ltac:(lia)) as (mt & Hmt & Hi & Ht). eexists mt, _. split; [done|]. split.
  { unfold flow_removed_handler, mbind, stm_bind, lift_res. rewrite Hi, Ht. reflexivity. }
  cbn [_bonds out]. split; [|done]. intros d p. rewrite update_update, get_update. case_decide as Hc; [by destruct Hc as [-> ->]|done].
Qed.

(** A packet at a port that is in no bond is treated as the first one every time: the
    observers are told that the slave is up and a flow is entered. *)
Theorem unknown_port_flaps (s : lib) (dp : datapath) (req : lacp) (src : string) (port : Z) (mt : OFPMatch) (res : bytes)
    (Hno : _get_slave (_bonds s) (id dp) port = None)
    (Hmt : match_of_kwargs (flow_kwargs src port) = Ok mt) (Hres : _create_response e X dp port req = Ok res) :
  exists s', _do_lacp e X dp port req src s = (Ok tt, s') /\ _bonds s' = _bonds s
    /\ exists sent, out s' = out s ++ [EventSlaveStateChanged (id dp) port true; SendFlowMod (id dp) (lacp_flow mt (idle_timeout req)); sent].
Proof.
  eexists. rewrite do_lacp_split, (answer_run e X dp port req src _ _ mt res Hmt Hres). split; [reflexivity|]. cbn [_bonds out marked].
  unfold _get_slave_enabled, _get_slave_timeout. rewrite Hno. split; [apply update_same; by rewrite Hno|].
  replace (idle_timeout req =? 0) with false by (unfold idle_timeout; by destruct (LACP_STATE_SHORT_TIMEOUT =? _)). eexists. rewrite <- app_assoc. reflexivity.
Qed.

(** A frame of the slow protocols that says it is LACP and has not exactly the length of a
    packet makes the handler raise. *)
Theorem malformed_lacp_raises (s : lib) (dp : datapath) (m : OFPMatch) (h : Ethernet.ethernet) (we rest : bytes) (fuel : nat)
    (Hd : canonical MAC (Ethernet.dst h)) (Hs : canonical MAC (Ethernet.src h)) (Ht : Ethernet.ethertype h = ETH_TYPE_SLOW)
    (He : Ethernet.serialize h = Ok we) (Hlen : length rest <> 109%nat) (Hf : (3 <= fuel)%nat) :
  packet_in_handler e X fuel dp m (we ++ SLOW_SUBTYPE_LACP :: rest) s = Some (Err AssertionError, s).
Proof.
  assert (Hp : forall n, parse_cls (with_slow X) n Cslow (SLOW_SUBTYPE_LACP :: rest) = Some (Err AssertionError)).
  { intros n. cbn [parse_cls other_parser with_slow]. rewrite decide_True by done. unfold slow_parser. fmt_eval.
    change (funpack_from _ (SLOW_SUBTYPE_LACP :: rest) 0) with (@Ok (list pyval) [VInt 1]). cbn [mbind res_bind Z.eqb SLOW_SUBTYPE_LACP Pos.eqb].
    unfold lacp_parser. change _ALL_PACK_LEN with 110%nat. cbn [length].
    replace (110 =? S (length rest))%nat with false by (symmetry; apply Nat.eqb_neq; lia). reflexivity. }
  unfold packet_in_handler. destruct fuel as [|[|[|fuel]]]; try lia. rewrite packet_nonempty by (intros [_ ?]%app_eq_nil; done).
  rewrite (parse_loop_step (with_slow X) (S (S fuel)) Cethernet _ [] (Peth h) (Some Cslow) (Some (SLOW_SUBTYPE_LACP :: rest)) 14);
    [|cbn [parse_cls lift]; rewrite (Ethernet.ethernet_parse_serialize _ _ _ Hd Hs He), Ht; done|done|done].
  cbn [Packet.parse_loop default]. by rewrite Hp.
Qed.

(** A removed flow without an input port in its match, which another application may have
    entered, makes the handler raise. *)
Theorem foreign_flow_raises (s : lib) (dp : datapath) (m : OFPMatch) (Hm : match_dict (_fields2 m) !! "in_port"%string = None) :
  flow_removed_handler dp m s = (Err KeyError, s).
Proof. unfold flow_removed_handler, field_int, match_getitem, mbind, stm_bind, lift_res. by rewrite Hm. Qed.

End Claims.
(** *** A concrete exchange *)

(** Addresses are their bytes, except the multicast address. *)
#[local] Instance akind_eq_dec : EqDecision akind.
Proof. solve_decision. Defined.

Definition multicast : bytes := [1; 0x80; 0xc2; 0; 0; 2].
Definition conv : AddrConv := {|
  bin_to_text k b := if bool_decide (k = MAC /\ b = multicast) then Ok SLOW_PROTOCOL_MULTICAST else bin_to_text (AddrConv := RawConv.conv) k b;
  text_to_bin k t := if bool_decide (k = MAC /\ t = SLOW_PROTOCOL_MULTICAST) then Ok multicast else text_to_bin (AddrConv := RawConv.conv) k t |}.

Lemma lacp_conv_laws : AddrConvLaws conv.
Proof.
  split; cbn [bin_to_text text_to_bin conv].
  - intros k t b. case_bool_decide as H; [destruct H as [-> ->]; intros [= <-]; split; [done|solve_bytes_ok]|apply RawConv.laws].
  - intros k b Hl Hb. case_bool_decide as H; [destruct H as [-> ->]; by exists SLOW_PROTOCOL_MULTICAST|].
    destruct (@bin_to_text_ok _ RawConv.laws k b Hl Hb) as (t & H1 & H2). exists t. split; [done|].
    rewrite bool_decide_false; [done|]. intros [-> ->]. discriminate.
Qed.

Definition mac_n (n : Z) : string := RawConv.to_string [2; 0; 0; 0; 0; n].
Definition partner_info (n : Z) : info := MkInfo 1 (mac_n n) 7 255 n 1 1 1 0 0 0 1 0.
Definition request : lacp := MkLacp 1 (partner_info 5) (partner_info 6) 0.
Definition bond_switch : datapath := MkDatapath 1 (<[1 := mac_n 1]> (<[2 := mac_n 2]> (<[OFPP_LOCAL := mac_n 9]> ∅))).
Definition bonded : lib := (add 1 [1; 2] init).2.
Definition at_port (n : Z) : OFPMatch := MkMatch Wildcards_init Flow_init [] [("in_port"%string, Plain (Some (UInt n)))] OFPMT_OXM None false.

Lemma multicast_canonical : canonical (H := conv) MAC SLOW_PROTOCOL_MULTICAST.
Proof. by exists multicast. Qed.

Lemma mac_canonical n : 0 <= n < 256 -> canonical (H := conv) MAC (mac_n n).
Proof.
  intros Hn. assert (Hb : bytes_ok [2; 0; 0; 0; 0; n]) by (repeat constructor; unfold byte_ok; lia).
  destruct (RawConv.canonical_raw MAC [2; 0; 0; 0; 0; n] eq_refl Hb) as (b & H1 & H2). exists b. cbn [text_to_bin bin_to_text conv].
  rewrite bool_decide_false by (intros [_ ?]; discriminate). rewrite bool_decide_false; [done|]. intros [_ ->]. discriminate.
Qed.

Lemma request_ok : lacp_ok (C := conv) request.
Proof. constructor; [done| | |done]; (constructor; [|done|done|done|done|done]); eexists; split; vm_compute; reflexivity. Qed.

Lemma lacp_exchange_witness : exists data s',
  packet_in_handler (C := conv) (I := MatchClaims.raw_int) Little PacketClaims.no_others 3 bond_switch (at_port 2) data bonded = Some (Ok tt, s')
  /\ _get_slave (_bonds s') 1 2 = Some (MkSlave true SHORT_TIMEOUT_TIME) /\ length (out s') = 3%nat.
Proof.
  destruct (lacp_exchange (C := conv) (I := MatchClaims.raw_int) (AddrConvLaws0 := lacp_conv_laws) Little PacketClaims.no_others bonded bond_switch (at_port 2)
    request (mac_n 5) (mac_n 2) (mac_n 9) 2 3 request_ok multicast_canonical (mac_canonical 5 ltac:(lia)) (mac_canonical 2 ltac:(lia))
    (mac_canonical 9 ltac:(lia)) ltac:(vm_compute; reflexivity) ltac:(lia) ltac:(vm_compute; reflexivity) ltac:(vm_compute; reflexivity) ltac:(lia))
    as (data & its & s' & mt & res & _ & H1 & H2 & _ & H3 & _).
  exists data, s'. split; [exact H1|]. split; [rewrite H2; vm_compute; reflexivity|]. rewrite H3.
  replace (_get_slave_enabled _ _ _) with false by (vm_compute; reflexivity).
  replace (_ =? _) with false by (vm_compute; reflexivity). reflexivity.
Defined.

Definition request_frame : bytes :=
  match Packet.serialize (C := conv) Little (with_slow (C := conv) PacketClaims.no_others)
          [Header (Peth (Ethernet.Mk SLOW_PROTOCOL_MULTICAST (mac_n 5) ETH_TYPE_SLOW)); hlacp (C := conv) PacketClaims.no_others request] with
  | Ok (data, _) => data
  | Err _ => []
  end.
Definition up : lib :=
  match packet_in_handler (C := conv) (I := MatchClaims.raw_int) Little PacketClaims.no_others 3 bond_switch (at_port 2) request_frame bonded with
  | Some (_, s) => s
  | None => bonded
  end.

Lemma up_reachable : reachable (C := conv) (I := MatchClaims.raw_int) Little PacketClaims.no_others 3 up.
Proof.
  apply (reachable_step _ _ 3 bonded (PacketIn bond_switch (at_port 2) request_frame) (Ok tt) up);
    [by apply (reachable_configured _ _ 3 [(1, [1; 2])] (Ok tt))|vm_compute; reflexivity].
Qed.

Lemma slave_status_invariant_witness :
  slave_ok (MkSlave true SHORT_TIMEOUT_TIME) /\ notified 1 2 (out up) = true.
Proof.
  exact (slave_status_invariant (C := conv) (I := MatchClaims.raw_int) Little PacketClaims.no_others 3 up 1 2
    (MkSlave true SHORT_TIMEOUT_TIME) up_reachable ltac:(vm_compute; reflexivity)).
Defined.

Lemma silent_partner_goes_down_witness : exists mt s',
  match_of_kwargs (C := conv) (I := MatchClaims.raw_int) (flow_kwargs (mac_n 5) 2) = Ok mt
  /\ flow_removed_handler bond_switch mt up = (Ok tt, s') /\ _get_slave (_bonds s') 1 2 = Some (MkSlave false 0).
Proof.
  destruct (silent_partner_goes_down (C := conv) (I := MatchClaims.raw_int) (AddrConvLaws0 := lacp_conv_laws) up bond_switch (mac_n 5) 2
    (mac_canonical 5 ltac:(lia)) ltac:(lia)) as (mt & s' & H1 & H2 & H3 & _).
  exists mt, s'. split; [exact H1|]. split; [exact H2|]. rewrite H3. vm_compute. reflexivity.
Defined.

End LacpClaims.
